(* ===== verification/_CoqProject ===== *)
-Q . S2P
Prelude.v
Dpa.v
Backends.v
ObjectStore.v
Wal.v
EventBus.v
Registry.v
Persist.v
DpaObjects.v
Transaction.v
Antiflap.v
StateStore.v
Pipeline.v
PassDelta.v
Reconciler.v
Netlink.v
Zapi.v
ZapiMapper.v
CStr.v
TextBuf.v
Compat.v
Observability.v
ZebraSession.v
Huffman.v
Hpack.v
Proto.v
PathText.v
ProtoCodec.v
Ha.v
Security.v
VppWire.v
VppMsgs.v
VppApi.v
VppBackend.v
VppStat.v
GnmiSub.v
ModelRoutes.v
Conformance.v
FibBridge.v
GnmiRest.v
ModelPaths.v
Fuzz.v
GenPaths.v
IfaceLookup.v
Netconf.v
Cli.v
Http2.v
GnmiServer.v
GrpcServer.v
Mgrd.v
System.v
