(* ===== verification/Prelude.v ===== *)
(** * DANOS-Open: verification of the control plane

    DANOS-Open is a network operating system control plane written in C.  A
    route or an interface reaches it from the routing daemon (danos-fib), from
    a gNMI, REST, NETCONF or command line client (danos-mgmt), or from an old
    configuration file (danos-compat).  It becomes an object of the desired
    store (danos-core object registry).  Every change is logged and replayed
    after a restart (write-ahead log, persistence), announced on the event bus,
    where subscriptions pick it up, and marks the programming pipeline dirty.
    The reconciler then runs a programming pass that resolves routes through
    their next-hop groups, drives a dataplane backend (danos-vpp or
    danos-netlink) and records in a ledger what it programmed.  The daemon
    (danos-mgrd) wires the parts together and exposes metrics
    (danos-observability).

    ** Files

    Shared:
    - [Prelude]: machine integers, byte order, memory blocks, the [CStruct]
      class of C structures (LP64, little endian, zero padding) with its laws,
      and the shared lemmas, tactics and hint databases.
    - [CStr]: C strings and the functions of the C library the sources use on
      them, decimal printing and parsing, an allocator with scripted answers.
    - [TextBuf]: a buffer filled by [off += snprintf(buf + off, n - off, ...)],
      where the offset can pass the end.

    Core library (danos-dpa, danos-core):
    - [Dpa] (danos-dpa/include/danos/dpa.h): status codes, object types, one
      record per object structure with its layout; one [CStructLaws] instance
      each says that reading back what was laid out gives the structure.
    - [Backends] (dpa_errors.c, dpa_version.c, dpa_capability.c,
      capability_registry.c): the backend registry and the capability queries.
    - [ObjectStore] (object_registry.h, the table part of object_registry.c):
      the hash table of chains and its view as a finite map ([store_map]).
    - [Wal] (wal.h, wal.c): the operating system as files plus a stream of
      answers, records, CRC-32, append, sync, checkpoint and replay.
    - [EventBus] (event_bus.h, event_bus.c): subscriptions and deliveries.
    - [Registry] (object_registry.c and the logging half of persist.c): the
      state of the library ([core]) and the object calls with everything they
      do: table, allocations, log, dirty mark, event.
    - [Persist] (persist.c): enable, disable, recovery through the replay
      table, checkpoint.
    - [DpaObjects] (dpa_objects.c): the typed calls on the default store.
    - [Transaction] (transaction.h, transaction.c): the manager, the records
      and the transaction state machine.
    - [Antiflap] (antiflap.h, antiflap.c): flap damping.
    - [StateStore] (state_store.h, state_store.c): desired, programmed and
      operational state and their difference.
    - [Pipeline] (backend_ops.h, backend_ops.c): next-hop resolution, the
      programming pass, the ledger, sweep and forget, over any backend.
    - [PassDelta]: what one pass does when the desired state has exactly one
      new route, for the theorems about a stream of announcements.
    - [Reconciler] (reconciler.h, reconciler.c): one reconciliation and the
      wake-ups of the reconcile thread.

    Backends:
    - [Netlink] (danos_netlink.c): the in-memory tables, the rtnetlink messages
      and the kernel's answers, as a backend of [Pipeline].
    - [VppWire], [VppMsgs], [VppApi] (vpp_wire.c, vpp_msgs.c, vpp_api.c): the
      message buffer and table, the encoders, the client with its handshake,
      transactions and reconnection.
    - [VppBackend] (vpp_adapter.c, vpp_mapper.c, vpp_capability.c and the
      transactions of vpp_msgs.c): VPP as a backend of [Pipeline].
    - [VppStat] (vpp_stat.c and the statistics of vpp_api.c): counters in a
      shared memory segment that changes while it is read.

    Routing input (danos-fib):
    - [Zapi] (zapi.h, zapi_parse.c): framing, payload coding, FRR routes.
    - [ZapiMapper] (zapi_mapper.c): the message handlers.
    - [ZebraSession] (zebra_session.c): connecting, registering, receiving.

    Northbound (danos-mgmt):
    - [Huffman], [Hpack] (hpack_huffman.c, hpack.c): header compression.
    - [Proto], [PathText], [ProtoCodec] (gnmi_proto.c): the protobuf reader,
      writer and messages, textual paths, and the round trips.
    - [Http2] (the transport of gnmi_grpc.c): frames, flow control, messages.
    - [GnmiServer], [GrpcServer] (the rest of gnmi_grpc.c): the RPC handlers
      and the serving of a connection.
    - [ModelRoutes] (model_routes.c): a northbound route as next hop, group
      and route object.
    - [ModelPaths] (model_paths.c, model_paths_gen.inc): paths to leaves.
    - [GnmiSub], [GnmiRest] (gnmi.c): subscriptions, and the REST handlers.
    - [IfaceLookup], [Netconf], [Cli] (netconf.c, cli.c): the two other
      clients, and the lookup by name they share.

    Around them:
    - [Ha] (bfd.c, vrrp.c, supervisor.c), [Security] (rbac.c, copp.c,
      audit.c), [Compat] (cli_translator.c, config_import.c), [Observability]
      (prometheus.c, prom_server.c, log.c).
    - [Mgrd] (mgrd.c and the listener of gnmi_grpc.c): the daemon.
    - [System]: the daemon's runs as a step relation, with crashes and
      restarts, and the invariant they keep.

    Programs beside the daemon:
    - [FibBridge] (danos-test/fib_live_bridge.c): the program that feeds VPP
      from a zebra stream, composed of [ZebraSession], [Transaction],
      [ZapiMapper], [Pipeline] and [VppBackend].
    - [Conformance] (danos-test/conformance): the cases and their runner.
    - [Fuzz] (danos-test/fuzz/fuzz_decoders.c): the fuzz harness.
    - [GenPaths] (tools/gen-model-paths): the generator of the path matchers.

    ** How the code is modelled

    A C integer is a [Z] and wraps where the code computes with it ([u32],
    [u64], ...).  A memory block is a list of bytes, a structure a record, a
    pointer that may be null an [option].  A [char] array is the C string it
    holds.  A [double] is an IEEE number of the standard library's [SpecFloat].
    A function on global state takes the state and returns the new one.  A
    function keeps the name it has in the source, and every branch with its
    status.

    In the core library every allocation, and every call that writes a file,
    asks the environment, a list of answers ([os_env]); an answer can refuse,
    or accept part of a write.  The empty list grants everything.  Sockets are
    scripts: the bytes the peer sends in pieces of any size, interruptions, the
    answers to [send], [connect] and [poll].  Theorems about failures quantify
    over the answers, theorems about what a call achieves say that they grant
    everything.  Clocks are arguments.  Backends are a record of optional
    functions over an arbitrary state, so their results are unconstrained;
    event callbacks are recorded as deliveries.  The segment of [VppStat] is a
    function from the number of loads so far to its contents, so that a writer
    can run between any two loads; the loads of the reader happen in program
    order, and each sees the memory of its moment.  [inet_pton] and [inet_ntop] for IPv6 are
    the class [inet6_lib], with their documented round trip in [Inet6Laws].

    Locks are left out: each call is one atomic step, and threads are sequences
    of such steps.  The only lock whose failure the code handles, the timed
    write lock of a commit, is an answer of the environment.  Undefined
    behaviour (a store handle that is not live, an access outside an array) is
    [DANOS_ERR_INTERNAL] in the core library, which no modelled function
    returns otherwise, and [Fault] or [None] elsewhere.  The HPACK and Huffman
    decoders, the reader of textual paths and the path resolver work on lists
    and have no such outcome.  Uninitialised stack variables are zeros, or an
    argument where they are read.

    Most loops are folds or structural recursions over the data.  Fuel occurs
    where they are not: replay, the file readers of [Compat] and [Cli], the
    drain of a notification ring and the sends of a hello frame run with the
    length of what they consume, which is enough since each turn consumes some
    of it; the decoders of [Proto] report [Spin] when the fuel is used up, and
    are shown to need no more than the length of their message (the handlers
    give 2^20, more than the largest message); the loops of a connection
    ([Http2], [GrpcServer]) take fuel as an argument, and the theorems give a
    number from which on the result is the same; the main loop of [FibBridge]
    runs over the list of its rounds and says whether it has ended; [VppWire.buf_grow] returns
    [None] only where the source does not return.

    ** What is shown

    Object registry: the calls refine operations on a finite map, on every
    branch including failing allocations; what is written is read back; each
    change marks the pipeline dirty and publishes one event.

    Durability: appended records replay in order; a log cut anywhere replays
    to the records that are complete; a sequence of persistable operations
    survives a restart, so that recovery rebuilds the map.  Also what does
    not survive: a checkpoint forgets, records behind a torn tail are lost,
    objects with ids above 32 bits are not logged.

    Objects: every structure survives the store; route keys separate what they
    should and confuse the address families; route dumps list exactly the
    routes asked for.

    Transactions: every reachable history follows the documented state
    machine; the active count is exact up to the time-outs that leak; the
    one-call commit takes an open transaction to done, or reports the time-out.

    Programming: a pass without failures brings the ledger in step with the
    desired state and the next pass does nothing; a sweep makes exactly the
    backend calls that withdraw what is no longer desired; the reconcile thread
    runs when it is due and only then, and has no effect when nothing changed.  Also its limits: 256 entries per sweep and per
    forget, duplicate group members cancel in the digest, and deleted objects
    wait for a sweep that the reconciler does not run.

    Backends: after a pass the netlink table holds every desired route, the
    table refines a set, and the kernel messages hold the attributes of the
    route.  A VPP route request arrives with the announced paths; the client
    keeps its invariant, matches replies by context, learns the message table
    of the handshake, doubles its delay.  A counter read from the statistics
    segment is guarded: whatever the writer does, the flag was clear and the
    epoch the same before and after its loads, and when the segment did not
    change between them it is the documented value (combined counters, which
    are read wrongly, excepted).

    Routing input: the frames of a stream are delivered one by one in any
    fragmentation, until a hang-up is reported, which loses the unread ones;
    registration sends exactly the configured frames; FRR route messages
    without next-hop weights decode exactly and within bounds, and announcing
    an IPv4 route installs objects that the pipeline resolves to the announced
    gateways.

    Northbound: header blocks, protobuf messages and textual paths are read
    back as they were written; decoders terminate inside their message, up to
    the lengths that wrap; a gRPC message is reassembled from any frames, and
    what is sent stays within the peer's windows; a Set call that arrives over
    a connection, in any fragmentation, writes exactly the objects of its
    route, and deleting the route removes them.  A subscription delivers the
    events it asked for, the newest ones when it was not polled.  The REST,
    NETCONF and command line clients change exactly the attribute they name.

    Daemon: it comes up on any log with what the log says, keeps a seeded
    configuration over restarts, and answers a scrape with all its metrics at
    the values of that moment.  It ends when a client deletes an interface.
    Through every run of operations, route sets and deletes, reconciler
    wake-ups, scrapes, crashes and restarts the log on disk replays to the
    persistable part of the store.

    Live bridge: from its arguments to its exit status, the routes zebra
    announces in any fragmentation and before it hangs up are what the bridge
    requests from VPP, in order.
    It skips native route commands and fails on a repeated announcement.

    Tests and tools: the conformance suite passes whatever the object calls
    do; no generator of random numbers makes the fuzz campaign fail, because
    its messages cannot have a length that wraps; the checked-in matchers are the
    generator's output, which keeps the brackets of keyed segments.

    Event bus, anti-flap, state store, backend registry, high availability,
    security, compatibility, observability: the functional behaviour of their
    calls, with the bounds of their tables and buffers.

    ** What is not modelled

    The other programs under danos-test are unit, integration and performance
    tests, mocks and scripts, which call the parts above with fixed inputs.
    The header under docs/archive is an older interface that nothing includes.  Output that
    nothing reads (traces, progress messages) is left out.  Signals end the
    daemon's wait and are not modelled further.  Two connections, or a
    connection and the reconciler, are not interleaved inside a call: the
    locks that make the calls atomic are taken as they are. *)

From stdpp Require Import base decidable list list_numbers numbers gmap.
From Stdlib Require Import ZArith Lia.

#[global] Open Scope Z_scope.

(** ** Machine integers

    A C integer of width [w] is a [Z]; the wrap-around of the unsigned types
    is written out where the code computes. *)

Definition u8 (z : Z) : Z := z mod 2 ^ 8.
Definition u16 (z : Z) : Z := z mod 2 ^ 16.
Definition u32 (z : Z) : Z := z mod 2 ^ 32.
Definition u64 (z : Z) : Z := z mod 2 ^ 64.

Definition is_byte (b : Z) : Prop := 0 <= b < 256.
#[export] Instance is_byte_dec b : Decision (is_byte b).
Proof. unfold is_byte. apply _. Defined.
Definition is_u16 (z : Z) : Prop := 0 <= z < 2 ^ 16.
Definition is_u32 (z : Z) : Prop := 0 <= z < 2 ^ 32.
Definition is_u64 (z : Z) : Prop := 0 <= z < 2 ^ 64.

Abbreviation bytes := (list Z).
Abbreviation bytes_ok := (Forall is_byte).

(** C's [bool] stored in one byte. *)
Definition b2z (b : bool) : Z := if b then 1 else 0.
Definition z2b (z : Z) : bool := negb (z =? 0).

(** ** Byte order *)

Fixpoint le_bytes (n : nat) (z : Z) : bytes :=
  match n with
  | O => []
  | S n => z mod 256 :: le_bytes n (z / 256)
  end.

Fixpoint le_val (bs : bytes) : Z :=
  match bs with
  | [] => 0
  | b :: bs => b + 256 * le_val bs
  end.

Definition be_bytes (n : nat) (z : Z) : bytes := rev (le_bytes n z).
Definition be_val (bs : bytes) : Z := le_val (rev bs).

(** The [n] bytes at offset [off] of a memory block. *)
Definition cread (bs : bytes) (off n : nat) : bytes := take n (drop off bs).

Definition zeros (n : nat) : bytes := replicate n 0.

(** [memcpy(buf + off, src, n)] on a block: [off + length src] is inside. *)
Definition cwrite (bs : bytes) (off : nat) (src : bytes) : bytes :=
  take off bs ++ src ++ drop (off + length src) bs.

(** ** Automation *)

Create HintDb danos discriminated.

(** Splits every [if] and [match] scrutinee of the goal, keeping equations. *)
Ltac split_cases :=
  repeat first [ case_match | progress simplify_eq/= ].

Ltac bool_prop :=
  repeat match goal with
  | H : (_ =? _) = true |- _ => apply Z.eqb_eq in H
  | H : (_ =? _) = false |- _ => apply Z.eqb_neq in H
  | H : (_ <? _) = true |- _ => apply Z.ltb_lt in H
  | H : (_ <? _) = false |- _ => apply Z.ltb_ge in H
  | H : (_ <=? _) = true |- _ => apply Z.leb_le in H
  | H : (_ <=? _) = false |- _ => apply Z.leb_gt in H
  | H : (_ >? _) = true |- _ => apply Z.gtb_lt in H
  | H : (_ >? _) = false |- _ => rewrite Z.gtb_ltb in H; apply Z.ltb_ge in H
  | H : _ && _ = true |- _ => apply andb_prop in H; destruct H
  | H : _ || _ = false |- _ => apply orb_false_elim in H; destruct H
  | H : negb _ = true |- _ => apply negb_true_iff in H
  | H : negb _ = false |- _ => apply negb_false_iff in H
  end.

(** ** Generic lemmas *)

Lemma u8_range z : 0 <= u8 z < 256.
Proof. apply Z.mod_pos_bound. lia. Qed.

Lemma u8_idem z : u8 (u8 z) = u8 z.
Proof. apply Zmod_mod. Qed.

Lemma u8_small z : is_byte z -> u8 z = z.
Proof. apply Z.mod_small. Qed.

Lemma u16_range z : is_u16 (u16 z).
Proof. apply Z.mod_pos_bound. lia. Qed.

Lemma u32_range z : is_u32 (u32 z).
Proof. apply Z.mod_pos_bound. lia. Qed.

Lemma u64_range z : is_u64 (u64 z).
Proof. apply Z.mod_pos_bound. lia. Qed.

Lemma u32_small z : is_u32 z -> u32 z = z.
Proof. apply Z.mod_small. Qed.

Lemma u64_small z : is_u64 z -> u64 z = z.
Proof. apply Z.mod_small. Qed.

Lemma u64_add_l a b : u64 (u64 a + b) = u64 (a + b).
Proof. apply Zplus_mod_idemp_l. Qed.

Lemma u64_sub_l a b : u64 (u64 a - b) = u64 (a - b).
Proof. apply Zminus_mod_idemp_l. Qed.

Lemma z2b_b2z b : z2b (b2z b) = b.
Proof. by destruct b. Qed.

Lemma b2z_byte b : is_byte (b2z b).
Proof. destruct b; unfold is_byte, b2z; lia. Qed.

Lemma length_le_bytes n z : length (le_bytes n z) = n.
Proof. revert z. induction n; intros; simpl; [done | by rewrite IHn]. Qed.

Lemma length_be_bytes n z : length (be_bytes n z) = n.
Proof. unfold be_bytes. by rewrite length_rev, length_le_bytes. Qed.

Lemma length_zeros n : length (zeros n) = n.
Proof. apply length_replicate. Qed.

Lemma le_bytes_ok n z : bytes_ok (le_bytes n z).
Proof.
  revert z. induction n; intros z; simpl; constructor; [|done].
  apply Z.mod_pos_bound. lia.
Qed.

Lemma be_bytes_ok n z : bytes_ok (be_bytes n z).
Proof. apply Forall_rev, le_bytes_ok. Qed.

Lemma zeros_ok n : bytes_ok (zeros n).
Proof. apply Forall_replicate. unfold is_byte. lia. Qed.

Lemma le_val_le_bytes n z :
  0 <= z < 256 ^ Z.of_nat n -> le_val (le_bytes n z) = z.
Proof.
  revert z. induction n; intros z Hz; simpl.
  - change (256 ^ Z.of_nat 0) with 1 in Hz. lia.
  - rewrite IHn.
    + pose proof (Z.div_mod z 256). lia.
    + rewrite Nat2Z.inj_succ, Z.pow_succ_r in Hz by lia.
      split; [apply Z.div_pos; lia | apply Z.div_lt_upper_bound; lia].
Qed.

Lemma be_val_be_bytes n z :
  0 <= z < 256 ^ Z.of_nat n -> be_val (be_bytes n z) = z.
Proof.
  intros. unfold be_val, be_bytes. rewrite rev_involutive.
  by apply le_val_le_bytes.
Qed.

Lemma le_val_range bs :
  bytes_ok bs -> 0 <= le_val bs < 256 ^ Z.of_nat (length bs).
Proof.
  induction 1 as [|b bs Hb _ IH]; simpl length; simpl le_val.
  - change (256 ^ Z.of_nat 0) with 1. lia.
  - rewrite Nat2Z.inj_succ, Z.pow_succ_r by lia. unfold is_byte in Hb. lia.
Qed.

Lemma be_val_range bs :
  bytes_ok bs -> 0 <= be_val bs < 256 ^ Z.of_nat (length bs).
Proof.
  intros. unfold be_val. rewrite <- (length_rev bs).
  by apply le_val_range, Forall_rev.
Qed.

Lemma le_bytes_le_val bs :
  bytes_ok bs -> le_bytes (length bs) (le_val bs) = bs.
Proof.
  induction 1 as [|b bs Hb _ IH]; simpl; [done|]. unfold is_byte in Hb.
  rewrite Z.add_comm, Z.mul_comm, Z.div_add_l by lia.
  rewrite (Z.div_small b) by lia. rewrite Z.add_0_r, IH. f_equal.
  rewrite Z.add_comm, Z.mod_add by lia. apply Z.mod_small. lia.
Qed.

(** Reading a structure laid out as a concatenation of fields. *)
Lemma cread_skip (a b : bytes) off n :
  (length a <= off)%nat -> cread (a ++ b) off n = cread b (off - length a) n.
Proof. intros H. unfold cread. by rewrite drop_app_ge. Qed.

Lemma cread_here (a b : bytes) n : length a = n -> cread (a ++ b) 0 n = a.
Proof. intros <-. unfold cread. rewrite drop_0. apply take_app_length. Qed.

Lemma cread_all (a : bytes) n : length a = n -> cread a 0 n = a.
Proof. intros <-. unfold cread. rewrite drop_0. by apply take_ge. Qed.

Lemma cread_eq bs off n : cread bs off n = take n (drop off bs).
Proof. done. Qed.

Lemma length_cread bs off n :
  (off + n <= length bs)%nat -> length (cread bs off n) = n.
Proof. intros. unfold cread. rewrite length_take, length_drop. lia. Qed.

Lemma cread_ok bs off n : bytes_ok bs -> bytes_ok (cread bs off n).
Proof. intros. by apply Forall_take, Forall_drop. Qed.

Lemma length_cwrite bs off src :
  (off + length src <= length bs)%nat -> length (cwrite bs off src) = length bs.
Proof.
  intros. unfold cwrite. rewrite !length_app, length_take, length_drop. lia.
Qed.

Lemma omap_fmap_eq {A B C} (f : A -> option C) (g : A -> B) (f' : B -> option C) (l : list A) :
  (forall x, f x = f' (g x)) -> omap f l = omap f' (g <$> l).
Proof.
  intros H. induction l as [|x l IH]; [done|].
  rewrite fmap_cons. cbn. rewrite H. destruct (f' (g x)); [f_equal|]; apply IH.
Qed.

Lemma least_nat (P : nat -> Prop) `{forall n, Decision (P n)} n :
  P n -> exists m, (m <= n)%nat /\ P m /\ forall i, (i < m)%nat -> ~ P i.
Proof.
  induction n as [n IH] using lt_wf_ind. intros Hn.
  destruct (decide (Exists P (seq 0 n))) as [He|Hno].
  - apply Exists_exists in He as (i & [_ Hi]%elem_of_seq & HP).
    destruct (IH i Hi HP) as (m & ? & ? & ?). exists m. split; [lia|done].
  - exists n. split_and!; [lia|done|]. intros i Hi HP. apply Hno, Exists_exists.
    exists i. rewrite elem_of_seq. split; [lia|done].
Qed.

(** ** Bits *)

Lemma testbit_small z i n : 0 <= z < 2 ^ n -> n <= i -> Z.testbit z i = false.
Proof.
  intros Hz Hi. destruct (decide (z = 0)) as [->|]; [apply Z.bits_0|].
  apply Z.bits_above_log2; [lia|].
  assert (Z.log2 z < n); [apply Z.log2_lt_pow2; lia | lia].
Qed.

Lemma lor_shiftl_add l z c :
  0 <= c < 2 ^ l -> 0 <= l -> Z.lor (Z.shiftl z l) c = z * 2 ^ l + c.
Proof.
  intros Hc Hl. rewrite Z.shiftl_mul_pow2 by lia.
  assert (Hland : Z.land (z * 2 ^ l) c = 0).
  { apply Z.bits_inj'. intros i Hi. rewrite Z.land_spec, Z.bits_0.
    destruct (decide (i < l)).
    - by rewrite Z.mul_pow2_bits_low.
    - rewrite (testbit_small c i l) by lia. apply andb_false_r. }
  by rewrite <- Z.lxor_lor, <- Z.add_nocarry_lxor by done.
Qed.

Lemma lor_shiftl_range n l z c :
  0 <= z < 2 ^ n -> 0 <= c < 2 ^ l -> 0 <= n -> 0 <= l ->
  0 <= Z.lor (Z.shiftl z l) c < 2 ^ (n + l).
Proof.
  intros Hz Hc Hn Hl. rewrite lor_shiftl_add, Z.pow_add_r by lia. nia.
Qed.

Lemma u8_lor_128 v : u8 (Z.lor v 128) = v mod 128 + 128.
Proof.
  assert (0 <= v mod 128 < 128) as Hr by (apply Z.mod_pos_bound; lia).
  assert (E : v mod 128 + 128 = Z.lor (v mod 128) (2 ^ 7)).
  { rewrite Z.lor_comm. change (2 ^ 7) with (Z.shiftl 1 7).
    apply Z.bits_inj'. intros i Hi. rewrite Z.lor_spec.
    replace (v mod 128 + 128) with (v mod 128 + 1 * 2 ^ 7) by lia.
    destruct (Z.lt_trichotomy i 7) as [Hl|[->|Hg]].
    - rewrite Z.shiftl_spec_low by done. rewrite <- (Z.mod_pow2_bits_low (_ + _) 7) by lia.
      rewrite Z.mod_add, Z.mod_pow2_bits_low by lia. done.
    - rewrite Z.testbit_odd, Z.shiftr_div_pow2, Z.div_add, Z.div_small by lia. done.
    - rewrite (testbit_small _ i 8), (testbit_small (Z.shiftl 1 7) i 8), (testbit_small _ i 7)
        by (change (Z.shiftl 1 7) with 128; lia). done. }
  rewrite E. unfold u8. apply Z.bits_inj'. intros i Hi. rewrite Z.lor_spec.
  change 128 with (2 ^ 7). destruct (decide (i < 8)).
  - rewrite Z.mod_pow2_bits_low, Z.lor_spec by lia. destruct (decide (i < 7)).
    + by rewrite Z.mod_pow2_bits_low by lia.
    + assert (i = 7) as -> by lia. by rewrite Z.pow2_bits_true, !orb_true_r by lia.
  - rewrite Z.mod_pow2_bits_high, Z.pow2_bits_false, Z.mod_pow2_bits_high by lia. done.
Qed.

(** ** Groups of seven bits with a continuation bit *)

Lemma septet x :
  0 <= x < 128 ->
  Z.lor x 128 = x + 128 /\ Z.land x 127 = x /\ Z.land x 128 = 0 /\
  Z.land (x + 128) 127 = x /\ Z.land (x + 128) 128 = 128.
Proof.
  intros Hx.
  assert (H : Forall (fun x =>
    Z.lor (Z.of_nat x) 128 = Z.of_nat x + 128 /\ Z.land (Z.of_nat x) 127 = Z.of_nat x /\
    Z.land (Z.of_nat x) 128 = 0 /\ Z.land (Z.of_nat x + 128) 127 = Z.of_nat x /\
    Z.land (Z.of_nat x + 128) 128 = 128) (seq 0 128))
    by (apply (bool_decide_unpack _); vm_compute; exact I).
  rewrite Forall_seq in H. specialize (H (Z.to_nat x) ltac:(lia)).
  by rewrite !Z2Nat.id in H by lia.
Qed.

Lemma land_127 v : Z.land v 127 = v mod 128.
Proof. apply (Z.land_ones v 7). lia. Qed.

Lemma shiftr_7 v : Z.shiftr v 7 = v / 128.
Proof. apply (Z.shiftr_div_pow2 v 7). lia. Qed.

#[export] Hint Resolve le_bytes_ok be_bytes_ok zeros_ok cread_ok b2z_byte : danos.
Create Rewrite HintDb danos_len.
#[export] Hint Rewrite length_le_bytes length_be_bytes length_zeros : danos_len.

(** ** C structures in memory

    [sizeof], the bytes a structure occupies (LP64, little endian, padding
    bytes zero as [memset] leaves them) and the structure a block of bytes
    is read as through a cast. *)

Class CStruct (A : Type) := {
  sizeof : nat;
  to_mem : A -> bytes;
  of_mem : bytes -> A;
  struct_wf : A -> Prop;
}.
#[global] Arguments sizeof _ {_} : assert.
#[global] Arguments to_mem {_ _} _ : simpl never.
#[global] Arguments of_mem {_ _} _ : simpl never.
#[global] Arguments struct_wf {_ _} _ : simpl never.

Class CStructLaws (A : Type) `{CStruct A} := {
  length_to_mem (x : A) : struct_wf x -> length (to_mem x) = sizeof A;
  to_mem_ok (x : A) : struct_wf x -> bytes_ok (to_mem x);
  of_to_mem (x : A) : struct_wf x -> of_mem (to_mem x) = x;
}.

(** Arrays of [w]-byte little-endian integers. *)
Fixpoint le_array (w : nat) (xs : list Z) : bytes :=
  match xs with
  | [] => []
  | x :: xs => le_bytes w x ++ le_array w xs
  end.

Fixpoint le_array_val (w n : nat) (bs : bytes) : list Z :=
  match n with
  | O => []
  | S n => le_val (take w bs) :: le_array_val w n (drop w bs)
  end.

Definition is_uint (w : nat) (z : Z) : Prop := 0 <= z < 256 ^ Z.of_nat w.

Lemma length_le_array w xs : length (le_array w xs) = (w * length xs)%nat.
Proof.
  induction xs as [|x xs IH]; simpl; [lia|].
  rewrite length_app, length_le_bytes, IH. lia.
Qed.

Lemma le_array_ok w xs : bytes_ok (le_array w xs).
Proof.
  induction xs as [|x xs IH]; [constructor|].
  simpl. apply Forall_app. auto using le_bytes_ok.
Qed.

Lemma le_array_val_le_array w n xs :
  length xs = n -> Forall (is_uint w) xs ->
  le_array_val w n (le_array w xs) = xs.
Proof.
  intros <- Hxs. induction Hxs as [|x xs Hx _ IH]; [done|]. simpl.
  rewrite take_app_length', drop_app_length' by (by rewrite length_le_bytes).
  by rewrite IH, le_val_le_bytes.
Qed.

#[export] Hint Resolve le_array_ok : danos.
#[export] Hint Rewrite length_le_array : danos_len.

Lemma bool_mem b : z2b (le_val (le_bytes 1 (b2z b))) = b.
Proof. rewrite le_val_le_bytes; [apply z2b_b2z | apply b2z_byte]. Qed.

Lemma u8_byte v : is_uint 1 v -> [v] = be_bytes 1 v.
Proof. intros Hv. unfold be_bytes. simpl. rewrite Z.mod_small; [done|exact Hv]. Qed.

Lemma be_bytes_2 v : be_bytes 2 v = [u8 (Z.shiftr v 8); u8 v].
Proof. unfold be_bytes. rewrite Z.shiftr_div_pow2 by lia. reflexivity. Qed.

Lemma be_bytes_3 v : be_bytes 3 v = [u8 (Z.shiftr v 16); u8 (Z.shiftr v 8); u8 v].
Proof.
  unfold be_bytes. rewrite !Z.shiftr_div_pow2 by lia. cbn. unfold u8.
  rewrite !Z.div_div by lia. reflexivity.
Qed.

Lemma be_bytes_4 v :
  be_bytes 4 v = [u8 (Z.shiftr v 24); u8 (Z.shiftr v 16); u8 (Z.shiftr v 8); u8 v].
Proof.
  unfold be_bytes. rewrite !Z.shiftr_div_pow2 by lia. cbn. unfold u8.
  rewrite !Z.div_div by lia. reflexivity.
Qed.

#[global] Opaque le_bytes le_val be_bytes be_val le_array le_array_val.
#[global] Opaque cread zeros.
#[global] Arguments Z.pow : simpl never.
