(* ===== verification/Dpa.v ===== *)
(** * The DPA data model: danos-dpa/include/danos/dpa.h

    Status codes, object types, and the C structures of the objects with
    their memory layout.  Enumeration-typed structure members keep their
    integer code: the program casts wire values into them unchecked. *)

From stdpp Require Import base decidable list numbers strings countable gmap.
From Stdlib Require Import ZArith Lia.
From S2P Require Import Prelude.

(** ** Status codes (dpa.h, danos_status_t) *)

Inductive danos_status : Type :=
  | DANOS_OK
  | DANOS_ERR_INVALID_ARG | DANOS_ERR_NOT_FOUND | DANOS_ERR_EXISTS
  | DANOS_ERR_NO_MEMORY | DANOS_ERR_NO_CAPACITY | DANOS_ERR_NOT_SUPPORTED
  | DANOS_ERR_RETRY | DANOS_ERR_PERMISSION
  | DANOS_ERR_TX_CONFLICT | DANOS_ERR_TX_TIMEOUT | DANOS_ERR_TX_ABORTED
  | DANOS_ERR_TX_ROLLBACK | DANOS_ERR_TX_INVALID
  | DANOS_ERR_BACKEND_DOWN | DANOS_ERR_BACKEND_BUSY | DANOS_ERR_BACKEND_IO
  | DANOS_ERR_VERIFY_FAIL | DANOS_ERR_PARTIAL
  | DANOS_ERR_VERSION | DANOS_ERR_CAPABILITY
  | DANOS_ERR_INTERNAL.

#[export] Instance danos_status_eq_dec : EqDecision danos_status.
Proof. solve_decision. Defined.

(** ** Object types (dpa.h, danos_obj_type_t) *)

Inductive danos_obj_type : Type :=
  | DANOS_OBJ_INVALID | DANOS_OBJ_IFACE | DANOS_OBJ_VLAN | DANOS_OBJ_VRF
  | DANOS_OBJ_ROUTE | DANOS_OBJ_NEXTHOP | DANOS_OBJ_NHGROUP | DANOS_OBJ_ACL
  | DANOS_OBJ_QOS | DANOS_OBJ_MPLS_LSP | DANOS_OBJ_TUNNEL | DANOS_OBJ_EVPN
  | DANOS_OBJ_MULTICAST | DANOS_OBJ_BFD | DANOS_OBJ_QOS_BIND.

#[export] Instance danos_obj_type_eq_dec : EqDecision danos_obj_type.
Proof. solve_decision. Defined.

Definition obj_type_code (t : danos_obj_type) : Z :=
  match t with
  | DANOS_OBJ_INVALID => 0 | DANOS_OBJ_IFACE => 1 | DANOS_OBJ_VLAN => 2
  | DANOS_OBJ_VRF => 3 | DANOS_OBJ_ROUTE => 4 | DANOS_OBJ_NEXTHOP => 5
  | DANOS_OBJ_NHGROUP => 6 | DANOS_OBJ_ACL => 7 | DANOS_OBJ_QOS => 8
  | DANOS_OBJ_MPLS_LSP => 9 | DANOS_OBJ_TUNNEL => 10 | DANOS_OBJ_EVPN => 11
  | DANOS_OBJ_MULTICAST => 12 | DANOS_OBJ_BFD => 13 | DANOS_OBJ_QOS_BIND => 14
  end.

Definition obj_type_of_code (z : Z) : option danos_obj_type :=
  nth_error
    [DANOS_OBJ_INVALID; DANOS_OBJ_IFACE; DANOS_OBJ_VLAN; DANOS_OBJ_VRF;
     DANOS_OBJ_ROUTE; DANOS_OBJ_NEXTHOP; DANOS_OBJ_NHGROUP; DANOS_OBJ_ACL;
     DANOS_OBJ_QOS; DANOS_OBJ_MPLS_LSP; DANOS_OBJ_TUNNEL; DANOS_OBJ_EVPN;
     DANOS_OBJ_MULTICAST; DANOS_OBJ_BFD; DANOS_OBJ_QOS_BIND] (Z.to_nat z).

#[export] Instance danos_obj_type_countable : Countable danos_obj_type.
Proof.
  refine (inj_countable obj_type_code obj_type_of_code _).
  by intros [].
Defined.

(** ** Addresses *)

Definition DANOS_AF_UNSPEC : Z := 0.
Definition DANOS_AF_IPV4 : Z := 4.
Definition DANOS_AF_IPV6 : Z := 6.

Record danos_ip_addr := mk_ip_addr {
  ip_af : Z;
  ip_addr : bytes;          (* uint8_t addr[16] *)
}.

Record danos_ip_prefix := mk_ip_prefix {
  pfx_addr : danos_ip_addr;
  pfx_len : Z;
}.

#[export] Instance ip_addr_struct : CStruct danos_ip_addr := {
  sizeof := 20;
  to_mem a := le_bytes 4 (ip_af a) ++ ip_addr a;
  of_mem bs := mk_ip_addr (le_val (cread bs 0 4)) (cread bs 4 16);
  struct_wf a := is_uint 4 (ip_af a) /\ length (ip_addr a) = 16%nat /\
                 bytes_ok (ip_addr a);
}.

#[export] Instance ip_prefix_struct : CStruct danos_ip_prefix := {
  sizeof := 24;
  to_mem p := to_mem (pfx_addr p) ++ le_bytes 1 (pfx_len p) ++ zeros 3;
  of_mem bs := mk_ip_prefix (of_mem (cread bs 0 20)) (le_val (cread bs 20 1));
  struct_wf p := struct_wf (pfx_addr p) /\ is_uint 1 (pfx_len p);
}.

Definition ip_addr_zero : danos_ip_addr := mk_ip_addr 0 (zeros 16).
Definition ip_prefix_zero : danos_ip_prefix := mk_ip_prefix ip_addr_zero 0.

(** ** Interface *)

Definition DANOS_IF_TYPE_PHYS : Z := 1.

Record danos_iface := mk_iface {
  iface_ifindex : Z;
  iface_name : bytes;       (* char name[64] *)
  iface_type : Z;
  iface_mtu : Z;
  iface_mac : bytes;        (* uint8_t mac[6] *)
  iface_admin_up : bool;
  iface_link_up : bool;
  iface_parent_ifindex : Z;
  iface_outer_vlan : Z;
  iface_inner_vlan : Z;
  iface_ipv4_address : danos_ip_prefix;
  iface_ipv6_address : danos_ip_prefix;
}.

#[export] Instance iface_struct : CStruct danos_iface := {
  sizeof := 144;
  to_mem i :=
    le_bytes 4 (iface_ifindex i) ++ iface_name i ++ le_bytes 4 (iface_type i) ++
    le_bytes 2 (iface_mtu i) ++ iface_mac i ++
    le_bytes 1 (b2z (iface_admin_up i)) ++ le_bytes 1 (b2z (iface_link_up i)) ++ zeros 2 ++
    le_bytes 4 (iface_parent_ifindex i) ++ le_bytes 4 (iface_outer_vlan i) ++
    le_bytes 4 (iface_inner_vlan i) ++ to_mem (iface_ipv4_address i) ++
    to_mem (iface_ipv6_address i);
  of_mem bs :=
    mk_iface (le_val (cread bs 0 4)) (cread bs 4 64) (le_val (cread bs 68 4))
      (le_val (cread bs 72 2)) (cread bs 74 6)
      (z2b (le_val (cread bs 80 1))) (z2b (le_val (cread bs 81 1)))
      (le_val (cread bs 84 4)) (le_val (cread bs 88 4)) (le_val (cread bs 92 4))
      (of_mem (cread bs 96 24)) (of_mem (cread bs 120 24));
  struct_wf i :=
    is_uint 4 (iface_ifindex i) /\
    (length (iface_name i) = 64%nat /\ bytes_ok (iface_name i)) /\
    is_uint 4 (iface_type i) /\ is_uint 2 (iface_mtu i) /\
    (length (iface_mac i) = 6%nat /\ bytes_ok (iface_mac i)) /\
    is_uint 4 (iface_parent_ifindex i) /\ is_uint 4 (iface_outer_vlan i) /\
    is_uint 4 (iface_inner_vlan i) /\ struct_wf (iface_ipv4_address i) /\
    struct_wf (iface_ipv6_address i);
}.

(** ** VRF *)

Record danos_vrf := mk_vrf {
  vrf_vrf_id : Z;
  vrf_name : bytes;         (* char name[64] *)
  vrf_ipv4_active : bool;
  vrf_ipv6_active : bool;
}.

#[export] Instance vrf_struct : CStruct danos_vrf := {
  sizeof := 72;
  to_mem v :=
    le_bytes 4 (vrf_vrf_id v) ++ vrf_name v ++ le_bytes 1 (b2z (vrf_ipv4_active v)) ++
    le_bytes 1 (b2z (vrf_ipv6_active v)) ++ zeros 2;
  of_mem bs :=
    mk_vrf (le_val (cread bs 0 4)) (cread bs 4 64)
      (z2b (le_val (cread bs 68 1))) (z2b (le_val (cread bs 69 1)));
  struct_wf v :=
    is_uint 4 (vrf_vrf_id v) /\ length (vrf_name v) = 64%nat /\
    bytes_ok (vrf_name v);
}.

(** ** Next hop and next-hop group *)

Definition DANOS_NH_FLAG_ECMP : Z := 1.

Record danos_nexthop := mk_nexthop {
  nh_id : Z;
  nh_gateway : danos_ip_addr;
  nh_ifindex : Z;
  nh_weight : Z;
  nh_flags : Z;
  nh_label_count : Z;
  nh_labels : list Z;       (* danos_mpls_label_t labels[3] *)
}.

#[export] Instance nexthop_struct : CStruct danos_nexthop := {
  sizeof := 56;
  to_mem n :=
    le_bytes 8 (nh_id n) ++ to_mem (nh_gateway n) ++ le_bytes 4 (nh_ifindex n) ++
    le_bytes 4 (nh_weight n) ++ le_bytes 4 (nh_flags n) ++
    le_bytes 1 (nh_label_count n) ++ zeros 3 ++ le_array 4 (nh_labels n);
  of_mem bs :=
    mk_nexthop (le_val (cread bs 0 8)) (of_mem (cread bs 8 20))
      (le_val (cread bs 28 4)) (le_val (cread bs 32 4)) (le_val (cread bs 36 4))
      (le_val (cread bs 40 1)) (le_array_val 4 3 (cread bs 44 12));
  struct_wf n :=
    is_uint 8 (nh_id n) /\ struct_wf (nh_gateway n) /\ is_uint 4 (nh_ifindex n) /\
    is_uint 4 (nh_weight n) /\ is_uint 4 (nh_flags n) /\
    is_uint 1 (nh_label_count n) /\
    (length (nh_labels n) = 3%nat /\ Forall (is_uint 4) (nh_labels n));
}.

Record danos_nhgroup := mk_nhgroup {
  grp_id : Z;
  grp_nh_count : Z;
  grp_nh_ids : list Z;      (* danos_obj_id_t nh_ids[64] *)
  grp_flags : Z;
}.

#[export] Instance nhgroup_struct : CStruct danos_nhgroup := {
  sizeof := 536;
  to_mem g :=
    le_bytes 8 (grp_id g) ++ le_bytes 4 (grp_nh_count g) ++ zeros 4 ++
    le_array 8 (grp_nh_ids g) ++ le_bytes 4 (grp_flags g) ++ zeros 4;
  of_mem bs :=
    mk_nhgroup (le_val (cread bs 0 8)) (le_val (cread bs 8 4))
      (le_array_val 8 64 (cread bs 16 512)) (le_val (cread bs 528 4));
  struct_wf g :=
    is_uint 8 (grp_id g) /\ is_uint 4 (grp_nh_count g) /\
    (length (grp_nh_ids g) = 64%nat /\ Forall (is_uint 8) (grp_nh_ids g)) /\
    is_uint 4 (grp_flags g);
}.

(** ** Route *)

Definition DANOS_ROUTE_PROTO_UNSPEC : Z := 0.
Definition DANOS_ROUTE_PROTO_KERNEL : Z := 1.
Definition DANOS_ROUTE_PROTO_STATIC : Z := 2.
Definition DANOS_ROUTE_PROTO_BGP : Z := 3.
Definition DANOS_ROUTE_PROTO_OSPF : Z := 4.
Definition DANOS_ROUTE_PROTO_ISIS : Z := 5.
Definition DANOS_ROUTE_PROTO_CONNECTED : Z := 6.
Definition DANOS_ROUTE_FLAG_BLACKHOLE : Z := 1.

Record danos_route := mk_route {
  rt_vrf_id : Z;
  rt_prefix : danos_ip_prefix;
  rt_protocol : Z;
  rt_admin_distance : Z;
  rt_metric : Z;
  rt_nhgroup_id : Z;
  rt_flags : Z;
}.

#[export] Instance route_struct : CStruct danos_route := {
  sizeof := 56;
  to_mem r :=
    le_bytes 4 (rt_vrf_id r) ++ to_mem (rt_prefix r) ++ le_bytes 4 (rt_protocol r) ++
    le_bytes 4 (rt_admin_distance r) ++ le_bytes 4 (rt_metric r) ++
    le_bytes 8 (rt_nhgroup_id r) ++ le_bytes 4 (rt_flags r) ++ zeros 4;
  of_mem bs :=
    mk_route (le_val (cread bs 0 4)) (of_mem (cread bs 4 24))
      (le_val (cread bs 28 4)) (le_val (cread bs 32 4)) (le_val (cread bs 36 4))
      (le_val (cread bs 40 8)) (le_val (cread bs 48 4));
  struct_wf r :=
    is_uint 4 (rt_vrf_id r) /\ struct_wf (rt_prefix r) /\
    is_uint 4 (rt_protocol r) /\ is_uint 4 (rt_admin_distance r) /\
    is_uint 4 (rt_metric r) /\ is_uint 8 (rt_nhgroup_id r) /\
    is_uint 4 (rt_flags r);
}.

(** ** ACL *)

Record danos_acl_match := mk_acl_match {
  am_fields_mask : Z;
  am_ether_type : Z;
  am_src_mac : bytes;
  am_dst_mac : bytes;
  am_vlan_id : Z;
  am_src_ip : danos_ip_prefix;
  am_dst_ip : danos_ip_prefix;
  am_l4_proto : Z;
  am_l4_src_port_start : Z;
  am_l4_src_port_end : Z;
  am_l4_dst_port_start : Z;
  am_l4_dst_port_end : Z;
  am_dscp : Z;
}.

#[export] Instance acl_match_struct : CStruct danos_acl_match := {
  sizeof := 84;
  to_mem m :=
    le_bytes 4 (am_fields_mask m) ++ le_bytes 2 (am_ether_type m) ++
    am_src_mac m ++ am_dst_mac m ++ zeros 2 ++ le_bytes 4 (am_vlan_id m) ++
    to_mem (am_src_ip m) ++ to_mem (am_dst_ip m) ++ le_bytes 1 (am_l4_proto m) ++
    zeros 1 ++ le_bytes 2 (am_l4_src_port_start m) ++
    le_bytes 2 (am_l4_src_port_end m) ++ le_bytes 2 (am_l4_dst_port_start m) ++
    le_bytes 2 (am_l4_dst_port_end m) ++ le_bytes 1 (am_dscp m) ++ zeros 1;
  of_mem bs :=
    mk_acl_match (le_val (cread bs 0 4)) (le_val (cread bs 4 2)) (cread bs 6 6)
      (cread bs 12 6) (le_val (cread bs 20 4)) (of_mem (cread bs 24 24))
      (of_mem (cread bs 48 24)) (le_val (cread bs 72 1)) (le_val (cread bs 74 2))
      (le_val (cread bs 76 2)) (le_val (cread bs 78 2)) (le_val (cread bs 80 2))
      (le_val (cread bs 82 1));
  struct_wf m :=
    is_uint 4 (am_fields_mask m) /\ is_uint 2 (am_ether_type m) /\
    (length (am_src_mac m) = 6%nat /\ bytes_ok (am_src_mac m)) /\
    (length (am_dst_mac m) = 6%nat /\ bytes_ok (am_dst_mac m)) /\
    is_uint 4 (am_vlan_id m) /\ struct_wf (am_src_ip m) /\
    struct_wf (am_dst_ip m) /\ is_uint 1 (am_l4_proto m) /\
    is_uint 2 (am_l4_src_port_start m) /\ is_uint 2 (am_l4_src_port_end m) /\
    is_uint 2 (am_l4_dst_port_start m) /\ is_uint 2 (am_l4_dst_port_end m) /\
    is_uint 1 (am_dscp m);
}.

Record danos_acl_action_params := mk_acl_action_params {
  aa_action : Z;
  aa_redirect_ifindex : Z;
  aa_police_rate_kbps : Z;
  aa_set_dscp : Z;
}.

#[export] Instance acl_action_struct : CStruct danos_acl_action_params := {
  sizeof := 16;
  to_mem a :=
    le_bytes 4 (aa_action a) ++ le_bytes 4 (aa_redirect_ifindex a) ++
    le_bytes 4 (aa_police_rate_kbps a) ++ le_bytes 1 (aa_set_dscp a) ++ zeros 3;
  of_mem bs :=
    mk_acl_action_params (le_val (cread bs 0 4)) (le_val (cread bs 4 4))
      (le_val (cread bs 8 4)) (le_val (cread bs 12 1));
  struct_wf a :=
    is_uint 4 (aa_action a) /\ is_uint 4 (aa_redirect_ifindex a) /\
    is_uint 4 (aa_police_rate_kbps a) /\ is_uint 1 (aa_set_dscp a);
}.

Record danos_acl_rule := mk_acl_rule {
  ar_rule_id : Z;
  ar_priority : Z;
  ar_match : danos_acl_match;
  ar_act : danos_acl_action_params;
}.

#[export] Instance acl_rule_struct : CStruct danos_acl_rule := {
  sizeof := 112;
  to_mem r :=
    le_bytes 8 (ar_rule_id r) ++ le_bytes 4 (ar_priority r) ++
    to_mem (ar_match r) ++ to_mem (ar_act r);
  of_mem bs :=
    mk_acl_rule (le_val (cread bs 0 8)) (le_val (cread bs 8 4))
      (of_mem (cread bs 12 84)) (of_mem (cread bs 96 16));
  struct_wf r :=
    is_uint 8 (ar_rule_id r) /\ is_uint 4 (ar_priority r) /\
    struct_wf (ar_match r) /\ struct_wf (ar_act r);
}.

Record danos_acl_table := mk_acl_table {
  at_table_id : Z;
  at_name : bytes;          (* char name[64] *)
  at_bind_ifindex : Z;
  at_ingress : bool;
}.

#[export] Instance acl_table_struct : CStruct danos_acl_table := {
  sizeof := 80;
  to_mem t :=
    le_bytes 8 (at_table_id t) ++ at_name t ++ le_bytes 4 (at_bind_ifindex t) ++
    le_bytes 1 (b2z (at_ingress t)) ++ zeros 3;
  of_mem bs :=
    mk_acl_table (le_val (cread bs 0 8)) (cread bs 8 64) (le_val (cread bs 72 4))
      (z2b (le_val (cread bs 76 1)));
  struct_wf t :=
    is_uint 8 (at_table_id t) /\
    (length (at_name t) = 64%nat /\ bytes_ok (at_name t)) /\
    is_uint 4 (at_bind_ifindex t);
}.

(** ** QoS *)

Record danos_qos_policy := mk_qos_policy {
  qp_policy_id : Z;
  qp_name : bytes;          (* char name[64] *)
  qp_cir_bps : Z;
  qp_cb_bytes : Z;
  qp_pir_bps : Z;
  qp_pb_bytes : Z;
  qp_conform_dscp : Z;
  qp_exceed_dscp : Z;
  qp_violate_dscp : Z;
}.

#[export] Instance qos_policy_struct : CStruct danos_qos_policy := {
  sizeof := 112;
  to_mem q :=
    le_bytes 8 (qp_policy_id q) ++ qp_name q ++ le_bytes 8 (qp_cir_bps q) ++
    le_bytes 8 (qp_cb_bytes q) ++ le_bytes 8 (qp_pir_bps q) ++
    le_bytes 8 (qp_pb_bytes q) ++ le_bytes 1 (qp_conform_dscp q) ++
    le_bytes 1 (qp_exceed_dscp q) ++ le_bytes 1 (qp_violate_dscp q) ++ zeros 5;
  of_mem bs :=
    mk_qos_policy (le_val (cread bs 0 8)) (cread bs 8 64) (le_val (cread bs 72 8))
      (le_val (cread bs 80 8)) (le_val (cread bs 88 8)) (le_val (cread bs 96 8))
      (le_val (cread bs 104 1)) (le_val (cread bs 105 1)) (le_val (cread bs 106 1));
  struct_wf q :=
    is_uint 8 (qp_policy_id q) /\
    (length (qp_name q) = 64%nat /\ bytes_ok (qp_name q)) /\
    is_uint 8 (qp_cir_bps q) /\ is_uint 8 (qp_cb_bytes q) /\
    is_uint 8 (qp_pir_bps q) /\ is_uint 8 (qp_pb_bytes q) /\
    is_uint 1 (qp_conform_dscp q) /\ is_uint 1 (qp_exceed_dscp q) /\
    is_uint 1 (qp_violate_dscp q);
}.

(** ** MPLS, tunnels, EVPN, multicast, BFD *)

Record danos_mpls_lsp := mk_mpls_lsp {
  lsp_in_label : Z;
  lsp_type : Z;
  lsp_nhgroup_id : Z;
  lsp_php : bool;
  lsp_push_label_count : Z;
  lsp_push_labels : list Z; (* danos_mpls_label_t push_labels[3] *)
}.

#[export] Instance mpls_lsp_struct : CStruct danos_mpls_lsp := {
  sizeof := 32;
  to_mem l :=
    le_bytes 4 (lsp_in_label l) ++ le_bytes 4 (lsp_type l) ++
    le_bytes 8 (lsp_nhgroup_id l) ++ le_bytes 1 (b2z (lsp_php l)) ++
    le_bytes 1 (lsp_push_label_count l) ++ zeros 2 ++ le_array 4 (lsp_push_labels l);
  of_mem bs :=
    mk_mpls_lsp (le_val (cread bs 0 4)) (le_val (cread bs 4 4))
      (le_val (cread bs 8 8)) (z2b (le_val (cread bs 16 1)))
      (le_val (cread bs 17 1)) (le_array_val 4 3 (cread bs 20 12));
  struct_wf l :=
    is_uint 4 (lsp_in_label l) /\ is_uint 4 (lsp_type l) /\
    is_uint 8 (lsp_nhgroup_id l) /\ is_uint 1 (lsp_push_label_count l) /\
    (length (lsp_push_labels l) = 3%nat /\ Forall (is_uint 4) (lsp_push_labels l));
}.

Record danos_tunnel := mk_tunnel {
  tun_id : Z;
  tun_type : Z;
  tun_ifindex : Z;
  tun_src : danos_ip_addr;
  tun_dst : danos_ip_addr;
  tun_vni : Z;
  tun_gre_key : Z;
}.

#[export] Instance tunnel_struct : CStruct danos_tunnel := {
  sizeof := 64;
  to_mem t :=
    le_bytes 8 (tun_id t) ++ le_bytes 4 (tun_type t) ++ le_bytes 4 (tun_ifindex t) ++
    to_mem (tun_src t) ++ to_mem (tun_dst t) ++ le_bytes 4 (tun_vni t) ++
    le_bytes 4 (tun_gre_key t);
  of_mem bs :=
    mk_tunnel (le_val (cread bs 0 8)) (le_val (cread bs 8 4)) (le_val (cread bs 12 4))
      (of_mem (cread bs 16 20)) (of_mem (cread bs 36 20)) (le_val (cread bs 56 4))
      (le_val (cread bs 60 4));
  struct_wf t :=
    is_uint 8 (tun_id t) /\ is_uint 4 (tun_type t) /\ is_uint 4 (tun_ifindex t) /\
    struct_wf (tun_src t) /\ struct_wf (tun_dst t) /\ is_uint 4 (tun_vni t) /\
    is_uint 4 (tun_gre_key t);
}.

Record danos_evpn_evi := mk_evpn_evi {
  evi_evi : Z;
  evi_rd : danos_ip_addr;
  evi_rt_import : danos_ip_addr;
  evi_rt_export : danos_ip_addr;
  evi_vni : Z;
  evi_irb : bool;
}.

#[export] Instance evpn_evi_struct : CStruct danos_evpn_evi := {
  sizeof := 72;
  to_mem e :=
    le_bytes 4 (evi_evi e) ++ to_mem (evi_rd e) ++ to_mem (evi_rt_import e) ++
    to_mem (evi_rt_export e) ++ le_bytes 4 (evi_vni e) ++
    le_bytes 1 (b2z (evi_irb e)) ++ zeros 3;
  of_mem bs :=
    mk_evpn_evi (le_val (cread bs 0 4)) (of_mem (cread bs 4 20))
      (of_mem (cread bs 24 20)) (of_mem (cread bs 44 20)) (le_val (cread bs 64 4))
      (z2b (le_val (cread bs 68 1)));
  struct_wf e :=
    is_uint 4 (evi_evi e) /\ struct_wf (evi_rd e) /\ struct_wf (evi_rt_import e) /\
    struct_wf (evi_rt_export e) /\ is_uint 4 (evi_vni e);
}.

Record danos_mroute := mk_mroute {
  mr_vrf_id : Z;
  mr_source : danos_ip_addr;
  mr_group : danos_ip_addr;
  mr_incoming_if : Z;
  mr_oif_count : Z;
  mr_oif_list : list Z;     (* danos_ifindex_t oif_list[64] *)
}.

#[export] Instance mroute_struct : CStruct danos_mroute := {
  sizeof := 320;
  to_mem m :=
    le_bytes 4 (mr_vrf_id m) ++ to_mem (mr_source m) ++ to_mem (mr_group m) ++
    zeros 4 ++ le_bytes 8 (mr_incoming_if m) ++ le_bytes 4 (mr_oif_count m) ++
    le_array 4 (mr_oif_list m) ++ zeros 4;
  of_mem bs :=
    mk_mroute (le_val (cread bs 0 4)) (of_mem (cread bs 4 20))
      (of_mem (cread bs 24 20)) (le_val (cread bs 48 8)) (le_val (cread bs 56 4))
      (le_array_val 4 64 (cread bs 60 256));
  struct_wf m :=
    is_uint 4 (mr_vrf_id m) /\ struct_wf (mr_source m) /\ struct_wf (mr_group m) /\
    is_uint 8 (mr_incoming_if m) /\ is_uint 4 (mr_oif_count m) /\
    (length (mr_oif_list m) = 64%nat /\ Forall (is_uint 4) (mr_oif_list m));
}.

Record danos_bfd := mk_bfd {
  bfd_id : Z;
  bfd_remote : danos_ip_addr;
  bfd_ifindex : Z;
  bfd_desired_tx_ms : Z;
  bfd_required_rx_ms : Z;
  bfd_detect_mult : Z;
  bfd_admin_up : bool;
  bfd_session_up : bool;
}.

#[export] Instance bfd_struct : CStruct danos_bfd := {
  sizeof := 48;
  to_mem b :=
    le_bytes 8 (bfd_id b) ++ to_mem (bfd_remote b) ++ le_bytes 4 (bfd_ifindex b) ++
    le_bytes 4 (bfd_desired_tx_ms b) ++ le_bytes 4 (bfd_required_rx_ms b) ++
    le_bytes 4 (bfd_detect_mult b) ++ le_bytes 1 (b2z (bfd_admin_up b)) ++
    le_bytes 1 (b2z (bfd_session_up b)) ++ zeros 2;
  of_mem bs :=
    mk_bfd (le_val (cread bs 0 8)) (of_mem (cread bs 8 20)) (le_val (cread bs 28 4))
      (le_val (cread bs 32 4)) (le_val (cread bs 36 4)) (le_val (cread bs 40 4))
      (z2b (le_val (cread bs 44 1))) (z2b (le_val (cread bs 45 1)));
  struct_wf b :=
    is_uint 8 (bfd_id b) /\ struct_wf (bfd_remote b) /\ is_uint 4 (bfd_ifindex b) /\
    is_uint 4 (bfd_desired_tx_ms b) /\ is_uint 4 (bfd_required_rx_ms b) /\
    is_uint 4 (bfd_detect_mult b);
}.

(** danos-core/src/object/dpa_objects.c, danos_qos_bind_rec_t *)
Record danos_qos_bind_rec := mk_qos_bind_rec {
  qb_policy_id : Z;
  qb_ifindex : Z;
  qb_ingress : bool;
}.

#[export] Instance qos_bind_struct : CStruct danos_qos_bind_rec := {
  sizeof := 16;
  to_mem q :=
    le_bytes 8 (qb_policy_id q) ++ le_bytes 4 (qb_ifindex q) ++
    le_bytes 1 (b2z (qb_ingress q)) ++ zeros 3;
  of_mem bs :=
    mk_qos_bind_rec (le_val (cread bs 0 8)) (le_val (cread bs 8 4))
      (z2b (le_val (cread bs 12 1)));
  struct_wf q := is_uint 8 (qb_policy_id q) /\ is_uint 4 (qb_ifindex q);
}.

(** ** Layout laws *)

Ltac struct_len_rw :=
  repeat match goal with
  | H : struct_wf ?x |- context [length (to_mem ?x)] =>
      rewrite (length_to_mem x H)
  | H : length ?l = ?n |- context [length ?l] => rewrite H
  end.

Ltac struct_len :=
  simpl; rewrite ?length_app, ?length_cons, ?length_nil;
  autorewrite with danos_len; struct_len_rw; simpl; lia.

Ltac struct_bytes :=
  repeat first [ assumption | apply to_mem_ok; assumption
               | solve [ eauto with danos ]
               | apply Forall_app; split | apply Forall_cons; split ].

Ltac struct_field :=
  repeat (rewrite cread_skip by struct_len; simpl length;
          autorewrite with danos_len; struct_len_rw; simpl Nat.sub; simpl Nat.mul);
  first [ rewrite cread_here by struct_len | rewrite cread_all by struct_len ];
  first [ reflexivity
        | apply le_val_le_bytes; unfold is_uint in *; simpl in *; assumption
        | apply le_array_val_le_array; assumption
        | apply of_to_mem; assumption
        | apply bool_mem ].

Ltac solve_struct_laws :=
  split; intros [] Hwf; hnf in Hwf; simpl in Hwf; destruct_and?;
  [ unfold to_mem at 1; struct_len
  | unfold to_mem at 1; simpl; struct_bytes
  | unfold to_mem at 1, of_mem at 1; simpl; f_equal; struct_field ].

#[export] Instance ip_addr_laws : CStructLaws danos_ip_addr.
Proof. solve_struct_laws. Qed.
#[export] Instance ip_prefix_laws : CStructLaws danos_ip_prefix.
Proof. solve_struct_laws. Qed.
#[export] Instance iface_laws : CStructLaws danos_iface.
Proof. solve_struct_laws. Qed.
#[export] Instance vrf_laws : CStructLaws danos_vrf.
Proof. solve_struct_laws. Qed.
#[export] Instance nexthop_laws : CStructLaws danos_nexthop.
Proof. solve_struct_laws. Qed.
#[export] Instance nhgroup_laws : CStructLaws danos_nhgroup.
Proof. solve_struct_laws. Qed.
#[export] Instance route_laws : CStructLaws danos_route.
Proof. solve_struct_laws. Qed.
#[export] Instance acl_match_laws : CStructLaws danos_acl_match.
Proof. solve_struct_laws. Qed.
#[export] Instance acl_action_laws : CStructLaws danos_acl_action_params.
Proof. solve_struct_laws. Qed.
#[export] Instance acl_rule_laws : CStructLaws danos_acl_rule.
Proof. solve_struct_laws. Qed.
#[export] Instance acl_table_laws : CStructLaws danos_acl_table.
Proof. solve_struct_laws. Qed.
#[export] Instance qos_policy_laws : CStructLaws danos_qos_policy.
Proof. solve_struct_laws. Qed.
#[export] Instance mpls_lsp_laws : CStructLaws danos_mpls_lsp.
Proof. solve_struct_laws. Qed.
#[export] Instance tunnel_laws : CStructLaws danos_tunnel.
Proof. solve_struct_laws. Qed.
#[export] Instance evpn_evi_laws : CStructLaws danos_evpn_evi.
Proof. solve_struct_laws. Qed.
#[export] Instance mroute_laws : CStructLaws danos_mroute.
Proof. solve_struct_laws. Qed.
#[export] Instance bfd_laws : CStructLaws danos_bfd.
Proof. solve_struct_laws. Qed.
#[export] Instance qos_bind_laws : CStructLaws danos_qos_bind_rec.
Proof. solve_struct_laws. Qed.
