(* ===== verification/Backends.v ===== *)
(** * Backend registry and capability queries

    danos-dpa/src/dpa_version.c, dpa_capability.c, dpa_errors.c and
    danos-core/src/capability/capability_registry.c. *)

From stdpp Require Import base decidable list numbers strings.
From Stdlib Require Import ZArith Lia.
From S2P Require Import Prelude Dpa.

(** ** dpa_errors.c *)

Definition danos_status_str (st : danos_status) : string :=
  match st with
  | DANOS_OK => "OK"
  | DANOS_ERR_INVALID_ARG => "INVALID_ARG"
  | DANOS_ERR_NOT_FOUND => "NOT_FOUND"
  | DANOS_ERR_EXISTS => "EXISTS"
  | DANOS_ERR_NO_MEMORY => "NO_MEMORY"
  | DANOS_ERR_NO_CAPACITY => "NO_CAPACITY"
  | DANOS_ERR_NOT_SUPPORTED => "NOT_SUPPORTED"
  | DANOS_ERR_PERMISSION => "PERMISSION"
  | DANOS_ERR_TX_CONFLICT => "TX_CONFLICT"
  | DANOS_ERR_TX_TIMEOUT => "TX_TIMEOUT"
  | DANOS_ERR_TX_ABORTED => "TX_ABORTED"
  | DANOS_ERR_TX_ROLLBACK => "TX_ROLLBACK"
  | DANOS_ERR_TX_INVALID => "TX_INVALID"
  | DANOS_ERR_BACKEND_DOWN => "BACKEND_DOWN"
  | DANOS_ERR_BACKEND_BUSY => "BACKEND_BUSY"
  | DANOS_ERR_BACKEND_IO => "BACKEND_IO"
  | DANOS_ERR_VERIFY_FAIL => "VERIFY_FAIL"
  | DANOS_ERR_PARTIAL => "PARTIAL"
  | DANOS_ERR_VERSION => "VERSION"
  | DANOS_ERR_CAPABILITY => "CAPABILITY"
  | DANOS_ERR_INTERNAL => "INTERNAL"
  | _ => "UNKNOWN"
  end.

(** ** Data (dpa.h) *)

Record danos_version := mk_version {
  ver_major : Z; ver_minor : Z; ver_patch : Z; ver_reserved : Z;
}.

Record danos_capability := mk_capability {
  cap_type : danos_obj_type;
  cap_supported : bool;
  cap_max_count : Z;            (* 0 = unlimited *)
  cap_features_count : Z;
  cap_features : list bytes;    (* C strings *)
  cap_constraints_json : option bytes;
}.

Record danos_backend_info := mk_backend_info {
  be_name : bytes;              (* char name[64] *)
  be_api_version : danos_version;
  be_cap_count : Z;
  be_caps : list danos_capability;
}.

Definition danos_dpa_get_version : danos_version := mk_version 0 1 0 0.

(** [strncmp(a, b, n) == 0]: bytes past the end of a list are the NUL. *)
Fixpoint strncmp_eq (n : nat) (a b : bytes) : bool :=
  match n with
  | O => true
  | S n =>
      let x := default 0 (head a) in
      let y := default 0 (head b) in
      if x =? y then (if x =? 0 then true else strncmp_eq n (tail a) (tail b))
      else false
  end.

#[global] Arguments strncmp_eq : simpl never.

(** ** dpa_version.c: the registry *)

Definition DANOS_MAX_BACKENDS : nat := 8.

Record backend_slot := mk_slot {
  slot_info : danos_backend_info;
  slot_in_use : bool;
}.

Record registry := mk_registry {
  g_backends : list backend_slot;   (* backend_slot_t g_backends[8] *)
  g_backend_count : nat;
}.

Definition backend_info_zero : danos_backend_info :=
  mk_backend_info (zeros 64) (mk_version 0 0 0 0) 0 [].
Definition slot_zero : backend_slot := mk_slot backend_info_zero false.

Definition danos_backend_reset : registry :=
  mk_registry (replicate DANOS_MAX_BACKENDS slot_zero) 0.

Definition slot_named (name : bytes) (s : backend_slot) : bool :=
  slot_in_use s && strncmp_eq 64 (be_name (slot_info s)) name.

Definition danos_backend_register (info : option danos_backend_info)
    (g : registry) : danos_status * registry :=
  match info with
  | None => (DANOS_ERR_INVALID_ARG, g)
  | Some info =>
      if (DANOS_MAX_BACKENDS <=? g_backend_count g)%nat
      then (DANOS_ERR_NO_CAPACITY, g)
      else if existsb (slot_named (be_name info))
                (take (g_backend_count g) (g_backends g))
      then (DANOS_ERR_EXISTS, g)
      else (DANOS_OK,
            mk_registry (<[g_backend_count g := mk_slot info true]> (g_backends g))
                        (S (g_backend_count g)))
  end.

(** Index of the first registered slot of that name. *)
Fixpoint find_slot (name : bytes) (i : nat) (l : list backend_slot) : option nat :=
  match l with
  | [] => None
  | s :: l => if slot_named name s then Some i else find_slot name (S i) l
  end.

Definition danos_backend_unregister (name : option bytes) (g : registry)
    : danos_status * registry :=
  match name with
  | None => (DANOS_ERR_INVALID_ARG, g)
  | Some name =>
      match find_slot name 0 (take (g_backend_count g) (g_backends g)) with
      | None => (DANOS_ERR_NOT_FOUND, g)
      | Some i =>
          (DANOS_OK,
           mk_registry
             (alter (fun s => mk_slot (slot_info s) false) i (g_backends g))
             (g_backend_count g))
      end
  end.

(** [out] is always a caller's local: the answer is the status and the copy. *)
Definition danos_backend_get_info (index : nat) (g : registry)
    : danos_status * option danos_backend_info :=
  if (g_backend_count g <=? index)%nat then (DANOS_ERR_NOT_FOUND, None)
  else match g_backends g !! index with
       | Some s => if slot_in_use s then (DANOS_OK, Some (slot_info s))
                   else (DANOS_ERR_NOT_FOUND, None)
       | None => (DANOS_ERR_NOT_FOUND, None)
       end.

(** ** dpa_capability.c *)

Definition cap_unsupported (t : danos_obj_type) : danos_capability :=
  mk_capability t false 0 0 [] None.

Definition find_cap (t : danos_obj_type) (be : danos_backend_info)
    : option danos_capability :=
  head (filter (fun c => cap_type c = t)
               (take (Z.to_nat (be_cap_count be)) (be_caps be))).

(** [backend_name != NULL && backend_name[0] != 0] *)
Definition name_given (backend_name : option bytes) : option bytes :=
  match backend_name with
  | Some n => if default 0 (head n) =? 0 then None else Some n
  | None => None
  end.

(** The [for (i = 0; ; i++)] loop. *)
Fixpoint query_loop (fuel : nat) (i : nat) (nm : option bytes)
    (t : danos_obj_type) (g : registry) : danos_status * danos_capability :=
  match fuel with
  | O => (DANOS_ERR_NOT_SUPPORTED, cap_unsupported t)
  | S fuel =>
      match danos_backend_get_info i g with
      | (DANOS_OK, Some be) =>
          match nm with
          | Some n =>
              if strncmp_eq 64 (be_name be) n then
                match find_cap t be with
                | Some c => (DANOS_OK, c)
                | None => (DANOS_ERR_NOT_SUPPORTED, cap_unsupported t)
                end
              else query_loop fuel (S i) nm t g
          | None =>
              match find_cap t be with
              | Some c => (DANOS_OK, c)
              | None => query_loop fuel (S i) nm t g
              end
          end
      | _ => (DANOS_ERR_NOT_SUPPORTED, cap_unsupported t)
      end
  end.

Definition danos_capability_query (backend_name : option bytes)
    (t : danos_obj_type) (g : registry) : danos_status * danos_capability :=
  query_loop (S (g_backend_count g)) 0 (name_given backend_name) t g.

(** ** capability_registry.c *)

Fixpoint supported_loop (fuel i : nat) (t : danos_obj_type) (g : registry) : bool :=
  match fuel with
  | O => false
  | S fuel =>
      match danos_backend_get_info i g with
      | (DANOS_OK, Some be) =>
          if existsb (fun c => bool_decide (cap_type c = t) && cap_supported c)
               (take (Z.to_nat (be_cap_count be)) (be_caps be))
          then true else supported_loop fuel (S i) t g
      | _ => false
      end
  end.

Definition danos_core_capability_supported (t : danos_obj_type) (g : registry) : bool :=
  supported_loop (S (g_backend_count g)) 0 t g.

Definition danos_core_capability_check (backend_name : option bytes)
    (t : danos_obj_type) (required_count : Z) (g : registry) : danos_status :=
  match danos_capability_query backend_name t g with
  | (DANOS_OK, cap) =>
      if negb (cap_supported cap) then DANOS_ERR_NOT_SUPPORTED
      else if negb (cap_max_count cap =? 0) && (cap_max_count cap <? required_count)
      then DANOS_ERR_NO_CAPACITY
      else DANOS_OK
  | (st, _) => st
  end.

(** ** The backends a lookup can see *)

Record registry_wf (g : registry) : Prop := {
  rw_length : length (g_backends g) = DANOS_MAX_BACKENDS;
  rw_count : (g_backend_count g <= DANOS_MAX_BACKENDS)%nat;
}.

(** The registered backends up to the first free slot. *)
Fixpoint leading_used (l : list backend_slot) : list danos_backend_info :=
  match l with
  | [] => []
  | s :: l => if slot_in_use s then slot_info s :: leading_used l else []
  end.

Definition visible (g : registry) : list danos_backend_info :=
  leading_used (take (g_backend_count g) (g_backends g)).

Definition supports (t : danos_obj_type) (be : danos_backend_info) : bool :=
  existsb (fun c => bool_decide (cap_type c = t) && cap_supported c)
    (take (Z.to_nat (be_cap_count be)) (be_caps be)).

(** The answer of a query on the backends in order. *)
Fixpoint query_spec (nm : option bytes) (t : danos_obj_type)
    (l : list danos_backend_info) : danos_status * danos_capability :=
  match l with
  | [] => (DANOS_ERR_NOT_SUPPORTED, cap_unsupported t)
  | be :: l =>
      let named := match nm with Some n => strncmp_eq 64 (be_name be) n | None => true end in
      match (if named then find_cap t be else None), nm with
      | Some c, _ => (DANOS_OK, c)
      | None, Some _ => if named then (DANOS_ERR_NOT_SUPPORTED, cap_unsupported t)
                        else query_spec nm t l
      | None, None => query_spec nm t l
      end
  end.

Lemma reset_wf : registry_wf danos_backend_reset.
Proof. split; simpl; unfold DANOS_MAX_BACKENDS; lia. Qed.

Lemma register_wf info g : registry_wf g -> registry_wf (danos_backend_register info g).2.
Proof.
  intros [Hl Hc]. unfold danos_backend_register.
  destruct info as [info|]; [|done]. destruct (Nat.leb_spec DANOS_MAX_BACKENDS (g_backend_count g)); [done|].
  destruct (existsb _ _); [done|]. split; simpl; [by rewrite length_insert | lia].
Qed.

Lemma unregister_wf name g : registry_wf g -> registry_wf (danos_backend_unregister name g).2.
Proof.
  intros [Hl Hc]. unfold danos_backend_unregister. destruct name as [name|]; [|done].
  destruct (find_slot _ _ _); [|done]. split; simpl; [by rewrite length_alter | done].
Qed.

#[export] Hint Resolve reset_wf register_wf unregister_wf : danos.

(** One lookup against the slots from [i] on. *)
Lemma get_info_drop g i :
  registry_wf g ->
  match danos_backend_get_info i g with
  | (DANOS_OK, Some be) =>
      leading_used (drop i (take (g_backend_count g) (g_backends g))) =
      be :: leading_used (drop (S i) (take (g_backend_count g) (g_backends g)))
  | _ => leading_used (drop i (take (g_backend_count g) (g_backends g))) = []
  end.
Proof.
  intros [Hl Hc]. unfold danos_backend_get_info.
  destruct (Nat.leb_spec (g_backend_count g) i) as [Hge|Hlt].
  - by rewrite drop_ge by (rewrite length_take; lia).
  - destruct (lookup_lt_is_Some_2 (g_backends g) i) as [s Hs]; [lia|]. rewrite Hs.
    assert (take (g_backend_count g) (g_backends g) !! i = Some s) as Ht
      by (by rewrite lookup_take_lt).
    rewrite (drop_S _ s i Ht). simpl. by destruct (slot_in_use s).
Qed.

Section loops.
Context (g : registry) (Hwf : registry_wf g).

Lemma get_info_done i :
  (g_backend_count g <= i)%nat -> danos_backend_get_info i g = (DANOS_ERR_NOT_FOUND, None).
Proof. intros H. unfold danos_backend_get_info. by rewrite (proj2 (Nat.leb_le _ _)). Qed.

Lemma supported_loop_spec t fuel i :
  (g_backend_count g < i + fuel)%nat ->
  supported_loop fuel i t g =
  existsb (supports t) (leading_used (drop i (take (g_backend_count g) (g_backends g)))).
Proof.
  revert i. induction fuel as [|fuel IH]; intros i Hf.
  - rewrite drop_ge; [done|]. rewrite length_take. lia.
  - simpl. pose proof (get_info_drop g i Hwf) as Hd.
    destruct (danos_backend_get_info i g) as [[] [be|]]; rewrite Hd; try done.
    simpl. unfold supports at 1. destruct (existsb _ (take _ _)); [done|].
    simpl. apply IH. lia.
Qed.

Lemma query_loop_spec nm t fuel i :
  (g_backend_count g < i + fuel)%nat ->
  query_loop fuel i nm t g =
  query_spec nm t (leading_used (drop i (take (g_backend_count g) (g_backends g)))).
Proof.
  revert i. induction fuel as [|fuel IH]; intros i Hf.
  - rewrite drop_ge; [done|]. rewrite length_take. lia.
  - simpl. pose proof (get_info_drop g i Hwf) as Hd.
    destruct (danos_backend_get_info i g) as [[] [be|]]; rewrite Hd; try done.
    simpl. destruct nm as [n|].
    + destruct (strncmp_eq 64 (be_name be) n); [by destruct (find_cap t be)|].
      apply IH. lia.
    + destruct (find_cap t be); [done|]. apply IH. lia.
Qed.
End loops.

(** ** Properties *)

(** The unbounded lookup loops terminate and answer for exactly the
    backends registered before the first freed slot: a capability is reported
    supported when one of those declares it, and a query gives the capability
    of the first one that matches. *)
Theorem capability_lookup_spec g nm t :
  registry_wf g ->
  danos_core_capability_supported t g = existsb (supports t) (visible g) /\
  danos_capability_query nm t g = query_spec (name_given nm) t (visible g).
Proof.
  intros Hwf. unfold danos_core_capability_supported, danos_capability_query, visible. split.
  - rewrite (supported_loop_spec g Hwf); [done|lia].
  - rewrite (query_loop_spec g Hwf); [done|lia].
Qed.

Definition demo_backend (n : Z) (t : danos_obj_type) : danos_backend_info :=
  mk_backend_info [n] (mk_version 1 0 0 0) 1 [mk_capability t true 0 0 [] None].

Definition demo_registry : registry :=
  (danos_backend_register (Some (demo_backend 98 DANOS_OBJ_ACL))
     (danos_backend_register (Some (demo_backend 97 DANOS_OBJ_ROUTE)) danos_backend_reset).2).2.

Lemma capability_lookup_spec_witness :
  danos_core_capability_supported DANOS_OBJ_ACL demo_registry =
    existsb (supports DANOS_OBJ_ACL) (visible demo_registry) /\
  danos_capability_query None DANOS_OBJ_ACL demo_registry =
    query_spec (name_given None) DANOS_OBJ_ACL (visible demo_registry).
Proof. apply (capability_lookup_spec demo_registry None DANOS_OBJ_ACL). unfold demo_registry. auto with danos. Defined.

(** Unregistering a backend hides every backend registered after it:
    with the first slot freed, no capability is supported any more and a query
    by name fails, although the other backend is still registered (registering
    it again is refused as a duplicate). *)
Theorem unregister_hides_later_backends :
  let g := (danos_backend_unregister (Some [97]) demo_registry).2 in
  danos_core_capability_supported DANOS_OBJ_ACL demo_registry = true /\
  danos_core_capability_supported DANOS_OBJ_ACL g = false /\
  (danos_capability_query (Some [98]) DANOS_OBJ_ACL g).1 = DANOS_ERR_NOT_SUPPORTED /\
  (danos_backend_register (Some (demo_backend 98 DANOS_OBJ_ACL)) g).1 = DANOS_ERR_EXISTS.
Proof. vm_compute. split_and!; reflexivity. Qed.
