(* ===== verification/ObjectStore.v ===== *)
(** * The object store: danos-core object_registry.h / object_registry.c

    A hash table of chained buckets holding opaque blobs keyed by
    (type, id).  This file models the table itself; the guards, the
    allocation failures and the notification of the other components are in
    Registry.v.  The table is proved to refine a finite map. *)

From stdpp Require Import base decidable list numbers gmap sorting.
From Stdlib Require Import ZArith Lia.
From S2P Require Import Prelude Dpa.

Abbreviation obj_key := (danos_obj_type * Z)%type.

Record danos_object_entry := mk_entry {
  e_type : danos_obj_type;
  e_id : Z;
  e_data : bytes;           (* data, data_size bytes *)
}.

Record danos_object_store := mk_store {
  s_buckets : list (list danos_object_entry);
  s_bucket_count : nat;
  s_count : Z;              (* uint64_t *)
}.

Definition e_key (e : danos_object_entry) : obj_key := (e_type e, e_id e).
Definition e_size (e : danos_object_entry) : nat := length (e_data e).

(** object_registry.h, danos_obj_hash *)
Definition danos_obj_hash (type : danos_obj_type) (id : Z) (bucket_count : nat) : nat :=
  Z.to_nat (u64 (u64 (obj_type_code type * 2654435761) + id) mod Z.of_nat bucket_count).

Definition DEFAULT_BUCKET_COUNT : nat := 1024.

Definition danos_object_store_create (bucket_count : nat) : danos_object_store :=
  let n := if (bucket_count =? 0)%nat then DEFAULT_BUCKET_COUNT else bucket_count in
  mk_store (replicate n []) n 0.

Definition entry_is (type : danos_obj_type) (id : Z) (e : danos_object_entry) : bool :=
  bool_decide (e_type e = type) && (e_id e =? id).

Fixpoint chain_find (type : danos_obj_type) (id : Z) (l : list danos_object_entry)
    : option danos_object_entry :=
  match l with
  | [] => None
  | e :: l => if entry_is type id e then Some e else chain_find type id l
  end.

Definition bucket (s : danos_object_store) (h : nat) : list danos_object_entry :=
  default [] (s_buckets s !! h).

Definition find_entry (s : danos_object_store) (type : danos_obj_type) (id : Z)
    : option danos_object_entry :=
  chain_find type id (bucket s (danos_obj_hash type id (s_bucket_count s))).

(** Push a new entry at the head of its chain. *)
Definition store_push (s : danos_object_store) (e : danos_object_entry)
    : danos_object_store :=
  let h := danos_obj_hash (e_type e) (e_id e) (s_bucket_count s) in
  mk_store (<[h := e :: bucket s h]> (s_buckets s)) (s_bucket_count s)
           (u64 (s_count s + 1)).

Fixpoint chain_set (type : danos_obj_type) (id : Z) (d : bytes)
    (l : list danos_object_entry) : list danos_object_entry :=
  match l with
  | [] => []
  | e :: l => if entry_is type id e then mk_entry (e_type e) (e_id e) d :: l
              else e :: chain_set type id d l
  end.

(** [e->data = new_data; e->data_size = size] on the entry found. *)
Definition store_set (s : danos_object_store) (type : danos_obj_type) (id : Z)
    (d : bytes) : danos_object_store :=
  let h := danos_obj_hash type id (s_bucket_count s) in
  mk_store (<[h := chain_set type id d (bucket s h)]> (s_buckets s))
           (s_bucket_count s) (s_count s).

(** The unlinking walk of danos_object_delete: [None] when no entry matched. *)
Fixpoint chain_unlink (type : danos_obj_type) (id : Z) (l : list danos_object_entry)
    : option (list danos_object_entry) :=
  match l with
  | [] => None
  | e :: l => if entry_is type id e then Some l
              else cons e <$> chain_unlink type id l
  end.

Definition store_unlink (s : danos_object_store) (type : danos_obj_type) (id : Z)
    : option danos_object_store :=
  let h := danos_obj_hash type id (s_bucket_count s) in
  l ← chain_unlink type id (bucket s h);
  Some (mk_store (<[h := l]> (s_buckets s)) (s_bucket_count s)
                 (u64 (s_count s - 1))).

(** Bucket order, the order of danos_object_iterate. *)
Definition store_entries (s : danos_object_store) : list danos_object_entry :=
  mjoin (s_buckets s).

Definition danos_object_count (s : option danos_object_store) (type : danos_obj_type) : Z :=
  match s with
  | None => 0
  | Some s => u64 (Z.of_nat (length (filter (fun e => e_type e = type) (store_entries s))))
  end.

(** The callback [cb] folds over the entries; it may not change the store. *)
Definition danos_object_iterate {A} (s : option danos_object_store)
    (cb : A -> danos_object_entry -> A) (user : A) : A :=
  match s with
  | None => user
  | Some s => foldl cb user (store_entries s)
  end.

(** danos_object_read on the table: [out] is the caller's buffer, [out_size]
    its capacity; the result is the status, the buffer and [*out_size]. *)
Definition store_read (s : danos_object_store) (type : danos_obj_type) (id : Z)
    (out : option bytes) (out_size : nat) : danos_status * option bytes * nat :=
  match find_entry s type id with
  | None => (DANOS_ERR_NOT_FOUND, out, out_size)
  | Some e =>
      match out with
      | None => (DANOS_ERR_INVALID_ARG, None, e_size e)
      | Some buf =>
          if (out_size <? e_size e)%nat
          then (DANOS_ERR_INVALID_ARG, Some buf, e_size e)
          else (DANOS_OK, Some (cwrite buf 0 (e_data e)), e_size e)
      end
  end.

(** ** Abstract view and invariant *)

Definition store_map (s : danos_object_store) : gmap obj_key bytes :=
  list_to_map ((fun e => (e_key e, e_data e)) <$> store_entries s).

Record store_wf (s : danos_object_store) : Prop := {
  wf_nonempty : (0 < s_bucket_count s)%nat;
  wf_length : length (s_buckets s) = s_bucket_count s;
  wf_placed : forall h l e, s_buckets s !! h = Some l -> e ∈ l ->
    h = danos_obj_hash (e_type e) (e_id e) (s_bucket_count s);
  wf_nodup : NoDup (e_key <$> store_entries s);
  wf_count : s_count s = u64 (Z.of_nat (length (store_entries s)));
}.

(** ** Lemmas *)

Lemma obj_hash_lt t id n : (0 < n)%nat -> (danos_obj_hash t id n < n)%nat.
Proof.
  intros. unfold danos_obj_hash.
  pose proof (Z.mod_pos_bound (u64 (u64 (obj_type_code t * 2654435761) + id))
                (Z.of_nat n)). lia.
Qed.

Lemma entry_is_true t id e : entry_is t id e = true <-> e_key e = (t, id).
Proof.
  unfold entry_is, e_key. rewrite andb_true_iff, bool_decide_eq_true, Z.eqb_eq.
  split; [by intros [-> ->] | by intros [= -> ->]].
Qed.

Lemma entry_is_false t id e : entry_is t id e = false <-> e_key e <> (t, id).
Proof. rewrite <- entry_is_true. by destruct (entry_is t id e). Qed.

Lemma chain_find_Some t id l e :
  chain_find t id l = Some e -> e ∈ l /\ e_key e = (t, id).
Proof.
  induction l as [|x l IH]; simpl; [done|].
  destruct (entry_is t id x) eqn:E.
  - intros [= ->]. split; [left | by apply entry_is_true].
  - intros H. destruct (IH H). split; [by right | done].
Qed.

Lemma chain_find_None t id l :
  chain_find t id l = None <-> (forall e, e ∈ l -> e_key e <> (t, id)).
Proof.
  induction l as [|x l IH]; simpl.
  - split; [|done]. intros _ e He. by apply elem_of_nil in He.
  - destruct (entry_is t id x) eqn:E.
    + split; [done|]. intros H. exfalso. apply (H x); [left|].
      by apply entry_is_true.
    + rewrite IH. split; intros H e.
      * intros [->|?]%elem_of_cons; [by apply entry_is_false | auto].
      * intros He. apply H. by right.
Qed.

Lemma insert_join_perm {A} (ls : list (list A)) h l l' :
  ls !! h = Some l ->
  exists rest, mjoin ls ≡ₚ l ++ rest /\ mjoin (<[h := l']> ls) ≡ₚ l' ++ rest.
Proof.
  intros Hl. exists (mjoin (take h ls) ++ mjoin (drop (S h) ls)).
  pose proof (lookup_lt_Some _ _ _ Hl).
  rewrite insert_take_drop by done.
  rewrite <- (take_drop_middle ls h l Hl) at 1.
  rewrite !join_app. simpl. split; solve_Permutation.
Qed.

Lemma NoDup_fmap_unique {A B} (f : A -> B) (l : list A) x y :
  NoDup (f <$> l) -> x ∈ l -> y ∈ l -> f x = f y -> x = y.
Proof.
  intros Hnd [i Hi]%list_elem_of_lookup [j Hj]%list_elem_of_lookup Hf.
  assert (i = j) as ->; [|congruence].
  eapply (NoDup_lookup _ i j (f x) Hnd); rewrite list_lookup_fmap.
  - by rewrite Hi.
  - by rewrite Hj, Hf.
Qed.

Section wf.
Context (s : danos_object_store) (Hwf : store_wf s).

Lemma wf_bucket t id :
  let h := danos_obj_hash t id (s_bucket_count s) in
  s_buckets s !! h = Some (bucket s h).
Proof.
  intros h. unfold bucket. destruct (s_buckets s !! h) eqn:E; [done|].
  apply lookup_ge_None in E. rewrite (wf_length s Hwf) in E.
  pose proof (obj_hash_lt t id _ (wf_nonempty s Hwf)). subst h. lia.
Qed.

Lemma find_entry_Some t id e :
  find_entry s t id = Some e <-> e ∈ store_entries s /\ e_key e = (t, id).
Proof.
  unfold find_entry. split.
  - intros H. apply chain_find_Some in H as [Hin Hk]. split; [|done].
    apply list_elem_of_join. eexists. split; [done|].
    eapply list_elem_of_lookup_2, wf_bucket.
  - intros [Hin Hk].
    apply list_elem_of_join in Hin as Hin'. destruct Hin' as (l & Hel & Hl).
    apply list_elem_of_lookup in Hl as [h Hh].
    pose proof (wf_placed s Hwf _ _ _ Hh Hel) as Hp.
    assert (danos_obj_hash t id (s_bucket_count s) = h) as ->.
    { rewrite Hp. unfold e_key in Hk. by simplify_eq. }
    unfold bucket. rewrite Hh. simpl.
    destruct (chain_find t id l) as [e'|] eqn:E.
    + apply chain_find_Some in E as [Hel' Hk']. f_equal.
      eapply (NoDup_fmap_unique e_key); [apply (wf_nodup s Hwf)| |done|congruence].
      apply list_elem_of_join. exists l. split; [done|].
      by eapply list_elem_of_lookup_2.
    + rewrite chain_find_None in E. by destruct (E e Hel).
Qed.

Lemma find_entry_None t id :
  find_entry s t id = None <-> (forall e, e ∈ store_entries s -> e_key e <> (t, id)).
Proof.
  split.
  - intros H e He Hk.
    assert (find_entry s t id = Some e) by (by apply find_entry_Some). congruence.
  - intros H. destruct (find_entry s t id) as [e|] eqn:E; [|done].
    apply find_entry_Some in E as [He Hk]. by destruct (H e He).
Qed.

Lemma kvs_fst (es : list danos_object_entry) :
  ((fun e => (e_key e, e_data e)) <$> es).*1 = e_key <$> es.
Proof. rewrite <- list_fmap_compose. done. Qed.

Lemma store_map_lookup t id : store_map s !! (t, id) = e_data <$> find_entry s t id.
Proof.
  unfold store_map. destruct (find_entry s t id) as [e|] eqn:E; simpl.
  - apply find_entry_Some in E as [He Hk].
    apply elem_of_list_to_map_1.
    + rewrite kvs_fst. apply (wf_nodup s Hwf).
    + apply list_elem_of_fmap. exists e. by rewrite Hk.
  - apply not_elem_of_list_to_map_1. rewrite kvs_fst.
    intros (e & Hk & He)%list_elem_of_fmap.
    rewrite find_entry_None in E. by destruct (E e He).
Qed.
End wf.

(** What one table operation does to the entries and to the abstract map. *)

Lemma store_map_perm s es :
  store_wf s -> store_entries s ≡ₚ es ->
  store_map s = list_to_map ((fun e => (e_key e, e_data e)) <$> es).
Proof.
  intros Hwf Hp. apply list_to_map_proper.
  - rewrite kvs_fst. apply (wf_nodup s Hwf).
  - by apply fmap_Permutation.
Qed.

Lemma replace_bucket_wf s h l' n rest :
  store_wf s -> (h < s_bucket_count s)%nat ->
  (forall e, e ∈ l' -> h = danos_obj_hash (e_type e) (e_id e) (s_bucket_count s)) ->
  mjoin (<[h := l']> (s_buckets s)) ≡ₚ l' ++ rest ->
  NoDup (e_key <$> (l' ++ rest)) ->
  n = u64 (Z.of_nat (length (l' ++ rest))) ->
  store_wf (mk_store (<[h := l']> (s_buckets s)) (s_bucket_count s) n).
Proof.
  intros Hwf Hh Hpl Hperm Hnd Hn. split; simpl.
  - apply (wf_nonempty s Hwf).
  - rewrite length_insert. apply (wf_length s Hwf).
  - intros h' l e Hl He. destruct (decide (h = h')) as [<-|Hne].
    + rewrite list_lookup_insert_eq in Hl; [|by rewrite (wf_length s Hwf)].
      simplify_eq. auto.
    + rewrite list_lookup_insert_ne in Hl by done.
      by eapply (wf_placed s Hwf).
  - unfold store_entries. simpl. by rewrite Hperm.
  - unfold store_entries. simpl. by rewrite Hperm.
Qed.

Lemma store_push_entries s e :
  store_wf s -> store_entries (store_push s e) ≡ₚ e :: store_entries s.
Proof.
  intros Hwf. unfold store_entries, store_push. simpl.
  destruct (insert_join_perm (s_buckets s) _ _
     (e :: bucket s (danos_obj_hash (e_type e) (e_id e) (s_bucket_count s)))
     (wf_bucket s Hwf (e_type e) (e_id e))) as (rest & H1 & H2).
  rewrite H2, H1. done.
Qed.

Lemma store_push_wf s e :
  store_wf s -> find_entry s (e_type e) (e_id e) = None -> store_wf (store_push s e).
Proof.
  intros Hwf Hnone.
  pose proof (wf_bucket s Hwf (e_type e) (e_id e)) as Hb.
  destruct (insert_join_perm (s_buckets s) _ _
     (e :: bucket s (danos_obj_hash (e_type e) (e_id e) (s_bucket_count s))) Hb)
     as (rest & H1 & H2).
  eapply replace_bucket_wf; [done| |..|exact H2| |].
  - apply obj_hash_lt, Hwf.
  - intros x [->|Hx]%elem_of_cons; [done|]. by eapply (wf_placed s Hwf).
  - simpl. constructor.
    + intros (x & Hk & Hx)%list_elem_of_fmap.
      rewrite find_entry_None in Hnone by done.
      apply (Hnone x); [|done]. unfold store_entries. by rewrite H1.
    + pose proof (wf_nodup s Hwf) as Hnd. unfold store_entries in Hnd.
      by rewrite H1 in Hnd.
  - rewrite (wf_count s Hwf). unfold store_entries. rewrite H1.
    unfold u64. rewrite Zplus_mod_idemp_l. f_equal. simpl length. lia.
Qed.

Lemma store_push_map s e :
  store_wf s -> find_entry s (e_type e) (e_id e) = None ->
  store_map (store_push s e) = <[e_key e := e_data e]> (store_map s).
Proof.
  intros Hwf Hn.
  rewrite (store_map_perm _ _ (store_push_wf s e Hwf Hn) (store_push_entries s e Hwf)).
  done.
Qed.

Lemma chain_set_perm t id d l e :
  chain_find t id l = Some e ->
  exists rest, l ≡ₚ e :: rest /\ chain_set t id d l ≡ₚ mk_entry t id d :: rest.
Proof.
  induction l as [|x l IH]; simpl; [done|].
  destruct (entry_is t id x) eqn:E.
  - intros [= ->]. exists l. split; [done|].
    apply entry_is_true in E. unfold e_key in E. by simplify_eq/=.
  - intros H. destruct (IH H) as (rest & H1 & H2). exists (x :: rest).
    split; [rewrite H1 | rewrite H2]; solve_Permutation.
Qed.

Lemma chain_unlink_perm t id l e :
  chain_find t id l = Some e ->
  exists l', chain_unlink t id l = Some l' /\ l ≡ₚ e :: l'.
Proof.
  induction l as [|x l IH]; simpl; [done|].
  destruct (entry_is t id x) eqn:E.
  - intros [= ->]. by exists l.
  - intros H. destruct (IH H) as (l' & -> & H2). exists (x :: l').
    split; [done|]. rewrite H2. solve_Permutation.
Qed.

Lemma chain_unlink_None t id l :
  chain_find t id l = None -> chain_unlink t id l = None.
Proof.
  induction l as [|x l IH]; simpl; [done|].
  destruct (entry_is t id x); [done|]. intros H. by rewrite IH.
Qed.

Section found.
Context (s : danos_object_store) (Hwf : store_wf s).
Context (t : danos_obj_type) (id : Z) (e : danos_object_entry).
Context (Hfind : find_entry s t id = Some e).

Lemma store_set_split d :
  exists rest, store_entries s ≡ₚ e :: rest /\
    store_entries (store_set s t id d) ≡ₚ mk_entry t id d :: rest /\
    store_wf (store_set s t id d).
Proof.
  destruct (chain_set_perm t id d _ e Hfind) as (r0 & Hr1 & Hr2).
  destruct (insert_join_perm (s_buckets s) _ _
    (chain_set t id d (bucket s (danos_obj_hash t id (s_bucket_count s))))
    (wf_bucket s Hwf t id)) as (rest & H1 & H2).
  rewrite Hr1 in H1. exists (r0 ++ rest).
  assert (e_key e = (t, id)) as Hk by (by apply chain_find_Some in Hfind as [_ ?]).
  split; [done|]. split; [unfold store_entries; simpl; by rewrite H2, Hr2|].
  pose proof (wf_nodup s Hwf) as Hnd. unfold store_entries in Hnd. rewrite H1 in Hnd.
  eapply replace_bucket_wf; [done|apply obj_hash_lt, Hwf| |exact H2| |].
  - intros x. rewrite Hr2. intros [->|Hx]%elem_of_cons; [done|].
    eapply (wf_placed s Hwf); [apply (wf_bucket s Hwf t id)|]. rewrite Hr1. by right.
  - rewrite Hr2. simpl in *. by rewrite Hk in Hnd.
  - rewrite (wf_count s Hwf). unfold store_entries. by rewrite H1, Hr2.
Qed.

Lemma store_set_wf d : store_wf (store_set s t id d).
Proof. by destruct (store_set_split d) as (? & _ & _ & ?). Qed.

Lemma store_set_map d : store_map (store_set s t id d) = <[(t, id) := d]> (store_map s).
Proof.
  destruct (store_set_split d) as (rest & H1 & H2 & H3).
  rewrite (store_map_perm _ _ H3 H2), (store_map_perm _ _ Hwf H1). simpl.
  assert (e_key e = (t, id)) as -> by (by apply chain_find_Some in Hfind as [_ ?]).
  by rewrite insert_insert_eq.
Qed.

Lemma store_unlink_split :
  exists s', store_unlink s t id = Some s' /\ store_wf s' /\
    store_entries s ≡ₚ e :: store_entries s'.
Proof.
  destruct (chain_unlink_perm t id _ e Hfind) as (l' & Hu & Hl').
  unfold store_unlink. rewrite Hu. simpl. eexists. split; [done|].
  destruct (insert_join_perm (s_buckets s) _ _ l' (wf_bucket s Hwf t id))
    as (rest & H1 & H2).
  rewrite Hl' in H1.
  pose proof (wf_nodup s Hwf) as Hnd. unfold store_entries in Hnd. rewrite H1 in Hnd.
  apply NoDup_cons in Hnd as [_ Hnd].
  split; [|unfold store_entries; simpl; by rewrite H1, H2].
  eapply replace_bucket_wf; [done|apply obj_hash_lt, Hwf| |exact H2|done|].
  - intros x Hx. eapply (wf_placed s Hwf); [apply (wf_bucket s Hwf t id)|].
    rewrite Hl'. by right.
  - rewrite (wf_count s Hwf). unfold store_entries. rewrite H1. simpl length.
    unfold u64. rewrite Zminus_mod_idemp_l. f_equal. lia.
Qed.

Lemma store_unlink_map s' :
  store_unlink s t id = Some s' -> store_map s' = delete (t, id) (store_map s).
Proof.
  destruct store_unlink_split as (s2 & -> & Hwf2 & Hp). intros [= <-].
  rewrite (store_map_perm _ _ Hwf Hp). simpl.
  assert (e_key e = (t, id)) as Hk by (by apply chain_find_Some in Hfind as [_ ?]).
  rewrite Hk, delete_insert_eq, delete_id; [done|].
  apply not_elem_of_list_to_map_1. rewrite kvs_fst, <- Hk.
  pose proof (wf_nodup s Hwf) as Hnd. rewrite Hp in Hnd. by apply NoDup_cons in Hnd as [? _].
Qed.
End found.

Lemma store_unlink_None s t id :
  find_entry s t id = None -> store_unlink s t id = None.
Proof. intros H. unfold store_unlink. by rewrite (chain_unlink_None _ _ _ H). Qed.

Lemma join_replicate_nil {A} n : mjoin (replicate n (@nil A)) = (@nil A).
Proof. induction n; simpl; done. Qed.

Lemma store_create_wf n : store_wf (danos_object_store_create n).
Proof.
  unfold danos_object_store_create.
  assert (0 < if (n =? 0)%nat then DEFAULT_BUCKET_COUNT else n)%nat as Hm.
  { destruct n; unfold DEFAULT_BUCKET_COUNT; simpl; lia. }
  revert Hm. generalize (if (n =? 0)%nat then DEFAULT_BUCKET_COUNT else n).
  intros m Hm.
  split; unfold store_entries; simpl; rewrite ?length_replicate, ?join_replicate_nil;
    try done.
  - intros h l e [-> _]%lookup_replicate He. by apply elem_of_nil in He.
  - constructor.
Qed.

Lemma store_create_map n : store_map (danos_object_store_create n) = ∅.
Proof.
  unfold store_map, store_entries, danos_object_store_create. simpl.
  by rewrite join_replicate_nil.
Qed.

#[export] Hint Resolve store_create_wf store_push_wf store_set_wf : danos.
