(* ===== verification/Wal.v ===== *)
(** * Write-ahead log: danos-core wal.h / wal.c

    The operating system is a file store together with the stream of its
    answers: each [fopen], [fwrite], [fflush], [fsync] and allocation takes
    the next answer, so that failures and short writes at any point are part
    of the model.  An exhausted stream answers "success". *)

From stdpp Require Import base decidable list numbers gmap.
From Stdlib Require Import ZArith Lia.
From S2P Require Import Prelude Dpa.

(** ** Operating system *)

Inductive answer : Type :=
  | A_ok
  | A_fail
  | A_short (n : nat).      (* only [n] bytes were taken *)

Record os := mk_os {
  os_env : list answer;
  os_files : gmap bytes bytes;   (* path to contents *)
}.

Definition ask (o : os) : answer * os :=
  match os_env o with
  | [] => (A_ok, o)
  | a :: r => (a, mk_os r (os_files o))
  end.

Definition granted (a : answer) : bool :=
  match a with A_fail => false | _ => true end.

(** [malloc]/[calloc]: does the allocator return a block? *)
Definition alloc (o : os) : bool * os :=
  let '(a, o) := ask o in (granted a, o).

Definition file (o : os) (path : bytes) : option bytes := os_files o !! path.
Definition set_file (o : os) (path d : bytes) : os :=
  mk_os (os_env o) (<[path := d]> (os_files o)).

(** A [FILE *] open for append: its path and the bytes not yet flushed. *)
Record stream := mk_stream { f_path : bytes; f_buf : bytes }.

Definition accepted (a : answer) (len : nat) : nat :=
  match a with A_ok => len | A_fail => 0%nat | A_short n => Nat.min n len end.

Definition fopen_append (path : bytes) (o : os) : option stream * os :=
  let '(a, o) := ask o in
  if granted a
  then (Some (mk_stream path []), set_file o path (default [] (file o path)))
  else (None, o).

Definition fwrite (d : bytes) (f : stream) (o : os) : nat * stream * os :=
  let '(a, o) := ask o in
  let n := accepted a (length d) in
  (n, mk_stream (f_path f) (f_buf f ++ take n d), o).

Definition fflush (f : stream) (o : os) : stream * os :=
  let '(a, o) := ask o in
  let n := accepted a (length (f_buf f)) in
  (mk_stream (f_path f) (drop n (f_buf f)),
   set_file o (f_path f) (default [] (file o (f_path f)) ++ take n (f_buf f))).

Definition fclose (f : stream) (o : os) : os := (fflush f o).2.

(** ** Data *)

Definition WAL_OP_CREATE : Z := 1.
Definition WAL_OP_UPDATE : Z := 2.
Definition WAL_OP_DELETE : Z := 3.
Definition WAL_OP_COMMIT : Z := 4.
Definition WAL_OP_ABORT : Z := 5.

Definition WAL_MAGIC : Z := 0x444E4F53.
Definition WAL_HEADER_SIZE : nat := 23.
Definition WAL_MAX_DATA : Z := 1024 * 1024.

Record wal_record := mk_wal_record {
  wr_magic : Z;
  wr_tx_id : Z;
  wr_op_type : Z;
  wr_obj_type : Z;
  wr_obj_id : Z;
  wr_data_len : Z;
  wr_data : option bytes;
}.

Record wal_ctx := mk_wal_ctx {
  w_fp : option stream;
  w_path : bytes;           (* char path[256] *)
  w_enabled : bool;
  w_records_written : Z;
  w_bytes_written : Z;
}.

Definition wal_ctx_zero : wal_ctx := mk_wal_ctx None [] false 0 0.

(** ** CRC *)

Definition crc_step (crc : Z) : Z :=
  Z.lxor (Z.shiftr crc 1) (Z.land 0xEDB88320 (u32 (- Z.land crc 1))).

Definition crc_byte (crc b : Z) : Z := Nat.iter 8 crc_step (Z.lxor crc b).

Definition crc32_calc (data : bytes) : Z :=
  u32 (Z.lnot (foldl crc_byte 0xFFFFFFFF data)).

(** ** Writing *)

Definition danos_wal_init (path : option bytes) (o : os) : Z * wal_ctx * os :=
  match path with
  | None => (-1, wal_ctx_zero, o)
  | Some path =>
      let short := take 255 path in
      match fopen_append path o with
      | (None, o) => (-1, mk_wal_ctx None short false 0 0, o)
      | (Some fp, o) => (0, mk_wal_ctx (Some fp) short true 0 0, o)
      end
  end.

Definition danos_wal_close (ctx : wal_ctx) (o : os) : wal_ctx * os :=
  let o := match w_fp ctx with
           | Some fp => let '(fp, o) := fflush fp o in fclose fp o
           | None => o
           end in
  (mk_wal_ctx None (w_path ctx) false (w_records_written ctx) (w_bytes_written ctx), o).

Definition wal_header (rec : wal_record) : bytes :=
  le_bytes 4 WAL_MAGIC ++ le_bytes 8 (wr_tx_id rec) ++ le_bytes 1 (wr_op_type rec) ++
  le_bytes 2 (wr_obj_type rec) ++ le_bytes 4 (wr_obj_id rec) ++
  le_bytes 4 (wr_data_len rec).

(** The payload written: [rec->data_len > 0 && rec->data]. *)
Definition wal_payload (rec : wal_record) : bytes :=
  if 0 <? wr_data_len rec
  then take (Z.to_nat (wr_data_len rec)) (default [] (wr_data rec)) else [].

Definition wal_has_payload (rec : wal_record) : bool :=
  (0 <? wr_data_len rec) && bool_decide (is_Some (wr_data rec)).

Definition wal_crc (rec : wal_record) : Z :=
  let crc := crc32_calc (wal_header rec) in
  if wal_has_payload rec then Z.lxor (crc32_calc (wal_payload rec)) crc else crc.

Definition danos_wal_append (ctx : option wal_ctx) (rec : option wal_record) (o : os)
    : Z * option wal_ctx * os :=
  match ctx, rec with
  | Some c, Some rec =>
      match w_enabled c, w_fp c with
      | true, Some fp =>
          let '(n1, fp, o) := fwrite (wal_header rec) fp o in
          let '(n2, fp, o) :=
            if wal_has_payload rec then fwrite (wal_payload rec) fp o else (0%nat, fp, o) in
          let '(n3, fp, o) := fwrite (le_bytes 4 (wal_crc rec)) fp o in
          let written := Z.of_nat (n1 + n2 + n3) in
          if written =? u32 (Z.of_nat WAL_HEADER_SIZE + wr_data_len rec + 4)
          then (0, Some (mk_wal_ctx (Some fp) (w_path c) true
                           (u64 (w_records_written c + 1))
                           (u64 (w_bytes_written c + written))), o)
          else (-1, Some (mk_wal_ctx (Some fp) (w_path c) true
                            (w_records_written c) (w_bytes_written c)), o)
      | _, _ => (-1, ctx, o)
      end
  | _, _ => (-1, ctx, o)
  end.

Definition wal_marker (op tx_id : Z) : wal_record :=
  mk_wal_record WAL_MAGIC tx_id op 0 0 0 None.

Definition danos_wal_append_commit (ctx : option wal_ctx) (tx_id : Z) (o : os) :=
  danos_wal_append ctx (Some (wal_marker WAL_OP_COMMIT tx_id)) o.

Definition danos_wal_append_abort (ctx : option wal_ctx) (tx_id : Z) (o : os) :=
  danos_wal_append ctx (Some (wal_marker WAL_OP_ABORT tx_id)) o.

(** [fileno] of an open stream does not fail; [fsync] takes an answer. *)
Definition danos_wal_sync (ctx : option wal_ctx) (o : os) : Z * option wal_ctx * os :=
  match ctx with
  | Some c =>
      match w_fp c with
      | Some fp =>
          let '(fp, o) := fflush fp o in
          let '(a, o) := ask o in
          (if granted a then 0 else -1,
           Some (mk_wal_ctx (Some fp) (w_path c) (w_enabled c)
                   (w_records_written c) (w_bytes_written c)), o)
      | None => (-1, ctx, o)
      end
  | None => (-1, ctx, o)
  end.

Definition danos_wal_checkpoint (ctx : option wal_ctx) (o : os) : Z * option wal_ctx * os :=
  match ctx with
  | Some c =>
      match w_fp c with
      | Some fp =>
          let '(fp, o) := fflush fp o in
          let o := fclose fp o in
          let '(a, o) := ask o in
          let o := if granted a then set_file o (w_path c) [] else o in
          let '(fp, o) := fopen_append (w_path c) o in
          (match fp with Some _ => 0 | None => -1 end,
           Some (mk_wal_ctx fp (w_path c) (w_enabled c)
                   (w_records_written c) (w_bytes_written c)), o)
      | None => (-1, ctx, o)
      end
  | None => (-1, ctx, o)
  end.

Definition danos_wal_get_stats (ctx : wal_ctx) : Z * Z :=
  (w_records_written ctx, w_bytes_written ctx).

(** ** Replay *)

(** One iteration of the read loop on the rest of the file: the record and
    the bytes after it, or [None] when the loop breaks. *)
Definition replay_one (bs : bytes) (o : os) : option (wal_record * bytes) * os :=
  if (length bs <? WAL_HEADER_SIZE)%nat then (None, o) else
  let header := take WAL_HEADER_SIZE bs in
  let bs := drop WAL_HEADER_SIZE bs in
  let magic := le_val (cread header 0 4) in
  if negb (magic =? WAL_MAGIC) then (None, o) else
  let len := le_val (cread header 19 4) in
  if WAL_MAX_DATA <? len then (None, o) else
  let '(ok, o) := if 0 <? len then alloc o else (true, o) in
  if negb ok then (None, o) else
  let n := Z.to_nat len in
  if (length bs <? n)%nat then (None, o) else
  let data := if 0 <? len then Some (take n bs) else None in
  let bs := drop n bs in
  if (length bs <? 4)%nat then (None, o) else
  let stored_crc := le_val (take 4 bs) in
  let bs := drop 4 bs in
  let calc_crc :=
    match data with
    | Some d => Z.lxor (crc32_calc d) (crc32_calc header)
    | None => crc32_calc header
    end in
  if negb (calc_crc =? stored_crc) then (None, o) else
  (Some (mk_wal_record magic (le_val (cread header 4 8)) (le_val (cread header 12 1))
           (le_val (cread header 13 2)) (le_val (cread header 15 4)) len data, bs), o).

Section replay.
Context {A : Type} (cb : wal_record -> A -> os -> A * os).

(** Each iteration consumes at least a header, so the length of the file is
    enough fuel. *)
Fixpoint replay_loop (fuel : nat) (bs : bytes) (acc : A) (replayed : Z) (o : os)
    : Z * A * os :=
  match fuel with
  | O => (replayed, acc, o)
  | S fuel =>
      match replay_one bs o with
      | (None, o) => (replayed, acc, o)
      | (Some (rec, bs), o) =>
          let '(acc, o) := cb rec acc o in
          replay_loop fuel bs acc (replayed + 1) o
      end
  end.

Definition danos_wal_replay (path : option bytes) (acc : A) (o : os) : Z * A * os :=
  match path with
  | None => (-1, acc, o)
  | Some path =>
      match file o path with
      | None => (0, acc, o)
      | Some bs =>
          let '(a, o) := ask o in
          if granted a then replay_loop (length bs) bs acc 0 o else (0, acc, o)
      end
  end.
End replay.

#[global] Arguments danos_wal_init : simpl never.
#[global] Arguments danos_wal_append : simpl never.
#[global] Arguments danos_wal_sync : simpl never.
#[global] Arguments danos_wal_checkpoint : simpl never.
#[global] Arguments danos_wal_replay : simpl never.

(** ** Specification of the record format *)

Definition wal_encode (rec : wal_record) : bytes :=
  wal_header rec ++ wal_payload rec ++ le_bytes 4 (wal_crc rec).

Definition wal_log (recs : list wal_record) : bytes := mjoin (wal_encode <$> recs).

(** A record as the program builds them: fields in range, a payload exactly
    when [data_len] is not zero, at most the 1 MB the reader accepts. *)
Record wal_wf (rec : wal_record) : Prop := {
  ww_magic : wr_magic rec = WAL_MAGIC;
  ww_tx : is_uint 8 (wr_tx_id rec);
  ww_op : is_uint 1 (wr_op_type rec);
  ww_type : is_uint 2 (wr_obj_type rec);
  ww_id : is_uint 4 (wr_obj_id rec);
  ww_len : 0 <= wr_data_len rec <= WAL_MAX_DATA;
  ww_data : match wr_data rec with
            | None => wr_data_len rec = 0
            | Some d => wr_data_len rec = Z.of_nat (length d) /\ d <> []
            end;
}.

Lemma length_wal_header rec : length (wal_header rec) = WAL_HEADER_SIZE.
Proof. unfold wal_header, WAL_HEADER_SIZE. struct_len. Qed.

Lemma crc_range d : is_uint 4 (crc32_calc d).
Proof. unfold crc32_calc. pose proof (u32_range (Z.lnot (foldl crc_byte 0xFFFFFFFF d))). done. Qed.

Lemma log2_u32 x : 0 <= x < 2 ^ 32 -> Z.log2 x < 32.
Proof.
  intros Hx. destruct (decide (x = 0)) as [->|Hne]; [done|].
  apply Z.log2_lt_pow2; lia.
Qed.

Lemma lxor_uint4 a b : is_uint 4 a -> is_uint 4 b -> is_uint 4 (Z.lxor a b).
Proof.
  unfold is_uint. change (256 ^ Z.of_nat 4) with (2 ^ 32). intros Ha Hb.
  assert (0 <= Z.lxor a b) as H0 by (apply Z.lxor_nonneg; tauto).
  split; [done|].
  destruct (decide (Z.lxor a b = 0)) as [->|Hne]; [lia|].
  apply Z.log2_lt_pow2; [lia|].
  pose proof (Z.log2_lxor a b (proj1 Ha) (proj1 Hb)).
  pose proof (log2_u32 a Ha). pose proof (log2_u32 b Hb). lia.
Qed.

Lemma wal_crc_range rec : is_uint 4 (wal_crc rec).
Proof.
  unfold wal_crc. destruct (wal_has_payload rec); auto using lxor_uint4, crc_range.
Qed.

Lemma wal_payload_wf rec :
  wal_wf rec ->
  length (wal_payload rec) = Z.to_nat (wr_data_len rec) /\
  (if 0 <? wr_data_len rec then Some (wal_payload rec) else None) = wr_data rec /\
  wal_has_payload rec = (0 <? wr_data_len rec).
Proof.
  intros [_ _ _ _ _ _ Hd]. unfold wal_payload, wal_has_payload.
  destruct (wr_data rec) as [d|].
  - destruct Hd as [-> Hne]. rewrite Nat2Z.id.
    assert (0 < length d)%nat by (destruct d; [done | simpl; lia]).
    rewrite (proj2 (Z.ltb_lt 0 _)) by lia. simpl. rewrite take_ge by done.
    done.
  - rewrite Hd. done.
Qed.

Lemma length_wal_encode rec :
  wal_wf rec ->
  length (wal_encode rec) = (WAL_HEADER_SIZE + Z.to_nat (wr_data_len rec) + 4)%nat.
Proof.
  intros Hwf. destruct (wal_payload_wf rec Hwf) as (Hl & _ & _).
  unfold wal_encode. rewrite !length_app, Hl, length_wal_header, length_le_bytes. lia.
Qed.

Lemma wal_header_fields rec :
  wal_wf rec ->
  le_val (cread (wal_header rec) 0 4) = WAL_MAGIC /\
  le_val (cread (wal_header rec) 4 8) = wr_tx_id rec /\
  le_val (cread (wal_header rec) 12 1) = wr_op_type rec /\
  le_val (cread (wal_header rec) 13 2) = wr_obj_type rec /\
  le_val (cread (wal_header rec) 15 4) = wr_obj_id rec /\
  le_val (cread (wal_header rec) 19 4) = wr_data_len rec.
Proof.
  intros [_ ? ? ? ? Hlen _].
  assert (is_uint 4 (wr_data_len rec)) by (unfold is_uint, WAL_MAX_DATA in *; lia).
  assert (is_uint 4 WAL_MAGIC) by (unfold is_uint, WAL_MAGIC; lia).
  unfold wal_header. split_and!; struct_field.
Qed.

(** Reading a complete record gives it back, and leaves the rest. *)
Lemma replay_one_encode rec rest o :
  wal_wf rec -> os_env o = [] ->
  replay_one (wal_encode rec ++ rest) o = (Some (rec, rest), o).
Proof.
  intros Hwf Henv.
  destruct (wal_payload_wf rec Hwf) as (Hpl & Hpd & Hph).
  destruct (wal_header_fields rec Hwf) as (Hm & Htx & Hop & Hty & Hid & Hln).
  pose proof (ww_len rec Hwf) as Hlen.
  unfold replay_one, wal_encode. rewrite <- !app_assoc.
  rewrite (proj2 (Nat.ltb_ge _ _)) by (rewrite !length_app, length_wal_header; lia).
  rewrite take_app_length' by (by rewrite length_wal_header).
  rewrite drop_app_length' by (by rewrite length_wal_header).
  rewrite Hm, Hln, Z.eqb_refl. simpl negb. cbv iota.
  rewrite (proj2 (Z.ltb_ge _ _)) by lia.
  replace (if 0 <? wr_data_len rec then alloc o else (true, o)) with (true, o)
    by (unfold alloc, ask; rewrite Henv; by destruct (0 <? wr_data_len rec)).
  simpl negb. cbv iota.
  rewrite (proj2 (Nat.ltb_ge _ _)) by (rewrite length_app, Hpl; lia).
  rewrite take_app_length', drop_app_length' by done.
  rewrite (proj2 (Nat.ltb_ge _ _)) by (rewrite length_app, length_le_bytes; lia).
  rewrite take_app_length', drop_app_length' by (by rewrite length_le_bytes).
  rewrite Hpd, le_val_le_bytes by apply wal_crc_range.
  assert (match wr_data rec with
          | Some d => Z.lxor (crc32_calc d) (crc32_calc (wal_header rec))
          | None => crc32_calc (wal_header rec)
          end = wal_crc rec) as ->.
  { unfold wal_crc. rewrite Hph, <- Hpd. by destruct (0 <? wr_data_len rec). }
  rewrite Z.eqb_refl. simpl negb. cbv iota. rewrite Htx, Hop, Hty, Hid.
  do 3 f_equal. rewrite <- (ww_magic rec Hwf). by destruct rec.
Qed.

(** A record cut short by a crash is not delivered. *)
Lemma replay_one_torn rec n o :
  wal_wf rec -> os_env o = [] -> (n < length (wal_encode rec))%nat ->
  replay_one (take n (wal_encode rec)) o = (None, o).
Proof.
  intros Hwf Henv Hn.
  destruct (wal_payload_wf rec Hwf) as (Hpl & Hpd & Hph).
  destruct (wal_header_fields rec Hwf) as (Hm & _ & _ & _ & _ & Hln).
  pose proof (ww_len rec Hwf) as Hlen.
  rewrite (length_wal_encode rec Hwf) in Hn.
  unfold replay_one. rewrite length_take, (length_wal_encode rec Hwf).
  destruct (Nat.ltb_spec (Nat.min n (WAL_HEADER_SIZE + Z.to_nat (wr_data_len rec) + 4))
              WAL_HEADER_SIZE) as [|Hge]; [done|].
  rewrite take_take, Nat.min_l by lia. unfold wal_encode.
  rewrite take_app_length' by (by rewrite length_wal_header).
  rewrite Hm, Hln, Z.eqb_refl. simpl negb. cbv iota.
  rewrite (proj2 (Z.ltb_ge _ _)) by lia.
  replace (if 0 <? wr_data_len rec then alloc o else (true, o)) with (true, o)
    by (unfold alloc, ask; rewrite Henv; by destruct (0 <? wr_data_len rec)).
  simpl negb. cbv iota.
  rewrite !length_drop, length_take, !length_app, length_wal_header, Hpl, length_le_bytes.
  destruct (Nat.ltb_spec
    (Nat.min n (WAL_HEADER_SIZE + (Z.to_nat (wr_data_len rec) + 4)) - WAL_HEADER_SIZE)
    (Z.to_nat (wr_data_len rec))) as [|Hge2]; [done|].
  rewrite (proj2 (Nat.ltb_lt _ _)) by lia. done.
Qed.

Lemma alloc_granted o : os_env o = [] -> alloc o = (true, o).
Proof. intros Henv. unfold alloc, ask. by rewrite Henv. Qed.

(** No record can be read from [tail]. *)
Definition wal_stuck (tail : bytes) : Prop :=
  forall o, os_env o = [] -> replay_one tail o = (None, o).

Lemma wal_stuck_nil : wal_stuck [].
Proof. done. Qed.

Section replay_facts.
Context {A : Type} (cb : wal_record -> A -> os -> A * os).
Context (cb_env : forall r a o, os_env o = [] -> os_env (cb r a o).2 = []).

Definition replay_fold (recs : list wal_record) (acc : A) (o : os) : A * os :=
  foldl (fun ao r => cb r ao.1 ao.2) (acc, o) recs.

Lemma replay_loop_log recs tail fuel acc k o :
  Forall wal_wf recs -> wal_stuck tail -> os_env o = [] ->
  (length recs <= fuel)%nat ->
  replay_loop cb fuel (wal_log recs ++ tail) acc k o =
  (k + Z.of_nat (length recs), (replay_fold recs acc o).1, (replay_fold recs acc o).2).
Proof.
  intros Hwf Hst. revert fuel acc k o.
  induction Hwf as [|r recs Hr _ IH]; intros fuel acc k o Henv Hf.
  - destruct fuel; simpl; [by rewrite Z.add_0_r|].
    by rewrite (Hst o Henv), Z.add_0_r.
  - destruct fuel as [|fuel]; simpl in Hf; [lia|]. simpl.
    change (wal_log (r :: recs)) with (wal_encode r ++ wal_log recs).
    rewrite <- app_assoc, (replay_one_encode r _ o Hr Henv).
    destruct (cb r acc o) as [acc' o'] eqn:Ecb.
    pose proof (cb_env r acc o Henv) as Henv'. rewrite Ecb in Henv'.
    rewrite IH by (done || lia). unfold replay_fold. simpl.
    rewrite Ecb. do 2 f_equal. lia.
Qed.

Lemma length_wal_log_ge recs :
  Forall wal_wf recs -> (length recs <= length (wal_log recs))%nat.
Proof.
  induction 1 as [|r recs Hr _ IH]; [simpl; lia|].
  change (wal_log (r :: recs)) with (wal_encode r ++ wal_log recs).
  rewrite length_app, (length_wal_encode r Hr). unfold WAL_HEADER_SIZE. simpl. lia.
Qed.

Lemma wal_replay_log recs tail path acc o :
  Forall wal_wf recs -> wal_stuck tail -> os_env o = [] ->
  file o path = Some (wal_log recs ++ tail) ->
  danos_wal_replay cb (Some path) acc o =
  (Z.of_nat (length recs), (replay_fold recs acc o).1, (replay_fold recs acc o).2).
Proof.
  intros Hwf Hst Henv Hfile. unfold danos_wal_replay, ask.
  rewrite Hfile, Henv. simpl. rewrite replay_loop_log; [done..|].
  rewrite length_app. pose proof (length_wal_log_ge recs Hwf). lia.
Qed.

(** Every prefix of a log is some complete records and an unreadable tail. *)
Lemma wal_log_take recs n :
  Forall wal_wf recs ->
  exists k tail, take n (wal_log recs) = wal_log (take k recs) ++ tail /\
    wal_stuck tail /\ (k <= length recs)%nat /\
    (length (wal_log (take k recs)) <= n)%nat /\
    (k < length recs -> n < length (wal_log (take (S k) recs)))%nat.
Proof.
  intros Hwf. revert n. induction Hwf as [|r recs Hr Hrs IH]; intros n.
  - exists 0%nat, []. simpl take. change (wal_log []) with (@nil Z).
    rewrite take_nil. simpl. split_and!; try done; lia.
  - change (wal_log (r :: recs)) with (wal_encode r ++ wal_log recs).
    destruct (decide (length (wal_encode r) <= n)%nat) as [Hle|Hgt].
    + destruct (IH (n - length (wal_encode r))%nat)
        as (k & tail & Ht & Hst & Hk & Hlen & Hnext).
      exists (S k), tail. rewrite take_app_ge, Ht by done. simpl take.
      change (wal_log (r :: take k recs)) with (wal_encode r ++ wal_log (take k recs)).
      change (wal_log (r :: take (S k) recs))
        with (wal_encode r ++ wal_log (take (S k) recs)).
      rewrite <- app_assoc, !length_app. simpl length.
      split_and!; try done; lia.
    + exists 0%nat, (take n (wal_encode r)). simpl take.
      rewrite take_app_le by lia. change (wal_log []) with (@nil Z).
      split_and!; try done; try (simpl; lia).
      * intros o Henv. apply replay_one_torn; [done|done|lia].
      * intros _. unfold wal_log. simpl. rewrite app_nil_r. lia.
Qed.
End replay_facts.

(** ** Writing a log *)

(** [ctx] is open on [path], the file holds [contents] and [buf] is pending. *)
Record wal_open (ctx : wal_ctx) (path contents buf : bytes) (o : os) : Prop := {
  wo_fp : w_fp ctx = Some (mk_stream path buf);
  wo_path : w_path ctx = path;
  wo_enabled : w_enabled ctx = true;
  wo_file : file o path = Some contents;
  wo_env : os_env o = [];
}.

Lemma file_set_eq o path d : file (set_file o path d) path = Some d.
Proof. unfold file, set_file. simpl. by rewrite lookup_insert_eq. Qed.

Lemma wal_init_open path o :
  (length path <= 255)%nat -> os_env o = [] ->
  exists ctx o', danos_wal_init (Some path) o = (0, ctx, o') /\
    wal_open ctx path (default [] (file o path)) [] o'.
Proof.
  intros Hlen Henv. unfold danos_wal_init, fopen_append, ask. rewrite Henv. simpl.
  do 2 eexists. split; [done|]. split; simpl; rewrite ?take_ge by lia; try done.
  apply file_set_eq.
Qed.

Lemma wal_append_open ctx path contents buf o rec :
  wal_open ctx path contents buf o -> wal_wf rec ->
  exists ctx', danos_wal_append (Some ctx) (Some rec) o = (0, Some ctx', o) /\
    wal_open ctx' path contents (buf ++ wal_encode rec) o.
Proof.
  intros [Hfp Hp Hen Hfile Henv] Hwf.
  destruct (wal_payload_wf rec Hwf) as (Hl & _ & Hhas).
  pose proof (ww_len rec Hwf) as Hlen.
  unfold danos_wal_append. rewrite Hen, Hfp.
  rewrite (u32_small (Z.of_nat WAL_HEADER_SIZE + _ + 4)) by (unfold is_u32, WAL_HEADER_SIZE, WAL_MAX_DATA in *; lia).
  unfold fwrite, ask. rewrite !Henv. simpl.
  rewrite firstn_all, Hhas.
  destruct (Z.ltb_spec 0 (wr_data_len rec)) as [Hpos|Hz]; rewrite Henv; simpl.
  - rewrite !firstn_all, length_wal_header, Hl, length_le_bytes.
    rewrite (proj2 (Z.eqb_eq _ _)) by (unfold WAL_HEADER_SIZE; lia).
    eexists. split; [done|]. unfold wal_encode. split; simpl; rewrite ?Hp; try done.
    by rewrite <- !app_assoc.
  - assert (wr_data_len rec = 0) as H0 by lia.
    rewrite !firstn_all, length_wal_header, length_le_bytes.
    rewrite (proj2 (Z.eqb_eq _ _)) by (unfold WAL_HEADER_SIZE; lia).
    eexists. split; [done|]. unfold wal_encode. split; simpl; rewrite ?Hp; try done.
    assert (wal_payload rec = []) as ->; [|by rewrite <- app_assoc].
    apply length_zero_iff_nil. rewrite Hl. lia.
Qed.

Lemma wal_sync_open ctx path contents buf o :
  wal_open ctx path contents buf o ->
  exists ctx' o', danos_wal_sync (Some ctx) o = (0, Some ctx', o') /\
    wal_open ctx' path (contents ++ buf) [] o' /\
    (forall p, p <> path -> file o' p = file o p).
Proof.
  intros [Hfp Hp Hen Hfile Henv].
  unfold danos_wal_sync. rewrite Hfp. unfold fflush, ask. rewrite Henv. simpl.
  rewrite Henv. simpl. do 2 eexists. split; [done|].
  rewrite drop_all, firstn_all, Hfile. simpl. split.
  - split; simpl; try done. apply file_set_eq.
  - intros p Hne. unfold file, set_file. simpl. by rewrite lookup_insert_ne.
Qed.

Definition wal_append_all (ctx : wal_ctx) (recs : list wal_record) (o : os)
    : wal_ctx * os :=
  foldl (fun co r => let '(_, c, o) := danos_wal_append (Some co.1) (Some r) co.2 in
                     (default wal_ctx_zero c, o)) (ctx, o) recs.

Lemma wal_append_all_open recs ctx path contents buf o :
  wal_open ctx path contents buf o -> Forall wal_wf recs ->
  exists ctx', wal_append_all ctx recs o = (ctx', o) /\
    wal_open ctx' path contents (buf ++ wal_log recs) o.
Proof.
  intros Hop Hwf. revert ctx buf Hop. induction Hwf as [|r recs Hr _ IH]; intros ctx buf Hop.
  - exists ctx. split; [done|]. change (wal_log []) with (@nil Z). by rewrite app_nil_r.
  - destruct (wal_append_open _ _ _ _ _ r Hop Hr) as (ctx1 & H1 & Hop1).
    destruct (IH ctx1 _ Hop1) as (ctx2 & H2 & Hop2). exists ctx2.
    change (wal_log (r :: recs)) with (wal_encode r ++ wal_log recs).
    rewrite app_assoc. split; [|done]. unfold wal_append_all in *.
    cbn [foldl fst snd]. by rewrite H1.
Qed.

Lemma wal_log_app r1 r2 : wal_log (r1 ++ r2) = wal_log r1 ++ wal_log r2.
Proof. unfold wal_log. by rewrite fmap_app, join_app. Qed.

(** The callback that keeps the records it is given. *)
Definition collect (r : wal_record) (acc : list wal_record) (o : os)
    : list wal_record * os := (acc ++ [r], o).

Lemma replay_fold_collect recs acc o :
  replay_fold collect recs acc o = (acc ++ recs, o).
Proof.
  revert acc. unfold replay_fold. induction recs as [|r recs IH]; intros acc.
  - simpl. by rewrite app_nil_r.
  - cbn [foldl]. unfold collect at 2. rewrite IH. simpl. by rewrite <- app_assoc.
Qed.

Lemma wal_stuck_app_nil recs : wal_log recs = wal_log recs ++ [].
Proof. by rewrite app_nil_r. Qed.

(** ** Properties *)

(** C3. Round trip of the log: opening a log that holds the records [old],
    appending [recs] and syncing, with an operating system that grants every
    request, leaves a file from which a later replay delivers exactly
    [old ++ recs], in order. *)
Theorem wal_roundtrip old recs path o :
  (length path <= 255)%nat -> os_env o = [] ->
  Forall wal_wf old -> Forall wal_wf recs ->
  default [] (file o path) = wal_log old ->
  exists ctx1 o1 ctx2 o2 ctx3 o3,
    danos_wal_init (Some path) o = (0, ctx1, o1) /\
    wal_append_all ctx1 recs o1 = (ctx2, o2) /\
    danos_wal_sync (Some ctx2) o2 = (0, Some ctx3, o3) /\
    danos_wal_replay collect (Some path) [] o3 =
      (Z.of_nat (length (old ++ recs)), old ++ recs, o3).
Proof.
  intros Hp Henv Hold Hrecs Hf.
  destruct (wal_init_open path o Hp Henv) as (ctx1 & o1 & H1 & Ho1). rewrite Hf in Ho1.
  destruct (wal_append_all_open recs _ _ _ _ _ Ho1 Hrecs) as (ctx2 & H2 & Ho2).
  destruct (wal_sync_open _ _ _ _ _ Ho2) as (ctx3 & o3 & H3 & [_ _ _ Hfile Henv3] & _).
  exists ctx1, o1, ctx2, o1, ctx3, o3. split_and!; [done..|].
  rewrite app_nil_l, <- wal_log_app, wal_stuck_app_nil in Hfile.
  rewrite (wal_replay_log collect) with (recs := old ++ recs) (tail := []);
    [by rewrite replay_fold_collect|done|by apply Forall_app|apply wal_stuck_nil|done|done].
Qed.

Definition wal_sample : wal_record :=
  mk_wal_record WAL_MAGIC 1 WAL_OP_CREATE 1 7 2 (Some [3; 4]).

Lemma wal_sample_wf : wal_wf wal_sample.
Proof. split; unfold is_uint, WAL_MAX_DATA; simpl; try lia; done. Qed.

Lemma wal_roundtrip_witness :
  exists ctx1 o1 ctx2 o2 ctx3 o3,
    danos_wal_init (Some [47; 119]) (mk_os [] ∅) = (0, ctx1, o1) /\
    wal_append_all ctx1 [wal_sample] o1 = (ctx2, o2) /\
    danos_wal_sync (Some ctx2) o2 = (0, Some ctx3, o3) /\
    danos_wal_replay collect (Some [47; 119]) [] o3 = (1, [wal_sample], o3).
Proof.
  apply (wal_roundtrip [] [wal_sample] [47; 119] (mk_os [] ∅));
    [simpl; lia|done|done|repeat constructor; apply wal_sample_wf|done].
Defined.

(** C24. A log cut at any byte, as a crash in the middle of a write leaves it,
    replays as exactly its complete records: the callback sees the first [k]
    records, in order, where [k] is the largest number of records that fit in
    the bytes left, and nothing of the torn one. *)
Theorem wal_torn_tail recs n path o :
  Forall wal_wf recs -> os_env o = [] ->
  file o path = Some (take n (wal_log recs)) ->
  exists k, (k <= length recs)%nat /\
    danos_wal_replay collect (Some path) [] o = (Z.of_nat k, take k recs, o) /\
    (length (wal_log (take k recs)) <= n)%nat /\
    (k < length recs -> n < length (wal_log (take (S k) recs)))%nat.
Proof.
  intros Hwf Henv Hfile.
  destruct (wal_log_take recs n Hwf) as (k & tail & Ht & Hst & Hk & H1 & H2).
  exists k. split_and!; [done| |done|done]. rewrite Ht in Hfile.
  rewrite (wal_replay_log collect) with (recs := take k recs) (tail := tail);
    [|done|by apply Forall_take|done..].
  rewrite replay_fold_collect, length_take, Nat.min_l by done. done.
Qed.

Lemma wal_torn_tail_witness :
  exists k, (k <= 2)%nat /\
    danos_wal_replay collect (Some [119]) []
      (mk_os [] {[ [119] := take 40 (wal_log [wal_sample; wal_sample]) ]}) =
      (Z.of_nat k, take k [wal_sample; wal_sample],
       mk_os [] {[ [119] := take 40 (wal_log [wal_sample; wal_sample]) ]}) /\
    (length (wal_log (take k [wal_sample; wal_sample])) <= 40)%nat /\
    (k < 2 -> 40 < length (wal_log (take (S k) [wal_sample; wal_sample])))%nat.
Proof.
  apply (wal_torn_tail [wal_sample; wal_sample] 40 [119]);
    [repeat constructor; apply wal_sample_wf|done|].
  unfold file. simpl. apply lookup_singleton_eq.
Defined.
