(* ===== verification/EventBus.v ===== *)
(** * Event bus: danos-core event_bus.h / event_bus.c

    Callbacks are external: a call of one is recorded as a delivery, the
    subscription's handle with the event it was given. *)

From stdpp Require Import base decidable list numbers strings.
From Stdlib Require Import ZArith Lia.
From S2P Require Import Prelude Dpa.

Inductive danos_event_type : Type :=
  | DANOS_EVENT_OBJ_CREATED | DANOS_EVENT_OBJ_UPDATED | DANOS_EVENT_OBJ_DELETED
  | DANOS_EVENT_TX_COMMITTED | DANOS_EVENT_TX_ROLLBACK | DANOS_EVENT_RECONCILE
  | DANOS_EVENT_BACKEND_DOWN | DANOS_EVENT_BACKEND_UP | DANOS_EVENT_CAPABILITY.

Definition event_code (t : danos_event_type) : Z :=
  match t with
  | DANOS_EVENT_OBJ_CREATED => 1 | DANOS_EVENT_OBJ_UPDATED => 2
  | DANOS_EVENT_OBJ_DELETED => 3 | DANOS_EVENT_TX_COMMITTED => 4
  | DANOS_EVENT_TX_ROLLBACK => 5 | DANOS_EVENT_RECONCILE => 6
  | DANOS_EVENT_BACKEND_DOWN => 7 | DANOS_EVENT_BACKEND_UP => 8
  | DANOS_EVENT_CAPABILITY => 9
  end.

Record danos_event := mk_event {
  ev_type : danos_event_type;
  ev_timestamp_ns : Z;
  ev_obj_type : danos_obj_type;
  ev_obj_id : Z;
  ev_tx_id : Z;
  ev_message : option string;
}.

Record danos_event_sub := mk_sub {
  sub_id : Z;
  sub_mask : Z;             (* uint32_t bitmask *)
  sub_cb : Z;               (* which callback, with its user pointer *)
}.

Record danos_event_bus := mk_bus {
  eb_subs : list danos_event_sub;
  eb_next_sub_id : Z;
  eb_events_published : Z;
}.

(** Handle of the subscription called, and the event. *)
Abbreviation delivery := (Z * danos_event)%type.

(** [g_event_bus] and the callbacks made so far, oldest first. *)
Record events := mk_events {
  g_event_bus : option danos_event_bus;
  ev_deliveries : list delivery;
}.

Definition bus_new : danos_event_bus := mk_bus [] 1 0.

(** [mem] is whether the allocator returned a block. *)
Definition danos_event_bus_init (mem : bool) (e : events) : Z * events :=
  match g_event_bus e with
  | Some _ => (0, e)
  | None => if mem then (0, mk_events (Some bus_new) (ev_deliveries e)) else (-1, e)
  end.

Definition danos_event_bus_fini (e : events) : events :=
  mk_events None (ev_deliveries e).

(** [danos_event_subscribe] with its two allocations; it dereferences
    [g_event_bus] after a failed init, which the [None] result stands for. *)
Definition danos_event_subscribe (mem_bus mem_sub : bool) (mask : Z)
    (cb : option Z) (e : events) : option (Z * events) :=
  match cb with
  | None => Some (0, e)
  | Some cb =>
      let '(_, e) := danos_event_bus_init mem_bus e in
      if negb mem_sub then Some (0, e) else
      match g_event_bus e with
      | None => None
      | Some b =>
          let id := eb_next_sub_id b in
          Some (id, mk_events
                      (Some (mk_bus (mk_sub id (u32 mask) cb :: eb_subs b)
                               (u64 (id + 1)) (eb_events_published b)))
                      (ev_deliveries e))
      end
  end.

Fixpoint sub_unlink (id : Z) (l : list danos_event_sub) : list danos_event_sub :=
  match l with
  | [] => []
  | s :: l => if sub_id s =? id then l else s :: sub_unlink id l
  end.

Definition danos_event_unsubscribe (id : Z) (e : events) : events :=
  match g_event_bus e with
  | Some b =>
      if id =? 0 then e
      else mk_events (Some (mk_bus (sub_unlink id (eb_subs b)) (eb_next_sub_id b)
                              (eb_events_published b))) (ev_deliveries e)
  | None => e
  end.

(** [s->mask & (1u << event->type)] *)
Definition sub_wants (ev : danos_event) (s : danos_event_sub) : bool :=
  negb (Z.land (sub_mask s) (Z.shiftl 1 (event_code (ev_type ev))) =? 0).

Definition danos_event_publish (ev : danos_event) (e : events) : events :=
  match g_event_bus e with
  | None => e
  | Some b =>
      mk_events
        (Some (mk_bus (eb_subs b) (eb_next_sub_id b) (u64 (eb_events_published b + 1))))
        (ev_deliveries e ++
         ((fun s => (sub_id s, ev)) <$> filter (fun s => sub_wants ev s = true) (eb_subs b)))
  end.

(** ** Invariant: handles are unique, and below the next one *)

Record bus_wf (b : danos_event_bus) : Prop := {
  bw_next : 0 < eb_next_sub_id b < 2 ^ 64;
  bw_ids : Forall (fun s => 0 < sub_id s < eb_next_sub_id b) (eb_subs b);
  bw_nodup : NoDup (sub_id <$> eb_subs b);
}.

Lemma bus_new_wf : bus_wf bus_new.
Proof. split; simpl; [lia|constructor|constructor]. Qed.

Lemma sub_unlink_sub id l s : s ∈ sub_unlink id l -> s ∈ l.
Proof.
  induction l as [|x l IH]; simpl; [done|].
  case_match; [by right|]. intros [->|?]%elem_of_cons; [left | right; auto].
Qed.

Lemma sub_unlink_nodup id l :
  NoDup (sub_id <$> l) -> NoDup (sub_id <$> sub_unlink id l).
Proof.
  induction l as [|x l IH]; simpl; [done|]. rewrite NoDup_cons. intros [Hx Hl].
  case_match; [done|]. simpl. constructor; [|auto].
  intros (y & Hy & Hin%sub_unlink_sub)%list_elem_of_fmap.
  apply Hx, list_elem_of_fmap. eauto.
Qed.

Lemma sub_unlink_spec id l s :
  NoDup (sub_id <$> l) -> s ∈ sub_unlink id l <-> s ∈ l /\ sub_id s <> id.
Proof.
  induction l as [|x l IH]; simpl.
  - intros _. split; [by intros ?%elem_of_nil | by intros [?%elem_of_nil _]].
  - rewrite NoDup_cons. intros [Hx Hl]. destruct (Z.eqb_spec (sub_id x) id) as [<-|Hne].
    + split.
      * intros Hs. split; [by right|]. intros Heq. apply Hx. rewrite <- Heq.
        by apply list_elem_of_fmap_2.
      * by intros [[->|?]%elem_of_cons ?].
    + rewrite !elem_of_cons, IH by done. split.
      * intros [->|[? ?]]; auto.
      * intros [[->|?] ?]; auto.
Qed.

Definition delivered_to (id : Z) (l : list delivery) : list danos_event :=
  snd <$> filter (fun d => d.1 = id) l.

Lemma delivered_fresh id ev l :
  (forall s, s ∈ l -> sub_id s <> id) ->
  filter (fun d : delivery => d.1 = id) ((fun s => (sub_id s, ev)) <$> l) = [].
Proof.
  intros H. induction l as [|s l IH]; [done|]. simpl.
  rewrite filter_cons_False by (apply H; left). apply IH. intros. apply H. by right.
Qed.

Lemma bus_wf_fresh b s : bus_wf b -> s ∈ eb_subs b -> sub_id s <> eb_next_sub_id b.
Proof.
  intros Hwf Hs. pose proof (bw_ids b Hwf) as H. rewrite Forall_forall in H.
  specialize (H s Hs). lia.
Qed.

Lemma sub_wants_bit ev s :
  sub_wants ev s = Z.testbit (sub_mask s) (event_code (ev_type ev)).
Proof.
  unfold sub_wants. assert (0 <= event_code (ev_type ev)) as Hc by (by destruct (ev_type ev)).
  rewrite Z.shiftl_1_l. destruct (Z.testbit (sub_mask s) _) eqn:Hbit.
  - apply negb_true_iff, Z.eqb_neq. intros H0.
    assert (Z.testbit 0 (event_code (ev_type ev)) = true); [|by rewrite Z.bits_0 in *].
    by rewrite <- H0, Z.land_spec, Hbit, Z.pow2_bits_true.
  - apply negb_false_iff, Z.eqb_eq, Z.bits_inj'. intros n Hn.
    rewrite Z.land_spec, Z.bits_0, Z.pow2_bits_eqb by done.
    destruct (Z.eqb_spec (event_code (ev_type ev)) n) as [<-|]; [by rewrite Hbit|].
    by rewrite andb_false_r.
Qed.

(** ** Properties *)

(** Life of a subscription on an existing bus: [danos_event_subscribe]
    returns a handle that is not zero and that no other subscription has; an
    event published afterwards reaches it exactly once if its type is in the
    mask and not at all otherwise; after [danos_event_unsubscribe] the other
    subscriptions are as they were before and no event reaches the handle. *)
Theorem subscription_lifecycle e b mask cb ev :
  g_event_bus e = Some b -> bus_wf b -> eb_next_sub_id b < 2 ^ 64 - 1 ->
  exists id e1 b1,
    danos_event_subscribe true true mask (Some cb) e = Some (id, e1) /\
    g_event_bus e1 = Some b1 /\ bus_wf b1 /\
    id <> 0 /\ (forall s, s ∈ eb_subs b -> sub_id s <> id) /\
    delivered_to id (ev_deliveries (danos_event_publish ev e1)) =
      delivered_to id (ev_deliveries e) ++
      (if Z.testbit (u32 mask) (event_code (ev_type ev)) then [ev] else []) /\
    eb_subs <$> g_event_bus (danos_event_unsubscribe id e1) = Some (eb_subs b) /\
    delivered_to id (ev_deliveries (danos_event_publish ev (danos_event_unsubscribe id e1))) =
      delivered_to id (ev_deliveries e).
Proof.
  intros Hb Hwf Hnext. pose proof (bw_next b Hwf) as Hpos.
  set (id := eb_next_sub_id b) in *.
  assert (forall s, s ∈ eb_subs b -> sub_id s <> id) as Hfr by (intros; by apply bus_wf_fresh).
  assert (forall s, s ∈ filter (fun s => sub_wants ev s = true) (eb_subs b) -> sub_id s <> id)
    as Hfr' by (intros s [_ Hs]%list_elem_of_filter; auto).
  exists id. do 2 eexists. unfold danos_event_subscribe, danos_event_bus_init. rewrite Hb. simpl.
  rewrite Hb. split; [done|]. simpl. split; [done|].
  unfold danos_event_publish, danos_event_unsubscribe, delivered_to. simpl.
  rewrite (proj2 (Z.eqb_neq id 0)) by lia. rewrite Z.eqb_refl. simpl.
  split_and!; [|lia|done| |done|].
  - split; simpl; rewrite ?u64_small by (unfold is_u64; lia); [lia| |].
    + constructor; [simpl; lia|]. eapply Forall_impl; [apply (bw_ids b Hwf)|].
      simpl. intros s Hs. lia.
    + constructor; [|apply (bw_nodup b Hwf)].
      intros (s & Hs & Hin)%list_elem_of_fmap. by apply (Hfr s).
  - rewrite filter_app, fmap_app. f_equal. rewrite filter_cons, sub_wants_bit. simpl.
    destruct (Z.testbit (u32 mask) (event_code (ev_type ev))).
    + rewrite decide_True by done. simpl. rewrite filter_cons_True by done. simpl.
      by rewrite delivered_fresh.
    + rewrite decide_False by done. by rewrite delivered_fresh.
  - by rewrite filter_app, fmap_app, delivered_fresh, app_nil_r.
Qed.

Definition demo_event : danos_event :=
  mk_event DANOS_EVENT_OBJ_CREATED 0 DANOS_OBJ_ROUTE 5 0 None.

Lemma subscription_lifecycle_witness :
  exists id e1 b1,
    danos_event_subscribe true true 2 (Some 7) (mk_events (Some bus_new) []) = Some (id, e1) /\
    g_event_bus e1 = Some b1 /\ bus_wf b1 /\
    id <> 0 /\ (forall s, s ∈ eb_subs bus_new -> sub_id s <> id) /\
    delivered_to id (ev_deliveries (danos_event_publish demo_event e1)) = [demo_event] /\
    eb_subs <$> g_event_bus (danos_event_unsubscribe id e1) = Some [] /\
    delivered_to id (ev_deliveries
      (danos_event_publish demo_event (danos_event_unsubscribe id e1))) = [].
Proof.
  apply (subscription_lifecycle (mk_events (Some bus_new) []) bus_new 2 7 demo_event);
    [reflexivity|apply bus_new_wf|simpl; lia].
Defined.
