(* ===== verification/Registry.v ===== *)
(** * Object registry: danos-core object_registry.c and the mutation hook of
    persist.c

    The state of the core library, and the object operations with every call
    they make: the table, the allocations, the write-ahead log of the durable
    store, the dirty mark of the programming pipeline, the event bus.  A
    store is referred to by its handle, a [danos_object_store_t *]; [None] is
    the null pointer. *)

From stdpp Require Import base decidable list numbers gmap.
From Stdlib Require Import ZArith Lia.
From S2P Require Import Prelude Dpa ObjectStore Wal EventBus.

(** ** State *)

(** The static variables of persist.c. *)
Record persist := mk_persist {
  g_wal : wal_ctx;
  g_enabled : bool;
  g_recovering : bool;
  g_records_logged : Z;
  g_recovered : Z;
}.

Record core := mk_core {
  c_os : os;
  c_time : Z;                              (* time(NULL), seconds *)
  c_stores : gmap Z danos_object_store;    (* the stores on the heap *)
  c_next_store : Z;
  g_default_store : option Z;
  g_programmed : option Z;
  g_dirty : bool;
  c_persist : persist;
  c_events : events;
}.

(** A process that has just started, on the files of [o]. *)
Definition core_boot (o : os) (time : Z) : core :=
  mk_core o time ∅ 1 None None false
    (mk_persist wal_ctx_zero false false 0 0) (mk_events None []).

Definition set_os (c : core) (o : os) : core :=
  mk_core o (c_time c) (c_stores c) (c_next_store c) (g_default_store c)
    (g_programmed c) (g_dirty c) (c_persist c) (c_events c).
Definition set_stores (c : core) (m : gmap Z danos_object_store) : core :=
  mk_core (c_os c) (c_time c) m (c_next_store c) (g_default_store c)
    (g_programmed c) (g_dirty c) (c_persist c) (c_events c).
Definition set_default_store (c : core) (h : option Z) : core :=
  mk_core (c_os c) (c_time c) (c_stores c) (c_next_store c) h
    (g_programmed c) (g_dirty c) (c_persist c) (c_events c).
Definition set_programmed (c : core) (h : option Z) : core :=
  mk_core (c_os c) (c_time c) (c_stores c) (c_next_store c) (g_default_store c)
    h (g_dirty c) (c_persist c) (c_events c).
Definition set_dirty (c : core) (d : bool) : core :=
  mk_core (c_os c) (c_time c) (c_stores c) (c_next_store c) (g_default_store c)
    (g_programmed c) d (c_persist c) (c_events c).
Definition set_persist (c : core) (p : persist) : core :=
  mk_core (c_os c) (c_time c) (c_stores c) (c_next_store c) (g_default_store c)
    (g_programmed c) (g_dirty c) p (c_events c).
Definition set_events (c : core) (e : events) : core :=
  mk_core (c_os c) (c_time c) (c_stores c) (c_next_store c) (g_default_store c)
    (g_programmed c) (g_dirty c) (c_persist c) e.

Definition put_store (c : core) (h : Z) (s : danos_object_store) : core :=
  set_stores c (<[h := s]> (c_stores c)).

(** One allocation. *)
Definition core_alloc (c : core) : bool * core :=
  let '(ok, o) := alloc (c_os c) in (ok, set_os c o).

(** ** Stores on the heap *)

Definition store_create (bucket_count : nat) (c : core) : option Z * core :=
  let '(ok1, c) := core_alloc c in
  if negb ok1 then (None, c) else
  let '(ok2, c) := core_alloc c in
  if negb ok2 then (None, c) else
  let h := c_next_store c in
  (Some h, mk_core (c_os c) (c_time c)
             (<[h := danos_object_store_create bucket_count]> (c_stores c)) (h + 1)
             (g_default_store c) (g_programmed c) (g_dirty c) (c_persist c) (c_events c)).

Definition danos_object_store_destroy (h : option Z) (c : core) : core :=
  match h with
  | None => c
  | Some h => set_stores c (delete h (c_stores c))
  end.

(** ** persist.c: logging *)

Definition dpa_type_to_wal (t : danos_obj_type) : Z :=
  match t with
  | DANOS_OBJ_IFACE => 1 | DANOS_OBJ_VRF => 2 | DANOS_OBJ_NEXTHOP => 3
  | DANOS_OBJ_NHGROUP => 4 | DANOS_OBJ_ROUTE => 5 | DANOS_OBJ_ACL => 6
  | DANOS_OBJ_QOS => 8 | DANOS_OBJ_BFD => 9 | DANOS_OBJ_MPLS_LSP => 20
  | DANOS_OBJ_TUNNEL => 21 | DANOS_OBJ_EVPN => 22 | DANOS_OBJ_MULTICAST => 23
  | DANOS_OBJ_QOS_BIND => 24
  | _ => 0
  end.

Definition wal_type_to_dpa (t : Z) : danos_obj_type :=
  if t =? 1 then DANOS_OBJ_IFACE else if t =? 2 then DANOS_OBJ_VRF
  else if t =? 3 then DANOS_OBJ_NEXTHOP else if t =? 4 then DANOS_OBJ_NHGROUP
  else if t =? 5 then DANOS_OBJ_ROUTE else if t =? 6 then DANOS_OBJ_ACL
  else if t =? 8 then DANOS_OBJ_QOS else if t =? 9 then DANOS_OBJ_BFD
  else if t =? 20 then DANOS_OBJ_MPLS_LSP else if t =? 21 then DANOS_OBJ_TUNNEL
  else if t =? 22 then DANOS_OBJ_EVPN else if t =? 23 then DANOS_OBJ_MULTICAST
  else if t =? 24 then DANOS_OBJ_QOS_BIND else DANOS_OBJ_INVALID.

Definition with_wal (c : core) (w : wal_ctx) (o : os) : core :=
  let p := c_persist c in
  set_os (set_persist c (mk_persist w (g_enabled p) (g_recovering p)
                           (g_records_logged p) (g_recovered p))) o.

Definition log_record (wal_op wal_obj_type obj_id : Z) (data : option bytes) (len : Z)
    : wal_record :=
  mk_wal_record WAL_MAGIC 1 wal_op wal_obj_type obj_id len data.

Definition danos_persist_log_op (wal_op wal_obj_type obj_id : Z) (data : option bytes)
    (len : Z) (c : core) : Z * core :=
  if negb (g_enabled (c_persist c)) then (0, c) else
  let rec := log_record wal_op wal_obj_type obj_id data len in
  let '(r, w, o) := danos_wal_append (Some (g_wal (c_persist c))) (Some rec) (c_os c) in
  let c := with_wal c (default wal_ctx_zero w) o in
  if negb (r =? 0) then (-1, c) else
  let '(r, w, o) := danos_wal_sync (Some (g_wal (c_persist c))) (c_os c) in
  let c := with_wal c (default wal_ctx_zero w) o in
  if negb (r =? 0) then (-1, c) else
  let p := c_persist c in
  (0, set_persist c (mk_persist (g_wal p) (g_enabled p) (g_recovering p)
                       (u64 (g_records_logged p + 1)) (g_recovered p))).

Definition danos_persist_on_mutation (store wal_op : Z) (type : danos_obj_type)
    (obj_id : Z) (data : option bytes) (c : core) : core :=
  if negb (g_enabled (c_persist c)) || g_recovering (c_persist c) then c else
  if negb (bool_decide (Some store = g_default_store c)) then c else
  if 0xFFFFFFFF <? obj_id then c else
  let wt := dpa_type_to_wal type in
  if wt =? 0 then c else
  let len := u32 (Z.of_nat (length (default [] data))) in
  (danos_persist_log_op wal_op wt (u32 obj_id) data len c).2.

(** ** Object operations *)

Definition danos_programming_mark_dirty (c : core) : core := set_dirty c true.

Definition obj_event (ev : danos_event_type) (type : danos_obj_type) (id time : Z)
    : danos_event :=
  mk_event ev (u64 (u64 time * 1000000000)) type id 0 None.

(** The calls every successful mutation ends with. *)
Definition notify_mutation (h wal_op : Z) (ev : danos_event_type)
    (type : danos_obj_type) (id : Z) (data : option bytes) (c : core) : core :=
  let c := danos_persist_on_mutation h wal_op type id data c in
  let c := danos_programming_mark_dirty c in
  set_events c (danos_event_publish (obj_event ev type id (c_time c)) (c_events c)).

(** A handle that is not of a live store has no defined behaviour in C; the
    [DANOS_ERR_INTERNAL] results below stand for it. *)
Definition danos_object_create (h : option Z) (type : danos_obj_type) (id : Z)
    (data : option bytes) (c : core) : danos_status * core :=
  match h, data with
  | Some h, Some data =>
      if (length data =? 0)%nat then (DANOS_ERR_INVALID_ARG, c) else
      match c_stores c !! h with
      | None => (DANOS_ERR_INTERNAL, c)
      | Some s =>
          match find_entry s type id with
          | Some _ => (DANOS_ERR_EXISTS, c)
          | None =>
              let '(ok, c) := core_alloc c in
              if negb ok then (DANOS_ERR_NO_MEMORY, c) else
              let '(ok, c) := core_alloc c in
              if negb ok then (DANOS_ERR_NO_MEMORY, c) else
              let c := put_store c h (store_push s (mk_entry type id data)) in
              (DANOS_OK, notify_mutation h WAL_OP_CREATE DANOS_EVENT_OBJ_CREATED
                           type id (Some data) c)
          end
      end
  | _, _ => (DANOS_ERR_INVALID_ARG, c)
  end.

(** [out_size] is [None] for a null pointer. *)
Definition danos_object_read (h : option Z) (type : danos_obj_type) (id : Z)
    (out : option bytes) (out_size : option nat) (c : core)
    : danos_status * option bytes * option nat :=
  match h, out_size with
  | Some h, Some n =>
      match c_stores c !! h with
      | None => (DANOS_ERR_INTERNAL, out, out_size)
      | Some s => let '(st, out, n) := store_read s type id out n in (st, out, Some n)
      end
  | _, _ => (DANOS_ERR_INVALID_ARG, out, out_size)
  end.

Definition danos_object_update (h : option Z) (type : danos_obj_type) (id : Z)
    (data : option bytes) (c : core) : danos_status * core :=
  match h, data with
  | Some h, Some data =>
      if (length data =? 0)%nat then (DANOS_ERR_INVALID_ARG, c) else
      match c_stores c !! h with
      | None => (DANOS_ERR_INTERNAL, c)
      | Some s =>
          match find_entry s type id with
          | None => (DANOS_ERR_NOT_FOUND, c)
          | Some _ =>
              let '(ok, c) := core_alloc c in
              if negb ok then (DANOS_ERR_NO_MEMORY, c) else
              let c := put_store c h (store_set s type id data) in
              (DANOS_OK, notify_mutation h WAL_OP_UPDATE DANOS_EVENT_OBJ_UPDATED
                           type id (Some data) c)
          end
      end
  | _, _ => (DANOS_ERR_INVALID_ARG, c)
  end.

Definition danos_object_delete (h : option Z) (type : danos_obj_type) (id : Z) (c : core)
    : danos_status * core :=
  match h with
  | None => (DANOS_ERR_INVALID_ARG, c)
  | Some h =>
      match c_stores c !! h with
      | None => (DANOS_ERR_INTERNAL, c)
      | Some s =>
          match store_unlink s type id with
          | None => (DANOS_ERR_NOT_FOUND, c)
          | Some s =>
              (DANOS_OK, notify_mutation h WAL_OP_DELETE DANOS_EVENT_OBJ_DELETED
                           type id None (put_store c h s))
          end
      end
  end.

#[global] Arguments notify_mutation : simpl never.
#[global] Arguments danos_object_create : simpl never.
#[global] Arguments danos_object_read : simpl never.
#[global] Arguments danos_object_update : simpl never.
#[global] Arguments danos_object_delete : simpl never.

(** ** Specification: a finite map per store *)

Definition objs (c : core) (h : Z) : gmap obj_key bytes :=
  match c_stores c !! h with Some s => store_map s | None => ∅ end.

Inductive obj_op : Type :=
  | OpCreate (t : danos_obj_type) (id : Z) (data : option bytes)
  | OpUpdate (t : danos_obj_type) (id : Z) (data : option bytes)
  | OpDelete (t : danos_obj_type) (id : Z).

Definition run_op (h : Z) (op : obj_op) (c : core) : danos_status * core :=
  match op with
  | OpCreate t id d => danos_object_create (Some h) t id d c
  | OpUpdate t id d => danos_object_update (Some h) t id d c
  | OpDelete t id => danos_object_delete (Some h) t id c
  end.

Definition run_ops (h : Z) (ops : list obj_op) (c : core) : core :=
  foldl (fun c op => (run_op h op c).2) c ops.

Definition spec_op (op : obj_op) (m : gmap obj_key bytes)
    : danos_status * gmap obj_key bytes :=
  match op with
  | OpCreate t id (Some (b :: d)) =>
      if decide (is_Some (m !! (t, id))) then (DANOS_ERR_EXISTS, m)
      else (DANOS_OK, <[(t, id) := b :: d]> m)
  | OpUpdate t id (Some (b :: d)) =>
      if decide (is_Some (m !! (t, id))) then (DANOS_OK, <[(t, id) := b :: d]> m)
      else (DANOS_ERR_NOT_FOUND, m)
  | OpDelete t id =>
      if decide (is_Some (m !! (t, id))) then (DANOS_OK, delete (t, id) m)
      else (DANOS_ERR_NOT_FOUND, m)
  | _ => (DANOS_ERR_INVALID_ARG, m)
  end.

Definition spec_ops (ops : list obj_op) (m : gmap obj_key bytes) : gmap obj_key bytes :=
  foldl (fun m op => (spec_op op m).2) m ops.

Record core_wf (c : core) : Prop := {
  cw_stores : forall h s, c_stores c !! h = Some s -> store_wf s;
  cw_fresh : forall h, is_Some (c_stores c !! h) -> h < c_next_store c;
  cw_default : forall h, g_default_store c = Some h -> is_Some (c_stores c !! h);
  cw_programmed : forall h, g_programmed c = Some h -> is_Some (c_stores c !! h);
  cw_distinct : forall h, g_default_store c = Some h -> g_programmed c <> Some h;
}.

Lemma core_boot_wf o t : core_wf (core_boot o t).
Proof.
  split; simpl; [|intros h [s H]; by rewrite lookup_empty in H|done..].
  intros h s H. by rewrite lookup_empty in H.
Qed.

(** What logging, marking and publishing leave alone. *)
Record same_stores (c c' : core) : Prop := {
  ss_stores : c_stores c' = c_stores c;
  ss_next : c_next_store c' = c_next_store c;
  ss_default : g_default_store c' = g_default_store c;
  ss_programmed : g_programmed c' = g_programmed c;
  ss_time : c_time c' = c_time c;
}.

Lemma same_stores_refl c : same_stores c c.
Proof. done. Qed.

Lemma same_stores_trans c1 c2 c3 :
  same_stores c1 c2 -> same_stores c2 c3 -> same_stores c1 c3.
Proof. intros [] []. split; congruence. Qed.

#[export] Instance same_stores_preorder : PreOrder same_stores.
Proof. split; [exact same_stores_refl | exact same_stores_trans]. Qed.

Lemma persist_log_op_frame op t id d len c :
  same_stores c (danos_persist_log_op op t id d len c).2.
Proof. unfold danos_persist_log_op. split_cases; done. Qed.

Lemma persist_on_mutation_frame h op t id d c :
  same_stores c (danos_persist_on_mutation h op t id d c).
Proof.
  unfold danos_persist_on_mutation.
  repeat case_match; try done. apply persist_log_op_frame.
Qed.

Lemma notify_mutation_frame h op ev t id d c :
  same_stores c (notify_mutation h op ev t id d c).
Proof.
  unfold notify_mutation.
  by destruct (persist_on_mutation_frame h op t id d c); split.
Qed.

Lemma core_alloc_frame c : same_stores c (core_alloc c).2.
Proof. unfold core_alloc. by destruct (alloc (c_os c)). Qed.

Lemma same_stores_wf c c' : same_stores c c' -> core_wf c -> core_wf c'.
Proof.
  intros [Hs Hn Hd Hp _] []. split; rewrite ?Hs, ?Hn, ?Hd, ?Hp; done.
Qed.

Lemma same_stores_objs c c' h : same_stores c c' -> objs c' h = objs c h.
Proof. intros [Hs _ _ _ _]. unfold objs. by rewrite Hs. Qed.

#[export] Hint Resolve same_stores_refl notify_mutation_frame core_alloc_frame
  persist_on_mutation_frame same_stores_wf : danos.

Lemma put_store_wf c h s :
  core_wf c -> is_Some (c_stores c !! h) -> store_wf s -> core_wf (put_store c h s).
Proof.
  assert (forall h', is_Some (c_stores c !! h') -> is_Some (<[h:=s]> (c_stores c) !! h')).
  { intros h'. rewrite lookup_insert_is_Some'. auto. }
  intros [Hs Hf Hd Hp Hn] Hh Hwf. split; simpl; auto.
  - intros h' s' [[-> ->]|[_ ?]]%lookup_insert_Some; eauto.
  - intros h' [<-|?]%lookup_insert_is_Some'; auto.
Qed.

Lemma objs_put c h s : objs (put_store c h s) h = store_map s.
Proof. unfold objs, put_store. simpl. by rewrite lookup_insert_eq. Qed.

Lemma stores_put_ne c h h' s : h' <> h -> c_stores (put_store c h s) !! h' = c_stores c !! h'.
Proof. intros. unfold put_store. simpl. by rewrite lookup_insert_ne. Qed.

(** A mutation of store [h]: the map becomes [m], nothing else of the stores
    changes. *)
Record mutated (h : Z) (m : gmap obj_key bytes) (c c' : core) : Prop := {
  mu_wf : core_wf c';
  mu_objs : objs c' h = m;
  mu_live : is_Some (c_stores c' !! h);
  mu_others : forall h', h' <> h -> c_stores c' !! h' = c_stores c !! h';
  mu_default : g_default_store c' = g_default_store c;
  mu_programmed : g_programmed c' = g_programmed c;
}.

Lemma mutated_frame h c c' :
  core_wf c -> is_Some (c_stores c !! h) -> same_stores c c' ->
  mutated h (objs c h) c c'.
Proof.
  intros Hwf Hh Hss. pose proof Hss as [Hs _ Hd Hp _]. split; try done.
  - eauto with danos.
  - by apply same_stores_objs.
  - by rewrite Hs.
  - intros. by rewrite Hs.
Qed.

Lemma mutated_put h s c c1 c' :
  core_wf c -> is_Some (c_stores c !! h) -> same_stores c c1 -> store_wf s ->
  same_stores (put_store c1 h s) c' -> mutated h (store_map s) c c'.
Proof.
  intros Hwf Hh Hs1 Hws Hs2. pose proof Hs2 as [Hs _ Hd Hp _].
  pose proof Hs1 as [Hs' _ Hd' Hp' _].
  assert (core_wf (put_store c1 h s)).
  { apply put_store_wf; [eauto with danos|by rewrite Hs'|done]. }
  split.
  - eauto with danos.
  - by rewrite (same_stores_objs _ _ h Hs2), objs_put.
  - rewrite Hs. simpl. by rewrite lookup_insert_eq.
  - intros h' Hne. rewrite Hs, stores_put_ne by done. by rewrite Hs'.
  - rewrite Hd. done.
  - rewrite Hp. done.
Qed.

(** ** Each operation implements its specification *)

Section live.
Context (c : core) (Hwf : core_wf c) (h : Z) (s : danos_object_store).
Context (Hh : c_stores c !! h = Some s).

Lemma objs_live : objs c h = store_map s.
Proof. unfold objs. by rewrite Hh. Qed.

Lemma objs_find t id : is_Some (objs c h !! (t, id)) <-> is_Some (find_entry s t id).
Proof.
  rewrite objs_live, store_map_lookup by (by eapply cw_stores).
  by rewrite fmap_is_Some.
Qed.

Lemma objs_find_None t id :
  find_entry s t id = None -> ~ is_Some (objs c h !! (t, id)).
Proof. rewrite objs_find. intros ->. by intros [? ?]. Qed.

Definition refines_op (op : obj_op) (r : danos_status * core) : Prop :=
  (exists st m, spec_op op (objs c h) = (st, m) /\ r.1 = st /\ mutated h m c r.2) \/
  (r.1 = DANOS_ERR_NO_MEMORY /\ os_env (c_os c) <> [] /\ mutated h (objs c h) c r.2).

Lemma refines_same op st :
  spec_op op (objs c h) = (st, objs c h) -> refines_op op (st, c).
Proof.
  intros Hs. left. exists st, (objs c h). split_and!; [done..|].
  apply mutated_frame; [done|by rewrite Hh|done].
Qed.

Lemma core_alloc_false c1 c2 : core_alloc c1 = (false, c2) -> os_env (c_os c1) <> [].
Proof. unfold core_alloc, alloc, ask. by destruct (os_env (c_os c1)). Qed.

Lemma core_alloc_env c1 b c2 :
  core_alloc c1 = (b, c2) -> os_env (c_os c2) <> [] -> os_env (c_os c1) <> [].
Proof.
  unfold core_alloc, alloc, ask. destruct (os_env (c_os c1)) eqn:E; [|done].
  intros [= <- <-]. simpl. by rewrite E.
Qed.

Lemma create_refines t id d : refines_op (OpCreate t id d) (run_op h (OpCreate t id d) c).
Proof.
  unfold run_op, danos_object_create.
  destruct d as [[|b d]|]; [by apply refines_same|simpl length|by apply refines_same].
  cbn [Nat.eqb]. rewrite Hh. pose proof (cw_stores c Hwf h s Hh) as Hs.
  destruct (find_entry s t id) eqn:Ef.
  { apply refines_same. simpl. rewrite decide_True; [done|]. by rewrite objs_find, Ef. }
  destruct (core_alloc c) as [[] c1] eqn:E1; simpl;
    pose proof (core_alloc_frame c) as F1; rewrite E1 in F1; simpl in F1; cycle 1.
  { right. split_and!; [done|by eapply core_alloc_false|]. apply mutated_frame; by rewrite ?Hh. }
  destruct (core_alloc c1) as [[] c2] eqn:E2; simpl;
    pose proof (core_alloc_frame c1) as F2; rewrite E2 in F2; simpl in F2; cycle 1.
  { right. split_and!; [done|by eapply core_alloc_env, core_alloc_false|].
    apply mutated_frame; [done|by rewrite Hh|by etrans]. }
  left. do 2 eexists. split_and!; [simpl; rewrite decide_False by (by apply objs_find_None); done|done|].
  rewrite objs_live.
  pose proof (store_push_map s (mk_entry t id (b :: d)) Hs Ef) as Hm.
  unfold e_key in Hm. simpl in Hm. rewrite <- Hm.
  eapply mutated_put; [done|by rewrite Hh|by etrans|by apply store_push_wf|].
  apply notify_mutation_frame.
Qed.

Lemma update_refines t id d : refines_op (OpUpdate t id d) (run_op h (OpUpdate t id d) c).
Proof.
  unfold run_op, danos_object_update.
  destruct d as [[|b d]|]; [by apply refines_same|simpl length|by apply refines_same].
  cbn [Nat.eqb]. rewrite Hh. pose proof (cw_stores c Hwf h s Hh) as Hs.
  destruct (find_entry s t id) eqn:Ef; cycle 1.
  { apply refines_same. simpl. by rewrite decide_False by (by apply objs_find_None). }
  destruct (core_alloc c) as [[] c1] eqn:E1; simpl;
    pose proof (core_alloc_frame c) as F1; rewrite E1 in F1; simpl in F1; cycle 1.
  { right. split_and!; [done|by eapply core_alloc_false|]. apply mutated_frame; by rewrite ?Hh. }
  left. do 2 eexists. split_and!;
    [simpl; rewrite decide_True by (by rewrite objs_find, Ef); done|done|].
  rewrite objs_live, <- (store_set_map s Hs t id _ Ef (b :: d)).
  eapply mutated_put; [done|by rewrite Hh|done|by eapply store_set_wf|].
  apply notify_mutation_frame.
Qed.

Lemma delete_refines t id : refines_op (OpDelete t id) (run_op h (OpDelete t id) c).
Proof.
  unfold run_op, danos_object_delete. rewrite Hh.
  pose proof (cw_stores c Hwf h s Hh) as Hs.
  destruct (find_entry s t id) as [e|] eqn:Ef; cycle 1.
  { rewrite store_unlink_None by done. apply refines_same. simpl.
    by rewrite decide_False by (by apply objs_find_None). }
  destruct (store_unlink_split s Hs t id e Ef) as (s' & Hu & Hs' & _). rewrite Hu.
  left. do 2 eexists. split_and!;
    [simpl; rewrite decide_True by (by rewrite objs_find, Ef); done|done|].
  rewrite objs_live, <- (store_unlink_map s Hs t id e Ef s' Hu).
  eapply mutated_put; [done|by rewrite Hh|done|done|apply notify_mutation_frame].
Qed.

Lemma run_op_refines op : refines_op op (run_op h op c).
Proof. destruct op; [apply create_refines|apply update_refines|apply delete_refines]. Qed.
End live.

Lemma run_op_granted c h op :
  core_wf c -> is_Some (c_stores c !! h) -> os_env (c_os c) = [] ->
  (run_op h op c).1 = (spec_op op (objs c h)).1 /\
  mutated h (spec_op op (objs c h)).2 c (run_op h op c).2.
Proof.
  intros Hwf [s Hh] Henv.
  destruct (run_op_refines c Hwf h s Hh op) as [(st & m & -> & ? & ?)|(_ & ? & _)]; done.
Qed.

(** ** What an operation does to the log *)

Lemma core_alloc_granted c : os_env (c_os c) = [] -> core_alloc c = (true, c).
Proof. intros H. unfold core_alloc. rewrite alloc_granted by done. by destruct c. Qed.

(** The hook an operation runs when it changed store [h]. *)
Definition op_hook (h : Z) (op : obj_op) (c : core) : core :=
  match op with
  | OpCreate t id d => danos_persist_on_mutation h WAL_OP_CREATE t id d c
  | OpUpdate t id d => danos_persist_on_mutation h WAL_OP_UPDATE t id d c
  | OpDelete t id => danos_persist_on_mutation h WAL_OP_DELETE t id None c
  end.

(** [c] with another set of stores of the same handles: what the hook sees. *)
Lemma run_op_hook c h op :
  core_wf c -> is_Some (c_stores c !! h) -> os_env (c_os c) = [] ->
  let c' := (run_op h op c).2 in
  if decide ((spec_op op (objs c h)).1 = DANOS_OK)
  then exists m, let c1 := op_hook h op (set_stores c m) in
       c_os c' = c_os c1 /\ c_persist c' = c_persist c1
  else c' = c.
Proof.
  intros Hwf Hh Henv c'. destruct (run_op_granted c h op Hwf Hh Henv) as [Hst _].
  rewrite <- Hst. subst c'. destruct Hh as [s Hh].
  destruct op as [t id d|t id d|t id]; cbn [run_op]; unfold danos_object_create,
    danos_object_update, danos_object_delete; rewrite Hh.
  - destruct d as [d|]; [|done]. destruct (length d =? 0)%nat; [done|].
    destruct (find_entry s t id); [done|].
    rewrite !core_alloc_granted by done. simpl. eexists. by split.
  - destruct d as [d|]; [|done]. destruct (length d =? 0)%nat; [done|].
    destruct (find_entry s t id); [|done].
    rewrite !core_alloc_granted by done. simpl. eexists. by split.
  - destruct (store_unlink s t id); [|done]. simpl. eexists. by split.
Qed.

Lemma op_hook_recovering h op c :
  g_recovering (c_persist c) = true -> op_hook h op c = c.
Proof.
  intros Hr. destruct op; simpl; unfold danos_persist_on_mutation;
    by rewrite Hr, orb_true_r.
Qed.

(** While recovering, nothing is written. *)
Lemma run_op_quiet c h op :
  core_wf c -> is_Some (c_stores c !! h) -> os_env (c_os c) = [] ->
  g_recovering (c_persist c) = true ->
  c_os (run_op h op c).2 = c_os c /\ c_persist (run_op h op c).2 = c_persist c.
Proof.
  intros Hwf Hh Henv Hrec. pose proof (run_op_hook c h op Hwf Hh Henv) as H.
  cbv zeta in H. case_decide; [|by rewrite H].
  destruct H as (m & -> & ->). by rewrite op_hook_recovering.
Qed.

(** ** An environment that grants everything stays so *)

Lemma ask_env o a o' : os_env o = [] -> ask o = (a, o') -> o' = o.
Proof. unfold ask. intros ->. by intros [= _ <-]. Qed.

Lemma fwrite_env d f o : os_env o = [] -> os_env (fwrite d f o).2 = [].
Proof. intros H. unfold fwrite, ask. rewrite H. exact H. Qed.

Lemma wal_append_env w rec o : os_env o = [] -> os_env (danos_wal_append w rec o).2 = [].
Proof.
  intros H. unfold danos_wal_append. destruct w as [w|]; [|done]. destruct rec as [rec|]; [|done].
  destruct (w_enabled w); [|done]. destruct (w_fp w) as [fp|]; [|done].
  pose proof (fwrite_env (wal_header rec) fp o H) as H1.
  destruct (fwrite (wal_header rec) fp o) as [[n1 f1] o1]. cbn [snd] in H1.
  set (r := if wal_has_payload rec then _ else _).
  assert (os_env r.2 = []) as H2 by (unfold r; destruct (wal_has_payload rec); [by apply fwrite_env|done]).
  destruct r as [[n2 f2] o2]. cbn [snd] in H2.
  pose proof (fwrite_env (le_bytes 4 (wal_crc rec)) f2 o2 H2) as H3.
  destruct (fwrite (le_bytes 4 (wal_crc rec)) f2 o2) as [[n3 f3] o3]. by destruct (_ =? _).
Qed.

Lemma wal_sync_env w o : os_env o = [] -> os_env (danos_wal_sync w o).2 = [].
Proof.
  intros H. unfold danos_wal_sync. destruct w as [w|]; [|done]. destruct (w_fp w) as [fp|]; [|done].
  unfold fflush, ask. rewrite H. simpl. by rewrite H.
Qed.

Lemma op_hook_env h op c : os_env (c_os c) = [] -> os_env (c_os (op_hook h op c)) = [].
Proof.
  intros H.
  assert (forall o t i d l, os_env (c_os (danos_persist_log_op o t i d l c).2) = []) as Hlog.
  { intros o t i d l. unfold danos_persist_log_op. destruct (negb _); [done|].
    set (rec := log_record o t i d l).
    pose proof (wal_append_env (Some (g_wal (c_persist c))) (Some rec) _ H) as H1.
    destruct (danos_wal_append (Some (g_wal (c_persist c))) (Some rec) (c_os c)) as [[r w1] o1].
    cbn [snd] in H1. set (c1 := with_wal c _ o1).
    assert (os_env (c_os c1) = []) as H1' by exact H1.
    destruct (negb _); [done|].
    pose proof (wal_sync_env (Some (g_wal (c_persist c1))) (c_os c1) H1') as H2.
    destruct (danos_wal_sync _ (c_os c1)) as [[r2 w2] o2]. by destruct (negb _). }
  assert (forall o t i d, os_env (c_os (danos_persist_on_mutation h o t i d c)) = []) as Hm.
  { intros o t i d. unfold danos_persist_on_mutation.
    destruct (_ || _); [done|]. destruct (negb _); [done|].
    destruct (_ <? _); [done|]. destruct (_ =? _); [done|]. apply Hlog. }
  destruct op; apply Hm.
Qed.

Lemma run_op_env c h op :
  core_wf c -> is_Some (c_stores c !! h) -> os_env (c_os c) = [] ->
  os_env (c_os (run_op h op c).2) = [].
Proof.
  intros Hwf Hh Henv. pose proof (run_op_hook c h op Hwf Hh Henv) as H.
  cbv zeta in H. case_decide; [|by rewrite H]. destruct H as (m & -> & _). by apply op_hook_env.
Qed.

(** ** Reading *)

Lemma object_read_lookup c h t id out n :
  core_wf c -> is_Some (c_stores c !! h) ->
  danos_object_read (Some h) t id out (Some n) c =
  match objs c h !! (t, id), out with
  | None, _ => (DANOS_ERR_NOT_FOUND, out, Some n)
  | Some d, None => (DANOS_ERR_INVALID_ARG, None, Some (length d))
  | Some d, Some buf =>
      if (n <? length d)%nat then (DANOS_ERR_INVALID_ARG, Some buf, Some (length d))
      else (DANOS_OK, Some (cwrite buf 0 d), Some (length d))
  end.
Proof.
  intros Hwf [s Hs]. unfold danos_object_read, store_read. rewrite Hs.
  rewrite (objs_live c h s Hs), store_map_lookup by (by eapply cw_stores).
  destruct (find_entry s t id) as [e|]; simpl; [|done].
  unfold e_size. destruct out as [buf|]; [|done]. by destruct (n <? length (e_data e))%nat.
Qed.

(** ** Properties *)

(** C2. The hash table implements a finite map: on a well-formed state every
    create, update and delete keeps the state well formed, leaves the other
    stores alone, and returns the status and leaves the contents that the map
    specification gives (exists, not found, invalid argument, ok); the only
    other outcome is [DANOS_ERR_NO_MEMORY] with the contents unchanged, when
    the allocator refused. *)
Theorem object_ops_refine_map c h op :
  core_wf c -> is_Some (c_stores c !! h) ->
  let '(st, c') := run_op h op c in
  core_wf c' /\
  (forall h', h' <> h -> c_stores c' !! h' = c_stores c !! h') /\
  ((st, objs c' h) = spec_op op (objs c h) \/
   (st = DANOS_ERR_NO_MEMORY /\ os_env (c_os c) <> [] /\ objs c' h = objs c h)).
Proof.
  intros Hwf [s Hs]. pose proof (run_op_refines c Hwf h s Hs op) as H.
  destruct (run_op h op c) as [st c'].
  destruct H as [(st' & m & Hspec & Hst & Hmu)|(Hst & He & Hmu)]; simpl in *;
    destruct Hmu as [Mwf Mo _ Mot _ _]; split_and!; try done.
  - left. by rewrite Hspec, Hst, Mo.
  - by right.
Qed.

Definition demo_core : core :=
  mk_core (mk_os [A_ok; A_fail] ∅) 0 {[ 1 := danos_object_store_create 4 ]} 2 (Some 1) None
    false (mk_persist wal_ctx_zero false false 0 0) (mk_events (Some bus_new) []).

Lemma demo_core_wf : core_wf demo_core.
Proof.
  split; simpl.
  - intros h s [<- <-]%lookup_singleton_Some. apply store_create_wf.
  - intros h [s [<- _]%lookup_singleton_Some]. lia.
  - intros h [= <-]. by rewrite lookup_singleton_eq.
  - done.
  - done.
Qed.

Lemma object_ops_refine_map_witness :
  let '(st, c') := run_op 1 (OpCreate DANOS_OBJ_VRF 1 (Some [5])) demo_core in
  core_wf c' /\
  (forall h', h' <> 1 -> c_stores c' !! h' = c_stores demo_core !! h') /\
  ((st, objs c' 1) = spec_op (OpCreate DANOS_OBJ_VRF 1 (Some [5])) (objs demo_core 1) \/
   (st = DANOS_ERR_NO_MEMORY /\ os_env (c_os demo_core) <> [] /\
    objs c' 1 = objs demo_core 1)).
Proof.
  apply (object_ops_refine_map demo_core 1 (OpCreate DANOS_OBJ_VRF 1 (Some [5])));
    [apply demo_core_wf|done].
Defined.

(** Reading back: after a successful create or update, a read into a
    buffer large enough gives the bytes stored and their length; into one too
    small it fails and reports the size needed; and reads of every other
    object of the store are unchanged. *)
Theorem object_write_read c h op c' t id d buf n :
  core_wf c -> is_Some (c_stores c !! h) ->
  op = OpCreate t id (Some d) \/ op = OpUpdate t id (Some d) ->
  run_op h op c = (DANOS_OK, c') -> length buf = n ->
  danos_object_read (Some h) t id (Some buf) (Some n) c' =
    (if (n <? length d)%nat then (DANOS_ERR_INVALID_ARG, Some buf, Some (length d))
     else (DANOS_OK, Some (d ++ drop (length d) buf), Some (length d))) /\
  (forall t' id' out k, (t', id') <> (t, id) ->
     danos_object_read (Some h) t' id' out (Some k) c' =
     danos_object_read (Some h) t' id' out (Some k) c).
Proof.
  intros Hwf Hh Hop Hrun Hbuf. pose proof Hh as [s Hs].
  destruct (run_op_refines c Hwf h s Hs op) as [(st & m & Hspec & Hst & Hmu)|(Hst & _)];
    rewrite Hrun in *; simpl in *; [|done]. subst st.
  destruct Hmu as [Mwf Mo Ml _ _ _].
  assert (m = <[(t, id) := d]> (objs c h)) as Hm.
  { destruct Hop as [-> | ->]; destruct d as [|b d]; simpl in Hspec; try done;
      case_decide; congruence. }
  split.
  - rewrite object_read_lookup, Mo, Hm, lookup_insert_eq by done. done.
  - intros t' id' out k Hne. rewrite !object_read_lookup, Mo, Hm, lookup_insert_ne by done.
    done.
Qed.

Lemma object_write_read_witness :
  let c' := (run_op 1 (OpCreate DANOS_OBJ_VRF 1 (Some [5; 6])) (set_os demo_core (mk_os [] ∅))).2 in
  danos_object_read (Some 1) DANOS_OBJ_VRF 1 (Some [0; 0; 9]) (Some 3%nat) c' =
    (DANOS_OK, Some [5; 6; 9], Some 2%nat) /\
  (forall t' id' out k, (t', id') <> (DANOS_OBJ_VRF, 1) ->
     danos_object_read (Some 1) t' id' out (Some k) c' =
     danos_object_read (Some 1) t' id' out (Some k) (set_os demo_core (mk_os [] ∅))).
Proof.
  apply (object_write_read (set_os demo_core (mk_os [] ∅)) 1
           (OpCreate DANOS_OBJ_VRF 1 (Some [5; 6])) _ DANOS_OBJ_VRF 1 [5; 6] [0; 0; 9] 3);
    [..|by left|reflexivity|reflexivity].
  - destruct demo_core_wf. by split.
  - done.
Defined.

Lemma notify_mutation_events h op ev t id d c :
  c_events (notify_mutation h op ev t id d c) =
    danos_event_publish (obj_event ev t id (c_time c)) (c_events c) /\
  g_dirty (notify_mutation h op ev t id d c) = true.
Proof.
  unfold notify_mutation. simpl.
  pose proof (persist_on_mutation_frame h op t id d c) as [_ _ _ _ Ht]. rewrite Ht.
  split; [|done]. f_equal. unfold danos_persist_on_mutation, danos_persist_log_op.
  by repeat case_match; simplify_eq/=.
Qed.

Definition op_event (op : obj_op) (time : Z) : danos_event :=
  match op with
  | OpCreate t id _ => obj_event DANOS_EVENT_OBJ_CREATED t id time
  | OpUpdate t id _ => obj_event DANOS_EVENT_OBJ_UPDATED t id time
  | OpDelete t id => obj_event DANOS_EVENT_OBJ_DELETED t id time
  end.

(** Notification: an object operation that succeeds marks the programming
    pipeline dirty and publishes exactly one event, of the matching kind and
    object; one that fails, for whatever reason, does neither. *)
Theorem object_ops_notify h op c :
  let '(st, c') := run_op h op c in
  if decide (st = DANOS_OK)
  then g_dirty c' = true /\
       c_events c' = danos_event_publish (op_event op (c_time c)) (c_events c)
  else g_dirty c' = g_dirty c /\ c_events c' = c_events c.
Proof.
  assert (forall c b c1, core_alloc c = (b, c1) -> g_dirty c1 = g_dirty c /\
    c_events c1 = c_events c /\ c_time c1 = c_time c) as Ha.
  { intros c0 b c1. unfold core_alloc. by destruct (alloc (c_os c0)); intros [= <- <-]. }
  destruct op as [t id d|t id d|t id]; simpl; unfold danos_object_create,
    danos_object_update, danos_object_delete; repeat case_match; simplify_eq;
    repeat match goal with H : core_alloc _ = _ |- _ => apply Ha in H as (? & ? & ?) end;
    try (split; congruence);
    match goal with |- context [notify_mutation ?h ?o ?e ?t ?i ?d ?c] =>
      destruct (notify_mutation_events h o e t i d c) as [E1 E2] end;
    (split; [done|]); rewrite E1; simpl; congruence.
Qed.
