(* ===== verification/Persist.v ===== *)
(** * Configuration persistence: danos-core persist.h / persist.c

    Enabling the log, recovering the durable store from it at start-up and
    checkpointing; the logging side is in Registry.v.  The main result is that
    a restart gives back the persistable part of the store. *)

From stdpp Require Import base decidable list numbers gmap.
From Stdlib Require Import ZArith Lia.
From S2P Require Import Prelude Dpa ObjectStore Wal EventBus Registry.

(** ** Enabling and disabling *)

Definition danos_persist_disable (c : core) : core :=
  let p := c_persist c in
  if g_enabled p then
    let '(w, o) := danos_wal_close (g_wal p) (c_os c) in
    set_os (set_persist c (mk_persist w false (g_recovering p)
                             (g_records_logged p) (g_recovered p))) o
  else c.

Definition danos_persist_enable (wal_path : option bytes) (c : core) : Z * core :=
  match wal_path with
  | None => (-1, c)
  | Some path =>
      let c := if g_enabled (c_persist c) then danos_persist_disable c else c in
      let '(r, w, o) := danos_wal_init (Some path) (c_os c) in
      let c := with_wal c w o in
      if negb (r =? 0) then (-1, c) else
      let p := c_persist c in
      (0, set_persist c (mk_persist (g_wal p) true (g_recovering p)
                           (g_records_logged p) (g_recovered p)))
  end.

Definition danos_persist_is_enabled (c : core) : bool := g_enabled (c_persist c).

Definition danos_persist_checkpoint (c : core) : Z * core :=
  if negb (g_enabled (c_persist c)) then (0, c) else
  let '(r, w, o) := danos_wal_checkpoint (Some (g_wal (c_persist c))) (c_os c) in
  let c := with_wal c (default wal_ctx_zero w) o in
  if negb (r =? 0) then (-1, c) else (0, c).

Definition danos_persist_get_stats (c : core) : Z * Z :=
  (g_records_logged (c_persist c), g_recovered (c_persist c)).

(** ** The replay table *)

Record replay_slot := mk_slot {
  rs_data : option bytes;
  rs_len : Z;
  rs_last_op : Z;
  rs_wal_type : Z;
  rs_id : Z;
  rs_used : bool;
}.

Abbreviation replay_table := (list replay_slot).

Definition REPLAY_SLOTS : nat := 4096.

Definition slot_zero : replay_slot := mk_slot None 0 0 0 0 false.

Definition slot_key (s : replay_slot) : Z * Z := (rs_wal_type s, rs_id s).

(** The [i]-th slot probed for a key. *)
Definition probe_pos (k : Z * Z) (i : nat) : nat :=
  let h := Z.land (u32 (u32 (k.1 * 2654435761) + k.2)) 4095 in
  Z.to_nat (Z.land (u32 (h + Z.of_nat i)) 4095).

(** [replay_slot]: [n] probes are left, the next one is the [i]-th.  The
    slot's index, and the table with the slot claimed. *)
Fixpoint replay_probe (n i : nat) (k : Z * Z) (tb : replay_table)
    : option (nat * replay_table) :=
  match n with
  | O => None
  | S n =>
      let j := probe_pos k i in
      match tb !! j with
      | None => None
      | Some s =>
          if negb (rs_used s)
          then Some (j, <[j := mk_slot (rs_data s) (rs_len s) (rs_last_op s) k.1 k.2 true]> tb)
          else if (rs_wal_type s =? k.1) && (rs_id s =? k.2) then Some (j, tb)
          else replay_probe n (S i) k tb
      end
  end.

Definition is_object_op (op : Z) : bool :=
  (op =? WAL_OP_CREATE) || (op =? WAL_OP_UPDATE) || (op =? WAL_OP_DELETE).

Definition replay_cb (rec : wal_record) (tb : replay_table) (o : os) : replay_table * os :=
  if negb (is_object_op (wr_op_type rec)) then (tb, o) else
  match replay_probe REPLAY_SLOTS 0 (wr_obj_type rec, wr_obj_id rec) tb with
  | None => (tb, o)
  | Some (j, tb) =>
      let put d := <[j := mk_slot d (wr_data_len rec) (wr_op_type rec)
                            (wr_obj_type rec) (wr_obj_id rec) true]> tb in
      if wal_has_payload rec then
        let '(ok, o) := alloc o in
        (if ok then put (Some (wal_payload rec)) else put None, o)
      else (put None, o)
  end.

(** ** Recovery *)

Definition set_recovering (c : core) (b : bool) : core :=
  let p := c_persist c in
  set_persist c (mk_persist (g_wal p) (g_enabled p) b (g_records_logged p) (g_recovered p)).

(** One iteration of the loop that applies the table. *)
Definition apply_slot (ac : Z * core) (s : replay_slot) : Z * core :=
  let '(applied, c) := ac in
  if negb (rs_used s) || (rs_last_op s =? 0) then (applied, c) else
  let type := wal_type_to_dpa (rs_wal_type s) in
  if bool_decide (type = DANOS_OBJ_INVALID) then (applied, c) else
  let h := g_default_store c in
  if rs_last_op s =? WAL_OP_DELETE then
    (applied + 1, (danos_object_delete h type (rs_id s) c).2)
  else if bool_decide (is_Some (rs_data s)) && (0 <? rs_len s) then
    let '(st, c) :=
      if rs_last_op s =? WAL_OP_UPDATE then
        let '(st, c) := danos_object_update h type (rs_id s) (rs_data s) c in
        if bool_decide (st = DANOS_ERR_NOT_FOUND)
        then danos_object_create h type (rs_id s) (rs_data s) c else (st, c)
      else danos_object_create h type (rs_id s) (rs_data s) c in
    if bool_decide (st = DANOS_OK \/ st = DANOS_ERR_EXISTS \/ st = DANOS_ERR_NOT_FOUND)
    then (applied + 1, c) else (applied, c)
  else (applied, c).

Definition danos_persist_recover (c : core) : Z * core :=
  if negb (g_enabled (c_persist c)) then (0, c) else
  let c := match g_default_store c with
           | Some _ => c
           | None => let '(h, c) := store_create 1024 c in set_default_store c h
           end in
  let c := set_recovering c true in
  let '(ok, c) := core_alloc c in
  if negb ok then (-1, c) else
  let '(_, tb, o) :=
    danos_wal_replay replay_cb (Some (w_path (g_wal (c_persist c))))
      (replicate REPLAY_SLOTS slot_zero) (c_os c) in
  let '(applied, c) := foldl apply_slot (0, set_os c o) tb in
  let p := c_persist c in
  (applied, set_persist c (mk_persist (g_wal p) (g_enabled p) false
                             (g_records_logged p) (u64 applied))).

(** The start-up sequence of a daemon: enable the log, then recover. *)
Definition boot (path : bytes) (o : os) (time : Z) : core :=
  (danos_persist_recover (danos_persist_enable (Some path) (core_boot o time)).2).2.

(** ** The table as a map from keys to the last operation *)

Lemma land_4095 x : Z.land (u32 x) 4095 = x mod 4096.
Proof.
  change 4095 with (Z.ones 12). rewrite Z.land_ones by lia. unfold u32.
  change (2 ^ 12) with 4096. change (2 ^ 32) with (4096 * 1048576).
  rewrite Z.rem_mul_r by lia. rewrite Z.mul_comm, Z.mod_add by lia.
  by rewrite Z.mod_mod by lia.
Qed.

Definition slot_home (k : Z * Z) : Z := (u32 (k.1 * 2654435761) + k.2) mod 4096.

Lemma probe_pos_mod k i :
  probe_pos k i = Z.to_nat ((slot_home k + Z.of_nat i) mod 4096).
Proof. unfold probe_pos, slot_home. by rewrite !land_4095. Qed.

Lemma probe_pos_lt k i : (probe_pos k i < REPLAY_SLOTS)%nat.
Proof.
  rewrite probe_pos_mod. unfold REPLAY_SLOTS.
  pose proof (Z.mod_pos_bound (slot_home k + Z.of_nat i) 4096). lia.
Qed.

Lemma probe_pos_cover k j :
  (j < REPLAY_SLOTS)%nat -> exists i, (i < REPLAY_SLOTS)%nat /\ probe_pos k i = j.
Proof.
  unfold REPLAY_SLOTS. intros Hj.
  exists (Z.to_nat ((Z.of_nat j - slot_home k) mod 4096)).
  pose proof (Z.mod_pos_bound (Z.of_nat j - slot_home k) 4096).
  split; [lia|]. rewrite probe_pos_mod, Z2Nat.id by lia.
  rewrite Zplus_mod_idemp_r.
  replace (slot_home k + (Z.of_nat j - slot_home k)) with (Z.of_nat j) by lia.
  rewrite Z.mod_small; lia.
Qed.

#[global] Opaque REPLAY_SLOTS.

(** Probe [i] for [k] meets a slot claimed by another key. *)
Definition slot_blocks (tb : replay_table) (k : Z * Z) (i : nat) : Prop :=
  exists s, tb !! probe_pos k i = Some s /\ rs_used s = true /\ slot_key s <> k.

Record table_wf (tb : replay_table) : Prop := {
  tw_length : length tb = REPLAY_SLOTS;
  tw_reach : forall j s, tb !! j = Some s -> rs_used s = true ->
    exists i, (i < REPLAY_SLOTS)%nat /\ j = probe_pos (slot_key s) i /\
      forall i', (i' < i)%nat -> slot_blocks tb (slot_key s) i';
}.

(** The probe stops at the first slot that does not block. *)
Lemma replay_probe_walk tb k n i d s :
  (forall i', (i <= i' < i + d)%nat -> slot_blocks tb k i') ->
  tb !! probe_pos k (i + d) = Some s -> (d < n)%nat ->
  rs_used s = false \/ slot_key s = k ->
  replay_probe n i k tb =
    Some (probe_pos k (i + d),
          if rs_used s then tb
          else <[probe_pos k (i + d) :=
                   mk_slot (rs_data s) (rs_len s) (rs_last_op s) k.1 k.2 true]> tb).
Proof.
  revert i d. induction n as [|n IH]; intros i d Hb Hs Hn Hstop; [lia|]. simpl.
  destruct d as [|d].
  - rewrite Nat.add_0_r in *. rewrite Hs.
    destruct (rs_used s) eqn:Hu; simpl; [|done].
    destruct Hstop as [|<-]; [done|]. simpl. by rewrite !Z.eqb_refl.
  - destruct (Hb i) as (s' & -> & -> & Hk); [lia|]. simpl.
    replace ((rs_wal_type s' =? k.1) && (rs_id s' =? k.2)) with false; cycle 1.
    { symmetry. apply andb_false_iff. unfold slot_key in Hk. destruct k as [k1 k2]. simpl.
      destruct (Z.eqb_spec (rs_wal_type s') k1), (Z.eqb_spec (rs_id s') k2); subst; tauto. }
    replace (i + S d)%nat with (S i + d)%nat in * by lia.
    apply IH; [|done|lia|done]. intros i' Hi'. apply Hb. lia.
Qed.

Lemma table_key_inj tb j1 j2 s1 s2 :
  table_wf tb -> tb !! j1 = Some s1 -> tb !! j2 = Some s2 ->
  rs_used s1 = true -> rs_used s2 = true -> slot_key s1 = slot_key s2 -> j1 = j2.
Proof.
  intros [_ Hr] H1 H2 U1 U2 Hk.
  destruct (Hr j1 s1 H1 U1) as (i1 & _ & E1 & B1).
  destruct (Hr j2 s2 H2 U2) as (i2 & _ & E2 & B2). rewrite Hk in *.
  destruct (lt_eq_lt_dec i1 i2) as [[Hlt| ->]|Hlt]; [|congruence|].
  - destruct (B2 i1 Hlt) as (s & Hs & _ & Hne). congruence.
  - destruct (B1 i2 Hlt) as (s & Hs & _ & Hne). congruence.
Qed.

(** Writing a used slot's contents keeps the table's shape. *)
Lemma table_wf_write tb j s s' :
  table_wf tb -> tb !! j = Some s -> rs_used s' = true ->
  (rs_used s = true -> slot_key s' = slot_key s) ->
  (exists i, (i < REPLAY_SLOTS)%nat /\ j = probe_pos (slot_key s') i /\
     forall i', (i' < i)%nat -> slot_blocks tb (slot_key s') i') ->
  table_wf (<[j := s']> tb).
Proof.
  intros [Hl Hr] Hj Hu' Hk Hi.
  assert (j < length tb)%nat as Hlt by (by eapply lookup_lt_Some).
  assert (forall k i, k <> slot_key s' \/ probe_pos k i <> j -> slot_blocks tb k i ->
            slot_blocks (<[j := s']> tb) k i) as Hkeep.
  { intros k i Hc (x & Hx & Hxu & Hxk). unfold slot_blocks.
    destruct (decide (probe_pos k i = j)) as [Heq|Hne].
    - exists s'. rewrite Heq, list_lookup_insert_eq by done.
      split_and!; [done|done|]. destruct Hc; congruence.
    - exists x. by rewrite list_lookup_insert_ne. }
  split; [by rewrite length_insert|].
  intros j' x Hx Hxu. destruct (decide (j = j')) as [<-|Hne].
  - rewrite list_lookup_insert_eq in Hx by done. simplify_eq.
    destruct Hi as (i & Hi & Hji & Hb). exists i. split_and!; [done|done|].
    intros i' Hi'. apply Hkeep; [|auto]. right. intros Heq.
    destruct (Hb i' Hi') as (y & Hy & Hyu & Hyk). rewrite Heq in Hy. simplify_eq.
    by rewrite Hk in Hyk.
  - rewrite list_lookup_insert_ne in Hx by done.
    destruct (Hr j' x Hx Hxu) as (i & Hi' & Hj' & Hb). exists i. split_and!; [done|done|].
    intros i' Hlt'. destruct (decide (probe_pos (slot_key x) i' = j)) as [Heq|Hq].
    + destruct (Hb i' Hlt') as (y & Hy & Hyu & Hyk). rewrite Heq in Hy. simplify_eq.
      exists s'. rewrite list_lookup_insert_eq by done.
      split_and!; [done|done|]. by rewrite Hk.
    + apply Hkeep; auto.
Qed.

Abbreviation last_ops := (gmap (Z * Z) (Z * option bytes)).

Record table_rep (tb : replay_table) (m : last_ops) : Prop := {
  tr_wf : table_wf tb;
  tr_slots : forall j s, tb !! j = Some s -> rs_used s = true ->
    m !! slot_key s = Some (rs_last_op s, rs_data s) /\
    rs_len s = Z.of_nat (length (default [] (rs_data s)));
  tr_keys : forall k v, m !! k = Some v ->
    exists j s, tb !! j = Some s /\ rs_used s = true /\ slot_key s = k;
}.

Lemma table_rep_empty : table_rep (replicate REPLAY_SLOTS slot_zero) ∅.
Proof.
  split; [split|..].
  - apply length_replicate.
  - by intros j s [-> _]%lookup_replicate ?.
  - by intros j s [-> _]%lookup_replicate ?.
  - intros k v Hk. by rewrite lookup_empty in Hk.
Qed.

Definition used_keys (tb : replay_table) : list (Z * Z) :=
  slot_key <$> filter (fun s => rs_used s = true) tb.

Lemma used_keys_nodup tb : table_wf tb -> NoDup (used_keys tb).
Proof.
  intros Hwf. pose proof (table_key_inj tb) as Hinj.
  assert (forall j1 j2 s1 s2, tb !! j1 = Some s1 -> tb !! j2 = Some s2 ->
    rs_used s1 = true -> rs_used s2 = true -> slot_key s1 = slot_key s2 -> j1 = j2)
    as Hi by (intros; by eapply Hinj).
  clear Hinj Hwf. unfold used_keys. induction tb as [|s tb IH]; [constructor|].
  assert (NoDup (slot_key <$> filter (fun s => rs_used s = true) tb)) as IH'.
  { apply IH. intros j1 j2 s1 s2 H1 H2 U1 U2 Hk.
    assert (S j1 = S j2) by (by eapply (Hi (S j1) (S j2) s1 s2)). lia. }
  rewrite filter_cons. case_decide as Hu; [|done]. simpl. constructor; [|done].
  intros (s' & Hk & Hs')%list_elem_of_fmap.
  apply list_elem_of_filter in Hs' as [Hu' [j Hj]%list_elem_of_lookup].
  assert (0 = S j)%nat by (by eapply (Hi 0 (S j) s s')%nat). lia.
Qed.

Lemma used_keys_size tb m :
  table_rep tb m -> length (used_keys tb) = size m.
Proof.
  intros Hr. pose proof (used_keys_nodup tb (tr_wf _ _ Hr)) as Hnd.
  rewrite <- (size_list_to_set (C := gset (Z * Z)) _ Hnd), <- size_dom. f_equal.
  apply set_eq. intros k. rewrite elem_of_list_to_set, elem_of_dom. split.
  - intros (s & -> & Hs)%list_elem_of_fmap.
    apply list_elem_of_filter in Hs as [Hu [j Hj]%list_elem_of_lookup].
    destruct (tr_slots _ _ Hr j s Hj Hu) as [-> _]. done.
  - intros [v Hv]. destruct (tr_keys _ _ Hr k v Hv) as (j & s & Hj & Hu & <-).
    apply list_elem_of_fmap_2, list_elem_of_filter.
    split; [done|by eapply list_elem_of_lookup_2].
Qed.

Lemma table_has_room tb m :
  table_rep tb m -> (size m < REPLAY_SLOTS)%nat ->
  exists j s, tb !! j = Some s /\ rs_used s = false.
Proof.
  intros Hr Hsz.
  destruct (decide (Exists (fun s => rs_used s = false) tb)) as [He|He].
  - apply Exists_exists in He as (s & [j Hj]%list_elem_of_lookup & Hu). eauto.
  - exfalso. rewrite <- Forall_Exists_neg in He.
    rewrite <- (used_keys_size tb m Hr) in Hsz. unfold used_keys in Hsz.
    rewrite length_fmap in Hsz.
    assert (filter (fun s => rs_used s = true) tb = tb) as Hall.
    { clear -He. induction He as [|s tb Hs _ IH]; [done|].
      rewrite filter_cons_True; [by f_equal|]. by destruct (rs_used s). }
    rewrite Hall, (tw_length _ (tr_wf _ _ Hr)) in Hsz. lia.
Qed.

Lemma table_probe tb m k :
  table_rep tb m -> (is_Some (m !! k) \/ size m < REPLAY_SLOTS)%nat ->
  exists i s tb', (i < REPLAY_SLOTS)%nat /\
    replay_probe REPLAY_SLOTS 0 k tb = Some (probe_pos k i, tb') /\
    (forall x, <[probe_pos k i := x]> tb' = <[probe_pos k i := x]> tb) /\
    tb !! probe_pos k i = Some s /\ (rs_used s = true -> slot_key s = k) /\
    (rs_used s = false -> m !! k = None) /\
    (forall i', (i' < i)%nat -> slot_blocks tb k i').
Proof.
  intros Hr Hc. destruct (m !! k) as [v|] eqn:Hk.
  - destruct (tr_keys _ _ Hr k v Hk) as (j & s & Hj & Hu & Hsk).
    destruct (tw_reach _ (tr_wf _ _ Hr) j s Hj Hu) as (i & Hi & -> & Hb).
    rewrite Hsk in *. exists i, s, tb. split_and!; try done; [|congruence].
    rewrite (replay_probe_walk tb k _ 0 i s); [by rewrite Hu| |done..|by right].
    intros. apply Hb. lia.
  - destruct Hc as [[? ?]|Hsz]; [done|].
    destruct (table_has_room tb m Hr Hsz) as (j0 & s0 & Hj0 & Hu0).
    destruct (probe_pos_cover k j0) as (i0 & Hi0 & Hp0).
    { rewrite <- (tw_length _ (tr_wf _ _ Hr)). by eapply lookup_lt_Some. }
    destruct (least_nat (fun i => (rs_used <$> tb !! probe_pos k i) = Some false) i0)
      as (i & Hi & Hf & Hmin); [by rewrite Hp0, Hj0; simpl; rewrite Hu0|].
    destruct (tb !! probe_pos k i) as [s|] eqn:Hs; simplify_eq/=.
    assert (forall i', (i' < i)%nat -> slot_blocks tb k i') as Hb.
    { intros i' Hi'. destruct (lookup_lt_is_Some_2 tb (probe_pos k i')) as [s' Hs'].
      { rewrite (tw_length _ (tr_wf _ _ Hr)). apply probe_pos_lt. }
      exists s'. pose proof (Hmin i' Hi') as Hn. rewrite Hs' in Hn. simpl in Hn.
      destruct (rs_used s') eqn:Hu'; [|done]. split_and!; [done|done|].
      intros <-. destruct (tr_slots _ _ Hr _ _ Hs' Hu') as [? _]. congruence. }
    eexists i, s, _. split_and!; [lia| |..|done]; try congruence.
    + rewrite (replay_probe_walk tb k _ 0 i s); [done| |done|lia|by left].
      intros. apply Hb. lia.
    + intros x. simpl. rewrite Hf. by rewrite list_insert_insert_eq.
Qed.

Lemma table_rep_write tb m i s s' :
  table_rep tb m -> (i < REPLAY_SLOTS)%nat ->
  tb !! probe_pos (slot_key s') i = Some s ->
  (rs_used s = true -> slot_key s = slot_key s') ->
  (forall i', (i' < i)%nat -> slot_blocks tb (slot_key s') i') ->
  rs_used s' = true -> rs_len s' = Z.of_nat (length (default [] (rs_data s'))) ->
  table_rep (<[probe_pos (slot_key s') i := s']> tb)
            (<[slot_key s' := (rs_last_op s', rs_data s')]> m).
Proof.
  intros Hr Hi Hs Hk Hb Hu' Hlen.
  assert (probe_pos (slot_key s') i < length tb)%nat as Hlt by (by eapply lookup_lt_Some).
  assert (table_wf (<[probe_pos (slot_key s') i := s']> tb)) as Hwf'.
  { eapply table_wf_write; [apply Hr|done|done| |by eexists].
    intros Hu. symmetry. auto. }
  split; [done|..].
  - intros j x Hx Hxu. destruct (decide (probe_pos (slot_key s') i = j)) as [<-|Hne].
    + rewrite list_lookup_insert_eq in Hx by done. simplify_eq.
      by rewrite lookup_insert_eq.
    + pose proof Hx as Hx'. rewrite list_lookup_insert_ne in Hx by done.
      rewrite lookup_insert_ne; [by eapply (tr_slots _ _ Hr)|].
      intros Heq. apply Hne.
      eapply (table_key_inj _ _ _ s' x Hwf'); [|done..].
      by apply list_lookup_insert_eq.
  - intros k v [[<- _]|[Hne Hv]]%lookup_insert_Some.
    + exists (probe_pos (slot_key s') i), s'. by rewrite list_lookup_insert_eq.
    + destruct (tr_keys _ _ Hr k v Hv) as (j & x & Hj & Hxu & Hxk).
      exists j, x. rewrite list_lookup_insert_ne; [done|].
      intros Hjj. rewrite <- Hjj, Hs in Hj. simplify_eq. apply Hne. by rewrite <- Hk.
Qed.

Definition rec_key (r : wal_record) : Z * Z := (wr_obj_type r, wr_obj_id r).

(** A record of an object operation as the core writes them. *)
Record log_rec (r : wal_record) : Prop := {
  lr_wf : wal_wf r;
  lr_type : wal_type_to_dpa (wr_obj_type r) <> DANOS_OBJ_INVALID;
  lr_op : wr_op_type r = WAL_OP_CREATE \/ wr_op_type r = WAL_OP_UPDATE \/
          wr_op_type r = WAL_OP_DELETE;
  lr_data : wr_op_type r = WAL_OP_DELETE <-> wr_data r = None;
}.

Definition last_step (m : last_ops) (r : wal_record) : last_ops :=
  <[rec_key r := (wr_op_type r, wr_data r)]> m.

Lemma replay_cb_rep tb m r o :
  table_rep tb m -> os_env o = [] -> log_rec r ->
  (is_Some (m !! rec_key r) \/ size m < REPLAY_SLOTS)%nat ->
  exists tb', replay_cb r tb o = (tb', o) /\ table_rep tb' (last_step m r).
Proof.
  intros Hr Henv Hlr Hroom. pose proof (lr_wf r Hlr) as Hwf.
  destruct (wal_payload_wf r Hwf) as (_ & Hpd & Hhas).
  destruct (table_probe tb m (rec_key r) Hr Hroom)
    as (i & s & tb' & Hi & Hp & Hins & Hs & Hk & _ & Hb).
  set (s' := mk_slot (wr_data r) (wr_data_len r) (wr_op_type r) (wr_obj_type r)
               (wr_obj_id r) true).
  exists (<[probe_pos (slot_key s') i := s']> tb). split.
  - unfold replay_cb.
    replace (is_object_op (wr_op_type r)) with true
      by (unfold is_object_op; by destruct (lr_op r Hlr) as [-> | [-> | ->]]).
    fold (rec_key r). rewrite Hp. simpl. change (slot_key s') with (rec_key r).
    rewrite <- Hins, Hhas. rewrite (alloc_granted o Henv).
    subst s'. rewrite <- Hpd. by destruct (0 <? wr_data_len r).
  - unfold last_step. change (rec_key r) with (slot_key s').
    eapply table_rep_write; try done. simpl.
    pose proof (ww_data r Hwf) as Hd. destruct (wr_data r); [by destruct Hd|done].
Qed.

Definition rec_keys (recs : list wal_record) : gset (Z * Z) :=
  list_to_set (rec_key <$> recs).

Lemma replay_cb_env r tb o : os_env o = [] -> os_env (replay_cb r tb o).2 = [].
Proof.
  intros Henv. unfold replay_cb. rewrite (alloc_granted o Henv).
  repeat case_match; by simplify_eq/=.
Qed.

Lemma last_step_dom recs m : dom (foldl last_step m recs) = dom m ∪ rec_keys recs.
Proof.
  revert m. induction recs as [|r recs IH]; intros m; unfold rec_keys; simpl.
  - set_solver.
  - rewrite IH. unfold last_step, rec_keys. rewrite dom_insert_L. set_solver.
Qed.

Lemma replay_fold_rep recs tb m o :
  table_rep tb m -> os_env o = [] -> Forall log_rec recs ->
  (size (dom m ∪ rec_keys recs) <= REPLAY_SLOTS)%nat ->
  exists tb', replay_fold replay_cb recs tb o = (tb', o) /\
    table_rep tb' (foldl last_step m recs).
Proof.
  intros Hr Henv Hrecs. revert tb m Hr.
  induction Hrecs as [|r recs Hlr _ IH]; intros tb m Hr Hsz; [by exists tb|].
  destruct (replay_cb_rep tb m r o Hr Henv Hlr) as (tb1 & H1 & Hr1).
  { destruct (decide (is_Some (m !! rec_key r))) as [?|Hn]; [by left|right].
    apply Nat.lt_le_trans with (size (dom m ∪ rec_keys (r :: recs))); [|done].
    rewrite <- size_dom. apply subset_size. unfold rec_keys. simpl.
    split; [set_solver|]. intros Hsub. apply Hn, elem_of_dom. set_solver. }
  destruct (IH tb1 _ Hr1) as (tb2 & H2 & Hr2).
  { unfold last_step. rewrite dom_insert_L. unfold rec_keys in *. simpl in Hsz.
    etrans; [|exact Hsz]. apply subseteq_size. set_solver. }
  exists tb2. split; [|done]. unfold replay_fold in *. cbn [foldl fst snd]. by rewrite H1.
Qed.

(** ** What a log means *)

Definition dpa_key (k : Z * Z) : obj_key := (wal_type_to_dpa k.1, k.2).

(** The object a last operation leaves. *)
Definition outcome (v : Z * option bytes) : option bytes :=
  if v.1 =? WAL_OP_DELETE then None else v.2.

Definition wal_apply (m : gmap obj_key bytes) (r : wal_record) : gmap obj_key bytes :=
  let k := dpa_key (rec_key r) in
  if wr_op_type r =? WAL_OP_DELETE then delete k m
  else match wr_data r with Some d => <[k := d]> m | None => m end.

Definition log_objs (recs : list wal_record) : gmap obj_key bytes :=
  foldl wal_apply ∅ recs.

Lemma wal_type_roundtrip t :
  wal_type_to_dpa t <> DANOS_OBJ_INVALID -> dpa_type_to_wal (wal_type_to_dpa t) = t.
Proof. unfold wal_type_to_dpa. repeat case_match; bool_prop; subst; done. Qed.

Lemma dpa_type_roundtrip t : dpa_type_to_wal t <> 0 -> wal_type_to_dpa (dpa_type_to_wal t) = t.
Proof. by destruct t. Qed.

Lemma dpa_key_inj k1 k2 :
  wal_type_to_dpa k1.1 <> DANOS_OBJ_INVALID -> dpa_key k1 = dpa_key k2 -> k1 = k2.
Proof.
  intros Hv Heq. unfold dpa_key in Heq. destruct k1 as [t1 i1], k2 as [t2 i2]. simpl in *.
  assert (wal_type_to_dpa t1 = wal_type_to_dpa t2) as Ht by congruence.
  rewrite <- (wal_type_roundtrip t1), <- (wal_type_roundtrip t2) by congruence. congruence.
Qed.

Lemma wal_apply_lookup m r k :
  log_rec r -> wal_apply m r !! k =
    if decide (dpa_key (rec_key r) = k) then outcome (wr_op_type r, wr_data r) else m !! k.
Proof.
  intros Hlr. unfold wal_apply, outcome. simpl.
  destruct (Z.eqb_spec (wr_op_type r) WAL_OP_DELETE) as [Hd|Hd].
  - case_decide as Hk; [by rewrite Hk, lookup_delete_eq | by rewrite lookup_delete_ne].
  - destruct (wr_data r) as [d|] eqn:Hdat; [|by apply (lr_data r Hlr) in Hdat].
    case_decide as Hk; [by rewrite Hk, lookup_insert_eq | by rewrite lookup_insert_ne].
Qed.

(** [m] holds exactly what the last operations [l] leave. *)
Record log_rel (m : gmap obj_key bytes) (l : last_ops) : Prop := {
  ll_found : forall k v, l !! k = Some v -> m !! dpa_key k = outcome v;
  ll_only : forall k d, m !! k = Some d -> exists k' v, l !! k' = Some v /\ dpa_key k' = k;
}.

Lemma log_rel_step m l r :
  log_rel m l -> log_rec r -> log_rel (wal_apply m r) (last_step l r).
Proof.
  intros [Hf Ho] Hlr. split.
  - intros k v. rewrite wal_apply_lookup by done. unfold last_step.
    intros [[<- <-]|[Hne Hv]]%lookup_insert_Some; [by rewrite decide_True|].
    rewrite decide_False; [auto|]. intros Heq.
    apply dpa_key_inj in Heq; [done|apply (lr_type r Hlr)].
  - intros k d. rewrite wal_apply_lookup by done. unfold last_step. case_decide as Hk.
    + intros _. exists (rec_key r). eexists. by rewrite lookup_insert_eq.
    + intros Hd. destruct (Ho k d Hd) as (k' & v & Hv & Hk').
      exists k', v. rewrite lookup_insert_ne; [done|]. congruence.
Qed.

Lemma log_rel_fold recs m l :
  log_rel m l -> Forall log_rec recs ->
  log_rel (foldl wal_apply m recs) (foldl last_step l recs).
Proof.
  intros H Hrecs. revert m l H. induction Hrecs as [|r recs Hr _ IH]; intros m l H; [done|].
  simpl. by apply IH, log_rel_step.
Qed.

(** Every entry of the last-operation map is one a record made. *)
Definition op_entry (k : Z * Z) (v : Z * option bytes) : Prop :=
  exists r, log_rec r /\ rec_key r = k /\ v = (wr_op_type r, wr_data r).

Lemma last_fold_entries recs l :
  (forall k v, l !! k = Some v -> op_entry k v) -> Forall log_rec recs ->
  forall k v, foldl last_step l recs !! k = Some v -> op_entry k v.
Proof.
  intros Hl Hrecs. revert l Hl. induction Hrecs as [|r recs Hr _ IH]; intros l Hl; [done|].
  simpl. apply IH. unfold last_step.
  intros k v [[<- <-]|[_ Hv]]%lookup_insert_Some; [by exists r | auto].
Qed.

(** ** Applying the table *)

Definition slot_effect (m : gmap obj_key bytes) (s : replay_slot) : gmap obj_key bytes :=
  match outcome (rs_last_op s, rs_data s) with
  | Some d => <[dpa_key (slot_key s) := d]> m
  | None => delete (dpa_key (slot_key s)) m
  end.

(** The state during recovery: store [h] is the durable one. *)
Record recovering (h : Z) (o : os) (p : persist) (c : core) : Prop := {
  rc_wf : core_wf c;
  rc_live : is_Some (c_stores c !! h);
  rc_default : g_default_store c = Some h;
  rc_programmed : g_programmed c = None;
  rc_os : c_os c = o;
  rc_env : os_env o = [];
  rc_persist : c_persist c = p;
  rc_on : g_recovering p = true;
}.

Lemma recovering_op h o p c op :
  recovering h o p c ->
  recovering h o p (run_op h op c).2 /\
  (run_op h op c).1 = (spec_op op (objs c h)).1 /\
  objs (run_op h op c).2 h = (spec_op op (objs c h)).2.
Proof.
  intros [Hwf Hl Hd Hpr Ho He Hp Hon]. subst o p.
  destruct (run_op_granted c h op Hwf Hl He) as [Hst Hmu].
  destruct (run_op_quiet c h op Hwf Hl He Hon) as [Ho Hp].
  pose proof Hmu as [? ? ? ? Hd' Hp']. split_and!; [|done|done].
  split; try done; congruence.
Qed.

Definition slot_ok (s : replay_slot) : Prop :=
  rs_used s = true /\ op_entry (slot_key s) (rs_last_op s, rs_data s) /\
  rs_len s = Z.of_nat (length (default [] (rs_data s))).

Lemma log_rec_data r d : log_rec r -> wr_data r = Some d -> d <> [].
Proof.
  intros Hlr Hd. pose proof (ww_data r (lr_wf r Hlr)) as H. rewrite Hd in H. tauto.
Qed.

(** The three calls the loop makes, on a key the store does not have. *)
Section absent.
Context (h : Z) (o : os) (p : persist) (c : core) (Hrc : recovering h o p c).
Context (t : danos_obj_type) (id : Z) (Hnone : objs c h !! (t, id) = None).

Lemma spec_absent : ~ is_Some (objs c h !! (t, id)).
Proof. rewrite Hnone. by intros [? ?]. Qed.

Lemma recover_create d :
  d <> [] -> exists c', danos_object_create (Some h) t id (Some d) c = (DANOS_OK, c') /\
    recovering h o p c' /\ objs c' h = <[(t, id) := d]> (objs c h).
Proof.
  intros Hd. destruct d as [|b d]; [done|].
  destruct (recovering_op h o p c (OpCreate t id (Some (b :: d))) Hrc) as (R & S & M).
  simpl in *. rewrite decide_False in S, M by apply spec_absent.
  destruct (danos_object_create _ _ _ _ _) as [st c']. simpl in *. subst st. by exists c'.
Qed.

Lemma recover_update d :
  d <> [] -> danos_object_update (Some h) t id (Some d) c = (DANOS_ERR_NOT_FOUND, c).
Proof.
  intros Hd. destruct d as [|b d]; [done|]. destruct Hrc as [Hwf [s Hs] _ _ _ _ _ _].
  unfold danos_object_update. simpl. rewrite Hs.
  destruct (find_entry s t id) eqn:E; [|done]. destruct spec_absent.
  by rewrite objs_find, E.
Qed.

Lemma recover_delete : danos_object_delete (Some h) t id c = (DANOS_ERR_NOT_FOUND, c).
Proof.
  destruct Hrc as [Hwf [s Hs] _ _ _ _ _ _]. unfold danos_object_delete. rewrite Hs.
  rewrite store_unlink_None; [done|].
  destruct (find_entry s t id) eqn:E; [|done]. destruct spec_absent.
  by rewrite objs_find, E.
Qed.
End absent.

Lemma apply_slot_ok h o p c a s :
  recovering h o p c -> slot_ok s -> objs c h !! dpa_key (slot_key s) = None ->
  exists c', apply_slot (a, c) s = (a + 1, c') /\ recovering h o p c' /\
    objs c' h = slot_effect (objs c h) s.
Proof.
  intros Hrc (Hu & (r & Hlr & Hk & Hv) & Hlen) Hnone.
  assert (rs_wal_type s = wr_obj_type r) as Ht by (unfold rec_key, slot_key in Hk; congruence).
  assert (rs_last_op s = wr_op_type r /\ rs_data s = wr_data r) as [Hop Hdat]
    by (split; congruence).
  unfold apply_slot, slot_effect, outcome, dpa_key, slot_key in *.
  rewrite Hu, (rc_default _ _ _ _ Hrc). simpl in *.
  rewrite (bool_decide_eq_false_2 (wal_type_to_dpa _ = _)) by (rewrite Ht; apply lr_type, Hlr).
  destruct (decide (wr_op_type r = WAL_OP_DELETE)) as [Ho|Ho].
  - rewrite Hop, Ho. simpl. rewrite (recover_delete _ _ _ _ Hrc _ _ Hnone).
    exists c. split_and!; [done..|]. by rewrite delete_id.
  - destruct (wr_data r) as [d|] eqn:Hd; [|by apply (lr_data r Hlr) in Hd].
    pose proof (log_rec_data r d Hlr Hd) as Hne.
    rewrite Hop, Hdat, Hlen, Hdat, (proj2 (Z.eqb_neq _ _) Ho). simpl.
    rewrite (proj2 (Z.ltb_lt 0 _)) by (destruct d; [done|simpl; lia]).
    rewrite (recover_update _ _ _ _ Hrc _ _ Hnone d Hne). simpl.
    destruct (recover_create _ _ _ _ Hrc _ _ Hnone d Hne) as (c' & -> & R & M).
    exists c'. split; [|done].
    destruct (lr_op r Hlr) as [-> | [-> | ?]]; done.
Qed.

Lemma slot_effect_lookup m s k :
  slot_effect m s !! k =
    if decide (dpa_key (slot_key s) = k) then outcome (rs_last_op s, rs_data s) else m !! k.
Proof.
  unfold slot_effect. destruct (outcome _) as [d|]; case_decide as Hk.
  - by rewrite Hk, lookup_insert_eq.
  - by rewrite lookup_insert_ne.
  - by rewrite Hk, lookup_delete_eq.
  - by rewrite lookup_delete_ne.
Qed.

Lemma op_entry_valid k v : op_entry k v -> wal_type_to_dpa k.1 <> DANOS_OBJ_INVALID.
Proof. intros (r & Hr & <- & _). apply (lr_type r Hr). Qed.

Lemma slot_dpa_ne s s' :
  slot_ok s -> slot_key s <> slot_key s' -> dpa_key (slot_key s) <> dpa_key (slot_key s').
Proof.
  intros (_ & He & _) Hne Heq. apply Hne, dpa_key_inj; [|done]. by eapply op_entry_valid.
Qed.

Lemma apply_slots_ok ss h o p c a :
  recovering h o p c -> Forall slot_ok ss -> NoDup (slot_key <$> ss) ->
  (forall s, s ∈ ss -> objs c h !! dpa_key (slot_key s) = None) ->
  exists c', foldl apply_slot (a, c) ss = (a + Z.of_nat (length ss), c') /\
    recovering h o p c' /\ objs c' h = foldl slot_effect (objs c h) ss.
Proof.
  intros Hrc Hok. revert c a Hrc.
  induction Hok as [|s ss Hs Hss IH]; intros c a Hrc Hnd Hnone.
  - exists c. split_and!; [|done|done]. simpl. f_equal. lia.
  - apply NoDup_cons in Hnd as [Hni Hnd].
    destruct (apply_slot_ok h o p c a s Hrc Hs) as (c1 & H1 & R1 & M1); [apply Hnone; left|].
    destruct (IH c1 (a + 1) R1 Hnd) as (c2 & H2 & R2 & M2).
    + intros s' Hs'. rewrite M1, slot_effect_lookup, decide_False; [apply Hnone; by right|].
      apply slot_dpa_ne; [done|]. intros Heq. apply Hni. rewrite Heq.
      by apply list_elem_of_fmap_2.
    + exists c2. cbn [foldl]. rewrite H1, H2, M2, M1. split_and!; [|done|done].
      f_equal. simpl length. lia.
Qed.

(** Unused slots are skipped. *)
Lemma apply_slots_filter tb ac :
  foldl apply_slot ac tb = foldl apply_slot ac (filter (fun s => rs_used s = true) tb).
Proof.
  revert ac. induction tb as [|s tb IH]; intros ac; [done|].
  rewrite filter_cons. case_decide as Hu; cbn [foldl]; [apply IH|].
  rewrite <- IH. f_equal. destruct ac as [a c]. unfold apply_slot.
  by destruct (rs_used s).
Qed.

Lemma slot_effects_lookup ss m k :
  NoDup (slot_key <$> ss) -> Forall slot_ok ss ->
  (forall s, s ∈ ss -> dpa_key (slot_key s) = k ->
     foldl slot_effect m ss !! k = outcome (rs_last_op s, rs_data s)) /\
  ((forall s, s ∈ ss -> dpa_key (slot_key s) <> k) -> foldl slot_effect m ss !! k = m !! k).
Proof.
  intros Hnd Hok. revert m Hnd. induction Hok as [|s ss Hs Hss IH]; intros m Hnd.
  - split; [|done]. intros s Hs. by apply elem_of_nil in Hs.
  - apply NoDup_cons in Hnd as [Hni Hnd]. simpl.
    destruct (IH (slot_effect m s) Hnd) as [IH1 IH2]. split.
    + intros x [->|Hx]%elem_of_cons Hk; [|by apply IH1]. rewrite IH2.
      * by rewrite slot_effect_lookup, decide_True.
      * intros y Hy. rewrite <- Hk. apply not_eq_sym, slot_dpa_ne; [done|].
        intros Heq. apply Hni. rewrite Heq. by apply list_elem_of_fmap_2.
    + intros Hno. rewrite IH2; [|by intros y Hy; apply Hno; right].
      rewrite slot_effect_lookup, decide_False; [done|]. apply Hno. left.
Qed.

(** ** Recovery of a log *)

Lemma table_effects tb l m :
  table_rep tb l -> (forall k v, l !! k = Some v -> op_entry k v) -> log_rel m l ->
  foldl slot_effect ∅ (filter (fun s => rs_used s = true) tb) = m /\
  Forall slot_ok (filter (fun s => rs_used s = true) tb).
Proof.
  intros Hr He Hm.
  assert (Forall slot_ok (filter (fun s => rs_used s = true) tb)) as Hok.
  { apply Forall_forall. intros s [Hu [j Hj]%list_elem_of_lookup]%list_elem_of_filter.
    destruct (tr_slots _ _ Hr j s Hj Hu) as [Hl Hlen]. split_and!; auto. }
  split; [|done]. apply map_eq. intros k.
  destruct (slot_effects_lookup _ ∅ k (used_keys_nodup tb (tr_wf _ _ Hr)) Hok) as [Hf Hno].
  destruct (decide (Exists (fun s => dpa_key (slot_key s) = k)
                      (filter (fun s => rs_used s = true) tb))) as [Hex|Hex].
  - apply Exists_exists in Hex as (s & Hs & Hk). rewrite (Hf s Hs Hk).
    apply list_elem_of_filter in Hs as [Hu [j Hj]%list_elem_of_lookup].
    destruct (tr_slots _ _ Hr j s Hj Hu) as [Hl _].
    rewrite <- Hk. symmetry. by apply (ll_found _ _ Hm).
  - rewrite <- Forall_Exists_neg, Forall_forall in Hex.
    rewrite Hno, lookup_empty by done. symmetry.
    destruct (m !! k) as [d|] eqn:Hd; [|done].
    destruct (ll_only _ _ Hm k d Hd) as (k' & v & Hv & Hk).
    destruct (tr_keys _ _ Hr k' v Hv) as (j & s & Hj & Hu & Hsk).
    exfalso. apply (Hex s); [|by rewrite Hsk].
    apply list_elem_of_filter. split; [done|by eapply list_elem_of_lookup_2].
Qed.

(** [c] has the log [recs], followed by an unreadable [tail], open at [path],
    and store [h] is its durable store. *)
Record durable (path : bytes) (h : Z) (log : bytes) (c : core) : Prop := {
  du_wal : wal_open (g_wal (c_persist c)) path log [] (c_os c);
  du_enabled : g_enabled (c_persist c) = true;
  du_normal : g_recovering (c_persist c) = false;
  du_wf : core_wf c;
  du_default : g_default_store c = Some h;
  du_live : is_Some (c_stores c !! h);
}.

Lemma store_create_granted n c :
  os_env (c_os c) = [] ->
  store_create n c = (Some (c_next_store c), mk_core (c_os c) (c_time c)
    (<[c_next_store c := danos_object_store_create n]> (c_stores c)) (c_next_store c + 1)
    (g_default_store c) (g_programmed c) (g_dirty c) (c_persist c) (c_events c)).
Proof. intros H. unfold store_create. by rewrite !core_alloc_granted. Qed.

Lemma replay_table_log path recs tail o :
  os_env o = [] -> file o path = Some (wal_log recs ++ tail) ->
  Forall log_rec recs -> wal_stuck tail -> (size (rec_keys recs) <= REPLAY_SLOTS)%nat ->
  exists n tb, danos_wal_replay replay_cb (Some path) (replicate REPLAY_SLOTS slot_zero) o =
      (n, tb, o) /\ table_rep tb (foldl last_step ∅ recs).
Proof.
  intros Henv Hfile Hrecs Hst Hsz.
  destruct (replay_fold_rep recs _ _ o table_rep_empty Henv Hrecs) as (tb & Hf & Hr).
  { by rewrite dom_empty_L, union_empty_l_L. }
  rewrite (wal_replay_log replay_cb) with (recs := recs) (tail := tail);
    [|auto using replay_cb_env|eapply Forall_impl; [exact Hrecs|apply lr_wf]|done..].
  rewrite Hf. eauto.
Qed.

Lemma log_tables recs :
  Forall log_rec recs ->
  log_rel (log_objs recs) (foldl last_step ∅ recs) /\
  (forall k v, foldl last_step ∅ recs !! k = Some v -> op_entry k v).
Proof.
  intros Hrecs. split.
  - apply log_rel_fold; [|done]. split; intros ? ? H; by rewrite lookup_empty in H.
  - apply last_fold_entries; [|done]. intros ? ? H. by rewrite lookup_empty in H.
Qed.

Lemma boot_enable path o t :
  (length path <= 255)%nat -> os_env o = [] ->
  exists w o1, (danos_persist_enable (Some path) (core_boot o t)) =
      (0, set_os (set_persist (core_boot o t) (mk_persist w true false 0 0)) o1) /\
    wal_open w path (default [] (file o path)) [] o1.
Proof.
  intros Hp Henv. destruct (wal_init_open path o Hp Henv) as (w & o1 & Hi & Ho).
  exists w, o1. split; [|done]. unfold danos_persist_enable.
  cbn [core_boot c_os c_persist g_enabled]. by rewrite Hi.
Qed.

Lemma boot_log path o t recs tail :
  (length path <= 255)%nat -> os_env o = [] ->
  default [] (file o path) = wal_log recs ++ tail ->
  Forall log_rec recs -> wal_stuck tail -> (size (rec_keys recs) <= REPLAY_SLOTS)%nat ->
  durable path 1 (wal_log recs ++ tail) (boot path o t) /\
  objs (boot path o t) 1 = log_objs recs.
Proof.
  intros Hp Henv Hfile Hrecs Hst Hsz.
  destruct (boot_enable path o t Hp Henv) as (w & o1 & He & Hw). rewrite Hfile in Hw.
  unfold boot. rewrite He. cbn [snd].
  destruct Hw as [Hfp Hpath Hen Hf1 Henv1].
  unfold danos_persist_recover. simpl. rewrite store_create_granted by done. simpl.
  rewrite core_alloc_granted by done. simpl. rewrite Hpath.
  destruct (replay_table_log path recs tail o1 Henv1 Hf1 Hrecs Hst Hsz) as (n & tb & -> & Hr).
  destruct (log_tables recs Hrecs) as [Hrel Hent].
  destruct (table_effects tb _ _ Hr Hent Hrel) as [Heff Hok].
  rewrite apply_slots_filter.
  match goal with |- context [foldl apply_slot (0, ?c0)] => set (c := c0) end.
  assert (objs c 1 = ∅) as Hobj.
  { unfold objs. simpl. rewrite lookup_insert_eq. apply store_create_map. }
  assert (recovering 1 o1 (mk_persist w true true 0 0) c) as Hrc.
  { split; try done. split; simpl.
    - intros h s [[<- <-]|[_ Hs]]%lookup_insert_Some; [apply store_create_wf|].
      by rewrite lookup_empty in Hs.
    - intros h [<-|[_ [? Hs]]]%lookup_insert_is_Some; [lia|]. by rewrite lookup_empty in Hs.
    - intros h [= <-]. by rewrite lookup_insert_eq.
    - done.
    - done. }
  destruct (apply_slots_ok _ 1 o1 _ c 0 Hrc Hok (used_keys_nodup tb (tr_wf _ _ Hr)))
    as (c' & -> & [R1 R2 R3 R4 R5 R6 R7 R8] & M).
  { intros s Hs. by rewrite Hobj, lookup_empty. }
  rewrite Hobj, Heff in M. split; [|exact M].
  split; simpl; rewrite ?R5, ?R7; simpl; try done.
  by destruct R1; split.
Qed.

(** ** A session on the durable store *)

(** The objects the log can hold. *)
Definition persistable (k : obj_key) : bool :=
  negb (dpa_type_to_wal k.1 =? 0) && (k.2 <=? 0xFFFFFFFF).

Definition persisted (m : gmap obj_key bytes) : gmap obj_key bytes :=
  filter (fun kv => persistable kv.1 = true) m.

Definition op_key (op : obj_op) : obj_key :=
  match op with OpCreate t id _ | OpUpdate t id _ | OpDelete t id => (t, id) end.
Definition op_code (op : obj_op) : Z :=
  match op with
  | OpCreate _ _ _ => WAL_OP_CREATE | OpUpdate _ _ _ => WAL_OP_UPDATE
  | OpDelete _ _ => WAL_OP_DELETE
  end.
Definition op_data (op : obj_op) : option bytes :=
  match op with OpCreate _ _ d | OpUpdate _ _ d => d | OpDelete _ _ => None end.

Definition op_record (op : obj_op) : wal_record :=
  log_record (op_code op) (dpa_type_to_wal (op_key op).1) (op_key op).2 (op_data op)
    (Z.of_nat (length (default [] (op_data op)))).

(** Identifiers are 64-bit, blobs within what the log's reader accepts. *)
Definition op_ok (op : obj_op) : Prop :=
  is_u64 (op_key op).2 /\ Z.of_nat (length (default [] (op_data op))) <= WAL_MAX_DATA.

(** What operation [op] on map [m] adds to the log. *)
Definition op_log (op : obj_op) (m : gmap obj_key bytes) : list wal_record :=
  if bool_decide ((spec_op op m).1 = DANOS_OK) && persistable (op_key op)
  then [op_record op] else [].

Fixpoint ops_log (ops : list obj_op) (m : gmap obj_key bytes) : list wal_record :=
  match ops with
  | [] => []
  | op :: ops => op_log op m ++ ops_log ops (spec_op op m).2
  end.

Lemma spec_op_ok_data op m :
  (spec_op op m).1 = DANOS_OK ->
  match op with OpDelete _ _ => True | _ => exists b d, op_data op = Some (b :: d) end.
Proof. destruct op as [t id [[|b d]|]|t id [[|b d]|]|t id]; simpl; eauto; done. Qed.

Lemma op_record_log_rec op m :
  op_ok op -> (spec_op op m).1 = DANOS_OK -> persistable (op_key op) = true ->
  log_rec (op_record op).
Proof.
  intros [Hid Hlen] Hst Hper. unfold persistable in Hper. bool_prop.
  pose proof (spec_op_ok_data op m Hst) as Hd.
  assert (0 <= dpa_type_to_wal (op_key op).1 < 256 ^ 2) as Ht by (by destruct (op_key op) as [[] ?]).
  unfold is_u64 in Hid. split; [split|..]; simpl; unfold is_uint in *; try lia.
  - destruct op; unfold op_code, WAL_OP_CREATE, WAL_OP_UPDATE, WAL_OP_DELETE; lia.
  - destruct op as [t id d|t id d|t id]; simpl in *; [..|done];
      destruct Hd as (b & d' & ->); done.
  - by rewrite dpa_type_roundtrip; [destruct (op_key op) as [[] ?]|].
  - destruct op; simpl; auto.
  - destruct op as [t id d|t id d|t id]; simpl in *; [..|done];
      destruct Hd as (b & d' & ->); done.
Qed.

Lemma log_op_durable path log c r :
  wal_open (g_wal (c_persist c)) path log [] (c_os c) -> g_enabled (c_persist c) = true ->
  wal_wf r -> wr_magic r = WAL_MAGIC -> wr_tx_id r = 1 ->
  let c' := (danos_persist_log_op (wr_op_type r) (wr_obj_type r) (wr_obj_id r)
               (wr_data r) (wr_data_len r) c).2 in
  wal_open (g_wal (c_persist c')) path (log ++ wal_encode r) [] (c_os c') /\
  g_enabled (c_persist c') = true /\
  g_recovering (c_persist c') = g_recovering (c_persist c).
Proof.
  intros Hop Hen Hwf Hmagic Htx. unfold danos_persist_log_op. rewrite Hen. simpl.
  replace (log_record _ _ _ _ _) with r
    by (unfold log_record; rewrite <- Hmagic, <- Htx; by destruct r).
  destruct (wal_append_open _ _ _ _ _ r Hop Hwf) as (w1 & -> & Ho1). simpl.
  destruct (wal_sync_open _ _ _ _ _ Ho1) as (w2 & o2 & -> & Ho2 & _). simpl. done.
Qed.

Lemma hook_durable path h log c op m :
  wal_open (g_wal (c_persist c)) path log [] (c_os c) -> g_enabled (c_persist c) = true ->
  g_recovering (c_persist c) = false -> g_default_store c = Some h ->
  op_ok op -> (spec_op op m).1 = DANOS_OK ->
  let c' := op_hook h op c in
  wal_open (g_wal (c_persist c')) path (log ++ wal_log (op_log op m)) [] (c_os c') /\
  g_enabled (c_persist c') = true /\ g_recovering (c_persist c') = false.
Proof.
  intros Hw Hen Hrec Hdef Hok Hst. unfold op_log. rewrite bool_decide_eq_true_2 by done. simpl.
  replace (op_hook h op c) with
    (danos_persist_on_mutation h (op_code op) (op_key op).1 (op_key op).2 (op_data op) c)
    by (by destruct op).
  unfold danos_persist_on_mutation. rewrite Hen, Hrec, Hdef. simpl.
  rewrite bool_decide_eq_true_2 by done. simpl.
  unfold persistable at 1. rewrite Z.leb_antisym.
  destruct (0xFFFFFFFF <? (op_key op).2) eqn:Eid.
  { rewrite andb_false_r. change (wal_log []) with (@nil Z). by rewrite app_nil_r. }
  destruct (dpa_type_to_wal (op_key op).1 =? 0) eqn:Ety.
  { change (wal_log []) with (@nil Z). by rewrite app_nil_r. }
  assert (persistable (op_key op) = true) as Hper.
  { unfold persistable. by rewrite Ety, Z.leb_antisym, Eid. }
  pose proof (op_record_log_rec op m Hok Hst Hper) as Hlr.
  destruct Hok as [Hid Hlen]. bool_prop. unfold is_u64, WAL_MAX_DATA in *.
  rewrite !u32_small by (unfold is_u32; lia). simpl.
  unfold wal_log. simpl. rewrite app_nil_r.
  destruct (log_op_durable path log c (op_record op) Hw Hen (lr_wf _ Hlr)) as (H1 & H2 & H3);
    [done|done|]. simpl in *. by rewrite H3.
Qed.

Lemma durable_op path h log c op :
  durable path h log c -> op_ok op ->
  durable path h (log ++ wal_log (op_log op (objs c h))) (run_op h op c).2 /\
  objs (run_op h op c).2 h = (spec_op op (objs c h)).2.
Proof.
  intros [Hw Hen Hno Hwf Hdef Hlive] Hok.
  pose proof (wo_env _ _ _ _ _ Hw) as Henv.
  destruct (run_op_granted c h op Hwf Hlive Henv) as [_ Hmu].
  pose proof (run_op_hook c h op Hwf Hlive Henv) as Hhook. cbv zeta in Hhook.
  pose proof Hmu as [Mwf Mo Ml _ Md _]. split; [|done].
  case_decide as Hst.
  - destruct Hhook as (st & Eo & Ep).
    destruct (hook_durable path h log (set_stores c st) op (objs c h)) as (H1 & H2 & H3);
      try done.
    split; rewrite ?Eo, ?Ep; try done. by rewrite Md.
  - rewrite Hhook. unfold op_log. rewrite bool_decide_eq_false_2 by done. simpl.
    change (wal_log []) with (@nil Z). by rewrite app_nil_r.
Qed.

Lemma durable_ops path h ops log c :
  durable path h log c -> Forall op_ok ops ->
  durable path h (log ++ wal_log (ops_log ops (objs c h))) (run_ops h ops c) /\
  objs (run_ops h ops c) h = spec_ops ops (objs c h).
Proof.
  intros Hd Hok. revert log c Hd. induction Hok as [|op ops Hop _ IH]; intros log c Hd.
  - simpl. change (wal_log []) with (@nil Z). by rewrite app_nil_r.
  - destruct (durable_op path h log c op Hd Hop) as [Hd1 Ho1].
    destruct (IH _ _ Hd1) as [Hd2 Ho2]. rewrite Ho1 in Hd2, Ho2.
    simpl. rewrite wal_log_app, app_assoc. by split.
Qed.

(** The records an operation adds act on the persisted part as the operation
    acts on the store. *)
Lemma op_log_objs op m :
  persisted (spec_op op m).2 = foldl wal_apply (persisted m) (op_log op m).
Proof.
  unfold op_log. destruct (decide ((spec_op op m).1 = DANOS_OK)) as [Hst|Hst].
  - rewrite bool_decide_eq_true_2 by done. simpl.
    assert ((spec_op op m).2 = match op_data op with
              | Some d => <[op_key op := d]> m | None => delete (op_key op) m end) as ->.
    { destruct op as [t id [[|b d]|]|t id [[|b d]|]|t id]; simpl in *; try done;
        by case_decide. }
    unfold persisted. destruct (persistable (op_key op)) eqn:Hp; simpl.
    + assert (dpa_key (rec_key (op_record op)) = op_key op) as Hk.
      { unfold persistable in Hp. bool_prop. unfold dpa_key, rec_key. simpl.
        rewrite dpa_type_roundtrip by done. by destruct (op_key op). }
      unfold wal_apply. rewrite Hk. simpl.
      destruct op as [t id d|t id d|t id]; simpl in *.
      * destruct d as [d|]; [|done]. simpl. by rewrite map_filter_insert_True.
      * destruct d as [d|]; [|done]. simpl. by rewrite map_filter_insert_True.
      * by rewrite map_filter_delete.
    + destruct (op_data op) as [d|].
      * by rewrite map_filter_insert_not by (simpl; by rewrite Hp).
      * rewrite map_filter_delete_not; [done|]. intros. simpl. by rewrite Hp.
  - rewrite bool_decide_eq_false_2 by done. simpl. f_equal.
    destruct op as [t id [[|b d]|]|t id [[|b d]|]|t id]; simpl in *; try done;
      by case_decide.
Qed.

Lemma ops_log_objs ops m :
  persisted (spec_ops ops m) = foldl wal_apply (persisted m) (ops_log ops m).
Proof.
  revert m. induction ops as [|op ops IH]; intros m; [done|].
  simpl. rewrite foldl_app, <- op_log_objs. apply IH.
Qed.

Lemma ops_log_recs ops m :
  Forall op_ok ops -> Forall log_rec (ops_log ops m) /\
  rec_keys (ops_log ops m) ⊆
    list_to_set ((fun op => (dpa_type_to_wal (op_key op).1, (op_key op).2)) <$> ops).
Proof.
  intros Hok. revert m. induction Hok as [|op ops Hop _ IH]; intros m; [done|].
  destruct (IH (spec_op op m).2) as [IH1 IH2]. simpl. unfold rec_keys in *.
  rewrite fmap_app, list_to_set_app. split.
  - apply Forall_app. split; [|done]. unfold op_log.
    destruct (_ && _) eqn:E; [|done]. apply andb_prop in E as [E1%bool_decide_eq_true_1 E2].
    constructor; [by eapply op_record_log_rec | constructor].
  - assert (list_to_set (rec_key <$> op_log op m) ⊆
      ({[(dpa_type_to_wal (op_key op).1, (op_key op).2)]} : gset (Z * Z))) as Hs.
    { unfold op_log. by destruct (_ && _); simpl; set_solver. }
    set_solver.
Qed.

Lemma log_objs_persisted recs : Forall log_rec recs -> persisted (log_objs recs) = log_objs recs.
Proof.
  intros Hrecs. apply map_filter_id. intros k d Hd.
  destruct (log_tables recs Hrecs) as [Hrel Hent].
  destruct (ll_only _ _ Hrel k d Hd) as (k' & v & Hv & <-).
  destruct (Hent _ _ Hv) as (r & Hr & <- & _). simpl. unfold persistable. simpl.
  rewrite wal_type_roundtrip by apply (lr_type r Hr).
  assert (wr_obj_type r <> 0) by (intros H0; by apply (lr_type r Hr); rewrite H0).
  pose proof (ww_id r (lr_wf r Hr)) as Hid. unfold is_uint in Hid.
  apply andb_true_iff. split; [apply negb_true_iff; by apply Z.eqb_neq | apply Z.leb_le; lia].
Qed.

(** The objects named by a log and by a list of operations. *)
Definition touched (recs : list wal_record) (ops : list obj_op) : gset (Z * Z) :=
  rec_keys recs ∪
  list_to_set ((fun op => (dpa_type_to_wal (op_key op).1, (op_key op).2)) <$> ops).

(** ** Properties *)

(** C1. Persistence: a process starts on a log [recs], runs any sequence of
    create, update and delete calls on the durable store, and stops at any
    point; when it is started again the store holds exactly the persistable
    part of what it held, namely the objects whose type the log knows and
    whose identifier fits 32 bits, each with its last contents. Objects have
    at most 1 MB, the file operations succeed, and the log and the operations
    together name at most 4096 objects, the size of the replay table. *)
Theorem restart_restores path o t t' recs ops :
  (length path <= 255)%nat -> os_env o = [] ->
  default [] (file o path) = wal_log recs -> Forall log_rec recs ->
  Forall op_ok ops -> (size (touched recs ops) <= REPLAY_SLOTS)%nat ->
  let c1 := boot path o t in
  let c2 := run_ops 1 ops c1 in
  let c3 := boot path (c_os c2) t' in
  objs c1 1 = log_objs recs /\ objs c2 1 = spec_ops ops (log_objs recs) /\
  objs c3 1 = persisted (objs c2 1).
Proof.
  intros Hp Henv Hfile Hrecs Hops Hsz c1 c2 c3.
  rewrite <- (app_nil_r (wal_log recs)) in Hfile.
  destruct (boot_log path o t recs [] Hp Henv Hfile Hrecs wal_stuck_nil) as [Hd1 Ho1].
  { etrans; [|exact Hsz]. apply subseteq_size. unfold touched. set_solver. }
  destruct (durable_ops path 1 ops _ _ Hd1 Hops) as [Hd2 Ho2].
  rewrite Ho1 in Hd2, Ho2. rewrite app_nil_r, <- wal_log_app in Hd2.
  destruct (ops_log_recs ops (log_objs recs) Hops) as [Hlr Hkeys].
  destruct Hd2 as [[_ _ _ Hf2 Henv2] _ _ _ _ _].
  destruct (boot_log path (c_os c2) t' (recs ++ ops_log ops (log_objs recs)) [])
    as [_ Ho3]; try done.
  - unfold c2, c1. rewrite Hf2. simpl. by rewrite app_nil_r.
  - by apply Forall_app.
  - etrans; [|exact Hsz]. apply subseteq_size. unfold rec_keys, touched in *.
    rewrite fmap_app, list_to_set_app. set_solver.
  - split_and!; [done|done|]. unfold c3. rewrite Ho3. unfold c2, c1. rewrite Ho2.
    rewrite ops_log_objs, log_objs_persisted by done.
    unfold log_objs at 1. by rewrite foldl_app.
Qed.

Definition demo_ops : list obj_op :=
  [OpCreate DANOS_OBJ_IFACE 1 (Some [1; 2]); OpUpdate DANOS_OBJ_IFACE 1 (Some [3]);
   OpCreate DANOS_OBJ_ROUTE (2 ^ 40) (Some [4])].

Lemma demo_ops_ok : Forall op_ok demo_ops.
Proof.
  repeat (apply Forall_cons; split); [..|constructor];
    split; unfold is_u64, WAL_MAX_DATA; simpl; lia.
Qed.

Lemma restart_restores_witness :
  let c2 := run_ops 1 demo_ops (boot [119] (mk_os [] ∅) 0) in
  objs (boot [119] (c_os c2) 9) 1 = persisted (objs c2 1) /\
  objs c2 1 !! (DANOS_OBJ_ROUTE, 2 ^ 40) = Some [4] /\
  objs (boot [119] (c_os c2) 9) 1 !! (DANOS_OBJ_IFACE, 1) = Some [3] /\
  objs (boot [119] (c_os c2) 9) 1 !! (DANOS_OBJ_ROUTE, 2 ^ 40) = None.
Proof.
  destruct (restart_restores [119] (mk_os [] ∅) 0 9 [] demo_ops) as (_ & H2 & H3);
    [simpl; lia|done|done|constructor|apply demo_ops_ok| |].
  - apply Nat.leb_le. vm_compute. reflexivity.
  - cbv zeta in *. split; [exact H3|]. rewrite H3, H2. split; [|split]; vm_compute; reflexivity.
Defined.

Lemma rec_keys_nil : (size (rec_keys []) <= REPLAY_SLOTS)%nat.
Proof. apply Nat.leb_le. vm_compute. reflexivity. Qed.

Lemma checkpoint_durable path h log c :
  durable path h log c ->
  (danos_persist_checkpoint c).1 = 0 /\
  os_env (c_os (danos_persist_checkpoint c).2) = [] /\
  file (c_os (danos_persist_checkpoint c).2) path = Some [] /\
  same_stores c (danos_persist_checkpoint c).2.
Proof.
  intros [[Hfp Hp Hen Hf Henv] Hon _ _ _ _]. unfold danos_persist_checkpoint.
  rewrite Hon. simpl. unfold danos_wal_checkpoint. rewrite Hfp. simpl.
  unfold fflush, fclose, fflush, fopen_append, ask, set_file, file.
  simpl. rewrite !Henv, Hp. simpl. rewrite !lookup_insert_eq.
  by split_and!.
Qed.

(** A checkpoint empties the log and writes nothing in its place: the
    running store is untouched, but a process started after it has an empty
    store, whatever was configured before. *)
Theorem checkpoint_forgets path h log c t :
  (length path <= 255)%nat -> durable path h log c ->
  let c1 := (danos_persist_checkpoint c).2 in
  objs c1 h = objs c h /\ objs (boot path (c_os c1) t) 1 = ∅.
Proof.
  intros Hp Hd c1. destruct (checkpoint_durable path h log c Hd) as (_ & He & Hf & Hs).
  split; [by apply same_stores_objs|].
  destruct (boot_log path (c_os c1) t [] []) as [_ ->]; try done.
  - unfold c1. by rewrite Hf.
  - apply rec_keys_nil.
Qed.

Lemma boot_empty_durable path o t :
  (length path <= 255)%nat -> os_env o = [] -> file o path = None ->
  durable path 1 [] (boot path o t).
Proof.
  intros Hp He Hf. destruct (boot_log path o t [] []) as [Hd _]; try done.
  - by rewrite Hf.
  - apply rec_keys_nil.
Qed.

Lemma checkpoint_forgets_witness :
  let c := run_ops 1 demo_ops (boot [119] (mk_os [] ∅) 0) in
  let c1 := (danos_persist_checkpoint c).2 in
  objs c1 1 = objs c 1 /\ objs (boot [119] (c_os c1) 5) 1 = ∅.
Proof.
  destruct (durable_ops [119] 1 demo_ops [] (boot [119] (mk_os [] ∅) 0)) as [Hd _].
  - apply boot_empty_durable; [simpl; lia|done|done].
  - apply demo_ops_ok.
  - refine (checkpoint_forgets [119] 1 _ _ 5 _ Hd). simpl. lia.
Defined.

(** After a crash that tore the last record, the log is not truncated at
    the tear: the next process recovers the complete records, but what it
    then configures is appended behind the torn bytes, and the start after
    that does not see it. *)
Theorem torn_log_loses_later_config :
  let torn := wal_log [op_record (OpCreate DANOS_OBJ_IFACE 1 (Some [1]))] ++
              take 10 (wal_encode (op_record (OpCreate DANOS_OBJ_IFACE 2 (Some [2])))) in
  let c1 := boot [119] (mk_os [] {[ [119] := torn ]}) 0 in
  let c2 := run_ops 1 [OpCreate DANOS_OBJ_IFACE 3 (Some [3])] c1 in
  let c3 := boot [119] (c_os c2) 0 in
  objs c1 1 !! (DANOS_OBJ_IFACE, 1) = Some [1] /\
  objs c2 1 !! (DANOS_OBJ_IFACE, 3) = Some [3] /\
  objs c3 1 !! (DANOS_OBJ_IFACE, 1) = Some [1] /\
  objs c3 1 !! (DANOS_OBJ_IFACE, 3) = None.
Proof. vm_compute. split_and!; reflexivity. Qed.
