(* ===== verification/DpaObjects.v ===== *)
(** * The DPA object API: danos-core/src/object/dpa_objects.c

    Typed create, update, delete and read calls on the default store.  The
    transaction argument of the C functions is unused by all of them and is
    left out.  A structure argument is [None] for a null pointer; a read takes
    what the caller's structure holds before the call and returns what it
    holds afterwards. *)

From stdpp Require Import base decidable list numbers gmap.
From Stdlib Require Import ZArith Lia Znumtheory.
From S2P Require Import Prelude Dpa ObjectStore Wal EventBus Registry Persist.

Definition get_default_store (c : core) : option Z * core :=
  match g_default_store c with
  | Some h => (Some h, c)
  | None => let '(h, c) := store_create 1024 c in (h, set_default_store c h)
  end.

(** The bodies the typed calls share. *)
Section typed.
Context {A : Type} `{CStruct A}.

Definition create_as (type : danos_obj_type) (key : A -> Z) (x : option A) (c : core)
    : danos_status * core :=
  match x with
  | None => (DANOS_ERR_INVALID_ARG, c)
  | Some x => let '(h, c) := get_default_store c in
              danos_object_create h type (key x) (Some (to_mem x)) c
  end.

Definition update_as (type : danos_obj_type) (key : A -> Z) (x : option A) (c : core)
    : danos_status * core :=
  match x with
  | None => (DANOS_ERR_INVALID_ARG, c)
  | Some x => let '(h, c) := get_default_store c in
              danos_object_update h type (key x) (Some (to_mem x)) c
  end.

Definition read_as (type : danos_obj_type) (id : Z) (out : option A) (c : core)
    : danos_status * option A * core :=
  match out with
  | None => (DANOS_ERR_INVALID_ARG, None, c)
  | Some x =>
      let '(h, c) := get_default_store c in
      let '(st, m, _) := danos_object_read h type id (Some (to_mem x)) (Some (sizeof A)) c in
      (st, of_mem <$> m, c)
  end.
End typed.

Definition delete_as (type : danos_obj_type) (id : Z) (c : core) : danos_status * core :=
  let '(h, c) := get_default_store c in danos_object_delete h type id c.

(** ** Interface *)

Definition danos_iface_create (iface : option danos_iface) (c : core) : danos_status * core :=
  create_as DANOS_OBJ_IFACE iface_ifindex iface c.

Definition danos_iface_update (iface : option danos_iface) (c : core) : danos_status * core :=
  update_as DANOS_OBJ_IFACE iface_ifindex iface c.

Definition danos_iface_delete (ifindex : Z) (c : core) : danos_status * core :=
  delete_as DANOS_OBJ_IFACE ifindex c.

Definition danos_iface_read (ifindex : Z) (out : option danos_iface) (c : core)
    : danos_status * option danos_iface * core :=
  read_as DANOS_OBJ_IFACE ifindex out c.

(** ** VRF *)

Definition danos_vrf_create (vrf : option danos_vrf) (c : core) : danos_status * core :=
  create_as DANOS_OBJ_VRF vrf_vrf_id vrf c.

Definition danos_vrf_update (vrf : option danos_vrf) (c : core) : danos_status * core :=
  update_as DANOS_OBJ_VRF vrf_vrf_id vrf c.

Definition danos_vrf_delete (vrf_id : Z) (c : core) : danos_status * core :=
  delete_as DANOS_OBJ_VRF vrf_id c.

Definition danos_vrf_read (vrf_id : Z) (out : option danos_vrf) (c : core)
    : danos_status * option danos_vrf * core :=
  read_as DANOS_OBJ_VRF vrf_id out c.

(** ** Next hop *)

Definition danos_nh_create (nh : option danos_nexthop) (c : core) : danos_status * core :=
  create_as DANOS_OBJ_NEXTHOP nh_id nh c.

Definition danos_nh_update (nh : option danos_nexthop) (c : core) : danos_status * core :=
  update_as DANOS_OBJ_NEXTHOP nh_id nh c.

Definition danos_nh_delete (id : Z) (c : core) : danos_status * core :=
  delete_as DANOS_OBJ_NEXTHOP id c.

Definition danos_nh_read (id : Z) (out : option danos_nexthop) (c : core)
    : danos_status * option danos_nexthop * core :=
  read_as DANOS_OBJ_NEXTHOP id out c.

(** ** Next-hop group *)

Definition danos_nhgroup_create (grp : option danos_nhgroup) (c : core) : danos_status * core :=
  create_as DANOS_OBJ_NHGROUP grp_id grp c.

Definition danos_nhgroup_update (grp : option danos_nhgroup) (c : core) : danos_status * core :=
  update_as DANOS_OBJ_NHGROUP grp_id grp c.

Definition danos_nhgroup_delete (id : Z) (c : core) : danos_status * core :=
  delete_as DANOS_OBJ_NHGROUP id c.

Definition danos_nhgroup_read (id : Z) (out : option danos_nhgroup) (c : core)
    : danos_status * option danos_nhgroup * core :=
  read_as DANOS_OBJ_NHGROUP id out c.

(** ** Route *)

(** One FNV-1a step. *)
Definition fnv_step (h b : Z) : Z := u64 (Z.lxor h b * 1099511628211).

Definition FNV_BASIS : Z := 14695981039346656037.

Definition route_key (vrf : Z) (p : danos_ip_prefix) (proto : Z) : Z :=
  let h := fnv_step FNV_BASIS vrf in
  let h := foldl fnv_step h (take 16 (ip_addr (pfx_addr p))) in
  let h := fnv_step h (pfx_len p) in
  fnv_step h proto.

Definition route_id (r : danos_route) : Z :=
  route_key (rt_vrf_id r) (rt_prefix r) (rt_protocol r).

Definition danos_route_create (route : option danos_route) (c : core) : danos_status * core :=
  create_as DANOS_OBJ_ROUTE route_id route c.

Definition danos_route_update (route : option danos_route) (c : core) : danos_status * core :=
  update_as DANOS_OBJ_ROUTE route_id route c.

Definition danos_route_delete (vrf_id : Z) (prefix : danos_ip_prefix) (proto : Z) (c : core)
    : danos_status * core :=
  delete_as DANOS_OBJ_ROUTE (route_key vrf_id prefix proto) c.

Definition danos_route_read (vrf_id : Z) (prefix : danos_ip_prefix) (proto : Z)
    (out : option danos_route) (c : core) : danos_status * option danos_route * core :=
  read_as DANOS_OBJ_ROUTE (route_key vrf_id prefix proto) out c.

(** The filter of a dump: the route an entry is shown as, if it is. *)
Definition route_shown (vrf_id : Z) (e : danos_object_entry) : option danos_route :=
  if negb (bool_decide (e_type e = DANOS_OBJ_ROUTE)) then None
  else if (e_size e <? sizeof danos_route)%nat then None
  else let r : danos_route := of_mem (e_data e) in
       if negb (vrf_id =? 0) && negb (rt_vrf_id r =? vrf_id) then None else Some r.

Definition route_dump_iter {U} (vrf_id : Z) (cb : U -> danos_route -> U)
    (user : U) (e : danos_object_entry) : U :=
  match route_shown vrf_id e with Some r => cb user r | None => user end.

Definition danos_route_dump {U} (vrf_id : Z) (cb : option (U -> danos_route -> U))
    (user : U) (c : core) : danos_status * U * core :=
  match cb with
  | None => (DANOS_ERR_INVALID_ARG, user, c)
  | Some cb =>
      let '(h, c) := get_default_store c in
      (DANOS_OK,
       danos_object_iterate (h ← h; c_stores c !! h) (route_dump_iter vrf_id cb) user, c)
  end.

(** ** ACL *)

Definition danos_acl_table_create (tbl : option danos_acl_table) (c : core) : danos_status * core :=
  create_as DANOS_OBJ_ACL at_table_id tbl c.

Definition danos_acl_table_update (tbl : option danos_acl_table) (c : core) : danos_status * core :=
  update_as DANOS_OBJ_ACL at_table_id tbl c.

Definition danos_acl_table_delete (table_id : Z) (c : core) : danos_status * core :=
  delete_as DANOS_OBJ_ACL table_id c.

Definition danos_acl_table_read (table_id : Z) (out : option danos_acl_table) (c : core)
    : danos_status * option danos_acl_table * core :=
  read_as DANOS_OBJ_ACL table_id out c.

Definition danos_acl_rule_add (table_id : Z) (rule : option danos_acl_rule) (c : core)
    : danos_status * core :=
  create_as DANOS_OBJ_ACL (fun r => u64 (ar_rule_id r + 1000000)) rule c.

Definition danos_acl_rule_delete (table_id rule_id : Z) (c : core) : danos_status * core :=
  delete_as DANOS_OBJ_ACL (u64 (rule_id + 1000000)) c.

Definition danos_acl_rule_read (table_id rule_id : Z) (out : option danos_acl_rule) (c : core)
    : danos_status * option danos_acl_rule * core :=
  read_as DANOS_OBJ_ACL (u64 (rule_id + 1000000)) out c.

(** ** QoS *)

Definition danos_qos_policy_create (p : option danos_qos_policy) (c : core) : danos_status * core :=
  create_as DANOS_OBJ_QOS qp_policy_id p c.

Definition danos_qos_policy_update (p : option danos_qos_policy) (c : core) : danos_status * core :=
  update_as DANOS_OBJ_QOS qp_policy_id p c.

Definition danos_qos_policy_delete (policy_id : Z) (c : core) : danos_status * core :=
  delete_as DANOS_OBJ_QOS policy_id c.

Definition danos_qos_policy_read (policy_id : Z) (out : option danos_qos_policy) (c : core)
    : danos_status * option danos_qos_policy * core :=
  read_as DANOS_OBJ_QOS policy_id out c.

Definition qos_bind_key (policy_id ifindex : Z) (ingress : bool) : Z :=
  let h := 0x51505342 in
  let h := fnv_step h policy_id in
  let h := fnv_step h ifindex in
  let h := fnv_step h (b2z ingress) in
  Z.lor h (Z.shiftl 1 63).

Definition danos_qos_policy_bind (policy_id ifindex : Z) (ingress : bool) (c : core)
    : danos_status * core :=
  let rec := mk_qos_bind_rec policy_id ifindex ingress in
  let '(h, c) := get_default_store c in
  danos_object_create h DANOS_OBJ_QOS_BIND (qos_bind_key policy_id ifindex ingress)
    (Some (to_mem rec)) c.

(** ** BFD *)

Definition danos_bfd_create (bfd : option danos_bfd) (c : core) : danos_status * core :=
  create_as DANOS_OBJ_BFD bfd_id bfd c.

Definition danos_bfd_delete (id : Z) (c : core) : danos_status * core :=
  delete_as DANOS_OBJ_BFD id c.

(** ** MPLS label-switched path *)

Definition danos_mpls_lsp_create (lsp : option danos_mpls_lsp) (c : core) : danos_status * core :=
  create_as DANOS_OBJ_MPLS_LSP lsp_in_label lsp c.

Definition danos_mpls_lsp_update (lsp : option danos_mpls_lsp) (c : core) : danos_status * core :=
  update_as DANOS_OBJ_MPLS_LSP lsp_in_label lsp c.

Definition danos_mpls_lsp_delete (in_label : Z) (c : core) : danos_status * core :=
  delete_as DANOS_OBJ_MPLS_LSP in_label c.

Definition danos_mpls_lsp_read (in_label : Z) (out : option danos_mpls_lsp) (c : core)
    : danos_status * option danos_mpls_lsp * core :=
  read_as DANOS_OBJ_MPLS_LSP in_label out c.

(** ** Tunnel *)

Definition danos_tunnel_create (tun : option danos_tunnel) (c : core) : danos_status * core :=
  create_as DANOS_OBJ_TUNNEL tun_id tun c.

Definition danos_tunnel_update (tun : option danos_tunnel) (c : core) : danos_status * core :=
  update_as DANOS_OBJ_TUNNEL tun_id tun c.

Definition danos_tunnel_delete (id : Z) (c : core) : danos_status * core :=
  delete_as DANOS_OBJ_TUNNEL id c.

Definition danos_tunnel_read (id : Z) (out : option danos_tunnel) (c : core)
    : danos_status * option danos_tunnel * core :=
  read_as DANOS_OBJ_TUNNEL id out c.

(** ** EVPN instance *)

Definition danos_evpn_evi_create (evi : option danos_evpn_evi) (c : core) : danos_status * core :=
  create_as DANOS_OBJ_EVPN evi_evi evi c.

Definition danos_evpn_evi_update (evi : option danos_evpn_evi) (c : core) : danos_status * core :=
  update_as DANOS_OBJ_EVPN evi_evi evi c.

Definition danos_evpn_evi_delete (evi : Z) (c : core) : danos_status * core :=
  delete_as DANOS_OBJ_EVPN evi c.

Definition danos_evpn_evi_read (evi : Z) (out : option danos_evpn_evi) (c : core)
    : danos_status * option danos_evpn_evi * core :=
  read_as DANOS_OBJ_EVPN evi out c.

(** ** Multicast route *)

Definition mroute_key (vrf_id : Z) (group : option danos_ip_addr) : Z :=
  let g :=
    match group with
    | None => 0
    | Some g =>
        let b i := default 0 (ip_addr g !! i) in
        Z.lor (Z.lor (Z.lor (Z.shiftl (b 0%nat) 24) (Z.shiftl (b 1%nat) 16))
                 (Z.shiftl (b 2%nat) 8)) (b 3%nat)
    end in
  Z.lor (u64 (Z.shiftl vrf_id 32)) g.

Definition mroute_id (m : danos_mroute) : Z := mroute_key (mr_vrf_id m) (Some (mr_group m)).

Definition danos_mroute_create (mr : option danos_mroute) (c : core) : danos_status * core :=
  create_as DANOS_OBJ_MULTICAST mroute_id mr c.

Definition danos_mroute_update (mr : option danos_mroute) (c : core) : danos_status * core :=
  update_as DANOS_OBJ_MULTICAST mroute_id mr c.

Definition danos_mroute_delete (vrf_id : Z) (group : option danos_ip_addr) (c : core)
    : danos_status * core :=
  match group with
  | None => (DANOS_ERR_INVALID_ARG, c)
  | Some _ => delete_as DANOS_OBJ_MULTICAST (mroute_key vrf_id group) c
  end.

Definition danos_mroute_read (vrf_id : Z) (group : option danos_ip_addr)
    (out : option danos_mroute) (c : core) : danos_status * option danos_mroute * core :=
  match group with
  | None => (DANOS_ERR_INVALID_ARG, out, c)
  | Some _ => read_as DANOS_OBJ_MULTICAST (mroute_key vrf_id group) out c
  end.

(** ** The default store *)

Lemma store_create_spec n c :
  core_wf c ->
  match store_create n c with
  | (Some h, c') => core_wf c' /\ g_default_store c' = g_default_store c /\
      g_programmed c' = g_programmed c /\ is_Some (c_stores c' !! h) /\
      g_default_store c <> Some h /\ g_programmed c <> Some h /\
      objs c' h = ∅ /\ (forall h', h' <> h -> c_stores c' !! h' = c_stores c !! h')
  | (None, c') => same_stores c c'
  end.
Proof.
  intros Hwf. unfold store_create.
  destruct (core_alloc c) as [[] c1] eqn:E1; simpl;
    pose proof (core_alloc_frame c) as F1; rewrite E1 in F1; simpl in F1; [|done].
  destruct (core_alloc c1) as [[] c2] eqn:E2; simpl;
    pose proof (core_alloc_frame c1) as F2; rewrite E2 in F2; simpl in F2; [|by etrans].
  assert (same_stores c c2) as F by (by etrans). destruct F as [Fs Fn Fd Fp _].
  pose proof Hwf as [Hs Hf Hd Hp Hx].
  assert (c_stores c !! c_next_store c2 = None) as Hnew.
  { rewrite Fn. destruct (c_stores c !! c_next_store c) eqn:E; [|done].
    specialize (Hf (c_next_store c)). rewrite E in Hf. specialize (Hf ltac:(done)). lia. }
  assert (g_default_store c <> Some (c_next_store c2)) as Hnd.
  { intros He. apply Hd in He as [s He]. congruence. }
  assert (g_programmed c <> Some (c_next_store c2)) as Hnp.
  { intros He. apply Hp in He as [s He]. congruence. }
  split_and!; simpl; try done.
  - split; simpl; rewrite ?Fd, ?Fp, ?Fs.
    + intros h s [[<- <-]|[_ ?]]%lookup_insert_Some; [apply store_create_wf|eauto].
    + intros h [<-|[_ ?]]%lookup_insert_is_Some; [lia|].
      rewrite Fn. pose proof (Hf h ltac:(done)). lia.
    + intros h ?. rewrite lookup_insert_is_Some'. auto.
    + intros h ?. rewrite lookup_insert_is_Some'. auto.
    + done.
  - by rewrite lookup_insert_eq.
  - unfold objs. simpl. by rewrite lookup_insert_eq, store_create_map.
  - intros h' Hne. by rewrite lookup_insert_ne, Fs.
Qed.

(** [get_default_store] yields a live store, which is then the default one;
    the contents of an existing one are not touched. *)
Lemma get_default_store_spec c h c' :
  core_wf c -> get_default_store c = (h, c') ->
  core_wf c' /\ g_default_store c' = h /\
  (forall h0, h = Some h0 -> is_Some (c_stores c' !! h0)) /\
  (is_Some (g_default_store c) -> c' = c).
Proof.
  intros Hwf. unfold get_default_store. destruct (g_default_store c) as [h0|] eqn:Ed.
  - intros [= <- <-]. split_and!; [done|done| |done]. intros ? [= <-]. by apply (cw_default c Hwf).
  - pose proof (store_create_spec 1024 c Hwf) as Hs.
    destruct (store_create 1024 c) as [[h1|] c1]; intros [= <- <-].
    + destruct Hs as (Hw & H2 & H3 & H4 & H5 & H6 & _ & _). split_and!; [|done|by intros ? [= <-]|by intros [? ?]].
      destruct Hw as [W1 W2 W3 W4 W5]. split; simpl; try done.
      * by intros ? [= <-].
      * intros h [= <-]. by rewrite H3.
    + split_and!; [|done|done|by intros [? ?]].
      apply (same_stores_wf _ _ Hs) in Hwf. destruct Hwf. by split.
Qed.

Lemma create_as_run {A} `{CStruct A} type key (x : A) c c1 h :
  get_default_store c = (Some h, c1) ->
  create_as type key (Some x) c = run_op h (OpCreate type (key x) (Some (to_mem x))) c1.
Proof. intros Hg. unfold create_as. by rewrite Hg. Qed.

Lemma create_as_ok {A} `{CStruct A} type key (x : A) c c' :
  core_wf c -> create_as type key (Some x) c = (DANOS_OK, c') ->
  exists h c1, get_default_store c = (Some h, c1) /\ core_wf c' /\
    g_default_store c' = Some h /\ is_Some (c_stores c' !! h) /\
    objs c1 h !! (type, key x) = None /\
    objs c' h = <[(type, key x) := to_mem x]> (objs c1 h).
Proof.
  intros Hwf Hc. destruct (get_default_store c) as [[h|] c1] eqn:Eg; cycle 1.
  { unfold create_as in Hc. by rewrite Eg in Hc. }
  exists h, c1. rewrite (create_as_run _ _ _ _ _ _ Eg) in Hc.
  destruct (get_default_store_spec c _ _ Hwf Eg) as (Hwf1 & Hd1 & Hl & _).
  destruct (Hl h eq_refl) as [s Hs].
  pose proof (run_op_refines c1 Hwf1 h s Hs (OpCreate type (key x) (Some (to_mem x)))) as Hr.
  rewrite Hc in Hr. destruct Hr as [(st & m & Hspec & Hst & Hmu)|(? & _)]; [|done].
  simpl in Hst. subst st. destruct Hmu as [Mw Mo Ml _ Md _]. simpl in *.
  split_and!; try done; [congruence|..];
    destruct (to_mem x) as [|b d]; try done; case_decide as Hn; simplify_eq.
  - by destruct (objs c1 h !! (type, key x)) eqn:E; [destruct Hn|].
  - done.
Qed.

(** ** Route keys *)

Lemma lxor_u64 a b : is_u64 a -> is_u64 b -> is_u64 (Z.lxor a b).
Proof.
  unfold is_u64. intros [Ha Ha'] [Hb Hb'].
  assert (0 <= Z.lxor a b) by (by apply Z.lxor_nonneg). split; [done|].
  destruct (decide (Z.lxor a b = 0)) as [->|Hne]; [lia|].
  apply Z.log2_lt_pow2; [lia|]. eapply Z.le_lt_trans; [by apply Z.log2_lxor|].
  apply Z.max_lub_lt.
  - destruct (decide (a = 0)) as [->|]; [done|]. apply Z.log2_lt_pow2; lia.
  - destruct (decide (b = 0)) as [->|]; [done|]. apply Z.log2_lt_pow2; lia.
Qed.

(** The FNV prime is odd, hence invertible modulo [2^64]. *)
Lemma fnv_mul_inj x y :
  is_u64 x -> is_u64 y -> u64 (x * 1099511628211) = u64 (y * 1099511628211) -> x = y.
Proof.
  intros Hx Hy Heq.
  assert (forall z, is_u64 z -> u64 (u64 (z * 1099511628211) * 14886173955864302971) = z) as Hinv.
  { intros z Hz. unfold u64. rewrite Zmult_mod_idemp_l, <- Z.mul_assoc.
    rewrite <- Zmult_mod_idemp_r.
    change (1099511628211 * 14886173955864302971 mod 2 ^ 64) with 1.
    rewrite Z.mul_1_r. by apply Z.mod_small. }
  rewrite <- (Hinv x Hx), <- (Hinv y Hy). by rewrite Heq.
Qed.

Lemma fnv_step_u64 h b : is_u64 (fnv_step h b).
Proof. apply u64_range. Qed.

Lemma fnv_step_inj_h h h' b :
  is_u64 h -> is_u64 h' -> is_u64 b -> fnv_step h b = fnv_step h' b -> h = h'.
Proof.
  intros Hh Hh' Hb Heq. apply fnv_mul_inj in Heq; [|by apply lxor_u64..].
  rewrite <- (Z.lxor_0_r h), <- (Z.lxor_0_r h'), <- (Z.lxor_nilpotent b).
  rewrite <- !Z.lxor_assoc. by rewrite Heq.
Qed.

Lemma fnv_step_inj_b h b b' :
  is_u64 h -> is_u64 b -> is_u64 b' -> fnv_step h b = fnv_step h b' -> b = b'.
Proof.
  intros Hh Hb Hb' Heq. apply fnv_mul_inj in Heq; [|by apply lxor_u64..].
  rewrite <- (Z.lxor_0_l b), <- (Z.lxor_0_l b'), <- (Z.lxor_nilpotent h).
  rewrite !Z.lxor_assoc. by rewrite Heq.
Qed.

Lemma fnv_fold_u64 l h : is_u64 h -> is_u64 (foldl fnv_step h l).
Proof. revert h. induction l; intros h Hh; simpl; auto using fnv_step_u64. Qed.

Lemma fnv_fold_inj l h h' :
  is_u64 h -> is_u64 h' -> Forall is_u64 l ->
  foldl fnv_step h l = foldl fnv_step h' l -> h = h'.
Proof.
  intros Hh Hh' Hl. revert h h' Hh Hh'.
  induction Hl as [|b l Hb _ IH]; intros h h' Hh Hh'; simpl; [done|].
  intros Heq. apply (fnv_step_inj_h h h' b); [done..|]. apply IH; auto using fnv_step_u64.
Qed.

(** Hashes of sequences that differ in one place differ. *)
Lemma fnv_one_diff l1 l2 x y h :
  is_u64 h -> Forall is_u64 l2 -> is_u64 x -> is_u64 y ->
  foldl fnv_step h (l1 ++ x :: l2) = foldl fnv_step h (l1 ++ y :: l2) -> x = y.
Proof.
  intros Hh Hl Hx Hy. rewrite !foldl_app. simpl. intros Heq.
  apply fnv_fold_inj in Heq; [|apply fnv_step_u64..|done].
  by eapply fnv_step_inj_b; [apply fnv_fold_u64| | |exact Heq].
Qed.

(** The bytes and words the key of a route hashes, in order. *)
Definition route_words (vrf : Z) (p : danos_ip_prefix) (proto : Z) : list Z :=
  vrf :: take 16 (ip_addr (pfx_addr p)) ++ [pfx_len p; proto].

Lemma route_key_words vrf p proto :
  route_key vrf p proto = foldl fnv_step FNV_BASIS (route_words vrf p proto).
Proof. unfold route_words. simpl. by rewrite foldl_app. Qed.

(** ** Properties *)

(** Typed objects survive the store: for every structure type of the API,
    a structure that was created is read back field for field, whatever the
    caller's output structure held, and the call changes nothing. *)
Theorem typed_object_roundtrip {A} `{CStructLaws A} type (key : A -> Z) (x y : A) c c' :
  core_wf c -> struct_wf x -> struct_wf y ->
  create_as type key (Some x) c = (DANOS_OK, c') ->
  read_as type (key x) (Some y) c' = (DANOS_OK, Some x, c').
Proof.
  intros Hwf Hx Hy Hc.
  destruct (create_as_ok type key x c c' Hwf Hc) as (h & c1 & _ & Hwf' & Hd & Hl & _ & Ho).
  unfold read_as, get_default_store. rewrite Hd.
  rewrite object_read_lookup, Ho, lookup_insert_eq by done.
  rewrite (length_to_mem x Hx), Nat.ltb_irrefl. simpl.
  unfold cwrite. rewrite take_0, Nat.add_0_l, (length_to_mem x Hx).
  rewrite drop_ge by (by rewrite (length_to_mem y Hy)).
  rewrite app_nil_r. simpl. by rewrite (of_to_mem x Hx).
Qed.

Definition demo_vrf : danos_vrf := mk_vrf 7 (zeros 64) true false.
Definition demo_vrf_out : danos_vrf := mk_vrf 0 (zeros 64) false false.

Lemma typed_object_roundtrip_witness :
  let c' := (danos_vrf_create (Some demo_vrf) (core_boot (mk_os [] ∅) 0)).2 in
  danos_vrf_read 7 (Some demo_vrf_out) c' = (DANOS_OK, Some demo_vrf, c').
Proof.
  apply (typed_object_roundtrip DANOS_OBJ_VRF vrf_vrf_id demo_vrf demo_vrf_out
           (core_boot (mk_os [] ∅) 0)).
  - apply core_boot_wf.
  - split_and!; [unfold is_uint; simpl; lia|apply length_zeros|apply zeros_ok].
  - split_and!; [unfold is_uint; simpl; lia|apply length_zeros|apply zeros_ok].
  - vm_compute. reflexivity.
Defined.

(** Route keys: two routes whose key fields (VRF, address bytes, prefix
    length, protocol) differ in exactly one byte or word never share a key,
    so neither shadows the other in the store. *)
Theorem route_key_separates vrf p proto vrf' p' proto' l1 x y l2 :
  route_words vrf p proto = l1 ++ x :: l2 -> route_words vrf' p' proto' = l1 ++ y :: l2 ->
  Forall is_u64 (x :: y :: l2) -> x <> y ->
  route_key vrf p proto <> route_key vrf' p' proto'.
Proof.
  intros H1 H2 Hl Hne Heq. rewrite !route_key_words, H1, H2 in Heq.
  inversion_clear Hl as [|? ? Hx Hl']. inversion_clear Hl' as [|? ? Hy Hl2].
  apply Hne. eapply fnv_one_diff; [|exact Hl2|done|done|exact Heq].
  unfold is_u64, FNV_BASIS. lia.
Qed.

Definition v4_prefix (a b c d len : Z) : danos_ip_prefix :=
  mk_ip_prefix (mk_ip_addr DANOS_AF_IPV4 ([a; b; c; d] ++ zeros 12)) len.

Lemma route_key_separates_witness :
  route_key 0 (v4_prefix 10 0 0 0 8) 3 <> route_key 0 (v4_prefix 10 0 0 0 8) 4.
Proof.
  apply (route_key_separates 0 (v4_prefix 10 0 0 0 8) 3 0 (v4_prefix 10 0 0 0 8) 4
           ([0; 10; 0; 0; 0] ++ zeros 12 ++ [8]) 3 4 []);
    [reflexivity|reflexivity| |lia].
  repeat constructor; unfold is_u64; lia.
Defined.

(** The key of a route leaves out the address family: once a route is in
    the store, creating a route of the other family with the same address
    bytes, prefix length, VRF and protocol (0.0.0.0/0 and ::/0, or 32.1.0.0/16
    and 2001::/16) is refused as existing. *)
Theorem route_families_collide r4 r6 c c' :
  core_wf c -> struct_wf r4 -> struct_wf r6 ->
  rt_vrf_id r6 = rt_vrf_id r4 -> rt_protocol r6 = rt_protocol r4 ->
  ip_addr (pfx_addr (rt_prefix r6)) = ip_addr (pfx_addr (rt_prefix r4)) ->
  pfx_len (rt_prefix r6) = pfx_len (rt_prefix r4) ->
  danos_route_create (Some r4) c = (DANOS_OK, c') ->
  danos_route_create (Some r6) c' = (DANOS_ERR_EXISTS, c').
Proof.
  intros Hwf W4 W6 Hv Hp Ha Hl Hc.
  destruct (create_as_ok _ _ r4 c c' Hwf Hc) as (h & c1 & _ & Hwf' & Hd & [s Hs] & _ & Ho).
  unfold danos_route_create, create_as, get_default_store. rewrite Hd.
  unfold danos_object_create. rewrite (length_to_mem r6 W6), Hs. simpl.
  replace (route_id r6) with (route_id r4)
    by (unfold route_id; rewrite !route_key_words; unfold route_words; by rewrite Hv, Hp, Ha, Hl).
  destruct (find_entry s DANOS_OBJ_ROUTE (route_id r4)) eqn:E; [done|].
  destruct (objs_find_None c' Hwf' h s Hs _ _ E). by rewrite Ho, lookup_insert_eq.
Qed.

Definition default_route (af : Z) : danos_route :=
  mk_route 0 (mk_ip_prefix (mk_ip_addr af (zeros 16)) 0) DANOS_ROUTE_PROTO_BGP 20 0 0 0.

Lemma default_route_wf af : 0 <= af < 2 ^ 32 -> struct_wf (default_route af).
Proof.
  intros Haf. repeat split; try (unfold is_uint; simpl; lia); [apply zeros_ok|done].
Qed.

Lemma route_families_collide_witness :
  let c' := (danos_route_create (Some (default_route DANOS_AF_IPV4)) (core_boot (mk_os [] ∅) 0)).2 in
  danos_route_create (Some (default_route DANOS_AF_IPV6)) c' = (DANOS_ERR_EXISTS, c').
Proof.
  apply (route_families_collide (default_route DANOS_AF_IPV4) (default_route DANOS_AF_IPV6)
           (core_boot (mk_os [] ∅) 0)); try reflexivity.
  - apply core_boot_wf.
  - by apply default_route_wf.
  - by apply default_route_wf.
Defined.

(** ACL rules are kept by rule number alone: with a rule in one table, a
    rule of the same number cannot be added to another table, and deleting it
    from the other table removes the first table's rule. *)
Theorem acl_rule_ignores_table t1 t2 r r' c c' :
  core_wf c -> struct_wf r -> struct_wf r' -> ar_rule_id r' = ar_rule_id r ->
  danos_acl_rule_add t1 (Some r) c = (DANOS_OK, c') ->
  (danos_acl_rule_add t2 (Some r') c').1 = DANOS_ERR_EXISTS /\
  (danos_acl_rule_delete t2 (ar_rule_id r) c').1 = DANOS_OK /\
  forall out, (danos_acl_rule_read t1 (ar_rule_id r) (Some out)
                 (danos_acl_rule_delete t2 (ar_rule_id r) c').2).1.1 = DANOS_ERR_NOT_FOUND.
Proof.
  intros Hwf Hr Hr' Hid Hc.
  destruct (create_as_ok _ _ r c c' Hwf Hc) as (h & c1 & _ & Hwf' & Hd & Hl & _ & Ho).
  set (k := u64 (ar_rule_id r + 1000000)) in *.
  assert (is_Some (objs c' h !! (DANOS_OBJ_ACL, k))) as Hin by (by rewrite Ho, lookup_insert_eq).
  pose proof Hl as [s Hs]. split.
  - unfold danos_acl_rule_add, create_as, get_default_store. rewrite Hd.
    unfold danos_object_create. rewrite (length_to_mem r' Hr'), Hs, Hid. simpl. fold k.
    rewrite (objs_find c' Hwf' h s Hs) in Hin. by destruct Hin as [e ->].
  - pose proof (run_op_refines c' Hwf' h s Hs (OpDelete DANOS_OBJ_ACL k)) as Hdel.
    unfold danos_acl_rule_delete, delete_as, get_default_store. rewrite Hd. fold k.
    simpl in Hdel. destruct (danos_object_delete (Some h) DANOS_OBJ_ACL k c') as [st c2] eqn:Ed.
    assert (st <> DANOS_ERR_NO_MEMORY).
    { unfold danos_object_delete in Ed. rewrite Hs in Ed. case_match; congruence. }
    destruct Hdel as [(st' & m & Hspec & Hst & Hmu)|(? & _)]; [|done].
    simpl in *. rewrite decide_True in Hspec by done. simplify_eq. split; [done|].
    destruct Hmu as [Mw Mo Ml _ Md _]. simpl in *. intros out.
    unfold danos_acl_rule_read, read_as, get_default_store. fold k. rewrite Md, Hd.
    by rewrite object_read_lookup, Mo, lookup_delete_eq.
Qed.

Definition demo_rule (n : Z) : danos_acl_rule :=
  mk_acl_rule 5 n (mk_acl_match 0 0 (zeros 6) (zeros 6) 0 ip_prefix_zero ip_prefix_zero
                     0 0 0 0 0 0) (mk_acl_action_params 0 0 0 0).

Lemma demo_rule_wf n : 0 <= n < 2 ^ 32 -> struct_wf (demo_rule n).
Proof.
  intros Hn. repeat split; try (unfold is_uint; simpl; lia);
    try done; apply zeros_ok.
Qed.

Lemma acl_rule_ignores_table_witness :
  let c' := (danos_acl_rule_add 1 (Some (demo_rule 10)) (core_boot (mk_os [] ∅) 0)).2 in
  (danos_acl_rule_add 2 (Some (demo_rule 20)) c').1 = DANOS_ERR_EXISTS /\
  (danos_acl_rule_delete 2 5 c').1 = DANOS_OK /\
  forall out, (danos_acl_rule_read 1 5 (Some out) (danos_acl_rule_delete 2 5 c').2).1.1 =
    DANOS_ERR_NOT_FOUND.
Proof.
  apply (acl_rule_ignores_table 1 2 (demo_rule 10) (demo_rule 20) (core_boot (mk_os [] ∅) 0));
    [apply core_boot_wf|by apply demo_rule_wf|by apply demo_rule_wf|reflexivity|reflexivity].
Defined.

Lemma qos_bind_key_high policy ifindex ingress :
  2 ^ 63 <= qos_bind_key policy ifindex ingress.
Proof.
  unfold qos_bind_key. set (h := fnv_step _ _).
  assert (0 <= h) by (pose proof (fnv_step_u64 (fnv_step (fnv_step 0x51505342 policy) ifindex)
    (b2z ingress)) as []; subst h; lia).
  change (Z.shiftl 1 63) with (2 ^ 63).
  assert (Z.testbit (Z.lor h (2 ^ 63)) 63 = true) as Hb
    by (by rewrite Z.lor_spec, Z.pow2_bits_true, orb_true_r by lia).
  assert (0 <= Z.lor h (2 ^ 63)) by (apply Z.lor_nonneg; lia).
  destruct (Z.lt_ge_cases (Z.lor h (2 ^ 63)) (2 ^ 63)) as [Hlt|]; [|done].
  destruct (decide (Z.lor h (2 ^ 63) = 0)) as [Hz|Hz]; [by rewrite Hz, Z.bits_0 in Hb|].
  rewrite Z.bits_above_log2 in Hb; [done|done|]. apply Z.log2_lt_pow2; lia.
Qed.

(** A QoS binding is never written to the log: its key has bit 63 set,
    and the logging hook drops every identifier over 32 bits, so whatever the
    state, binding a policy leaves the log as it was and the binding is not
    among the objects a restart restores. *)
Theorem qos_binding_not_logged policy ifindex ingress c :
  c_persist (danos_qos_policy_bind policy ifindex ingress c).2 = c_persist c /\
  os_files (c_os (danos_qos_policy_bind policy ifindex ingress c).2) = os_files (c_os c) /\
  persistable (DANOS_OBJ_QOS_BIND, qos_bind_key policy ifindex ingress) = false.
Proof.
  pose proof (qos_bind_key_high policy ifindex ingress) as Hk.
  set (k := qos_bind_key policy ifindex ingress) in *.
  assert (forall c b c1, core_alloc c = (b, c1) -> c_persist c1 = c_persist c /\
    os_files (c_os c1) = os_files (c_os c)) as Ha.
  { intros c0 b c1. unfold core_alloc, alloc, ask.
    by destruct (os_env (c_os c0)); intros [= <- <-]. }
  assert (forall c h c1, get_default_store c = (h, c1) -> c_persist c1 = c_persist c /\
    os_files (c_os c1) = os_files (c_os c)) as Hg.
  { intros c0 h c1. unfold get_default_store, store_create.
    repeat case_match; intros; simplify_eq/=; try done;
      repeat match goal with H : core_alloc _ = _ |- _ => apply Ha in H as [? ?] end;
      split; congruence. }
  split_and!; cycle 2.
  { unfold persistable. cbn [fst snd]. rewrite (proj2 (Z.leb_gt _ _)) by lia. done. }
  all: unfold danos_qos_policy_bind; fold k; destruct (get_default_store c) as [h c1] eqn:Eg;
    apply Hg in Eg as [? ?]; unfold danos_object_create, notify_mutation,
    danos_persist_on_mutation; rewrite (proj2 (Z.ltb_lt _ k)) by lia;
    repeat case_match; simplify_eq/=;
    repeat match goal with H : core_alloc _ = _ |- _ => apply Ha in H as [? ?] end; congruence.
Qed.

Definition collect_route (acc : list danos_route) (r : danos_route) : list danos_route :=
  acc ++ [r].

Lemma route_dump_fold vrf es acc :
  foldl (route_dump_iter vrf collect_route) acc es = acc ++ omap (route_shown vrf) es.
Proof.
  revert acc. induction es as [|e es IH]; intros acc; [by rewrite app_nil_r|].
  cbn [foldl]. rewrite IH. unfold route_dump_iter, collect_route. simpl.
  destruct (route_shown vrf e); [by rewrite <- app_assoc|done].
Qed.

(** A route dump calls back exactly once for every route object of the
    default store that belongs to the VRF asked for (every VRF for 0), and for
    nothing else, and leaves the state alone. *)
Theorem route_dump_exact vrf h c :
  core_wf c -> g_default_store c = Some h ->
  exists l, danos_route_dump vrf (Some collect_route) [] c = (DANOS_OK, l, c) /\
    l ≡ₚ omap (fun kv => route_shown vrf (mk_entry kv.1.1 kv.1.2 kv.2)) (map_to_list (objs c h)).
Proof.
  intros Hwf Hd. destruct (cw_default c Hwf h Hd) as [s Hs].
  unfold danos_route_dump, get_default_store. rewrite Hd. simpl. rewrite Hs. simpl.
  eexists. split; [done|]. rewrite route_dump_fold. simpl.
  rewrite (objs_live c h s Hs). unfold store_map.
  rewrite map_to_list_to_map
    by (rewrite kvs_fst; apply (wf_nodup s), (cw_stores c Hwf h s Hs)).
  apply reflexive_eq, omap_fmap_eq. by intros [].
Qed.

Lemma route_dump_exact_witness :
  let c := (danos_route_create (Some (default_route DANOS_AF_IPV4)) (core_boot (mk_os [] ∅) 0)).2 in
  exists l, danos_route_dump 0 (Some collect_route) [] c = (DANOS_OK, l, c) /\
    l ≡ₚ omap (fun kv => route_shown 0 (mk_entry kv.1.1 kv.1.2 kv.2)) (map_to_list (objs c 1)).
Proof.
  destruct (create_as_ok DANOS_OBJ_ROUTE route_id (default_route DANOS_AF_IPV4)
    (core_boot (mk_os [] ∅) 0)
    (danos_route_create (Some (default_route DANOS_AF_IPV4)) (core_boot (mk_os [] ∅) 0)).2)
    as (h & c1 & Hg & Hwf & _); [apply core_boot_wf|reflexivity|].
  apply (route_dump_exact 0 1 _ Hwf). reflexivity.
Defined.
