(* ===== verification/Transaction.v ===== *)
(** * Transactions: danos-core transaction.h / transaction.c

    The manager, the heap of transaction records and the public calls.  A
    caller owns a [danos_tx_t] that points to the record; the calls decide on
    the record's state and copy the new state to the caller's.  Each call
    runs under the record's mutex and is one step.  The clock, the allocator's
    answers and whether the write lock was obtained in time are arguments. *)

From stdpp Require Import base decidable list numbers gmap strings.
From Stdlib Require Import ZArith Lia.
From S2P Require Import Prelude Dpa.

Inductive danos_tx_state : Type :=
  | DANOS_TX_OPEN | DANOS_TX_PREPARE | DANOS_TX_VALIDATE | DANOS_TX_COMMIT
  | DANOS_TX_VERIFY | DANOS_TX_DONE | DANOS_TX_ABORT | DANOS_TX_ROLLBACK.

#[export] Instance danos_tx_state_eq_dec : EqDecision danos_tx_state.
Proof. solve_decision. Defined.

Definition tx_state_code (s : danos_tx_state) : Z :=
  match s with
  | DANOS_TX_OPEN => 0 | DANOS_TX_PREPARE => 1 | DANOS_TX_VALIDATE => 2
  | DANOS_TX_COMMIT => 3 | DANOS_TX_VERIFY => 4 | DANOS_TX_DONE => 5
  | DANOS_TX_ABORT => 6 | DANOS_TX_ROLLBACK => 7
  end.

Record danos_tx := mk_tx {
  tx_id : Z;
  tx_state : danos_tx_state;
  tx_start_ns : Z;
  tx_deadline_ns : Z;
  tx_initiator : string;
  tx_internal : option Z;      (* void *_internal: the record's handle *)
}.

Record danos_tx_timeouts := mk_timeouts {
  prepare_ms : Z; commit_ms : Z; verify_ms : Z;
}.

Record danos_tx_record := mk_tx_record {
  rec_pub : danos_tx;
  rec_in_use : bool;
}.

Record danos_tx_manager := mk_tx_manager {
  tm_free_list : list Z;
  tm_next_tx_id : Z;
  tm_active_count : Z;
}.

Record tx_world := mk_tx_world {
  g_tx_mgr : option danos_tx_manager;
  tw_records : gmap Z danos_tx_record;
  tw_next : Z;                 (* next handle the allocator gives out *)
}.

Definition tx_world_start : tx_world := mk_tx_world None ∅ 1.

Definition set_mgr (w : tx_world) (m : danos_tx_manager) : tx_world :=
  mk_tx_world (Some m) (tw_records w) (tw_next w).
Definition set_record (w : tx_world) (h : Z) (r : danos_tx_record) : tx_world :=
  mk_tx_world (g_tx_mgr w) (<[h := r]> (tw_records w)) (tw_next w).

Definition with_state (t : danos_tx) (s : danos_tx_state) : danos_tx :=
  mk_tx (tx_id t) s (tx_start_ns t) (tx_deadline_ns t) (tx_initiator t) (tx_internal t).

(** ** Manager and pool *)

Definition danos_tx_manager_init (mem : bool) (w : tx_world) : Z * tx_world :=
  match g_tx_mgr w with
  | Some _ => (0, w)
  | None => if mem then (0, set_mgr w (mk_tx_manager [] 1 0)) else (-1, w)
  end.

Definition danos_tx_manager_fini (w : tx_world) : tx_world :=
  match g_tx_mgr w with
  | None => w
  | Some m => mk_tx_world None
                (foldr (fun h rs => delete h rs) (tw_records w) (tm_free_list m)) (tw_next w)
  end.

Definition tx_zero : danos_tx := mk_tx 0 DANOS_TX_OPEN 0 0 EmptyString None.

Definition danos_tx_record_alloc (mem : bool) (m : danos_tx_manager) (w : tx_world)
    : option Z * danos_tx_manager * tx_world :=
  match tm_free_list m with
  | h :: l =>
      (Some h, mk_tx_manager l (tm_next_tx_id m) (tm_active_count m),
       set_record w h (mk_tx_record tx_zero true))
  | [] =>
      if mem
      then (Some (tw_next w), m,
            mk_tx_world (g_tx_mgr w)
              (<[tw_next w := mk_tx_record tx_zero true]> (tw_records w)) (tw_next w + 1))
      else (None, m, w)
  end.

Definition danos_tx_record_free (h : option Z) (w : tx_world) : tx_world :=
  match h, g_tx_mgr w with
  | Some h, Some m =>
      let w := match tw_records w !! h with
               | Some r => set_record w h (mk_tx_record (rec_pub r) false)
               | None => w
               end in
      set_mgr w (mk_tx_manager (h :: tm_free_list m) (tm_next_tx_id m) (tm_active_count m))
  | _, _ => w
  end.

Definition danos_tx_validate_ptr (tx : option danos_tx) : option Z :=
  t ← tx; tx_internal t.

Definition danos_tx_in_state (r : danos_tx_record) (expected : danos_tx_state) : bool :=
  bool_decide (tx_state (rec_pub r) = expected).

(** ** Public calls *)

Definition kDefaultTimeouts : danos_tx_timeouts := mk_timeouts 100 500 1000.

(** [DANOS_ERR_INTERNAL] stands for the null dereference after a failed
    manager allocation. *)
Definition danos_tx_begin (mem_mgr mem_rec : bool) (now : Z) (tx : option danos_tx)
    (initiator : option string) (timeouts : option danos_tx_timeouts) (w : tx_world)
    : danos_status * option danos_tx * tx_world :=
  match tx with
  | None => (DANOS_ERR_INVALID_ARG, None, w)
  | Some _ =>
      let '(_, w) := danos_tx_manager_init mem_mgr w in
      match g_tx_mgr w with
      | None => (DANOS_ERR_INTERNAL, tx, w)
      | Some m =>
          match danos_tx_record_alloc mem_rec m w with
          | (None, m, w) => (DANOS_ERR_NO_MEMORY, tx, set_mgr w m)
          | (Some h, m, w) =>
              let t := default kDefaultTimeouts timeouts in
              let ms := u64 (u64 (prepare_ms t + commit_ms t) + verify_ms t) in
              let pub := mk_tx (tm_next_tx_id m) DANOS_TX_OPEN now
                           (u64 (now + u64 (ms * 1000000)))
                           (default "unknown"%string initiator) (Some h) in
              let m := mk_tx_manager (tm_free_list m) (u64 (tm_next_tx_id m + 1))
                         (u64 (tm_active_count m + 1)) in
              (DANOS_OK, Some pub, set_mgr (set_record w h (mk_tx_record pub true)) m)
          end
      end
  end.

(** The body the state-changing calls share: check the record's state, move
    the record and the caller's copy to [to]. *)
Definition tx_move (allowed : danos_tx_state -> bool) (to : danos_tx_state)
    (tx : option danos_tx) (w : tx_world) : danos_status * option danos_tx * tx_world :=
  match tx, danos_tx_validate_ptr tx with
  | Some t, Some h =>
      match tw_records w !! h with
      | None => (DANOS_ERR_INTERNAL, tx, w)
      | Some r =>
          if allowed (tx_state (rec_pub r))
          then (DANOS_OK, Some (with_state t to),
                set_record w h (mk_tx_record (with_state (rec_pub r) to) (rec_in_use r)))
          else (DANOS_ERR_TX_INVALID, tx, w)
      end
  | _, _ => (DANOS_ERR_TX_INVALID, tx, w)
  end.

Definition tx_active_sub (w : tx_world) : tx_world :=
  match g_tx_mgr w with
  | Some m => set_mgr w (mk_tx_manager (tm_free_list m) (tm_next_tx_id m)
                           (u64 (tm_active_count m - 1)))
  | None => w
  end.

Definition tx_is (s : danos_tx_state) (x : danos_tx_state) : bool := bool_decide (x = s).

Definition danos_tx_prepare := tx_move (tx_is DANOS_TX_OPEN) DANOS_TX_PREPARE.

Definition danos_tx_validate := tx_move (tx_is DANOS_TX_PREPARE) DANOS_TX_VALIDATE.

(** [locked]: the write lock was obtained before the deadline; it is released
    before the call returns. *)
Definition danos_tx_commit (locked : bool) (tx : option danos_tx) (w : tx_world)
    : danos_status * option danos_tx * tx_world :=
  let '(st, tx, w) :=
    tx_move (tx_is DANOS_TX_VALIDATE) (if locked then DANOS_TX_COMMIT else DANOS_TX_ABORT) tx w in
  (if bool_decide (st = DANOS_OK) && negb locked then DANOS_ERR_TX_TIMEOUT else st, tx, w).

Definition tx_end (allowed : danos_tx_state -> bool) (to : danos_tx_state)
    (tx : option danos_tx) (w : tx_world) : danos_status * option danos_tx * tx_world :=
  let '(st, tx, w) := tx_move allowed to tx w in
  (st, tx, if bool_decide (st = DANOS_OK) then tx_active_sub w else w).

(** The record passes through [DANOS_TX_VERIFY] under its lock. *)
Definition danos_tx_verify := tx_end (tx_is DANOS_TX_COMMIT) DANOS_TX_DONE.

Definition danos_tx_abort :=
  tx_end (fun s => negb (tx_state_code DANOS_TX_COMMIT <=? tx_state_code s)) DANOS_TX_ABORT.

Definition danos_tx_rollback :=
  tx_end (fun s => tx_is DANOS_TX_COMMIT s || tx_is DANOS_TX_VERIFY s) DANOS_TX_ROLLBACK.

Definition danos_tx_get_state (tx : option danos_tx) : danos_status * option danos_tx_state :=
  match tx with
  | None => (DANOS_ERR_INVALID_ARG, None)
  | Some t => (DANOS_OK, Some (tx_state t))
  end.

Definition danos_tx_commit_atomic (locked : bool) (tx : option danos_tx) (w : tx_world)
    : danos_status * option danos_tx * tx_world :=
  let '(st, tx, w) := danos_tx_prepare tx w in
  if negb (bool_decide (st = DANOS_OK)) then (st, tx, w) else
  let '(st, tx, w) := danos_tx_validate tx w in
  if negb (bool_decide (st = DANOS_OK)) then (st, tx, w) else
  let '(st, tx, w) := danos_tx_commit locked tx w in
  if negb (bool_decide (st = DANOS_OK)) then (st, tx, w) else
  danos_tx_verify tx w.

(** ** Executions *)

(** One public call; the number says whether it was a commit that timed out. *)
Inductive tx_step : tx_world -> Z -> tx_world -> Prop :=
  | St_begin mm mr now tx ini tmo w st tx' w' :
      danos_tx_begin mm mr now tx ini tmo w = (st, tx', w') -> tx_step w 0 w'
  | St_prepare tx w st tx' w' : danos_tx_prepare tx w = (st, tx', w') -> tx_step w 0 w'
  | St_validate tx w st tx' w' : danos_tx_validate tx w = (st, tx', w') -> tx_step w 0 w'
  | St_commit locked tx w st tx' w' :
      danos_tx_commit locked tx w = (st, tx', w') ->
      tx_step w (if decide (st = DANOS_ERR_TX_TIMEOUT) then 1 else 0) w'
  | St_verify tx w st tx' w' : danos_tx_verify tx w = (st, tx', w') -> tx_step w 0 w'
  | St_abort tx w st tx' w' : danos_tx_abort tx w = (st, tx', w') -> tx_step w 0 w'
  | St_rollback tx w st tx' w' : danos_tx_rollback tx w = (st, tx', w') -> tx_step w 0 w'.

(** Worlds reachable from the start, with the number of timed-out commits. *)
Inductive tx_reach : Z -> tx_world -> Prop :=
  | Reach_start : tx_reach 0 tx_world_start
  | Reach_step k w d w' : tx_reach k w -> tx_step w d w' -> tx_reach (k + d) w'.

Definition tx_active (s : danos_tx_state) : bool := tx_state_code s <=? 4.

Definition active_records (rs : gmap Z danos_tx_record) : gmap Z danos_tx_record :=
  filter (fun kv => tx_active (tx_state (rec_pub kv.2)) = true) rs.

Definition n_active (w : tx_world) : Z := Z.of_nat (size (active_records (tw_records w))).

(** The transitions the documentation allows. *)
Definition tx_edge (s s' : danos_tx_state) : bool :=
  match s, s' with
  | DANOS_TX_OPEN, (DANOS_TX_PREPARE | DANOS_TX_ABORT)
  | DANOS_TX_PREPARE, (DANOS_TX_VALIDATE | DANOS_TX_ABORT)
  | DANOS_TX_VALIDATE, (DANOS_TX_COMMIT | DANOS_TX_ABORT)
  | DANOS_TX_COMMIT, (DANOS_TX_DONE | DANOS_TX_ROLLBACK) => true
  | _, _ => false
  end.

Definition rec_state (w : tx_world) (h : Z) : option danos_tx_state :=
  (fun r => tx_state (rec_pub r)) <$> tw_records w !! h.

Record tx_inv (k : Z) (w : tx_world) : Prop := {
  ti_none : g_tx_mgr w = None -> tw_records w = ∅ /\ tw_next w = 1 /\ k = 0;
  ti_mgr : forall m, g_tx_mgr w = Some m ->
    tm_free_list m = [] /\ tm_next_tx_id m = u64 (tw_next w) /\
    tm_active_count m = u64 (n_active w + k);
  ti_fresh : forall h, is_Some (tw_records w !! h) -> 0 < h < tw_next w;
  ti_ids : forall h r, tw_records w !! h = Some r ->
    tx_id (rec_pub r) = u64 h /\ tx_internal (rec_pub r) = Some h;
  ti_states : forall h, rec_state w h <> Some DANOS_TX_VERIFY;
  ti_next : 0 < tw_next w;
}.

Lemma tx_inv_start : tx_inv 0 tx_world_start.
Proof.
  split; simpl; try done.
  - intros h [r H]. by rewrite lookup_empty in H.
Qed.

(** What a state-changing call does. *)
Lemma tx_move_cases allowed to tx w st tx' w' :
  tx_move allowed to tx w = (st, tx', w') ->
  (st <> DANOS_OK /\ st <> DANOS_ERR_TX_TIMEOUT /\ w' = w /\ tx' = tx) \/
  (st = DANOS_OK /\ exists t h r, tx = Some t /\ tx_internal t = Some h /\
     tw_records w !! h = Some r /\ allowed (tx_state (rec_pub r)) = true /\
     tx' = Some (with_state t to) /\
     w' = set_record w h (mk_tx_record (with_state (rec_pub r) to) (rec_in_use r))).
Proof.
  unfold tx_move, danos_tx_validate_ptr. intros H.
  destruct tx as [t|]; simpl in H; [|by left; simplify_eq].
  destruct (tx_internal t) as [h|] eqn:Hh; [|by left; simplify_eq].
  destruct (tw_records w !! h) as [r|] eqn:Hr; [|by left; simplify_eq].
  destruct (allowed (tx_state (rec_pub r))) eqn:Ha; simplify_eq; [right|by left].
  split; [done|]. exists t, h, r. done.
Qed.

Lemma n_active_set w h r r' :
  tw_records w !! h = Some r ->
  n_active (set_record w h r') =
    n_active w - b2z (tx_active (tx_state (rec_pub r))) +
    b2z (tx_active (tx_state (rec_pub r'))).
Proof.
  intros Hr. unfold n_active, active_records. simpl.
  destruct (tx_active (tx_state (rec_pub r))) eqn:E1, (tx_active (tx_state (rec_pub r'))) eqn:E2;
    simpl b2z.
  - rewrite map_filter_insert_True by done.
    rewrite map_size_insert_Some; [lia|]. exists r. by apply map_lookup_filter_Some.
  - rewrite map_filter_insert_False by (simpl; by rewrite E2).
    rewrite map_filter_delete, map_size_delete_Some
      by (exists r; by apply map_lookup_filter_Some).
    assert (size (filter (fun kv => tx_active (tx_state (rec_pub kv.2)) = true) (tw_records w)) <> 0)%nat.
    { intros Hz. apply map_size_empty_inv in Hz.
      assert (filter (fun kv => tx_active (tx_state (rec_pub kv.2)) = true) (tw_records w) !! h = Some r) as Hl
        by (by apply map_lookup_filter_Some). by rewrite Hz, lookup_empty in Hl. }
    lia.
  - rewrite map_filter_insert_True by done.
    rewrite map_size_insert_None; [lia|]. apply map_lookup_filter_None. right. intros x Hx.
    rewrite Hr in Hx. simplify_eq/=. by rewrite E1.
  - rewrite map_filter_insert_False by (simpl; by rewrite E2).
    rewrite map_filter_delete, delete_id; [lia|]. apply map_lookup_filter_None. right.
    intros x Hx. rewrite Hr in Hx. simplify_eq/=. by rewrite E1.
Qed.

Lemma n_active_new w h r :
  tw_records w !! h = None -> tx_active (tx_state (rec_pub r)) = true ->
  n_active (set_record w h r) = n_active w + 1.
Proof.
  intros Hr Ha. unfold n_active, active_records. simpl.
  rewrite map_filter_insert_True, map_size_insert_None; [lia| |done].
  apply map_lookup_filter_None. by left.
Qed.

Lemma tx_inv_move k w h r to :
  tx_inv k w -> tw_records w !! h = Some r ->
  tx_active (tx_state (rec_pub r)) = true -> to <> DANOS_TX_VERIFY ->
  tx_inv (k + 1 - b2z (tx_active to))
    (set_record w h (mk_tx_record (with_state (rec_pub r) to) (rec_in_use r))).
Proof.
  intros [Hn Hm Hf Hi Hs Hp] Hr Ha Hto. split; simpl.
  - intros Hnone. destruct (Hn Hnone) as [He _]. by rewrite He, lookup_empty in Hr.
  - intros m Hmm. destruct (Hm m Hmm) as (H1 & H2 & H3). split_and!; [done|done|].
    rewrite H3, (n_active_set w h r) by done. simpl. rewrite Ha. f_equal. simpl. lia.
  - intros h' [<-|?]%lookup_insert_is_Some'; [|auto]. apply Hf. by rewrite Hr.
  - intros h' r' [[<- <-]|[_ ?]]%lookup_insert_Some; [|auto]. simpl. by apply Hi.
  - intros h'. unfold rec_state. simpl. destruct (decide (h = h')) as [<-|Hne].
    + rewrite lookup_insert_eq. simpl. congruence.
    + rewrite lookup_insert_ne by done. apply Hs.
  - done.
Qed.

Lemma tx_inv_sub k w m :
  tx_inv (k + 1) w -> g_tx_mgr w = Some m -> tx_inv k (tx_active_sub w).
Proof.
  intros [Hn Hm Hf Hi Hs Hp] Hmm. unfold tx_active_sub. rewrite Hmm.
  destruct (Hm m Hmm) as (H1 & H2 & H3). split; simpl; try done.
  intros m' [= <-]. simpl. split_and!; [done|done|]. rewrite H3.
  unfold u64. rewrite Zminus_mod_idemp_l. f_equal. unfold n_active. simpl. lia.
Qed.

Lemma tx_inv_live k w h : tx_inv k w -> is_Some (tw_records w !! h) -> is_Some (g_tx_mgr w).
Proof.
  intros Hi [r Hr]. destruct (g_tx_mgr w) eqn:E; [done|].
  destruct (ti_none k w Hi E) as [He _]. by rewrite He, lookup_empty in Hr.
Qed.

Lemma tx_move_inv k allowed to tx w st tx' w' :
  tx_inv k w -> (forall s, allowed s = true -> tx_active s = true) ->
  to <> DANOS_TX_VERIFY -> tx_move allowed to tx w = (st, tx', w') ->
  (st = DANOS_OK -> tx_inv (k + 1 - b2z (tx_active to)) w' /\ is_Some (g_tx_mgr w')) /\
  (st <> DANOS_OK -> w' = w).
Proof.
  intros Hinv Hact Hto [(H1 & _ & H2 & _)|(-> & t & h & r & _ & _ & Hr & Ha & _ & ->)]%tx_move_cases.
  - done.
  - split; [|done]. intros _. split; [by apply tx_inv_move; auto|].
    simpl. eapply tx_inv_live; [done|]. by rewrite Hr.
Qed.

Lemma tx_end_inv k allowed to tx w st tx' w' :
  tx_inv k w -> (forall s, allowed s = true -> tx_active s = true) ->
  to <> DANOS_TX_VERIFY -> tx_active to = false ->
  tx_end allowed to tx w = (st, tx', w') -> tx_inv k w'.
Proof.
  intros Hinv Hact Hto Hina. unfold tx_end.
  destruct (tx_move allowed to tx w) as [[st0 tx0] w0] eqn:E. intros [= <- <- <-].
  destruct (tx_move_inv k _ _ _ _ _ _ _ Hinv Hact Hto E) as [Hok Hko].
  case_bool_decide as Hst; [|by rewrite Hko].
  destruct (Hok Hst) as [Hi [m Hm]]. rewrite Hina in Hi. simpl in Hi.
  eapply tx_inv_sub; [|exact Hm]. by rewrite Z.sub_0_r in Hi.
Qed.

Lemma tx_init_inv mem w : tx_inv 0 w -> tx_inv 0 (danos_tx_manager_init mem w).2.
Proof.
  intros Hi. unfold danos_tx_manager_init. destruct (g_tx_mgr w) eqn:E; [done|].
  destruct mem; [|done]. destruct (ti_none 0 w Hi E) as (He & Hn & _).
  destruct Hi as [_ _ Hf Hid Hs Hp]. split; simpl; try done.
  intros m [= <-]. simpl. rewrite Hn. split_and!; [done|done|].
  unfold n_active, active_records. simpl. by rewrite He, map_filter_empty, map_size_empty.
Qed.

Lemma tx_init_inv' k mem w : tx_inv k w -> tx_inv k (danos_tx_manager_init mem w).2.
Proof.
  intros Hi. destruct (g_tx_mgr w) eqn:E.
  - unfold danos_tx_manager_init. by rewrite E.
  - pose proof (ti_none k w Hi E) as (_ & _ & ->). by apply tx_init_inv.
Qed.

Lemma tx_begin_inv k mm mr now tx ini tmo w st tx' w' :
  tx_inv k w -> danos_tx_begin mm mr now tx ini tmo w = (st, tx', w') -> tx_inv k w'.
Proof.
  intros Hi0. unfold danos_tx_begin. destruct tx as [t|]; [|by intros [= <- <- <-]].
  pose proof (tx_init_inv' k mm w Hi0) as Hi.
  destruct (danos_tx_manager_init mm w) as [z w1]. simpl in Hi.
  destruct (g_tx_mgr w1) as [m|] eqn:Em; [|by intros [= <- <- <-]].
  destruct (ti_mgr k w1 Hi m Em) as (Hfl & Hnx & Hac).
  unfold danos_tx_record_alloc. rewrite Hfl. destruct mr.
  - intros [= <- <- <-]. pose proof Hi as [Hn Hm Hf Hid Hs Hp].
    assert (tw_records w1 !! tw_next w1 = None) as Hnew.
    { destruct (tw_records w1 !! tw_next w1) eqn:E; [|done].
      specialize (Hf (tw_next w1)). rewrite E in Hf. specialize (Hf ltac:(done)). lia. }
    split; simpl; rewrite ?insert_insert_eq; try done.
    + intros m' [= <-]. simpl. split_and!; [done|..].
      * rewrite Hnx. unfold u64. by rewrite Zplus_mod_idemp_l.
      * rewrite Hac. unfold u64. rewrite Zplus_mod_idemp_l. f_equal.
        unfold n_active. simpl. rewrite insert_insert_eq.
        pose proof (n_active_new w1 (tw_next w1)) as Hnw. unfold n_active in Hnw. simpl in Hnw.
        rewrite Hnw; [lia|done|done].
    + intros h [<-|Hh]%lookup_insert_is_Some'; [lia|]. specialize (Hf h Hh). lia.
    + intros h r [[<- <-]|[_ Hh]]%lookup_insert_Some; [|auto]. by simpl; rewrite Hnx.
    + intros h. unfold rec_state. simpl. rewrite insert_insert_eq.
      destruct (decide (tw_next w1 = h)) as [<-|Hne];
        [by rewrite lookup_insert_eq | rewrite lookup_insert_ne by done; apply Hs].
    + lia.
  - intros [= <- <- <-]. destruct Hi as [Hn Hm Hf Hid Hs Hp].
    split; simpl; try done. by intros m' [= <-].
Qed.

Lemma tx_step_inv k w d w' : tx_inv k w -> tx_step w d w' -> tx_inv (k + d) w'.
Proof.
  assert (forall s x, tx_is s x = true -> x = s) as Htx by (intros ? ? ?%bool_decide_eq_true_1; done).
  intros Hi Hst. destruct Hst; rewrite ?Z.add_0_r.
  - by eapply tx_begin_inv.
  - unfold danos_tx_prepare in *. eapply tx_move_inv in H as [Hok Hko]; [|done|by intros s ->%Htx|done].
    destruct (decide (st = DANOS_OK)); [|by rewrite Hko]. destruct Hok as [H _]; [done|].
    simpl in H. by replace (k + 1 - 1) with k in H by lia.
  - unfold danos_tx_validate in *. eapply tx_move_inv in H as [Hok Hko]; [|done|by intros s ->%Htx|done].
    destruct (decide (st = DANOS_OK)); [|by rewrite Hko]. destruct Hok as [H _]; [done|].
    simpl in H. by replace (k + 1 - 1) with k in H by lia.
  - unfold danos_tx_commit in H.
    destruct (tx_move _ _ tx w) as [[st0 tx0] w0] eqn:E. simplify_eq.
    pose proof (tx_move_cases _ _ _ _ _ _ _ E) as Hc.
    eapply tx_move_inv in E as [Hok Hko]; [|done|by intros s ->%Htx|by destruct locked].
    destruct Hc as [(H1 & H2 & -> & _)|(-> & _)].
    + rewrite bool_decide_eq_false_2 by done. simpl. rewrite decide_False by done.
      by rewrite Z.add_0_r.
    + destruct Hok as [H _]; [done|]. destruct locked; simpl in *.
      * by replace (k + 1 - 1) with (k + 0) in H by lia.
      * by rewrite Z.sub_0_r in H.
  - eapply tx_end_inv; [done| | | |exact H]; try done. by intros s ->%Htx.
  - eapply tx_end_inv; [done| | | |exact H]; try done. by intros [].
  - eapply tx_end_inv; [done| | | |exact H]; try done.
    by intros s [->%Htx | ->%Htx]%orb_true_iff.
Qed.

Lemma tx_reach_inv k w : tx_reach k w -> tx_inv k w.
Proof.
  induction 1; [apply tx_inv_start|]. by eapply tx_step_inv.
Qed.

Definition edge_ok (w w' : tx_world) : Prop :=
  forall h s, rec_state w h = Some s -> exists s', rec_state w' h = Some s' /\
    (s' = s \/ tx_edge s s' = true).

Lemma edge_ok_refl w : edge_ok w w.
Proof. intros h s Hs. eauto. Qed.

Lemma tx_move_edges allowed to tx w st tx' w' :
  (forall s, allowed s = true -> s <> DANOS_TX_VERIFY -> tx_edge s to = true) ->
  (forall h, rec_state w h <> Some DANOS_TX_VERIFY) ->
  tx_move allowed to tx w = (st, tx', w') -> edge_ok w w'.
Proof.
  intros He Hv [(_ & _ & -> & _)|(_ & t & h & r & _ & _ & Hr & Ha & _ & ->)]%tx_move_cases.
  - apply edge_ok_refl.
  - intros h' s Hs. unfold rec_state in *. simpl. destruct (decide (h = h')) as [<-|Hne].
    + rewrite lookup_insert_eq. rewrite Hr in Hs. simplify_eq/=. eexists. split; [done|].
      right. apply He; [done|]. intros Hx. apply (Hv h). unfold rec_state. rewrite Hr. simpl. congruence.
    + rewrite lookup_insert_ne by done. eauto.
Qed.

Lemma tx_end_edges allowed to tx w st tx' w' :
  (forall s, allowed s = true -> s <> DANOS_TX_VERIFY -> tx_edge s to = true) ->
  (forall h, rec_state w h <> Some DANOS_TX_VERIFY) ->
  tx_end allowed to tx w = (st, tx', w') -> edge_ok w w'.
Proof.
  unfold tx_end. intros He Hv. destruct (tx_move allowed to tx w) as [[st0 tx0] w0] eqn:E.
  intros [= <- <- <-]. apply tx_move_edges in E; [|done|done].
  case_bool_decide; [|done]. unfold tx_active_sub. by destruct (g_tx_mgr w0).
Qed.

(** ** Properties *)

(** C12. The transaction life cycle: in every reachable world, one call of the
    API, by whatever caller and with whatever copy of the handle, moves each
    transaction along the documented transitions only (open, prepare,
    validate, commit, done; abort only before commit; rollback only after
    commit) or leaves it where it is; finished transactions never move. *)
Theorem tx_follows_state_machine k w d w' h s :
  tx_reach k w -> tx_step w d w' -> rec_state w h = Some s ->
  exists s', rec_state w' h = Some s' /\ (s' = s \/ tx_edge s s' = true).
Proof.
  intros Hr Hst. pose proof (tx_reach_inv k w Hr) as Hi. pose proof (ti_states k w Hi) as Hv.
  revert h s. change (edge_ok w w').
  assert (forall s x, tx_is s x = true -> x = s) as Htx by (intros ? ? ?%bool_decide_eq_true_1; done).
  destruct Hst.
  - intros h s Hs. assert (rec_state w' h = Some s) as ->; [|eauto].
    unfold danos_tx_begin in H. destruct tx; [|by simplify_eq].
    pose proof (tx_init_inv' k mm w Hi) as Hi1.
    assert (tw_records (danos_tx_manager_init mm w).2 = tw_records w) as Hrec
      by (unfold danos_tx_manager_init; by repeat case_match).
    destruct (danos_tx_manager_init mm w) as [z w1]. simpl in *.
    destruct (g_tx_mgr w1) as [m|] eqn:Em; [|simplify_eq; unfold rec_state in *; by rewrite Hrec].
    destruct (ti_mgr k w1 Hi1 m Em) as (Hfl & _ & _).
    unfold danos_tx_record_alloc in H. rewrite Hfl in H. unfold rec_state in *.
    destruct mr; simplify_eq/=; [|by rewrite Hrec].
    rewrite insert_insert_eq, lookup_insert_ne; [by rewrite Hrec|].
    intros <-. destruct (tw_records w !! tw_next w1) eqn:E; [|done].
    pose proof (ti_fresh k w1 Hi1 (tw_next w1)) as Hf. rewrite Hrec, E in Hf.
    specialize (Hf ltac:(done)). lia.
  - eapply tx_move_edges; [|done|exact H]. by intros s ->%Htx.
  - eapply tx_move_edges; [|done|exact H]. by intros s ->%Htx.
  - unfold danos_tx_commit in H. destruct (tx_move _ _ tx w) as [[st0 tx0] w0] eqn:E. simplify_eq.
    eapply tx_move_edges; [|done|exact E]. by intros s ->%Htx; destruct locked.
  - eapply tx_end_edges; [|done|exact H]. by intros s ->%Htx.
  - eapply tx_end_edges; [|done|exact H]. by intros [].
  - eapply tx_end_edges; [|done|exact H].
    by intros s [->%Htx | ->%Htx]%orb_true_iff.
Qed.

Definition demo_tx_world : tx_world :=
  (danos_tx_begin true true 0 (Some tx_zero) None None tx_world_start).2.

Lemma demo_tx_reach : tx_reach 0 demo_tx_world.
Proof.
  apply (Reach_step 0 tx_world_start 0); [constructor|].
  eapply (St_begin true true 0 (Some tx_zero) None None). reflexivity.
Qed.

Definition demo_tx : danos_tx := mk_tx 0 DANOS_TX_OPEN 0 0 EmptyString (Some 1).

Lemma tx_follows_state_machine_witness :
  exists s', rec_state (danos_tx_prepare (Some demo_tx) demo_tx_world).2 1 = Some s' /\
    (s' = DANOS_TX_OPEN \/ tx_edge DANOS_TX_OPEN s' = true).
Proof.
  apply (tx_follows_state_machine 0 demo_tx_world 0 _ 1 DANOS_TX_OPEN);
    [apply demo_tx_reach| |reflexivity].
  eapply (St_prepare (Some demo_tx)). reflexivity.
Defined.

(** Transaction bookkeeping: in every reachable world the manager's
    active count is the number of transactions that are not finished plus the
    number of commits that timed out on the write lock, because the time-out
    path aborts the transaction without giving its slot back; and as long as
    the 64-bit counter has not wrapped, transaction ids are distinct. *)
Theorem tx_active_count_exact k w m :
  tx_reach k w -> g_tx_mgr w = Some m ->
  tm_active_count m = u64 (n_active w + k) /\
  (tw_next w <= 2 ^ 64 -> forall h h' r r',
     tw_records w !! h = Some r -> tw_records w !! h' = Some r' ->
     tx_id (rec_pub r) = tx_id (rec_pub r') -> h = h').
Proof.
  intros Hr Hm. pose proof (tx_reach_inv k w Hr) as Hi.
  split; [by apply (ti_mgr k w Hi m Hm)|].
  intros Hw h h' r r' H1 H2 Hid.
  destruct (ti_ids k w Hi h r H1) as [E1 _]. destruct (ti_ids k w Hi h' r' H2) as [E2 _].
  assert (0 < h < tw_next w) by (apply (ti_fresh k w Hi); by rewrite H1).
  assert (0 < h' < tw_next w) by (apply (ti_fresh k w Hi); by rewrite H2).
  rewrite E1, E2, !u64_small in Hid by (unfold is_u64; lia). done.
Qed.

(** A transaction taken to commit whose write lock times out. *)
Definition demo_timeout : danos_status * option danos_tx * tx_world :=
  danos_tx_commit_atomic false (Some demo_tx) demo_tx_world.

Lemma tx_active_count_exact_witness :
  tm_active_count (mk_tx_manager [] 2 1) = u64 (n_active demo_timeout.2 + 1) /\
  (tw_next demo_timeout.2 <= 2 ^ 64 -> forall h h' r r',
     tw_records demo_timeout.2 !! h = Some r -> tw_records demo_timeout.2 !! h' = Some r' ->
     tx_id (rec_pub r) = tx_id (rec_pub r') -> h = h').
Proof.
  apply (tx_active_count_exact 1 demo_timeout.2 (mk_tx_manager [] 2 1)); [|reflexivity].
  apply (Reach_step 0 (danos_tx_validate (Some demo_tx)
                         (danos_tx_prepare (Some demo_tx) demo_tx_world).2).2 1).
  - apply (Reach_step 0 (danos_tx_prepare (Some demo_tx) demo_tx_world).2 0).
    + apply (Reach_step 0 demo_tx_world 0); [apply demo_tx_reach|].
      eapply (St_prepare (Some demo_tx)). reflexivity.
    + eapply (St_validate (Some demo_tx)). reflexivity.
  - eapply (St_commit false (Some demo_tx) _ DANOS_ERR_TX_TIMEOUT). reflexivity.
Defined.

(** One-call commit: on a transaction just begun, [danos_tx_commit_atomic]
    takes it to done, in the record and in the caller's handle, and gives its
    slot in the active count back; if the write lock is not obtained it
    reports the time-out, leaves the transaction aborted and keeps the slot.
    On a transaction that is past open it changes nothing. *)
Theorem tx_commit_atomic_result w h m t locked :
  g_tx_mgr w = Some m -> tx_internal t = Some h ->
  forall s, rec_state w h = Some s ->
  let '(st, t', w') := danos_tx_commit_atomic locked (Some t) w in
  if decide (s = DANOS_TX_OPEN) then
    if locked
    then st = DANOS_OK /\ rec_state w' h = Some DANOS_TX_DONE /\
         tx_state <$> t' = Some DANOS_TX_DONE /\
         tm_active_count <$> g_tx_mgr w' = Some (u64 (tm_active_count m - 1))
    else st = DANOS_ERR_TX_TIMEOUT /\ rec_state w' h = Some DANOS_TX_ABORT /\
         tx_state <$> t' = Some DANOS_TX_ABORT /\
         tm_active_count <$> g_tx_mgr w' = Some (tm_active_count m)
  else st = DANOS_ERR_TX_INVALID /\ w' = w /\ t' = Some t.
Proof.
  intros Hm Ht s Hs. unfold rec_state in Hs.
  destruct (tw_records w !! h) as [r|] eqn:Hr; [|done]. simpl in Hs. simplify_eq.
  unfold danos_tx_commit_atomic, danos_tx_prepare, danos_tx_validate, danos_tx_commit,
    danos_tx_verify, tx_end, tx_move, danos_tx_validate_ptr, tx_is. simpl.
  rewrite Ht, Hr. case_decide as Hs.
  - rewrite (bool_decide_eq_true_2 _ Hs). simpl. rewrite Ht, lookup_insert_eq. simpl.
    rewrite Ht, !lookup_insert_eq. simpl. destruct locked; simpl.
    + rewrite Ht, !lookup_insert_eq. simpl. unfold tx_active_sub. simpl. rewrite Hm. simpl.
      unfold rec_state. simpl. by rewrite lookup_insert_eq.
    + unfold rec_state. simpl. rewrite lookup_insert_eq, Hm. done.
  - rewrite bool_decide_eq_false_2 by done. done.
Qed.

Lemma tx_commit_atomic_result_witness :
  let '(st, t', w') := danos_tx_commit_atomic true (Some demo_tx) demo_tx_world in
  st = DANOS_OK /\ rec_state w' 1 = Some DANOS_TX_DONE /\
  tx_state <$> t' = Some DANOS_TX_DONE /\
  tm_active_count <$> g_tx_mgr w' = Some (u64 (1 - 1)).
Proof.
  apply (tx_commit_atomic_result demo_tx_world 1 (mk_tx_manager [] 2 1) demo_tx true
           eq_refl eq_refl DANOS_TX_OPEN eq_refl).
Defined.
