(* ===== verification/Antiflap.v ===== *)
(** * Repair damping: danos-core antiflap.h / antiflap.c

    Per-object repair history and the decision whether a repair may run.  The
    calls take the clock's value; each runs under the context's mutex. *)

From stdpp Require Import base decidable list numbers.
From Stdlib Require Import ZArith Lia.
From S2P Require Import Prelude.

Record antiflap_config := mk_config {
  af_window_ms : Z;
  af_max_count : Z;
}.

Record antiflap_entry := mk_af_entry {
  afe_obj_key : Z;
  afe_timestamps : list Z;     (* uint64_t timestamps[8], never written *)
  afe_count : Z;
  afe_window_start : Z;
  afe_flapping : bool;
  afe_total_repairs : Z;
  afe_suppressed : Z;
}.

Record antiflap_ctx := mk_af_ctx {
  af_config : antiflap_config;
  af_entries : list antiflap_entry;   (* entries[0 .. entry_count) *)
  af_total_suppressed : Z;
}.

Definition ANTIFLAP_DEFAULT : antiflap_config := mk_config 5000 3.
Definition ANTIFLAP_SLOTS : nat := 256.

Definition antiflap_init (config : option antiflap_config) : Z * antiflap_ctx :=
  let c := default ANTIFLAP_DEFAULT config in
  let w := if af_window_ms c =? 0 then 5000 else af_window_ms c in
  let m := if af_max_count c =? 0 then 3 else af_max_count c in
  (0, mk_af_ctx (mk_config w m) [] 0).

(** Index of the first entry of the object. *)
Fixpoint af_index (key : Z) (l : list antiflap_entry) : option nat :=
  match l with
  | [] => None
  | e :: l => if afe_obj_key e =? key then Some 0%nat else S <$> af_index key l
  end.

Definition af_find (ctx : antiflap_ctx) (key : Z) : option antiflap_entry :=
  i ← af_index key (af_entries ctx); af_entries ctx !! i.

Definition create_entry (ctx : antiflap_ctx) (key : Z) : option antiflap_ctx :=
  if (ANTIFLAP_SLOTS <=? length (af_entries ctx))%nat then None
  else Some (mk_af_ctx (af_config ctx)
               (af_entries ctx ++ [mk_af_entry key (replicate 8 0) 0 0 false 0 0])
               (af_total_suppressed ctx)).

(** The decision on the object's entry: the new entry, whether the repair is
    allowed, and whether it was counted as suppressed. *)
Definition af_decide (cfg : antiflap_config) (now : Z) (e : antiflap_entry)
    : bool * antiflap_entry :=
  let window_ns := u64 (af_window_ms cfg * 1000000) in
  if afe_flapping e then
    (false, mk_af_entry (afe_obj_key e) (afe_timestamps e) (afe_count e) (afe_window_start e)
              true (afe_total_repairs e) (u32 (afe_suppressed e + 1)))
  else
    let '(start, count) :=
      if (afe_count e =? 0) || (window_ns <? u64 (now - afe_window_start e))
      then (now, 1) else (afe_window_start e, u32 (afe_count e + 1)) in
    let total := u32 (afe_total_repairs e + 1) in
    if af_max_count cfg <? count
    then (false, mk_af_entry (afe_obj_key e) (afe_timestamps e) count start true total
                   (u32 (afe_suppressed e + 1)))
    else (true, mk_af_entry (afe_obj_key e) (afe_timestamps e) count start false total
                  (afe_suppressed e)).

Definition antiflap_check_and_record (now key : Z) (ctx : option antiflap_ctx)
    : bool * option antiflap_ctx :=
  match ctx with
  | None => (true, None)
  | Some ctx =>
      let found :=
        match af_index key (af_entries ctx) with
        | Some i => Some (i, ctx)
        | None => (fun c => (length (af_entries ctx), c)) <$> create_entry ctx key
        end in
      match found with
      | None => (true, Some ctx)
      | Some (i, ctx) =>
          match af_entries ctx !! i with
          | None => (true, Some ctx)
          | Some e =>
              let '(ok, e) := af_decide (af_config ctx) now e in
              (ok, Some (mk_af_ctx (af_config ctx) (<[i := e]> (af_entries ctx))
                           (if ok then af_total_suppressed ctx
                            else u64 (af_total_suppressed ctx + 1))))
          end
      end
  end.

Definition antiflap_is_flapping (ctx : option antiflap_ctx) (key : Z) : bool :=
  match ctx with
  | None => false
  | Some ctx => match af_find ctx key with Some e => afe_flapping e | None => false end
  end.

Definition antiflap_clear (ctx : option antiflap_ctx) (key : Z) : Z * option antiflap_ctx :=
  match ctx with
  | None => (-1, None)
  | Some ctx =>
      (0, Some (match af_index key (af_entries ctx) with
                | None => ctx
                | Some i =>
                    mk_af_ctx (af_config ctx)
                      (alter (fun e => mk_af_entry (afe_obj_key e) (afe_timestamps e) 0 0 false
                                         (afe_total_repairs e) (afe_suppressed e)) i
                         (af_entries ctx)) (af_total_suppressed ctx)
                end))
  end.

Record antiflap_stats := mk_af_stats {
  tracked_objects : Z; flapping_objects : Z; total_suppressed : Z;
}.

Definition antiflap_get_stats (ctx : antiflap_ctx) : antiflap_stats :=
  mk_af_stats (Z.of_nat (length (af_entries ctx)))
    (Z.of_nat (length (filter (fun e => afe_flapping e = true) (af_entries ctx))))
    (af_total_suppressed ctx).

(** ** Histories *)

(** The answers to checks of one object at the times [ts]. *)
Fixpoint af_run (key : Z) (ts : list Z) (ctx : option antiflap_ctx)
    : list bool * option antiflap_ctx :=
  match ts with
  | [] => ([], ctx)
  | t :: ts =>
      let '(ok, ctx) := antiflap_check_and_record t key ctx in
      let '(oks, ctx) := af_run key ts ctx in (ok :: oks, ctx)
  end.

Fixpoint af_decides (cfg : antiflap_config) (ts : list Z) (e : antiflap_entry)
    : list bool * antiflap_entry :=
  match ts with
  | [] => ([], e)
  | t :: ts =>
      let '(ok, e) := af_decide cfg t e in
      let '(oks, e) := af_decides cfg ts e in (ok :: oks, e)
  end.

Lemma af_index_Some key l i :
  af_index key l = Some i -> exists e, l !! i = Some e /\ afe_obj_key e = key.
Proof.
  revert i. induction l as [|e l IH]; intros i; simpl; [done|].
  destruct (Z.eqb_spec (afe_obj_key e) key).
  - intros [= <-]. by exists e.
  - intros (j & Hj & ->)%fmap_Some. destruct (IH j Hj) as (e' & He' & Hk). by exists e'.
Qed.

Lemma af_index_insert key l i e e' :
  l !! i = Some e -> afe_obj_key e' = afe_obj_key e ->
  af_index key (<[i := e']> l) = af_index key l.
Proof.
  revert i. induction l as [|x l IH]; intros [|i] Hi He; simplify_eq/=.
  - by rewrite He.
  - case_match; [done|]. by rewrite (IH i).
Qed.

Lemma af_index_alter key f l i :
  (forall e, afe_obj_key (f e) = afe_obj_key e) -> af_index key (alter f i l) = af_index key l.
Proof.
  intros Hf. revert i. induction l as [|x l IH]; intros [|i]; simpl; [done|done| |].
  - by rewrite Hf.
  - case_match; [done|]. f_equal. apply IH.
Qed.

Lemma af_index_app key l e :
  af_index key l = None -> afe_obj_key e = key -> af_index key (l ++ [e]) = Some (length l).
Proof.
  intros Hn He. induction l as [|x l IH]; simpl in *.
  - by rewrite (proj2 (Z.eqb_eq _ _) He).
  - case_match; [done|]. apply fmap_None in Hn. by rewrite IH.
Qed.

Lemma af_decide_key cfg now e : afe_obj_key (af_decide cfg now e).2 = afe_obj_key e.
Proof. unfold af_decide. by repeat case_match; simplify_eq. Qed.

Lemma af_decides_key cfg ts e : afe_obj_key (af_decides cfg ts e).2 = afe_obj_key e.
Proof.
  revert e. induction ts as [|t ts IH]; intros e; [done|].
  cbn [af_decides]. pose proof (af_decide_key cfg t e) as Hk.
  destruct (af_decide cfg t e) as [ok e1]. specialize (IH e1).
  destruct (af_decides cfg ts e1). simpl in *. congruence.
Qed.

(** On a tracked object the checks are decisions on its entry. *)
Lemma af_run_tracked key ts ctx i e :
  af_index key (af_entries ctx) = Some i -> af_entries ctx !! i = Some e ->
  exists ctx', af_run key ts (Some ctx) = ((af_decides (af_config ctx) ts e).1, Some ctx') /\
    af_config ctx' = af_config ctx /\
    af_entries ctx' = <[i := (af_decides (af_config ctx) ts e).2]> (af_entries ctx).
Proof.
  revert ctx e. induction ts as [|t ts IH]; intros ctx e Hi He.
  - exists ctx. split_and!; [done|done|]. simpl. by rewrite list_insert_id.
  - cbn [af_run af_decides]. unfold antiflap_check_and_record. rewrite Hi, He.
    pose proof (af_decide_key (af_config ctx) t e) as Hk.
    destruct (af_decide (af_config ctx) t e) as [ok e1]. simpl in Hk.
    assert (i < length (af_entries ctx))%nat by (by eapply lookup_lt_Some).
    destruct (IH (mk_af_ctx (af_config ctx) (<[i := e1]> (af_entries ctx))
      (if ok then af_total_suppressed ctx else u64 (af_total_suppressed ctx + 1))) e1)
      as (ctx' & Hrun & Hc & Hent).
    + simpl. by erewrite af_index_insert.
    + simpl. by rewrite list_lookup_insert_eq.
    + exists ctx'. simpl in *. rewrite Hrun.
      destruct (af_decides (af_config ctx) ts e1) as [oks e2]. simpl in *.
      split_and!; [done|done|]. rewrite Hent. by rewrite list_insert_insert_eq.
Qed.

Lemma af_decides_flapping cfg ts e :
  afe_flapping e = true -> (af_decides cfg ts e).1 = replicate (length ts) false /\
    afe_flapping (af_decides cfg ts e).2 = true.
Proof.
  revert e. induction ts as [|t ts IH]; intros e He; [done|]. simpl.
  unfold af_decide. rewrite He.
  match goal with |- context [af_decides cfg ts ?x] =>
    destruct (IH x eq_refl) as [H1 H2]; destruct (af_decides cfg ts x) end.
  simpl in *. by rewrite H1.
Qed.

(** Within one window the entry counts up to the limit, then flaps. *)
Lemma af_decides_window cfg ts e :
  0 < af_max_count cfg < 2 ^ 32 - 1 -> afe_flapping e = false ->
  0 < afe_count e <= af_max_count cfg ->
  Forall (fun t => u64 (t - afe_window_start e) <= u64 (af_window_ms cfg * 1000000)) ts ->
  let left := Z.to_nat (af_max_count cfg - afe_count e) in
  af_decides cfg ts e =
    (replicate (Nat.min (length ts) left) true ++ replicate (length ts - left) false,
     (af_decides cfg ts e).2) /\
  afe_flapping (af_decides cfg ts e).2 = bool_decide (left < length ts)%nat.
Proof.
  intros Hmax. revert e. induction ts as [|t ts IH]; intros e Hf Hc Hw left.
  { split; [done|]. cbn [af_decides snd]. rewrite Hf. symmetry. apply bool_decide_eq_false_2.
    simpl. lia. }
  inversion_clear Hw as [|? ? Ht Hts]. cbn [af_decides]. unfold af_decide. rewrite Hf.
  rewrite (proj2 (Z.eqb_neq (afe_count e) 0)) by lia. simpl.
  rewrite (proj2 (Z.ltb_ge _ _)) by lia.
  rewrite (u32_small (afe_count e + 1)) by (unfold is_u32; lia).
  destruct (Z.ltb_spec (af_max_count cfg) (afe_count e + 1)) as [Hgt|Hle].
  - match goal with |- context [af_decides cfg ts ?x] =>
      destruct (af_decides_flapping cfg ts x eq_refl) as [H1 H2];
      destruct (af_decides cfg ts x) end.
    simpl in *. assert (left = 0)%nat as -> by lia.
    rewrite H1, bool_decide_eq_true_2 by lia. done.
  - match goal with |- context [af_decides cfg ts ?x] =>
      destruct (IH x eq_refl ltac:(simpl; lia) Hts) as [H1 H2]; destruct (af_decides cfg ts x) end.
    simpl in *.
    assert (left = S (Z.to_nat (af_max_count cfg - (afe_count e + 1)))) as -> by lia.
    simplify_eq/=. rewrite H2. split; [done|]. apply bool_decide_ext. lia.
Qed.

(** ** Properties *)

Lemma af_decides_fresh cfg t ts e :
  0 < af_max_count cfg < 2 ^ 32 - 1 -> afe_flapping e = false -> afe_count e = 0 ->
  Forall (fun t' => u64 (t' - t) <= u64 (af_window_ms cfg * 1000000)) ts ->
  let n := length (t :: ts) in
  let limit := Z.to_nat (af_max_count cfg) in
  af_decides cfg (t :: ts) e =
    (replicate (Nat.min n limit) true ++ replicate (n - limit) false,
     (af_decides cfg (t :: ts) e).2) /\
  afe_flapping (af_decides cfg (t :: ts) e).2 = bool_decide (limit < n)%nat.
Proof.
  intros Hmax Hf Hc Hw n limit. cbn [af_decides]. unfold af_decide. rewrite Hf, Hc. simpl.
  rewrite (proj2 (Z.ltb_ge _ _)) by lia.
  match goal with |- context [af_decides cfg ts ?x] =>
    destruct (af_decides_window cfg ts x Hmax eq_refl ltac:(simpl; lia) Hw) as [H1 H2];
    destruct (af_decides cfg ts x) end.
  simpl in *. assert (limit = S (Z.to_nat (af_max_count cfg - 1))) as -> by lia.
  simplify_eq/=. rewrite H2. split; [done|]. apply bool_decide_ext. lia.
Qed.

(** Damping within a window: the checks of an object not seen before, all
    within one window of the first, are allowed up to the configured maximum
    and refused from then on; the object is marked flapping exactly when one
    was refused. *)
Theorem antiflap_window_limit cfg key t ts ctx :
  ctx = (antiflap_init cfg).2 -> 0 < af_max_count (af_config ctx) < 2 ^ 32 - 1 ->
  Forall (fun t' => u64 (t' - t) <= u64 (af_window_ms (af_config ctx) * 1000000)) ts ->
  let n := length (t :: ts) in
  let limit := Z.to_nat (af_max_count (af_config ctx)) in
  let '(oks, ctx') := af_run key (t :: ts) (Some ctx) in
  oks = replicate (Nat.min n limit) true ++ replicate (n - limit) false /\
  antiflap_is_flapping ctx' key = bool_decide (limit < n)%nat.
Proof.
  intros -> Hmax Hw. cbn [antiflap_init snd af_config] in *.
  set (cfg' := mk_config _ _) in *. set (e0 := mk_af_entry key (replicate 8 0) 0 0 false 0 0).
  assert (af_run key (t :: ts) (Some (mk_af_ctx cfg' [] 0)) =
          af_run key (t :: ts) (Some (mk_af_ctx cfg' [e0] 0))) as ->.
  { cbn [af_run]. unfold antiflap_check_and_record. simpl. by rewrite Z.eqb_refl. }
  destruct (af_run_tracked key (t :: ts) (mk_af_ctx cfg' [e0] 0) 0 e0) as (ctx' & -> & _ & He');
    [simpl; by rewrite Z.eqb_refl|done|]. cbn [af_config af_entries] in *.
  destruct (af_decides_fresh cfg' t ts e0 Hmax eq_refl eq_refl Hw) as [H1 H2].
  rewrite H1. simpl fst. split; [done|]. rewrite <- H2.
  unfold antiflap_is_flapping, af_find. rewrite He'.
  erewrite af_index_insert; [|done|].
  - simpl. by rewrite Z.eqb_refl.
  - by rewrite af_decides_key.
Qed.

Lemma antiflap_window_limit_witness :
  let '(oks, ctx') := af_run 9 [1000; 1001; 1002; 1003; 1004] (Some (antiflap_init None).2) in
  oks = [true; true; true; false; false] /\ antiflap_is_flapping ctx' 9 = true.
Proof.
  apply (antiflap_window_limit None 9 1000 [1001; 1002; 1003; 1004] (antiflap_init None).2);
    [reflexivity|simpl; lia|repeat constructor; vm_compute; discriminate].
Defined.

(** Once an object is flapping every check of it is refused, however much
    time passes, until [antiflap_clear], after which the next check is
    allowed. *)
Theorem antiflap_sticky_until_cleared ctx key ts t :
  0 < af_max_count (af_config ctx) -> antiflap_is_flapping (Some ctx) key = true ->
  let '(oks, ctx1) := af_run key ts (Some ctx) in
  oks = replicate (length ts) false /\ antiflap_is_flapping ctx1 key = true /\
  (antiflap_check_and_record t key (antiflap_clear ctx1 key).2).1 = true.
Proof.
  intros Hmax Hf. unfold antiflap_is_flapping, af_find in Hf.
  destruct (af_index key (af_entries ctx)) as [i|] eqn:Hi; [|done]. simpl in Hf.
  destruct (af_entries ctx !! i) as [e|] eqn:He; [|done].
  destruct (af_run_tracked key ts ctx i e Hi He) as (ctx1 & -> & Hc & Hent).
  destruct (af_decides_flapping (af_config ctx) ts e Hf) as [H1 H2].
  destruct (af_decides (af_config ctx) ts e) as [oks e1] eqn:Ed. simpl in *.
  assert (i < length (af_entries ctx))%nat by (by eapply lookup_lt_Some).
  assert (af_index key (af_entries ctx1) = Some i) as Hi1.
  { rewrite Hent. erewrite af_index_insert; [done|done|].
    pose proof (af_decides_key (af_config ctx) ts e) as Hk. by rewrite Ed in Hk. }
  assert (af_entries ctx1 !! i = Some e1) as He1 by (by rewrite Hent, list_lookup_insert_eq).
  unfold antiflap_is_flapping, af_find. rewrite Hi1. simpl. rewrite He1. split_and!; [done|done|].
  rewrite af_index_alter by done. rewrite Hi1. cbn [af_entries].
  rewrite list_lookup_alter_eq, He1. simpl. unfold af_decide. simpl.
  rewrite Hc, (proj2 (Z.ltb_ge _ _)) by lia. done.
Qed.

Definition demo_af_ctx : antiflap_ctx :=
  mk_af_ctx (mk_config 5000 3) [mk_af_entry 9 [] 4 1000 true 4 1] 1.

Lemma antiflap_sticky_until_cleared_witness :
  let '(oks, ctx1) := af_run 9 [2000; 10 ^ 18] (Some demo_af_ctx) in
  oks = [false; false] /\ antiflap_is_flapping ctx1 9 = true /\
  (antiflap_check_and_record (10 ^ 18) 9 (antiflap_clear ctx1 9).2).1 = true.
Proof.
  apply (antiflap_sticky_until_cleared demo_af_ctx 9 [2000; 10 ^ 18] (10 ^ 18));
    [simpl; lia|reflexivity].
Defined.
