(* ===== verification/StateStore.v ===== *)
(** * State store: danos-core state_store.h / state_store.c

    Three object stores, for desired, programmed and operational state, and
    the diff between the first two. *)

From stdpp Require Import base decidable list numbers gmap.
From Stdlib Require Import ZArith Lia.
From S2P Require Import Prelude Dpa ObjectStore Wal EventBus Registry Persist DpaObjects.

Inductive danos_state_kind : Type :=
  | DANOS_STATE_NONE | DANOS_STATE_CONFIG | DANOS_STATE_DESIRED
  | DANOS_STATE_PROGRAMMED | DANOS_STATE_OPER.

Record danos_state_store := mk_state_store {
  ss_desired : option Z;
  ss_programmed : option Z;
  ss_oper : option Z;
}.

Definition danos_state_store_destroy (ss : option danos_state_store) (c : core) : core :=
  match ss with
  | None => c
  | Some ss =>
      let c := danos_object_store_destroy (ss_desired ss) c in
      let c := danos_object_store_destroy (ss_programmed ss) c in
      danos_object_store_destroy (ss_oper ss) c
  end.

Definition danos_state_store_create (c : core) : option danos_state_store * core :=
  let '(ok, c) := core_alloc c in
  if negb ok then (None, c) else
  let '(d, c) := store_create 1024 c in
  let '(p, c) := store_create 1024 c in
  let '(o, c) := store_create 1024 c in
  let ss := mk_state_store d p o in
  match d, p, o with
  | Some _, Some _, Some _ => (Some ss, c)
  | _, _, _ => (None, danos_state_store_destroy (Some ss) c)
  end.

Definition pick_store (ss : danos_state_store) (kind : danos_state_kind) : option Z :=
  match kind with
  | DANOS_STATE_DESIRED => ss_desired ss
  | DANOS_STATE_PROGRAMMED => ss_programmed ss
  | DANOS_STATE_OPER => ss_oper ss
  | _ => None
  end.

Definition danos_state_set (ss : danos_state_store) (kind : danos_state_kind)
    (type : danos_obj_type) (id : Z) (data : option bytes) (c : core) : danos_status * core :=
  match pick_store ss kind with
  | None => (DANOS_ERR_INVALID_ARG, c)
  | Some s =>
      let '(st, c) := danos_object_create (Some s) type id data c in
      if bool_decide (st = DANOS_ERR_EXISTS)
      then danos_object_update (Some s) type id data c else (st, c)
  end.

Definition danos_state_get (ss : danos_state_store) (kind : danos_state_kind)
    (type : danos_obj_type) (id : Z) (out : option bytes) (out_size : option nat) (c : core)
    : danos_status * option bytes * option nat :=
  match pick_store ss kind with
  | None => (DANOS_ERR_INVALID_ARG, out, out_size)
  | Some s => danos_object_read (Some s) type id out out_size c
  end.

Definition danos_state_delete (ss : danos_state_store) (kind : danos_state_kind)
    (type : danos_obj_type) (id : Z) (c : core) : danos_status * core :=
  match pick_store ss kind with
  | None => (DANOS_ERR_INVALID_ARG, c)
  | Some s => danos_object_delete (Some s) type id c
  end.

(** Does the entry of the desired store differ from the programmed one? *)
Definition entry_differs (prog : option Z) (e : danos_object_entry) (c : core) : bool * core :=
  match danos_object_read prog (e_type e) (e_id e) None (Some 0%nat) c with
  | (DANOS_ERR_NOT_FOUND, _, _) => (true, c)
  | (DANOS_ERR_INVALID_ARG, _, Some psize) =>
      if (psize =? 0)%nat then (true, c) else
      let '(ok, c) := core_alloc c in
      if negb ok then (true, c) else
      match danos_object_read prog (e_type e) (e_id e) (Some (zeros psize)) (Some psize) c with
      | (DANOS_OK, Some pbuf, Some rsize) =>
          if (rsize =? e_size e)%nat
          then (negb (bool_decide (take (e_size e) pbuf = e_data e)), c)
          else (true, c)
      | _ => (true, c)
      end
  | _ => (true, c)
  end.

Section diff.
Context {U : Type} (cb : danos_obj_type -> Z -> U -> U).

Definition diff_step (prog : option Z) (acc : Z * U * core) (e : danos_object_entry)
    : Z * U * core :=
  let '(diffs, user, c) := acc in
  let '(differs, c) := entry_differs prog e c in
  if differs then (u64 (diffs + 1), cb (e_type e) (e_id e) user, c) else (diffs, user, c).

Definition danos_state_diff_desired_programmed (ss : danos_state_store) (user : U) (c : core)
    : Z * U * core :=
  match h ← ss_desired ss; c_stores c !! h with
  | None => (0, user, c)
  | Some s => foldl (diff_step (ss_programmed ss)) (0, user, c) (store_entries s)
  end.
End diff.

(** ** Lemmas *)

(** No stored object is empty. *)
Definition data_nonempty (c : core) (h : Z) : Prop :=
  map_Forall (fun _ d => d <> []) (objs c h).

Lemma run_op_nonempty c h op :
  core_wf c -> is_Some (c_stores c !! h) -> data_nonempty c h ->
  data_nonempty (run_op h op c).2 h.
Proof.
  intros Hwf [s Hs] Hne. unfold data_nonempty in *.
  destruct (run_op_refines c Hwf h s Hs op) as [(st & m & Hspec & _ & Hmu)|(_ & _ & Hmu)];
    destruct Hmu as [_ Mo _ _ _ _]; rewrite Mo; clear Mo; [|done].
  destruct op as [t id [[|b d]|]|t id [[|b d]|]|t id]; simpl in Hspec;
    repeat case_decide; simplify_eq; try done.
  - by apply map_Forall_insert_2.
  - by apply map_Forall_insert_2.
  - by apply map_Forall_delete.
Qed.

Lemma entry_differs_spec c ph e :
  core_wf c -> is_Some (c_stores c !! ph) -> data_nonempty c ph -> os_env (c_os c) = [] ->
  entry_differs (Some ph) e c =
    (negb (bool_decide (objs c ph !! e_key e = Some (e_data e))), c).
Proof.
  intros Hwf Hp Hne Henv. unfold entry_differs, e_key. rewrite object_read_lookup by done.
  destruct (objs c ph !! (e_type e, e_id e)) as [d|] eqn:Hd; [|by rewrite bool_decide_eq_false_2].
  assert (d <> []) as Hdn by (by apply (Hne (e_type e, e_id e))).
  assert (0 < length d)%nat by (destruct d; [done|simpl; lia]).
  rewrite (proj2 (Nat.eqb_neq _ _)), core_alloc_granted by (done || lia). simpl.
  rewrite object_read_lookup, Hd, Nat.ltb_irrefl by done.
  assert (cwrite (zeros (length d)) 0 d = d) as ->.
  { unfold cwrite. rewrite take_0, Nat.add_0_l, drop_ge by (by rewrite length_zeros).
    by rewrite app_nil_r. }
  destruct (Nat.eqb_spec (length d) (e_size e)) as [Hlen|Hlen].
  - rewrite <- Hlen, firstn_all. f_equal. f_equal. apply bool_decide_ext.
    split; [by intros ->|by intros [= ->]].
  - rewrite bool_decide_eq_false_2; [done|]. intros [= ->]. by apply Hlen.
Qed.

(** The desired objects that are not programmed as they are. *)
Definition pending (desired programmed : gmap obj_key bytes) : gmap obj_key bytes :=
  filter (fun kd => programmed !! kd.1 <> Some kd.2) desired.

Definition entry_pending (programmed : gmap obj_key bytes) (e : danos_object_entry) : bool :=
  negb (bool_decide (programmed !! e_key e = Some (e_data e))).

Definition collect_key (t : danos_obj_type) (id : Z) (acc : list obj_key) : list obj_key :=
  acc ++ [(t, id)].

Lemma diff_fold c ph es n acc :
  core_wf c -> is_Some (c_stores c !! ph) -> data_nonempty c ph -> os_env (c_os c) = [] ->
  let l := e_key <$> filter (fun e => entry_pending (objs c ph) e = true) es in
  foldl (diff_step collect_key (Some ph)) (u64 n, acc, c) es =
    (u64 (n + Z.of_nat (length l)), acc ++ l, c).
Proof.
  intros Hwf Hp Hne Henv. revert n acc. induction es as [|e es IH]; intros n acc.
  - simpl. by rewrite Z.add_0_r, app_nil_r.
  - cbn [foldl]. unfold diff_step at 2. rewrite entry_differs_spec by done.
    fold (entry_pending (objs c ph) e). cbv zeta. rewrite filter_cons. case_decide as Hd.
    + rewrite Hd, u64_add_l, IH. unfold collect_key. rewrite fmap_cons, <- app_assoc. simpl length.
      by replace (n + 1 + Z.of_nat (length (e_key <$> _)))
        with (n + Z.of_nat (S (length (e_key <$> filter (fun e => entry_pending (objs c ph) e = true)
                                         es)))) by lia.
    + apply not_true_is_false in Hd. rewrite Hd. apply IH.
Qed.

(** ** Properties *)

(** C26. The diff of a state store is exact: it counts, and calls back once
    for, precisely the desired objects whose programmed copy is missing or
    differs in size or contents, and changes nothing. *)
Theorem state_diff_exact ss dh ph c :
  core_wf c -> ss_desired ss = Some dh -> ss_programmed ss = Some ph ->
  is_Some (c_stores c !! dh) -> is_Some (c_stores c !! ph) -> data_nonempty c ph ->
  os_env (c_os c) = [] ->
  exists keys, danos_state_diff_desired_programmed collect_key ss [] c =
      (u64 (Z.of_nat (size (pending (objs c dh) (objs c ph)))), keys, c) /\
    keys ≡ₚ (map_to_list (pending (objs c dh) (objs c ph))).*1.
Proof.
  intros Hwf Hd Hp [s Hs] Hpl Hne Henv.
  unfold danos_state_diff_desired_programmed. rewrite Hd. simpl. rewrite Hs, Hp.
  change 0 with (u64 0). rewrite (diff_fold c ph) by done. simpl.
  assert (e_key <$> filter (fun e => entry_pending (objs c ph) e = true) (store_entries s)
          ≡ₚ (map_to_list (pending (objs c dh) (objs c ph))).*1) as Hperm.
  { rewrite (objs_live c dh s Hs). unfold pending, store_map.
    rewrite <- kvs_fst. apply fmap_Permutation. symmetry.
    assert (NoDup ((fun e => (e_key e, e_data e)) <$> store_entries s).*1) as Hnd
      by (rewrite kvs_fst; apply (wf_nodup s), (cw_stores c Hwf dh s Hs)).
    rewrite map_filter_alt, map_to_list_to_map.
    - rewrite map_to_list_to_map by done. apply reflexive_eq.
      clear. induction (store_entries s) as [|e es IH]; [done|].
      rewrite fmap_cons, !filter_cons.
      destruct (decide (entry_pending (objs c ph) e = true)) as [He|He];
        unfold entry_pending in He; rewrite negb_true_iff, bool_decide_eq_false in He.
      + rewrite decide_True by done. by rewrite fmap_cons, IH.
      + rewrite decide_False by done. apply IH.
    - eapply sublist_NoDup; [|apply fmap_sublist, sublist_filter].
      apply NoDup_fst_map_to_list. }
  eexists. split; [|exact Hperm]. pose proof (Permutation_length Hperm) as Hlen.
  rewrite (length_fmap fst), length_map_to_list in Hlen. by rewrite Hlen.
Qed.

Definition demo_state_core : core :=
  mk_core (mk_os [] ∅) 0
    {[ 1 := store_push (danos_object_store_create 4) (mk_entry DANOS_OBJ_VRF 1 [5]);
       2 := danos_object_store_create 4 ]} 3 None None false
    (mk_persist wal_ctx_zero false false 0 0) (mk_events None []).

Lemma demo_state_wf : core_wf demo_state_core.
Proof.
  split; simpl; try done.
  - intros h s [[<- <-]|[_ [<- <-]%lookup_singleton_Some]]%lookup_insert_Some;
      [by apply store_push_wf; [apply store_create_wf|]|apply store_create_wf].
  - intros h [<-|[_ [s [<- _]%lookup_singleton_Some]]]%lookup_insert_is_Some; lia.
Qed.

Lemma state_diff_exact_witness :
  exists keys, danos_state_diff_desired_programmed collect_key
      (mk_state_store (Some 1) (Some 2) None) [] demo_state_core =
      (u64 (Z.of_nat (size (pending (objs demo_state_core 1) (objs demo_state_core 2)))),
       keys, demo_state_core) /\
    keys ≡ₚ (map_to_list (pending (objs demo_state_core 1) (objs demo_state_core 2))).*1.
Proof.
  apply (state_diff_exact (mk_state_store (Some 1) (Some 2) None) 1 2 demo_state_core);
    try reflexivity; [apply demo_state_wf|done|done|].
  apply map_Forall_empty.
Defined.

(** [danos_state_set] stores the value whether or not the object was
    there, and [danos_state_get] then returns it; a kind without a store is
    refused. *)
Theorem state_set_get ss kind h t id b d buf c :
  core_wf c -> pick_store ss kind = Some h -> is_Some (c_stores c !! h) ->
  os_env (c_os c) = [] -> length buf = length (b :: d) ->
  exists c', danos_state_set ss kind t id (Some (b :: d)) c = (DANOS_OK, c') /\
    objs c' h = <[(t, id) := b :: d]> (objs c h) /\
    danos_state_get ss kind t id (Some buf) (Some (length buf)) c' =
      (DANOS_OK, Some (b :: d), Some (length buf)).
Proof.
  intros Hwf Hk Hl Henv Hbuf.
  assert (exists c', danos_state_set ss kind t id (Some (b :: d)) c = (DANOS_OK, c') /\
    mutated h (<[(t, id) := b :: d]> (objs c h)) c c') as (c' & Hset & [Mw Mo Ml _ _ _]).
  { unfold danos_state_set. rewrite Hk.
    destruct (run_op_granted c h (OpCreate t id (Some (b :: d))) Hwf Hl Henv) as [Hst Hmu].
    pose proof (run_op_hook c h (OpCreate t id (Some (b :: d))) Hwf Hl Henv) as Hhook.
    simpl in *. destruct (danos_object_create (Some h) t id (Some (b :: d)) c) as [st c1].
    simpl in *. subst st.
    destruct (decide (is_Some (objs c h !! (t, id)))) as [Hin|Hin]; simpl in *.
    - subst c1.
      destruct (run_op_granted c h (OpUpdate t id (Some (b :: d))) Hwf Hl Henv) as [Hst2 Hmu2].
      simpl in *. rewrite decide_True in Hst2, Hmu2 by done.
      destruct (danos_object_update _ _ _ _ _) as [st c2]. simpl in *. subst st. by exists c2.
    - by exists c1. }
  exists c'. split_and!; [done|done|]. unfold danos_state_get. rewrite Hk.
  rewrite object_read_lookup, Mo, lookup_insert_eq by done.
  rewrite Hbuf, Nat.ltb_irrefl. unfold cwrite. rewrite take_0, Nat.add_0_l, drop_ge by lia.
  by rewrite app_nil_r.
Qed.

Lemma state_set_get_witness :
  exists c', danos_state_set (mk_state_store (Some 1) (Some 2) None) DANOS_STATE_DESIRED
      DANOS_OBJ_VRF 1 (Some [8; 9]) demo_state_core = (DANOS_OK, c') /\
    objs c' 1 = <[(DANOS_OBJ_VRF, 1) := [8; 9]]> (objs demo_state_core 1) /\
    danos_state_get (mk_state_store (Some 1) (Some 2) None) DANOS_STATE_DESIRED
      DANOS_OBJ_VRF 1 (Some [0; 0]) (Some 2%nat) c' = (DANOS_OK, Some [8; 9], Some 2%nat).
Proof.
  apply (state_set_get (mk_state_store (Some 1) (Some 2) None) DANOS_STATE_DESIRED 1
           DANOS_OBJ_VRF 1 8 [9] [0; 0] demo_state_core);
    [apply demo_state_wf|reflexivity|done|reflexivity|reflexivity].
Defined.
