(* ===== verification/Pipeline.v ===== *)
(** * Programming pipeline: danos-core backend_ops.h / backend_ops.c

    The pass that drives the backend towards the desired state, the ledger of
    what was programmed, the sweep of withdrawn objects.  The backend is a
    parameter: its operations are functions on an abstract backend state that
    answer a status.  Stack buffers that the code leaves uninitialised are
    zero here; what is read of them was written before. *)

From stdpp Require Import base decidable list numbers gmap.
From Stdlib Require Import ZArith Lia.
From S2P Require Import Prelude Dpa ObjectStore Wal EventBus Registry Persist DpaObjects.

(** ** Data *)

Record danos_resolved_route := mk_resolved {
  rr_route : danos_route;
  rr_has_gw : bool;
  rr_gw : bytes;               (* uint8_t gw[16] *)
  rr_oif : Z;
  rr_nh_count : Z;
  rr_nh_gw : list bytes;       (* uint8_t nh_gw[64][16] *)
  rr_nh_oif : list Z;          (* uint32_t nh_oif[64] *)
}.

Record danos_backend_ops (B : Type) := mk_ops {
  iface_up : option (Z -> bool -> B -> danos_status * B);
  iface_addr_set : option (danos_iface -> B -> danos_status * B);
  iface_addr_del : option (danos_iface -> B -> danos_status * B);
  route_add : option (danos_resolved_route -> B -> danos_status * B);
  route_del : option (danos_resolved_route -> B -> danos_status * B);
  vrf_add : option (danos_vrf -> B -> danos_status * B);
  vrf_del : option (Z -> B -> danos_status * B);
}.
#[global] Arguments iface_up {B} _. 
#[global] Arguments iface_addr_set {B} _.
#[global] Arguments iface_addr_del {B} _.
#[global] Arguments route_add {B} _.
#[global] Arguments route_del {B} _.
#[global] Arguments vrf_add {B} _.
#[global] Arguments vrf_del {B} _.

(** Counters of one pass, and the cumulative ones. *)
Record program_ctx := mk_pctx { pc_attempted : Z; pc_ok : Z; pc_failed : Z }.

Definition resolved_of (r : danos_route) : danos_resolved_route :=
  mk_resolved r false (zeros 16) 0 0 (replicate 64 (zeros 16)) (replicate 64 0).

(** ** Reading objects into local structures *)

(** The [n] bytes of a local variable after a successful read. *)
Definition read_mem (h : option Z) (type : danos_obj_type) (id : Z) (n : nat) (c : core)
    : option bytes :=
  match danos_object_read h type id (Some (zeros n)) (Some n) c with
  | (DANOS_OK, m, _) => m
  | _ => None
  end.

Definition ledger (c : core) : option Z * core :=
  match g_programmed c with
  | Some h => (Some h, c)
  | None => let '(h, c) := store_create 256 c in (h, set_programmed c h)
  end.

Definition danos_programming_dirty_take (c : core) : bool * core := (g_dirty c, set_dirty c false).

(** ** Dependency digest *)

Definition hash_bytes (data : bytes) : Z := foldl fnv_step FNV_BASIS data.

(** The members a group names: at most the 64 of the array. *)
Definition group_members (g : danos_nhgroup) : list Z :=
  take (Z.to_nat (Z.min (grp_nh_count g) 64)) (grp_nh_ids g).

Definition member_digest (c : core) (h id : Z) : Z :=
  match read_mem (g_default_store c) DANOS_OBJ_NEXTHOP id (sizeof danos_nexthop) c with
  | Some m => Z.lxor h (hash_bytes m)
  | None => Z.lxor h 0x535A4A
  end.

Definition dep_digest (type : danos_obj_type) (data : bytes) (c : core) : Z :=
  if negb (bool_decide (type = DANOS_OBJ_ROUTE)) || (length data <? sizeof danos_route)%nat
  then 0 else
  let r : danos_route := of_mem data in
  if rt_nhgroup_id r =? 0 then 0 else
  match read_mem (g_default_store c) DANOS_OBJ_NHGROUP (rt_nhgroup_id r)
          (sizeof danos_nhgroup) c with
  | None => 0xDEADBEEF
  | Some m => foldl (member_digest c) (hash_bytes m) (group_members (of_mem m))
  end.

(** ** Next-hop resolution *)

Definition gw_bytes (g : danos_ip_addr) : bytes :=
  let n := if ip_af g =? DANOS_AF_IPV6 then 16%nat else 4%nat in
  take n (ip_addr g) ++ zeros (16 - n).

(** The member loop: [None] when a member cannot be read. *)
Fixpoint resolve_members (c : core) (i : nat) (ids : list Z) (out : danos_resolved_route)
    : option danos_resolved_route :=
  match ids with
  | [] => Some out
  | id :: ids =>
      match read_mem (g_default_store c) DANOS_OBJ_NEXTHOP id (sizeof danos_nexthop) c with
      | None => None
      | Some m =>
          let nh : danos_nexthop := of_mem m in
          resolve_members c (S i) ids
            (mk_resolved (rr_route out) (rr_has_gw out) (rr_gw out) (rr_oif out)
               (rr_nh_count out) (<[i := gw_bytes (nh_gateway nh)]> (rr_nh_gw out))
               (<[i := nh_ifindex nh]> (rr_nh_oif out)))
      end
  end.

Definition resolve_route_nh (r : danos_route) (c : core)
    : danos_status * danos_resolved_route :=
  let out := resolved_of r in
  if negb (Z.land (rt_flags r) DANOS_ROUTE_FLAG_BLACKHOLE =? 0) then (DANOS_OK, out) else
  if rt_nhgroup_id r =? 0 then (DANOS_ERR_RETRY, out) else
  match read_mem (g_default_store c) DANOS_OBJ_NHGROUP (rt_nhgroup_id r)
          (sizeof danos_nhgroup) c with
  | None => (DANOS_ERR_RETRY, out)
  | Some m =>
      let grp : danos_nhgroup := of_mem m in
      if grp_nh_count grp =? 0 then (DANOS_ERR_RETRY, out) else
      match read_mem (g_default_store c) DANOS_OBJ_NEXTHOP (default 0 (grp_nh_ids grp !! 0%nat))
              (sizeof danos_nexthop) c with
      | None => (DANOS_ERR_RETRY, out)
      | Some m =>
          let nh : danos_nexthop := of_mem m in
          let af := ip_af (nh_gateway nh) in
          let gw := (af =? DANOS_AF_IPV4) || (af =? DANOS_AF_IPV6) in
          let out := mk_resolved r gw (if gw then gw_bytes (nh_gateway nh) else zeros 16)
                       (nh_ifindex nh) (Z.min (grp_nh_count grp) 64)
                       (rr_nh_gw out) (rr_nh_oif out) in
          match resolve_members c 0 (group_members grp) out with
          | Some out => (DANOS_OK, out)
          | None => (DANOS_ERR_RETRY, out)
          end
      end
  end.

(** types the pipeline cannot program *)
Definition type_skipped (t : danos_obj_type) : bool :=
  match t with
  | DANOS_OBJ_ACL | DANOS_OBJ_QOS | DANOS_OBJ_QOS_BIND | DANOS_OBJ_BFD
  | DANOS_OBJ_MPLS_LSP | DANOS_OBJ_TUNNEL | DANOS_OBJ_EVPN | DANOS_OBJ_MULTICAST
  | DANOS_OBJ_NEXTHOP | DANOS_OBJ_NHGROUP => true
  | _ => false
  end.

(** ** The pass over the desired state *)

Section pipeline.
Context {B : Type} (ops : danos_backend_ops B).

(** A call through an optional function pointer. *)
Definition call_op {A} (f : option (A -> B -> danos_status * B)) (x : A) (b : B)
    : danos_status * B :=
  match f with Some f => f x b | None => (DANOS_ERR_NOT_SUPPORTED, b) end.

Definition program_iface (i : danos_iface) (b : B) : danos_status * B :=
  let '(st, b) :=
    match iface_up ops with
    | Some f => f (iface_ifindex i) (iface_admin_up i) b
    | None => (DANOS_ERR_NOT_SUPPORTED, b)
    end in
  if negb (bool_decide (st = DANOS_OK)) then (st, b) else
  if negb (ip_af (pfx_addr (iface_ipv4_address i)) =? DANOS_AF_UNSPEC) ||
     negb (ip_af (pfx_addr (iface_ipv6_address i)) =? DANOS_AF_UNSPEC)
  then call_op (iface_addr_set ops) i b
  else (DANOS_OK, b).

Definition program_route (r : danos_route) (c : core) (b : B) : danos_status * B :=
  if (rt_nhgroup_id r =? 0) && (Z.land (rt_flags r) DANOS_ROUTE_FLAG_BLACKHOLE =? 0)
  then (DANOS_ERR_RETRY, b) else
  let '(st, rr) := resolve_route_nh r c in
  if negb (bool_decide (st = DANOS_OK)) then (st, b) else call_op (route_add ops) rr b.

Definition program_one (type : danos_obj_type) (data : bytes) (c : core) (b : B)
    : danos_status * B :=
  match type with
  | DANOS_OBJ_IFACE =>
      if (sizeof danos_iface <=? length data)%nat then program_iface (of_mem data) b
      else (DANOS_ERR_NOT_SUPPORTED, b)
  | DANOS_OBJ_ROUTE =>
      if (sizeof danos_route <=? length data)%nat then program_route (of_mem data) c b
      else (DANOS_ERR_NOT_SUPPORTED, b)
  | DANOS_OBJ_VRF =>
      if (sizeof danos_vrf <=? length data)%nat then call_op (vrf_add ops) (of_mem data) b
      else (DANOS_ERR_NOT_SUPPORTED, b)
  | _ => (DANOS_ERR_NOT_SUPPORTED, b)
  end.

(** The addresses of the interface last programmed are removed when they
    changed; [false] when the backend refused. *)
Definition drop_old_addr (e : danos_object_entry) (last : option (bytes * nat)) (b : B)
    : bool * B :=
  match last, iface_addr_del ops with
  | Some (m, lsz), Some del =>
      if bool_decide (e_type e = DANOS_OBJ_IFACE) && (lsz =? e_size e + 8)%nat &&
         (e_size e =? sizeof danos_iface)%nat &&
         (negb (bool_decide (cread m (8 + 96) 24 = cread (e_data e) 96 24)) ||
          negb (bool_decide (cread m (8 + 120) 24 = cread (e_data e) 120 24)))
      then let '(st, b) := del (of_mem (cread m 8 (sizeof danos_iface))) b in
           (bool_decide (st = DANOS_OK), b)
      else (true, b)
  | _, _ => (true, b)
  end.

Abbreviation pass := (program_ctx * core * B)%type.

(** A route that was programmed and has lost its path is withdrawn. *)
Definition withdraw_stale (e : danos_object_entry) (st : danos_status)
    (last : option (bytes * nat)) (s : pass) : pass :=
  let '(p, c, b) := s in
  match last, route_del ops with
  | Some (m, lsz), Some del =>
      if bool_decide (st = DANOS_ERR_RETRY) && bool_decide (e_type e = DANOS_OBJ_ROUTE) &&
         (8 + sizeof danos_route <=? lsz)%nat
      then
        let '(st, b) := del (resolved_of (of_mem (cread m 8 (sizeof danos_route)))) b in
        if bool_decide (st = DANOS_OK) then
          let '(l, c) := ledger c in
          let '(_, c) := danos_object_delete l (e_type e) (e_id e) c in
          (mk_pctx (pc_attempted p) (pc_ok p) (u64 (pc_failed p - 1)), c, b)
        else (p, c, b)
      else (p, c, b)
  | _, _ => (p, c, b)
  end.

(** An entry that is out of step with the ledger: program it and record it.
    [last] is what the ledger held, [same_size] whether that was a record of
    the entry's size. *)
Definition program_work (e : danos_object_entry) (dep : Z) (last : option (bytes * nat))
    (same_size : bool) (s : pass) : pass :=
  let '(p, c, b) := s in
  let p := mk_pctx (u64 (pc_attempted p + 1)) (pc_ok p) (pc_failed p) in
  let '(ok, b) := drop_old_addr e last b in
  if negb ok then (mk_pctx (pc_attempted p) (pc_ok p) (u64 (pc_failed p + 1)), c, b) else
  let '(st, b) := program_one (e_type e) (e_data e) c b in
  if negb (bool_decide (st = DANOS_OK)) then
    withdraw_stale e st last
      (mk_pctx (pc_attempted p) (pc_ok p) (u64 (pc_failed p + 1)), c, b)
  else
    let p := mk_pctx (pc_attempted p) (u64 (pc_ok p + 1)) (pc_failed p) in
    let rec := le_bytes 8 dep ++ e_data e in
    let '(l, c) := ledger c in
    let '(_, c) :=
      if same_size then danos_object_update l (e_type e) (e_id e) (Some rec) c
      else danos_object_create l (e_type e) (e_id e) (Some rec) c in
    (p, c, b).

Definition program_entry (s : pass) (e : danos_object_entry) : pass :=
  let '(p, c, b) := s in
  if type_skipped (e_type e) then (p, c, b) else
  let dep := dep_digest (e_type e) (e_data e) c in
  let '(l, c) := ledger c in
  let last :=
    match danos_object_read l (e_type e) (e_id e) (Some (zeros 512)) (Some 512%nat) c with
    | (DANOS_OK, Some m, Some lsz) => Some (m, lsz)
    | _ => None
    end in
  let same_size := match last with Some (_, lsz) => (lsz =? e_size e + 8)%nat | None => false end in
  let in_sync :=
    match last with
    | Some (m, _) => same_size && ((le_val (take 8 m) =? dep) &&
                     bool_decide (cread m 8 (e_size e) = e_data e))
    | None => false
    end in
  if in_sync then (p, c, b) else program_work e dep last same_size (p, c, b).

(** [danos_programming_run] with backend operations installed: the counters of
    the pass, the cumulative counters, and the new state. *)
Definition danos_programming_run (stats : program_ctx) (c : core) (b : B)
    : program_ctx * program_ctx * core * B :=
  match g_default_store c with
  | None => (mk_pctx 0 0 0, stats, c, b)
  | Some h =>
      let '(p, c, b) :=
        danos_object_iterate (c_stores c !! h) program_entry (mk_pctx 0 0 0, c, b) in
      (p, mk_pctx (u64 (pc_attempted stats + pc_attempted p)) (u64 (pc_ok stats + pc_ok p))
            (u64 (pc_failed stats + pc_failed p)), c, b)
  end.

Definition danos_programming_programmed_count (type : danos_obj_type) (c : core) : Z * core :=
  let '(l, c) := ledger c in (danos_object_count (h ← l; c_stores c !! h) type, c).

(** ** Sweep *)

Definition SWEEP_MAX : nat := 256.

(** [all] is the callback's non-null argument; the list is
    [g_sweep_ids[0 .. g_sweep_n)]. *)
Definition sweep_collect (all : bool) (s : list obj_key * core) (e : danos_object_entry)
    : list obj_key * core :=
  let '(ids, c) := s in
  if (SWEEP_MAX <=? length ids)%nat then (ids, c) else
  let '(l, c) := ledger c in
  match read_mem l (e_type e) (e_id e) 512 c with
  | None => (ids, c)
  | Some _ =>
      if negb all && bool_decide (is_Some (g_default_store c)) &&
         bool_decide (is_Some (read_mem (g_default_store c) (e_type e) (e_id e) 512 c))
      then (ids, c)
      else (ids ++ [(e_type e, e_id e)], c)
  end.

Abbreviation sweep_state := (Z * Z * core * B)%type.

(** One candidate of the sweep: issued and failed counters, state.  [on]: the
    backend operations are installed. *)
Definition sweep_one (on : bool) (s : sweep_state) (k : obj_key) : sweep_state :=
  let '(issued, failed, c, b) := s in
  let '(type, id) := k in
  let '(l, c) := ledger c in
  match danos_object_read l type id (Some (zeros 520)) (Some 520%nat) c with
  | (DANOS_OK, Some last, Some lsz) =>
      if (lsz <? 8 + sizeof danos_route)%nat then (issued, failed, c, b) else
      let drop (b : B) : sweep_state :=
        let b :=
          match type, iface_up ops with
          | DANOS_OBJ_IFACE, Some up =>
              if on && (8 + sizeof danos_iface <=? lsz)%nat
              then (up (iface_ifindex (of_mem (cread last 8 (sizeof danos_iface)))) false b).2
              else b
          | _, _ => b
          end in
        let '(l, c) := ledger c in
        let '(_, c) := danos_object_delete l type id c in
        (u64 (issued + 1), failed, c, b) in
      match type, route_del ops with
      | DANOS_OBJ_ROUTE, Some del =>
          if on then
            let '(st, b) := del (resolved_of (of_mem (cread last 8 (sizeof danos_route)))) b in
            if bool_decide (st = DANOS_OK) then drop b
            else (issued, u64 (failed + 1), c, b)
          else drop b
      | _, _ => drop b
      end
  | _ => (issued, failed, c, b)
  end.

Definition danos_programming_sweep (on : bool) (c : core) (b : B) : sweep_state :=
  match g_programmed c with
  | None => (0, 0, c, b)
  | Some h =>
      let '(ids, c) := danos_object_iterate (c_stores c !! h) (sweep_collect false) ([], c) in
      foldl (sweep_one on) (0, 0, c, b) ids
  end.

Definition forget_one (h : Z) (s : Z * core) (k : obj_key) : Z * core :=
  let '(st, c) := danos_object_delete (Some h) k.1 k.2 s.2 in
  (if bool_decide (st = DANOS_OK) then u64 (s.1 + 1) else s.1, c).

Definition danos_programming_forget_programmed (c : core) : Z * core :=
  match g_programmed c with
  | None => (0, c)
  | Some h =>
      let '(ids, c) := danos_object_iterate (c_stores c !! h) (sweep_collect true) ([], c) in
      foldl (forget_one h) (0, c) ids
  end.
End pipeline.

#[global] Arguments withdraw_stale : simpl never.
#[global] Arguments program_work : simpl never.
#[global] Arguments program_one : simpl never.
#[global] Arguments drop_old_addr : simpl never.

(** ** What the pipeline can see *)

Definition ledger_map (c : core) : gmap obj_key bytes :=
  match g_programmed c with Some l => objs c l | None => ∅ end.

(** The state the pass runs in: [h] is the desired store. *)
Record prog_env (h : Z) (c : core) : Prop := {
  pe_wf : core_wf c;
  pe_default : g_default_store c = Some h;
  pe_env : os_env (c_os c) = [];
}.

(** [c'] has the same desired state as [c]. *)
Record same_desired (h : Z) (c c' : core) : Prop := {
  sd_env : prog_env h c';
  sd_objs : objs c' h = objs c h;
}.

Lemma pe_live h c : prog_env h c -> is_Some (c_stores c !! h).
Proof. intros [Hwf Hd _]. by apply (cw_default c Hwf). Qed.

Lemma read_mem_eq h c c' t id n :
  prog_env h c -> same_desired h c c' -> read_mem (Some h) t id n c' = read_mem (Some h) t id n c.
Proof.
  intros Hp [Hp' Ho]. unfold read_mem.
  rewrite !object_read_lookup by eauto using pe_wf, pe_live.
  by rewrite Ho.
Qed.

(** Reads of a store give what the map holds, if it fits. *)
Lemma read_mem_lookup c h t id n :
  core_wf c -> is_Some (c_stores c !! h) ->
  read_mem (Some h) t id n c =
    (d ← objs c h !! (t, id); if (n <? length d)%nat then None else Some (cwrite (zeros n) 0 d)).
Proof.
  intros Hwf Hl. unfold read_mem. rewrite object_read_lookup by done.
  destruct (objs c h !! (t, id)) as [d|]; [|done].
  cbn [mbind option_bind]. by destruct (n <? length d)%nat.
Qed.

Lemma foldl_ext_fun {A C} (f g : A -> C -> A) l a :
  (forall a x, f a x = g a x) -> foldl f a l = foldl g a l.
Proof. intros H. revert a. induction l as [|x l IH]; intros a; simpl; [done|]. by rewrite H, IH. Qed.

Lemma dep_digest_eq h c c' t d :
  prog_env h c -> same_desired h c c' -> dep_digest t d c' = dep_digest t d c.
Proof.
  intros Hp Hs. pose proof Hs as [[_ Hd' _] _]. unfold dep_digest.
  rewrite Hd', (pe_default h c Hp), (read_mem_eq h c c') by done.
  repeat case_match; try done. apply foldl_ext_fun. intros a x. unfold member_digest.
  by rewrite Hd', (pe_default h c Hp), (read_mem_eq h c c').
Qed.

Lemma same_desired_refl h c : prog_env h c -> same_desired h c c.
Proof. by split. Qed.

Lemma same_desired_trans h c1 c2 c3 :
  same_desired h c1 c2 -> same_desired h c2 c3 -> same_desired h c1 c3.
Proof. intros [] []. split; [done|]. congruence. Qed.

(** The ledger is another store than the desired one. *)
Lemma ledger_spec h c :
  prog_env h c -> exists l c', ledger c = (Some l, c') /\ l <> h /\
    same_desired h c c' /\ g_programmed c' = Some l /\ is_Some (c_stores c' !! l) /\
    ledger_map c' = ledger_map c /\ (is_Some (g_programmed c) -> c' = c).
Proof.
  intros [Hwf Hd He]. unfold ledger. destruct (g_programmed c) as [l|] eqn:Ep.
  - exists l, c. pose proof (cw_programmed c Hwf l Ep).
    assert (l <> h) by (intros ->; by apply (cw_distinct c Hwf h)). by split_and!.
  - pose proof (store_create_spec 256 c Hwf) as Hs. rewrite store_create_granted in * by done.
    destruct Hs as (Hw & _ & _ & Hl & Hnd & _ & Hemp & Hoth). eexists _, _. split; [done|].
    assert (c_next_store c <> h) as Hne by congruence.
    split_and!; try done; cycle 1.
    { unfold ledger_map. rewrite Ep. exact Hemp. }
    split; [split|]; simpl; try done.
    + destruct Hw as [W1 W2 W3 W4 W5]. split; simpl in *; try done.
      * intros ? [= <-]. by rewrite lookup_insert_eq.
      * intros h' Hh' [= <-]. congruence.
    + unfold objs. simpl. by rewrite lookup_insert_ne.
Qed.

(** An operation on the ledger. *)
Lemma ledger_op h c l op :
  prog_env h c -> g_programmed c = Some l ->
  let c' := (run_op l op c).2 in
  same_desired h c c' /\ g_programmed c' = Some l /\
  (run_op l op c).1 = (spec_op op (ledger_map c)).1 /\
  ledger_map c' = (spec_op op (ledger_map c)).2.
Proof.
  intros [Hwf Hd He] Hp c'. pose proof (cw_programmed c Hwf l Hp) as Hl.
  assert (l <> h) as Hne by (intros ->; by apply (cw_distinct c Hwf h)).
  destruct (run_op_granted c l op Hwf Hl He) as [Hst [Mw Mo Ml Mot Md Mp]].
  pose proof (run_op_hook c l op Hwf Hl He) as Hh. cbv zeta in Hh. fold c' in Mw, Mo, Ml, Mot, Md, Mp, Hh.
  unfold ledger_map. rewrite Mp, Hp. split_and!; try done. split; [split|].
  - done.
  - congruence.
  - case_decide; [|by rewrite Hh]. destruct Hh as (m & -> & _).
    assert (op_hook l op (set_stores c m) = set_stores c m) as ->; [|done].
    destruct op; simpl; unfold danos_persist_on_mutation; simpl; rewrite Hd;
      (case_match; [done|]); rewrite bool_decide_eq_false_2 by congruence; done.
  - unfold objs. by rewrite Mot.
Qed.

(** ** One entry of the pass *)

Lemma lxor_is_u64 a b : is_u64 a -> is_u64 b -> is_u64 (Z.lxor a b).
Proof. apply lxor_u64. Qed.

Lemma hash_bytes_u64 d : is_u64 (hash_bytes d).
Proof. apply fnv_fold_u64. unfold is_u64, FNV_BASIS. lia. Qed.

Lemma dep_digest_u64 t d c : is_u64 (dep_digest t d c).
Proof.
  unfold dep_digest. repeat case_match; try (unfold is_u64; lia).
  assert (forall l h, is_u64 h -> is_u64 (foldl (member_digest c) h l)) as Hf.
  { intros ls. induction ls as [|x ls IH]; intros h Hh; [done|]. simpl. apply IH.
    unfold member_digest. case_match; (apply lxor_u64; [done|]);
      [apply hash_bytes_u64|unfold is_u64; lia]. }
  apply Hf, hash_bytes_u64.
Qed.

(** The record the ledger keeps of a programmed object. *)
Definition ledger_rec (c : core) (k : obj_key) (d : bytes) : bytes :=
  le_bytes 8 (dep_digest k.1 d c) ++ d.

(** Sizes the pass's buffers are made for, and one size per object. *)
Definition entry_fits (L : gmap obj_key bytes) (k : obj_key) (d : bytes) : Prop :=
  (length d <= 504)%nat /\ bytes_ok d /\
  forall r, L !! k = Some r -> length r = (length d + 8)%nat /\ bytes_ok r.

Lemma ledger_rec_length c k d : length (ledger_rec c k d) = (length d + 8)%nat.
Proof. unfold ledger_rec. rewrite length_app, length_le_bytes. lia. Qed.

Lemma ledger_rec_ok c k d : bytes_ok d -> bytes_ok (ledger_rec c k d).
Proof. intros Hd. apply Forall_app. split; [apply le_bytes_ok|done]. Qed.

Lemma cwrite_zeros n r :
  (length r <= n)%nat -> cwrite (zeros n) 0 r = r ++ drop (length r) (zeros n).
Proof. intros. unfold cwrite. by rewrite take_0. Qed.

(** The check of the pass decides exactly whether the ledger has the record. *)
Lemma in_sync_spec c k d r tl :
  bytes_ok r -> length r = (length d + 8)%nat ->
  (le_val (take 8 (r ++ tl)) =? dep_digest k.1 d c) &&
  bool_decide (cread (r ++ tl) 8 (length d) = d) = bool_decide (r = ledger_rec c k d).
Proof.
  intros Hok Hlen. rewrite take_app_le by lia.
  assert (cread (r ++ tl) 8 (length d) = drop 8 r) as ->.
  { rewrite cread_eq, drop_app_le by lia. apply take_app_length'.
    rewrite length_drop. lia. }
  apply eq_true_iff_eq. rewrite andb_true_iff, Z.eqb_eq, !bool_decide_eq_true. split.
  - intros [Hv Hd]. unfold ledger_rec. rewrite <- Hv.
    assert (length (take 8 r) = 8%nat) as H8 by (rewrite length_take; lia).
    pose proof (le_bytes_le_val (take 8 r) ltac:(by apply Forall_take)) as Hl.
    rewrite H8 in Hl. rewrite Hl, <- Hd. by rewrite take_drop.
  - intros ->. unfold ledger_rec.
    rewrite take_app_length', drop_app_length' by (by rewrite length_le_bytes).
    split; [|done]. apply le_val_le_bytes, dep_digest_u64.
Qed.

Section entries.
Context {B : Type} (ops : danos_backend_ops B).

(** The backend went from [b] to [b'] by accepting the entry, after removing
    old addresses where there were any. *)
Definition programs (e : danos_object_entry) (b b' : B) : Prop :=
  exists last b1 c1, drop_old_addr ops e last b = (true, b1) /\
    program_one ops (e_type e) (e_data e) c1 b1 = (DANOS_OK, b').

(** How a pass may leave an entry. *)
Inductive entry_result (h : Z) (e : danos_object_entry) (p : program_ctx) (c : core) (b : B)
    : program_ctx -> core -> B -> Prop :=
  | ER_skipped : type_skipped (e_type e) = true -> entry_result h e p c b p c b
  | ER_in_sync : type_skipped (e_type e) = false ->
      ledger_map c !! e_key e = Some (ledger_rec c (e_key e) (e_data e)) ->
      entry_result h e p c b p c b
  | ER_programmed c' b' : type_skipped (e_type e) = false ->
      ledger_map c' = <[e_key e := ledger_rec c (e_key e) (e_data e)]> (ledger_map c) ->
      programs e b b' ->
      entry_result h e p c b
        (mk_pctx (u64 (pc_attempted p + 1)) (u64 (pc_ok p + 1)) (pc_failed p)) c' b'
  | ER_failed n c' b' : type_skipped (e_type e) = false ->
      ledger_map c' = ledger_map c \/ ledger_map c' = delete (e_key e) (ledger_map c) ->
      entry_result h e p c b (mk_pctx (u64 (pc_attempted p + 1)) (pc_ok p) n) c' b'.

Lemma withdraw_result h e st last p c b p' c' b' :
  prog_env h c -> withdraw_stale ops e st last (p, c, b) = (p', c', b') ->
  same_desired h c c' /\ pc_attempted p' = pc_attempted p /\ pc_ok p' = pc_ok p /\
  (ledger_map c' = ledger_map c \/ ledger_map c' = delete (e_key e) (ledger_map c)).
Proof.
  intros Hp. unfold withdraw_stale. assert (same_desired h c c) by (by apply same_desired_refl).
  destruct last as [[m lsz]|]; [|intros [= <- <- <-]; auto].
  destruct (route_del ops) as [del|]; [|intros [= <- <- <-]; auto].
  destruct (_ && _); [|intros [= <- <- <-]; auto].
  destruct (del _ b) as [st' b1]. case_bool_decide; [|intros [= <- <- <-]; auto].
  destruct (ledger_spec h c Hp) as (l & c1 & -> & _ & Hsd & Hpr & _ & Hlm & _).
  destruct (ledger_op h c1 l (OpDelete (e_type e) (e_id e)) (sd_env _ _ _ Hsd) Hpr)
    as (Hsd2 & _ & _ & Hlm2). simpl in *.
  destruct (danos_object_delete (Some l) (e_type e) (e_id e) c1) as [st2 c2]. simpl in *.
  intros [= <- <- <-]. rewrite Hlm2, Hlm. clear Hlm2. split_and!; [|done|done|].
  - by eapply same_desired_trans.
  - case_decide; [by right|by left].
Qed.

(** Writing the record of a programmed entry. *)
Lemma ledger_write h c l e rec (upd : bool) :
  prog_env h c -> g_programmed c = Some l -> rec <> [] ->
  upd = bool_decide (is_Some (ledger_map c !! e_key e)) ->
  exists st c', (if upd then danos_object_update (Some l) (e_type e) (e_id e) (Some rec) c
    else danos_object_create (Some l) (e_type e) (e_id e) (Some rec) c) = (st, c') /\
    same_desired h c c' /\ ledger_map c' = <[e_key e := rec]> (ledger_map c).
Proof.
  intros Hp Hpr Hne ->. destruct rec as [|x r]; [done|]. unfold e_key.
  case_bool_decide as Hin.
  - destruct (ledger_op h c l (OpUpdate (e_type e) (e_id e) (Some (x :: r))) Hp Hpr)
      as (Hs & _ & _ & Hlm). simpl in *. rewrite decide_True in Hlm by done.
    destruct (danos_object_update _ _ _ _ _) as [st c']. by exists st, c'.
  - destruct (ledger_op h c l (OpCreate (e_type e) (e_id e) (Some (x :: r))) Hp Hpr)
      as (Hs & _ & _ & Hlm). simpl in *. rewrite decide_False in Hlm by done.
    destruct (danos_object_create _ _ _ _ _) as [st c']. by exists st, c'.
Qed.

Lemma program_work_result h e last upd p c b p' c' b' l :
  prog_env h c -> g_programmed c = Some l -> type_skipped (e_type e) = false ->
  upd = bool_decide (is_Some (ledger_map c !! e_key e)) ->
  program_work ops e (dep_digest (e_type e) (e_data e) c) last upd (p, c, b) = (p', c', b') ->
  same_desired h c c' /\ entry_result h e p c b p' c' b'.
Proof.
  intros Hp Hpr Hsk Hupd. unfold program_work.
  assert (same_desired h c c) as Hrefl by (by apply same_desired_refl).
  destruct (drop_old_addr ops e last b) as [[] b1] eqn:Hdrop; simpl; cycle 1.
  { intros [= <- <- <-]. split; [done|]. apply ER_failed; [done|by left]. }
  destruct (program_one ops (e_type e) (e_data e) c b1) as [st b2] eqn:Hone.
  destruct (decide (st = DANOS_OK)) as [Hst|Hst];
    [rewrite bool_decide_eq_true_2 by done|rewrite bool_decide_eq_false_2 by done];
    simpl; cycle 1.
  { intros Hw. apply (withdraw_result h) in Hw as (Hs2 & H1 & H2 & H3); [|done].
    split; [done|]. destruct p' as [a' o' f']. simpl in *. subst. by apply ER_failed. }
  unfold ledger. rewrite Hpr.
  destruct (ledger_write h c l e (ledger_rec c (e_key e) (e_data e)) upd) as (st2 & c2 & Hw & Hs2 & Hlm);
    [done..| |done|].
  { intros Hz. pose proof (ledger_rec_length c (e_key e) (e_data e)) as Hl.
    rewrite Hz in Hl. simpl in Hl. lia. }
  unfold ledger_rec in Hw. cbn [e_key fst] in Hw. rewrite Hw.
  intros [= <- <- <-]. split; [done|]. apply ER_programmed; [done|done|]. subst st. by exists last, b1, c.
Qed.

(** What the pass reads back from the ledger. *)
Lemma ledger_last h c l e :
  prog_env h c -> g_programmed c = Some l ->
  entry_fits (ledger_map c) (e_key e) (e_data e) ->
  match danos_object_read (Some l) (e_type e) (e_id e) (Some (zeros 512)) (Some 512%nat) c with
  | (DANOS_OK, Some m, Some lsz) => Some (m, lsz)
  | _ => None
  end = (fun r => (r ++ drop (length r) (zeros 512), length r)) <$> ledger_map c !! e_key e.
Proof.
  intros Hp Hpr (Hlen & _ & Hfit). pose proof (pe_wf h c Hp) as Hwf.
  rewrite object_read_lookup by (done || by apply (cw_programmed c Hwf)).
  unfold ledger_map in *. rewrite Hpr in *. fold (e_key e).
  destruct (objs c l !! e_key e) as [r|]; [|done].
  destruct (Hfit r eq_refl) as [Hr _].
  rewrite (proj2 (Nat.ltb_ge _ _)) by lia. by rewrite cwrite_zeros by lia.
Qed.

Lemma program_entry_result h e p c b p' c' b' :
  prog_env h c ->
  (type_skipped (e_type e) = false -> entry_fits (ledger_map c) (e_key e) (e_data e)) ->
  program_entry ops (p, c, b) e = (p', c', b') ->
  same_desired h c c' /\ entry_result h e p c b p' c' b'.
Proof.
  intros Hp Hfit. unfold program_entry.
  destruct (type_skipped (e_type e)) eqn:Esk.
  { intros [= <- <- <-]. split; [by apply same_desired_refl|by constructor]. }
  specialize (Hfit eq_refl). destruct (ledger_spec h c Hp) as (l & c1 & -> & _ & Hsd & Hpr & _ & Hlm & Hsame).
  pose proof (sd_env _ _ _ Hsd) as Hp1.
  assert (dep_digest (e_type e) (e_data e) c = dep_digest (e_type e) (e_data e) c1) as Hdep
    by (symmetry; by apply (dep_digest_eq h)).
  rewrite (ledger_last h c1 l e) by (done || by rewrite Hlm).
  assert (forall last upd, upd = bool_decide (is_Some (ledger_map c1 !! e_key e)) ->
    program_work ops e (dep_digest (e_type e) (e_data e) c) last upd (p, c1, b) = (p', c', b') ->
    same_desired h c c' /\ entry_result h e p c b p' c' b') as Hwork.
  { intros last upd Hu Hw. rewrite Hdep in Hw.
    destruct (program_work_result h _ _ _ _ _ _ _ _ _ l Hp1 Hpr Esk Hu Hw) as [Hs2 Hr].
    split; [by eapply same_desired_trans|].
    assert (ledger_rec c1 (e_key e) (e_data e) = ledger_rec c (e_key e) (e_data e)) as Hrec
      by (unfold ledger_rec; simpl; by rewrite Hdep).
    destruct Hr as [Hx| |c2 b2 _ Hl Hpr2|n c2 b2 _ Hl]; [by rewrite Hx in Esk| | |].
    - rewrite Hlm, Hrec in *.
      assert (is_Some (g_programmed c)) as Hpc.
      { unfold ledger_map in *. destruct (g_programmed c); [done|]. by rewrite lookup_empty in *. }
      rewrite (Hsame Hpc). by apply ER_in_sync.
    - apply ER_programmed; [done| |done]. by rewrite Hl, Hlm, Hrec.
    - apply ER_failed; [done|]. by rewrite <- Hlm. }
  rewrite <- Hlm in Hfit.
  destruct (ledger_map c1 !! e_key e) as [r|] eqn:Er; simpl; cycle 1.
  { apply Hwork. rewrite bool_decide_eq_false_2; [done|]. by intros [? ?]. }
  destruct Hfit as (Hlen & Hok & Hfit). destruct (Hfit r Er) as [Hr Hrok]. unfold e_size.
  rewrite Hr, Nat.eqb_refl. simpl.
  pose proof (in_sync_spec c (e_key e) (e_data e) r (drop (length (e_data e) + 8) (zeros 512)) Hrok Hr)
    as Hsync. simpl in Hsync. rewrite Hsync.
  destruct (decide (r = ledger_rec c (e_key e) (e_data e))) as [Hrec|Hrec]; cycle 1.
  { rewrite bool_decide_eq_false_2 by done. apply Hwork.
    by rewrite bool_decide_eq_true_2. }
  rewrite bool_decide_eq_true_2 by done.
  intros [= <- <- <-]. assert (is_Some (g_programmed c)) as Hpc.
  { rewrite Hlm in Er. unfold ledger_map in Er.
    destruct (g_programmed c); [done|]. by rewrite lookup_empty in Er. }
  split; [done|]. rewrite (Hsame Hpc). apply ER_in_sync; [done|]. by rewrite <- Hlm, Er, Hrec.
Qed.

(** The effect of one entry on the counters and on the ledger. *)
Lemma entry_result_effect h e p c b p' c' b' :
  entry_result h e p c b p' c' b' -> is_u64 (pc_ok p) -> pc_ok p <= pc_attempted p < 2 ^ 64 - 1 ->
  exists da dk, pc_attempted p' = pc_attempted p + da /\ pc_ok p' = pc_ok p + dk /\
    0 <= dk <= da /\ da <= 1 /\
    (forall k, k <> e_key e -> ledger_map c' !! k = ledger_map c !! k) /\
    (dk = da -> type_skipped (e_type e) = false ->
     ledger_map c' !! e_key e = Some (ledger_rec c (e_key e) (e_data e))).
Proof.
  unfold is_u64. intros [Hs|Hs Hl|c2 b2 Hs Hl _|n c2 b2 Hs Hl] Hok Hat.
  - exists 0, 0. split_and!; try lia; [done|]. congruence.
  - exists 0, 0. split_and!; try lia; done.
  - exists 1, 1. simpl. rewrite !u64_small by (unfold is_u64; lia).
    split_and!; try lia; rewrite Hl.
    + intros k Hk. by rewrite lookup_insert_ne.
    + intros _ _. by rewrite lookup_insert_eq.
  - exists 1, 0. simpl. rewrite u64_small by (unfold is_u64; lia).
    split_and!; try lia. intros k Hk. destruct Hl as [-> | ->]; [done|].
    by rewrite lookup_delete_ne.
Qed.

Lemma run_fold h es p c b p' c' b' :
  prog_env h c -> NoDup (e_key <$> es) ->
  (forall e, e ∈ es -> type_skipped (e_type e) = false ->
     entry_fits (ledger_map c) (e_key e) (e_data e)) ->
  is_u64 (pc_ok p) -> pc_ok p <= pc_attempted p ->
  pc_attempted p + Z.of_nat (length es) < 2 ^ 64 - 1 ->
  foldl (program_entry ops) (p, c, b) es = (p', c', b') ->
  same_desired h c c' /\
  pc_attempted p - pc_ok p <= pc_attempted p' - pc_ok p' /\
  (forall k, ~ k ∈ e_key <$> es -> ledger_map c' !! k = ledger_map c !! k) /\
  (pc_attempted p' - pc_ok p' = pc_attempted p - pc_ok p ->
   forall e, e ∈ es -> type_skipped (e_type e) = false ->
     ledger_map c' !! e_key e = Some (ledger_rec c (e_key e) (e_data e))).
Proof.
  intros Hp Hnd. revert p c b Hp. induction es as [|e es IH]; intros p c b Hp Hfit Hu Hle Hb.
  { simpl. intros [= <- <- <-]. split_and!; [by apply same_desired_refl|lia|done|].
    intros _ e He. by apply elem_of_nil in He. }
  apply NoDup_cons in Hnd as [Hni Hnd]. cbn [foldl].
  destruct (program_entry ops (p, c, b) e) as [[p1 c1] b1] eqn:E1.
  apply (program_entry_result h) in E1 as [Hs1 Hr1]; [|done|by intros; apply Hfit; [left|]].
  simpl length in Hb.
  destruct (entry_result_effect h e p c b p1 c1 b1 Hr1 Hu ltac:(lia))
    as (da & dk & Ha & Hk & Hdk & Hda & Hoth & Hmine).
  intros Hfold. apply (IH Hnd p1 c1 b1) in Hfold as (Hs2 & Hd2 & Ho2 & Hi2).
  - split_and!.
    + by eapply same_desired_trans.
    + lia.
    + intros k Hkn. rewrite Ho2, Hoth; [done|..].
      * intros ->. apply Hkn. left.
      * intros Hin. apply Hkn. by right.
    + intros Heq e' [->|He']%elem_of_cons Hsk.
      * rewrite Ho2 by done. apply Hmine; [lia|done].
      * rewrite Hi2 by (done || lia). f_equal. unfold ledger_rec.
        by rewrite (dep_digest_eq h c c1).
  - by apply Hs1.
  - intros e' He' Hsk. destruct (Hfit e' ltac:(by right) Hsk) as (F1 & F2 & F3).
    split_and!; [done|done|]. rewrite Hoth; [done|].
    intros Heq. apply Hni. rewrite <- Heq. by apply list_elem_of_fmap_2.
  - unfold is_u64 in *. lia.
  - lia.
  - lia.
Qed.

(** An entry whose record is in the ledger is passed over. *)
Lemma entry_idle h c e p b :
  prog_env h c ->
  (type_skipped (e_type e) = false ->
     (length (e_data e) <= 504)%nat /\ bytes_ok (e_data e) /\
     ledger_map c !! e_key e = Some (ledger_rec c (e_key e) (e_data e))) ->
  program_entry ops (p, c, b) e = (p, c, b).
Proof.
  intros Hp He. unfold program_entry. destruct (type_skipped (e_type e)) eqn:Esk; [done|].
  destruct (He eq_refl) as (Hlen & Hbk & Hl).
  destruct (g_programmed c) as [l|] eqn:Epr;
    [|unfold ledger_map in Hl; by rewrite Epr, lookup_empty in Hl].
  assert (Hfe : entry_fits (ledger_map c) (e_key e) (e_data e)).
  { split_and!; [done|done|]. intros r Hr. rewrite Hl in Hr. injection Hr as <-.
    split; [apply ledger_rec_length|by apply ledger_rec_ok]. }
  unfold ledger. rewrite Epr, (ledger_last h c l e) by done. rewrite Hl. simpl.
  rewrite ledger_rec_length, Nat.eqb_refl. simpl.
  pose proof (in_sync_spec c (e_key e) (e_data e) (ledger_rec c (e_key e) (e_data e))
    (drop (length (e_data e) + 8) (zeros 512))) as Hsync. simpl in Hsync. unfold e_size.
  rewrite Hsync by auto using ledger_rec_length, ledger_rec_ok.
  by rewrite bool_decide_eq_true_2.
Qed.

Lemma fold_idle h c es p b :
  prog_env h c ->
  (forall e, e ∈ es -> type_skipped (e_type e) = false ->
     (length (e_data e) <= 504)%nat /\ bytes_ok (e_data e) /\
     ledger_map c !! e_key e = Some (ledger_rec c (e_key e) (e_data e))) ->
  foldl (program_entry ops) (p, c, b) es = (p, c, b).
Proof.
  intros Hp. induction es as [|e es IH]; intros He; [done|]. cbn [foldl].
  rewrite (entry_idle h) by (done || apply He; left). apply IH. intros. apply He; [by right|done].
Qed.

(** *** What a backend promises about the objects it accepted

    [I] is an invariant of the backend and [Q] says that an object is in
    effect; accepting an entry keeps the invariant, puts the object into
    effect, and disturbs no other. *)
Record backend_promise (I : B -> Prop) (Q : danos_obj_type -> bytes -> B -> Prop) : Prop := {
  bp_step : forall e b b', I b -> programs e b b' ->
    I b' /\ Q (e_type e) (e_data e) b' /\ forall t d, Q t d b -> Q t d b';
}.

(** Every object in the ledger is in effect. *)
Definition covered (Q : danos_obj_type -> bytes -> B -> Prop) (c : core) (b : B) : Prop :=
  forall k rec, ledger_map c !! k = Some rec -> Q k.1 (drop 8 rec) b.

Lemma drop_ledger_rec c k d : drop 8 (ledger_rec c k d) = d.
Proof. apply drop_app_length'. by rewrite length_le_bytes. Qed.

Lemma entry_promise I Q h e p c b p' c' b' :
  backend_promise I Q -> entry_result h e p c b p' c' b' -> is_u64 (pc_ok p) ->
  pc_ok p <= pc_attempted p < 2 ^ 64 - 1 -> pc_attempted p' - pc_ok p' = pc_attempted p - pc_ok p ->
  I b -> covered Q c b -> I b' /\ covered Q c' b'.
Proof.
  intros Hb Hr Hu Hat Hd HI Hc. unfold is_u64 in Hu.
  destruct Hr as [Hs|Hs Hl|c2 b2 Hs Hl Hpr|n c2 b2 Hs Hl]; [done|done| |].
  - destruct (bp_step _ _ Hb e b b2 HI Hpr) as (HI2 & HQ & Hkeep). split; [done|].
    intros k rec. rewrite Hl, lookup_insert_Some. intros [[<- <-]|[_ Hk]].
    + by rewrite drop_ledger_rec.
    + by apply Hkeep, Hc.
  - cbn in Hd. rewrite u64_small in Hd by (unfold is_u64; lia). lia.
Qed.

Lemma fold_promise I Q h es p c b p' c' b' :
  backend_promise I Q -> prog_env h c -> NoDup (e_key <$> es) ->
  (forall e, e ∈ es -> type_skipped (e_type e) = false -> entry_fits (ledger_map c) (e_key e) (e_data e)) ->
  is_u64 (pc_ok p) -> pc_ok p <= pc_attempted p -> pc_attempted p + Z.of_nat (length es) < 2 ^ 64 - 1 ->
  foldl (program_entry ops) (p, c, b) es = (p', c', b') ->
  pc_attempted p' - pc_ok p' = pc_attempted p - pc_ok p ->
  I b -> covered Q c b -> I b' /\ covered Q c' b'.
Proof.
  intros Hb Hp Hnd. revert p c b Hp. induction es as [|e es IH]; intros p c b Hp Hfit Hu Hle Hlt Hf Hd HI Hc.
  { cbn in Hf. by injection Hf as <- <- <-. }
  apply NoDup_cons in Hnd as [Hni Hnd]. cbn [foldl] in Hf.
  destruct (program_entry ops (p, c, b) e) as [[p1 c1] b1] eqn:E1.
  apply (program_entry_result h) in E1 as [Hs1 Hr1]; [|done|by intros; apply Hfit; [left|]].
  simpl length in Hlt.
  destruct (entry_result_effect h e p c b p1 c1 b1 Hr1 Hu ltac:(lia))
    as (da & dk & Ha & Hk & Hdk & Hda & Hoth & _).
  assert (Hfit1 : forall e', e' ∈ es -> type_skipped (e_type e') = false ->
    entry_fits (ledger_map c1) (e_key e') (e_data e')).
  { intros e' He' Hsk. destruct (Hfit e' ltac:(by right) Hsk) as (F1 & F2 & F3).
    split_and!; [done|done|]. rewrite Hoth; [done|].
    intros Heq. apply Hni. rewrite <- Heq. by apply list_elem_of_fmap_2. }
  assert (Hu1 : is_u64 (pc_ok p1)) by (unfold is_u64 in *; lia).
  destruct (run_fold h es p1 c1 b1 p' c' b' (sd_env _ _ _ Hs1) Hnd Hfit1 Hu1 ltac:(lia) ltac:(lia) Hf) as (_ & Hd2 & _ & _).
  destruct (entry_promise I Q h e p c b p1 c1 b1 Hb Hr1 Hu ltac:(lia) ltac:(lia) HI Hc) as [HI1 Hc1].
  apply (IH Hnd p1 c1 b1 (sd_env _ _ _ Hs1) Hfit1 Hu1 ltac:(lia) ltac:(lia) Hf ltac:(lia) HI1 Hc1).
Qed.
End entries.

(** ** Properties *)

(** The objects of the desired store fit the pass's buffers. *)
Definition desired_fits (h : Z) (c : core) : Prop :=
  forall k d, objs c h !! k = Some d -> type_skipped k.1 = false ->
    entry_fits (ledger_map c) k d.

(** Every object the pipeline handles is in the ledger as it is now desired,
    with its current dependencies. *)
Definition in_step (h : Z) (c : core) : Prop :=
  forall k d, objs c h !! k = Some d -> type_skipped k.1 = false ->
    ledger_map c !! k = Some (ledger_rec c k d).

Lemma entries_objs c h s e :
  core_wf c -> c_stores c !! h = Some s ->
  e ∈ store_entries s <-> objs c h !! e_key e = Some (e_data e).
Proof.
  intros Hwf Hs. pose proof (cw_stores c Hwf h s Hs) as Hw.
  rewrite (objs_live c h s Hs). unfold e_key. rewrite store_map_lookup by done. split.
  - intros He. assert (find_entry s (e_type e) (e_id e) = Some e) as ->; [|done].
    by apply find_entry_Some.
  - intros (e' & [He' Hk]%(find_entry_Some s Hw) & Hd)%fmap_Some.
    destruct e as [t i d], e' as [t' i' d']. unfold e_key in Hk. by simplify_eq/=.
Qed.

Section results.
Context {B : Type} (ops : danos_backend_ops B).
Context (h : Z) (c : core) (b : B) (stats : program_ctx).
Context (Hp : prog_env h c) (s : danos_object_store) (Hs : c_stores c !! h = Some s).

Lemma run_unfold :
  danos_programming_run ops stats c b =
  (let '(p, c', b') := foldl (program_entry ops) (mk_pctx 0 0 0, c, b) (store_entries s) in
   (p, mk_pctx (u64 (pc_attempted stats + pc_attempted p)) (u64 (pc_ok stats + pc_ok p))
         (u64 (pc_failed stats + pc_failed p)), c', b')).
Proof. unfold danos_programming_run. by rewrite (pe_default h c Hp), Hs. Qed.

Lemma entries_fit :
  desired_fits h c -> forall e, e ∈ store_entries s -> type_skipped (e_type e) = false ->
  entry_fits (ledger_map c) (e_key e) (e_data e).
Proof.
  intros Hf e He Hsk. apply Hf; [|done].
  apply (entries_objs c h s e (pe_wf h c Hp) Hs). done.
Qed.

(** A pass without failures brings the ledger in step. *)
Lemma run_in_step p st' c' b' :
  desired_fits h c -> Z.of_nat (length (store_entries s)) < 2 ^ 64 - 1 ->
  danos_programming_run ops stats c b = (p, st', c', b') -> pc_ok p = pc_attempted p ->
  same_desired h c c' /\ in_step h c'.
Proof.
  intros Hf Hn Hrun Hok. rewrite run_unfold in Hrun.
  destruct (foldl _ _ _) as [[p1 c1] b1] eqn:E. simplify_eq.
  apply (run_fold ops h) in E as (Hsd & _ & _ & Hall); try done; simpl.
  - split; [done|]. intros k d Hd Hsk. rewrite (sd_objs _ _ _ Hsd) in Hd.
    assert (mk_entry k.1 k.2 d ∈ store_entries s) as Hin.
    { apply (entries_objs c h s _ (pe_wf h c Hp) Hs). by destruct k. }
    specialize (Hall ltac:(simpl; lia) _ Hin Hsk). unfold e_key in Hall. simpl in Hall.
    rewrite <- surjective_pairing in Hall. rewrite Hall.
    unfold ledger_rec. by rewrite (dep_digest_eq h c c').
  - apply (wf_nodup s), (cw_stores c (pe_wf h c Hp) h s Hs).
  - intros. by apply entries_fit.
Qed.

(** With a backend that keeps its promise, a pass without failures leaves
    every desired object in effect. *)
Lemma run_promised I Q p st' c' b' :
  backend_promise ops I Q -> I b -> covered Q c b ->
  desired_fits h c -> Z.of_nat (length (store_entries s)) < 2 ^ 64 - 1 ->
  danos_programming_run ops stats c b = (p, st', c', b') -> pc_ok p = pc_attempted p ->
  I b' /\ covered Q c' b' /\
  forall k d, objs c h !! k = Some d -> type_skipped k.1 = false -> Q k.1 d b'.
Proof.
  intros Hb HI Hc Hf Hn Hrun Hok. destruct (run_in_step p st' c' b' Hf Hn Hrun Hok) as [Hsd Hin].
  rewrite run_unfold in Hrun. destruct (foldl _ _ _) as [[p1 c1] b1] eqn:E. simplify_eq.
  destruct (fold_promise ops I Q h (store_entries s) (mk_pctx 0 0 0) c b p c' b' Hb Hp) as [HI' Hc']; try done.
  - apply (wf_nodup s), (cw_stores c (pe_wf h c Hp) h s Hs).
  - intros. by apply entries_fit.
  - cbn. lia.
  - split; [done|]. split; [done|]. intros k d Hd Hsk. rewrite <- (sd_objs _ _ _ Hsd) in Hd.
    pose proof (Hc' k _ (Hin k d Hd Hsk)) as HQ. by rewrite drop_ledger_rec in HQ.
Qed.

(** A pass on a ledger in step does nothing. *)
Lemma run_idle :
  desired_fits h c -> in_step h c ->
  danos_programming_run ops stats c b =
    (mk_pctx 0 0 0, mk_pctx (u64 (pc_attempted stats)) (u64 (pc_ok stats)) (u64 (pc_failed stats)),
     c, b).
Proof.
  intros Hf Hin. rewrite run_unfold, (fold_idle ops h) by (done || (intros e He Esk;
    destruct (entries_fit Hf e He Esk) as (F1 & F2 & _); split_and!; [done|done|];
    apply Hin; [by apply (entries_objs c h s e (pe_wf h c Hp) Hs)|done])).
  simpl. by rewrite !Z.add_0_r.
Qed.
End results.

Lemma fits_preserved h c c' :
  desired_fits h c -> same_desired h c c' -> in_step h c' -> desired_fits h c'.
Proof.
  intros Hf Hs Hin k d Hd Hsk. pose proof (Hin k d Hd Hsk) as Hl.
  rewrite (sd_objs _ _ _ Hs) in Hd. destruct (Hf k d Hd Hsk) as (F1 & F2 & _).
  split_and!; [done|done|]. intros r Hr. rewrite Hl in Hr. simplify_eq.
  split; [apply ledger_rec_length|by apply ledger_rec_ok].
Qed.

(** C4. Convergence: when every operation a pass attempts succeeds, for any
    backend, every desired interface, route and VRF is recorded as programmed
    with its present contents and dependencies; and a further pass issues no
    operation at all: it attempts nothing and leaves the backend and the core
    exactly as they are. The desired objects fit the ledger record, at most
    504 bytes each, and an entry already in the ledger has the size of its
    object. *)
Theorem programming_converges {B} (ops : danos_backend_ops B) h s c b stats p st' c' b' :
  prog_env h c -> c_stores c !! h = Some s -> desired_fits h c ->
  Z.of_nat (length (store_entries s)) < 2 ^ 64 - 1 ->
  danos_programming_run ops stats c b = (p, st', c', b') -> pc_ok p = pc_attempted p ->
  objs c' h = objs c h /\ in_step h c' /\
  exists st'', danos_programming_run ops st' c' b' = (mk_pctx 0 0 0, st'', c', b').
Proof.
  intros Hp Hs Hf Hn Hrun Hok.
  destruct (run_in_step ops h c b stats Hp s Hs p st' c' b' Hf Hn Hrun Hok) as [Hsd Hin].
  split_and!; [by apply Hsd|done|].
  pose proof (sd_env _ _ _ Hsd) as Hp'. destruct (pe_live h c' Hp') as [s' Hs'].
  eexists. apply (run_idle ops h c' b' st' Hp' s' Hs'); [|done].
  by eapply fits_preserved.
Qed.

(** A backend that accepts everything and keeps what it was asked. *)
Inductive backend_call : Type :=
  | CallUp (i : Z) (up : bool) | CallAddr (i : danos_iface) | CallAddrDel (i : danos_iface)
  | CallRoute (r : danos_resolved_route) | CallRouteDel (r : danos_resolved_route)
  | CallVrf (v : danos_vrf) | CallVrfDel (id : Z).

Definition log_ops : danos_backend_ops (list backend_call) :=
  mk_ops (list backend_call)
    (Some (fun i up b => (DANOS_OK, b ++ [CallUp i up])))
    (Some (fun i b => (DANOS_OK, b ++ [CallAddr i])))
    (Some (fun i b => (DANOS_OK, b ++ [CallAddrDel i])))
    (Some (fun r b => (DANOS_OK, b ++ [CallRoute r])))
    (Some (fun r b => (DANOS_OK, b ++ [CallRouteDel r])))
    (Some (fun v b => (DANOS_OK, b ++ [CallVrf v])))
    (Some (fun i b => (DANOS_OK, b ++ [CallVrfDel i]))).

Definition demo_prog_core : core :=
  (danos_vrf_create (Some demo_vrf) (core_boot (mk_os [] ∅) 0)).2.

Lemma demo_prog_facts :
  prog_env 1 demo_prog_core /\
  objs demo_prog_core 1 = <[(DANOS_OBJ_VRF, 7) := to_mem demo_vrf]> ∅ /\
  exists s, c_stores demo_prog_core !! 1 = Some s.
Proof.
  destruct (create_as_ok DANOS_OBJ_VRF vrf_vrf_id demo_vrf (core_boot (mk_os [] ∅) 0)
    demo_prog_core) as (h & c1 & Hg & Hwf & Hd & Hl & _ & Ho);
    [apply core_boot_wf|vm_compute; reflexivity|].
  assert (h = 1 /\ objs c1 1 = ∅) as [-> Hc1].
  { unfold get_default_store in Hg. cbn [core_boot g_default_store] in Hg.
    rewrite store_create_granted in Hg by done.
    injection Hg as <- <-. split; [done|]. unfold objs. cbn [set_default_store c_stores].
    rewrite lookup_insert_eq. apply store_create_map. }
  split_and!; [by split|by rewrite Ho, Hc1|exact Hl].
Qed.

Lemma demo_prog_fits : desired_fits 1 demo_prog_core.
Proof.
  destruct demo_prog_facts as (_ & Ho & _).
  intros k d Hd _. rewrite Ho in Hd. apply lookup_insert_Some in Hd as [[<- <-]|[_ Hd]];
    [|by rewrite lookup_empty in Hd].
  assert (struct_wf demo_vrf) as Hw
    by (split_and!; [unfold is_uint; simpl; lia|apply length_zeros|apply zeros_ok]).
  split_and!; [rewrite (length_to_mem demo_vrf Hw); simpl; lia|by apply to_mem_ok|].
  assert (g_programmed demo_prog_core = None) as Hn by (vm_compute; reflexivity).
  intros r Hr. unfold ledger_map in Hr. by rewrite Hn, lookup_empty in Hr.
Qed.

Lemma programming_converges_witness :
  let '(p, st', c', b') := danos_programming_run log_ops (mk_pctx 0 0 0) demo_prog_core [] in
  objs c' 1 = objs demo_prog_core 1 /\ in_step 1 c' /\
  exists st'', danos_programming_run log_ops st' c' b' = (mk_pctx 0 0 0, st'', c', b').
Proof.
  destruct demo_prog_facts as (Hp & _ & s & Hs).
  destruct (danos_programming_run log_ops (mk_pctx 0 0 0) demo_prog_core [])
    as [[[p st'] c'] b'] eqn:E.
  apply (programming_converges log_ops 1 s demo_prog_core [] (mk_pctx 0 0 0) p st' c' b' Hp Hs
           demo_prog_fits); [|exact E|].
  - replace s with (default (danos_object_store_create 1) (c_stores demo_prog_core !! 1))
      by (by rewrite Hs). vm_compute. reflexivity.
  - revert E. vm_compute. by intros [= <- _ _ _].
Defined.

(** ** Sweep and forget *)

(** Sizes the sweep's buffers are made for. *)
Definition ledger_fits (c : core) : Prop :=
  map_Forall (fun _ r => (64 <= length r <= 512)%nat) (ledger_map c).

Definition desired_small (h : Z) (c : core) : Prop :=
  forall k d, is_Some (ledger_map c !! k) -> objs c h !! k = Some d -> (length d <= 512)%nat.

(** Ledger entries whose object is no longer desired. *)
Definition stale (h : Z) (c : core) : gmap obj_key bytes :=
  filter (fun kr => objs c h !! kr.1 = None) (ledger_map c).

Section sweep.
Context (h l : Z) (c : core).
Context (Hp : prog_env h c) (Hpr : g_programmed c = Some l).
Context (Hfits : ledger_fits c) (Hsmall : desired_small h c).

Lemma ledger_objs : objs c l = ledger_map c.
Proof. unfold ledger_map. by rewrite Hpr. Qed.

Lemma ledger_read k n :
  (512 <= n)%nat ->
  danos_object_read (Some l) k.1 k.2 (Some (zeros n)) (Some n) c =
  match ledger_map c !! k with
  | None => (DANOS_ERR_NOT_FOUND, Some (zeros n), Some n)
  | Some r => (DANOS_OK, Some (r ++ drop (length r) (zeros n)), Some (length r))
  end.
Proof.
  intros Hn. pose proof (pe_wf h c Hp) as Hwf.
  rewrite object_read_lookup by (done || by apply (cw_programmed c Hwf)).
  rewrite ledger_objs, <- surjective_pairing.
  destruct (ledger_map c !! k) as [r|] eqn:Hr; [|done].
  pose proof (Hfits k r Hr) as Hlen. simpl in Hlen.
  rewrite (proj2 (Nat.ltb_ge _ _)) by lia. by rewrite cwrite_zeros by lia.
Qed.

Lemma desired_probe k :
  is_Some (ledger_map c !! k) ->
  bool_decide (is_Some (read_mem (Some h) k.1 k.2 512 c)) =
  bool_decide (is_Some (objs c h !! k)).
Proof.
  intros Hk. apply bool_decide_ext.
  rewrite read_mem_lookup by eauto using pe_wf, pe_live.
  rewrite <- surjective_pairing. destruct (objs c h !! k) as [d|] eqn:Hd; simpl; [|done].
  pose proof (Hsmall k d Hk Hd). rewrite (proj2 (Nat.ltb_ge _ _)) by lia. done.
Qed.

Lemma sweep_collect_step all ids e :
  is_Some (ledger_map c !! e_key e) ->
  sweep_collect all (ids, c) e =
    (if (length ids <? SWEEP_MAX)%nat && (all || negb (bool_decide (is_Some (objs c h !! e_key e))))
     then ids ++ [e_key e] else ids, c).
Proof.
  intros [r Hr]. unfold sweep_collect. rewrite Nat.leb_antisym.
  destruct (length ids <? SWEEP_MAX)%nat; simpl; [|done].
  unfold ledger. rewrite Hpr. unfold read_mem at 1.
  pose proof (ledger_read (e_key e) 512 ltac:(lia)) as Hread. simpl in Hread.
  rewrite Hread, Hr, (pe_default h c Hp).
  pose proof (desired_probe (e_key e)) as Hd. simpl in Hd. rewrite Hd by eauto.
  rewrite (bool_decide_eq_true_2 (is_Some (Some h))) by done.
  destruct all; simpl; [done|].
  by case (bool_decide (is_Some (objs c h !! e_key e))).
Qed.

Definition candidate (all : bool) (e : danos_object_entry) : bool :=
  all || negb (bool_decide (is_Some (objs c h !! e_key e))).

Lemma sweep_collect_fold all es ids :
  (forall e, e ∈ es -> is_Some (ledger_map c !! e_key e)) ->
  foldl (sweep_collect all) (ids, c) es =
    (ids ++ take (SWEEP_MAX - length ids)
       (e_key <$> filter (fun e => candidate all e = true) es), c).
Proof.
  revert ids. induction es as [|e es IH]; intros ids He.
  { simpl. by rewrite take_nil, app_nil_r. }
  cbn [foldl]. rewrite sweep_collect_step by (apply He; left). fold (candidate all e).
  rewrite IH by (intros; apply He; by right). rewrite filter_cons.
  destruct (Nat.ltb_spec (length ids) SWEEP_MAX) as [Hlt|Hge]; simpl.
  - destruct (candidate all e).
    + rewrite decide_True by done. rewrite length_app. simpl.
      replace (SWEEP_MAX - length ids)%nat with (S (SWEEP_MAX - (length ids + 1)))%nat by lia.
      simpl. by rewrite <- app_assoc.
    + by rewrite decide_False.
  - replace (SWEEP_MAX - length ids)%nat with 0%nat by lia. by rewrite !take_0.
Qed.
End sweep.

(** The candidates of a ledger: a list of its keys, without duplicates. *)
Lemma sweep_candidates h l c s all :
  prog_env h c -> g_programmed c = Some l -> c_stores c !! l = Some s ->
  ledger_fits c -> desired_small h c ->
  let keys := e_key <$> filter (fun e => candidate h c all e = true) (store_entries s) in
  foldl (sweep_collect all) ([], c) (store_entries s) = (take SWEEP_MAX keys, c) /\
  NoDup keys /\
  (forall k, k ∈ keys <-> is_Some (ledger_map c !! k) /\ (all = true \/ objs c h !! k = None)).
Proof.
  intros Hp Hpr Hs Hf Hsm keys. pose proof (pe_wf h c Hp) as Hwf.
  assert (objs c l = ledger_map c) as Hlo by (by apply ledger_objs).
  pose proof (wf_nodup s (cw_stores c Hwf l s Hs)) as Hnd.
  split_and!.
  - rewrite (sweep_collect_fold h l c) by (try done; intros e He;
      apply (entries_objs c l s e Hwf Hs) in He; rewrite Hlo in He; by rewrite He).
    by rewrite Nat.sub_0_r.
  - eapply sublist_NoDup; [exact Hnd|]. apply fmap_sublist, sublist_filter.
  - intros k. unfold keys. rewrite list_elem_of_fmap. split.
    + intros (e & -> & [Hc He]%list_elem_of_filter).
      apply (entries_objs c l s e Hwf Hs) in He. rewrite Hlo in He. rewrite He.
      split; [done|]. unfold candidate in Hc. destruct all; [by left|right].
      simpl in Hc. apply negb_true_iff, bool_decide_eq_false in Hc.
      by apply eq_None_not_Some.
    + intros [[r Hr] Hc]. exists (mk_entry k.1 k.2 r). unfold e_key. simpl.
      split; [by destruct k|]. apply list_elem_of_filter. split.
      * unfold candidate, e_key. simpl. rewrite <- surjective_pairing.
        destruct Hc as [-> | ->]; [done|]. rewrite bool_decide_eq_false_2; [by destruct all|].
        by intros [? ?].
      * apply (entries_objs c l s _ Hwf Hs). unfold e_key. simpl.
        by rewrite <- surjective_pairing, Hlo.
Qed.

Lemma ledger_delete h l c k :
  prog_env h c -> g_programmed c = Some l -> is_Some (ledger_map c !! k) ->
  exists c', danos_object_delete (Some l) k.1 k.2 c = (DANOS_OK, c') /\
    same_desired h c c' /\ g_programmed c' = Some l /\
    ledger_map c' = delete k (ledger_map c).
Proof.
  intros Hp Hpr Hk.
  destruct (ledger_op h c l (OpDelete k.1 k.2) Hp Hpr) as (Hs & Hpr' & Hst & Hm).
  simpl in *. rewrite <- surjective_pairing, decide_True in Hst, Hm by done.
  destruct (danos_object_delete (Some l) k.1 k.2 c) as [st c']. simpl in *. subst st.
  by exists c'.
Qed.

(** What a withdrawal asks of the backend, from the ledger's record of the
    object (eight bytes of digest, then the object): a route is deleted, an
    interface is taken down whatever the backend answers, anything else needs
    no call. *)
Section withdrawals.
Context {B : Type} (ops : danos_backend_ops B) (on : bool).

Definition withdraw (k : obj_key) (r : bytes) (b : B) : bool * B :=
  let body := drop 8 r in
  match k.1, on with
  | DANOS_OBJ_ROUTE, true =>
      match route_del ops with
      | Some del =>
          let '(st, b) := del (resolved_of (of_mem (take (sizeof danos_route) body))) b in
          (bool_decide (st = DANOS_OK), b)
      | None => (true, b)
      end
  | DANOS_OBJ_IFACE, true =>
      match iface_up ops with
      | Some up =>
          if (8 + sizeof danos_iface <=? length r)%nat
          then (true, (up (iface_ifindex (of_mem (take (sizeof danos_iface) body))) false b).2) else (true, b)
      | None => (true, b)
      end
  | _, _ => (true, b)
  end.

(** The objects withdrawn, of those tried one after the other. *)
Fixpoint withdraw_all (m : gmap obj_key bytes) (ks : list obj_key) (b : B) : list obj_key * B :=
  match ks with
  | [] => ([], b)
  | k :: ks =>
      let '(ok, b) := withdraw k (default [] (m !! k)) b in
      let '(gone, b) := withdraw_all m ks b in (if ok then k :: gone else gone, b)
  end.

Lemma withdraw_all_sub m ks b : sublist (withdraw_all m ks b).1 ks.
Proof.
  revert b. induction ks as [|k ks IH]; intros b; [done|]. cbn [withdraw_all].
  destruct (withdraw k _ b) as [ok b1]. specialize (IH b1). destruct (withdraw_all m ks b1) as [gone b2].
  destruct ok; [by apply sublist_skip|by apply sublist_cons].
Qed.
End withdrawals.

(** The ledger without what was withdrawn. *)
Definition keep_others (gone : list obj_key) (m : gmap obj_key bytes) : gmap obj_key bytes :=
  filter (fun kr => kr.1 ∉ gone) m.

Lemma keep_others_delete k gone m : keep_others gone (delete k m) = keep_others (k :: gone) m.
Proof.
  apply map_eq. intros k'. apply option_eq. intros r. unfold keep_others.
  rewrite !map_lookup_filter_Some, lookup_delete_Some. cbn [fst]. rewrite not_elem_of_cons. naive_solver.
Qed.

Lemma keep_others_nil m : keep_others [] m = m.
Proof. apply map_filter_id. intros k r _. apply not_elem_of_nil. Qed.

Section sweep_steps.
Context {B : Type} (ops : danos_backend_ops B) (on : bool) (h l : Z).

Lemma sweep_one_step c b k r i f ok b' :
  prog_env h c -> g_programmed c = Some l -> ledger_fits c -> ledger_map c !! k = Some r ->
  withdraw ops on k r b = (ok, b') ->
  exists c', sweep_one ops on (i, f, c, b) k = (if ok then u64 (i + 1) else i, if ok then f else u64 (f + 1), c', b') /\
    same_desired h c c' /\ g_programmed c' = Some l /\
    ledger_map c' = if ok then delete k (ledger_map c) else ledger_map c.
Proof.
  intros Hp Hpr Hf Hk. destruct (ledger_delete h l c k Hp Hpr (ex_intro _ r Hk)) as (c1 & Hdel & Hs & Hp1 & Hm).
  pose proof (ledger_read h l c Hp Hpr Hf k 520 ltac:(lia)) as Hread.
  rewrite Hk in Hread. pose proof (Hf k r Hk) as Hlen. simpl in Hlen.
  assert (Hcr : forall n, (8 + n <= length r)%nat -> cread (r ++ drop (length r) (zeros 520)) 8 n = take n (drop 8 r)).
  { intros n Hn. rewrite cread_eq, drop_app_le, take_app_le by (rewrite ?length_drop; lia). done. }
  destruct k as [t id]. unfold withdraw, sweep_one, ledger. rewrite Hpr. cbn [fst snd] in *.
  rewrite Hread. cbv beta iota zeta. rewrite ?Hpr. cbv beta iota zeta. rewrite Hdel.
  assert (H64 : (8 + sizeof danos_route <= length r)%nat) by (change (8 + sizeof danos_route)%nat with 64%nat; lia).
  rewrite (proj2 (Nat.ltb_ge _ _)) by exact H64. rewrite (Hcr (sizeof danos_route)) by exact H64.
  assert (Hsame : same_desired h c c) by (split; [done|reflexivity]).
  destruct t; try (intros [= <- <-]; by exists c1).
  - destruct (iface_up ops) as [up|]; [|destruct on; intros [= <- <-]; by exists c1].
    destruct on; cbn [andb]; [|intros [= <- <-]; by exists c1].
    destruct (Nat.leb_spec (8 + sizeof danos_iface) (length r)) as [Hle|_]; [rewrite (Hcr _ Hle)|];
      intros [= <- <-]; by exists c1.
  - destruct on; [|destruct (route_del ops); intros [= <- <-]; by exists c1].
    destruct (route_del ops) as [del|]; [|intros [= <- <-]; by exists c1].
    destruct (del _ b) as [st b2]. case_bool_decide; intros [= <- <-]; [by exists c1|by exists c].
Qed.

Lemma sweep_fold m ids c b i f :
  prog_env h c -> g_programmed c = Some l -> ledger_fits c -> NoDup ids ->
  (forall k, k ∈ ids -> ledger_map c !! k = m !! k /\ is_Some (m !! k)) ->
  0 <= i -> 0 <= f -> i + f + Z.of_nat (length ids) < 2 ^ 64 ->
  let '(gone, b') := withdraw_all ops on m ids b in
  exists c', foldl (sweep_one ops on) (i, f, c, b) ids =
      (i + Z.of_nat (length gone), f + Z.of_nat (length ids - length gone), c', b') /\
    same_desired h c c' /\ ledger_map c' = keep_others gone (ledger_map c).
Proof.
  revert c b i f. induction ids as [|k ids IH]; intros c b i f Hp Hpr Hf Hnd Hin Hi Hf0 Hb.
  { exists c. rewrite keep_others_nil. cbn. rewrite !Z.add_0_r. by split_and!. }
  apply NoDup_cons in Hnd as [Hk Hnd]. cbn [length] in Hb. cbn [withdraw_all foldl].
  destruct (Hin k (list_elem_of_here _ _)) as [Hmk [r Hr]]. rewrite Hr in Hmk |- *. cbn [default from_option].
  unfold Datatypes.id. destruct (withdraw ops on k r b) as [ok b1] eqn:Hwd.
  destruct (sweep_one_step c b k r i f ok b1 Hp Hpr Hf Hmk Hwd) as (c1 & -> & Hs1 & Hp1 & Hm1).
  rewrite !u64_small by (unfold is_u64; lia).
  specialize (IH c1 b1 (if ok then i + 1 else i) (if ok then f else f + 1) (sd_env _ _ _ Hs1) Hp1).
  pose proof (sublist_length _ _ (withdraw_all_sub ops on m ids b1)) as Hsub.
  destruct (withdraw_all ops on m ids b1) as [gone b2]. cbn [fst] in Hsub.
  destruct IH as (c2 & -> & Hs2 & Hm2); [| |..|].
  - unfold ledger_fits. rewrite Hm1. destruct ok; [by apply map_Forall_delete|done].
  - done.
  - intros k' Hk'. destruct (Hin k' (list_elem_of_further _ _ _ Hk')) as [H1 H2]. split; [|done].
    rewrite Hm1, <- H1. destruct ok; [|done]. apply lookup_delete_ne. by intros ->.
  - destruct ok; lia.
  - destruct ok; lia.
  - destruct ok; lia.
  - exists c2. split_and!.
    + destruct ok; cbn [length]; f_equal; f_equal; f_equal; lia.
    + destruct Hs1 as [? ?], Hs2 as [? ?]. split; [done|congruence].
    + rewrite Hm2, Hm1. destruct ok; [apply keep_others_delete|done].
Qed.
End sweep_steps.

(** The number of candidates is the size of the map they name. *)
Lemma candidates_size (keys : list obj_key) (m : gmap obj_key bytes) :
  NoDup keys -> (forall k, k ∈ keys <-> is_Some (m !! k)) -> length keys = size m.
Proof.
  intros Hnd Hk. rewrite <- (size_dom (D := gset obj_key)), <- (size_list_to_set (C := gset obj_key)) by done.
  f_equal. apply set_eq. intros k. by rewrite elem_of_list_to_set, elem_of_dom, Hk.
Qed.

Lemma stale_is_Some h c k :
  is_Some (stale h c !! k) <-> is_Some (ledger_map c !! k) /\ objs c h !! k = None.
Proof.
  unfold stale. split.
  - intros [r [Hr Hd]%map_lookup_filter_Some]. by rewrite Hr.
  - intros [[r Hr] Hd]. exists r. by apply map_lookup_filter_Some.
Qed.

Lemma elem_of_take_in {A} n (x : A) xs : x ∈ take n xs -> x ∈ xs.
Proof. intros Hx. rewrite <- (take_drop n xs). apply elem_of_app. by left. Qed.

Lemma sublist_whole {A} (xs ys : list A) : sublist xs ys -> length xs = length ys -> xs = ys.
Proof.
  induction 1 as [|x xs ys _ IH|x xs ys Hsub _]; intros Hlen; [done| |].
  - f_equal. apply IH. cbn in Hlen. lia.
  - apply sublist_length in Hsub. cbn in Hlen. lia.
Qed.

(** The stale keys in the order the ledger's table holds them. *)
Definition stale_keys (h : Z) (c : core) (s : danos_object_store) : list obj_key :=
  filter (fun k => objs c h !! k = None) (e_key <$> store_entries s).

Lemma stale_keys_candidates h c s :
  stale_keys h c s = e_key <$> filter (fun e => candidate h c false e = true) (store_entries s).
Proof.
  unfold stale_keys. induction (store_entries s) as [|e es IH]; [done|]. rewrite fmap_cons, !filter_cons, IH.
  assert (Hc : candidate h c false e = true <-> objs c h !! e_key e = None).
  { unfold candidate. cbn [orb]. by rewrite negb_true_iff, bool_decide_eq_false, eq_None_not_Some. }
  by destruct (decide (objs c h !! e_key e = None)) as [H|H];
    [rewrite decide_True by (by apply Hc)|rewrite decide_False by (by rewrite Hc)].
Qed.


(** A ledger that still holds a route nobody wants any more. *)
Definition demo_stale_core : core :=
  (run_op 2 (OpCreate DANOS_OBJ_ROUTE 9 (Some (zeros 64))) (ledger demo_prog_core).2).2.

Lemma demo_stale_facts :
  prog_env 1 demo_stale_core /\ g_programmed demo_stale_core = Some 2 /\
  objs demo_stale_core 1 = <[(DANOS_OBJ_VRF, 7) := to_mem demo_vrf]> ∅ /\
  ledger_map demo_stale_core = <[(DANOS_OBJ_ROUTE, 9) := zeros 64]> ∅.
Proof.
  destruct demo_prog_facts as (Hp & Ho & _).
  destruct (ledger_spec 1 demo_prog_core Hp) as (l & c1 & Hl & _ & Hs1 & Hp1 & _ & Hm1 & _).
  assert (l = 2) as -> by (apply (f_equal fst) in Hl; by vm_compute in Hl; injection Hl as <-).
  assert (ledger_map demo_prog_core = ∅) as He by (vm_compute; reflexivity).
  destruct (ledger_op 1 c1 2 (OpCreate DANOS_OBJ_ROUTE 9 (Some (zeros 64))) (sd_env _ _ _ Hs1) Hp1)
    as (Hs2 & Hp2 & _ & Hm2).
  unfold demo_stale_core. rewrite Hl. cbn [snd]. split_and!; [apply Hs2|done| |].
  - by rewrite (sd_objs _ _ _ Hs2), (sd_objs _ _ _ Hs1).
  - rewrite Hm2, Hm1, He. reflexivity.
Qed.

Lemma demo_stale_fits : ledger_fits demo_stale_core /\ desired_small 1 demo_stale_core.
Proof.
  destruct demo_stale_facts as (_ & _ & Ho & Hm). split.
  - unfold ledger_fits. rewrite Hm. apply map_Forall_insert_2; [|done].
    rewrite length_zeros. lia.
  - intros k d. rewrite Hm, Ho, lookup_insert_is_Some. intros [<- |[_ [? Hk]]]; [|done].
    by rewrite lookup_insert_ne.
Qed.


Lemma forget_fold h l ids c n n' c' :
  prog_env h c -> g_programmed c = Some l -> NoDup ids ->
  (forall k, k ∈ ids -> is_Some (ledger_map c !! k)) ->
  0 <= n -> n + Z.of_nat (length ids) < 2 ^ 64 ->
  foldl (forget_one l) (n, c) ids = (n', c') ->
  same_desired h c c' /\ n' = n + Z.of_nat (length ids) /\
  Z.of_nat (size (ledger_map c')) + Z.of_nat (length ids) = Z.of_nat (size (ledger_map c)) /\
  ledger_map c' ⊆ ledger_map c.
Proof.
  revert c n. induction ids as [|k ids IH]; intros c n Hp Hpr Hnd Hin Hn Hb Hr.
  { simpl in Hr. injection Hr as <- <-. split_and!; try done; simpl; lia. }
  apply NoDup_cons in Hnd as [Hk Hnd]. cbn [length] in Hb.
  pose proof (Hin k (list_elem_of_here _ _)) as Hks.
  destruct (ledger_delete h l c k Hp Hpr Hks) as (c1 & Hdel & Hs & Hp1 & Hm).
  cbn [foldl] in Hr. unfold forget_one at 2 in Hr. cbn [fst snd] in Hr.
  rewrite Hdel, bool_decide_eq_true_2, u64_small in Hr by (done || (unfold is_u64; lia)).
  apply IH in Hr as (Hs' & -> & H2 & H3); try apply Hs; try done; try lia.
  - destruct Hks as [r Hrk]. rewrite Hm in *.
    assert (size (ledger_map c) <> 0%nat)
      by (intros Hz%map_size_empty_inv; by rewrite Hz, lookup_empty in Hrk).
    rewrite map_size_delete_Some in H2 by done. cbn [length]. split_and!; try lia.
    + destruct Hs as [Hs1 Hs2], Hs' as [Hs3 Hs4]. split; [done|congruence].
    + etrans; [exact H3|apply delete_subseteq].
  - intros k' Hk'. rewrite Hm, lookup_delete_ne by (by intros ->). apply Hin. by right.
Qed.

(** Forgetting the ledger before a full replay forgets at most 256
    entries: the return value and the number of entries dropped are both
    [min 256 (size of the ledger)], so on a larger ledger the rest still counts
    as programmed and is not replayed. *)
Theorem forget_bounded h l s c n c' :
  prog_env h c -> g_programmed c = Some l -> c_stores c !! l = Some s ->
  ledger_fits c -> desired_small h c ->
  danos_programming_forget_programmed c = (n, c') ->
  n = Z.of_nat (Nat.min 256 (size (ledger_map c))) /\
  size (ledger_map c') = (size (ledger_map c) - 256)%nat /\
  ledger_map c' ⊆ ledger_map c /\ objs c' h = objs c h.
Proof.
  intros Hp Hpr Hs Hf Hsm. unfold danos_programming_forget_programmed. rewrite Hpr, Hs.
  destruct (sweep_candidates h l c s true Hp Hpr Hs Hf Hsm) as (Hcol & Hnd & Hin).
  set (keys := e_key <$> _) in *. unfold danos_object_iterate. rewrite Hcol. intros Hr.
  assert (length keys = size (ledger_map c)) as Hlen
    by (apply candidates_size; [done|]; intros k; rewrite Hin; naive_solver).
  apply (forget_fold h) in Hr as (Hsd & -> & H2 & H3); try done; try lia.
  - rewrite length_take, Hlen in H2 |- *. unfold SWEEP_MAX in H2 |- *.
    split_and!; [lia|lia|done|apply Hsd].
  - by apply sublist_NoDup with keys; [|apply sublist_take].
  - intros k Hk%elem_of_take_in. by apply Hin in Hk as [Hk _].
  - rewrite length_take. unfold SWEEP_MAX. lia.
Qed.

Lemma forget_bounded_witness :
  let '(n, c') := danos_programming_forget_programmed demo_stale_core in
  n = Z.of_nat (Nat.min 256 (size (ledger_map demo_stale_core))) /\
  size (ledger_map c') = (size (ledger_map demo_stale_core) - 256)%nat /\
  ledger_map c' ⊆ ledger_map demo_stale_core /\ objs c' 1 = objs demo_stale_core 1.
Proof.
  destruct demo_stale_facts as (Hp & Hpr & Ho & Hm).
  destruct demo_stale_fits as [Hf Hd].
  destruct (cw_programmed _ (pe_wf _ _ Hp) 2 Hpr) as [s Hs].
  destruct (danos_programming_forget_programmed demo_stale_core) as [n c'] eqn:E.
  exact (forget_bounded 1 2 s demo_stale_core n c' Hp Hpr Hs Hf Hd E).
Defined.

(** The dependency digest of a route combines its members' digests with
    exclusive or, so two occurrences of one next hop in the group cancel: for a
    group whose members are [a] and [a] the digest is the same in every state,
    whatever happens to next hop [a], and the pass never sees its change. *)
Theorem digest_misses_duplicated_member data m a c c' :
  (sizeof danos_route <= length data)%nat ->
  rt_nhgroup_id (of_mem data) <> 0 ->
  group_members (of_mem m) = [a; a] ->
  read_mem (g_default_store c) DANOS_OBJ_NHGROUP (rt_nhgroup_id (of_mem data))
    (sizeof danos_nhgroup) c = Some m ->
  read_mem (g_default_store c') DANOS_OBJ_NHGROUP (rt_nhgroup_id (of_mem data))
    (sizeof danos_nhgroup) c' = Some m ->
  dep_digest DANOS_OBJ_ROUTE data c = dep_digest DANOS_OBJ_ROUTE data c'.
Proof.
  intros Hlen Hg Hm Hc Hc'.
  assert (forall c0, read_mem (g_default_store c0) DANOS_OBJ_NHGROUP (rt_nhgroup_id (of_mem data))
    (sizeof danos_nhgroup) c0 = Some m ->
    dep_digest DANOS_OBJ_ROUTE data c0 = hash_bytes m) as Hd.
  { intros c0 Hr. unfold dep_digest.
    rewrite bool_decide_eq_true_2, (proj2 (Nat.ltb_ge _ _)), (proj2 (Z.eqb_neq _ _)) by done.
    cbn [negb orb]. rewrite Hr, Hm. cbn [foldl]. unfold member_digest.
    destruct (read_mem _ DANOS_OBJ_NEXTHOP a _ c0);
      by rewrite Z.lxor_assoc, Z.lxor_nilpotent, Z.lxor_0_r. }
  by rewrite !Hd.
Qed.

Definition demo_pair_group : danos_nhgroup := mk_nhgroup 3 2 ([5; 5] ++ replicate 62 0) 0.

Definition demo_pair_route : danos_route := mk_route 0 ip_prefix_zero 0 0 0 3 0.

Definition demo_group_core : core :=
  (danos_nhgroup_create (Some demo_pair_group) (core_boot (mk_os [] ∅) 0)).2.

Lemma digest_misses_duplicated_member_witness :
  dep_digest DANOS_OBJ_ROUTE (to_mem demo_pair_route) demo_group_core =
  dep_digest DANOS_OBJ_ROUTE (to_mem demo_pair_route)
    (danos_nh_create (Some (mk_nexthop 5 ip_addr_zero 7 1 0 0 [0; 0; 0])) demo_group_core).2.
Proof.
  apply (digest_misses_duplicated_member (to_mem demo_pair_route) (to_mem demo_pair_group) 5).
  - vm_compute. lia.
  - vm_compute. lia.
  - vm_compute. reflexivity.
  - vm_compute. reflexivity.
  - vm_compute. reflexivity.
Defined.
