(* ===== verification/PassDelta.v ===== *)
(** * Passes over a desired state with one change

    What a programming pass and a sweep do when the desired state differs from
    the ledger in one new object, or in nothing. *)

From stdpp Require Import base decidable list numbers gmap.
From Stdlib Require Import ZArith Lia.
From S2P Require Import Prelude Dpa ObjectStore Wal EventBus Registry Persist DpaObjects Pipeline.

Lemma resolve_members_eq h c c' i ids out :
  prog_env h c -> same_desired h c c' -> resolve_members c' i ids out = resolve_members c i ids out.
Proof.
  intros Hp Hs. revert i out. induction ids as [|id ids IH]; intros i out; [done|]. cbn [resolve_members].
  rewrite (pe_default h c' (sd_env _ _ _ Hs)), (pe_default h c Hp), (read_mem_eq h c c') by done.
  case_match; [apply IH|done].
Qed.

(** Resolution and programming read the desired state only. *)
Lemma resolve_route_nh_eq h c c' r :
  prog_env h c -> same_desired h c c' -> resolve_route_nh r c' = resolve_route_nh r c.
Proof.
  intros Hp Hs. unfold resolve_route_nh.
  rewrite (pe_default h c' (sd_env _ _ _ Hs)), (pe_default h c Hp), (read_mem_eq h c c') by done.
  do 2 (case_match; [done|]). case_match; [|done]. case_match; [done|].
  rewrite (read_mem_eq h c c') by done. case_match; [|done]. by rewrite (resolve_members_eq h c c').
Qed.

Lemma program_one_eq {B} (ops : danos_backend_ops B) h c c' t d b :
  prog_env h c -> same_desired h c c' -> program_one ops t d c' b = program_one ops t d c b.
Proof.
  intros Hp Hs. unfold program_one, program_route. destruct t; try done.
  by rewrite (resolve_route_nh_eq h c c').
Qed.

Section delta.
Context {B : Type} (ops : danos_backend_ops B) (h : Z).

(** An entry that the ledger does not have is handed to the backend, and
    recorded when the backend accepts it. *)
Lemma entry_new c e p b b' :
  prog_env h c -> type_skipped (e_type e) = false ->
  (length (e_data e) <= 504)%nat -> bytes_ok (e_data e) -> ledger_map c !! e_key e = None ->
  program_one ops (e_type e) (e_data e) c b = (DANOS_OK, b') ->
  exists c', program_entry ops (p, c, b) e =
      (mk_pctx (u64 (pc_attempted p + 1)) (u64 (pc_ok p + 1)) (pc_failed p), c', b') /\
    same_desired h c c' /\
    ledger_map c' = <[e_key e := ledger_rec c (e_key e) (e_data e)]> (ledger_map c).
Proof.
  intros Hp Hsk Hlen Hbk Hnone Hone. unfold program_entry. rewrite Hsk.
  destruct (ledger_spec h c Hp) as (l & c1 & -> & _ & Hsd & Hpr & _ & Hlm & _).
  pose proof (sd_env _ _ _ Hsd) as Hp1.
  rewrite (ledger_last h c1 l e) by (done || (rewrite Hlm; split_and!; [done|done|]; intros ? Hr; by rewrite Hnone in Hr)).
  rewrite Hlm, Hnone. cbn [fmap option_fmap option_map].
  unfold program_work, drop_old_addr. cbn [negb].
  rewrite (program_one_eq ops h c c1) by done. rewrite Hone. rewrite bool_decide_eq_true_2 by done. cbn [negb].
  unfold ledger. rewrite Hpr.
  destruct (ledger_write h c1 l e (ledger_rec c (e_key e) (e_data e)) false) as (st2 & c2 & Hw & Hs2 & Hl2);
    [done..| |rewrite bool_decide_eq_false_2; [done|rewrite Hlm, Hnone; by intros [? ?]]|].
  { intros Hz. pose proof (ledger_rec_length c (e_key e) (e_data e)) as Hl. rewrite Hz in Hl. simpl in Hl. lia. }
  unfold ledger_rec in Hw. cbn [e_key fst] in Hw. rewrite Hw. exists c2.
  split_and!; [done|by eapply same_desired_trans|by rewrite Hl2, Hlm].
Qed.

(** A pass over a desired state that differs from the ledger in one new
    object makes exactly the one call for it. *)
Lemma run_new c b stats k d b' :
  prog_env h c -> desired_fits h c ->
  objs c h !! k = Some d -> type_skipped k.1 = false -> ledger_map c !! k = None ->
  (forall k' d', k' <> k -> objs c h !! k' = Some d' -> type_skipped k'.1 = false ->
     ledger_map c !! k' = Some (ledger_rec c k' d')) ->
  program_one ops k.1 d c b = (DANOS_OK, b') ->
  exists st' c', danos_programming_run ops stats c b = (mk_pctx 1 1 0, st', c', b') /\
    same_desired h c c' /\ ledger_map c' = <[k := ledger_rec c k d]> (ledger_map c).
Proof.
  intros Hp Hf Hk Hsk Hnone Hoth Hone. destruct (pe_live h c Hp) as [s Hs].
  rewrite (run_unfold ops h c b stats Hp s Hs). pose proof (pe_wf h c Hp) as Hwf.
  assert (He : mk_entry k.1 k.2 d ∈ store_entries s) by (apply (entries_objs c h s _ Hwf Hs); by destruct k).
  assert (Hke : e_key (mk_entry k.1 k.2 d) = k) by (by destruct k).
  pose proof (wf_nodup s (cw_stores c Hwf h s Hs)) as Hnd.
  assert (Hall : forall e, e ∈ store_entries s -> e_key e <> k -> type_skipped (e_type e) = false ->
    (length (e_data e) <= 504)%nat /\ bytes_ok (e_data e) /\
    ledger_map c !! e_key e = Some (ledger_rec c (e_key e) (e_data e))).
  { intros e He' Hne Hske. apply (entries_objs c h s e Hwf Hs) in He'.
    destruct (Hf _ _ He' Hske) as (F1 & F2 & _). split_and!; [done|done|]. by apply Hoth. }
  destruct (list_elem_of_split _ _ He) as (l1 & l2 & Hes). set (e := mk_entry k.1 k.2 d) in *.
  rewrite Hes in Hnd, Hall |- *. rewrite foldl_app. cbn [foldl].
  rewrite fmap_app, fmap_cons, Hke in Hnd. apply NoDup_app in Hnd as (_ & Hd1 & Hd2).
  apply NoDup_cons in Hd2 as [Hd2 _].
  destruct (Hf k d Hk Hsk) as (F1 & F2 & _).
  rewrite (fold_idle ops h); [|done|].
  2:{ intros x Hx. apply Hall; [apply elem_of_app; by left|]. intros Heq.
      apply (Hd1 k); [rewrite <- Heq; by apply list_elem_of_fmap_2|left]. }
  destruct (entry_new c e (mk_pctx 0 0 0) b b' Hp Hsk F1 F2 ltac:(by rewrite Hke) Hone) as (c' & -> & Hsd & Hlm).
  rewrite Hke in Hlm. rewrite (fold_idle ops h); [|by apply Hsd|].
  2:{ intros x Hx Hskx. assert (Hxk : e_key x <> k).
      { intros Heq. apply Hd2. rewrite <- Heq. by apply list_elem_of_fmap_2. }
      destruct (Hall x) as (X1 & X2 & X3); [apply elem_of_app; right; by right|done|done|].
      split_and!; [done|done|]. rewrite Hlm, lookup_insert_ne, X3 by done.
      unfold ledger_rec. by rewrite (dep_digest_eq h c c'). }
  eexists _, c'. split; [reflexivity|]. by split.
Qed.

(** A ledger without stale entries: the sweep issues nothing. *)
Lemma sweep_idle on c b :
  prog_env h c -> ledger_fits c -> desired_small h c ->
  (forall k, is_Some (ledger_map c !! k) -> is_Some (objs c h !! k)) ->
  danos_programming_sweep ops on c b = (0, 0, c, b).
Proof.
  intros Hp Hf Hsm Hsub. unfold danos_programming_sweep. destruct (g_programmed c) as [l|] eqn:Hpr; [|done].
  destruct (cw_programmed c (pe_wf h c Hp) l Hpr) as [s Hs]. rewrite Hs. unfold danos_object_iterate.
  destruct (sweep_candidates h l c s false Hp Hpr Hs Hf Hsm) as (-> & _ & Hk).
  set (keys := e_key <$> _) in *. clearbody keys. destruct keys as [|k keys]; [by rewrite take_nil|].
  destruct (proj1 (Hk k)) as [Hin [Hx|Hx]]; [left|done|]. apply Hsub in Hin. rewrite Hx in Hin. by destruct Hin.
Qed.
End delta.
