(* ===== verification/Reconciler.v ===== *)
(** * Reconciler: danos-core reconciler.h / reconciler.c

    The reconciler object, one reconciliation, and the iterations of its
    thread.  [g_ops] is optional, as in the code; the programming counters, the
    backend and the core library are the rest of the world it acts on.  The
    thread's loop is a function of one wake-up: [reconcile_tick]. *)

From stdpp Require Import base decidable list numbers strings gmap.
From Stdlib Require Import ZArith Lia.
From S2P Require Import Prelude Dpa ObjectStore Wal EventBus Registry Persist DpaObjects.
From S2P Require Import StateStore Pipeline.
Open Scope Z_scope.
Open Scope list_scope.

Record danos_reconcile_config := mk_rcfg {
  reconcile_period_ms : Z;
  max_retries : Z;
  backoff_initial_ms : Z;
  backoff_max_ms : Z;
  antiflap_window_ms : Z;
  antiflap_max_count : Z;
}.

Record danos_reconcile_stats := mk_rstats {
  total_runs : Z;
  total_diffs : Z;
  total_repairs : Z;
  total_failures : Z;
  total_flaps : Z;
}.

Record danos_reconciler := mk_reconciler {
  rc_config : danos_reconcile_config;
  rc_state : option danos_state_store;
  rc_running : bool;
  rc_stats : danos_reconcile_stats;
}.

Definition kDefaultConfig : danos_reconcile_config := mk_rcfg 30000 5 1000 60000 5000 3.

Definition rstats_zero : danos_reconcile_stats := mk_rstats 0 0 0 0 0.

Definition diff_cb (_ : danos_obj_type) (_ : Z) (u : unit) : unit := u.

Section reconciler.
Context {B : Type}.

Record rworld := mk_rworld {
  rw_ops : option (danos_backend_ops B);   (* g_ops *)
  rw_prog_stats : program_ctx;             (* g_prog_stats *)
  rw_core : core;
  rw_backend : B;
  g_reconciler : option danos_reconciler;
}.

Definition set_core (w : rworld) (c : core) : rworld :=
  mk_rworld (rw_ops w) (rw_prog_stats w) c (rw_backend w) (g_reconciler w).

Definition set_reconciler (w : rworld) (r : option danos_reconciler) : rworld :=
  mk_rworld (rw_ops w) (rw_prog_stats w) (rw_core w) (rw_backend w) r.

Definition set_running (r : danos_reconciler) (on : bool) : danos_reconciler :=
  mk_reconciler (rc_config r) (rc_state r) on (rc_stats r).

Definition set_rstats (r : danos_reconciler) (s : danos_reconcile_stats) : danos_reconciler :=
  mk_reconciler (rc_config r) (rc_state r) (rc_running r) s.

(** [danos_programming_run] with or without backend operations. *)
Definition programming_run (w : rworld) : program_ctx * rworld :=
  match rw_ops w with
  | None => (mk_pctx 0 0 0, w)
  | Some ops =>
      let '(p, st, c, b) := danos_programming_run ops (rw_prog_stats w) (rw_core w) (rw_backend w) in
      (p, mk_rworld (rw_ops w) st c b (g_reconciler w))
  end.

Definition danos_reconciler_init (state : option danos_state_store)
    (config : option danos_reconcile_config) (w : rworld) : Z * rworld :=
  if bool_decide (is_Some (g_reconciler w)) then (0, w) else
  let '(ok, c) := core_alloc (rw_core w) in
  if negb ok then (-1, set_core w c) else
  (0, set_reconciler (set_core w c)
        (Some (mk_reconciler (default kDefaultConfig config) state false rstats_zero))).

(** The join of the thread ends with the thread's exit; see [reconcile_tick]. *)
Definition danos_reconciler_stop (w : rworld) : rworld :=
  match g_reconciler w with
  | Some r => if rc_running r then set_reconciler w (Some (set_running r false)) else w
  | None => w
  end.

Definition danos_reconciler_fini (w : rworld) : rworld :=
  match g_reconciler w with
  | None => w
  | Some _ => set_reconciler (danos_reconciler_stop w) None
  end.

(** [pthread_create] is answered by the environment like an allocation. *)
Definition danos_reconciler_start (w : rworld) : Z * rworld :=
  match g_reconciler w with
  | None => (-1, w)
  | Some r =>
      if rc_running r then (0, w) else
      let '(ok, c) := core_alloc (rw_core w) in
      if ok then (0, set_reconciler (set_core w c) (Some (set_running r true)))
      else (-1, set_reconciler (set_core w c) (Some (set_running r false)))
  end.

Definition reconcile_event (now : Z) : danos_event :=
  mk_event DANOS_EVENT_RECONCILE now DANOS_OBJ_INVALID 0 0 (Some "reconcile repaired drift"%string).

(** [now] is the clock when the event is built. *)
Definition danos_reconciler_run_once (now : Z) (w : rworld) : Z * rworld :=
  match g_reconciler w with
  | None => (0, w)
  | Some r =>
      match rc_state r with
      | None =>
          let '(p, w) := programming_run w in
          let s := rc_stats r in
          (pc_ok p, set_reconciler w (Some (set_rstats r
             (mk_rstats (total_runs s) (total_diffs s) (u64 (total_repairs s + pc_attempted p))
                (u64 (total_failures s + pc_failed p)) (total_flaps s)))))
      | Some ss =>
          let s := rc_stats r in
          let runs := u64 (total_runs s + 1) in
          let '(diffs, _, c) := danos_state_diff_desired_programmed diff_cb ss tt (rw_core w) in
          let '(p, w) := programming_run (set_core w c) in
          let w := set_reconciler w (Some (set_rstats r
             (mk_rstats runs (u64 (total_diffs s + diffs)) (u64 (total_repairs s + pc_attempted p))
                (u64 (total_failures s + pc_failed p)) (total_flaps s)))) in
          let c := rw_core w in
          (diffs, if 0 <? diffs
                  then set_core w (set_events c (danos_event_publish (reconcile_event now) (c_events c)))
                  else w)
      end
  end.

(** One iteration of [reconcile_thread] after its sleep: [None] when the loop
    ends; otherwise the time waited and the world. *)
Definition reconcile_tick (period_us now waited : Z) (w : rworld) : option (Z * rworld) :=
  match g_reconciler w with
  | Some r =>
      if negb (rc_running r) then None else
      let waited := u64 (waited + 50000) in
      let '(dirty, c) := danos_programming_dirty_take (rw_core w) in
      let w := set_core w c in
      if negb dirty && (waited <? period_us) then Some (waited, w)
      else Some (0, (danos_reconciler_run_once now w).2)
  | None => None
  end.

(** The wake-ups of the thread at the given times. *)
Fixpoint reconcile_thread (period_us : Z) (nows : list Z) (waited : Z) (w : rworld) : Z * rworld :=
  match nows with
  | [] => (waited, w)
  | now :: nows =>
      match reconcile_tick period_us now waited w with
      | None => (waited, w)
      | Some (waited, w) => reconcile_thread period_us nows waited w
      end
  end.

Definition thread_period (cfg : danos_reconcile_config) : Z := u64 (reconcile_period_ms cfg * 1000).

Definition danos_reconcile_trigger (_ : danos_obj_type) (now : Z) (w : rworld)
    : danos_status * rworld :=
  (DANOS_OK, (danos_reconciler_run_once now w).2).

(** The caller's structure, and what it holds afterwards. *)
Definition danos_reconcile_get_stats (_ : danos_obj_type) (out : option danos_reconcile_stats)
    (w : rworld) : danos_status * option danos_reconcile_stats :=
  match out, g_reconciler w with
  | None, _ => (DANOS_ERR_INVALID_ARG, None)
  | Some _, None => (DANOS_OK, Some rstats_zero)
  | Some _, Some r => (DANOS_OK, Some (rc_stats r))
  end.

(** Each counter goes to its pointer, where one is given. *)
Definition danos_reconciler_global_stats (runs diffs repairs failures : option Z) (w : rworld)
    : option Z * option Z * option Z * option Z :=
  match g_reconciler w with
  | None => (runs, diffs, repairs, failures)
  | Some r =>
      let s := rc_stats r in
      let put (p : option Z) (v : Z) := (fun _ => v) <$> p in
      (put runs (total_runs s), put diffs (total_diffs s), put repairs (total_repairs s),
       put failures (total_failures s))
  end.
End reconciler.
#[global] Arguments rworld : clear implicits.

(** ** Lemmas *)

Lemma set_dirty_wf c d : core_wf c -> core_wf (set_dirty c d).
Proof. intros [W1 W2 W3 W4 W5]. by split. Qed.

Lemma set_dirty_prog_env h c d : prog_env h c -> prog_env h (set_dirty c d).
Proof. intros [Hw Hd He]. split; [by apply set_dirty_wf|done..]. Qed.

Section thread.
Context {B : Type}.

(** The wake-ups while other threads act between them: the world each one
    finds, and the world it leaves. *)
Fixpoint wakeups (period_us waited : Z) (ns : list (Z * rworld B)) : list (rworld B) :=
  match ns with
  | [] => []
  | (now, w) :: ns =>
      match reconcile_tick period_us now waited w with
      | None => []
      | Some (waited, w') => w' :: wakeups period_us waited ns
      end
  end.

(** The thread is not asked to stop, and runs with configuration [cfg]. *)
Definition runs (cfg : danos_reconcile_config) (w : rworld B) : Prop :=
  exists r, g_reconciler w = Some r /\ rc_running r = true /\ rc_config r = cfg.

(** The world with the dirty flag taken. *)
Definition taken (w : rworld B) : rworld B := set_core w (set_dirty (rw_core w) false).

Lemma taken_clean w : g_dirty (rw_core w) = false -> taken w = w.
Proof. destruct w as [o p c b r], c. cbn. by intros ->. Qed.

Lemma tick_due cfg period_us now waited w :
  runs cfg w -> is_u64 (waited + 50000) -> g_dirty (rw_core w) = true \/ period_us <= waited + 50000 ->
  reconcile_tick period_us now waited w = Some (0, (danos_reconciler_run_once now (taken w)).2).
Proof.
  intros (r & Hr & Hrun & _) Hu Hdue. unfold reconcile_tick, danos_programming_dirty_take.
  rewrite Hr, Hrun, u64_small by done. cbn [negb]. destruct (g_dirty (rw_core w)); [done|].
  destruct Hdue as [?|Hdue]; [done|]. by rewrite (proj2 (Z.ltb_ge _ _) Hdue).
Qed.

Lemma tick_early cfg period_us now waited w :
  runs cfg w -> is_u64 (waited + 50000) -> g_dirty (rw_core w) = false -> waited + 50000 < period_us ->
  reconcile_tick period_us now waited w = Some (waited + 50000, w).
Proof.
  intros (r & Hr & Hrun & _) Hu Hd Hlt. unfold reconcile_tick, danos_programming_dirty_take.
  rewrite Hr, Hrun, u64_small by done. cbn [negb].
  change (set_core w (set_dirty (rw_core w) false)) with (taken w). rewrite (taken_clean w Hd), Hd.
  by rewrite (proj2 (Z.ltb_lt _ _) Hlt).
Qed.

Lemma wakeups_early cfg period_us waited ns ns' :
  Forall (fun nw => runs cfg nw.2 /\ g_dirty (rw_core nw.2) = false) ns ->
  0 <= waited -> waited + 50000 * Z.of_nat (length ns) < period_us -> period_us < 2 ^ 64 ->
  wakeups period_us waited (ns ++ ns') =
    ns.*2 ++ wakeups period_us (waited + 50000 * Z.of_nat (length ns)) ns'.
Proof.
  intros Hns. revert waited. induction Hns as [|[now w] ns [Hr Hd] _ IH]; intros waited H0 Hlt Hp.
  { cbn. by rewrite Z.add_0_r. }
  cbn [length] in *. cbn [app wakeups].
  rewrite (tick_early cfg) by (done || unfold is_u64; lia).
  rewrite IH by lia. cbn. do 3 f_equal. lia.
Qed.


(** The state in which the thread has nothing to do, in the programming-only
    mode. *)
Record quiet (h : Z) (ops : danos_backend_ops B) (w : rworld B) : Prop := {
  qu_ops : rw_ops w = Some ops;
  qu_mode : forall r, g_reconciler w = Some r -> rc_state r = None;
  qu_env : prog_env h (rw_core w);
  qu_fits : desired_fits h (rw_core w);
  qu_step : in_step h (rw_core w);
}.

Lemma quiet_clean h ops w d : quiet h ops w -> quiet h ops (set_core w (set_dirty (rw_core w) d)).
Proof. intros [Q1 Q2 Q3 Q4 Q5]. split; try done. by apply set_dirty_prog_env. Qed.

Lemma quiet_run h ops now w :
  quiet h ops w ->
  let w' := (danos_reconciler_run_once now w).2 in
  quiet h ops w' /\ rw_core w' = rw_core w /\ rw_backend w' = rw_backend w.
Proof.
  intros [Q1 Q2 Q3 Q4 Q5]. unfold danos_reconciler_run_once.
  destruct (g_reconciler w) as [r|] eqn:Hr; [|simpl; split_and!; try done; by split; rewrite ?Hr].
  rewrite (Q2 r eq_refl). unfold programming_run. rewrite Q1.
  destruct (pe_live h _ Q3) as [s Hs].
  rewrite (run_idle ops h (rw_core w) (rw_backend w) (rw_prog_stats w) Q3 s Hs Q4 Q5).
  simpl. split_and!; try done. split; simpl; try done. intros r' [= <-]. simpl. by apply Q2.
Qed.

Lemma quiet_thread h ops period_us nows waited w :
  quiet h ops w ->
  let w' := (reconcile_thread period_us nows waited w).2 in
  set_dirty (rw_core w') false = set_dirty (rw_core w) false /\ rw_backend w' = rw_backend w.
Proof.
  revert waited w. induction nows as [|now nows IH]; intros waited w Hq; [done|].
  cbn [reconcile_thread]. unfold reconcile_tick, danos_programming_dirty_take.
  destruct (g_reconciler w) as [r|]; [|by split]. destruct (rc_running r); [|by split]. cbn [negb].
  pose proof (quiet_clean h ops w false Hq) as Hc.
  destruct (negb _ && _).
  - specialize (IH (u64 (waited + 50000)) _ Hc).
    exact IH.
  - destruct (quiet_run h ops now _ Hc) as (Hq' & Hco & Hb).
    specialize (IH 0 _ Hq'). cbn zeta in IH. destruct IH as [-> ->]. by rewrite Hco, Hb.
Qed.

(** Once the ledger is in step with the desired state, the reconcile
    thread of the programming-only mode is quiet: however often it wakes up,
    it makes no backend call, and nothing in the core library changes but the
    dirty flag. *)
Theorem reconcile_quiescent h ops period_us nows waited (w : rworld B) r :
  rw_ops w = Some ops -> g_reconciler w = Some r -> rc_state r = None ->
  prog_env h (rw_core w) -> desired_fits h (rw_core w) -> in_step h (rw_core w) ->
  let w' := (reconcile_thread period_us nows waited w).2 in
  set_dirty (rw_core w') false = set_dirty (rw_core w) false /\ rw_backend w' = rw_backend w.
Proof.
  intros H1 H2 H3 H4 H5 H6. apply quiet_thread with h ops. split; try done.
  intros r' Hr'. by simplify_eq.
Qed.
End thread.

(** A reconciliation looks at desired objects only: whatever the backend
    answers, the ledger entry of an object that is no longer desired is still
    there afterwards.  Withdrawing it takes a sweep, which the reconciler does
    not run. *)
Theorem reconcile_keeps_deleted {B} h s ops now (w : rworld B) r k :
  rw_ops w = Some ops -> g_reconciler w = Some r -> rc_state r = None ->
  prog_env h (rw_core w) -> c_stores (rw_core w) !! h = Some s -> desired_fits h (rw_core w) ->
  Z.of_nat (length (store_entries s)) < 2 ^ 64 - 1 ->
  objs (rw_core w) h !! k = None ->
  ledger_map (rw_core (danos_reconciler_run_once now w).2) !! k = ledger_map (rw_core w) !! k.
Proof.
  intros Ho Hr Hst Hp Hs Hf Hn Hk. unfold danos_reconciler_run_once, programming_run.
  rewrite Hr, Hst, Ho. rewrite (run_unfold ops h (rw_core w) (rw_backend w) _ Hp s Hs).
  destruct (foldl _ _ _) as [[p1 c1] b1] eqn:E. cbn [snd rw_core set_reconciler].
  apply (run_fold ops h) in E as (_ & _ & Hoth & _); try done.
  - apply Hoth. intros (e & -> & He)%list_elem_of_fmap.
    apply (entries_objs _ h s e (pe_wf h _ Hp) Hs) in He. congruence.
  - apply (wf_nodup s), (cw_stores _ (pe_wf h _ Hp) h s Hs).
  - intros. by apply (entries_fit h (rw_core w) Hp s Hs Hf).
Qed.

(** ** Witnesses *)

Definition demo_reconciler : danos_reconciler :=
  mk_reconciler kDefaultConfig None true rstats_zero.

Definition demo_world (c : core) : rworld (list backend_call) :=
  mk_rworld (Some log_ops) (mk_pctx 0 0 0) c [] (Some demo_reconciler).


Lemma reconcile_quiescent_witness :
  let '(_, _, c, _) := danos_programming_run log_ops (mk_pctx 0 0 0) demo_prog_core [] in
  let w' := (reconcile_thread 100000 [0; 0; 0; 0] 0 (demo_world c)).2 in
  set_dirty (rw_core w') false = set_dirty c false /\ rw_backend w' = [].
Proof.
  destruct demo_prog_facts as (Hp & _ & s & Hs).
  assert ((danos_programming_run log_ops (mk_pctx 0 0 0) demo_prog_core []).1.1.1 = mk_pctx 1 1 0)
    as Hpc by (vm_compute; reflexivity).
  assert (Z.of_nat (length (store_entries s)) < 2 ^ 64 - 1) as Hn.
  { replace s with (default (danos_object_store_create 1) (c_stores demo_prog_core !! 1))
      by (by rewrite Hs). vm_compute. reflexivity. }
  destruct (danos_programming_run log_ops (mk_pctx 0 0 0) demo_prog_core [])
    as [[[p st'] c'] b'] eqn:E. cbn [fst] in Hpc. subst p.
  destruct (run_in_step log_ops 1 demo_prog_core [] _ Hp s Hs _ st' c' b' demo_prog_fits Hn E
              eq_refl) as [Hsd Hin].
  apply (reconcile_quiescent 1 log_ops 100000 [0; 0; 0; 0] 0 (demo_world c') demo_reconciler);
    [done|done|done|apply Hsd| |exact Hin].
  eapply fits_preserved; [exact demo_prog_fits|exact Hsd|exact Hin].
Defined.

Lemma demo_stale_desired_fits : desired_fits 1 demo_stale_core.
Proof.
  destruct demo_stale_facts as (_ & _ & Ho & Hm). destruct demo_prog_facts as (_ & Ho' & _).
  intros k d Hd Hsk. pose proof (demo_prog_fits k d) as Hf.
  rewrite Ho', <- Ho in Hf. destruct (Hf Hd Hsk) as (F1 & F2 & _).
  split_and!; [done|done|]. rewrite Hm. intros r.
  rewrite Ho in Hd. apply lookup_insert_Some in Hd as [[<- <-]|[_ Hd]];
    [|by rewrite lookup_empty in Hd].
  by rewrite lookup_insert_ne, lookup_empty.
Qed.

Lemma reconcile_keeps_deleted_witness :
  ledger_map (rw_core (danos_reconciler_run_once 0 (demo_world demo_stale_core)).2)
    !! (DANOS_OBJ_ROUTE, 9) = Some (zeros 64).
Proof.
  destruct demo_stale_facts as (Hp & _ & Ho & Hm). destruct (pe_live 1 _ Hp) as [s Hs].
  rewrite (reconcile_keeps_deleted 1 s log_ops 0 (demo_world demo_stale_core) demo_reconciler).
  - cbn [demo_world rw_core]. by rewrite Hm, lookup_insert_eq.
  - done.
  - done.
  - done.
  - exact Hp.
  - exact Hs.
  - apply demo_stale_desired_fits.
  - replace s with (default (danos_object_store_create 1) (c_stores demo_stale_core !! 1))
      by (by rewrite Hs). vm_compute. reflexivity.
  - cbn [demo_world rw_core]. by rewrite Ho, lookup_insert_ne, lookup_empty.
Defined.
