(* ===== verification/Netlink.v ===== *)
(** * The netlink backend: danos-netlink danos_netlink.h / danos_netlink.c

    The backend operations over the mock tables and over rtnetlink.  The
    kernel is a script of answers, one for each request: whether [send]
    succeeds and the bytes [recv] returns; when it runs out, every request is
    acknowledged.  Requests are kept in the order they are sent. *)

From stdpp Require Import base decidable list numbers gmap strings.
From Stdlib Require Import ZArith Lia.
From S2P Require Import Prelude Dpa ObjectStore Wal EventBus Registry Persist DpaObjects Pipeline.

(** ** State *)

Definition MOCK_MAX_ROUTES : nat := Z.to_nat 4096.
Definition MOCK_MAX_IFACES : nat := 256.

Record mock_route_t := mk_mock {
  mr_table_id : Z;
  mr_addr : bytes;           (* uint8_t addr[4] *)
  mr_len : Z;
  mr_used : bool;
}.

Definition mock_zero : mock_route_t := mk_mock 0 (zeros 4) 0 false.

Record mock_tables := mk_tables {
  mt_routes : list mock_route_t;
  mt_route_count : Z;
  mt_iface_up : list bool;
  mt_iface_known : list bool;
}.

Definition tables_zero : mock_tables :=
  mk_tables (replicate MOCK_MAX_ROUTES mock_zero) 0 (replicate MOCK_MAX_IFACES false) (replicate MOCK_MAX_IFACES false).

(** [send] succeeds, and the bytes of the answer; [None] is a failed [recv]. *)
Definition nl_answer : Type := bool * option bytes.

(** [g_nl], [g_mock], [nl_fd], [danos_netlink_last_kernel_error], the answers
    to come and the requests sent. *)
Record netlink := mk_netlink {
  nl_real : bool;
  nl_initialized : bool;
  nl_mock : mock_tables;
  nl_fd : Z;
  nl_last_error : Z;
  nl_kernel : list nl_answer;
  nl_sent : list bytes;
}.

Definition with_mock (m : mock_tables) (n : netlink) : netlink :=
  mk_netlink (nl_real n) (nl_initialized n) m (nl_fd n) (nl_last_error n) (nl_kernel n) (nl_sent n).

(** ** Mock tables *)

Definition mock_matches (addr : bytes) (len table_id : Z) (r : mock_route_t) : bool :=
  mr_used r && (mr_len r =? len) && (mr_table_id r =? table_id) && bool_decide (mr_addr r = take 4 addr).

(** The index of the slot. *)
Definition mock_find (addr : bytes) (len table_id : Z) (m : mock_tables) : option nat :=
  fst <$> list_find (fun r => mock_matches addr len table_id r = true) (mt_routes m).

Definition mock_alloc (m : mock_tables) : option nat :=
  fst <$> list_find (fun r => mr_used r = false) (mt_routes m).

Definition danos_netlink_mock_route_count (n : netlink) : Z := mt_route_count (nl_mock n).

Definition danos_netlink_mock_route_exists (addr : bytes) (len table_id : Z) (n : netlink) : bool :=
  bool_decide (is_Some (mock_find addr len table_id (nl_mock n))).

Definition danos_netlink_mock_iface_up (ifindex : Z) (n : netlink) : bool :=
  if (ifindex =? 0) || (Z.of_nat MOCK_MAX_IFACES <=? ifindex) then false else
  default false (mt_iface_known (nl_mock n) !! Z.to_nat ifindex) &&
  default false (mt_iface_up (nl_mock n) !! Z.to_nat ifindex).

Definition danos_netlink_is_real (n : netlink) : bool := nl_real n && nl_initialized n.

(** ** rtnetlink messages *)

Definition RTM_NEWLINK : Z := 16.
Definition RTM_NEWADDR : Z := 20.
Definition RTM_DELADDR : Z := 21.
Definition RTM_NEWROUTE : Z := 24.
Definition RTM_DELROUTE : Z := 25.
Definition NLM_F_REQUEST : Z := 1.
Definition NLM_F_ACK : Z := 4.
Definition NLM_F_REPLACE : Z := 256.
Definition NLM_F_CREATE : Z := 1024.
Definition NLMSG_ERROR : Z := 2.
Definition RT_TABLE_MAIN : Z := 254.
Definition RTN_UNICAST : Z := 1.
Definition RTN_BLACKHOLE : Z := 6.
Definition RTPROT_STATIC : Z := 4.
Definition RTA_DST : Z := 1.
Definition RTA_OIF : Z := 4.
Definition RTA_GATEWAY : Z := 5.
Definition IFA_LOCAL : Z := 2.
Definition IFF_UP : Z := 1.
Definition NL_AF_INET : Z := 2.

(** [struct nlmsghdr] with the length of the whole message. *)
Definition nlmsghdr (len type flags seq : Z) : bytes :=
  le_bytes 4 len ++ le_bytes 2 type ++ le_bytes 2 flags ++ le_bytes 4 seq ++ le_bytes 4 0.

(** [struct rtattr] with four bytes of data. *)
Definition rtattr4 (type : Z) (data : bytes) : bytes := le_bytes 2 8 ++ le_bytes 2 type ++ take 4 data.

Definition rtm_table (vrf : Z) : Z := if (vrf =? 0) || (256 <=? vrf) then RT_TABLE_MAIN else vrf.

(** [struct rtmsg]. *)
Definition rtmsg (r : danos_route) : bytes :=
  [NL_AF_INET; u8 (pfx_len (rt_prefix r)); 0; 0; rtm_table (rt_vrf_id r); RTPROT_STATIC; 0;
   if Z.land (rt_flags r) DANOS_ROUTE_FLAG_BLACKHOLE =? 0 then RTN_UNICAST else RTN_BLACKHOLE] ++ le_bytes 4 0.

Definition route_attrs (res : danos_resolved_route) (add : bool) : list (Z * bytes) :=
  [(RTA_DST, ip_addr (pfx_addr (rt_prefix (rr_route res))))] ++
  (if add && rr_has_gw res
   then [(RTA_GATEWAY, rr_gw res)] ++
        (if rr_oif res =? 0 then [] else [(RTA_OIF, le_bytes 4 (rr_oif res))])
   else []).

Definition route_msg (res : danos_resolved_route) (add : bool) : bytes :=
  let attrs := route_attrs res add in
  nlmsghdr (28 + 8 * Z.of_nat (length attrs)) (if add then RTM_NEWROUTE else RTM_DELROUTE)
    (Z.lor (Z.lor NLM_F_REQUEST NLM_F_ACK) (if add then NLM_F_CREATE else 0)) 1 ++
  rtmsg (rr_route res) ++ (attrs ≫= fun a => rtattr4 a.1 a.2).

(** [struct ifinfomsg]. *)
Definition link_msg (ifindex : Z) (up : bool) : bytes :=
  nlmsghdr 32 RTM_NEWLINK (Z.lor NLM_F_REQUEST NLM_F_ACK) 1 ++
  zeros 4 ++ le_bytes 4 ifindex ++ le_bytes 4 (if up then IFF_UP else 0) ++ le_bytes 4 IFF_UP.

(** [struct ifaddrmsg]. *)
Definition addr_msg (i : danos_iface) (add : bool) : bytes :=
  let p := iface_ipv4_address i in
  nlmsghdr 32 (if add then RTM_NEWADDR else RTM_DELADDR)
    (Z.lor (Z.lor NLM_F_REQUEST NLM_F_ACK) (if add then Z.lor NLM_F_CREATE NLM_F_REPLACE else 0)) 0 ++
  [NL_AF_INET; u8 (pfx_len p); 0; 0] ++ le_bytes 4 (iface_ifindex i) ++ rtattr4 IFA_LOCAL (ip_addr (pfx_addr p)).

(** ** Talking to the kernel *)

(** The kernel's acknowledgement: an error message with code 0. *)
Definition nl_ack : bytes := nlmsghdr 36 NLMSG_ERROR 0 1 ++ le_bytes 4 0 ++ zeros 16.

Definition int32 (v : Z) : Z := if v <? 2 ^ 31 then v else v - 2 ^ 32.

(** [send], [recv] and the answer: 0 or -1.  [keep]: the error code is stored
    in [danos_netlink_last_kernel_error]. *)
Definition nl_request (keep : bool) (msg : bytes) (n : netlink) : Z * netlink :=
  let '((sent, reply), rest) := match nl_kernel n with [] => ((true, Some nl_ack), []) | a :: l => (a, l) end in
  if negb sent then
    (-1, mk_netlink (nl_real n) (nl_initialized n) (nl_mock n) (nl_fd n) (nl_last_error n) rest (nl_sent n))
  else
    let log err := mk_netlink (nl_real n) (nl_initialized n) (nl_mock n) (nl_fd n) err rest (nl_sent n ++ [msg]) in
    match reply with
    | None => (-1, log (nl_last_error n))
    | Some bs =>
        let resp := take 512 bs ++ zeros (512 - length bs) in
        if le_val (cread resp 4 2) =? NLMSG_ERROR then
          let error := int32 (le_val (cread resp 16 4)) in
          (if error =? 0 then 0 else -1, log (if keep then error else nl_last_error n))
        else (0, log (nl_last_error n))
    end.

(** [fd] is what [socket] returns. *)
Definition nl_open (fd : Z) (n : netlink) : Z * netlink :=
  if 0 <=? nl_fd n then (0, n) else
  (if fd <? 0 then -1 else 0,
   mk_netlink (nl_real n) (nl_initialized n) (nl_mock n) fd (nl_last_error n) (nl_kernel n) (nl_sent n)).

Definition nl_route_msg (res : danos_resolved_route) (add : bool) (n : netlink) : Z * netlink :=
  nl_request true (route_msg res add) n.

Definition nl_iface_up (ifindex : Z) (up : bool) (n : netlink) : Z * netlink :=
  nl_request false (link_msg ifindex up) n.

Definition nl_iface_addr_msg (i : danos_iface) (add : bool) (n : netlink) : Z * netlink :=
  if negb (ip_af (pfx_addr (iface_ipv4_address i)) =? DANOS_AF_IPV4) then (0, n)
  else nl_request true (addr_msg i add) n.

Definition io_status (r : Z * netlink) : danos_status * netlink :=
  (if r.1 =? 0 then DANOS_OK else DANOS_ERR_BACKEND_IO, r.2).

(** ** Backend operations *)

Definition ops_iface_up (ifindex : Z) (up : bool) (n : netlink) : danos_status * netlink :=
  if ifindex =? 0 then (DANOS_ERR_INVALID_ARG, n) else
  if negb (nl_real n) then
    if Z.of_nat MOCK_MAX_IFACES <=? ifindex then (DANOS_ERR_INVALID_ARG, n) else
    let m := nl_mock n in
    (DANOS_OK, with_mock (mk_tables (mt_routes m) (mt_route_count m) (<[Z.to_nat ifindex := up]> (mt_iface_up m))
                            (<[Z.to_nat ifindex := true]> (mt_iface_known m))) n)
  else io_status (nl_iface_up ifindex up n).

Definition ops_iface_addr_set (i : danos_iface) (n : netlink) : danos_status * netlink :=
  if iface_ifindex i =? 0 then (DANOS_ERR_INVALID_ARG, n)
  else if negb (nl_real n) then (DANOS_OK, n)
  else io_status (nl_iface_addr_msg i true n).

Definition ops_iface_addr_del (i : danos_iface) (n : netlink) : danos_status * netlink :=
  if iface_ifindex i =? 0 then (DANOS_ERR_INVALID_ARG, n)
  else if negb (nl_real n) then (DANOS_OK, n)
  else if negb (ip_af (pfx_addr (iface_ipv4_address i)) =? DANOS_AF_IPV4) then (DANOS_OK, n)
  else io_status (nl_iface_addr_msg i false n).

Definition mock_add (r : danos_route) (m : mock_tables) : danos_status * mock_tables :=
  let addr := ip_addr (pfx_addr (rt_prefix r)) in
  let len := pfx_len (rt_prefix r) in
  match mock_find addr len (rt_vrf_id r) m with
  | Some _ => (DANOS_OK, m)
  | None =>
      match mock_alloc m with
      | None => (DANOS_ERR_NO_MEMORY, m)
      | Some i =>
          (DANOS_OK, mk_tables (<[i := mk_mock (rt_vrf_id r) (take 4 addr) len true]> (mt_routes m))
                       (u32 (mt_route_count m + 1)) (mt_iface_up m) (mt_iface_known m))
      end
  end.

Definition ops_route_add (res : danos_resolved_route) (n : netlink) : danos_status * netlink :=
  let r := rr_route res in
  if negb (ip_af (pfx_addr (rt_prefix r)) =? DANOS_AF_IPV4) then (DANOS_ERR_INVALID_ARG, n)
  else if 32 <? pfx_len (rt_prefix r) then (DANOS_ERR_INVALID_ARG, n)
  else if negb (nl_real n) then
    let '(st, m) := mock_add r (nl_mock n) in (st, with_mock m n)
  else io_status (nl_route_msg res true n).

Definition set_used (used : bool) (r : mock_route_t) : mock_route_t :=
  mk_mock (mr_table_id r) (mr_addr r) (mr_len r) used.

Definition mock_del (r : danos_route) (m : mock_tables) : danos_status * mock_tables :=
  match mock_find (ip_addr (pfx_addr (rt_prefix r))) (pfx_len (rt_prefix r)) (rt_vrf_id r) m with
  | None => (DANOS_ERR_NOT_FOUND, m)
  | Some i =>
      (DANOS_OK, mk_tables (alter (set_used false) i (mt_routes m))
                   (if mt_route_count m =? 0 then 0 else mt_route_count m - 1) (mt_iface_up m) (mt_iface_known m))
  end.

Definition ops_route_del (res : danos_resolved_route) (n : netlink) : danos_status * netlink :=
  let r := rr_route res in
  if negb (ip_af (pfx_addr (rt_prefix r)) =? DANOS_AF_IPV4) then (DANOS_ERR_INVALID_ARG, n)
  else if negb (nl_real n) then
    let '(st, m) := mock_del r (nl_mock n) in (st, with_mock m n)
  else io_status (nl_route_msg res false n).

Definition ops_vrf_add (vrf : danos_vrf) (n : netlink) : danos_status * netlink := (DANOS_OK, n).
Definition ops_vrf_del (vrf_id : Z) (n : netlink) : danos_status * netlink := (DANOS_OK, n).

Definition netlink_ops : danos_backend_ops netlink :=
  mk_ops netlink (Some ops_iface_up) (Some ops_iface_addr_set) (Some ops_iface_addr_del) (Some ops_route_add)
    (Some ops_route_del) (Some ops_vrf_add) (Some ops_vrf_del).

(** ** Lifecycle *)

Definition danos_netlink_init (fd : Z) (real : bool) (n : netlink) : Z * netlink :=
  let n := mk_netlink real true tables_zero (nl_fd n) (nl_last_error n) (nl_kernel n) (nl_sent n) in
  if negb real then (0, n) else
  let '(rc, n) := nl_open fd n in
  if rc =? 0 then (0, n)
  else (-1, mk_netlink false true (nl_mock n) (nl_fd n) (nl_last_error n) (nl_kernel n) (nl_sent n)).

Definition danos_netlink_shutdown (n : netlink) : netlink :=
  mk_netlink (nl_real n) false (nl_mock n) (if 0 <=? nl_fd n then -1 else nl_fd n) (nl_last_error n)
    (nl_kernel n) (nl_sent n).

(** ** The mock FIB is a set of routes *)

Abbreviation fib_key := (Z * bytes * Z)%type.

Definition mock_key (r : mock_route_t) : fib_key := (mr_table_id r, mr_addr r, mr_len r).

Definition slot_key (r : mock_route_t) : option fib_key := if mr_used r then Some (mock_key r) else None.

Definition used_keys (l : list mock_route_t) : list fib_key := omap slot_key l.

(** Table, network and length of a route. *)
Definition route_fib_key (r : danos_route) : fib_key :=
  (rt_vrf_id r, take 4 (ip_addr (pfx_addr (rt_prefix r))), pfx_len (rt_prefix r)).

Definition fib (m : mock_tables) : gset fib_key := list_to_set (used_keys (mt_routes m)).

Record tables_wf (m : mock_tables) : Prop := {
  tw_length : length (mt_routes m) = MOCK_MAX_ROUTES;
  tw_nodup : NoDup (used_keys (mt_routes m));
  tw_count : mt_route_count m = Z.of_nat (length (used_keys (mt_routes m)));
  tw_ups : length (mt_iface_up m) = MOCK_MAX_IFACES;
  tw_known : length (mt_iface_known m) = MOCK_MAX_IFACES;
}.

Definition key_list (o : option fib_key) : list fib_key := match o with Some k => [k] | None => [] end.

Lemma used_keys_app l1 l2 : used_keys (l1 ++ l2) = used_keys l1 ++ used_keys l2.
Proof. apply omap_app. Qed.

Lemma used_keys_cons x l : used_keys (x :: l) = key_list (slot_key x) ++ used_keys l.
Proof. unfold used_keys. cbn. by destruct (slot_key x). Qed.

Lemma used_keys_le l : (length (used_keys l) <= length l)%nat.
Proof.
  induction l as [|x l IH]; [done|]. rewrite used_keys_cons, length_app. cbn [length].
  destruct (slot_key x); cbn; lia.
Qed.

Lemma used_keys_full l :
  (forall x, x ∈ l -> mr_used x = true) -> length (used_keys l) = length l.
Proof.
  induction l as [|x l IH]; intros H; [done|]. rewrite used_keys_cons. unfold slot_key.
  rewrite (H x) by left. cbn [key_list app length]. f_equal. apply IH. intros y Hy. apply H. by right.
Qed.

Lemma fib_elem m k : k ∈ fib m <-> k ∈ used_keys (mt_routes m).
Proof. apply elem_of_list_to_set. Qed.

Lemma fib_size m : tables_wf m -> Z.of_nat (size (fib m)) = mt_route_count m.
Proof. intros [_ Hn Hc _ _]. rewrite Hc. unfold fib. by rewrite size_list_to_set. Qed.

Lemma mock_matches_spec r x :
  mock_matches (ip_addr (pfx_addr (rt_prefix r))) (pfx_len (rt_prefix r)) (rt_vrf_id r) x = true <->
  slot_key x = Some (route_fib_key r).
Proof.
  unfold mock_matches, slot_key, mock_key, route_fib_key. rewrite !andb_true_iff, !Z.eqb_eq, bool_decide_eq_true.
  destruct (mr_used x); split; [intros (((_ & ->) & ->) & ->); done|intros [= -> -> ->]; done|by intros (((? & _) & _) & _)|done].
Qed.

(** [mock_find] finds the slot of the key, and nothing when it is free. *)
Lemma mock_find_spec r m :
  match mock_find (ip_addr (pfx_addr (rt_prefix r))) (pfx_len (rt_prefix r)) (rt_vrf_id r) m with
  | Some i => exists x, mt_routes m !! i = Some x /\ slot_key x = Some (route_fib_key r)
  | None => route_fib_key r ∉ fib m
  end.
Proof.
  unfold mock_find. destruct (list_find _ _) as [[i x]|] eqn:Hf; cbn [fmap option_fmap option_map fst].
  - apply list_find_Some in Hf as (Hl & Hm & _). exists x. split; [done|by apply mock_matches_spec].
  - apply list_find_None in Hf. rewrite fib_elem. unfold used_keys. rewrite list_elem_of_omap. intros (x & Hx & Hk).
    rewrite Forall_forall in Hf. apply (Hf x Hx). by apply mock_matches_spec.
Qed.

Lemma slot_elem m i x k : mt_routes m !! i = Some x -> slot_key x = Some k -> k ∈ fib m.
Proof.
  intros Hi Hk. rewrite fib_elem. apply list_elem_of_omap. exists x. split; [by eapply list_elem_of_lookup_2|done].
Qed.

(** Writing one slot. *)
Lemma used_keys_insert l i x y :
  l !! i = Some x -> exists l1 l2, used_keys l = l1 ++ key_list (slot_key x) ++ l2 /\
    used_keys (<[i := y]> l) = l1 ++ key_list (slot_key y) ++ l2.
Proof.
  intros Hi. exists (used_keys (take i l)), (used_keys (drop (S i) l)).
  pose proof (lookup_lt_Some _ _ _ Hi). rewrite <- (take_drop_middle l i x Hi) at 1.
  rewrite insert_take_drop by done. by rewrite !used_keys_app, !used_keys_cons.
Qed.

Lemma mock_add_new r m i x :
  tables_wf m -> mt_routes m !! i = Some x -> mr_used x = false -> route_fib_key r ∉ fib m ->
  let y := mk_mock (rt_vrf_id r) (take 4 (ip_addr (pfx_addr (rt_prefix r)))) (pfx_len (rt_prefix r)) true in
  let m' := mk_tables (<[i := y]> (mt_routes m)) (u32 (mt_route_count m + 1)) (mt_iface_up m) (mt_iface_known m) in
  tables_wf m' /\ fib m' = {[route_fib_key r]} ∪ fib m.
Proof.
  intros [Hl Hn Hc H4 H5] Hi Hx Hk y m'. destruct (used_keys_insert (mt_routes m) i x y Hi) as (l1 & l2 & E1 & E2).
  assert (Sx : slot_key x = None) by (unfold slot_key; by rewrite Hx).
  rewrite Sx in E1. cbn [key_list app] in E1. change (slot_key y) with (Some (route_fib_key r)) in E2.
  cbn [key_list app] in E2. rewrite fib_elem, E1 in Hk. rewrite E1 in Hn, Hc.
  split; [split; cbn [mt_routes mt_route_count mt_iface_up mt_iface_known m']|].
  - by rewrite length_insert.
  - rewrite E2. rewrite <- Permutation_middle. by constructor.
  - rewrite E2, Hc. pose proof (used_keys_le (mt_routes m)) as Hle. rewrite E1, Hl in Hle.
    rewrite !length_app in *. cbn [length]. rewrite u32_small; [lia|]. unfold is_u32, MOCK_MAX_ROUTES in *. lia.
  - done.
  - done.
  - unfold fib. cbn [mt_routes m']. rewrite E1, E2, !list_to_set_app_L. cbn [list_to_set]. set_solver.
Qed.

Lemma mock_del_found r m i x :
  tables_wf m -> mt_routes m !! i = Some x -> slot_key x = Some (route_fib_key r) ->
  let m' := mk_tables (alter (set_used false) i (mt_routes m))
              (if mt_route_count m =? 0 then 0 else mt_route_count m - 1) (mt_iface_up m) (mt_iface_known m) in
  tables_wf m' /\ fib m' = fib m ∖ {[route_fib_key r]}.
Proof.
  intros [Hl Hn Hc H4 H5] Hi Sx m'.
  destruct (used_keys_insert (mt_routes m) i x (set_used false x) Hi) as (l1 & l2 & E1 & E2).
  assert (Ha : alter (set_used false) i (mt_routes m) = <[i := set_used false x]> (mt_routes m)).
  { apply list_eq. intros j. destruct (decide (i = j)) as [<-|Hne].
    - rewrite list_lookup_alter_eq, Hi, list_lookup_insert_eq; [done|by eapply lookup_lt_Some].
    - by rewrite list_lookup_alter_ne, list_lookup_insert_ne. }
  rewrite Sx in E1. cbn [key_list app] in E1. change (slot_key (set_used false x)) with (@None fib_key) in E2.
  cbn [key_list app] in E2. rewrite E1 in Hn, Hc. rewrite <- Permutation_middle in Hn.
  apply NoDup_cons in Hn as [Hk Hn]. rewrite length_app in Hc. cbn [length] in Hc.
  split; [split; cbn [mt_routes mt_route_count mt_iface_up mt_iface_known m']|].
  - by rewrite length_alter.
  - by rewrite Ha, E2.
  - rewrite Ha, E2, Hc, length_app. rewrite (proj2 (Z.eqb_neq _ _)) by lia. lia.
  - done.
  - done.
  - unfold fib. cbn [mt_routes m']. rewrite Ha, E1, E2, !list_to_set_app_L. cbn [list_to_set].
    rewrite elem_of_app in Hk. set_solver.
Qed.
(** The mock FIB is the set of routes it was given: adding a route is
    idempotent and fails only when all 4096 slots hold other routes, deleting
    one that is not there reports so, every other slot is untouched, the
    invariant of the table is kept, and the counter is the size of the set. *)
Theorem netlink_fib_refines_set r m :
  tables_wf m ->
  (let '(st, m') := mock_add r m in
   tables_wf m' /\ mt_route_count m' = Z.of_nat (size (fib m')) /\
   (route_fib_key r ∈ fib m \/ (size (fib m) < MOCK_MAX_ROUTES)%nat ->
      st = DANOS_OK /\ fib m' = {[route_fib_key r]} ∪ fib m) /\
   (route_fib_key r ∉ fib m -> size (fib m) = MOCK_MAX_ROUTES -> st = DANOS_ERR_NO_MEMORY /\ m' = m)) /\
  (let '(st, m') := mock_del r m in
   tables_wf m' /\ mt_route_count m' = Z.of_nat (size (fib m')) /\ fib m' = fib m ∖ {[route_fib_key r]} /\
   st = if decide (route_fib_key r ∈ fib m) then DANOS_OK else DANOS_ERR_NOT_FOUND).
Proof.
  intros Hw. pose proof (mock_find_spec r m) as Hf. split.
  - unfold mock_add. destruct (mock_find _ _ _ m) as [i|].
    + destruct Hf as (x & Hi & Hx). pose proof (slot_elem m i x _ Hi Hx) as Hin. rewrite fib_size by done.
      split; [done|]. split; [done|]. split; [intros _; split; [done|set_solver]|done].
    + unfold mock_alloc. destruct (list_find _ (mt_routes m)) as [[i x]|] eqn:Ha; cbn [fmap option_fmap option_map fst].
      * apply list_find_Some in Ha as (Hi & Hx & _). destruct (mock_add_new r m i x Hw Hi Hx Hf) as [Hw' Hfib].
        split; [done|]. rewrite fib_size by done. split; [done|]. split; [done|]. intros _ Hs. exfalso.
        assert (Hall : length (used_keys (mt_routes m)) = MOCK_MAX_ROUTES).
        { rewrite <- Hs. unfold fib. by rewrite size_list_to_set by apply Hw. }
        pose proof (fib_size _ Hw') as Hs'. rewrite Hfib, size_union, size_singleton, Hs in Hs' by set_solver.
        pose proof (used_keys_le (<[i := mk_mock (rt_vrf_id r) (take 4 (ip_addr (pfx_addr (rt_prefix r))))
          (pfx_len (rt_prefix r)) true]> (mt_routes m))) as Hle.
        rewrite length_insert, (tw_length _ Hw) in Hle. rewrite (tw_count _ Hw') in Hs'. cbn [mt_routes] in Hs'. lia.
      * apply list_find_None in Ha. rewrite fib_size by done. split; [done|]. split; [done|]. split; [|done].
        intros [Hin|Hs]; [done|]. exfalso.
        assert (length (used_keys (mt_routes m)) = length (mt_routes m)) as Hall.
        { apply used_keys_full. intros x Hx. rewrite Forall_forall in Ha. by destruct (mr_used x) eqn:E; [|destruct (Ha x Hx E)]. }
        pose proof (fib_size m Hw). rewrite (tw_count _ Hw), Hall, (tw_length _ Hw) in *. lia.
  - unfold mock_del. destruct (mock_find _ _ _ m) as [i|].
    + destruct Hf as (x & Hi & Hx). destruct (mock_del_found r m i x Hw Hi Hx) as [Hw' Hfib].
      rewrite decide_True by (by eapply slot_elem). rewrite fib_size by done. done.
    + rewrite decide_False by done. rewrite fib_size by done. split; [done|]. split; [done|]. split; [set_solver|done].
Qed.

(** ** The pipeline over the mock tables *)

Definition mock_mode (n : netlink) : Prop := nl_real n = false /\ tables_wf (nl_mock n).

(** A route is in effect when the FIB has it. *)
Definition in_fib (t : danos_obj_type) (d : bytes) (n : netlink) : Prop :=
  t = DANOS_OBJ_ROUTE -> route_fib_key (of_mem d) ∈ fib (nl_mock n).

(** The FIB after an operation that keeps what it has. *)
Definition keeps (n n' : netlink) : Prop := mock_mode n' /\ fib (nl_mock n) ⊆ fib (nl_mock n').

Lemma iface_up_keeps i up n : mock_mode n -> keeps n (ops_iface_up i up n).2.
Proof.
  intros [Hr Hw]. unfold ops_iface_up, keeps. destruct (i =? 0); [by split|]. rewrite Hr. cbn [negb].
  destruct (_ <=? i); [by split|]. split; [|done]. split; [done|]. destruct Hw. split; try done; cbn; by rewrite length_insert.
Qed.

Lemma addr_set_keeps i n : mock_mode n -> keeps n (ops_iface_addr_set i n).2.
Proof. intros [Hr Hw]. unfold ops_iface_addr_set. rewrite Hr. by destruct (_ =? 0). Qed.

Lemma addr_del_keeps i n : mock_mode n -> keeps n (ops_iface_addr_del i n).2.
Proof. intros [Hr Hw]. unfold ops_iface_addr_del. rewrite Hr. by destruct (_ =? 0). Qed.

Lemma mock_add_ok r m :
  tables_wf m -> forall m', mock_add r m = (DANOS_OK, m') -> tables_wf m' /\ fib m' = {[route_fib_key r]} ∪ fib m.
Proof.
  intros Hw m'. pose proof (mock_find_spec r m) as Hf. unfold mock_add. destruct (mock_find _ _ _ m) as [i|].
  - intros [= <-]. destruct Hf as (x & Hi & Hx). pose proof (slot_elem m i x _ Hi Hx). split; [done|set_solver].
  - unfold mock_alloc. destruct (list_find _ (mt_routes m)) as [[i x]|] eqn:Ha; cbn [fmap option_fmap option_map fst]; [|done].
    apply list_find_Some in Ha as (Hi & Hx & _). intros [= <-]. by apply (mock_add_new r m i x).
Qed.

Lemma route_add_keeps res n n' :
  mock_mode n -> ops_route_add res n = (DANOS_OK, n') ->
  keeps n n' /\ route_fib_key (rr_route res) ∈ fib (nl_mock n').
Proof.
  intros [Hr Hw]. unfold ops_route_add. destruct (negb _); [done|]. destruct (32 <? _); [done|]. rewrite Hr. cbn [negb].
  destruct (mock_add (rr_route res) (nl_mock n)) as [st m] eqn:Ha. intros [= -> <-].
  destruct (mock_add_ok _ _ Hw _ Ha) as [Hw' Hf]. unfold keeps, mock_mode. cbn [with_mock nl_mock nl_real]. set_solver.
Qed.

Lemma drop_addr_keeps e last n n' : mock_mode n -> drop_old_addr netlink_ops e last n = (true, n') -> keeps n n'.
Proof.
  intros Hm. unfold drop_old_addr. destruct last as [[m lsz]|]; [|by intros [= <-]; split].
  cbn [netlink_ops iface_addr_del]. destruct (_ && _); [|by intros [= <-]; split].
  pose proof (addr_del_keeps (of_mem (cread m 8 (sizeof danos_iface))) n Hm) as Hk.
  destruct (ops_iface_addr_del _ n) as [st n1]. by intros [= _ <-].
Qed.

Lemma keeps_trans n1 n2 n3 : keeps n1 n2 -> keeps n2 n3 -> keeps n1 n3.
Proof. intros [_ H1] [H2 H3]. split; [done|set_solver]. Qed.

Lemma resolve_members_route c i ids out out' :
  resolve_members c i ids out = Some out' -> rr_route out' = rr_route out.
Proof.
  revert i out. induction ids as [|id ids IH]; intros i out; cbn [resolve_members]; [by intros [= <-]|].
  destruct (read_mem _ _ _ _ _); [|done]. intros H. by apply IH in H.
Qed.

Lemma resolve_route r c st rr : resolve_route_nh r c = (st, rr) -> st = DANOS_OK -> rr_route rr = r.
Proof.
  unfold resolve_route_nh. intros H ->. destruct (negb _); [by injection H as <-|]. destruct (_ =? 0); [done|].
  destruct (read_mem _ _ _ _ _) as [m|]; [|done]. destruct (_ =? 0); [done|].
  destruct (read_mem _ _ _ _ _) as [m2|]; [|done]. cbv zeta in H.
  destruct (resolve_members _ _ _ _) as [out|] eqn:Hm; [|done]. injection H as <-. by apply resolve_members_route in Hm.
Qed.

Lemma program_one_keeps t d c n n' :
  mock_mode n -> program_one netlink_ops t d c n = (DANOS_OK, n') -> keeps n n' /\ in_fib t d n'.
Proof.
  intros Hm. unfold in_fib, program_one. destruct t; try (by intros [=]);
    (match goal with |- context [(?a <=? ?b)%nat] => destruct (a <=? b)%nat end; [|by intros [=]]).
  - unfold program_iface. cbn [netlink_ops iface_up].
    pose proof (iface_up_keeps (iface_ifindex (of_mem d)) (iface_admin_up (of_mem d)) n Hm) as H1.
    destruct (ops_iface_up _ _ n) as [st n1]. cbn [snd] in H1. destruct (negb (bool_decide _)) eqn:Hb; [by intros [= -> <-]|].
    destruct (_ || _); [|intros [= <-]; by split].
    pose proof (addr_set_keeps (of_mem d) n1 (proj1 H1)) as H2. 
    change (call_op (iface_addr_set netlink_ops) (of_mem d) n1) with (ops_iface_addr_set (of_mem d) n1).
    intros Hs. rewrite Hs in H2. split; [by eapply keeps_trans|done].
  - change (call_op (vrf_add netlink_ops) (of_mem d) n) with (DANOS_OK, n). intros [= <-]. split; [by split|done].
  - unfold program_route. destruct (_ && _); [done|]. destruct (resolve_route_nh _ c) as [st rr] eqn:Hr.
    destruct (negb (bool_decide (st = DANOS_OK))) eqn:Hb; [intros [= -> <-]; done|].
    apply negb_false_iff, bool_decide_eq_true in Hb. change (call_op (route_add netlink_ops) rr n) with (ops_route_add rr n). intros Ha.
    destruct (route_add_keeps rr n n' Hm Ha) as [Hk Hin]. split; [done|]. intros _.
    by rewrite <- (resolve_route _ _ _ _ Hr Hb).
Qed.

Lemma netlink_promise : backend_promise netlink_ops mock_mode in_fib.
Proof.
  split. intros e b b' Hm (last & b1 & c1 & Hd & Ho).
  pose proof (drop_addr_keeps e last b b1 Hm Hd) as H1. destruct (program_one_keeps _ _ _ _ _ (proj1 H1) Ho) as [H2 Hin].
  pose proof (keeps_trans _ _ _ H1 H2) as [Hm' Hs]. split; [done|]. split; [done|]. intros t d HQ Ht. apply Hs, HQ, Ht.
Qed.

(** C9. The FIB follows the store: a programming pass over the netlink
    backend in its in-memory mode, in which every operation succeeds, leaves every desired route in
    the FIB with its table, network and length, the ones an earlier pass had
    installed included. *)
Theorem netlink_fib_follows_store h s c n stats p st' c' n' :
  prog_env h c -> c_stores c !! h = Some s -> desired_fits h c ->
  Z.of_nat (length (store_entries s)) < 2 ^ 64 - 1 ->
  mock_mode n -> covered in_fib c n ->
  danos_programming_run netlink_ops stats c n = (p, st', c', n') -> pc_ok p = pc_attempted p ->
  mock_mode n' /\ covered in_fib c' n' /\
  forall id d, objs c h !! (DANOS_OBJ_ROUTE, id) = Some d -> route_fib_key (of_mem d) ∈ fib (nl_mock n').
Proof.
  intros Hp Hs Hf Hn Hm Hc Hrun Hok.
  destruct (run_promised netlink_ops h c n stats Hp s Hs mock_mode in_fib p st' c' n' netlink_promise Hm Hc Hf Hn Hrun Hok)
    as (H1 & H2 & H3). split; [done|]. split; [done|]. intros id d Hd. by apply (H3 _ d Hd).
Qed.

(** ** What the kernel reads *)

(** The attributes of a message: a length, a type and the data, each padded to
    four bytes. *)
Fixpoint rta_walk (fuel : nat) (bs : bytes) : list (Z * bytes) :=
  match fuel with
  | O => []
  | S fuel =>
      if (length bs <? 4)%nat then [] else
      let len := Z.to_nat (le_val (cread bs 0 2)) in
      (le_val (cread bs 2 2), cread bs 4 (len - 4)) :: rta_walk fuel (drop ((len + 3) / 4 * 4) bs)
  end.

Lemma length_rtattr4 t d : (4 <= length d)%nat -> length (rtattr4 t d) = 8%nat.
Proof. intros H. unfold rtattr4. rewrite !length_app, !length_le_bytes, length_take. lia. Qed.

Lemma rta_walk_attr fuel t d rest :
  0 <= t < 2 ^ 16 -> (4 <= length d)%nat ->
  rta_walk (S fuel) (rtattr4 t d ++ rest) = (t, take 4 d) :: rta_walk fuel rest.
Proof.
  intros Ht Hd. cbn [rta_walk]. rewrite length_app, length_rtattr4 by done.
  rewrite (proj2 (Nat.ltb_ge _ _)) by lia.
  assert (H0 : cread (rtattr4 t d ++ rest) 0 2 = le_bytes 2 8).
  { unfold rtattr4. rewrite <- !app_assoc. by apply cread_here. }
  assert (H2 : cread (rtattr4 t d ++ rest) 2 2 = le_bytes 2 t).
  { unfold rtattr4. rewrite <- !app_assoc, cread_skip by done. apply cread_here, length_le_bytes. }
  assert (H4 : cread (rtattr4 t d ++ rest) 4 4 = take 4 d).
  { unfold rtattr4. rewrite <- !app_assoc. rewrite !cread_skip by (rewrite ?length_le_bytes; lia).
    rewrite !length_le_bytes. apply cread_here. rewrite length_take. lia. }
  rewrite H0, H2. change (Z.to_nat (le_val (le_bytes 2 8))) with 8%nat. change (8 - 4)%nat with 4%nat. rewrite H4.
  rewrite le_val_le_bytes by (change (256 ^ Z.of_nat 2) with (2 ^ 16); lia).
  change ((8 + 3) / 4 * 4)%nat with 8%nat. by rewrite drop_app_length' by (by rewrite length_rtattr4).
Qed.

Lemma rta_walk_attrs attrs fuel :
  Forall (fun a => 0 <= a.1 < 2 ^ 16 /\ (4 <= length a.2)%nat) attrs -> (length attrs <= fuel)%nat ->
  rta_walk fuel (attrs ≫= fun a => rtattr4 a.1 a.2) = (fun a => (a.1, take 4 a.2)) <$> attrs /\
  length (attrs ≫= fun a => rtattr4 a.1 a.2) = (8 * length attrs)%nat.
Proof.
  intros H. revert fuel. induction H as [|[t d] l [Ht Hd] _ IH]; intros fuel Hf; [by destruct fuel|].
  destruct fuel as [|fuel]; [cbn in Hf; lia|]. cbn [length] in Hf. destruct (IH fuel ltac:(lia)) as [IH1 IH2].
  rewrite bind_cons. cbn [fst snd]. rewrite rta_walk_attr by done. rewrite length_app, length_rtattr4, IH2 by done.
  split; [by rewrite IH1|cbn [length]; lia].
Qed.

(** A route reaches the kernel as it was resolved: the request's length is
    its own, its type says whether to add or delete, its table is the VRF (or
    the main table), its length is the prefix's, and its attributes read back
    as the network and, when adding through a gateway, the gateway and the
    outgoing interface. *)
Theorem netlink_route_message res add :
  struct_wf (rr_route res) -> length (rr_gw res) = 16%nat -> is_uint 4 (rr_oif res) ->
  let msg := route_msg res add in
  let r := rr_route res in
  le_val (cread msg 0 4) = Z.of_nat (length msg) /\
  le_val (cread msg 4 2) = (if add then RTM_NEWROUTE else RTM_DELROUTE) /\
  cread msg 16 8 = [NL_AF_INET; pfx_len (rt_prefix r); 0; 0; rtm_table (rt_vrf_id r); RTPROT_STATIC; 0;
    if Z.land (rt_flags r) DANOS_ROUTE_FLAG_BLACKHOLE =? 0 then RTN_UNICAST else RTN_BLACKHOLE] /\
  rta_walk 3 (drop 28 msg) =
    [(RTA_DST, take 4 (ip_addr (pfx_addr (rt_prefix r))))] ++
    (if add && rr_has_gw res
     then [(RTA_GATEWAY, take 4 (rr_gw res))] ++ (if rr_oif res =? 0 then [] else [(RTA_OIF, le_bytes 4 (rr_oif res))])
     else []).
Proof.
  intros Hw Hg Ho msg r.
  assert (Hattrs : Forall (fun a => 0 <= a.1 < 2 ^ 16 /\ (4 <= length a.2)%nat) (route_attrs res add)).
  { destruct Hw as (_ & ((_ & Ha & _) & _) & _). unfold route_attrs, RTA_DST, RTA_GATEWAY, RTA_OIF.
    constructor; [cbn; rewrite Ha; lia|]. destruct (add && _); [|constructor].
    constructor; [cbn; rewrite Hg; lia|]. destruct (_ =? 0); [constructor|]. constructor; [|constructor].
    cbn [fst snd]. rewrite length_le_bytes. lia. }
  assert (Hn : (length (route_attrs res add) <= 3)%nat).
  { unfold route_attrs. destruct (add && _); [|cbn; lia]. destruct (_ =? 0); cbn; lia. }
  destruct (rta_walk_attrs _ 3 Hattrs Hn) as [Hwalk Hlen]. subst msg. unfold route_msg.
  set (attrs := route_attrs res add) in *. set (body := attrs ≫= _) in *.
  assert (Hp : u8 (pfx_len (rt_prefix r)) = pfx_len (rt_prefix r)).
  { destruct Hw as (_ & (_ & Hp) & _). apply u8_small. unfold is_uint in Hp. unfold is_byte. cbn in Hp. subst r. lia. }
  split_and!.
  - unfold nlmsghdr. rewrite <- !app_assoc, cread_here by apply length_le_bytes.
    rewrite le_val_le_bytes by (change (256 ^ Z.of_nat 4) with (2 ^ 32); lia).
    rewrite !length_app, !length_le_bytes, Hlen. unfold rtmsg. rewrite length_app, length_le_bytes. cbn [length]. lia.
  - unfold nlmsghdr. rewrite <- !app_assoc, cread_skip by (rewrite length_le_bytes; lia). rewrite length_le_bytes.
    rewrite cread_here by apply length_le_bytes. apply le_val_le_bytes. by destruct add.
  - rewrite cread_skip by done. unfold rtmsg. fold r. rewrite <- app_assoc, Hp. by apply cread_here.
  - rewrite app_assoc, drop_app_length' by done. rewrite Hwalk. unfold attrs, route_attrs.
    rewrite !fmap_app. cbn [fmap list_fmap fst snd]. f_equal. destruct (add && _); [|done].
    rewrite !fmap_app. cbn [fmap list_fmap fst snd]. f_equal. destruct (_ =? 0); [done|]. cbn [fmap list_fmap fst snd].
    by rewrite take_ge by (rewrite length_le_bytes; lia).
Qed.

(** ** Concrete runs *)

Lemma used_keys_zero k : used_keys (replicate k mock_zero) = [].
Proof. induction k as [|k IH]; [done|]. cbn [replicate]. by rewrite used_keys_cons, IH. Qed.

Lemma tables_zero_wf : tables_wf tables_zero.
Proof.
  split; cbn [tables_zero mt_routes mt_route_count mt_iface_up mt_iface_known]; rewrite ?length_replicate, ?used_keys_zero;
    try done. constructor.
Qed.

Definition demo_nl : netlink := mk_netlink false true tables_zero (-1) 0 [] [].
Definition demo_nl_route : danos_route :=
  mk_route 3 (mk_ip_prefix (mk_ip_addr DANOS_AF_IPV4 ([10; 1; 0; 0] ++ zeros 12)) 16) 0 1 0 7 0.

Lemma netlink_fib_refines_set_witness :
  exists m, mock_add demo_nl_route tables_zero = (DANOS_OK, m) /\ fib m = {[(3, [10; 1; 0; 0], 16)]} ∪ fib tables_zero.
Proof.
  destruct (netlink_fib_refines_set demo_nl_route tables_zero tables_zero_wf) as [H _].
  destruct (mock_add demo_nl_route tables_zero) as [st m]. destruct H as (_ & _ & H & _).
  destruct H as [-> Hf].
  - right. unfold fib. cbn [tables_zero mt_routes]. rewrite used_keys_zero. unfold MOCK_MAX_ROUTES. cbn [list_to_set].
    rewrite size_empty. lia.
  - exists m. split; [reflexivity|exact Hf].
Defined.

Lemma demo_v4_ok : bytes_ok ([10; 1; 0; 0] ++ zeros 12).
Proof. apply Forall_app. split; [repeat constructor; lia|apply zeros_ok]. Qed.

Lemma netlink_route_message_witness :
  rta_walk 3 (drop 28 (route_msg (mk_resolved demo_nl_route true ([192; 0; 2; 1] ++ zeros 12) 5 1 [] []) true)) =
    [(RTA_DST, [10; 1; 0; 0]); (RTA_GATEWAY, [192; 0; 2; 1]); (RTA_OIF, [5; 0; 0; 0])].
Proof.
  apply (netlink_route_message (mk_resolved demo_nl_route true ([192; 0; 2; 1] ++ zeros 12) 5 1 [] []) true).
  - repeat split; try (by vm_compute). apply demo_v4_ok.
  - reflexivity.
  - by vm_compute.
Defined.

(** A blackhole route in the store, and a pass that installs it. *)
Definition demo_hole : danos_route :=
  mk_route 3 (mk_ip_prefix (mk_ip_addr DANOS_AF_IPV4 ([10; 1; 0; 0] ++ zeros 12)) 16) 0 1 0 0 DANOS_ROUTE_FLAG_BLACKHOLE.
Definition demo_nl_core : core := (danos_route_create (Some demo_hole) demo_prog_core).2.
Definition demo_hole_key : obj_key := (DANOS_OBJ_ROUTE, route_id demo_hole).

Lemma demo_hole_wf : struct_wf demo_hole.
Proof. repeat split; try (by vm_compute). apply demo_v4_ok. Qed.

Lemma demo_nl_facts :
  prog_env 1 demo_nl_core /\ g_programmed demo_nl_core = None /\
  objs demo_nl_core 1 = <[demo_hole_key := to_mem demo_hole]> (objs demo_prog_core 1) /\
  is_Some (c_stores demo_nl_core !! 1).
Proof.
  destruct demo_prog_facts as (Hp & _).
  destruct (create_as_ok DANOS_OBJ_ROUTE route_id demo_hole demo_prog_core demo_nl_core)
    as (h & c1 & Hg & Hwf & Hd & Hl & _ & Ho); [apply Hp|vm_compute; reflexivity|].
  unfold get_default_store in Hg. rewrite (pe_default _ _ Hp) in Hg. injection Hg as <- <-.
  split; [split; [done|done|vm_compute; reflexivity]|]. split; [vm_compute; reflexivity|]. by split.
Qed.

Lemma demo_nl_fits : desired_fits 1 demo_nl_core.
Proof.
  destruct demo_nl_facts as (_ & Hn & Ho & _). intros k d Hd Hsk.
  assert (Hl : forall r, ledger_map demo_nl_core !! k = Some r -> False).
  { unfold ledger_map. rewrite Hn. intros r Hr. by rewrite lookup_empty in Hr. }
  rewrite Ho in Hd. apply lookup_insert_Some in Hd as [[<- <-]|[_ Hd]].
  - split; [rewrite (length_to_mem demo_hole demo_hole_wf); cbn; lia|].
    split; [apply (to_mem_ok demo_hole demo_hole_wf)|]. intros r Hr. destruct (Hl r Hr).
  - destruct (demo_prog_fits k d Hd Hsk) as (F1 & F2 & _). split; [done|]. split; [done|].
    intros r Hr. destruct (Hl r Hr).
Qed.

Lemma netlink_fib_follows_store_witness :
  let '(p, st', c', n') := danos_programming_run netlink_ops (mk_pctx 0 0 0) demo_nl_core demo_nl in
  route_fib_key (of_mem (to_mem demo_hole)) ∈ fib (nl_mock n').
Proof.
  destruct demo_nl_facts as (Hp & Hn & Ho & s & Hs).
  destruct (danos_programming_run netlink_ops (mk_pctx 0 0 0) demo_nl_core demo_nl) as [[[p st'] c'] n'] eqn:E.
  apply (netlink_fib_follows_store 1 s demo_nl_core demo_nl (mk_pctx 0 0 0) p st' c' n' Hp Hs demo_nl_fits)
    with (id := route_id demo_hole).
  - replace s with (default (danos_object_store_create 1) (c_stores demo_nl_core !! 1)) by (by rewrite Hs).
    vm_compute. reflexivity.
  - split; [reflexivity|exact tables_zero_wf].
  - intros k rec Hk. unfold ledger_map in Hk. rewrite Hn in Hk. by rewrite lookup_empty in Hk.
  - exact E.
  - revert E. vm_compute. by intros [= <- _ _ _].
  - rewrite Ho. apply lookup_insert_eq.
Defined.
