(* ===== verification/Zapi.v ===== *)
(** * ZAPI wire protocol: danos-fib zapi.h / zapi_parse.c

    Message framing (the test protocol and FRR's), the payload decoder and
    encoder, and the decoder of FRR's native route message.  A pointer with a
    size is the list of bytes it points to; a message keeps its payload
    pointer and payload size separately, as the code does. *)

From stdpp Require Import base decidable list numbers.
From Stdlib Require Import ZArith Lia.
From S2P Require Import Prelude Dpa.

Definition ZAPI_HEADER_MARKER : Z := 0xFFFF.
Definition ZAPI_VERSION : Z := 6.
Definition ZAPI_HEADER_SIZE : nat := 9.
Definition FRR_ZAPI_HEADER_SIZE : nat := 10.
Definition FRR_ZAPI_MARKER : Z := 254.
Definition AF_INET : Z := 2.
Definition AF_INET6 : Z := 10.
Definition ZAPI_FRR_MESSAGE_NEXTHOP : Z := 0x01.
Definition ZAPI_FRR_MESSAGE_NHG : Z := 0x80.
Definition ZAPI_FRR_MAX_NEXTHOPS : Z := 64.

Record zapi_header := mk_zhdr {
  zh_length : Z;
  zh_marker : Z;
  zh_version : Z;
  zh_command : Z;
}.

Record zapi_message := mk_zmsg {
  zm_header : zapi_header;
  zm_payload : bytes;        (* the memory at the payload pointer *)
  zm_payload_size : nat;
  zm_vrf_id : Z;
}.

(** The members [prefix_len] and [prefix], which nothing writes or reads, are
    left out. *)
Record zapi_frr_nexthop := mk_frr_nh {
  fnh_type : Z;
  fnh_flags : Z;
  fnh_family : Z;
  fnh_ifindex : Z;
  fnh_gateway : bytes;       (* uint8_t gateway[16] *)
  fnh_has_gateway : bool;
}.

Record zapi_frr_route := mk_frr_route {
  fr_type : Z;
  fr_instance : Z;
  fr_flags : Z;
  fr_message : Z;
  fr_safi : Z;
  fr_family : Z;
  fr_prefix_len : Z;
  fr_prefix : bytes;         (* uint8_t prefix[16] *)
  fr_nhg_id : Z;
  fr_nexthop_count : Z;
  fr_nexthops : list zapi_frr_nexthop;  (* the first nexthop_count of the array *)
}.

(** ** Framing *)

(** The code, and what [out] holds afterwards. *)
Definition zapi_parse (buf : option bytes) (out : option zapi_message)
    : Z * option zapi_message :=
  match buf, out with
  | Some buf, Some _ =>
      if (length buf <? ZAPI_HEADER_SIZE)%nat then (-2, out) else
      let len := be_val (cread buf 0 4) in
      if len <? Z.of_nat ZAPI_HEADER_SIZE then (-3, out) else
      if Z.of_nat (length buf) <? len then (-4, out) else
      let marker := be_val (cread buf 4 2) in
      if negb (marker =? ZAPI_HEADER_MARKER) then (-5, out) else
      let version := be_val (cread buf 6 1) in
      if negb (version =? ZAPI_VERSION) then (-6, out) else
      let command := be_val (cread buf 7 2) in
      (0, Some (mk_zmsg (mk_zhdr len marker version command) (drop ZAPI_HEADER_SIZE buf)
                  (Z.to_nat len - ZAPI_HEADER_SIZE) 0))
  | _, _ => (-1, out)
  end.

Definition zapi_parse_frr (buf : option bytes) (out : option zapi_message)
    : Z * option zapi_message :=
  match buf, out with
  | Some buf, Some _ =>
      if (length buf <? FRR_ZAPI_HEADER_SIZE)%nat then (-1, out) else
      let len := be_val (cread buf 0 2) in
      if (len <? Z.of_nat FRR_ZAPI_HEADER_SIZE) || (Z.of_nat (length buf) <? len)
      then (-2, out) else
      let marker := be_val (cread buf 2 1) in
      let version := be_val (cread buf 3 1) in
      if negb (marker =? FRR_ZAPI_MARKER) || negb (version =? ZAPI_VERSION) then (-3, out) else
      (0, Some (mk_zmsg (mk_zhdr len marker version (be_val (cread buf 8 2)))
                  (drop FRR_ZAPI_HEADER_SIZE buf) (Z.to_nat len - FRR_ZAPI_HEADER_SIZE)
                  (be_val (cread buf 4 4))))
  | _, _ => (-1, out)
  end.

(** A 32-bit value read as [int]. *)
Definition s32 (z : Z) : Z := if z <? 2 ^ 31 then z else z - 2 ^ 32.

(** The result and the buffer afterwards. *)
Definition zapi_serialize (msg : option zapi_message) (buf : option bytes)
    : Z * option bytes :=
  match msg, buf with
  | Some msg, Some buf =>
      let total := u32 (Z.of_nat ZAPI_HEADER_SIZE + u32 (Z.of_nat (zm_payload_size msg))) in
      if Z.of_nat (length buf) <? total then (-2, Some buf) else
      let buf := cwrite buf 0 (be_bytes 4 total) in
      let buf := cwrite buf 4 (be_bytes 2 ZAPI_HEADER_MARKER) in
      let buf := cwrite buf 6 [ZAPI_VERSION] in
      let buf := cwrite buf 7 (be_bytes 2 (zh_command (zm_header msg))) in
      let buf := if (0 <? zm_payload_size msg)%nat
                 then cwrite buf ZAPI_HEADER_SIZE (cread (zm_payload msg) 0 (zm_payload_size msg))
                 else buf in
      (s32 total, Some buf)
  | _, _ => (-1, buf)
  end.

(** ** Payload decoder: [None] is the error code -1, which changes nothing *)

Record zapi_decoder := mk_dec {
  d_data : bytes;
  d_size : nat;
  d_pos : nat;
}.

Definition zapi_decoder_init (data : bytes) (size : nat) : zapi_decoder := mk_dec data size 0.

Definition zapi_decode_bytes (n : nat) (d : zapi_decoder) : option (bytes * zapi_decoder) :=
  if (d_size d <? d_pos d + n)%nat then None
  else Some (cread (d_data d) (d_pos d) n, mk_dec (d_data d) (d_size d) (d_pos d + n)).

Definition decode_be (n : nat) (d : zapi_decoder) : option (Z * zapi_decoder) :=
  match zapi_decode_bytes n d with
  | None => None
  | Some (bs, d) => Some (be_val bs, d)
  end.

Definition zapi_decode_u8 (d : zapi_decoder) : option (Z * zapi_decoder) := decode_be 1 d.
Definition zapi_decode_u16 (d : zapi_decoder) : option (Z * zapi_decoder) := decode_be 2 d.
Definition zapi_decode_u32 (d : zapi_decoder) : option (Z * zapi_decoder) := decode_be 4 d.

Definition zapi_decode_u64 (d : zapi_decoder) : option (Z * zapi_decoder) :=
  match zapi_decode_bytes 8 d with
  | None => None
  | Some (bs, d) =>
      Some (Z.lor (Z.shiftl (be_val (cread bs 0 4)) 32) (be_val (cread bs 4 4)), d)
  end.

Definition zapi_decode_in_addr (d : zapi_decoder) : option (bytes * zapi_decoder) :=
  zapi_decode_bytes 4 d.

Definition zapi_decode_in6_addr (d : zapi_decoder) : option (bytes * zapi_decoder) :=
  zapi_decode_bytes 16 d.

(** ** Payload encoder *)

Record zapi_encoder := mk_enc {
  e_buf : bytes;             (* data[0 .. size) *)
  e_pos : nat;
}.

Definition zapi_encoder_init (data : bytes) : zapi_encoder := mk_enc data 0.

Definition zapi_encode_bytes (src : bytes) (e : zapi_encoder) : option zapi_encoder :=
  if (length (e_buf e) <? e_pos e + length src)%nat then None
  else Some (mk_enc (cwrite (e_buf e) (e_pos e) src) (e_pos e + length src)).

Definition zapi_encode_u8 (v : Z) (e : zapi_encoder) : option zapi_encoder :=
  zapi_encode_bytes [v] e.
Definition zapi_encode_u16 (v : Z) (e : zapi_encoder) : option zapi_encoder :=
  zapi_encode_bytes (be_bytes 2 v) e.
Definition zapi_encode_u32 (v : Z) (e : zapi_encoder) : option zapi_encoder :=
  zapi_encode_bytes (be_bytes 4 v) e.
Definition zapi_encode_u64 (v : Z) (e : zapi_encoder) : option zapi_encoder :=
  zapi_encode_bytes (be_bytes 4 (u32 (Z.shiftr v 32)) ++ be_bytes 4 (Z.land v 0xFFFFFFFF)) e.

(** ** FRR route messages *)

Declare Scope zapi_scope.
Notation "'take!' x , d <- e 'else' r ; k" :=
  (match e with None => r | Some (x, d) => k end)
  (at level 10, x name, d name, e at level 100, r at level 100, k at level 200) : zapi_scope.
Open Scope zapi_scope.

Definition bytes_put (n : nat) (src : bytes) : bytes := cwrite (zeros n) 0 src.

(** The body of the next-hop loop: an error code, or the next hop and the
    decoder. *)
Definition decode_frr_nexthop (family : Z) (d : zapi_decoder)
    : Z + (zapi_frr_nexthop * zapi_decoder) :=
  take! nh_vrf, d <- zapi_decode_u32 d else inl (-6);
  take! type, d <- zapi_decode_u8 d else inl (-6);
  take! flags, d <- zapi_decode_u8 d else inl (-6);
  let weight (nh : zapi_frr_nexthop) (d : zapi_decoder) :=
    if negb (Z.land flags 0x04 =? 0)
    then take! w, d <- zapi_decode_u64 d else inl (-9); inr (nh, d)
    else inr (nh, d) in
  if type =? 1 then
    take! ifindex, d <- zapi_decode_u32 d else inl (-8);
    weight (mk_frr_nh type flags family ifindex (zeros 16) false) d
  else if (type =? 2) || (type =? 3) then
    let gw := if family =? AF_INET then 4%nat else 16%nat in
    take! gateway, d <- zapi_decode_bytes gw d else inl (-7);
    if type =? 3 then
      take! ifindex, d <- zapi_decode_u32 d else inl (-8);
      weight (mk_frr_nh type flags family ifindex (bytes_put 16 gateway) true) d
    else weight (mk_frr_nh type flags family 0 (bytes_put 16 gateway) true) d
  else weight (mk_frr_nh type flags family 0 (zeros 16) false) d.

Fixpoint decode_frr_nexthops (family : Z) (n : nat) (d : zapi_decoder)
    : Z + (list zapi_frr_nexthop * zapi_decoder) :=
  match n with
  | O => inr ([], d)
  | S n =>
      match decode_frr_nexthop family d with
      | inl e => inl e
      | inr (nh, d) =>
          match decode_frr_nexthops family n d with
          | inl e => inl e
          | inr (nhs, d) => inr (nh :: nhs, d)
          end
      end
  end.

(** The next-hop section: the route from its count and next hops, or an error. *)
Definition decode_frr_section (family message : Z)
    (route : Z -> list zapi_frr_nexthop -> zapi_frr_route) (d : zapi_decoder)
    : Z + zapi_frr_route :=
  if negb (Z.land message ZAPI_FRR_MESSAGE_NEXTHOP =? 0) then
    take! count, d <- zapi_decode_u16 d else inl (-5);
    if ZAPI_FRR_MAX_NEXTHOPS <? count then inl (-5) else
    match decode_frr_nexthops family (Z.to_nat count) d with
    | inl e => inl e
    | inr (nhs, _) => inr (route count nhs)
    end
  else inr (route 0 []).

(** An error code, or the route (the structure is only used on success). *)
Definition zapi_decode_frr_route (msg : option zapi_message) : Z + zapi_frr_route :=
  match msg with
  | None => inl (-1)
  | Some msg =>
      if negb (zh_version (zm_header msg) =? ZAPI_VERSION) then inl (-1) else
      let d := zapi_decoder_init (zm_payload msg) (zm_payload_size msg) in
      take! type, d <- zapi_decode_u8 d else inl (-2);
      take! instance, d <- zapi_decode_u16 d else inl (-2);
      take! flags, d <- zapi_decode_u32 d else inl (-2);
      take! message, d <- zapi_decode_u32 d else inl (-2);
      take! safi, d <- zapi_decode_u8 d else inl (-2);
      take! family, d <- zapi_decode_u8 d else inl (-2);
      take! prefix_len, d <- zapi_decode_u8 d else inl (-2);
      if negb ((family =? AF_INET6) || (family =? AF_INET)) ||
         ((family =? AF_INET) && (32 <? prefix_len)) ||
         ((family =? AF_INET6) && (128 <? prefix_len)) then inl (-3) else
      take! prefix, d <- zapi_decode_bytes (Z.to_nat ((prefix_len + 7) / 8)) d else inl (-3);
      let route := mk_frr_route type instance flags message safi family prefix_len
                     (bytes_put 16 prefix) in
      if negb (Z.land message ZAPI_FRR_MESSAGE_NHG =? 0) then
        take! nhg_id, d <- zapi_decode_u32 d else inl (-4);
        decode_frr_section family message (route nhg_id) d
      else decode_frr_section family message (route 0) d
  end.

(** ** Lemmas: decoding what lies ahead *)

(** The bytes a decoder has not read yet are [xs]. *)
Record ahead (d : zapi_decoder) (xs : bytes) : Prop := {
  ah_size : (d_size d <= length (d_data d))%nat;
  ah_pos : (d_pos d + length xs = d_size d)%nat;
  ah_rest : take (length xs) (drop (d_pos d) (d_data d)) = xs;
}.

Lemma ahead_init data size :
  (size <= length data)%nat -> ahead (zapi_decoder_init data size) (take size data).
Proof.
  intros Hs. assert (length (take size data) = size) as Hl by (rewrite length_take; lia).
  split; simpl; rewrite ?Hl; [done|done|by rewrite drop_0].
Qed.

Lemma decode_bytes_app xs ys d :
  ahead d (xs ++ ys) ->
  exists d', zapi_decode_bytes (length xs) d = Some (xs, d') /\ ahead d' ys.
Proof.
  intros [Hs Hp Hr]. rewrite length_app in *. unfold zapi_decode_bytes.
  rewrite (proj2 (Nat.ltb_ge _ _)) by lia. eexists. rewrite cread_eq. split.
  - f_equal. f_equal. apply (f_equal (take (length xs))) in Hr.
    rewrite take_take, take_app_length, Nat.min_l in Hr by lia. exact Hr.
  - split; simpl; [done|lia|]. apply (f_equal (drop (length xs))) in Hr.
    rewrite drop_app_length, skipn_firstn_comm, drop_drop in Hr.
    by replace (length xs + length ys - length xs)%nat with (length ys) in Hr by lia.
Qed.

Lemma decode_bytes_short n xs d :
  ahead d xs -> (length xs < n)%nat -> zapi_decode_bytes n d = None.
Proof.
  intros [Hs Hp Hr] Hn. unfold zapi_decode_bytes. by rewrite (proj2 (Nat.ltb_lt _ _)) by lia.
Qed.

Lemma decode_bytes_app_n n xs ys d :
  ahead d (xs ++ ys) -> length xs = n ->
  exists d', zapi_decode_bytes n d = Some (xs, d') /\ ahead d' ys.
Proof. intros H <-. by apply decode_bytes_app. Qed.

Lemma decode_be_app n v ys d :
  ahead d (be_bytes n v ++ ys) -> is_uint n v ->
  exists d', decode_be n d = Some (v, d') /\ ahead d' ys.
Proof.
  intros H Hv. destruct (decode_bytes_app_n n _ _ _ H) as (d' & Hd & Ha);
    [apply length_be_bytes|].
  exists d'. unfold decode_be. rewrite Hd. by rewrite be_val_be_bytes.
Qed.

Lemma decode_u8_app v ys d :
  ahead d (be_bytes 1 v ++ ys) -> is_uint 1 v ->
  exists d', zapi_decode_u8 d = Some (v, d') /\ ahead d' ys.
Proof. apply decode_be_app. Qed.

Lemma decode_u16_app v ys d :
  ahead d (be_bytes 2 v ++ ys) -> is_uint 2 v ->
  exists d', zapi_decode_u16 d = Some (v, d') /\ ahead d' ys.
Proof. apply decode_be_app. Qed.

Lemma decode_u32_app v ys d :
  ahead d (be_bytes 4 v ++ ys) -> is_uint 4 v ->
  exists d', zapi_decode_u32 d = Some (v, d') /\ ahead d' ys.
Proof. apply decode_be_app. Qed.

(** The two halves of a 64-bit value. *)
Lemma u64_halves v :
  is_uint 8 v -> Z.lor (Z.shiftl (u32 (Z.shiftr v 32)) 32) (Z.land v 0xFFFFFFFF) = v.
Proof.
  unfold is_uint. change (256 ^ Z.of_nat 8) with (2 ^ 64). intros Hv.
  unfold u32. rewrite Z.mod_small by (rewrite Z.shiftr_div_pow2 by lia;
    split; [apply Z.div_pos; lia|apply Z.div_lt_upper_bound; lia]).
  change 0xFFFFFFFF with (Z.ones 32). rewrite Z.land_ones, Z.shiftr_div_pow2 by lia.
  apply Z.bits_inj'. intros n Hn. rewrite Z.lor_spec.
  destruct (Z.lt_ge_cases n 32).
  - rewrite Z.shiftl_spec_low, Z.mod_pow2_bits_low by lia. done.
  - rewrite Z.shiftl_spec, Z.mod_pow2_bits_high, orb_false_r, Z.div_pow2_bits by lia.
    f_equal. lia.
Qed.

Definition be64 (v : Z) : bytes :=
  be_bytes 4 (u32 (Z.shiftr v 32)) ++ be_bytes 4 (Z.land v 0xFFFFFFFF).

Lemma decode_u64_app v ys d :
  ahead d (be64 v ++ ys) -> is_uint 8 v ->
  exists d', zapi_decode_u64 d = Some (v, d') /\ ahead d' ys.
Proof.
  intros H Hv. destruct (decode_bytes_app_n 8 _ _ _ H) as (d' & Hd & Ha).
  { unfold be64. by rewrite length_app, !length_be_bytes. }
  exists d'. unfold zapi_decode_u64. rewrite Hd. split; [|done]. unfold be64.
  rewrite cread_here by apply length_be_bytes.
  rewrite cread_skip, length_be_bytes by (by rewrite length_be_bytes).
  rewrite cread_all by apply length_be_bytes.
  rewrite !be_val_be_bytes, u64_halves; [done..| |].
  - change (256 ^ Z.of_nat 4) with (2 ^ 32). change 0xFFFFFFFF with (Z.ones 32).
    rewrite Z.land_ones by lia. apply Z.mod_pos_bound. lia.
  - apply u32_range.
Qed.

(** Decodes the next field of the message ahead. *)
Ltac decode_step :=
  match goal with
  | H : ahead ?d _ |- context [zapi_decode_u8 ?d] =>
      destruct (decode_u8_app _ _ d H) as (? & -> & ?); [|clear H]
  | H : ahead ?d _ |- context [zapi_decode_u16 ?d] =>
      destruct (decode_u16_app _ _ d H) as (? & -> & ?); [|clear H]
  | H : ahead ?d _ |- context [zapi_decode_u32 ?d] =>
      destruct (decode_u32_app _ _ d H) as (? & -> & ?); [|clear H]
  | H : ahead ?d _ |- context [zapi_decode_u64 ?d] =>
      destruct (decode_u64_app _ _ d H) as (? & -> & ?); [|clear H]
  | H : ahead ?d _ |- context [zapi_decode_bytes ?n ?d] =>
      destruct (decode_bytes_app_n n _ _ d H) as (? & -> & ?); [|clear H]
  end.

(** ** The FRR message layout *)

Definition gw_size (family : Z) : nat := if family =? AF_INET then 4%nat else 16%nat.

(** A next hop on the wire: with its VRF and, if flagged, its weight, which
    the comment in [zapi_decode_frr_route] says FRR sends as a u32. *)
Definition frr_nh_wire (vw : Z * Z) (nh : zapi_frr_nexthop) : bytes :=
  be_bytes 4 vw.1 ++ be_bytes 1 (fnh_type nh) ++ be_bytes 1 (fnh_flags nh) ++
  (if fnh_type nh =? 1 then be_bytes 4 (fnh_ifindex nh)
   else if (fnh_type nh =? 2) || (fnh_type nh =? 3) then
     take (gw_size (fnh_family nh)) (fnh_gateway nh) ++
     (if fnh_type nh =? 3 then be_bytes 4 (fnh_ifindex nh) else [])
   else []) ++
  (if negb (Z.land (fnh_flags nh) 0x04 =? 0) then be_bytes 4 vw.2 else []).

Definition frr_prefix_bytes (r : zapi_frr_route) : nat := Z.to_nat ((fr_prefix_len r + 7) / 8).

Definition frr_wire (vws : list (Z * Z)) (r : zapi_frr_route) : bytes :=
  be_bytes 1 (fr_type r) ++ be_bytes 2 (fr_instance r) ++ be_bytes 4 (fr_flags r) ++
  be_bytes 4 (fr_message r) ++ be_bytes 1 (fr_safi r) ++ be_bytes 1 (fr_family r) ++
  be_bytes 1 (fr_prefix_len r) ++ take (frr_prefix_bytes r) (fr_prefix r) ++
  (if negb (Z.land (fr_message r) ZAPI_FRR_MESSAGE_NHG =? 0)
   then be_bytes 4 (fr_nhg_id r) else []) ++
  (if negb (Z.land (fr_message r) ZAPI_FRR_MESSAGE_NEXTHOP =? 0)
   then be_bytes 2 (fr_nexthop_count r) ++ concat (zip_with frr_nh_wire vws (fr_nexthops r))
   else []).

(** Next hops and routes that a message can carry: the arrays hold what is
    sent, and zeros.  No next hop has a weight (see [frr_weight_refused]). *)
Record frr_nh_wf (family : Z) (vw : Z * Z) (nh : zapi_frr_nexthop) : Prop := {
  fnw_vrf : is_uint 4 vw.1;
  fnw_weight : Z.land (fnh_flags nh) 0x04 = 0;
  fnw_type : is_uint 1 (fnh_type nh);
  fnw_flags : is_uint 1 (fnh_flags nh);
  fnw_ifindex : is_uint 4 (fnh_ifindex nh);
  fnw_family : fnh_family nh = family;
  fnw_len : length (fnh_gateway nh) = 16%nat;
  fnw_has : fnh_has_gateway nh = (fnh_type nh =? 2) || (fnh_type nh =? 3);
  fnw_gateway : fnh_gateway nh =
    if fnh_has_gateway nh then bytes_put 16 (take (gw_size family) (fnh_gateway nh)) else zeros 16;
  fnw_oif : (fnh_type nh =? 1) || (fnh_type nh =? 3) = false -> fnh_ifindex nh = 0;
}.

Record frr_route_wf (r : zapi_frr_route) : Prop := {
  frw_type : is_uint 1 (fr_type r);
  frw_instance : is_uint 2 (fr_instance r);
  frw_flags : is_uint 4 (fr_flags r);
  frw_message : is_uint 4 (fr_message r);
  frw_safi : is_uint 1 (fr_safi r);
  frw_family : fr_family r = AF_INET /\ 0 <= fr_prefix_len r <= 32 \/
               fr_family r = AF_INET6 /\ 0 <= fr_prefix_len r <= 128;
  frw_len : length (fr_prefix r) = 16%nat;
  frw_prefix : fr_prefix r = bytes_put 16 (take (frr_prefix_bytes r) (fr_prefix r));
  frw_nhg : is_uint 4 (fr_nhg_id r);
  frw_no_nhg : Z.land (fr_message r) ZAPI_FRR_MESSAGE_NHG = 0 -> fr_nhg_id r = 0;
  frw_count : fr_nexthop_count r = Z.of_nat (length (fr_nexthops r));
  frw_max : fr_nexthop_count r <= 64;
  frw_no_nh : Z.land (fr_message r) ZAPI_FRR_MESSAGE_NEXTHOP = 0 -> fr_nexthops r = [];
}.

Lemma decode_nexthop_wire family vw nh ys d :
  frr_nh_wf family vw nh -> ahead d (frr_nh_wire vw nh ++ ys) ->
  exists d', decode_frr_nexthop family d = inr (nh, d') /\ ahead d' ys.
Proof.
  intros [W1 W2 W3 W4 W5 W6 W7 W8 W9 W10] H. unfold frr_nh_wire in H.
  rewrite <- !app_assoc in H. unfold decode_frr_nexthop. do 3 (decode_step; [done|]).
  match goal with H : ahead ?d _ |- _ => revert H; generalize d; intros d0 Hd0 end.
  assert (forall nh' d, nh' = nh -> ahead d
      ((if negb (Z.land (fnh_flags nh) 4 =? 0) then be_bytes 4 vw.2 else []) ++ ys) ->
    exists d', (if negb (Z.land (fnh_flags nh) 0x04 =? 0)
      then take! w, d <- zapi_decode_u64 d else inl (-9); inr (nh', d)
      else inr (nh', d)) = inr (nh, d') /\ ahead d' ys) as Hw.
  { intros nh' d2 -> Ha. rewrite W2 in Ha |- *. by exists d2. }
  destruct nh as [ty fl fam oif gw has]. cbn [fnh_type fnh_flags fnh_family fnh_ifindex
    fnh_gateway fnh_has_gateway] in *. subst fam has.
  destruct (Z.eqb_spec ty 1) as [->|H1]; cbn [orb] in *.
  { decode_step; [done|]. apply Hw; [|done]. change (1 =? 2) with false in *.
    change (1 =? 3) with false in *. cbn [orb] in *. by subst gw. }
  destruct ((ty =? 2) || (ty =? 3)) eqn:E23; cycle 1.
  { apply Hw; [|done]. destruct (orb_false_elim _ _ E23) as [_ E3].
    by rewrite W9, W10 by (by rewrite E3). }
  fold (gw_size family). rewrite <- app_assoc in Hd0.
  decode_step; [rewrite length_take, W7; unfold gw_size; destruct (family =? _); lia|].
  rewrite <- W9. destruct (ty =? 3).
  - decode_step; [done|]. by apply Hw.
  - cbn [app] in *. apply Hw; [|done]. by rewrite W10.
Qed.

(** A weighted next hop laid out as the comment says is refused when it ends
    the message: the decoder wants eight bytes and there are four. *)
Lemma frr_weight_refused family vw nh d :
  is_uint 4 vw.1 -> fnh_type nh = 1 -> is_uint 1 (fnh_flags nh) -> is_uint 4 (fnh_ifindex nh) ->
  Z.land (fnh_flags nh) 0x04 <> 0 -> ahead d (frr_nh_wire vw nh) ->
  decode_frr_nexthop family d = inl (-9).
Proof.
  intros H1 H2 H3 H4 H5 H. unfold frr_nh_wire in H. rewrite H2 in H. change (1 =? 1) with true in H.
  apply Z.eqb_neq in H5. rewrite H5 in H. cbn [negb] in H. unfold decode_frr_nexthop.
  do 3 (decode_step; [done|]). change (1 =? 1) with true. cbv iota. decode_step; [done|].
  rewrite H5. cbn [negb]. match goal with H : ahead _ _ |- _ => destruct H as [_ Hp _] end.
  rewrite length_be_bytes in Hp. unfold zapi_decode_u64, zapi_decode_bytes.
  by rewrite (proj2 (Nat.ltb_lt _ _)) by lia.
Qed.

Lemma decode_nexthops_wire family vws nhs ys d :
  Forall2 (frr_nh_wf family) vws nhs ->
  ahead d (concat (zip_with frr_nh_wire vws nhs) ++ ys) ->
  exists d', decode_frr_nexthops family (length nhs) d = inr (nhs, d') /\ ahead d' ys.
Proof.
  intros Hwf. revert d. induction Hwf as [|vw nh vws nhs Hnh _ IH]; intros d H.
  { by exists d. }
  simpl in H. rewrite <- app_assoc in H.
  destruct (decode_nexthop_wire family vw nh _ d Hnh H) as (d1 & Hd1 & H1).
  destruct (IH d1 H1) as (d2 & Hd2 & H2). exists d2. simpl. by rewrite Hd1, Hd2.
Qed.

Lemma prefix_bytes_le r : frr_route_wf r -> (frr_prefix_bytes r <= 16)%nat.
Proof.
  intros W. unfold frr_prefix_bytes.
  assert ((fr_prefix_len r + 7) / 8 < 17) by
    (apply Z.div_lt_upper_bound; [lia|]; destruct (frw_family r W) as [[_ ?]|[_ ?]]; lia).
  lia.
Qed.

(** The family check of the decoder passes. *)
Lemma frr_family_ok r :
  frr_route_wf r ->
  negb ((fr_family r =? AF_INET6) || (fr_family r =? AF_INET)) ||
  ((fr_family r =? AF_INET) && (32 <? fr_prefix_len r)) ||
  ((fr_family r =? AF_INET6) && (128 <? fr_prefix_len r)) = false.
Proof.
  intros W. destruct (frw_family r W) as [[-> H]|[-> H]]; simpl;
    [rewrite (proj2 (Z.ltb_ge 32 _)) by lia|rewrite (proj2 (Z.ltb_ge 128 _)) by lia]; done.
Qed.

Lemma decode_section_wire r vws ys d :
  frr_route_wf r -> Forall2 (frr_nh_wf (fr_family r)) vws (fr_nexthops r) ->
  ahead d ((if negb (Z.land (fr_message r) ZAPI_FRR_MESSAGE_NEXTHOP =? 0)
            then be_bytes 2 (fr_nexthop_count r) ++ concat (zip_with frr_nh_wire vws (fr_nexthops r))
            else []) ++ ys) ->
  decode_frr_section (fr_family r) (fr_message r)
    (mk_frr_route (fr_type r) (fr_instance r) (fr_flags r) (fr_message r) (fr_safi r) (fr_family r)
       (fr_prefix_len r) (fr_prefix r) (fr_nhg_id r)) d = inr r.
Proof.
  intros W Hnh H. pose proof (frw_count r W) as Hc. pose proof (frw_max r W) as Hmax.
  unfold decode_frr_section.
  destruct (Z.eqb_spec (Z.land (fr_message r) ZAPI_FRR_MESSAGE_NEXTHOP) 0) as [Hz|Hz];
    cbn [negb] in *.
  - pose proof (frw_no_nh r W Hz) as Hn. destruct r; simpl in *. by rewrite Hc, Hn.
  - rewrite <- app_assoc in H.
    decode_step; [unfold is_uint; change (256 ^ Z.of_nat 2) with 65536; lia|].
    rewrite (proj2 (Z.ltb_ge ZAPI_FRR_MAX_NEXTHOPS _)) by (unfold ZAPI_FRR_MAX_NEXTHOPS; lia).
    rewrite Hc at 1. rewrite Nat2Z.id.
    edestruct decode_nexthops_wire as (d2 & -> & _); [exact Hnh|eassumption|]. by destruct r.
Qed.

(** C23. FRR's native route message is decoded exactly: for every route that
    fits the message (at most 64 next hops, arrays padded with zeros, no next
    hop with a weight), any per-next-hop VRF ids, and any bytes after it,
    decoding its layout gives the route back, field for field and next hop for
    next hop.  Weighted next hops are left out: the decoder consumes eight
    bytes where its comment gives the weight four. *)
Theorem frr_route_roundtrip r vws hdr tail vrf :
  frr_route_wf r -> Forall2 (frr_nh_wf (fr_family r)) vws (fr_nexthops r) ->
  zh_version hdr = ZAPI_VERSION ->
  let payload := frr_wire vws r ++ tail in
  zapi_decode_frr_route (Some (mk_zmsg hdr payload (length payload) vrf)) = inr r.
Proof.
  intros W Hnh Hv payload. unfold zapi_decode_frr_route. cbn [zm_header zm_payload zm_payload_size].
  rewrite Hv, Z.eqb_refl. cbn [negb].
  assert (ahead (zapi_decoder_init payload (length payload)) payload) as H.
  { pose proof (ahead_init payload (length payload) (le_n _)) as Ha. by rewrite firstn_all in Ha. }
  revert H. generalize (zapi_decoder_init payload (length payload)). intros d H.
  subst payload. unfold frr_wire in H. rewrite <- !app_assoc in H.
  do 5 (decode_step; [apply W|]).
  decode_step; [destruct (frw_family r W) as [[-> _]|[-> _]]; by split|].
  decode_step.
  { unfold is_uint. change (256 ^ Z.of_nat 1) with 256.
    destruct (frw_family r W) as [[_ ?]|[_ ?]]; lia. }
  rewrite frr_family_ok by done. fold (frr_prefix_bytes r).
  decode_step; [rewrite length_take, (frw_len r W); pose proof (prefix_bytes_le r W); lia|].
  cbv zeta. rewrite <- (frw_prefix r W). pose proof (frw_no_nhg r W) as Hn.
  destruct (Z.eqb_spec (Z.land (fr_message r) ZAPI_FRR_MESSAGE_NHG) 0) as [Hz|Hz]; cbn [negb] in *.
  - rewrite <- (Hn Hz). by eapply decode_section_wire.
  - decode_step; [apply W|]. by eapply decode_section_wire.
Qed.

Definition demo_frr_route : zapi_frr_route :=
  mk_frr_route 10 0 0 (Z.lor ZAPI_FRR_MESSAGE_NHG ZAPI_FRR_MESSAGE_NEXTHOP) 1 AF_INET 24
    ([10; 1; 2] ++ zeros 13) 77 2
    [mk_frr_nh 3 0 AF_INET 5 ([192; 0; 2; 1] ++ zeros 12) true;
     mk_frr_nh 1 0 AF_INET 9 (zeros 16) false].

Lemma demo_frr_wf :
  frr_route_wf demo_frr_route /\
  Forall2 (frr_nh_wf AF_INET) [(0, 100); (0, 0)] (fr_nexthops demo_frr_route).
Proof.
  split; [split|repeat constructor]; try (by split); try (vm_compute; done); try done.
  left. vm_compute. split_and!; done.
Qed.

Lemma frr_route_roundtrip_witness :
  let payload := frr_wire [(0, 100); (0, 0)] demo_frr_route ++ [1; 2; 3] in
  zapi_decode_frr_route (Some (mk_zmsg (mk_zhdr 0 0 6 31) payload (length payload) 0)) =
  inr demo_frr_route.
Proof.
  destruct demo_frr_wf as [W Hn].
  exact (frr_route_roundtrip demo_frr_route [(0, 100); (0, 0)] (mk_zhdr 0 0 6 31) [1; 2; 3] 0
           W Hn eq_refl).
Defined.

(** ** Decoded routes stay in their arrays *)

Lemma decode_bytes_inv n d bs d' :
  zapi_decode_bytes n d = Some (bs, d') ->
  d_data d' = d_data d /\ d_size d' = d_size d /\
  ((d_size d <= length (d_data d))%nat -> length bs = n).
Proof.
  unfold zapi_decode_bytes. destruct (Nat.ltb_spec (d_size d) (d_pos d + n)); [done|].
  intros [= <- <-]. split_and!; [done|done|]. intros. rewrite length_cread; lia.
Qed.

Lemma decode_u64_inv d v d' :
  zapi_decode_u64 d = Some (v, d') -> d_data d' = d_data d /\ d_size d' = d_size d.
Proof.
  unfold zapi_decode_u64. destruct (zapi_decode_bytes 8 d) as [[bs d1]|] eqn:E; [|done].
  intros [= _ <-]. by apply decode_bytes_inv in E as (? & ? & _).
Qed.

Definition dec_ok (d : zapi_decoder) : Prop :=
  (d_size d <= length (d_data d))%nat /\ bytes_ok (d_data d).

Lemma decode_bytes_ok n d bs d' :
  dec_ok d -> zapi_decode_bytes n d = Some (bs, d') ->
  dec_ok d' /\ length bs = n /\ bytes_ok bs.
Proof.
  unfold dec_ok. intros [Hd Hb] H. destruct (decode_bytes_inv _ _ _ _ H) as (-> & -> & Hl).
  split_and!; auto. revert H. unfold zapi_decode_bytes. destruct (_ <? _)%nat; [done|].
  intros [= <- _]. by apply cread_ok.
Qed.

Lemma decode_be_ok n d v d' :
  dec_ok d -> decode_be n d = Some (v, d') -> dec_ok d' /\ is_uint n v.
Proof.
  intros Hd H. unfold decode_be in H.
  destruct (zapi_decode_bytes n d) as [[bs d1]|] eqn:E; [|done]. injection H as <- <-.
  destruct (decode_bytes_ok _ _ _ _ Hd E) as (Hd1 & <- & Hb). split; [done|]. by apply be_val_range.
Qed.

Lemma decode_u64_ok d v d' : dec_ok d -> zapi_decode_u64 d = Some (v, d') -> dec_ok d'.
Proof. unfold dec_ok. intros Hd H. by destruct (decode_u64_inv _ _ _ H) as [-> ->]. Qed.

(** Follows one successful decoding step of a hypothesis. *)
Ltac decoded :=
  match goal with
  | Hd : dec_ok ?d, H : context [decode_be ?n ?d] |- _ =>
      let E := fresh "E" in
      destruct (decode_be n d) as [[? ?]|] eqn:E; [|discriminate H];
      apply (decode_be_ok _ _ _ _ Hd) in E as [E ?]
  | Hd : dec_ok ?d, H : context [zapi_decode_u64 ?d] |- _ =>
      let E := fresh "E" in
      destruct (zapi_decode_u64 d) as [[? ?]|] eqn:E; [|discriminate H];
      apply (decode_u64_ok _ _ _ Hd) in E
  | Hd : dec_ok ?d, H : context [zapi_decode_bytes ?n ?d] |- _ =>
      let E := fresh "E" in let L := fresh "L" in
      destruct (zapi_decode_bytes n d) as [[? ?]|] eqn:E; [|discriminate H];
      apply (decode_bytes_ok _ _ _ _ Hd) in E as (E & L & ?)
  end.

Lemma length_bytes_put n src : (length src <= n)%nat -> length (bytes_put n src) = n.
Proof. intros. unfold bytes_put. rewrite length_cwrite; rewrite length_zeros; lia. Qed.

Lemma bytes_put_ok n src : bytes_ok src -> bytes_ok (bytes_put n src).
Proof.
  intros Hs. unfold bytes_put, cwrite. rewrite !Forall_app.
  split_and!; [apply Forall_take, zeros_ok|done|apply Forall_drop, zeros_ok].
Qed.

(** What holds of every decoded next hop. *)
Record frr_nh_in (family : Z) (nh : zapi_frr_nexthop) : Prop := {
  fni_family : fnh_family nh = family;
  fni_len : length (fnh_gateway nh) = 16%nat;
  fni_ok : bytes_ok (fnh_gateway nh);
  fni_ifindex : is_uint 4 (fnh_ifindex nh);
}.

Lemma decode_nexthop_ok family d nh d' :
  dec_ok d -> decode_frr_nexthop family d = inr (nh, d') -> dec_ok d' /\ frr_nh_in family nh.
Proof.
  intros Hd H. unfold decode_frr_nexthop, zapi_decode_u32, zapi_decode_u8 in H.
  do 3 decoded. destruct (_ =? 1).
  { decoded. destruct (negb _); [decoded|]; simplify_eq/=;
      (split; [done|]; split; simpl; auto using length_zeros, zeros_ok). }
  destruct (_ || _); cycle 1.
  { destruct (negb _); [decoded|]; simplify_eq/=;
      (split; [done|]; split; simpl; auto using length_zeros, zeros_ok; done). }
  decoded. destruct (_ =? 3); [decoded|]; (destruct (negb _); [decoded|]; simplify_eq/=;
    (split; [done|]; split; simpl; auto using bytes_put_ok; try done;
     apply length_bytes_put; rewrite L; destruct (_ =? _); lia)).
Qed.

Lemma decode_nexthops_ok family n d nhs d' :
  dec_ok d -> decode_frr_nexthops family n d = inr (nhs, d') ->
  length nhs = n /\ Forall (frr_nh_in family) nhs.
Proof.
  revert d nhs. induction n as [|n IH]; intros d nhs Hd H; simpl in H; [by simplify_eq|].
  destruct (decode_frr_nexthop family d) as [|[nh d1]] eqn:E1; [done|].
  destruct (decode_nexthop_ok _ _ _ _ Hd E1) as (Hd1 & Hnh).
  destruct (decode_frr_nexthops family n d1) as [|[nhs1 d2]] eqn:E2; [done|].
  simplify_eq. destruct (IH d1 nhs1 Hd1 E2) as [Hl Hall]. simpl. split; [by rewrite Hl|].
  by constructor.
Qed.

Lemma decode_section_ok family message route d r :
  dec_ok d -> decode_frr_section family message route d = inr r ->
  exists count nhs, r = route count nhs /\ count = Z.of_nat (length nhs) /\ count <= 64 /\
    Forall (frr_nh_in family) nhs.
Proof.
  intros Hd H. unfold decode_frr_section in H. destruct (negb _).
  - unfold zapi_decode_u16 in H. destruct (decode_be 2 d) as [[count d1]|] eqn:E; [|done].
    apply (decode_be_ok _ _ _ _ Hd) in E as [E Hc].
    destruct (Z.ltb_spec ZAPI_FRR_MAX_NEXTHOPS count) as [|Hmax]; [done|].
    destruct (decode_frr_nexthops family (Z.to_nat count) d1) as [|[nhs d2]] eqn:E2; [done|].
    destruct (decode_nexthops_ok _ _ _ _ _ E E2) as [Hl Hall].
    unfold ZAPI_FRR_MAX_NEXTHOPS in Hmax. injection H as <-.
    destruct Hc. exists count, nhs. split_and!; try lia; done.
  - injection H as <-. exists 0, []. by split_and!.
Qed.

(** What holds of every decoded route. *)
Record frr_route_in (r : zapi_frr_route) : Prop := {
  fri_family : fr_family r = AF_INET /\ 0 <= fr_prefix_len r <= 32 \/
               fr_family r = AF_INET6 /\ 0 <= fr_prefix_len r <= 128;
  fri_len : length (fr_prefix r) = 16%nat;
  fri_ok : bytes_ok (fr_prefix r);
  fri_count : fr_nexthop_count r = Z.of_nat (length (fr_nexthops r));
  fri_max : fr_nexthop_count r <= 64;
  fri_nexthops : Forall (frr_nh_in (fr_family r)) (fr_nexthops r);
}.

Lemma decoded_route_in msg r :
  (zm_payload_size msg <= length (zm_payload msg))%nat -> bytes_ok (zm_payload msg) ->
  zapi_decode_frr_route (Some msg) = inr r -> frr_route_in r.
Proof.
  intros Hs Hb H. unfold zapi_decode_frr_route, zapi_decode_u8, zapi_decode_u16, zapi_decode_u32 in H.
  destruct (negb _); [done|].
  assert (dec_ok (zapi_decoder_init (zm_payload msg) (zm_payload_size msg))) as Hd by (by split).
  do 7 decoded. destruct (_ || _) eqn:Ef; [done|]. decoded.
  apply orb_false_elim in Ef as [Ef Ef6]. apply orb_false_elim in Ef as [Ef Ef4].
  apply negb_false_iff, orb_prop in Ef.
  match type of L with length _ = Z.to_nat ((?p + 7) / 8) => set (plen := p) in * end.
  match type of Ef with (?f =? _) = _ \/ _ => set (family := f) in * end.
  assert (0 <= plen) as Hp0 by (match goal with U : is_uint 1 plen |- _ => apply U end).
  assert (family = AF_INET /\ 0 <= plen <= 32 \/ family = AF_INET6 /\ 0 <= plen <= 128) as Hfam.
  { destruct Ef as [Ef|Ef]; apply Z.eqb_eq in Ef; [right|left]; rewrite Ef in Ef4, Ef6;
      simpl in Ef4, Ef6; [apply Z.ltb_ge in Ef6|apply Z.ltb_ge in Ef4]; lia. }
  assert ((plen + 7) / 8 < 17) as Hp8 by
    (apply Z.div_lt_upper_bound; [lia|]; destruct Hfam as [[_ ?]|[_ ?]]; lia).
  destruct (negb _); [decoded|]; apply decode_section_ok in H as (count & nhs & -> & Hc & Hm & Hall);
    try done; split; simpl; auto using bytes_put_ok; apply length_bytes_put; rewrite L; lia.
Qed.

(** Whatever bytes a peer sends, a route the decoder accepts is within
    its arrays and its address family: the family is IPv4 or IPv6 with a
    prefix length of at most 32 or 128, the prefix and every gateway fill their
    16-byte arrays without overrunning them, and there are exactly
    [nexthop_count] next hops, at most 64. *)
Theorem frr_route_bounds msg r :
  (zm_payload_size msg <= length (zm_payload msg))%nat -> bytes_ok (zm_payload msg) ->
  zapi_decode_frr_route (Some msg) = inr r ->
  (fr_family r = AF_INET /\ 0 <= fr_prefix_len r <= 32 \/
   fr_family r = AF_INET6 /\ 0 <= fr_prefix_len r <= 128) /\
  length (fr_prefix r) = 16%nat /\
  fr_nexthop_count r = Z.of_nat (length (fr_nexthops r)) /\ fr_nexthop_count r <= 64 /\
  Forall (fun nh => length (fnh_gateway nh) = 16%nat) (fr_nexthops r).
Proof.
  intros Hs Hb H. destruct (decoded_route_in msg r Hs Hb H) as [F1 F2 _ F4 F5 F6].
  split_and!; try done. eapply Forall_impl; [|exact F6]. by intros nh [].
Qed.

Lemma frr_route_bounds_witness :
  let payload := frr_wire [(0, 100); (0, 0)] demo_frr_route in
  fr_nexthop_count demo_frr_route = Z.of_nat (length (fr_nexthops demo_frr_route)) /\
  zapi_decode_frr_route (Some (mk_zmsg (mk_zhdr 0 0 6 31) payload (length payload) 0)) =
    inr demo_frr_route.
Proof.
  set (payload := frr_wire _ _). cbv zeta.
  assert (zapi_decode_frr_route (Some (mk_zmsg (mk_zhdr 0 0 6 31) payload (length payload) 0)) =
    inr demo_frr_route) as H by (vm_compute; reflexivity).
  split; [|exact H].
  apply (frr_route_bounds (mk_zmsg (mk_zhdr 0 0 6 31) payload (length payload) 0)); [done| |done].
  apply (bool_decide_unpack _). vm_compute. exact I.
Defined.

(** ** Framing round trip *)

Lemma cwrite_next (a b src : bytes) n :
  length a = n -> (length src <= length b)%nat ->
  cwrite (a ++ b) n src = (a ++ src) ++ drop (length src) b.
Proof.
  intros <- Hl. unfold cwrite. rewrite take_app_length, drop_app_ge by lia.
  rewrite <- app_assoc. do 3 f_equal. lia.
Qed.

Definition zapi_bytes (command : Z) (payload : bytes) : bytes :=
  be_bytes 4 (9 + Z.of_nat (length payload)) ++ be_bytes 2 ZAPI_HEADER_MARKER ++
  [ZAPI_VERSION] ++ be_bytes 2 command ++ payload.

Lemma serialize_bytes msg buf :
  let payload := take (zm_payload_size msg) (zm_payload msg) in
  length payload = zm_payload_size msg ->
  Z.of_nat (zm_payload_size msg) + 9 < 2 ^ 31 ->
  (zm_payload_size msg + 9 <= length buf)%nat ->
  zapi_serialize (Some msg) (Some buf) =
    (9 + Z.of_nat (zm_payload_size msg),
     Some (zapi_bytes (zh_command (zm_header msg)) payload ++
           drop (zm_payload_size msg + 9) buf)).
Proof.
  intros payload Hp Hn Hb. unfold zapi_serialize, ZAPI_HEADER_SIZE.
  rewrite (u32_small (Z.of_nat _)), u32_small by (unfold is_u32; lia).
  rewrite (proj2 (Z.ltb_ge _ _)) by lia. unfold s32. rewrite (proj2 (Z.ltb_lt _ _)) by lia.
  f_equal. f_equal. unfold zapi_bytes. rewrite Hp. change (Z.of_nat 9) with 9.
  set (l4 := be_bytes 4 _). set (m2 := be_bytes 2 ZAPI_HEADER_MARKER). set (c2 := be_bytes 2 _).
  assert (length l4 = 4%nat) as H4 by apply length_be_bytes.
  assert (length m2 = 2%nat) as H2 by apply length_be_bytes.
  assert (length c2 = 2%nat) as Hc by apply length_be_bytes.
  assert (cwrite (cwrite (cwrite (cwrite buf 0 l4) 4 m2) 6 [ZAPI_VERSION]) 7 c2 =
    (((l4 ++ m2) ++ [ZAPI_VERSION]) ++ c2) ++ drop 9 buf) as ->.
  { rewrite <- (app_nil_l buf) at 1. rewrite (cwrite_next [] buf l4) by (done || lia).
    rewrite app_nil_l, H4, cwrite_next by (rewrite ?length_drop; lia).
    rewrite H2, drop_drop, cwrite_next by (rewrite ?length_app, ?length_drop; simpl; lia).
    rewrite drop_drop, cwrite_next by (rewrite ?length_app, ?length_drop, ?length_app; simpl; lia).
    by rewrite Hc, drop_drop. }
  destruct (Nat.ltb_spec 0 (zm_payload_size msg)) as [Hpos|Hz].
  - rewrite cread_eq, drop_0. fold payload.
    rewrite cwrite_next by (rewrite ?length_app, ?length_drop, ?Hp; simpl; lia).
    rewrite Hp, drop_drop, <- !app_assoc. do 5 f_equal. f_equal. lia.
  - assert (zm_payload_size msg = 0%nat) as H0 by lia. subst payload. rewrite H0 in *.
    by rewrite take_0, <- !app_assoc.
Qed.

Lemma header_fields (l4 m2 v c2 rest : bytes) :
  length l4 = 4%nat -> length m2 = 2%nat -> length v = 1%nat -> length c2 = 2%nat ->
  let b := l4 ++ m2 ++ v ++ c2 ++ rest in
  cread b 0 4 = l4 /\ cread b 4 2 = m2 /\ cread b 6 1 = v /\ cread b 7 2 = c2 /\
  drop ZAPI_HEADER_SIZE b = rest.
Proof.
  intros H4 H2 H1 Hc b. subst b. split_and!.
  - by apply cread_here.
  - rewrite cread_skip, H4 by lia. by apply cread_here.
  - rewrite cread_skip, H4, cread_skip, H2 by lia. by apply cread_here.
  - rewrite cread_skip, H4, cread_skip, H2, cread_skip, H1 by lia. by apply cread_here.
  - unfold ZAPI_HEADER_SIZE. rewrite !app_assoc. apply drop_app_length'.
    rewrite !length_app. lia.
Qed.

(** A serialized message parses back: the bytes that [zapi_serialize]
    puts into a large enough buffer, whatever follows them there, parse to a
    message with the same command and the same payload, and the rest of the
    buffer is untouched. *)
Theorem zapi_serialize_parse msg buf out :
  (zm_payload_size msg <= length (zm_payload msg))%nat ->
  Z.of_nat (zm_payload_size msg) + 9 < 2 ^ 31 ->
  (zm_payload_size msg + 9 <= length buf)%nat ->
  is_u16 (zh_command (zm_header msg)) ->
  exists buf' hdr payload,
    zapi_serialize (Some msg) (Some buf) = (9 + Z.of_nat (zm_payload_size msg), Some buf') /\
    length buf' = length buf /\
    drop (zm_payload_size msg + 9) buf' = drop (zm_payload_size msg + 9) buf /\
    zapi_parse (Some buf') (Some out) =
      (0, Some (mk_zmsg hdr payload (zm_payload_size msg) 0)) /\
    zh_command hdr = zh_command (zm_header msg) /\
    take (zm_payload_size msg) payload = take (zm_payload_size msg) (zm_payload msg).
Proof.
  intros Hp Hn Hb Hc. pose proof (serialize_bytes msg buf) as Hs. cbv zeta in Hs.
  set (n := zm_payload_size msg) in *. set (payload := take n (zm_payload msg)) in *.
  assert (length payload = n) as Hl by (unfold payload; rewrite length_take; lia).
  specialize (Hs Hl Hn Hb). eexists _, _, _. split; [exact Hs|].
  set (c := zh_command (zm_header msg)) in *.
  assert (length (zapi_bytes c payload) = (n + 9)%nat) as Hz
    by (unfold zapi_bytes; rewrite !length_app, !length_be_bytes, Hl; simpl; lia).
  split_and!.
  - rewrite length_app, length_drop, Hz. lia.
  - rewrite <- Hz. apply drop_app_length.
  - unfold zapi_parse. rewrite length_app, Hz, length_drop.
    rewrite (proj2 (Nat.ltb_ge _ _)) by (unfold ZAPI_HEADER_SIZE; lia).
    unfold zapi_bytes. rewrite <- !app_assoc, Hl.
    destruct (header_fields (be_bytes 4 (9 + Z.of_nat n)) (be_bytes 2 ZAPI_HEADER_MARKER)
      [ZAPI_VERSION] (be_bytes 2 c) (payload ++ drop (n + 9) buf)) as (-> & -> & -> & -> & ->);
      try apply length_be_bytes; try done.
    rewrite !be_val_be_bytes by (done || (change (256 ^ Z.of_nat 4) with (2 ^ 32); lia)).
    rewrite (proj2 (Z.ltb_ge _ (Z.of_nat ZAPI_HEADER_SIZE))) by (unfold ZAPI_HEADER_SIZE; lia).
    rewrite (proj2 (Z.ltb_ge (Z.of_nat _) _)) by lia.
    change (be_val [ZAPI_VERSION]) with ZAPI_VERSION. rewrite !Z.eqb_refl. cbn [negb].
    do 3 f_equal. unfold ZAPI_HEADER_SIZE. lia.
  - done.
  - by rewrite <- Hl, take_app_length.
Qed.

Lemma zapi_serialize_parse_witness :
  let msg := mk_zmsg (mk_zhdr 0 0 0 20) [1; 2; 3; 4; 5] 4 0 in
  zapi_parse (zapi_serialize (Some msg) (Some (zeros 20))).2 (Some msg) =
    (0, Some (mk_zmsg (mk_zhdr 13 0xFFFF 6 20) ([1; 2; 3; 4] ++ zeros 7) 4 0)) /\
  exists buf', zapi_serialize (Some msg) (Some (zeros 20)) = (13, Some buf') /\
    length buf' = 20%nat.
Proof.
  intros msg. split; [vm_compute; reflexivity|].
  destruct (zapi_serialize_parse msg (zeros 20) msg) as (buf' & hdr & payload & Hs & Hl & _);
    [simpl; lia|simpl; lia|rewrite length_zeros; simpl; lia|by split|].
  exists buf'. split; [exact Hs|]. by rewrite Hl, length_zeros.
Defined.

(** ** Payload round trip *)

Inductive zfield : Type :=
  | F_u8 (v : Z) | F_u16 (v : Z) | F_u32 (v : Z) | F_u64 (v : Z) | F_bytes (bs : bytes).

Definition zfield_wf (f : zfield) : Prop :=
  match f with
  | F_u8 v => is_uint 1 v | F_u16 v => is_uint 2 v | F_u32 v => is_uint 4 v
  | F_u64 v => is_uint 8 v | F_bytes _ => True
  end.

Definition zfield_size (f : zfield) : nat :=
  match f with
  | F_u8 _ => 1 | F_u16 _ => 2 | F_u32 _ => 4 | F_u64 _ => 8 | F_bytes bs => length bs
  end.

Definition encode_field (f : zfield) (e : zapi_encoder) : option zapi_encoder :=
  match f with
  | F_u8 v => zapi_encode_u8 v e | F_u16 v => zapi_encode_u16 v e
  | F_u32 v => zapi_encode_u32 v e | F_u64 v => zapi_encode_u64 v e
  | F_bytes bs => zapi_encode_bytes bs e
  end.

Fixpoint encode_fields (fs : list zfield) (e : zapi_encoder) : option zapi_encoder :=
  match fs with
  | [] => Some e
  | f :: fs => match encode_field f e with Some e => encode_fields fs e | None => None end
  end.

(** Decodes a field of the same kind as [f]. *)
Definition decode_field (f : zfield) (d : zapi_decoder) : option (zfield * zapi_decoder) :=
  match f with
  | F_u8 _ => take! v, d <- zapi_decode_u8 d else None; Some (F_u8 v, d)
  | F_u16 _ => take! v, d <- zapi_decode_u16 d else None; Some (F_u16 v, d)
  | F_u32 _ => take! v, d <- zapi_decode_u32 d else None; Some (F_u32 v, d)
  | F_u64 _ => take! v, d <- zapi_decode_u64 d else None; Some (F_u64 v, d)
  | F_bytes bs => take! v, d <- zapi_decode_bytes (length bs) d else None; Some (F_bytes v, d)
  end.

Fixpoint decode_fields (fs : list zfield) (d : zapi_decoder) : option (list zfield) :=
  match fs with
  | [] => Some []
  | f :: fs =>
      match decode_field f d with
      | Some (f', d) => (fun r => f' :: r) <$> decode_fields fs d
      | None => None
      end
  end.

Definition field_bytes (f : zfield) : bytes :=
  match f with
  | F_u8 v => be_bytes 1 v | F_u16 v => be_bytes 2 v | F_u32 v => be_bytes 4 v
  | F_u64 v => be64 v | F_bytes bs => bs
  end.

Definition fields_size (fs : list zfield) : nat := sum_list (zfield_size <$> fs).

Lemma length_field_bytes f : length (field_bytes f) = zfield_size f.
Proof. destruct f; simpl; try apply length_be_bytes; [|done].
  unfold be64. by rewrite length_app, !length_be_bytes. Qed.

Lemma length_fields_bytes fs : length (concat (field_bytes <$> fs)) = fields_size fs.
Proof.
  induction fs as [|f fs IH]; [done|]. rewrite fmap_cons. cbn [concat].
  by rewrite length_app, IH, length_field_bytes.
Qed.

Lemma encode_field_app f done_ rest :
  zfield_wf f -> (zfield_size f <= length rest)%nat ->
  encode_field f (mk_enc (done_ ++ rest) (length done_)) =
    Some (mk_enc ((done_ ++ field_bytes f) ++ drop (zfield_size f) rest)
            (length (done_ ++ field_bytes f))).
Proof.
  intros Hf Hl. assert (encode_field f (mk_enc (done_ ++ rest) (length done_)) =
    zapi_encode_bytes (field_bytes f) (mk_enc (done_ ++ rest) (length done_))) as ->.
  { destruct f; try done. simpl. unfold zapi_encode_u8. by rewrite u8_byte. }
  unfold zapi_encode_bytes. simpl. rewrite !length_app, length_field_bytes.
  rewrite (proj2 (Nat.ltb_ge _ _)) by lia. f_equal. f_equal.
  rewrite cwrite_next by (done || rewrite length_field_bytes; lia). by rewrite length_field_bytes.
Qed.

Lemma encode_fields_app fs done_ rest :
  Forall zfield_wf fs -> (fields_size fs <= length rest)%nat ->
  encode_fields fs (mk_enc (done_ ++ rest) (length done_)) =
    Some (mk_enc ((done_ ++ concat (field_bytes <$> fs)) ++ drop (fields_size fs) rest)
            (length done_ + fields_size fs)).
Proof.
  intros Hf. revert done_ rest. induction Hf as [|f fs Hf _ IH]; intros done_ rest Hl.
  { simpl. by rewrite app_nil_r, Nat.add_0_r. }
  change (fields_size (f :: fs)) with (zfield_size f + fields_size fs)%nat in *.
  cbn [encode_fields].
  rewrite encode_field_app, IH by (done || rewrite ?length_drop; lia).
  rewrite drop_drop, length_app, length_field_bytes, <- Nat.add_assoc.
  rewrite fmap_cons. cbn [concat]. by rewrite !app_assoc.
Qed.

Lemma decode_fields_ahead fs d ys :
  Forall zfield_wf fs -> ahead d (concat (field_bytes <$> fs) ++ ys) ->
  decode_fields fs d = Some fs.
Proof.
  intros Hf. revert d. induction Hf as [|f fs Hf _ IH]; intros d H; [done|].
  rewrite fmap_cons in H. cbn [concat] in H. rewrite <- app_assoc in H. cbn [decode_fields].
  destruct f; simpl in H; cbn [decode_field]; (decode_step; [done|]); by erewrite IH.
Qed.

(** What the payload encoder writes, the decoder reads: encoding any
    sequence of integers of their widths and byte strings into a buffer that
    is large enough succeeds, and decoding the same kinds from the bytes
    written gives the values back. *)
Theorem zapi_fields_roundtrip fs data :
  Forall zfield_wf fs -> (fields_size fs <= length data)%nat ->
  exists e, encode_fields fs (zapi_encoder_init data) = Some e /\
    e_pos e = fields_size fs /\ length (e_buf e) = length data /\
    decode_fields fs (zapi_decoder_init (e_buf e) (e_pos e)) = Some fs.
Proof.
  intros Hf Hl. eexists. split; [by apply (encode_fields_app fs [] data)|]. simpl.
  pose proof (length_fields_bytes fs) as Hb. split_and!; [done| |].
  - rewrite length_app, length_drop, Hb. lia.
  - apply decode_fields_ahead with []; [done|]. rewrite app_nil_r.
    rewrite <- (take_app_length (concat (field_bytes <$> fs)) (drop (fields_size fs) data)) at 2.
    rewrite Hb. apply ahead_init. rewrite length_app, Hb. lia.
Qed.

Lemma zapi_fields_roundtrip_witness :
  let fs := [F_u32 7; F_u8 4; F_u64 0x0102030405060708; F_bytes [9; 8]; F_u16 513] in
  exists e, encode_fields fs (zapi_encoder_init (zeros 32)) = Some e /\
    e_pos e = 17%nat /\ decode_fields fs (zapi_decoder_init (e_buf e) (e_pos e)) = Some fs.
Proof.
  intros fs. destruct (zapi_fields_roundtrip fs (zeros 32)) as (e & He & Hp & _ & Hd).
  - repeat constructor; done.
  - vm_compute. lia.
  - exists e. by split_and!.
Defined.
