(* ===== verification/ZapiMapper.v ===== *)
(** * ZAPI to DPA: danos-fib zapi_mapper.c

    The handlers that turn messages of the routing daemon into object
    operations, and the two dispatchers.  A handler is written in a small
    monad: the state is the id counter and the core library, and a computation
    either goes on or returns a status early.  The transaction pointer is only
    compared with null; [tx] says whether it is given.  Writing past
    [grp.nh_ids[64]] is undefined: the handler then stops with
    [DANOS_ERR_INTERNAL]. *)

From stdpp Require Import base decidable list numbers gmap.
From Stdlib Require Import ZArith Lia.
From S2P Require Import Prelude Dpa ObjectStore Wal EventBus Registry Persist DpaObjects.
From S2P Require Import Pipeline Zapi.

Record zworld := mk_zworld {
  g_zapi_next_id : Z;
  zw_core : core;
}.

(** ** Computations with early return *)

Definition zm (A : Type) : Type := zworld -> (danos_status + A) * zworld.

#[export] Instance zm_ret : MRet zm := fun A a w => (inr a, w).
#[export] Instance zm_bind : MBind zm := fun A B k m w =>
  match m w with
  | (inl st, w) => (inl st, w)
  | (inr a, w) => k a w
  end.

(** Early return. *)
Definition give {A} (st : danos_status) : zm A := fun w => (inl st, w).

(** A decoding step that must succeed. *)
Definition need {A} (r : option A) : zm A := fun w =>
  match r with None => (inl DANOS_ERR_INVALID_ARG, w) | Some a => (inr a, w) end.

Definition next_id : zm Z := fun w =>
  (inr (g_zapi_next_id w), mk_zworld (u64 (g_zapi_next_id w + 1)) (zw_core w)).

(** A call of the object API; its status is the result. *)
Definition dpa (f : core -> danos_status * core) : zm danos_status := fun w =>
  let '(st, c) := f (zw_core w) in (inr st, mk_zworld (g_zapi_next_id w) c).

(** A call whose failure is returned at once. *)
Definition dpa_ok (f : core -> danos_status * core) : zm unit :=
  st ← dpa f; if bool_decide (st = DANOS_OK) then mret () else give st.

Definition run_zm (m : zm danos_status) (w : zworld) : danos_status * zworld :=
  match m w with
  | (inl st, w) => (st, w)
  | (inr st, w) => (st, w)
  end.

(** ** Protocols *)

Definition map_protocol (zapi_proto : Z) : Z :=
  if zapi_proto =? 0 then DANOS_ROUTE_PROTO_KERNEL
  else if zapi_proto =? 1 then DANOS_ROUTE_PROTO_STATIC
  else if zapi_proto =? 2 then DANOS_ROUTE_PROTO_BGP
  else if zapi_proto =? 3 then DANOS_ROUTE_PROTO_OSPF
  else if zapi_proto =? 4 then DANOS_ROUTE_PROTO_ISIS
  else if zapi_proto =? 5 then DANOS_ROUTE_PROTO_CONNECTED
  else DANOS_ROUTE_PROTO_UNSPEC.

Definition map_frr_protocol (type : Z) : Z :=
  if type =? 1 then DANOS_ROUTE_PROTO_KERNEL
  else if type =? 2 then DANOS_ROUTE_PROTO_CONNECTED
  else if type =? 4 then DANOS_ROUTE_PROTO_STATIC
  else if type =? 6 then DANOS_ROUTE_PROTO_OSPF
  else if type =? 8 then DANOS_ROUTE_PROTO_ISIS
  else if type =? 10 then DANOS_ROUTE_PROTO_BGP
  else if type =? 11 then DANOS_ROUTE_PROTO_OSPF
  else DANOS_ROUTE_PROTO_UNSPEC.

(** ** Routes of the test protocol *)

Definition addr_bytes (family : Z) : nat := if family =? 4 then 4%nat else 16%nat.
Definition addr_af (family : Z) : Z := if family =? 4 then DANOS_AF_IPV4 else DANOS_AF_IPV6.

(** The next-hop loop from index [i] on; [n] next hops are left. *)
Fixpoint map_route_nexthops (family nh_count : Z) (i n : nat) (ids : list Z) (d : zapi_decoder)
    : zm (list Z) :=
  match n with
  | O => mret ids
  | S n =>
      '(_, d) ← need (zapi_decode_u8 d);
      id ← next_id;
      '(gw, d) ← need (zapi_decode_bytes (addr_bytes family) d);
      '(ifindex, d) ← need (zapi_decode_u32 d);
      if (64 <=? i)%nat then give DANOS_ERR_INTERNAL else
      _ ← dpa_ok (danos_nh_create (Some (mk_nexthop id (mk_ip_addr (addr_af family) (bytes_put 16 gw))
            ifindex 1 (if 1 <? nh_count then DANOS_NH_FLAG_ECMP else 0) 0 [0; 0; 0])));
      map_route_nexthops family nh_count (S i) n (<[i := id]> ids) d
  end.

Definition zapi_map_route (msg : option zapi_message) (tx is_add : bool) (w : zworld)
    : danos_status * zworld :=
  match msg with
  | Some msg =>
      if negb tx then (DANOS_ERR_INVALID_ARG, w) else
      run_zm (
        let d := zapi_decoder_init (zm_payload msg) (zm_payload_size msg) in
        '(vrf_id, d) ← need (zapi_decode_u32 d);
        '(family, d) ← need (zapi_decode_u8 d);
        '(prefix_len, d) ← need (zapi_decode_u8 d);
        '(pfx, d) ← need (zapi_decode_bytes (addr_bytes family) d);
        '(proto, d) ← need (zapi_decode_u8 d);
        '(admin_dist, d) ← need (zapi_decode_u8 d);
        '(metric, d) ← need (zapi_decode_u32 d);
        '(nh_count, d) ← need (zapi_decode_u8 d);
        let prefix := mk_ip_prefix (mk_ip_addr (addr_af family) (bytes_put 16 pfx)) prefix_len in
        let route nhgroup_id :=
          mk_route vrf_id prefix (map_protocol proto) admin_dist metric nhgroup_id 0 in
        if negb is_add then dpa (danos_route_delete vrf_id prefix (map_protocol proto)) else
        if 0 <? nh_count then
          grp_id ← next_id;
          ids ← map_route_nexthops family nh_count 0 (Z.to_nat nh_count) (replicate 64 0) d;
          _ ← dpa_ok (danos_nhgroup_create (Some (mk_nhgroup grp_id nh_count ids 0)));
          dpa (danos_route_create (Some (route grp_id)))
        else dpa (danos_route_create (Some (route 0)))) w
  | None => (DANOS_ERR_INVALID_ARG, w)
  end.

(** ** Routes of FRR's native messages *)

Definition ZEBRA_FRR_REDISTRIBUTE_ROUTE_ADD : Z := 31.
Definition ZEBRA_FRR_REDISTRIBUTE_ROUTE_DELETE : Z := 32.

Definition frr_nexthop_obj (id count : Z) (src : zapi_frr_nexthop) : danos_nexthop :=
  mk_nexthop id
    (mk_ip_addr DANOS_AF_IPV4
       (if fnh_has_gateway src then bytes_put 16 (take 4 (fnh_gateway src)) else zeros 16))
    (fnh_ifindex src) 1 (if 1 <? count then DANOS_NH_FLAG_ECMP else 0) 0 [0; 0; 0].

Fixpoint frr_nexthops (count : Z) (i : nat) (nhs : list zapi_frr_nexthop) (ids : list Z)
    : zm (list Z) :=
  match nhs with
  | [] => mret ids
  | nh :: nhs =>
      id ← next_id;
      _ ← dpa_ok (danos_nh_create (Some (frr_nexthop_obj id count nh)));
      frr_nexthops count (S i) nhs (<[i := id]> ids)
  end.

Definition frr_prefix (r : zapi_frr_route) : danos_ip_prefix :=
  mk_ip_prefix (mk_ip_addr DANOS_AF_IPV4 (bytes_put 16 (take 4 (fr_prefix r)))) (fr_prefix_len r).

(** The decoder's structure has [nexthop_count] next hops; see
    [frr_route_bounds].  The trace printed under an environment variable is
    left out. *)
Definition zapi_dispatch_frr (msg : option zapi_message) (tx : bool) (w : zworld)
    : danos_status * zworld :=
  match msg with
  | Some m =>
      if negb tx then (DANOS_ERR_INVALID_ARG, w) else
      let cmd := zh_command (zm_header m) in
      let add := cmd =? ZEBRA_FRR_REDISTRIBUTE_ROUTE_ADD in
      if negb add && negb (cmd =? ZEBRA_FRR_REDISTRIBUTE_ROUTE_DELETE)
      then (DANOS_ERR_NOT_SUPPORTED, w) else
      match zapi_decode_frr_route msg with
      | inl _ => (DANOS_ERR_INVALID_ARG, w)
      | inr r =>
          if negb (fr_family r =? 2) then (DANOS_ERR_NOT_SUPPORTED, w) else
          let protocol := map_frr_protocol (fr_type r) in
          if negb add then run_zm (dpa (danos_route_delete (zm_vrf_id m) (frr_prefix r) protocol)) w
          else run_zm (
            if 0 <? fr_nexthop_count r then
              grp_id ← next_id;
              ids ← frr_nexthops (fr_nexthop_count r) 0 (fr_nexthops r) (replicate 64 0);
              _ ← dpa_ok (danos_nhgroup_create
                            (Some (mk_nhgroup grp_id (fr_nexthop_count r) ids 0)));
              dpa (danos_route_create
                     (Some (mk_route (zm_vrf_id m) (frr_prefix r) protocol 0 0 grp_id 0)))
            else
              dpa (danos_route_create
                     (Some (mk_route (zm_vrf_id m) (frr_prefix r) protocol 0 0 0
                              DANOS_ROUTE_FLAG_BLACKHOLE)))) w
      end
  | None => (DANOS_ERR_INVALID_ARG, w)
  end.

(** ** Interfaces, BFD, labels *)

(** An optional field: on failure the decoder stays where it is. *)
Definition optional {A} (r : option (A * zapi_decoder)) (dflt : A) (d : zapi_decoder)
    : A * zapi_decoder := default (dflt, d) r.

Definition zapi_map_interface (msg : option zapi_message) (tx is_add : bool) (w : zworld)
    : danos_status * zworld :=
  match msg with
  | Some msg =>
      if negb tx then (DANOS_ERR_INVALID_ARG, w) else
      run_zm (
        let d := zapi_decoder_init (zm_payload msg) (zm_payload_size msg) in
        '(ifindex, d) ← need (zapi_decode_u32 d);
        '(name_len, d) ← need (zapi_decode_u8 d);
        let name_len := if 64 <=? name_len then 63 else name_len in
        '(name, d) ← (if 0 <? name_len then need (zapi_decode_bytes (Z.to_nat name_len) d)
                      else mret ([], d));
        let '(mtu, d) := optional (zapi_decode_u32 d) 1500 d in
        let '(mac, d) := optional (zapi_decode_bytes 6 d) (zeros 6) d in
        let iface := mk_iface ifindex (bytes_put 64 name) DANOS_IF_TYPE_PHYS (u16 mtu) mac
                       true false 0 0 0 ip_prefix_zero ip_prefix_zero in
        if is_add then dpa (danos_iface_create (Some iface))
        else dpa (danos_iface_delete ifindex)) w
  | None => (DANOS_ERR_INVALID_ARG, w)
  end.

Definition zapi_map_bfd (msg : option zapi_message) (tx is_add : bool) (w : zworld)
    : danos_status * zworld :=
  match msg with
  | Some msg =>
      if negb tx then (DANOS_ERR_INVALID_ARG, w) else
      run_zm (
        let d := zapi_decoder_init (zm_payload msg) (zm_payload_size msg) in
        '(family, d) ← need (zapi_decode_u8 d);
        '(addr, d) ← need (zapi_decode_bytes (addr_bytes family) d);
        let '(ifindex, d) := optional (zapi_decode_u32 d) 0 d in
        let '(tx_ms, d) := optional (zapi_decode_u32 d) 0 d in
        let '(rx_ms, d) := optional (zapi_decode_u32 d) 0 d in
        let '(detect_mult, d) := optional (zapi_decode_u32 d) 0 d in
        if is_add then
          dpa (danos_bfd_create (Some (mk_bfd 1 (mk_ip_addr (addr_af family) (bytes_put 16 addr))
                 ifindex tx_ms rx_ms detect_mult is_add false)))
        else dpa (danos_bfd_delete 1)) w
  | None => (DANOS_ERR_INVALID_ARG, w)
  end.

(** A read into a stack structure, whose failure is returned at once. *)
Definition read_iface (ifindex : Z) : zm danos_iface := fun w =>
  let junk := mk_iface 0 (zeros 64) 0 0 (zeros 6) false false 0 0 0 ip_prefix_zero ip_prefix_zero in
  let '(st, out, c) := danos_iface_read ifindex (Some junk) (zw_core w) in
  let w := mk_zworld (g_zapi_next_id w) c in
  if bool_decide (st = DANOS_OK) then (inr (default junk out), w) else (inl st, w).

Definition zapi_map_interface_set_mtu (msg : option zapi_message) (tx : bool) (w : zworld)
    : danos_status * zworld :=
  match msg with
  | Some msg =>
      if negb tx then (DANOS_ERR_INVALID_ARG, w) else
      run_zm (
        let d := zapi_decoder_init (zm_payload msg) (zm_payload_size msg) in
        '(ifindex, d) ← need (zapi_decode_u32 d);
        '(mtu, d) ← need (zapi_decode_u32 d);
        i ← read_iface ifindex;
        dpa (danos_iface_update (Some (mk_iface (iface_ifindex i) (iface_name i) (iface_type i)
               (u16 mtu) (iface_mac i) (iface_admin_up i) (iface_link_up i)
               (iface_parent_ifindex i) (iface_outer_vlan i) (iface_inner_vlan i)
               (iface_ipv4_address i) (iface_ipv6_address i))))) w
  | None => (DANOS_ERR_INVALID_ARG, w)
  end.

Definition zapi_map_interface_set_admin (msg : option zapi_message) (tx admin_up : bool)
    (w : zworld) : danos_status * zworld :=
  match msg with
  | Some msg =>
      if negb tx then (DANOS_ERR_INVALID_ARG, w) else
      run_zm (
        let d := zapi_decoder_init (zm_payload msg) (zm_payload_size msg) in
        '(ifindex, d) ← need (zapi_decode_u32 d);
        i ← read_iface ifindex;
        dpa (danos_iface_update (Some (mk_iface (iface_ifindex i) (iface_name i) (iface_type i)
               (iface_mtu i) (iface_mac i) admin_up (iface_link_up i)
               (iface_parent_ifindex i) (iface_outer_vlan i) (iface_inner_vlan i)
               (iface_ipv4_address i) (iface_ipv6_address i))))) w
  | None => (DANOS_ERR_INVALID_ARG, w)
  end.

(** The caller's next hop, and what it holds afterwards. *)
Definition zapi_map_nexthop_lookup (msg : option zapi_message) (tx : bool)
    (out_nh : option danos_nexthop) (w : zworld)
    : danos_status * option danos_nexthop * zworld :=
  match msg, out_nh with
  | Some msg, Some _ =>
      if negb tx then (DANOS_ERR_INVALID_ARG, out_nh, w) else
      let d := zapi_decoder_init (zm_payload msg) (zm_payload_size msg) in
      take! vrf_id, d <- zapi_decode_u32 d else (DANOS_ERR_INVALID_ARG, out_nh, w);
      take! family, d <- zapi_decode_u8 d else (DANOS_ERR_INVALID_ARG, out_nh, w);
      take! gateway, d <- zapi_decode_bytes (addr_bytes family) d
        else (DANOS_ERR_INVALID_ARG, out_nh, w);
      let '(st, out, c) := danos_nh_read 1 out_nh (zw_core w) in
      (st, out, mk_zworld (g_zapi_next_id w) c)
  | _, _ => (DANOS_ERR_INVALID_ARG, out_nh, w)
  end.

Definition zapi_map_redistribute_add (msg : option zapi_message) (tx : bool) (w : zworld)
    : danos_status * zworld :=
  match msg with
  | Some msg =>
      if negb tx then (DANOS_ERR_INVALID_ARG, w) else
      let d := zapi_decoder_init (zm_payload msg) (zm_payload_size msg) in
      take! protocol, d <- zapi_decode_u8 d else (DANOS_ERR_INVALID_ARG, w);
      (DANOS_OK, w)
  | None => (DANOS_ERR_INVALID_ARG, w)
  end.

Fixpoint decode_labels (i n : nat) (labels : list Z) (d : zapi_decoder) : zm (list Z) :=
  match n with
  | O => mret labels
  | S n =>
      '(l, d) ← need (zapi_decode_u32 d);
      decode_labels (S i) n (<[i := l]> labels) d
  end.

Definition zapi_map_labels (msg : option zapi_message) (tx is_add : bool) (w : zworld)
    : danos_status * zworld :=
  match msg with
  | Some msg =>
      if negb tx then (DANOS_ERR_INVALID_ARG, w) else
      run_zm (
        let d := zapi_decoder_init (zm_payload msg) (zm_payload_size msg) in
        '(in_label, d) ← need (zapi_decode_u32 d);
        '(type, d) ← need (zapi_decode_u8 d);
        '(nhgroup_id, d) ← need (zapi_decode_u64 d);
        '(php, d) ← need (zapi_decode_u8 d);
        '(count, d) ← need (zapi_decode_u8 d);
        let count := if 3 <? count then 3 else count in
        labels ← decode_labels 0 (Z.to_nat count) [0; 0; 0] d;
        if is_add then
          dpa (danos_mpls_lsp_create
                 (Some (mk_mpls_lsp in_label type nhgroup_id (negb (php =? 0)) count labels)))
        else dpa (danos_mpls_lsp_delete in_label)) w
  | None => (DANOS_ERR_INVALID_ARG, w)
  end.

(** ** Dispatch *)

Definition nexthop_zero : danos_nexthop := mk_nexthop 0 ip_addr_zero 0 0 0 0 [0; 0; 0].

Definition zapi_dispatch (msg : option zapi_message) (tx : bool) (w : zworld)
    : danos_status * zworld :=
  match msg with
  | Some m =>
      if negb tx then (DANOS_ERR_INVALID_ARG, w) else
      let cmd := zh_command (zm_header m) in
      if cmd =? 0 then zapi_map_route msg tx true w
      else if cmd =? 1 then zapi_map_route msg tx false w
      else if cmd =? 8 then zapi_map_redistribute_add msg tx w
      else if cmd =? 20 then zapi_map_interface msg tx true w
      else if cmd =? 21 then zapi_map_interface msg tx false w
      else if cmd =? 24 then zapi_map_interface_set_mtu msg tx w
      else if cmd =? 25 then zapi_map_interface_set_admin msg tx true w
      else if cmd =? 26 then zapi_map_interface_set_admin msg tx false w
      else if cmd =? 40 then
        let '(st, _, w) := zapi_map_nexthop_lookup msg tx (Some nexthop_zero) w in (st, w)
      else if cmd =? 60 then zapi_map_labels msg tx true w
      else if cmd =? 61 then zapi_map_labels msg tx false w
      else if cmd =? 80 then zapi_map_bfd msg tx true w
      else if cmd =? 81 then zapi_map_bfd msg tx false w
      else (DANOS_ERR_NOT_SUPPORTED, w)
  | None => (DANOS_ERR_INVALID_ARG, w)
  end.

(** ** Lemmas *)

#[global] Arguments create_as : simpl never.
#[global] Arguments delete_as : simpl never.

Lemma zm_bind_inr {A B} (m : zm A) (k : A -> zm B) w a w' :
  m w = (inr a, w') -> (m ≫= k) w = k a w'.
Proof. intros H. unfold mbind, zm_bind. by rewrite H. Qed.

Lemma zm_bind_inl {A B} (m : zm A) (k : A -> zm B) w st w' :
  m w = (inl st, w') -> (m ≫= k) w = (inl st, w').
Proof. intros H. unfold mbind, zm_bind. by rewrite H. Qed.

Lemma next_id_run n c :
  is_u64 n -> n + 1 < 2 ^ 64 -> next_id (mk_zworld n c) = (inr n, mk_zworld (n + 1) c).
Proof. intros [H0 H1] Hn. unfold next_id. simpl. by rewrite u64_small by (unfold is_u64; lia). Qed.

Lemma dpa_run f n c st c' :
  f c = (st, c') -> dpa f (mk_zworld n c) = (inr st, mk_zworld n c').
Proof. intros H. unfold dpa. simpl. by rewrite H. Qed.

Lemma dpa_ok_run f n c c' :
  f c = (DANOS_OK, c') -> dpa_ok f (mk_zworld n c) = (inr (), mk_zworld n c').
Proof. intros H. unfold dpa_ok. by rewrite (zm_bind_inr _ _ _ _ _ (dpa_run f n c _ _ H)). Qed.

(** An operation on the default store. *)
Lemma default_op h c op :
  prog_env h c ->
  exists c', run_op h op c = ((spec_op op (objs c h)).1, c') /\
    prog_env h c' /\ objs c' h = (spec_op op (objs c h)).2 /\ ledger_map c' = ledger_map c.
Proof.
  intros Hp. pose proof (pe_live h c Hp) as Hl. destruct Hp as [Hwf Hd He].
  destruct (run_op_granted c h op Hwf Hl He) as [Hst [Mw Mo _ Mot Md Mp]].
  pose proof (run_op_env c h op Hwf Hl He) as Henv.
  destruct (run_op h op c) as [st c']. simpl in *. exists c'. subst st.
  split_and!; [done|split; [done|congruence|done]|done|].
  unfold ledger_map. rewrite Mp. destruct (g_programmed c) as [l|] eqn:Hpr; [|done].
  assert (l <> h) as Hne by (intros ->; by apply (cw_distinct c Hwf h)). unfold objs. by rewrite Mot.
Qed.

Lemma default_create {A} `{CStructLaws A} h c type key (x : A) :
  prog_env h c -> struct_wf x -> (0 < sizeof A)%nat ->
  exists c', create_as type key (Some x) c =
      (if decide (is_Some (objs c h !! (type, key x))) then DANOS_ERR_EXISTS else DANOS_OK, c') /\
    prog_env h c' /\
    objs c' h = (if decide (is_Some (objs c h !! (type, key x))) then objs c h
                 else <[(type, key x) := to_mem x]> (objs c h)) /\
    ledger_map c' = ledger_map c.
Proof.
  intros Hp Hx Hs. destruct (default_op h c (OpCreate type (key x) (Some (to_mem x))) Hp)
    as (c' & Hr & Hp' & Ho & Hlm).
  pose proof (length_to_mem x Hx) as Hl. exists c'.
  unfold create_as, get_default_store. rewrite (pe_default h c Hp).
  change (danos_object_create (Some h) type (key x) (Some (to_mem x)) c)
    with (run_op h (OpCreate type (key x) (Some (to_mem x))) c).
  rewrite Hr. cbn [spec_op] in *. destruct (to_mem x) as [|b d]; [simpl in Hl; lia|].
  destruct (decide (is_Some (objs c h !! (type, key x)))); by split_and!.
Qed.

Lemma default_delete h c type id :
  prog_env h c ->
  exists c', delete_as type id c =
      (if decide (is_Some (objs c h !! (type, id))) then DANOS_OK else DANOS_ERR_NOT_FOUND, c') /\
    prog_env h c' /\ objs c' h = delete (type, id) (objs c h) /\ ledger_map c' = ledger_map c.
Proof.
  intros Hp. destruct (default_op h c (OpDelete type id) Hp) as (c' & Hr & Hp' & Ho & Hlm).
  exists c'. unfold delete_as, get_default_store. rewrite (pe_default h c Hp).
  change (danos_object_delete (Some h) type id c) with (run_op h (OpDelete type id) c).
  rewrite Hr. cbn [spec_op] in *. destruct (decide (is_Some (objs c h !! (type, id)))) as [|Hn];
    split_and!; try done. rewrite delete_id; [done|]. by apply eq_None_not_Some.
Qed.

(** The next hops the loop creates, in order, from id [id] on. *)
Fixpoint nh_objs (count id : Z) (nhs : list zapi_frr_nexthop) (m : gmap obj_key bytes)
    : gmap obj_key bytes :=
  match nhs with
  | [] => m
  | nh :: nhs =>
      nh_objs count (id + 1) nhs
        (<[(DANOS_OBJ_NEXTHOP, id) := to_mem (frr_nexthop_obj id count nh)]> m)
  end.

Lemma nh_objs_other count id nhs m k :
  (forall i, id <= i < id + Z.of_nat (length nhs) -> k <> (DANOS_OBJ_NEXTHOP, i)) ->
  nh_objs count id nhs m !! k = m !! k.
Proof.
  revert id m. induction nhs as [|nh nhs IH]; intros id m Hk; [done|]. cbn [nh_objs length] in *.
  rewrite IH by (intros i Hi; apply Hk; lia). rewrite lookup_insert_ne; [done|].
  intros Heq. apply (Hk id); [lia|done].
Qed.

Lemma nh_objs_lookup count id nhs m i nh :
  nhs !! i = Some nh ->
  nh_objs count id nhs m !! (DANOS_OBJ_NEXTHOP, id + Z.of_nat i) =
    Some (to_mem (frr_nexthop_obj (id + Z.of_nat i) count nh)).
Proof.
  revert id m i. induction nhs as [|nh' nhs IH]; intros id m i Hi; [done|]. cbn [nh_objs].
  destruct i as [|i]; simpl in Hi.
  - simplify_eq. rewrite Z.add_0_r, nh_objs_other, lookup_insert_eq; [done|].
    intros i Hi [= ->]. lia.
  - replace (id + Z.of_nat (S i)) with (id + 1 + Z.of_nat i) by lia. by apply IH.
Qed.

Lemma frr_nexthop_obj_wf id count nh :
  is_u64 id -> is_u32 (fnh_ifindex nh) -> length (fnh_gateway nh) = 16%nat ->
  bytes_ok (fnh_gateway nh) -> struct_wf (frr_nexthop_obj id count nh).
Proof.
  intros Hid Hif Hl Hb.
  assert (length (take 4 (fnh_gateway nh)) = 4%nat) as H4 by (rewrite length_take; lia).
  unfold frr_nexthop_obj. set (gw := if fnh_has_gateway nh then _ else _).
  assert (length gw = 16%nat /\ bytes_ok gw) as [Hgl Hgb].
  { unfold gw. destruct (fnh_has_gateway nh); [|auto using length_zeros, zeros_ok].
    split; [apply length_bytes_put; lia|]. by apply bytes_put_ok, Forall_take. }
  assert (struct_wf (mk_ip_addr DANOS_AF_IPV4 gw)) as Hgw by (by split_and!).
  split_and!; simpl; try done; [destruct (1 <? count); done|repeat constructor; done].
Qed.

(** The ids the loop stores: [id], [id + 1], ... from index [i] on. *)
Fixpoint put_ids (i : nat) (id : Z) (n : nat) (ids : list Z) : list Z :=
  match n with
  | O => ids
  | S n => put_ids (S i) (id + 1) n (<[i := id]> ids)
  end.

Lemma put_ids_length i id n ids : length (put_ids i id n ids) = length ids.
Proof.
  revert i id ids. induction n as [|n IH]; intros; simpl; [done|]. by rewrite IH, length_insert.
Qed.

Lemma put_ids_other i id n ids j : (j < i)%nat -> put_ids i id n ids !! j = ids !! j.
Proof.
  revert i id ids. induction n as [|n IH]; intros i id ids Hj; simpl; [done|].
  by rewrite IH, list_lookup_insert_ne by lia.
Qed.

Lemma put_ids_lookup i id n ids j :
  (i + n <= length ids)%nat -> (j < n)%nat ->
  put_ids i id n ids !! (i + j)%nat = Some (id + Z.of_nat j).
Proof.
  revert i id ids j. induction n as [|n IH]; intros i id ids j Hl Hj; simpl; [lia|].
  destruct j as [|j].
  - rewrite Nat.add_0_r, Z.add_0_r, put_ids_other by lia. apply list_lookup_insert_eq. lia.
  - replace (i + S j)%nat with (S i + j)%nat by lia.
    replace (id + Z.of_nat (S j)) with (id + 1 + Z.of_nat j) by lia.
    apply IH; rewrite ?length_insert; lia.
Qed.

Lemma put_ids_u64 i id n ids :
  0 <= id -> id + Z.of_nat n <= 2 ^ 64 -> Forall is_u64 ids -> Forall is_u64 (put_ids i id n ids).
Proof.
  revert i id ids. induction n as [|n IH]; intros i id ids Hid Hn Hf; simpl; [done|].
  apply IH; [lia|lia|]. apply Forall_insert; [done|]. unfold is_u64. lia.
Qed.

Lemma frr_nexthops_run h count nhs i ids id c :
  prog_env h c -> Forall (frr_nh_in AF_INET) nhs -> 0 <= id ->
  id + Z.of_nat (length nhs) < 2 ^ 64 ->
  (forall j, id <= j < id + Z.of_nat (length nhs) -> objs c h !! (DANOS_OBJ_NEXTHOP, j) = None) ->
  exists c', frr_nexthops count i nhs ids (mk_zworld id c) =
      (inr (put_ids i id (length nhs) ids), mk_zworld (id + Z.of_nat (length nhs)) c') /\
    prog_env h c' /\ objs c' h = nh_objs count id nhs (objs c h) /\ ledger_map c' = ledger_map c.
Proof.
  revert i ids id c. induction nhs as [|nh nhs IH]; intros i ids id c Hp Hall Hid Hb Hfresh.
  { exists c. simpl. by rewrite Z.add_0_r. }
  apply Forall_cons in Hall as [Hnh Hall]. cbn [length] in *.
  destruct (default_create h c DANOS_OBJ_NEXTHOP nh_id (frr_nexthop_obj id count nh) Hp)
    as (c1 & Hc1 & Hp1 & Ho1 & Hl1).
  { destruct Hnh as [_ Hl Hok Hif]. apply frr_nexthop_obj_wf; try done. unfold is_u64. lia. }
  { simpl. lia. }
  cbn [nh_id frr_nexthop_obj] in Hc1, Ho1.
  rewrite decide_False in Hc1 by (rewrite Hfresh by lia; by intros [? ?]).
  rewrite decide_False in Ho1 by (rewrite Hfresh by lia; by intros [? ?]).
  destruct (IH (S i) (<[i := id]> ids) (id + 1) c1 Hp1 Hall) as (c2 & Hc2 & Hp2 & Ho2 & Hl2); try lia.
  { intros j Hj. rewrite Ho1, lookup_insert_ne; [apply Hfresh; lia|]. intros [=]. lia. }
  exists c2. cbn [frr_nexthops].
  rewrite (zm_bind_inr _ _ _ _ _ (next_id_run id c ltac:(unfold is_u64; lia) ltac:(lia))).
  rewrite (zm_bind_inr _ _ _ _ _ (dpa_ok_run (danos_nh_create _) _ _ _ Hc1)), Hc2.
  split_and!; [do 2 f_equal; lia|done|by rewrite Ho2, Ho1|by rewrite Hl2].
Qed.

(** ** Adding and deleting routes with FRR's messages *)

Definition frr_route_obj (m : zapi_message) (r : zapi_frr_route) (grp_id : Z) : danos_route :=
  mk_route (zm_vrf_id m) (frr_prefix r) (map_frr_protocol (fr_type r)) 0 0 grp_id 0.

Definition frr_route_id (m : zapi_message) (r : zapi_frr_route) : obj_key :=
  (DANOS_OBJ_ROUTE, route_key (zm_vrf_id m) (frr_prefix r) (map_frr_protocol (fr_type r))).

Definition frr_group_obj (n : Z) (r : zapi_frr_route) : danos_nhgroup :=
  mk_nhgroup n (fr_nexthop_count r)
    (put_ids 0 (n + 1) (length (fr_nexthops r)) (replicate 64 0)) 0.

(** A message with a decodable IPv4 route, for [h], on an id counter [n] whose
    next ids are unused. *)
Record frr_add_ok (h : Z) (m : zapi_message) (r : zapi_frr_route) (n : Z) (c : core) : Prop := {
  fa_env : prog_env h c;
  fa_decode : zapi_decode_frr_route (Some m) = inr r;
  fa_size : (zm_payload_size m <= length (zm_payload m))%nat;
  fa_bytes : bytes_ok (zm_payload m);
  fa_vrf : is_u32 (zm_vrf_id m);
  fa_ipv4 : fr_family r = AF_INET;
  fa_nexthops : 0 < fr_nexthop_count r;
  fa_ids : 0 <= n /\ n + 1 + fr_nexthop_count r < 2 ^ 64;
  fa_group : objs c h !! (DANOS_OBJ_NHGROUP, n) = None;
  fa_fresh : forall j, n + 1 <= j < n + 1 + fr_nexthop_count r ->
    objs c h !! (DANOS_OBJ_NEXTHOP, j) = None;
}.

Lemma frr_protocol_uint t : is_uint 4 (map_frr_protocol t).
Proof. unfold map_frr_protocol. repeat case_match; by split. Qed.

Lemma frr_prefix_wf r : frr_route_in r -> fr_family r = AF_INET -> struct_wf (frr_prefix r).
Proof.
  intros [F1 F2 F3 _ _ _] H4.
  assert (length (take 4 (fr_prefix r)) = 4%nat) by (rewrite length_take; lia).
  assert (struct_wf (mk_ip_addr DANOS_AF_IPV4 (bytes_put 16 (take 4 (fr_prefix r))))) as Ha.
  { split_and!; [done|apply length_bytes_put; lia|by apply bytes_put_ok, Forall_take]. }
  split; [exact Ha|]. unfold is_uint. change (256 ^ Z.of_nat 1) with 256. simpl.
  destruct F1 as [[_ ?]|[Hf _]]; [lia|by rewrite H4 in Hf].
Qed.

Lemma frr_group_wf n r :
  frr_route_in r -> 0 <= n -> n + 1 + fr_nexthop_count r < 2 ^ 64 -> struct_wf (frr_group_obj n r).
Proof.
  intros [_ _ _ Hc Hm _] Hn Hb. unfold frr_group_obj.
  split_and!; cbn [grp_id grp_nh_count grp_nh_ids grp_flags]; try done.
  - unfold is_uint. change (256 ^ Z.of_nat 8) with (2 ^ 64). lia.
  - unfold is_uint. change (256 ^ Z.of_nat 4) with (2 ^ 32). lia.
  - by rewrite put_ids_length, length_replicate.
  - apply (put_ids_u64 0 (n + 1)); [lia|lia|]. apply Forall_replicate. by split.
Qed.

Lemma frr_add_run h m r n c :
  frr_add_ok h m r n c -> zh_command (zm_header m) = ZEBRA_FRR_REDISTRIBUTE_ROUTE_ADD ->
  let present := decide (is_Some (objs c h !! frr_route_id m r)) in
  let mid := <[(DANOS_OBJ_NHGROUP, n) := to_mem (frr_group_obj n r)]>
               (nh_objs (fr_nexthop_count r) (n + 1) (fr_nexthops r) (objs c h)) in
  exists c', zapi_dispatch_frr (Some m) true (mk_zworld n c) =
      (if present then DANOS_ERR_EXISTS else DANOS_OK,
       mk_zworld (n + 1 + fr_nexthop_count r) c') /\
    prog_env h c' /\
    objs c' h = (if present then mid else <[frr_route_id m r := to_mem (frr_route_obj m r n)]> mid) /\
    ledger_map c' = ledger_map c.
Proof.
  intros [Hp Hdec Hsz Hby Hvrf H4 Hcnt [Hn Hb] Hg Hfresh] Hcmd present mid.
  pose proof (decoded_route_in m r Hsz Hby Hdec) as Hin.
  pose proof (fri_count r Hin) as Hlen. pose proof (fri_nexthops r Hin) as Hall. rewrite H4 in Hall.
  unfold zapi_dispatch_frr. rewrite Hcmd, Hdec, H4. cbn [negb Z.eqb Pos.eqb andb AF_INET
    ZEBRA_FRR_REDISTRIBUTE_ROUTE_ADD]. unfold run_zm. rewrite (proj2 (Z.ltb_lt _ _)) by lia.
  rewrite (zm_bind_inr _ _ _ _ _ (next_id_run n c ltac:(unfold is_u64; lia) ltac:(lia))).
  destruct (frr_nexthops_run h (fr_nexthop_count r) (fr_nexthops r) 0 (replicate 64 0) (n + 1) c)
    as (c1 & Hr1 & Hp1 & Ho1 & Hl1); try done; try lia; [intros; apply Hfresh; lia|].
  rewrite (zm_bind_inr _ _ _ _ _ Hr1).
  destruct (default_create h c1 DANOS_OBJ_NHGROUP grp_id (frr_group_obj n r) Hp1)
    as (c2 & Hr2 & Hp2 & Ho2 & Hl2); [by apply frr_group_wf|simpl; lia|].
  cbn [grp_id frr_group_obj] in Hr2, Ho2.
  assert (objs c1 h !! (DANOS_OBJ_NHGROUP, n) = None) as Hg1 by (by rewrite Ho1, nh_objs_other).
  rewrite decide_False in Hr2 by (rewrite Hg1; by intros [? ?]).
  rewrite decide_False in Ho2 by (rewrite Hg1; by intros [? ?]). rewrite Ho1 in Ho2.
  rewrite (zm_bind_inr _ _ _ _ _ (dpa_ok_run (danos_nhgroup_create _) _ _ _ Hr2)).
  destruct (default_create h c2 DANOS_OBJ_ROUTE route_id (frr_route_obj m r n) Hp2)
    as (c3 & Hr3 & Hp3 & Ho3 & Hl3); [|simpl; lia|].
  { split_and!; try done; [by apply frr_prefix_wf|apply frr_protocol_uint|].
    unfold is_uint. simpl. change (256 ^ Z.of_nat 8) with (2 ^ 64). lia. }
  change (DANOS_OBJ_ROUTE, route_id (frr_route_obj m r n)) with (frr_route_id m r) in *.
  assert (objs c2 h !! frr_route_id m r = objs c h !! frr_route_id m r) as Hrt.
  { rewrite Ho2, lookup_insert_ne by done. by apply nh_objs_other. }
  rewrite (dpa_run (danos_route_create _) _ _ _ _ Hr3). rewrite Ho2 in Ho3. fold mid in Ho3.
  exists c3. rewrite Hlen. unfold present. rewrite Ho2 in Hrt. fold mid in Hrt.
  split_and!; [|done| |by rewrite Hl3, Hl2].
  - rewrite Ho2. fold mid. by destruct (decide (is_Some (mid !! _))) as [Hd|Hd],
      (decide (is_Some (objs c h !! _))) as [Hd'|Hd']; rewrite Hrt in Hd.
  - rewrite Ho3. by destruct (decide (is_Some (mid !! _))) as [Hd|Hd],
      (decide (is_Some (objs c h !! _))) as [Hd'|Hd']; rewrite Hrt in Hd.
Qed.

(** A route that FRR announces is installed whole: the call succeeds, the
    route is in the desired store under its key and points to a new group, the
    group lists one new next-hop id per announced next hop, in order, each of
    these next hops is there with its gateway and interface, and no other
    object changed. *)
Theorem frr_add_installs h m r n c :
  frr_add_ok h m r n c -> zh_command (zm_header m) = ZEBRA_FRR_REDISTRIBUTE_ROUTE_ADD ->
  objs c h !! frr_route_id m r = None ->
  exists c' grp, zapi_dispatch_frr (Some m) true (mk_zworld n c) =
      (DANOS_OK, mk_zworld (n + 1 + fr_nexthop_count r) c') /\
    objs c' h !! frr_route_id m r = Some (to_mem (frr_route_obj m r n)) /\
    objs c' h !! (DANOS_OBJ_NHGROUP, n) = Some (to_mem grp) /\
    grp_nh_count grp = fr_nexthop_count r /\
    (forall i nh, fr_nexthops r !! i = Some nh ->
       grp_nh_ids grp !! i = Some (n + 1 + Z.of_nat i) /\
       objs c' h !! (DANOS_OBJ_NEXTHOP, n + 1 + Z.of_nat i) =
         Some (to_mem (frr_nexthop_obj (n + 1 + Z.of_nat i) (fr_nexthop_count r) nh))) /\
    (forall k, k <> frr_route_id m r -> k <> (DANOS_OBJ_NHGROUP, n) ->
       (forall i, n + 1 <= i < n + 1 + fr_nexthop_count r -> k <> (DANOS_OBJ_NEXTHOP, i)) ->
       objs c' h !! k = objs c h !! k).
Proof.
  intros Hok Hcmd Hnone. destruct (frr_add_run h m r n c Hok Hcmd) as (c' & Hrun & _ & Ho & _).
  rewrite decide_False in Hrun by (rewrite Hnone; by intros [? ?]).
  rewrite decide_False in Ho by (rewrite Hnone; by intros [? ?]).
  pose proof (decoded_route_in m r (fa_size _ _ _ _ _ Hok) (fa_bytes _ _ _ _ _ Hok)
    (fa_decode _ _ _ _ _ Hok)) as Hin. pose proof (fri_count r Hin) as Hlen.
  pose proof (fri_max r Hin) as Hmax.
  exists c', (frr_group_obj n r). rewrite Ho. split_and!; try done.
  - by rewrite lookup_insert_eq.
  - by rewrite lookup_insert_ne, lookup_insert_eq.
  - intros i nh Hi. pose proof (lookup_lt_Some _ _ _ Hi). split.
    + unfold frr_group_obj. cbn [grp_nh_ids].
      apply (put_ids_lookup 0); [rewrite length_replicate; lia|done].
    + rewrite !lookup_insert_ne by done. by apply nh_objs_lookup.
  - intros k Hk1 Hk2 Hk3. rewrite !lookup_insert_ne by done. apply nh_objs_other.
    intros i Hi. apply Hk3. lia.
Qed.

(** Announcing a route that is already known does not replace it: the
    call returns EXISTS and the route keeps its old bytes, so its old next
    hops stay in use, while the new group and next hops it created remain in
    the desired store with nothing referring to them. *)
Theorem frr_readd_leaks h m r n c d :
  frr_add_ok h m r n c -> zh_command (zm_header m) = ZEBRA_FRR_REDISTRIBUTE_ROUTE_ADD ->
  objs c h !! frr_route_id m r = Some d ->
  exists c', zapi_dispatch_frr (Some m) true (mk_zworld n c) =
      (DANOS_ERR_EXISTS, mk_zworld (n + 1 + fr_nexthop_count r) c') /\
    objs c' h !! frr_route_id m r = Some d /\
    is_Some (objs c' h !! (DANOS_OBJ_NHGROUP, n)) /\
    (forall i, (i < length (fr_nexthops r))%nat ->
       is_Some (objs c' h !! (DANOS_OBJ_NEXTHOP, n + 1 + Z.of_nat i))).
Proof.
  intros Hok Hcmd Hd. destruct (frr_add_run h m r n c Hok Hcmd) as (c' & Hrun & _ & Ho & _).
  rewrite decide_True in Hrun by eauto. rewrite decide_True in Ho by eauto.
  exists c'. rewrite Ho. split_and!; try done.
  - rewrite lookup_insert_ne by done. rewrite nh_objs_other; [done|]. intros; discriminate.
  - by rewrite lookup_insert_eq.
  - intros i [nh Hi]%lookup_lt_is_Some. rewrite lookup_insert_ne by done.
    by rewrite (nh_objs_lookup _ _ _ _ _ _ Hi).
Qed.

(** Withdrawing a route deletes exactly the route: the status says whether
    it was known, every other object stays, and with them the group and the
    next hops that its announcement created. *)
Theorem frr_withdraw_exact h m r n c :
  prog_env h c -> zh_command (zm_header m) = ZEBRA_FRR_REDISTRIBUTE_ROUTE_DELETE ->
  zapi_decode_frr_route (Some m) = inr r -> fr_family r = AF_INET ->
  exists c', zapi_dispatch_frr (Some m) true (mk_zworld n c) =
      (if decide (is_Some (objs c h !! frr_route_id m r)) then DANOS_OK else DANOS_ERR_NOT_FOUND,
       mk_zworld n c') /\
    objs c' h = delete (frr_route_id m r) (objs c h).
Proof.
  intros Hp Hcmd Hdec H4. unfold zapi_dispatch_frr. rewrite Hcmd, Hdec, H4.
  cbn [negb Z.eqb Pos.eqb andb AF_INET ZEBRA_FRR_REDISTRIBUTE_ROUTE_ADD
       ZEBRA_FRR_REDISTRIBUTE_ROUTE_DELETE]. unfold run_zm.
  destruct (default_delete h c DANOS_OBJ_ROUTE
    (route_key (zm_vrf_id m) (frr_prefix r) (map_frr_protocol (fr_type r))) Hp)
    as (c' & Hd & _ & Ho & _).
  rewrite (dpa_run (danos_route_delete _ _ _) _ _ _ _ Hd). by exists c'.
Qed.

(** ** From the announcement to what the backend is given *)

Lemma read_mem_struct {A} `{CStructLaws A} h c t id (x : A) :
  prog_env h c -> struct_wf x -> objs c h !! (t, id) = Some (to_mem x) ->
  read_mem (g_default_store c) t id (sizeof A) c = Some (to_mem x).
Proof.
  intros Hp Hx Ho. pose proof (length_to_mem x Hx) as Hl.
  rewrite (pe_default h c Hp), read_mem_lookup by eauto using pe_wf, pe_live.
  rewrite Ho. cbn [mbind option_bind]. rewrite Hl, Nat.ltb_irrefl. f_equal.
  rewrite cwrite_zeros by lia. rewrite drop_ge by (rewrite length_zeros; lia). apply app_nil_r.
Qed.

Definition nh_present (h : Z) (c : core) (id : Z) (nh : danos_nexthop) : Prop :=
  struct_wf nh /\ objs c h !! (DANOS_OBJ_NEXTHOP, id) = Some (to_mem nh).

Lemma resolve_members_run h c ids nhs i out :
  prog_env h c -> Forall2 (nh_present h c) ids nhs ->
  length (rr_nh_gw out) = 64%nat -> length (rr_nh_oif out) = 64%nat ->
  (i + length ids <= 64)%nat ->
  exists out', resolve_members c i ids out = Some out' /\
    rr_route out' = rr_route out /\ rr_nh_count out' = rr_nh_count out /\
    (forall j, (j < i)%nat -> rr_nh_gw out' !! j = rr_nh_gw out !! j /\
                              rr_nh_oif out' !! j = rr_nh_oif out !! j) /\
    (forall j nh, nhs !! j = Some nh ->
       rr_nh_gw out' !! (i + j)%nat = Some (gw_bytes (nh_gateway nh)) /\
       rr_nh_oif out' !! (i + j)%nat = Some (nh_ifindex nh)).
Proof.
  intros Hp Hall. revert i out. induction Hall as [|id nh ids nhs [Hwf Ho] _ IH];
    intros i out Hg1 Hg2 Hi.
  { exists out. by split_and!. }
  cbn [resolve_members]. rewrite (read_mem_struct h c _ _ nh Hp Hwf Ho), (of_to_mem nh Hwf).
  cbn [length] in Hi.
  edestruct (IH (S i)) as (out' & Hr & H1 & H2 & H3 & H4);
    [..|exists out'; split; [exact Hr|]]; simpl; rewrite ?length_insert; try lia.
  simpl in *. split_and!; try done.
  - intros j Hj. destruct (H3 j ltac:(lia)) as [-> ->]. by rewrite !list_lookup_insert_ne by lia.
  - intros [|j] nh' Hj; simpl in Hj.
    + simplify_eq. rewrite Nat.add_0_r. destruct (H3 i ltac:(lia)) as [-> ->].
      by rewrite !list_lookup_insert_eq by lia.
    + rewrite <- Nat.add_succ_comm. by apply H4.
Qed.

Lemma nexthop_objs h c count id nhs :
  Forall (frr_nh_in AF_INET) nhs -> 0 <= id -> id + Z.of_nat (length nhs) < 2 ^ 64 ->
  (forall i nh, nhs !! i = Some nh -> objs c h !! (DANOS_OBJ_NEXTHOP, id + Z.of_nat i) =
     Some (to_mem (frr_nexthop_obj (id + Z.of_nat i) count nh))) ->
  Forall2 (nh_present h c) ((fun i => id + Z.of_nat i) <$> seq 0 (length nhs))
    (imap (fun i nh => frr_nexthop_obj (id + Z.of_nat i) count nh) nhs).
Proof.
  intros Hall Hid Hb Hobj. apply Forall2_same_length_lookup. split.
  { by rewrite length_fmap, length_seq, length_imap. }
  intros i x y Hx Hy. rewrite list_lookup_fmap in Hx. rewrite list_lookup_imap in Hy.
  destruct (nhs !! i) as [nh|] eqn:Hi; [|done]. pose proof (lookup_lt_Some _ _ _ Hi) as Hlt.
  rewrite lookup_seq_lt in Hx by done. simpl in *. simplify_eq.
  pose proof (proj1 (Forall_lookup _ _) Hall i nh Hi) as [_ Hl Hok Hif].
  split; [|by apply Hobj]. apply frr_nexthop_obj_wf; try done. unfold is_u64. lia.
Qed.

Lemma put_ids_take id n ids :
  (n <= length ids)%nat ->
  take n (put_ids 0 id n ids) = (fun i => id + Z.of_nat i) <$> seq 0 n.
Proof.
  intros Hn. apply list_eq. intros i. rewrite list_lookup_fmap.
  destruct (decide (i < n)%nat) as [Hi|Hi].
  - rewrite lookup_take_lt, lookup_seq_lt by done. by apply (put_ids_lookup 0).
  - rewrite lookup_take_ge, lookup_seq_ge by lia. done.
Qed.

(** Resolution through a group whose members are all there. *)
Lemma resolve_group h c rt grp nhs :
  prog_env h c -> Z.land (rt_flags rt) DANOS_ROUTE_FLAG_BLACKHOLE = 0 -> rt_nhgroup_id rt <> 0 ->
  struct_wf grp -> objs c h !! (DANOS_OBJ_NHGROUP, rt_nhgroup_id rt) = Some (to_mem grp) ->
  0 < grp_nh_count grp <= 64 -> Forall2 (nh_present h c) (group_members grp) nhs -> nhs <> [] ->
  exists out, resolve_route_nh rt c = (DANOS_OK, out) /\
    rr_route out = rt /\ rr_nh_count out = grp_nh_count grp /\
    forall i nh, nhs !! i = Some nh ->
      rr_nh_gw out !! i = Some (gw_bytes (nh_gateway nh)) /\
      rr_nh_oif out !! i = Some (nh_ifindex nh).
Proof.
  intros Hp Hbh Hid Hw Ho Hc Hall Hne. unfold resolve_route_nh.
  rewrite Hbh, (proj2 (Z.eqb_neq _ _) Hid), (read_mem_struct h c _ _ grp Hp Hw Ho), (of_to_mem grp Hw).
  cbn [Z.eqb negb]. rewrite (proj2 (Z.eqb_neq (grp_nh_count grp) 0)) by lia.
  destruct nhs as [|nh0 nhs]; [done|].
  apply Forall2_cons_inv_r in Hall as (id0 & ids & [Hw0 Ho0] & Hall & Hgm).
  assert (default 0 (grp_nh_ids grp !! 0%nat) = id0) as ->.
  { assert (group_members grp !! 0%nat = Some id0) as Hz by (by rewrite Hgm).
    unfold group_members in Hz. rewrite lookup_take_lt in Hz by lia. by rewrite Hz. }
  rewrite (read_mem_struct h c _ _ nh0 Hp Hw0 Ho0), (of_to_mem nh0 Hw0). cbv zeta.
  match goal with |- context [resolve_members c 0 _ ?o] => set (out := o) end.
  destruct (resolve_members_run h c (group_members grp) (nh0 :: nhs) 0 out Hp)
    as (out' & Hr & H1 & H2 & _ & H4).
  - rewrite Hgm. by constructor.
  - apply length_replicate.
  - apply length_replicate.
  - unfold group_members. rewrite length_take. lia.
  - rewrite Hr. exists out'. split_and!; [done|by rewrite H1|rewrite H2; simpl; lia|exact H4].
Qed.

(** The desired objects of an announced route resolve to its next hops. *)
Lemma frr_added_resolves h m r n c c' :
  frr_add_ok h m r n c -> prog_env h c' -> 0 < n ->
  objs c' h !! (DANOS_OBJ_NHGROUP, n) = Some (to_mem (frr_group_obj n r)) ->
  (forall i nh, fr_nexthops r !! i = Some nh -> objs c' h !! (DANOS_OBJ_NEXTHOP, n + 1 + Z.of_nat i) =
     Some (to_mem (frr_nexthop_obj (n + 1 + Z.of_nat i) (fr_nexthop_count r) nh))) ->
  exists out, resolve_route_nh (frr_route_obj m r n) c' = (DANOS_OK, out) /\
    rr_route out = frr_route_obj m r n /\ rr_nh_count out = fr_nexthop_count r /\
    forall i nh, fr_nexthops r !! i = Some nh ->
      rr_nh_gw out !! i = Some (if fnh_has_gateway nh
                                then take 4 (fnh_gateway nh) ++ zeros 12 else zeros 16) /\
      rr_nh_oif out !! i = Some (fnh_ifindex nh).
Proof.
  intros [_ Hdec Hsz Hby _ H4 Hcnt [Hn Hb] _ _] Hp' Hn0 Hgrp Hnhs.
  pose proof (decoded_route_in m r Hsz Hby Hdec) as Hin.
  pose proof (fri_count r Hin) as Hlen. pose proof (fri_max r Hin) as Hmax.
  pose proof (fri_nexthops r Hin) as Hall. rewrite H4 in Hall.
  pose proof (nexthop_objs h c' (fr_nexthop_count r) (n + 1) (fr_nexthops r) Hall
    ltac:(lia) ltac:(lia) Hnhs) as Hpres.
  edestruct (resolve_group h c' (frr_route_obj m r n) (frr_group_obj n r)) as (out & Hr & H1 & H2 & H3).
  - exact Hp'.
  - done.
  - simpl. lia.
  - by apply frr_group_wf.
  - exact Hgrp.
  - simpl. lia.
  - unfold group_members, frr_group_obj. cbn [grp_nh_count grp_nh_ids].
    rewrite Z.min_l, Hlen, Nat2Z.id, put_ids_take by (rewrite ?length_replicate; lia).
    exact Hpres.
  - intros He. apply (f_equal length) in He. rewrite length_imap in He. simpl in He. lia.
  - exists out. split_and!; [exact Hr|done|by rewrite H2|].
    intros i nh Hi. destruct (H3 i (frr_nexthop_obj (n + 1 + Z.of_nat i) (fr_nexthop_count r) nh))
      as [-> ->]; [by rewrite list_lookup_imap, Hi|]. split; [|done]. f_equal.
    pose proof (proj1 (Forall_lookup _ _) Hall i nh Hi) as [_ Hgl _ _].
    unfold gw_bytes. simpl. destruct (fnh_has_gateway nh); [|done].
    unfold bytes_put, cwrite. rewrite take_0, app_nil_l.
    by rewrite take_app_length' by (rewrite length_take; lia).
Qed.

(** An announcement of another family than IPv4 changes nothing. *)
Lemma frr_family_refused m r w :
  zapi_decode_frr_route (Some m) = inr r -> fr_family r <> AF_INET ->
  zh_command (zm_header m) = ZEBRA_FRR_REDISTRIBUTE_ROUTE_ADD ->
  zapi_dispatch_frr (Some m) true w = (DANOS_ERR_NOT_SUPPORTED, w).
Proof.
  intros Hd Hf Hc. unfold zapi_dispatch_frr. rewrite Hc, Hd. cbn [negb andb Z.eqb Pos.eqb ZEBRA_FRR_REDISTRIBUTE_ROUTE_ADD].
  change AF_INET with 2 in Hf. apply Z.eqb_neq in Hf. by rewrite Hf.
Qed.


(** ** Witnesses *)

Definition demo_frr_payload : bytes := frr_wire [(0, 100); (0, 0)] demo_frr_route.

Definition demo_frr_msg (cmd : Z) : zapi_message :=
  mk_zmsg (mk_zhdr 0 254 6 cmd) demo_frr_payload (length demo_frr_payload) 0.

Lemma demo_frr_decode cmd : zapi_decode_frr_route (Some (demo_frr_msg cmd)) = inr demo_frr_route.
Proof. vm_compute. reflexivity. Qed.

Lemma demo_frr_bytes : bytes_ok demo_frr_payload.
Proof. apply (bool_decide_unpack _). vm_compute. exact I. Qed.

Lemma demo_add_ok n c :
  prog_env 1 c -> 0 <= n < 2000 ->
  objs c 1 !! (DANOS_OBJ_NHGROUP, n) = None ->
  (forall j, n < j -> objs c 1 !! (DANOS_OBJ_NEXTHOP, j) = None) ->
  frr_add_ok 1 (demo_frr_msg 31) demo_frr_route n c.
Proof.
  intros Hp Hn Hg Hf. split; try done.
  - apply demo_frr_bytes.
  - simpl. lia.
  - intros j Hj. apply Hf. lia.
Qed.

Lemma demo_first_add : frr_add_ok 1 (demo_frr_msg 31) demo_frr_route 1000 demo_prog_core.
Proof.
  destruct demo_prog_facts as (Hp & Ho & _). apply demo_add_ok; [done|lia|..]; rewrite Ho.
  - by rewrite lookup_insert_ne.
  - intros j _. by rewrite lookup_insert_ne.
Qed.

Lemma demo_no_route : objs demo_prog_core 1 !! frr_route_id (demo_frr_msg 31) demo_frr_route = None.
Proof. destruct demo_prog_facts as (_ & Ho & _). rewrite Ho. by rewrite lookup_insert_ne. Qed.

Lemma frr_add_installs_witness :
  exists c' grp, zapi_dispatch_frr (Some (demo_frr_msg 31)) true (mk_zworld 1000 demo_prog_core) =
      (DANOS_OK, mk_zworld 1003 c') /\
    objs c' 1 !! (DANOS_OBJ_NHGROUP, 1000) = Some (to_mem grp) /\
    grp_nh_ids grp !! 1%nat = Some 1002.
Proof.
  destruct (frr_add_installs 1 (demo_frr_msg 31) demo_frr_route 1000 demo_prog_core
    demo_first_add eq_refl demo_no_route) as (c' & grp & Hr & _ & Hg & _ & Hn & _).
  exists c', grp. split_and!; [exact Hr|exact Hg|].
  destruct (Hn 1%nat (mk_frr_nh 1 0 AF_INET 9 (zeros 16) false) eq_refl) as [Hx _]. exact Hx.
Defined.

(** The state after the first announcement. *)
Lemma demo_second_add :
  exists c, frr_add_ok 1 (demo_frr_msg 31) demo_frr_route 1003 c /\
    objs c 1 !! frr_route_id (demo_frr_msg 31) demo_frr_route =
      Some (to_mem (frr_route_obj (demo_frr_msg 31) demo_frr_route 1000)).
Proof.
  destruct (frr_add_run 1 (demo_frr_msg 31) demo_frr_route 1000 demo_prog_core demo_first_add eq_refl)
    as (c & _ & Hp & Ho & _).
  rewrite decide_False in Ho by (rewrite demo_no_route; by intros [? ?]).
  destruct demo_prog_facts as (_ & Hobjs & _). rewrite Hobjs in Ho.
  exists c. split; [|by rewrite Ho, lookup_insert_eq].
  apply demo_add_ok; [done|lia|..]; rewrite Ho.
  - rewrite !lookup_insert_ne by done. rewrite nh_objs_other by done. by rewrite lookup_insert_ne.
  - intros j Hj. rewrite !lookup_insert_ne by done. rewrite nh_objs_other, lookup_insert_ne; [done..|].
    simpl. intros i Hi [=]. lia.
Qed.

Lemma frr_readd_leaks_witness :
  exists c c', zapi_dispatch_frr (Some (demo_frr_msg 31)) true (mk_zworld 1003 c) =
      (DANOS_ERR_EXISTS, mk_zworld 1006 c') /\
    is_Some (objs c' 1 !! (DANOS_OBJ_NHGROUP, 1003)).
Proof.
  destruct demo_second_add as (c & Hok & Hd).
  destruct (frr_readd_leaks 1 (demo_frr_msg 31) demo_frr_route 1003 c _ Hok eq_refl Hd)
    as (c' & Hr & _ & Hg & _). exists c, c'. split; [exact Hr|exact Hg].
Defined.

Lemma frr_withdraw_exact_witness :
  exists c c', zapi_dispatch_frr (Some (demo_frr_msg 32)) true (mk_zworld 1003 c) =
      (DANOS_OK, mk_zworld 1003 c') /\
    objs c' 1 = delete (frr_route_id (demo_frr_msg 32) demo_frr_route) (objs c 1).
Proof.
  destruct demo_second_add as (c & Hok & Hd).
  destruct (frr_withdraw_exact 1 (demo_frr_msg 32) demo_frr_route 1003 c
    (fa_env _ _ _ _ _ Hok) eq_refl (demo_frr_decode 32) eq_refl) as (c' & Hr & Ho).
  exists c, c'. rewrite decide_True in Hr by eauto. split; [exact Hr|exact Ho].
Defined.


(** A message of the test protocol that adds 0.0.0.0/0 with [n] next hops. *)
Definition demo_route_msg (n : nat) : zapi_message :=
  let payload := zeros 4 ++ [4; 0] ++ zeros 4 ++ [2; 20] ++ zeros 4 ++ [Z.of_nat n] ++
                 concat (replicate n ([1] ++ [10; 0; 0; 1] ++ be_bytes 4 3)) in
  mk_zmsg (mk_zhdr 0 0xFFFF 6 0) payload (length payload) 0.

(** The route handler of the test protocol trusts the peer's next-hop
    count: with 64 next hops a message is installed, with 65 the handler
    writes past the 64 ids of the group on its stack. *)
Theorem route_add_overruns_group :
  (zapi_dispatch (Some (demo_route_msg 64)) true
     (mk_zworld 1000 (core_boot (mk_os [] ∅) 0))).1 = DANOS_OK /\
  (zapi_dispatch (Some (demo_route_msg 65)) true
     (mk_zworld 1000 (core_boot (mk_os [] ∅) 0))).1 = DANOS_ERR_INTERNAL.
Proof. split; vm_compute; reflexivity. Qed.
