(* ===== verification/CStr.v ===== *)
(** * C strings and the allocator, for the management components

    A C string is the list of its bytes without the terminating zero.  The
    heap's answers are a list of booleans, one for each allocation; when the
    list runs out every further allocation succeeds. *)

From stdpp Require Import base decidable list numbers strings.
From Stdlib Require Import ZArith Lia.
From S2P Require Import Prelude.

(** A string literal of the source. *)
Definition lit (s : string) : bytes :=
  (fun a => Z.of_nat (Ascii.nat_of_ascii a)) <$> String.list_ascii_of_string s.

(** A JSON literal of the source, with apostrophes for quotation marks. *)
Definition js (s : string) : bytes := (fun c => if c =? 39 then 34 else c) <$> lit s.

(** What a [char *] into these bytes denotes: everything up to the first zero
    byte. *)
Fixpoint c_str (bs : bytes) : bytes :=
  match bs with
  | [] => []
  | b :: bs => if b =? 0 then [] else b :: c_str bs
  end.

(** Strings without an inner zero byte. *)
Definition is_text (s : bytes) : Prop := Forall (fun c => 0 < c < 256) s.

#[export] Instance is_text_dec s : Decision (is_text s).
Proof. unfold is_text. apply _. Defined.

Definition strlen (s : bytes) : Z := Z.of_nat (length s).

Lemma c_str_text s : bytes_ok s -> is_text (c_str s).
Proof.
  induction 1 as [|b s Hb _ IH]; [constructor|]. simpl. unfold is_byte in Hb.
  case_match; bool_prop; [constructor|]. constructor; [lia|done].
Qed.

Lemma c_str_id s : is_text s -> c_str s = s.
Proof.
  induction 1 as [|b s Hb _ IH]; [done|]. simpl.
  rewrite (proj2 (Z.eqb_neq _ _)) by lia. by rewrite IH.
Qed.

Lemma length_c_str s : (length (c_str s) <= length s)%nat.
Proof. induction s as [|b s IH]; simpl; [lia|]. case_match; simpl; lia. Qed.

Lemma text_bytes s : is_text s -> bytes_ok s.
Proof. intros H. eapply Forall_impl; [exact H|]. unfold is_byte. intros; simpl in *; lia. Qed.

(** ** The allocator *)

Abbreviation heap := (list bool).

Definition malloc (m : heap) : bool * heap :=
  match m with
  | [] => (true, [])
  | b :: m => (b, m)
  end.

Definition strdup (t : bytes) (m : heap) : option bytes * heap :=
  let '(ok, m) := malloc m in (if ok then Some t else None, m).

(** ** Numbers in text *)

(** Decimal digits, most significant first; twenty are enough for 64 bits. *)
Fixpoint dec_digits (fuel : nat) (n : Z) (acc : bytes) : bytes :=
  match fuel with
  | O => acc
  | S fuel =>
      let acc := (48 + n mod 10) :: acc in
      if n <? 10 then acc else dec_digits fuel (n / 10) acc
  end.

(** [%u], [%lu] and [%llu]; [%d] and [%ld] with the sign. *)
Definition dec (n : Z) : bytes := dec_digits 20 n [].
Definition sdec (n : Z) : bytes := if n <? 0 then 45 :: dec (- n) else dec n.

(** [%0<w>ld] for a number that is not negative. *)
Definition dec_pad (w : nat) (n : Z) : bytes :=
  replicate (w - length (dec n)) 48 ++ dec n.

(** [tolower] and [strcasecmp(a, b) == 0]. *)
Definition tolower (c : Z) : Z := if (65 <=? c) && (c <=? 90) then c + 32 else c.
Definition strcaseeq (a b : bytes) : bool := bool_decide ((tolower <$> a) = (tolower <$> b)).

(** ** Reading numbers *)

Definition is_space (c : Z) : bool := (c =? 32) || ((9 <=? c) && (c <=? 13)).
Definition is_digit (c : Z) : bool := (48 <=? c) && (c <=? 57).

Fixpoint skip_spaces (s : bytes) : bytes :=
  match s with
  | c :: s' => if is_space c then skip_spaces s' else s
  | [] => []
  end.

(** The value of the leading digits and what follows them. *)
Fixpoint take_digits (acc : Z) (s : bytes) : Z * bytes :=
  match s with
  | c :: s' => if is_digit c then take_digits (acc * 10 + (c - 48)) s' else (acc, s)
  | [] => (acc, [])
  end.

(** The optional sign and what follows it. *)
Definition take_sign (t : bytes) : bool * bytes :=
  match t with
  | c :: t' => if c =? 45 then (true, t') else if c =? 43 then (false, t') else (false, t)
  | [] => (false, [])
  end.

Definition starts_digit (t : bytes) : bool :=
  match t with c :: _ => is_digit c | [] => false end.

(** [strtoul(s, &end, 10)] on a 64-bit platform: the value and [end]. *)
Definition strtoul (s : bytes) : Z * bytes :=
  let '(neg, t) := take_sign (skip_spaces s) in
  if starts_digit t then
    let '(v, rest) := take_digits 0 t in
    (if 2 ^ 64 <=? v then 2 ^ 64 - 1 else if neg then u64 (- v) else v, rest)
  else (0, s).

(** [strtol(s, NULL, 10)], and [atoi], which is its low 32 bits, signed. *)
Definition strtol (s : bytes) : Z :=
  let '(neg, t) := take_sign (skip_spaces s) in
  if starts_digit t then
    let v := fst (take_digits 0 t) in
    if neg then Z.max (- v) (- 2 ^ 63) else Z.min v (2 ^ 63 - 1)
  else 0.

Definition sint (v : Z) : Z := let w := u32 v in if 2 ^ 31 <=? w then w - 2 ^ 32 else w.
Definition atoi (s : bytes) : Z := sint (strtol s).

(** [strtoul(s, NULL, 0)]: the prefix chooses the base. *)
Definition digit_val (c : Z) : Z :=
  if is_digit c then c - 48
  else if (97 <=? c) && (c <=? 102) then c - 87
  else if (65 <=? c) && (c <=? 70) then c - 55
  else 16.

Fixpoint take_based (base acc : Z) (s : bytes) : Z :=
  match s with
  | c :: s => if digit_val c <? base then take_based base (acc * base + digit_val c) s else acc
  | [] => acc
  end.

Definition strtoul0 (s : bytes) : Z :=
  let '(neg, t) := take_sign (skip_spaces s) in
  let v := match t with
           | 48 :: x :: t' =>
               if ((x =? 120) || (x =? 88)) && match t' with d :: _ => digit_val d <? 16 | [] => false end
               then take_based 16 0 t' else take_based 8 0 t
           | _ => take_based 10 0 t
           end in
  if 2 ^ 64 <=? v then 2 ^ 64 - 1 else if neg then u64 (- v) else v.

Lemma take_digits_nonneg s acc : 0 <= acc -> 0 <= fst (take_digits acc s).
Proof.
  revert acc. induction s as [|c s IH]; intros acc Hacc; cbn [take_digits]; [done|].
  destruct (is_digit c) eqn:Hd; [|done]. apply IH. unfold is_digit in Hd. bool_prop. lia.
Qed.

Lemma strtoul_nonneg s : 0 <= fst (strtoul s).
Proof.
  unfold strtoul. destruct (take_sign _) as [neg t]. destruct (starts_digit t); [|done].
  pose proof (take_digits_nonneg t 0 ltac:(lia)) as H. destruct (take_digits 0 t) as [v rest]. cbn in *.
  destruct (2 ^ 64 <=? v); [lia|]. destruct neg; [|done]. apply (u64_range (- v)).
Qed.

Lemma skip_spaces_length s : (length (skip_spaces s) <= length s)%nat.
Proof. induction s as [|c s IH]; [done|]. cbn [skip_spaces]. destruct (is_space c); cbn; lia. Qed.

Lemma take_digits_length s acc : (length (snd (take_digits acc s)) <= length s)%nat.
Proof.
  revert acc. induction s as [|c s IH]; intros acc; [done|]. cbn [take_digits].
  destruct (is_digit c); [|done]. specialize (IH (acc * 10 + (c - 48))). cbn [length]. lia.
Qed.

Lemma strtoul_length s : (length (snd (strtoul s)) <= length s)%nat.
Proof.
  unfold strtoul. pose proof (skip_spaces_length s) as Hs.
  assert (Ht : (length (snd (take_sign (skip_spaces s))) <= length s)%nat).
  { destruct (skip_spaces s) as [|c t]; cbn in *; [lia|].
    destruct (c =? 45); [cbn; lia|]. destruct (c =? 43); cbn; lia. }
  destruct (take_sign _) as [neg t]. destruct (starts_digit t); [|done].
  pose proof (take_digits_length t 0). destruct (take_digits 0 t). cbn in *. lia.
Qed.

(** ** Printing and reading *)

Lemma dec_digits_acc fuel n acc : dec_digits fuel n acc = dec_digits fuel n [] ++ acc.
Proof.
  revert n acc. induction fuel as [|fuel IH]; intros n acc; [done|]. cbn [dec_digits].
  destruct (n <? 10); [done|]. rewrite IH, (IH _ [_]), <- app_assoc. done.
Qed.

Lemma take_digits_app s t acc :
  Forall (fun c => is_digit c = true) s ->
  take_digits acc (s ++ t) = take_digits (fst (take_digits acc s)) t.
Proof.
  intros Hs. revert acc. induction Hs as [|c s Hc _ IH]; intros acc; [done|].
  cbn [app take_digits]. by rewrite Hc, IH.
Qed.

Lemma dec_digits_read fuel n :
  0 <= n < 10 ^ Z.of_nat fuel -> (0 < fuel)%nat ->
  let ds := dec_digits fuel n [] in
  ds <> [] /\ Forall (fun c => is_digit c = true) ds /\ take_digits 0 ds = (n, []).
Proof.
  revert n. induction fuel as [|fuel IH]; intros n Hn Hf; [lia|].
  assert (Hdig : forall k, 0 <= k < 10 -> is_digit (48 + k) = true).
  { intros k Hk. unfold is_digit. rewrite andb_true_iff, !Z.leb_le. lia. }
  cbn [dec_digits]. destruct (Z.ltb_spec n 10) as [Hs|Hs].
  - rewrite Z.mod_small by lia. split; [done|].
    split; [constructor; [apply Hdig; lia|constructor]|].
    cbn [take_digits]. rewrite Hdig by lia. f_equal. lia.
  - rewrite dec_digits_acc. rewrite Nat2Z.inj_succ, Z.pow_succ_r in Hn by lia.
    pose proof (Z.mod_pos_bound n 10 ltac:(lia)) as Hm.
    destruct fuel as [|fuel]; [cbn in Hn; lia|].
    destruct (IH (n / 10)) as (Hne & Hd & Hr).
    { split; [apply Z.div_pos; lia|]. apply Z.div_lt_upper_bound; lia. }
    { lia. }
    split; [by destruct (dec_digits (S fuel) (n / 10) [])|].
    split; [apply Forall_app; split; [done|constructor; [by apply Hdig|constructor]]|].
    rewrite take_digits_app, Hr by done. cbn [fst take_digits]. rewrite Hdig by done.
    f_equal. pose proof (Z.div_mod n 10 ltac:(lia)). lia.
Qed.

Lemma digit_not_space c : is_digit c = true -> is_space c = false /\ c =? 45 = false /\ c =? 43 = false.
Proof.
  unfold is_digit, is_space. rewrite andb_true_iff, !Z.leb_le. intros H.
  rewrite orb_false_iff, andb_false_iff, !Z.eqb_neq, !Z.leb_gt. lia.
Qed.

(** A printed number behind spaces, without a sign. *)
Lemma dec_read n t :
  0 <= n < 2 ^ 64 -> starts_digit t = false ->
  take_sign (skip_spaces (dec n ++ t)) = (false, dec n ++ t) /\ starts_digit (dec n ++ t) = true /\
  take_digits 0 (dec n ++ t) = (n, t).
Proof.
  intros Hn Ht. unfold dec.
  destruct (dec_digits_read 20 n) as (Hne & Hd & Hr); [lia|lia|].
  set (ds := dec_digits 20 n []) in *. clearbody ds.
  destruct ds as [|c ds]; [done|]. inversion Hd as [|? ? Hc Hds]; subst.
  destruct (digit_not_space c Hc) as (Hsp & H45 & H43).
  cbn [app skip_spaces]. rewrite Hsp. cbn [take_sign]. rewrite H45, H43. cbn [starts_digit].
  rewrite Hc. change (c :: ds ++ t) with ((c :: ds) ++ t).
  rewrite take_digits_app, Hr by done. cbn [fst]. split_and!; [done|done|].
  destruct t as [|c' t]; [done|]. cbn in *. by rewrite Ht.
Qed.

(** What [%u] or [%lu] prints, [strtoul] reads, up to a character that is not
    a digit. *)
Lemma strtoul_dec n t :
  0 <= n < 2 ^ 64 -> starts_digit t = false -> strtoul (dec n ++ t) = (n, t).
Proof.
  intros Hn Ht. destruct (dec_read n t Hn Ht) as (H1 & H2 & H3). unfold strtoul. rewrite H1, H2, H3.
  by rewrite (proj2 (Z.leb_gt _ _)) by lia.
Qed.

Lemma skip_space s : skip_spaces (32 :: s) = skip_spaces s.
Proof. done. Qed.

Lemma atoi_dec n t : 0 <= n < 2 ^ 31 -> starts_digit t = false -> atoi (32 :: dec n ++ t) = n.
Proof.
  intros Hn Ht. destruct (dec_read n t ltac:(lia) Ht) as (H1 & H2 & H3).
  unfold atoi, strtol. rewrite skip_space, H1, H2, H3. cbn [fst]. rewrite Z.min_l by lia.
  unfold sint. rewrite u32_small by (unfold is_u32; lia). by rewrite (proj2 (Z.leb_gt _ _)) by lia.
Qed.

(** ** Searching *)

(** [strcmp(s, lit) == 0]. *)
Definition streq (s : bytes) (l : string) : bool := bool_decide (s = lit l).

(** [strstr] and [strchr]: the text from the match on. *)
Fixpoint is_prefix (k s : bytes) : bool :=
  match k, s with
  | [], _ => true
  | x :: k, y :: s => (x =? y) && is_prefix k s
  | _, [] => false
  end.

Fixpoint strstr (s k : bytes) : option bytes :=
  if is_prefix k s then Some s else match s with [] => None | _ :: s => strstr s k end.

Fixpoint strchr (s : bytes) (c : Z) : option bytes :=
  match s with
  | [] => None
  | x :: s' => if x =? c then Some s else strchr s' c
  end.

(** Up to [n] characters that are not a quotation mark, and the rest. *)
Fixpoint until_quote (n : nat) (s : bytes) : bytes * bytes :=
  match n, s with
  | S n, c :: s' => if c =? 34 then ([], s) else let '(a, r) := until_quote n s' in (c :: a, r)
  | _, _ => ([], s)
  end.

Lemma strstr_skip a s k0 k : k0 ∉ a -> strstr (a ++ s) (k0 :: k) = strstr s (k0 :: k).
Proof.
  induction a as [|x a IH]; intros Ha; [done|]. cbn [app]. rewrite not_elem_of_cons in Ha. destruct Ha as [Hx Ha].
  cbn [strstr is_prefix]. rewrite (proj2 (Z.eqb_neq k0 x)) by done. cbn [andb]. by apply IH.
Qed.

Lemma strstr_step x s k : is_prefix k (x :: s) = false -> strstr (x :: s) k = strstr s k.
Proof. intros H. cbn [strstr]. by rewrite H. Qed.

Lemma is_prefix_app k s : is_prefix k (k ++ s) = true.
Proof. induction k as [|x k IH]; [done|]. cbn. by rewrite Z.eqb_refl. Qed.

Lemma strstr_here k s : strstr (k ++ s) k = Some (k ++ s).
Proof. destruct (k ++ s) as [|x l] eqn:E; cbn [strstr]; rewrite <- E at 1; by rewrite is_prefix_app. Qed.

Lemma strchr_skip a s c : c ∉ a -> strchr (a ++ s) c = strchr s c.
Proof.
  induction a as [|x a IH]; intros Ha; [done|]. rewrite not_elem_of_cons in Ha. destruct Ha as [Hx Ha].
  cbn [app strchr]. rewrite (proj2 (Z.eqb_neq x c)) by done. by apply IH.
Qed.

Lemma until_quote_app n a s : 34 ∉ a -> (length a < n)%nat -> until_quote n (a ++ 34 :: s) = (a, 34 :: s).
Proof.
  revert n. induction a as [|x a IH]; intros [|n] Ha Hn; cbn [length] in Hn; try lia; [done|].
  rewrite not_elem_of_cons in Ha. destruct Ha as [Hx Ha]. cbn [app until_quote].
  rewrite (proj2 (Z.eqb_neq x 34)), IH by (done || lia). done.
Qed.

Lemma dec_nonempty n : 0 <= n < 2 ^ 64 -> dec n <> [].
Proof. intros Hn. unfold dec. destruct (dec_digits_read 20 n) as (H & _); [lia|lia|done]. Qed.

(** Characters of numbers and dotted quads. *)
Lemma dec_chars n : 0 <= n < 2 ^ 64 -> Forall (fun c => 46 <= c <= 57) (dec n).
Proof.
  intros Hn. unfold dec. destruct (dec_digits_read 20 n) as (_ & Hd & _); [lia|lia|].
  eapply Forall_impl; [exact Hd|]. intros c Hc. unfold is_digit in Hc. cbn in Hc. bool_prop. lia.
Qed.

Lemma dec_text n : 0 <= n < 2 ^ 64 -> is_text (dec n).
Proof. intros Hn. eapply Forall_impl; [by apply dec_chars|]. cbn. lia. Qed.

Lemma dec_digits_length fuel n acc : (length (dec_digits fuel n acc) <= fuel + length acc)%nat.
Proof.
  revert n acc. induction fuel as [|fuel IH]; intros n acc; [done|]. cbn [dec_digits].
  destruct (n <? 10); [cbn; lia|]. specialize (IH (n / 10) (48 + n mod 10 :: acc)). cbn [length] in IH. lia.
Qed.

Lemma dec_length n : (length (dec n) <= 20)%nat.
Proof. pose proof (dec_digits_length 20 n []). unfold dec. cbn [length] in *. lia. Qed.

Lemma chars_notin c s : Forall (fun c => 46 <= c <= 57) s -> ~ (46 <= c <= 57) -> c ∉ s.
Proof. intros Hs Hc Hin. rewrite Forall_forall in Hs. by apply Hc, Hs. Qed.

(** A character that is in no literal, number or quad that is passed over. *)
Ltac not_in :=
  lazymatch goal with
  | |- _ ∉ lit _ => apply (bool_decide_unpack _); vm_compute; exact I
  | |- _ ∉ lit _ ++ [_] => apply (bool_decide_unpack _); vm_compute; exact I
  | |- _ ∉ _ :: _ => apply (bool_decide_unpack _); vm_compute; exact I
  | |- _ => eapply chars_notin; [eassumption|lia]
  end.

(** ** Lines of a file *)

(** [fgets(line, n + 1, fp)]: up to [n] bytes, through the first newline; the
    line and the rest of the file, or the end of the file. *)
Fixpoint fgets_loop (n : nat) (file : bytes) : bytes * bytes :=
  match n, file with
  | S n, c :: file =>
      if c =? 10 then ([c], file) else
      let '(l, rest) := fgets_loop n file in (c :: l, rest)
  | _, _ => ([], file)
  end.

Definition fgets (n : nat) (file : bytes) : option (bytes * bytes) :=
  match file with [] => None | _ => Some (fgets_loop n file) end.

Lemma fgets_line n l rest :
  Forall (fun c => c <> 10) l -> (length l < n)%nat -> fgets_loop n (l ++ 10 :: rest) = (l ++ [10], rest).
Proof.
  intros H. revert n. induction H as [|c l Hc _ IH]; intros n Hn; (destruct n as [|n]; [cbn in Hn; lia|]).
  - done.
  - cbn [app fgets_loop]. rewrite (proj2 (Z.eqb_neq _ _)) by done. cbn [length] in Hn.
    by rewrite IH by lia.
Qed.

(** ** Literals *)

(** Decides a property of a literal. *)
Ltac lit_text := refine (bool_decide_eq_true_1 _ _); vm_compute; reflexivity.

Lemma js_text s : is_text (lit s) -> is_text (js s).
Proof. intros H. apply Forall_fmap. eapply Forall_impl; [exact H|]. intros c Hc. cbn in *. case_match; lia. Qed.

(** ** Looking for a text in a long one *)

(** The two differ within what both have. *)
Fixpoint mismatch (k t : bytes) : bool :=
  match k, t with
  | c :: k, d :: t => if c =? d then mismatch k t else true
  | _, _ => false
  end.

(** No suffix of [a] is, or can be continued to, a text that starts with [k]. *)
Fixpoint clear_of (k a : bytes) : bool :=
  match a with
  | [] => true
  | _ :: a' => mismatch k a && clear_of k a'
  end.

Lemma mismatch_prefix k t s : mismatch k t = true -> is_prefix k (t ++ s) = false.
Proof.
  revert t. induction k as [|c k IH]; intros [|d t]; cbn; try done.
  destruct (c =? d); cbn [andb]; [apply IH|done].
Qed.

(** Passing over a text without [k]. *)
Lemma strstr_clear a s k : clear_of k a = true -> strstr (a ++ s) k = strstr s k.
Proof.
  induction a as [|c a IH]; [done|]. cbn [clear_of]. intros [H1 H2]%andb_prop.
  change ((c :: a) ++ s) with (c :: (a ++ s)). rewrite strstr_step; [by apply IH|].
  apply (mismatch_prefix k (c :: a)), H1.
Qed.

Lemma strstr_none a k : k <> [] -> clear_of k a = true -> strstr a k = None.
Proof. intros Hk H. rewrite <- (app_nil_r a), strstr_clear by done. by destruct k. Qed.

Lemma strstr_pass c a s k : head k = Some c -> c ∉ a -> strstr (a ++ s) k = strstr s k.
Proof. destruct k as [|d k]; [done|]. intros [= ->]. apply strstr_skip. Qed.
