(* ===== verification/TextBuf.v ===== *)
(** * Text printed into a fixed buffer

    Several components build a reply with
    [offset += snprintf(buf + offset, size - offset, ...)].  [snprintf] returns
    the length of the whole text, also where it cut it, and its size is an
    unsigned 64-bit number: once [offset] is past [size] the difference wraps
    around and the next call writes behind the buffer.  [None] is that write. *)

From stdpp Require Import base decidable list numbers.
From Stdlib Require Import ZArith Lia.
From S2P Require Import Prelude CStr.

(** The bytes of the buffer and [offset]. *)
Record tbuf := mk_tbuf { tb_mem : bytes; tb_off : Z }.

Definition tb_cap (b : tbuf) : Z := Z.of_nat (length (tb_mem b)).

(** The bytes [snprintf(dst, size, ...)] stores. *)
Definition snprintf (size : Z) (t : bytes) : bytes :=
  if size =? 0 then []
  else (if Z.of_nat (length t) <? size then t else take (Z.to_nat (size - 1)) t) ++ [0].

Definition bprintf (t : bytes) (b : tbuf) : option tbuf :=
  let w := snprintf (u64 (tb_cap b - tb_off b)) t in
  if bool_decide (w = []) || (tb_off b + Z.of_nat (length w) <=? tb_cap b)
  then Some (mk_tbuf (cwrite (tb_mem b) (Z.to_nat (tb_off b)) w) (tb_off b + Z.of_nat (length t)))
  else None.

Fixpoint bprint_all (ts : list bytes) (b : tbuf) : option tbuf :=
  match ts with
  | [] => Some b
  | t :: ts => b ← bprintf t b; bprint_all ts b
  end.

(** [txt] is in the buffer, and [offset] is behind it. *)
Definition tb_holds (txt : bytes) (b : tbuf) : Prop :=
  tb_off b = Z.of_nat (length txt) /\ take (length txt) (tb_mem b) = txt.

(** ... and a zero byte follows it. *)
Definition tb_ends (b : tbuf) : Prop := tb_mem b !! Z.to_nat (tb_off b) = Some 0.

Definition tb_sized (b : tbuf) : Prop := tb_cap b < 2 ^ 63.

Lemma snprintf_whole size t : Z.of_nat (length t) < size -> snprintf size t = t ++ [0].
Proof. intros H. unfold snprintf. rewrite (proj2 (Z.eqb_neq _ _)), (proj2 (Z.ltb_lt _ _)) by lia. done. Qed.

Lemma snprintf_length size t : 0 <= size -> Z.of_nat (length (snprintf size t)) = Z.min size (Z.of_nat (length t) + 1).
Proof.
  intros H. unfold snprintf. case_match; bool_prop; [cbn; lia|]. rewrite length_app. cbn [length].
  case_match; bool_prop; rewrite ?length_take; lia.
Qed.

(** A text that fits is appended. *)
Lemma bprintf_fits txt t b :
  tb_sized b -> tb_holds txt b -> Z.of_nat (length txt + length t) < tb_cap b ->
  exists b', bprintf t b = Some b' /\ tb_cap b' = tb_cap b /\ tb_holds (txt ++ t) b' /\ tb_ends b'.
Proof.
  destruct b as [mem off]. unfold tb_sized, tb_holds, tb_ends, tb_cap. cbn [tb_mem tb_off].
  intros Hs [-> Ht] Hn. unfold bprintf, tb_cap. cbn [tb_mem tb_off].
  rewrite u64_small by (unfold is_u64; lia). rewrite snprintf_whole by lia.
  rewrite (proj2 (Z.leb_le _ _)), orb_true_r by (rewrite length_app; cbn [length]; lia).
  eexists. split; [reflexivity|]. cbn [tb_mem tb_off]. rewrite Nat2Z.id.
  assert (Hm : mem = txt ++ drop (length txt) mem) by (by rewrite <- Ht at 1; rewrite take_drop).
  assert (Hw : cwrite mem (length txt) (t ++ [0]) =
               (txt ++ t) ++ 0 :: drop (length txt + (length t + 1)) mem).
  { unfold cwrite. rewrite Ht, length_app. cbn [length]. by rewrite <- !app_assoc. }
  rewrite length_cwrite by (rewrite length_app; cbn [length]; lia). rewrite Hw.
  split; [done|]. split; [split; [rewrite length_app; lia|apply take_app_length]|].
  rewrite <- Nat2Z.inj_add, Nat2Z.id, <- length_app. by apply list_lookup_middle.
Qed.

(** A text cut by the end of the buffer: nothing is written behind it, and
    [offset] is past the end. *)
Lemma bprintf_cut t b :
  tb_sized b -> 0 <= tb_off b <= tb_cap b -> tb_cap b <= tb_off b + Z.of_nat (length t) ->
  exists b', bprintf t b = Some b' /\ tb_off b' = tb_off b + Z.of_nat (length t).
Proof.
  unfold tb_sized. intros Hs Ho Hn. unfold bprintf. rewrite u64_small by (unfold is_u64; lia).
  rewrite (proj2 (Z.leb_le _ _)), orb_true_r by (rewrite snprintf_length by lia; lia). eauto.
Qed.

(** The next text after that is written behind the buffer. *)
Lemma bprintf_past t b :
  tb_sized b -> tb_cap b < tb_off b < 2 ^ 63 -> bprintf t b = None.
Proof.
  unfold tb_sized. intros Hs Ho. unfold bprintf.
  assert (0 <= tb_cap b) by (unfold tb_cap; lia).
  assert (Hu : u64 (tb_cap b - tb_off b) = 2 ^ 64 + tb_cap b - tb_off b).
  { unfold u64. symmetry. apply Z.mod_unique with (-1); lia. }
  pose proof (snprintf_length (u64 (tb_cap b - tb_off b)) t (proj1 (u64_range _))) as Hl. rewrite Hu in Hl |- *.
  rewrite (proj2 (Z.leb_gt _ _)) by (rewrite Hl; lia).
  rewrite bool_decide_false; [done|]. intros E. rewrite E in Hl. cbn [length] in Hl. lia.
Qed.

Lemma bprint_all_fits ts txt b :
  tb_sized b -> tb_holds txt b -> Z.of_nat (length txt + length (concat ts)) < tb_cap b ->
  exists b', bprint_all ts b = Some b' /\ tb_cap b' = tb_cap b /\ tb_holds (txt ++ concat ts) b' /\
    (ts <> [] -> tb_ends b').
Proof.
  revert txt b. induction ts as [|t ts IH]; intros txt b Hs Hh Hn; cbn [bprint_all concat].
  { exists b. rewrite app_nil_r. done. }
  cbn [concat] in Hn. rewrite length_app in Hn.
  destruct (bprintf_fits txt t b Hs Hh ltac:(lia)) as (b1 & -> & Hc & Hh1 & He1). cbn [mbind option_bind].
  unfold tb_sized in *. destruct (IH (txt ++ t) b1) as (b2 & E2 & Hc2 & Hh2 & He2);
    [lia|done|rewrite length_app; lia|].
  exists b2. rewrite <- app_assoc in Hh2. split; [done|]. split; [lia|]. split; [done|].
  intros _. destruct ts as [|t2 ts]; [cbn in E2; by injection E2 as <-|by apply He2].
Qed.

(** What a [char *] to the buffer reads. *)
Lemma tb_holds_str txt b : is_text txt -> tb_holds txt b -> tb_ends b -> c_str (tb_mem b) = txt.
Proof.
  intros Ht [Ho Hk] He. unfold tb_ends in He. rewrite Ho, Nat2Z.id in He.
  rewrite <- (take_drop_middle _ _ _ He), Hk. clear Ho Hk He.
  generalize (drop (S (length txt)) (tb_mem b)). intros rest.
  induction Ht as [|c txt Hc _ IH]; [done|]. cbn [app c_str].
  rewrite (proj2 (Z.eqb_neq _ _)) by lia. by rewrite IH.
Qed.

(** Inside the buffer every text is accepted, cut or not. *)
Lemma bprintf_in t b :
  tb_sized b -> 0 <= tb_off b <= tb_cap b ->
  exists b', bprintf t b = Some b' /\ tb_cap b' = tb_cap b /\ tb_off b' = tb_off b + Z.of_nat (length t).
Proof.
  unfold tb_sized. intros Hs Ho. unfold bprintf. rewrite u64_small by (unfold is_u64; lia).
  pose proof (snprintf_length (tb_cap b - tb_off b) t ltac:(lia)) as Hl.
  rewrite (proj2 (Z.leb_le _ _)), orb_true_r by lia. eexists. split; [reflexivity|]. split; [|done].
  unfold tb_cap in *. cbn [tb_mem]. rewrite length_cwrite by lia. done.
Qed.

(** Texts longer than the buffer, and one more: the last but the first that
    does not fit is written behind it. *)
Lemma bprint_all_overflow ts t b :
  tb_sized b -> 0 <= tb_off b <= tb_cap b ->
  tb_cap b < tb_off b + Z.of_nat (length (concat ts)) < 2 ^ 63 -> bprint_all (ts ++ [t]) b = None.
Proof.
  revert b. induction ts as [|t1 ts IH]; intros b Hs Ho Hn; [cbn in Hn; lia|].
  cbn [concat] in Hn. rewrite length_app in Hn. cbn [app bprint_all].
  destruct (bprintf_in t1 b Hs Ho) as (b1 & -> & Hc & Ho1). cbn [mbind option_bind]. unfold tb_sized in *.
  destruct (Z.le_gt_cases (tb_off b1) (tb_cap b1)) as [Hin|Hpast]; [apply IH; lia|].
  destruct ts as [|t2 ts]; cbn [app bprint_all]; rewrite bprintf_past; try done; unfold tb_sized; lia.
Qed.
