(* ===== verification/Compat.v ===== *)
(** * Compatibility: danos-compat cli_translator.c and config_import.c

    Commands of another network system are translated by their first words; a
    configuration file is translated line by line into a JSON text.  Files are
    the bytes of their contents, as [fgets] reads them. *)

From stdpp Require Import base decidable list numbers strings.
From Stdlib Require Import ZArith Lia.
From S2P Require Import Prelude CStr TextBuf.

(** ** The translator *)

Record cli_mapping_t := mk_mapping { ocnos_cmd : bytes; danos_cmd : bytes }.

Definition g_mappings : list cli_mapping_t :=
  (fun m : string * string => mk_mapping (lit m.1) (lit m.2)) <$>
  [ ("interface ", "set interface ");
    ("ip address ", "ipv4 address ");
    ("ipv6 address ", "ipv6 address ");
    ("no ip address", "delete ipv4 address");
    ("no ipv6 address", "delete ipv6 address");
    ("shutdown", "set admin-status down");
    ("no shutdown", "set admin-status up");
    ("ip vrf ", "set vrf ");
    ("vrf forwarding ", "set vrf-binding ");
    ("router bgp ", "set bgp instance ");
    ("neighbor ", "set bgp neighbor ");
    ("remote-as ", "remote-as ");
    ("network ", "set bgp network ");
    ("router ospf", "set ospf instance");
    ("network ", "set ospf network ");
    ("ip route ", "set static-route ");
    ("ip access-list ", "set acl ");
    ("permit ", "action permit ");
    ("deny ", "action deny ");
    ("vlan ", "set vlan ");
    ("switchport access vlan ", "set access-vlan ");
    ("write memory", "commit");
    ("end", "commit") ]%string.

(** The two [g_initialized] flags. *)
Record compat := mk_compat { cli_initialized : bool; config_initialized : bool }.

Definition danos_compat_cli_init (c : compat) : compat := mk_compat true (config_initialized c).

Definition danos_compat_config_init (c : compat) : compat := mk_compat (cli_initialized (danos_compat_cli_init c)) true.

(** [strncasecmp(input, cmd, strlen(cmd)) == 0]. *)
Definition cmd_matches (input : bytes) (m : cli_mapping_t) : bool :=
  is_prefix (tolower <$> ocnos_cmd m) (tolower <$> input).

(** The loop over the table. *)
Fixpoint find_mapping (input : bytes) (ms : list cli_mapping_t) : option bytes :=
  match ms with
  | [] => None
  | m :: ms =>
      if cmd_matches input m then Some (danos_cmd m ++ drop (length (ocnos_cmd m)) input)
      else find_mapping input ms
  end.

(** The result and what is in [output], where it is written. *)
Definition danos_compat_translate_cli (input : option bytes) (has_output : bool) (out_size : Z) (c : compat)
    : Z * option bytes * compat :=
  match input with
  | Some input =>
      if negb has_output || (out_size <=? 0) then (-1, None, c) else
      let c := if cli_initialized c then c else danos_compat_cli_init c in
      let cut := take (Z.to_nat (out_size - 1)) in
      match find_mapping input g_mappings with
      | Some t => (0, Some (cut t), c)
      | None => (-1, Some (cut (lit "# untranslated: " ++ input)), c)
      end
  | None => (-1, None, c)
  end.

(** ** Import *)

(** [line[strcspn(line, "\r\n")] = 0]. *)
Fixpoint cut_newline (line : bytes) : bytes :=
  match line with
  | c :: line => if (c =? 10) || (c =? 13) || (c =? 0) then [] else c :: cut_newline line
  | [] => []
  end.

Definition skip_line (line : bytes) : bool :=
  match line with [] => true | c :: _ => (c =? 33) || (c =? 35) end.

Definition json_line (translated : bytes) : bytes := js "    'line': '" ++ translated ++ js "',
".

(** One turn of the loop; the file has at most as many lines as bytes. *)
Fixpoint import_loop (fuel : nat) (file : bytes) (c : compat) (b : tbuf) : option (compat * tbuf) :=
  match fuel with
  | O => Some (c, b)
  | S fuel =>
      match fgets 511 file with
      | None => Some (c, b)
      | Some (line, file) =>
          if negb (tb_off b <? tb_cap b - 256) then Some (c, b) else
          let line := cut_newline line in
          if skip_line line then import_loop fuel file c b else
          match danos_compat_translate_cli (Some line) true 512 c with
          | (0, Some t, c) => b ← bprintf (json_line t) b; import_loop fuel file c b
          | (_, _, c) => import_loop fuel file c b
          end
      end
  end.

(** [if (offset > 0 && output[offset - 1] == c) offset--]; the read may be
    behind the buffer. *)
Definition strip (c : Z) (b : tbuf) : option tbuf :=
  if negb (0 <? tb_off b) then Some b else
  x ← tb_mem b !! Z.to_nat (tb_off b - 1);
  Some (if x =? c then mk_tbuf (tb_mem b) (tb_off b - 1) else b).

Definition import_head : bytes := js "{
  'danos-config': {
".

Definition import_tail : bytes := lit "
  }
}
".

(** [file] is [None] where the file cannot be opened.  [output] is the caller's
    memory and [out_size] the [int] that says how much of it may be used; the
    result is [None] where the code leaves those bytes, or where the caller has
    fewer. *)
Definition danos_compat_import_config (input_path : option (option bytes)) (output : option bytes) (out_size : Z)
    (c : compat) : option (Z * option bytes * compat) :=
  match input_path, output with
  | Some file, Some output =>
      if out_size <=? 0 then Some (-1, Some output, c) else
      let c := if config_initialized c then c else danos_compat_config_init c in
      match file with
      | None => Some (-1, Some output, c)
      | Some file =>
          if Z.of_nat (length output) <? out_size then None else
          b ← bprintf import_head (mk_tbuf (take (Z.to_nat out_size) output) 0);
          '(c, b) ← import_loop (length file) file c b;
          b ← strip 10 b;
          b ← strip 44 b;
          b ← bprintf import_tail b;
          Some (0, Some (tb_mem b ++ drop (Z.to_nat out_size) output), c)
      end
  | _, _ => Some (-1, output, c)
  end.

(** The contents of the exported file. *)
Definition danos_compat_export_config (input_json : option bytes) (output_path : option bool) (c : compat)
    : Z * option bytes * compat :=
  match input_json, output_path with
  | Some json, Some writable =>
      let c := if config_initialized c then c else danos_compat_config_init c in
      if negb writable then (-1, None, c) else
      (0, Some (lit "! DANOS-Open config export (OcNOS-compatible format)
! Source: DPA YANG JSON

! " ++ json ++ [10]), c)
  | _, _ => (-1, None, c)
  end.

(** ** The imported text *)

(** Lines as a configuration file has them. *)
Definition clean_line (l : bytes) : Prop :=
  Forall (fun c => 0 < c < 256 /\ c <> 10 /\ c <> 13) l /\ (length l <= 510)%nat.

#[export] Instance clean_line_dec l : Decision (clean_line l).
Proof. unfold clean_line. apply _. Defined.

Definition file_of (lines : list bytes) : bytes := concat ((fun l => l ++ [10]) <$> lines).

(** The member a line becomes, for the lines that are translated. *)
Definition line_member (l : bytes) : option bytes :=
  if skip_line l then None
  else (fun t => js "    'line': '" ++ take 511 t ++ js "'") <$> find_mapping l g_mappings.

Definition import_members (lines : list bytes) : list bytes := omap line_member lines.

(** The members separated by a comma and a newline. *)
Definition import_text (ms : list bytes) : bytes :=
  js "{
  'danos-config': {" ++
  match ms with
  | [] => []
  | m :: ms => [10] ++ m ++ concat ((fun m => [44; 10] ++ m) <$> ms)
  end ++ import_tail.

Lemma cut_newline_clean l : clean_line l -> cut_newline (l ++ [10]) = l.
Proof.
  intros [H _]. induction H as [|c l Hc _ IH]; [done|]. cbn [app cut_newline].
  rewrite !(proj2 (Z.eqb_neq _ _)) by lia. cbn [orb]. by rewrite IH.
Qed.

Lemma fgets_clean l rest : clean_line l -> fgets 511 ((l ++ [10]) ++ rest) = Some (l ++ [10], rest).
Proof.
  intros [H Hn]. unfold fgets. rewrite <- app_assoc. cbn [app].
  rewrite fgets_line; [by destruct l| |lia]. eapply Forall_impl; [exact H|]. cbn. lia.
Qed.

(** The lines that are translated are appended, each with its separator. *)
Lemma import_loop_exact lines : forall fuel c b txt,
  Forall clean_line lines -> (length (file_of lines) <= fuel)%nat -> tb_sized b -> tb_holds txt b -> tb_ends b ->
  Z.of_nat (length txt + length (concat ((fun m => m ++ [44; 10]) <$> import_members lines))) < tb_cap b - 256 ->
  exists c' b', import_loop fuel (file_of lines) c b = Some (c', b') /\ tb_cap b' = tb_cap b /\
    tb_holds (txt ++ concat ((fun m => m ++ [44; 10]) <$> import_members lines)) b'.
Proof.
  induction lines as [|l lines IH]; intros fuel c b txt Hc Hf Hs Hh He Hn.
  { exists c, b. destruct fuel; cbn; by rewrite app_nil_r. }
  inversion_clear Hc as [|?? Hl Hc']. change (file_of (l :: lines)) with ((l ++ [10]) ++ file_of lines) in *.
  rewrite !length_app in Hf. cbn [length] in Hf. destruct fuel as [|fuel]; [lia|]. cbn [import_loop].
  rewrite fgets_clean, cut_newline_clean by done. destruct Hh as [Ho Hk].
  rewrite (proj2 (Z.ltb_lt _ _)) by lia. cbn [negb].
  unfold import_members in *. cbn [omap list_omap] in *. unfold line_member at 1 in Hn. unfold line_member at 1.
  destruct (skip_line l); [apply IH; try done; lia|].
  unfold danos_compat_translate_cli. change (512 <=? 0) with false. cbn [orb negb].
  destruct (find_mapping l g_mappings) as [t|]; cbn [fmap option_fmap option_map] in *; [|apply IH; try done; lia].
  change (Z.to_nat (512 - 1)) with 511%nat. cbn [list_fmap concat] in *.
  set (m := js "    'line': '" ++ take 511 t ++ js "'") in *.
  assert (Hj : json_line (take 511 t) = m ++ [44; 10]) by (unfold json_line, m; by rewrite <- !app_assoc).
  rewrite Hj. rewrite length_app in Hn.
  destruct (bprintf_fits txt (m ++ [44; 10]) b Hs (conj Ho Hk) ltac:(lia)) as (b1 & -> & Hcap & Hh1 & He1).
  cbn [mbind option_bind]. unfold tb_sized in *.
  destruct (IH fuel (if cli_initialized c then c else danos_compat_cli_init c) b1 (txt ++ m ++ [44; 10]))
    as (c' & b' & -> & Hcap' & Hh'); try done; [lia|lia|rewrite length_app; unfold fmap; lia|].
  exists c', b'. split; [done|]. split; [lia|]. by rewrite <- !app_assoc in *.
Qed.

Lemma strip_hit txt c b : tb_holds (txt ++ [c]) b -> exists b', strip c b = Some b' /\ tb_cap b' = tb_cap b /\ tb_holds txt b'.
Proof.
  intros [Ho Hk]. rewrite length_app in *. cbn [length] in *. unfold strip.
  rewrite (proj2 (Z.ltb_lt _ _)) by lia. cbn [negb].
  replace (Z.to_nat (tb_off b - 1)) with (length txt) by lia.
  assert (Hl : tb_mem b !! length txt = Some c).
  { rewrite <- (take_drop (length txt + 1) (tb_mem b)), Hk. rewrite <- app_assoc. by apply list_lookup_middle. }
  rewrite Hl. cbn [mbind option_bind]. rewrite Z.eqb_refl. eexists. split; [done|]. split; [done|].
  split; cbn [tb_off tb_mem]; [lia|]. rewrite <- (take_drop (length txt + 1) (tb_mem b)), Hk, <- app_assoc.
  apply take_app_length.
Qed.

Lemma strip_miss txt d c b : d <> c -> tb_holds (txt ++ [d]) b -> strip c b = Some b.
Proof.
  intros Hd [Ho Hk]. rewrite length_app in *. cbn [length] in *. unfold strip.
  rewrite (proj2 (Z.ltb_lt _ _)) by lia. cbn [negb].
  replace (Z.to_nat (tb_off b - 1)) with (length txt) by lia.
  assert (Hl : tb_mem b !! length txt = Some d).
  { rewrite <- (take_drop (length txt + 1) (tb_mem b)), Hk. rewrite <- app_assoc. by apply list_lookup_middle. }
  rewrite Hl. cbn [mbind option_bind]. by rewrite (proj2 (Z.eqb_neq _ _)).
Qed.

Lemma separators m ms :
  concat ((fun m => m ++ [44; 10]) <$> (m :: ms)) = ((m ++ concat ((fun m => [44; 10] ++ m) <$> ms)) ++ [44]) ++ [10].
Proof.
  revert m. induction ms as [|m' ms IH]; intros m; [cbn; by rewrite !app_nil_r, <- !app_assoc|].
  rewrite fmap_cons. cbn [concat]. rewrite IH, fmap_cons. cbn [concat]. by rewrite <- !app_assoc.
Qed.

(** The two strips remove what follows the last member. *)
Lemma strips_exact ms b :
  tb_holds (import_head ++ concat ((fun m => m ++ [44; 10]) <$> ms)) b ->
  exists b', (b ← strip 10 b; strip 44 b) = Some b' /\ tb_cap b' = tb_cap b /\
    (tb_off b' <= tb_off b) /\
    forall txt, import_text ms = txt ++ import_tail -> tb_holds txt b'.
Proof.
  intros Hh. destruct ms as [|m ms].
  - change (import_head ++ concat _) with ((js "{
  'danos-config': {") ++ [10]) in Hh.
    pose proof (proj1 Hh) as Ho. destruct (strip_hit _ _ _ Hh) as (b1 & -> & Hc & Hh1). cbn [mbind option_bind].
    exists b1. split; [apply (strip_miss (js "{
  'danos-config': ") 123); done|]. split; [done|].
    split; [rewrite (proj1 Hh1), Ho, length_app; lia|]. intros txt Ht. by apply app_inv_tail in Ht as <-.
  - rewrite separators, !app_assoc in Hh. pose proof (proj1 Hh) as Ho.
    destruct (strip_hit _ _ _ Hh) as (b1 & -> & Hc & Hh1). cbn [mbind option_bind].
    destruct (strip_hit _ _ _ Hh1) as (b2 & -> & Hc2 & Hh2). exists b2. split; [done|]. split; [lia|].
    split; [rewrite (proj1 Hh2), Ho, !length_app; lia|]. intros txt Ht. unfold import_text in Ht.
    rewrite app_assoc in Ht. apply app_inv_tail in Ht as <-. exact Hh2.
Qed.

Lemma find_mapping_text l ms :
  is_text l -> Forall (fun m => is_text (danos_cmd m)) ms -> forall t, find_mapping l ms = Some t -> is_text t.
Proof.
  intros Hl. induction 1 as [|m ms Hm _ IH]; intros t Ht; [done|]. cbn [find_mapping] in Ht.
  case_match; [|by apply IH]. injection Ht as <-. apply Forall_app. split; [done|by apply Forall_drop].
Qed.

Lemma members_text lines : Forall clean_line lines -> Forall is_text (import_members lines).
Proof.
  intros H. apply Forall_forall. intros m Hm. apply list_elem_of_omap in Hm as (l & Hl & Hm).
  rewrite Forall_forall in H. destruct (H l Hl) as [Hc _].
  assert (Ht : is_text l) by (eapply Forall_impl; [exact Hc|]; cbn; lia).
  unfold line_member in Hm. case_match; [done|]. destruct (find_mapping l g_mappings) as [t|] eqn:E; [|done].
  cbn [fmap option_fmap option_map] in Hm. apply (inj Some) in Hm as <-. apply Forall_app. split; [apply js_text; lit_text|].
  apply Forall_app. split; [|apply js_text; lit_text]. apply Forall_take.
  eapply find_mapping_text; [exact Ht| |exact E]. lit_text.
Qed.

Lemma import_text_text ms : Forall is_text ms -> is_text (import_text ms).
Proof.
  intros H. unfold import_text. apply Forall_app. split; [apply js_text; lit_text|].
  apply Forall_app. split; [|lit_text]. destruct H as [|m ms Hm Hms]; [constructor|].
  apply Forall_app. split; [repeat constructor; lia|]. apply Forall_app. split; [done|].
  apply Forall_concat, Forall_fmap. eapply Forall_impl; [exact Hms|]. intros x Hx. apply Forall_app.
  split; [repeat constructor; lia|done].
Qed.

(** ** Configurations *)

(** The commands with a translation.  [network] is not one of them: what it
    becomes should depend on the protocol it is configured under, and does not
    (see [network_is_bgp]). *)
Inductive keyword :=
  | KwInterface | KwIpAddress | KwIpv6Address | KwNoIpAddress | KwNoIpv6Address | KwShutdown | KwNoShutdown
  | KwIpVrf | KwVrfForwarding | KwRouterBgp | KwNeighbor | KwRemoteAs | KwRouterOspf | KwIpRoute | KwAccessList
  | KwPermit | KwDeny | KwVlan | KwAccessVlan | KwWriteMemory | KwEnd.

Definition keywords : list keyword :=
  [KwInterface; KwIpAddress; KwIpv6Address; KwNoIpAddress; KwNoIpv6Address; KwShutdown; KwNoShutdown; KwIpVrf;
   KwVrfForwarding; KwRouterBgp; KwNeighbor; KwRemoteAs; KwRouterOspf; KwIpRoute; KwAccessList; KwPermit; KwDeny;
   KwVlan; KwAccessVlan; KwWriteMemory; KwEnd].

Definition ocnos_word (k : keyword) : bytes :=
  match k with
  | KwInterface => lit "interface " | KwIpAddress => lit "ip address " | KwIpv6Address => lit "ipv6 address "
  | KwNoIpAddress => lit "no ip address" | KwNoIpv6Address => lit "no ipv6 address" | KwShutdown => lit "shutdown"
  | KwNoShutdown => lit "no shutdown" | KwIpVrf => lit "ip vrf " | KwVrfForwarding => lit "vrf forwarding "
  | KwRouterBgp => lit "router bgp " | KwNeighbor => lit "neighbor " | KwRemoteAs => lit "remote-as "
  | KwRouterOspf => lit "router ospf" | KwIpRoute => lit "ip route " | KwAccessList => lit "ip access-list "
  | KwPermit => lit "permit " | KwDeny => lit "deny " | KwVlan => lit "vlan "
  | KwAccessVlan => lit "switchport access vlan " | KwWriteMemory => lit "write memory" | KwEnd => lit "end"
  end.

Definition danos_word (k : keyword) : bytes :=
  match k with
  | KwInterface => lit "set interface " | KwIpAddress => lit "ipv4 address " | KwIpv6Address => lit "ipv6 address "
  | KwNoIpAddress => lit "delete ipv4 address" | KwNoIpv6Address => lit "delete ipv6 address"
  | KwShutdown => lit "set admin-status down" | KwNoShutdown => lit "set admin-status up"
  | KwIpVrf => lit "set vrf " | KwVrfForwarding => lit "set vrf-binding " | KwRouterBgp => lit "set bgp instance "
  | KwNeighbor => lit "set bgp neighbor " | KwRemoteAs => lit "remote-as " | KwRouterOspf => lit "set ospf instance"
  | KwIpRoute => lit "set static-route " | KwAccessList => lit "set acl " | KwPermit => lit "action permit "
  | KwDeny => lit "action deny " | KwVlan => lit "set vlan " | KwAccessVlan => lit "set access-vlan "
  | KwWriteMemory => lit "commit" | KwEnd => lit "commit"
  end.

(** A line: a command as it is typed, in any capitalisation, and what follows
    it; a comment; nothing; or something else. *)
Inductive config_line :=
  | Command (k : keyword) (typed rest : bytes)
  | Comment (mark : Z) (text : bytes)
  | Blank
  | Unknown (text : bytes).

Definition line_text (l : config_line) : bytes :=
  match l with
  | Command _ typed rest => typed ++ rest
  | Comment mark text => mark :: text
  | Blank => []
  | Unknown text => text
  end.

(** What may stand in a JSON string as it is, in a line with one command. *)
Definition plain_char (c : Z) : Prop := 32 <= c < 127 /\ c <> 34 /\ c <> 92 /\ c <> 59.

Definition known_words : list bytes := lit "network " :: (ocnos_word <$> keywords).

Definition line_ok (l : config_line) : Prop :=
  clean_line (line_text l) /\
  match l with
  | Command k typed rest => tolower <$> typed = ocnos_word k /\ Forall plain_char rest /\ (length (typed ++ rest) <= 490)%nat
  | Comment mark _ => mark = 33 \/ mark = 35
  | Blank => True
  | Unknown text =>
      skip_line text = false /\ Forall (fun w => is_prefix w (tolower <$> text) = false) known_words
  end.

(** The member of the JSON text a line becomes. *)
Definition member_of (l : config_line) : option bytes :=
  match l with
  | Command k _ rest => Some (js "    'line': '" ++ danos_word k ++ rest ++ js "'")
  | _ => None
  end.

Lemma find_mapping_command k typed rest :
  tolower <$> typed = ocnos_word k -> find_mapping (typed ++ rest) g_mappings = Some (danos_word k ++ rest).
Proof.
  intros Hk. assert (Hl : length typed = length (ocnos_word k)) by (by rewrite <- Hk, length_fmap).
  assert (Hd : drop (length (ocnos_word k)) (typed ++ rest) = rest) by (rewrite <- Hl; apply drop_app_length).
  assert (Hm : forall m, cmd_matches (typed ++ rest) m = is_prefix (tolower <$> ocnos_cmd m) (ocnos_word k ++ (tolower <$> rest))).
  { intros m. unfold cmd_matches. by rewrite fmap_app, Hk. }
  clear Hk Hl. unfold g_mappings. cbn [fmap list_fmap fst snd]. cbn [find_mapping]. rewrite !Hm. clear Hm.
  destruct k; cbn in Hd; vm_compute; vm_compute in Hd; by rewrite Hd.
Qed.

Lemma find_mapping_unknown text ms :
  Forall (fun m => cmd_matches text m = false) ms -> find_mapping text ms = None.
Proof. induction 1 as [|m ms Hm _ IH]; [done|]. cbn [find_mapping]. by rewrite Hm. Qed.

Lemma mappings_known : Forall (fun m => (tolower <$> ocnos_cmd m) ∈ known_words) g_mappings.
Proof. apply (bool_decide_unpack _). vm_compute. exact I. Qed.

Lemma command_not_skipped k typed rest : tolower <$> typed = ocnos_word k -> skip_line (typed ++ rest) = false.
Proof.
  intros Hk. destruct typed as [|c typed]; [by destruct k|]. cbn [app skip_line].
  assert (Hc : c <> 33 /\ c <> 35).
  { split; intros ->; destruct k; vm_compute in Hk; discriminate. }
  by rewrite !(proj2 (Z.eqb_neq _ _)) by lia.
Qed.

Lemma line_member_ok l : line_ok l -> line_member (line_text l) = member_of l.
Proof.
  intros [_ H]. unfold line_member. destruct l as [k typed rest|mark text| |text]; cbn [line_text member_of].
  - destruct H as (Hk & _ & Hn). rewrite (command_not_skipped k), (find_mapping_command k) by done.
    cbn [fmap option_fmap option_map]. rewrite take_ge; [by rewrite <- app_assoc|].
    rewrite length_app in *. assert (Hl : length typed = length (ocnos_word k)) by (by rewrite <- Hk, length_fmap).
    assert (Hw : (length (danos_word k) <= length (ocnos_word k) + 13)%nat) by (apply Nat.leb_le; by destruct k).
    lia.
  - cbn [skip_line]. destruct H as [->| ->]; done.
  - done.
  - destruct H as [-> Hu]. rewrite find_mapping_unknown; [done|].
    eapply Forall_impl; [exact mappings_known|]. intros m Hm. rewrite Forall_forall in Hu. by apply Hu.
Qed.

Lemma members_ok ls : Forall line_ok ls -> import_members (line_text <$> ls) = omap member_of ls.
Proof.
  induction 1 as [|l ls Hl _ IH]; [done|]. unfold import_members in *. cbn [fmap list_fmap omap list_omap].
  rewrite line_member_ok by done. destruct (member_of l); cbn; by rewrite <- IH.
Qed.

(** C34. Import is exact: a configuration of commands, comments, empty lines and
    unknown lines, whose translation leaves 256 bytes of the buffer free,
    becomes the JSON text with one member for each command, in the order of
    the file, holding the command's DANOS form and what followed it, the
    members separated by commas and none behind the last.  Commands are
    recognised in any capitalisation; they have at most 490 bytes, printable
    and without quotation mark, backslash or semicolon, and are not
    [network]. *)
Theorem config_import_exact ls output out_size c :
  Forall line_ok ls -> out_size < 2 ^ 31 -> out_size <= Z.of_nat (length output) ->
  let ms := omap member_of ls in
  Z.of_nat (length import_head + length (concat ((fun m => m ++ [44; 10]) <$> ms))) < out_size - 256 ->
  exists mem c', danos_compat_import_config (Some (Some (file_of (line_text <$> ls)))) (Some output) out_size c =
      Some (0, Some (mem ++ drop (Z.to_nat out_size) output), c') /\
    Z.of_nat (length mem) = out_size /\ c_str mem = import_text ms.
Proof.
  intros Hls Hcap Hout ms Hn. set (lines := line_text <$> ls).
  assert (Hl : Forall clean_line lines).
  { apply Forall_fmap. eapply Forall_impl; [exact Hls|]. by intros l [Hl _]. }
  unfold ms in *. rewrite <- members_ok in Hn |- * by done. fold lines in Hn |- *. clear Hls ms.
  unfold danos_compat_import_config. rewrite (proj2 (Z.leb_gt out_size 0)) by lia.
  rewrite (proj2 (Z.ltb_ge _ out_size)) by lia. set (buf := take (Z.to_nat out_size) output).
  assert (Hbuf : Z.of_nat (length buf) = out_size) by (unfold buf; rewrite length_take; lia).
  assert (Hs : tb_sized (mk_tbuf buf 0)) by (unfold tb_sized, tb_cap; cbn [tb_mem]; lia).
  assert (Hcap0 : tb_cap (mk_tbuf buf 0) = out_size) by done.
  destruct (bprintf_fits [] import_head (mk_tbuf buf 0) Hs (conj eq_refl eq_refl)) as (b1 & -> & C1 & H1 & E1);
    [rewrite Hcap0; cbn [length]; lia|]. cbn [mbind option_bind app] in *. unfold tb_sized in *.
  destruct (import_loop_exact lines (length (file_of lines)) (if config_initialized c then c else danos_compat_config_init c)
              b1 import_head) as (c2 & b2 & -> & C2 & H2); try done; [unfold tb_sized; lia|lia|].
  cbn [mbind option_bind]. destruct (strips_exact _ _ H2) as (b3 & E3 & C3 & O3 & H3).
  destruct (strip 10 b2) as [b2'|]; [|done]. cbn [mbind option_bind] in *. rewrite E3. cbn [mbind option_bind].
  set (ms := import_members lines) in *. pose proof (proj1 H2) as O2. rewrite length_app in O2.
  assert (exists txt, import_text ms = txt ++ import_tail) as [txt Ht].
  { unfold import_text. eexists. by rewrite app_assoc. }
  pose proof (H3 txt Ht) as Hh3. destruct (bprintf_fits txt import_tail b3) as (b4 & -> & C4 & H4 & E4);
    [unfold tb_sized; lia|done|pose proof (proj1 Hh3); change (length import_tail) with 7%nat; lia|].
  cbn [mbind option_bind]. exists (tb_mem b4), c2. split; [done|]. unfold tb_cap in *. split; [lia|].
  rewrite Ht. apply tb_holds_str; [|done|done]. rewrite <- Ht. apply import_text_text, members_text, Hl.
Qed.

Definition demo_config : list config_line :=
  [Command KwInterface (lit "Interface ") (lit "eth0"); Comment 33 []; Command KwNoShutdown (lit "no shutdown") [];
   Blank; Unknown (lit "hostname r1")].

Lemma demo_config_ok : Forall line_ok demo_config.
Proof.
  assert (Hc : Forall (fun l => clean_line (line_text l)) demo_config)
    by (apply (bool_decide_unpack _); vm_compute; exact I).
  unfold demo_config in *. rewrite !Forall_cons in Hc. destruct Hc as (H1 & H2 & H3 & H4 & H5 & _).
  repeat (apply Forall_cons; split); [..|by apply Forall_nil_2]; (split; [assumption|]).
  - split; [reflexivity|]. split; [|cbn; lia]. change (lit "eth0") with [101; 116; 104; 48].
    repeat (constructor; [unfold plain_char; lia|]). constructor.
  - by left.
  - split; [reflexivity|]. split; [by apply Forall_nil_2|cbn; lia].
  - exact I.
  - split; [reflexivity|]. apply (bool_decide_unpack _). vm_compute. exact I.
Qed.

Lemma config_import_exact_witness :
  exists mem c', danos_compat_import_config (Some (Some (file_of (line_text <$> demo_config))))
      (Some (zeros 600)) 512 (mk_compat false false) = Some (0, Some (mem ++ drop 512 (zeros 600)), c') /\
    Z.of_nat (length mem) = 512 /\
    c_str mem = js "{
  'danos-config': {
    'line': 'set interface eth0',
    'line': 'set admin-status up'
  }
}
".
Proof.
  apply (config_import_exact demo_config (zeros 600) 512 (mk_compat false false)).
  - exact demo_config_ok.
  - reflexivity.
  - rewrite length_zeros. lia.
  - vm_compute. reflexivity.
Defined.

(** ** Where it is not *)

(** A long line: the text is cut at the end of the buffer, [offset] passes it,
    and the byte before [offset] is read behind the buffer. *)
Lemma import_leaves_buffer :
  danos_compat_import_config (Some (Some (lit "vlan " ++ replicate 300 49))) (Some (zeros 300)) 300 (mk_compat true true) = None.
Proof. vm_compute. reflexivity. Qed.

(** The second entry for [network] is never reached. *)
Lemma network_is_bgp rest :
  find_mapping (lit "network " ++ rest) g_mappings = Some (lit "set bgp network " ++ rest).
Proof. reflexivity. Qed.
