(* ===== verification/Observability.v ===== *)
(** * Observability: danos-observability prometheus.c, prom_server.c and log.c

    The table of metrics and its text exposition, the [/metrics] server, and
    the structured log.  Values are IEEE doubles, as the specification of
    floating-point numbers in the Standard Library defines them; the provider
    of external counters is a function from their names. *)

From stdpp Require Import base decidable list numbers strings gmap.
From Stdlib Require Import ZArith Lia.
From Stdlib Require Import SpecFloat.
From S2P Require Import Prelude CStr TextBuf.

(** ** Doubles *)

Abbreviation double := spec_float.

Definition dzero : double := S754_zero false.

(** [(double)v] of a [uint64_t], [a + b] and [a == b]. *)
Definition d_of_u64 (v : Z) : double := binary_normalize 53 1024 v 0 false.
Definition d_add (a b : double) : double := SFadd 53 1024 a b.
Definition d_eq (a b : double) : bool := SFeqb a b.

(** [m / d] to the nearest integer, ties to even. *)
Definition div_rne (m d : Z) : Z :=
  let q := m / d in
  let r := m mod d in
  if 2 * r <? d then q else if d <? 2 * r then q + 1 else if Z.even q then q else q + 1.

(** Millionths of [m * 2^e]. *)
Definition millionths (m : positive) (e : Z) : Z :=
  if 0 <=? e then Z.pos m * 10 ^ 6 * 2 ^ e else div_rne (Z.pos m * 10 ^ 6) (2 ^ (- e)).

(** [%.6f]; the integer part of a double has at most 309 digits. *)
Definition sign_text (s : bool) : bytes := if s then [45] else [].

Definition fixed6 (n : Z) : bytes :=
  dec_digits 309 (n / 10 ^ 6) [] ++ [46] ++ dec_pad 6 (n mod 10 ^ 6).

Definition print_f6 (x : double) : bytes :=
  match x with
  | S754_zero s => sign_text s ++ fixed6 0
  | S754_infinity s => sign_text s ++ lit "inf"
  | S754_nan => lit "nan"
  | S754_finite s m e => sign_text s ++ fixed6 (millionths m e)
  end.

(** ** The table of metrics *)

Definition PROM_MAX_METRICS : nat := 128.
Definition PROM_NAME_LEN : nat := 64.
Definition PROM_HELP_LEN : nat := 128.

Definition DANOS_METRIC_COUNTER : Z := 1.
Definition DANOS_METRIC_GAUGE : Z := 2.
Definition DANOS_METRIC_HISTOGRAM : Z := 3.

Record prom_metric_t := mk_metric {
  pm_name : bytes;
  pm_help : bytes;
  pm_type : Z;
  pm_value : double;
  pm_hcount : Z;
  pm_hsum : double;
  pm_used : bool;
  pm_stat_bound : bool;
  pm_stat_name : bytes;
}.

Definition metric_zero : prom_metric_t := mk_metric [] [] 0 dzero 0 dzero false false [].

Definition danos_stat_provider_fn : Type := bytes -> Z.

(** The file's static state. *)
Record prom := mk_prom {
  g_metrics : list prom_metric_t;
  g_prom_inited : bool;
  g_provider : option danos_stat_provider_fn;
}.

Definition prom_boot : prom := mk_prom (replicate PROM_MAX_METRICS metric_zero) false None.

Definition set_metrics (p : prom) (ms : list prom_metric_t) : prom := mk_prom ms (g_prom_inited p) (g_provider p).

Definition is_metric (name : bytes) (m : prom_metric_t) : bool := pm_used m && bool_decide (pm_name m = name).

(** Slots are named by their index. *)
Definition find_metric_locked (name : option bytes) (ms : list prom_metric_t) : option nat :=
  name ← name; fst <$> list_find (fun m => is_metric name m = true) ms.

Definition find_free (ms : list prom_metric_t) : option nat :=
  fst <$> list_find (fun m => pm_used m = false) ms.

Definition danos_prom_set_stat_provider (fn : option danos_stat_provider_fn) (p : prom) : prom :=
  mk_prom (g_metrics p) (g_prom_inited p) fn.

Definition bind_metric (stat : bytes) (m : prom_metric_t) : prom_metric_t :=
  mk_metric (pm_name m) (pm_help m) (pm_type m) (pm_value m) (pm_hcount m) (pm_hsum m) (pm_used m)
    true (take (PROM_NAME_LEN - 1) stat).

Definition danos_prom_bind_stat (metric stat_name : option bytes) (p : prom) : Z * prom :=
  match stat_name with
  | Some (c :: s) =>
      match find_metric_locked metric (g_metrics p) with
      | None => (-1, p)
      | Some i => (0, set_metrics p (alter (bind_metric (c :: s)) i (g_metrics p)))
      end
  | _ => (-1, p)
  end.

Definition set_value (v : double) (m : prom_metric_t) : prom_metric_t :=
  mk_metric (pm_name m) (pm_help m) (pm_type m) v (pm_hcount m) (pm_hsum m) (pm_used m)
    (pm_stat_bound m) (pm_stat_name m).

Definition is_bound (m : prom_metric_t) : bool := pm_used m && pm_stat_bound m.

Definition refresh_metric (fn : danos_stat_provider_fn) (m : prom_metric_t) : prom_metric_t :=
  if negb (is_bound m) then m else
  let v := fn (pm_stat_name m) in
  if negb (v =? 0) || d_eq (pm_value m) dzero then set_value (d_of_u64 v) m else m.

Definition danos_prom_refresh (p : prom) : Z * prom :=
  match g_provider p with
  | None => (0, p)
  | Some fn =>
      (Z.of_nat (length (filter (fun m => is_bound m = true) (g_metrics p))),
       set_metrics p (refresh_metric fn <$> g_metrics p))
  end.

Definition type_name (t : Z) : bytes :=
  if t =? DANOS_METRIC_COUNTER then lit "counter"
  else if t =? DANOS_METRIC_GAUGE then lit "gauge"
  else if t =? DANOS_METRIC_HISTOGRAM then lit "histogram"
  else lit "untyped".

Definition new_metric (name help : bytes) (type : Z) : prom_metric_t :=
  mk_metric (take (PROM_NAME_LEN - 1) name) (take (PROM_HELP_LEN - 1) help) type dzero 0 dzero true false [].

(** The part of [danos_prom_register] under the lock. *)
Definition register_locked (name help : bytes) (type : Z) (p : prom) : Z * prom :=
  if bool_decide (is_Some (find_metric_locked (Some name) (g_metrics p))) then (-1, p) else
  match find_free (g_metrics p) with
  | None => (-1, p)
  | Some i => (0, set_metrics p (<[i := new_metric name help type]> (g_metrics p)))
  end.

Definition prom_defaults : list (bytes * bytes * Z) :=
  (fun d : string * string * Z => (lit d.1.1, lit d.1.2, d.2)) <$>
  [ ("danos_uptime_seconds", "Uptime in seconds", DANOS_METRIC_GAUGE);
    ("danos_cpu_usage_percent", "CPU usage percent", DANOS_METRIC_GAUGE);
    ("danos_memory_used_bytes", "Memory used bytes", DANOS_METRIC_GAUGE);
    ("danos_memory_total_bytes", "Memory total bytes", DANOS_METRIC_GAUGE);
    ("danos_tx_total", "Total transactions", DANOS_METRIC_COUNTER);
    ("danos_tx_committed_total", "Committed transactions", DANOS_METRIC_COUNTER);
    ("danos_tx_aborted_total", "Aborted transactions", DANOS_METRIC_COUNTER);
    ("danos_tx_failed_total", "Failed transactions", DANOS_METRIC_COUNTER);
    ("danos_tx_duration_seconds", "Transaction duration", DANOS_METRIC_HISTOGRAM);
    ("danos_tx_active", "Active transactions", DANOS_METRIC_GAUGE);
    ("danos_objects_total", "Total DPA objects", DANOS_METRIC_GAUGE);
    ("danos_objects_interface", "Interface objects", DANOS_METRIC_GAUGE);
    ("danos_objects_route", "Route objects", DANOS_METRIC_GAUGE);
    ("danos_objects_vrf", "VRF objects", DANOS_METRIC_GAUGE);
    ("danos_objects_acl", "ACL objects", DANOS_METRIC_GAUGE);
    ("danos_objects_qos", "QoS objects", DANOS_METRIC_GAUGE);
    ("danos_reconcile_total", "Reconciliation cycles", DANOS_METRIC_COUNTER);
    ("danos_reconcile_failures", "Reconciliation failures", DANOS_METRIC_COUNTER);
    ("danos_reconcile_flaps", "Reconciliation flaps", DANOS_METRIC_COUNTER);
    ("danos_reconcile_duration", "Reconciliation duration", DANOS_METRIC_HISTOGRAM);
    ("danos_bgp_peers", "BGP peers", DANOS_METRIC_GAUGE);
    ("danos_bgp_peers_established", "BGP peers established", DANOS_METRIC_GAUGE);
    ("danos_bgp_routes_received", "BGP routes received", DANOS_METRIC_GAUGE);
    ("danos_ospf_neighbors", "OSPF neighbors", DANOS_METRIC_GAUGE);
    ("danos_isis_neighbors", "IS-IS neighbors", DANOS_METRIC_GAUGE);
    ("danos_bfd_sessions_up", "BFD sessions up", DANOS_METRIC_GAUGE);
    ("danos_bfd_sessions_down", "BFD sessions down", DANOS_METRIC_GAUGE);
    ("danos_fwd_packets_total", "Forwarded packets", DANOS_METRIC_COUNTER);
    ("danos_fwd_bytes_total", "Forwarded bytes", DANOS_METRIC_COUNTER);
    ("danos_fwd_drops_total", "Forwarded drops", DANOS_METRIC_COUNTER);
    ("danos_fwd_errors_total", "Forwarded errors", DANOS_METRIC_COUNTER);
    ("danos_backend_connected", "Backend connected (1=yes)", DANOS_METRIC_GAUGE);
    ("danos_backend_msgs_sent", "Backend messages sent", DANOS_METRIC_COUNTER);
    ("danos_backend_msgs_received", "Backend messages received", DANOS_METRIC_COUNTER);
    ("danos_gnmi_get_total", "gNMI Get requests", DANOS_METRIC_COUNTER);
    ("danos_gnmi_set_total", "gNMI Set requests", DANOS_METRIC_COUNTER);
    ("danos_gnmi_subscribe_total", "gNMI Subscribe requests", DANOS_METRIC_COUNTER);
    ("danos_vrrp_master", "VRRP master sessions", DANOS_METRIC_GAUGE);
    ("danos_vrrp_backup", "VRRP backup sessions", DANOS_METRIC_GAUGE) ]%string.

(** The flag is set before the defaults are registered. *)
Definition danos_prom_init (p : prom) : prom :=
  foldl (fun p d => (register_locked d.1.1 d.1.2 d.2 p).2)
    (mk_prom (replicate PROM_MAX_METRICS metric_zero) true (g_provider p)) prom_defaults.

Definition danos_prom_register (name help : option bytes) (type : Z) (p : prom) : Z * prom :=
  match name, help with
  | Some name, Some help =>
      register_locked name help type (if g_prom_inited p then p else danos_prom_init p)
  | _, _ => (-1, p)
  end.

(** The three operations that change one metric. *)
Definition on_metric (f : prom_metric_t -> prom_metric_t) (name : option bytes) (p : prom) : Z * prom :=
  match find_metric_locked name (g_metrics p) with
  | None => (-1, p)
  | Some i => (0, set_metrics p (alter f i (g_metrics p)))
  end.

Definition danos_prom_set (name : option bytes) (value : double) : prom -> Z * prom :=
  on_metric (set_value value) name.

Definition danos_prom_inc (name : option bytes) (delta : double) : prom -> Z * prom :=
  on_metric (fun m => set_value (d_add (pm_value m) delta) m) name.

Definition observe (value : double) (m : prom_metric_t) : prom_metric_t :=
  mk_metric (pm_name m) (pm_help m) (pm_type m) (pm_value m) (u64 (pm_hcount m + 1)) (d_add (pm_hsum m) value)
    (pm_used m) (pm_stat_bound m) (pm_stat_name m).

Definition danos_prom_observe (name : option bytes) (value : double) : prom -> Z * prom :=
  on_metric (observe value) name.

(** ** Exposition *)

Definition help_line (m : prom_metric_t) : bytes := lit "# HELP " ++ pm_name m ++ [32] ++ pm_help m ++ [10].
Definition type_line (m : prom_metric_t) : bytes := lit "# TYPE " ++ pm_name m ++ [32] ++ type_name (pm_type m) ++ [10].
Definition value_lines (m : prom_metric_t) : bytes :=
  if pm_type m =? DANOS_METRIC_HISTOGRAM then
    pm_name m ++ lit "_count " ++ dec (pm_hcount m) ++ [10] ++ pm_name m ++ lit "_sum " ++ print_f6 (pm_hsum m) ++ [10]
  else pm_name m ++ [32] ++ print_f6 (pm_value m) ++ [10].

Definition metric_lines (m : prom_metric_t) : list bytes := [help_line m; type_line m; value_lines m].

Fixpoint render_loop (ms : list prom_metric_t) (b : tbuf) : option tbuf :=
  match ms with
  | [] => Some b
  | m :: ms =>
      if negb (pm_used m) then render_loop ms b else
      b ← bprint_all (metric_lines m) b;
      if tb_cap b - 256 <=? tb_off b then Some b else render_loop ms b
  end.

(** The number of bytes and the buffer; [None] is a write behind it. *)
Definition danos_prom_render (buf : option bytes) (p : prom) : option (Z * option bytes * prom) :=
  match buf with
  | Some (c :: buf) =>
      let p := (danos_prom_refresh p).2 in
      b ← render_loop (g_metrics p) (mk_tbuf (c :: buf) 0);
      Some (tb_off b, Some (tb_mem b), p)
  | _ => Some (0, buf, p)
  end.

(** ** The [/metrics] server *)

Record prom_srv := mk_srv { srv_listen_fd : Z; srv_port : Z; srv_running : bool }.

Definition http_ok (blen : Z) : bytes :=
  lit "HTTP/1.1 200 OK" ++ [13; 10] ++ lit "Content-Type: text/plain; version=0.0.4" ++ [13; 10] ++
  lit "Content-Length: " ++ sdec blen ++ [13; 10] ++ lit "Connection: close" ++ [13; 10; 13; 10].

Definition http_not_found : bytes :=
  lit "HTTP/1.1 404 Not Found" ++ [13; 10] ++ lit "Content-Length: 0" ++ [13; 10] ++
  lit "Connection: close" ++ [13; 10; 13; 10].

(** One connection: the request [recv] returned, up to 1023 bytes, and the
    texts given to [send].  [body] is what the array on the stack holds;
    [danos_prom_render] has all of it but the last byte. *)
Definition prom_conn (body : bytes) (req : option bytes) (p : prom) : option (list bytes * prom) :=
  match req with
  | None => Some ([], p)
  | Some req =>
      match strstr (c_str req) (lit "/metrics") with
      | Some _ =>
          '(blen, mem, p) ← danos_prom_render (Some body) p;
          if Z.of_nat (length body) <? blen then None else
          Some (take 255 (http_ok blen) ::
                (if 0 <? blen then [take (Z.to_nat blen) (default [] mem)] else []), p)
      | None => Some ([http_not_found], p)
      end
  end.

(** What the loop does with a connection. *)
Inductive accepted := Spawned (fd : Z) | Closed (fd : Z).

(** Each turn reads [running], then [accept] answers (a negative number is a
    failure) and the thread starts or not. *)
Fixpoint prom_accept_loop (turns : list (bool * Z * bool)) : list accepted :=
  match turns with
  | [] => []
  | (running, fd, thread) :: turns =>
      if negb running || (fd <? 0) then []
      else (if thread : bool then Spawned fd else Closed fd) :: prom_accept_loop turns
  end.

(** The answers of [socket], of [bind] and [listen], and of [pthread_create]. *)
Record srv_os := mk_srv_os { sv_socket : Z; sv_listen : bool; sv_thread : bool }.

Definition danos_prom_start_server (os : srv_os) (port : Z) (s : prom_srv) : Z * prom_srv :=
  if srv_running s then (0, s) else
  if sv_socket os <? 0 then (-1, s) else
  if negb (sv_listen os) then (-1, s) else
  if negb (sv_thread os) then (-1, mk_srv (sv_socket os) port false)
  else (0, mk_srv (sv_socket os) port true).

Definition danos_prom_stop_server (s : prom_srv) : prom_srv :=
  if negb (srv_running s) then s else mk_srv (-1) (srv_port s) false.

(** ** The log *)

Definition DANOS_LOG_DEBUG : Z := 0.
Definition DANOS_LOG_INFO : Z := 1.
Definition DANOS_LOG_WARN : Z := 2.
Definition DANOS_LOG_ERROR : Z := 3.
Definition DANOS_LOG_FATAL : Z := 4.

Record log_state := mk_log { g_component : bytes; g_min_level : Z; g_log_inited : bool }.

Definition log_boot : log_state := mk_log (lit "danos") DANOS_LOG_INFO false.

Definition level_name (l : Z) : bytes :=
  if l =? DANOS_LOG_DEBUG then lit "debug"
  else if l =? DANOS_LOG_INFO then lit "info"
  else if l =? DANOS_LOG_WARN then lit "warn"
  else if l =? DANOS_LOG_ERROR then lit "error"
  else if l =? DANOS_LOG_FATAL then lit "fatal"
  else lit "unknown".

Definition danos_log_init (component : option bytes) (min_level : Z) (s : log_state) : log_state :=
  mk_log (match component with Some c => take 31 c | None => g_component s end) min_level true.

Definition danos_log_set_level (level : Z) (s : log_state) : log_state :=
  mk_log (g_component s) level (g_log_inited s).

(** The pairs before the [NULL] key, at most twenty. *)
Definition log_pair (kv : bytes * option bytes) : bytes :=
  js ",'" ++ kv.1 ++
  match kv.2 with
  | Some v => js "':'" ++ v ++ js "'"
  | None => js "':null"
  end.

(** [ts]: the seconds and nanoseconds of the clock; the text is one line. *)
Definition danos_log (ts : Z * Z) (level : Z) (msg : option bytes) (kvs : list (bytes * option bytes))
    (s : log_state) : option bytes * log_state :=
  if level <? g_min_level s then (None, s) else
  match msg with
  | None => (None, s)
  | Some msg =>
      let s := if g_log_inited s then s else danos_log_init (Some (lit "danos")) DANOS_LOG_INFO s in
      (Some (js "{'ts':" ++ dec ts.1 ++ lit "." ++ dec_pad 9 ts.2 ++ js ",'component':'" ++ g_component s ++
             js "','level':'" ++ level_name level ++ js "','msg':'" ++ msg ++ js "'" ++
             concat (log_pair <$> take 20 kvs) ++ lit "}" ++ [10]), s)
  end.

(** ** The table is a map from names *)

Definition entry_of (m : prom_metric_t) : option (bytes * prom_metric_t) :=
  if pm_used m then Some (pm_name m, m) else None.

Definition entries (ms : list prom_metric_t) : list (bytes * prom_metric_t) := omap entry_of ms.

Definition metric_map (p : prom) : gmap bytes prom_metric_t := list_to_map (entries (g_metrics p)).

Record prom_wf (p : prom) : Prop := {
  pw_inited : g_prom_inited p = true;
  pw_length : length (g_metrics p) = PROM_MAX_METRICS;
  pw_nodup : NoDup (entries (g_metrics p)).*1;
}.

Inductive prom_op :=
  | PRegister (name help : bytes) (type : Z)
  | PBind (name stat : bytes)
  | PSet (name : bytes) (v : double)
  | PInc (name : bytes) (d : double)
  | PObserve (name : bytes) (v : double)
  | PRefresh.

Definition run_prom (op : prom_op) (p : prom) : Z * prom :=
  match op with
  | PRegister n h t => danos_prom_register (Some n) (Some h) t p
  | PBind n s => danos_prom_bind_stat (Some n) (Some s) p
  | PSet n v => danos_prom_set (Some n) v p
  | PInc n d => danos_prom_inc (Some n) d p
  | PObserve n v => danos_prom_observe (Some n) v p
  | PRefresh => danos_prom_refresh p
  end.

Definition spec_change (f : prom_metric_t -> prom_metric_t) (n : bytes) (M : gmap bytes prom_metric_t)
    : Z * gmap bytes prom_metric_t :=
  match M !! n with
  | Some m => (0, <[n := f m]> M)
  | None => (-1, M)
  end.

Definition spec_prom (fn : option danos_stat_provider_fn) (op : prom_op) (M : gmap bytes prom_metric_t)
    : Z * gmap bytes prom_metric_t :=
  match op with
  | PRegister n h t =>
      if bool_decide (is_Some (M !! n)) || (PROM_MAX_METRICS <=? size M)%nat then (-1, M)
      else (0, <[n := new_metric n h t]> M)
  | PBind n s => if bool_decide (s = []) then (-1, M) else spec_change (bind_metric s) n M
  | PSet n v => spec_change (set_value v) n M
  | PInc n d => spec_change (fun m => set_value (d_add (pm_value m) d) m) n M
  | PObserve n v => spec_change (observe v) n M
  | PRefresh =>
      match fn with
      | None => (0, M)
      | Some fn => (Z.of_nat (size (filter (fun nm => is_bound nm.2 = true) M)), refresh_metric fn <$> M)
      end
  end.

(** Names that fit into the array. *)
Definition op_name_fits (op : prom_op) : Prop :=
  match op with PRegister n _ _ => (length n < PROM_NAME_LEN)%nat | _ => True end.

Lemma find_hit n ms i :
  find_metric_locked (Some n) ms = Some i -> exists m, ms !! i = Some m /\ pm_used m = true /\ pm_name m = n.
Proof.
  unfold find_metric_locked. cbn [mbind option_bind]. intros H.
  apply fmap_Some in H as ([j m] & Hf & ->). apply list_find_Some in Hf as (Hj & Hm & _).
  exists m. unfold is_metric in Hm. apply andb_prop in Hm as [Hu Hn]. by apply bool_decide_eq_true in Hn.
Qed.

Lemma find_miss n ms : find_metric_locked (Some n) ms = None -> n ∉ (entries ms).*1.
Proof.
  unfold find_metric_locked. cbn [mbind option_bind]. intros H. apply fmap_None, list_find_None in H.
  intros Hn. apply list_elem_of_fmap in Hn as ([k m] & -> & Hm). apply list_elem_of_omap in Hm as (m' & Hin & He).
  unfold entry_of in He. destruct (pm_used m') eqn:Eu; [|done]. injection He as <- <-.
  rewrite Forall_forall in H. apply (H _ Hin). unfold is_metric. by rewrite Eu, bool_decide_true.
Qed.

Lemma entries_app a b : entries (a ++ b) = entries a ++ entries b.
Proof. apply omap_app. Qed.

Lemma entries_at ms i m :
  ms !! i = Some m -> entries ms = entries (take i ms) ++ entries [m] ++ entries (drop (S i) ms).
Proof. intros H. by rewrite <- !entries_app, <- (take_drop_middle ms i m H) at 1. Qed.

Lemma entries_insert ms i m m' :
  ms !! i = Some m -> entries (<[i := m']> ms) = entries (take i ms) ++ entries [m'] ++ entries (drop (S i) ms).
Proof. intros H. rewrite insert_take_drop by eauto using lookup_lt_Some. by rewrite <- !entries_app. Qed.

(** A used slot that keeps its name. *)
Lemma change_slot ms i m m' :
  ms !! i = Some m -> pm_used m = true -> pm_used m' = true -> pm_name m' = pm_name m ->
  NoDup (entries ms).*1 ->
  NoDup (entries (<[i := m']> ms)).*1 /\
  (list_to_map (entries ms) : gmap bytes prom_metric_t) !! pm_name m = Some m /\
  (list_to_map (entries (<[i := m']> ms)) : gmap bytes prom_metric_t) =
    <[pm_name m := m']> (list_to_map (entries ms)).
Proof.
  intros Hi Hu Hu' Hn Hd. rewrite (entries_insert ms i m m' Hi). rewrite (entries_at ms i m Hi) in Hd |- *.
  set (a := entries (take i ms)) in *. set (b := entries (drop (S i) ms)) in *.
  assert (E : entries [m] = [(pm_name m, m)]) by (unfold entries, entry_of; cbn; by rewrite Hu).
  assert (E' : entries [m'] = [(pm_name m, m')]) by (unfold entries, entry_of; cbn; by rewrite Hu', Hn).
  rewrite E in Hd |- *. rewrite E'. cbn [app] in *.
  assert (Hd' : NoDup (a ++ (pm_name m, m') :: b).*1) by (rewrite fmap_app in *; exact Hd).
  split; [done|]. split; [apply elem_of_list_to_map_1; [done|]; apply elem_of_app; right; apply elem_of_cons; by left|].
  assert (P : forall x, a ++ (pm_name m, x) :: b ≡ₚ (pm_name m, x) :: a ++ b) by (intros x; by rewrite Permutation_middle).
  rewrite (list_to_map_proper _ _ Hd (P m)), (list_to_map_proper _ _ Hd' (P m')). cbn [list_to_map foldr].
  by rewrite insert_insert_eq.
Qed.

(** A free slot that is taken. *)
Lemma take_slot ms i m m' :
  ms !! i = Some m -> pm_used m = false -> pm_used m' = true -> pm_name m' ∉ (entries ms).*1 ->
  NoDup (entries ms).*1 ->
  NoDup (entries (<[i := m']> ms)).*1 /\
  (list_to_map (entries (<[i := m']> ms)) : gmap bytes prom_metric_t) =
    <[pm_name m' := m']> (list_to_map (entries ms)).
Proof.
  intros Hi Hu Hu' Hn Hd. rewrite (entries_insert ms i m m' Hi). rewrite (entries_at ms i m Hi) in Hd, Hn |- *.
  set (a := entries (take i ms)) in *. set (b := entries (drop (S i) ms)) in *.
  assert (E : entries [m] = []) by (unfold entries, entry_of; cbn; by rewrite Hu).
  assert (E' : entries [m'] = [(pm_name m', m')]) by (unfold entries, entry_of; cbn; by rewrite Hu').
  rewrite E in Hd, Hn |- *. rewrite E'. cbn [app] in *.
  assert (P : a ++ (pm_name m', m') :: b ≡ₚ (pm_name m', m') :: a ++ b) by (by rewrite Permutation_middle).
  assert (Hd' : NoDup (a ++ (pm_name m', m') :: b).*1).
  { rewrite P. cbn [fmap list_fmap]. by constructor. }
  split; [done|]. by rewrite (list_to_map_proper _ _ Hd' P).
Qed.

Lemma on_metric_refines f n p :
  prom_wf p -> (forall m, pm_used (f m) = pm_used m /\ pm_name (f m) = pm_name m) ->
  let '(r, p') := on_metric f (Some n) p in
  prom_wf p' /\ g_provider p' = g_provider p /\ (r, metric_map p') = spec_change f n (metric_map p).
Proof.
  intros [Hi Hl Hd] Hf. unfold on_metric, spec_change. destruct (find_metric_locked _ _) as [i|] eqn:E.
  - destruct (find_hit _ _ _ E) as (m & Hm & Hu & <-).
    destruct (Hf m) as [Fu Fn].
    destruct (change_slot (g_metrics p) i m (f m) Hm Hu ltac:(congruence) Fn Hd) as (Hd' & Hlook & Hmap).
    assert (Ea : alter f i (g_metrics p) = <[i := f m]> (g_metrics p)).
    { apply list_eq. intros j. destruct (decide (i = j)) as [<-|Hj].
      - rewrite list_lookup_alter_eq, list_lookup_insert_eq by eauto using lookup_lt_Some. by rewrite Hm.
      - by rewrite list_lookup_alter_ne, list_lookup_insert_ne. }
    rewrite Ea. unfold metric_map at 2 3. rewrite Hlook. split; [|split; [done|]].
    + split; cbn [set_metrics g_prom_inited g_metrics]; [done|by rewrite length_insert|done].
    + unfold metric_map. cbn [set_metrics g_metrics]. by rewrite Hmap.
  - split; [done|]. split; [done|]. apply find_miss in E.
    unfold metric_map. by rewrite (not_elem_of_list_to_map_1 _ _ E).
Qed.

Lemma length_entries ms : (length (entries ms) <= length ms)%nat.
Proof.
  induction ms as [|m ms IH]; [done|]. unfold entries in *. cbn [omap list_omap length]. case_match; cbn [length]; lia.
Qed.

Lemma register_refines n h t p :
  prom_wf p -> (length n < PROM_NAME_LEN)%nat ->
  let '(r, p') := register_locked n h t p in
  prom_wf p' /\ g_provider p' = g_provider p /\
  (r, metric_map p') = spec_prom (g_provider p) (PRegister n h t) (metric_map p).
Proof.
  intros [Hi Hl Hd] Hn. unfold register_locked, spec_prom.
  destruct (find_metric_locked (Some n) (g_metrics p)) as [i|] eqn:E.
  { rewrite bool_decide_true by done. split; [done|]. split; [done|].
    destruct (find_hit _ _ _ E) as (m & Hm & Hu & <-).
    destruct (change_slot _ i m m Hm Hu Hu eq_refl Hd) as (_ & Hlook & _).
    rewrite bool_decide_true; [done|]. unfold metric_map. by rewrite Hlook. }
  rewrite bool_decide_false by (by intros []). pose proof (find_miss _ _ E) as Hnot.
  rewrite (bool_decide_false (is_Some (metric_map p !! n))), orb_false_l
    by (unfold metric_map; rewrite (not_elem_of_list_to_map_1 _ _ Hnot); by intros []).
  assert (Hsz : size (metric_map p) = length (entries (g_metrics p))) by (by apply map_size_list_to_map).
  destruct (find_free (g_metrics p)) as [i|] eqn:Ef.
  - unfold find_free in Ef. apply fmap_Some in Ef as ([j m] & Ef & ->). apply list_find_Some in Ef as (Hm & Hu & _).
    assert (Ht : take (PROM_NAME_LEN - 1) n = n) by (apply take_ge; unfold PROM_NAME_LEN in *; lia).
    destruct (take_slot (g_metrics p) j m (new_metric n h t) Hm Hu eq_refl) as [Hd' Hmap]; [|done|].
    { cbn [new_metric pm_name]. by rewrite Ht. }
    cbn [fst]. rewrite (proj2 (Nat.leb_gt _ _)).
    + split; [|split; [done|]].
      * split; cbn [set_metrics g_prom_inited g_metrics]; [done|by rewrite length_insert|done].
      * unfold metric_map at 1. cbn [set_metrics g_metrics]. rewrite Hmap. cbn [new_metric pm_name]. by rewrite Ht.
    + rewrite Hsz, (entries_at _ _ _ Hm), <- Hl. unfold entries at 2, entry_of. cbn [omap list_omap]. rewrite Hu.
      cbn [app]. rewrite length_app. pose proof (lookup_lt_Some _ _ _ Hm).
      pose proof (length_entries (take j (g_metrics p))) as H1. pose proof (length_entries (drop (S j) (g_metrics p))) as H2.
      rewrite length_take in H1. rewrite length_drop in H2. lia.
  - apply fmap_None, list_find_None in Ef. rewrite (proj2 (Nat.leb_le _ _)); [done|].
    rewrite Hsz, <- Hl. clear - Ef. induction Ef as [|m ms Hm _ IH]; [done|].
    unfold entries. cbn [omap list_omap length]. unfold entry_of at 1. destruct (pm_used m); [|done].
    cbn [length]. unfold entries in IH. lia.
Qed.

Lemma entries_refresh fn ms : entries (refresh_metric fn <$> ms) = prod_map id (refresh_metric fn) <$> entries ms.
Proof.
  induction ms as [|m ms IH]; [done|]. rewrite fmap_cons. unfold entries in *. cbn [omap list_omap]. rewrite IH.
  assert (Hm : entry_of (refresh_metric fn m) = prod_map id (refresh_metric fn) <$> entry_of m).
  { assert (pm_used (refresh_metric fn m) = pm_used m /\ pm_name (refresh_metric fn m) = pm_name m) as [Hu Hn].
    { unfold refresh_metric. destruct (is_bound m); [|done]. cbn [negb]. by destruct (_ || _). }
    unfold entry_of. rewrite Hu, Hn. by destruct (pm_used m). }
  rewrite Hm. by destruct (entry_of m).
Qed.

Lemma refresh_refines p :
  prom_wf p ->
  let '(r, p') := danos_prom_refresh p in
  prom_wf p' /\ g_provider p' = g_provider p /\ (r, metric_map p') = spec_prom (g_provider p) PRefresh (metric_map p).
Proof.
  intros [Hi Hl Hd]. unfold danos_prom_refresh, spec_prom. destruct (g_provider p) as [fn|] eqn:Ep; [|done].
  split; [|split; [done|]].
  - split; cbn [set_metrics g_prom_inited g_metrics]; [done|by rewrite length_fmap|].
    rewrite entries_refresh, <- list_fmap_compose. exact Hd.
  - f_equal; [|unfold metric_map; cbn [set_metrics g_metrics]; by rewrite entries_refresh, list_to_map_fmap].
    unfold metric_map. f_equal. clear Ep Hl Hi. induction (g_metrics p) as [|m ms IH]; [done|].
    unfold entries in *. cbn [omap list_omap] in *. unfold entry_of at 1 in Hd. unfold entry_of at 1.
    rewrite filter_cons. destruct (pm_used m) eqn:Eu.
    + cbn [fmap list_fmap fst] in Hd. apply NoDup_cons in Hd as [Hn Hd]. cbn [list_to_map foldr].
      assert (Hnone : (list_to_map (omap entry_of ms) : gmap bytes prom_metric_t) !! pm_name m = None)
        by (by apply not_elem_of_list_to_map_1).
      rewrite map_filter_insert. cbn [snd fst]. destruct (decide (is_bound m = true)).
      * rewrite map_size_insert_None; [cbn [length]; by rewrite IH|]. apply map_lookup_filter_None. by left.
      * rewrite delete_id by done. by apply IH.
    + rewrite decide_False by (unfold is_bound; by rewrite Eu). by apply IH.
Qed.

Lemma prom_init_wf p : prom_wf (danos_prom_init p).
Proof.
  assert (H : forall ds p, prom_wf p -> Forall (fun d : bytes * bytes * Z => (length d.1.1 < PROM_NAME_LEN)%nat) ds ->
    prom_wf (foldl (fun p d => (register_locked d.1.1 d.1.2 d.2 p).2) p ds)).
  { induction ds as [|d ds IH]; intros q Hq Hds; [done|]. inversion_clear Hds as [|?? Hd Hds']. cbn [foldl].
    apply IH; [|done]. pose proof (register_refines d.1.1 d.1.2 d.2 q Hq Hd) as Hr.
    destruct (register_locked _ _ _ q) as [r q']. apply Hr. }
  unfold danos_prom_init. apply H; [split; [reflexivity|apply length_replicate|vm_compute; constructor]|].
  refine (bool_decide_eq_true_1 _ _). vm_compute. reflexivity.
Qed.

(** C27. The table of metrics is a map: on an initialised table with names that
    fit their arrays, every operation returns what the operation on the map
    from names to metrics returns and leaves the table of the resulting map;
    a duplicate and the 129th metric are refused, and an unknown name changes
    nothing. *)
Theorem prom_table_refines_map op p :
  prom_wf p -> op_name_fits op ->
  let '(r, p') := run_prom op p in
  prom_wf p' /\ (r, metric_map p') = spec_prom (g_provider p) op (metric_map p).
Proof.
  intros Hp Hf. destruct op as [n h t|n s|n v|n d|n v|]; cbn [run_prom spec_prom].
  - unfold danos_prom_register. rewrite (pw_inited p Hp). pose proof (register_refines n h t p Hp Hf) as H.
    destruct (register_locked n h t p) as [r p']. by destruct H as (? & _ & ?).
  - destruct s as [|c s]; [done|]. rewrite bool_decide_false by done.
    pose proof (on_metric_refines (bind_metric (c :: s)) n p Hp ltac:(done)) as H. unfold on_metric in H.
    unfold danos_prom_bind_stat. destruct (find_metric_locked _ _) as [i|]; by destruct H as (? & _ & ?).
  - pose proof (on_metric_refines (set_value v) n p Hp ltac:(done)) as H. unfold danos_prom_set.
    destruct (on_metric _ _ _) as [r p']. by destruct H as (? & _ & ?).
  - pose proof (on_metric_refines (fun m => set_value (d_add (pm_value m) d) m) n p Hp ltac:(done)) as H.
    unfold danos_prom_inc. destruct (on_metric _ _ _) as [r p']. by destruct H as (? & _ & ?).
  - pose proof (on_metric_refines (observe v) n p Hp ltac:(done)) as H. unfold danos_prom_observe.
    destruct (on_metric _ _ _) as [r p']. by destruct H as (? & _ & ?).
  - pose proof (refresh_refines p Hp) as H. destruct (danos_prom_refresh p) as [r p']. by destruct H as (? & _ & ?).
Qed.

Lemma prom_table_refines_map_witness :
  let p := danos_prom_init prom_boot in
  let op := PRegister (lit "danos_extra") (lit "Extra") DANOS_METRIC_GAUGE in
  let '(r, p') := run_prom op p in
  prom_wf p' /\ (r, metric_map p') = spec_prom (g_provider p) op (metric_map p).
Proof.
  apply (prom_table_refines_map (PRegister (lit "danos_extra") (lit "Extra") DANOS_METRIC_GAUGE) (danos_prom_init prom_boot)).
  - apply prom_init_wf.
  - cbn. unfold PROM_NAME_LEN. lia.
Defined.

(** A name longer than its array is cut when it is stored and not when it is
    looked up: it is registered twice, and neither can be set. *)
Lemma long_names_repeat :
  let n := replicate 64 97 in
  let '(r1, p1) := danos_prom_register (Some n) (Some []) DANOS_METRIC_GAUGE (danos_prom_init prom_boot) in
  let '(r2, p2) := danos_prom_register (Some n) (Some []) DANOS_METRIC_GAUGE p1 in
  r1 = 0 /\ r2 = 0 /\ fst (danos_prom_set (Some n) dzero p2) = -1 /\
  pm_name <$> g_metrics p2 !! 39%nat = pm_name <$> g_metrics p2 !! 40%nat.
Proof. vm_compute. repeat split. Qed.

(** The defaults are thirty-nine. *)
Lemma default_metrics p : size (metric_map (danos_prom_init p)) = 39%nat.
Proof. vm_compute. reflexivity. Qed.

(** ** Exposition is complete *)

Definition metric_text (m : prom_metric_t) : bytes := concat (metric_lines m).

Definition metric_texts (ms : list prom_metric_t) : list bytes :=
  metric_text <$> filter (fun m => pm_used m = true) ms.

Lemma metric_texts_cons m ms :
  metric_texts (m :: ms) = if pm_used m then metric_text m :: metric_texts ms else metric_texts ms.
Proof. unfold metric_texts. rewrite filter_cons. by destruct (pm_used m). Qed.

(** The loop appends the texts of the used slots until less than 256 bytes are
    left. *)
Lemma render_loop_exact ms : forall b txt,
  tb_sized b -> tb_holds txt b -> Z.of_nat (length txt) < tb_cap b - 256 ->
  Forall (fun t => (length t <= 256)%nat) (metric_texts ms) ->
  exists b' k, render_loop ms b = Some b' /\ tb_cap b' = tb_cap b /\
    tb_holds (txt ++ concat (take k (metric_texts ms))) b' /\
    Z.of_nat (length (txt ++ concat (take k (metric_texts ms)))) < tb_cap b /\
    (k = length (metric_texts ms) \/ tb_cap b - 256 <= Z.of_nat (length (txt ++ concat (take k (metric_texts ms))))).
Proof.
  induction ms as [|m ms IH]; intros b txt Hs Hh Hn Ht.
  { exists b, 0%nat. cbn. rewrite app_nil_r. split; [done|]. split; [done|]. split; [done|]. split; [lia|by left]. }
  cbn [render_loop]. rewrite metric_texts_cons in *. destruct (pm_used m) eqn:Eu; cbn [negb]; [|by apply IH].
  inversion_clear Ht as [|?? Hm Ht']. unfold tb_sized in *.
  destruct (bprint_all_fits (metric_lines m) txt b Hs Hh) as (b1 & -> & Hc & Hh1 & _);
    [fold (metric_text m); lia|]. fold (metric_text m) in Hh1.
  cbn [mbind option_bind]. pose proof (proj1 Hh1) as Ho. rewrite length_app in Ho.
  destruct (Z.leb_spec (tb_cap b1 - 256) (tb_off b1)) as [Hfull|Hroom].
  - exists b1, 1%nat. cbn [take concat]. rewrite app_nil_r, length_app. split; [done|]. split; [done|]. split; [done|].
    split; [lia|]. right. lia.
  - destruct (IH b1 (txt ++ metric_text m)) as (b2 & k & -> & Hc2 & Hh2 & Hl2 & Hk); try done; [lia|rewrite length_app; lia|].
    exists b2, (S k). cbn [take concat length]. rewrite app_assoc. split; [done|]. split; [lia|]. split; [done|].
    split; [lia|]. destruct Hk as [->|Hk]; [by left|right; lia].
Qed.

(** The same of [danos_prom_render]: it stays in the buffer and returns the
    length of the text it made. *)
Lemma render_exact p buf :
  257 <= Z.of_nat (length buf) < 2 ^ 63 ->
  let p' := (danos_prom_refresh p).2 in
  let texts := metric_texts (g_metrics p') in
  Forall (fun t => (length t <= 256)%nat) texts ->
  exists k mem, let body := concat (take k texts) in
    danos_prom_render (Some buf) p = Some (Z.of_nat (length body), Some mem, p') /\
    take (length body) mem = body /\ (length body < length buf)%nat /\
    (k = length texts \/ (length buf <= length body + 256)%nat).
Proof.
  intros Hb p' texts Ht. destruct buf as [|c buf]; [cbn in Hb; lia|]. cbn [danos_prom_render]. fold p'.
  destruct (render_loop_exact (g_metrics p') (mk_tbuf (c :: buf) 0) []) as (b' & k & -> & Hc & Hh & Hl & Hk).
  - unfold tb_sized, tb_cap. cbn [tb_mem]. lia.
  - by split.
  - unfold tb_cap. cbn [tb_mem]. change (length ([] : bytes)) with 0%nat. lia.
  - done.
  - cbn [app] in *. destruct Hh as [Ho Hm]. fold texts in Hl, Hk, Ho, Hm. unfold tb_cap in Hl, Hk. cbn [tb_mem] in Hl, Hk.
    exists k, (tb_mem b'). cbn [mbind option_bind]. rewrite Ho. split; [done|]. split; [done|].
    split; [lia|]. destruct Hk as [->|Hk]; [by left|right; lia].
Qed.

Lemma http_ok_short blen : (length (http_ok blen) <= 255)%nat.
Proof.
  assert (Hs : (length (sdec blen) <= 21)%nat).
  { unfold sdec. pose proof (dec_length blen). pose proof (dec_length (- blen)). case_match; cbn [length]; lia. }
  unfold http_ok. rewrite !length_app. generalize dependent (sdec blen). intros s Hs. cbn. lia.
Qed.

Lemma scrape_exact p body req :
  strlen body = 16383 -> is_Some (strstr (c_str req) (lit "/metrics")) ->
  let p' := (danos_prom_refresh p).2 in
  let texts := metric_texts (g_metrics p') in
  Forall (fun t => (length t <= 256)%nat) texts -> strlen (concat texts) < 16127 -> concat texts <> [] ->
  prom_conn body (Some req) p = Some ([http_ok (strlen (concat texts)); concat texts], p').
Proof.
  intros Hb [r Hr] p' texts Ht Hn Hne. unfold strlen in Hb, Hn |- *. unfold prom_conn. rewrite Hr.
  destruct (render_exact p body ltac:(lia) Ht) as (k & mem & Hren & Hm & Hl & Hk). fold p' texts in Hren, Hm, Hl, Hk.
  assert (Ek : take k texts = texts).
  { destruct Hk as [->|Hk]; [by apply take_ge|]. exfalso.
    assert (length (concat (take k texts)) <= length (concat texts))%nat; [|lia].
    rewrite <- (take_drop k texts) at 2. rewrite concat_app, length_app. lia. }
  rewrite Ek in *. rewrite Hren. cbn [mbind option_bind]. rewrite (proj2 (Z.ltb_ge _ _)) by lia.
  rewrite (proj2 (Z.ltb_lt _ _)); [|destruct (concat texts); [done|cbn [length]; lia]].
  change (default [] (Some mem)) with mem. rewrite Nat2Z.id, Hm. by rewrite take_ge by apply http_ok_short.
Qed.

(** A scrape returns every metric: when the refreshed texts together leave
    256 bytes of the page free, a request for [/metrics] is answered with a
    header and the texts of all metrics in the order of the table, and the
    header announces exactly the bytes that follow. *)
Theorem prom_scrape_complete p body req :
  strlen body = 16383 -> is_Some (strstr (c_str req) (lit "/metrics")) ->
  let p' := (danos_prom_refresh p).2 in
  let texts := metric_texts (g_metrics p') in
  Forall (fun t => (length t <= 256)%nat) texts -> strlen (concat texts) < 16127 -> concat texts <> [] ->
  prom_conn body (Some req) p = Some ([http_ok (strlen (concat texts)); concat texts], p').
Proof. apply scrape_exact. Qed.

Lemma prom_scrape_complete_witness :
  exists page, prom_conn (zeros (Z.to_nat 16383)) (Some (lit "GET /metrics HTTP/1.1")) (danos_prom_init prom_boot) =
    Some ([http_ok (strlen page); page], danos_prom_init prom_boot) /\ strlen page = 4569.
Proof.
  exists (concat (metric_texts (g_metrics (danos_prom_refresh (danos_prom_init prom_boot)).2))).
  split; [|vm_compute; reflexivity].
  apply (prom_scrape_complete (danos_prom_init prom_boot) (zeros (Z.to_nat 16383)) (lit "GET /metrics HTTP/1.1")).
  - vm_compute. reflexivity.
  - vm_compute. eauto.
  - refine (bool_decide_eq_true_1 _ _). vm_compute. reflexivity.
  - refine (bool_decide_eq_true_1 _ _). vm_compute. reflexivity.
  - vm_compute. done.
Defined.

(** ** Counters in text *)

(** [m * 2^e] is at most [2^64]. *)
Definition le64 (m e : Z) : Prop := 0 <= m /\ e <= 64 /\ m <= 2 ^ (64 - e).

Lemma shr_1_m r : 0 <= shr_m r -> 0 <= shr_m (shr_1 r) /\ shr_m (shr_1 r) = shr_m r / 2.
Proof.
  destruct r as [[|[p|p|]|p] b1 b2]; cbn [shr_m]; intros H; try lia; rewrite <- Z.div2_div; by split.
Qed.

Lemma iter_shr p r : 0 <= shr_m r -> 0 <= shr_m (iter_pos shr_1 p r) /\ shr_m (iter_pos shr_1 p r) = shr_m r / 2 ^ Z.pos p.
Proof.
  revert r. induction p as [p IH|p IH|]; intros r Hr; cbn [iter_pos].
  - destruct (shr_1_m r Hr) as [H1 E1]. destruct (IH _ H1) as [H2 E2]. destruct (IH _ H2) as [H3 E3].
    split; [done|]. rewrite E3, E2, E1, !Z.div_div by lia. f_equal.
    replace (Z.pos p~1) with (1 + Z.pos p + Z.pos p) by lia. rewrite !Z.pow_add_r by lia. lia.
  - destruct (IH _ Hr) as [H2 E2]. destruct (IH _ H2) as [H3 E3].
    split; [done|]. rewrite E3, E2, !Z.div_div by lia. f_equal.
    replace (Z.pos p~0) with (Z.pos p + Z.pos p) by lia. rewrite !Z.pow_add_r by lia. lia.
  - apply shr_1_m, Hr.
Qed.

Lemma digits2_pos_bound p : 2 ^ (Z.pos (digits2_pos p) - 1) <= Z.pos p < 2 ^ Z.pos (digits2_pos p).
Proof.
  induction p as [p IH|p IH|]; cbn [digits2_pos]; [| |cbn; lia];
    rewrite Pos2Z.inj_succ; replace (Z.succ (Z.pos (digits2_pos p)) - 1) with (Z.succ (Z.pos (digits2_pos p) - 1)) by lia;
    rewrite !Z.pow_succ_r by lia; lia.
Qed.

Lemma digits_le m e : 0 < m -> e <= 64 -> m <= 2 ^ (64 - e) -> Zdigits2 m + e <= 65.
Proof.
  intros Hm He Hb. destruct m as [|p|p]; try lia. cbn [Zdigits2]. pose proof (digits2_pos_bound p) as [H _].
  assert (Z.pos (digits2_pos p) - 1 <= 64 - e); [|lia]. apply (Z.pow_le_mono_r_iff 2); lia.
Qed.

(** Shifting right keeps the bound, and a strict one. *)
Lemma shr_fexp_le64 m e l :
  le64 m e -> let '(r, e') := shr_fexp 53 1024 m e l in
  le64 (shr_m r) e' /\ (m < 2 ^ (64 - e) -> shr_m r < 2 ^ (64 - e')).
Proof.
  intros (H0 & He & Hb). unfold shr_fexp, shr.
  assert (Em : shr_m (shr_record_of_loc m l) = m) by (by destruct l as [|[]]).
  destruct (fexp 53 1024 (Zdigits2 m + e) - e) as [|p|p] eqn:Ep; rewrite ?Em; try done.
  destruct (iter_shr p (shr_record_of_loc m l)) as [H1 E1]; [by rewrite Em|]. rewrite Em in E1.
  assert (He' : e + Z.pos p <= 64).
  { unfold fexp, emin in Ep. destruct (Z.eq_dec m 0) as [->|Hm]; [cbn [Zdigits2] in Ep; lia|].
    pose proof (digits_le m e ltac:(lia) He Hb). lia. }
  assert (Hs : 2 ^ (64 - e) = 2 ^ Z.pos p * 2 ^ (64 - (e + Z.pos p))) by (rewrite <- Z.pow_add_r by lia; f_equal; lia).
  rewrite Hs in Hb. rewrite E1. split; [split; [by rewrite <- E1|split; [done|]]|].
  - apply Z.div_le_upper_bound; lia.
  - rewrite Hs. intros Hlt. apply Z.div_lt_upper_bound; lia.
Qed.

Lemma rne_bound m l : round_nearest_even m l <= m + 1 /\ m <= round_nearest_even m l.
Proof. destruct l as [|[]]; cbn; repeat case_match; lia. Qed.

Definition small_double (x : double) : Prop :=
  match x with S754_finite s m e => s = false /\ le64 (Z.pos m) e | S754_zero s | S754_infinity s => s = false | _ => True end.

Lemma round_aux_small m e : le64 m e -> m < 2 ^ (64 - e) -> small_double (binary_round_aux 53 1024 false m e loc_Exact).
Proof.
  intros H Hlt. unfold binary_round_aux. pose proof (shr_fexp_le64 m e loc_Exact H) as H1.
  destruct (shr_fexp 53 1024 m e loc_Exact) as [r e1]. destruct H1 as [(H10 & H1e & _) H1s]. specialize (H1s Hlt).
  pose proof (rne_bound (shr_m r) (loc_of_shr_record r)) as [Hr1 Hr2].
  pose proof (shr_fexp_le64 (round_nearest_even (shr_m r) (loc_of_shr_record r)) e1 loc_Exact
                ltac:(split; [lia|split; lia])) as H2.
  destruct (shr_fexp 53 1024 _ e1 loc_Exact) as [r2 e2]. destruct H2 as [H2 _].
  destruct (shr_m r2) as [|q|q] eqn:Eq; [done| |done]. by destruct (e2 <=? 1024 - 53).
Qed.

Lemma iter_xO p d : Z.pos (Pos.iter xO p d) = Z.pos p * 2 ^ Z.pos d.
Proof.
  induction d as [|d IH] using Pos.peano_ind; [cbn; lia|]. rewrite Pos.iter_succ, Pos2Z.inj_xO, IH, Pos2Z.inj_succ.
  rewrite Z.pow_succ_r by lia. lia.
Qed.

Lemma d_of_u64_small v : 0 <= v < 2 ^ 64 -> small_double (d_of_u64 v).
Proof.
  intros Hv. unfold d_of_u64, binary_normalize. destruct v as [|p|p]; [done| |lia].
  unfold binary_round, shl_align. pose proof (digits2_pos_bound p) as [_ Hd].
  destruct (fexp 53 1024 (Z.pos (digits2_pos p) + 0) - 0) as [|d|d] eqn:Ed;
    try (apply round_aux_small; [split_and!|]; change (64 - 0) with 64; lia).
  assert (Hsh : Z.pos (Pos.iter xO p d) = Z.pos p * 2 ^ Z.pos d) by apply iter_xO.
  assert (Hlt : Z.pos (Pos.iter xO p d) < 2 ^ (64 - fexp 53 1024 (Z.pos (digits2_pos p) + 0))).
  { replace (fexp 53 1024 (Z.pos (digits2_pos p) + 0)) with (- Z.pos d) by lia.
    replace (64 - - Z.pos d) with (64 + Z.pos d) by lia. rewrite Hsh, Z.pow_add_r by lia. nia. }
  apply round_aux_small; [split_and!; lia|done].
Qed.

Lemma dec_digits_bound fuel n k :
  0 <= n < 10 ^ Z.of_nat (S k) -> (S k <= fuel)%nat -> (length (dec_digits fuel n []) <= S k)%nat.
Proof.
  revert n k. induction fuel as [|fuel IH]; intros n k Hn Hk; [lia|]. cbn [dec_digits].
  destruct (Z.ltb_spec n 10) as [H|H]; [cbn [length]; lia|]. rewrite dec_digits_acc, length_app. cbn [length].
  destruct k as [|k]; [cbn in Hn; lia|]. specialize (IH (n / 10) k). rewrite Nat2Z.inj_succ, Z.pow_succ_r in Hn by lia.
  assert (length (dec_digits fuel (n / 10) []) <= S k)%nat; [|lia]. apply IH; [|lia].
  split; [apply Z.div_pos; lia|apply Z.div_lt_upper_bound; lia].
Qed.

Lemma div_rne_bound x d B : 0 <= x <= B * d -> 0 < d -> 0 <= div_rne x d <= B.
Proof.
  intros Hx Hd. unfold div_rne. pose proof (Z.div_pos x d ltac:(lia) Hd).
  pose proof (Z.div_mod x d ltac:(lia)) as E. pose proof (Z.mod_pos_bound x d Hd).
  repeat case_match; bool_prop; nia.
Qed.

Lemma fixed6_short n : 0 <= n <= 2 ^ 64 * 10 ^ 6 -> (length (fixed6 n) <= 27)%nat.
Proof.
  intros Hn. unfold fixed6, dec_pad. rewrite !length_app, length_replicate. cbn [length].
  assert (length (dec_digits 309 (n / 10 ^ 6) []) <= 20)%nat.
  { apply dec_digits_bound; [|lia]. split; [apply Z.div_pos; lia|apply Z.div_lt_upper_bound; lia]. }
  assert (length (dec (n mod 10 ^ 6)) <= 6)%nat; [|lia].
  apply dec_digits_bound; [|lia]. apply Z.mod_pos_bound. lia.
Qed.

(** A 64-bit counter is printed with at most twenty digits before the point. *)
Lemma counter_text v : 0 <= v < 2 ^ 64 -> (length (print_f6 (d_of_u64 v)) <= 27)%nat.
Proof.
  intros Hv. pose proof (d_of_u64_small v Hv) as H. destruct (d_of_u64 v) as [s|s| |s m e]; cbn [small_double] in H.
  - subst s. cbn [print_f6 sign_text app]. apply fixed6_short. lia.
  - subst s. cbn. lia.
  - cbn. lia.
  - destruct H as [-> (_ & He & Hm)]. cbn [print_f6 sign_text app]. apply fixed6_short. unfold millionths.
    destruct (Z.leb_spec 0 e) as [H|H].
    + split; [lia|]. replace (2 ^ 64) with (2 ^ (64 - e) * 2 ^ e) by (rewrite <- Z.pow_add_r by lia; f_equal; lia). nia.
    + apply div_rne_bound; [|lia]. rewrite <- Z.mul_assoc, (Z.mul_comm (10 ^ 6)), Z.mul_assoc, <- Z.pow_add_r by lia.
      replace (64 + - e) with (64 - e) by lia. lia.
Qed.

(** ** Where the room is not enough *)

Definition reg_gauge (p : prom) (nh : bytes * bytes) : prom :=
  (danos_prom_register (Some nh.1) (Some nh.2) DANOS_METRIC_GAUGE p).2.

Definition wide_name (i : nat) : bytes := replicate 61 97 ++ dec_pad 2 (Z.of_nat i).

(** Seventy-four metrics; most of those that are not defaults have a name and
    a help text as long as the table allows. *)
Definition wide_table : prom :=
  foldl reg_gauge (danos_prom_init prom_boot)
    (((fun i => (wide_name i, replicate 127 98)) <$> seq 0 32) ++
     [(lit "short", replicate 10 98); (replicate 63 99, replicate 100 98); (replicate 63 100, replicate 127 98)]).

(** The last of them starts while more than 256 bytes are left, is longer than
    what is left, and its value is written behind the page. *)
Lemma wide_scrape_overflows :
  Forall (fun m => (length (pm_name m) < PROM_NAME_LEN)%nat /\ (length (pm_help m) < PROM_HELP_LEN)%nat) (g_metrics wide_table) /\
  prom_conn (zeros (Z.to_nat 16383)) (Some (lit "GET /metrics HTTP/1.1")) wide_table = None.
Proof. split; [refine (bool_decide_eq_true_1 _ _); vm_compute; reflexivity|vm_compute; reflexivity]. Qed.

(** ** The log *)

(** A level set before the first message is lost with the first message. *)
Lemma log_level_lost ts msg kvs :
  g_min_level (snd (danos_log ts DANOS_LOG_ERROR (Some msg) kvs (danos_log_set_level DANOS_LOG_ERROR log_boot))) =
  DANOS_LOG_INFO.
Proof. reflexivity. Qed.

(** A quotation mark in a message ends the JSON string. *)
Lemma log_not_escaped :
  fst (danos_log (0, 0) DANOS_LOG_INFO (Some [34]) [] log_boot) =
  Some (js "{'ts':0.000000000,'component':'danos','level':'info','msg':'''}" ++ [10]).
Proof. reflexivity. Qed.
