(* ===== verification/ZebraSession.v ===== *)
(** * The zebra session: danos-fib zebra_session.c

    [g_session] with its socket.  What the peer sends until it closes is a
    list of bytes; a script says which [recv] calls are cut short or fail and
    what [send] returns, and when it runs out every call is complete.  The
    debug prints and the pacing of the registration change no state. *)

From stdpp Require Import base decidable list numbers strings.
From Stdlib Require Import ZArith Lia.
From S2P Require Import Prelude Dpa Zapi CStr.

Definition ZAPI_SOCK_PATH : string := "/var/run/frr/zserv.api".
Definition RECONNECT_INITIAL_MS : Z := 1000.
Definition RECONNECT_MAX_MS : Z := 60000.
Definition FRR_ZEBRA_HELLO : Z := 19.
Definition FRR_ZEBRA_INTERFACE_ADD : Z := 0.
Definition FRR_ZEBRA_ROUTER_ID_ADD : Z := 16.
Definition FRR_ZEBRA_REDISTRIBUTE_ADD : Z := 12.
Definition FRR_ZEBRA_REDISTRIBUTE_DEFAULT_ADD : Z := 14.

Inductive zebra_session_state_t :=
  | ZEBRA_SESSION_DISCONNECTED | ZEBRA_SESSION_CONNECTING | ZEBRA_SESSION_CONNECTED.

#[export] Instance zebra_state_eq_dec : EqDecision zebra_session_state_t.
Proof. solve_decision. Defined.

Record zebra_session_t := mk_zsession {
  zs_fd : Z;
  zs_state : zebra_session_state_t;
  zs_sock_path : bytes;
  zs_last_connect_ns : Z;
  zs_reconnect_delay_ms : Z;
  zs_messages_received : Z;
  zs_reconnect_count : Z;
}.

(** A [recv] with [MSG_WAITALL] that waits for everything, is interrupted
    after some bytes, or fails. *)
Inductive zrecv := ZFull | ZPart (k : nat) | ZErr.

(** The socket: what the peer still sends, the answers to [recv], the bytes
    written and the answers to [send]. *)
Record zsock := mk_zsock {
  zk_in : bytes;
  zk_recv : list zrecv;
  zk_out : bytes;
  zk_send : list Z;
}.

(** [g_session], [g_initialized] and the socket. *)
Record zstate := mk_zstate {
  z_session : zebra_session_t;
  z_initialized : bool;
  z_sock : zsock;
}.

Definition with_session (s : zebra_session_t) (z : zstate) : zstate := mk_zstate s (z_initialized z) (z_sock z).
Definition with_sock (k : zsock) (z : zstate) : zstate := mk_zstate (z_session z) (z_initialized z) k.

(** The result and the bytes of a [recv] of [n] bytes. *)
Definition z_recv (n : nat) (k : zsock) : Z * bytes * zsock :=
  let '(a, rest) := match zk_recv k with [] => (ZFull, []) | a :: l => (a, l) end in
  match a with
  | ZErr => (-1, [], mk_zsock (zk_in k) rest (zk_out k) (zk_send k))
  | _ =>
      let m := match a with ZPart m => Nat.min (S m) n | _ => n end in
      (Z.of_nat (length (take m (zk_in k))), take m (zk_in k),
       mk_zsock (drop m (zk_in k)) rest (zk_out k) (zk_send k))
  end.

Definition z_send (data : bytes) (k : zsock) : Z * zsock :=
  let '(a, rest) := match zk_send k with [] => (strlen data, []) | a :: l => (Z.min a (strlen data), l) end in
  (a, mk_zsock (zk_in k) (zk_recv k) (zk_out k ++ take (Z.to_nat a) data) rest).

(** ** Endpoints *)

Fixpoint split_last_colon (s : bytes) : option (bytes * bytes) :=
  match s with
  | [] => None
  | c :: s =>
      match split_last_colon s with
      | Some (a, b) => Some (c :: a, b)
      | None => if c =? 58 then Some ([], s) else None
      end
  end.

(** What the system answers: the addresses of [getaddrinfo] with what
    [socket] returns for each and whether [connect] succeeds, and the same
    for the Unix socket. *)
Record dial := mk_dial {
  dl_addrs : bytes -> bytes -> option (list (Z * bool));
  dl_unix : Z * bool;
}.

Fixpoint try_addrs (l : list (Z * bool)) : Z :=
  match l with
  | [] => -1
  | (fd, connected) :: l => if (0 <=? fd) && connected then fd else try_addrs l
  end.

Definition connect_zebra_endpoint (d : dial) (endpoint : bytes) : Z :=
  if is_prefix (lit "tcp://") endpoint then
    match split_last_colon (drop 6 endpoint) with
    | None | Some ([], _) | Some (_, []) => -1
    | Some (name, service) =>
        if (128 <=? length name)%nat || (16 <=? length service)%nat then -1 else
        match dl_addrs d name service with
        | None => -1
        | Some l => try_addrs l
        end
    end
  else
    let '(fd, connected) := dl_unix d in
    if fd <? 0 then -1
    else if (108 <=? length endpoint)%nat then -1
    else if negb connected then -1
    else fd.

(** ** Lifecycle *)

Definition danos_zebra_session_init (z : zstate) : zstate :=
  mk_zstate (mk_zsession (-1) ZEBRA_SESSION_DISCONNECTED (lit ZAPI_SOCK_PATH) 0 RECONNECT_INITIAL_MS 0 0) true (z_sock z).

Definition ensure_init (z : zstate) : zstate := if z_initialized z then z else danos_zebra_session_init z.

Definition danos_zebra_session_set_socket (path : option bytes) (z : zstate) : Z * zstate :=
  match path with
  | None | Some [] => (-1, z)
  | Some path =>
      if (256 <=? length path)%nat then (-1, z) else
      let z := ensure_init z in
      let s := z_session z in
      (0, with_session (mk_zsession (zs_fd s) (zs_state s) path (zs_last_connect_ns s) (zs_reconnect_delay_ms s)
                          (zs_messages_received s) (zs_reconnect_count s)) z)
  end.

(** [k] is the socket a successful dial gives. *)
Definition danos_zebra_session_connect (d : dial) (now : Z) (k : zsock) (z : zstate) : Z * zstate :=
  let z := ensure_init z in
  let s := z_session z in
  let fd := connect_zebra_endpoint d (zs_sock_path s) in
  if fd <? 0 then
    (-1, with_session (mk_zsession (-1) ZEBRA_SESSION_DISCONNECTED (zs_sock_path s) (zs_last_connect_ns s)
                         (zs_reconnect_delay_ms s) (zs_messages_received s) (zs_reconnect_count s)) z)
  else
    (0, with_sock k (with_session (mk_zsession fd ZEBRA_SESSION_CONNECTED (zs_sock_path s) now
                       RECONNECT_INITIAL_MS (zs_messages_received s) (zs_reconnect_count s)) z)).

Definition danos_zebra_session_disconnect (z : zstate) : zstate :=
  let s := z_session z in
  with_session (mk_zsession (if 0 <=? zs_fd s then -1 else zs_fd s) ZEBRA_SESSION_DISCONNECTED (zs_sock_path s)
                  (zs_last_connect_ns s) (zs_reconnect_delay_ms s) (zs_messages_received s) (zs_reconnect_count s)) z.

Definition danos_zebra_session_reconnect (d : dial) (now now' : Z) (k : zsock) (z : zstate) : Z * zstate :=
  let s := z_session z in
  if u64 (now - zs_last_connect_ns s) / 1000000 <? zs_reconnect_delay_ms s then (-1, z) else
  let s := mk_zsession (zs_fd s) (zs_state s) (zs_sock_path s) (zs_last_connect_ns s) (zs_reconnect_delay_ms s)
             (zs_messages_received s) (u64 (zs_reconnect_count s + 1)) in
  let '(rc, z) := danos_zebra_session_connect d now' k (with_session s z) in
  if rc =? 0 then (0, z) else
  let s := z_session z in
  let delay := u32 (zs_reconnect_delay_ms s * 2) in
  (-1, with_session (mk_zsession (zs_fd s) (zs_state s) (zs_sock_path s) now
                       (if RECONNECT_MAX_MS <? delay then RECONNECT_MAX_MS else delay)
                       (zs_messages_received s) (zs_reconnect_count s)) z).

Definition danos_zebra_session_get_state (z : zstate) : zebra_session_state_t := zs_state (z_session z).
Definition danos_zebra_session_get_msg_count (z : zstate) : Z := zs_messages_received (z_session z).

(** ** Registration *)

(** The environment variables the registration reads. *)
Record zenv := mk_zenv {
  ze_route_types : option bytes;
  ze_reg_stage : option bytes;
  ze_hello_only : option bytes;
  ze_redistribute_default : bool;
}.

(** [n] is the capacity that is left. *)
Fixpoint route_types_loop (n : nat) (value : bytes) : list Z :=
  match n, value with
  | S n, _ :: _ =>
      let '(v, rest) := strtoul value in
      if (length rest =? length value)%nat || (255 <? v) then [] else
      v :: match rest with
           | c :: rest => if c =? 44 then route_types_loop n rest else []
           | [] => []
           end
  | _, _ => []
  end.

Definition registration_route_types (e : zenv) (capacity : nat) : list Z :=
  match ze_route_types e with None => [] | Some value => route_types_loop capacity value end.

(** A frame: the common header for VRF 0, the command and its payload. *)
Definition frr_frame (command : Z) (payload : bytes) : bytes :=
  be_bytes 2 (Z.of_nat (FRR_ZAPI_HEADER_SIZE + length payload)) ++ [FRR_ZAPI_MARKER; ZAPI_VERSION] ++
  be_bytes 4 0 ++ be_bytes 2 command ++ payload.

Definition hello_frame (protocol instance : Z) : bytes :=
  frr_frame FRR_ZEBRA_HELLO ([protocol] ++ be_bytes 2 instance ++ be_bytes 4 0 ++ [0]).
Definition router_id_frame : bytes := frr_frame FRR_ZEBRA_ROUTER_ID_ADD (be_bytes 2 1).
Definition interface_frame : bytes := frr_frame FRR_ZEBRA_INTERFACE_ADD [].
Definition redistribute_frame (type : Z) : bytes := frr_frame FRR_ZEBRA_REDISTRIBUTE_ADD ([1; type] ++ [0; 0]).
Definition default_frame : bytes := frr_frame FRR_ZEBRA_REDISTRIBUTE_DEFAULT_ADD [1].

(** The loop that sends the hello: each turn sends at least one byte. *)
Fixpoint send_hello (fuel : nat) (msg : bytes) (k : zsock) : bool * zsock :=
  match fuel, msg with
  | _, [] => (true, k)
  | O, _ => (false, k)
  | S fuel, _ =>
      let '(n, k) := z_send msg k in
      if n <=? 0 then (false, k) else send_hello fuel (drop (Z.to_nat n) msg) k
  end.

(** The frames behind the hello: one [send] each, which has to be complete. *)
Fixpoint send_frames (frames : list bytes) (k : zsock) : Z * zsock :=
  match frames with
  | [] => (0, k)
  | f :: frames =>
      let '(n, k) := z_send f k in
      if negb (n =? strlen f) then (-1, k) else send_frames frames k
  end.

Definition hello_only (e : zenv) : bool :=
  match ze_hello_only e with
  | None | Some [] => false
  | Some s => negb (bool_decide (s = lit "0"))
  end.

Definition reg_stage (e : zenv) : Z :=
  match ze_reg_stage e with None | Some [] => 0 | Some s => fst (strtoul s) end.

(** The frames the stage asks for. *)
Definition later_frames (e : zenv) : list bytes :=
  if hello_only e || (reg_stage e =? 1) then []
  else if reg_stage e =? 2 then [router_id_frame]
  else if reg_stage e =? 3 then [router_id_frame; interface_frame]
  else [router_id_frame; interface_frame] ++ (redistribute_frame <$> registration_route_types e 16) ++
       (if ze_redistribute_default e then [default_frame] else []).

Definition danos_zebra_session_register (e : zenv) (protocol instance : Z) (z : zstate) : Z * zstate :=
  if negb (bool_decide (zs_state (z_session z) = ZEBRA_SESSION_CONNECTED)) then (-1, z) else
  let msg := hello_frame protocol instance in
  let '(ok, k) := send_hello (length msg) msg (z_sock z) in
  if negb ok then (-1, danos_zebra_session_disconnect (with_sock k z)) else
  let '(rc, k) := send_frames (later_frames e) k in
  (rc, with_sock k z).

(** ** Receiving *)

(** Bytes received into the caller's buffer at an offset. *)
Definition recv_at (off n : nat) (buf : bytes) (k : zsock) : Z * bytes * zsock :=
  let '(r, bs, k) := z_recv n k in (r, cwrite buf off bs, k).

Definition count_message (z : zstate) : zstate :=
  let s := z_session z in
  with_session (mk_zsession (zs_fd s) (zs_state s) (zs_sock_path s) (zs_last_connect_ns s) (zs_reconnect_delay_ms s)
                  (u64 (zs_messages_received s + 1)) (zs_reconnect_count s)) z.

(** The result, the buffer, [out] and the session. *)
Definition recv_result : Type := Z * bytes * option zapi_message * zstate.

Definition danos_zebra_session_recv (buf : bytes) (out : option zapi_message) (z : zstate) : recv_result :=
  if negb (bool_decide (zs_state (z_session z) = ZEBRA_SESSION_CONNECTED)) then (-1, buf, out, z)
  else if (length buf <? ZAPI_HEADER_SIZE)%nat then (-2, buf, out, z) else
  let '(n, buf, k) := recv_at 0 ZAPI_HEADER_SIZE buf (z_sock z) in
  let z := with_sock k z in
  if n <=? 0 then (0, buf, out, danos_zebra_session_disconnect z)
  else if negb (n =? Z.of_nat ZAPI_HEADER_SIZE) then (-3, buf, out, z) else
  let '(rc, out) := zapi_parse (Some (take ZAPI_HEADER_SIZE buf)) out in
  if negb (rc =? 0) then (-4, buf, out, z) else
  let total := match out with Some m => zh_length (zm_header m) | None => 0 end in
  if Z.of_nat (length buf) <? total then (-5, buf, out, z) else
  let remaining := (Z.to_nat total - ZAPI_HEADER_SIZE)%nat in
  let '(n, buf, k) := if (0 <? remaining)%nat then recv_at ZAPI_HEADER_SIZE remaining buf (z_sock z)
                      else (1, buf, z_sock z) in
  let z := with_sock k z in
  if n <=? 0 then (0, buf, out, danos_zebra_session_disconnect z) else
  let '(rc, out) := zapi_parse (Some (take (Z.to_nat total) buf)) out in
  if negb (rc =? 0) then (-6, buf, out, z) else (total, buf, out, count_message z).

(** What [poll] reports: readable, nothing within the time, interrupted,
    failed, or an error condition of the socket. *)
Inductive zpoll := PollReady | PollTimeout | PollIntr | PollFail | PollHup.

#[export] Instance zpoll_eq_dec : EqDecision zpoll.
Proof. solve_decision. Defined.

Definition danos_zebra_session_recv_frr (p : zpoll) (buf : bytes) (out : option zapi_message) (z : zstate) : recv_result :=
  if negb (bool_decide (zs_state (z_session z) = ZEBRA_SESSION_CONNECTED)) then (-1, buf, out, z)
  else if (length buf <? FRR_ZAPI_HEADER_SIZE)%nat then (-2, buf, out, z) else
  match p with
  | PollTimeout | PollIntr => (0, buf, out, z)
  | PollFail => (-3, buf, out, z)
  | PollHup => (0, buf, out, danos_zebra_session_disconnect z)
  | PollReady =>
      let '(n, buf, k) := recv_at 0 FRR_ZAPI_HEADER_SIZE buf (z_sock z) in
      let z := with_sock k z in
      if n <=? 0 then (0, buf, out, danos_zebra_session_disconnect z)
      else if negb (n =? Z.of_nat FRR_ZAPI_HEADER_SIZE) then (-3, buf, out, z) else
      let total := be_val (cread buf 0 2) in
      if (total <? Z.of_nat FRR_ZAPI_HEADER_SIZE) || (Z.of_nat (length buf) <? total) then (-4, buf, out, z) else
      let remaining := (Z.to_nat total - FRR_ZAPI_HEADER_SIZE)%nat in
      let '(n, buf, k) := if (0 <? remaining)%nat then recv_at FRR_ZAPI_HEADER_SIZE remaining buf (z_sock z)
                          else (Z.of_nat remaining, buf, z_sock z) in
      let z := with_sock k z in
      if (0 <? remaining)%nat && (n <=? 0) then (0, buf, out, danos_zebra_session_disconnect z)
      else if negb (n =? Z.of_nat remaining) then (-5, buf, out, z) else
      let '(rc, out) := zapi_parse_frr (Some (take (Z.to_nat total) buf)) out in
      if negb (rc =? 0) then (-6, buf, out, z) else (total, buf, out, count_message z)
  end.

(** ** Framing *)

(** A frame zebra sends. *)
Record frr_msg := mk_frr_msg { fm_vrf : Z; fm_command : Z; fm_payload : bytes }.

Definition fm_total (m : frr_msg) : nat := (FRR_ZAPI_HEADER_SIZE + length (fm_payload m))%nat.

Definition fm_header (m : frr_msg) : bytes :=
  be_bytes 2 (Z.of_nat (fm_total m)) ++ [FRR_ZAPI_MARKER] ++ [ZAPI_VERSION] ++ be_bytes 4 (fm_vrf m) ++
  be_bytes 2 (fm_command m).

Definition fm_bytes (m : frr_msg) : bytes := fm_header m ++ fm_payload m.

(** What [zapi_parse_frr] makes of it. *)
Definition fm_parsed (m : frr_msg) : zapi_message :=
  mk_zmsg (mk_zhdr (Z.of_nat (fm_total m)) FRR_ZAPI_MARKER ZAPI_VERSION (fm_command m)) (fm_payload m)
    (length (fm_payload m)) (fm_vrf m).

Record fm_ok (size : nat) (m : frr_msg) : Prop := {
  fo_vrf : is_uint 4 (fm_vrf m);
  fo_command : is_uint 2 (fm_command m);
  fo_total : Z.of_nat (fm_total m) < 2 ^ 16;
  fo_size : (fm_total m <= size)%nat;
}.

Lemma length_fm_header m : length (fm_header m) = FRR_ZAPI_HEADER_SIZE.
Proof. unfold fm_header. by rewrite !length_app, !length_be_bytes. Qed.

Lemma length_fm_bytes m : length (fm_bytes m) = fm_total m.
Proof. unfold fm_bytes. by rewrite length_app, length_fm_header. Qed.

Lemma fm_length_field m t : Z.of_nat (fm_total m) < 2 ^ 16 -> be_val (cread (fm_header m ++ t) 0 2) = Z.of_nat (fm_total m).
Proof.
  intros Ht. unfold fm_header. rewrite <- !app_assoc, cread_here by apply length_be_bytes.
  apply be_val_be_bytes. change (256 ^ Z.of_nat 2) with (2 ^ 16). lia.
Qed.

Lemma cread_mid (a b c : bytes) off n : length a = off -> length b = n -> cread (a ++ b ++ c) off n = b.
Proof. intros <- <-. rewrite cread_skip, Nat.sub_diag by lia. by apply cread_here. Qed.

Lemma fm_parse size m out :
  fm_ok size m -> zapi_parse_frr (Some (fm_bytes m)) (Some out) = (0, Some (fm_parsed m)).
Proof.
  intros [Hv Hc Ht _]. unfold zapi_parse_frr. rewrite length_fm_bytes.
  rewrite (proj2 (Nat.ltb_ge _ _)) by (unfold fm_total; lia).
  rewrite (fm_length_field m (fm_payload m) Ht : be_val (cread (fm_bytes m) 0 2) = _).
  rewrite (proj2 (Z.ltb_ge _ _)) by (unfold fm_total; lia). rewrite Z.ltb_irrefl. cbn [orb].
  assert (Hd : drop FRR_ZAPI_HEADER_SIZE (fm_bytes m) = fm_payload m)
    by (apply drop_app_length'; by rewrite length_fm_header).
  rewrite Hd. unfold fm_bytes, fm_header. set (l := be_bytes 2 (Z.of_nat (fm_total m))).
  set (v := be_bytes 4 (fm_vrf m)). set (c := be_bytes 2 (fm_command m)). rewrite <- !app_assoc.
  rewrite (cread_mid l [FRR_ZAPI_MARKER]) by (rewrite ?length_be_bytes; reflexivity).
  rewrite (app_assoc l [FRR_ZAPI_MARKER]), (cread_mid (l ++ _) [ZAPI_VERSION]) by reflexivity.
  rewrite (app_assoc (l ++ _) [ZAPI_VERSION]), (cread_mid _ v _ 4 4) by reflexivity.
  rewrite (app_assoc _ v), (cread_mid _ c _ 8 2) by reflexivity.
  change (be_val [FRR_ZAPI_MARKER]) with FRR_ZAPI_MARKER. change (be_val [ZAPI_VERSION]) with ZAPI_VERSION.
  subst l v c.
  rewrite !Z.eqb_refl. cbn [negb orb]. rewrite !be_val_be_bytes by done.
  unfold fm_parsed. do 3 f_equal. unfold fm_total, FRR_ZAPI_HEADER_SIZE. lia.
Qed.

(** ** Receiving a stream *)

(** A connected session whose socket is not interrupted. *)
Record streaming (z : zstate) : Prop := {
  st_connected : zs_state (z_session z) = ZEBRA_SESSION_CONNECTED;
  st_calm : zk_recv (z_sock z) = [];
}.

Lemma recv_at_calm off n buf k :
  zk_recv k = [] -> (n <= length (zk_in k))%nat ->
  recv_at off n buf k =
    (Z.of_nat n, cwrite buf off (take n (zk_in k)), mk_zsock (drop n (zk_in k)) [] (zk_out k) (zk_send k)).
Proof.
  intros Hk Hn. unfold recv_at, z_recv. rewrite Hk. rewrite length_take. by rewrite Nat.min_l by lia.
Qed.

Lemma cwrite_here (src buf : bytes) : cwrite buf 0 src = src ++ drop (length src) buf.
Proof. reflexivity. Qed.

Lemma cwrite_behind (a src b : bytes) : cwrite (a ++ b) (length a) src = a ++ src ++ drop (length src) b.
Proof.
  unfold cwrite. rewrite take_app_length. rewrite drop_app_ge by lia. do 3 f_equal. lia.
Qed.

Lemma recv_frr_frame m rest buf out z :
  streaming z -> fm_ok (length buf) m -> zk_in (z_sock z) = fm_bytes m ++ rest ->
  exists buf', danos_zebra_session_recv_frr PollReady buf (Some out) z =
    (Z.of_nat (fm_total m), buf', Some (fm_parsed m),
     count_message (with_sock (mk_zsock rest [] (zk_out (z_sock z)) (zk_send (z_sock z))) z)) /\
    length buf' = length buf.
Proof.
  intros [Hc Hk] Hm Hin. pose proof Hm as [_ _ Ht Hs]. unfold danos_zebra_session_recv_frr.
  rewrite bool_decide_eq_true_2 by done. cbn [negb].
  assert (Hh : (FRR_ZAPI_HEADER_SIZE <= fm_total m)%nat) by (unfold fm_total; lia).
  rewrite (proj2 (Nat.ltb_ge _ _)) by lia.
  rewrite recv_at_calm; [|done|rewrite Hin, length_app, length_fm_bytes; lia].
  assert (H1 : take FRR_ZAPI_HEADER_SIZE (zk_in (z_sock z)) = fm_header m).
  { rewrite Hin. unfold fm_bytes. rewrite <- app_assoc. apply take_app_length'; by rewrite length_fm_header. }
  assert (H2 : drop FRR_ZAPI_HEADER_SIZE (zk_in (z_sock z)) = fm_payload m ++ rest).
  { rewrite Hin. unfold fm_bytes. rewrite <- app_assoc. apply drop_app_length'; by rewrite length_fm_header. }
  rewrite H1, H2, cwrite_here, length_fm_header. set (tail := drop FRR_ZAPI_HEADER_SIZE buf).
  change (Z.of_nat FRR_ZAPI_HEADER_SIZE <=? 0) with false. cbv iota. rewrite Z.eqb_refl. cbn [negb].
  rewrite fm_length_field by done.
  assert (Hl : length (fm_header m ++ tail) = length buf).
  { rewrite length_app, length_fm_header. subst tail. rewrite length_drop. lia. }
  rewrite Hl, (proj2 (Z.ltb_ge _ _)), (proj2 (Z.ltb_ge _ _)) by lia. cbn [orb]. rewrite Nat2Z.id.
  replace (fm_total m - FRR_ZAPI_HEADER_SIZE)%nat with (length (fm_payload m)) by (unfold fm_total; lia).
  cbn [z_sock with_sock].
  assert (Hr : (if (0 <? length (fm_payload m))%nat
                then recv_at FRR_ZAPI_HEADER_SIZE (length (fm_payload m)) (fm_header m ++ tail)
                       (mk_zsock (fm_payload m ++ rest) [] (zk_out (z_sock z)) (zk_send (z_sock z)))
                else (Z.of_nat (length (fm_payload m)), fm_header m ++ tail,
                      mk_zsock (fm_payload m ++ rest) [] (zk_out (z_sock z)) (zk_send (z_sock z)))) =
    (Z.of_nat (length (fm_payload m)), fm_bytes m ++ drop (length (fm_payload m)) tail,
     mk_zsock rest [] (zk_out (z_sock z)) (zk_send (z_sock z)))).
  { unfold fm_bytes. destruct (fm_payload m) as [|b p] eqn:Hp; [cbn [length Nat.ltb Nat.leb drop]; by rewrite app_nil_r|].
    rewrite <- Hp. rewrite (proj2 (Nat.ltb_lt _ _)) by (rewrite Hp; cbn; lia).
    rewrite recv_at_calm by (cbn [zk_in zk_recv]; rewrite ?length_app; lia || done). cbn [zk_in zk_out zk_send].
    rewrite take_app_length, drop_app_length, <- (length_fm_header m), cwrite_behind. by rewrite <- app_assoc. }
  rewrite Hr. clear Hr. cbn [with_sock z_session z_initialized z_sock].
  replace ((0 <? length (fm_payload m))%nat && (Z.of_nat (length (fm_payload m)) <=? 0)) with false.
  2: { symmetry. apply andb_false_iff. destruct (length (fm_payload m)) eqn:E; [by left|right]. apply Z.leb_gt. lia. }
  rewrite Z.eqb_refl. cbn [negb]. rewrite take_app_length' by (by rewrite length_fm_bytes).
  rewrite (fm_parse _ _ out Hm). change (0 =? 0) with true. cbn [negb].
  eexists. split; [reflexivity|]. rewrite length_app, length_fm_bytes, length_drop.
  rewrite length_app, length_fm_header in Hl. unfold fm_total in *. lia.
Qed.

(** The client's loop, one call for each answer of [poll]: the calls that
    returned a message, with their results. *)
Fixpoint receive (ps : list zpoll) (buf : bytes) (out : zapi_message) (z : zstate) : list (Z * zapi_message) * zstate :=
  match ps with
  | [] => ([], z)
  | p :: ps =>
      let '(r, buf, m, z) := danos_zebra_session_recv_frr p buf (Some out) z in
      let out := default out m in
      let '(l, z) := receive ps buf out z in
      (if 0 <? r then (r, out) :: l else l, z)
  end.

(** How often [poll] reports a readable socket before it reports a hang-up,
    and whether it does report one. *)
Fixpoint ready_polls (ps : list zpoll) : nat :=
  match ps with
  | [] | PollHup :: _ => 0
  | PollReady :: ps => S (ready_polls ps)
  | _ :: ps => ready_polls ps
  end.

Definition hangs_up (ps : list zpoll) : bool := bool_decide (PollHup ∈ ps).

Lemma streaming_next k z : streaming z -> zk_recv k = [] -> streaming (count_message (with_sock k z)).
Proof. intros [H1 H2] Hk. by split. Qed.

Lemma recv_frr_closed buf out z :
  streaming z -> (FRR_ZAPI_HEADER_SIZE <= length buf)%nat -> zk_in (z_sock z) = [] ->
  exists z', danos_zebra_session_recv_frr PollReady buf out z = (0, buf, out, z') /\
    zs_state (z_session z') = ZEBRA_SESSION_DISCONNECTED /\
    zs_messages_received (z_session z') = zs_messages_received (z_session z).
Proof.
  intros [Hc Hk] Hl Hin. unfold danos_zebra_session_recv_frr. rewrite bool_decide_eq_true_2 by done. cbn [negb].
  rewrite (proj2 (Nat.ltb_ge _ _)) by done. unfold recv_at, z_recv. rewrite Hk, Hin.
  change (take FRR_ZAPI_HEADER_SIZE []) with (@nil Z). cbn [length Z.of_nat].
  change (0 <=? 0) with true. cbv iota. eexists. split; [reflexivity|done].
Qed.

Lemma recv_frr_down p buf out z :
  zs_state (z_session z) = ZEBRA_SESSION_DISCONNECTED ->
  danos_zebra_session_recv_frr p buf out z = (-1, buf, out, z).
Proof. intros Hd. unfold danos_zebra_session_recv_frr. by rewrite bool_decide_eq_false_2 by (by rewrite Hd). Qed.

Lemma receive_down ps buf out z :
  zs_state (z_session z) = ZEBRA_SESSION_DISCONNECTED -> receive ps buf out z = ([], z).
Proof.
  intros Hd. revert buf out. induction ps as [|p ps IH]; intros buf out; [done|]. cbn [receive].
  rewrite recv_frr_down by done. change (0 <? -1) with false. by rewrite IH.
Qed.

(** A call that finds nothing to read leaves the session as it is. *)
Lemma recv_frr_idle p buf out z :
  streaming z -> (FRR_ZAPI_HEADER_SIZE <= length buf)%nat -> p <> PollReady -> p <> PollHup ->
  exists r, danos_zebra_session_recv_frr p buf out z = (r, buf, out, z) /\ r <= 0.
Proof.
  intros [Hc _] Hl Hr Hh. unfold danos_zebra_session_recv_frr. rewrite bool_decide_eq_true_2 by done. cbn [negb].
  rewrite (proj2 (Nat.ltb_ge _ _)) by done. destruct p; try done; eexists; (split; [reflexivity|lia]).
Qed.

Lemma recv_frr_hup buf out z :
  streaming z -> (FRR_ZAPI_HEADER_SIZE <= length buf)%nat ->
  danos_zebra_session_recv_frr PollHup buf out z = (0, buf, out, danos_zebra_session_disconnect z).
Proof.
  intros [Hc _] Hl. unfold danos_zebra_session_recv_frr. rewrite bool_decide_eq_true_2 by done. cbn [negb].
  by rewrite (proj2 (Nat.ltb_ge _ _)) by done.
Qed.

Lemma hangs_up_cons p ps : p <> PollHup -> hangs_up (p :: ps) = hangs_up ps.
Proof. intros Hp. apply bool_decide_ext. rewrite elem_of_cons. naive_solver. Qed.

(** What the calls leave: the frames behind the delivered ones, or a closed
    session. *)
Record received (ps : list zpoll) (ms : list frr_msg) (z z' : zstate) : Prop := {
  rd_state : danos_zebra_session_get_state z' =
    if hangs_up ps || (length ms <? ready_polls ps)%nat then ZEBRA_SESSION_DISCONNECTED else ZEBRA_SESSION_CONNECTED;
  rd_rest : danos_zebra_session_get_state z' = ZEBRA_SESSION_CONNECTED ->
    zk_in (z_sock z') = mjoin (fm_bytes <$> drop (ready_polls ps) ms);
  rd_count : danos_zebra_session_get_msg_count z' =
    danos_zebra_session_get_msg_count z + Z.of_nat (length (take (ready_polls ps) ms));
}.

(** C13. The session delivers zebra's messages up to the first hang-up: on a
    connected socket whose peer sends any sequence of FRR frames that fit the
    buffer, with no receive call interrupted in the middle of a frame, and for
    every sequence of answers of [poll], the calls of
    [danos_zebra_session_recv_frr] return, in order and nothing else, the
    first [k] frames with their table, command and payload, where [k] is the
    number of times [poll] reports a readable socket before it reports a
    hang-up; time-outs, interruptions and failures of [poll] lose nothing.
    After a hang-up, or after reading the end of the stream, the session is
    disconnected and frames that were not read are lost; otherwise it is
    connected and they are the next ones. *)
Theorem frr_stream_delivered ps ms buf out z :
  streaming z -> (FRR_ZAPI_HEADER_SIZE <= length buf)%nat -> Forall (fm_ok (length buf)) ms ->
  zk_in (z_sock z) = mjoin (fm_bytes <$> ms) ->
  zs_messages_received (z_session z) + Z.of_nat (length ms) < 2 ^ 64 -> 0 <= zs_messages_received (z_session z) ->
  exists z', receive ps buf out z =
      ((fun m => (Z.of_nat (fm_total m), fm_parsed m)) <$> take (ready_polls ps) ms, z') /\
    received ps ms z z'.
Proof.
  revert ms buf out z. induction ps as [|p ps IH]; intros ms buf out z Hs Hb Hm Hin Hn H0.
  { exists z. split; [done|]. destruct Hs as [Hc _]. split; [done|by rewrite drop_0|cbn [ready_polls]; rewrite take_0; cbn [length Z.of_nat]; lia]. }
  destruct (decide (p = PollReady)) as [->|Hr]; [|destruct (decide (p = PollHup)) as [->|Hh]].
  - destruct ms as [|m ms].
    + destruct (recv_frr_closed buf (Some out) z Hs Hb Hin) as (z' & Hr & Hd & Hc).
      exists z'. cbn [receive]. rewrite Hr. cbn [default from_option id Z.ltb Z.compare]. rewrite receive_down by done.
      split; [done|]. split.
      * unfold danos_zebra_session_get_state. rewrite Hd. cbn [length ready_polls Nat.ltb Nat.leb]. by rewrite orb_true_r.
      * unfold danos_zebra_session_get_state. by rewrite Hd.
      * unfold danos_zebra_session_get_msg_count. cbn. lia.
    + inversion Hm as [|? ? Hm1 Hms]; subst. cbn [fmap list_fmap mjoin list_join] in Hin.
      destruct (recv_frr_frame m _ buf out z Hs Hm1 Hin) as (buf' & Hr & Hl).
      set (z1 := count_message _) in Hr. cbn [length] in Hn.
      assert (Hc1 : zs_messages_received (z_session z1) = zs_messages_received (z_session z) + 1).
      { unfold z1. cbn. apply u64_small. unfold is_u64. lia. }
      destruct (IH ms buf' (fm_parsed m) z1) as (z' & Hr' & [R1 R2 R3]);
        [by apply streaming_next|by rewrite Hl|by rewrite Hl|done|lia|lia|].
      exists z'. cbn [receive]. rewrite Hr. cbn [default from_option id]. rewrite Hr'.
      rewrite (proj2 (Z.ltb_lt _ _)) by (unfold fm_total, FRR_ZAPI_HEADER_SIZE; lia).
      split; [done|]. split; [|done|].
      * by rewrite R1, hangs_up_cons.
      * unfold danos_zebra_session_get_msg_count in *. cbn [ready_polls firstn length]. lia.
  - exists (danos_zebra_session_disconnect z). cbn [receive]. rewrite recv_frr_hup by done.
    cbn [default from_option id Z.ltb Z.compare]. rewrite receive_down by done. split; [done|]. split; [|done|cbn [ready_polls]; rewrite take_0; cbn [length Z.of_nat]; unfold danos_zebra_session_get_msg_count; cbn; lia].
    unfold hangs_up. by rewrite bool_decide_eq_true_2 by (apply elem_of_cons; by left).
  - destruct (recv_frr_idle p buf (Some out) z Hs Hb Hr Hh) as (r & Hi & Hr0).
    destruct (IH ms buf out z Hs Hb Hm Hin Hn H0) as (z' & Hr' & [R1 R2 R3]).
    assert (Hp : ready_polls (p :: ps) = ready_polls ps) by (by destruct p).
    exists z'. cbn [receive]. rewrite Hi. cbn [default from_option id]. rewrite Hr', Hp, (proj2 (Z.ltb_ge _ _)) by lia.
    split; [done|]. split; rewrite ?Hp; try done. by rewrite R1, hangs_up_cons.
Qed.

Lemma parse_bare_header hd out m :
  (length hd <= ZAPI_HEADER_SIZE)%nat -> zapi_parse (Some hd) (Some out) = (0, m) ->
  exists m', m = Some m' /\ zh_length (zm_header m') = 9 /\ zm_payload_size m' = 0%nat.
Proof.
  intros Hlen Hp. unfold zapi_parse in Hp. destruct (length hd <? _)%nat; [done|].
  destruct (Z.ltb_spec (be_val (cread hd 0 4)) (Z.of_nat ZAPI_HEADER_SIZE)); [done|].
  destruct (Z.ltb_spec (Z.of_nat (length hd)) (be_val (cread hd 0 4))); [done|].
  repeat (destruct (negb _) in Hp; [done|]). injection Hp as <-. eexists. split; [reflexivity|]. cbn.
  unfold ZAPI_HEADER_SIZE in *. lia.
Qed.

(** The receive call for the plain framing cannot deliver a payload: it
    parses the nine header bytes as if they were the whole message, so a
    longer message is refused with [-4] after its header is consumed, and a
    positive result is always the bare header. *)
Theorem zebra_recv_header_only buf out z :
  let '(r, _, m, _) := danos_zebra_session_recv buf (Some out) z in
  r <= 0 \/ r = 9 /\ exists m', m = Some m' /\ zm_payload_size m' = 0%nat.
Proof.
  unfold danos_zebra_session_recv. destruct (bool_decide _); cbn [negb]; [|lia].
  destruct (Nat.ltb_spec (length buf) ZAPI_HEADER_SIZE) as [|Hb]; [lia|].
  destruct (recv_at 0 ZAPI_HEADER_SIZE buf (z_sock z)) as [[n buf1] k]. destruct (n <=? 0); [lia|].
  destruct (negb (n =? _)); [lia|].
  set (hd := take ZAPI_HEADER_SIZE buf1).
  destruct (zapi_parse (Some hd) (Some out)) as [rc m] eqn:Hp.
  destruct (Z.eqb_spec rc 0) as [->|]; cbn [negb]; [|lia].
  assert (Hlen : (length hd <= ZAPI_HEADER_SIZE)%nat) by (subst hd; rewrite length_take; lia).
  destruct (parse_bare_header _ _ _ Hlen Hp) as (m' & -> & Ht & _). cbn [z_sock with_sock]. rewrite Ht.
  destruct (Z.ltb_spec (Z.of_nat (length buf1)) 9); [lia|].
  change ((0 <? Z.to_nat 9 - ZAPI_HEADER_SIZE)%nat) with false. cbv iota. change (1 <=? 0) with false. cbv iota.
  change (take (Z.to_nat 9) buf1) with hd.
  destruct (zapi_parse (Some hd) (Some m')) as [rc2 m2] eqn:Hp2.
  destruct (Z.eqb_spec rc2 0) as [->|]; cbn [negb]; [|lia]. right. split; [done|].
  destruct (parse_bare_header _ _ _ Hlen Hp2) as (m3 & -> & _ & Hz). by exists m3.
Qed.

(** ** What the registration writes *)

Definition reg_hello (protocol instance : Z) : frr_msg :=
  mk_frr_msg 0 FRR_ZEBRA_HELLO ([protocol] ++ be_bytes 2 instance ++ be_bytes 4 0 ++ [0]).

(** Router id, interfaces, the route types, and the default route. *)
Definition reg_requests (e : zenv) : list frr_msg :=
  [mk_frr_msg 0 FRR_ZEBRA_ROUTER_ID_ADD (be_bytes 2 1); mk_frr_msg 0 FRR_ZEBRA_INTERFACE_ADD []] ++
  ((fun t => mk_frr_msg 0 FRR_ZEBRA_REDISTRIBUTE_ADD [1; t; 0; 0]) <$> registration_route_types e 16) ++
  (if ze_redistribute_default e then [mk_frr_msg 0 FRR_ZEBRA_REDISTRIBUTE_DEFAULT_ADD [1]] else []).

Definition reg_limit (e : zenv) : nat :=
  if hello_only e || (reg_stage e =? 1) then 0
  else if reg_stage e =? 2 then 1 else if reg_stage e =? 3 then 2 else length (reg_requests e).

Definition registration (e : zenv) (protocol instance : Z) : list frr_msg :=
  reg_hello protocol instance :: take (reg_limit e) (reg_requests e).

Lemma frame_fm command payload : frr_frame command payload = fm_bytes (mk_frr_msg 0 command payload).
Proof. unfold frr_frame, fm_bytes, fm_header. cbn [fm_vrf fm_command fm_payload]. by rewrite <- !app_assoc. Qed.

Lemma later_frames_fm e : later_frames e = fm_bytes <$> take (reg_limit e) (reg_requests e).
Proof.
  unfold later_frames, reg_limit. destruct (hello_only e || (reg_stage e =? 1)); [done|].
  unfold router_id_frame, interface_frame, redistribute_frame, default_frame. rewrite !frame_fm.
  destruct (reg_stage e =? 2); [done|]. destruct (reg_stage e =? 3); [done|].
  rewrite take_ge by done. unfold reg_requests. rewrite !fmap_app, <- list_fmap_compose.
  cbn [fmap list_fmap app]. do 4 f_equal. by destruct (ze_redistribute_default e).
Qed.

(** Bytes written so far, with what is still to come. *)
Definition wrote (k k' : zsock) (data rest : bytes) : Prop :=
  exists w, zk_out k' = zk_out k ++ w /\ data = w ++ rest.

Lemma z_send_wrote data k n k' :
  z_send data k = (n, k') -> wrote k k' data (drop (Z.to_nat n) data) /\ n <= strlen data.
Proof.
  unfold z_send. destruct (zk_send k) as [|a l]; intros [= <- <-]; cbn [zk_out]; (split; [|lia]);
    (eexists; split; [reflexivity|by rewrite take_drop]).
Qed.

Lemma wrote_trans k1 k2 k3 d d' d'' : wrote k1 k2 d d' -> wrote k2 k3 d' d'' -> wrote k1 k3 d d''.
Proof.
  intros (w1 & H1 & ->) (w2 & H2 & ->). exists (w1 ++ w2). by rewrite H2, H1, <- !app_assoc.
Qed.

Lemma send_hello_wrote fuel msg k ok k' :
  send_hello fuel msg k = (ok, k') -> exists rest, wrote k k' msg rest /\ (ok = true -> rest = []).
Proof.
  revert msg k. induction fuel as [|fuel IH]; intros [|b msg] k H; cbn [send_hello] in H.
  - injection H as <- <-. exists []. split; [exists []; by rewrite app_nil_r|done].
  - injection H as <- <-. exists (b :: msg). split; [exists []; by rewrite app_nil_r|done].
  - injection H as <- <-. exists []. split; [exists []; by rewrite app_nil_r|done].
  - destruct (z_send (b :: msg) k) as [n k1] eqn:Hs. destruct (z_send_wrote _ _ _ _ Hs) as [Hw _].
    destruct (n <=? 0); [injection H as <- <-; eexists; split; [exact Hw|done]|].
    destruct (IH _ _ H) as (rest & Hr & Ho). exists rest. split; [by eapply wrote_trans|done].
Qed.

Lemma send_frames_wrote fs k rc k' :
  send_frames fs k = (rc, k') -> exists rest, wrote k k' (mjoin fs) rest /\ (rc = 0 -> rest = []).
Proof.
  revert k. induction fs as [|f fs IH]; intros k H; cbn [send_frames] in H.
  { injection H as <- <-. exists []. split; [exists []; by rewrite app_nil_r|done]. }
  destruct (z_send f k) as [n k1] eqn:Hs. destruct (z_send_wrote _ _ _ _ Hs) as [(w & Ho & Hw) Hn].
  change (mjoin (f :: fs)) with (f ++ mjoin fs).
  destruct (Z.eqb_spec n (strlen f)) as [->|]; cbn [negb] in H.
  - destruct (IH _ H) as (rest & Hr & Hz). exists rest. split; [|done].
    refine (wrote_trans _ _ _ _ _ _ _ Hr). exists w. split; [done|].
    rewrite Hw at 1. unfold strlen. rewrite Nat2Z.id, drop_all. by rewrite app_nil_r.
  - injection H as <- <-. exists (drop (Z.to_nat n) f ++ mjoin fs). split; [|done].
    exists w. split; [done|]. rewrite Hw at 1. by rewrite <- app_assoc.
Qed.

Lemma send_hello_calm msg k :
  zk_send k = [] -> send_hello (length msg) msg k = (true, mk_zsock (zk_in k) (zk_recv k) (zk_out k ++ msg) []).
Proof.
  destruct msg as [|b msg]; intros Hk; cbn [length send_hello].
  - rewrite app_nil_r. destruct k. cbn in *. by subst.
  - unfold z_send. rewrite Hk. rewrite (proj2 (Z.leb_gt _ _)) by (unfold strlen; cbn; lia).
    unfold strlen. rewrite Nat2Z.id, drop_all, take_ge by done. by destruct (length msg).
Qed.

Lemma send_frames_calm fs k :
  zk_send k = [] -> send_frames fs k = (0, mk_zsock (zk_in k) (zk_recv k) (zk_out k ++ mjoin fs) []).
Proof.
  revert k. induction fs as [|f fs IH]; intros k Hk; cbn [send_frames mjoin list_join].
  - rewrite app_nil_r. destruct k. cbn in *. by subst.
  - unfold z_send. rewrite Hk, Z.eqb_refl. cbn [negb]. rewrite IH by done. cbn [zk_in zk_recv zk_out].
    unfold strlen. by rewrite Nat2Z.id, take_ge, <- app_assoc by done.
Qed.

(** With every [send] complete, registering writes and changes nothing else. *)
Lemma register_calm e protocol instance z :
  zs_state (z_session z) = ZEBRA_SESSION_CONNECTED -> zk_send (z_sock z) = [] ->
  exists out, danos_zebra_session_register e protocol instance z =
    (0, with_sock (mk_zsock (zk_in (z_sock z)) (zk_recv (z_sock z)) out []) z).
Proof.
  intros Hc Hk. unfold danos_zebra_session_register. rewrite bool_decide_eq_true_2 by done. cbn [negb].
  rewrite send_hello_calm by done. cbn [negb]. rewrite send_frames_calm by done. eauto.
Qed.

(** The registration is a sequence of well-formed frames: whatever [send]
    returns, the bytes written are a prefix of the hello, the router-id and
    interface requests, one redistribution request per configured route type
    and the default-route request, each framed with its own length, as far
    as the configured stage goes; a result of 0 means all of them, and it is
    the result when every [send] is complete. *)
Theorem registration_exact e protocol instance z :
  zs_state (z_session z) = ZEBRA_SESSION_CONNECTED ->
  exists rc z' rest, danos_zebra_session_register e protocol instance z = (rc, z') /\
    wrote (z_sock z) (z_sock z') (mjoin (fm_bytes <$> registration e protocol instance)) rest /\
    (rc = 0 -> rest = []) /\ (zk_send (z_sock z) = [] -> rc = 0).
Proof.
  intros Hc. unfold danos_zebra_session_register. rewrite bool_decide_eq_true_2 by done. cbn [negb].
  unfold hello_frame. rewrite frame_fm. fold (reg_hello protocol instance). set (m := fm_bytes (reg_hello protocol instance)).
  rewrite later_frames_fm. unfold registration. cbn [fmap list_fmap mjoin list_join]. fold m.
  set (fs := fm_bytes <$> take (reg_limit e) (reg_requests e)).
  destruct (send_hello (length m) m (z_sock z)) as [ok k1] eqn:Hh.
  destruct (send_hello_wrote _ _ _ _ _ Hh) as (rest & (w & Ho & Hw) & Hr).
  destruct ok; cbn [negb].
  - rewrite (Hr eq_refl), app_nil_r in Hw. subst w.
    destruct (send_frames fs k1) as [rc k2] eqn:Hf. destruct (send_frames_wrote _ _ _ _ Hf) as (rest2 & Hw2 & Hr2).
    exists rc, (with_sock k2 z), rest2. split; [done|]. split; [|split; [done|]].
    + eapply wrote_trans; [|exact Hw2]. by exists m.
    + intros Hk. rewrite send_hello_calm in Hh by done. injection Hh as <-.
      rewrite send_frames_calm in Hf by done. congruence.
  - eexists _, _, (rest ++ mjoin fs). split; [reflexivity|]. split; [|split; [done|]].
    + exists w. split; [done|]. rewrite Hw at 1. by rewrite <- app_assoc.
    + intros Hk. by rewrite send_hello_calm in Hh.
Qed.

(** ** Reconnecting *)

(** The delay stays between a second and a minute; a failed attempt doubles
    it, a successful one resets it, and an early one changes nothing. *)
Lemma reconnect_delay d now now' k z rc z' :
  danos_zebra_session_reconnect d now now' k z = (rc, z') -> z_initialized z = true ->
  let delay := zs_reconnect_delay_ms (z_session z) in
  RECONNECT_INITIAL_MS <= delay <= RECONNECT_MAX_MS ->
  zs_reconnect_delay_ms (z_session z') =
    if u64 (now - zs_last_connect_ns (z_session z)) / 1000000 <? delay then delay
    else if rc =? 0 then RECONNECT_INITIAL_MS else Z.min (2 * delay) RECONNECT_MAX_MS.
Proof.
  intros H Hi delay Hd. unfold danos_zebra_session_reconnect in H. fold delay in H.
  destruct (_ <? delay); [by injection H as <- <-|].
  unfold danos_zebra_session_connect, ensure_init in H. cbn [z_initialized with_session] in H. rewrite Hi in H.
  cbn [z_session with_session zs_sock_path] in H. destruct (_ <? 0); cbn [Z.eqb] in H.
  - injection H as <- <-. cbn [z_session with_session zs_reconnect_delay_ms Z.eqb]. fold delay.
    unfold RECONNECT_INITIAL_MS, RECONNECT_MAX_MS in *. rewrite u32_small by (unfold is_u32; lia).
    destruct (Z.ltb_spec 60000 (delay * 2)); lia.
  - by injection H as <- <-.
Qed.

(** ** Concrete runs *)

Definition demo_zsession (input : bytes) : zstate :=
  mk_zstate (mk_zsession 3 ZEBRA_SESSION_CONNECTED [] 0 1000 0 0) true (mk_zsock input [] [] []).
Definition demo_frr : frr_msg := mk_frr_msg 0 7 [1; 2; 3].
Definition demo_out : zapi_message := mk_zmsg (mk_zhdr 0 0 0 0) [] 0 0.

Lemma frr_stream_delivered_witness :
  exists z', receive [PollReady; PollTimeout; PollHup; PollReady] (zeros 64) demo_out
      (demo_zsession (fm_bytes demo_frr ++ fm_bytes demo_frr)) = ([(13, fm_parsed demo_frr)], z').
Proof.
  destruct (frr_stream_delivered [PollReady; PollTimeout; PollHup; PollReady] [demo_frr; demo_frr] (zeros 64) demo_out
    (demo_zsession (fm_bytes demo_frr ++ fm_bytes demo_frr))) as (z' & Hr & _).
  - by split.
  - rewrite length_zeros. unfold FRR_ZAPI_HEADER_SIZE. lia.
  - assert (fm_ok (length (zeros 64)) demo_frr); [|by repeat constructor].
    split; rewrite ?length_zeros; unfold is_uint, fm_total, FRR_ZAPI_HEADER_SIZE; cbn; lia.
  - reflexivity.
  - vm_compute. reflexivity.
  - vm_compute. discriminate.
  - exists z'. exact Hr.
Defined.

Lemma registration_exact_witness :
  exists rc z', danos_zebra_session_register (mk_zenv (Some (lit "2,9")) None None false) 11 0 (demo_zsession []) = (rc, z').
Proof.
  destruct (registration_exact (mk_zenv (Some (lit "2,9")) None None false) 11 0 (demo_zsession []))
    as (rc & z' & rest & H & _); [reflexivity|]. exists rc, z'. exact H.
Defined.
