(* ===== verification/Huffman.v ===== *)
(** The Huffman code of HPACK, as [danos-mgmt/src/gnmi/hpack_huffman.c]
    codes and decodes it: the two tables, the ranges the canonical decoder
    builds from them, the bit-by-bit decoder and the encoder.  The theorems
    characterise the strings the decoder accepts by the prefix code the tables
    define, and show that what the encoder writes is decoded to the string it
    was given. *)

From stdpp Require Import base decidable list numbers.
From Stdlib Require Import ZArith Lia.
From S2P Require Import Prelude CStr.

(** ** The tables *)

Definition hpack_huffman_codes : list Z :=
  [0x00001ff8; 0x007fffd8; 0x0fffffe2; 0x0fffffe3; 0x0fffffe4; 0x0fffffe5; 0x0fffffe6;
   0x0fffffe7; 0x0fffffe8; 0x00ffffea; 0x3ffffffc; 0x0fffffe9; 0x0fffffea; 0x3ffffffd;
   0x0fffffeb; 0x0fffffec; 0x0fffffed; 0x0fffffee; 0x0fffffef; 0x0ffffff0; 0x0ffffff1;
   0x0ffffff2; 0x3ffffffe; 0x0ffffff3; 0x0ffffff4; 0x0ffffff5; 0x0ffffff6; 0x0ffffff7;
   0x0ffffff8; 0x0ffffff9; 0x0ffffffa; 0x0ffffffb; 0x00000014; 0x000003f8; 0x000003f9;
   0x00000ffa; 0x00001ff9; 0x00000015; 0x000000f8; 0x000007fa; 0x000003fa; 0x000003fb;
   0x000000f9; 0x000007fb; 0x000000fa; 0x00000016; 0x00000017; 0x00000018; 0x00000000;
   0x00000001; 0x00000002; 0x00000019; 0x0000001a; 0x0000001b; 0x0000001c; 0x0000001d;
   0x0000001e; 0x0000001f; 0x0000005c; 0x000000fb; 0x00007ffc; 0x00000020; 0x00000ffb;
   0x000003fc; 0x00001ffa; 0x00000021; 0x0000005d; 0x0000005e; 0x0000005f; 0x00000060;
   0x00000061; 0x00000062; 0x00000063; 0x00000064; 0x00000065; 0x00000066; 0x00000067;
   0x00000068; 0x00000069; 0x0000006a; 0x0000006b; 0x0000006c; 0x0000006d; 0x0000006e;
   0x0000006f; 0x00000070; 0x00000071; 0x00000072; 0x000000fc; 0x00000073; 0x000000fd;
   0x00001ffb; 0x0007fff0; 0x00001ffc; 0x00003ffc; 0x00000022; 0x00007ffd; 0x00000003;
   0x00000023; 0x00000004; 0x00000024; 0x00000005; 0x00000025; 0x00000026; 0x00000027;
   0x00000006; 0x00000074; 0x00000075; 0x00000028; 0x00000029; 0x0000002a; 0x00000007;
   0x0000002b; 0x00000076; 0x0000002c; 0x00000008; 0x00000009; 0x0000002d; 0x00000077;
   0x00000078; 0x00000079; 0x0000007a; 0x0000007b; 0x00007ffe; 0x000007fc; 0x00003ffd;
   0x00001ffd; 0x0ffffffc; 0x000fffe6; 0x003fffd2; 0x000fffe7; 0x000fffe8; 0x003fffd3;
   0x003fffd4; 0x003fffd5; 0x007fffd9; 0x003fffd6; 0x007fffda; 0x007fffdb; 0x007fffdc;
   0x007fffdd; 0x007fffde; 0x00ffffeb; 0x007fffdf; 0x00ffffec; 0x00ffffed; 0x003fffd7;
   0x007fffe0; 0x00ffffee; 0x007fffe1; 0x007fffe2; 0x007fffe3; 0x007fffe4; 0x001fffdc;
   0x003fffd8; 0x007fffe5; 0x003fffd9; 0x007fffe6; 0x007fffe7; 0x00ffffef; 0x003fffda;
   0x001fffdd; 0x000fffe9; 0x003fffdb; 0x003fffdc; 0x007fffe8; 0x007fffe9; 0x001fffde;
   0x007fffea; 0x003fffdd; 0x003fffde; 0x00fffff0; 0x001fffdf; 0x003fffdf; 0x007fffeb;
   0x007fffec; 0x001fffe0; 0x001fffe1; 0x003fffe0; 0x001fffe2; 0x007fffed; 0x003fffe1;
   0x007fffee; 0x007fffef; 0x000fffea; 0x003fffe2; 0x003fffe3; 0x003fffe4; 0x007ffff0;
   0x003fffe5; 0x003fffe6; 0x007ffff1; 0x03ffffe0; 0x03ffffe1; 0x000fffeb; 0x0007fff1;
   0x003fffe7; 0x007ffff2; 0x003fffe8; 0x01ffffec; 0x03ffffe2; 0x03ffffe3; 0x03ffffe4;
   0x07ffffde; 0x07ffffdf; 0x03ffffe5; 0x00fffff1; 0x01ffffed; 0x0007fff2; 0x001fffe3;
   0x03ffffe6; 0x07ffffe0; 0x07ffffe1; 0x03ffffe7; 0x07ffffe2; 0x00fffff2; 0x001fffe4;
   0x001fffe5; 0x03ffffe8; 0x03ffffe9; 0x0ffffffd; 0x07ffffe3; 0x07ffffe4; 0x07ffffe5;
   0x000fffec; 0x00fffff3; 0x000fffed; 0x001fffe6; 0x003fffe9; 0x001fffe7; 0x001fffe8;
   0x007ffff3; 0x003fffea; 0x003fffeb; 0x01ffffee; 0x01ffffef; 0x00fffff4; 0x00fffff5;
   0x03ffffea; 0x007ffff4; 0x03ffffeb; 0x07ffffe6; 0x03ffffec; 0x03ffffed; 0x07ffffe7;
   0x07ffffe8; 0x07ffffe9; 0x07ffffea; 0x07ffffeb; 0x0ffffffe; 0x07ffffec; 0x07ffffed;
   0x07ffffee; 0x07ffffef; 0x07fffff0; 0x03ffffee; 0x3fffffff].

Definition hpack_huffman_lens : list Z :=
  [13; 23; 28; 28; 28; 28; 28; 28; 28; 24; 30; 28; 28; 30; 28; 28;
   28; 28; 28; 28; 28; 28; 30; 28; 28; 28; 28; 28; 28; 28; 28; 28;
   6; 10; 10; 12; 13; 6; 8; 11; 10; 10; 8; 11; 8; 6; 6; 6;
   5; 5; 5; 6; 6; 6; 6; 6; 6; 6; 7; 8; 15; 6; 12; 10;
   13; 6; 7; 7; 7; 7; 7; 7; 7; 7; 7; 7; 7; 7; 7; 7;
   7; 7; 7; 7; 7; 7; 7; 7; 8; 7; 8; 13; 19; 13; 14; 6;
   15; 5; 6; 5; 6; 5; 6; 6; 6; 5; 7; 7; 6; 6; 6; 5;
   6; 7; 6; 5; 5; 6; 7; 7; 7; 7; 7; 15; 11; 14; 13; 28;
   20; 22; 20; 20; 22; 22; 22; 23; 22; 23; 23; 23; 23; 23; 24; 23;
   24; 24; 22; 23; 24; 23; 23; 23; 23; 21; 22; 23; 22; 23; 23; 24;
   22; 21; 20; 22; 22; 23; 23; 21; 23; 22; 22; 24; 21; 22; 23; 23;
   21; 21; 22; 21; 23; 22; 23; 23; 20; 22; 22; 22; 23; 22; 22; 23;
   26; 26; 20; 19; 22; 23; 22; 25; 26; 26; 26; 27; 27; 26; 24; 25;
   19; 21; 26; 27; 27; 26; 27; 24; 21; 21; 26; 26; 28; 27; 27; 27;
   20; 24; 20; 21; 22; 21; 21; 23; 22; 22; 25; 25; 24; 24; 26; 23;
   26; 27; 26; 26; 27; 27; 27; 27; 27; 28; 27; 27; 27; 27; 27; 26;
   30].

Definition HUF_MAX_LEN : Z := 30.
Definition HUF_MAX_SYMS : nat := 40.
Definition HUF_SYMBOLS : nat := 257.

Definition huf_len (s : nat) : Z := default 0 (hpack_huffman_lens !! s).
Definition huf_code (s : nat) : Z := default 0 (hpack_huffman_codes !! s).

(** ** The ranges of the canonical decoder *)

Record huf_range_t := HufRange {
  min_code : Z;
  count : Z;
  syms : list Z;
}.

Definition huf_range0 : huf_range_t := HufRange 0 0 (replicate HUF_MAX_SYMS 0).

(** One symbol entered in the range of its length.  The source casts the
    symbol to [uint8_t] on the way into the 16-bit slot. *)
Definition huf_range_add (s : nat) (c : Z) (r : huf_range_t) : huf_range_t :=
  HufRange
    (if (count r =? 0) || (c <? min_code r) then c else min_code r)
    (u32 (count r + 1))
    (if count r <? Z.of_nat HUF_MAX_SYMS
     then <[Z.to_nat (count r) := u8 (Z.of_nat s)]> (syms r) else syms r).

Definition huf_build_step (g : list huf_range_t) (s : nat) : list huf_range_t :=
  alter (huf_range_add s (huf_code s)) (Z.to_nat (huf_len s)) g.

(** The memo [g_ranges_built] only avoids computing this constant twice. *)
Definition huf_build_ranges : list huf_range_t :=
  foldl huf_build_step (replicate (Z.to_nat HUF_MAX_LEN + 1) huf_range0)
    (seq 0 HUF_SYMBOLS).

Definition g_ranges : list huf_range_t := Eval vm_compute in huf_build_ranges.

(** ** Decoder *)

(** The symbol the decoder finds for the [clen] bits of [code]. *)
Definition huf_match (code clen : Z) : option Z :=
  r ← g_ranges !! Z.to_nat clen;
  if (0 <? count r) && (min_code r <=? code) && (code <? u32 (min_code r + count r))
  then Some (default 0 (syms r !! Z.to_nat (code - min_code r))) else None.

Record huf_dec := HufDec { d_code : Z; d_clen : Z; d_out : bytes }.

Definition huf_decode_bit (out_cap : Z) (d : huf_dec) (bit : Z) : option huf_dec :=
  let code := u32 (Z.lor (Z.shiftl (d_code d) 1) bit) in
  let clen := u32 (d_clen d + 1) in
  if HUF_MAX_LEN <? clen then None else
  match huf_match code clen with
  | Some sym =>
      if sym =? 256 then None else
      if out_cap <=? Z.of_nat (length (d_out d)) then None else
      Some (HufDec 0 0 (d_out d ++ [u8 sym]))
  | None => Some (HufDec code clen (d_out d))
  end.

Definition byte_bits (b : Z) : list Z :=
  (fun bit => Z.land (Z.shiftr b bit) 1) <$> [7; 6; 5; 4; 3; 2; 1; 0].

Fixpoint huf_decode_bits (out_cap : Z) (d : huf_dec) (bits : list Z) : option huf_dec :=
  match bits with
  | [] => Some d
  | b :: bits => d ← huf_decode_bit out_cap d b; huf_decode_bits out_cap d bits
  end.

Fixpoint huf_decode_bytes (out_cap : Z) (d : huf_dec) (data : bytes) : option huf_dec :=
  match data with
  | [] => Some d
  | b :: data =>
      d ← huf_decode_bits out_cap d (byte_bits b); huf_decode_bytes out_cap d data
  end.

(** The padding check at the end of the block. *)
Definition huf_decode_end (d : huf_dec) : option bytes :=
  if 0 <? d_clen d then
    if 8 <=? d_clen d then None else
    let ones := u32 (Z.shiftl 1 (d_clen d) - 1) in
    if d_code d =? ones then Some (d_out d) else None
  else Some (d_out d).

(** [true] with the decoded bytes is [Some]. *)
Definition hpack_huffman_decode (data : bytes) (out_cap : Z) : option bytes :=
  d ← huf_decode_bytes out_cap (HufDec 0 0 []) data; huf_decode_end d.

(** ** Encoder *)

Record huf_enc := HufEnc { n_acc : Z; n_nbits : Z; n_out : bytes }.

(** [while (nbits >= 8)]: each turn takes eight bits off. *)
Fixpoint huf_flush (fuel : nat) (cap : Z) (e : huf_enc) : option huf_enc :=
  if n_nbits e <? 8 then Some e else
  match fuel with
  | O => None
  | S fuel =>
      if cap <=? Z.of_nat (length (n_out e)) then None else
      let nbits := n_nbits e - 8 in
      huf_flush fuel cap
        (HufEnc (Z.land (n_acc e) (u32 (Z.shiftl 1 nbits - 1))) nbits
           (n_out e ++ [u8 (Z.shiftr (n_acc e) nbits)]))
  end.

Fixpoint huf_encode_syms (cap : Z) (e : huf_enc) (s : bytes) : option huf_enc :=
  match s with
  | [] => Some e
  | c :: s =>
      if c =? 0 then Some e else
      let l := huf_len (Z.to_nat c) in
      let nbits := u32 (n_nbits e + l) in
      e ← huf_flush (Z.to_nat nbits) cap
            (HufEnc (Z.lor (u64 (Z.shiftl (n_acc e) l)) (huf_code (Z.to_nat c)))
               nbits (n_out e));
      huf_encode_syms cap e s
  end.

(** The bytes written, [None] for the [-1] of a full buffer. *)
Definition hpack_huffman_encode (cap : Z) (s : bytes) : option bytes :=
  e ← huf_encode_syms cap (HufEnc 0 0 []) s;
  if 0 <? n_nbits e then
    let k := 8 - n_nbits e in
    let acc := Z.lor (u64 (Z.shiftl (n_acc e) k)) (u32 (Z.shiftl 1 k - 1)) in
    if cap <=? Z.of_nat (length (n_out e)) then None else Some (n_out e ++ [u8 acc])
  else Some (n_out e).

(** ** Bit strings *)

(** The low [n] bits of [z], most significant first. *)
Fixpoint bits_of (n : nat) (z : Z) : list bool :=
  match n with
  | O => []
  | S n => Z.testbit z (Z.of_nat n) :: bits_of n z
  end.

Definition bytes_bits (bs : bytes) : list bool := bs ≫= bits_of 8.

(** The code word of a symbol, and the word of a sequence of symbols. *)
Definition sym_bits (s : nat) : list bool := bits_of (Z.to_nat (huf_len s)) (huf_code s).
Definition word_bits (ss : list nat) : list bool := ss ≫= sym_bits.

(** Padding: fewer than eight ones. *)
Definition huf_padding (p : list bool) : Prop := exists k, (k < 8)%nat /\ p = replicate k true.

Lemma length_bits_of n z : length (bits_of n z) = n.
Proof. induction n; simpl; congruence. Qed.

Lemma bits_of_ext n a b :
  (forall i, 0 <= i < Z.of_nat n -> Z.testbit a i = Z.testbit b i) ->
  bits_of n a = bits_of n b.
Proof.
  induction n as [|n IH]; intros H; simpl; [done|].
  rewrite H, IH by (intros; try apply H; lia). done.
Qed.

Lemma bits_of_app a b z :
  bits_of (a + b) z = bits_of a (Z.shiftr z (Z.of_nat b)) ++ bits_of b z.
Proof.
  induction a as [|a IH]; simpl; [done|].
  rewrite IH, Z.shiftr_spec by lia. do 2 f_equal. lia.
Qed.

Lemma bits_of_inj n a b :
  0 <= a < 2 ^ Z.of_nat n -> 0 <= b < 2 ^ Z.of_nat n -> bits_of n a = bits_of n b -> a = b.
Proof.
  intros Ha Hb H. apply Z.bits_inj'. intros i Hi.
  destruct (decide (i < Z.of_nat n)) as [Hin|];
    [|rewrite !(testbit_small _ i (Z.of_nat n)); [done|lia..]].
  clear Ha Hb. induction n as [|n IH]; [lia|]. simpl in H. injection H as H1 H2.
  destruct (decide (i = Z.of_nat n)) as [->|]; [done|]. apply IH; [done|lia].
Qed.

(** Appending [c], of [l] bits, to [z]. *)
Lemma bits_of_lor n l z c :
  0 <= c < 2 ^ Z.of_nat l ->
  bits_of (n + l) (Z.lor (Z.shiftl z (Z.of_nat l)) c) = bits_of n z ++ bits_of l c.
Proof.
  intros Hc. rewrite bits_of_app. f_equal; apply bits_of_ext; intros i Hi.
  - rewrite Z.shiftr_spec, Z.lor_spec, Z.shiftl_spec by lia.
    rewrite (testbit_small c _ (Z.of_nat l)) by lia. rewrite orb_false_r. f_equal. lia.
  - rewrite Z.lor_spec, Z.shiftl_spec_low by lia. done.
Qed.

Lemma bits_of_ones n k :
  (k <= n)%nat -> bits_of k (Z.ones (Z.of_nat n)) = replicate k true.
Proof.
  induction k as [|k IH]; intros Hk; simpl; [done|].
  rewrite Z.ones_spec_low, IH by lia. done.
Qed.

Lemma shiftl_1_ones k : 0 <= k -> Z.shiftl 1 k - 1 = Z.ones k.
Proof. intros. rewrite Z.ones_equiv, Z.shiftl_1_l. lia. Qed.

Lemma bits_of_u8 z : bits_of 8 (u8 z) = bits_of 8 z.
Proof.
  apply bits_of_ext. intros i Hi. unfold u8. apply Z.mod_pow2_bits_low. lia.
Qed.

Lemma land_1_testbit b i : 0 <= i -> Z.land (Z.shiftr b i) 1 = Z.b2z (Z.testbit b i).
Proof.
  intros. change 1 with (Z.ones 1) at 1. rewrite Z.land_ones by lia.
  by rewrite Z.testbit_spec', Z.shiftr_div_pow2 by lia.
Qed.

Lemma byte_bits_spec b : byte_bits b = Z.b2z <$> bits_of 8 b.
Proof.
  unfold byte_bits. cbn [bits_of fmap list_fmap].
  by rewrite !land_1_testbit by lia.
Qed.

(** The number a bit string denotes. *)
Definition bval (q : list bool) : Z := foldl (fun a b => 2 * a + Z.b2z b) 0 q.

Lemma bval_snoc q b : bval (q ++ [b]) = 2 * bval q + Z.b2z b.
Proof. unfold bval. by rewrite foldl_app. Qed.

Lemma bval_range q : 0 <= bval q < 2 ^ Z.of_nat (length q).
Proof.
  induction q as [|b q IH] using rev_ind; [done|].
  rewrite bval_snoc, length_app, Nat.add_1_r, Nat2Z.inj_succ, Z.pow_succ_r by lia.
  destruct b; simpl Z.b2z; lia.
Qed.

Lemma bval_shift q b :
  Z.lor (Z.shiftl (bval q) 1) (Z.b2z b) = bval (q ++ [b]).
Proof.
  rewrite bval_snoc, Z.shiftl_mul_pow2 by lia. change (2 ^ 1) with 2.
  destruct b; simpl Z.b2z; [|rewrite Z.lor_0_r; lia].
  rewrite Z.mul_comm. destruct (bval q) as [|[]|[]]; reflexivity.
Qed.

Lemma bits_of_bval q : bits_of (length q) (bval q) = q.
Proof.
  induction q as [|b q IH] using rev_ind; [done|].
  rewrite <- bval_shift, length_app.
  rewrite (bits_of_lor _ 1) by (destruct b; simpl; lia).
  rewrite IH. f_equal. by destruct b.
Qed.

Lemma length_bytes_bits bs : length (bytes_bits bs) = (8 * length bs)%nat.
Proof.
  induction bs as [|b bs IH]; [done|].
  unfold bytes_bits in *. rewrite bind_cons, length_app, IH, length_bits_of.
  simpl length. lia.
Qed.

Lemma bytes_bits_snoc bs b : bytes_bits (bs ++ [b]) = bytes_bits bs ++ bits_of 8 b.
Proof. unfold bytes_bits. rewrite bind_app. by rewrite bind_singleton. Qed.

(** ** What the tables satisfy *)

Lemma g_ranges_built : g_ranges = huf_build_ranges.
Proof. vm_compute. reflexivity. Qed.

(** Every range fits its symbol array. *)
Lemma huf_counts_fit : Forall (fun r => count r <= Z.of_nat HUF_MAX_SYMS) g_ranges.
Proof. apply (bool_decide_unpack _). vm_compute. exact I. Qed.

(** Bounds of the code words. *)
Lemma huf_len_range s :
  (s < HUF_SYMBOLS)%nat -> 5 <= huf_len s <= HUF_MAX_LEN /\ 0 <= huf_code s < 2 ^ huf_len s.
Proof.
  intros Hs.
  assert (H : Forall (fun s => 5 <= huf_len s <= HUF_MAX_LEN /\
                               0 <= huf_code s < 2 ^ huf_len s) (seq 0 HUF_SYMBOLS)).
  { apply (bool_decide_unpack _). vm_compute. exact I. }
  rewrite Forall_seq in H. apply H. lia.
Qed.

(** Reading a code word bit by bit finds its symbol, and nothing before. *)
Definition word_found (s : nat) : Prop :=
  let w := sym_bits s in
  huf_match (bval w) (huf_len s) = Some (u8 (Z.of_nat s)) /\
  Forall (fun k => huf_match (bval (take k w)) (Z.of_nat k) = None)
    (seq 1 (length w - 1)).

Lemma words_found s : (s < HUF_SYMBOLS)%nat -> word_found s.
Proof.
  intros Hs. assert (H : Forall word_found (seq 0 HUF_SYMBOLS)).
  { apply (bool_decide_unpack _). vm_compute. exact I. }
  rewrite Forall_seq in H. apply H. lia.
Qed.

(** A short run of ones is no code word. *)
Lemma padding_unmatched k :
  (1 <= k < 8)%nat -> huf_match (bval (replicate k true)) (Z.of_nat k) = None.
Proof.
  intros Hk.
  assert (H : Forall (fun k => huf_match (bval (replicate k true)) (Z.of_nat k) = None) (seq 1 7)).
  { apply (bool_decide_unpack _). vm_compute. exact I. }
  rewrite Forall_seq in H. apply H. lia.
Qed.

(** Conversely, what the decoder matches is a code word. *)
Definition range_covered (l : nat) : Prop :=
  match g_ranges !! l with
  | Some r =>
      0 <= count r /\ is_u32 (min_code r + count r) /\
      Forall (fun i => Exists (fun s =>
        huf_len s = Z.of_nat l /\ huf_code s = min_code r + Z.of_nat i /\
        default 0 (syms r !! i) = u8 (Z.of_nat s)) (seq 0 HUF_SYMBOLS))
        (seq 0 (Z.to_nat (count r)))
  | None => True
  end.

#[local] Instance range_covered_dec l : Decision (range_covered l).
Proof. unfold range_covered, is_u32. destruct (g_ranges !! l); apply _. Defined.

Lemma ranges_covered l : (1 <= l <= 30)%nat -> range_covered l.
Proof.
  intros Hl. assert (H : Forall range_covered (seq 1 30)).
  { apply (bool_decide_unpack _). vm_compute. exact I. }
  rewrite Forall_seq in H. apply H. lia.
Qed.

Lemma huf_match_sound q sym :
  (1 <= length q <= 30)%nat -> huf_match (bval q) (Z.of_nat (length q)) = Some sym ->
  exists s, (s < HUF_SYMBOLS)%nat /\ sym = u8 (Z.of_nat s) /\ q = sym_bits s.
Proof.
  intros Hq Hm. pose proof (ranges_covered _ Hq) as Hc.
  unfold huf_match in Hm. rewrite Nat2Z.id in Hm. unfold range_covered in Hc.
  destruct (g_ranges !! length q) as [r|]; [|done]. cbn in Hm.
  destruct Hc as (H0 & Hu & Hall). case_match; [|done]. simplify_eq. bool_prop.
  rewrite u32_small in * by done. rewrite Forall_seq in Hall.
  pose proof (Hall (Z.to_nat (bval q - min_code r)) ltac:(lia))
    as (s & Hs & Hl & Hcode & Hsym)%Exists_exists.
  apply in_seq in Hs. exists s. split_and!; [lia|done|].
  unfold sym_bits. rewrite Hl, Hcode, Nat2Z.id, Z2Nat.id by lia.
  by rewrite Z.add_comm, Z.sub_add, bits_of_bval.
Qed.

(** ** The decoder on bit strings *)

Abbreviation reading q out := (HufDec (bval q) (Z.of_nat (length (q : list bool))) out).
Abbreviation dec_bits cap d q := (huf_decode_bits cap d (Z.b2z <$> q)).

Lemma huf_decode_bits_app cap d p q :
  huf_decode_bits cap d (p ++ q) =
  d ← huf_decode_bits cap d p; huf_decode_bits cap d q.
Proof.
  revert d. induction p as [|b p IH]; intros d; [done|]. cbn.
  destruct (huf_decode_bit cap d b); [apply IH|done].
Qed.

Lemma huf_decode_bytes_bits cap d data :
  huf_decode_bytes cap d data = dec_bits cap d (bytes_bits data).
Proof.
  revert d. induction data as [|b data IH]; intros d; [done|].
  unfold bytes_bits in *. rewrite bind_cons, fmap_app, huf_decode_bits_app.
  rewrite <- byte_bits_spec. cbn [huf_decode_bytes].
  destruct (huf_decode_bits _ _ _); [apply IH|done].
Qed.

Lemma huf_decode_bit_reading cap q out b :
  (length q < 30)%nat ->
  huf_decode_bit cap (reading q out) (Z.b2z b) =
  match huf_match (bval (q ++ [b])) (Z.of_nat (length (q ++ [b]))) with
  | Some sym =>
      if sym =? 256 then None else
      if cap <=? Z.of_nat (length out) then None else Some (reading [] (out ++ [u8 sym]))
  | None => Some (reading (q ++ [b]) out)
  end.
Proof.
  intros Hq. unfold huf_decode_bit. cbn [d_code d_clen d_out].
  rewrite bval_shift. pose proof (bval_range (q ++ [b])) as Hr.
  assert (Hl : Z.of_nat (length q) + 1 = Z.of_nat (length (q ++ [b])))
    by (rewrite length_app; simpl; lia).
  assert (length (q ++ [b]) <= 30)%nat by (rewrite length_app; simpl; lia).
  assert (2 ^ Z.of_nat (length (q ++ [b])) <= 2 ^ 30) by (apply Z.pow_le_mono_r; lia).
  rewrite Hl, !u32_small by (unfold is_u32; lia).
  rewrite (proj2 (Z.ltb_ge _ _)) by (unfold HUF_MAX_LEN; lia). done.
Qed.

Lemma huf_decode_bit_full cap q out b :
  length q = 30%nat -> huf_decode_bit cap (reading q out) b = None.
Proof. intros Hq. unfold huf_decode_bit. cbn [d_clen]. by rewrite Hq. Qed.

(** Bits that match nothing are collected. *)
Lemma huf_decode_unmatched cap p q out :
  (length q + length p <= 30)%nat ->
  (forall k, (1 <= k <= length p)%nat ->
    huf_match (bval (q ++ take k p)) (Z.of_nat (length q + k)) = None) ->
  dec_bits cap (reading q out) p = Some (reading (q ++ p) out).
Proof.
  revert q. induction p as [|b p IH]; intros q Hl Hn; [by rewrite app_nil_r|].
  simpl length in *. cbn [fmap list_fmap huf_decode_bits].
  rewrite huf_decode_bit_reading by lia.
  pose proof (Hn 1%nat ltac:(lia)) as H1. cbn [take] in H1. rewrite take_0 in H1.
  rewrite length_app. cbn [length]. rewrite H1. cbn.
  replace (length q + 1)%nat with (length (q ++ [b])) by (by rewrite length_app).
  rewrite IH, <- app_assoc; [done|rewrite length_app; simpl; lia|].
  intros k Hk. rewrite <- app_assoc. rewrite <- (Hn (S k)) by lia.
  do 2 f_equal. rewrite length_app. simpl. lia.
Qed.

(** A code word is decoded to its symbol. *)
Lemma huf_decode_word cap s out :
  (s < HUF_SYMBOLS)%nat -> Z.of_nat (length out) < cap ->
  dec_bits cap (reading [] out) (sym_bits s) = Some (reading [] (out ++ [u8 (Z.of_nat s)])).
Proof.
  intros Hs Hcap. destruct (words_found s Hs) as [Hm Hn].
  destruct (huf_len_range s Hs) as [Hl _]. unfold HUF_MAX_LEN in Hl.
  assert (Hw : length (sym_bits s) = Z.to_nat (huf_len s)) by apply length_bits_of.
  remember (sym_bits s) as w eqn:Ew. clear Ew.
  destruct w as [|b p _] using rev_ind; [simpl in Hw; lia|].
  rewrite length_app in Hw, Hn. simpl length in Hw, Hn.
  rewrite fmap_app, huf_decode_bits_app, huf_decode_unmatched; [|simpl; lia|].
  - cbn -[huf_decode_bit u8]. rewrite huf_decode_bit_reading by lia. rewrite length_app.
    replace (Z.of_nat (length p + length [b])) with (huf_len s) by (simpl; lia).
    rewrite Hm, (proj2 (Z.leb_gt _ _)) by lia.
    pose proof (u8_range (Z.of_nat s)). rewrite (proj2 (Z.eqb_neq _ _)) by lia.
    cbn -[u8]. by rewrite u8_idem.
  - intros k Hk. rewrite Forall_seq in Hn. simpl length. rewrite <- (Hn k) by lia.
    by rewrite take_app_le by lia.
Qed.

Lemma huf_decode_words cap ss out :
  Forall (fun s => s < HUF_SYMBOLS)%nat ss -> Z.of_nat (length out + length ss) <= cap ->
  dec_bits cap (reading [] out) (word_bits ss) =
  Some (reading [] (out ++ ((fun s => u8 (Z.of_nat s)) <$> ss))).
Proof.
  intros Hss. revert out. induction Hss as [|s ss Hs _ IH]; intros out Hcap.
  - by rewrite app_nil_r.
  - unfold word_bits in *. simpl length in Hcap.
    rewrite bind_cons, fmap_app, huf_decode_bits_app, huf_decode_word by (done || lia).
    cbn [mbind option_bind]. rewrite (IH (out ++ [u8 (Z.of_nat s)])).
    + by rewrite <- app_assoc.
    + rewrite length_app. simpl. lia.
Qed.

(** What the decoder has read is a sequence of code words and the bits of the
    next one. *)
Lemma huf_decode_bits_sound cap p q out d :
  (length q <= 30)%nat -> Z.of_nat (length out) <= cap ->
  dec_bits cap (reading q out) p = Some d ->
  exists ss q', Forall (fun s => s < HUF_SYMBOLS)%nat ss /\
    q ++ p = word_bits ss ++ q' /\
    d = reading q' (out ++ ((fun s => u8 (Z.of_nat s)) <$> ss)) /\
    Z.of_nat (length out + length ss) <= cap.
Proof.
  revert q out. induction p as [|b p IH]; intros q out Hq Hcap Hd.
  - exists [], q. cbn in *. simplify_eq. rewrite !app_nil_r. split_and!; [done..|lia].
  - cbn [fmap list_fmap huf_decode_bits] in Hd.
    destruct (decide (length q = 30%nat)); [by rewrite huf_decode_bit_full in Hd|].
    rewrite huf_decode_bit_reading in Hd by lia.
    destruct (huf_match _ _) as [sym|] eqn:Hm.
    + apply huf_match_sound in Hm as (s & Hs & -> & Hw);
        [|rewrite length_app; simpl; lia].
      repeat case_match; try done. bool_prop. cbn -[u8] in Hd.
      destruct (IH [] (out ++ [u8 (u8 (Z.of_nat s))])) as (ss & q' & Hss & Hp & -> & Hc);
        [simpl; lia | rewrite length_app; simpl; lia | done |].
      exists (s :: ss), q'. split_and!; [by constructor| | |].
      * unfold word_bits in *. cbn in Hp. rewrite bind_cons, <- Hw, <- !app_assoc, <- Hp. done.
      * rewrite <- app_assoc. cbn -[u8]. by rewrite u8_idem.
      * rewrite length_app in Hc. simpl in *. lia.
    + destruct (IH (q ++ [b]) out) as (ss & q' & Hss & Hp & -> & Hc);
        [rewrite length_app; simpl; lia|done|done|].
      exists ss, q'. rewrite <- app_assoc in Hp. done.
Qed.

Lemma bval_replicate k : bval (replicate k true) = Z.ones (Z.of_nat k).
Proof.
  eapply (bits_of_inj k).
  - pose proof (bval_range (replicate k true)) as H. by rewrite length_replicate in H.
  - rewrite Z.ones_equiv. lia.
  - rewrite bits_of_ones by lia. rewrite <- (length_replicate k true) at 1.
    apply bits_of_bval.
Qed.

Lemma huf_decode_end_reading q out o :
  huf_decode_end (reading q out) = Some o <-> huf_padding q /\ o = out.
Proof.
  unfold huf_decode_end, huf_padding. cbn [d_clen d_code d_out].
  destruct (0 <? Z.of_nat (length q)) eqn:H0; bool_prop.
  2: { destruct q; [|simpl in H0; lia]. split; [intros [= <-]; eauto with lia|naive_solver].
       split; [exists 0%nat; split; [lia|done]|done]. }
  destruct (8 <=? Z.of_nat (length q)) eqn:H8; bool_prop.
  { split; [done|]. intros ((k & Hk & ->) & _). rewrite length_replicate in H8. lia. }
  rewrite shiftl_1_ones, u32_small by
    (lia || (unfold is_u32; rewrite Z.ones_equiv;
             assert (2 ^ Z.of_nat (length q) <= 2 ^ 8) by (apply Z.pow_le_mono_r; lia); lia)).
  split.
  - case_match; [|done]. bool_prop. intros [= <-]. split; [|done].
    exists (length q). split; [lia|]. rewrite <- (bits_of_bval q) at 1.
    rewrite H. by apply bits_of_ones.
  - intros ((k & Hk & ->) & ->).
    by rewrite length_replicate, bval_replicate, Z.eqb_refl.
Qed.

Lemma huf_decode_padding cap p out :
  huf_padding p -> dec_bits cap (reading [] out) p = Some (reading p out).
Proof.
  intros (k & Hk & ->). apply huf_decode_unmatched.
  - rewrite length_replicate. simpl. lia.
  - rewrite length_replicate. intros j Hj. rewrite take_replicate. simpl.
    rewrite Nat.min_l by lia. by apply padding_unmatched; lia.
Qed.

Lemma huf_decode_iff data cap out :
  0 <= cap ->
  hpack_huffman_decode data cap = Some out <->
  exists ss p, Forall (fun s => s < HUF_SYMBOLS)%nat ss /\
    bytes_bits data = word_bits ss ++ p /\ huf_padding p /\
    out = ((fun s => u8 (Z.of_nat s)) <$> ss) /\ Z.of_nat (length out) <= cap.
Proof.
  intros Hcap. unfold hpack_huffman_decode. rewrite huf_decode_bytes_bits.
  change (HufDec 0 0 []) with (reading [] ([] : bytes)). split.
  - destruct (dec_bits cap (reading [] []) (bytes_bits data)) as [d|] eqn:Hd; [|done].
    apply huf_decode_bits_sound in Hd as (ss & p & Hss & Hp & -> & Hc); [|simpl; lia..].
    cbn -[u8]. intros [Hpad ->]%huf_decode_end_reading. exists ss, p.
    split_and!; try done. rewrite length_fmap. simpl in Hc. lia.
  - intros (ss & p & Hss & Hb & Hpad & -> & Hc). rewrite length_fmap in Hc.
    rewrite Hb, fmap_app, huf_decode_bits_app, huf_decode_words by (done || simpl; lia).
    cbn [mbind option_bind]. rewrite huf_decode_padding by done.
    by apply huf_decode_end_reading.
Qed.

(** No reading of the block as code words comes upon the end-of-string word. *)
Definition eos_free (data : bytes) : Prop :=
  forall ss p, Forall (fun s => s < HUF_SYMBOLS)%nat ss -> bytes_bits data = word_bits ss ++ p -> 256%nat ∉ ss.

Definition text_bits (s : bytes) : list bool := word_bits (Z.to_nat <$> s).

Lemma word_symbols ss :
  Forall (fun s => s < HUF_SYMBOLS)%nat ss -> 256%nat ∉ ss ->
  Z.to_nat <$> ((fun s => u8 (Z.of_nat s)) <$> ss) = ss /\ bytes_ok ((fun s => u8 (Z.of_nat s)) <$> ss).
Proof.
  induction 1 as [|x ss Hx _ IH]; intros Hn; [done|]. apply not_elem_of_cons in Hn as [Hx' Hn].
  destruct (IH Hn) as [E Hb]. unfold HUF_SYMBOLS in Hx. rewrite !fmap_cons, E. split; [|constructor; [apply u8_range|done]].
  f_equal. rewrite u8_small by (unfold is_byte; lia). lia.
Qed.

(** C19. The canonical decoder implements the prefix code of the tables: on a
    block without the end-of-string word, which the decoder is documented to
    refuse, and with room for [cap] bytes, it returns a text exactly when the
    block's bits are the code words of that text's bytes followed by fewer
    than eight ones and the text has at most [cap] bytes. *)
Theorem huffman_decode_exact data cap out :
  0 <= cap -> eos_free data ->
  hpack_huffman_decode data cap = Some out <->
  bytes_ok out /\ Z.of_nat (length out) <= cap /\
  exists p, bytes_bits data = text_bits out ++ p /\ huf_padding p.
Proof.
  intros Hcap He. rewrite (huf_decode_iff data cap out Hcap). split.
  - intros (ss & p & Hss & Hb & Hp & -> & Hl). destruct (word_symbols ss Hss (He ss p Hss Hb)) as [E Hok].
    split; [done|]. split; [done|]. exists p. unfold text_bits. by rewrite E.
  - intros (Hok & Hl & p & Hb & Hp). exists (Z.to_nat <$> out), p. split; [|split; [done|split; [done|split; [|done]]]].
    + apply Forall_fmap. clear -Hok. induction Hok as [|x l Hx _ IH]; constructor; [|done]. unfold is_byte, HUF_SYMBOLS in *. cbn. lia.
    + rewrite <- list_fmap_compose. rewrite <- (list_fmap_id out) at 1. apply list_fmap_ext. intros i x Hx.
      pose proof (proj1 (Forall_lookup _ _) Hok i x Hx) as Hb'. unfold is_byte in Hb'. cbn [compose id].
      rewrite Z2Nat.id by lia. symmetry. by apply u8_small.
Qed.

(** The end-of-string word has thirty bits. *)
Lemma short_eos_free data : (length data < 4)%nat -> eos_free data.
Proof.
  intros Hl ss p Hss Hb Hin. apply list_elem_of_split in Hin as (s1 & s2 & ->).
  apply (f_equal length) in Hb. rewrite length_bytes_bits in Hb. unfold word_bits in Hb.
  rewrite bind_app, bind_cons, !length_app in Hb.
  change (length (sym_bits 256)) with 30%nat in Hb. lia.
Qed.

Lemma huffman_decode_exact_witness :
  hpack_huffman_decode [31] 8 = Some [97].
Proof.
  apply (huffman_decode_exact [31] 8 [97] ltac:(lia) (short_eos_free [31] ltac:(cbn; lia))).
  split; [repeat constructor; lia|]. split; [cbn; lia|]. exists [true; true; true].
  split; [vm_compute; reflexivity|]. by exists 3%nat; split; [lia|].
Defined.

(** ** The encoder writes code words *)

Definition enc_bits (e : huf_enc) : list bool :=
  bytes_bits (n_out e) ++ bits_of (Z.to_nat (n_nbits e)) (n_acc e).

(** The accumulator holds [nbits] bits, at most seven of them from before the
    last symbol. *)
Definition enc_ok (e : huf_enc) : Prop :=
  0 <= n_nbits e <= 37 /\ 0 <= n_acc e < 2 ^ n_nbits e /\ bytes_ok (n_out e).

Lemma length_enc_bits e :
  0 <= n_nbits e ->
  Z.of_nat (length (enc_bits e)) = 8 * Z.of_nat (length (n_out e)) + n_nbits e.
Proof.
  intros. unfold enc_bits. rewrite length_app, length_bytes_bits, length_bits_of. lia.
Qed.

Lemma u32_ones k : 0 <= k <= 32 -> u32 (Z.shiftl 1 k - 1) = Z.ones k.
Proof.
  intros. rewrite shiftl_1_ones by lia. apply u32_small. unfold is_u32.
  rewrite Z.ones_equiv. assert (2 ^ k <= 2 ^ 32) by (apply Z.pow_le_mono_r; lia). lia.
Qed.

Lemma huf_flush_turn e :
  enc_ok e -> 8 <= n_nbits e ->
  let nbits := n_nbits e - 8 in
  let e' := HufEnc (Z.land (n_acc e) (u32 (Z.shiftl 1 nbits - 1))) nbits
              (n_out e ++ [u8 (Z.shiftr (n_acc e) nbits)]) in
  enc_ok e' /\ enc_bits e' = enc_bits e.
Proof.
  intros (Hn & Ha & Ho) H8 nbits e'. subst e'. rewrite u32_ones by lia. split.
  - split_and!; cbn; [lia|lia|rewrite Z.land_ones by lia|
      rewrite Z.land_ones by lia|].
    1, 2: apply Z.mod_pos_bound; lia.
    apply Forall_app. split; [done|]. constructor; [apply u8_range|done].
  - unfold enc_bits. cbn [n_out n_acc n_nbits].
    rewrite bytes_bits_snoc, bits_of_u8, <- app_assoc. f_equal.
    replace (Z.to_nat (n_nbits e)) with (8 + Z.to_nat nbits)%nat by lia.
    rewrite bits_of_app, Z2Nat.id by lia. f_equal.
    apply bits_of_ext. intros i Hi. rewrite Z.land_ones by lia.
    apply Z.mod_pow2_bits_low. lia.
Qed.

Lemma huf_flush_spec fuel cap e :
  enc_ok e -> n_nbits e < 8 * Z.of_nat fuel + 8 ->
  match huf_flush fuel cap e with
  | Some e' => enc_ok e' /\ n_nbits e' < 8 /\ enc_bits e' = enc_bits e /\
               (Z.of_nat (length (n_out e)) <= cap -> Z.of_nat (length (n_out e')) <= cap)
  | None => 8 * cap + 8 <= Z.of_nat (length (enc_bits e))
  end.
Proof.
  revert e. induction fuel as [|fuel IH]; intros e He Hf; cbn [huf_flush].
  { rewrite (proj2 (Z.ltb_lt _ _)) by lia. split_and!; auto; lia. }
  destruct (n_nbits e <? 8) eqn:H8; bool_prop; [split_and!; auto; lia|].
  destruct (cap <=? _) eqn:Hcap; bool_prop; [rewrite length_enc_bits; lia|].
  destruct (huf_flush_turn e He H8) as [He' Hb].
  match goal with |- context [huf_flush fuel cap ?x] => specialize (IH x) end.
  destruct (huf_flush fuel cap _) as [e'|]; [|rewrite Hb in IH; apply IH; [done|cbn; lia]].
  destruct IH as (? & ? & Heq & Hl); [done|cbn; lia|]. rewrite Hb in Heq.
  split_and!; [done..|]. intros _. apply Hl. cbn. rewrite length_app. simpl. lia.
Qed.

Lemma huf_put_symbol e c :
  enc_ok e -> n_nbits e < 8 -> 0 < c < 256 ->
  let l := huf_len (Z.to_nat c) in
  let e' := HufEnc (Z.lor (u64 (Z.shiftl (n_acc e) l)) (huf_code (Z.to_nat c)))
              (u32 (n_nbits e + l)) (n_out e) in
  enc_ok e' /\ enc_bits e' = enc_bits e ++ sym_bits (Z.to_nat c).
Proof.
  intros (Hn & Ha & Ho) H8 Hc l e'. subst e'.
  destruct (huf_len_range (Z.to_nat c)) as [Hl Hcode]; [unfold HUF_SYMBOLS; lia|].
  fold l in Hl, Hcode. unfold HUF_MAX_LEN in Hl.
  pose proof (lor_shiftl_range (n_nbits e) l (n_acc e) 0 Ha ltac:(lia) ltac:(lia) ltac:(lia)) as Hs.
  pose proof (lor_shiftl_range (n_nbits e) l (n_acc e) _ Ha Hcode ltac:(lia) ltac:(lia)) as Hr.
  rewrite Z.lor_0_r in Hs.
  assert (2 ^ (n_nbits e + l) <= 2 ^ 37) by (apply Z.pow_le_mono_r; lia).
  rewrite u32_small by (unfold is_u32; lia). rewrite u64_small by (unfold is_u64; lia).
  split; [split_and!; cbn; [lia|lia|lia|lia|done]|].
  unfold enc_bits. cbn [n_out n_acc n_nbits]. rewrite <- app_assoc. f_equal.
  rewrite Z2Nat.inj_add by lia. rewrite <- (Z2Nat.id l) at 2 by lia.
  apply bits_of_lor. rewrite Z2Nat.id by lia. done.
Qed.

Lemma huf_encode_syms_spec cap e s :
  enc_ok e -> n_nbits e < 8 -> Z.of_nat (length (n_out e)) <= cap -> is_text s ->
  match huf_encode_syms cap e s with
  | Some e' => enc_ok e' /\ n_nbits e' < 8 /\ enc_bits e' = enc_bits e ++ text_bits s /\
               Z.of_nat (length (n_out e')) <= cap
  | None => 8 * cap + 8 <= Z.of_nat (length (enc_bits e ++ text_bits s))
  end.
Proof.
  intros He H8 Hcap Hs. revert e He H8 Hcap.
  induction Hs as [|c s Hc Hs IH]; intros e He H8 Hcap; cbn [huf_encode_syms].
  { rewrite app_nil_r. done. }
  rewrite (proj2 (Z.eqb_neq _ _)) by lia.
  destruct (huf_put_symbol e c He H8 Hc) as [He1 Hb1].
  match goal with |- context [huf_flush ?f cap ?x] =>
    pose proof (huf_flush_spec f cap x He1) as Hf end.
  specialize (Hf ltac:(destruct He1 as [[? ?] _]; cbn [n_nbits] in *; lia)).
  unfold text_bits, word_bits in *. rewrite fmap_cons, bind_cons, app_assoc, <- Hb1.
  destruct (huf_flush _ cap _) as [e2|]; cbn [mbind option_bind].
  - destruct Hf as (He2 & H82 & Hb2 & Hl2).
    rewrite <- Hb2. apply IH; auto.
  - rewrite length_app. lia.
Qed.

Lemma text_bits_length s :
  is_text s -> (5 * length s <= length (text_bits s))%nat.
Proof.
  induction 1 as [|c s Hc _ IH]; [simpl; lia|].
  unfold text_bits, word_bits in *. rewrite fmap_cons, bind_cons, length_app.
  unfold sym_bits at 1. rewrite length_bits_of. simpl length.
  destruct (huf_len_range (Z.to_nat c)); [unfold HUF_SYMBOLS; lia|]. lia.
Qed.

Lemma text_symbols s :
  is_text s ->
  Forall (fun x => x < HUF_SYMBOLS)%nat (Z.to_nat <$> s) /\
  ((fun x => u8 (Z.of_nat x)) <$> (Z.to_nat <$> s)) = s.
Proof.
  induction 1 as [|c s Hc _ [IH1 IH2]]; [done|]. rewrite !fmap_cons. split.
  - constructor; [unfold HUF_SYMBOLS; lia | done].
  - f_equal; [|done]. rewrite Z2Nat.id by lia. apply u8_small. unfold is_byte. lia.
Qed.

(** What the encoder writes: the code words, padded with ones to a byte. *)
Lemma huf_encode_spec cap s :
  0 <= cap -> is_text s ->
  match hpack_huffman_encode cap s with
  | Some bs => bytes_ok bs /\ Z.of_nat (length bs) <= cap /\
               exists p, huf_padding p /\ bytes_bits bs = text_bits s ++ p
  | None => 8 * cap < Z.of_nat (length (text_bits s))
  end.
Proof.
  intros Hcap Hs. unfold hpack_huffman_encode.
  pose proof (huf_encode_syms_spec cap (HufEnc 0 0 []) s
    ltac:(done) ltac:(done) Hcap Hs) as Hspec.
  change (enc_bits (HufEnc 0 0 [])) with (@nil bool) in Hspec. cbn [app] in Hspec.
  destruct (huf_encode_syms _ _ s) as [e|]; cbn [mbind option_bind]; [|lia].
  destruct Hspec as ((Hn & Ha & Ho) & H8 & Hb & Hl). destruct (0 <? n_nbits e) eqn:H0; bool_prop.
  - rewrite <- Hb. destruct (cap <=? _) eqn:Hc; bool_prop; [rewrite length_enc_bits; lia|].
    split_and!; [|rewrite length_app; simpl; lia|].
    { apply Forall_app. split; [done|]. constructor; [apply u8_range|done]. }
    exists (replicate (Z.to_nat (8 - n_nbits e)) true). split; [eexists; split; [|done]; lia|].
    rewrite bytes_bits_snoc, bits_of_u8. unfold enc_bits. rewrite <- app_assoc. f_equal.
    pose proof (lor_shiftl_range (n_nbits e) (8 - n_nbits e) (n_acc e) 0 Ha ltac:(lia) ltac:(lia) ltac:(lia)) as Hr.
    rewrite Z.lor_0_r in Hr. replace (n_nbits e + (8 - n_nbits e)) with 8 in Hr by lia.
    rewrite u64_small, u32_ones by (unfold is_u64; lia).
    replace 8%nat with (Z.to_nat (n_nbits e) + Z.to_nat (8 - n_nbits e))%nat by lia.
    rewrite <- (Z2Nat.id (8 - n_nbits e)) at 2 3 by lia.
    rewrite bits_of_lor, bits_of_ones; [done|lia|]. rewrite Z.ones_equiv. lia.
  - split_and!; [done|done|]. exists []. split; [by exists 0%nat; split; [lia|]|].
    rewrite app_nil_r, <- Hb. unfold enc_bits. replace (n_nbits e) with 0 by lia.
    by rewrite app_nil_r.
Qed.

Lemma huf_roundtrip cap s :
  0 <= cap -> is_text s ->
  if decide (Z.of_nat (length (text_bits s)) <= 8 * cap) then
    exists bs, hpack_huffman_encode cap s = Some bs /\ bytes_ok bs /\
      hpack_huffman_decode bs (Z.of_nat (length bs) * 8 / 5 + 8) = Some s
  else hpack_huffman_encode cap s = None.
Proof.
  intros Hcap Hs. pose proof (huf_encode_spec cap s Hcap Hs) as He.
  pose proof (text_bits_length s Hs) as Hlen. destruct (text_symbols s Hs) as [Hsym Hu8].
  destruct (hpack_huffman_encode cap s) as [bs|]; case_decide; [| |lia|done].
  - destruct He as (Hok & Hl & p & Hp & Hb). exists bs. split_and!; [done..|].
    assert (Hn : (8 * length bs = length (text_bits s) + length p)%nat)
      by (rewrite <- length_bytes_bits, Hb, length_app; done).
    apply huf_decode_iff; [|exists (Z.to_nat <$> s), p; split_and!; try done].
    + apply Z.add_nonneg_nonneg; [apply Z.div_pos|]; lia.
    + enough (Z.of_nat (length s) <= Z.of_nat (length bs) * 8 / 5) by lia.
      apply Z.div_le_lower_bound; lia.
  - destruct He as (_ & Hl & p & _ & Hb). apply (f_equal length) in Hb.
    rewrite length_bytes_bits, length_app in Hb. lia.
Qed.

(** Huffman coding a text and decoding the result gives the text back:
    the encoder succeeds exactly when the code words fit the buffer, and the
    decoder, given the scratch space that [decode_string] allocates for a
    coded string, returns the text and nothing else. *)
Theorem huffman_roundtrip cap s :
  0 <= cap -> is_text s ->
  if decide (Z.of_nat (length (text_bits s)) <= 8 * cap) then
    exists bs, hpack_huffman_encode cap s = Some bs /\ bytes_ok bs /\
      hpack_huffman_decode bs (Z.of_nat (length bs) * 8 / 5 + 8) = Some s
  else hpack_huffman_encode cap s = None.
Proof. exact (huf_roundtrip cap s). Qed.

Lemma huffman_roundtrip_witness :
  hpack_huffman_encode 64 [119; 119; 119; 46; 97; 46; 99; 111; 109] <> None.
Proof.
  assert (Hs : is_text [119; 119; 119; 46; 97; 46; 99; 111; 109])
    by (repeat constructor; lia).
  pose proof (huffman_roundtrip 64 _ ltac:(lia) Hs) as H. rewrite decide_True in H.
  - destruct H as (bs & -> & _). done.
  - apply (bool_decide_unpack _). vm_compute. exact I.
Defined.

(** The end-of-string symbol is not refused: its table entry is cut to a
    byte, so that four bytes of ones decode to a string of one zero byte. *)
Theorem huffman_accepts_eos : hpack_huffman_decode [255; 255; 255; 255] 8 = Some [0].
Proof. vm_compute. reflexivity. Qed.
