(* ===== verification/Hpack.v ===== *)
(** * HPACK: danos-mgmt hpack.h / hpack.c

    The header compression of the gNMI server's HTTP/2 connections: the
    static and the dynamic table, integers and strings, the encoder of
    literal headers and the block decoder.  The dynamic table is proved to
    follow the eviction rule of RFC 7541 section 4, the decoder to keep it
    well formed on every input and to return what the encoder was given.

    A position in the input is the list of the bytes not read yet.  Lengths
    are below 2^62, so that the sums of positions and lengths do not wrap. *)

From stdpp Require Import base decidable list numbers strings.
From Stdlib Require Import ZArith Lia.
From S2P Require Import Prelude CStr Huffman.

Definition HPACK_MAX_ENTRIES : Z := 128.
Definition HPACK_DEFAULT_TABLE_SIZE : Z := 4096.

Abbreviation header := (bytes * bytes)%type.

Definition k_static : list header :=
  [(lit ":authority", []);
   (lit ":method", lit "GET");
   (lit ":method", lit "POST");
   (lit ":path", lit "/");
   (lit ":path", lit "/index.html");
   (lit ":scheme", lit "http");
   (lit ":scheme", lit "https");
   (lit ":status", lit "200");
   (lit ":status", lit "204");
   (lit ":status", lit "206");
   (lit ":status", lit "304");
   (lit ":status", lit "400");
   (lit ":status", lit "404");
   (lit ":status", lit "500");
   (lit "accept-charset", []);
   (lit "accept-encoding", lit "gzip, deflate");
   (lit "accept-language", []);
   (lit "accept-ranges", []);
   (lit "accept", []);
   (lit "access-control-allow-origin", []);
   (lit "age", []);
   (lit "allow", []);
   (lit "authorization", []);
   (lit "cache-control", []);
   (lit "content-disposition", []);
   (lit "content-encoding", []);
   (lit "content-language", []);
   (lit "content-length", []);
   (lit "content-location", []);
   (lit "content-range", []);
   (lit "content-type", []);
   (lit "cookie", []);
   (lit "date", []);
   (lit "etag", []);
   (lit "expect", []);
   (lit "expires", []);
   (lit "from", []);
   (lit "host", []);
   (lit "if-match", []);
   (lit "if-modified-since", []);
   (lit "if-none-match", []);
   (lit "if-range", []);
   (lit "if-unmodified-since", []);
   (lit "last-modified", []);
   (lit "link", []);
   (lit "location", []);
   (lit "max-forwards", []);
   (lit "proxy-authenticate", []);
   (lit "proxy-authorization", []);
   (lit "range", []);
   (lit "referer", []);
   (lit "refresh", []);
   (lit "retry-after", []);
   (lit "server", []);
   (lit "set-cookie", []);
   (lit "strict-transport-security", []);
   (lit "transfer-encoding", []);
   (lit "user-agent", []);
   (lit "vary", []);
   (lit "via", []);
   (lit "www-authenticate", [])].

Definition HPACK_STATIC_COUNT : Z := Z.of_nat (length k_static).

(** ** The dynamic table *)

(** [entries[0 .. count)], the newest first. *)
Record hpack_dyn_table_t := mk_dyn {
  dt_entries : list header;
  dt_size : Z;
  dt_max_size : Z;
}.

Definition dt_count (t : hpack_dyn_table_t) : Z := Z.of_nat (length (dt_entries t)).

Definition hpack_dyn_init : hpack_dyn_table_t := mk_dyn [] 0 HPACK_DEFAULT_TABLE_SIZE.

(** The table is cleared, its limit included. *)
Definition hpack_dyn_free (t : hpack_dyn_table_t) : hpack_dyn_table_t := mk_dyn [] 0 0.

Definition entry_size (e : header) : Z := u64 (strlen e.1 + strlen e.2 + 32).

(** [while (t->size > t->max_size && t->count > 0)], on the entries from the
    oldest to the newest. *)
Fixpoint dyn_evict_loop (max : Z) (oldest : list header) (size : Z) : list header * Z :=
  match oldest with
  | [] => ([], size)
  | e :: rest =>
      if max <? size then dyn_evict_loop max rest (u64 (size - entry_size e))
      else (oldest, size)
  end.

Definition dyn_evict (t : hpack_dyn_table_t) : hpack_dyn_table_t :=
  let '(l, size) := dyn_evict_loop (dt_max_size t) (reverse (dt_entries t)) (dt_size t) in
  mk_dyn (reverse l) size (dt_max_size t).

Definition hpack_dyn_set_max_size (t : hpack_dyn_table_t) (max : Z) : hpack_dyn_table_t :=
  dyn_evict (mk_dyn (dt_entries t) (dt_size t) max).

Definition hpack_dyn_insert (t : hpack_dyn_table_t) (name value : bytes) (m : heap)
    : bool * hpack_dyn_table_t * heap :=
  if HPACK_MAX_ENTRIES <=? dt_count t then (false, t, m) else
  if dt_max_size t <? entry_size (name, value) then
    (true, mk_dyn [] 0 (dt_max_size t), m) else
  let '(a, m) := malloc m in
  let '(b, m) := malloc m in
  if negb a || negb b then (false, t, m) else
  (true, dyn_evict (mk_dyn ((name, value) :: dt_entries t)
                      (u64 (dt_size t + entry_size (name, value))) (dt_max_size t)), m).

Definition hpack_lookup_index (t : hpack_dyn_table_t) (index : Z) : option header :=
  if index =? 0 then None else
  if index <=? HPACK_STATIC_COUNT then k_static !! Z.to_nat (index - 1) else
  let d := u64 (index - HPACK_STATIC_COUNT - 1) in
  if dt_count t <=? d then None else dt_entries t !! Z.to_nat d.

(** ** Primitives *)

Definition prefix_mask (prefix_bits : Z) : Z := u8 (Z.shiftl 1 prefix_bits - 1).

Fixpoint decode_int_more (data : bytes) (v m : Z) : option (Z * bytes) :=
  match data with
  | [] => None
  | b :: data =>
      let v := u64 (v + u64 (Z.shiftl (Z.land b 127) m)) in
      let m := m + 7 in
      if Z.land b 128 =? 0 then Some (v, data) else
      if 56 <? m then None else decode_int_more data v m
  end.

(** The value and the input after it; [None] for [-1]. *)
Definition decode_int (data : bytes) (prefix_bits : Z) : option (Z * bytes) :=
  match data with
  | [] => None
  | b :: data =>
      let mask := prefix_mask prefix_bits in
      let v := Z.land b mask in
      if v <? mask then Some (v, data) else decode_int_more data v 0
  end.

(** [while (v >= 0x80)] and the last byte: [pos] bytes are written already.
    Ten turns are enough for 64 bits. *)
Fixpoint encode_int_more (fuel : nat) (cap pos v : Z) : option bytes :=
  if v <? 128 then Some [u8 v] else
  match fuel with
  | O => None
  | S fuel =>
      if cap <? pos + 2 then None else
      bs ← encode_int_more fuel cap (pos + 1) (Z.shiftr v 7);
      Some (u8 (Z.lor (Z.land v 127) 128) :: bs)
  end.

(** The bytes written to a buffer of [cap] bytes; [None] for [-1]. *)
Definition hpack_encode_int (cap v prefix_bits prefix_pattern : Z) : option bytes :=
  let mask := prefix_mask prefix_bits in
  if v <? mask then
    if cap <? 1 then None else Some [u8 (Z.lor prefix_pattern v)]
  else
    if cap <? 2 then None else
    bs ← encode_int_more 10 cap 1 (v - mask);
    Some (u8 (Z.lor prefix_pattern mask) :: bs).

Definition hpack_encode_string (cap : Z) (s : bytes) : option bytes :=
  let n := strlen s in
  k ← hpack_encode_int cap n 7 0;
  if cap <? strlen k + n then None else Some (k ++ s).

Definition hpack_encode_literal (cap : Z) (name value : bytes) : option bytes :=
  if cap <? 1 then None else
  k ← hpack_encode_string (cap - 1) name;
  let pos := 1 + strlen k in
  k' ← hpack_encode_string (cap - pos) value;
  Some (0 :: k ++ k').

(** ** The block decoder *)

(** The string and the input after it.  The caller uses the buffer as a C
    string. *)
Definition decode_string (data : bytes) (m : heap) : option (bytes * bytes) * heap :=
  match data with
  | [] => (None, m)
  | b :: _ =>
      let huffman := negb (Z.land b 128 =? 0) in
      match decode_int data 7 with
      | None => (None, m)
      | Some (n, data) =>
          if Z.of_nat (length data) <? n then (None, m) else
          let coded := take (Z.to_nat n) data in
          let rest := drop (Z.to_nat n) data in
          if huffman then
            let cap := n * 8 / 5 + 8 in
            let '(a, m) := malloc m in
            if negb a then (None, m) else
            match hpack_huffman_decode coded cap with
            | None => (None, m)
            | Some s =>
                let '(a, m) := malloc m in
                if negb a then (None, m) else (Some (c_str s, rest), m)
            end
          else
            let '(a, m) := malloc m in
            if negb a then (None, m) else (Some (c_str coded, rest), m)
      end
  end.

Section Decoder.

(** The callback and its user data; the callback answers [false] to stop. *)
Context {U : Type}.
Variable cb : bytes -> bytes -> U -> bool * U.

Record hpack_state := mk_hpack {
  h_dyn : hpack_dyn_table_t;
  h_user : U;
  h_heap : heap;
}.

(** The name of a literal: a string of the block, or a copy of the table's. *)
Definition literal_name (index : Z) (data : bytes) (t : hpack_dyn_table_t) (m : heap)
    : option (bytes * bytes) * heap :=
  if index =? 0 then decode_string data m else
  match hpack_lookup_index t index with
  | None => (None, m)
  | Some e =>
      let '(a, m) := malloc m in
      if negb a then (None, m) else (Some (e.1, data), m)
  end.

Definition call_cb (name value rest : bytes) (s : hpack_state) : option bytes * hpack_state :=
  let '(ok, u) := cb name value (h_user s) in
  (if ok then Some rest else None, mk_hpack (h_dyn s) u (h_heap s)).

(** A literal field, its index in a prefix of [prefix_bits]: the bytes after
    it, [None] when the block is refused. *)
Definition decode_literal (indexing : bool) (prefix_bits : Z) (data : bytes) (s : hpack_state)
    : option bytes * hpack_state :=
  match decode_int data prefix_bits with
  | None => (None, s)
  | Some (index, data) =>
      let '(name, m) := literal_name index data (h_dyn s) (h_heap s) in
      match name with
      | None => (None, mk_hpack (h_dyn s) (h_user s) m)
      | Some (name, data) =>
          let '(value, m) := decode_string data m in
          match value with
          | None => (None, mk_hpack (h_dyn s) (h_user s) m)
          | Some (value, data) =>
              let '(_, t, m) :=
                if indexing then hpack_dyn_insert (h_dyn s) name value m
                else (true, h_dyn s, m) in
              call_cb name value data (mk_hpack t (h_user s) m)
          end
      end
  end.

(** One turn of the loop of [hpack_decode]; [b] is the first byte. *)
Definition header_field (b : Z) (data : bytes) (s : hpack_state) : option bytes * hpack_state :=
  if negb (Z.land b 128 =? 0) then
    match decode_int data 7 with
    | None => (None, s)
    | Some (index, data) =>
        match hpack_lookup_index (h_dyn s) index with
        | None => (None, s)
        | Some e => call_cb e.1 e.2 data s
        end
    end
  else if Z.land b 192 =? 64 then decode_literal true 6 data s
  else if Z.land b 224 =? 32 then
    match decode_int data 5 with
    | None => (None, s)
    | Some (sz, data) =>
        (Some data, mk_hpack (hpack_dyn_set_max_size (h_dyn s) sz) (h_user s) (h_heap s))
    end
  else decode_literal false 4 data s.

(** [while (pos < len)]; [None] when the fuel runs out. *)
Fixpoint hpack_decode_loop (fuel : nat) (data : bytes) (s : hpack_state)
    : option (bool * hpack_state) :=
  match data with
  | [] => Some (true, s)
  | b :: _ =>
      match fuel with
      | O => None
      | S fuel =>
          match header_field b data s with
          | (None, s) => Some (false, s)
          | (Some data, s) => hpack_decode_loop fuel data s
          end
      end
  end.

(** Every turn reads at least a byte: the length of the block is fuel enough
    ([hpack_decode_terminates]). *)
Definition hpack_decode (data : bytes) (s : hpack_state) : option (bool * hpack_state) :=
  hpack_decode_loop (length data) data s.

End Decoder.

(** ** The table follows RFC 7541 section 4 *)

Definition esize (e : header) : Z := strlen e.1 + strlen e.2 + 32.
Definition esum (l : list header) : Z := foldr (fun e n => esize e + n) 0 l.

(** The newest entries that together fit [max] octets. *)
Fixpoint fit (max : Z) (l : list header) : list header :=
  match l with
  | [] => []
  | e :: l => if esize e <=? max then e :: fit (max - esize e) l else []
  end.

(** An entry whose strings a block of addressable size can hold. *)
Definition entry_small (e : header) : Prop := strlen e.1 <= 2 ^ 42 /\ strlen e.2 <= 2 ^ 42.

Record table_ok (t : hpack_dyn_table_t) : Prop := {
  to_size : dt_size t = esum (dt_entries t);
  to_max : dt_size t <= dt_max_size t < 2 ^ 64;
  to_count : dt_count t <= HPACK_MAX_ENTRIES;
  to_small : Forall entry_small (dt_entries t);
}.

Lemma esize_pos e : 32 <= esize e.
Proof. unfold esize, strlen. lia. Qed.

Lemma entry_small_esize e : entry_small e -> esize e <= 2 ^ 48.
Proof. unfold entry_small, esize. lia. Qed.

Lemma esum_nonneg l : 0 <= esum l.
Proof. induction l as [|e l IH]; simpl; [lia|]. pose proof (esize_pos e). lia. Qed.

Lemma esum_app l k : esum (l ++ k) = esum l + esum k.
Proof. induction l as [|e l IH]; simpl; lia. Qed.

Lemma esum_small l : Forall entry_small l -> esum l <= Z.of_nat (length l) * 2 ^ 48.
Proof.
  induction 1 as [|e l He%entry_small_esize _ IH]; simpl length; simpl esum; lia.
Qed.

Lemma entry_size_small e : entry_small e -> entry_size e = esize e.
Proof.
  intros H. unfold entry_size. fold (esize e). apply u64_small.
  pose proof (esize_pos e). apply entry_small_esize in H. unfold is_u64. lia.
Qed.

Lemma fit_all max l : esum l <= max -> fit max l = l.
Proof.
  revert max. induction l as [|e l IH]; intros max H; simpl in *; [done|].
  pose proof (esum_nonneg l). rewrite (proj2 (Z.leb_le _ _)) by lia.
  by rewrite IH by lia.
Qed.

Lemma fit_snoc max l x : max < esum (l ++ [x]) -> fit max (l ++ [x]) = fit max l.
Proof.
  revert max. induction l as [|e l IH]; intros max H; simpl in *.
  - rewrite (proj2 (Z.leb_gt _ _)) by lia. done.
  - case_match; [|done]. by rewrite IH by lia.
Qed.

Lemma fit_sum max l : 0 <= max -> esum (fit max l) <= max.
Proof.
  revert max. induction l as [|e l IH]; intros max H; simpl; [lia|].
  case_match; bool_prop; simpl; [|lia]. specialize (IH (max - esize e)). lia.
Qed.

Lemma fit_length max l : (length (fit max l) <= length l)%nat.
Proof.
  revert max. induction l as [|e l IH]; intros max; simpl; [lia|].
  case_match; simpl; [|lia]. specialize (IH (max - esize e)). lia.
Qed.

Lemma fit_small max l : Forall entry_small l -> Forall entry_small (fit max l).
Proof.
  intros H. revert max. induction H as [|e l He _ IH]; intros max; simpl; [constructor|].
  case_match; constructor; auto.
Qed.

Lemma dyn_evict_loop_fit max l :
  Forall entry_small l -> esum l < 2 ^ 64 ->
  dyn_evict_loop max (reverse l) (esum l) = (reverse (fit max l), esum (fit max l)).
Proof.
  induction l as [|x l IH] using rev_ind; intros Hs Hlt; [done|].
  apply Forall_app in Hs as [Hs [Hx _]%Forall_cons].
  pose proof (esize_pos x). pose proof (esum_nonneg l).
  assert (Hsum : esum (l ++ [x]) = esum l + esize x) by (rewrite esum_app; simpl; lia).
  rewrite reverse_snoc. cbn [dyn_evict_loop].
  destruct (max <? _) eqn:Hm; bool_prop.
  - rewrite entry_size_small, Hsum, Z.add_simpl_r by done.
    rewrite u64_small by (unfold is_u64; lia). rewrite IH by (done || lia).
    by rewrite fit_snoc.
  - rewrite fit_all by lia. by rewrite reverse_snoc.
Qed.

Lemma dyn_evict_fit l max :
  Forall entry_small l -> esum l < 2 ^ 64 ->
  dyn_evict (mk_dyn l (esum l) max) = mk_dyn (fit max l) (esum (fit max l)) max.
Proof.
  intros Hs Hl. unfold dyn_evict. cbn [dt_max_size dt_entries dt_size].
  by rewrite dyn_evict_loop_fit, reverse_involutive.
Qed.

Lemma fit_table_ok l max :
  0 <= max < 2 ^ 64 -> Forall entry_small l -> Z.of_nat (length l) <= HPACK_MAX_ENTRIES ->
  table_ok (mk_dyn (fit max l) (esum (fit max l)) max).
Proof.
  intros Hm Hs Hl. pose proof (fit_length max l). pose proof (fit_sum max l).
  split; unfold dt_count; cbn; [done|lia|lia|by apply fit_small].
Qed.

Lemma table_sum_bound t : table_ok t -> 0 <= esum (dt_entries t) <= 2 ^ 55.
Proof.
  intros [_ _ Hc Hs]. pose proof (esum_small _ Hs). pose proof (esum_nonneg (dt_entries t)).
  unfold dt_count, HPACK_MAX_ENTRIES in Hc. lia.
Qed.

Lemma set_max_size_spec t max :
  table_ok t ->
  hpack_dyn_set_max_size t max =
  mk_dyn (fit max (dt_entries t)) (esum (fit max (dt_entries t))) max.
Proof.
  intros Ht. pose proof (table_sum_bound t Ht). destruct Ht as [Hsz _ _ Hs].
  unfold hpack_dyn_set_max_size. rewrite Hsz. apply dyn_evict_fit; [done|lia].
Qed.

Lemma insert_spec t n v m :
  table_ok t -> entry_small (n, v) -> dt_count t < HPACK_MAX_ENTRIES ->
  Forall (fun a => a = true) (take 2 m) ->
  let l := fit (dt_max_size t) ((n, v) :: dt_entries t) in
  exists m', hpack_dyn_insert t n v m = (true, mk_dyn l (esum l) (dt_max_size t), m').
Proof.
  intros Ht Hnv Hc Hm l. pose proof (table_sum_bound t Ht). destruct Ht as [Hsz _ _ Hs].
  unfold hpack_dyn_insert. rewrite (proj2 (Z.leb_gt _ _)) by lia.
  rewrite entry_size_small by done. subst l. cbn [fit].
  destruct (_ <? esize _) eqn:Hbig; bool_prop.
  { rewrite (proj2 (Z.leb_gt _ _)) by lia. eauto. }
  rewrite (proj2 (Z.leb_le _ _)) by lia.
  assert (exists m', (let '(a, m1) := malloc m in malloc m1) = (true, m') /\
    (malloc m).1 = true) as (m' & Hma & Hmb).
  { destruct m as [|a [|b m]]; cbn in *; rewrite ?Forall_cons in Hm; naive_solver. }
  destruct (malloc m) as [a m1]. cbn in Hmb. subst a. rewrite Hma. cbn [negb orb].
  exists m'. do 2 f_equal. rewrite Hsz.
  pose proof (esize_pos (n, v)). pose proof (entry_small_esize _ Hnv).
  rewrite u64_small by (unfold is_u64; lia).
  replace (esum (dt_entries t) + esize (n, v)) with (esum ((n, v) :: dt_entries t)) by (simpl; lia).
  rewrite dyn_evict_fit; [|by constructor|simpl; lia].
  cbn [fit]. by rewrite (proj2 (Z.leb_le _ _)) by lia.
Qed.

(** Whatever the allocator answers. *)
Lemma insert_table_ok t n v m :
  table_ok t -> entry_small (n, v) -> table_ok (hpack_dyn_insert t n v m).1.2.
Proof.
  intros Ht Hnv. destruct (decide (HPACK_MAX_ENTRIES <= dt_count t)) as [Hc|Hc].
  { unfold hpack_dyn_insert. by rewrite (proj2 (Z.leb_le _ _)). }
  destruct (decide (Forall (fun a => a = true) (take 2 m))) as [Hm|Hm].
  - destruct (insert_spec t n v m Ht Hnv ltac:(lia) Hm) as (m' & ->). cbn.
    destruct Ht as [Hs Hmax Hcnt Hsm]. pose proof (esum_nonneg (dt_entries t)).
    apply (fit_table_ok ((n, v) :: dt_entries t)); [lia|by constructor|].
    unfold dt_count in *. simpl length. lia.
  - unfold hpack_dyn_insert. rewrite (proj2 (Z.leb_gt _ _)) by lia.
    destruct (_ <? entry_size _).
    { destruct Ht. pose proof (esum_nonneg (dt_entries t)).
      split; unfold dt_count, HPACK_MAX_ENTRIES; cbn; [done|lia|lia|constructor]. }
    destruct m as [|[] [|[] m]]; cbn in *; try done; exfalso; apply Hm; repeat constructor.
Qed.

Lemma set_max_table_ok t max :
  table_ok t -> 0 <= max < 2 ^ 64 -> table_ok (hpack_dyn_set_max_size t max).
Proof.
  intros Ht Hmax. rewrite set_max_size_spec by done. destruct Ht.
  by apply fit_table_ok.
Qed.

Lemma init_table_ok : table_ok hpack_dyn_init.
Proof. split; unfold dt_count; cbn; unfold HPACK_DEFAULT_TABLE_SIZE, HPACK_MAX_ENTRIES; [done|lia|lia|constructor]. Qed.

(** ** What the primitives read *)

Lemma decode_int_more_rest data v m x rest :
  decode_int_more data v m = Some (x, rest) ->
  is_u64 x /\ exists k, data = k ++ rest /\ k <> [].
Proof.
  revert v m. induction data as [|b data IH]; intros v m; [done|]. cbn -[u64 Z.shiftl].
  case_match.
  - intros [= <- <-]. split; [apply u64_range|]. by exists [b].
  - case_match; [done|]. intros (? & k & -> & ?)%IH. split; [done|]. by exists (b :: k).
Qed.

Lemma prefix_mask_range p : 0 <= prefix_mask p < 256.
Proof. apply u8_range. Qed.

Lemma decode_int_rest data p x rest :
  decode_int data p = Some (x, rest) -> is_u64 x /\ exists k, data = k ++ rest /\ k <> [].
Proof.
  destruct data as [|b data]; [done|]. cbn -[Z.land prefix_mask].
  pose proof (prefix_mask_range p).
  assert (0 <= Z.land b (prefix_mask p)) by (apply Z.land_nonneg; lia).
  case_match; bool_prop.
  - intros [= <- <-]. split; [unfold is_u64; lia|]. by exists [b].
  - intros (? & k & -> & ?)%decode_int_more_rest. split; [done|]. by exists (b :: k).
Qed.

Lemma huf_decode_length data cap s :
  0 <= cap -> hpack_huffman_decode data cap = Some s -> Z.of_nat (length s) <= cap.
Proof. intros Hc H. apply huf_decode_iff in H; naive_solver. Qed.

Lemma decode_string_rest data m s rest m' :
  decode_string data m = (Some (s, rest), m') ->
  (exists k, data = k ++ rest /\ k <> []) /\ strlen s <= 2 * Z.of_nat (length data) + 8.
Proof.
  unfold decode_string. destruct data as [|b data]; [done|].
  destruct (decode_int (b :: data) 7) as [[n d]|] eqn:Hd; [|done].
  apply decode_int_rest in Hd as (Hn & k & -> & Hk). unfold is_u64 in Hn.
  case_match; bool_prop; [done|]. rewrite length_app.
  assert (Hrest : exists k', k ++ d = k' ++ drop (Z.to_nat n) d /\ k' <> []).
  { exists (k ++ take (Z.to_nat n) d). rewrite <- app_assoc, take_drop.
    split; [done|]. by destruct k. }
  assert (n * 8 / 5 <= 2 * n) by (apply Z.div_le_upper_bound; lia).
  assert (0 <= n * 8 / 5) by (apply Z.div_pos; lia).
  destruct (negb _), (malloc m) as [[] m1]; cbn [negb]; try done.
  - destruct (hpack_huffman_decode _ _) as [s'|] eqn:Hs; [|done].
    apply huf_decode_length in Hs; [|lia]. pose proof (length_c_str s').
    destruct (malloc m1) as [[] m2]; [|done]. intros [= <- <- <-].
    split; [done|]. unfold strlen. lia.
  - intros [= <- <- <-]. split; [done|]. unfold strlen.
    pose proof (length_c_str (take (Z.to_nat n) d)). rewrite length_take in *. lia.
Qed.

(** ** The decoder on every input *)

Section DecoderFacts.

Context {U : Type}.
Variable cb : bytes -> bytes -> U -> bool * U.

(** [rest] is a proper suffix of [data]. *)
Definition reads (data rest : bytes) : Prop := exists k, data = k ++ rest /\ k <> [].

Lemma reads_length data rest : reads data rest -> (length rest < length data)%nat.
Proof.
  intros (k & -> & Hk). rewrite length_app. destruct k; [done|]. simpl. lia.
Qed.

Lemma reads_trans a b c : reads a b -> reads b c -> reads a c.
Proof.
  intros (k & -> & Hk) (l & -> & _). exists (k ++ l). rewrite app_assoc.
  split; [done|]. by destruct k.
Qed.

Lemma reads_app_weak a b c : reads a b -> b = c \/ reads b c -> reads a c.
Proof. intros H [<-|?]; [done|]. by eapply reads_trans. Qed.

Lemma static_small : Forall entry_small k_static.
Proof.
  assert (H : Forall (fun e => (length e.1 <= 64 /\ length e.2 <= 64)%nat) k_static)
    by (apply (bool_decide_unpack _); vm_compute; exact I).
  eapply Forall_impl; [exact H|]. intros e He. cbv beta in He. unfold entry_small, strlen. lia.
Qed.

Lemma lookup_small t index e :
  table_ok t -> hpack_lookup_index t index = Some e -> entry_small e.
Proof.
  intros [_ _ _ Hs] Hl. unfold hpack_lookup_index in Hl.
  repeat case_match; try done; (eapply Forall_lookup_1; [|exact Hl]);
    [apply static_small|exact Hs].
Qed.

Lemma literal_name_rest index data t m name rest m' :
  literal_name index data t m = (Some (name, rest), m') ->
  (rest = data \/ reads data rest) /\
  (table_ok t -> Z.of_nat (length data) <= 2 ^ 40 -> strlen name <= 2 ^ 42).
Proof.
  unfold literal_name. case_match.
  - intros [Hr Hs]%decode_string_rest. split; [by right|]. intros; lia.
  - destruct (hpack_lookup_index t index) as [e|] eqn:He; [|done].
    destruct (malloc m) as [[] m1]; [|done]. intros [= <- <- <-]. split; [by left|].
    intros Ht _. by destruct (lookup_small _ _ _ Ht He).
Qed.

Lemma call_cb_spec name value rest s :
  (forall d, (call_cb cb name value rest s).1 = Some d -> d = rest) /\
  h_dyn (call_cb cb name value rest s).2 = h_dyn s.
Proof. unfold call_cb. destruct (cb _ _ _) as [[] u]; cbn; naive_solver. Qed.

Lemma decode_literal_spec indexing p data s :
  (forall rest, (decode_literal cb indexing p data s).1 = Some rest -> reads data rest) /\
  (table_ok (h_dyn s) -> Z.of_nat (length data) <= 2 ^ 40 ->
   table_ok (h_dyn (decode_literal cb indexing p data s).2)).
Proof.
  unfold decode_literal. destruct (decode_int data p) as [[index d1]|] eqn:H1; [|done].
  apply decode_int_rest in H1 as [_ R1]. fold (reads data d1) in R1.
  pose proof (reads_length _ _ R1) as L1.
  destruct (literal_name _ _ _ _) as [[[name d2]|] m2] eqn:H2; [|done].
  apply literal_name_rest in H2 as [R2 Hname].
  assert (length d2 <= length d1)%nat by (destruct R2 as [->|?%reads_length]; lia).
  destruct (decode_string d2 m2) as [[[value d3]|] m3] eqn:H3; [|done].
  apply decode_string_rest in H3 as [R3 Hvalue]. fold (reads d2 d3) in R3.
  assert (R : reads data d3).
  { eapply reads_trans; [exact R1|]. destruct R2 as [->|R2]; [done|]. by eapply reads_trans. }
  set (ins := if indexing then _ else _).
  assert (Ht : table_ok (h_dyn s) -> Z.of_nat (length data) <= 2 ^ 40 -> table_ok ins.1.2).
  - intros Ht Hlen. subst ins. destruct indexing; [|done]. apply insert_table_ok; [done|].
    split; cbn; [apply Hname; [done|lia]|lia].
  - destruct ins as [[ok t] m].
    destruct (call_cb_spec name value d3 (mk_hpack t (h_user s) m)) as [Hc ->].
    split; [|done]. intros rest ->%Hc. done.
Qed.

Lemma decode_field_spec b data s :
  (forall rest, (header_field cb b data s).1 = Some rest -> reads data rest) /\
  (table_ok (h_dyn s) -> Z.of_nat (length data) <= 2 ^ 40 ->
   table_ok (h_dyn (header_field cb b data s).2)).
Proof.
  unfold header_field. case_match; [|case_match; [|case_match]];
    try apply decode_literal_spec;
    (destruct (decode_int _ _) as [[index d1]|] eqn:Hint; [|done]);
    apply decode_int_rest in Hint as [Hu R1]; fold (reads data d1) in R1.
  - destruct (hpack_lookup_index _ _) as [e|]; [|done].
    destruct (call_cb_spec e.1 e.2 d1 s) as [Hc ->]. split; [|done].
    by intros rest ->%Hc.
  - cbn. split; [by intros rest [= <-]|]. intros Ht _. by apply set_max_table_ok.
Qed.

Lemma hpack_decode_loop_total fuel data s :
  (length data <= fuel)%nat -> is_Some (hpack_decode_loop cb fuel data s).
Proof.
  revert data s. induction fuel as [|fuel IH]; intros [|b data] s Hf;
    [by eexists|simpl in Hf; lia|by eexists|]. cbn [hpack_decode_loop].
  destruct (decode_field_spec b (b :: data) s) as [Hr _].
  destruct (header_field _ _ _ _) as [[rest|] s']; [|by eexists].
  apply IH. specialize (Hr rest eq_refl). apply reads_length in Hr. simpl in *. lia.
Qed.

Lemma hpack_decode_loop_ok fuel data s r :
  table_ok (h_dyn s) -> Z.of_nat (length data) <= 2 ^ 40 ->
  hpack_decode_loop cb fuel data s = Some r -> table_ok (h_dyn r.2).
Proof.
  revert data s. induction fuel as [|fuel IH]; intros [|b data] s Ht Hl Hr;
    cbn [hpack_decode_loop] in Hr; [by simplify_eq/=|done|by simplify_eq/=|].
  destruct (decode_field_spec b (b :: data) s) as [Hrest Hok].
  destruct (header_field _ _ _ _) as [[rest|] s']; [|simplify_eq/=; auto].
  apply IH in Hr; [done|auto|]. specialize (Hrest rest eq_refl).
  apply reads_length in Hrest. lia.
Qed.

End DecoderFacts.

(** ** Round trips *)

Lemma encode_int_more_roundtrip fuel cap pos v acc m rest bs :
  0 <= v < 2 ^ (63 - m) -> 0 <= m <= 56 -> m mod 7 = 0 ->
  0 <= acc -> acc + v * 2 ^ m < 2 ^ 64 ->
  encode_int_more fuel cap pos v = Some bs ->
  decode_int_more (bs ++ rest) acc m = Some (acc + v * 2 ^ m, rest).
Proof.
  revert pos v acc m bs. induction fuel as [|fuel IH]; intros pos v acc m bs Hv Hm H7 Ha Hs He;
    cbn [encode_int_more] in He; destruct (v <? 128) eqn:H128; bool_prop; try done.
  1, 2: simplify_eq; destruct (septet v ltac:(lia)) as (_ & E1 & E2 & _);
    rewrite (u8_small v) by (unfold is_byte; lia);
    cbn [app decode_int_more]; rewrite E1, E2, Z.shiftl_mul_pow2 by lia;
    rewrite (u64_small (v * _)), u64_small by (unfold is_u64; nia); done.
  destruct (cap <? pos + 2); [done|].
  destruct (encode_int_more fuel cap (pos + 1) (Z.shiftr v 7)) as [bs'|] eqn:E; [|done].
  cbn [mbind option_bind] in He. simplify_eq.
  rewrite land_127. pose proof (Z.mod_pos_bound v 128 ltac:(lia)) as Hr.
  pose proof (Z.div_mod v 128 ltac:(lia)) as Hdm.
  destruct (septet (v mod 128) Hr) as (E0 & _ & _ & E3 & E4).
  rewrite E0, (u8_small (_ + 128)) by (unfold is_byte; lia).
  assert (Hm49 : m <= 49).
  { destruct (decide (m <= 49)); [done|]. assert (m = 56) as ->; [|change (2 ^ (63 - 56)) with 128 in Hv; lia].
    pose proof (Z.div_mod m 7 ltac:(lia)). lia. }
  assert (Hp : 0 < 2 ^ m) by (apply Z.pow_pos_nonneg; lia).
  assert (Hp7 : 2 ^ (m + 7) = 2 ^ m * 128) by (rewrite Z.pow_add_r by lia; done).
  assert (Hq : 2 ^ (63 - m) = 2 ^ (63 - (m + 7)) * 128)
    by (replace (63 - m) with (63 - (m + 7) + 7) by lia; rewrite Z.pow_add_r by lia; done).
  cbn [app decode_int_more]. rewrite E3, E4, Z.shiftl_mul_pow2 by lia.
  cbn [Z.eqb]. rewrite (proj2 (Z.ltb_ge 56 _)) by lia.
  rewrite (u64_small (_ * _)), u64_small by (unfold is_u64; nia).
  rewrite shiftr_7 in E.
  erewrite IH; [|..|exact E]; try lia.
  - f_equal. f_equal. rewrite Hp7. nia.
  - rewrite <- Z.add_mod_idemp_l, H7 by lia. done.
Qed.

(** The pattern bits do not disturb the prefix. *)
Definition prefix_ok (p pattern : Z) : Prop :=
  1 <= p <= 8 /\ is_byte pattern /\ Z.land pattern (prefix_mask p) = 0.

Lemma prefix_mask_ones p : 1 <= p <= 8 -> prefix_mask p = Z.ones p.
Proof.
  intros Hp. unfold prefix_mask. rewrite shiftl_1_ones by lia. apply u8_small.
  unfold is_byte. rewrite Z.ones_equiv.
  assert (2 ^ p <= 2 ^ 8) by (apply Z.pow_le_mono_r; lia). lia.
Qed.

Lemma prefix_byte p pattern v :
  prefix_ok p pattern -> 0 <= v <= prefix_mask p ->
  Z.land (u8 (Z.lor pattern v)) (prefix_mask p) = v.
Proof.
  intros (Hp & Hb & Hl) Hv. rewrite prefix_mask_ones in * by done.
  assert (v < 2 ^ p) by (rewrite Z.ones_equiv in Hv; lia).
  assert (2 ^ p <= 2 ^ 8) by (apply Z.pow_le_mono_r; lia).
  unfold u8. rewrite <- Z.land_ones, <- Z.land_assoc, (Z.land_comm (Z.ones 8)) by lia.
  rewrite (Z.land_ones (Z.ones p)), Z.mod_small by (rewrite ?Z.ones_equiv; lia).
  rewrite Z.land_lor_distr_l, Hl, Z.lor_0_l, Z.land_ones by lia.
  apply Z.mod_small. lia.
Qed.

Lemma int_roundtrip cap v p pattern rest bs :
  prefix_ok p pattern -> 0 <= v < 2 ^ 63 ->
  hpack_encode_int cap v p pattern = Some bs ->
  decode_int (bs ++ rest) p = Some (v, rest).
Proof.
  intros Hp Hv He. unfold hpack_encode_int in He. pose proof (prefix_mask_range p).
  destruct (v <? prefix_mask p) eqn:Hlt; bool_prop.
  - destruct (cap <? 1); [done|]. simplify_eq. cbn -[prefix_mask Z.land Z.lor u8].
    rewrite prefix_byte by (done || lia). by rewrite (proj2 (Z.ltb_lt _ _)).
  - destruct (cap <? 2); [done|].
    destruct (encode_int_more _ _ _ _) as [bs'|] eqn:E; [|done]. cbn in He. simplify_eq.
    cbn -[prefix_mask Z.land Z.lor u8 decode_int_more].
    rewrite prefix_byte, (proj2 (Z.ltb_ge _ _)) by (done || lia).
    erewrite encode_int_more_roundtrip; [| |..|exact E]; try lia; [|done].
    f_equal. f_equal. lia.
Qed.

(** Twelve bytes hold any integer. *)
Lemma encode_int_more_total fuel cap pos v :
  0 <= v < 128 ^ (Z.of_nat fuel + 1) -> pos + Z.of_nat fuel + 1 <= cap ->
  exists bs, encode_int_more fuel cap pos v = Some bs /\
    Z.of_nat (length bs) <= Z.of_nat fuel + 1 /\ bytes_ok bs.
Proof.
  revert pos v. induction fuel as [|fuel IH]; intros pos v Hv Hc; cbn [encode_int_more].
  { rewrite (proj2 (Z.ltb_lt _ _)) by (change (128 ^ (Z.of_nat 0 + 1)) with 128 in Hv; lia).
    exists [u8 v]. repeat constructor; try (simpl; lia); apply u8_range. }
  destruct (v <? 128) eqn:H128; bool_prop.
  { exists [u8 v]. split_and!; [done|simpl; lia|constructor; [apply u8_range|done]]. }
  rewrite (proj2 (Z.ltb_ge _ _)) by lia. rewrite shiftr_7.
  destruct (IH (pos + 1) (v / 128)) as (bs & -> & Hl & Hok); [|lia|].
  - split; [apply Z.div_pos; lia|]. apply Z.div_lt_upper_bound; [lia|].
    rewrite <- Z.pow_succ_r by lia. eapply Z.lt_le_trans; [apply Hv|].
    apply Z.eq_le_incl. f_equal. lia.
  - cbn [mbind option_bind]. eexists. split_and!; [done|simpl length; lia|].
    constructor; [apply u8_range|done].
Qed.

Lemma encode_int_total cap v p pattern :
  is_u64 v -> 12 <= cap ->
  exists bs, hpack_encode_int cap v p pattern = Some bs /\
    (1 <= length bs <= 12)%nat /\ bytes_ok bs.
Proof.
  intros Hv Hc. unfold hpack_encode_int. pose proof (prefix_mask_range p). unfold is_u64 in Hv.
  destruct (_ <? _) eqn:Hlt; bool_prop.
  - rewrite (proj2 (Z.ltb_ge _ _)) by lia. eexists. split_and!; [done|simpl; lia..|].
    constructor; [apply u8_range|done].
  - rewrite (proj2 (Z.ltb_ge _ _)) by lia.
    destruct (encode_int_more_total 10 cap 1 (v - prefix_mask p)) as (bs & -> & Hl & Hok).
    + change (128 ^ (Z.of_nat 10 + 1)) with (2 ^ 77). lia.
    + simpl. lia.
    + cbn [mbind option_bind]. eexists. split_and!; [done|simpl length in *; lia..|].
      constructor; [apply u8_range|done].
Qed.

Lemma encode_int_head cap v p pattern bs :
  hpack_encode_int cap v p pattern = Some bs ->
  exists bs', bs = u8 (Z.lor pattern (Z.min v (prefix_mask p))) :: bs'.
Proof.
  unfold hpack_encode_int. destruct (_ <? _) eqn:Hlt; bool_prop.
  - rewrite Z.min_l by lia. case_match; [done|]. intros [= <-]. eauto.
  - rewrite Z.min_r by lia. case_match; [done|].
    destruct (encode_int_more _ _ _ _); [|done]. intros [= <-]. eauto.
Qed.

(** A string whose length prefix is written with the pattern [pat]: the flag
    bit of the first byte and the length are read back. *)
Lemma decode_string_prefix cap n pat bs rest m :
  pat = 0 \/ pat = 128 -> 0 <= n < 2 ^ 62 -> hpack_encode_int cap n 7 pat = Some bs ->
  Z.of_nat (length rest) >= n ->
  decode_string (bs ++ rest) m =
  let coded := take (Z.to_nat n) rest in
  let rest := drop (Z.to_nat n) rest in
  if pat =? 128 then
    let '(a, m) := malloc m in
    if negb a then (None, m) else
    match hpack_huffman_decode coded (n * 8 / 5 + 8) with
    | None => (None, m)
    | Some s =>
        let '(a, m) := malloc m in
        if negb a then (None, m) else (Some (c_str s, rest), m)
    end
  else
    let '(a, m) := malloc m in
    if negb a then (None, m) else (Some (c_str coded, rest), m).
Proof.
  intros Hpat Hn He Hr. destruct (encode_int_head _ _ _ _ _ He) as [bs' Hbs].
  assert (Hok : prefix_ok 7 pat)
    by (split; [lia|]; unfold is_byte; destruct Hpat as [-> | ->]; split; [lia|done|lia|done]).
  pose proof (int_roundtrip cap n 7 pat rest bs Hok ltac:(lia) He) as Hi.
  change (prefix_mask 7) with 127 in Hbs.
  assert (Hflag : Z.land (u8 (Z.lor pat (Z.min n 127))) 128 = pat).
  { destruct (septet (Z.min n 127) ltac:(lia)) as (E0 & _ & E2 & _ & E4).
    destruct Hpat as [-> | ->].
    - rewrite Z.lor_0_l, u8_small by (unfold is_byte; lia). done.
    - rewrite Z.lor_comm, E0, u8_small by (unfold is_byte; lia). done. }
  rewrite Hbs in Hi |- *. cbn [app decode_string] in *. rewrite Hflag, Hi.
  rewrite (proj2 (Z.ltb_ge _ _)) by lia. destruct Hpat as [-> | ->]; reflexivity.
Qed.

Lemma string_roundtrip cap s bs rest :
  is_text s -> strlen s < 2 ^ 62 -> hpack_encode_string cap s = Some bs ->
  decode_string (bs ++ rest) [] = (Some (s, rest), []).
Proof.
  intros Hs Hl He. unfold hpack_encode_string in He. unfold strlen in *.
  destruct (hpack_encode_int cap _ 7 0) as [k|] eqn:Ek; [|done]. cbn [mbind option_bind] in He.
  case_match; [done|]. simplify_eq. rewrite <- app_assoc.
  rewrite (decode_string_prefix cap (Z.of_nat (length s)) 0 k _ _ (or_introl eq_refl) ltac:(lia) Ek)
    by (rewrite length_app; lia).
  cbn. rewrite Nat2Z.id, take_app_length, drop_app_length. by rewrite c_str_id.
Qed.

Lemma huffman_string_roundtrip cap s coded k rest :
  is_text s -> hpack_huffman_encode cap s = Some coded -> 0 <= cap < 2 ^ 62 ->
  hpack_encode_int cap (strlen coded) 7 128 = Some k ->
  decode_string (k ++ coded ++ rest) [] = (Some (s, rest), []).
Proof.
  intros Hs He Hc Ek. pose proof (huf_encode_spec cap s ltac:(lia) Hs) as Hsp.
  pose proof (huf_roundtrip cap s ltac:(lia) Hs) as Hrt. rewrite He in Hsp.
  destruct Hsp as (_ & Hlen & _). case_decide; [|by rewrite He in Hrt].
  destruct Hrt as (bs & Hbs & _ & Hd). rewrite He in Hbs. injection Hbs as <-. unfold strlen in *.
  rewrite (decode_string_prefix cap (Z.of_nat (length coded)) 128 k _ _ (or_intror eq_refl) ltac:(lia) Ek)
    by (rewrite length_app; lia).
  cbn -[hpack_huffman_decode]. rewrite Nat2Z.id, take_app_length, drop_app_length, Hd.
  cbn. by rewrite c_str_id.
Qed.

Section Headers.

Context {U : Type}.
Variable cb : bytes -> bytes -> U -> bool * U.

(** The callbacks a list of headers makes, up to the first refusal. *)
Fixpoint feed (hs : list header) (u : U) : bool * U :=
  match hs with
  | [] => (true, u)
  | h :: hs => let '(ok, u) := cb h.1 h.2 u in if ok then feed hs u else (false, u)
  end.

Definition header_text (h : header) : Prop :=
  is_text h.1 /\ is_text h.2 /\ strlen h.1 < 2 ^ 62 /\ strlen h.2 < 2 ^ 62.

(** The block [bs] is [h] as [hpack_encode_literal] writes it into some
    buffer. *)
Definition encodes (h : header) (bs : bytes) : Prop :=
  exists cap, hpack_encode_literal cap h.1 h.2 = Some bs.

Lemma decode_field_literal h bs rest s :
  header_text h -> encodes h bs -> h_heap s = [] ->
  exists bs', bs = 0 :: bs' /\
  header_field cb 0 (bs ++ rest) s =
    let '(ok, u) := cb h.1 h.2 (h_user s) in
    (if ok then Some rest else None, mk_hpack (h_dyn s) u []).
Proof.
  intros (Ht1 & Ht2 & Hl1 & Hl2) (cap & He) Hm. unfold hpack_encode_literal in He.
  case_match; [done|].
  destruct (hpack_encode_string _ h.1) as [k1|] eqn:E1; [|done]. cbn [mbind option_bind] in He.
  destruct (hpack_encode_string _ h.2) as [k2|] eqn:E2; [|done]. cbn [mbind option_bind] in He.
  simplify_eq. exists (k1 ++ k2). split; [done|].
  unfold header_field. cbn [Z.land Z.eqb negb]. unfold decode_literal.
  change (decode_int ((0 :: k1 ++ k2) ++ rest) 4) with (Some (0, (k1 ++ k2) ++ rest)).
  rewrite Hm, <- app_assoc. unfold literal_name. cbn [Z.eqb].
  rewrite (string_roundtrip _ _ _ _ Ht1 Hl1 E1), (string_roundtrip _ _ _ _ Ht2 Hl2 E2).
  unfold call_cb. cbn [h_user h_dyn h_heap]. by destruct (cb _ _ _) as [[] u].
Qed.

Lemma encodes_length hs blks :
  Forall2 encodes hs blks -> (length hs <= length (mjoin blks))%nat.
Proof.
  induction 1 as [|h bs hs blks (cap & He) _ IH]; [done|].
  change (mjoin (bs :: blks)) with (bs ++ mjoin blks). rewrite length_app.
  unfold hpack_encode_literal in He. case_match; [done|].
  destruct (hpack_encode_string _ h.1); [|done]. cbn [mbind option_bind] in He.
  destruct (hpack_encode_string _ h.2); [|done]. cbn in He. simplify_eq. simpl. lia.
Qed.

Lemma decode_headers hs blks fuel s :
  Forall2 encodes hs blks -> Forall header_text hs -> h_heap s = [] ->
  (length hs <= fuel)%nat ->
  hpack_decode_loop cb fuel (mjoin blks) s =
  Some ((feed hs (h_user s)).1, mk_hpack (h_dyn s) (feed hs (h_user s)).2 []).
Proof.
  intros H. revert s fuel. induction H as [|h bs hs blks He _ IH]; intros s fuel Ht Hm Hf.
  { destruct s; cbn in Hm; subst. by destruct fuel. }
  apply Forall_cons in Ht as [Hh Ht]. simpl in Hf. destruct fuel as [|fuel]; [lia|].
  destruct (decode_field_literal h bs (mjoin blks) s Hh He Hm) as (bs' & -> & Hd).
  change (mjoin ((0 :: bs') :: blks)) with (0 :: bs' ++ mjoin blks).
  cbn [hpack_decode_loop]. cbn [app] in Hd. rewrite Hd. cbn [feed].
  destruct (cb h.1 h.2 (h_user s)) as [[] u]; [|done].
  rewrite IH by (done || lia). done.
Qed.

End Headers.

(** ** Properties *)

(** C17. Headers written one after another by [hpack_encode_literal], whatever
    the buffers they were written to, decode to the same headers in the same
    order: the callback sees each name and value once, up to the first one it
    refuses, and the dynamic table is not touched. *)
Theorem hpack_headers_roundtrip {U} (cb : bytes -> bytes -> U -> bool * U) hs blks s :
  Forall2 encodes hs blks -> Forall header_text hs -> h_heap s = [] ->
  hpack_decode cb (mjoin blks) s =
  Some ((feed cb hs (h_user s)).1, mk_hpack (h_dyn s) (feed cb hs (h_user s)).2 []).
Proof.
  intros He Ht Hm. apply decode_headers; [done..|].
  apply (encodes_length hs blks He).
Qed.

Lemma hpack_headers_roundtrip_witness :
  hpack_decode (fun n v l => (true, l ++ [(n, v)]))
    (0 :: 7 :: lit ":status" ++ 3 :: lit "200") (mk_hpack hpack_dyn_init [] []) =
  Some (true, mk_hpack hpack_dyn_init [(lit ":status", lit "200")] []).
Proof.
  refine (hpack_headers_roundtrip (fun n v l => (true, l ++ [(n, v)]))
    [(lit ":status", lit "200")] [0 :: 7 :: lit ":status" ++ 3 :: lit "200"]
    (mk_hpack hpack_dyn_init [] []) _ _ eq_refl).
  - constructor; [|constructor]. exists 64. vm_compute. reflexivity.
  - constructor; [|constructor]. apply (bool_decide_unpack _). vm_compute. exact I.
Defined.

(** A string is read back from either of its encodings, the plain one of
    [hpack_encode_string] and the Huffman-coded one with its flag bit. *)
Theorem hpack_string_roundtrip cap s rest :
  is_text s -> 0 <= cap < 2 ^ 62 ->
  (forall bs, hpack_encode_string cap s = Some bs ->
    decode_string (bs ++ rest) [] = (Some (s, rest), [])) /\
  (forall coded k, hpack_huffman_encode cap s = Some coded ->
    hpack_encode_int cap (strlen coded) 7 128 = Some k ->
    decode_string (k ++ coded ++ rest) [] = (Some (s, rest), [])).
Proof.
  intros Hs Hc. split.
  - intros bs He. eapply string_roundtrip; [done| |done].
    unfold hpack_encode_string in He. destruct (hpack_encode_int _ _ _ _); [|done].
    cbn in He. case_match; [done|]. bool_prop. unfold strlen in *. lia.
  - intros coded k He Hk. by eapply huffman_string_roundtrip.
Qed.

Lemma hpack_string_roundtrip_witness :
  decode_string (4 :: lit "grpc") [] = (Some (lit "grpc", []), []) /\
  decode_string [131; 154; 202; 201] [] = (Some (lit "grpc", []), []).
Proof.
  destruct (hpack_string_roundtrip 64 (lit "grpc") []) as [H1 H2].
  - apply (bool_decide_unpack _). vm_compute. exact I.
  - lia.
  - split; [apply (H1 (4 :: lit "grpc")) | apply (H2 [154; 202; 201] [131])];
      vm_compute; reflexivity.
Defined.

(** Decoding terminates on every block and keeps the dynamic table well
    formed, whatever the block holds and the allocator answers: the recorded
    size is the sum of the entries' sizes and stays within the limit, and
    there are never more entries than slots. *)
Theorem hpack_decode_total {U} (cb : bytes -> bytes -> U -> bool * U) data s :
  table_ok (h_dyn s) -> Z.of_nat (length data) <= 2 ^ 40 ->
  exists ok s', hpack_decode cb data s = Some (ok, s') /\ table_ok (h_dyn s').
Proof.
  intros Ht Hl. destruct (hpack_decode_loop_total cb (length data) data s) as [[ok s'] Hr];
    [lia|]. exists ok, s'. split; [done|].
  by apply (hpack_decode_loop_ok cb _ _ _ _ Ht Hl) in Hr.
Qed.

Lemma hpack_decode_total_witness :
  exists ok s', hpack_decode (fun n v (l : list header) => (true, l ++ [(n, v)]))
    [64; 1; 97; 1; 98; 190; 32; 255] (mk_hpack hpack_dyn_init [] []) = Some (ok, s') /\
    table_ok (h_dyn s').
Proof.
  apply (hpack_decode_total (fun n v (l : list header) => (true, l ++ [(n, v)]))
    [64; 1; 97; 1; 98; 190; 32; 255] (mk_hpack hpack_dyn_init [] []));
    [apply init_table_ok | simpl; lia].
Defined.

(** The dynamic table follows the eviction rule of RFC 7541: inserting
    into a table with a free slot, or changing its limit, keeps the longest
    run of newest entries whose sizes fit the limit, and nothing when the new
    entry alone does not fit. *)
Theorem hpack_table_eviction t n v max m :
  table_ok t -> entry_small (n, v) -> dt_count t < HPACK_MAX_ENTRIES ->
  Forall (fun a => a = true) (take 2 m) ->
  (let l := fit (dt_max_size t) ((n, v) :: dt_entries t) in
   (hpack_dyn_insert t n v m).1 = (true, mk_dyn l (esum l) (dt_max_size t))) /\
  (let l := fit max (dt_entries t) in
   hpack_dyn_set_max_size t max = mk_dyn l (esum l) max).
Proof.
  intros Ht Hnv Hc Hm. split; [|by apply set_max_size_spec].
  by destruct (insert_spec t n v m Ht Hnv Hc Hm) as (m' & ->).
Qed.

Lemma hpack_table_eviction_witness :
  dt_entries (hpack_dyn_insert (mk_dyn [(lit "a", lit "b")] 34 40) (lit "c") (lit "d") []).1.2 =
  [(lit "c", lit "d")].
Proof.
  destruct (hpack_table_eviction (mk_dyn [(lit "a", lit "b")] 34 40) (lit "c") (lit "d") 40 [])
    as [H _].
  - split; unfold dt_count, HPACK_MAX_ENTRIES; cbn; [done|lia|lia|].
    constructor; [|constructor]. unfold entry_small, strlen. simpl. lia.
  - unfold entry_small, strlen. simpl. lia.
  - unfold dt_count, HPACK_MAX_ENTRIES. simpl. lia.
  - constructor.
  - rewrite H. vm_compute. reflexivity.
Defined.

(** A table with all its 128 slots taken refuses new entries even when
    the size limit would make room by evicting: with 128 empty headers in the
    default table the next insertion does nothing, where the eviction rule
    keeps the new entry and drops the oldest ones. *)
Theorem hpack_full_table_stuck :
  let t := mk_dyn (replicate 128 ([], [])) 4096 HPACK_DEFAULT_TABLE_SIZE in
  table_ok t /\
  hpack_dyn_insert t (lit "a") [] [] = (false, t, []) /\
  fit (dt_max_size t) ((lit "a", []) :: dt_entries t) =
    (lit "a", []) :: replicate 126 ([], []).
Proof.
  cbv zeta. split_and!; [|vm_compute; reflexivity..].
  split; [vm_compute; reflexivity | cbn; unfold HPACK_DEFAULT_TABLE_SIZE; lia
         | vm_compute; discriminate |].
  apply Forall_replicate. unfold entry_small, strlen. simpl. lia.
Qed.
