(* ===== verification/Proto.v ===== *)
(** * The gNMI protobuf codec: danos-mgmt gnmi_proto.h / gnmi_proto.c

    The proto3 writer and reader of the gNMI server, and the messages it
    encodes and decodes.  The writer appends to a buffer of fixed capacity and
    raises a flag on overflow; the reader keeps a 64-bit position, so that the
    wrap-around of its bound check is visible.  Reading outside the message is
    the outcome [Fault], a loop that needs more turns than its fuel the
    outcome [Spin].

    A [char] array of the source is the C string it holds. *)

From stdpp Require Import base decidable list numbers strings.
From Stdlib Require Import ZArith Lia.
From S2P Require Import Prelude CStr.

Definition GNMI_MAX_ELEMS : nat := 8.
Definition GNMI_MAX_UPDATES : nat := 16.
Definition GNMI_MAX_NAME : Z := 64.
Definition GNMI_MAX_VAL : Z := 256.
Definition GNMI_MAX_ORIGIN : Z := 32.

(** ** Messages *)

Record gnmi_path_elem_t := mk_elem {
  pe_name : bytes;
  pe_has_key : bool;
  pe_key_name : bytes;
  pe_key_value : bytes;
}.

(** [elems[0 .. elem_count)]. *)
Record gnmi_path_t := mk_path {
  p_origin : bytes;
  p_elems : list gnmi_path_elem_t;
}.

Inductive gnmi_val_kind_t :=
  | GNMI_VAL_UNSET | GNMI_VAL_STRING | GNMI_VAL_INT | GNMI_VAL_UINT | GNMI_VAL_BOOL
  | GNMI_VAL_JSON | GNMI_VAL_JSON_IETF | GNMI_VAL_ASCII.

#[export] Instance val_kind_eq_dec : EqDecision gnmi_val_kind_t.
Proof. solve_decision. Defined.

Definition val_kind_code (k : gnmi_val_kind_t) : Z :=
  match k with
  | GNMI_VAL_UNSET => 0 | GNMI_VAL_STRING => 1 | GNMI_VAL_INT => 2
  | GNMI_VAL_UINT => 3 | GNMI_VAL_BOOL => 4 | GNMI_VAL_JSON => 10
  | GNMI_VAL_JSON_IETF => 11 | GNMI_VAL_ASCII => 12
  end.

Record gnmi_typed_value_t := mk_val {
  v_kind : gnmi_val_kind_t;
  v_s : bytes;
  v_i : Z;
  v_u : Z;
  v_b : bool;
}.

Record gnmi_update_t := mk_update {
  u_path : gnmi_path_t;
  u_val : gnmi_typed_value_t;
}.

(** [updates[0 .. update_count)]. *)
Record gnmi_notification_t := mk_notification {
  n_timestamp : Z;
  n_updates : list gnmi_update_t;
}.

Record gnmi_get_request_t := mk_get {
  g_prefix : gnmi_path_t;
  g_paths : list gnmi_path_t;
  g_data_type : Z;
  g_encoding : Z;
}.

Record gnmi_set_request_t := mk_set {
  s_prefix : gnmi_path_t;
  s_deletes : list gnmi_path_t;
  s_updates : list gnmi_update_t;
  s_replaces : list gnmi_update_t;
}.

(** One [UpdateResult] per operation: [result_paths] and [ops]. *)
Record gnmi_set_response_t := mk_set_resp {
  sr_prefix : gnmi_path_t;
  sr_results : list (gnmi_path_t * Z);
  sr_timestamp : Z;
}.

Record gnmi_subscribe_request_t := mk_subscribe {
  sb_subs : list gnmi_path_t;
  sb_mode : Z;
  sb_encoding : Z;
  sb_updates_only : bool;
  sb_is_poll : bool;
}.

Record gnmi_model_data_t := mk_model {
  m_name : bytes;
  m_organization : bytes;
  m_version : bytes;
}.

Definition path0 : gnmi_path_t := mk_path [] [].
Definition val0 : gnmi_typed_value_t := mk_val GNMI_VAL_UNSET [] 0 0 false.

(** ** Writer *)

(** The first [len] bytes of the buffer, its capacity and the overflow flag. *)
Record gnmi_pb_t := mk_pb {
  w_data : bytes;
  w_cap : Z;
  w_overflow : bool;
}.

Definition w_len (w : gnmi_pb_t) : Z := Z.of_nat (length (w_data w)).

Definition gnmi_pb_init (cap : Z) : gnmi_pb_t := mk_pb [] cap false.

Definition pb_write (w : gnmi_pb_t) (p : bytes) : gnmi_pb_t :=
  if w_cap w <? w_len w + strlen p then mk_pb (w_data w) (w_cap w) true
  else mk_pb (w_data w ++ p) (w_cap w) (w_overflow w).

(** [while (v >= 0x80)], ten turns at most for 64 bits. *)
Fixpoint varint (fuel : nat) (v : Z) : bytes :=
  if v <? 128 then [u8 v] else
  match fuel with
  | O => []
  | S fuel => u8 (Z.lor v 128) :: varint fuel (Z.shiftr v 7)
  end.

Definition gnmi_pb_put_varint (w : gnmi_pb_t) (v : Z) : gnmi_pb_t :=
  pb_write w (varint 10 v).

Definition gnmi_pb_put_tag (w : gnmi_pb_t) (field wire : Z) : gnmi_pb_t :=
  gnmi_pb_put_varint w (Z.lor (Z.shiftl field 3) wire).

Definition gnmi_pb_put_len_delim (w : gnmi_pb_t) (field : Z) (data : bytes) : gnmi_pb_t :=
  let w := gnmi_pb_put_tag w field 2 in
  let w := gnmi_pb_put_varint w (strlen data) in
  pb_write w data.

Definition gnmi_pb_put_string (w : gnmi_pb_t) (field : Z) (s : option bytes) : gnmi_pb_t :=
  gnmi_pb_put_len_delim w field (default [] s).

Definition gnmi_pb_put_uint64 (w : gnmi_pb_t) (field v : Z) : gnmi_pb_t :=
  if v =? 0 then w else gnmi_pb_put_varint (gnmi_pb_put_tag w field 0) v.

Definition gnmi_pb_put_bool (w : gnmi_pb_t) (field : Z) (v : bool) : gnmi_pb_t :=
  if negb v then w else gnmi_pb_put_varint (gnmi_pb_put_tag w field 0) 1.

(** The sign-extended value as 64 bits. *)
Definition gnmi_pb_put_enum (w : gnmi_pb_t) (field v : Z) : gnmi_pb_t :=
  if v =? 0 then w else gnmi_pb_put_varint (gnmi_pb_put_tag w field 0) (u64 v).

(** The position of the length byte, and the writer after it. *)
Definition gnmi_pb_begin_nested (w : gnmi_pb_t) (field : Z) : Z * gnmi_pb_t :=
  let w := gnmi_pb_put_tag w field 2 in
  (w_len w, pb_write w [0]).

Definition pb_fix_len (w : gnmi_pb_t) (saved : Z) : gnmi_pb_t :=
  let body := u64 (w_len w - saved - 1) in
  let at_ := Z.to_nat saved in
  if body <? 128 then
    mk_pb (<[at_ := u8 body]> (w_data w)) (w_cap w) (w_overflow w)
  else if w_cap w <? u64 (saved + 1 + body + 1) then
    mk_pb (w_data w) (w_cap w) true
  else
    mk_pb (take at_ (w_data w) ++ [u8 (Z.lor body 128); u8 (Z.shiftr body 7)] ++
           drop (at_ + 1) (w_data w)) (w_cap w) (w_overflow w).

Definition gnmi_pb_end_nested (w : gnmi_pb_t) (saved : Z) : gnmi_pb_t := pb_fix_len w saved.

(** A message written between [begin_nested] and [end_nested]. *)
Definition pb_nested (field : Z) (body : gnmi_pb_t -> gnmi_pb_t) (w : gnmi_pb_t) : gnmi_pb_t :=
  let '(saved, w) := gnmi_pb_begin_nested w field in
  gnmi_pb_end_nested (body w) saved.

(** A loop over an array, one write after another. *)
Definition pb_each {A} (f : gnmi_pb_t -> A -> gnmi_pb_t) (xs : list A) (w : gnmi_pb_t)
    : gnmi_pb_t := foldl f w xs.

(** ** Encoders *)

Definition put_str (field : Z) (s : bytes) (w : gnmi_pb_t) : gnmi_pb_t :=
  gnmi_pb_put_string w field (Some s).

(** The body of the loop of [gnmi_encode_path]: one [PathElem]. *)
Definition encode_elem (w : gnmi_pb_t) (e : gnmi_path_elem_t) : gnmi_pb_t :=
  pb_nested 3 (fun w =>
    let w := put_str 1 (pe_name e) w in
    if pe_has_key e then
      pb_nested 2 (fun w => put_str 2 (pe_key_value e) (put_str 1 (pe_key_name e) w)) w
    else w) w.

Definition gnmi_encode_path (w : gnmi_pb_t) (field : Z) (path : option gnmi_path_t) : gnmi_pb_t :=
  match path with
  | None => w
  | Some path =>
      pb_nested field (fun w =>
        let w := if bool_decide (p_origin path = []) then w else put_str 2 (p_origin path) w in
        pb_each encode_elem (p_elems path) w) w
  end.

Definition encode_scalar (val : gnmi_typed_value_t) (w : gnmi_pb_t) : gnmi_pb_t :=
  match v_kind val with
  | GNMI_VAL_STRING | GNMI_VAL_JSON | GNMI_VAL_JSON_IETF | GNMI_VAL_ASCII =>
      put_str (val_kind_code (v_kind val)) (v_s val) w
  | GNMI_VAL_INT => gnmi_pb_put_varint (gnmi_pb_put_tag w 2 0) (u64 (v_i val))
  | GNMI_VAL_UINT => gnmi_pb_put_uint64 w 3 (v_u val)
  | GNMI_VAL_BOOL => gnmi_pb_put_varint (gnmi_pb_put_tag w 4 0) (b2z (v_b val))
  | GNMI_VAL_UNSET => w
  end.

Definition gnmi_encode_typed_value (w : gnmi_pb_t) (field : Z)
    (val : option gnmi_typed_value_t) : gnmi_pb_t :=
  match val with
  | None => w
  | Some val =>
      if bool_decide (v_kind val = GNMI_VAL_UNSET) then w
      else pb_nested field (encode_scalar val) w
  end.

Definition encode_update (field : Z) (w : gnmi_pb_t) (u : gnmi_update_t) : gnmi_pb_t :=
  pb_nested field (fun w =>
    gnmi_encode_typed_value (gnmi_encode_path w 1 (Some (u_path u))) 3 (Some (u_val u))) w.

Definition gnmi_encode_notification (field : Z) (w : gnmi_pb_t) (n : gnmi_notification_t)
    : gnmi_pb_t :=
  pb_nested field (fun w =>
    pb_each (encode_update 4) (n_updates n) (gnmi_pb_put_uint64 w 1 (n_timestamp n))) w.

Definition gnmi_encode_get_response (w : gnmi_pb_t) (notifs : list gnmi_notification_t)
    : bool * gnmi_pb_t :=
  let w := pb_each (gnmi_encode_notification 1) notifs w in (negb (w_overflow w), w).

Definition encode_update_result (w : gnmi_pb_t) (r : gnmi_path_t * Z) : gnmi_pb_t :=
  pb_nested 2 (fun w => gnmi_pb_put_enum (gnmi_encode_path w 2 (Some r.1)) 4 r.2) w.

Definition gnmi_encode_set_response (w : gnmi_pb_t) (resp : gnmi_set_response_t)
    : bool * gnmi_pb_t :=
  let w := if bool_decide (p_elems (sr_prefix resp) = []) then w
           else gnmi_encode_path w 1 (Some (sr_prefix resp)) in
  let w := pb_each encode_update_result (sr_results resp) w in
  let w := gnmi_pb_put_uint64 w 4 (sr_timestamp resp) in
  (negb (w_overflow w), w).

Definition encode_model (w : gnmi_pb_t) (m : gnmi_model_data_t) : gnmi_pb_t :=
  pb_nested 1 (fun w =>
    put_str 3 (m_version m) (put_str 2 (m_organization m) (put_str 1 (m_name m) w))) w.

Definition gnmi_encode_capabilities_response (w : gnmi_pb_t) (models : list gnmi_model_data_t)
    (encodings : list Z) (gnmi_version : bytes) : bool * gnmi_pb_t :=
  let w := pb_each encode_model models w in
  let w := pb_each (fun w e => gnmi_pb_put_enum w 2 e) encodings w in
  let w := put_str 3 gnmi_version w in
  (negb (w_overflow w), w).

Definition gnmi_encode_subscribe_update (w : gnmi_pb_t) (n : gnmi_notification_t)
    : bool * gnmi_pb_t :=
  let w := gnmi_encode_notification 1 w n in (negb (w_overflow w), w).

Definition gnmi_encode_subscribe_sync (w : gnmi_pb_t) : bool * gnmi_pb_t :=
  let w := gnmi_pb_put_bool w 3 true in (negb (w_overflow w), w).

(** ** Reader *)

Inductive outcome (A : Type) :=
  | Ret (a : A)
  | Fault
  | Spin.
#[global] Arguments Ret {_} _.
#[global] Arguments Fault {_}.
#[global] Arguments Spin {_}.

#[export] Instance outcome_bind : MBind outcome := fun A B f m =>
  match m with Ret a => f a | Fault => Fault | Spin => Spin end.

(** The memory from [p] on, of which [len] bytes are the message. *)
Record gnmi_pb_reader_t := mk_reader {
  r_p : bytes;
  r_len : Z;
  r_pos : Z;
  r_err : bool;
}.

Definition gnmi_pbr_init (buf : bytes) (len : Z) : gnmi_pb_reader_t := mk_reader buf len 0 false.

Definition r_fail (r : gnmi_pb_reader_t) : gnmi_pb_reader_t :=
  mk_reader (r_p r) (r_len r) (r_pos r) true.

Definition r_move (r : gnmi_pb_reader_t) (pos : Z) : gnmi_pb_reader_t :=
  mk_reader (r_p r) (r_len r) pos (r_err r).

(** [while (shift < 64)]: [turns] is what is left of the ten turns. *)
Fixpoint pbr_varint_loop (turns : nat) (shift v : Z) (r : gnmi_pb_reader_t)
    : outcome (Z * gnmi_pb_reader_t) :=
  match turns with
  | O => Ret (0, r_fail r)
  | S turns =>
      if r_len r <=? r_pos r then Ret (0, r_fail r) else
      match r_p r !! Z.to_nat (r_pos r) with
      | None => Fault
      | Some b =>
          let r := r_move r (r_pos r + 1) in
          let v := Z.lor v (u64 (Z.shiftl (Z.land b 127) shift)) in
          if Z.land b 128 =? 0 then Ret (v, r)
          else pbr_varint_loop turns (shift + 7) v r
      end
  end.

Definition gnmi_pbr_varint (r : gnmi_pb_reader_t) : outcome (Z * gnmi_pb_reader_t) :=
  pbr_varint_loop 10 0 0 r.

(** The field number, 0 at the end and on an error, and the wire type. *)
Definition gnmi_pbr_tag (r : gnmi_pb_reader_t) : outcome (Z * Z * gnmi_pb_reader_t) :=
  if r_len r <=? r_pos r then Ret (0, 0, r) else
  '(t, r) ← gnmi_pbr_varint r;
  if r_err r then Ret (0, 0, r) else Ret (u32 (Z.shiftr t 3), Z.land t 7, r).

(** The memory at the data pointer and the length. *)
Definition gnmi_pbr_bytes (r : gnmi_pb_reader_t)
    : outcome (option (bytes * Z) * gnmi_pb_reader_t) :=
  '(n, r) ← gnmi_pbr_varint r;
  if r_err r || (r_len r <? u64 (r_pos r + n)) then Ret (None, r_fail r)
  else Ret (Some (drop (Z.to_nat (r_pos r)) (r_p r), n), r_move r (u64 (r_pos r + n))).

Definition gnmi_pbr_skip (r : gnmi_pb_reader_t) (wire : Z) : outcome gnmi_pb_reader_t :=
  r ← (if wire =? 0 then '(_, r) ← gnmi_pbr_varint r; Ret r
       else if wire =? 1 then Ret (r_move r (u64 (r_pos r + 8)))
       else if wire =? 2 then '(_, r) ← gnmi_pbr_bytes r; Ret r
       else if wire =? 5 then Ret (r_move r (u64 (r_pos r + 4)))
       else Ret (r_fail r));
  Ret (if r_len r <? r_pos r then r_fail r else r).

(** [memcpy] of at most [size - 1] of the [n] bytes at [d] into a cleared
    [char] array of [size], terminated. *)
Definition copy_str (d : bytes) (n size : Z) : outcome bytes :=
  let c := if n <? size - 1 then n else size - 1 in
  if Z.of_nat (length d) <? c then Fault else Ret (c_str (take (Z.to_nat c) d)).

(** ** Decoders *)

(** [while ((field = gnmi_pbr_tag(&r, &wire)) != 0)]; the body answers [None]
    for [return false]. *)
Fixpoint pbr_fields {S} (fuel : nat)
    (body : Z -> Z -> gnmi_pb_reader_t -> S -> outcome (option (gnmi_pb_reader_t * S)))
    (r : gnmi_pb_reader_t) (s : S) : outcome (option (gnmi_pb_reader_t * S)) :=
  match fuel with
  | O => Spin
  | S fuel =>
      '(field, wire, r) ← gnmi_pbr_tag r;
      if field =? 0 then Ret (Some (r, s)) else
      x ← body field wire r s;
      match x with
      | None => Ret None
      | Some (r, s) => pbr_fields fuel body r s
      end
  end.

Definition skip_field {S} (wire : Z) (r : gnmi_pb_reader_t) (s : S)
    : outcome (option (gnmi_pb_reader_t * S)) :=
  r ← gnmi_pbr_skip r wire; Ret (Some (r, s)).

(** [if (!gnmi_pbr_bytes(&r, &d, &n)) return false], then [k]. *)
Definition with_bytes {S} (r : gnmi_pb_reader_t)
    (k : bytes -> Z -> gnmi_pb_reader_t -> outcome (option (gnmi_pb_reader_t * S)))
    : outcome (option (gnmi_pb_reader_t * S)) :=
  '(o, r) ← gnmi_pbr_bytes r;
  match o with
  | None => Ret None
  | Some (d, n) => k d n r
  end.

(** The entry of the key map: key = 1, value = 2. *)
Definition decode_key_field (kf kw : Z) (r : gnmi_pb_reader_t) (s : bytes * bytes)
    : outcome (option (gnmi_pb_reader_t * (bytes * bytes))) :=
  '(r, s) ← (if (kf =? 1) || (kf =? 2) then
      '(o, r) ← gnmi_pbr_bytes r;
      match o with
      | Some (d, n) =>
          x ← copy_str d n GNMI_MAX_NAME;
          Ret (r, if kf =? 1 then (x, s.2) else (s.1, x))
      | None => r ← gnmi_pbr_skip r kw; Ret (r, s)
      end
    else r ← gnmi_pbr_skip r kw; Ret (r, s));
  if r_err r then Ret None else Ret (Some (r, s)).

Definition decode_elem_field (fuel : nat) (ef ew : Z) (r : gnmi_pb_reader_t)
    (e : gnmi_path_elem_t) : outcome (option (gnmi_pb_reader_t * gnmi_path_elem_t)) :=
  if r_err r then Ret None else
  if (ef =? 1) && (ew =? 2) then
    with_bytes r (fun d n r =>
      name ← copy_str d n GNMI_MAX_NAME;
      Ret (Some (r, mk_elem name (pe_has_key e) (pe_key_name e) (pe_key_value e))))
  else if (ef =? 2) && (ew =? 2) then
    with_bytes r (fun d n r =>
      x ← pbr_fields fuel decode_key_field (gnmi_pbr_init d n) ([], []);
      match x with
      | None => Ret None
      | Some (_, (kname, kval)) =>
          Ret (Some (r, mk_elem (pe_name e) (negb (bool_decide (kname = []))) kname kval))
      end)
  else skip_field ew r e.

Definition decode_path_field (fuel : nat) (field wire : Z) (r : gnmi_pb_reader_t)
    (p : gnmi_path_t) : outcome (option (gnmi_pb_reader_t * gnmi_path_t)) :=
  if r_err r then Ret None else
  if field =? 2 then
    with_bytes r (fun d n r =>
      o ← copy_str d n GNMI_MAX_ORIGIN; Ret (Some (r, mk_path o (p_elems p))))
  else if field =? 3 then
    with_bytes r (fun d n r =>
      if (GNMI_MAX_ELEMS <=? length (p_elems p))%nat then Ret None else
      x ← pbr_fields fuel (decode_elem_field fuel) (gnmi_pbr_init d n) (mk_elem [] false [] []);
      match x with
      | None => Ret None
      | Some (_, e) => Ret (Some (r, mk_path (p_origin p) (p_elems p ++ [e])))
      end)
  else skip_field wire r p.

(** [return !r.err], with what was decoded. *)
Definition end_message {S} (x : option (gnmi_pb_reader_t * S)) : outcome (option S) :=
  Ret (match x with
       | Some (r, s) => if r_err r then None else Some s
       | None => None
       end).

Definition gnmi_decode_path (fuel : nat) (data : bytes) (len : Z) : outcome (option gnmi_path_t) :=
  x ← pbr_fields fuel (decode_path_field fuel) (gnmi_pbr_init data len) path0;
  end_message x.

(** A 64-bit pattern as [int64_t], and its low half as [int32_t]. *)
Definition to_i64 (v : Z) : Z := if 2 ^ 63 <=? v then v - 2 ^ 64 else v.
Definition to_i32 (v : Z) : Z := if 2 ^ 31 <=? u32 v then u32 v - 2 ^ 32 else u32 v.

Definition kind_of_field (field : Z) : gnmi_val_kind_t :=
  if field =? 1 then GNMI_VAL_STRING else if field =? 10 then GNMI_VAL_JSON
  else if field =? 11 then GNMI_VAL_JSON_IETF else GNMI_VAL_ASCII.

(** The members of the oneof. *)
Definition decode_value_member (field wire : Z) (r : gnmi_pb_reader_t) (v : gnmi_typed_value_t)
    : outcome (option (gnmi_pb_reader_t * gnmi_typed_value_t)) :=
  if (field =? 1) || (field =? 10) || (field =? 11) || (field =? 12) then
    with_bytes r (fun d n r =>
      s ← copy_str d n GNMI_MAX_VAL;
      Ret (Some (r, mk_val (kind_of_field field) s (v_i v) (v_u v) (v_b v))))
  else if field =? 2 then
    '(n, r) ← gnmi_pbr_varint r;
    Ret (Some (r, mk_val GNMI_VAL_INT (v_s v) (to_i64 n) (v_u v) (v_b v)))
  else if field =? 3 then
    '(n, r) ← gnmi_pbr_varint r;
    Ret (Some (r, mk_val GNMI_VAL_UINT (v_s v) (v_i v) n (v_b v)))
  else if field =? 4 then
    '(n, r) ← gnmi_pbr_varint r;
    Ret (Some (r, mk_val GNMI_VAL_BOOL (v_s v) (v_i v) (v_u v) (z2b n)))
  else skip_field wire r v.

Definition decode_value_field (field wire : Z) (r : gnmi_pb_reader_t) (v : gnmi_typed_value_t)
    : outcome (option (gnmi_pb_reader_t * gnmi_typed_value_t)) :=
  if r_err r then Ret None else
  x ← decode_value_member field wire r v;
  match x with
  | None => Ret None
  | Some (r, v) => if r_err r then Ret None else Ret (Some (r, v))
  end.

Definition gnmi_decode_typed_value (fuel : nat) (data : bytes) (len : Z)
    : outcome (option gnmi_typed_value_t) :=
  x ← pbr_fields fuel decode_value_field (gnmi_pbr_init data len) val0;
  Ret (match x with
       | Some (_, v) => if bool_decide (v_kind v = GNMI_VAL_UNSET) then None else Some v
       | None => None
       end).

(** A nested message decoded by [dec], [return false] when it is refused. *)
Definition nested {A S} (dec : bytes -> Z -> outcome (option A)) (r : gnmi_pb_reader_t)
    (k : A -> S) : outcome (option (gnmi_pb_reader_t * S)) :=
  with_bytes r (fun d n r =>
    x ← dec d n;
    Ret (match x with None => None | Some a => Some (r, k a) end)).

(** The same for the next slot of an array of [max]. *)
Definition nested_slot {A S} (max used : nat) (dec : bytes -> Z -> outcome (option A))
    (r : gnmi_pb_reader_t) (k : A -> S) : outcome (option (gnmi_pb_reader_t * S)) :=
  with_bytes r (fun d n r =>
    if (max <=? used)%nat then Ret None else
    x ← dec d n;
    Ret (match x with None => None | Some a => Some (r, k a) end)).

Definition decode_update_field (fuel : nat) (field wire : Z) (r : gnmi_pb_reader_t)
    (u : gnmi_update_t) : outcome (option (gnmi_pb_reader_t * gnmi_update_t)) :=
  if r_err r then Ret None else
  if field =? 1 then nested (gnmi_decode_path fuel) r (fun p => mk_update p (u_val u))
  else if field =? 3 then nested (gnmi_decode_typed_value fuel) r (mk_update (u_path u))
  else skip_field wire r u.

Definition decode_update (fuel : nat) (data : bytes) (len : Z) : outcome (option gnmi_update_t) :=
  x ← pbr_fields fuel (decode_update_field fuel) (gnmi_pbr_init data len) (mk_update path0 val0);
  end_message x.

Definition decode_get_field (fuel : nat) (field wire : Z) (r : gnmi_pb_reader_t)
    (g : gnmi_get_request_t) : outcome (option (gnmi_pb_reader_t * gnmi_get_request_t)) :=
  if r_err r then Ret None else
  if field =? 1 then
    nested (gnmi_decode_path fuel) r
      (fun p => mk_get p (g_paths g) (g_data_type g) (g_encoding g))
  else if field =? 2 then
    nested_slot GNMI_MAX_ELEMS (length (g_paths g)) (gnmi_decode_path fuel) r
      (fun p => mk_get (g_prefix g) (g_paths g ++ [p]) (g_data_type g) (g_encoding g))
  else if field =? 3 then
    '(n, r) ← gnmi_pbr_varint r;
    Ret (Some (r, mk_get (g_prefix g) (g_paths g) (to_i32 n) (g_encoding g)))
  else if field =? 5 then
    '(n, r) ← gnmi_pbr_varint r;
    Ret (Some (r, mk_get (g_prefix g) (g_paths g) (g_data_type g) (u32 n)))
  else skip_field wire r g.

Definition gnmi_decode_get_request (fuel : nat) (data : bytes) (len : Z)
    : outcome (option gnmi_get_request_t) :=
  x ← pbr_fields fuel (decode_get_field fuel) (gnmi_pbr_init data len) (mk_get path0 [] 0 0);
  Ret (match x with
       | Some (r, g) => if r_err r || bool_decide (g_paths g = []) then None else Some g
       | None => None
       end).

Definition decode_set_field (fuel : nat) (field wire : Z) (r : gnmi_pb_reader_t)
    (q : gnmi_set_request_t) : outcome (option (gnmi_pb_reader_t * gnmi_set_request_t)) :=
  if r_err r then Ret None else
  if field =? 1 then
    nested (gnmi_decode_path fuel) r
      (fun p => mk_set p (s_deletes q) (s_updates q) (s_replaces q))
  else if field =? 2 then
    nested_slot GNMI_MAX_ELEMS (length (s_deletes q)) (gnmi_decode_path fuel) r
      (fun p => mk_set (s_prefix q) (s_deletes q ++ [p]) (s_updates q) (s_replaces q))
  else if field =? 3 then
    nested_slot GNMI_MAX_UPDATES (length (s_replaces q)) (decode_update fuel) r
      (fun u => mk_set (s_prefix q) (s_deletes q) (s_updates q) (s_replaces q ++ [u]))
  else if field =? 4 then
    nested_slot GNMI_MAX_UPDATES (length (s_updates q)) (decode_update fuel) r
      (fun u => mk_set (s_prefix q) (s_deletes q) (s_updates q ++ [u]) (s_replaces q))
  else skip_field wire r q.

Definition gnmi_decode_set_request (fuel : nat) (data : bytes) (len : Z)
    : outcome (option gnmi_set_request_t) :=
  x ← pbr_fields fuel (decode_set_field fuel) (gnmi_pbr_init data len) (mk_set path0 [] [] []);
  end_message x.

(** [Subscription]: only the path is read. *)
Definition decode_subscription_field (fuel : nat) (sf sw : Z) (r : gnmi_pb_reader_t)
    (p : gnmi_path_t) : outcome (option (gnmi_pb_reader_t * gnmi_path_t)) :=
  if sf =? 1 then
    '(o, r) ← gnmi_pbr_bytes r;
    match o with
    | Some (d, n) =>
        x ← gnmi_decode_path fuel d n;
        Ret (match x with None => None | Some p => Some (r, p) end)
    | None => skip_field sw r p
    end
  else skip_field sw r p.

(** [SubscriptionList]. *)
Definition decode_list_field (fuel : nat) (lf lw : Z) (r : gnmi_pb_reader_t)
    (q : gnmi_subscribe_request_t)
    : outcome (option (gnmi_pb_reader_t * gnmi_subscribe_request_t)) :=
  if r_err r then Ret None else
  if lf =? 2 then
    with_bytes r (fun d n r =>
      if (GNMI_MAX_ELEMS <=? length (sb_subs q))%nat then Ret None else
      x ← pbr_fields fuel (decode_subscription_field fuel) (gnmi_pbr_init d n) path0;
      match x with
      | None => Ret None
      | Some (_, p) =>
          Ret (Some (r, mk_subscribe (sb_subs q ++ [p]) (sb_mode q) (sb_encoding q)
                          (sb_updates_only q) (sb_is_poll q)))
      end)
  else if lf =? 5 then
    '(n, r) ← gnmi_pbr_varint r;
    Ret (Some (r, mk_subscribe (sb_subs q) (u32 n) (sb_encoding q) (sb_updates_only q) (sb_is_poll q)))
  else if lf =? 8 then
    '(n, r) ← gnmi_pbr_varint r;
    Ret (Some (r, mk_subscribe (sb_subs q) (sb_mode q) (u32 n) (sb_updates_only q) (sb_is_poll q)))
  else if lf =? 9 then
    '(n, r) ← gnmi_pbr_varint r;
    Ret (Some (r, mk_subscribe (sb_subs q) (sb_mode q) (sb_encoding q) (z2b n) (sb_is_poll q)))
  else skip_field lw r q.

Definition decode_subscribe_field (fuel : nat) (field wire : Z) (r : gnmi_pb_reader_t)
    (q : gnmi_subscribe_request_t)
    : outcome (option (gnmi_pb_reader_t * gnmi_subscribe_request_t)) :=
  if r_err r then Ret None else
  if field =? 1 then
    with_bytes r (fun d n r =>
      x ← pbr_fields fuel (decode_list_field fuel) (gnmi_pbr_init d n) q;
      Ret (match x with None => None | Some (_, q) => Some (r, q) end))
  else if field =? 3 then
    skip_field wire r (mk_subscribe (sb_subs q) (sb_mode q) (sb_encoding q)
                         (sb_updates_only q) true)
  else skip_field wire r q.

Definition gnmi_decode_subscribe_request (fuel : nat) (data : bytes) (len : Z)
    : outcome (option gnmi_subscribe_request_t) :=
  x ← pbr_fields fuel (decode_subscribe_field fuel) (gnmi_pbr_init data len)
        (mk_subscribe [] 0 0 false false);
  end_message x.

(** ** Decoding is safe when lengths are below 2^63 *)

(** Among any nine bytes in a row of the message one has the top bit clear, or
    the message ends: no varint is longer than nine bytes wherever it is read
    from. *)
Definition short_varints (p : bytes) : Prop :=
  forall i, exists j, (j < 9)%nat /\
    match p !! (i + j)%nat with Some b => Z.land b 128 = 0 | None => True end.

(** The computation returns, and what it returns satisfies [Q]. *)
Definition returns {A} (m : outcome A) (Q : A -> Prop) : Prop :=
  match m with Ret a => Q a | _ => False end.

(** A reader on a message of fewer than [F] bytes inside its memory. *)
Record safe (F : nat) (r : gnmi_pb_reader_t) : Prop := {
  sf_pos : 0 <= r_pos r <= r_len r + 8;
  sf_len : 0 <= r_len r < 2 ^ 62;
  sf_mem : r_len r <= Z.of_nat (length (r_p r));
  sf_fuel : r_len r < Z.of_nat F;
  sf_short : short_varints (r_p r);
}.

(** [r'] is [r] moved forward. *)
Definition adv (F : nat) (r r' : gnmi_pb_reader_t) : Prop :=
  safe F r' /\ r_len r' = r_len r /\ r_pos r <= r_pos r'.

Lemma returns_bind {A B} (m : outcome A) (f : A -> outcome B) Q :
  returns m (fun a => returns (f a) Q) -> returns (m ≫= f) Q.
Proof. by destruct m. Qed.

Lemma returns_impl {A} (m : outcome A) (Q Q' : A -> Prop) :
  returns m Q -> (forall a, Q a -> Q' a) -> returns m Q'.
Proof. destruct m; simpl; auto. Qed.

Lemma adv_refl F r : safe F r -> adv F r r.
Proof. intros. unfold adv. split_and!; [done..|lia]. Qed.

Lemma adv_trans F a b c : adv F a b -> adv F b c -> adv F a c.
Proof. intros (? & ? & ?) (? & ? & ?). unfold adv. split_and!; [done|congruence|lia]. Qed.

Lemma adv_fail F r r' : adv F r r' -> adv F r (r_fail r').
Proof. intros ([] & ? & ?). unfold adv. split_and!; [by split|done..]. Qed.

Lemma adv_move F r pos :
  safe F r -> r_pos r <= pos <= r_len r + 8 -> adv F r (r_move r pos).
Proof. intros [] ?. unfold adv. split_and!; [split; cbn; auto; lia|done|cbn; lia]. Qed.

Lemma short_drop p n : short_varints p -> short_varints (drop n p).
Proof.
  intros H i. destruct (H (n + i)%nat) as (j & Hj & Hb). exists j. split; [done|].
  rewrite lookup_drop. by replace (n + (i + j))%nat with (n + i + j)%nat by lia.
Qed.

(** Before the end of the message, so far. *)
Definition inside (r : gnmi_pb_reader_t) : Prop := r_pos r <= r_len r.

Lemma varint_loop_safe F turns k v r :
  (turns + k = 10)%nat -> safe F r -> 0 <= v < 2 ^ (7 * Z.of_nat k) ->
  (exists j, (j + k < 9)%nat /\
    match r_p r !! (Z.to_nat (r_pos r) + j)%nat with Some b => Z.land b 128 = 0 | None => True end) ->
  returns (pbr_varint_loop turns (7 * Z.of_nat k) v r) (fun x =>
    adv F r x.2 /\ 0 <= x.1 < 2 ^ 63 /\ (inside r -> inside x.2) /\
    (r_pos r < r_len r -> r_pos r < r_pos x.2)).
Proof.
  revert k v r. induction turns as [|turns IH]; intros k v r Ht Hs Hv (j & Hj & Hb); [lia|].
  cbn [pbr_varint_loop]. destruct (_ <=? _) eqn:Hle; bool_prop.
  { cbn. split_and!; [by apply adv_fail, adv_refl|lia|lia|done|lia]. }
  pose proof Hs as [Hp Hl Hm Hf Hsh].
  destruct (r_p r !! Z.to_nat (r_pos r)) as [b|] eqn:Eb;
    [|apply lookup_ge_None in Eb; lia].
  assert (Hadv : adv F r (r_move r (r_pos r + 1))) by (apply adv_move; [done|lia]).
  assert (Hr : 0 <= Z.land b 127 < 128) by (rewrite land_127; apply Z.mod_pos_bound; lia).
  assert (H63 : 2 ^ (7 + 7 * Z.of_nat k) <= 2 ^ 63) by (apply Z.pow_le_mono_r; lia).
  pose proof (lor_shiftl_range 7 (7 * Z.of_nat k) (Z.land b 127) v Hr Hv ltac:(lia) ltac:(lia)) as Hv'.
  pose proof (lor_shiftl_range 7 (7 * Z.of_nat k) (Z.land b 127) 0 Hr ltac:(lia) ltac:(lia) ltac:(lia)) as H0.
  rewrite Z.lor_0_r in H0. rewrite u64_small by (unfold is_u64; lia). rewrite Z.lor_comm.
  destruct (Z.land b 128 =? 0) eqn:E128; bool_prop.
  { cbn. unfold inside. cbn. split_and!; [done|lia..]. }
  destruct j as [|j]; [rewrite Nat.add_0_r, Eb in Hb; done|].
  replace (7 * Z.of_nat k + 7) with (7 * Z.of_nat (S k)) by lia.
  eapply returns_impl; [apply IH; [lia|apply Hadv| |]|].
  - replace (7 * Z.of_nat (S k)) with (7 + 7 * Z.of_nat k) by lia. done.
  - exists j. split; [lia|]. cbn [r_p r_pos r_move].
    by replace (Z.to_nat (r_pos r + 1) + j)%nat with (Z.to_nat (r_pos r) + S j)%nat by lia.
  - intros [x r'] (Ha & Hx & Hi & _). unfold inside in *. cbn in *.
    split_and!; [by eapply adv_trans|lia..|].
    intros _. destruct Ha as (_ & _ & ?). cbn in *. lia.
Qed.

Lemma varint_safe F r :
  safe F r ->
  returns (gnmi_pbr_varint r) (fun x =>
    adv F r x.2 /\ 0 <= x.1 < 2 ^ 63 /\ (inside r -> inside x.2) /\
    (r_pos r < r_len r -> r_pos r < r_pos x.2)).
Proof.
  intros Hs. apply (varint_loop_safe F 10 0); [done|done|done|].
  destruct (sf_short _ _ Hs (Z.to_nat (r_pos r))) as (j & ? & ?). exists j. split; [lia|done].
Qed.

Lemma tag_safe F r :
  safe F r ->
  returns (gnmi_pbr_tag r) (fun x =>
    adv F r x.2 /\
    (x.1.1 <> 0 -> r_pos r < r_pos x.2 /\ r_pos r < r_len r /\ inside x.2)).
Proof.
  intros Hs. unfold gnmi_pbr_tag. destruct (_ <=? _) eqn:Hle; bool_prop.
  { cbn. split; [by apply adv_refl|done]. }
  apply returns_bind. eapply returns_impl; [by apply varint_safe|].
  intros [t r'] (Ha & _ & Hi & Hp).
  destruct (r_err r'); cbn in *; (split; [done|]); [done|].
  intros _. split_and!; [lia|lia|]. apply Hi. unfold inside. lia.
Qed.

Lemma bytes_safe F r :
  safe F r ->
  returns (gnmi_pbr_bytes r) (fun x =>
    adv F r x.2 /\ (inside r -> inside x.2) /\
    match x.1 with
    | Some (d, n) => safe F (gnmi_pbr_init d n) /\ 0 <= n <= Z.of_nat (length d)
    | None => True
    end).
Proof.
  intros Hs. unfold gnmi_pbr_bytes. apply returns_bind.
  eapply returns_impl; [by apply varint_safe|]. intros [n r'] (Ha & Hn & Hi & _). cbn [fst snd] in *.
  pose proof Ha as ([Hp Hl Hm Hf Hsh] & Hlen & _).
  destruct (r_err r' || _) eqn:E; [cbn; split; [by apply adv_fail|done]|].
  bool_prop. rewrite u64_small in * by (unfold is_u64; lia). unfold inside in *. cbn.
  assert (n <= Z.of_nat (length (drop (Z.to_nat (r_pos r')) (r_p r'))))
    by (rewrite length_drop; lia).
  split; [eapply adv_trans; [exact Ha|apply adv_move; [apply Ha|lia]]|].
  split; [lia|]. split; [|lia]. split; cbn; [lia|lia|lia|lia|by apply short_drop].
Qed.

Lemma skip_safe F r wire :
  safe F r -> inside r -> returns (gnmi_pbr_skip r wire) (adv F r).
Proof.
  intros Hs Hi. unfold gnmi_pbr_skip. apply returns_bind.
  assert (Hend : forall r', adv F r r' ->
    returns (Ret (if r_len r' <? r_pos r' then r_fail r' else r')) (adv F r)).
  { intros r' H. destruct (_ <? _); cbn; [by apply adv_fail|done]. }
  pose proof Hs as [Hp Hl _ _ _]. unfold inside in Hi.
  destruct (wire =? 0); [|destruct (wire =? 1); [|destruct (wire =? 2); [|destruct (wire =? 5)]]].
  - apply returns_bind. eapply returns_impl; [by apply varint_safe|].
    intros [? r'] (? & _). by apply Hend.
  - apply Hend, adv_move; [done|]. rewrite u64_small by (unfold is_u64; lia). lia.
  - apply returns_bind. eapply returns_impl; [by apply bytes_safe|].
    intros [? r'] (? & _). by apply Hend.
  - apply Hend, adv_move; [done|]. rewrite u64_small by (unfold is_u64; lia). lia.
  - by apply Hend, adv_fail, adv_refl.
Qed.

Definition moves {S} F r : option (gnmi_pb_reader_t * S) -> Prop :=
  fun x => match x with Some (r', _) => adv F r r' | None => True end.

(** The body of a field loop, for messages of fewer than [F] bytes. *)
Definition body_safe {S} (F : nat)
    (body : Z -> Z -> gnmi_pb_reader_t -> S -> outcome (option (gnmi_pb_reader_t * S))) : Prop :=
  forall f w r s, safe F r -> inside r ->
    returns (body f w r s) (moves F r).

Lemma fields_safe {S} F fuel body r (s : S) :
  body_safe F body -> safe F r -> r_len r - r_pos r < Z.of_nat fuel -> (0 < fuel)%nat ->
  returns (pbr_fields fuel body r s) (moves F r).
Proof.
  intros Hb. revert r s. induction fuel as [|fuel IH]; intros r s Hs Hf H0; [lia|].
  cbn [pbr_fields]. apply returns_bind. eapply returns_impl; [by apply tag_safe|].
  intros [[f w] r1] (Ha1 & Hp). cbn [fst snd] in *.
  destruct (f =? 0) eqn:Ef; bool_prop; [done|]. destruct (Hp Ef) as (Hp1 & Hp2 & Hin).
  apply returns_bind. eapply returns_impl; [apply Hb; [apply Ha1|done]|].
  intros [[r2 s2]|] Ha2; [|done].
  pose proof (adv_trans _ _ _ _ Ha1 Ha2) as Ha. destruct Ha2 as (Hs2 & Hl2 & Hp2').
  destruct Ha1 as (Hs1 & Hl1 & _). destruct Hs as [? ? ? ? ?].
  eapply returns_impl; [apply IH; [done|lia|lia]|].
  intros [[r3 s3]|]; [|done]. intros Ha3. cbn in Ha3 |- *. by eapply adv_trans.
Qed.

Lemma init_fields_safe {S} F body d n (s : S) :
  body_safe F body -> safe F (gnmi_pbr_init d n) ->
  returns (pbr_fields F body (gnmi_pbr_init d n) s) (fun _ => True).
Proof.
  intros Hb Hs. pose proof Hs as [? ? ? ? ?]. cbn in *.
  eapply returns_impl; [apply (fields_safe F); [done|done|cbn; lia|lia]|done].
Qed.

Lemma copy_str_safe d n size :
  0 <= n <= Z.of_nat (length d) -> 1 <= size -> returns (copy_str d n size) (fun _ => True).
Proof.
  intros Hn Hs. unfold copy_str. destruct (n <? size - 1) eqn:E; bool_prop;
    rewrite (proj2 (Z.ltb_ge _ _)) by lia; done.
Qed.

Lemma skip_field_safe {S} F wire r (s : S) :
  safe F r -> inside r -> returns (skip_field wire r s) (moves F r).
Proof.
  intros Hs Hi. unfold skip_field. apply returns_bind.
  eapply returns_impl; [by apply skip_safe|]. done.
Qed.

Lemma with_bytes_safe {S} F r (k : bytes -> Z -> gnmi_pb_reader_t -> outcome (option (_ * S))) :
  safe F r ->
  (forall d n r', adv F r r' -> safe F (gnmi_pbr_init d n) -> 0 <= n <= Z.of_nat (length d) ->
    returns (k d n r') (moves F r)) ->
  returns (with_bytes r k) (moves F r).
Proof.
  intros Hs Hk. unfold with_bytes. apply returns_bind.
  eapply returns_impl; [by apply bytes_safe|].
  intros [[[d n]|] r'] (Ha & _ & Hd); [|done]. cbn in Hd. destruct Hd. by apply Hk.
Qed.

Lemma nested_safe {A S} F r dec (k : A -> S) :
  safe F r ->
  (forall d n, safe F (gnmi_pbr_init d n) -> returns (dec d n) (fun _ => True)) ->
  returns (nested dec r k) (moves F r).
Proof.
  intros Hs Hd. apply with_bytes_safe; [done|]. intros d n r' Ha Hdn _.
  apply returns_bind. eapply returns_impl; [by apply Hd|]. by intros [a|] _.
Qed.

Lemma nested_slot_safe {A S} F max used r dec (k : A -> S) :
  safe F r ->
  (forall d n, safe F (gnmi_pbr_init d n) -> returns (dec d n) (fun _ => True)) ->
  returns (nested_slot max used dec r k) (moves F r).
Proof.
  intros Hs Hd. apply with_bytes_safe; [done|]. intros d n r' Ha Hdn _.
  case_match; [done|]. apply returns_bind. eapply returns_impl; [by apply Hd|].
  by intros [a|] _.
Qed.

Lemma varint_field_safe {S} F r (k : Z -> S) :
  safe F r -> returns ('(n, r) ← gnmi_pbr_varint r; Ret (Some (r, k n))) (moves F r).
Proof.
  intros Hs. apply returns_bind. eapply returns_impl; [by apply varint_safe|].
  by intros [n r'] (? & _).
Qed.

#[local] Hint Resolve skip_field_safe nested_safe nested_slot_safe varint_field_safe : danos.

Lemma key_field_safe F : body_safe F decode_key_field.
Proof.
  intros f w r s Hs Hi. unfold decode_key_field. apply returns_bind.
  eapply (returns_impl _ (fun x => adv F r x.1)).
  2: { intros [r' s'] Ha. cbn in *. by destruct (r_err r'). }
  assert (Hskip : forall r', adv F r r' -> inside r' ->
    returns (r ← gnmi_pbr_skip r' w; Ret (r, s)) (fun x => adv F r x.1)).
  { intros r' Ha Hin. apply returns_bind. eapply returns_impl; [apply skip_safe; [apply Ha|done]|].
    intros r2 Ha2. cbn. by eapply adv_trans. }
  destruct (_ || _); [|by apply Hskip; [apply adv_refl|]].
  apply returns_bind. eapply returns_impl; [by apply bytes_safe|].
  intros [[[d n]|] r'] (Ha & Hin & Hd); [|by apply Hskip; auto].
  destruct Hd as [_ Hd]. apply returns_bind.
  eapply returns_impl; [apply copy_str_safe; [done|unfold GNMI_MAX_NAME; lia]|]. done.
Qed.

Lemma elem_field_safe F : body_safe F (decode_elem_field F).
Proof.
  intros f w r s Hs Hi. unfold decode_elem_field. destruct (r_err r); [done|].
  destruct (_ && _); [|destruct (_ && _); [|by apply skip_field_safe]];
    apply with_bytes_safe; try done; intros d n r' Ha Hd Hn; apply returns_bind.
  - eapply returns_impl; [apply copy_str_safe; [done|unfold GNMI_MAX_NAME; lia]|]. done.
  - eapply returns_impl; [apply init_fields_safe; [apply key_field_safe|done]|].
    by intros [[? []]|] _.
Qed.

Lemma path_field_safe F : body_safe F (decode_path_field F).
Proof.
  intros f w r s Hs Hi. unfold decode_path_field. destruct (r_err r); [done|].
  destruct (_ =? 2); [|destruct (_ =? 3); [|by apply skip_field_safe]];
    apply with_bytes_safe; try done; intros d n r' Ha Hd Hn.
  - apply returns_bind.
    eapply returns_impl; [apply copy_str_safe; [done|unfold GNMI_MAX_ORIGIN; lia]|]. done.
  - case_match; [done|]. apply returns_bind.
    eapply returns_impl; [apply init_fields_safe; [apply elem_field_safe|done]|].
    by intros [[? ?]|] _.
Qed.

Lemma decode_path_safe F d n :
  safe F (gnmi_pbr_init d n) -> returns (gnmi_decode_path F d n) (fun _ => True).
Proof.
  intros Hs. unfold gnmi_decode_path. apply returns_bind.
  eapply returns_impl; [apply init_fields_safe; [apply path_field_safe|done]|]. done.
Qed.

Lemma value_field_safe F : body_safe F decode_value_field.
Proof.
  intros f w r s Hs Hi. unfold decode_value_field. destruct (r_err r); [done|].
  apply returns_bind. eapply (returns_impl _ (moves F r)).
  2: { intros [[r' v]|] H; [|done]. by destruct (r_err r'). }
  unfold decode_value_member.
  repeat case_match; try (by apply skip_field_safe); try (by apply varint_field_safe).
  apply with_bytes_safe; [done|]. intros d n r' Ha Hd Hn. apply returns_bind.
  eapply returns_impl; [apply copy_str_safe; [done|unfold GNMI_MAX_VAL; lia]|]. done.
Qed.

Lemma decode_typed_value_safe F d n :
  safe F (gnmi_pbr_init d n) -> returns (gnmi_decode_typed_value F d n) (fun _ => True).
Proof.
  intros Hs. unfold gnmi_decode_typed_value. apply returns_bind.
  eapply returns_impl; [apply init_fields_safe; [apply value_field_safe|done]|]. done.
Qed.

Lemma update_field_safe F : body_safe F (decode_update_field F).
Proof.
  intros f w r s Hs Hi. unfold decode_update_field. destruct (r_err r); [done|].
  repeat case_match; [apply nested_safe; auto using decode_path_safe
    | apply nested_safe; auto using decode_typed_value_safe | by apply skip_field_safe].
Qed.

Lemma decode_update_safe F d n :
  safe F (gnmi_pbr_init d n) -> returns (decode_update F d n) (fun _ => True).
Proof.
  intros Hs. unfold decode_update. apply returns_bind.
  eapply returns_impl; [apply init_fields_safe; [apply update_field_safe|done]|]. done.
Qed.

Lemma get_field_safe F : body_safe F (decode_get_field F).
Proof.
  intros f w r s Hs Hi. unfold decode_get_field. destruct (r_err r); [done|].
  repeat case_match; auto using nested_safe, nested_slot_safe, varint_field_safe,
    skip_field_safe, decode_path_safe.
Qed.

Lemma set_field_safe F : body_safe F (decode_set_field F).
Proof.
  intros f w r s Hs Hi. unfold decode_set_field. destruct (r_err r); [done|].
  repeat case_match; auto using nested_safe, nested_slot_safe,
    skip_field_safe, decode_path_safe, decode_update_safe.
Qed.

Lemma subscription_field_safe F : body_safe F (decode_subscription_field F).
Proof.
  intros f w r s Hs Hi. unfold decode_subscription_field.
  case_match; [|by apply skip_field_safe]. apply returns_bind.
  eapply returns_impl; [by apply bytes_safe|].
  intros [[[d n]|] r'] (Ha & Hin & Hd).
  - destruct Hd. apply returns_bind.
    eapply returns_impl; [by apply decode_path_safe|]. by intros [p|] _.
  - eapply returns_impl; [apply skip_field_safe; [apply Ha|auto]|].
    intros [[r2 ?]|] Ha2; [|done]. cbn in *. by eapply adv_trans.
Qed.

Lemma list_field_safe F : body_safe F (decode_list_field F).
Proof.
  intros f w r s Hs Hi. unfold decode_list_field. destruct (r_err r); [done|].
  destruct (f =? 2); [|repeat case_match; auto using varint_field_safe, skip_field_safe].
  apply with_bytes_safe; [done|]. intros d n r' Ha Hd Hn.
  destruct (_ <=? _)%nat; [done|]. apply returns_bind.
  eapply returns_impl; [apply init_fields_safe; [apply subscription_field_safe|done]|].
  by intros [[? ?]|] _.
Qed.

Lemma subscribe_field_safe F : body_safe F (decode_subscribe_field F).
Proof.
  intros f w r s Hs Hi. unfold decode_subscribe_field. destruct (r_err r); [done|].
  repeat case_match; auto using skip_field_safe.
  apply with_bytes_safe; [done|]. intros d n r' Ha Hd Hn. apply returns_bind.
  eapply returns_impl; [apply init_fields_safe; [apply list_field_safe|done]|].
  by intros [[? ?]|] _.
Qed.

Lemma message_safe F data :
  short_varints data -> (length data < F)%nat -> Z.of_nat (length data) < 2 ^ 62 ->
  safe F (gnmi_pbr_init data (Z.of_nat (length data))).
Proof. intros. split; cbn; [lia..|done]. Qed.

(** C39. Every gNMI request decoder returns, and never reads outside the
    message, on any message in which no nine bytes in a row have the top bit
    set, be they varints or the text of a string: one turn of the field loops
    for each byte of the message is enough.  (The message is shorter than
    [2 ^ 62] bytes.) *)
Theorem gnmi_decoders_safe F data :
  short_varints data -> (length data < F)%nat -> Z.of_nat (length data) < 2 ^ 62 ->
  let n := Z.of_nat (length data) in
  (exists x, gnmi_decode_get_request F data n = Ret x) /\
  (exists x, gnmi_decode_set_request F data n = Ret x) /\
  (exists x, gnmi_decode_subscribe_request F data n = Ret x).
Proof.
  intros Hs HF Hl n. pose proof (message_safe F data Hs HF Hl) as Hr. fold n in Hr.
  assert (He : forall A (m : outcome A), returns m (fun _ => True) -> exists x, m = Ret x)
    by (intros A [a| |]; [eauto|done..]).
  split_and!; apply He; apply returns_bind;
    (eapply returns_impl; [apply init_fields_safe; [|exact Hr]|done]);
    auto using get_field_safe, set_field_safe, subscribe_field_safe.
Qed.

(** The nine-byte condition on a given message. *)
Definition short_varintsb (p : bytes) : bool :=
  forallb (fun i => existsb (fun j =>
    match p !! (i + j)%nat with Some b => Z.land b 128 =? 0 | None => true end) (seq 0 9))
    (seq 0 (length p)).

Lemma short_varintsb_spec p : short_varintsb p = true -> short_varints p.
Proof.
  intros H i. destruct (decide (i < length p)%nat) as [Hi|Hi].
  - assert (Hx : existsb (fun j => match p !! (i + j)%nat with
      Some b => Z.land b 128 =? 0 | None => true end) (seq 0 9) = true).
    { unfold short_varintsb in H. apply forallb_forall with (x := i) in H; [done|].
      apply in_seq. lia. }
    apply existsb_exists in Hx as (j & Hj & Hb). apply in_seq in Hj. exists j.
    split; [lia|]. case_match; [by apply Z.eqb_eq|done].
  - exists 0%nat. split; [lia|]. rewrite lookup_ge_None_2 by lia. done.
Qed.

Lemma gnmi_decoders_safe_witness :
  short_varints [18; 6; 26; 4; 10; 2; 97; 98] /\
  exists x, gnmi_decode_get_request 9 [18; 6; 26; 4; 10; 2; 97; 98] 8 = Ret x.
Proof.
  assert (Hs : short_varints [18; 6; 26; 4; 10; 2; 97; 98])
    by (apply short_varintsb_spec; vm_compute; reflexivity).
  split; [exact Hs|].
  apply (gnmi_decoders_safe 9 _ Hs); simpl; lia.
Defined.

(** The ten-byte varint of 2^64 - 11. *)
Definition minus_11 : bytes := [245; 255; 255; 255; 255; 255; 255; 255; 255; 1].

Lemma spin_step F (fuel : nat) :
  pbr_fields (S fuel) (decode_path_field F) (gnmi_pbr_init (122 :: minus_11) 11) path0 =
  pbr_fields fuel (decode_path_field F) (gnmi_pbr_init (122 :: minus_11) 11) path0.
Proof. reflexivity. Qed.

(** The bound check of [gnmi_pbr_bytes] wraps: a field whose length is
    2^64 - 11 is accepted and moves the reader back to the start of the
    message.  A path of eleven bytes with such an unknown field is decoded
    forever, and the same length in the origin field makes the decoder read
    behind the end of the message. *)
Theorem gnmi_decode_wraps F :
  gnmi_decode_path F (122 :: minus_11) 11 = Spin /\
  gnmi_decode_path (S F) (18 :: minus_11) 11 = Fault.
Proof.
  split; [|reflexivity]. unfold gnmi_decode_path.
  assert (H : forall G fuel, pbr_fields fuel (decode_path_field G)
    (gnmi_pbr_init (122 :: minus_11) 11) path0 = Spin).
  { intros G fuel. induction fuel as [|fuel IH]; [done|]. by rewrite spin_step. }
  by rewrite H.
Qed.
