(* ===== verification/PathText.v ===== *)
(** * Textual paths: gnmi_path_from_str of danos-mgmt gnmi_proto.c

    Splits "interfaces/interface[name=eth0]" into the elements of a gNMI path.
    A pointer into the text is the text from there on, so that the distance of
    two pointers is the difference of two lengths. *)

From stdpp Require Import base decidable list numbers strings.
From Stdlib Require Import ZArith Lia.
From S2P Require Import Prelude CStr Proto.

Definition SLASH : Z := 47.
Definition OPEN : Z := 91.
Definition CLOSE : Z := 93.
Definition EQUALS : Z := 61.

Definition zero_elem : gnmi_path_elem_t := mk_elem [] false [] [].

(** [while ( *s == '/' ) s++]. *)
Fixpoint skip_slashes (s : bytes) : bytes :=
  match s with c :: s' => if c =? SLASH then skip_slashes s' else s | [] => [] end.

(** Where the segment at [s] ends; [None] is the null pointer. *)
Definition segment_end (s : bytes) : option bytes :=
  let next_slash := strchr s SLASH in
  match strchr s OPEN with
  | Some br0 =>
      if bool_decide (next_slash = None) || (length (default [] next_slash) <? length br0)%nat then
        match strchr br0 CLOSE with Some close0 => Some (tail close0) | None => next_slash end
      else next_slash
  | None => next_slash
  end.

(** The segment's element, and whether it was accepted; a refused one keeps
    what was written before. *)
Definition path_elem (seg : bytes) : bool * gnmi_path_elem_t :=
  match strchr seg OPEN with
  | Some br =>
      let name := take (length seg - length br) seg in
      if GNMI_MAX_NAME <=? strlen name then (false, zero_elem) else
      let e := mk_elem name false [] [] in
      match strchr br EQUALS, strchr br CLOSE with
      | Some eq, Some close =>
          if (length eq <? length close)%nat then (false, e) else
          let kn := (length br - length eq - 1)%nat in
          let vn := (length eq - length close - 1)%nat in
          if (GNMI_MAX_NAME <=? Z.of_nat kn) || (GNMI_MAX_NAME <=? Z.of_nat vn) then (false, e) else
          (true, mk_elem name true (take kn (tail br)) (take vn (tail eq)))
      | _, _ => (false, e)
      end
  | None => if GNMI_MAX_NAME <=? strlen seg then (false, zero_elem) else (true, mk_elem seg false [] [])
  end.

(** [room] is the number of elements that are still free. *)
Fixpoint path_loop (room : nat) (s : bytes) (es : list gnmi_path_elem_t) : bool * list gnmi_path_elem_t :=
  match room, s with
  | O, _ | _, [] => (negb (length es =? 0)%nat, es)
  | S room, _ =>
      let fin := segment_end s in
      let '(ok, e) := path_elem (take (length s - length (default [] fin)) s) in
      if negb ok then (false, es ++ [e]) else
      match fin with
      | None => (true, es ++ [e])
      | Some fin => path_loop room (match fin with c :: s' => if c =? SLASH then s' else fin | [] => [] end) (es ++ [e])
      end
  end.

Definition gnmi_path_from_str (dotted : option bytes) : bool * gnmi_path_t :=
  match dotted with
  | None => (false, mk_path [] [])
  | Some dotted =>
      let '(ok, es) := path_loop GNMI_MAX_ELEMS (skip_slashes dotted) [] in (ok, mk_path [] es)
  end.

(** ** Paths as text *)

Definition elem_text (e : gnmi_path_elem_t) : bytes :=
  pe_name e ++ (if pe_has_key e then [OPEN] ++ pe_key_name e ++ [EQUALS] ++ pe_key_value e ++ [CLOSE] else []).

Fixpoint elems_text (es : list gnmi_path_elem_t) : bytes :=
  match es with
  | [] => []
  | [e] => elem_text e
  | e :: es => elem_text e ++ SLASH :: elems_text es
  end.

(** An element that has a text: a name without separators, a key without the
    characters that end it, and every string short enough for its array. *)
Record elem_ok (e : gnmi_path_elem_t) : Prop := {
  eo_name : pe_name e <> [] /\ SLASH ∉ pe_name e /\ OPEN ∉ pe_name e /\ strlen (pe_name e) < GNMI_MAX_NAME;
  eo_key : if pe_has_key e
           then EQUALS ∉ pe_key_name e /\ CLOSE ∉ pe_key_name e /\ CLOSE ∉ pe_key_value e /\
                strlen (pe_key_name e) < GNMI_MAX_NAME /\ strlen (pe_key_value e) < GNMI_MAX_NAME
           else pe_key_name e = [] /\ pe_key_value e = [];
}.

Lemma strchr_none s c : c ∉ s -> strchr s c = None.
Proof. intros H. rewrite <- (app_nil_r s). by rewrite strchr_skip. Qed.

Lemma strchr_here s c : strchr (c :: s) c = Some (c :: s).
Proof. cbn [strchr]. by rewrite Z.eqb_refl. Qed.

Lemma strchr_past x s c : x <> c -> strchr (x :: s) c = strchr s c.
Proof. intros H. cbn [strchr]. by rewrite (proj2 (Z.eqb_neq x c)). Qed.

Lemma strchr_length s c x : strchr s c = Some x -> (length x <= length s)%nat.
Proof.
  induction s as [|y s IH]; cbn [strchr]; [done|]. destruct (y =? c); [by intros [= <-]|]. intros Hx%IH. cbn [length]. lia.
Qed.

(** The end of an element's text, followed by nothing or by a slash. *)
Lemma segment_end_elem e rest :
  elem_ok e -> (rest = [] \/ exists r, rest = SLASH :: r) ->
  exists fin, segment_end (elem_text e ++ rest) = fin /\ default [] fin = rest /\ (rest <> [] -> fin = Some rest).
Proof.
  intros [(_ & N1 & N2 & _) Hk] Hr. unfold segment_end, elem_text. destruct (pe_has_key e).
  - destruct Hk as (K1 & K2 & K3 & _). rewrite <- !app_assoc. cbn [app].
    rewrite (strchr_skip _ _ OPEN N2), strchr_here, (strchr_skip _ _ SLASH N1).
    set (br := OPEN :: _). exists (Some rest).
    assert (Hcl : strchr br CLOSE = Some (CLOSE :: rest)).
    { unfold br. rewrite strchr_past, (strchr_skip _ _ _ K2), strchr_past, (strchr_skip _ _ _ K3) by done. apply strchr_here. }
    rewrite Hcl. cbn [tail].
    assert (Hlt : bool_decide (strchr br SLASH = None) || (length (default [] (strchr br SLASH)) <? length br)%nat = true).
    { unfold br. rewrite strchr_past by done. destruct (strchr _ SLASH) as [x|] eqn:E; [|done]. apply orb_true_iff. right.
      apply Nat.ltb_lt. apply strchr_length in E. cbn [default from_option length]. unfold id. lia. }
    rewrite Hlt. by split_and!.
  - rewrite app_nil_r. destruct Hr as [->|[r ->]].
    + rewrite app_nil_r, !strchr_none by done. exists None. by split_and!.
    + rewrite !strchr_skip, strchr_here by done. exists (Some (SLASH :: r)).
      destruct (strchr (SLASH :: r) OPEN) as [br|] eqn:E; [|by split_and!].
      rewrite bool_decide_eq_false_2 by done. cbn [orb]. apply strchr_length in E.
      rewrite (proj2 (Nat.ltb_ge _ _)); [by split_and!|]. cbn [default from_option]. unfold id. lia.
Qed.

Lemma path_elem_text e : elem_ok e -> path_elem (elem_text e) = (true, e).
Proof.
  intros [(_ & _ & N2 & N3) Hk]. unfold path_elem, elem_text. destruct e as [name [] kn kv]; cbn [pe_name pe_has_key pe_key_name pe_key_value] in *.
  - destruct Hk as (K1 & K2 & K3 & L1 & L2). rewrite (strchr_skip _ _ OPEN N2). cbn [app]. rewrite strchr_here.
    rewrite length_app, Nat.add_sub, take_app_length.
    rewrite (proj2 (Z.leb_gt _ _)) by done. rewrite !strchr_past by done.
    rewrite (strchr_skip _ _ _ K1), (strchr_skip kn _ CLOSE K2), strchr_here, strchr_past by done.
    rewrite (strchr_skip _ _ _ K3), strchr_here. cbn [tail]. unfold strlen in L1, L2. generalize GNMI_MAX_NAME, L1, L2. clear. intros g L1 L2.
    cbn [length]. rewrite !length_app. cbn [length]. rewrite !length_app. cbn [length]. rewrite (proj2 (Nat.ltb_ge _ _)) by lia.
    replace (S (length kn + S (length kv + 1)) - S (length kv + 1) - 1)%nat with (length kn) by lia.
    replace (S (length kv + 1) - 1 - 1)%nat with (length kv) by lia.
    rewrite !(proj2 (Z.leb_gt _ _)) by done. cbn [orb]. by rewrite !take_app_length.
  - destruct Hk as [-> ->]. rewrite app_nil_r, strchr_none by done. by rewrite (proj2 (Z.leb_gt _ _)).
Qed.

Lemma elem_text_cons e : elem_ok e -> exists c s, elem_text e = c :: s /\ c <> SLASH.
Proof.
  intros [(H1 & H2 & _) _]. unfold elem_text. destruct (pe_name e) as [|c s]; [done|].
  exists c. eexists. split; [reflexivity|]. intros ->. apply H2. left.
Qed.

Lemma path_loop_text es room acc :
  Forall elem_ok es -> es <> [] -> (length es <= room)%nat -> path_loop room (elems_text es) acc = (true, acc ++ es).
Proof.
  revert room acc. induction es as [|e es IH]; intros room acc He Hne Hl; [done|].
  destruct room as [|room]; [cbn in Hl; lia|]. inversion_clear He as [|?? H1 H2].
  set (rest := match es with [] => [] | _ => SLASH :: elems_text es end).
  assert (Htxt : elems_text (e :: es) = elem_text e ++ rest) by (unfold rest; destruct es; [by rewrite app_nil_r|done]).
  rewrite Htxt. destruct (elem_text_cons e H1) as (c & s & Hc & _).
  destruct (segment_end_elem e rest H1) as (fin & Hf & Hd & Hs); [unfold rest; destruct es; eauto|].
  transitivity (let '(ok, e0) := path_elem (take (length (elem_text e ++ rest) - length (default [] fin)) (elem_text e ++ rest)) in
    if negb ok then (false, acc ++ [e0]) else
    match fin with
    | None => (true, acc ++ [e0])
    | Some fin => path_loop room (match fin with c :: s' => if c =? SLASH then s' else fin | [] => [] end) (acc ++ [e0])
    end); [rewrite <- Hf, Hc; reflexivity|].
  rewrite Hd, length_app, Nat.add_sub, take_app_length, path_elem_text by done. cbn [negb].
  destruct es as [|e' es].
  - destruct fin as [f|]; [|done]. cbn in Hd. subst f. unfold rest. destruct room; cbn [path_loop];
      rewrite length_app, Nat.add_comm; done.
  - rewrite (Hs ltac:(done)). unfold rest. rewrite Z.eqb_refl, IH, <- app_assoc by (done || (cbn [length] in *; lia)). done.
Qed.

(** Textual paths are read back: the text of a path of up to eight
    elements, with any number of leading slashes and with slashes and equals
    signs inside key values, is split into exactly that path. *)
Theorem gnmi_path_text_roundtrip slashes es :
  Forall elem_ok es -> es <> [] -> (length es <= GNMI_MAX_ELEMS)%nat ->
  gnmi_path_from_str (Some (replicate slashes SLASH ++ elems_text es)) = (true, mk_path [] es).
Proof.
  intros He Hne Hl. unfold gnmi_path_from_str.
  assert (Hs : skip_slashes (replicate slashes SLASH ++ elems_text es) = elems_text es).
  { induction slashes as [|n IH]; [|done]. destruct es as [|e es]; [done|]. inversion_clear He as [|?? H1 _].
    destruct (elem_text_cons e H1) as (c & s & Hc & Hn). cbn [replicate app elems_text].
    destruct es; rewrite Hc; cbn [app skip_slashes]; by rewrite (proj2 (Z.eqb_neq _ _)). }
  by rewrite Hs, path_loop_text.
Qed.

Definition demo_elems : list gnmi_path_elem_t :=
  [mk_elem (lit "routes") false [] []; mk_elem (lit "route") true (lit "prefix") (lit "10.99.0.0/24")].

Lemma gnmi_path_text_roundtrip_witness :
  gnmi_path_from_str (Some (lit "/routes/route[prefix=10.99.0.0/24]")) = (true, mk_path [] demo_elems).
Proof.
  apply (gnmi_path_text_roundtrip 1 demo_elems).
  - repeat constructor; cbn; try done; try (apply (bool_decide_unpack _); vm_compute; exact I).
  - discriminate.
  - apply Nat.leb_le. reflexivity.
Defined.

(** A path of more than eight elements is accepted without its end. *)
Lemma deep_path_cut :
  gnmi_path_from_str (Some (lit "a/b/c/d/e/f/g/h/i")) = gnmi_path_from_str (Some (lit "a/b/c/d/e/f/g/h")).
Proof. vm_compute. reflexivity. Qed.
