(* ===== verification/ProtoCodec.v ===== *)
(** * What the gNMI codec writes and reads back

    Reference encodings of the proto3 wire format, the theorem that each
    encoder of [gnmi_proto.c] either raises the overflow flag or appends
    exactly its encoding, and the round trips through the decoders. *)

From stdpp Require Import base decidable list numbers strings.
From Stdlib Require Import ZArith Lia.
From S2P Require Import Prelude CStr Proto.

(** ** Wire format *)

Definition vint (v : Z) : bytes := varint 10 v.
Definition tagb (field wire : Z) : bytes := vint (Z.lor (Z.shiftl field 3) wire).

#[global] Arguments vint : simpl never.
#[global] Arguments tagb : simpl never.

(** A length-delimited field. *)
Definition ld (field : Z) (body : bytes) : bytes :=
  tagb field 2 ++ vint (strlen body) ++ body.

(** The length as [pb_fix_len] writes it, in one or two bytes. *)
Definition fix_len (n : Z) : bytes :=
  if n <? 128 then [u8 n] else [u8 (Z.lor n 128); u8 (Z.shiftr n 7)].

Definition ld_fix (field : Z) (body : bytes) : bytes :=
  tagb field 2 ++ fix_len (strlen body) ++ body.

Definition vfield (field v : Z) : bytes := tagb field 0 ++ vint v.
Definition vfield_nz (field v : Z) : bytes := if v =? 0 then [] else vfield field (u64 v).

Definition key_body (e : gnmi_path_elem_t) : bytes :=
  ld 1 (pe_key_name e) ++ ld 2 (pe_key_value e).
Definition elem_body (e : gnmi_path_elem_t) : bytes :=
  ld 1 (pe_name e) ++ (if pe_has_key e then ld_fix 2 (key_body e) else []).
Definition path_body (p : gnmi_path_t) : bytes :=
  (if bool_decide (p_origin p = []) then [] else ld 2 (p_origin p)) ++
  (p_elems p ≫= fun e => ld_fix 3 (elem_body e)).
Definition value_body (v : gnmi_typed_value_t) : bytes :=
  match v_kind v with
  | GNMI_VAL_UNSET => []
  | GNMI_VAL_INT => vfield 2 (u64 (v_i v))
  | GNMI_VAL_UINT => vfield_nz 3 (v_u v)
  | GNMI_VAL_BOOL => vfield 4 (b2z (v_b v))
  | k => ld (val_kind_code k) (v_s v)
  end.
Definition value_field (field : Z) (v : gnmi_typed_value_t) : bytes :=
  if bool_decide (v_kind v = GNMI_VAL_UNSET) then [] else ld_fix field (value_body v).
Definition update_body (u : gnmi_update_t) : bytes :=
  ld_fix 1 (path_body (u_path u)) ++ value_field 3 (u_val u).
Definition notification_body (n : gnmi_notification_t) : bytes :=
  vfield_nz 1 (n_timestamp n) ++ (n_updates n ≫= fun u => ld_fix 4 (update_body u)).

(** ** The writer *)

Definition w_ok (w : gnmi_pb_t) : Prop := w_len w <= w_cap w < 2 ^ 62.

(** [g] appends [bs], or raises the flag when there is no room; it stays
    inside the buffer either way. *)
Definition emits (g : gnmi_pb_t -> gnmi_pb_t) (bs : bytes) : Prop :=
  forall w, w_ok w ->
    w_cap (g w) = w_cap w /\
    w_len w <= w_len (g w) <= w_cap w /\
    w_overflow (g w) = w_overflow w || (w_cap w <? w_len w + strlen bs) /\
    (w_overflow (g w) = false -> w_data (g w) = w_data w ++ bs).

Lemma strlen_app a b : strlen (a ++ b) = strlen a + strlen b.
Proof. unfold strlen. rewrite length_app. lia. Qed.

Lemma strlen_nonneg a : 0 <= strlen a.
Proof. unfold strlen. lia. Qed.

Lemma emits_ext f g a : (forall w, f w = g w) -> emits f a -> emits g a.
Proof. intros H Hf w Hw. rewrite <- H. by apply Hf. Qed.

Lemma emits_nil : emits (fun w => w) [].
Proof.
  intros w Hw. unfold w_ok in Hw. rewrite app_nil_r. unfold strlen. simpl.
  rewrite (proj2 (Z.ltb_ge _ _)), orb_false_r by lia. split_and!; [done|lia|lia|done|done].
Qed.

Lemma emits_write p : emits (fun w => pb_write w p) p.
Proof.
  intros w Hw. unfold w_ok, pb_write in *. unfold w_len, strlen in *.
  destruct (_ <? _) eqn:E; bool_prop; cbn; [rewrite orb_true_r; split_and!; [done|lia|lia|done|done]|].
  rewrite orb_false_r, length_app. split_and!; [done|lia|lia|done|done].
Qed.

Lemma emits_seq f g a b :
  emits f a -> emits g b -> emits (fun w => g (f w)) (a ++ b).
Proof.
  intros Hf Hg w Hw. destruct (Hf w Hw) as (Fc & Fl & Fo & Fd).
  assert (Hw1 : w_ok (f w)) by (unfold w_ok in *; lia).
  destruct (Hg _ Hw1) as (Gc & Gl & Go & Gd). rewrite strlen_app.
  pose proof (strlen_nonneg a). pose proof (strlen_nonneg b).
  split_and!; [congruence|lia|lia| |].
  - rewrite Go, Fc, Fo. destruct (w_overflow w); [done|]. cbn [orb] in *.
    destruct (w_cap w <? w_len w + strlen a) eqn:E; bool_prop.
    + symmetry. apply Z.ltb_lt. lia.
    + cbn. unfold w_len at 1. rewrite Fd by done.
      rewrite length_app. f_equal. unfold w_len, strlen. lia.
  - intros Hno. rewrite Gd by done. rewrite Fd; [by rewrite app_assoc|].
    rewrite Hno in Go. symmetry in Go. by apply orb_false_elim in Go as [-> _].
Qed.

Lemma emits_each {A} (f : gnmi_pb_t -> A -> gnmi_pb_t) (enc : A -> bytes) xs :
  (forall x, emits (fun w => f w x) (enc x)) -> emits (pb_each f xs) (xs ≫= enc).
Proof.
  intros H. induction xs as [|x xs IH]; [apply emits_nil|].
  rewrite bind_cons. exact (emits_seq (fun w => f w x) (pb_each f xs) _ _ (H x) IH).
Qed.

Lemma emits_if (b : bool) f g x y :
  emits f x -> emits g y ->
  emits (fun w => if b then f w else g w) (if b then x else y).
Proof. by destruct b. Qed.

Lemma emits_varint v : emits (fun w => gnmi_pb_put_varint w v) (vint v).
Proof. apply emits_write. Qed.

Lemma emits_tag f wire : emits (fun w => gnmi_pb_put_tag w f wire) (tagb f wire).
Proof. apply emits_write. Qed.

Lemma emits_str f s : emits (put_str f s) (ld f s).
Proof.
  exact (emits_seq (fun w => gnmi_pb_put_tag w f 2)
    (fun w => pb_write (gnmi_pb_put_varint w (strlen s)) s) _ _ (emits_tag f 2)
    (emits_seq (fun w => gnmi_pb_put_varint w (strlen s)) (fun w => pb_write w s) _ _
       (emits_varint _) (emits_write s))).
Qed.

Lemma emits_vfield f v :
  emits (fun w => gnmi_pb_put_varint (gnmi_pb_put_tag w f 0) v) (vfield f v).
Proof.
  exact (emits_seq (fun w => gnmi_pb_put_tag w f 0) (fun w => gnmi_pb_put_varint w v) _ _
    (emits_tag f 0) (emits_varint v)).
Qed.

Lemma emits_uint64 f v : is_u64 v -> emits (fun w => gnmi_pb_put_uint64 w f v) (vfield_nz f v).
Proof.
  intros Hv. unfold gnmi_pb_put_uint64, vfield_nz. rewrite u64_small by done.
  exact (emits_if _ (fun w => w) _ _ _ emits_nil (emits_vfield f v)).
Qed.

Lemma emits_enum f v : emits (fun w => gnmi_pb_put_enum w f v) (vfield_nz f v).
Proof. exact (emits_if _ (fun w => w) _ _ _ emits_nil (emits_vfield f (u64 v))). Qed.

(** The length byte is rewritten in place, or the body moved by one. *)
Lemma pb_fix_len_done w pre body :
  w_ok w -> w_overflow w = false -> w_data w = pre ++ [0] ++ body ->
  let w' := pb_fix_len w (strlen pre) in
  w_cap w' = w_cap w /\ w_len w <= w_len w' <= w_cap w /\
  w_overflow w' = (w_cap w <? strlen pre + strlen (fix_len (strlen body)) + strlen body) /\
  (w_overflow w' = false -> w_data w' = pre ++ fix_len (strlen body) ++ body).
Proof.
  intros Hw Ho Hd. unfold w_ok, w_len in Hw. unfold pb_fix_len, w_len.
  rewrite Hd in *. cbn [app] in *. rewrite length_app in *. simpl length in *. unfold strlen in *.
  replace (u64 _) with (Z.of_nat (length body))
    by (rewrite u64_small; [lia|unfold is_u64; lia]).
  rewrite Nat2Z.id. unfold fix_len. destruct (_ <? 128) eqn:E; bool_prop; cbn [w_cap w_overflow w_data].
  - rewrite Ho. rewrite insert_app_r_alt, Nat.sub_diag by lia. cbn [list_insert insert].
    rewrite length_app. simpl length. split_and!; [done|lia|lia|symmetry; apply Z.ltb_ge; lia|done].
  - rewrite (u64_small (_ + 1)) by (unfold is_u64; lia). simpl length.
    destruct (_ <? _) eqn:E2; bool_prop; cbn [w_cap w_overflow w_data]; rewrite ?Hd.
    + rewrite length_app. simpl length. split_and!; [done|lia|lia|symmetry; apply Z.ltb_lt; lia|done].
    + rewrite take_app_length, drop_app_ge by lia.
      replace (length pre + 1 - length pre)%nat with 1%nat by lia. cbn [drop].
      rewrite drop_0, !length_app. simpl length. rewrite Ho.
      split_and!; [done|lia|lia|symmetry; apply Z.ltb_ge; lia|done].
Qed.

(** With the flag already up nothing is promised but the bounds. *)
Lemma pb_fix_len_overflow w saved :
  w_ok w -> w_overflow w = true -> 0 <= saved <= w_len w ->
  (saved = w_len w -> w_len w = w_cap w) ->
  let w' := pb_fix_len w saved in
  w_cap w' = w_cap w /\ w_len w <= w_len w' <= w_cap w /\ w_overflow w' = true.
Proof.
  intros Hw Ho Hs Hfull. unfold w_ok in Hw. unfold pb_fix_len.
  destruct (decide (saved = w_len w)) as [Heq|Hne].
  - specialize (Hfull Heq). replace (u64 (w_len w - saved - 1)) with (2 ^ 64 - 1)
      by (rewrite Heq; replace (w_len w - w_len w - 1) with (-1) by lia; done).
    replace (u64 (saved + 1 + (2 ^ 64 - 1) + 1)) with (saved + 1).
    2: { unfold u64. replace (saved + 1 + (2 ^ 64 - 1) + 1) with (saved + 1 + 1 * 2 ^ 64) by lia.
         rewrite Z.mod_add, Z.mod_small by lia. done. }
    rewrite (proj2 (Z.ltb_ge _ 128)), (proj2 (Z.ltb_lt _ _)) by lia. cbn. unfold w_len in *. cbn [w_data]. lia.
  - rewrite u64_small by (unfold is_u64; lia). destruct (_ <? 128) eqn:E; bool_prop; cbn [w_cap w_data w_overflow].
    { unfold w_len in *. cbn [w_data]. rewrite length_insert. split_and!; [done|lia|lia|done]. }
    rewrite u64_small by (unfold is_u64; lia). destruct (_ <? _) eqn:E2; bool_prop; cbn [w_cap w_data w_overflow].
    { unfold w_len in *. cbn [w_data]. split_and!; [done|lia|lia|done]. }
    unfold w_len in *. cbn [w_data]. rewrite !length_app, length_take, length_drop. simpl length.
    split_and!; [done|lia|lia|done].
Qed.

(** A byte is refused only by a full buffer. *)
Lemma write_full w : w_ok w -> w_len (pb_write w [0]) = w_len w -> w_len w = w_cap w.
Proof.
  intros Hw. unfold pb_write, w_ok, w_len in *. change (strlen [0]) with 1.
  destruct (_ <? _) eqn:E; bool_prop; cbn [w_data]; [lia|].
  rewrite length_app. simpl. lia.
Qed.

Lemma emits_nested f g body : emits g body -> emits (pb_nested f g) (ld_fix f body).
Proof.
  intros Hg w Hw. unfold pb_nested, gnmi_pb_begin_nested, gnmi_pb_end_nested.
  destruct (emits_tag f 2 w Hw) as (Tc & Tl & To & Td).
  set (w1 := gnmi_pb_put_tag w f 2) in *.
  assert (Hw1 : w_ok w1) by (unfold w_ok in *; lia).
  destruct (emits_write [0] w1 Hw1) as (Zc & Zl & Zo & Zd). cbv beta in Zc, Zl, Zo, Zd.
  assert (Hfull : w_len (pb_write w1 [0]) = w_len w1 -> w_len w1 = w_cap w1)
    by (by apply write_full).
  set (w2 := pb_write w1 [0]) in *.
  assert (Hw2 : w_ok w2) by (unfold w_ok in *; lia).
  destruct (Hg w2 Hw2) as (Gc & Gl & Go & Gd). set (w3 := g w2) in *.
  assert (Hw3 : w_ok w3) by (unfold w_ok in *; lia).
  unfold ld_fix. rewrite !strlen_app. change (strlen [0]) with 1 in Zo.
  assert (Hfl : 1 <= strlen (fix_len (strlen body)) <= 2)
    by (unfold fix_len; case_match; unfold strlen; simpl; lia).
  pose proof (strlen_nonneg body). pose proof (strlen_nonneg (tagb f 2)).
  destruct (w_overflow w3) eqn:O3.
  - destruct (pb_fix_len_overflow w3 (w_len w1) Hw3 O3) as (Pc & Pl & Po);
      [unfold w_len in *; lia|unfold w_ok in *; lia|]. cbv zeta in Pc, Pl, Po.
    split_and!; [congruence|lia|lia| |by rewrite Po].
    rewrite Po. symmetry. apply orb_true_iff. rewrite To in Zo.
    destruct (w_overflow w); [by left|right]. apply Z.ltb_lt. cbn [orb] in *.
    destruct (w_cap w <? w_len w + strlen (tagb f 2)) eqn:E1; bool_prop; [lia|].
    assert (Hl1 : w_len w1 = w_len w + strlen (tagb f 2))
      by (unfold w_len at 1; rewrite Td by done; rewrite length_app; unfold w_len, strlen; lia).
    destruct (w_cap w1 <? w_len w1 + 1) eqn:E2; bool_prop; [lia|].
    assert (Hl2 : w_len w2 = w_len w1 + 1)
      by (unfold w_len at 1; rewrite Zd by done; rewrite length_app; unfold w_len; simpl; lia).
    rewrite Zo in Go. cbn [orb] in Go. symmetry in Go. bool_prop. lia.
  - symmetry in Go. apply orb_false_elim in Go as [O2 Gfit].
    rewrite O2 in Zo. symmetry in Zo. apply orb_false_elim in Zo as [O1 Zfit].
    rewrite O1 in To. symmetry in To. apply orb_false_elim in To as [O0 Tfit].
    specialize (Gd eq_refl). rewrite Zd, Td in Gd by done. rewrite O0. cbn [orb].
    rewrite <- !app_assoc in Gd. rewrite app_assoc in Gd.
    replace (w_len w1) with (strlen (w_data w ++ tagb f 2))
      by (unfold w_len; rewrite Td by done; done).
    destruct (pb_fix_len_done w3 _ _ Hw3 O3 Gd) as (Pc & Pl & Po & Pd). cbv zeta in *.
    split_and!; [congruence|lia|lia| |].
    + rewrite Po, strlen_app, Gc, Zc, Tc. f_equal. unfold w_len, strlen. lia.
    + intros Hno. rewrite Pd by done. by rewrite <- app_assoc.
Qed.

(** ** The encoders *)

Lemma emits_elem e : emits (fun w => encode_elem w e) (ld_fix 3 (elem_body e)).
Proof.
  apply emits_nested. unfold elem_body.
  refine (emits_seq (put_str 1 (pe_name e)) (fun w => if pe_has_key e then
    pb_nested 2 (fun w => put_str 2 (pe_key_value e) (put_str 1 (pe_key_name e) w)) w
    else w) _ _ (emits_str _ _) _).
  refine (emits_if (pe_has_key e) _ (fun w => w) _ _ _ emits_nil). apply emits_nested.
  exact (emits_seq (put_str 1 _) (put_str 2 _) _ _ (emits_str _ _) (emits_str _ _)).
Qed.

Lemma emits_path f p :
  emits (fun w => gnmi_encode_path w f (Some p)) (ld_fix f (path_body p)).
Proof.
  apply emits_nested. unfold path_body.
  refine (emits_seq (fun w => if bool_decide (p_origin p = []) then w else put_str 2 (p_origin p) w)
    (pb_each encode_elem (p_elems p)) _ _ _ _).
  - exact (emits_if _ (fun w => w) _ _ _ emits_nil (emits_str _ _)).
  - apply emits_each. intros e. apply emits_elem.
Qed.

(** The fields of a value fit the types they have in the source. *)
Definition value_range (v : gnmi_typed_value_t) : Prop := is_u64 (v_u v).

Lemma emits_value f v :
  value_range v -> emits (fun w => gnmi_encode_typed_value w f (Some v)) (value_field f v).
Proof.
  intros Hv. unfold gnmi_encode_typed_value, value_field.
  refine (emits_if _ (fun w => w) _ _ _ emits_nil _). apply emits_nested.
  unfold encode_scalar, value_body. destruct (v_kind v);
    [apply emits_nil|apply emits_str|apply emits_vfield|by apply emits_uint64
    |apply emits_vfield|apply emits_str..].
Qed.

Lemma emits_update f u :
  value_range (u_val u) -> emits (fun w => encode_update f w u) (ld_fix f (update_body u)).
Proof.
  intros Hv. apply emits_nested.
  exact (emits_seq _ (fun w => gnmi_encode_typed_value w 3 (Some (u_val u))) _ _
    (emits_path 1 (u_path u)) (emits_value 3 _ Hv)).
Qed.

Definition notification_range (n : gnmi_notification_t) : Prop :=
  is_u64 (n_timestamp n) /\ Forall (fun u => value_range (u_val u)) (n_updates n).

Lemma emits_each_forall {A} (P : A -> Prop) (f : gnmi_pb_t -> A -> gnmi_pb_t) (enc : A -> bytes) xs :
  (forall x, P x -> emits (fun w => f w x) (enc x)) -> Forall P xs ->
  emits (pb_each f xs) (xs ≫= enc).
Proof.
  intros H. induction 1 as [|x xs Hx _ IH]; [apply emits_nil|].
  rewrite bind_cons. exact (emits_seq (fun w => f w x) (pb_each f xs) _ _ (H x Hx) IH).
Qed.

Lemma emits_notification f n :
  notification_range n ->
  emits (fun w => gnmi_encode_notification f w n) (ld_fix f (notification_body n)).
Proof.
  intros [Ht Hu]. apply emits_nested.
  refine (emits_seq (fun w => gnmi_pb_put_uint64 w 1 (n_timestamp n))
    (pb_each (encode_update 4) (n_updates n)) _ _ (emits_uint64 _ _ Ht) _).
  by eapply emits_each_forall; [intros u; apply emits_update|].
Qed.

(** The bodies of the responses. *)
Definition get_response_body (ns : list gnmi_notification_t) : bytes :=
  ns ≫= fun n => ld_fix 1 (notification_body n).

Definition set_response_body (r : gnmi_set_response_t) : bytes :=
  (if bool_decide (p_elems (sr_prefix r) = []) then []
   else ld_fix 1 (path_body (sr_prefix r))) ++
  (sr_results r ≫= fun x => ld_fix 2 (ld_fix 2 (path_body x.1) ++ vfield_nz 4 x.2)) ++
  vfield_nz 4 (sr_timestamp r).

Definition model_body (m : gnmi_model_data_t) : bytes :=
  ld 1 (m_name m) ++ ld 2 (m_organization m) ++ ld 3 (m_version m).

Definition capabilities_body (ms : list gnmi_model_data_t) (es : list Z) (v : bytes) : bytes :=
  (ms ≫= fun m => ld_fix 1 (model_body m)) ++ (es ≫= vfield_nz 2) ++ ld 3 v.

Lemma emits_get_response ns :
  Forall notification_range ns ->
  emits (fun w => (gnmi_encode_get_response w ns).2) (get_response_body ns).
Proof.
  intros H. by eapply emits_each_forall; [intros n; apply emits_notification|].
Qed.

Lemma emits_set_response r :
  is_u64 (sr_timestamp r) ->
  emits (fun w => (gnmi_encode_set_response w r).2) (set_response_body r).
Proof.
  intros Ht. unfold set_response_body.
  refine (emits_seq (fun w => if bool_decide (p_elems (sr_prefix r) = []) then w
    else gnmi_encode_path w 1 (Some (sr_prefix r)))
    (fun w => gnmi_pb_put_uint64 (pb_each encode_update_result (sr_results r) w) 4
       (sr_timestamp r)) _ _ _ _).
  { exact (emits_if _ (fun w => w) _ _ _ emits_nil (emits_path 1 (sr_prefix r))). }
  refine (emits_seq (pb_each encode_update_result (sr_results r))
    (fun w => gnmi_pb_put_uint64 w 4 (sr_timestamp r)) _ _ _ (emits_uint64 _ _ Ht)).
  apply emits_each. intros x. apply emits_nested.
  exact (emits_seq _ (fun w => gnmi_pb_put_enum w 4 x.2) _ _ (emits_path 2 x.1) (emits_enum 4 x.2)).
Qed.

Lemma emits_capabilities ms es v :
  emits (fun w => (gnmi_encode_capabilities_response w ms es v).2) (capabilities_body ms es v).
Proof.
  unfold capabilities_body.
  refine (emits_seq (pb_each encode_model ms)
    (fun w => put_str 3 v (pb_each (fun w e => gnmi_pb_put_enum w 2 e) es w)) _ _ _ _).
  - apply emits_each. intros m. apply emits_nested.
    refine (emits_seq (put_str 1 _) (fun w => put_str 3 (m_version m) (put_str 2 (m_organization m) w))
      _ _ (emits_str _ _) _).
    exact (emits_seq (put_str 2 _) (put_str 3 _) _ _ (emits_str _ _) (emits_str _ _)).
  - refine (emits_seq (pb_each (fun w e => gnmi_pb_put_enum w 2 e) es) (put_str 3 v) _ _ _
      (emits_str _ _)). apply emits_each. intros e. apply emits_enum.
Qed.

(** ** What the readers see *)

(** A reader at the bytes [k] of a message that started with [pre]; [tail] is
    the memory behind the message. *)
Definition rd (pre k tail : bytes) : gnmi_pb_reader_t :=
  mk_reader (pre ++ k ++ tail) (strlen pre + strlen k) (strlen pre) false.

Lemma rd_init b tail : gnmi_pbr_init (b ++ tail) (strlen b) = rd [] b tail.
Proof. done. Qed.

Lemma rd_next pre b k tail :
  r_move (rd pre (b :: k) tail) (r_pos (rd pre (b :: k) tail) + 1) = rd (pre ++ [b]) k tail.
Proof.
  unfold rd, r_move. cbn [r_p r_len r_err r_pos]. rewrite <- app_assoc, strlen_app.
  f_equal. unfold strlen. simpl length. lia.
Qed.

Lemma rd_byte pre b k tail :
  r_p (rd pre (b :: k) tail) !! Z.to_nat (r_pos (rd pre (b :: k) tail)) = Some b.
Proof.
  cbn [rd r_p r_pos]. unfold strlen. rewrite Nat2Z.id, lookup_app_r, Nat.sub_diag by lia. done.
Qed.

Lemma varint_loop_rd turns k v acc pre rest tail :
  (turns + k = 10)%nat -> (1 <= turns)%nat ->
  0 <= v < 2 ^ (64 - 7 * Z.of_nat k) -> 0 <= acc < 2 ^ (7 * Z.of_nat k) ->
  pbr_varint_loop turns (7 * Z.of_nat k) acc (rd pre (varint turns v ++ rest) tail) =
  Ret (acc + v * 2 ^ (7 * Z.of_nat k), rd (pre ++ varint turns v) rest tail).
Proof.
  revert k v acc pre. induction turns as [|turns IH]; intros k v acc pre Ht H1 Hv Ha; [lia|].
  assert (Hpow : 2 ^ 64 = 2 ^ (64 - 7 * Z.of_nat k) * 2 ^ (7 * Z.of_nat k))
    by (rewrite <- Z.pow_add_r by lia; f_equal; lia).
  assert (Hp : 0 < 2 ^ (7 * Z.of_nat k)) by (apply Z.pow_pos_nonneg; lia).
  assert (Hb : forall b vs, (r_len (rd pre ((b :: vs) ++ rest) tail) <=?
      r_pos (rd pre ((b :: vs) ++ rest) tail)) = false)
    by (intros; apply Z.leb_gt; cbn [rd r_len r_pos]; unfold strlen; simpl; lia).
  cbn [pbr_varint_loop varint]. destruct (v <? 128) eqn:E; bool_prop.
  - rewrite Hb. cbn [app]. rewrite rd_byte.
    rewrite rd_next, u8_small by (unfold is_byte; lia).
    destruct (septet v ltac:(lia)) as (_ & -> & -> & _). cbn [Z.eqb].
    rewrite u64_small by (unfold is_u64; rewrite Z.shiftl_mul_pow2 by lia; nia).
    rewrite Z.lor_comm, lor_shiftl_add by lia. do 2 f_equal. lia.
  - assert (Hk : (k <= 8)%nat).
    { destruct (decide (k <= 8)%nat); [done|]. assert (k = 9%nat) as -> by lia.
      change (2 ^ (64 - 7 * Z.of_nat 9)) with 2 in Hv. lia. }
    rewrite Hb. cbn [app]. rewrite rd_byte.
    rewrite rd_next, u8_lor_128, shiftr_7.
    pose proof (Z.mod_pos_bound v 128 ltac:(lia)) as Hr.
    pose proof (Z.div_mod v 128 ltac:(lia)) as Hdm.
    destruct (septet (v mod 128) Hr) as (_ & _ & _ & -> & ->). cbn [Z.eqb].
    rewrite u64_small by (unfold is_u64; rewrite Z.shiftl_mul_pow2 by lia; nia).
    rewrite Z.lor_comm, lor_shiftl_add by lia.
    replace (7 * Z.of_nat k + 7) with (7 * Z.of_nat (S k)) by lia.
    assert (Hp7 : 2 ^ (7 * Z.of_nat (S k)) = 128 * 2 ^ (7 * Z.of_nat k))
      by (replace (7 * Z.of_nat (S k)) with (7 + 7 * Z.of_nat k) by lia;
          rewrite Z.pow_add_r by lia; done).
    assert (Hq : 2 ^ (64 - 7 * Z.of_nat k) = 128 * 2 ^ (64 - 7 * Z.of_nat (S k)))
      by (replace (64 - 7 * Z.of_nat k) with (7 + (64 - 7 * Z.of_nat (S k))) by lia;
          rewrite Z.pow_add_r by lia; done).
    rewrite IH; [|lia|lia| |nia].
    + rewrite <- app_assoc. cbn [app]. do 2 f_equal. rewrite Hp7. nia.
    + split; [apply Z.div_pos; lia|]. apply Z.div_lt_upper_bound; lia.
Qed.

Lemma varint_rd v pre rest tail :
  is_u64 v -> gnmi_pbr_varint (rd pre (vint v ++ rest) tail) = Ret (v, rd (pre ++ vint v) rest tail).
Proof.
  intros Hv. unfold gnmi_pbr_varint, vint.
  pose proof (varint_loop_rd 10 0 v 0 pre rest tail) as H.
  change (7 * Z.of_nat 0) with 0 in H.
  rewrite H by (done || lia || apply Hv). do 2 f_equal. change (2 ^ 0) with 1. lia.
Qed.

(** Field numbers and wire types of the protocol. *)
Definition tag_ok (f wire : Z) : Prop := 0 < f < 2 ^ 29 /\ 0 <= wire < 8.

Lemma vint_nonempty v : vint v <> [].
Proof. unfold vint. cbn [varint]. by case_match. Qed.

Lemma tag_rd f wire pre rest tail :
  tag_ok f wire ->
  gnmi_pbr_tag (rd pre (tagb f wire ++ rest) tail) = Ret (f, wire, rd (pre ++ tagb f wire) rest tail).
Proof.
  intros [Hf Hw]. unfold gnmi_pbr_tag, tagb. rewrite lor_shiftl_add by lia.
  change (2 ^ 3) with 8. pose proof (vint_nonempty (f * 8 + wire)) as Hne.
  rewrite (proj2 (Z.leb_gt _ _)).
  2: { cbn [rd r_len r_pos]. rewrite strlen_app. pose proof (strlen_nonneg rest).
       destruct (vint (f * 8 + wire)); [done|]. unfold strlen. simpl. lia. }
  rewrite varint_rd by (unfold is_u64; lia). cbn.
  rewrite Z.shiftr_div_pow2 by lia. change (2 ^ 3) with 8.
  change 7 with (Z.ones 3). rewrite Z.land_ones by lia. change (2 ^ 3) with 8.
  rewrite Z.div_add_l, Z.div_small, Z.add_0_r by lia.
  rewrite u32_small by (unfold is_u32; lia). do 3 f_equal.
  rewrite Z.add_comm, Z.mod_add, Z.mod_small by lia. done.
Qed.

Lemma tag_rd_end pre tail : gnmi_pbr_tag (rd pre [] tail) = Ret (0, 0, rd pre [] tail).
Proof.
  unfold gnmi_pbr_tag. cbn [rd r_len r_pos]. rewrite (proj2 (Z.leb_le _ _)); [done|].
  unfold strlen. simpl. lia.
Qed.

Lemma bytes_rd b pre rest tail :
  strlen pre + strlen (vint (strlen b)) + strlen b + strlen rest < 2 ^ 62 ->
  gnmi_pbr_bytes (rd pre (vint (strlen b) ++ b ++ rest) tail) =
  Ret (Some (b ++ rest ++ tail, strlen b), rd (pre ++ vint (strlen b) ++ b) rest tail).
Proof.
  intros Hl. unfold gnmi_pbr_bytes.
  pose proof (strlen_nonneg pre). pose proof (strlen_nonneg b). pose proof (strlen_nonneg rest).
  pose proof (strlen_nonneg (vint (strlen b))).
  rewrite varint_rd by (unfold is_u64; lia). set (p := pre ++ vint (strlen b)).
  assert (Hp : strlen p = strlen pre + strlen (vint (strlen b))) by apply strlen_app.
  cbn -[u64 drop]. rewrite u64_small by (unfold is_u64; lia).
  rewrite (proj2 (Z.ltb_ge _ _)) by (rewrite strlen_app; lia).
  f_equal. f_equal.
  - rewrite <- !app_assoc. do 2 f_equal. unfold strlen. by rewrite Nat2Z.id, drop_app_length.
  - unfold r_move, rd. cbn [r_p r_len r_err]. subst p. rewrite <- !app_assoc.
    f_equal; rewrite ?strlen_app; lia.
Qed.

(** ** Field loops *)

(** The loop with [body] reads [chunk] and turns [s] into [s']. *)
Definition consumes {T}
    (body : Z -> Z -> gnmi_pb_reader_t -> T -> outcome (option (gnmi_pb_reader_t * T)))
    (chunk : bytes) (s s' : T) : Prop :=
  exists n, (n <= length chunk)%nat /\ forall fuel pre k tail,
    strlen pre + strlen chunk + strlen k < 2 ^ 62 ->
    pbr_fields (n + fuel) body (rd pre (chunk ++ k) tail) s =
    pbr_fields fuel body (rd (pre ++ chunk) k tail) s'.

Lemma consumes_nil {T} body (s : T) : consumes body [] s s.
Proof. exists 0%nat. split; [done|]. intros. by rewrite app_nil_r. Qed.

Lemma consumes_app {T} body a b (s s' s'' : T) :
  consumes body a s s' -> consumes body b s' s'' -> consumes body (a ++ b) s s''.
Proof.
  intros (n & Hn & Ha) (m & Hm & Hb). exists (n + m)%nat. rewrite length_app.
  split; [lia|]. intros fuel pre k tail Hl. rewrite strlen_app in Hl.
  rewrite <- app_assoc, <- Nat.add_assoc, Ha by (rewrite strlen_app; lia).
  rewrite Hb by (rewrite strlen_app; lia). by rewrite app_assoc.
Qed.

Lemma decodes {T} body F msg tail (s s' : T) :
  consumes body msg s s' -> (length msg < F)%nat -> strlen msg < 2 ^ 62 ->
  pbr_fields F body (gnmi_pbr_init (msg ++ tail) (strlen msg)) s = Ret (Some (rd msg [] tail, s')).
Proof.
  intros (n & Hn & H) HF Hl. rewrite rd_init.
  replace F with (n + S (F - n - 1))%nat by lia.
  specialize (H (S (F - n - 1)) [] [] tail). rewrite app_nil_r in H. rewrite H.
  - cbn [app pbr_fields]. by rewrite tag_rd_end.
  - change (strlen []) with 0. lia.
Qed.

(** One field. *)
Lemma consumes_field {T} body f wire payload (s s' : T) :
  tag_ok f wire ->
  (forall pre k tail, strlen pre + strlen payload + strlen k < 2 ^ 62 ->
    body f wire (rd pre (payload ++ k) tail) s = Ret (Some (rd (pre ++ payload) k tail, s'))) ->
  consumes body (tagb f wire ++ payload) s s'.
Proof.
  intros Ht Hb. exists 1%nat. split.
  { pose proof (vint_nonempty (Z.lor (Z.shiftl f 3) wire)). unfold tagb.
    rewrite length_app. destruct (vint _); [done|]. simpl. lia. }
  intros fuel pre k tail Hl. cbn [Nat.add pbr_fields]. rewrite <- app_assoc, tag_rd by done.
  cbn [mbind outcome_bind]. destruct Ht as [Hf _].
  rewrite (proj2 (Z.eqb_neq _ _)) by lia.
  rewrite Hb by (rewrite strlen_app in *; lia). cbn [mbind outcome_bind].
  by rewrite <- app_assoc.
Qed.

Lemma consumes_varint {T} body f v (s : T) (k : Z -> T) :
  tag_ok f 0 -> is_u64 v ->
  (forall r, r_err r = false ->
    body f 0 r s = ('(n, r) ← gnmi_pbr_varint r; Ret (Some (r, k n)))) ->
  consumes body (vfield f v) s (k v).
Proof.
  intros Ht Hv Hb. apply consumes_field; [done|]. intros pre rest tail _.
  rewrite Hb by done. by rewrite varint_rd.
Qed.

Lemma with_bytes_rd {T} b pre k tail (kont : bytes -> Z -> gnmi_pb_reader_t -> outcome (option (_ * T))) :
  strlen pre + strlen (vint (strlen b) ++ b) + strlen k < 2 ^ 62 ->
  with_bytes (rd pre ((vint (strlen b) ++ b) ++ k) tail) kont =
  kont (b ++ k ++ tail) (strlen b) (rd (pre ++ vint (strlen b) ++ b) k tail).
Proof.
  intros Hl. unfold with_bytes. rewrite strlen_app in Hl.
  rewrite <- app_assoc, bytes_rd by lia. done.
Qed.

Lemma consumes_ld {T} body f b (s s' : T) :
  tag_ok f 2 ->
  (forall r k tail, r_err r = false -> strlen b < 2 ^ 62 ->
    exists kont, body f 2 r s = with_bytes r kont /\
      forall r', kont (b ++ k ++ tail) (strlen b) r' = Ret (Some (r', s'))) ->
  consumes body (ld f b) s s'.
Proof.
  intros Ht Hb. apply consumes_field; [done|]. intros pre k tail Hl.
  pose proof (strlen_nonneg pre). pose proof (strlen_nonneg k).
  pose proof (strlen_nonneg (vint (strlen b))). rewrite strlen_app in Hl.
  destruct (Hb (rd pre ((vint (strlen b) ++ b) ++ k) tail) k tail) as (kont & -> & Hk);
    [done|lia|]. rewrite with_bytes_rd by (rewrite strlen_app; lia). apply Hk.
Qed.

Lemma copy_str_rd b x size :
  is_text b -> strlen b < size -> copy_str (b ++ x) (strlen b) size = Ret b.
Proof.
  intros Ht Hl. unfold copy_str.
  assert ((if strlen b <? size - 1 then strlen b else size - 1) = strlen b) as ->
    by (case_match; bool_prop; lia).
  rewrite (proj2 (Z.ltb_ge _ _)) by (rewrite length_app; unfold strlen; lia).
  unfold strlen. rewrite Nat2Z.id, take_app_length. by rewrite c_str_id.
Qed.

(** ** Paths *)

Record elem_wf (e : gnmi_path_elem_t) : Prop := {
  ew_name : is_text (pe_name e) /\ strlen (pe_name e) < GNMI_MAX_NAME;
  ew_key : is_text (pe_key_name e) /\ strlen (pe_key_name e) < GNMI_MAX_NAME;
  ew_value : is_text (pe_key_value e) /\ strlen (pe_key_value e) < GNMI_MAX_NAME;
  ew_has : pe_has_key e = negb (bool_decide (pe_key_name e = []));
  ew_none : pe_has_key e = false -> pe_key_value e = [];
}.

Record path_wf (p : gnmi_path_t) : Prop := {
  pw_origin : is_text (p_origin p) /\ strlen (p_origin p) < GNMI_MAX_ORIGIN;
  pw_count : (length (p_elems p) <= GNMI_MAX_ELEMS)%nat;
  pw_elems : Forall elem_wf (p_elems p);
}.

Lemma vint_small v : 0 <= v < 16384 -> vint v = fix_len v /\ strlen (vint v) <= 2.
Proof.
  intros Hv. unfold vint, fix_len. cbn [varint]. destruct (v <? 128) eqn:E; bool_prop; [done|].
  rewrite shiftr_7. assert (v / 128 < 128) by (apply Z.div_lt_upper_bound; lia).
  rewrite (proj2 (Z.ltb_lt (v / 128) 128)) by lia. done.
Qed.

Lemma ld_fix_ld f b : strlen b < 16384 -> ld_fix f b = ld f b.
Proof.
  intros H. unfold ld_fix, ld. pose proof (strlen_nonneg b).
  by destruct (vint_small (strlen b)) as [-> _].
Qed.

Lemma tagb_small f w : 0 < f < 16 -> 0 <= w < 8 -> strlen (tagb f w) = 1.
Proof.
  intros Hf Hw. unfold tagb. rewrite lor_shiftl_add by lia. change (2 ^ 3) with 8.
  unfold vint. cbn [varint]. by rewrite (proj2 (Z.ltb_lt _ _)) by lia.
Qed.

Lemma strlen_ld f b : 0 < f < 16 -> strlen b < 16384 -> strlen (ld f b) <= 3 + strlen b.
Proof.
  intros Hf Hb. unfold ld. rewrite !strlen_app, tagb_small by lia.
  pose proof (strlen_nonneg b). destruct (vint_small (strlen b)) as [_ ?]; lia.
Qed.

Lemma tag_ok_small f w : 0 < f < 16 -> 0 <= w < 8 -> tag_ok f w.
Proof. intros. split; lia. Qed.

Lemma key_entry_decodes e :
  elem_wf e -> consumes decode_key_field (key_body e) ([], []) (pe_key_name e, pe_key_value e).
Proof.
  intros [_ [Hk1 Hk2] [Hv1 Hv2] _ _].
  assert (Hstep : forall f b x s', f = 1 \/ f = 2 -> is_text b -> strlen b < GNMI_MAX_NAME ->
    s' = (if f =? 1 then (b, x.2) else (x.1, b)) ->
    consumes decode_key_field (ld f b) x s').
  { intros f b x s' Hf Hb Hl ->. apply consumes_field; [apply tag_ok_small; lia|].
    intros pre k tail Hlen. unfold decode_key_field.
    replace ((f =? 1) || (f =? 2)) with true by (destruct Hf as [-> | ->]; done).
    rewrite <- app_assoc. rewrite strlen_app in Hlen. rewrite bytes_rd by lia.
    cbn [mbind outcome_bind]. rewrite copy_str_rd by done. done. }
  eapply consumes_app; eapply Hstep; eauto.
Qed.

Lemma key_body_small e : elem_wf e -> strlen (key_body e) <= 132.
Proof.
  intros [_ [_ Hk] [_ Hv] _ _]. unfold key_body, GNMI_MAX_NAME in *. rewrite strlen_app.
  pose proof (strlen_ld 1 (pe_key_name e)). pose proof (strlen_ld 2 (pe_key_value e)). lia.
Qed.

Lemma elem_body_small e : elem_wf e -> strlen (elem_body e) <= 201.
Proof.
  intros He. pose proof (key_body_small e He). destruct He as [[_ Hn] _ _ _ _].
  unfold elem_body, GNMI_MAX_NAME in *. rewrite strlen_app.
  pose proof (strlen_ld 1 (pe_name e)). case_match.
  - rewrite ld_fix_ld by lia. pose proof (strlen_ld 2 (key_body e)). lia.
  - change (strlen []) with 0. lia.
Qed.

Lemma elem_decodes F e :
  elem_wf e -> (201 < F)%nat ->
  consumes (decode_elem_field F) (elem_body e) (mk_elem [] false [] []) e.
Proof.
  intros He HF. pose proof (key_body_small e He) as Hkb. pose proof (key_entry_decodes e He) as Hkey.
  destruct He as [[Hn1 Hn2] _ _ Hhas Hnone]. unfold elem_body.
  eapply (consumes_app _ _ _ _ (mk_elem (pe_name e) false [] [])).
  - apply consumes_ld; [by apply tag_ok_small|]. intros r k tail Hr Hl.
    unfold decode_elem_field. rewrite Hr. cbn [Z.eqb Pos.eqb andb]. eexists. split; [done|].
    intros r'. cbv beta. by rewrite copy_str_rd.
  - destruct (pe_has_key e) eqn:Ek.
    + rewrite ld_fix_ld by lia. apply consumes_ld; [by apply tag_ok_small|].
      intros r k tail Hr Hl. unfold decode_elem_field. rewrite Hr. cbn [Z.eqb Pos.eqb andb].
      eexists. split; [done|]. intros r'. cbv beta.
      rewrite (decodes _ _ _ _ _ _ Hkey) by (unfold strlen in *; lia). cbn [mbind outcome_bind].
      do 3 f_equal. destruct e; cbn in *. by rewrite <- Hhas, Ek.
    + specialize (Hnone eq_refl). symmetry in Hhas. apply negb_false_iff, bool_decide_eq_true in Hhas.
      destruct e; cbn in *; subst. apply consumes_nil.
Qed.

Lemma path_body_small p : path_wf p -> strlen (path_body p) <= 1666.
Proof.
  intros [[_ Ho] Hc He]. unfold path_body. rewrite strlen_app.
  assert (H1 : strlen (if bool_decide (p_origin p = []) then [] else ld 2 (p_origin p)) <= 34).
  { case_match; [unfold strlen; simpl; lia|]. unfold GNMI_MAX_ORIGIN in Ho.
    pose proof (strlen_ld 2 (p_origin p)). lia. }
  assert (H2 : strlen (p_elems p ≫= fun e => ld_fix 3 (elem_body e)) <=
               204 * Z.of_nat (length (p_elems p))).
  { clear Hc. induction He as [|e es He _ IH]; [done|]. rewrite bind_cons, strlen_app.
    simpl length. pose proof (elem_body_small e He). rewrite ld_fix_ld by lia.
    pose proof (strlen_ld 3 (elem_body e)). lia. }
  unfold GNMI_MAX_ELEMS in Hc. lia.
Qed.

Lemma path_decodes F p :
  path_wf p -> (201 < F)%nat -> consumes (decode_path_field F) (path_body p) path0 p.
Proof.
  intros [[Ho1 Ho2] Hc He] HF. unfold path_body.
  eapply (consumes_app _ _ _ _ (mk_path (p_origin p) [])).
  { case_bool_decide as Hnil; [rewrite Hnil; apply consumes_nil|].
    apply consumes_ld; [by apply tag_ok_small|]. intros r k tail Hr Hl.
    unfold decode_path_field. rewrite Hr. cbn [Z.eqb Pos.eqb]. eexists. split; [done|].
    intros r'. cbv beta. by rewrite copy_str_rd. }
  assert (H : forall es done_, (length done_ + length es <= GNMI_MAX_ELEMS)%nat -> Forall elem_wf es ->
    consumes (decode_path_field F) (es ≫= fun e => ld_fix 3 (elem_body e))
      (mk_path (p_origin p) done_) (mk_path (p_origin p) (done_ ++ es))).
  { induction es as [|e es IH]; intros done_ Hn Hes; [rewrite app_nil_r; apply consumes_nil|].
    apply Forall_cons in Hes as [Hw Hes]. simpl length in Hn. rewrite bind_cons.
    pose proof (elem_body_small e Hw) as Hsm.
    eapply (consumes_app _ _ _ _ (mk_path (p_origin p) (done_ ++ [e]))).
    - rewrite ld_fix_ld by lia. apply consumes_ld; [by apply tag_ok_small|].
      intros r k tail Hr Hl. unfold decode_path_field. rewrite Hr. cbn [Z.eqb Pos.eqb].
      eexists. split; [done|]. intros r'. cbv beta. cbn [p_elems].
      rewrite (proj2 (Nat.leb_gt _ _)) by lia.
      rewrite (decodes _ _ _ _ _ _ (elem_decodes F e Hw HF)) by (unfold strlen in *; lia). done.
    - replace (done_ ++ e :: es) with ((done_ ++ [e]) ++ es) by (by rewrite <- app_assoc).
      apply IH; [rewrite length_app; simpl; lia|done]. }
  destruct p as [o es]. cbn in *. by apply (H es []).
Qed.

Lemma decode_path_body F p tail :
  path_wf p -> (1666 < F)%nat ->
  gnmi_decode_path F (path_body p ++ tail) (strlen (path_body p)) = Ret (Some p).
Proof.
  intros Hp HF. pose proof (path_body_small p Hp) as Hs. unfold gnmi_decode_path.
  rewrite (decodes _ _ _ _ _ _ (path_decodes F p Hp ltac:(lia))) by (unfold strlen in *; lia).
  done.
Qed.

(** ** Values and updates *)

(** A value holds its member and zeroes elsewhere, as the decoder leaves it.
    A zero [uint] is excluded: the encoder does not write it. *)
Definition value_wf (v : gnmi_typed_value_t) : Prop :=
  match v_kind v with
  | GNMI_VAL_UNSET => False
  | GNMI_VAL_INT => v = mk_val GNMI_VAL_INT [] (v_i v) 0 false /\ - 2 ^ 63 <= v_i v < 2 ^ 63
  | GNMI_VAL_UINT => v = mk_val GNMI_VAL_UINT [] 0 (v_u v) false /\ 0 < v_u v < 2 ^ 64
  | GNMI_VAL_BOOL => v = mk_val GNMI_VAL_BOOL [] 0 0 (v_b v)
  | k => v = mk_val k (v_s v) 0 0 false /\ is_text (v_s v) /\ strlen (v_s v) < GNMI_MAX_VAL
  end.

Lemma to_i64_u64 i : - 2 ^ 63 <= i < 2 ^ 63 -> to_i64 (u64 i) = i.
Proof.
  intros Hi. unfold to_i64, u64. destruct (decide (0 <= i)).
  - rewrite Z.mod_small, (proj2 (Z.leb_gt _ _)) by lia. done.
  - rewrite <- (Z.mod_add i 1), Z.mod_small by lia. rewrite (proj2 (Z.leb_le _ _)) by lia. lia.
Qed.

Lemma value_varint_step f v k s :
  0 < f < 16 -> is_u64 v ->
  (forall r, decode_value_member f 0 r s = ('(n, r) ← gnmi_pbr_varint r; Ret (Some (r, k n)))) ->
  consumes decode_value_field (vfield f v) s (k v).
Proof.
  intros Hf Hv Hb. apply consumes_field; [by apply tag_ok_small|]. intros pre rest tail _.
  unfold decode_value_field. by rewrite Hb, varint_rd.
Qed.

Lemma value_decodes v : value_wf v -> consumes decode_value_field (value_body v) val0 v.
Proof.
  assert (Hstr : forall f s, 0 < f < 16 -> ((f =? 1) || (f =? 10) || (f =? 11) || (f =? 12)) = true ->
    is_text s -> strlen s < GNMI_MAX_VAL ->
    consumes decode_value_field (ld f s) val0 (mk_val (kind_of_field f) s 0 0 false)).
  { intros f s Hf Hm Hs Hl. apply consumes_field; [by apply tag_ok_small|].
    intros pre k tail Hlen. unfold decode_value_field, decode_value_member. rewrite Hm.
    rewrite with_bytes_rd, copy_str_rd by done. done. }
  intros Hv. unfold value_wf, value_body in *.
  destruct v as [kind s i u b]; cbn [v_kind v_s v_i v_u v_b] in *. destruct kind; try done;
    destruct_and?; simplify_eq/=.
  - by apply (Hstr 1).
  - rewrite <- (to_i64_u64 i) at 2 by done.
    apply (value_varint_step 2 (u64 i) (fun n => mk_val GNMI_VAL_INT [] (to_i64 n) 0 false));
      [done|apply u64_range|done].
  - unfold vfield_nz. rewrite (proj2 (Z.eqb_neq _ _)), u64_small by (unfold is_u64; lia).
    apply (value_varint_step 3 u (fun n => mk_val GNMI_VAL_UINT [] 0 n false));
      [done|unfold is_u64; lia|done].
  - rewrite <- (z2b_b2z b) at 2.
    apply (value_varint_step 4 (b2z b) (fun n => mk_val GNMI_VAL_BOOL [] 0 0 (z2b n)));
      [done|destruct b; unfold is_u64; simpl; lia|done].
  - by apply (Hstr 10).
  - by apply (Hstr 11).
  - by apply (Hstr 12).
Qed.

Lemma vint_length v : (length (vint v) <= 11)%nat.
Proof.
  unfold vint. assert (H : forall n v, (length (varint n v) <= n + 1)%nat).
  { induction n as [|n IH]; intros x; cbn [varint]; case_match; simpl; try lia.
    specialize (IH (Z.shiftr x 7)). lia. }
  specialize (H 10%nat v). lia.
Qed.

Lemma value_body_small v : value_wf v -> strlen (value_body v) <= 258.
Proof.
  assert (Hv : forall f n, 0 < f < 16 -> strlen (vfield f n) <= 12).
  { intros f n Hf. unfold vfield. rewrite strlen_app, tagb_small by lia.
    pose proof (vint_length n). unfold strlen. lia. }
  assert (Hs : forall f s, 0 < f < 16 -> strlen s < GNMI_MAX_VAL -> strlen (ld f s) <= 258).
  { intros f s Hf Hl. unfold GNMI_MAX_VAL in Hl. pose proof (strlen_ld f s). lia. }
  unfold value_wf, value_body, vfield_nz. destruct (v_kind v); intros Hw; try done;
    destruct_and?; try (by apply Hs).
  - pose proof (Hv 2 (u64 (v_i v))). lia.
  - case_match; [unfold strlen; simpl; lia|]. pose proof (Hv 3 (u64 (v_u v))). lia.
  - pose proof (Hv 4 (b2z (v_b v))). lia.
Qed.

Lemma decode_value_body F v tail :
  value_wf v -> (258 < F)%nat ->
  gnmi_decode_typed_value F (value_body v ++ tail) (strlen (value_body v)) = Ret (Some v).
Proof.
  intros Hv HF. pose proof (value_body_small v Hv) as Hs. unfold gnmi_decode_typed_value.
  rewrite (decodes _ _ _ _ _ _ (value_decodes v Hv)) by (unfold strlen in *; lia).
  cbn [mbind outcome_bind]. rewrite bool_decide_eq_false_2; [done|].
  intros Hk. unfold value_wf in Hv. by rewrite Hk in Hv.
Qed.

Record update_wf (u : gnmi_update_t) : Prop := {
  uw_path : path_wf (u_path u);
  uw_val : value_wf (u_val u);
}.

Lemma update_body_ld u :
  update_wf u ->
  update_body u = ld 1 (path_body (u_path u)) ++ ld 3 (value_body (u_val u)) /\
  strlen (update_body u) <= 1930.
Proof.
  intros [Hp Hv]. pose proof (path_body_small _ Hp). pose proof (value_body_small _ Hv).
  pose proof (strlen_ld 1 (path_body (u_path u))). pose proof (strlen_ld 3 (value_body (u_val u))).
  unfold update_body, value_field. rewrite bool_decide_eq_false_2.
  - rewrite !ld_fix_ld by lia. rewrite strlen_app. split; [done|lia].
  - intros Hk. unfold value_wf in Hv. by rewrite Hk in Hv.
Qed.

(** A nested message that [dec] reads back. *)
Lemma consumes_nested {T A} body f msg (a : A) dec (s : T) (k : A -> T) :
  0 < f < 16 ->
  (forall tail, dec (msg ++ tail) (strlen msg) = Ret (Some a)) ->
  (forall r, r_err r = false -> body f 2 r s = nested dec r k) ->
  consumes body (ld f msg) s (k a).
Proof.
  intros Hf Hd Hb. apply consumes_ld; [by apply tag_ok_small|].
  intros r x tail Hr _. rewrite Hb by done. eexists. split; [done|]. intros r'. cbv beta.
  by rewrite Hd.
Qed.

Lemma update_decodes F u :
  update_wf u -> (1930 < F)%nat ->
  consumes (decode_update_field F) (update_body u) (mk_update path0 val0) u.
Proof.
  intros Hu HF. destruct (update_body_ld u Hu) as [-> _]. destruct Hu as [Hp Hv].
  eapply (consumes_app _ _ _ _ (mk_update (u_path u) val0)).
  - apply (consumes_nested _ 1 _ (u_path u) (gnmi_decode_path F) _ (fun p => mk_update p val0));
      [done|intros; apply decode_path_body; [done|lia]|].
    intros r Hr. unfold decode_update_field. by rewrite Hr.
  - destruct u as [p v].
    apply (consumes_nested _ 3 _ v (gnmi_decode_typed_value F) _ (mk_update p));
      [done|intros; apply decode_value_body; [done|lia]|].
    intros r Hr. unfold decode_update_field. by rewrite Hr.
Qed.

Lemma decode_update_body F u tail :
  update_wf u -> (1930 < F)%nat ->
  decode_update F (update_body u ++ tail) (strlen (update_body u)) = Ret (Some u).
Proof.
  intros Hu HF. destruct (update_body_ld u Hu) as [_ Hs]. unfold decode_update.
  rewrite (decodes _ _ _ _ _ _ (update_decodes F u Hu HF)) by (unfold strlen in *; lia). done.
Qed.

(** ** Set requests *)

Definition set_msg (q : gnmi_set_request_t) : bytes :=
  ld 1 (path_body (s_prefix q)) ++ (s_deletes q ≫= fun p => ld 2 (path_body p)) ++
  (s_replaces q ≫= fun u => ld 3 (update_body u)) ++
  (s_updates q ≫= fun u => ld 4 (update_body u)).

Record set_wf (q : gnmi_set_request_t) : Prop := {
  sw_prefix : path_wf (s_prefix q);
  sw_deletes : Forall path_wf (s_deletes q) /\ (length (s_deletes q) <= GNMI_MAX_ELEMS)%nat;
  sw_replaces : Forall update_wf (s_replaces q) /\ (length (s_replaces q) <= GNMI_MAX_UPDATES)%nat;
  sw_updates : Forall update_wf (s_updates q) /\ (length (s_updates q) <= GNMI_MAX_UPDATES)%nat;
}.

(** An array filled slot by slot. *)
Lemma consumes_slots {T A} body f max (P : A -> Prop) (enc : A -> bytes) dec
    (put : list A -> T) (xs : list A) :
  0 < f < 16 -> Forall P xs -> (length xs <= max)%nat ->
  (forall a tail, P a -> dec (enc a ++ tail) (strlen (enc a)) = Ret (Some a)) ->
  (forall r l, r_err r = false ->
    body f 2 r (put l) = nested_slot max (length l) dec r (fun a => put (l ++ [a]))) ->
  consumes body (xs ≫= fun a => ld f (enc a)) (put []) (put xs).
Proof.
  intros Hf Hxs Hmax Hd Hb.
  enough (H : forall l, (length l + length xs <= max)%nat ->
    consumes body (xs ≫= fun a => ld f (enc a)) (put l) (put (l ++ xs))) by by apply (H []).
  clear Hmax. induction Hxs as [|a xs Ha _ IH]; intros l Hl; [rewrite app_nil_r; apply consumes_nil|].
  simpl length in Hl. rewrite bind_cons. eapply (consumes_app _ _ _ _ (put (l ++ [a]))).
  - apply consumes_ld; [by apply tag_ok_small|]. intros r x tail Hr _. rewrite Hb by done.
    eexists. split; [done|]. intros r'. cbv beta.
    rewrite (proj2 (Nat.leb_gt _ _)) by lia. by rewrite Hd.
  - replace (l ++ a :: xs) with ((l ++ [a]) ++ xs) by (by rewrite <- app_assoc).
    apply IH. rewrite length_app. simpl. lia.
Qed.

Lemma set_decodes F q :
  set_wf q -> (1930 < F)%nat ->
  consumes (decode_set_field F) (set_msg q) (mk_set path0 [] [] []) q.
Proof.
  intros [Hp [Hd1 Hd2] [Hr1 Hr2] [Hu1 Hu2]] HF. destruct q as [p ds us rs]. cbn in *.
  assert (Hrep : forall r, r_err r = false -> forall f q, decode_set_field F f 2 r q =
    if f =? 1 then nested (gnmi_decode_path F) r
      (fun p => mk_set p (s_deletes q) (s_updates q) (s_replaces q))
    else if f =? 2 then nested_slot GNMI_MAX_ELEMS (length (s_deletes q)) (gnmi_decode_path F) r
      (fun p => mk_set (s_prefix q) (s_deletes q ++ [p]) (s_updates q) (s_replaces q))
    else if f =? 3 then nested_slot GNMI_MAX_UPDATES (length (s_replaces q)) (decode_update F) r
      (fun u => mk_set (s_prefix q) (s_deletes q) (s_updates q) (s_replaces q ++ [u]))
    else if f =? 4 then nested_slot GNMI_MAX_UPDATES (length (s_updates q)) (decode_update F) r
      (fun u => mk_set (s_prefix q) (s_deletes q) (s_updates q ++ [u]) (s_replaces q))
    else skip_field 2 r q)
    by (intros r Hr f q; unfold decode_set_field; by rewrite Hr).
  unfold set_msg. cbn. eapply (consumes_app _ _ _ _ (mk_set p [] [] [])).
  { apply (consumes_nested _ 1 _ p (gnmi_decode_path F) _ (fun p => mk_set p [] [] []));
      [done|intros; apply decode_path_body; [done|lia]|]. intros r Hr. by rewrite Hrep. }
  eapply (consumes_app _ _ _ _ (mk_set p ds [] [])).
  { eapply (consumes_slots _ 2 GNMI_MAX_ELEMS path_wf path_body (gnmi_decode_path F)
      (fun l => mk_set p l [] [])); [done..| |].
    - intros. apply decode_path_body; [done|lia].
    - intros r l Hr. by rewrite Hrep. }
  eapply (consumes_app _ _ _ _ (mk_set p ds [] rs)).
  - eapply (consumes_slots _ 3 GNMI_MAX_UPDATES update_wf update_body (decode_update F)
      (fun l => mk_set p ds [] l)); [done..| |].
    + intros. by apply decode_update_body.
    + intros r l Hr. by rewrite Hrep.
  - eapply (consumes_slots _ 4 GNMI_MAX_UPDATES update_wf update_body (decode_update F)
      (fun l => mk_set p ds l rs)); [done..| |].
    + intros. by apply decode_update_body.
    + intros r l Hr. by rewrite Hrep.
Qed.

Lemma strlen_bind {A} (P : A -> Prop) (enc : A -> bytes) n xs :
  (forall a, P a -> strlen (enc a) <= n) -> Forall P xs ->
  strlen (xs ≫= enc) <= n * Z.of_nat (length xs).
Proof.
  intros H. induction 1 as [|x xs Hx _ IH]; [unfold strlen; simpl; lia|].
  rewrite bind_cons, strlen_app. specialize (H x Hx). simpl length. lia.
Qed.

Lemma set_msg_small q : set_wf q -> strlen (set_msg q) < 2 ^ 17.
Proof.
  intros [Hp [Hd1 Hd2] [Hr1 Hr2] [Hu1 Hu2]]. unfold set_msg, GNMI_MAX_ELEMS, GNMI_MAX_UPDATES in *.
  rewrite !strlen_app.
  assert (Hpath : forall f p, 0 < f < 16 -> path_wf p -> strlen (ld f (path_body p)) <= 1669).
  { intros f p Hf Hw. pose proof (path_body_small p Hw). pose proof (strlen_ld f (path_body p)). lia. }
  assert (Hupd : forall f u, 0 < f < 16 -> update_wf u -> strlen (ld f (update_body u)) <= 1933).
  { intros f u Hf Hw. destruct (update_body_ld u Hw). pose proof (strlen_ld f (update_body u)). lia. }
  pose proof (Hpath 1 _ ltac:(lia) Hp).
  pose proof (strlen_bind path_wf _ 1669 _ (fun p => Hpath 2 p ltac:(lia)) Hd1).
  pose proof (strlen_bind update_wf _ 1933 _ (fun u => Hupd 3 u ltac:(lia)) Hr1).
  pose proof (strlen_bind update_wf _ 1933 _ (fun u => Hupd 4 u ltac:(lia)) Hu1).
  lia.
Qed.

Lemma set_request_decodes F q :
  set_wf q -> 2 ^ 20 <= Z.of_nat F ->
  gnmi_decode_set_request F (set_msg q) (strlen (set_msg q)) = Ret (Some q).
Proof.
  intros Hq HF. pose proof (set_msg_small q Hq) as Hs. unfold gnmi_decode_set_request.
  pose proof (decodes _ F (set_msg q) [] _ _ (set_decodes F q Hq ltac:(lia))) as H.
  rewrite app_nil_r in H. rewrite H by (unfold strlen in *; lia). done.
Qed.

(** ** Properties *)

(** C16. A gNMI SetRequest in the wire format of [gnmi.proto] is decoded to the
    request it encodes: the prefix, every deleted path, and every replaced and
    updated path with its typed value, in order. *)
Theorem gnmi_set_request_decodes F q :
  set_wf q -> (Z.to_nat (2 ^ 20) <= F)%nat ->
  gnmi_decode_set_request F (set_msg q) (strlen (set_msg q)) = Ret (Some q).
Proof.
  intros Hq HF. apply set_request_decodes; [done|lia].
Qed.

(** The update of [/interfaces/interface[name=eth0]/mtu] to 1500. *)
Definition mtu_update : gnmi_update_t :=
  mk_update
    (mk_path [] [mk_elem (lit "interfaces") false [] [];
                 mk_elem (lit "interface") true (lit "name") (lit "eth0");
                 mk_elem (lit "mtu") false [] []])
    (mk_val GNMI_VAL_UINT [] 0 1500 false).

Lemma mtu_update_wf : update_wf mtu_update.
Proof.
  assert (Ht : Forall (fun s => is_text s /\ strlen s < GNMI_MAX_NAME)
    [lit "interfaces"; lit "interface"; lit "name"; lit "eth0"; lit "mtu"; []])
    by (apply (bool_decide_unpack _); vm_compute; exact I).
  repeat (apply Forall_cons in Ht as [? Ht]).
  split; [split|]; cbn.
  - split; [constructor|unfold strlen, GNMI_MAX_ORIGIN; simpl; lia].
  - unfold GNMI_MAX_ELEMS. lia.
  - repeat (apply Forall_cons; split); [split; done..|constructor].
  - split; [done|lia].
Qed.

Lemma gnmi_set_request_decodes_witness :
  let q := mk_set path0 [] [mtu_update] [] in
  gnmi_decode_set_request (Z.to_nat (2 ^ 20)) (set_msg q) (strlen (set_msg q)) = Ret (Some q).
Proof.
  apply gnmi_set_request_decodes; [|done]. split; cbn.
  - split; [split; [constructor|unfold strlen, GNMI_MAX_ORIGIN; simpl; lia]
           |unfold GNMI_MAX_ELEMS; simpl; lia|constructor].
  - split; [constructor|lia].
  - split; [constructor|lia].
  - split; [constructor; [apply mtu_update_wf|constructor]|unfold GNMI_MAX_UPDATES; lia].
Defined.

(** What the server writes for an update, into a buffer with room for it,
    is one length-delimited field whose body decodes to the same path and
    value. *)
Theorem gnmi_update_roundtrip F cap f u :
  update_wf u -> value_range (u_val u) -> 0 < f < 16 -> 2000 <= cap < 2 ^ 62 -> (1930 < F)%nat ->
  let w := encode_update f (gnmi_pb_init cap) u in
  w_overflow w = false /\
  exists body, w_data w = tagb f 2 ++ vint (strlen body) ++ body /\
    decode_update F body (strlen body) = Ret (Some u).
Proof.
  intros Hu Hr Hf Hcap HF w. destruct (update_body_ld u Hu) as [_ Hs].
  pose proof (strlen_ld f (update_body u)) as Hld.
  assert (Hw : w_ok (gnmi_pb_init cap)) by (unfold w_ok, w_len; simpl; lia).
  destruct (emits_update f u Hr _ Hw) as (_ & _ & Ho & Hd). fold w in Ho, Hd.
  rewrite ld_fix_ld in Ho, Hd by lia. cbn [gnmi_pb_init w_overflow w_cap orb] in Ho.
  change (w_len (gnmi_pb_init cap)) with 0 in Ho.
  rewrite (proj2 (Z.ltb_ge _ _)) in Ho by lia. split; [done|].
  exists (update_body u). split; [by rewrite Hd|].
  pose proof (decode_update_body F u [] Hu HF) as H. by rewrite app_nil_r in H.
Qed.

Lemma gnmi_update_roundtrip_witness :
  w_overflow (encode_update 4 (gnmi_pb_init 4096) mtu_update) = false.
Proof.
  apply (gnmi_update_roundtrip 2000 4096 4 mtu_update mtu_update_wf); [|lia..].
  unfold value_range, is_u64. simpl. lia.
Defined.

(** The response encoders never write outside their buffer and report
    success exactly when the whole message fitted; then the buffer holds the
    bytes it held before followed by exactly the message. *)
Theorem gnmi_responses_exact w ns r ms es v :
  w_ok w -> Forall notification_range ns -> is_u64 (sr_timestamp r) ->
  Forall (fun '(res, body) =>
    w_len res.2 <= w_cap w /\
    (res.1 = true <-> w_overflow w = false /\ w_len w + strlen body <= w_cap w) /\
    (res.1 = true -> w_data res.2 = w_data w ++ body))
    [ (gnmi_encode_get_response w ns, get_response_body ns);
      (gnmi_encode_set_response w r, set_response_body r);
      (gnmi_encode_capabilities_response w ms es v, capabilities_body ms es v) ].
Proof.
  intros Hw Hn Ht.
  assert (H : forall (enc : gnmi_pb_t -> bool * gnmi_pb_t) body,
    emits (fun w => (enc w).2) body -> (enc w).1 = negb (w_overflow (enc w).2) ->
    w_len (enc w).2 <= w_cap w /\
    ((enc w).1 = true <-> w_overflow w = false /\ w_len w + strlen body <= w_cap w) /\
    ((enc w).1 = true -> w_data (enc w).2 = w_data w ++ body)).
  { intros enc body He Hb. destruct (He w Hw) as (_ & Hl & Ho & Hd). rewrite Hb.
    split_and!; [lia| |intros Hno; apply Hd; by apply negb_true_iff].
    rewrite negb_true_iff, Ho, orb_false_iff, Z.ltb_ge. done. }
  repeat (apply Forall_cons; split); [..|constructor].
  - apply (H (fun w => gnmi_encode_get_response w ns)); [by apply emits_get_response|done].
  - apply (H (fun w => gnmi_encode_set_response w r)); [by apply emits_set_response|done].
  - apply (H (fun w => gnmi_encode_capabilities_response w ms es v));
      [apply emits_capabilities|done].
Qed.

Lemma gnmi_responses_exact_witness :
  (gnmi_encode_get_response (gnmi_pb_init 100) [mk_notification 7 [mtu_update]]).1 = true.
Proof.
  assert (Hn : Forall notification_range [mk_notification 7 [mtu_update]]).
  { repeat constructor; unfold is_u64, value_range; simpl; lia. }
  pose proof (gnmi_responses_exact (gnmi_pb_init 100) [mk_notification 7 [mtu_update]]
    (mk_set_resp path0 [] 7) [] [] [] ltac:(unfold w_ok, w_len; simpl; lia) Hn
    ltac:(unfold is_u64; simpl; lia)) as H.
  apply Forall_cons in H as [(_ & H & _) _]. apply H. split; [done|]. vm_compute. discriminate.
Defined.

(** An update whose path and value take all the room their types give. *)
Definition long_update : gnmi_update_t :=
  mk_update
    (mk_path [] (replicate 6 (mk_elem (replicate 63 97) true (replicate 63 98) (replicate 63 99))))
    (mk_val GNMI_VAL_STRING (replicate 255 100) 0 0 false).

(** The length of a nested message is written in at most two bytes: a
    notification whose body reaches 16384 bytes gets a wrong length prefix,
    with no overflow reported.  Sixteen long updates, the most a notification
    holds, are enough. *)
Theorem gnmi_long_notification_broken :
  let n := mk_notification 0 (replicate 16 long_update) in
  let '(ok, w) := gnmi_encode_get_response (gnmi_pb_init 65536) [n] in
  ok = true /\ 16384 <= strlen (notification_body n) /\
  match gnmi_pbr_varint (gnmi_pbr_init (drop 1 (w_data w)) (w_len w - 1)) with
  | Ret (len, _) => len <> strlen (notification_body n)
  | _ => False
  end.
Proof. vm_compute. split_and!; [reflexivity|discriminate|discriminate]. Qed.

(** Zero is lost by the proto3 shortcut where it matters: a [uint] value
    of 0 is encoded as an empty value that the decoder refuses, and the JSON
    encoding, number 0, is not in the list of encodings the server
    advertises. *)
Theorem gnmi_zero_lost :
  decode_update 100 (update_body (mk_update (mk_path [] [mk_elem (lit "mtu") false [] []])
    (mk_val GNMI_VAL_UINT [] 0 0 false))) 11 = Ret None /\
  w_data (gnmi_encode_capabilities_response (gnmi_pb_init 100) [] [0; 4] (lit "0.8.0")).2 =
  w_data (gnmi_encode_capabilities_response (gnmi_pb_init 100) [] [4] (lit "0.8.0")).2.
Proof. vm_compute. split; reflexivity. Qed.
