(* ===== verification/Ha.v ===== *)
(** * High availability: danos-ha bfd.c, vrrp.c and supervisor.c

    Three tables of slots searched linearly: BFD sessions by id, VRRP sessions
    by (vrid, interface), supervised processes by name.  The search and the
    slot discipline are proved once, for a table of any size; the components
    instantiate it.  The supervisor's back-off is proved to double up to its
    cap as long as the doubling fits 32 bits. *)

From stdpp Require Import base decidable list numbers strings gmap.
From Stdlib Require Import ZArith Lia.
From S2P Require Import Prelude CStr.

(** ** Slot tables *)

Section Slots.

(** A session of type [S], its key, and the state kept beside it. *)
Context {S St K : Type} `{EqDecision K} (key : S -> K).

Record slot := mk_slot {
  sl_sess : S;
  sl_state : St;
  sl_used : bool;
}.

(** The index of the first slot satisfying [p]. *)
Fixpoint find_slot (p : slot -> bool) (t : list slot) : option nat :=
  match t with
  | [] => None
  | e :: t => if p e then Some 0%nat else Datatypes.S <$> find_slot p t
  end.

Definition holds_key (k : K) (e : slot) : bool := sl_used e && bool_decide (key (sl_sess e) = k).

Definition find_session (k : K) (t : list slot) : option nat := find_slot (holds_key k) t.
Definition find_free (t : list slot) : option nat := find_slot (fun e => negb (sl_used e)) t.

(** [None] is the [-1] of a duplicate key or a full table. *)
Definition slots_create (init : St) (s : S) (t : list slot) : option (list slot) :=
  match find_session (key s) t with
  | Some _ => None
  | None => i ← find_free t; Some (<[i := mk_slot s init true]> t)
  end.

(** Change the slot of a key; [None] is the [-1] of an unknown key. *)
Definition slots_change (k : K) (f : slot -> slot) (t : list slot) : option (list slot) :=
  i ← find_session k t; Some (alter f i t).

Definition slots_update (s : S) (t : list slot) : option (list slot) :=
  slots_change (key s) (fun e => mk_slot s (sl_state e) (sl_used e)) t.

Definition slots_delete (k : K) (t : list slot) : option (list slot) :=
  slots_change k (fun e => mk_slot (sl_sess e) (sl_state e) false) t.

Definition slots_set_state (k : K) (st : St) (t : list slot) : option (list slot) :=
  slots_change k (fun e => mk_slot (sl_sess e) st (sl_used e)) t.

(** What a lookup sees. *)
Definition view (t : list slot) (k : K) : option (S * St) :=
  i ← find_session k t; e ← t !! i; Some (sl_sess e, sl_state e).

(** No key is in use twice. *)
Definition slots_ok (t : list slot) : Prop :=
  forall i j e e', t !! i = Some e -> t !! j = Some e' ->
    sl_used e = true -> sl_used e' = true -> key (sl_sess e) = key (sl_sess e') -> i = j.

Lemma find_slot_Some p t i :
  find_slot p t = Some i -> exists e, t !! i = Some e /\ p e = true.
Proof.
  revert i. induction t as [|e t IH]; intros i; [done|]. cbn. destruct (p e) eqn:E.
  - intros [= <-]. by exists e.
  - destruct (find_slot p t) as [j|]; [|done]. intros [= <-]. by apply IH.
Qed.

Lemma find_slot_None p t : find_slot p t = None <-> forall e i, t !! i = Some e -> p e = false.
Proof.
  induction t as [|e t IH]; cbn; [done|]. destruct (p e) eqn:E.
  - split; [done|]. intros H. specialize (H e 0%nat eq_refl). congruence.
  - rewrite fmap_None, IH. split.
    + intros H e' [|i]; cbn; [congruence|]. apply H.
    + intros H e' i Hi. by apply (H e' (Datatypes.S i)).
Qed.

Lemma holds_key_true k e : holds_key k e = true <-> sl_used e = true /\ key (sl_sess e) = k.
Proof. unfold holds_key. by rewrite andb_true_iff, bool_decide_eq_true. Qed.

(** With unique keys a lookup finds the slot that holds the key. *)
Lemma view_Some t k s st :
  slots_ok t ->
  view t k = Some (s, st) <-> exists i, t !! i = Some (mk_slot s st true) /\ key s = k.
Proof.
  intros Hok. unfold view. split.
  - destruct (find_session k t) as [i|] eqn:Hf; [|done]. cbn.
    destruct (t !! i) as [[s' st' u]|] eqn:Hi; [|done]. cbn. intros [= -> ->].
    apply find_slot_Some in Hf as (e & He & [Hu Hk]%holds_key_true). rewrite Hi in He.
    simplify_eq/=. by exists i.
  - intros (i & Hi & Hk). destruct (find_session k t) as [j|] eqn:Hf.
    + apply find_slot_Some in Hf as (e & He & [Hu Hk']%holds_key_true).
      assert (i = j) as -> by (eapply Hok; eauto; cbn; congruence).
      cbn. rewrite Hi in He. simplify_eq. by rewrite Hi.
    + unfold find_session in Hf. rewrite find_slot_None in Hf.
      specialize (Hf _ _ Hi). apply not_true_iff_false in Hf. destruct Hf.
      by apply holds_key_true.
Qed.

Lemma view_ext t t' k :
  slots_ok t -> slots_ok t' ->
  (forall s st, key s = k ->
    (exists i, t !! i = Some (mk_slot s st true)) <-> (exists i, t' !! i = Some (mk_slot s st true))) ->
  view t k = view t' k.
Proof.
  intros Ht Ht' H. destruct (view t' k) as [[s st]|] eqn:E.
  - apply view_Some in E as (i & Hi & Hk); [|done]. apply view_Some; [done|].
    destruct (proj2 (H s st Hk)) as [j Hj]; [by exists i|]. by exists j.
  - destruct (view t k) as [[s st]|] eqn:E'; [|done].
    apply view_Some in E' as (i & Hi & Hk); [|done].
    destruct (proj1 (H s st Hk)) as [j Hj]; [by exists i|].
    assert (view t' k = Some (s, st)) by (apply view_Some; [done|by exists j]). congruence.
Qed.

Lemma find_session_view t k : find_session k t = None <-> view t k = None.
Proof.
  unfold view. destruct (find_session k t) as [i|] eqn:Hf; [|done]. cbn.
  apply find_slot_Some in Hf as (e & He & _). by rewrite He.
Qed.

Lemma slots_create_spec init s t :
  slots_ok t ->
  match slots_create init s t with
  | Some t' => view t (key s) = None /\ ~ Forall (fun e => sl_used e = true) t /\
      slots_ok t' /\ length t' = length t /\
      forall k, view t' k = if decide (k = key s) then Some (s, init) else view t k
  | None => view t (key s) <> None \/ Forall (fun e => sl_used e = true) t
  end.
Proof.
  intros Hok. unfold slots_create. destruct (find_session (key s) t) eqn:Hf.
  { left. rewrite <- find_session_view. congruence. }
  apply find_session_view in Hf as Hv. destruct (find_free t) as [i|] eqn:Hi; cbn.
  2: { right. apply Forall_lookup. intros j e Hj. unfold find_free in Hi.
       rewrite find_slot_None in Hi. specialize (Hi _ _ Hj). by apply negb_false_iff. }
  apply find_slot_Some in Hi as (e & He & Hu). apply negb_true_iff in Hu.
  unfold find_session in Hf. rewrite find_slot_None in Hf.
  assert (Hlt : (i < length t)%nat) by (by eapply lookup_lt_Some).
  assert (Hnew : forall j x, t !! j = Some x -> sl_used x = true -> key (sl_sess x) <> key s).
  { intros j x Hj Hux Hk. specialize (Hf _ _ Hj). apply not_true_iff_false in Hf.
    apply Hf. by apply holds_key_true. }
  assert (Hok' : slots_ok (<[i := mk_slot s init true]> t)).
  { intros a b ea eb Ha Hb Hua Hub Hk.
    apply list_lookup_insert_Some in Ha as [(<- & <- & _)|[Hia Ha]];
      apply list_lookup_insert_Some in Hb as [(<- & <- & _)|[Hib Hb]]; cbn in *.
    - done.
    - exfalso. eapply Hnew; [exact Hb|done|by symmetry].
    - exfalso. eapply Hnew; [exact Ha|done|done].
    - by eapply Hok. }
  split_and!; [done| |done|by rewrite length_insert|].
  { intros Hall. rewrite Forall_lookup in Hall. specialize (Hall _ _ He). congruence. }
  intros k. case_decide as Hk.
  - apply view_Some; [done|]. exists i. split; [|done]. by apply list_lookup_insert_eq.
  - apply view_ext; [done..|]. intros s' st' Hk'. split; intros [j Hj].
    + apply list_lookup_insert_Some in Hj as [(-> & [= -> ->] & _)|[_ Hj]]; [congruence|]. by exists j.
    + exists j. rewrite list_lookup_insert_ne; [done|]. intros ->. rewrite He in Hj. by simplify_eq/=.
Qed.

Lemma slots_change_spec k f t :
  slots_ok t ->
  (forall e, holds_key k e = true -> sl_used (f e) = true -> key (sl_sess (f e)) = k) ->
  match view t k with
  | None => slots_change k f t = None
  | Some (s, st) => exists t', slots_change k f t = Some t' /\ slots_ok t' /\
      length t' = length t /\
      forall k', view t' k' =
        if decide (k' = k) then
          let e := f (mk_slot s st true) in
          if sl_used e then Some (sl_sess e, sl_state e) else None
        else view t k'
  end.
Proof.
  intros Hok Hf. unfold slots_change. destruct (view t k) as [[s st]|] eqn:Hv.
  2: { apply find_session_view in Hv. by rewrite Hv. }
  destruct (find_session k t) as [i|] eqn:Hi; [|apply find_session_view in Hi; congruence].
  apply find_slot_Some in Hi as (e & He & [Hu Hk]%holds_key_true).
  apply view_Some in Hv as (i' & Hi' & Hks); [|done].
  assert (i' = i) as -> by (eapply (Hok i' i); eauto; cbn; congruence).
  rewrite He in Hi'. simplify_eq. clear Hu.
  specialize (Hf (mk_slot s st true)). cbn [mbind option_bind].
  assert (Hf' : sl_used (f (mk_slot s st true)) = true -> key (sl_sess (f (mk_slot s st true))) = key s).
  { apply Hf. by apply holds_key_true. }
  set (x := f (mk_slot s st true)) in *.
  assert (Hl : forall j y, alter f i t !! j = Some y -> (j = i /\ y = x) \/ (j <> i /\ t !! j = Some y)).
  { intros j y Hj. destruct (decide (j = i)) as [->|Hne].
    - left. rewrite list_lookup_alter_eq, He in Hj. by simplify_eq/=.
    - right. by rewrite list_lookup_alter_ne in Hj by done. }
  assert (Hii : alter f i t !! i = Some x) by (by rewrite list_lookup_alter_eq, He).
  assert (Hok' : slots_ok (alter f i t)).
  { intros a b ea eb Ha Hb Hua Hub Hkk.
    destruct (Hl _ _ Ha) as [[-> ->]|[Hna Ha']], (Hl _ _ Hb) as [[-> ->]|[Hnb Hb']]; [done| | |].
    - symmetry. eapply (Hok b i); eauto. cbn. rewrite <- Hkk. auto.
    - eapply (Hok a i); eauto. cbn. rewrite Hkk. auto.
    - by eapply Hok. }
  eexists. split_and!; [done|done|by rewrite length_alter|]. intros k'. case_decide as Hkk.
  - subst k'. cbv zeta. destruct (sl_used x) eqn:Hux.
    + apply view_Some; [done|]. exists i. rewrite Hii. destruct x. cbn in *. subst. auto.
    + apply find_session_view, find_slot_None. intros y j Hj.
      destruct (Hl _ _ Hj) as [[-> ->]|[Hne Hj']].
      * unfold holds_key. by rewrite Hux.
      * apply not_true_iff_false. intros [Huy Hky]%holds_key_true. apply Hne.
        eapply (Hok j i); eauto.
  - apply view_ext; [done..|]. intros s' st' Hk'. split; intros [j Hj].
    + destruct (Hl _ _ Hj) as [[-> Heq]|[Hne Hj']]; [|by exists j].
      rewrite <- Heq in Hf'. cbn in Hf'. specialize (Hf' eq_refl). congruence.
    + exists j. rewrite list_lookup_alter_ne; [done|]. intros <-. rewrite He in Hj. by simplify_eq/=.
Qed.

(** The sessions in use, with their keys. *)
Definition used_slots (t : list slot) : list (K * (S * St)) :=
  (fun e => (key (sl_sess e), (sl_sess e, sl_state e))) <$> filter (fun e => sl_used e = true) t.

Lemma elem_of_used_slots t k s st :
  (k, (s, st)) ∈ used_slots t <-> exists i, t !! i = Some (mk_slot s st true) /\ key s = k.
Proof.
  unfold used_slots. rewrite list_elem_of_fmap. split.
  - intros ([s' st' u] & [= -> -> ->] & [Hu He]%list_elem_of_filter). cbn in Hu. subst u.
    apply list_elem_of_lookup in He as [i Hi]. by exists i.
  - intros (i & Hi & <-). exists (mk_slot s st true). split; [done|]. apply list_elem_of_filter.
    split; [done|]. by apply list_elem_of_lookup_2 with i.
Qed.

Lemma slots_ok_tail e t : slots_ok (e :: t) -> slots_ok t.
Proof.
  intros Hok i j e1 e2 Hi Hj H1 H2 Hk.
  pose proof (Hok (Datatypes.S i) (Datatypes.S j) e1 e2 Hi Hj H1 H2 Hk). lia.
Qed.

Lemma used_slots_nodup t : slots_ok t -> NoDup (used_slots t).*1.
Proof.
  induction t as [|e t IH]; intros Hok; [constructor|]. specialize (IH (slots_ok_tail _ _ Hok)).
  unfold used_slots. rewrite filter_cons. case_decide as Hu; [|done]. rewrite !fmap_cons. apply NoDup_cons. split; [|done].
  cbn [fst]. intros ((k & s & st) & Hk & Hin)%list_elem_of_fmap. cbn in Hk. subst k.
  apply elem_of_used_slots in Hin as (i & Hi & Hk).
  pose proof (Hok 0%nat (Datatypes.S i) e (mk_slot s st true) eq_refl Hi Hu eq_refl (eq_sym Hk)). lia.
Qed.

Lemma view_used_slots `{Countable K} t k :
  slots_ok t -> view t k = (list_to_map (used_slots t) : gmap K (S * St)) !! k.
Proof.
  intros Hok. apply option_eq. intros [s st]. rewrite view_Some by done.
  rewrite <- elem_of_list_to_map by (by apply used_slots_nodup). by rewrite elem_of_used_slots.
Qed.

Lemma used_slots_full t : length (used_slots t) = length t <-> Forall (fun e => sl_used e = true) t.
Proof.
  unfold used_slots. rewrite length_fmap. induction t as [|e t IH]; [by split; [constructor|]|].
  rewrite filter_cons, Forall_cons. pose proof (length_filter (fun e => sl_used e = true) t) as Hl.
  case_decide as Hu; cbn [length]; [|split; [lia|by intros [? _]]]. rewrite <- IH. split; [intros; split; [done|lia]|lia].
Qed.

Lemma slots_ok_replicate n e : sl_used e = false -> slots_ok (replicate n e).
Proof. intros He i j e1 e2 [-> _]%lookup_replicate _ Hu. congruence. Qed.

End Slots.
#[global] Arguments slot : clear implicits.

(** ** BFD sessions *)

Module Bfd.

Record danos_bfd_session_t := mk_session {
  id : Z;
  remote : bytes;
  local : bytes;
  multihop : bool;
  desired_tx_ms : Z;
  required_rx_ms : Z;
  detect_mult : Z;
}.

Inductive danos_bfd_state_t :=
  | DANOS_BFD_STATE_DOWN | DANOS_BFD_STATE_INIT | DANOS_BFD_STATE_UP | DANOS_BFD_STATE_ADMINDOWN.

#[global] Instance state_eq_dec : EqDecision danos_bfd_state_t.
Proof. solve_decision. Defined.

Definition BFD_MAX_SESSIONS : nat := 256.

Abbreviation bfd_entry := (slot danos_bfd_session_t danos_bfd_state_t).

(** The module's statics; a callback is its function and user pointers. *)
Record bfd := mk_bfd {
  g_sessions : list bfd_entry;
  g_callback : option (Z * Z);
  g_initialized : bool;
}.

Definition session0 : danos_bfd_session_t := mk_session 0 [] [] false 0 0 0.
Definition entry0 : bfd_entry := mk_slot session0 DANOS_BFD_STATE_DOWN false.

(** The statics of a process that has not called the module. *)
Definition bfd0 : bfd := mk_bfd (replicate BFD_MAX_SESSIONS entry0) None false.

Definition danos_bfd_init (b : bfd) : bfd :=
  mk_bfd (replicate BFD_MAX_SESSIONS entry0) None true.

Definition set_sessions (b : bfd) (t : list bfd_entry) : bfd :=
  mk_bfd t (g_callback b) (g_initialized b).

Definition answer (b : bfd) (t : option (list bfd_entry)) : Z * bfd :=
  match t with Some t => (0, set_sessions b t) | None => (-1, b) end.

(** [None] is a null pointer. *)
Definition danos_bfd_create (sess : option danos_bfd_session_t) (b : bfd) : Z * bfd :=
  match sess with
  | None => (-1, b)
  | Some sess =>
      let b := if g_initialized b then b else danos_bfd_init b in
      answer b (slots_create id DANOS_BFD_STATE_DOWN sess (g_sessions b))
  end.

Definition danos_bfd_update (sess : option danos_bfd_session_t) (b : bfd) : Z * bfd :=
  match sess with
  | None => (-1, b)
  | Some sess => answer b (slots_update id sess (g_sessions b))
  end.

Definition danos_bfd_delete (i : Z) (b : bfd) : Z * bfd :=
  answer b (slots_delete id i (g_sessions b)).

(** [find_session]: the entry of an id. *)
Definition bfd_entry_of (i : Z) (b : bfd) : option bfd_entry :=
  n ← find_session id i (g_sessions b); g_sessions b !! n.

(** The result, and what the caller's structure then holds. *)
Definition danos_bfd_read (i : Z) (out : option danos_bfd_session_t) (b : bfd) : Z * option danos_bfd_session_t :=
  match out with
  | None => (-1, None)
  | Some out =>
      match bfd_entry_of i b with
      | None => (-1, Some out)
      | Some e => (0, Some (sl_sess e))
      end
  end.

Definition danos_bfd_get_state (i : Z) (b : bfd) : danos_bfd_state_t :=
  match bfd_entry_of i b with
  | None => DANOS_BFD_STATE_DOWN
  | Some e => sl_state e
  end.

Definition danos_bfd_register_callback (cb : option (Z * Z)) (b : bfd) : bfd :=
  mk_bfd (g_sessions b) cb (g_initialized b).

(** The state and the call made, if any: callback, id, old and new state. *)
Definition danos_bfd_set_state (i : Z) (new_state : danos_bfd_state_t) (b : bfd)
    : option ((Z * Z) * Z * danos_bfd_state_t * danos_bfd_state_t) * bfd :=
  match view id (g_sessions b) i with
  | None => (None, b)
  | Some (_, old) =>
      if decide (old = new_state) then (None, b) else
      match slots_set_state id i new_state (g_sessions b) with
      | None => (None, b)
      | Some t => ((fun cb => (cb, i, old, new_state)) <$> g_callback b, set_sessions b t)
      end
  end.

(** The calls, and what they answer. *)
Inductive op :=
  | Init
  | Create (s : danos_bfd_session_t)
  | Update (s : danos_bfd_session_t)
  | Delete (i : Z)
  | Read (i : Z) (out : option danos_bfd_session_t)
  | GetState (i : Z)
  | SetState (i : Z) (st : danos_bfd_state_t).

Inductive reply :=
  | Code (rc : Z)
  | Out (rc : Z) (out : option danos_bfd_session_t)
  | State (st : danos_bfd_state_t)
  | Nothing.

Definition run (o : op) (b : bfd) : reply * bfd :=
  match o with
  | Init => (Code 0, danos_bfd_init b)
  | Create s => let '(rc, b) := danos_bfd_create (Some s) b in (Code rc, b)
  | Update s => let '(rc, b) := danos_bfd_update (Some s) b in (Code rc, b)
  | Delete i => let '(rc, b) := danos_bfd_delete i b in (Code rc, b)
  | Read i out => let '(rc, out) := danos_bfd_read i out b in (Out rc out, b)
  | GetState i => (State (danos_bfd_get_state i b), b)
  | SetState i st => (Nothing, (danos_bfd_set_state i st b).2)
  end.

(** The session store the module promises: a map from ids to sessions and
    states, of at most 256 ids. *)
Abbreviation sessions := (gmap Z (danos_bfd_session_t * danos_bfd_state_t)).

Definition spec_step (o : op) (m : sessions) : reply * sessions :=
  match o with
  | Init => (Code 0, ∅)
  | Create s =>
      if decide (m !! id s = None /\ (size m < 256)%nat)
      then (Code 0, <[id s := (s, DANOS_BFD_STATE_DOWN)]> m) else (Code (-1), m)
  | Update s =>
      match m !! id s with
      | Some (_, st) => (Code 0, <[id s := (s, st)]> m)
      | None => (Code (-1), m)
      end
  | Delete i => (Code (if decide (m !! i = None) then -1 else 0), delete i m)
  | Read i out =>
      (match out, m !! i with
       | Some _, Some (s, _) => Out 0 (Some s)
       | _, _ => Out (-1) out
       end, m)
  | GetState i => (State (from_option snd DANOS_BFD_STATE_DOWN (m !! i)), m)
  | SetState i st => (Nothing, alter (fun x => (x.1, st)) i m)
  end.

(** A sequence of calls: the replies in order, and the state after it. *)
Fixpoint calls {St} (f : op -> St -> reply * St) (os : list op) (st : St) : list reply * St :=
  match os with
  | [] => ([], st)
  | o :: os => let '(r, st) := f o st in let '(rs, st) := calls f os st in (r :: rs, st)
  end.

Record bfd_ok (b : bfd) : Prop := {
  bo_slots : slots_ok id (g_sessions b);
  bo_size : length (g_sessions b) = BFD_MAX_SESSIONS;
  bo_init : g_initialized b = false -> g_sessions b = replicate BFD_MAX_SESSIONS entry0;
}.

(** The map a table stands for. *)
Definition stored (b : bfd) : sessions := list_to_map (used_slots id (g_sessions b)).

Lemma init_ok b : bfd_ok (danos_bfd_init b).
Proof. split; [by apply slots_ok_replicate|apply length_replicate|done]. Qed.

Lemma bfd0_ok : bfd_ok bfd0.
Proof. split; [by apply slots_ok_replicate|apply length_replicate|done]. Qed.

Lemma stored_view b i : bfd_ok b -> stored b !! i = view id (g_sessions b) i.
Proof. intros Hb. symmetry. apply view_used_slots, Hb. Qed.

Lemma stored_ext b m : bfd_ok b -> (forall i, view id (g_sessions b) i = m !! i) -> stored b = m.
Proof. intros Hb Hv. apply map_eq. intros i. by rewrite stored_view. Qed.

Lemma stored_full b :
  bfd_ok b -> (size (stored b) < 256)%nat <-> ~ Forall (fun e => sl_used e = true) (g_sessions b).
Proof.
  intros Hb. rewrite <- (used_slots_full id). unfold stored.
  rewrite map_size_list_to_map by (apply used_slots_nodup, Hb). rewrite (bo_size b Hb). unfold BFD_MAX_SESSIONS.
  assert (Hle : (length (used_slots id (g_sessions b)) <= 256)%nat); [|lia].
  unfold used_slots. rewrite length_fmap. etrans; [apply length_filter|]. by rewrite (bo_size b Hb).
Qed.

Lemma bfd_entry_view i b : (fun e => (sl_sess e, sl_state e)) <$> bfd_entry_of i b = view id (g_sessions b) i.
Proof. unfold bfd_entry_of, view. by destruct (find_session id i _) as [n|]; [destruct (g_sessions b !! n)|]. Qed.

Lemma set_sessions_ok b t :
  g_initialized b = true -> slots_ok id t -> length t = length (g_sessions b) -> bfd_ok b -> bfd_ok (set_sessions b t).
Proof. intros Hi Ht Hl [_ Hs _]. split; cbn; [done|congruence|congruence]. Qed.

(** A change of one slot of a table that is in use. *)
Lemma change_ok b i f :
  bfd_ok b -> (forall e, holds_key id i e = true -> sl_used (f e) = true -> id (sl_sess (f e)) = i) ->
  match stored b !! i with
  | None => slots_change id i f (g_sessions b) = None
  | Some (s, st) => exists t, slots_change id i f (g_sessions b) = Some t /\ bfd_ok (set_sessions b t) /\
      let e := f (mk_slot s st true) in
      stored (set_sessions b t) =
        if sl_used e then <[i := (sl_sess e, sl_state e)]> (stored b) else delete i (stored b)
  end.
Proof.
  intros Hb Hf. pose proof (slots_change_spec id i f _ (bo_slots b Hb) Hf) as H. rewrite stored_view by done.
  destruct (view id (g_sessions b) i) as [[s st]|] eqn:Hv; [|done]. destruct H as (t & Ht & Hok & Hl & Hview).
  assert (Hin : g_initialized b = true).
  { destruct (g_initialized b) eqn:Hi; [done|]. rewrite (bo_init b Hb Hi) in Hv. by vm_compute in Hv. }
  pose proof (set_sessions_ok b t Hin Hok Hl Hb) as Hb'. exists t. split; [done|]. split; [done|].
  apply stored_ext; [done|]. intros k. cbn [set_sessions g_sessions]. rewrite Hview. cbv zeta.
  destruct (sl_used (f _)).
  - case_decide as Hk; [subst k; by rewrite lookup_insert_eq|]. by rewrite lookup_insert_ne, stored_view by done.
  - case_decide as Hk; [subst k; by rewrite lookup_delete_eq|]. by rewrite lookup_delete_ne, stored_view by done.
Qed.

Lemma create_ok s b :
  bfd_ok b ->
  let '(rc, b') := danos_bfd_create (Some s) b in
  bfd_ok b' /\ (Code rc, stored b') = spec_step (Create s) (stored b).
Proof.
  intros Hb. unfold danos_bfd_create. set (b1 := if g_initialized b then b else danos_bfd_init b).
  assert (H1 : bfd_ok b1 /\ g_initialized b1 = true /\ stored b1 = stored b).
  { unfold b1. destruct (g_initialized b) eqn:Hi; [done|]. split; [apply init_ok|]. split; [done|].
    unfold stored. by rewrite (bo_init b Hb Hi). }
  destruct H1 as (Hb1 & Hi & <-). clearbody b1. clear Hb b. cbn [spec_step].
  pose proof (slots_create_spec id DANOS_BFD_STATE_DOWN s _ (bo_slots b1 Hb1)) as H.
  rewrite <- stored_view in H by done.
  destruct (slots_create _ _ _ _) as [t|]; cbn [answer].
  - destruct H as (Hv & Hfree & Hok & Hl & Hview). rewrite decide_True by (split; [done|by apply stored_full]).
    pose proof (set_sessions_ok b1 t Hi Hok Hl Hb1) as Hb'. split; [done|]. f_equal. apply stored_ext; [done|].
    intros k. cbn [set_sessions g_sessions]. rewrite Hview.
    case_decide as Hk; [subst k; by rewrite lookup_insert_eq|]. by rewrite lookup_insert_ne, stored_view by done.
  - split; [done|]. rewrite decide_False; [done|]. intros [Hn Hs%stored_full]; [|done]. by destruct H.
Qed.

Lemma run_ok o b :
  bfd_ok b -> let '(r, b') := run o b in bfd_ok b' /\ (r, stored b') = spec_step o (stored b).
Proof.
  intros Hb. destruct o as [|s|s|i|i out|i|i st]; cbn [run].
  - split; [apply init_ok|done].
  - pose proof (create_ok s b Hb) as H. by destruct (danos_bfd_create (Some s) b).
  - unfold danos_bfd_update, slots_update. cbn [spec_step].
    pose proof (change_ok b (id s) (fun e => mk_slot s (sl_state e) (sl_used e)) Hb ltac:(done)) as H.
    destruct (stored b !! id s) as [[s' st]|]; [|by rewrite H]. destruct H as (t & -> & Hb' & Hs). split; [done|].
    cbn [answer]. by rewrite Hs.
  - unfold danos_bfd_delete, slots_delete. cbn [spec_step].
    pose proof (change_ok b i (fun e => mk_slot (sl_sess e) (sl_state e) false) Hb ltac:(done)) as H.
    destruct (stored b !! i) as [[s' st]|] eqn:E.
    + destruct H as (t & -> & Hb' & Hs). split; [done|]. cbn [answer]. rewrite Hs. by rewrite decide_False by done.
    + rewrite H. split; [done|]. rewrite decide_True by done. cbn. by rewrite delete_id.
  - cbn [spec_step]. rewrite stored_view, <- bfd_entry_view by done. unfold danos_bfd_read.
    by destruct out; [destruct (bfd_entry_of i b)|].
  - split; [done|]. cbn [spec_step]. unfold danos_bfd_get_state. rewrite stored_view, <- bfd_entry_view by done.
    by destruct (bfd_entry_of i b).
  - cbn [spec_step]. unfold danos_bfd_set_state, slots_set_state. rewrite <- stored_view by done.
    pose proof (change_ok b i (fun e => mk_slot (sl_sess e) st (sl_used e)) Hb) as H.
    destruct (stored b !! i) as [[s' old]|] eqn:E; cbn [snd].
    + case_decide as Hold.
      * split; [done|]. f_equal. apply map_eq. intros k. destruct (decide (k = i)) as [->|Hk].
        -- rewrite lookup_alter_eq, E. cbn. by subst.
        -- by rewrite lookup_alter_ne.
      * destruct H as (t & -> & Hb' & Hs); [by intros e [? ?]%holds_key_true _|]. cbn [snd]. split; [done|].
        rewrite Hs. cbn. f_equal. apply map_eq. intros k. destruct (decide (k = i)) as [->|Hk].
        -- by rewrite lookup_insert_eq, lookup_alter_eq, E.
        -- by rewrite lookup_insert_ne, lookup_alter_ne.
    + split; [done|]. f_equal. apply map_eq. intros k. destruct (decide (k = i)) as [->|Hk].
      * by rewrite lookup_alter_eq, E.
      * by rewrite lookup_alter_ne.
Qed.

Lemma calls_ok os b :
  bfd_ok b -> (calls run os b).1 = (calls spec_step os (stored b)).1 /\
    stored (calls run os b).2 = (calls spec_step os (stored b)).2 /\ bfd_ok (calls run os b).2.
Proof.
  revert b. induction os as [|o os IH]; intros b Hb; [done|]. cbn [calls].
  pose proof (run_ok o b Hb) as H. destruct (run o b) as [r b1]. destruct H as [Hb1 <-].
  specialize (IH b1 Hb1). destruct (calls run os b1) as [rs b2], (calls spec_step os (stored b1)) as [rs' m2].
  cbn in *. destruct IH as (-> & -> & ?). done.
Qed.

End Bfd.

(** C38. The BFD session table implements a map from session ids to sessions
    and states with room for 256: from the start of the process on, through
    any sequence of calls, every return code, every session read and every
    state reported is the one of that map.  Creating refuses a known id and a
    257th session and starts a session down, updating keeps the state,
    deleting forgets, reading an unknown id or into a null pointer fails and
    leaves the caller's structure alone, the state of an unknown id is down,
    and a change of state is stored for known sessions only. *)
Theorem bfd_refines_map os :
  (Bfd.calls Bfd.run os Bfd.bfd0).1 = (Bfd.calls Bfd.spec_step os ∅).1 /\
  (forall i, view Bfd.id (Bfd.g_sessions (Bfd.calls Bfd.run os Bfd.bfd0).2) i =
             (Bfd.calls Bfd.spec_step os ∅).2 !! i).
Proof.
  destruct (Bfd.calls_ok os Bfd.bfd0 Bfd.bfd0_ok) as (H1 & H2 & H3).
  assert (H0 : Bfd.stored Bfd.bfd0 = ∅) by (vm_compute; reflexivity). rewrite H0 in *.
  split; [done|]. intros i. rewrite <- H2. symmetry. by apply Bfd.stored_view.
Qed.

(** A state change of a known session calls the registered callback once,
    with the old and the new state, and a change to the same state calls
    nothing; but a callback registered before the module is initialised is
    lost, because creating the first session initialises the module and clears
    it. *)
Theorem bfd_callback b i s old new cb :
  view Bfd.id (Bfd.g_sessions b) i = Some (s, old) -> Bfd.bfd_ok b ->
  (Bfd.danos_bfd_set_state i new (Bfd.danos_bfd_register_callback (Some cb) b)).1 =
    (if decide (old = new) then None else Some (cb, i, old, new)) /\
  Bfd.g_callback
    (Bfd.danos_bfd_create (Some s) (Bfd.danos_bfd_register_callback (Some cb) Bfd.bfd0)).2 = None.
Proof.
  intros Hv [Hok _ _]. split.
  - unfold Bfd.danos_bfd_set_state. cbn [Bfd.danos_bfd_register_callback Bfd.g_sessions Bfd.g_callback].
    rewrite Hv. case_decide; [done|].
    pose proof (slots_change_spec Bfd.id i (fun e => mk_slot (sl_sess e) new (sl_used e)) _ Hok) as Hc.
    rewrite Hv in Hc. destruct Hc as (t' & Ht' & _).
    { intros e [? ?]%holds_key_true _. done. }
    unfold slots_set_state. by rewrite Ht'.
  - unfold Bfd.danos_bfd_create. cbn [Bfd.danos_bfd_register_callback Bfd.g_initialized Bfd.bfd0].
    unfold Bfd.answer. by case_match.
Qed.

Lemma bfd_callback_witness :
  let s := Bfd.mk_session 7 (lit "10.0.0.2") (lit "10.0.0.1") true 300 300 3 in
  let b := (Bfd.run (Bfd.Create s) (Bfd.danos_bfd_init Bfd.bfd0)).2 in
  (Bfd.danos_bfd_set_state 7 Bfd.DANOS_BFD_STATE_UP
     (Bfd.danos_bfd_register_callback (Some (1, 2)) b)).1 =
  Some ((1, 2), 7, Bfd.DANOS_BFD_STATE_DOWN, Bfd.DANOS_BFD_STATE_UP).
Proof.
  intros s b.
  destruct (bfd_callback b 7 s Bfd.DANOS_BFD_STATE_DOWN Bfd.DANOS_BFD_STATE_UP (1, 2)) as [-> _].
  - vm_compute. reflexivity.
  - pose proof (Bfd.run_ok (Bfd.Create s) _ (Bfd.init_ok Bfd.bfd0)) as H. exact (proj1 H).
  - done.
Defined.

(** ** VRRP sessions *)

Module Vrrp.

Record danos_vrrp_session_t := mk_session {
  vrid : Z;
  ifindex : Z;
  priority : Z;
  preempt : bool;
  advert_int_ms : Z;
  virtual_ip : bytes;
  ipv6 : bool;
  bfd_link : bool;
  bfd_session_id : Z;
  bfd_down_priority : Z;
}.

Inductive danos_vrrp_state_t :=
  | DANOS_VRRP_STATE_INIT | DANOS_VRRP_STATE_BACKUP | DANOS_VRRP_STATE_MASTER.

Definition VRRP_MAX_SESSIONS : nat := 64.

Definition vrrp_key (s : danos_vrrp_session_t) : Z * Z := (vrid s, ifindex s).

Abbreviation vrrp_entry := (slot danos_vrrp_session_t danos_vrrp_state_t).

Record vrrp := mk_vrrp { g_sessions : list vrrp_entry; g_initialized : bool }.

Definition session0 : danos_vrrp_session_t := mk_session 0 0 0 false 0 [] false false 0 0.
Definition entry0 : vrrp_entry := mk_slot session0 DANOS_VRRP_STATE_INIT false.

Definition danos_vrrp_init (v : vrrp) : vrrp := mk_vrrp (replicate VRRP_MAX_SESSIONS entry0) true.

Definition answer (v : vrrp) (t : option (list vrrp_entry)) : Z * vrrp :=
  match t with Some t => (0, mk_vrrp t (g_initialized v)) | None => (-1, v) end.

Definition danos_vrrp_create (sess : option danos_vrrp_session_t) (v : vrrp) : Z * vrrp :=
  match sess with
  | None => (-1, v)
  | Some sess =>
      let v := if g_initialized v then v else danos_vrrp_init v in
      answer v (slots_create vrrp_key DANOS_VRRP_STATE_INIT sess (g_sessions v))
  end.

Definition danos_vrrp_update (sess : option danos_vrrp_session_t) (v : vrrp) : Z * vrrp :=
  match sess with
  | None => (-1, v)
  | Some sess => answer v (slots_update vrrp_key sess (g_sessions v))
  end.

Definition danos_vrrp_delete (k : Z * Z) (v : vrrp) : Z * vrrp :=
  answer v (slots_delete vrrp_key k (g_sessions v)).

Definition danos_vrrp_read (k : Z * Z) (v : vrrp) : option danos_vrrp_session_t :=
  fst <$> view vrrp_key (g_sessions v) k.

Definition danos_vrrp_get_state (k : Z * Z) (v : vrrp) : danos_vrrp_state_t :=
  match view vrrp_key (g_sessions v) k with
  | None => DANOS_VRRP_STATE_INIT
  | Some (_, st) => st
  end.

Inductive op :=
  | Create (s : danos_vrrp_session_t)
  | Update (s : danos_vrrp_session_t)
  | Delete (k : Z * Z).

Definition run (o : op) (v : vrrp) : vrrp :=
  match o with
  | Create s => (danos_vrrp_create (Some s) v).2
  | Update s => (danos_vrrp_update (Some s) v).2
  | Delete k => (danos_vrrp_delete k v).2
  end.

Lemma run_states o v :
  Forall (fun e => sl_state e = DANOS_VRRP_STATE_INIT) (g_sessions v) ->
  Forall (fun e => sl_state e = DANOS_VRRP_STATE_INIT) (g_sessions (run o v)).
Proof.
  assert (Hins : forall t i s, Forall (fun e : vrrp_entry => sl_state e = DANOS_VRRP_STATE_INIT) t ->
    Forall (fun e => sl_state e = DANOS_VRRP_STATE_INIT)
      (<[i := mk_slot s DANOS_VRRP_STATE_INIT true]> t)) by (intros; by apply Forall_insert).
  assert (Halt : forall (t : list vrrp_entry) i f, (forall e, sl_state (f e) = sl_state e) ->
    Forall (fun e => sl_state e = DANOS_VRRP_STATE_INIT) t ->
    Forall (fun e => sl_state e = DANOS_VRRP_STATE_INIT) (alter f i t)).
  { intros t i f Hf Ht. apply Forall_alter; [done|]. intros x _ Hx. by rewrite Hf. }
  intros Hv. destruct o as [s|s|k]; cbn [run].
  - unfold danos_vrrp_create, slots_create.
    set (v' := if g_initialized v then v else danos_vrrp_init v).
    assert (Hv' : Forall (fun e => sl_state e = DANOS_VRRP_STATE_INIT) (g_sessions v')).
    { subst v'. case_match; [done|]. by apply Forall_replicate. }
    destruct (find_session _ _ _); [done|]. destruct (find_free _) as [i|]; [|done].
    cbn. by apply Hins.
  - unfold danos_vrrp_update, slots_update, slots_change.
    destruct (find_session _ _ _) as [i|]; [|done]. cbn. by apply Halt.
  - unfold danos_vrrp_delete, slots_delete, slots_change.
    destruct (find_session _ _ _) as [i|]; [|done]. cbn. by apply Halt.
Qed.

End Vrrp.

(** No sequence of calls ever moves a VRRP session out of its initial state. *)
Lemma vrrp_never_elects ops k :
  Vrrp.danos_vrrp_get_state k
    (foldl (fun v o => Vrrp.run o v) (Vrrp.mk_vrrp (replicate 64 Vrrp.entry0) false) ops) =
  Vrrp.DANOS_VRRP_STATE_INIT.
Proof.
  assert (H : forall v, Forall (fun e => sl_state e = Vrrp.DANOS_VRRP_STATE_INIT) (Vrrp.g_sessions v) ->
    Vrrp.danos_vrrp_get_state k (foldl (fun v o => Vrrp.run o v) v ops) = Vrrp.DANOS_VRRP_STATE_INIT).
  { induction ops as [|o ops IH]; intros v Hv; cbn [foldl]; [|by apply IH, Vrrp.run_states].
    unfold Vrrp.danos_vrrp_get_state, view.
    destruct (find_session _ _ _) as [i|]; [|done]. cbn.
    destruct (Vrrp.g_sessions v !! i) as [e|] eqn:He; [|done]. cbn.
    by eapply Forall_lookup_1 in Hv. }
  apply H. by apply Forall_replicate.
Qed.

(** ** The process supervisor *)

Module Sup.

Record danos_sup_proc_t := mk_proc {
  name : bytes;
  cmdline : bytes;
  pidfile : bytes;
  restart_min_ms : Z;
  restart_max_ms : Z;
  critical : bool;
}.

Inductive danos_sup_state_t :=
  | DANOS_SUP_STATE_STOPPED | DANOS_SUP_STATE_RUNNING | DANOS_SUP_STATE_RESTARTING
  | DANOS_SUP_STATE_FAILED | DANOS_SUP_STATE_SAFE_MODE.

#[global] Instance state_eq_dec : EqDecision danos_sup_state_t.
Proof. solve_decision. Defined.

(** What the entry keeps beside the process description. *)
Record sup_run := mk_run {
  state : danos_sup_state_t;
  restart_count : Z;
  current_delay_ms : Z;
}.

Definition SUP_MAX_PROCS : nat := 32.

Abbreviation sup_entry := (slot danos_sup_proc_t sup_run).

Record sup := mk_sup { g_procs : list sup_entry; g_initialized : bool }.

Definition entry0 : sup_entry :=
  mk_slot (mk_proc [] [] [] 0 0 false) (mk_run DANOS_SUP_STATE_STOPPED 0 0) false.

Definition danos_sup_init (v : sup) : sup := mk_sup (replicate SUP_MAX_PROCS entry0) true.

Definition answer (v : sup) (t : option (list sup_entry)) : Z * sup :=
  match t with Some t => (0, mk_sup t (g_initialized v)) | None => (-1, v) end.

Definition danos_sup_register (proc : option danos_sup_proc_t) (v : sup) : Z * sup :=
  match proc with
  | None => (-1, v)
  | Some proc =>
      let v := if g_initialized v then v else danos_sup_init v in
      answer v (slots_create name
        (mk_run DANOS_SUP_STATE_STOPPED 0 (restart_min_ms proc)) proc (g_procs v))
  end.

Definition danos_sup_unregister (n : bytes) (v : sup) : Z * sup :=
  answer v (slots_delete name n (g_procs v)).

Definition danos_sup_get_state (n : bytes) (v : sup) : danos_sup_state_t :=
  match view name (g_procs v) n with
  | None => DANOS_SUP_STATE_STOPPED
  | Some (_, r) => state r
  end.

Definition danos_sup_get_restart_count (n : bytes) (v : sup) : Z :=
  match view name (g_procs v) n with
  | None => 0
  | Some (_, r) => restart_count r
  end.

Definition set_run_state (st : danos_sup_state_t) (e : sup_entry) : sup_entry :=
  mk_slot (sl_sess e) (mk_run st (restart_count (sl_state e)) (current_delay_ms (sl_state e)))
    (sl_used e).

Definition danos_sup_start (v : sup) : sup :=
  let v := if g_initialized v then v else danos_sup_init v in
  mk_sup ((fun e => if sl_used e && bool_decide (state (sl_state e) = DANOS_SUP_STATE_STOPPED)
                    then set_run_state DANOS_SUP_STATE_RUNNING e else e) <$> g_procs v)
    (g_initialized v).

Definition danos_sup_stop (v : sup) : sup :=
  mk_sup ((fun e => if sl_used e then set_run_state DANOS_SUP_STATE_STOPPED e else e) <$> g_procs v)
    (g_initialized v).

(** What an exit does to the run of a process. *)
Definition exit_run (p : danos_sup_proc_t) (r : sup_run) : sup_run :=
  let n := u32 (restart_count r + 1) in
  let d := u32 (current_delay_ms r * 2) in
  let d := if restart_max_ms p <? d then restart_max_ms p else d in
  mk_run (if 10 <? n then
            if critical p then DANOS_SUP_STATE_SAFE_MODE else DANOS_SUP_STATE_FAILED
          else DANOS_SUP_STATE_RESTARTING) n d.

Definition danos_sup_on_exit (n : bytes) (v : sup) : sup :=
  match slots_change name n
          (fun e => mk_slot (sl_sess e) (exit_run (sl_sess e) (sl_state e)) (sl_used e))
          (g_procs v) with
  | None => v
  | Some t => mk_sup t (g_initialized v)
  end.

(** [k] exits of the same process. *)
Fixpoint exits (k : nat) (n : bytes) (v : sup) : sup :=
  match k with
  | O => v
  | S k => danos_sup_on_exit n (exits k n v)
  end.

(** The run after [k] exits of a process registered afresh. *)
Definition backoff (p : danos_sup_proc_t) (k : nat) : sup_run :=
  match k with
  | O => mk_run DANOS_SUP_STATE_STOPPED 0 (restart_min_ms p)
  | _ => mk_run
      (if (10 <? k)%nat then
         if critical p then DANOS_SUP_STATE_SAFE_MODE else DANOS_SUP_STATE_FAILED
       else DANOS_SUP_STATE_RESTARTING)
      (Z.of_nat k) (Z.min (restart_min_ms p * 2 ^ Z.of_nat k) (restart_max_ms p))
  end.

(** Delays whose double fits 32 bits. *)
Definition proc_ok (p : danos_sup_proc_t) : Prop :=
  0 <= restart_min_ms p <= restart_max_ms p /\ restart_max_ms p < 2 ^ 31.

Lemma exit_backoff p k :
  proc_ok p -> Z.of_nat k < 2 ^ 31 -> exit_run p (backoff p k) = backoff p (S k).
Proof.
  intros [Hmin Hmax] Hk. unfold exit_run.
  assert (Hc : restart_count (backoff p k) = Z.of_nat k) by (by destruct k).
  rewrite Hc. cbn [backoff].
  replace (u32 (Z.of_nat k + 1)) with (Z.of_nat (S k)) by (rewrite u32_small; [lia|unfold is_u32; lia]).
  assert (Hd : current_delay_ms (backoff p k) = Z.min (restart_min_ms p * 2 ^ Z.of_nat k) (restart_max_ms p)).
  { destruct k; cbn [backoff current_delay_ms]; [|done]. change (2 ^ Z.of_nat 0) with 1. lia. }
  assert (Hp : 0 < 2 ^ Z.of_nat k) by (apply Z.pow_pos_nonneg; lia).
  assert (Hs : 2 ^ Z.of_nat (S k) = 2 * 2 ^ Z.of_nat k)
    by (rewrite Nat2Z.inj_succ, Z.pow_succ_r by lia; done).
  rewrite Hd, (u32_small (_ * 2)) by (unfold is_u32; nia). f_equal.
  - destruct (decide (10 < S k)%nat).
    + by rewrite (proj2 (Z.ltb_lt _ _)), (proj2 (Nat.ltb_lt _ _)) by lia.
    + by rewrite (proj2 (Z.ltb_ge _ _)), (proj2 (Nat.ltb_ge _ _)) by lia.
  - rewrite Hs. case_match; bool_prop; nia.
Qed.

Definition sup_ok (v : sup) : Prop := slots_ok name (g_procs v) /\ g_initialized v = true.

Lemma exits_spec p k v :
  sup_ok v -> proc_ok p -> Z.of_nat k < 2 ^ 31 ->
  view name (g_procs v) (name p) = Some (p, backoff p 0) ->
  sup_ok (exits k (name p) v) /\
  view name (g_procs (exits k (name p) v)) (name p) = Some (p, backoff p k).
Proof.
  intros Hok Hp Hk Hv. induction k as [|k IH]; [done|].
  destruct IH as [[Hok' Hin] Hv']; [lia|]. cbn [exits]. unfold danos_sup_on_exit.
  pose proof (slots_change_spec name (name p)
    (fun e => mk_slot (sl_sess e) (exit_run (sl_sess e) (sl_state e)) (sl_used e)) _ Hok') as H.
  rewrite Hv' in H. destruct H as (t' & -> & Hokt & _ & Hview).
  { intros e [? ?]%holds_key_true _. done. }
  split; [done|]. cbn [g_procs]. rewrite Hview, decide_True by done. cbn.
  by rewrite exit_backoff by (done || lia).
Qed.

End Sup.

(** The supervisor backs off exponentially: after [k] exits a registered
    process has been counted [k] times, its delay is its minimum doubled [k]
    times and capped at its maximum, and it is restarting up to ten exits and
    failed, or in safe mode when critical, from the eleventh on. *)
Theorem supervisor_backoff p k v v' :
  Sup.sup_ok v -> Sup.proc_ok p -> Z.of_nat k < 2 ^ 31 ->
  Sup.danos_sup_register (Some p) v = (0, v') ->
  view Sup.name (Sup.g_procs (Sup.exits k (Sup.name p) v')) (Sup.name p) =
  Some (p, Sup.backoff p k).
Proof.
  intros [Hok Hin] Hp Hk. unfold Sup.danos_sup_register. rewrite Hin.
  pose proof (slots_create_spec Sup.name
    (Sup.mk_run Sup.DANOS_SUP_STATE_STOPPED 0 (Sup.restart_min_ms p)) p _ Hok) as H.
  destruct (slots_create _ _ _ _) as [t'|]; [|done]. cbn [Sup.answer]. intros [= <-].
  destruct H as (_ & _ & Hok' & _ & Hview).
  apply (Sup.exits_spec p k (Sup.mk_sup t' (Sup.g_initialized v))); [done..|].
  cbn [Sup.g_procs]. by rewrite Hview, decide_True.
Qed.

Definition bgpd : Sup.danos_sup_proc_t :=
  Sup.mk_proc (lit "bgpd") (lit "/usr/lib/frr/bgpd") (lit "/run/frr/bgpd.pid") 1000 60000 true.

Lemma supervisor_backoff_witness :
  exists v', view Sup.name (Sup.g_procs (Sup.exits 3 (lit "bgpd") v')) (lit "bgpd") =
  Some (bgpd, Sup.mk_run Sup.DANOS_SUP_STATE_RESTARTING 3 8000).
Proof.
  set (v := Sup.danos_sup_init (Sup.mk_sup [] false)).
  exists (Sup.danos_sup_register (Some bgpd) v).2.
  apply (supervisor_backoff bgpd 3 v).
  - split; [by apply slots_ok_replicate|reflexivity].
  - unfold Sup.proc_ok. simpl. lia.
  - lia.
  - vm_compute. reflexivity.
Defined.

(** The doubling of the delay is a 32-bit product taken before the cap: a
    process with a delay of 2^31 ms, allowed by a maximum above it, is
    restarted without any delay after its next exit. *)
Theorem supervisor_delay_wraps p r :
  2 ^ 31 <= Sup.restart_max_ms p -> Sup.current_delay_ms r = 2 ^ 31 ->
  Sup.current_delay_ms (Sup.exit_run p r) = 0.
Proof.
  intros Hmax Hd. unfold Sup.exit_run. rewrite Hd. change (u32 (2 ^ 31 * 2)) with 0. cbn.
  by rewrite (proj2 (Z.ltb_ge _ _)) by lia.
Qed.

Lemma supervisor_delay_wraps_witness :
  Sup.current_delay_ms (Sup.exit_run
    (Sup.mk_proc (lit "bgpd") [] [] 1000 (2 ^ 32 - 1) true)
    (Sup.mk_run Sup.DANOS_SUP_STATE_RESTARTING 3 (2 ^ 31))) = 0.
Proof. apply supervisor_delay_wraps; [simpl; lia|reflexivity]. Defined.
