(* ===== verification/Security.v ===== *)
(** * Security: danos-security rbac.c, copp.c and audit.c

    The role matrix, the control-plane policers and the audit log with its
    ring of the last 4096 entries. *)

From stdpp Require Import base decidable list numbers strings.
From Stdlib Require Import ZArith Lia.
From S2P Require Import Prelude CStr.

(** ** Roles *)

Inductive danos_sec_obj_type_t :=
  | DANOS_SEC_OBJ_INTERFACE | DANOS_SEC_OBJ_VRF | DANOS_SEC_OBJ_ROUTE | DANOS_SEC_OBJ_ACL
  | DANOS_SEC_OBJ_QOS | DANOS_SEC_OBJ_BFD | DANOS_SEC_OBJ_SECURITY | DANOS_SEC_OBJ_ALL.

Inductive danos_sec_op_t :=
  | DANOS_SEC_OP_READ | DANOS_SEC_OP_CREATE | DANOS_SEC_OP_UPDATE | DANOS_SEC_OP_DELETE.

(** The predefined roles, and any other value of the enumeration's type. *)
Inductive danos_sec_role_t :=
  | DANOS_ROLE_ADMIN | DANOS_ROLE_OPERATOR | DANOS_ROLE_VIEWER | DANOS_ROLE_SECURITY_ADMIN
  | role_other (code : Z).

#[export] Instance sec_obj_eq_dec : EqDecision danos_sec_obj_type_t.
Proof. solve_decision. Defined.
#[export] Instance sec_op_eq_dec : EqDecision danos_sec_op_t.
Proof. solve_decision. Defined.
#[export] Instance sec_role_eq_dec : EqDecision danos_sec_role_t.
Proof. solve_decision. Defined.

Definition danos_rbac_check (role : danos_sec_role_t) (obj : danos_sec_obj_type_t)
    (op : danos_sec_op_t) : bool :=
  match role with
  | DANOS_ROLE_ADMIN => true
  | DANOS_ROLE_VIEWER => bool_decide (op = DANOS_SEC_OP_READ)
  | DANOS_ROLE_OPERATOR =>
      if bool_decide (op = DANOS_SEC_OP_READ) then true
      else negb (bool_decide (obj = DANOS_SEC_OBJ_SECURITY))
  | DANOS_ROLE_SECURITY_ADMIN =>
      if bool_decide (op = DANOS_SEC_OP_READ) then true
      else bool_decide (obj = DANOS_SEC_OBJ_SECURITY)
  | role_other _ => false
  end.

(** [None] is the [-1] of an unknown or null name. *)
Definition danos_rbac_role_by_name (name : option bytes) : option danos_sec_role_t :=
  match name with
  | None => None
  | Some name =>
      if strcaseeq name (lit "admin") then Some DANOS_ROLE_ADMIN else
      if strcaseeq name (lit "operator") then Some DANOS_ROLE_OPERATOR else
      if strcaseeq name (lit "viewer") then Some DANOS_ROLE_VIEWER else
      if strcaseeq name (lit "security-admin") || strcaseeq name (lit "security_admin")
      then Some DANOS_ROLE_SECURITY_ADMIN else None
  end.

Definition danos_rbac_role_name (role : danos_sec_role_t) : bytes :=
  match role with
  | DANOS_ROLE_ADMIN => lit "admin"
  | DANOS_ROLE_OPERATOR => lit "operator"
  | DANOS_ROLE_VIEWER => lit "viewer"
  | DANOS_ROLE_SECURITY_ADMIN => lit "security-admin"
  | role_other _ => lit "unknown"
  end.

(** ** Control-plane policing *)

Inductive danos_copp_class_t :=
  | DANOS_COPP_CLASS_BGP | DANOS_COPP_CLASS_OSPF | DANOS_COPP_CLASS_ISIS
  | DANOS_COPP_CLASS_BFD | DANOS_COPP_CLASS_SSH | DANOS_COPP_CLASS_NETCONF
  | DANOS_COPP_CLASS_GNMI | DANOS_COPP_CLASS_ARP | DANOS_COPP_CLASS_ICMP
  | DANOS_COPP_CLASS_DHCP | DANOS_COPP_CLASS_NTP | DANOS_COPP_CLASS_DNS
  | DANOS_COPP_CLASS_EXCEPTION.

#[export] Instance copp_class_eq_dec : EqDecision danos_copp_class_t.
Proof. solve_decision. Defined.

Record danos_copp_policy_t := mk_policy {
  cls : danos_copp_class_t;
  cir_bps : Z;
  cb_bytes : Z;
  drop_on_exceed : bool;
  exceed_dscp : Z;
}.

Definition g_defaults : list danos_copp_policy_t :=
  [ mk_policy DANOS_COPP_CLASS_BGP       10000000 125000 true 0;
    mk_policy DANOS_COPP_CLASS_OSPF       5000000  62500 true 0;
    mk_policy DANOS_COPP_CLASS_ISIS       5000000  62500 true 0;
    mk_policy DANOS_COPP_CLASS_BFD        5000000  62500 true 0;
    mk_policy DANOS_COPP_CLASS_SSH        2000000  25000 true 0;
    mk_policy DANOS_COPP_CLASS_NETCONF    2000000  25000 true 0;
    mk_policy DANOS_COPP_CLASS_GNMI       2000000  25000 true 0;
    mk_policy DANOS_COPP_CLASS_ARP        1000000  12500 true 0;
    mk_policy DANOS_COPP_CLASS_ICMP       1000000  12500 false 6;
    mk_policy DANOS_COPP_CLASS_DHCP       1000000  12500 true 0;
    mk_policy DANOS_COPP_CLASS_NTP        1000000  12500 true 0;
    mk_policy DANOS_COPP_CLASS_DNS        1000000  12500 true 0;
    mk_policy DANOS_COPP_CLASS_EXCEPTION  5000000  62500 true 0 ].

(** The applied policies; [None] before initialisation. *)
Abbreviation copp := (option (list danos_copp_policy_t)).

Definition danos_copp_init (c : copp) : copp := Some g_defaults.

Definition copp_table (c : copp) : list danos_copp_policy_t := default g_defaults c.

(** The first entry of a class replaced; [None] when there is none. *)
Fixpoint apply_policy (p : danos_copp_policy_t) (l : list danos_copp_policy_t)
    : option (list danos_copp_policy_t) :=
  match l with
  | [] => None
  | q :: l => if bool_decide (cls q = cls p) then Some (p :: l) else cons q <$> apply_policy p l
  end.

Definition danos_copp_apply (policy : option danos_copp_policy_t) (c : copp) : Z * copp :=
  match policy with
  | None => (-1, c)
  | Some p =>
      match apply_policy p (copp_table c) with
      | Some l => (0, Some l)
      | None => (-1, Some (copp_table c))
      end
  end.

Fixpoint find_policy (k : danos_copp_class_t) (l : list danos_copp_policy_t)
    : option danos_copp_policy_t :=
  match l with
  | [] => None
  | q :: l => if bool_decide (cls q = k) then Some q else find_policy k l
  end.

Definition danos_copp_get (k : danos_copp_class_t) (c : copp) : option danos_copp_policy_t :=
  find_policy k (copp_table c).

(** ** The audit log *)

Inductive danos_audit_event_t :=
  | DANOS_AUDIT_TX_BEGIN | DANOS_AUDIT_TX_COMMIT | DANOS_AUDIT_TX_ABORT
  | DANOS_AUDIT_TX_ROLLBACK | DANOS_AUDIT_AUTH_OK | DANOS_AUDIT_AUTH_FAIL
  | DANOS_AUDIT_PERMIT | DANOS_AUDIT_DENY | DANOS_AUDIT_KEY_ROTATE
  | audit_other (code : Z).

Record danos_audit_entry_t := mk_audit {
  au_tx_id : Z;
  au_event : danos_audit_event_t;
  au_initiator : bytes;
  au_source_ip : bytes;
  au_obj_type : bytes;
  au_obj_id : bytes;
  au_diff : bytes;
  au_sec : Z;
  au_nsec : Z;
}.

Definition MAX_ENTRIES : nat := 4096.

Definition event_name (e : danos_audit_event_t) : bytes :=
  match e with
  | DANOS_AUDIT_TX_BEGIN => lit "tx_begin"
  | DANOS_AUDIT_TX_COMMIT => lit "tx_commit"
  | DANOS_AUDIT_TX_ABORT => lit "tx_abort"
  | DANOS_AUDIT_TX_ROLLBACK => lit "tx_rollback"
  | DANOS_AUDIT_AUTH_OK => lit "auth_ok"
  | DANOS_AUDIT_AUTH_FAIL => lit "auth_fail"
  | DANOS_AUDIT_PERMIT => lit "permit"
  | DANOS_AUDIT_DENY => lit "deny"
  | DANOS_AUDIT_KEY_ROTATE => lit "key_rotate"
  | audit_other _ => lit "unknown"
  end.

(** The double quote, and a quoted literal. *)
Definition dq : bytes := [34].
Definition quoted (s : bytes) : bytes := dq ++ s ++ dq.
Definition field_name (s : string) : bytes := quoted (lit s) ++ lit ":".

Definition audit_line (e : danos_audit_entry_t) : bytes :=
  lit "{" ++ field_name "ts" ++ sdec (au_sec e) ++ lit "." ++ dec_pad 9 (au_nsec e) ++
  lit "," ++ field_name "tx_id" ++ dec (au_tx_id e) ++
  lit "," ++ field_name "event" ++ quoted (event_name (au_event e)) ++
  lit "," ++ field_name "initiator" ++ quoted (au_initiator e) ++
  lit "," ++ field_name "src" ++ quoted (au_source_ip e) ++
  lit "," ++ field_name "obj_type" ++ quoted (au_obj_type e) ++
  lit "," ++ field_name "obj_id" ++ quoted (au_obj_id e) ++
  lit "," ++ field_name "diff" ++ quoted (au_diff e) ++ lit "}" ++ [10].

(** The statics: whether the file is open, its path, what was written to it,
    and the ring; [a_opens] are the answers of the coming [fopen] calls,
    success when there are none left. *)
Record audit := mk_audit_state {
  a_fp : bool;
  a_path : bytes;
  a_file : bytes;
  a_ring : list danos_audit_entry_t;
  a_head : Z;
  a_count : Z;
  a_opens : list bool;
}.

Definition danos_audit_init (path : option bytes) (a : audit) : audit :=
  let p := match path with Some p => take 255 p | None => a_path a end in
  let '(ok, rest) := malloc (a_opens a) in
  mk_audit_state ok p (a_file a) (a_ring a) 0 0 rest.

Definition danos_audit_close (a : audit) : audit :=
  mk_audit_state false (a_path a) (a_file a) (a_ring a) (a_head a) (a_count a) (a_opens a).

Definition danos_audit_log (entry : option danos_audit_entry_t) (a : audit) : Z * audit :=
  match entry with
  | None => (-1, a)
  | Some e =>
      let a := if negb (a_fp a) && (a_count a =? 0) then danos_audit_init None a else a in
      let ring := <[Z.to_nat (a_head a) := e]> (a_ring a) in
      let head := (a_head a + 1) mod Z.of_nat MAX_ENTRIES in
      let count := if a_count a <? Z.of_nat MAX_ENTRIES then a_count a + 1 else a_count a in
      (0, mk_audit_state (a_fp a) (a_path a)
            (if a_fp a then a_file a ++ audit_line e else a_file a)
            ring head count (a_opens a))
  end.

Definition tx_matches (tx_id : Z) (e : danos_audit_entry_t) : bool :=
  (tx_id =? 0) || (au_tx_id e =? tx_id).

(** [for (i = 0; i < g_ring_count && count < max_entries; i++)]: [n] turns are
    left, [i] is the next index, [room] the slots left in the caller's array. *)
Fixpoint audit_loop (tx_id start : Z) (ring : list danos_audit_entry_t) (n : nat) (i : Z)
    (room : nat) : list danos_audit_entry_t :=
  match n, room with
  | S n, S room' =>
      match ring !! Z.to_nat ((start + i) mod Z.of_nat MAX_ENTRIES) with
      | None => []
      | Some e =>
          if tx_matches tx_id e then e :: audit_loop tx_id start ring n (i + 1) room'
          else audit_loop tx_id start ring n (i + 1) room
      end
  | _, _ => []
  end.

(** The entries filled in. *)
Definition danos_audit_query (tx_id max_entries : Z) (a : audit) : list danos_audit_entry_t :=
  if max_entries <=? 0 then [] else
  let start := if a_count a <? Z.of_nat MAX_ENTRIES then 0 else a_head a in
  audit_loop tx_id start (a_ring a) (Z.to_nat (a_count a)) 0 (Z.to_nat max_entries).

(** ** Lemmas on policies *)

Lemma apply_policy_find p l k :
  match apply_policy p l with
  | Some l' => (exists q, find_policy (cls p) l = Some q) /\
      (cls <$> l') = (cls <$> l) /\
      find_policy k l' = if decide (k = cls p) then Some p else find_policy k l
  | None => find_policy (cls p) l = None
  end.
Proof.
  induction l as [|q l IH]; [done|]. cbn. case_bool_decide as Hq.
  - split_and!; [eauto|cbn; by rewrite Hq|]. cbn. repeat case_bool_decide; case_decide; congruence.
  - destruct (apply_policy p l) as [l'|]; [|done]. destruct IH as (Hf & Hc & Hk). cbn.
    split_and!; [done|by f_equal|]. case_bool_decide as Hqk; [|done].
    rewrite decide_False by congruence. done.
Qed.

(** ** The ring holds the last entries *)

(** [log] is everything logged since the last initialisation. *)
Record ring_of (a : audit) (log : list danos_audit_entry_t) : Prop := {
  ro_size : length (a_ring a) = MAX_ENTRIES;
  ro_count : a_count a = Z.min (Z.of_nat (length log)) (Z.of_nat MAX_ENTRIES);
  ro_head : a_head a = Z.of_nat (length log) mod Z.of_nat MAX_ENTRIES;
  ro_ring : forall j, (j < length log)%nat -> (length log - j <= MAX_ENTRIES)%nat ->
    a_ring a !! Z.to_nat (Z.of_nat j mod Z.of_nat MAX_ENTRIES) = log !! j;
}.

Lemma init_ring_of path a :
  length (a_ring a) = MAX_ENTRIES -> ring_of (danos_audit_init path a) [].
Proof.
  intros H. unfold danos_audit_init. destruct (malloc _). by split; cbn; [..|intros; lia].
Qed.

Lemma mod_distinct a b m : 0 < m -> 0 < b - a < m -> a mod m <> b mod m.
Proof.
  intros Hm Hab He. assert (Hd : (b - a) mod m = 0)
    by (rewrite Zminus_mod, He, Z.sub_diag; done).
  rewrite Z.mod_small in Hd by lia. lia.
Qed.

Lemma log_ring_of a log e :
  ring_of a log -> a_fp a = true \/ log <> [] ->
  let a' := (danos_audit_log (Some e) a).2 in
  ring_of a' (log ++ [e]) /\ a_fp a' = a_fp a /\
  a_file a' = if a_fp a then a_file a ++ audit_line e else a_file a.
Proof.
  intros [Hs Hc Hh Hr] Hopen a'. subst a'. cbn [danos_audit_log snd].
  assert (negb (a_fp a) && (a_count a =? 0) = false) as ->.
  { destruct Hopen as [-> |Hne]; [done|]. rewrite Hc. destruct log; [done|].
    cbn. rewrite (proj2 (Z.eqb_neq _ _)); [apply andb_false_r|]. unfold MAX_ENTRIES. lia. }
  split; [|done]. unfold MAX_ENTRIES in *. change (Z.of_nat 4096) with 4096 in *.
  pose proof (Z.mod_pos_bound (Z.of_nat (length log)) 4096 ltac:(lia)) as Hb.
  split; cbn; rewrite ?length_app; cbn [length]; change (Z.of_nat MAX_ENTRIES) with 4096.
  - by rewrite length_insert.
  - rewrite Hc. case_match; bool_prop; lia.
  - rewrite Hh, Zplus_mod_idemp_l. f_equal. lia.
  - intros j Hj Hwin. unfold MAX_ENTRIES in Hwin.
    destruct (decide (j = length log)) as [->|Hne].
    + rewrite <- Hh, list_lookup_insert_eq by lia. by rewrite list_lookup_middle.
    + rewrite lookup_app_l by lia. rewrite list_lookup_insert_ne; [apply Hr; lia|].
      rewrite Hh. intros Heq. apply (mod_distinct (Z.of_nat j) (Z.of_nat (length log)) 4096); [lia..|].
      pose proof (Z.mod_pos_bound (Z.of_nat j) 4096 ltac:(lia)). lia.
Qed.

Lemma audit_loop_spec tx start ring l i room :
  (forall k, (k < length l)%nat ->
    ring !! Z.to_nat ((start + (i + Z.of_nat k)) mod Z.of_nat MAX_ENTRIES) = l !! k) ->
  audit_loop tx start ring (length l) i room = take room (filter (fun e => tx_matches tx e = true) l).
Proof.
  revert i room. induction l as [|e l IH]; intros i room H; [by destruct room|].
  destruct room as [|room]; [done|]. cbn [length audit_loop].
  pose proof (H 0%nat ltac:(simpl; lia)) as H0. rewrite Z.add_0_r in H0. rewrite H0.
  cbn [lookup list_lookup].
  assert (HIH : forall room, audit_loop tx start ring (length l) (i + 1) room =
    take room (filter (fun e => tx_matches tx e = true) l)).
  { intros r. apply IH. intros k Hk. specialize (H (S k) ltac:(simpl; lia)).
    change ((e :: l) !! S k) with (l !! k) in H. rewrite <- H. do 3 f_equal. lia. }
  rewrite filter_cons. destruct (tx_matches tx e) eqn:E.
  - rewrite decide_True by done. by rewrite HIH.
  - rewrite decide_False by done. by rewrite HIH.
Qed.

(** The newest [n] entries. *)
Definition newest {A} (n : nat) (l : list A) : list A := drop (length l - n) l.

Lemma audit_query_ring a log tx max :
  ring_of a log -> 0 < max ->
  danos_audit_query tx max a =
  take (Z.to_nat max) (filter (fun e => tx_matches tx e = true) (newest MAX_ENTRIES log)).
Proof.
  intros [Hs Hc Hh Hr] Hm. unfold danos_audit_query. rewrite (proj2 (Z.leb_gt _ _)) by lia.
  set (start := if a_count a <? Z.of_nat MAX_ENTRIES then 0 else a_head a).
  assert (Hlen : Z.to_nat (a_count a) = length (newest MAX_ENTRIES log))
    by (unfold newest; rewrite length_drop, Hc; lia).
  rewrite Hlen. apply audit_loop_spec. intros k Hk. rewrite Z.add_0_l.
  unfold newest in *. rewrite length_drop in Hk. rewrite lookup_drop, <- Hr by lia.
  f_equal. f_equal. subst start. unfold MAX_ENTRIES in *. change (Z.of_nat 4096) with 4096 in *.
  rewrite Hc, Hh. destruct (_ <? 4096) eqn:E; bool_prop.
  - f_equal. lia.
  - rewrite Zplus_mod_idemp_l.
    replace (Z.of_nat (length log) + Z.of_nat k)
      with (Z.of_nat (length log - 4096 + k) + 1 * 4096) by lia.
    by rewrite Z.mod_add by lia.
Qed.

(** Logging a sequence of entries. *)
Definition log_all (es : list danos_audit_entry_t) (a : audit) : audit :=
  foldl (fun a e => (danos_audit_log (Some e) a).2) a es.

Lemma log_all_spec es a log :
  ring_of a log -> a_fp a = true ->
  ring_of (log_all es a) (log ++ es) /\ a_file (log_all es a) = a_file a ++ (es ≫= audit_line).
Proof.
  revert a log. induction es as [|e es IH]; intros a log Ha Hfp; [by rewrite !app_nil_r|].
  destruct (log_ring_of a log e Ha (or_introl Hfp)) as (Ha' & Hfp' & Hf).
  cbn [log_all foldl]. fold (log_all es (danos_audit_log (Some e) a).2).
  destruct (IH _ _ Ha' ltac:(congruence)) as [Hr Hfile].
  rewrite <- app_assoc in Hr. split; [done|].
  rewrite Hfile, Hf, Hfp, bind_cons, <- app_assoc. done.
Qed.

(** ** Properties *)

(** The audit log keeps what it is told: after initialisation with the
    file open, a query returns, oldest first and up to the room of its array,
    exactly the logged entries of the transaction among the newest 4096, and
    the file holds one line for every entry, in order. *)
Theorem audit_log_exact a path es tx max :
  length (a_ring a) = MAX_ENTRIES -> a_opens a = [] -> 0 < max ->
  let a' := log_all es (danos_audit_init path a) in
  danos_audit_query tx max a' =
    take (Z.to_nat max) (filter (fun e => tx_matches tx e = true) (newest MAX_ENTRIES es)) /\
  a_file a' = a_file a ++ (es ≫= audit_line).
Proof.
  intros Hs Ho Hm a'. pose proof (init_ring_of path a Hs) as H0.
  assert (Hfp : a_fp (danos_audit_init path a) = true /\
    a_file (danos_audit_init path a) = a_file a).
  { unfold danos_audit_init. rewrite Ho. done. }
  destruct Hfp as [Hfp Hfile].
  destruct (log_all_spec es _ _ H0 Hfp) as [Hr Hf]. cbn [app] in Hr.
  split; [by apply audit_query_ring|]. unfold a'. by rewrite Hf, Hfile.
Qed.

Definition audit0 : audit :=
  mk_audit_state false (lit "/var/log/danos/audit.log") []
    (replicate MAX_ENTRIES (mk_audit 0 (audit_other 0) [] [] [] [] [] 0 0)) 0 0 [].

Definition demo_entry (tx : Z) : danos_audit_entry_t :=
  mk_audit tx DANOS_AUDIT_TX_COMMIT (lit "root") (lit "10.0.0.1") (lit "route") (lit "7") [] 1 2.

Lemma audit_log_exact_witness :
  danos_audit_query 2 10 (log_all [demo_entry 1; demo_entry 2] (danos_audit_init None audit0)) =
  [demo_entry 2].
Proof.
  apply (audit_log_exact audit0 None [demo_entry 1; demo_entry 2] 2 10);
    [apply length_replicate|reflexivity|lia].
Defined.

(** The diff of a change, chosen so that it closes the record and forges the
    next one. *)
Definition forged_diff : bytes :=
  lit "x" ++ dq ++ lit "}" ++ [10] ++
  take (length (audit_line (demo_entry 9)) - 3) (audit_line (demo_entry 9)).

(** Strings go into the audit file unescaped: one entry whose diff, of
    fewer than 256 bytes, holds quotes and a line feed writes the same bytes
    as two entries, the second attributed to whoever the first names. *)
Theorem audit_line_forgeable :
  let e d := mk_audit 1 DANOS_AUDIT_DENY (lit "guest") (lit "10.9.9.9") (lit "acl") (lit "3") d 1 2 in
  strlen forged_diff < 256 /\
  audit_line (e forged_diff) = audit_line (e (lit "x")) ++ audit_line (demo_entry 9).
Proof. vm_compute. split; reflexivity. Qed.

(** Duties are separated: any change of an object is allowed to exactly
    one of the operator and the security administrator, viewers only read,
    every predefined role reads everything, and a role's printed name, in
    any mix of cases, is parsed back to that role. *)
Theorem rbac_separation obj op role name :
  (op <> DANOS_SEC_OP_READ ->
    danos_rbac_check DANOS_ROLE_OPERATOR obj op =
    negb (danos_rbac_check DANOS_ROLE_SECURITY_ADMIN obj op)) /\
  (danos_rbac_check DANOS_ROLE_VIEWER obj op = true <-> op = DANOS_SEC_OP_READ) /\
  danos_rbac_check DANOS_ROLE_ADMIN obj op = true /\
  (danos_rbac_check role obj DANOS_SEC_OP_READ = true <-> forall c, role <> role_other c) /\
  ((forall c, role <> role_other c) -> strcaseeq name (danos_rbac_role_name role) = true ->
    danos_rbac_role_by_name (Some name) = Some role).
Proof.
  split_and!.
  - intros Hop. cbn. rewrite (bool_decide_eq_false_2 _ Hop). done.
  - cbn. by rewrite bool_decide_eq_true.
  - done.
  - destruct role; cbn; split; try done. by intros []%(fun H => H code).
  - intros Hr Hn. unfold strcaseeq in *. rewrite bool_decide_eq_true in Hn.
    unfold danos_rbac_role_by_name, strcaseeq. rewrite Hn.
    destruct role; try (vm_compute; reflexivity). by destruct (Hr code).
Qed.

Lemma rbac_separation_witness :
  danos_rbac_role_by_name (Some (lit "Security-ADMIN")) = Some DANOS_ROLE_SECURITY_ADMIN.
Proof.
  apply (rbac_separation DANOS_SEC_OBJ_ACL DANOS_SEC_OP_READ DANOS_ROLE_SECURITY_ADMIN
    (lit "Security-ADMIN")); [done|vm_compute; reflexivity].
Defined.

(** Applying a policy changes what [danos_copp_get] returns for its class and
    for no other, and never the set of classes. *)
Lemma copp_apply_get p c k :
  match danos_copp_apply (Some p) c with
  | (0, c') => danos_copp_get k c' = (if decide (k = cls p) then Some p else danos_copp_get k c) /\
               (cls <$> copp_table c') = (cls <$> copp_table c)
  | (_, c') => danos_copp_get (cls p) c = None /\ copp_table c' = copp_table c
  end.
Proof.
  unfold danos_copp_apply. pose proof (apply_policy_find p (copp_table c) k) as H.
  destruct (apply_policy _ _) as [l|]; [|done]. destruct H as (_ & Hc & Hf). done.
Qed.

(** Operators may also change the pseudo-object that stands for all objects,
    the security objects included. *)
Lemma rbac_operator_writes_all op :
  danos_rbac_check DANOS_ROLE_OPERATOR DANOS_SEC_OBJ_ALL op = true.
Proof. by destruct op. Qed.
