(* ===== verification/VppWire.v ===== *)
(** * The VPP binary API wire format: danos-vpp vpp_wire.h / vpp_wire.c

    The growable message buffer, the poisoned reader, socket framing and the
    table of message names with linear probing.  The buffer carries the
    answers the allocator is going to give. *)

From stdpp Require Import base decidable list numbers strings gmap.
From Stdlib Require Import ZArith Lia.
From S2P Require Import Prelude CStr.

Definition VPP_MSG_ID_SOCKCLNT_CREATE : Z := 15.

(** ** Growable buffer *)

(** [data[0 .. len)]; a buffer that could not be allocated has [cap = 0]. *)
Record vpp_buf_t := mk_vbuf {
  vb_data : bytes;
  vb_cap : Z;
  vb_heap : heap;
}.

Definition vb_len (b : vpp_buf_t) : Z := strlen (vb_data b).

Definition vpp_buf_init (cap : Z) (m : heap) : vpp_buf_t :=
  let cap := if cap =? 0 then 128 else cap in
  let '(ok, m) := malloc m in
  mk_vbuf [] (if ok then cap else 0) m.

(** [while (ncap < need) ncap *= 2]; 32 doublings reach any size up to 2^31.
    Above that [ncap] wraps to zero and the loop never ends
    ([buf_grow_diverges]), which is [None] here. *)
Fixpoint buf_grow (fuel : nat) (ncap need : Z) : option Z :=
  if ncap <? need then
    match fuel with
    | O => None
    | S fuel => buf_grow fuel (u32 (ncap * 2)) need
    end
  else Some ncap.

(** The buffer with room for [extra] bytes, [None] for [false]. *)
Definition buf_reserve (b : vpp_buf_t) (extra : Z) : option vpp_buf_t * heap :=
  let need := u32 (vb_len b + extra) in
  if need <=? vb_cap b then (Some b, vb_heap b) else
  match buf_grow 32 (if vb_cap b =? 0 then 128 else vb_cap b) need with
  | None => (None, vb_heap b)
  | Some ncap =>
      let '(ok, m) := malloc (vb_heap b) in
      (if ok then Some (mk_vbuf (vb_data b) ncap m) else None, m)
  end.

(** Append [bs] when there is room, else leave the contents alone. *)
Definition buf_append (b : vpp_buf_t) (bs : bytes) : vpp_buf_t :=
  match buf_reserve b (strlen bs) with
  | (Some b, _) => mk_vbuf (vb_data b ++ bs) (vb_cap b) (vb_heap b)
  | (None, m) => mk_vbuf (vb_data b) (vb_cap b) m
  end.

Definition vpp_buf_put_u8 (v : Z) (b : vpp_buf_t) : vpp_buf_t := buf_append b [u8 v].

Definition vpp_buf_put_u16 (v : Z) (b : vpp_buf_t) : vpp_buf_t :=
  buf_append b [u8 (Z.shiftr v 8); u8 v].

Definition vpp_buf_put_u32 (v : Z) (b : vpp_buf_t) : vpp_buf_t :=
  buf_append b [u8 (Z.shiftr v 24); u8 (Z.shiftr v 16); u8 (Z.shiftr v 8); u8 v].

Definition vpp_buf_put_u64 (v : Z) (b : vpp_buf_t) : vpp_buf_t :=
  vpp_buf_put_u32 (u32 v) (vpp_buf_put_u32 (u32 (Z.shiftr v 32)) b).

(** [None] is a null pointer. *)
Definition vpp_buf_put_bytes (p : option bytes) (b : vpp_buf_t) : vpp_buf_t :=
  match p with
  | None | Some [] => b
  | Some p => buf_append b p
  end.

Definition vpp_buf_put_string (s : option bytes) (b : vpp_buf_t) : vpp_buf_t :=
  let s' := take 255 (default [] s) in
  vpp_buf_put_bytes ((fun _ => s') <$> s) (vpp_buf_put_u8 (strlen s') b).

(** ** Reader *)

(** The memory at [p] and the length the reader was given. *)
Record vpp_reader_t := mk_vreader {
  vr_p : bytes;
  vr_len : Z;
  vr_pos : Z;
}.

Definition vpp_reader_init (buf : bytes) (len : Z) : vpp_reader_t := mk_vreader buf len 0.

Definition vpp_reader_ok (r : vpp_reader_t) : bool := vr_pos r <=? vr_len r.

(** The bytes, [None] when the read would run over; the reader is poisoned. *)
Definition rd_take (n : Z) (r : vpp_reader_t) : option bytes * vpp_reader_t :=
  if vr_len r <? u32 (vr_pos r + n)
  then (None, mk_vreader (vr_p r) (vr_len r) (u32 (vr_len r + 1)))
  else (Some (cread (vr_p r) (Z.to_nat (vr_pos r)) (Z.to_nat n)),
        mk_vreader (vr_p r) (vr_len r) (vr_pos r + n)).

Definition vpp_rd_u8 (r : vpp_reader_t) : Z * vpp_reader_t :=
  let '(t, r) := rd_take 1 r in (be_val (default [0] t), r).
Definition vpp_rd_u16 (r : vpp_reader_t) : Z * vpp_reader_t :=
  let '(t, r) := rd_take 2 r in (be_val (default [0; 0] t), r).
Definition vpp_rd_u32 (r : vpp_reader_t) : Z * vpp_reader_t :=
  let '(t, r) := rd_take 4 r in (be_val (default [0; 0; 0; 0] t), r).

(** The operands of [|] evaluated from left to right. *)
Definition vpp_rd_u64 (r : vpp_reader_t) : Z * vpp_reader_t :=
  let '(hi, r) := vpp_rd_u32 r in
  let '(lo, r) := vpp_rd_u32 r in
  (Z.lor (Z.shiftl hi 32) lo, r).

Definition vpp_rd_bytes (n : Z) (r : vpp_reader_t) : option bytes * vpp_reader_t := rd_take n r.

Definition vpp_rd_string (max_len : Z) (r : vpp_reader_t) (m : heap)
    : option bytes * vpp_reader_t * heap :=
  let '(n, r) := vpp_rd_u8 r in
  if negb (vpp_reader_ok r) then (None, r, m) else
  let copy := if max_len <? n then max_len else n in
  let '(ok, m) := malloc m in
  if negb ok then (None, r, m) else
  match vpp_rd_bytes copy r with
  | (None, r) => (None, r, m)
  | (Some s, r) =>
      if copy <? n then
        match vpp_rd_bytes (n - copy) r with
        | (None, r) => (None, r, m)
        | (Some _, r) => (Some (c_str s), r, m)
        end
      else (Some (c_str s), r, m)
  end.

(** ** Framing *)

(** The 16 bytes of the msgbuf header: the payload length at offset 8. *)
Definition msgbuf_header (data_len : Z) : bytes :=
  replicate 8 0 ++
  [u8 (Z.shiftr data_len 24); u8 (Z.shiftr data_len 16); u8 (Z.shiftr data_len 8); u8 data_len] ++
  replicate 4 0.

(** The bytes [vpp_wire_send_fd] hands to a socket that takes them all;
    [None] for [-1]. *)
Definition vpp_wire_send (msg_id : Z) (body : bytes) : option bytes :=
  let data_len := u32 (2 + strlen body) in
  if 4294967295 - 16 <? data_len then None else
  Some (msgbuf_header data_len ++ [u8 (Z.shiftr msg_id 8); u8 msg_id] ++ body).

(** [vpp_wire_recv_fd] on a stream of bytes that ends where the peer closed:
    the payload and the rest of the stream. *)
Definition vpp_wire_recv (buf_size : Z) (stream : bytes) : option bytes * bytes :=
  if buf_size <? 4 then (None, stream) else
  if (length stream <? 16)%nat then (None, []) else
  let data_len := be_val (cread stream 8 4) in
  let rest := drop 16 stream in
  if (data_len =? 0) || (buf_size <? data_len) then (None, rest) else
  if Z.of_nat (length rest) <? data_len then (None, []) else
  (Some (take (Z.to_nat data_len) rest), drop (Z.to_nat data_len) rest).

(** ** The table of message names *)

Definition VPP_MSG_TABLE_SIZE : nat := 4096.
Definition VPP_MSG_NAME_SIZE : nat := 72.

Record vpp_msg_table_entry_t := mk_mentry {
  mt_name : bytes;
  mt_msg_id : Z;
  mt_used : bool;
}.

Record vpp_msg_table_t := mk_mtable {
  mt_entries : list vpp_msg_table_entry_t;
  mt_count : Z;
}.

(** FNV-1a, folded to 32 bits. *)
Definition name_hash (s : bytes) : Z :=
  let h := foldl (fun h c => u64 (Z.lxor h c * 1099511628211)) 1469598103934665603 s in
  u32 (Z.lxor h (Z.shiftr h 32)).

Definition vpp_msg_table_init : vpp_msg_table_t :=
  mk_mtable (replicate VPP_MSG_TABLE_SIZE (mk_mentry [] 0 false)) 0.

Definition table_slot (name : bytes) : nat :=
  Z.to_nat (Z.land (name_hash name) (Z.of_nat VPP_MSG_TABLE_SIZE - 1)).

Definition next_slot (i : nat) : nat :=
  Z.to_nat (Z.land (Z.of_nat i + 1) (Z.of_nat VPP_MSG_TABLE_SIZE - 1)).

(** The slot where probing for [name] stops: a free one, or the name's. *)
Fixpoint probe (n : nat) (name : bytes) (i : nat) (es : list vpp_msg_table_entry_t) : option nat :=
  match n with
  | O => None
  | S n =>
      match es !! i with
      | None => None
      | Some e =>
          if negb (mt_used e) || bool_decide (mt_name e = name) then Some i
          else probe n name (next_slot i) es
      end
  end.

Definition vpp_msg_table_add (t : vpp_msg_table_t) (name : option bytes) (msg_id : Z)
    : bool * vpp_msg_table_t :=
  match name with
  | None | Some [] => (false, t)
  | Some name =>
      match probe VPP_MSG_TABLE_SIZE name (table_slot name) (mt_entries t) with
      | None => (false, t)
      | Some i =>
          match mt_entries t !! i with
          | None => (false, t)
          | Some e =>
              if negb (mt_used e) then
                (true, mk_mtable
                  (<[i := mk_mentry (take (VPP_MSG_NAME_SIZE - 1) name) (u16 msg_id) true]> (mt_entries t))
                  (u32 (mt_count t + 1)))
              else
                (true, mk_mtable (<[i := mk_mentry (mt_name e) (u16 msg_id) true]> (mt_entries t))
                         (mt_count t))
          end
      end
  end.

Definition vpp_msg_table_lookup (t : vpp_msg_table_t) (name : bytes) : option Z :=
  i ← probe VPP_MSG_TABLE_SIZE name (table_slot name) (mt_entries t);
  e ← mt_entries t !! i;
  if mt_used e then Some (mt_msg_id e) else None.

(** ** Properties of the buffer *)

Create HintDb puts.


Lemma buf_grow_ok fuel ncap need :
  0 < ncap -> need <= 2 ^ 31 -> need <= ncap * 2 ^ Z.of_nat fuel ->
  exists c, buf_grow fuel ncap need = Some c /\ need <= c /\ 0 < c.
Proof.
  revert ncap. induction fuel as [|fuel IH]; intros ncap Hpos Hmax Hfuel; cbn [buf_grow].
  - destruct (Z.ltb_spec ncap need); [lia|]. eauto.
  - destruct (Z.ltb_spec ncap need); [|eauto with lia].
    rewrite u32_small by (unfold is_u32; lia). apply IH; [lia..|].
    rewrite Nat2Z.inj_succ, Z.pow_succ_r in Hfuel by lia. lia.
Qed.

(** Past 2^31 the doubled capacity wraps to zero, and no number of rounds
    reaches the size asked for. *)
Lemma buf_grow_diverges fuel need : 2 ^ 31 < need -> buf_grow fuel 128 need = None.
Proof.
  intros Hneed.
  assert (Hzero : forall n, buf_grow n 0 need = None).
  { induction n as [|n IH]; cbn [buf_grow]; (destruct (Z.ltb_spec 0 need); [|lia]); done. }
  assert (Hpow : forall k n, (k <= 25)%nat -> buf_grow n (2 ^ (31 - Z.of_nat k)) need = None).
  { induction k as [|k IH]; intros [|n] Hk; cbn [buf_grow].
    all: rewrite (proj2 (Z.ltb_lt _ need)) by
      (eapply Z.le_lt_trans; [apply (Z.pow_le_mono_r 2 _ 31); lia|done]); try done.
    replace (u32 _) with (2 ^ (31 - Z.of_nat k)); [apply IH; lia|].
    replace (31 - Z.of_nat k) with (Z.succ (31 - Z.of_nat (S k))) by lia.
    rewrite Z.pow_succ_r, Z.mul_comm by lia. rewrite u32_small; [done|].
    assert (2 ^ (31 - Z.of_nat (S k)) < 2 ^ 31) by (apply Z.pow_lt_mono_r; lia).
    unfold is_u32. lia. }
  apply (Hpow 24%nat fuel). lia.
Qed.

(** An allocator that does not fail, and room for [n] more bytes below 2^31. *)
Definition room (b : vpp_buf_t) (n : nat) : Prop :=
  vb_heap b = [] /\ 0 <= vb_cap b /\ vb_len b + Z.of_nat n <= 2 ^ 31.

(** [f] appends exactly [bs]. *)
Definition puts (f : vpp_buf_t -> vpp_buf_t) (bs : bytes) : Prop :=
  forall b n, room b (length bs + n) -> vb_data (f b) = vb_data b ++ bs /\ room (f b) n.

Lemma puts_append bs : puts (fun b => buf_append b bs) bs.
Proof.
  intros b n (Hm & Hc & Hr). unfold buf_append, buf_reserve, strlen.
  assert (Hl : 0 <= vb_len b) by (unfold vb_len, strlen; lia).
  rewrite u32_small by (unfold is_u32; lia).
  assert (Hroom : forall c, 0 <= c -> room (mk_vbuf (vb_data b ++ bs) c []) n).
  { intros c ?. split; [done|]. cbn. split; [done|]. unfold vb_len, strlen in *. cbn.
    rewrite length_app. lia. }
  destruct (Z.leb_spec (vb_len b + Z.of_nat (length bs)) (vb_cap b)) as [?|Hbig].
  { cbn. rewrite Hm. auto. }
  destruct (buf_grow_ok 32 (if vb_cap b =? 0 then 128 else vb_cap b)
              (vb_len b + Z.of_nat (length bs))) as (c & -> & ? & ?).
  1,3: destruct (Z.eqb_spec (vb_cap b) 0); lia.
  { lia. }
  rewrite Hm. cbn. split; [done|]. apply Hroom. lia.
Qed.

Lemma puts_seq f g x y : puts f x -> puts g y -> puts (fun b => g (f b)) (x ++ y).
Proof.
  intros Hf Hg b n Hr. rewrite length_app in Hr.
  destruct (Hf b (length y + n)%nat) as [Hd Hr']; [by rewrite Nat.add_assoc|].
  destruct (Hg (f b) n Hr') as [Hd' Hr'']. split; [|done]. by rewrite Hd', Hd, app_assoc.
Qed.

Lemma puts_nil : puts (fun b => b) [].
Proof. intros b n Hr. split; [by rewrite app_nil_r|done]. Qed.

Lemma puts_u8 v : is_uint 1 v -> puts (vpp_buf_put_u8 v) (be_bytes 1 v).
Proof.
  intros Hv. rewrite <- u8_byte by done. unfold vpp_buf_put_u8.
  rewrite u8_small by (unfold is_uint in Hv; unfold is_byte; cbn in Hv; lia). apply puts_append.
Qed.

Lemma puts_u16 v : puts (vpp_buf_put_u16 v) (be_bytes 2 v).
Proof. rewrite be_bytes_2. apply puts_append. Qed.

Lemma puts_u32 v : puts (vpp_buf_put_u32 v) (be_bytes 4 v).
Proof. rewrite be_bytes_4. apply puts_append. Qed.

Lemma puts_bytes bs : puts (vpp_buf_put_bytes (Some bs)) bs.
Proof. destruct bs; [apply puts_nil|apply puts_append]. Qed.

Lemma puts_string s :
  (length s <= 255)%nat -> puts (vpp_buf_put_string (Some s)) (be_bytes 1 (strlen s) ++ s).
Proof.
  intros Hs. unfold vpp_buf_put_string. change (default [] (Some s)) with s.
  rewrite (take_ge s) by done. apply (puts_seq (vpp_buf_put_u8 (strlen s))); [|apply puts_bytes].
  apply puts_u8. unfold is_uint, strlen. cbn. lia.
Qed.

(** A fresh buffer and what it holds after [f]. *)
Lemma puts_init f bs cap :
  puts f bs -> 0 <= cap -> Z.of_nat (length bs) <= 2 ^ 31 ->
  vb_data (f (vpp_buf_init cap [])) = bs /\ vb_heap (f (vpp_buf_init cap [])) = [].
Proof.
  intros Hf Hc Hl. destruct (Hf (vpp_buf_init cap []) 0%nat) as [Hd [Hm _]]; [|done].
  unfold room, vpp_buf_init, vb_len, strlen. cbn. split_and!; [done|destruct (cap =? 0); lia|lia].
Qed.

Lemma puts_bit (c : bool) : puts (vpp_buf_put_u8 (b2z c)) (be_bytes 1 (b2z c)).
Proof. apply puts_u8. destruct c; unfold is_uint; cbn; lia. Qed.

Lemma puts_eq f x y : puts f x -> x = y -> puts f y.
Proof. by intros H <-. Qed.

Lemma puts_ext f g x : (forall b, g b = f b) -> puts f x -> puts g x.
Proof. intros Heq Hf b n. rewrite Heq. apply Hf. Qed.

#[global] Opaque puts.

Ltac puts_leaf :=
  lazymatch goal with
  | |- puts (vpp_buf_put_u32 _) _ => apply puts_u32
  | |- puts (vpp_buf_put_u16 _) _ => apply puts_u16
  | |- puts (vpp_buf_put_bytes (Some _)) _ => apply puts_bytes
  | |- puts (vpp_buf_put_u8 (b2z _)) _ => apply puts_bit
  | |- puts (vpp_buf_put_u8 _) _ => apply puts_u8; first [assumption | unfold is_uint; cbn; lia]
  | |- _ => solve [eauto with puts]
  end.

(** Split a chain of calls into the bytes each puts. *)
Ltac puts_chain :=
  lazymatch goal with
  | |- puts (fun b => b) _ => exact puts_nil
  | |- puts (fun b => ?g (@?f b)) _ => eapply (puts_seq f g); [puts_chain|puts_leaf]
  | |- _ => puts_leaf
  end.

Ltac solve_puts :=
  eapply puts_eq; [cbv zeta; puts_chain|]; rewrite ?app_nil_l, <- ?app_assoc.

(** ** Properties of the reader *)

(** The next bytes are [bs], all of them within the length. *)
Definition ahead (r : vpp_reader_t) (bs : bytes) : Prop :=
  (exists post, drop (Z.to_nat (vr_pos r)) (vr_p r) = bs ++ post) /\
  0 <= vr_pos r /\ vr_pos r + strlen bs <= vr_len r /\ vr_len r < 2 ^ 32.

(** [f] reads [bs] as [v] and leaves the rest ahead. *)
Definition reads_as {A} (f : vpp_reader_t -> A * vpp_reader_t) (bs : bytes) (v : A) : Prop :=
  forall r rest, ahead r (bs ++ rest) -> exists r', f r = (v, r') /\ ahead r' rest.

Lemma reader_ahead_init bs post len :
  strlen bs <= len < 2 ^ 32 -> ahead (vpp_reader_init (bs ++ post) len) bs.
Proof. intros [? ?]. repeat split; cbn; [by exists post|lia..]. Qed.

Lemma ahead_ok r bs : ahead r bs -> vpp_reader_ok r = true.
Proof. intros (_ & _ & ? & _). unfold strlen in *. apply Z.leb_le. lia. Qed.

Lemma take_reads bs : reads_as (rd_take (strlen bs)) bs (Some bs).
Proof.
  intros r rest ([post Hp] & Hpos & Hlen & Hmax). unfold rd_take, strlen in *.
  rewrite length_app in Hlen. rewrite u32_small by (unfold is_u32; lia).
  destruct (Z.ltb_spec (vr_len r) (vr_pos r + Z.of_nat (length bs))); [lia|].
  eexists. split.
  - rewrite cread_eq, Hp, <- app_assoc, Nat2Z.id, take_app_length. reflexivity.
  - unfold ahead, strlen. cbn. repeat split; [|lia..]. exists post.
    rewrite Z2Nat.inj_add, Nat2Z.id, <- drop_drop, Hp, <- app_assoc, drop_app_length by lia. done.
Qed.

Lemma word_reads w v :
  is_uint w v ->
  reads_as (fun r => let '(t, r) := rd_take (Z.of_nat w) r in (be_val (default (replicate w 0) t), r))
    (be_bytes w v) v.
Proof.
  intros Hv r rest Ha. destruct (take_reads _ _ _ Ha) as (r' & Hr & Ha').
  unfold strlen in Hr. rewrite length_be_bytes in Hr. rewrite Hr.
  exists r'. split; [|done]. cbn. by rewrite be_val_be_bytes.
Qed.

Lemma u8_reads v : is_uint 1 v -> reads_as vpp_rd_u8 (be_bytes 1 v) v.
Proof. exact (word_reads 1 v). Qed.

Lemma u16_reads v : is_uint 2 v -> reads_as vpp_rd_u16 (be_bytes 2 v) v.
Proof. exact (word_reads 2 v). Qed.

Lemma u32_reads v : is_uint 4 v -> reads_as vpp_rd_u32 (be_bytes 4 v) v.
Proof. exact (word_reads 4 v). Qed.

Lemma bytes_reads bs n : strlen bs = n -> reads_as (vpp_rd_bytes n) bs (Some bs).
Proof. intros <-. apply take_reads. Qed.

Lemma reads_ret {A} (v : A) : reads_as (fun r => (v, r)) [] v.
Proof. intros r rest Ha. eauto. Qed.

Lemma reads_bind {A B} (f : vpp_reader_t -> A * vpp_reader_t) (g : A -> vpp_reader_t -> B * vpp_reader_t)
    x y v w :
  reads_as f x v -> reads_as (g v) y w ->
  reads_as (fun r => let '(a, r) := f r in g a r) (x ++ y) w.
Proof.
  intros Hf Hg r rest Ha. rewrite <- app_assoc in Ha.
  destruct (Hf r _ Ha) as (r1 & -> & Ha1). exact (Hg r1 rest Ha1).
Qed.

Lemma reads_last {A B} (f : vpp_reader_t -> A * vpp_reader_t) (h : A -> B) x v :
  reads_as f x v -> reads_as (fun r => let '(a, r) := f r in (h a, r)) x (h v).
Proof.
  intros Hf r rest Ha. destruct (Hf r rest Ha) as (r1 & -> & Ha1). eauto.
Qed.

Lemma reads_init {A} (f : vpp_reader_t -> A * vpp_reader_t) bs post v len :
  reads_as f bs v -> strlen bs <= len < 2 ^ 32 ->
  exists r, f (vpp_reader_init (bs ++ post) len) = (v, r) /\ vpp_reader_ok r = true.
Proof.
  intros Hf Hl. destruct (Hf (vpp_reader_init (bs ++ post) len) []) as (r & Hr & Hok).
  { rewrite app_nil_r. by apply reader_ahead_init. }
  exists r. split; [done|by eapply ahead_ok].
Qed.

Lemma reads_run {A} (f : vpp_reader_t -> A * vpp_reader_t) bs v r rest :
  reads_as f bs v -> ahead r (bs ++ rest) -> exists r', f r = (v, r') /\ ahead r' rest.
Proof. intros Hf Ha. exact (Hf r rest Ha). Qed.

#[global] Opaque reads_as.

Ltac reads_leaf :=
  lazymatch goal with
  | |- reads_as vpp_rd_u32 _ _ => apply u32_reads; first [assumption | vm_compute; intuition congruence]
  | |- reads_as vpp_rd_u16 _ _ => apply u16_reads; first [assumption | vm_compute; intuition congruence]
  | |- reads_as vpp_rd_u8 _ _ => apply u8_reads; first [assumption | vm_compute; intuition congruence]
  | |- reads_as (vpp_rd_bytes _) _ _ => apply bytes_reads; assumption
  end.

(** Read the fields of a message one after the other. *)
Ltac reads_chain := repeat (eapply reads_bind; [solve [reads_leaf]|cbv beta]).

(** ** Properties of the framing *)

(** Receive [n] frames, one after the other. *)
Fixpoint recv_frames (n : nat) (buf_size : Z) (stream : bytes) : list (option bytes) * bytes :=
  match n with
  | O => ([], stream)
  | S n =>
      let '(f, stream) := vpp_wire_recv buf_size stream in
      let '(fs, stream) := recv_frames n buf_size stream in
      (f :: fs, stream)
  end.

(** The payload of a frame: the identifier and the body. *)
Definition payload (m : Z * bytes) : bytes := be_bytes 2 (fst m) ++ snd m.

Definition fits (buf_size : Z) (m : Z * bytes) : Prop := 2 + strlen (snd m) <= buf_size.

Lemma msgbuf_header_eq n : msgbuf_header n = zeros 8 ++ be_bytes 4 n ++ zeros 4.
Proof. unfold msgbuf_header. by rewrite be_bytes_4. Qed.

(** A payload in its frame. *)
Definition frame (p : bytes) : bytes := msgbuf_header (strlen p) ++ p.

Lemma recv_payload buf_size p rest :
  4 <= buf_size < 2 ^ 31 -> 0 < strlen p <= buf_size ->
  vpp_wire_recv buf_size (frame p ++ rest) = (Some p, rest).
Proof.
  unfold frame, strlen. intros Hbuf Hfit. rewrite msgbuf_header_eq. unfold vpp_wire_recv.
  rewrite <- !app_assoc. destruct (Z.ltb_spec buf_size 4); [lia|].
  set (hdr := zeros 8 ++ _). assert (Hdrop : drop 16 hdr = p ++ rest).
  { subst hdr. rewrite !app_assoc. rewrite <- (app_assoc _ p).
    apply drop_app_length'. by rewrite !length_app, !length_zeros, length_be_bytes. }
  rewrite Hdrop. replace (length hdr <? 16)%nat with false.
  2: { symmetry. apply Nat.ltb_ge. subst hdr.
       rewrite !length_app, !length_zeros, length_be_bytes. lia. }
  replace (cread hdr 8 4) with (be_bytes 4 (Z.of_nat (length p))).
  2: { subst hdr. rewrite (cread_skip (zeros 8)) by (rewrite length_zeros; lia).
       rewrite length_zeros. by rewrite cread_here by apply length_be_bytes. }
  rewrite be_val_be_bytes by (cbn; lia).
  rewrite (proj2 (Z.eqb_neq _ 0)), (proj2 (Z.ltb_ge buf_size _)) by lia.
  rewrite length_app, (proj2 (Z.ltb_ge _ _)) by lia. cbn.
  by rewrite Nat2Z.id, take_app_length, drop_app_length.
Qed.

Lemma send_payload id body :
  2 + strlen body < 2 ^ 31 -> vpp_wire_send id body = Some (frame (payload (id, body))).
Proof.
  intros Hlen. unfold vpp_wire_send, strlen in *. rewrite u32_small by (unfold is_u32; lia).
  destruct (Z.ltb_spec (4294967295 - 16) (2 + Z.of_nat (length body))); [lia|].
  rewrite <- be_bytes_2. unfold frame, payload, strlen. cbn [fst snd].
  rewrite length_app, length_be_bytes. by rewrite Nat2Z.inj_add.
Qed.

(** Frames sent back to back on the VPP API socket are received one by one:
    for any sequence of messages that fit the receive buffer, every send
    produces a frame, and reading the concatenated stream yields each
    identifier and body in order and leaves nothing behind. *)
Theorem vpp_frames_roundtrip buf_size ms :
  4 <= buf_size < 2 ^ 31 -> Forall (fits buf_size) ms ->
  exists frames,
    mapM (fun m => vpp_wire_send (fst m) (snd m)) ms = Some frames /\
    recv_frames (length ms) buf_size (concat frames) = (Some ∘ payload <$> ms, []).
Proof.
  intros Hbuf Hfit. induction Hfit as [|m ms Hm _ (frames & Hsend & Hrecv)].
  { by exists []. }
  destruct m as [id body]. unfold fits in Hm. cbn [fst snd] in Hm.
  exists (frame (payload (id, body)) :: frames). split.
  - cbn. rewrite send_payload by lia. cbn. by rewrite Hsend.
  - cbn [length recv_frames concat]. rewrite recv_payload; [by rewrite Hrecv|done|].
    unfold payload, strlen in *. cbn [fst snd]. rewrite length_app, length_be_bytes. lia.
Qed.

Lemma vpp_frames_roundtrip_witness :
  recv_frames 2 64 (concat (default [] (mapM (fun m => vpp_wire_send (fst m) (snd m))
    [(15, [1; 2; 3]); (700, [])]))) = ([Some [0; 15; 1; 2; 3]; Some [2; 188]], []).
Proof.
  destruct (vpp_frames_roundtrip 64 [(15, [1; 2; 3]); (700, [])]) as (fs & -> & H).
  - lia.
  - repeat constructor; unfold fits, strlen; cbn; lia.
  - exact H.
Defined.

(** ** Properties of the message table *)

Definition adv (i d : nat) : nat := ((i + d) mod VPP_MSG_TABLE_SIZE)%nat.

Lemma next_slot_adv i : next_slot i = adv i 1.
Proof.
  unfold next_slot, adv. change (Z.of_nat VPP_MSG_TABLE_SIZE - 1) with (Z.ones 12).
  rewrite Z.land_ones by lia. change (2 ^ 12) with (Z.of_nat VPP_MSG_TABLE_SIZE).
  change 1 with (Z.of_nat 1). rewrite <- Nat2Z.inj_add, <- Nat2Z.inj_mod, Nat2Z.id. done.
Qed.

Lemma adv_adv i d e : adv (adv i d) e = adv i (d + e).
Proof. unfold adv. by rewrite Nat.Div0.add_mod_idemp_l, Nat.add_assoc. Qed.

Lemma adv_lt i d : (adv i d < VPP_MSG_TABLE_SIZE)%nat.
Proof. apply Nat.mod_upper_bound. discriminate. Qed.

Lemma adv_0 i : (i < VPP_MSG_TABLE_SIZE)%nat -> adv i 0 = i.
Proof. intros. unfold adv. rewrite Nat.add_0_r. by apply Nat.mod_small. Qed.

(** Every slot is some distance ahead of every other. *)
Lemma adv_reaches i j :
  (i < VPP_MSG_TABLE_SIZE)%nat -> (j < VPP_MSG_TABLE_SIZE)%nat ->
  exists d, (d < VPP_MSG_TABLE_SIZE)%nat /\ adv i d = j.
Proof.
  intros Hi Hj. set (N := VPP_MSG_TABLE_SIZE) in *. destruct (decide (i <= j)%nat).
  - exists (j - i)%nat. split; [lia|]. unfold adv. fold N.
    replace (i + (j - i))%nat with j by lia. by apply Nat.mod_small.
  - exists (N - i + j)%nat. split; [lia|]. unfold adv. fold N.
    replace (i + (N - i + j))%nat with (j + 1 * N)%nat by lia.
    rewrite Nat.Div0.mod_add. by apply Nat.mod_small.
Qed.

Lemma table_slot_lt name : (table_slot name < VPP_MSG_TABLE_SIZE)%nat.
Proof.
  unfold table_slot. change (Z.of_nat VPP_MSG_TABLE_SIZE - 1) with (Z.ones 12).
  rewrite Z.land_ones by lia. apply Nat2Z.inj_lt.
  rewrite Z2Nat.id by (apply Z.mod_pos_bound; lia). by apply Z.mod_pos_bound.
Qed.

Section Probe.
  Implicit Types (es : list vpp_msg_table_entry_t) (e : vpp_msg_table_entry_t).

(** Where probing stops, the slot is free or holds the name. *)
Lemma probe_stops n name i es j :
  probe n name i es = Some j ->
  exists e, es !! j = Some e /\ (mt_used e = true -> mt_name e = name).
Proof.
  revert i. induction n as [|n IH]; intros i; cbn [probe]; [done|].
  destruct (es !! i) as [e|] eqn:He; [|done].
  destruct (negb (mt_used e) || _) eqn:Hstop; [|apply IH].
  intros [= <-]. exists e. split; [done|]. intros Hu. rewrite Hu in Hstop. cbn in Hstop.
  by apply bool_decide_eq_true in Hstop.
Qed.

(** Writing a slot in use by another name does not change where a probe stops. *)
Lemma probe_insert_ne n name i es j k e :
  probe n name i es = Some j -> j <> k -> mt_used e = true -> mt_name e <> name ->
  probe n name i (<[k := e]> es) = Some j.
Proof.
  intros Hp Hjk Hu Hn. revert i Hp. induction n as [|n IH]; intros i; cbn [probe]; [done|].
  destruct (es !! i) as [e0|] eqn:He0; [|done]. destruct (decide (i = k)) as [->|Hik].
  - rewrite list_lookup_insert_eq by (by eapply lookup_lt_Some).
    rewrite Hu, (bool_decide_eq_false_2 _ Hn). cbn.
    destruct (negb _ || _); [congruence|apply IH].
  - rewrite list_lookup_insert_ne, He0 by done. destruct (negb _ || _); [done|apply IH].
Qed.

Lemma probe_insert_eq n name i es k e :
  probe n name i es = Some k -> mt_name e = name -> probe n name i (<[k := e]> es) = Some k.
Proof.
  intros Hp Hn. revert i Hp. induction n as [|n IH]; intros i; cbn [probe]; [done|].
  destruct (es !! i) as [e0|] eqn:He0; [|done]. destruct (decide (i = k)) as [->|Hik].
  - intros _. rewrite list_lookup_insert_eq by (by eapply lookup_lt_Some).
    by rewrite (bool_decide_eq_true_2 _ Hn), orb_true_r.
  - rewrite list_lookup_insert_ne, He0 by done. destruct (negb _ || _); [congruence|apply IH].
Qed.

(** A probe that finds nowhere to stop has seen [n] slots in use by other names. *)
Lemma probe_None n name i es d :
  length es = VPP_MSG_TABLE_SIZE -> (i < VPP_MSG_TABLE_SIZE)%nat ->
  probe n name i es = None -> (d < n)%nat ->
  exists e, es !! adv i d = Some e /\ mt_used e = true /\ mt_name e <> name.
Proof.
  intros Hlen. revert i d. induction n as [|n IH]; intros i d Hi Hp Hd; [lia|].
  cbn [probe] in Hp. destruct (lookup_lt_is_Some_2 es i) as [e He]; [lia|]. rewrite He in Hp.
  destruct (negb (mt_used e) || _) eqn:Hstop; [done|]. apply orb_false_iff in Hstop.
  destruct Hstop as [Hu Hn]. apply negb_false_iff in Hu. apply bool_decide_eq_false in Hn.
  destruct d as [|d]; [rewrite adv_0 by done; eauto|].
  rewrite next_slot_adv in Hp. change (S d) with (1 + d)%nat. rewrite <- adv_adv. apply IH; [apply adv_lt|done|lia].
Qed.
End Probe.

Opaque VPP_MSG_TABLE_SIZE.

(** Every name in use is found where it is. *)
Definition table_ok (t : vpp_msg_table_t) : Prop :=
  length (mt_entries t) = VPP_MSG_TABLE_SIZE /\
  forall j e, mt_entries t !! j = Some e -> mt_used e = true ->
    probe VPP_MSG_TABLE_SIZE (mt_name e) (table_slot (mt_name e)) (mt_entries t) = Some j.

(** [m] is the map the table implements. *)
Definition table_rel (t : vpp_msg_table_t) (m : gmap bytes Z) : Prop :=
  table_ok t /\ mt_count t = Z.of_nat (size m) /\
  forall name, vpp_msg_table_lookup t name = m !! name.

Lemma lookup_spec t name id :
  table_ok t ->
  vpp_msg_table_lookup t name = Some id <->
  exists j e, mt_entries t !! j = Some e /\ mt_used e = true /\ mt_name e = name /\ mt_msg_id e = id.
Proof.
  intros [Hlen Hok]. unfold vpp_msg_table_lookup. split.
  - destruct (probe _ _ _ _) as [j|] eqn:Hp; [|done]. cbn.
    destruct (probe_stops _ _ _ _ _ Hp) as (e & He & Hn). rewrite He. cbn.
    destruct (mt_used e) eqn:Hu; [|done]. intros [= <-]. exists j, e. auto.
  - intros (j & e & He & Hu & <- & <-). rewrite (Hok j e He Hu). cbn. rewrite He. cbn. by rewrite Hu.
Qed.

(** A full table has as many names as slots. *)
Lemma table_full (t : vpp_msg_table_t) (m : gmap bytes Z) (name : bytes) :
  table_rel t m ->
  probe VPP_MSG_TABLE_SIZE name (table_slot name) (mt_entries t) = None ->
  m !! name = None /\ (VPP_MSG_TABLE_SIZE <= size m)%nat.
Proof.
  intros ([Hlen Hok] & _ & Hlook) Hp.
  assert (Hall : forall j e, mt_entries t !! j = Some e -> mt_used e = true).
  { intros j e He. destruct (adv_reaches (table_slot name) j) as (d & Hd & Hadv);
      [apply table_slot_lt|rewrite <- Hlen; by eapply lookup_lt_Some|].
    destruct (probe_None _ _ _ _ d Hlen (table_slot_lt name) Hp Hd) as (e' & He' & Hu & _).
    rewrite Hadv in He'. congruence. }
  split; [rewrite <- Hlook; unfold vpp_msg_table_lookup; by rewrite Hp|].
  assert (Hnd : NoDup (mt_name <$> mt_entries t)).
  { apply NoDup_alt. intros i j x. rewrite !list_lookup_fmap.
    destruct (mt_entries t !! i) as [a|] eqn:Hi, (mt_entries t !! j) as [b|] eqn:Hj; try done.
    cbn. intros [= <-] [= Heq]. apply (Hall i a) in Hi as Ha. apply (Hall j b) in Hj as Hb.
    apply (Hok i a Hi) in Ha. apply (Hok j b Hj) in Hb. rewrite Heq in Hb. congruence. }
  rewrite <- Hlen, <- (length_fmap mt_name), <- (size_list_to_set (C := gset bytes)), <- size_dom by done.
  apply subseteq_size. intros x. rewrite elem_of_list_to_set, list_elem_of_fmap.
  intros (e & -> & Hin). apply list_elem_of_lookup in Hin as [j Hj].
  apply elem_of_dom. rewrite <- Hlook. eexists. apply lookup_spec; [done|].
  exists j, e. eauto.
Qed.

(** A name that fits an entry. *)
Definition fits_entry (name : bytes) : Prop :=
  name <> [] /\ (length name < VPP_MSG_NAME_SIZE)%nat.

#[global] Instance fits_entry_dec name : Decision (fits_entry name) := _.

(** The table after writing the slot where the probe for [name] stops. *)
Lemma write_slot t k name id count :
  table_ok t -> probe VPP_MSG_TABLE_SIZE name (table_slot name) (mt_entries t) = Some k ->
  let t' := mk_mtable (<[k := mk_mentry name id true]> (mt_entries t)) count in
  table_ok t' /\ forall n, vpp_msg_table_lookup t' n =
                   if decide (name = n) then Some id else vpp_msg_table_lookup t n.
Proof.
  intros [Hlen Hok] Hp t'.
  destruct (probe_stops _ _ _ _ _ Hp) as (e0 & He0 & Hn0).
  assert (Hk : (k < length (mt_entries t))%nat) by (by eapply lookup_lt_Some).
  assert (Hother : forall j e, mt_entries t !! j = Some e -> mt_used e = true -> j <> k ->
            mt_name e <> name).
  { intros j e He Hu Hjk Heq. pose proof (Hok j e He Hu) as Hp'. rewrite Heq in Hp'. congruence. }
  assert (Hok' : table_ok t').
  { split; [cbn; by rewrite length_insert|]. cbn. intros j e. rewrite list_lookup_insert_Some.
    intros [(<- & <- & _)|(Hjk & He)] Hu; [by apply probe_insert_eq|].
    apply probe_insert_ne; [by apply Hok|done..|]. cbn. apply not_eq_sym. by apply (Hother j). }
  split; [done|]. intros n. apply option_eq. intros v. rewrite (lookup_spec _ _ _ Hok').
  subst t'; cbn. split.
  - intros (j & e & He & Hu & <- & <-). apply list_lookup_insert_Some in He.
    destruct He as [(<- & <- & _)|(Hjk & He)]; cbn; [by rewrite decide_True|].
    rewrite decide_False by (apply not_eq_sym; by apply (Hother j)). apply lookup_spec; [by split|]. eauto 6.
  - destruct (decide (name = n)) as [<-|Hne].
    + intros [= <-]. exists k, (mk_mentry name id true). by rewrite list_lookup_insert_eq.
    + intros Hl. apply lookup_spec in Hl; [|by split].
      destruct Hl as (j & e & He & Hu & Hn & Hi). exists j, e.
      rewrite list_lookup_insert_ne; [done|]. intros ->. rewrite He in He0.
      injection He0 as <-. apply Hne. rewrite <- Hn. symmetry. auto.
Qed.

(** Any addition of a name that fits keeps the table well formed. *)
Lemma add_keeps_ok t name id :
  (length name < VPP_MSG_NAME_SIZE)%nat -> table_ok t ->
  table_ok (snd (vpp_msg_table_add t (Some name) id)).
Proof.
  intros Hshort Hok. unfold vpp_msg_table_add. destruct name as [|c s]; [done|].
  set (name := c :: s) in *.
  destruct (probe VPP_MSG_TABLE_SIZE name (table_slot name) (mt_entries t)) as [k|] eqn:Hp; [|done].
  destruct (probe_stops _ _ _ _ _ Hp) as (e & He & Hn). rewrite He.
  rewrite (take_ge name) by (unfold VPP_MSG_NAME_SIZE in *; lia).
  destruct (mt_used e) eqn:Hu; cbn [negb snd]; [rewrite (Hn eq_refl)|]; by apply write_slot.
Qed.

Lemma table_add (t : vpp_msg_table_t) (m : gmap bytes Z) (name : bytes) (id : Z) :
  table_rel t m -> fits_entry name -> is_u16 id -> (size (<[name := id]> m) <= VPP_MSG_TABLE_SIZE)%nat ->
  exists t', vpp_msg_table_add t (Some name) id = (true, t') /\ table_rel t' (<[name := id]> m).
Proof.
  intros Hrel [Hne Hshort] Hid Hsize. pose proof Hrel as (Hok & Hcount & Hlook).
  assert (Hcap : Z.of_nat VPP_MSG_TABLE_SIZE = 4096) by reflexivity.
  destruct (probe VPP_MSG_TABLE_SIZE name (table_slot name) (mt_entries t)) as [k|] eqn:Hp.
  2: { destruct (table_full t m name Hrel Hp) as [Hnone Hfull].
       rewrite map_size_insert_None in Hsize by done. lia. }
  destruct (probe_stops _ _ _ _ _ Hp) as (e & He & Hn).
  assert (Hu16 : u16 id = id) by (by apply Z.mod_small).
  unfold vpp_msg_table_add. destruct name as [|c s]; [done|]. set (name := c :: s) in *.
  rewrite Hp, He, Hu16. rewrite (take_ge name) by (unfold VPP_MSG_NAME_SIZE in *; lia).
  assert (Hm : m !! name = if mt_used e then Some (mt_msg_id e) else None).
  { rewrite <- Hlook. unfold vpp_msg_table_lookup. rewrite Hp. cbn. by rewrite He. }
  destruct (mt_used e) eqn:Hu; cbn [negb]; (eexists; split; [done|]).
  - rewrite (Hn eq_refl). destruct (write_slot t k name id (mt_count t) Hok Hp) as [Hok' Hl].
    split; [done|]. split; [cbn; by rewrite Hcount, map_size_insert_Some by eauto|].
    intros n. by rewrite Hl, lookup_insert, Hlook.
  - rewrite map_size_insert_None in Hsize by done.
    destruct (write_slot t k name id (u32 (mt_count t + 1)) Hok Hp) as [Hok' Hl].
    split; [done|]. split.
    + cbn. rewrite Hcount, map_size_insert_None by done.
      rewrite u32_small by (unfold is_u32; lia). lia.
    + intros n. by rewrite Hl, lookup_insert, Hlook.
Qed.

(** The additions a handshake reply makes, and the map they describe. *)
Definition add_all (ops : list (bytes * Z)) : list bool * vpp_msg_table_t :=
  foldl (fun '(bs, t) '(name, id) =>
           let '(b, t) := vpp_msg_table_add t (Some name) id in (bs ++ [b], t))
    ([], vpp_msg_table_init) ops.

Definition add_map (ops : list (bytes * Z)) : gmap bytes Z :=
  foldl (fun m '(name, id) => <[name := id]> m) ∅ ops.

Lemma init_rel : table_rel vpp_msg_table_init ∅.
Proof.
  assert (Hfree : forall j e, mt_entries vpp_msg_table_init !! j = Some e -> mt_used e = false).
  { intros j e He. apply lookup_replicate in He. destruct He as [-> _]. done. }
  assert (Hok : table_ok vpp_msg_table_init).
  { split; [apply length_replicate|]. intros j e He Hu. by rewrite (Hfree _ _ He) in Hu. }
  split; [done|]. split; [done|]. intros name. rewrite lookup_empty.
  apply eq_None_not_Some. intros [id Hid]. apply (lookup_spec _ _ _ Hok) in Hid.
  destruct Hid as (j & e & He & Hu & _). by rewrite (Hfree _ _ He) in Hu.
Qed.

Lemma add_map_snoc ops name id : add_map (ops ++ [(name, id)]) = <[name := id]> (add_map ops).
Proof. unfold add_map. by rewrite foldl_app. Qed.

Lemma add_all_snoc ops name id :
  add_all (ops ++ [(name, id)]) =
    let '(bs, t) := add_all ops in
    let '(b, t) := vpp_msg_table_add t (Some name) id in (bs ++ [b], t).
Proof. unfold add_all. rewrite foldl_app. cbn. by destruct (foldl _ _ _). Qed.

Lemma add_all_rel ops :
  Forall (fun op => fits_entry (fst op) /\ is_u16 (snd op)) ops ->
  (size (add_map ops) <= VPP_MSG_TABLE_SIZE)%nat ->
  let '(bs, t) := add_all ops in
  Forall (fun b => b = true) bs /\ table_rel t (add_map ops).
Proof.
  intros Hops Hsize.
  induction ops as [|[name id] ops IH] using rev_ind; [split; [constructor|apply init_rel]|].
  apply Forall_app in Hops as [Hops Hop]. inversion Hop as [|? ? [Hname Hid] _]; subst.
  rewrite add_map_snoc in *. rewrite add_all_snoc. cbn [fst snd] in Hname, Hid.
  assert ((size (add_map ops) <= size (<[name := id]> (add_map ops)))%nat).
  { rewrite map_size_insert. destruct (add_map ops !! name); cbn; lia. }
  destruct (add_all ops) as [bs t]. destruct IH as [Hbs Hrel]; [done|lia|].
  destruct (table_add t (add_map ops) name id Hrel Hname Hid Hsize) as (t' & -> & Hrel').
  split; [|done]. apply Forall_app. split; [done|]. by repeat constructor.
Qed.

(** C40. The message table is a map from names to identifiers: as long as no
    more than 4096 distinct names of at most 71 bytes are added, every
    addition succeeds, a later addition of a name replaces the earlier one, and
    a look-up by linear probing gives exactly what the map holds, also for
    names whose hashes collide; the counter is the number of names. *)
Theorem vpp_msg_table_refines_map ops :
  Forall (fun op => fits_entry (fst op) /\ is_u16 (snd op)) ops ->
  (size (add_map ops) <= VPP_MSG_TABLE_SIZE)%nat ->
  let '(bs, t) := add_all ops in
  Forall (fun b => b = true) bs /\ mt_count t = Z.of_nat (size (add_map ops)) /\
  forall name, vpp_msg_table_lookup t name = add_map ops !! name.
Proof.
  intros Hops Hsize. pose proof (add_all_rel ops Hops Hsize) as Hrel.
  destruct (add_all ops). destruct Hrel as (? & _ & ? & ?). done.
Qed.

Lemma vpp_msg_table_refines_map_witness :
  let ops := [(lit "control_ping", 22); (lit "show_version", 30); (lit "control_ping", 41)] in
  vpp_msg_table_lookup (snd (add_all ops)) (lit "control_ping") = Some 41.
Proof.
  cbv zeta. set (ops := [_; _; _]).
  pose proof (vpp_msg_table_refines_map ops) as H.
  destruct (add_all ops) as [bs t]. destruct H as (_ & _ & H).
  - apply (bool_decide_unpack _). vm_compute. exact I.
  - apply (bool_decide_unpack _). vm_compute. exact I.
  - cbn [snd]. rewrite H. reflexivity.
Defined.

(** A name longer than an entry is stored cut and never found again. *)
Lemma long_name_lost :
  let name := replicate 72 97 in
  let '(b, t) := vpp_msg_table_add vpp_msg_table_init (Some name) 7 in
  b = true /\ vpp_msg_table_lookup t name = None.
Proof. vm_compute. done. Qed.
