(* ===== verification/VppMsgs.v ===== *)
(** * VPP API messages: danos-vpp vpp_msgs.h / vpp_msgs.c

    The encoders of the requests the backend makes.  An encoder gives the
    bytes it wrote to its output buffer, [None] for [-1], and the allocator's
    answers that are left. *)

From stdpp Require Import base decidable list numbers strings.
From Stdlib Require Import ZArith Lia.
From S2P Require Import Prelude CStr VppWire.

(** ** Data *)

Record vpp_ip_t := mk_vip {
  vip_is_ipv6 : bool;
  vip_addr : bytes;           (* uint8_t addr[16] *)
}.

Record vpp_prefix_t := mk_vprefix {
  vp_addr : vpp_ip_t;
  vp_len : Z;
}.

Definition FIB_PATH_MAX_LABELS : nat := 16.
Definition FIB_MPLS_LABEL_SIZE : nat := 7.
Definition FIB_PATH_NH_SIZE : nat := 28.
Definition FIB_PATH_SIZE : nat :=
  4 + 4 + 4 + 1 + 1 + 4 + 4 + 4 + FIB_PATH_NH_SIZE + 1 + FIB_PATH_MAX_LABELS * FIB_MPLS_LABEL_SIZE.

Definition FIB_PATH_TYPE_API_NORMAL : Z := 0.
Definition FIB_PATH_FLAG_API_RESOLVE_VIA_ATTACHED : Z := 1.
Definition FIB_PATH_NH_PROTO_API_IP4 : Z := 0.
Definition FIB_PATH_NH_PROTO_API_IP6 : Z := 1.

(** The bytes of the address that count. *)
Definition addr_size (a : vpp_ip_t) : nat := if vip_is_ipv6 a then 16 else 4.

(** [uint8_t un[16] = {0}; memcpy(un, a->addr, n)]. *)
Definition addr_union (a : vpp_ip_t) : bytes := cwrite (zeros 16) 0 (take (addr_size a) (vip_addr a)).

(** ** Encoders *)

Definition encode_address (a : vpp_ip_t) (b : vpp_buf_t) : vpp_buf_t :=
  let b := vpp_buf_put_u8 (if vip_is_ipv6 a then 1 else 0) b in
  vpp_buf_put_bytes (Some (addr_union a)) b.

Definition encode_prefix (p : vpp_prefix_t) (b : vpp_buf_t) : vpp_buf_t :=
  let b := encode_address (vp_addr p) b in
  vpp_buf_put_u8 (vp_len p) b.

(** No next hop, or one whose address is all zero. *)
Definition path_attached (nh : option vpp_ip_t) : bool :=
  match nh with
  | None => true
  | Some a => forallb (fun c => c =? 0) (take (addr_size a) (vip_addr a))
  end.

Definition encode_fib_path (sw_if_index table_id : Z) (nh : option vpp_ip_t) (b : vpp_buf_t)
    : vpp_buf_t :=
  let nhbuf := match nh with Some a => addr_union a | None => zeros 16 end in
  let b := vpp_buf_put_u32 sw_if_index b in
  let b := vpp_buf_put_u32 table_id b in
  let b := vpp_buf_put_u32 0 b in
  let b := vpp_buf_put_u8 1 b in
  let b := vpp_buf_put_u8 0 b in
  let b := vpp_buf_put_u32 FIB_PATH_TYPE_API_NORMAL b in
  let b := vpp_buf_put_u32 (if path_attached nh then FIB_PATH_FLAG_API_RESOLVE_VIA_ATTACHED else 0) b in
  let b := vpp_buf_put_u32
             (match nh with
              | Some a => if vip_is_ipv6 a then FIB_PATH_NH_PROTO_API_IP6 else FIB_PATH_NH_PROTO_API_IP4
              | None => FIB_PATH_NH_PROTO_API_IP4
              end) b in
  let b := vpp_buf_put_bytes (Some nhbuf) b in
  let b := vpp_buf_put_bytes (Some (zeros 12)) b in
  let b := vpp_buf_put_u8 0 b in
  vpp_buf_put_bytes (Some (zeros (FIB_PATH_MAX_LABELS * FIB_MPLS_LABEL_SIZE))) b.

(** The end of most encoders: copy out when it fits. *)
Definition encode_out (out_size : Z) (b : vpp_buf_t) : option bytes * heap :=
  (if vb_len b <=? out_size then Some (vb_data b) else None, vb_heap b).

Definition vpp_encode_fib_path (out_size sw_if_index table_id : Z) (nh : option vpp_ip_t) (m : heap)
    : option bytes * heap :=
  if out_size <? Z.of_nat FIB_PATH_SIZE then (None, m) else
  let b := encode_fib_path sw_if_index table_id nh (vpp_buf_init (Z.of_nat FIB_PATH_SIZE) m) in
  let n := if vb_len b <? out_size then vb_len b else out_size in
  (Some (take (Z.to_nat n) (vb_data b)), vb_heap b).

(** The path loop; [paths] pairs [nh_ifs[i]] with [nhs[i]]. *)
Fixpoint encode_paths (table_id : Z) (paths : list (Z * vpp_ip_t)) (b : vpp_buf_t) : vpp_buf_t :=
  match paths with
  | [] => b
  | (i, nh) :: paths => encode_paths table_id paths (encode_fib_path i table_id (Some nh) b)
  end.

(** [n_paths] is the length of [paths]. *)
Definition vpp_encode_ip_route_add_del (is_add table_id : Z) (prefix : vpp_prefix_t)
    (paths : list (Z * vpp_ip_t)) (out_size : Z) (m : heap) : option bytes * heap :=
  if (length paths =? 0)%nat || (64 <? length paths)%nat then (None, m) else
  let b := vpp_buf_init 128 m in
  let b := vpp_buf_put_u8 is_add b in
  let b := vpp_buf_put_u8 0 b in
  let b := vpp_buf_put_u32 table_id b in
  let b := vpp_buf_put_u32 0 b in
  let b := encode_prefix prefix b in
  let b := vpp_buf_put_u8 (u8 (Z.of_nat (length paths))) b in
  let b := encode_paths table_id paths b in
  encode_out out_size b.

Definition vpp_encode_ip_table_add_del (is_add table_id : Z) (is_ip6 : bool) (name : option bytes)
    (out_size : Z) (m : heap) : option bytes * heap :=
  let b := vpp_buf_init 96 m in
  let b := vpp_buf_put_u8 is_add b in
  let b := vpp_buf_put_u32 table_id b in
  let b := vpp_buf_put_u8 (b2z is_ip6) b in
  let b := vpp_buf_put_string (Some (default [] name)) b in
  encode_out out_size b.

Definition vpp_encode_sw_interface_set_flags (sw_if_index : Z) (admin_up : bool)
    (out_size : Z) (m : heap) : option bytes * heap :=
  if out_size <? 8 then (None, m) else
  let b := vpp_buf_init 8 m in
  let b := vpp_buf_put_u32 sw_if_index b in
  let b := vpp_buf_put_u32 (b2z admin_up) b in
  (Some (vb_data b), vb_heap b).

Definition vpp_encode_sw_interface_add_del_address (sw_if_index : Z) (is_add : bool)
    (prefix : vpp_prefix_t) (out_size : Z) (m : heap) : option bytes * heap :=
  if (vip_is_ipv6 (vp_addr prefix) && (128 <? vp_len prefix)) ||
     (negb (vip_is_ipv6 (vp_addr prefix)) && (32 <? vp_len prefix)) || (out_size <? 24)
  then (None, m) else
  let b := vpp_buf_init 32 m in
  let b := vpp_buf_put_u32 sw_if_index b in
  let b := vpp_buf_put_u8 (b2z is_add) b in
  let b := vpp_buf_put_u8 0 b in
  let b := encode_address (vp_addr prefix) b in
  let b := vpp_buf_put_u8 (vp_len prefix) b in
  if out_size <? vb_len b then (None, vb_heap b) else (Some (vb_data b), vb_heap b).

Definition vpp_encode_ip_neighbor_add_del (is_add sw_if_index : Z) (mac : bytes) (ip : vpp_ip_t)
    (out_size : Z) (m : heap) : option bytes * heap :=
  let b := vpp_buf_init 64 m in
  let b := vpp_buf_put_u8 is_add b in
  let b := vpp_buf_put_u8 0 b in
  let b := vpp_buf_put_u32 sw_if_index b in
  let b := vpp_buf_put_u8 0 b in
  let b := vpp_buf_put_bytes (Some mac) b in
  let b := encode_address ip b in
  encode_out out_size b.

Definition SSE2_QOS_RATE_API_KBPS : Z := 0.
Definition SSE2_QOS_ROUND_API_TO_CLOSEST : Z := 0.
Definition SSE2_QOS_POLICER_TYPE_API_1R2C : Z := 0.
Definition SSE2_QOS_POLICER_TYPE_API_2R3C_RFC_2698 : Z := 2.
Definition SSE2_QOS_ACTION_API_DROP : Z := 0.
Definition SSE2_QOS_ACTION_API_TRANSMIT : Z := 1.
Definition SSE2_QOS_ACTION_API_MARK_AND_TRANSMIT : Z := 2.

(** An action and its DSCP. *)
Definition encode_policer_action (a : Z * Z) (b : vpp_buf_t) : vpp_buf_t :=
  let b := vpp_buf_put_u8 (fst a) b in
  vpp_buf_put_u8 (snd a) b.

Definition vpp_encode_policer_add_del (is_add : Z) (name : option bytes)
    (cir_kbps eir_kbps cb_bytes eb_bytes : Z) (conform exceed violate : Z * Z)
    (out_size : Z) (m : heap) : option bytes * heap :=
  match name with
  | None | Some [] => (None, m)
  | Some name =>
      let b := vpp_buf_init 128 m in
      let b := vpp_buf_put_u8 is_add b in
      let b := vpp_buf_put_string (Some name) b in
      let b := vpp_buf_put_u32 (u32 cir_kbps) b in
      let b := vpp_buf_put_u32 (u32 eir_kbps) b in
      let b := vpp_buf_put_u64 cb_bytes b in
      let b := vpp_buf_put_u64 eb_bytes b in
      let b := vpp_buf_put_u8 SSE2_QOS_RATE_API_KBPS b in
      let b := vpp_buf_put_u8 SSE2_QOS_ROUND_API_TO_CLOSEST b in
      let b := vpp_buf_put_u8 (if 0 <? eir_kbps then SSE2_QOS_POLICER_TYPE_API_2R3C_RFC_2698
                               else SSE2_QOS_POLICER_TYPE_API_1R2C) b in
      let b := vpp_buf_put_u8 0 b in
      let b := encode_policer_action conform b in
      let b := encode_policer_action exceed b in
      let b := encode_policer_action violate b in
      encode_out out_size b
  end.

(** ** Wire layout *)

Definition address_wire (a : vpp_ip_t) : bytes :=
  be_bytes 1 (b2z (vip_is_ipv6 a)) ++ addr_union a.

Definition proto_of (nh : vpp_ip_t) : Z :=
  if vip_is_ipv6 nh then FIB_PATH_NH_PROTO_API_IP6 else FIB_PATH_NH_PROTO_API_IP4.

Definition flags_of (nh : vpp_ip_t) : Z :=
  if path_attached (Some nh) then FIB_PATH_FLAG_API_RESOLVE_VIA_ATTACHED else 0.

Definition path_wire (table_id : Z) (p : Z * vpp_ip_t) : bytes :=
  be_bytes 4 (fst p) ++ be_bytes 4 table_id ++ be_bytes 4 0 ++ be_bytes 1 1 ++ be_bytes 1 0 ++
  be_bytes 4 FIB_PATH_TYPE_API_NORMAL ++ be_bytes 4 (flags_of (snd p)) ++ be_bytes 4 (proto_of (snd p)) ++
  addr_union (snd p) ++ zeros 12 ++ be_bytes 1 0 ++ zeros (FIB_PATH_MAX_LABELS * FIB_MPLS_LABEL_SIZE).

Definition route_wire (is_add table_id : Z) (p : vpp_prefix_t) (paths : list (Z * vpp_ip_t)) : bytes :=
  be_bytes 1 is_add ++ be_bytes 1 0 ++ be_bytes 4 table_id ++ be_bytes 4 0 ++
  address_wire (vp_addr p) ++ be_bytes 1 (vp_len p) ++
  be_bytes 1 (Z.of_nat (length paths)) ++ concat (path_wire table_id <$> paths).

Lemma length_addr_union a : length (addr_union a) = 16%nat.
Proof.
  unfold addr_union. rewrite length_cwrite; [apply length_zeros|].
  rewrite length_take, length_zeros. unfold addr_size. destruct (vip_is_ipv6 a); lia.
Qed.

Lemma length_path_wire t p : length (path_wire t p) = FIB_PATH_SIZE.
Proof.
  unfold path_wire. rewrite !length_app, !length_be_bytes, !length_zeros, length_addr_union. done.
Qed.

Lemma puts_address a : puts (encode_address a) (address_wire a).
Proof. unfold encode_address, address_wire. fold (b2z (vip_is_ipv6 a)). solve_puts. done. Qed.
#[export] Hint Resolve puts_address : puts.

Lemma puts_path t i nh : puts (encode_fib_path i t (Some nh)) (path_wire t (i, nh)).
Proof. unfold encode_fib_path, path_wire. solve_puts. done. Qed.

Lemma puts_paths t paths : puts (encode_paths t paths) (concat (path_wire t <$> paths)).
Proof.
  induction paths as [|[i nh] paths IH]; [exact puts_nil|].
  cbn [fmap list_fmap concat].
  eapply puts_ext; [intros b; cbn [encode_paths]; reflexivity|].
  apply (puts_seq (encode_fib_path i t (Some nh)) (encode_paths t paths)); [apply puts_path|exact IH].
Qed.

Lemma puts_prefix p :
  is_uint 1 (vp_len p) -> puts (encode_prefix p) (address_wire (vp_addr p) ++ be_bytes 1 (vp_len p)).
Proof. intros. unfold encode_prefix. solve_puts. done. Qed.

#[export] Hint Resolve puts_paths puts_prefix : puts.

Lemma encode_out_fits f bs cap out_size :
  puts f bs -> 0 <= cap -> strlen bs <= out_size <= 2 ^ 31 ->
  encode_out out_size (f (vpp_buf_init cap [])) = (Some bs, []).
Proof.
  intros Hf Hc Hl. unfold strlen in *.
  destruct (puts_init f bs cap Hf Hc) as [Hd Hm]; [lia|].
  unfold encode_out, vb_len, strlen. rewrite Hd, Hm. by rewrite (proj2 (Z.leb_le _ _)) by lia.
Qed.

Definition ROUTE_BODY_SIZE : Z := Z.of_nat (64 * FIB_PATH_SIZE + 64).

Lemma length_concat_same {A} (ls : list (list A)) n :
  Forall (fun l => length l = n) ls -> length (concat ls) = (length ls * n)%nat.
Proof. induction 1 as [|l ls Hl _ IH]; cbn; [done|]. rewrite length_app. lia. Qed.

Lemma length_route_wire is_add t p paths :
  length (route_wire is_add t p paths) = (29 + length paths * FIB_PATH_SIZE)%nat.
Proof.
  unfold route_wire, address_wire.
  rewrite !length_app, !length_be_bytes, length_addr_union.
  rewrite (length_concat_same _ FIB_PATH_SIZE), length_fmap; [lia|].
  apply Forall_fmap, Forall_true. intros. apply length_path_wire.
Qed.

(** A request the message layer makes: at most 64 paths, at least one. *)
Definition path_count_ok {A} (paths : list A) : Prop := (0 < length paths <= 64)%nat.

Lemma encode_route_eq is_add t p paths :
  is_uint 1 is_add -> is_uint 1 (vp_len p) -> path_count_ok paths ->
  vpp_encode_ip_route_add_del is_add t p paths ROUTE_BODY_SIZE [] =
    (Some (route_wire is_add t p paths), []).
Proof.
  intros Ha Hl [H0 H64]. unfold vpp_encode_ip_route_add_del.
  destruct (Nat.eqb_spec (length paths) 0); [lia|].
  destruct (Nat.ltb_spec 64 (length paths)); [lia|]. cbn [orb].
  assert (Hn : is_uint 1 (Z.of_nat (length paths))) by (unfold is_uint; cbn; lia).
  rewrite (u8_small (Z.of_nat _)) by (unfold is_byte; lia).
  apply (encode_out_fits (fun b => encode_paths t paths (vpp_buf_put_u8 (Z.of_nat (length paths))
    (encode_prefix p (vpp_buf_put_u32 0 (vpp_buf_put_u32 t (vpp_buf_put_u8 0 (vpp_buf_put_u8 is_add b)))))))
    (route_wire is_add t p paths) 128).
  - solve_puts. done.
  - lia.
  - unfold strlen, ROUTE_BODY_SIZE. rewrite length_route_wire.
    assert (FIB_PATH_SIZE = 167%nat) as -> by reflexivity. lia.
Qed.

(** ** Reading a route request back *)

(** What the receiver of [ip_route_add_del] sees. *)
Record wire_path := mk_wire_path {
  wp_sw_if_index : Z; wp_table_id : Z; wp_rpf_id : Z; wp_weight : Z; wp_preference : Z;
  wp_type : Z; wp_flags : Z; wp_proto : Z; wp_nh : option bytes; wp_n_labels : Z;
}.

Record wire_route := mk_wire_route {
  wr_is_add : Z; wr_is_multipath : Z; wr_table_id : Z;
  wr_af : Z; wr_addr : option bytes; wr_len : Z;
  wr_paths : list wire_path;
}.

Definition read_path (r : vpp_reader_t) : wire_path * vpp_reader_t :=
  let '(i, r) := vpp_rd_u32 r in
  let '(t, r) := vpp_rd_u32 r in
  let '(rpf, r) := vpp_rd_u32 r in
  let '(w, r) := vpp_rd_u8 r in
  let '(pref, r) := vpp_rd_u8 r in
  let '(ty, r) := vpp_rd_u32 r in
  let '(fl, r) := vpp_rd_u32 r in
  let '(pr, r) := vpp_rd_u32 r in
  let '(nh, r) := vpp_rd_bytes 16 r in
  let '(_, r) := vpp_rd_bytes 12 r in
  let '(nl, r) := vpp_rd_u8 r in
  let '(_, r) := vpp_rd_bytes 112 r in
  (mk_wire_path i t rpf w pref ty fl pr nh nl, r).

Fixpoint read_paths (n : nat) (r : vpp_reader_t) : list wire_path * vpp_reader_t :=
  match n with
  | O => ([], r)
  | S n =>
      let '(p, r) := read_path r in
      let '(ps, r) := read_paths n r in
      (p :: ps, r)
  end.

Definition read_route (r : vpp_reader_t) : wire_route * vpp_reader_t :=
  let '(add, r) := vpp_rd_u8 r in
  let '(multi, r) := vpp_rd_u8 r in
  let '(t, r) := vpp_rd_u32 r in
  let '(_, r) := vpp_rd_u32 r in
  let '(af, r) := vpp_rd_u8 r in
  let '(addr, r) := vpp_rd_bytes 16 r in
  let '(len, r) := vpp_rd_u8 r in
  let '(n, r) := vpp_rd_u8 r in
  let '(ps, r) := read_paths (Z.to_nat n) r in
  (mk_wire_route add multi t af addr len ps, r).

(** The path a next hop is to become: a directly attached one when its address
    is zero. *)
Definition seen_path (table_id : Z) (p : Z * vpp_ip_t) : wire_path :=
  mk_wire_path (fst p) table_id 0 1 0 FIB_PATH_TYPE_API_NORMAL (flags_of (snd p)) (proto_of (snd p))
    (Some (addr_union (snd p))) 0.

Lemma path_reads t p :
  is_uint 4 t -> is_uint 4 (fst p) -> reads_as read_path (path_wire t p) (seen_path t p).
Proof.
  intros Ht Hi.
  assert (Hf : is_uint 4 (flags_of (snd p))).
  { unfold flags_of, is_uint. destruct (path_attached _); vm_compute; intuition congruence. }
  assert (Hp : is_uint 4 (proto_of (snd p))).
  { unfold proto_of, is_uint. destruct (vip_is_ipv6 _); vm_compute; intuition congruence. }
  assert (Hu : strlen (addr_union (snd p)) = 16) by (unfold strlen; by rewrite length_addr_union).
  assert (H12 : strlen (zeros 12) = 12) by (unfold strlen; by rewrite length_zeros).
  assert (H112 : strlen (zeros (FIB_PATH_MAX_LABELS * FIB_MPLS_LABEL_SIZE)) = 112)
    by (unfold strlen; by rewrite length_zeros).
  unfold read_path, path_wire, seen_path.
  reads_chain. eapply reads_last with (h := fun _ => _). reads_leaf.
Qed.

Lemma paths_reads t paths :
  is_uint 4 t -> Forall (fun p => is_uint 4 (fst p)) paths ->
  reads_as (read_paths (length paths)) (concat (path_wire t <$> paths)) (seen_path t <$> paths).
Proof.
  intros Ht. induction 1 as [|p paths Hp _ IH]; [apply reads_ret|].
  eapply reads_bind; [by apply path_reads|]. cbv beta. by eapply reads_last with (h := cons _).
Qed.

Lemma route_reads is_add t p paths :
  is_uint 1 is_add -> is_uint 4 t -> is_uint 1 (vp_len p) -> path_count_ok paths ->
  Forall (fun q => is_uint 4 (fst q)) paths ->
  reads_as read_route (route_wire is_add t p paths)
    (mk_wire_route is_add 0 t (b2z (vip_is_ipv6 (vp_addr p))) (Some (addr_union (vp_addr p)))
       (vp_len p) (seen_path t <$> paths)).
Proof.
  intros Ha Ht Hl [Hc0 Hc] Hi.
  assert (Hn : is_uint 1 (Z.of_nat (length paths))) by (unfold is_uint; cbn; lia).
  assert (Hu : strlen (addr_union (vp_addr p)) = 16) by (unfold strlen; by rewrite length_addr_union).
  assert (Hb : is_uint 1 (b2z (vip_is_ipv6 (vp_addr p)))) by (destruct (vip_is_ipv6 _); unfold is_uint; cbn; lia).
  unfold read_route, route_wire, address_wire. rewrite <- !app_assoc. reads_chain.
  apply reads_last with (h := mk_wire_route _ _ _ _ _ _). rewrite Nat2Z.id. by apply paths_reads.
Qed.

Lemma strlen_route_wire is_add t p paths :
  strlen (route_wire is_add t p paths) = 29 + 167 * Z.of_nat (length paths).
Proof. unfold strlen. rewrite length_route_wire. change FIB_PATH_SIZE with 167%nat. lia. Qed.

(** A route request says what it was asked to: for every prefix and every
    list of 1 to 64 next hops the encoder succeeds within the caller's buffer,
    writes 29 + 167 n bytes, and reading them field by field gives the
    operation, the table, the prefix and each path's interface, address family
    and gateway in order, attached exactly when the gateway is zero. *)
Theorem vpp_route_roundtrip is_add t p paths post :
  is_uint 1 is_add -> is_uint 4 t -> is_uint 1 (vp_len p) -> path_count_ok paths ->
  Forall (fun q => is_uint 4 (fst q)) paths ->
  exists bs r,
    vpp_encode_ip_route_add_del is_add t p paths ROUTE_BODY_SIZE [] = (Some bs, []) /\
    strlen bs = 29 + 167 * Z.of_nat (length paths) /\ strlen bs <= ROUTE_BODY_SIZE /\
    read_route (vpp_reader_init (bs ++ post) (strlen bs)) =
      (mk_wire_route is_add 0 t (b2z (vip_is_ipv6 (vp_addr p))) (Some (addr_union (vp_addr p)))
         (vp_len p) (seen_path t <$> paths), r) /\ vpp_reader_ok r = true.
Proof.
  intros Ha Ht Hl Hc Hi. exists (route_wire is_add t p paths).
  rewrite (encode_route_eq is_add t p paths Ha Hl Hc), strlen_route_wire.
  destruct Hc as [Hc0 Hc].
  destruct (reads_init _ _ post _ (strlen (route_wire is_add t p paths))
    (route_reads is_add t p paths Ha Ht Hl (conj Hc0 Hc) Hi)) as (r & Hrd & Hok).
  { rewrite strlen_route_wire. lia. }
  exists r. split_and!; [done|done| |by rewrite <- Hrd, strlen_route_wire|done].
  unfold ROUTE_BODY_SIZE. change FIB_PATH_SIZE with 167%nat. lia.
Qed.

Definition demo_prefix : vpp_prefix_t := mk_vprefix (mk_vip false (lit "abcd" ++ zeros 12)) 24.
Definition demo_paths : list (Z * vpp_ip_t) :=
  [(1, mk_vip false (lit "gate" ++ zeros 12)); (7, mk_vip false (zeros 16))].

Lemma vpp_route_roundtrip_witness :
  exists bs r,
    vpp_encode_ip_route_add_del 1 5 demo_prefix demo_paths ROUTE_BODY_SIZE [] = (Some bs, []) /\
    strlen bs = 363 /\
    wp_flags <$> wr_paths (read_route (vpp_reader_init (bs ++ []) (strlen bs))).1 = [0; 1] /\
    vpp_reader_ok r = true.
Proof.
  destruct (vpp_route_roundtrip 1 5 demo_prefix demo_paths []) as (bs & r & H1 & H2 & _ & H4 & H5).
  1-3: unfold is_uint; cbn; lia.
  - unfold path_count_ok. cbn. lia.
  - repeat constructor; unfold is_uint; cbn; lia.
  - exists bs, r. rewrite H4. split; [exact H1|]. split; [exact H2|].
    split; [vm_compute; reflexivity|exact H5].
Defined.
