(* ===== verification/VppApi.v ===== *)
(** * The VPP API client: danos-vpp vpp_api.h / vpp_api.c

    The connection state machine, the handshake that learns the message
    table, request/reply transactions matched by context, and the reconnection
    back-off.  The operating system is a script: the answers to the coming
    connection attempts, sends and allocations, and the bytes the peer sends
    on the socket; the time is an argument. *)

From stdpp Require Import base decidable list numbers strings gmap.
From Stdlib Require Import ZArith Lia.
From S2P Require Import Prelude CStr VppWire.

(** ** Data *)

Inductive vpp_api_state_t :=
  | VPP_API_DISCONNECTED | VPP_API_CONNECTING | VPP_API_CONNECTED | VPP_API_MOCK.

#[global] Instance vpp_api_state_eq_dec : EqDecision vpp_api_state_t.
Proof. solve_decision. Defined.

Definition VPP_API_SOCK_PATH : bytes := lit "/run/vpp/api.sock".
Definition VPP_STAT_SOCK_PATH : bytes := lit "/run/vpp/stats.sock".
Definition VPP_RECONNECT_INITIAL_MS : Z := 500.
Definition VPP_RECONNECT_MAX_MS : Z := 30000.
Definition VPP_CLIENT_NAME : bytes := lit "danos-open".

Record vpp_api_ctx_impl_t := mk_ctx {
  msg_fd : Z;
  stat_fd : Z;
  api_state : vpp_api_state_t;
  api_sock_path : bytes;
  stat_sock_path : bytes;
  last_connect_ns : Z;
  reconnect_delay_ms : Z;
  msgs_sent : Z;
  msgs_received : Z;
  connect_count : Z;
  reconnect_count : Z;
  api_context : Z;
  client_index : Z;
  msg_table : vpp_msg_table_t;
  last_msg_id : Z;
  last_msg_size : Z;
}.

(** Answers to the coming [connect] calls: refused, or a descriptor and all
    the bytes the peer is going to send on it.  Answers to the coming frame
    sends: [None] takes everything, [Some k] breaks after [k] bytes; an empty
    list takes everything. *)
Record vpp_world := mk_world {
  w_conns : list (option (Z * bytes));
  w_sends : list (option nat);
  w_in : bytes;
  w_out : bytes;
  w_heap : heap;
}.

Record vpp_api := mk_api {
  g_ctx : vpp_api_ctx_impl_t;
  api_initialized : bool;
  api_world : vpp_world;
}.

(** ** Field updates *)

Definition with_world (w : vpp_world) (a : vpp_api) : vpp_api := mk_api (g_ctx a) (api_initialized a) w.
Definition on_ctx (f : vpp_api_ctx_impl_t -> vpp_api_ctx_impl_t) (a : vpp_api) : vpp_api :=
  mk_api (f (g_ctx a)) (api_initialized a) (api_world a).

Definition set_conn (mfd sfd : Z) (st : vpp_api_state_t) (c : vpp_api_ctx_impl_t) : vpp_api_ctx_impl_t :=
  mk_ctx mfd sfd st (api_sock_path c) (stat_sock_path c) (last_connect_ns c) (reconnect_delay_ms c)
    (msgs_sent c) (msgs_received c) (connect_count c) (reconnect_count c) (api_context c)
    (client_index c) (msg_table c) (last_msg_id c) (last_msg_size c).

Definition set_paths (p s : bytes) (c : vpp_api_ctx_impl_t) : vpp_api_ctx_impl_t :=
  mk_ctx (msg_fd c) (stat_fd c) (api_state c) p s (last_connect_ns c) (reconnect_delay_ms c)
    (msgs_sent c) (msgs_received c) (connect_count c) (reconnect_count c) (api_context c)
    (client_index c) (msg_table c) (last_msg_id c) (last_msg_size c).

Definition set_retry (last delay : Z) (c : vpp_api_ctx_impl_t) : vpp_api_ctx_impl_t :=
  mk_ctx (msg_fd c) (stat_fd c) (api_state c) (api_sock_path c) (stat_sock_path c) last delay
    (msgs_sent c) (msgs_received c) (connect_count c) (reconnect_count c) (api_context c)
    (client_index c) (msg_table c) (last_msg_id c) (last_msg_size c).

Definition set_counts (sent received conn reconn : Z) (c : vpp_api_ctx_impl_t) : vpp_api_ctx_impl_t :=
  mk_ctx (msg_fd c) (stat_fd c) (api_state c) (api_sock_path c) (stat_sock_path c) (last_connect_ns c)
    (reconnect_delay_ms c) sent received conn reconn (api_context c)
    (client_index c) (msg_table c) (last_msg_id c) (last_msg_size c).

Definition set_context (ctx : Z) (c : vpp_api_ctx_impl_t) : vpp_api_ctx_impl_t :=
  mk_ctx (msg_fd c) (stat_fd c) (api_state c) (api_sock_path c) (stat_sock_path c) (last_connect_ns c)
    (reconnect_delay_ms c) (msgs_sent c) (msgs_received c) (connect_count c) (reconnect_count c) ctx
    (client_index c) (msg_table c) (last_msg_id c) (last_msg_size c).

Definition set_client (index : Z) (t : vpp_msg_table_t) (c : vpp_api_ctx_impl_t) : vpp_api_ctx_impl_t :=
  mk_ctx (msg_fd c) (stat_fd c) (api_state c) (api_sock_path c) (stat_sock_path c) (last_connect_ns c)
    (reconnect_delay_ms c) (msgs_sent c) (msgs_received c) (connect_count c) (reconnect_count c)
    (api_context c) index t (last_msg_id c) (last_msg_size c).

Definition set_last (id size : Z) (c : vpp_api_ctx_impl_t) : vpp_api_ctx_impl_t :=
  mk_ctx (msg_fd c) (stat_fd c) (api_state c) (api_sock_path c) (stat_sock_path c) (last_connect_ns c)
    (reconnect_delay_ms c) (msgs_sent c) (msgs_received c) (connect_count c) (reconnect_count c)
    (api_context c) (client_index c) (msg_table c) id size.

Definition count_sent (c : vpp_api_ctx_impl_t) : vpp_api_ctx_impl_t :=
  set_counts (u64 (msgs_sent c + 1)) (msgs_received c) (connect_count c) (reconnect_count c) c.
Definition count_received (c : vpp_api_ctx_impl_t) : vpp_api_ctx_impl_t :=
  set_counts (msgs_sent c) (u64 (msgs_received c + 1)) (connect_count c) (reconnect_count c) c.

(** ** The socket *)

Definition with_heap (m : heap) (w : vpp_world) : vpp_world :=
  mk_world (w_conns w) (w_sends w) (w_in w) (w_out w) m.

Definition vpp_wire_send_fd (fd msg_id : Z) (body : bytes) (w : vpp_world) : bool * vpp_world :=
  if fd <? 0 then (false, w) else
  match vpp_wire_send msg_id body with
  | None => (false, w)
  | Some frame =>
      match w_sends w with
      | Some k :: s => (false, mk_world (w_conns w) s (w_in w) (w_out w ++ take k frame) (w_heap w))
      | s => (true, mk_world (w_conns w) (tail s) (w_in w) (w_out w ++ frame) (w_heap w))
      end
  end.

Definition vpp_wire_recv_fd (fd buf_size : Z) (w : vpp_world) : option bytes * vpp_world :=
  if fd <? 0 then (None, w) else
  let '(p, rest) := vpp_wire_recv buf_size (w_in w) in
  (p, mk_world (w_conns w) (w_sends w) rest (w_out w) (w_heap w)).

(** The part before the last [:] and the part after it. *)
Fixpoint split_port (s : bytes) : option (bytes * bytes) :=
  match s with
  | [] => None
  | c :: s =>
      match split_port s with
      | Some (host, port) => Some (c :: host, port)
      | None => if c =? 58 then Some ([], s) else None
      end
  end.

(** The checks [connect_unix_stream] makes before it calls the system. *)
Definition sock_path_ok (path : bytes) : bool :=
  if bool_decide (take 6 path = lit "tcp://") then
    match split_port (drop 6 path) with
    | None => false
    | Some (host, port) =>
        negb (strlen host =? 0) && negb (strlen port =? 0) && (strlen host <? 128) && (strlen port <? 16)
    end
  else strlen path <? 108.

Definition connect_unix_stream (path : bytes) (w : vpp_world) : Z * vpp_world :=
  if negb (sock_path_ok path) then (-1, w) else
  match w_conns w with
  | [] => (-1, w)
  | None :: cs => (-1, mk_world cs (w_sends w) (w_in w) (w_out w) (w_heap w))
  | Some (fd, input) :: cs => (fd, mk_world cs (w_sends w) input [] (w_heap w))
  end.

(** ** Initialisation *)

(** [getenv] answers for [VPP_API_SOCK] and [VPP_STAT_SOCK]. *)
Record vpp_env := mk_env { env_api_sock : option bytes; env_stat_sock : option bytes }.

Definition env_path (e : option bytes) (dflt : bytes) : bytes :=
  match e with
  | None | Some [] => dflt
  | Some p => take 255 p
  end.

Definition danos_vpp_api_init (e : vpp_env) (a : vpp_api) : vpp_api :=
  mk_api
    (mk_ctx (-1) (-1) VPP_API_DISCONNECTED
       (env_path (env_api_sock e) VPP_API_SOCK_PATH) (env_path (env_stat_sock e) VPP_STAT_SOCK_PATH)
       0 VPP_RECONNECT_INITIAL_MS 0 0 0 0 0 0 vpp_msg_table_init 0 0)
    true (api_world a).

Definition ensure_init (e : vpp_env) (a : vpp_api) : vpp_api :=
  if api_initialized a then a else danos_vpp_api_init e a.

Definition danos_vpp_api_enable_mock (e : vpp_env) (a : vpp_api) : vpp_api :=
  on_ctx (set_conn (-1) (-1) VPP_API_MOCK) (ensure_init e a).

(** ** Handshake *)

Definition isxdigit (c : Z) : bool :=
  ((48 <=? c) && (c <=? 57)) || ((65 <=? c) && (c <=? 70)) || ((97 <=? c) && (c <=? 102)).

Definition vpp_strip_crc_suffix (name : bytes) : bytes :=
  let n := length name in
  if (n <? 9)%nat || negb (bool_decide (name !! (n - 9)%nat = Some 95)) then name else
  if negb (forallb isxdigit (drop (n - 8) name)) then name else take (n - 9) name.

Fixpoint read_msg_table (count : nat) (r : vpp_reader_t) (t : vpp_msg_table_t) : vpp_msg_table_t :=
  match count with
  | O => t
  | S count =>
      let '(msg_id, r) := vpp_rd_u16 r in
      match vpp_rd_bytes 64 r with
      | (None, _) => t
      | (Some name, r) =>
          if negb (vpp_reader_ok r) then t else
          let name := vpp_strip_crc_suffix (c_str (take 63 name)) in
          read_msg_table count r (snd (vpp_msg_table_add t (Some name) msg_id))
      end
  end.

Definition HANDSHAKE_BUF : Z := 512 * 1024.

(** The part of [vpp_handshake] that reads the reply: [rbuf] is the receive
    buffer from its first byte, of which [n] are the reply. *)
Definition parse_handshake (rbuf : bytes) (n : Z) : option (Z * vpp_msg_table_t) :=
  if be_val (take 2 rbuf) =? 0 then None else
  let r := vpp_reader_init (drop 2 rbuf) n in
  let '(_, r) := vpp_rd_u32 r in
  let '(_, r) := vpp_rd_u32 r in
  let '(response, r) := vpp_rd_u32 r in
  let '(index, r) := vpp_rd_u32 r in
  let '(count, r) := vpp_rd_u16 r in
  if negb (vpp_reader_ok r) || negb (response =? 0) then None else
  Some (index, read_msg_table (Z.to_nat count) r vpp_msg_table_init).

(** The request: the context in host order and the client's name. *)
Definition handshake_body (m : heap) : vpp_buf_t :=
  let b := vpp_buf_init 96 m in
  let b := vpp_buf_put_bytes (Some [206; 250; 237; 254]) b in
  vpp_buf_put_bytes (Some (cwrite (zeros 64) 0 VPP_CLIENT_NAME)) b.

(** [stack] is what the uninitialised receive buffer holds. *)
Definition vpp_handshake (stack : bytes) (a : vpp_api) : bool * vpp_api :=
  let b := handshake_body (w_heap (api_world a)) in
  let '(sent, w) := vpp_wire_send_fd (msg_fd (g_ctx a)) VPP_MSG_ID_SOCKCLNT_CREATE (vb_data b)
                      (with_heap (vb_heap b) (api_world a)) in
  if negb sent then (false, with_world w a) else
  let '(reply, w) := vpp_wire_recv_fd (msg_fd (g_ctx a)) HANDSHAKE_BUF w in
  let a := with_world w a in
  match reply with
  | None => (false, a)
  | Some p =>
      if (length p <=? 2)%nat then (false, a) else
      match parse_handshake (p ++ drop (length p) stack) (strlen p) with
      | None => (false, a)
      | Some (index, t) => (true, on_ctx (set_client index t) a)
      end
  end.

(** ** Connection *)

Definition danos_vpp_api_connect (e : vpp_env) (stack : bytes) (now : Z) (a : vpp_api) : bool * vpp_api :=
  let a := ensure_init e a in
  if bool_decide (api_state (g_ctx a) = VPP_API_MOCK) then (true, a) else
  let '(fd, w) := connect_unix_stream (api_sock_path (g_ctx a)) (api_world a) in
  let sfd := stat_fd (g_ctx a) in
  if fd <? 0 then (false, on_ctx (set_conn fd sfd VPP_API_DISCONNECTED) (with_world w a)) else
  let a := on_ctx (set_conn fd sfd (api_state (g_ctx a))) (with_world w a) in
  let '(ok, a) := vpp_handshake stack a in
  if negb ok then (false, on_ctx (set_conn (-1) sfd VPP_API_DISCONNECTED) a) else
  let a := on_ctx (set_conn fd sfd VPP_API_CONNECTED) a in
  let a := on_ctx (set_retry now VPP_RECONNECT_INITIAL_MS) a in
  (true, on_ctx (fun c => set_counts (msgs_sent c) (msgs_received c) (u64 (connect_count c + 1))
                            (reconnect_count c) c) a).

Definition danos_vpp_api_disconnect (a : vpp_api) : vpp_api :=
  let c := g_ctx a in
  on_ctx (set_conn (if 0 <=? msg_fd c then -1 else msg_fd c) (if 0 <=? stat_fd c then -1 else stat_fd c)
            VPP_API_DISCONNECTED) a.

Definition danos_vpp_api_reconnect (e : vpp_env) (stack : bytes) (now now' : Z) (a : vpp_api)
    : bool * vpp_api :=
  let c := g_ctx a in
  if bool_decide (api_state c = VPP_API_MOCK) then (true, a) else
  let elapsed := u64 (now - last_connect_ns c) / 1000000 in
  if elapsed <? reconnect_delay_ms c then (false, a) else
  let a := on_ctx (fun c => set_counts (msgs_sent c) (msgs_received c) (connect_count c)
                              (u64 (reconnect_count c + 1)) c) a in
  let a := danos_vpp_api_disconnect a in
  let '(ok, a) := danos_vpp_api_connect e stack now' a in
  if ok then (true, a) else
  let delay := u32 (reconnect_delay_ms (g_ctx a) * 2) in
  let delay := if VPP_RECONNECT_MAX_MS <? delay then VPP_RECONNECT_MAX_MS else delay in
  (false, on_ctx (set_retry now delay) a).

(** ** Messages *)

Definition danos_vpp_api_send (msg_id : Z) (payload : bytes) (a : vpp_api) : bool * vpp_api :=
  let c := g_ctx a in
  if bool_decide (api_state c = VPP_API_MOCK) then
    (true, on_ctx (fun c => count_sent (set_last msg_id (strlen payload) c)) a) else
  if negb (bool_decide (api_state c = VPP_API_CONNECTED)) || (msg_fd c <? 0) then (false, a) else
  let b := vpp_buf_init (u32 (strlen payload + 8)) (w_heap (api_world a)) in
  let b := vpp_buf_put_u32 (client_index c) b in
  let a := on_ctx (set_context (u32 (api_context c + 1))) a in
  let b := vpp_buf_put_u32 (api_context (g_ctx a)) b in
  let b := vpp_buf_put_bytes (Some payload) b in
  let '(ok, w) := vpp_wire_send_fd (msg_fd c) msg_id (vb_data b)
                    (with_heap (vb_heap b) (api_world a)) in
  let a := with_world w a in
  if negb ok then (false, a) else (true, on_ctx count_sent a).

(** The payload received, [None] for [-1]. *)
Definition danos_vpp_api_recv (buf_size : Z) (a : vpp_api) : option bytes * vpp_api :=
  let c := g_ctx a in
  if bool_decide (api_state c = VPP_API_MOCK) then
    if buf_size <? 6 then (None, a) else (Some (zeros 6), on_ctx count_received a) else
  if negb (bool_decide (api_state c = VPP_API_CONNECTED)) || (msg_fd c <? 0) then (None, a) else
  let '(p, w) := vpp_wire_recv_fd (msg_fd c) buf_size (api_world a) in
  let a := with_world w a in
  match p with
  | None => (None, danos_vpp_api_disconnect a)
  | Some p =>
      if (length p <=? 2)%nat then (None, danos_vpp_api_disconnect a)
      else (Some p, on_ctx count_received a)
  end.

Definition TRANSACT_BUF : Z := 64 * 1024.

(** Read until a reply carries our context: the length of the frame and what
    the caller's buffer gets of it. *)
Fixpoint await_reply (attempts : nat) (reply_size : Z) (a : vpp_api) : option (Z * bytes) * vpp_api :=
  match attempts with
  | O => (None, a)
  | S attempts =>
      match danos_vpp_api_recv TRANSACT_BUF a with
      | (None, a) => (None, a)
      | (Some p, a) =>
          if strlen p <? 8 then (None, a) else
          let '(ctx, _) := vpp_rd_u32 (vpp_reader_init (drop 2 p) (strlen p - 2)) in
          if ctx =? api_context (g_ctx a)
          then (Some (strlen p, take (Z.to_nat (Z.min (strlen p) reply_size)) p), a)
          else await_reply attempts reply_size a
      end
  end.

Definition danos_vpp_api_transact (msg_id : Z) (payload : bytes) (reply_size : Z) (a : vpp_api)
    : option (Z * bytes) * vpp_api :=
  if bool_decide (api_state (g_ctx a) = VPP_API_MOCK) then
    let a := on_ctx (fun c => count_sent (set_last msg_id (strlen payload) c)) a in
    if 10 <=? reply_size then
      let a := on_ctx (fun c => set_context (u32 (api_context c + 1)) c) a in
      let ctx := api_context (g_ctx a) in
      (Some (10, [u8 (Z.shiftr msg_id 8); u8 msg_id; u8 (Z.shiftr ctx 24); u8 (Z.shiftr ctx 16);
                  u8 (Z.shiftr ctx 8); u8 ctx; 0; 0; 0; 0]), a)
    else (Some (0, []), a)
  else
    let '(ok, a) := danos_vpp_api_send msg_id payload a in
    if negb ok then (None, a) else await_reply 64 reply_size a.

Definition danos_vpp_api_lookup_msg_id (name : bytes) (a : vpp_api) : option Z :=
  if bool_decide (api_state (g_ctx a) = VPP_API_MOCK) then Some 0
  else vpp_msg_table_lookup (msg_table (g_ctx a)) name.

Definition danos_vpp_api_set_sock_path (path : option bytes) (a : vpp_api) : vpp_api :=
  match path with
  | None => a
  | Some p => on_ctx (fun c => set_paths (take 255 p) (stat_sock_path c) c) a
  end.

Definition danos_vpp_api_is_connected (a : vpp_api) : bool :=
  bool_decide (api_state (g_ctx a) = VPP_API_CONNECTED) ||
  bool_decide (api_state (g_ctx a) = VPP_API_MOCK).

Definition danos_vpp_api_is_mock (a : vpp_api) : bool :=
  bool_decide (api_state (g_ctx a) = VPP_API_MOCK).

Definition vpp_msg_table_count (t : option vpp_msg_table_t) : Z := from_option mt_count 0 t.

Definition danos_vpp_api_client_index (a : vpp_api) : Z := client_index (g_ctx a).
Definition danos_vpp_api_msg_table_count (a : vpp_api) : Z := vpp_msg_table_count (Some (msg_table (g_ctx a))).
Definition danos_vpp_api_sock_path (a : vpp_api) : bytes := api_sock_path (g_ctx a).
Definition danos_vpp_api_get_state (a : vpp_api) : vpp_api_state_t := api_state (g_ctx a).

(** Each number goes to its pointer, where one is given. *)
Definition danos_vpp_api_get_stats (sent received connects reconnects : option Z) (a : vpp_api)
    : option Z * option Z * option Z * option Z :=
  let c := g_ctx a in
  let put (v : Z) (p : option Z) := (fun _ => v) <$> p in
  (put (msgs_sent c) sent, put (msgs_received c) received, put (connect_count c) connects,
   put (reconnect_count c) reconnects).

Definition danos_vpp_api_get_last_mock_msg (id size : option Z) (a : vpp_api) : option Z * option Z :=
  ((fun _ => last_msg_id (g_ctx a)) <$> id, (fun _ => last_msg_size (g_ctx a)) <$> size).

#[local] Opaque vpp_msg_table_add vpp_msg_table_init.

(** ** The handshake *)

(** One entry of the table VPP sends. *)
Definition entry_wire (e : Z * bytes) : bytes :=
  be_bytes 2 (fst e) ++ snd e ++ zeros (64 - length (snd e)).

Definition handshake_reply (reply_id client ctx index : Z) (es : list (Z * bytes)) : bytes :=
  be_bytes 2 reply_id ++ be_bytes 4 client ++ be_bytes 4 ctx ++ be_bytes 4 0 ++ be_bytes 4 index ++
  be_bytes 2 (Z.of_nat (length es)) ++ concat (entry_wire <$> es).

Definition entry_ok (e : Z * bytes) : Prop :=
  is_uint 2 (fst e) /\ is_text (snd e) /\ (length (snd e) <= 63)%nat /\
  vpp_strip_crc_suffix (snd e) <> [].

#[global] Instance entry_ok_dec e : Decision (entry_ok e).
Proof. unfold entry_ok, is_uint. apply _. Defined.

(** The names without their checksums, and their identifiers. *)
Definition learned (es : list (Z * bytes)) : list (bytes * Z) :=
  (fun e => (vpp_strip_crc_suffix (snd e), fst e)) <$> es.

Lemma length_entry_wire e : entry_ok e -> length (entry_wire e) = 66%nat.
Proof.
  intros (_ & _ & Hl & _). unfold entry_wire.
  rewrite !length_app, length_be_bytes, length_zeros. lia.
Qed.

Lemma c_str_padded s n : is_text s -> c_str (s ++ zeros (S n)) = s.
Proof.
  induction 1 as [|c s Hc _ IH]; [done|]. cbn in *. rewrite (proj2 (Z.eqb_neq c 0)) by lia.
  by rewrite IH.
Qed.

Lemma entry_name e :
  entry_ok e -> c_str (take 63 (snd e ++ zeros (64 - length (snd e)))) = snd e.
Proof.
  intros (_ & Ht & Hl & _). rewrite take_app, take_ge by lia.
  destruct (63 - length (snd e))%nat as [|n] eqn:Hn.
  - rewrite take_0, app_nil_r. by apply c_str_id.
  - replace (take (S n) (zeros _)) with (zeros (S n)); [by apply c_str_padded|].
    replace (64 - length (snd e))%nat with (S n + 1)%nat by lia.
    Transparent zeros. unfold zeros. Opaque zeros.
    rewrite replicate_add, take_app_length'; [done|]. by rewrite length_replicate.
Qed.

Lemma read_table_spec es r t :
  Forall entry_ok es -> ahead r (concat (entry_wire <$> es)) ->
  read_msg_table (length es) r t =
    foldl (fun t '(name, id) => snd (vpp_msg_table_add t (Some name) id)) t (learned es).
Proof.
  intros Hes. revert r t. induction Hes as [|e es He _ IH]; intros r t Ha; [done|].
  cbn [fmap list_fmap concat] in Ha. unfold entry_wire in Ha. rewrite <- !app_assoc in Ha.
  destruct (reads_run vpp_rd_u16 _ _ _ _ (u16_reads (fst e) (proj1 He)) Ha) as (r1 & Hr1 & Ha1).
  rewrite app_assoc in Ha1.
  assert (H64 : strlen (snd e ++ zeros (64 - length (snd e))) = 64).
  { destruct He as (_ & _ & Hl & _). unfold strlen. rewrite length_app, length_zeros. lia. }
  destruct (reads_run _ _ _ _ _ (bytes_reads _ 64 H64) Ha1) as (r2 & Hr2 & Ha2).
  cbn [length read_msg_table]. rewrite Hr1, Hr2, (ahead_ok _ _ Ha2). cbn [negb].
  rewrite entry_name by done. rewrite IH by done. done.
Qed.

Lemma add_all_snd ops :
  snd (add_all ops) = foldl (fun t '(name, id) => snd (vpp_msg_table_add t (Some name) id))
                        vpp_msg_table_init ops.
Proof.
  induction ops as [|[name id] ops IH] using rev_ind; [exact eq_refl|].
  rewrite add_all_snoc, foldl_app, <- IH. cbn [foldl]. destruct (add_all ops) as [bs t].
  cbn [snd]. by destruct (vpp_msg_table_add t _ _).
Qed.

Lemma length_strip name : (length (vpp_strip_crc_suffix name) <= length name)%nat.
Proof.
  unfold vpp_strip_crc_suffix. destruct (_ || _); [done|]. destruct (negb _); [done|].
  rewrite length_take. lia.
Qed.

Lemma learned_fits es :
  Forall entry_ok es -> Forall (fun op => fits_entry (fst op) /\ is_u16 (snd op)) (learned es).
Proof.
  intros Hes. apply Forall_fmap. eapply Forall_impl; [exact Hes|].
  intros [id name] (Hid & _ & Hl & Hn). cbn in *. split; [split; [done|]|exact Hid].
  pose proof (length_strip name). unfold VPP_MSG_NAME_SIZE. lia.
Qed.

Lemma parse_handshake_ok reply_id client ctx index es stack :
  let p := handshake_reply reply_id client ctx index es in
  0 < reply_id < 2 ^ 16 -> is_uint 4 client -> is_uint 4 ctx -> is_uint 4 index ->
  is_uint 2 (Z.of_nat (length es)) -> Forall entry_ok es ->
  parse_handshake (p ++ stack) (strlen p) = Some (index, snd (add_all (learned es))).
Proof.
  intros p Hid Hc Hx Hi Hn Hes. unfold parse_handshake.
  assert (Hlen : strlen p < 2 ^ 32).
  { unfold strlen, p, handshake_reply. rewrite !length_app, !length_be_bytes.
    assert (Hall : Forall (fun l => length l = 66%nat) (entry_wire <$> es)).
    { apply Forall_fmap. eapply Forall_impl; [exact Hes|]. intros e. apply length_entry_wire. }
    assert (Hcat : length (concat (entry_wire <$> es)) = (length es * 66)%nat).
    { clear -Hall. induction es as [|e es IH]; [done|]. inversion Hall; subst.
      cbn in *. rewrite length_app. rewrite IH by done. lia. }
    rewrite Hcat. unfold is_uint in Hn. cbn in Hn. lia. }
  assert (Hhead : take 2 (p ++ stack) = be_bytes 2 reply_id).
  { unfold p, handshake_reply. rewrite <- !app_assoc. apply take_app_length'. by rewrite length_be_bytes. }
  assert (Htail : exists X, p = be_bytes 2 reply_id ++ X /\ X = be_bytes 4 client ++ be_bytes 4 ctx ++
    be_bytes 4 0 ++ be_bytes 4 index ++ be_bytes 2 (Z.of_nat (length es)) ++ concat (entry_wire <$> es)).
  { eexists. split; reflexivity. }
  destruct Htail as (X & Hp & HX).
  assert (Htail : drop 2 (p ++ stack) = X ++ stack).
  { rewrite Hp, <- app_assoc. apply drop_app_length'. by rewrite length_be_bytes. }
  rewrite Hhead, Htail, be_val_be_bytes by (cbn; lia). rewrite (proj2 (Z.eqb_neq reply_id 0)) by lia.
  assert (Ha : ahead (vpp_reader_init (X ++ stack) (strlen p)) X).
  { apply reader_ahead_init. rewrite Hp in *. unfold strlen in *. rewrite length_app in *. lia. }
  rewrite HX in Ha at 2.
  destruct (reads_run _ _ _ _ _ (u32_reads client Hc) Ha) as (r1 & -> & Ha1).
  destruct (reads_run _ _ _ _ _ (u32_reads ctx Hx) Ha1) as (r2 & -> & Ha2).
  destruct (reads_run _ _ _ _ _ (u32_reads 0 ltac:(unfold is_uint; cbn; lia)) Ha2) as (r3 & -> & Ha3).
  destruct (reads_run _ _ _ _ _ (u32_reads index Hi) Ha3) as (r4 & -> & Ha4).
  destruct (reads_run _ _ _ _ _ (u16_reads _ Hn) Ha4) as (r5 & -> & Ha5).
  rewrite (ahead_ok _ _ Ha5). cbn [negb orb Z.eqb]. rewrite Nat2Z.id.
  by rewrite (read_table_spec es r5 _ Hes Ha5), add_all_snd.
Qed.

(** A system that takes every send and every allocation. *)
Definition quiet (w : vpp_world) : Prop := w_sends w = [] /\ w_heap w = [].

Lemma send_fd_quiet fd id body w :
  quiet w -> 0 <= fd -> 2 + strlen body < 2 ^ 31 ->
  vpp_wire_send_fd fd id body w =
    (true, mk_world (w_conns w) [] (w_in w) (w_out w ++ frame (payload (id, body))) []).
Proof.
  intros [Hs Hm] Hfd Hl. unfold vpp_wire_send_fd. rewrite (proj2 (Z.ltb_ge fd 0)) by done.
  by rewrite send_payload, Hs, Hm.
Qed.

Lemma recv_fd_frame fd buf_size p rest w :
  0 <= fd -> 4 <= buf_size < 2 ^ 31 -> 0 < strlen p <= buf_size -> w_in w = frame p ++ rest ->
  vpp_wire_recv_fd fd buf_size w = (Some p, mk_world (w_conns w) (w_sends w) rest (w_out w) (w_heap w)).
Proof.
  intros Hfd Hb Hp Hin. unfold vpp_wire_recv_fd. rewrite (proj2 (Z.ltb_ge fd 0)) by done.
  by rewrite Hin, recv_payload.
Qed.

Definition handshake_request : bytes :=
  payload (VPP_MSG_ID_SOCKCLNT_CREATE,
           [206; 250; 237; 254] ++ VPP_CLIENT_NAME ++ zeros (64 - length VPP_CLIENT_NAME)).

Lemma handshake_body_eq :
  handshake_body [] =
    mk_vbuf ([206; 250; 237; 254] ++ VPP_CLIENT_NAME ++ zeros (64 - length VPP_CLIENT_NAME)) 96 [].
Proof. vm_compute. reflexivity. Qed.

(** A reply to the handshake that VPP can send. *)
Definition reply_ok (reply_id client ctx index : Z) (es : list (Z * bytes)) : Prop :=
  0 < reply_id < 2 ^ 16 /\ is_uint 4 client /\ is_uint 4 ctx /\ is_uint 4 index /\
  is_uint 2 (Z.of_nat (length es)) /\ Forall entry_ok es /\
  strlen (handshake_reply reply_id client ctx index es) <= HANDSHAKE_BUF.

#[global] Instance reply_ok_dec reply_id client ctx index es :
  Decision (reply_ok reply_id client ctx index es).
Proof. unfold reply_ok, is_uint. apply _. Defined.

Lemma handshake_succeeds stack a reply_id client ctx index es rest :
  let p := handshake_reply reply_id client ctx index es in
  reply_ok reply_id client ctx index es -> quiet (api_world a) -> 0 <= msg_fd (g_ctx a) ->
  w_in (api_world a) = frame p ++ rest ->
  vpp_handshake stack a =
    (true, mk_api (set_client index (snd (add_all (learned es))) (g_ctx a)) (api_initialized a)
             (mk_world (w_conns (api_world a)) [] rest
                (w_out (api_world a) ++ frame handshake_request) [])).
Proof.
  intros p (Hid & Hc & Hx & Hi & Hn & Hes & Hsize) Hq Hfd Hin. fold p in Hsize.
  assert (Hlong : 20 <= strlen p).
  { unfold p, handshake_reply, strlen. rewrite !length_app, !length_be_bytes. lia. }
  unfold vpp_handshake. rewrite (proj2 Hq), handshake_body_eq. cbn [vb_data vb_heap].
  rewrite send_fd_quiet; [|by destruct Hq|done|vm_compute; reflexivity].
  cbn [negb]. rewrite (recv_fd_frame _ _ p rest); [|done|unfold HANDSHAKE_BUF in *; lia|lia|exact Hin].
  unfold strlen in Hlong. destruct (Nat.leb_spec (length p) 2); [lia|].
  unfold p. rewrite parse_handshake_ok by done. reflexivity.
Qed.

(** A successful connection knows every message VPP offers: when the peer
    accepts and answers the handshake with its table, the client sends exactly
    the registration request, becomes connected on that socket with the handle
    it was given and a fresh retry delay, and resolves each advertised name,
    without its checksum, to the identifier VPP gave it and no other name,
    whatever the uninitialised receive buffer held. *)
Theorem vpp_connect_learns_messages e stack now a fd conns rest reply_id client ctx index es :
  reply_ok reply_id client ctx index es ->
  (size (add_map (learned es)) <= VPP_MSG_TABLE_SIZE)%nat ->
  api_initialized a = true -> api_state (g_ctx a) <> VPP_API_MOCK ->
  sock_path_ok (api_sock_path (g_ctx a)) = true -> quiet (api_world a) -> 0 <= fd ->
  w_conns (api_world a) =
    Some (fd, frame (handshake_reply reply_id client ctx index es) ++ rest) :: conns ->
  let '(ok, a') := danos_vpp_api_connect e stack now a in
  ok = true /\ api_state (g_ctx a') = VPP_API_CONNECTED /\ msg_fd (g_ctx a') = fd /\
  client_index (g_ctx a') = index /\ reconnect_delay_ms (g_ctx a') = VPP_RECONNECT_INITIAL_MS /\
  api_context (g_ctx a') = api_context (g_ctx a) /\
  api_world a' = mk_world conns [] rest (frame handshake_request) [] /\
  forall name, danos_vpp_api_lookup_msg_id name a' = add_map (learned es) !! name.
Proof.
  intros Hr Hsize Hinit Hmock Hpath Hq Hfd Hconn. unfold danos_vpp_api_connect, ensure_init.
  rewrite Hinit, (bool_decide_eq_false_2 _ Hmock). unfold connect_unix_stream.
  rewrite Hpath, Hconn. cbn [negb]. rewrite (proj2 (Z.ltb_ge fd 0)) by done.
  erewrite handshake_succeeds; [|exact Hr|exact Hq|exact Hfd|reflexivity].
  cbn [negb]. split_and!; try reflexivity. intros name.
  pose proof (add_all_rel (learned es)) as Href. destruct (add_all (learned es)) as [bs t].
  destruct Href as (_ & _ & _ & Hl); [|done|exact (Hl name)]. apply learned_fits. apply Hr.
Qed.

Definition demo_entries : list (Z * bytes) :=
  [(22, lit "control_ping_51077d14"); (700, lit "ip_route_add_del_b8ecfe0d")].

Definition demo_env : vpp_env := mk_env None None.

(** A client before its first connection, and what its peer is going to send. *)
Definition demo_client (input : bytes) : vpp_api :=
  danos_vpp_api_init demo_env
    (mk_api (mk_ctx 0 0 VPP_API_DISCONNECTED [] [] 0 0 0 0 0 0 0 0 vpp_msg_table_init 0 0) false
       (mk_world [Some (5, input)] [] [] [] [])).

Lemma vpp_connect_learns_messages_witness :
  let '(ok, a) := danos_vpp_api_connect demo_env [] 9 (demo_client
    (frame (handshake_reply 16 0 0 3 demo_entries) ++ [])) in
  ok = true /\ danos_vpp_api_lookup_msg_id (lit "ip_route_add_del") a = Some 700 /\
  danos_vpp_api_lookup_msg_id (lit "show_version") a = None.
Proof.
  pose proof (vpp_connect_learns_messages demo_env [] 9
    (demo_client (frame (handshake_reply 16 0 0 3 demo_entries) ++ [])) 5 [] [] 16 0 0 3 demo_entries) as H.
  destruct (danos_vpp_api_connect _ _ _ _) as [ok a]. destruct H as (Hok & _ & _ & _ & _ & _ & _ & H).
  - apply (bool_decide_unpack _). vm_compute. exact I.
  - apply (bool_decide_unpack _). vm_compute. exact I.
  - reflexivity.
  - discriminate.
  - vm_compute. reflexivity.
  - split; reflexivity.
  - lia.
  - reflexivity.
  - rewrite !H. split; [done|]. split; vm_compute; reflexivity.
Defined.

(** The handshake reads two bytes past the reply: its reader is given the
    length of the whole frame but starts behind the identifier, so a table whose
    last entry is two bytes short is accepted, and the name learned depends on
    what the uninitialised buffer held. *)
Theorem vpp_handshake_overreads :
  let p := handshake_reply 16 0 0 3 [(9, replicate 62 97)] in
  let short := take (length p - 2) p in
  let a := demo_client (frame short) in
  let stack c := replicate (length short) 0 ++ [c; 0] in
  let '(ok, a1) := danos_vpp_api_connect demo_env (stack 98) 9 a in
  let '(ok', a2) := danos_vpp_api_connect demo_env (stack 99) 9 a in
  ok = true /\ ok' = true /\
  danos_vpp_api_lookup_msg_id (replicate 62 97 ++ [98]) a1 = Some 9 /\
  danos_vpp_api_lookup_msg_id (replicate 62 97 ++ [98]) a2 = None.
Proof. vm_compute. done. Qed.

(** ** Transactions *)

(** The context a reply carries. *)
Definition reply_context (p : bytes) : Z := be_val (cread p 2 4).

Definition reply_size_ok (p : bytes) : Prop := 8 <= strlen p <= TRANSACT_BUF.

Lemma read_context p :
  reply_size_ok p -> fst (vpp_rd_u32 (vpp_reader_init (drop 2 p) (strlen p - 2))) = reply_context p.
Proof.
  unfold reply_size_ok, TRANSACT_BUF. intros Hp. unfold vpp_rd_u32, rd_take, vpp_reader_init.
  cbn [vr_len vr_pos vr_p]. rewrite u32_small by (unfold is_u32; lia).
  rewrite (proj2 (Z.ltb_ge (strlen p - 2) _)) by lia. cbn. unfold reply_context.
  by rewrite !cread_eq, drop_drop.
Qed.

Definition connected (a : vpp_api) : Prop :=
  api_state (g_ctx a) = VPP_API_CONNECTED /\ 0 <= msg_fd (g_ctx a).

(** The client after receiving [n] frames, [rest] still to come. *)
Definition received (n : nat) (rest : bytes) (a : vpp_api) : vpp_api :=
  let w := api_world a in
  with_world (mk_world (w_conns w) (w_sends w) rest (w_out w) (w_heap w))
    (on_ctx (Nat.iter n count_received) a).

Lemma connected_received n rest a : connected a -> connected (received n rest a).
Proof.
  intros [Hs Hf]. unfold received, connected. cbn.
  assert (Hi : forall c, api_state (Nat.iter n count_received c) = api_state c /\
                         msg_fd (Nat.iter n count_received c) = msg_fd c).
  { intros c. induction n as [|n IH]; [done|]. by destruct IH. }
  destruct (Hi (g_ctx a)) as [-> ->]. done.
Qed.

Lemma received_context n rest a : api_context (g_ctx (received n rest a)) = api_context (g_ctx a).
Proof. unfold received. cbn. induction n as [|n IH]; [done|]. exact IH. Qed.

Lemma received_S n r1 r2 a : received n r2 (received 1 r1 a) = received (S n) r2 a.
Proof.
  unfold received, with_world, on_ctx. cbn. f_equal. by rewrite <- Nat.iter_succ_r.
Qed.

Lemma recv_next p rest a :
  connected a -> reply_size_ok p -> w_in (api_world a) = frame p ++ rest ->
  danos_vpp_api_recv TRANSACT_BUF a = (Some p, received 1 rest a).
Proof.
  unfold reply_size_ok. intros [Hs Hf] Hp Hin. unfold danos_vpp_api_recv. rewrite Hs.
  rewrite (bool_decide_eq_false_2 (VPP_API_CONNECTED = VPP_API_MOCK)) by discriminate.
  rewrite bool_decide_eq_true_2 by done. rewrite (proj2 (Z.ltb_ge _ 0)) by done. cbn [negb orb].
  rewrite (recv_fd_frame _ _ p rest); [|done|unfold TRANSACT_BUF; lia|lia|done].
  unfold strlen in Hp. destruct (Nat.leb_spec (length p) 2); [lia|]. reflexivity.
Qed.

(** One round of the wait, on a frame that is there. *)
Lemma await_step n size p rest a :
  connected a -> reply_size_ok p -> w_in (api_world a) = frame p ++ rest ->
  await_reply (S n) size a =
    if reply_context p =? api_context (g_ctx a)
    then (Some (strlen p, take (Z.to_nat (Z.min (strlen p) size)) p), received 1 rest a)
    else await_reply n size (received 1 rest a).
Proof.
  intros Hc Hp Hin. cbn [await_reply]. rewrite (recv_next p rest a) by done.
  rewrite (proj2 (Z.ltb_ge (strlen p) 8)) by apply Hp.
  pose proof (read_context p Hp) as Hx. destruct (vpp_rd_u32 _) as [ctx r]. cbn in Hx. subst ctx.
  by rewrite received_context.
Qed.

(** Frames of other requests are skipped. *)
Lemma await_skips stale n size rest a :
  connected a -> Forall (fun p => reply_size_ok p /\ reply_context p <> api_context (g_ctx a)) stale ->
  w_in (api_world a) = concat (frame <$> stale) ++ rest ->
  await_reply (length stale + n) size a = await_reply n size (received (length stale) rest a).
Proof.
  intros Hc Hst. revert a Hc Hst.
  induction stale as [|p stale IH]; intros a Hc Hst Hin.
  { cbn in *. f_equal. unfold received. cbn. destruct a as [c i w], w. cbn in *. by subst. }
  inversion Hst as [|? ? [Hp Hne] Hst']; subst. cbn [fmap list_fmap concat] in Hin.
  rewrite <- app_assoc in Hin. cbn [length Nat.add].
  rewrite (await_step _ size p _ a Hc Hp Hin), (proj2 (Z.eqb_neq _ _) Hne).
  rewrite IH; [by rewrite received_S|by apply connected_received| |done].
  by rewrite received_context.
Qed.

(** The client after its request went out. *)
Definition requested (msg_id : Z) (body : bytes) (a : vpp_api) : vpp_api :=
  let c := g_ctx a in
  let ctx := u32 (api_context c + 1) in
  let w := api_world a in
  mk_api (count_sent (set_context ctx c)) (api_initialized a)
    (mk_world (w_conns w) [] (w_in w)
       (w_out w ++ frame (payload (msg_id, be_bytes 4 (client_index c) ++ be_bytes 4 ctx ++ body))) []).

Lemma send_connected msg_id body a :
  connected a -> quiet (api_world a) -> strlen body < 2 ^ 30 ->
  danos_vpp_api_send msg_id body a = (true, requested msg_id body a).
Proof.
  intros [Hs Hf] Hq Hb. unfold danos_vpp_api_send. rewrite Hs.
  rewrite (bool_decide_eq_false_2 (VPP_API_CONNECTED = VPP_API_MOCK)) by discriminate.
  rewrite bool_decide_eq_true_2 by done. rewrite (proj2 (Z.ltb_ge _ 0)) by done. cbn [negb orb].
  set (ctx := u32 (api_context (g_ctx a) + 1)).
  assert (Hlen : 0 <= strlen body) by (unfold strlen; lia).
  destruct (puts_init (fun b => vpp_buf_put_bytes (Some body)
      (vpp_buf_put_u32 ctx (vpp_buf_put_u32 (client_index (g_ctx a)) b)))
    (be_bytes 4 (client_index (g_ctx a)) ++ be_bytes 4 ctx ++ body)
    (u32 (strlen body + 8))) as [Hd Hm].
  - solve_puts. done.
  - apply Z.mod_pos_bound. lia.
  - rewrite !length_app, !length_be_bytes. unfold strlen in Hb. lia.
  - rewrite (proj2 Hq). cbn [on_ctx g_ctx set_context api_context].
    rewrite Hd, Hm. rewrite send_fd_quiet; [reflexivity|by destruct Hq|done|].
    unfold strlen in *. rewrite !length_app, !length_be_bytes. lia.
Qed.

Lemma transact_send msg_id body size a :
  connected a -> quiet (api_world a) -> strlen body < 2 ^ 30 ->
  danos_vpp_api_transact msg_id body size a = await_reply 64 size (requested msg_id body a) /\
  connected (requested msg_id body a).
Proof.
  intros Hc Hq Hb. split; [|done]. unfold danos_vpp_api_transact. rewrite (proj1 Hc).
  rewrite bool_decide_eq_false_2 by discriminate. by rewrite send_connected.
Qed.

Lemma transact_spec msg_id body size a stale reply rest :
  let ctx := u32 (api_context (g_ctx a) + 1) in
  connected a -> quiet (api_world a) -> strlen body < 2 ^ 30 ->
  (length stale < 64)%nat -> Forall (fun p => reply_size_ok p /\ reply_context p <> ctx) stale ->
  reply_size_ok reply -> reply_context reply = ctx ->
  w_in (api_world a) = concat (frame <$> stale) ++ frame reply ++ rest ->
  danos_vpp_api_transact msg_id body size a =
    (Some (strlen reply, take (Z.to_nat (Z.min (strlen reply) size)) reply),
     received (S (length stale)) rest (requested msg_id body a)).
Proof.
  intros ctx Hc Hq Hb Hlt Hst Hr Hx Hin.
  destruct (transact_send msg_id body size a Hc Hq Hb) as [-> Hc'].
  replace 64%nat with (length stale + S (63 - length stale))%nat by lia.
  rewrite (await_skips stale _ size (frame reply ++ rest)) by done.
  rewrite (await_step _ size reply rest); [|by apply connected_received|done|done].
  rewrite received_context.
  change (api_context (g_ctx (requested msg_id body a))) with ctx. rewrite (proj2 (Z.eqb_eq _ _) Hx). rewrite <- (Nat.add_1_r (length stale)).
  unfold received, with_world, on_ctx. cbn. by rewrite Nat.add_1_r.
Qed.

(** C18. A transaction gets its own reply: the request goes out once, framed,
    with the client's handle and a fresh context in front; up to 63 frames with
    other contexts that arrive before it are read and dropped, the first frame
    carrying the request's context is returned, cut to the caller's buffer, and
    everything after it stays in the stream for the next transaction. *)
Theorem vpp_transact_matches_reply msg_id body size a stale reply rest :
  let ctx := u32 (api_context (g_ctx a) + 1) in
  connected a -> quiet (api_world a) -> strlen body < 2 ^ 30 ->
  (length stale < 64)%nat -> Forall (fun p => reply_size_ok p /\ reply_context p <> ctx) stale ->
  reply_size_ok reply -> reply_context reply = ctx ->
  w_in (api_world a) = concat (frame <$> stale) ++ frame reply ++ rest ->
  let '(res, a') := danos_vpp_api_transact msg_id body size a in
  res = Some (strlen reply, take (Z.to_nat (Z.min (strlen reply) size)) reply) /\
  connected a' /\ api_context (g_ctx a') = ctx /\ w_in (api_world a') = rest /\
  w_out (api_world a') = w_out (api_world a) ++
    frame (payload (msg_id, be_bytes 4 (client_index (g_ctx a)) ++ be_bytes 4 ctx ++ body)).
Proof.
  intros ctx Hc Hq Hb Hlt Hst Hr Hx Hin.
  rewrite (transact_spec msg_id body size a stale reply rest) by done.
  split; [done|]. split; [by apply connected_received|].
  split; [by rewrite received_context|]. split; reflexivity.
Qed.

(** A client connected as [demo_client], with [input] to come. *)
Definition demo_connected (input : bytes) : vpp_api :=
  snd (danos_vpp_api_connect demo_env [] 9 (demo_client
    (frame (handshake_reply 16 0 0 3 demo_entries) ++ input))).

Definition demo_reply (ctx : Z) : bytes := be_bytes 2 23 ++ be_bytes 4 ctx ++ be_bytes 4 0.

Lemma vpp_transact_matches_reply_witness :
  fst (danos_vpp_api_transact 22 [] 512
         (demo_connected (concat (frame <$> [demo_reply 77]) ++ frame (demo_reply 1) ++ []))) =
    Some (10, [0; 23; 0; 0; 0; 1; 0; 0; 0; 0]).
Proof.
  pose proof (vpp_transact_matches_reply 22 [] 512
    (demo_connected (concat (frame <$> [demo_reply 77]) ++ frame (demo_reply 1) ++ []))
    [demo_reply 77] (demo_reply 1) []) as H.
  destruct (danos_vpp_api_transact _ _ _ _) as [res a]. destruct H as [-> _].
  - split; vm_compute; [reflexivity|discriminate].
  - split; vm_compute; reflexivity.
  - reflexivity.
  - cbn. lia.
  - constructor; [|constructor]. split; [split; vm_compute; discriminate|vm_compute; discriminate].
  - split; vm_compute; discriminate.
  - vm_compute. reflexivity.
  - vm_compute. reflexivity.
  - vm_compute. reflexivity.
Defined.

(** A peer that goes away ends the transaction: when the stream stops
    before a reply with the right context, after fewer than 64 other frames,
    the call fails, the socket is closed, and every later request fails at once
    without sending anything until the client connects again. *)
Theorem vpp_transact_lost_peer msg_id body size a stale id' body' :
  connected a -> quiet (api_world a) -> strlen body < 2 ^ 30 -> (length stale < 64)%nat ->
  Forall (fun p => reply_size_ok p /\ reply_context p <> u32 (api_context (g_ctx a) + 1)) stale ->
  w_in (api_world a) = concat (frame <$> stale) ->
  let '(res, a') := danos_vpp_api_transact msg_id body size a in
  res = None /\ api_state (g_ctx a') = VPP_API_DISCONNECTED /\ msg_fd (g_ctx a') = -1 /\
  danos_vpp_api_transact id' body' size a' = (None, a').
Proof.
  intros Hc Hq Hb Hlt Hst Hin.
  destruct (transact_send msg_id body size a Hc Hq Hb) as [-> Hc'].
  replace 64%nat with (length stale + S (63 - length stale))%nat by lia.
  rewrite (await_skips stale _ size []) by (try done; by rewrite app_nil_r).
  set (a1 := received _ _ _). assert (H1 : connected a1) by (by apply connected_received).
  assert (Hin1 : w_in (api_world a1) = []) by reflexivity. clearbody a1.
  cbn [await_reply]. unfold danos_vpp_api_recv. destruct H1 as [-> Hf].
  rewrite (bool_decide_eq_false_2 (VPP_API_CONNECTED = VPP_API_MOCK)) by discriminate.
  rewrite bool_decide_eq_true_2 by done. unfold vpp_wire_recv_fd.
  rewrite (proj2 (Z.ltb_ge _ 0)), Hin1 by done.
  change (vpp_wire_recv TRANSACT_BUF []) with (@None bytes, @nil Z). cbn -[Z.leb].
  unfold danos_vpp_api_disconnect. cbn -[Z.leb]. rewrite (proj2 (Z.leb_le 0 (msg_fd (g_ctx a1)))) by done. split_and!; reflexivity.
Qed.

Lemma vpp_transact_lost_peer_witness :
  msg_fd (g_ctx (snd (danos_vpp_api_transact 22 [] 512
    (demo_connected (concat (frame <$> [demo_reply 77])))))) = -1.
Proof.
  pose proof (vpp_transact_lost_peer 22 [] 512 (demo_connected (concat (frame <$> [demo_reply 77])))
    [demo_reply 77] 22 []) as H.
  destruct (danos_vpp_api_transact 22 [] 512 (demo_connected _)) as [res a].
  destruct H as (_ & _ & H & _).
  - split; vm_compute; [reflexivity|discriminate].
  - split; vm_compute; reflexivity.
  - reflexivity.
  - cbn. lia.
  - constructor; [|constructor]. split; [split; vm_compute; discriminate|vm_compute; discriminate].
  - vm_compute. reflexivity.
  - exact H.
Defined.

(** ** Reconnection *)

(** The delay after [k] attempts in a row that failed. *)
Definition backoff (k : nat) : Z := Z.min VPP_RECONNECT_MAX_MS (VPP_RECONNECT_INITIAL_MS * 2 ^ Z.of_nat k).

Lemma backoff_S k :
  let d := u32 (backoff k * 2) in
  (if VPP_RECONNECT_MAX_MS <? d then VPP_RECONNECT_MAX_MS else d) = backoff (S k).
Proof.
  unfold backoff, VPP_RECONNECT_MAX_MS, VPP_RECONNECT_INITIAL_MS.
  rewrite Nat2Z.inj_succ, Z.pow_succ_r by lia.
  assert (0 < 2 ^ Z.of_nat k) by lia. rewrite u32_small by (unfold is_u32; lia).
  cbv zeta. destruct (Z.ltb_spec 30000 (Z.min 30000 (500 * 2 ^ Z.of_nat k) * 2)); lia.
Qed.

(** Reconnection attempts at the given times, all of them refused. *)
Fixpoint retries (e : vpp_env) (stack : bytes) (times : list Z) (a : vpp_api) : list bool * vpp_api :=
  match times with
  | [] => ([], a)
  | t :: times =>
      let '(ok, a) := danos_vpp_api_reconnect e stack t t a in
      let '(oks, a) := retries e stack times a in
      (ok :: oks, a)
  end.

(** A client that has lost its peer [k] attempts ago, nobody listening. *)
Definition waiting (k : nat) (a : vpp_api) : Prop :=
  api_initialized a = true /\ api_state (g_ctx a) = VPP_API_DISCONNECTED /\
  reconnect_delay_ms (g_ctx a) = backoff k /\ w_conns (api_world a) = [].

Lemma connect_refused e stack now a :
  api_initialized a = true -> api_state (g_ctx a) <> VPP_API_MOCK -> w_conns (api_world a) = [] ->
  danos_vpp_api_connect e stack now a =
    (false, on_ctx (set_conn (-1) (stat_fd (g_ctx a)) VPP_API_DISCONNECTED) a).
Proof.
  intros Hi Hs Hw. unfold danos_vpp_api_connect, ensure_init, connect_unix_stream.
  rewrite Hi, (bool_decide_eq_false_2 _ Hs), Hw.
  destruct (negb (sock_path_ok _)); destruct a; reflexivity.
Qed.

(** An attempt that is too early does nothing; one in time counts, fails and
    doubles the delay. *)
Lemma reconnect_refused e stack now now' k a :
  waiting k a ->
  let early := u64 (now - last_connect_ns (g_ctx a)) / 1000000 <? backoff k in
  let '(ok, a') := danos_vpp_api_reconnect e stack now now' a in
  ok = false /\ (if early then a' = a else
    waiting (S k) a' /\ last_connect_ns (g_ctx a') = now /\
    reconnect_count (g_ctx a') = u64 (reconnect_count (g_ctx a) + 1)).
Proof.
  intros (Hi & Hs & Hd & Hw). unfold danos_vpp_api_reconnect. rewrite Hs, Hd.
  rewrite bool_decide_eq_false_2 by discriminate. cbv zeta.
  destruct (_ <? backoff k) eqn:He; [done|].
  rewrite connect_refused by (try done; cbn; discriminate).
  split; [done|]. split; [|split; reflexivity]. split_and!; try done.
  cbn [on_ctx g_ctx set_retry reconnect_delay_ms]. rewrite <- backoff_S, <- Hd. reflexivity.
Qed.

(** Times at which an attempt is made, given the last one. *)
Fixpoint spaced (k : nat) (last : Z) (times : list Z) : Prop :=
  match times with
  | [] => True
  | t :: times => backoff k <= u64 (t - last) / 1000000 /\ spaced (S k) t times
  end.

(** Reconnection backs off: while VPP refuses the connection, an attempt
    made sooner than the delay changes nothing, and after any number k of
    attempts made in time the delay is 500 ms doubled k times, never more than
    30 s, each attempt counted. *)
Theorem vpp_reconnect_backoff e stack times k a :
  waiting k a -> spaced k (last_connect_ns (g_ctx a)) times ->
  reconnect_count (g_ctx a) + Z.of_nat (length times) < 2 ^ 64 -> 0 <= reconnect_count (g_ctx a) ->
  let '(oks, a') := retries e stack times a in
  Forall (fun ok => ok = false) oks /\
  reconnect_delay_ms (g_ctx a') =
    Z.min VPP_RECONNECT_MAX_MS (VPP_RECONNECT_INITIAL_MS * 2 ^ Z.of_nat (k + length times)) /\
  reconnect_count (g_ctx a') = reconnect_count (g_ctx a) + Z.of_nat (length times) /\
  forall now now', u64 (now - last_connect_ns (g_ctx a')) / 1000000 < reconnect_delay_ms (g_ctx a') ->
    danos_vpp_api_reconnect e stack now now' a' = (false, a').
Proof.
  revert k a. induction times as [|t times IH]; intros k a Hw Hsp Hc H0; cbn [retries].
  - split; [constructor|]. cbn [length]. rewrite Nat.add_0_r, Z.add_0_r.
    split; [apply Hw|]. split; [done|]. intros now now' Hlt.
    pose proof (reconnect_refused e stack now now' k a Hw) as H.
    destruct Hw as (_ & _ & Hd & _). rewrite Hd in Hlt. apply Z.ltb_lt in Hlt. rewrite Hlt in H.
    destruct (danos_vpp_api_reconnect _ _ _ _ _). destruct H; congruence.
  - destruct Hsp as [Hin Hsp]. pose proof (reconnect_refused e stack t t k a Hw) as H.
    rewrite (proj2 (Z.ltb_ge _ _) Hin) in H.
    destruct (danos_vpp_api_reconnect e stack t t a) as [ok a1]. destruct H as (-> & Hw1 & Hl & Hn).
    cbn [length] in Hc. rewrite u64_small in Hn by (unfold is_u64; lia).
    specialize (IH (S k) a1 Hw1). rewrite Hl in IH. specialize (IH Hsp).
    destruct (retries e stack times a1) as [oks a2].
    destruct IH as (Hf & Hd & Hr & Hlast); [lia|lia|].
    split; [by constructor|]. cbn [length]. rewrite Hd, Hr, Hn. split_and!; [|lia|].
    + by rewrite Nat.add_succ_r.
    + rewrite <- Hd. done.
Qed.

Lemma vpp_reconnect_backoff_witness :
  reconnect_delay_ms (g_ctx (snd (retries demo_env [] [10 ^ 9; 3 * 10 ^ 9; 10 ^ 10]
    (with_world (mk_world [] [] [] [] []) (demo_client []))))) = 4000.
Proof.
  pose proof (vpp_reconnect_backoff demo_env [] [10 ^ 9; 3 * 10 ^ 9; 10 ^ 10] 0
    (with_world (mk_world [] [] [] [] []) (demo_client []))) as H.
  destruct (retries _ _ _ _) as [oks a]. destruct H as (_ & H & _).
  - repeat split.
  - repeat split; vm_compute; discriminate.
  - vm_compute. reflexivity.
  - vm_compute. discriminate.
  - exact H.
Defined.

(** ** The client's invariant *)

Definition client_ok (a : vpp_api) : Prop :=
  let c := g_ctx a in
  api_initialized a = true /\ (api_state c = VPP_API_CONNECTED <-> 0 <= msg_fd c) /\
  api_state c <> VPP_API_CONNECTING /\
  VPP_RECONNECT_INITIAL_MS <= reconnect_delay_ms c <= VPP_RECONNECT_MAX_MS /\
  is_u32 (api_context c) /\ table_ok (msg_table c).

(** Whatever a caller can do with the client. *)
Inductive client_op :=
  | OpInit (e : vpp_env)
  | OpMock (e : vpp_env)
  | OpConnect (e : vpp_env) (stack : bytes) (now : Z)
  | OpDisconnect
  | OpReconnect (e : vpp_env) (stack : bytes) (now now' : Z)
  | OpSend (msg_id : Z) (body : bytes)
  | OpRecv (buf_size : Z)
  | OpTransact (msg_id : Z) (body : bytes) (size : Z)
  | OpSetPath (p : option bytes).

Definition client_step (a : vpp_api) (o : client_op) : vpp_api :=
  match o with
  | OpInit e => danos_vpp_api_init e a
  | OpMock e => danos_vpp_api_enable_mock e a
  | OpConnect e stack now => snd (danos_vpp_api_connect e stack now a)
  | OpDisconnect => danos_vpp_api_disconnect a
  | OpReconnect e stack now now' => snd (danos_vpp_api_reconnect e stack now now' a)
  | OpSend id body => snd (danos_vpp_api_send id body a)
  | OpRecv n => snd (danos_vpp_api_recv n a)
  | OpTransact id body size => snd (danos_vpp_api_transact id body size a)
  | OpSetPath p => danos_vpp_api_set_sock_path p a
  end.

Ltac client_split :=
  unfold client_ok; cbn; refine (conj _ (conj _ (conj _ (conj _ (conj _ _))))); try done.

Lemma no_socket st fd :
  st <> VPP_API_CONNECTED -> fd < 0 -> (st = VPP_API_CONNECTED <-> 0 <= fd).
Proof. intros. split; [done|lia]. Qed.

(** The fields the invariant reads. *)
Definition core_fields (c : vpp_api_ctx_impl_t) :=
  (api_state c, msg_fd c, reconnect_delay_ms c, api_context c, msg_table c).

Lemma client_ok_frame a a' :
  client_ok a -> api_initialized a' = api_initialized a ->
  core_fields (g_ctx a') = core_fields (g_ctx a) -> client_ok a'.
Proof.
  unfold client_ok, core_fields. intros H Hi Hc. injection Hc as Hs Hf Hd Hx Ht.
  by rewrite Hi, Hs, Hf, Hd, Hx, Ht.
Qed.

Lemma init_client_ok e a : client_ok (danos_vpp_api_init e a).
Proof.
  client_split. apply init_rel.
Qed.

Lemma ensure_init_ok e a : client_ok a -> ensure_init e a = a.
Proof. intros [Hi _]. unfold ensure_init. by rewrite Hi. Qed.

Lemma disconnect_ok a : client_ok a -> client_ok (danos_vpp_api_disconnect a).
Proof.
  intros (Hi & _ & _ & Hd & Hx & Ht). client_split.
  apply no_socket; [done|]. destruct (Z.leb_spec 0 (msg_fd (g_ctx a))); lia.
Qed.

Lemma read_table_ok n r t : table_ok t -> table_ok (read_msg_table n r t).
Proof.
  revert r t. induction n as [|n IH]; intros r t Ht; [done|]. cbn [read_msg_table].
  destruct (vpp_rd_u16 r) as [id r1]. destruct (vpp_rd_bytes 64 r1) as [[name|] r2]; [|done].
  destruct (negb _); [done|]. apply IH, add_keeps_ok; [|done].
  pose proof (length_strip (c_str (take 63 name))). pose proof (length_c_str (take 63 name)).
  rewrite length_take in *. unfold VPP_MSG_NAME_SIZE. lia.
Qed.

Lemma parse_table_ok rbuf n index t : parse_handshake rbuf n = Some (index, t) -> table_ok t.
Proof.
  unfold parse_handshake. destruct (_ =? 0); [done|].
  destruct (vpp_rd_u32 _) as [? r1], (vpp_rd_u32 r1) as [? r2], (vpp_rd_u32 r2) as [? r3],
    (vpp_rd_u32 r3) as [? r4], (vpp_rd_u16 r4) as [? r5].
  destruct (_ || _); [done|]. intros [= _ <-]. apply read_table_ok, init_rel.
Qed.

(** The handshake touches the socket, the handle and the table only. *)
Lemma handshake_frame stack a ok a' :
  vpp_handshake stack a = (ok, a') ->
  api_initialized a' = api_initialized a /\
  exists i t, g_ctx a' = set_client i t (g_ctx a) /\ (table_ok (msg_table (g_ctx a)) -> table_ok t).
Proof.
  assert (Hsame : forall w, api_initialized (with_world w a) = api_initialized a /\
    exists i t, g_ctx (with_world w a) = set_client i t (g_ctx a) /\
      (table_ok (msg_table (g_ctx a)) -> table_ok t)).
  { intros w. split; [done|]. exists (client_index (g_ctx a)), (msg_table (g_ctx a)).
    split; [by destruct a as [[]]|done]. }
  unfold vpp_handshake. destruct (vpp_wire_send_fd _ _ _ _) as [[] w]; cbn [negb]; cycle 1.
  { intros [= <- <-]. apply Hsame. }
  destruct (vpp_wire_recv_fd _ _ _) as [[p|] w2]; [|intros [= <- <-]; apply Hsame].
  destruct (length p <=? 2)%nat; [intros [= <- <-]; apply Hsame|].
  destruct (parse_handshake _ _) as [[i t]|] eqn:Hp; [|intros [= <- <-]; apply Hsame].
  intros [= <- <-]. split; [done|]. exists i, t. split; [done|].
  intros _. by eapply parse_table_ok.
Qed.

Lemma connect_ok e stack now a : client_ok a -> client_ok (snd (danos_vpp_api_connect e stack now a)).
Proof.
  intros Hok. unfold danos_vpp_api_connect. rewrite ensure_init_ok by done.
  destruct (bool_decide _); [done|]. destruct (connect_unix_stream _ _) as [fd w].
  destruct Hok as (Hi & Hs & Hst & Hd & Hx & Ht). destruct (Z.ltb_spec fd 0) as [Hfd|Hfd].
  { client_split. by apply no_socket. }
  destruct (vpp_handshake _ _) as [ok a'] eqn:Hh. apply handshake_frame in Hh.
  destruct Hh as (Hi' & i & t & Hc & Htt). cbn in Hi', Htt. specialize (Htt Ht).
  destruct ok; cbn [negb snd]; unfold client_ok; cbn; rewrite Hc, Hi'; cbn; client_split.
Qed.

Lemma recv_ok n a : client_ok a -> client_ok (snd (danos_vpp_api_recv n a)).
Proof.
  intros Hok. unfold danos_vpp_api_recv. destruct (bool_decide _).
  { destruct (_ <? _); [done|]. by apply (client_ok_frame a). }
  destruct (_ || _); [done|]. destruct (vpp_wire_recv_fd _ _ _) as [[p|] w].
  - destruct (_ <=? _)%nat; [apply disconnect_ok|]; by apply (client_ok_frame a).
  - apply disconnect_ok. by apply (client_ok_frame a).
Qed.

Lemma send_ok id body a : client_ok a -> client_ok (snd (danos_vpp_api_send id body a)).
Proof.
  intros Hok. unfold danos_vpp_api_send. destruct (bool_decide _); [by apply (client_ok_frame a)|].
  destruct (_ || _); [done|].
  assert (Hc : client_ok (on_ctx (set_context (u32 (api_context (g_ctx a) + 1))) a)).
  { destruct Hok as (? & ? & ? & ? & _ & ?). client_split; apply u32_range. }
  destruct (vpp_wire_send_fd _ _ _ _) as [[] w]; by apply (client_ok_frame _ _ Hc).
Qed.

Lemma await_ok n size a : client_ok a -> client_ok (snd (await_reply n size a)).
Proof.
  revert a. induction n as [|n IH]; intros a Hok; [done|]. cbn [await_reply].
  pose proof (recv_ok TRANSACT_BUF a Hok) as Hr. destruct (danos_vpp_api_recv _ _) as [[p|] a1]; [|done].
  destruct (_ <? _); [done|]. destruct (vpp_rd_u32 _). destruct (_ =? _); [done|]. by apply IH.
Qed.

Lemma transact_ok id body size a : client_ok a -> client_ok (snd (danos_vpp_api_transact id body size a)).
Proof.
  intros Hok. unfold danos_vpp_api_transact. destruct (bool_decide _).
  - assert (Hl : client_ok (on_ctx (fun c => count_sent (set_last id (strlen body) c)) a))
      by (by apply (client_ok_frame a)).
    destruct (_ <=? _); [|done]. destruct Hl as (? & ? & ? & ? & _ & ?).
    client_split; apply u32_range.
  - pose proof (send_ok id body a Hok) as Hs. destruct (danos_vpp_api_send _ _ _) as [[] a1]; [|done].
    by apply await_ok.
Qed.

Lemma reconnect_ok e stack now now' a :
  client_ok a -> client_ok (snd (danos_vpp_api_reconnect e stack now now' a)).
Proof.
  intros Hok. unfold danos_vpp_api_reconnect. destruct (bool_decide _); [done|].
  destruct (_ <? _); [done|].
  match goal with |- context [danos_vpp_api_disconnect ?x] => set (a1 := x) end.
  assert (Hc : client_ok (snd (danos_vpp_api_connect e stack now' (danos_vpp_api_disconnect a1)))).
  { apply connect_ok, disconnect_ok. by apply (client_ok_frame a). }
  destruct (danos_vpp_api_connect _ _ _ _) as [[] a2]; [done|].
  destruct Hc as (? & ? & ? & Hd & ? & ?). cbn in Hd.
  client_split.
  unfold VPP_RECONNECT_INITIAL_MS, VPP_RECONNECT_MAX_MS in *; rewrite u32_small by (unfold is_u32; lia).
  destruct (Z.ltb_spec 30000 (reconnect_delay_ms (g_ctx a2) * 2)); lia.
Qed.

(** C22. The client stays well formed whatever its callers do: after
    initialisation, under any sequence of calls and any behaviour of the
    system and the peer, it is connected exactly when it holds a socket, the
    retry delay lies between 500 ms and 30 s, the context is a 32-bit counter,
    and every name in the message table is found where probing looks for it. *)
Theorem vpp_client_invariant e a ops :
  client_ok (foldl client_step (danos_vpp_api_init e a) ops).
Proof.
  induction ops as [|o ops IH] using rev_ind; [apply init_client_ok|].
  rewrite foldl_app. cbn [foldl]. set (a1 := foldl _ _ _) in *. clearbody a1.
  destruct o; cbn [client_step].
  - apply init_client_ok.
  - unfold danos_vpp_api_enable_mock. rewrite ensure_init_ok by done.
    destruct IH as (? & ? & ? & ? & ? & ?). client_split.
  - by apply connect_ok.
  - by apply disconnect_ok.
  - by apply reconnect_ok.
  - by apply send_ok.
  - by apply recv_ok.
  - by apply transact_ok.
  - destruct p as [p|]; [|done]. by apply (client_ok_frame a1).
Qed.
