(* ===== verification/VppBackend.v ===== *)
(** * The VPP backend: danos-vpp vpp_msgs.c (transactions), vpp_adapter.c,
      vpp_mapper.c and vpp_capability.c

    Typed requests over the API client, the adapter that makes VPP a backend
    of the programming pipeline, the older object mapper with its counters,
    and the capabilities VPP declares. *)

From stdpp Require Import base decidable list numbers strings gmap.
From Stdlib Require Import ZArith Lia.
From S2P Require Import Prelude Dpa Backends Pipeline CStr VppWire VppMsgs VppApi.

(** ** Typed transactions (vpp_msgs.c) *)

(** The argument is the 32-bit pattern of [int32_t retval]. *)
Definition s32 (z : Z) : Z := if z <? 2 ^ 31 then z else z - 2 ^ 32.

Definition retval_to_status (retval : Z) : danos_status :=
  if retval =? 0 then DANOS_OK else
  if (retval =? -18) || (retval =? -18) then DANOS_ERR_NOT_FOUND else DANOS_ERR_BACKEND_IO.

Definition transact_named (msg_name payload : bytes) (a : vpp_api) : danos_status * vpp_api :=
  match danos_vpp_api_lookup_msg_id msg_name a with
  | None => (DANOS_ERR_NOT_SUPPORTED, a)
  | Some msg_id =>
      match danos_vpp_api_transact msg_id payload 512 a with
      | (None, a) => (DANOS_ERR_BACKEND_IO, a)
      | (Some (n, reply), a) =>
          if n <? 8 then (DANOS_ERR_BACKEND_IO, a) else
          let r := vpp_reader_init (drop 2 reply) (n - 2) in
          let '(_, r) := vpp_rd_u32 r in
          let '(retval, r) := vpp_rd_u32 r in
          if negb (vpp_reader_ok r) then (DANOS_ERR_BACKEND_IO, a) else
          (retval_to_status (s32 retval), a)
      end
  end.

(** Encode with the client's allocator, then transact. *)
Definition encode_and_transact (name : bytes) (enc : heap -> option bytes * heap) (a : vpp_api)
    : danos_status * vpp_api :=
  let '(body, m) := enc (w_heap (api_world a)) in
  let a := with_world (with_heap m (api_world a)) a in
  match body with
  | None => (DANOS_ERR_INVALID_ARG, a)
  | Some body => transact_named name body a
  end.

Definition vpp_msg_sw_interface_set_flags (sw_if_index : Z) (admin_up : bool) : vpp_api -> danos_status * vpp_api :=
  encode_and_transact (lit "sw_interface_set_flags") (vpp_encode_sw_interface_set_flags sw_if_index admin_up 8).

Definition vpp_msg_sw_interface_add_del_address (sw_if_index : Z) (is_add : bool) (prefix : vpp_prefix_t)
    : vpp_api -> danos_status * vpp_api :=
  encode_and_transact (lit "sw_interface_add_del_address")
    (vpp_encode_sw_interface_add_del_address sw_if_index is_add prefix 32).

Definition vpp_msg_ip_table_add_del (table_id : Z) (is_ip6 : bool) (name : option bytes) (is_add : bool)
    : vpp_api -> danos_status * vpp_api :=
  encode_and_transact (lit "ip_table_add_del")
    (vpp_encode_ip_table_add_del (b2z is_add) table_id is_ip6 name 96).

Definition vpp_msg_ip_route_add_del (is_add : bool) (table_id : Z) (prefix : vpp_prefix_t)
    (paths : list (Z * vpp_ip_t)) : vpp_api -> danos_status * vpp_api :=
  encode_and_transact (lit "ip_route_add_del")
    (vpp_encode_ip_route_add_del (b2z is_add) table_id prefix paths ROUTE_BODY_SIZE).

Definition vpp_msg_ip_neighbor_add_del (is_add : bool) (sw_if_index : Z) (mac : bytes) (ip : vpp_ip_t)
    : vpp_api -> danos_status * vpp_api :=
  encode_and_transact (lit "ip_neighbor_add_del")
    (vpp_encode_ip_neighbor_add_del (b2z is_add) sw_if_index mac ip 64).

Definition vpp_msg_control_ping (a : vpp_api) : danos_status * vpp_api :=
  transact_named (lit "control_ping") [] a.

(** [name] is the C string, [p] never null here. *)
Definition vpp_msg_policer_add_del (is_add : bool) (name : bytes) (p : danos_qos_policy)
    : vpp_api -> danos_status * vpp_api :=
  let cir_kbps := u64 (qp_cir_bps p + 999) / 1000 in
  let eir_kbps := u64 (qp_pir_bps p + 999) / 1000 in
  encode_and_transact (lit "policer_add_del")
    (vpp_encode_policer_add_del (b2z is_add) (Some name) cir_kbps eir_kbps (qp_cb_bytes p) (qp_pb_bytes p)
       (SSE2_QOS_ACTION_API_MARK_AND_TRANSMIT, qp_conform_dscp p)
       (if eir_kbps =? 0 then SSE2_QOS_ACTION_API_TRANSMIT else SSE2_QOS_ACTION_API_MARK_AND_TRANSMIT,
        qp_exceed_dscp p)
       (SSE2_QOS_ACTION_API_DROP, qp_violate_dscp p) 128).

(** ** Interface numbers (vpp_adapter.c) *)

(** The search for [ifindex] in the map; every round consumes at least three
    characters, so the length of the text is fuel enough. *)
Fixpoint map_search (fuel : nat) (p : bytes) (ifindex : Z) : Z :=
  match fuel with
  | O => ifindex
  | S fuel =>
      match p with
      | [] => ifindex
      | _ :: _ =>
          let '(from, e) := strtoul p in
          match e with
          | c :: e' =>
              if (length e =? length p)%nat || negb (c =? 58) then ifindex else
              let '(to, e2) := strtoul e' in
              if (length e2 =? length e')%nat then ifindex else
              if (from =? ifindex) && (to <=? 2 ^ 32 - 1) then to else
              map_search fuel (match e2 with c2 :: e3 => if c2 =? 44 then e3 else e2 | [] => [] end) ifindex
          | [] => ifindex
          end
      end
  end.

(** [env] is [DANOS_VPP_IFINDEX_MAP]. *)
Definition vpp_adapter_map_ifindex (env : option bytes) (ifindex : Z) : Z :=
  match env with
  | None | Some [] => ifindex
  | Some m => map_search (S (length m)) m ifindex
  end.

(** ** Adapter *)

Section Adapter.
Context (env : option bytes).

Definition vpp_adapter_iface_up (ifindex : Z) (up : bool) : vpp_api -> danos_status * vpp_api :=
  vpp_msg_sw_interface_set_flags (vpp_adapter_map_ifindex env ifindex) up.

(** The wire prefix of an interface address: 16 or 4 bytes, the rest zero. *)
Definition prefix_of (p : danos_ip_prefix) : vpp_prefix_t :=
  let v6 := ip_af (pfx_addr p) =? DANOS_AF_IPV6 in
  mk_vprefix (mk_vip v6 (cwrite (zeros 16) 0 (take (if v6 then 16 else 4) (ip_addr (pfx_addr p))))) (pfx_len p).

Definition vpp_adapter_iface_addr_one (i : danos_iface) (p : danos_ip_prefix) (is_add : bool)
    : vpp_api -> danos_status * vpp_api :=
  vpp_msg_sw_interface_add_del_address (vpp_adapter_map_ifindex env (iface_ifindex i)) is_add (prefix_of p).

(** [iface_addr_set] and [iface_addr_del] differ in [is_add] only. *)
Definition addr_both (is_add : bool) (i : danos_iface) (a : vpp_api) : danos_status * vpp_api :=
  let v6 a :=
    if negb (ip_af (pfx_addr (iface_ipv6_address i)) =? DANOS_AF_UNSPEC)
    then vpp_adapter_iface_addr_one i (iface_ipv6_address i) is_add a else (DANOS_OK, a) in
  if negb (ip_af (pfx_addr (iface_ipv4_address i)) =? DANOS_AF_UNSPEC) then
    match vpp_adapter_iface_addr_one i (iface_ipv4_address i) is_add a with
    | (DANOS_OK, a) => v6 a
    | (st, a) => (st, a)
    end
  else v6 a.

Definition vpp_adapter_iface_addr_set : danos_iface -> vpp_api -> danos_status * vpp_api := addr_both true.
Definition vpp_adapter_iface_addr_del : danos_iface -> vpp_api -> danos_status * vpp_api := addr_both false.

(** [memset], [is_ipv6 = false], [memcpy(addr, src, 4)]. *)
Definition ip4_of (src : bytes) : vpp_ip_t := mk_vip false (cwrite (zeros 16) 0 (take 4 src)).

Definition route_prefix (r : danos_route) : vpp_prefix_t :=
  mk_vprefix (ip4_of (ip_addr (pfx_addr (rt_prefix r)))) (pfx_len (rt_prefix r)).

(** One round of the next-hop loop. *)
Definition adapter_path (gw : bytes) (oif : Z) : Z * vpp_ip_t :=
  let i := vpp_adapter_map_ifindex env oif in
  (if i =? 0 then 1 else i, ip4_of gw).

(** The paths of a resolved route: its members, or the single gateway. *)
Definition adapter_paths (res : danos_resolved_route) : list (Z * vpp_ip_t) :=
  if rr_nh_count res =? 0 then [adapter_path (rr_gw res) (rr_oif res)]
  else (fun i => adapter_path (default [] (rr_nh_gw res !! i)) (default 0 (rr_nh_oif res !! i)))
         <$> seq 0 (Z.to_nat (rr_nh_count res)).

Definition vpp_adapter_route_add (res : danos_resolved_route) (a : vpp_api) : danos_status * vpp_api :=
  let r := rr_route res in
  if negb (ip_af (pfx_addr (rt_prefix r)) =? DANOS_AF_IPV4) then (DANOS_ERR_NOT_SUPPORTED, a) else
  if 64 <? rr_nh_count res then (DANOS_ERR_INVALID_ARG, a) else
  vpp_msg_ip_route_add_del true (rt_vrf_id r) (route_prefix r) (adapter_paths res) a.

Definition vpp_adapter_route_del (res : danos_resolved_route) (a : vpp_api) : danos_status * vpp_api :=
  let r := rr_route res in
  if negb (ip_af (pfx_addr (rt_prefix r)) =? DANOS_AF_IPV4) then (DANOS_ERR_NOT_SUPPORTED, a) else
  vpp_msg_ip_route_add_del false (rt_vrf_id r) (route_prefix r) [(1, mk_vip false (zeros 16))] a.

Definition vpp_adapter_vrf_add (v : danos_vrf) : vpp_api -> danos_status * vpp_api :=
  vpp_msg_ip_table_add_del (vrf_vrf_id v) false (Some (c_str (vrf_name v))) true.

Definition vpp_adapter_vrf_del (vrf_id : Z) : vpp_api -> danos_status * vpp_api :=
  vpp_msg_ip_table_add_del vrf_id false None false.

Definition g_vpp_ops : danos_backend_ops vpp_api :=
  mk_ops vpp_api (Some vpp_adapter_iface_up) (Some vpp_adapter_iface_addr_set)
    (Some vpp_adapter_iface_addr_del) (Some vpp_adapter_route_add) (Some vpp_adapter_route_del)
    (Some vpp_adapter_vrf_add) (Some vpp_adapter_vrf_del).
End Adapter.

(** The operations to install, [None] for [-1]. *)
Definition danos_vpp_adapter_install (env : option bytes) (e : vpp_env) (real : bool)
    (sock_path : option bytes) (stack : bytes) (now : Z) (a : vpp_api)
    : option (danos_backend_ops vpp_api) * vpp_api :=
  let a := danos_vpp_api_init e a in
  if negb real then (Some (g_vpp_ops env), danos_vpp_api_enable_mock e a) else
  let a := danos_vpp_api_set_sock_path sock_path a in
  let '(ok, a) := danos_vpp_api_connect e stack now a in
  if ok then (Some (g_vpp_ops env), a) else (None, a).

(** ** Mapper (vpp_mapper.c) *)

Record vpp_api_stats_t := mk_vstats {
  sw_interface_create : Z; sw_interface_delete : Z;
  ip_table_create : Z; ip_table_delete : Z;
  ip_route_add : Z; ip_route_del : Z;
  ip_neighbor_add : Z; ip_neighbor_del : Z;
  classify_add_table : Z; classify_add_del_session : Z;
  policer_add : Z; policer_del : Z;
}.

Definition vpp_mapper_reset_stats : vpp_api_stats_t := mk_vstats 0 0 0 0 0 0 0 0 0 0 0 0.

(** The counters by position, to increment one. *)
Definition stats_list (s : vpp_api_stats_t) : list Z :=
  [sw_interface_create s; sw_interface_delete s; ip_table_create s; ip_table_delete s;
   ip_route_add s; ip_route_del s; ip_neighbor_add s; ip_neighbor_del s;
   classify_add_table s; classify_add_del_session s; policer_add s; policer_del s].

Definition stats_of (l : list Z) : vpp_api_stats_t :=
  let n i := default 0 (l !! i) in
  mk_vstats (n 0%nat) (n 1%nat) (n 2%nat) (n 3%nat) (n 4%nat) (n 5%nat) (n 6%nat) (n 7%nat)
    (n 8%nat) (n 9%nat) (n 10%nat) (n 11%nat).

Definition bump (i : nat) (s : vpp_api_stats_t) : vpp_api_stats_t :=
  stats_of (alter (fun x => u64 (x + 1)) i (stats_list s)).

Record mapper := mk_mapper { g_stats : vpp_api_stats_t; mapper_api : vpp_api }.

Definition count_call (i : nat) (m : mapper) : mapper := mk_mapper (bump i (g_stats m)) (mapper_api m).

(** [danos_vpp_api_is_connected() && !danos_vpp_api_is_mock()]. *)
Definition vpp_live (a : vpp_api) : bool := danos_vpp_api_is_connected a && negb (danos_vpp_api_is_mock a).

(** Make the call on a live connection, else report success. *)
Definition when_live (call : vpp_api -> danos_status * vpp_api) (m : mapper) : danos_status * mapper :=
  if vpp_live (mapper_api m)
  then let '(st, a) := call (mapper_api m) in (st, mk_mapper (g_stats m) a)
  else (DANOS_OK, m).

Definition vpp_map_iface_create (iface : option danos_iface) (m : mapper) : danos_status * mapper :=
  match iface with
  | None => (DANOS_ERR_INVALID_ARG, m)
  | Some i =>
      if iface_ifindex i =? 0 then (DANOS_ERR_INVALID_ARG, m) else
      if default 0 (head (iface_name i)) =? 0 then (DANOS_ERR_INVALID_ARG, m) else
      if (iface_mtu i <? 68) || (9000 <? iface_mtu i) then (DANOS_ERR_INVALID_ARG, m) else
      when_live (vpp_msg_sw_interface_set_flags (iface_ifindex i) true) (count_call 0 m)
  end.

Definition vpp_map_iface_delete (ifindex : Z) (m : mapper) : danos_status * mapper :=
  if ifindex =? 0 then (DANOS_ERR_INVALID_ARG, m) else (DANOS_OK, count_call 1 m).

Definition vpp_map_vrf_create (vrf : option danos_vrf) (m : mapper) : danos_status * mapper :=
  match vrf with
  | None => (DANOS_ERR_INVALID_ARG, m)
  | Some v =>
      if vrf_vrf_id v =? 0 then (DANOS_ERR_INVALID_ARG, m) else
      when_live (vpp_msg_ip_table_add_del (vrf_vrf_id v) false None true) (count_call 2 m)
  end.

Definition vpp_map_vrf_delete (vrf_id : Z) (m : mapper) : danos_status * mapper :=
  if vrf_id =? 0 then (DANOS_ERR_INVALID_ARG, m) else (DANOS_OK, count_call 3 m).

Definition vpp_map_route_create (route : option danos_route) (m : mapper) : danos_status * mapper :=
  match route with
  | None => (DANOS_ERR_INVALID_ARG, m)
  | Some r =>
      if 128 <? pfx_len (rt_prefix r) then (DANOS_ERR_INVALID_ARG, m) else
      if rt_nhgroup_id r =? 0 then (DANOS_ERR_INVALID_ARG, m) else (DANOS_OK, count_call 4 m)
  end.

Definition vpp_map_route_delete (route : option danos_route) (m : mapper) : danos_status * mapper :=
  match route with
  | None => (DANOS_ERR_INVALID_ARG, m)
  | Some _ => (DANOS_OK, count_call 5 m)
  end.

Definition vpp_map_nh_create (nh : option danos_nexthop) (m : mapper) : danos_status * mapper :=
  match nh with
  | None => (DANOS_ERR_INVALID_ARG, m)
  | Some n => if nh_id n =? 0 then (DANOS_ERR_INVALID_ARG, m) else (DANOS_OK, count_call 6 m)
  end.

Definition vpp_map_nhgroup_create (grp : option danos_nhgroup) (m : mapper) : danos_status * mapper :=
  match grp with
  | None => (DANOS_ERR_INVALID_ARG, m)
  | Some g =>
      if grp_id g =? 0 then (DANOS_ERR_INVALID_ARG, m) else
      if (grp_nh_count g =? 0) || (64 <? grp_nh_count g) then (DANOS_ERR_INVALID_ARG, m) else
      if existsb (fun id => id =? 0) (take (Z.to_nat (grp_nh_count g)) (grp_nh_ids g))
      then (DANOS_ERR_INVALID_ARG, m) else (DANOS_OK, count_call 4 m)
  end.

Definition vpp_map_acl_table_create (tbl : option danos_acl_table) (m : mapper) : danos_status * mapper :=
  match tbl with
  | None => (DANOS_ERR_INVALID_ARG, m)
  | Some t => if at_table_id t =? 0 then (DANOS_ERR_INVALID_ARG, m) else (DANOS_OK, count_call 8 m)
  end.

Definition DANOS_ACL_ACTION_PERMIT : Z := 1.
Definition DANOS_ACL_ACTION_SET_DSCP : Z := 6.

Definition vpp_map_acl_rule_add (table_id : Z) (rule : option danos_acl_rule) (m : mapper)
    : danos_status * mapper :=
  match rule with
  | None => (DANOS_ERR_INVALID_ARG, m)
  | Some r =>
      if table_id =? 0 then (DANOS_ERR_INVALID_ARG, m) else
      if ar_rule_id r =? 0 then (DANOS_ERR_INVALID_ARG, m) else
      if (aa_action (ar_act r) <? DANOS_ACL_ACTION_PERMIT) || (DANOS_ACL_ACTION_SET_DSCP <? aa_action (ar_act r))
      then (DANOS_ERR_INVALID_ARG, m) else (DANOS_OK, count_call 9 m)
  end.

Definition vpp_map_qos_policy_create (p : option danos_qos_policy) (m : mapper) : danos_status * mapper :=
  match p with
  | None => (DANOS_ERR_INVALID_ARG, m)
  | Some p =>
      if qp_policy_id p =? 0 then (DANOS_ERR_INVALID_ARG, m) else
      if qp_cir_bps p =? 0 then (DANOS_ERR_INVALID_ARG, m) else
      if (0 <? qp_pir_bps p) && (qp_pir_bps p <? qp_cir_bps p) then (DANOS_ERR_INVALID_ARG, m) else
      when_live (vpp_msg_policer_add_del true (c_str (qp_name p)) p) (count_call 10 m)
  end.

Definition qos_policy_zero : danos_qos_policy := mk_qos_policy 0 (zeros 64) 0 0 0 0 0 0 0.

Definition vpp_map_qos_policy_delete (policy_id : Z) (m : mapper) : danos_status * mapper :=
  if policy_id =? 0 then (DANOS_ERR_INVALID_ARG, m) else
  when_live (vpp_msg_policer_add_del false (lit "cop-" ++ dec policy_id) qos_policy_zero) (count_call 11 m).

(** ** Capabilities (vpp_capability.c) *)

Definition kRouteFeatures : list bytes := [lit "ipv4"; lit "ipv6"; lit "multipath"].
Definition kEvpnFeatures : list bytes := [lit "type2"; lit "type3"; lit "type5"; lit "irb"; lit "mh"].
Definition kAclFeatures : list bytes := [lit "ingress"; lit "egress"; lit "ipv4"; lit "ipv6"; lit "l4"].
Definition kQosFeatures : list bytes := [lit "policer-single-rate"; lit "policer-dual-rate"].

Definition kVppCaps : list danos_capability :=
  [mk_capability DANOS_OBJ_IFACE true 1024 0 [] None;
   mk_capability DANOS_OBJ_VLAN true 4094 0 [] None;
   mk_capability DANOS_OBJ_VRF true 4096 0 [] None;
   mk_capability DANOS_OBJ_ROUTE true 1000000 3 kRouteFeatures None;
   mk_capability DANOS_OBJ_NEXTHOP true 1000000 0 [] None;
   mk_capability DANOS_OBJ_NHGROUP true 500000 0 [] None;
   mk_capability DANOS_OBJ_ACL true 16384 5 kAclFeatures None;
   mk_capability DANOS_OBJ_QOS true 1024 2 kQosFeatures None;
   mk_capability DANOS_OBJ_MPLS_LSP true 100000 0 [] None;
   mk_capability DANOS_OBJ_TUNNEL true 4096 0 [] None;
   mk_capability DANOS_OBJ_EVPN true 4096 5 kEvpnFeatures None;
   mk_capability DANOS_OBJ_MULTICAST false 0 0 [] None;
   mk_capability DANOS_OBJ_BFD true 1024 0 [] None].

Definition danos_vpp_capability_register (g : registry) : danos_status * registry :=
  danos_backend_register
    (Some (mk_backend_info (lit "vpp" ++ zeros 61) danos_dpa_get_version 13 kVppCaps)) g.

(** ** Properties *)

(** A connected client whose peer answers the next request with [retval] after
    [stale] other frames, and sends [rest] behind it. *)
Definition answers (a : vpp_api) (stale : list bytes) (reply_id retval : Z) (rest : bytes) : Prop :=
  let ctx := u32 (api_context (g_ctx a) + 1) in
  connected a /\ quiet (api_world a) /\ is_uint 4 retval /\ (length stale < 64)%nat /\
  Forall (fun p => reply_size_ok p /\ reply_context p <> ctx) stale /\
  w_in (api_world a) =
    concat (frame <$> stale) ++ frame (be_bytes 2 reply_id ++ be_bytes 4 ctx ++ be_bytes 4 retval) ++ rest.

(** What a request puts on the wire. *)
Definition request_wire (a : vpp_api) (msg_id : Z) (body : bytes) : bytes :=
  frame (payload (msg_id, be_bytes 4 (client_index (g_ctx a)) ++
                          be_bytes 4 (u32 (api_context (g_ctx a) + 1)) ++ body)).

Lemma u32_is_uint z : is_uint 4 (u32 z).
Proof. unfold is_uint. pose proof (u32_range z) as H. unfold is_u32 in H. cbn. lia. Qed.

Lemma reply_reads reply_id ctx retval :
  is_uint 4 ctx -> is_uint 4 retval ->
  let reply := be_bytes 2 reply_id ++ be_bytes 4 ctx ++ be_bytes 4 retval in
  reply_size_ok reply /\ reply_context reply = ctx /\ strlen reply = 10 /\
  exists r1 r2, vpp_rd_u32 (vpp_reader_init (drop 2 reply) 8) = (ctx, r1) /\
    vpp_rd_u32 r1 = (retval, r2) /\ vpp_reader_ok r2 = true.
Proof.
  intros Hc Hr reply.
  assert (Hlen : strlen reply = 10).
  { unfold strlen, reply. rewrite !length_app, !length_be_bytes. done. }
  assert (Hd : drop 2 reply = be_bytes 4 ctx ++ be_bytes 4 retval).
  { apply drop_app_length'. by rewrite length_be_bytes. }
  split; [unfold reply_size_ok, TRANSACT_BUF; lia|]. split.
  { unfold reply_context. rewrite cread_eq, Hd, take_app_length' by (by rewrite length_be_bytes).
    by apply be_val_be_bytes. }
  split; [done|]. rewrite Hd.
  assert (Ha : ahead (vpp_reader_init ((be_bytes 4 ctx ++ be_bytes 4 retval) ++ []) 8)
                 (be_bytes 4 ctx ++ be_bytes 4 retval)).
  { apply reader_ahead_init. unfold strlen. rewrite length_app, !length_be_bytes. lia. }
  rewrite app_nil_r in Ha.
  destruct (reads_run _ _ _ _ _ (u32_reads ctx Hc) Ha) as (r1 & Hr1 & Ha1).
  rewrite <- (app_nil_r (be_bytes 4 retval)) in Ha1.
  destruct (reads_run _ _ _ _ _ (u32_reads retval Hr) Ha1) as (r2 & Hr2 & Ha2).
  exists r1, r2. split_and!; [done|done|by eapply ahead_ok].
Qed.

Lemma transact_named_ok name msg_id body a stale reply_id retval rest :
  danos_vpp_api_lookup_msg_id name a = Some msg_id -> answers a stale reply_id retval rest ->
  strlen body < 2 ^ 30 ->
  exists a', transact_named name body a = (retval_to_status (s32 retval), a') /\
    connected a' /\ quiet (api_world a') /\ w_in (api_world a') = rest /\
    w_out (api_world a') = w_out (api_world a) ++ request_wire a msg_id body /\
    msg_table (g_ctx a') = msg_table (g_ctx a) /\
    api_context (g_ctx a') = u32 (api_context (g_ctx a) + 1) /\
    client_index (g_ctx a') = client_index (g_ctx a).
Proof.
  intros Hl (Hc & Hq & Hr & Hlt & Hst & Hin) Hb. unfold transact_named. rewrite Hl.
  set (ctx := u32 (api_context (g_ctx a) + 1)) in *.
  destruct (reply_reads reply_id ctx retval (u32_is_uint _) Hr) as (Hsz & Hx & Hlen & r1 & r2 & H1 & H2 & H3).
  set (reply := be_bytes 2 reply_id ++ _) in *.
  rewrite (transact_spec msg_id body 512 a stale reply rest) by done.
  rewrite Hlen. change (10 <? 8) with false. change (10 - 2) with 8.
  change (Z.to_nat (Z.min 10 512)) with 10%nat. cbv beta iota zeta.
  rewrite (take_ge reply) by (unfold strlen in Hlen; lia). rewrite H1, H2, H3.
  eexists. split; [reflexivity|]. split; [by apply connected_received|].
  split; [by split|]. split; [done|]. split; [done|]. cbn.
  induction (length stale) as [|n IH]; [done|]. apply IH. lia.
Qed.

(** Interface numbers stay 32-bit. *)
Lemma map_search_uint fuel p i : is_uint 4 i -> is_uint 4 (map_search fuel p i).
Proof.
  intros Hi. revert p. induction fuel as [|fuel IH]; intros p; cbn [map_search]; [done|].
  destruct p as [|c p]; [done|]. destruct (strtoul (c :: p)) as [from e].
  destruct e as [|c' e]; [done|]. destruct (_ || _); [done|].
  pose proof (strtoul_nonneg e) as Hto. destruct (strtoul e) as [to e2]. cbn [fst] in Hto.
  destruct (_ =? _)%nat; [done|]. destruct (_ && _) eqn:Hm; [|apply IH].
  bool_prop. unfold is_uint. cbn. lia.
Qed.

Lemma map_ifindex_uint env i : is_uint 4 i -> is_uint 4 (vpp_adapter_map_ifindex env i).
Proof. destruct env as [[|c s]|]; [done|by apply map_search_uint|done]. Qed.

(** A route whose interfaces are 32-bit numbers. *)
Definition route_ok (res : danos_resolved_route) : Prop :=
  ip_af (pfx_addr (rt_prefix (rr_route res))) = DANOS_AF_IPV4 /\ 0 <= rr_nh_count res <= 64 /\
  is_uint 4 (rt_vrf_id (rr_route res)) /\ is_uint 1 (pfx_len (rt_prefix (rr_route res))) /\
  (rr_nh_count res = 0 -> is_uint 4 (rr_oif res)) /\
  Forall (is_uint 4) (take (Z.to_nat (rr_nh_count res)) (rr_nh_oif res)).

Lemma adapter_path_uint env gw oif : is_uint 4 oif -> is_uint 4 (fst (adapter_path env gw oif)).
Proof.
  intros Ho. unfold adapter_path. cbn. pose proof (map_ifindex_uint env oif Ho) as H.
  destruct (_ =? 0); [unfold is_uint; cbn; lia|done].
Qed.

Lemma adapter_paths_ok env res :
  route_ok res ->
  path_count_ok (adapter_paths env res) /\ Forall (fun q => is_uint 4 (fst q)) (adapter_paths env res).
Proof.
  intros (_ & Hn & _ & _ & Ho & Hos). unfold adapter_paths, path_count_ok.
  destruct (Z.eqb_spec (rr_nh_count res) 0) as [|Hne].
  - split; [cbn; lia|]. constructor; [by apply adapter_path_uint, Ho|constructor].
  - rewrite length_fmap, length_seq. split; [lia|]. apply Forall_fmap, Forall_forall.
    intros i [_ Hlt]%elem_of_seq. cbn -[adapter_path].
    apply adapter_path_uint. destruct (rr_nh_oif res !! i) as [o|] eqn:Hi; cbn.
    + rewrite <- (lookup_take_lt _ (Z.to_nat (rr_nh_count res))) in Hi by lia. by eapply Forall_lookup in Hi.
    + unfold is_uint. cbn. lia.
Qed.

(** What the adapter does with a resolved route on a connection that answers. *)
Lemma vpp_route_run env res a msg_id stale reply_id retval rest :
  route_ok res -> danos_vpp_api_lookup_msg_id (lit "ip_route_add_del") a = Some msg_id ->
  answers a stale reply_id retval rest ->
  let r := rr_route res in
  exists a' body, vpp_adapter_route_add env res a = (retval_to_status (s32 retval), a') /\
    connected a' /\ quiet (api_world a') /\ w_in (api_world a') = rest /\
    w_out (api_world a') = w_out (api_world a) ++ request_wire a msg_id body /\
    fst (read_route (vpp_reader_init body (strlen body))) =
      mk_wire_route 1 0 (rt_vrf_id r) 0 (Some (addr_union (ip4_of (ip_addr (pfx_addr (rt_prefix r))))))
        (pfx_len (rt_prefix r)) (seen_path (rt_vrf_id r) <$> adapter_paths env res) /\
    msg_table (g_ctx a') = msg_table (g_ctx a) /\
    api_context (g_ctx a') = u32 (api_context (g_ctx a) + 1) /\
    client_index (g_ctx a') = client_index (g_ctx a).
Proof.
  intros Hok Hl Hans r. destruct (adapter_paths_ok env res Hok) as [Hcount Hifs].
  pose proof Hok as (Haf & Hn & Hvrf & Hlen & _). pose proof Hans as (_ & [_ Hm] & _).
  unfold vpp_adapter_route_add. rewrite Haf. change (DANOS_AF_IPV4 =? DANOS_AF_IPV4) with true.
  cbn [negb]. rewrite (proj2 (Z.ltb_ge 64 _)) by lia.
  unfold vpp_msg_ip_route_add_del, encode_and_transact. rewrite Hm.
  assert (H1 : is_uint 1 (b2z true)) by (unfold is_uint; cbn; lia).
  rewrite (encode_route_eq (b2z true) _ (route_prefix (rr_route res)) _ H1 Hlen Hcount).
  replace (with_world (with_heap [] (api_world a)) a) with a
    by (destruct a as [c i w], w; cbn in Hm; by subst).
  set (body := route_wire _ _ _ _).
  assert (Hb : strlen body = 29 + 167 * Z.of_nat (length (adapter_paths env res)))
    by apply strlen_route_wire.
  destruct (transact_named_ok (lit "ip_route_add_del") msg_id body a stale reply_id retval rest)
    as (a' & Hrun & Hc' & Hq' & Hin' & Hout' & Hctx'); [done|done|destruct Hcount; lia|].
  exists a', body. do 5 (split; [done|]). split; [|done].
  destruct (reads_init _ body [] _ (strlen body)
    (route_reads (b2z true) (rt_vrf_id r) (route_prefix r) _ H1 Hvrf Hlen Hcount Hifs)) as (rd & Hrd & _).
  { destruct Hcount; lia. }
  rewrite app_nil_r in Hrd. by rewrite Hrd.
Qed.

(** *** The configured interface map *)

(** The text [from:to,from:to,...] of a map, and what it means: the first pair
    for the interface, or the interface itself. *)
Fixpoint ifmap_text (l : list (Z * Z)) : bytes :=
  match l with
  | [] => []
  | [(a, b)] => dec a ++ 58 :: dec b
  | (a, b) :: l => dec a ++ 58 :: dec b ++ 44 :: ifmap_text l
  end.

Fixpoint translate (l : list (Z * Z)) (i : Z) : Z :=
  match l with
  | [] => i
  | (a, b) :: l => if a =? i then b else translate l i
  end.

Definition ifmap_env (l : list (Z * Z)) : option bytes := match l with [] => None | _ => Some (ifmap_text l) end.

Definition ifmap_ok (l : list (Z * Z)) : Prop := Forall (fun x => is_u32 x.1 /\ is_u32 x.2) l.

(** One pair of the text, which ends there or at a comma. *)
Lemma map_search_pair fuel a b t i :
  is_u32 a -> is_u32 b -> starts_digit t = false ->
  map_search (S fuel) (dec a ++ 58 :: dec b ++ t) i =
  if a =? i then b else map_search fuel (match t with c :: t' => if c =? 44 then t' else t | [] => [] end) i.
Proof.
  unfold is_u32. intros Ha Hb Ht. cbn [map_search].
  rewrite (strtoul_dec a (58 :: dec b ++ t)), (strtoul_dec b t) by (done || lia).
  pose proof (dec_nonempty a ltac:(lia)) as Na. pose proof (dec_nonempty b ltac:(lia)) as Nb.
  destruct (dec a ++ 58 :: dec b ++ t) eqn:E; [by destruct (dec a)|]. rewrite <- E. clear E.
  rewrite (proj2 (Nat.eqb_neq _ _)).
  2: { rewrite !length_app. destruct (dec a); [done|]. cbn [length]. lia. }
  rewrite Z.eqb_refl. cbn [orb negb]. rewrite (proj2 (Nat.eqb_neq _ _)).
  2: { rewrite length_app. destruct (dec b); [done|]. cbn [length]. lia. }
  by rewrite (proj2 (Z.leb_le _ _)), andb_true_r by lia.
Qed.

Lemma map_search_text fuel l i :
  ifmap_ok l -> (length (ifmap_text l) < fuel)%nat -> map_search fuel (ifmap_text l) i = translate l i.
Proof.
  intros Hl. revert fuel. induction Hl as [|[a b] l [Ha Hb] Hl IH]; intros fuel Hf; [by destruct fuel|].
  cbn [fst snd] in Ha, Hb. destruct fuel as [|fuel]; [lia|]. cbn [translate].
  destruct l as [|x l].
  - cbn [ifmap_text]. rewrite <- (app_nil_r (dec b)), map_search_pair by done. by destruct fuel.
  - change (ifmap_text ((a, b) :: x :: l)) with (dec a ++ 58 :: dec b ++ 44 :: ifmap_text (x :: l)) in *.
    rewrite map_search_pair by done. change (44 =? 44) with true. cbv iota.
    rewrite IH; [done|]. rewrite length_app in Hf. cbn [length] in Hf. rewrite length_app in Hf. cbn [length] in Hf. lia.
Qed.

(** The search in the environment's text is the lookup in the map. *)
Lemma map_ifindex_translate l i : ifmap_ok l -> vpp_adapter_map_ifindex (ifmap_env l) i = translate l i.
Proof.
  intros Hl. destruct l as [|[a b] l]; [done|]. unfold ifmap_env, vpp_adapter_map_ifindex.
  destruct (ifmap_text ((a, b) :: l)) as [|c t] eqn:E.
  - exfalso. apply Forall_cons in Hl as [[Ha _] _]. unfold is_u32 in Ha. cbn in Ha.
    pose proof (dec_nonempty a ltac:(lia)). cbn [ifmap_text] in E. destruct (dec a); [done|]. by destruct l.
  - rewrite <- E. apply map_search_text; [done|lia].
Qed.

(** *** What VPP is to get *)

(** The gateways and interfaces of a resolved route: of its members, or its
    own when it has none. *)
Definition hops_of (res : danos_resolved_route) : list (bytes * Z) :=
  if rr_nh_count res =? 0 then [(rr_gw res, rr_oif res)]
  else take (Z.to_nat (rr_nh_count res)) (zip (rr_nh_gw res) (rr_nh_oif res)).

(** The path of the request for a next hop: interface 1 stands for a next hop
    without one, and an all-zero gateway is resolved on the interface. *)
Definition path_for (l : list (Z * Z)) (vrf : Z) (hop : bytes * Z) : wire_path :=
  let i := translate l hop.2 in
  let gw := take 4 hop.1 in
  mk_wire_path (if i =? 0 then 1 else i) vrf 0 1 0 FIB_PATH_TYPE_API_NORMAL
    (if bool_decide (gw = zeros 4) then FIB_PATH_FLAG_API_RESOLVE_VIA_ATTACHED else 0)
    FIB_PATH_NH_PROTO_API_IP4 (Some (gw ++ zeros 12)) 0.

(** An IPv4 route with as many next hops as it says, at most 64. *)
Record resolved_ok (res : danos_resolved_route) : Prop := {
  ro_ok : route_ok res;
  ro_gws : rr_nh_count res <= Z.of_nat (length (rr_nh_gw res));
  ro_oifs : rr_nh_count res <= Z.of_nat (length (rr_nh_oif res));
  ro_hops : Forall (fun hop => length hop.1 = 16%nat) (hops_of res);
  ro_prefix : length (ip_addr (pfx_addr (rt_prefix (rr_route res)))) = 16%nat;
}.

Lemma ip4_union src : length src = 16%nat -> addr_union (ip4_of src) = take 4 src ++ zeros 12.
Proof.
  intros Hl. unfold addr_union, ip4_of, cwrite, addr_size. cbn [vip_addr vip_is_ipv6].
  assert (H4 : length (take 4 src) = 4%nat) by (rewrite length_take; lia).
  rewrite !take_0, !app_nil_l, take_app_length' by done. by rewrite H4.
Qed.

Lemma forallb_zeros s : forallb (fun c => c =? 0) s = bool_decide (s = zeros (length s)).
Proof.
  induction s as [|c s IH]; [done|]. cbn [forallb]. rewrite IH. change (zeros (length (c :: s))) with (0 :: zeros (length s)).
  destruct (Z.eqb_spec c 0) as [->|Hc]; cbn [andb].
  - apply bool_decide_ext. split; [intros H; f_equal; exact H|intros H; by injection H].
  - symmetry. apply bool_decide_eq_false_2. congruence.
Qed.

Lemma seen_adapter_path l vrf gw oif :
  ifmap_ok l -> length gw = 16%nat ->
  seen_path vrf (adapter_path (ifmap_env l) gw oif) = path_for l vrf (gw, oif).
Proof.
  intros Hl Hg. unfold seen_path, adapter_path, path_for. cbn [fst snd].
  rewrite map_ifindex_translate, ip4_union by done. f_equal.
  assert (H4 : length (take 4 gw) = 4%nat) by (rewrite length_take; lia).
  unfold flags_of, path_attached, ip4_of, addr_size, cwrite. cbn [vip_addr vip_is_ipv6].
  by rewrite take_0, app_nil_l, take_app_length', forallb_zeros, H4 by done.
Qed.

Lemma adapter_paths_seen l vrf res :
  ifmap_ok l -> resolved_ok res ->
  seen_path vrf <$> adapter_paths (ifmap_env l) res = path_for l vrf <$> hops_of res.
Proof.
  intros Hl [(_ & Hn & _) Hgw Hoif Hh _]. unfold adapter_paths, hops_of in *.
  destruct (Z.eqb_spec (rr_nh_count res) 0) as [|Hne].
  { apply Forall_cons in Hh as [Hh _]. cbn [fmap list_fmap]. f_equal. by apply seen_adapter_path. }
  apply list_eq. intros i. rewrite <- list_fmap_compose, !list_lookup_fmap.
  destruct (decide (i < Z.to_nat (rr_nh_count res))%nat) as [Hi|Hi].
  - rewrite lookup_seq_lt, lookup_take_lt by done. cbn [fmap option_fmap option_map Nat.add].
    destruct (lookup_lt_is_Some_2 (rr_nh_gw res) i ltac:(lia)) as [gw Eg].
    destruct (lookup_lt_is_Some_2 (rr_nh_oif res) i ltac:(lia)) as [oif Eo].
    assert (Ez : zip (rr_nh_gw res) (rr_nh_oif res) !! i = Some (gw, oif)) by (by rewrite lookup_zip_with, Eg, Eo).
    rewrite Ez. cbn [compose]. rewrite Eg, Eo. cbn [default from_option id fmap option_fmap option_map]. f_equal. apply seen_adapter_path; [done|].
    apply (proj1 (Forall_lookup _ _) Hh i (gw, oif)). by rewrite lookup_take_lt.
  - rewrite lookup_seq_ge, lookup_take_ge by lia. done.
Qed.

(** C11. A resolved IPv4 route with up to 64 next hops reaches VPP: with any
    configured interface map and on a connection whose peer answers, the
    adapter sends one route request whose fields read back as an addition to
    the route's table, its prefix, and in order one path per next hop, each
    with the first four bytes of its gateway and its interface translated by
    the map; a route without members has the one path of its own gateway and
    interface, interface 0 becomes 1, and a path without gateway is marked to
    be resolved on its interface.  The status is VPP's answer, and the
    connection is ready for the next request. *)
Theorem vpp_route_reaches_fib l res a msg_id stale reply_id retval rest :
  ifmap_ok l -> resolved_ok res -> danos_vpp_api_lookup_msg_id (lit "ip_route_add_del") a = Some msg_id ->
  answers a stale reply_id retval rest ->
  let r := rr_route res in
  let '(st, a') := vpp_adapter_route_add (ifmap_env l) res a in
  st = retval_to_status (s32 retval) /\ connected a' /\ quiet (api_world a') /\
  w_in (api_world a') = rest /\
  exists body,
    w_out (api_world a') = w_out (api_world a) ++ request_wire a msg_id body /\
    fst (read_route (vpp_reader_init body (strlen body))) =
      mk_wire_route 1 0 (rt_vrf_id r) 0 (Some (take 4 (ip_addr (pfx_addr (rt_prefix r))) ++ zeros 12))
        (pfx_len (rt_prefix r)) (path_for l (rt_vrf_id r) <$> hops_of res).
Proof.
  intros Hmap Hok Hl Hans r.
  destruct (vpp_route_run (ifmap_env l) res a msg_id stale reply_id retval rest (ro_ok res Hok) Hl Hans)
    as (a' & body & -> & Hc' & Hq' & Hin' & Hout' & Hrd & _).
  split_and!; try done; try apply Hc'; try apply Hq'. exists body. split; [done|].
  by rewrite Hrd, adapter_paths_seen, ip4_union by (done || apply Hok).
Qed.

(** Two next hops behind Linux interfaces 2 and 3, VPP interfaces 1 and 9. *)
Definition demo_map : list (Z * Z) := [(2, 1); (3, 9)].
Definition demo_res : danos_resolved_route :=
  mk_resolved (mk_route 5 (mk_ip_prefix (mk_ip_addr 4 (lit "abcd" ++ zeros 12)) 24) 0 0 0 0 0)
    false (zeros 16) 0 2 [lit "gat1" ++ zeros 12; lit "gat2" ++ zeros 12] [2; 3].

Lemma vpp_route_reaches_fib_witness :
  let a := demo_connected (concat (frame <$> []) ++ frame (be_bytes 2 701 ++ be_bytes 4 1 ++ be_bytes 4 0) ++ []) in
  fst (vpp_adapter_route_add (ifmap_env demo_map) demo_res a) = DANOS_OK /\
  wp_sw_if_index <$> (path_for demo_map 5 <$> hops_of demo_res) = [1; 9] /\ ifmap_env demo_map = Some (lit "2:1,3:9").
Proof.
  intros a. split; [|split; vm_compute; reflexivity].
  pose proof (vpp_route_reaches_fib demo_map demo_res a 700 [] 701 0 []) as H.
  destruct (vpp_adapter_route_add (ifmap_env demo_map) demo_res a) as [st a']. destruct H as [-> _].
  - repeat constructor; cbn; lia.
  - split; [|cbn; lia|cbn; lia|by repeat constructor|reflexivity].
    unfold route_ok, is_uint. cbn. split_and!; try lia; repeat constructor; cbn; lia.
  - vm_compute. reflexivity.
  - refine (conj _ (conj _ (conj _ (conj _ (conj _ _))))).
    + split; vm_compute; [reflexivity|discriminate].
    + split; vm_compute; reflexivity.
    + unfold is_uint. cbn. lia.
    + cbn. lia.
    + constructor.
    + vm_compute. reflexivity.
  - reflexivity.
Defined.

(** ** The interface map *)

(** The search does not depend on the fuel once it exceeds the text. *)
Lemma map_search_fuel n m p i :
  (length p < n)%nat -> (length p < m)%nat -> map_search n p i = map_search m p i.
Proof.
  revert m p. induction n as [|n IH]; intros [|m] p Hn Hm; try lia. cbn [map_search].
  destruct p as [|c p]; [done|]. pose proof (strtoul_length (c :: p)) as H1.
  destruct (strtoul (c :: p)) as [from e]. cbn [snd] in H1. destruct e as [|c' e]; [done|].
  destruct (_ || _); [done|]. pose proof (strtoul_length e) as H2.
  destruct (strtoul e) as [to e2]. cbn [snd] in H2. destruct (_ =? _)%nat; [done|].
  destruct (_ && _); [done|]. cbn [length] in *.
  apply IH; (destruct e2 as [|c2 e2]; [|destruct (c2 =? 44)]); cbn [length] in *; lia.
Qed.

(** ** Policers *)

Definition policer_entries : list (Z * bytes) := [(800, lit "policer_add_del_2b31dd38")].

(** The operation and the name in the payload of a policer request. *)
Definition policer_name (p : bytes) : Z * bytes :=
  (default 0 (p !! 10%nat), take (Z.to_nat (default 0 (p !! 11%nat))) (drop 12 p)).

Definition policer_replies : bytes :=
  concat ((fun ctx => frame (be_bytes 2 801 ++ be_bytes 4 ctx ++ be_bytes 4 0)) <$> [1; 2]).

Definition demo_policy : danos_qos_policy := mk_qos_policy 7 (lit "edge" ++ zeros 60) 1000000 1500 0 0 0 0 0.

(** A policer is created under its policy's name and deleted under another:
    creating policy 7 named [edge] and deleting policy 7 over one connection
    succeeds twice, but the requests on the wire name [edge] and [cop-7], so
    VPP keeps the policer. *)
Theorem vpp_policer_delete_misses :
  let a := snd (danos_vpp_api_connect demo_env [] 9
             (demo_client (frame (handshake_reply 16 0 0 3 policer_entries) ++ policer_replies))) in
  let '(st1, m1) := vpp_map_qos_policy_create (Some demo_policy) (mk_mapper vpp_mapper_reset_stats a) in
  let '(st2, m2) := vpp_map_qos_policy_delete 7 m1 in
  st1 = DANOS_OK /\ st2 = DANOS_OK /\ policer_add (g_stats m2) = 1 /\ policer_del (g_stats m2) = 1 /\
  (option_map policer_name <$> drop 1 (fst (recv_frames 3 512 (w_out (api_world (mapper_api m2))))))
    = [Some (1, lit "edge"); Some (0, lit "cop-7")].
Proof. vm_compute. split_and!; reflexivity. Qed.

(** ** IPv6 *)

(** VPP declares IPv6 routes, but its adapter refuses every one of them. *)
Lemma vpp_ipv6_routes_refused env res a :
  ip_af (pfx_addr (rt_prefix (rr_route res))) = DANOS_AF_IPV6 ->
  In (lit "ipv6") kRouteFeatures /\
  vpp_adapter_route_add env res a = (DANOS_ERR_NOT_SUPPORTED, a).
Proof.
  intros Haf. split; [vm_compute; auto|]. unfold vpp_adapter_route_add. by rewrite Haf.
Qed.
