(* ===== verification/VppStat.v ===== *)
(** * The VPP statistics segment: danos-vpp vpp_stat.c

    The client maps a segment that VPP goes on writing.  Memory is a timeline
    [seg]: the [k]-th load of the client sees [seg k].  A load takes one tick,
    and a load outside the mapping is a fault ([None]).  Pointers are offsets
    from the base of the mapping, in 64-bit arithmetic. *)

From stdpp Require Import base decidable list numbers strings relations.
From Stdlib Require Import ZArith Lia.
From S2P Require Import Prelude CStr VppWire VppMsgs VppApi.

Declare Scope stat_scope.
Open Scope stat_scope.

(** ** Loads *)

Definition stat_io (A : Type) : Type := (nat -> bytes) -> nat -> option (A * nat).

Definition ret {A} (x : A) : stat_io A := fun _ t => Some (x, t).

Definition bind {A B} (m : stat_io A) (k : A -> stat_io B) : stat_io B :=
  fun seg t => match m seg t with Some (x, t) => k x seg t | None => None end.

Notation "'let*' x := m 'in' k" := (bind m (fun x => k))
  (at level 10, x pattern, m at level 100, k at level 200) : stat_scope.

(** [n] bytes at [off], as a little-endian number. *)
Definition load (off : Z) (n : nat) : stat_io Z :=
  fun seg t =>
    if (0 <=? off) && (off + Z.of_nat n <=? Z.of_nat (length (seg t)))
    then Some (le_val (cread (seg t) (Z.to_nat off) n), S t) else None.

(** ** Layout *)

Definition STAT_DIR_MAX : Z := 65536.
Definition STAT_DIR_TYPE_SCALAR : Z := 1.
Definition STAT_DIR_TYPE_SIMPLE_COUNTER : Z := 2.
Definition STAT_DIR_TYPE_COMBINED_COUNTER : Z := 3.

(** [stat_shared_header_t]: the offsets of its members, and its size. *)
Definition hdr_version : stat_io Z := load 0 4.
Definition hdr_epoch : stat_io Z := load 8 8.
Definition hdr_in_progress : stat_io Z := load 16 8.
Definition hdr_directory_offset : stat_io Z := load 24 8.
Definition sizeof_header : Z := 40.

(** [stat_dir_entry_t], at [e]. *)
Definition sizeof_entry : Z := 32.
Definition e_type (e : Z) : stat_io Z := load e 4.
Definition e_value (e : Z) : stat_io Z := load (e + 8) 8.
Definition e_offset_vector (e : Z) : stat_io Z := load (e + 16) 8.
Definition e_name (e : Z) : stat_io Z := load (e + 24) 8.

Section reader.
Context (size : Z).

(** [base + offset], as a distance from [base]: large offsets point before it. *)
Definition at_base (offset : Z) : Z := if offset <? 2 ^ 63 then offset else offset - 2 ^ 64.

Definition seg_ptr (offset need : Z) : option Z :=
  if (offset =? 0) || (size <? u64 (offset + need)) then None else Some (at_base offset).

(** ** The directory *)

(** The first entry and their number. *)
Definition dir_first : stat_io (option (Z * Z)) :=
  let* d := hdr_directory_offset in
  match seg_ptr d 0 with
  | None => ret None
  | Some dir =>
      let* len := load (dir - 4) 4 in
      if (len =? 0) || (STAT_DIR_MAX <? len) then ret None else
      let* d := hdr_directory_offset in
      match seg_ptr (u64 (d + len * sizeof_entry)) 0 with
      | None => ret None
      | Some _ => ret (Some (dir, len))
      end
  end.

(** The loop that looks for the end of the name: [k] more bytes, from [p] on. *)
Fixpoint has_nul (k : nat) (p : Z) : stat_io bool :=
  match k with
  | O => ret false
  | S k =>
      if negb (p <? size) then ret false else
      let* c := load p 1 in
      if c =? 0 then ret true else has_nul k (p + 1)
  end.

Definition entry_name (e : Z) : stat_io (option Z) :=
  let* nm := e_name e in
  if nm =? 0 then ret None else
  let* nm := e_name e in
  match seg_ptr nm 1 with
  | None => ret None
  | Some n => let* ok := has_nul 256 n in ret (if ok : bool then Some n else None)
  end.

(** [strcmp(n, name) == 0]; [name] is a string of the client. *)
Fixpoint str_is (p : Z) (name : bytes) : stat_io bool :=
  let* c := load p 1 in
  match name with
  | [] => ret (c =? 0)
  | d :: name => if c =? d then str_is (p + 1) name else ret false
  end.

(** The loop over the workers, from number [i] on. *)
Fixpoint sum_workers (k : nat) (vec i idx sum : Z) : stat_io Z :=
  match k with
  | O => ret sum
  | S k =>
      let* o := load (vec + 8 * i) 8 in
      if o =? 0 then sum_workers k vec (i + 1) idx sum else
      let* o := load (vec + 8 * i) 8 in
      match seg_ptr o (u64 (u64 (idx + 1) * 8)) with
      | None => sum_workers k vec (i + 1) idx sum
      | Some cnt =>
          let* v := load (at_base (u64 (cnt + 8 * idx))) 8 in
          sum_workers k vec (i + 1) idx (u64 (sum + v))
      end
  end.

Definition read_simple_counter (e : Z) : stat_io (option Z) :=
  let* ov := e_offset_vector e in
  if ov =? 0 then ret None else
  let* ov := e_offset_vector e in
  match seg_ptr ov 4 with
  | None => ret None
  | Some vec =>
      let* n := load (vec - 4) 4 in
      if 4096 <? n then ret None else
      let* ov := e_offset_vector e in
      match seg_ptr (u64 (ov + n * 8)) 0 with
      | None => ret None
      | Some _ =>
          let* idx := e_value e in
          let* sum := sum_workers (Z.to_nat n) vec 0 idx 0 in
          ret (Some sum)
      end
  end.

(** The condition on the type, one load for each comparison that is made. *)
Definition is_counter (e : Z) : stat_io bool :=
  let* t := e_type e in
  if t =? STAT_DIR_TYPE_SCALAR then ret true else
  let* t := e_type e in
  if t =? STAT_DIR_TYPE_SIMPLE_COUNTER then ret true else
  let* t := e_type e in
  ret (t =? STAT_DIR_TYPE_COMBINED_COUNTER).

Definition entry_value (e : Z) : stat_io (option Z) :=
  let* t := e_type e in
  if t =? STAT_DIR_TYPE_SCALAR then let* v := e_value e in ret (Some v)
  else read_simple_counter e.

(** The loop over the directory; the value of the first entry of that name. *)
Fixpoint dir_walk (k : nat) (e : Z) (name : bytes) : stat_io (option Z) :=
  match k with
  | O => ret None
  | S k =>
      let* ok := is_counter e in
      if negb ok then dir_walk k (e + sizeof_entry) name else
      let* n := entry_name e in
      match n with
      | None => dir_walk k (e + sizeof_entry) name
      | Some n =>
          let* same := str_is n name in
          if negb same then dir_walk k (e + sizeof_entry) name else entry_value e
      end
  end.

(** What one turn of the loop finds. *)
Definition stat_lookup (name : bytes) : stat_io (option Z) :=
  let* d := dir_first in
  match d with
  | None => ret None
  | Some (dir, count) => dir_walk (Z.to_nat count) dir name
  end.

Fixpoint stat_spin (spins : nat) (name : bytes) : stat_io (option Z) :=
  match spins with
  | O => ret None
  | S spins =>
      let* busy := hdr_in_progress in
      if negb (busy =? 0) then stat_spin spins name else
      let* epoch := hdr_epoch in
      let* found := stat_lookup name in
      let* busy := hdr_in_progress in
      if negb (busy =? 0) then stat_spin spins name else
      let* again := hdr_epoch in
      if again =? epoch then ret found else stat_spin spins name
  end.

Definition stat_read (connected mapped : bool) (name : bytes) : stat_io (option Z) :=
  if negb connected || negb mapped then ret None else stat_spin 1000 name.

Definition danos_vpp_stat_query_real (connected mapped : bool) (name : bytes) : stat_io Z :=
  let* v := stat_read connected mapped name in ret (default 0 v).

(** Names are the pointers into the segment. *)
Fixpoint list_loop (k : nat) (e : Z) (room : Z) : stat_io (list (Z * Z)) :=
  match k with
  | O => ret []
  | S k =>
      if room <=? 0 then ret [] else
      let next room := list_loop k (e + sizeof_entry) room in
      let* nm := entry_name e in
      match nm with
      | None => next room
      | Some nm =>
          let* t := e_type e in
          let keep v := let* l := next (room - 1) in ret ((nm, v) :: l) in
          if t =? STAT_DIR_TYPE_SCALAR then let* v := e_value e in keep v else
          let* ok := (let* t := e_type e in
                      if t =? STAT_DIR_TYPE_SIMPLE_COUNTER then ret true else
                      let* t := e_type e in ret (t =? STAT_DIR_TYPE_COMBINED_COUNTER)) in
          if negb ok then next room else
          let* v := read_simple_counter e in
          match v with None => next room | Some v => keep v end
      end
  end.

(** [None] is -1; otherwise the entries that were stored. *)
Definition danos_vpp_stat_list_real (connected mapped : bool) (max_entries : Z) : stat_io (option (list (Z * Z))) :=
  if negb connected || negb mapped then ret None else
  let* busy := hdr_in_progress in
  if negb (busy =? 0) then ret None else
  let* d := dir_first in
  match d with
  | None => ret None
  | Some (dir, count) => let* l := list_loop (Z.to_nat count) dir max_entries in ret (Some l)
  end.

End reader.

(** ** Connecting *)

Definition STAT_SOCK_PATH_DEFAULT : bytes := lit "/run/vpp/stats.sock".

(** [g_stat]; [st_base]: the segment is mapped. *)
Record stat_client := mk_stat {
  st_fd : Z;
  st_mem_fd : Z;
  st_base : bool;
  st_size : Z;
  st_connected : bool;
  st_sock_path : bytes;
}.

(** Zero at the start of the program. *)
Definition stat_boot : stat_client := mk_stat 0 0 false 0 false [].

Definition stat_path (g : stat_client) : bytes :=
  if bool_decide (st_sock_path g = []) then STAT_SOCK_PATH_DEFAULT else st_sock_path g.

Definition danos_vpp_stat_set_sock_path (path : option bytes) (g : stat_client) : stat_client :=
  match path with
  | Some p => mk_stat (st_fd g) (st_mem_fd g) (st_base g) (st_size g) (st_connected g) (take 255 p)
  | None => g
  end.

(** The system calls whose effects outlive the function. *)
Inductive stat_sys := SysConnect (path : bytes) | SysClose (fd : Z) | SysUnmap.

(** What the system answers: [socket]; [connect]; [recvmsg], with the control
    messages as level, type and descriptor; [fstat]; [mmap]; and the version
    in the mapped header. *)
Record stat_os := mk_stat_os {
  so_socket : Z;
  so_connect : bytes -> bool;
  so_recvmsg : option (list (Z * Z * Z));
  so_fstat : option Z;
  so_mmap : bool;
  so_version : Z;
}.

Definition SOL_SOCKET : Z := 1.
Definition SCM_RIGHTS : Z := 1.

(** The descriptor of the first matching message. *)
Definition received_fd (l : list (Z * Z * Z)) : Z :=
  match filter (fun m => m.1.1 = SOL_SOCKET /\ m.1.2 = SCM_RIGHTS) l with
  | m :: _ => m.2
  | [] => -1
  end.

Definition danos_vpp_stat_disconnect (g : stat_client) : stat_client * list stat_sys :=
  (mk_stat (-1) (-1) false (st_size g) false (st_sock_path g),
   (if st_base g then [SysUnmap] else []) ++
   (if 0 <=? st_mem_fd g then [SysClose (st_mem_fd g)] else []) ++
   (if 0 <=? st_fd g then [SysClose (st_fd g)] else [])).

Definition danos_vpp_stat_connect (os : stat_os) (g : stat_client) : Z * stat_client * list stat_sys :=
  let closed := mk_stat (-1) (-1) false 0 false (st_sock_path g) in
  let s := so_socket os in
  if s <? 0 then (-1, closed, []) else
  let path := stat_path g in
  if 108 <=? strlen path then (-1, closed, [SysClose s]) else
  if negb (so_connect os path) then (-1, closed, [SysConnect path; SysClose s]) else
  match so_recvmsg os with
  | None => (-1, closed, [SysConnect path; SysClose s])
  | Some msgs =>
      let mem_fd := received_fd msgs in
      if mem_fd <? 0 then (-1, closed, [SysConnect path; SysClose s]) else
      let failed := (-1, closed, [SysConnect path; SysClose s; SysClose mem_fd]) in
      match so_fstat os with
      | None => failed
      | Some size =>
          if size <? sizeof_header then failed
          else if negb (so_mmap os) then failed
          else
            let g := mk_stat (-1) mem_fd true size true (st_sock_path g) in
            if (so_version os <? 2) || (65535 <? so_version os) then
              let '(g, sys) := danos_vpp_stat_disconnect g in
              (-1, g, [SysConnect path; SysClose s] ++ sys)
            else (0, g, [SysConnect path; SysClose s])
      end
  end.

(** ** The entry points of vpp_api.c *)

Definition VPP_MOCK_STAT_MAX : nat := 64.

Record vpp_mock_stat_t := mk_mock_stat { ms_name : bytes; ms_value : Z; ms_used : bool }.

Definition mock_stats_boot : list vpp_mock_stat_t := replicate VPP_MOCK_STAT_MAX (mk_mock_stat [] 0 false).

Definition mock_stat_is (name : bytes) (s : vpp_mock_stat_t) : Prop := ms_used s = true /\ ms_name s = name.

#[export] Instance mock_stat_is_dec name s : Decision (mock_stat_is name s).
Proof. unfold mock_stat_is. apply _. Defined.

(** The value of an unknown counter in mock mode. *)
Definition name_hash (name : bytes) : Z := foldl (fun h c => u64 (h * 31 + c)) 0 name.

Definition danos_vpp_api_connect_stat (a : vpp_api) (os : stat_os) (g : stat_client) : Z * stat_client * list stat_sys :=
  if bool_decide (api_state (g_ctx a) = VPP_API_MOCK) then (0, g, []) else danos_vpp_stat_connect os g.

Definition danos_vpp_api_set_stat_sock_path (path : option bytes) (a : vpp_api) (g : stat_client)
    : vpp_api * stat_client :=
  (match path with
   | Some p => on_ctx (set_paths (api_sock_path (g_ctx a)) (take 255 p)) a
   | None => a
   end, danos_vpp_stat_set_sock_path path g).

Definition danos_vpp_api_stat_query (a : vpp_api) (g : stat_client) (stats : list vpp_mock_stat_t) (name : option bytes)
    : stat_io Z :=
  match name with
  | None => ret 0
  | Some name =>
      if bool_decide (api_state (g_ctx a) = VPP_API_MOCK) then
        match list_find (mock_stat_is name) stats with
        | Some (_, s) => ret (ms_value s)
        | None => ret (name_hash name)
        end
      else danos_vpp_stat_query_real (st_size g) (st_connected g) (st_base g) name
  end.

(** Names and values; the real list names counters by their place. *)
Definition danos_vpp_api_stat_list (a : vpp_api) (g : stat_client) (stats : list vpp_mock_stat_t) (max_entries : Z)
    : stat_io (list (bytes * Z) + option (list (Z * Z))) :=
  if bool_decide (api_state (g_ctx a) = VPP_API_MOCK) then
    ret (inl (take (Z.to_nat max_entries) ((fun s => (ms_name s, ms_value s)) <$> filter (fun s => ms_used s = true) stats)))
  else let* l := danos_vpp_stat_list_real (st_size g) (st_connected g) (st_base g) max_entries in ret (inr l).

Definition danos_vpp_api_stat_set (name : option bytes) (value : Z) (stats : list vpp_mock_stat_t) : list vpp_mock_stat_t :=
  match name with
  | None => stats
  | Some name =>
      match list_find (mock_stat_is name) stats with
      | Some (i, s) => <[i := mk_mock_stat (ms_name s) value true]> stats
      | None =>
          match list_find (fun s => ms_used s = false) stats with
          | Some (i, _) => <[i := mk_mock_stat (take 127 name) value true]> stats
          | None => stats
          end
      end
  end.

Definition danos_vpp_api_stat_reset : list vpp_mock_stat_t := mock_stats_boot.

(** ** Runs depend on the loads they make *)

Definition local {A} (m : stat_io A) : Prop :=
  forall seg seg' t x t', m seg t = Some (x, t') ->
    (t <= t')%nat /\ ((forall k, (t <= k < t')%nat -> seg k = seg' k) -> m seg' t = Some (x, t')).

Create HintDb stat discriminated.

Lemma local_ret {A} (x : A) : local (ret x).
Proof. intros seg seg' t y t' [= <- <-]. done. Qed.

Lemma local_load off n : local (load off n).
Proof.
  intros seg seg' t x t' H. unfold load in *. destruct (_ && _) eqn:E; [|done]. injection H as <- <-.
  split; [lia|]. intros Hs. rewrite <- (Hs t) by lia. by rewrite E.
Qed.

Lemma local_bind {A B} (m : stat_io A) (k : A -> stat_io B) : local m -> (forall x, local (k x)) -> local (bind m k).
Proof.
  intros Hm Hk seg seg' t y t' H. unfold bind in *. destruct (m seg t) as [[x t1]|] eqn:E; [|done].
  destruct (Hm _ seg' _ _ _ E) as [H1 H2]. destruct (Hk x _ seg' _ _ _ H) as [H3 H4]. split; [lia|].
  intros Hs. rewrite H2 by (intros; apply Hs; lia). apply H4. intros; apply Hs; lia.
Qed.

Ltac solve_local :=
  lazymatch goal with
  | |- local (ret _) => apply local_ret
  | |- local (load _ _) => apply local_load
  | |- local (bind _ _) => apply local_bind; [solve_local|intros ?; solve_local]
  | |- local (match ?x with _ => _ end) => destruct x; solve_local
  | |- _ => solve [auto with stat]
  end.

Lemma local_has_nul size k p : local (has_nul size k p).
Proof. revert p. induction k as [|k IH]; intros p; cbn [has_nul]; solve_local. Qed.

Lemma local_str_is p name : local (str_is p name).
Proof. revert p. induction name as [|d name IH]; intros p; cbn [str_is]; solve_local. Qed.

Lemma local_sum size k vec i idx sum : local (sum_workers size k vec i idx sum).
Proof. revert i sum. induction k as [|k IH]; intros i sum; cbn [sum_workers]; solve_local. Qed.

#[export] Hint Resolve local_has_nul local_str_is local_sum : stat.

Lemma local_entry_value size e : local (entry_value size e).
Proof. unfold entry_value, read_simple_counter, e_type, e_value, e_offset_vector. solve_local. Qed.

Lemma local_entry_name size e : local (entry_name size e).
Proof. unfold entry_name, e_name. solve_local. Qed.

#[export] Hint Resolve local_entry_value local_entry_name : stat.

Lemma local_dir_walk size k e name : local (dir_walk size k e name).
Proof.
  revert e. induction k as [|k IH]; intros e; cbn [dir_walk]; unfold is_counter, e_type; solve_local.
Qed.

#[export] Hint Resolve local_dir_walk : stat.

Lemma local_lookup size name : local (stat_lookup size name).
Proof. unfold stat_lookup, dir_first, hdr_directory_offset. solve_local. Qed.

(** ** A segment nobody writes *)

Definition rd (g : bytes) (off : Z) (n : nat) : Z := le_val (cread g (Z.to_nat off) n).

Definition seg_size (g : bytes) : Z := Z.of_nat (length g).

(** The directory: where it is, and the entries. *)
Definition s_dir (g : bytes) : list Z :=
  let d := rd g 24 8 in
  if (d =? 0) || (seg_size g <? d) then [] else
  let len := rd g (d - 4) 4 in
  if (len =? 0) || (STAT_DIR_MAX <? len) || (seg_size g <? d + len * 32) then []
  else (fun i => d + 32 * Z.of_nat i) <$> seq 0 (Z.to_nat len).

Definition s_counter (g : bytes) (e : Z) : bool := let t := rd g e 4 in (1 <=? t) && (t <=? 3).

(** The name: a string of at most 255 bytes that ends inside the segment. *)
Definition s_name (g : bytes) (e : Z) : option bytes :=
  let nm := rd g (e + 24) 8 in
  if (nm =? 0) || (seg_size g <? nm + 1) then None else
  let s := take 256 (drop (Z.to_nat nm) g) in
  if bool_decide (0 ∈ s) then Some (c_str s) else None.

(** The sum over the workers that have the cell. *)
Definition s_cell (g : bytes) (idx : Z) (sum o : Z) : Z :=
  if (o =? 0) || (seg_size g <? o + (idx + 1) * 8) then sum else u64 (sum + rd g (o + 8 * idx) 8).

Definition s_workers (g : bytes) (vec : Z) (i k : nat) : list Z := (fun i => rd g (vec + 8 * Z.of_nat i) 8) <$> seq i k.

Definition s_sum (g : bytes) (e : Z) : option Z :=
  let ov := rd g (e + 16) 8 in
  if (ov =? 0) || (seg_size g <? ov + 4) then None else
  let n := rd g (ov - 4) 4 in
  if (4096 <? n) || (seg_size g <? ov + n * 8) then None
  else Some (foldl (s_cell g (rd g (e + 8) 8)) 0 (s_workers g ov 0 (Z.to_nat n))).

Definition s_value (g : bytes) (e : Z) : option Z :=
  if rd g e 4 =? 1 then Some (rd g (e + 8) 8) else s_sum g e.

(** The first counter that has a name, and what the client's lookup makes of
    it. *)
Definition s_find (g : bytes) (name : bytes) : option Z :=
  snd <$> list_find (fun e => s_counter g e = true /\ s_name g e = Some name) (s_dir g).

Definition stat_of (g : bytes) (name : bytes) : option Z := s_find g name ≫= s_value g.

(** What the head of vpp_stat.c says of a counter: a scalar is inline, a simple
    counter is the sum over the workers of the number at its index, a combined
    counter the sum of the packets of the pair at its index. *)
Definition doc_cell (g : bytes) (width idx : Z) (sum o : Z) : Z :=
  if (o =? 0) || (seg_size g <? o + (idx + 1) * width) then sum else u64 (sum + rd g (o + width * idx) 8).

Definition doc_sum (g : bytes) (width e : Z) : option Z :=
  let ov := rd g (e + 16) 8 in
  if (ov =? 0) || (seg_size g <? ov + 4) then None else
  let n := rd g (ov - 4) 4 in
  if (4096 <? n) || (seg_size g <? ov + n * 8) then None
  else Some (foldl (doc_cell g width (rd g (e + 8) 8)) 0 (s_workers g ov 0 (Z.to_nat n))).

Definition doc_value (g : bytes) (e : Z) : option Z :=
  if rd g e 4 =? 1 then Some (rd g (e + 8) 8)
  else if rd g e 4 =? 2 then doc_sum g 8 e else doc_sum g 16 e.

Definition doc_stat (g : bytes) (name : bytes) : option Z := s_find g name ≫= doc_value g.

(** The name is not one of a combined counter. *)
Definition plain_counter (g : bytes) (name : bytes) : Prop := forall e, s_find g name = Some e -> rd g e 4 <> 3.

(** On the other counters the client does what the head says. *)
Lemma stat_of_doc g name : plain_counter g name -> stat_of g name = doc_stat g name.
Proof.
  intros Hp. unfold stat_of, doc_stat. destruct (s_find g name) as [e|] eqn:He; [|done]. cbn [mbind option_bind].
  specialize (Hp e He). unfold s_value, doc_value. destruct (rd g e 4 =? 1) eqn:E1; [done|].
  unfold s_find in He. destruct (list_find _ _) as [[i e']|] eqn:Hf; [|done]. injection He as ->.
  apply list_find_Some in Hf as (_ & [Hc _] & _). unfold s_counter in Hc. bool_prop.
  by rewrite (proj2 (Z.eqb_eq _ 2)) by lia.
Qed.

(** Offsets of a segment that no sum of the client wraps, and vectors that
    have their length before them. *)
Record seg_ok (g : bytes) : Prop := {
  sg_bytes : bytes_ok g;
  sg_size : 40 <= seg_size g < 2 ^ 63;
  sg_dir : rd g 24 8 = 0 \/ 4 <= rd g 24 8;
  sg_name e : e ∈ s_dir g -> s_counter g e = true -> rd g (e + 24) 8 + 1 < 2 ^ 64;
  sg_vec e : e ∈ s_dir g -> s_counter g e = true -> rd g e 4 <> 1 ->
    rd g (e + 16) 8 = 0 \/ 4 <= rd g (e + 16) 8 < 2 ^ 64 - 4;
  sg_cells e o : e ∈ s_dir g -> s_counter g e = true -> is_Some (s_sum g e) ->
    o ∈ s_workers g (rd g (e + 16) 8) 0 (Z.to_nat (rd g (rd g (e + 16) 8 - 4) 4)) ->
    o + (rd g (e + 8) 8 + 1) * 8 < 2 ^ 64;
}.

Definition runs {A} (m : stat_io A) (g : bytes) (x : A) : Prop :=
  forall t, exists t', m (fun _ => g) t = Some (x, t').

Lemma runs_ret {A} g (x : A) : runs (ret x) g x.
Proof. intros t. by exists t. Qed.

Lemma runs_bind {A B} (m : stat_io A) (k : A -> stat_io B) g x y : runs m g x -> runs (k x) g y -> runs (bind m k) g y.
Proof. intros Hm Hk t. unfold bind. destruct (Hm t) as [t1 ->]. apply Hk. Qed.

Lemma runs_load g off n : 0 <= off -> off + Z.of_nat n <= seg_size g -> runs (load off n) g (rd g off n).
Proof.
  intros H1 H2 t. unfold load, seg_size in *. rewrite (proj2 (Z.leb_le 0 off)), (proj2 (Z.leb_le _ _)) by lia. cbn [andb]. eauto.
Qed.

Section quiet.
Context (g : bytes) (Hg : seg_ok g).

Lemma rd_range off n : 0 <= rd g off n < 256 ^ Z.of_nat n.
Proof.
  unfold rd. pose proof (le_val_range (cread g (Z.to_nat off) n) (cread_ok _ _ _ (sg_bytes g Hg))) as H.
  assert (Hl : (length (cread g (Z.to_nat off) n) <= n)%nat) by (rewrite cread_eq, length_take; lia).
  split; [apply H|]. eapply Z.lt_le_trans; [apply H|]. apply Z.pow_le_mono_r; lia.
Qed.

Lemma rd8 off : 0 <= rd g off 8 < 2 ^ 64.
Proof. exact (rd_range off 8). Qed.

Lemma rd4 off : 0 <= rd g off 4 < 2 ^ 32.
Proof. exact (rd_range off 4). Qed.

Lemma seg_ptr_exact o need :
  0 <= o -> 0 <= need -> o + need < 2 ^ 64 ->
  seg_ptr (seg_size g) o need = if (o =? 0) || (seg_size g <? o + need) then None else Some o.
Proof.
  intros H1 H2 H3. unfold seg_ptr. rewrite u64_small by (unfold is_u64; lia).
  destruct (_ || _) eqn:E; [done|]. apply orb_false_elim in E as [_ E]. apply Z.ltb_ge in E.
  unfold at_base. pose proof (sg_size g Hg). by rewrite (proj2 (Z.ltb_lt _ _)) by lia.
Qed.

(** Entries are inside the segment. *)
Lemma entry_inside e : e ∈ s_dir g -> 4 <= e /\ e + 32 <= seg_size g.
Proof.
  unfold s_dir. pose proof (sg_dir g Hg) as Hd. pose proof (rd4 (rd g 24 8 - 4)).
  destruct (_ || _) eqn:E1; [by intros ?%not_elem_of_nil|]. destruct (_ || _) eqn:E2 at 1; [by intros ?%not_elem_of_nil|].
  intros He. apply list_elem_of_fmap in He as (i & -> & Hi). apply elem_of_seq in Hi.
  apply orb_false_elim in E1 as [E1 _]. apply orb_false_elim in E2 as [_ E2]. bool_prop. lia.
Qed.

(** ** Names *)

Lemma byte_at p : 0 <= p < seg_size g -> drop (Z.to_nat p) g = rd g p 1 :: drop (Z.to_nat (p + 1)) g.
Proof.
  unfold seg_size. intros Hp. destruct (lookup_lt_is_Some_2 g (Z.to_nat p)) as [b Hb]; [lia|].
  rewrite (drop_S g b _ Hb). replace (S (Z.to_nat p)) with (Z.to_nat (p + 1)) by lia. f_equal.
  unfold rd. rewrite cread_eq, (drop_S g b _ Hb). cbn [take le_val]. rewrite take_0. cbn [le_val]. lia.
Qed.

Lemma runs_has_nul k p : 0 <= p -> runs (has_nul (seg_size g) k p) g (bool_decide (0 ∈ take k (drop (Z.to_nat p) g))).
Proof.
  revert p. induction k as [|k IH]; intros p Hp; cbn [has_nul].
  - rewrite take_0, bool_decide_false by apply not_elem_of_nil. apply runs_ret.
  - destruct (Z.ltb_spec p (seg_size g)) as [H|H]; cbn [negb].
    + eapply runs_bind; [apply runs_load; [done|cbn; lia]|]. rewrite byte_at by lia. cbn [take].
      destruct (Z.eqb_spec (rd g p 1) 0) as [E|E].
      * rewrite bool_decide_true by (rewrite E; constructor). apply runs_ret.
      * erewrite bool_decide_ext; [apply IH; lia|]. rewrite elem_of_cons. naive_solver.
    + unfold seg_size in H. rewrite drop_ge, take_nil, bool_decide_false by (lia || apply not_elem_of_nil). apply runs_ret.
Qed.

Lemma runs_str_is name : forall k p,
  is_text name -> 0 <= p -> 0 ∈ take k (drop (Z.to_nat p) g) ->
  runs (str_is p name) g (bool_decide (c_str (take k (drop (Z.to_nat p) g)) = name)).
Proof.
  induction name as [|d name IH]; intros k p Ht Hp H0; cbn [str_is];
    (assert (Hin : p < seg_size g);
      [unfold seg_size; destruct (Z.le_gt_cases (Z.of_nat (length g)) p) as [H|H]; [|lia];
       rewrite drop_ge, take_nil in H0 by lia; by apply not_elem_of_nil in H0|]);
    (eapply runs_bind; [apply runs_load; [done|cbn; lia]|]);
    rewrite byte_at in H0 |- * by lia;
    (destruct k as [|k]; [rewrite take_0 in H0; by apply not_elem_of_nil in H0|]); cbn [take c_str] in *.
  - destruct (Z.eqb_spec (rd g p 1) 0); [rewrite bool_decide_true by done|rewrite bool_decide_false by done]; apply runs_ret.
  - inversion_clear Ht as [|?? Hd Ht'].
    destruct (Z.eqb_spec (rd g p 1) 0) as [E|E].
    + rewrite (proj2 (Z.eqb_neq _ _)) by lia. rewrite bool_decide_false by done. apply runs_ret.
    + apply elem_of_cons in H0 as [H0|H0]; [congruence|]. destruct (Z.eqb_spec (rd g p 1) d) as [->|En].
      * erewrite bool_decide_ext; [apply (IH k (p + 1)); [done|lia|done]|]. split; [by intros [= ->]|by intros ->].
      * rewrite bool_decide_false by congruence. apply runs_ret.
Qed.

(** The pointer to the name of an entry. *)
Definition s_name_ptr (e : Z) : option Z := if s_name g e is Some _ then Some (rd g (e + 24) 8) else None.

Lemma runs_entry_name e : e ∈ s_dir g -> s_counter g e = true -> runs (entry_name (seg_size g) e) g (s_name_ptr e).
Proof.
  intros He Hk. destruct (entry_inside e He) as [H1 H2]. unfold entry_name, e_name, s_name_ptr, s_name.
  pose proof (sg_name g Hg e He Hk) as Hw. pose proof (rd8 (e + 24)).
  eapply runs_bind; [apply runs_load; lia|]. destruct (Z.eqb_spec (rd g (e + 24) 8) 0) as [E|E]; [apply runs_ret|].
  eapply runs_bind; [apply runs_load; lia|]. rewrite seg_ptr_exact by lia.
  rewrite (proj2 (Z.eqb_neq _ _) E). cbn [orb]. destruct (_ <? _) eqn:El; [apply runs_ret|]. cbv zeta.
  eapply runs_bind; [apply runs_has_nul; lia|].
  destruct (bool_decide (0 ∈ _)); apply runs_ret.
Qed.

(** ** Values *)

Lemma runs_sum vec idx : forall k i sum,
  0 <= idx -> 0 <= vec -> vec + 8 * Z.of_nat (i + k) <= seg_size g ->
  Forall (fun o => 0 <= o /\ o + (idx + 1) * 8 < 2 ^ 64) (s_workers g vec i k) ->
  runs (sum_workers (seg_size g) k vec (Z.of_nat i) idx sum) g (foldl (s_cell g idx) sum (s_workers g vec i k)).
Proof.
  induction k as [|k IH]; intros i sum Hi Hv Hin Ho; [apply runs_ret|].
  unfold s_workers in *. cbn [seq fmap list_fmap] in Ho. inversion_clear Ho as [|?? [Ho1 Ho2] Ho'].
  cbn [sum_workers seq fmap list_fmap foldl].
  set (o := rd g (vec + 8 * Z.of_nat i) 8) in *.
  assert (Hnext : forall s, runs (sum_workers (seg_size g) k vec (Z.of_nat i + 1) idx s) g
    (foldl (s_cell g idx) s ((fun i0 => rd g (vec + 8 * Z.of_nat i0) 8) <$> seq (S i) k))).
  { intros s. replace (Z.of_nat i + 1) with (Z.of_nat (S i)) by lia. apply IH; (done || lia). }
  eapply runs_bind; [apply runs_load; lia|]. fold o. unfold s_cell at 2.
  destruct (Z.eqb_spec o 0) as [E|E]; cbn [orb]; [apply Hnext|].
  eapply runs_bind; [apply runs_load; lia|]. fold o.
  assert (Hw : u64 (u64 (idx + 1) * 8) = (idx + 1) * 8).
  { rewrite (u64_small (idx + 1)), u64_small by (unfold is_u64; lia). done. }
  rewrite Hw, seg_ptr_exact by lia. rewrite (proj2 (Z.eqb_neq _ _) E). cbn [orb].
  destruct (Z.ltb_spec (seg_size g) (o + (idx + 1) * 8)) as [Hl|Hl]; [apply Hnext|].
  rewrite u64_small by (unfold is_u64; lia). unfold at_base. pose proof (sg_size g Hg).
  rewrite (proj2 (Z.ltb_lt _ _)) by lia.
  eapply runs_bind; [apply runs_load; lia|]. apply Hnext.
Qed.

Lemma runs_counter e :
  e ∈ s_dir g -> s_counter g e = true -> rd g e 4 <> 1 -> runs (read_simple_counter (seg_size g) e) g (s_sum g e).
Proof.
  intros He Hk Hk1. destruct (entry_inside e He) as [H1 H2].
  pose proof (sg_vec g Hg e He Hk Hk1) as Hv. pose proof (fun o => sg_cells g Hg e o He Hk) as Hc.
  unfold read_simple_counter, e_offset_vector, e_value, s_sum in *. set (ov := rd g (e + 16) 8) in *.
  pose proof (rd8 (e + 16)) as Ho. fold ov in Ho. pose proof (sg_size g Hg) as Hs.
  eapply runs_bind; [apply runs_load; lia|]. fold ov. destruct (Z.eqb_spec ov 0) as [E|E]; [apply runs_ret|].
  eapply runs_bind; [apply runs_load; lia|]. fold ov. rewrite seg_ptr_exact by lia.
  rewrite (proj2 (Z.eqb_neq _ _) E). cbn [orb].
  destruct (Z.ltb_spec (seg_size g) (ov + 4)) as [Hl|Hl]; [apply runs_ret|].
  eapply runs_bind; [apply runs_load; lia|]. pose proof (rd4 (ov - 4)) as Hn. set (n := rd g (ov - 4) 4) in *.
  destruct (Z.ltb_spec 4096 n) as [Hbig|Hbig]; cbn [orb]; [apply runs_ret|].
  eapply runs_bind; [apply runs_load; lia|]. fold ov.
  rewrite u64_small by (unfold is_u64; lia). rewrite seg_ptr_exact, Z.add_0_r by lia.
  rewrite (proj2 (Z.eqb_neq _ 0)) by lia. cbn [orb].
  destruct (Z.ltb_spec (seg_size g) (ov + n * 8)) as [Hend|Hend]; [apply runs_ret|].
  eapply runs_bind; [apply runs_load; lia|].
  eapply runs_bind; [apply (runs_sum ov (rd g (e + 8) 8) (Z.to_nat n) 0 0); [apply rd8|lia|lia|]|apply runs_ret].
  apply Forall_forall. intros o Hin. split; [|by apply Hc; [eexists|]].
  apply list_elem_of_fmap in Hin as (i & -> & _). apply rd8.
Qed.

Lemma runs_is_counter e : e ∈ s_dir g -> runs (is_counter e) g (s_counter g e).
Proof.
  intros He. destruct (entry_inside e He) as [H1 H2]. unfold is_counter, e_type, s_counter.
  pose proof (rd4 e) as Ht. set (ty := rd g e 4) in *.
  assert (Hb : (1 <=? ty) && (ty <=? 3) = (ty =? 1) || (ty =? 2) || (ty =? 3)).
  { apply eq_true_iff_eq. rewrite andb_true_iff, !orb_true_iff, !Z.leb_le, !Z.eqb_eq. lia. }
  rewrite Hb. eapply runs_bind; [apply runs_load; lia|]. fold ty.
  unfold STAT_DIR_TYPE_SCALAR, STAT_DIR_TYPE_SIMPLE_COUNTER, STAT_DIR_TYPE_COMBINED_COUNTER.
  destruct (ty =? 1); [apply runs_ret|]. eapply runs_bind; [apply runs_load; lia|]. fold ty.
  destruct (ty =? 2); [apply runs_ret|]. eapply runs_bind; [apply runs_load; lia|]. apply runs_ret.
Qed.

Lemma runs_value e : e ∈ s_dir g -> s_counter g e = true -> runs (entry_value (seg_size g) e) g (s_value g e).
Proof.
  intros He Hk. destruct (entry_inside e He) as [H1 H2]. unfold entry_value, e_type, e_value, s_value, STAT_DIR_TYPE_SCALAR.
  eapply runs_bind; [apply runs_load; lia|]. destruct (Z.eqb_spec (rd g e 4) 1); [|by apply runs_counter].
  eapply runs_bind; [apply runs_load; lia|apply runs_ret].
Qed.

(** ** The walk *)

Definition first_of (es : list Z) (name : bytes) : option Z :=
  match list_find (fun e => s_counter g e = true /\ s_name g e = Some name) es with
  | Some (_, e) => s_value g e
  | None => None
  end.

Lemma first_of_cons e es name :
  first_of (e :: es) name = if decide (s_counter g e = true /\ s_name g e = Some name) then s_value g e else first_of es name.
Proof.
  unfold first_of. cbn [list_find]. destruct (decide _); [done|]. by destruct (list_find _ es) as [[]|].
Qed.

Lemma runs_walk name : is_text name -> forall k e,
  Forall (fun e => e ∈ s_dir g) ((fun i => e + 32 * Z.of_nat i) <$> seq 0 k) ->
  runs (dir_walk (seg_size g) k e name) g (first_of ((fun i => e + 32 * Z.of_nat i) <$> seq 0 k) name).
Proof.
  intros Ht. induction k as [|k IH]; intros e He; [apply runs_ret|].
  assert (Hs : (fun i => e + 32 * Z.of_nat i) <$> seq 0 (S k) = e :: ((fun i => (e + 32) + 32 * Z.of_nat i) <$> seq 0 k)).
  { cbn [seq fmap list_fmap]. f_equal; [lia|]. rewrite <- fmap_S_seq, <- list_fmap_compose.
    apply list_fmap_ext. intros i x _. cbn. lia. }
  rewrite Hs in He |- *. inversion_clear He as [|?? Hin He']. specialize (IH (e + 32) He').
  cbn [dir_walk]. rewrite first_of_cons. eapply runs_bind; [by apply runs_is_counter|].
  destruct (s_counter g e) eqn:Ec; cbn [negb]; [|rewrite decide_False by (by intros []); exact IH].
  eapply runs_bind; [by apply runs_entry_name|]. unfold s_name_ptr.
  destruct (s_name g e) as [nm|] eqn:En; [|rewrite decide_False by (by intros [_ [=]]); exact IH].
  unfold s_name in En. destruct (_ || _) eqn:E1; [done|]. case_bool_decide as H0; [|done]. injection En as <-.
  eapply runs_bind; [apply runs_str_is; [done|apply rd8|exact H0]|].
  case_bool_decide as Heq; cbn [negb].
  - rewrite decide_True by (by rewrite Heq). by apply runs_value.
  - rewrite decide_False by (by intros [_ [=]]). exact IH.
Qed.

(** On a quiet segment the lookup finds what the segment says. *)
Lemma runs_lookup name : is_text name -> runs (stat_lookup (seg_size g) name) g (stat_of g name).
Proof.
  intros Ht. pose proof (sg_size g Hg) as Hs. pose proof (sg_dir g Hg) as Hd. pose proof (rd8 24) as Hr.
  unfold stat_lookup, dir_first, hdr_directory_offset. assert (Hfo : stat_of g name = first_of (s_dir g) name) by (unfold stat_of, s_find, first_of; by destruct (list_find _ _) as [[? ?]|]).
  rewrite Hfo. clear Hfo.
  set (d := rd g 24 8) in *.
  eapply runs_bind.
  { eapply runs_bind; [apply runs_load; lia|]. fold d. rewrite seg_ptr_exact, Z.add_0_r by lia.
    instantiate (1 := if (d =? 0) || (seg_size g <? d) then None
      else let len := rd g (d - 4) 4 in
           if (len =? 0) || (STAT_DIR_MAX <? len) || (seg_size g <? d + len * 32) then None else Some (d, len)).
    destruct (_ || _) eqn:E1; [apply runs_ret|]. apply orb_false_elim in E1 as [E1 E2]. bool_prop.
    eapply runs_bind; [apply runs_load; lia|]. pose proof (rd4 (d - 4)). cbv zeta.
    destruct ((rd g (d - 4) 4 =? 0) || (STAT_DIR_MAX <? rd g (d - 4) 4)) eqn:E3; [cbn [orb]; apply runs_ret|].
    cbn [orb]. apply orb_false_elim in E3 as [E3 E4]. unfold STAT_DIR_MAX in E4. bool_prop.
    eapply runs_bind; [apply runs_load; lia|]. fold d. unfold sizeof_entry.
    rewrite u64_small by (unfold is_u64; lia). rewrite seg_ptr_exact, Z.add_0_r by lia.
    rewrite (proj2 (Z.eqb_neq _ 0)) by lia. cbn [orb]. destruct (_ <? _); apply runs_ret. }
  destruct (_ || _) eqn:E1; [unfold s_dir; fold d; rewrite E1; apply runs_ret|]. cbv zeta.
  destruct (_ || _ || _) eqn:E2; [unfold s_dir; fold d; rewrite E1; cbv zeta; rewrite E2; apply runs_ret|].
  assert (Ed : s_dir g = (fun i => d + 32 * Z.of_nat i) <$> seq 0 (Z.to_nat (rd g (d - 4) 4)))
    by (unfold s_dir; fold d; rewrite E1; cbv zeta; by rewrite E2).
  rewrite Ed. apply runs_walk; [done|]. rewrite <- Ed. by apply Forall_forall.
Qed.

End quiet.

(** ** A segment that is written *)

Definition in_progress (g : bytes) : Z := rd g 16 8.
Definition epoch (g : bytes) : Z := rd g 8 8.

(** The protocol of the writer: [in_progress] is set before anything changes,
    and the epoch has advanced when it is cleared. *)
Inductive writer_step (g g' : bytes) : Prop :=
  | WriteBegin : in_progress g = 0 -> in_progress g' <> 0 -> epoch g' = epoch g -> writer_step g g'
  | WriteData : in_progress g <> 0 -> in_progress g' <> 0 -> epoch g' = epoch g -> writer_step g g'
  | WriteEnd : in_progress g <> 0 -> in_progress g' = 0 -> epoch g' = epoch g + 1 -> writer_step g g'.

Lemma epoch_grows g g' : rtc writer_step g g' -> epoch g <= epoch g'.
Proof. induction 1 as [|g g1 g' [] _ IH]; lia. Qed.

(** A quiet segment with the same epoch is the same segment. *)
Lemma same_epoch_same g g' : rtc writer_step g g' -> in_progress g' = 0 -> epoch g' = epoch g -> g = g'.
Proof.
  induction 1 as [|g g1 g' Hs Hr IH]; intros Hq He; [done|]. pose proof (epoch_grows _ _ Hr).
  assert (epoch g <= epoch g1) by (destruct Hs; lia). rewrite (IH Hq ltac:(lia)) in Hs.
  destruct Hs; [done|done|]. lia.
Qed.

Section timeline.
Context (seg : nat -> bytes) (Hseg : forall k, rtc writer_step (seg k) (seg (S k))).

Lemma timeline_steps i j : (i <= j)%nat -> rtc writer_step (seg i) (seg j).
Proof. induction 1 as [|j _ IH]; [done|]. by etrans. Qed.

(** Nothing changed between two loads of the same epoch when the load before
    the second one saw no writer. *)
Lemma window_same i j k :
  (i <= k <= j)%nat -> in_progress (seg j) = 0 -> epoch (seg (S j)) = epoch (seg i) -> seg k = seg j.
Proof.
  intros Hk Hq He. apply same_epoch_same; [apply timeline_steps; lia|done|].
  pose proof (epoch_grows _ _ (timeline_steps i k ltac:(lia))).
  pose proof (epoch_grows _ _ (timeline_steps k j ltac:(lia))).
  pose proof (epoch_grows _ _ (timeline_steps j (S j) ltac:(lia))). lia.
Qed.

End timeline.

Lemma load_result off n seg t x t' : load off n seg t = Some (x, t') -> x = rd (seg t) off n /\ t' = S t.
Proof. unfold load. destruct (_ && _); [|done]. by intros [= <- <-]. Qed.

Lemma bind_result {A B} (m : stat_io A) (k : A -> stat_io B) seg t y t' :
  bind m k seg t = Some (y, t') -> exists x t1, m seg t = Some (x, t1) /\ k x seg t1 = Some (y, t').
Proof. unfold bind. destruct (m seg t) as [[x t1]|]; [eauto|done]. Qed.

(** The guard of a read: between the loads [a] and [b] of [in_progress] that
    saw no writer, with the same epoch read right after each. *)
Record guarded (seg : nat -> bytes) (a b : nat) : Prop := {
  gd_order : (a < b)%nat;
  gd_before : in_progress (seg a) = 0;
  gd_after : in_progress (seg b) = 0;
  gd_epoch : epoch (seg (S b)) = epoch (seg (S a));
}.

(** The turn of the loop that ends it. *)
Lemma spin_guarded seg size name spins t v t' :
  is_text name -> stat_spin size spins name seg t = Some (Some v, t') ->
  exists a b, (t <= a)%nat /\ (b < t')%nat /\ guarded seg a b /\
    ((forall k, (a < k < b)%nat -> seg k = seg b) -> seg_ok (seg b) -> seg_size (seg b) = size ->
     stat_of (seg b) name = Some v).
Proof.
  intros Hn. revert t. induction spins as [|spins IH]; intros t H; [done|]. cbn [stat_spin] in H.
  assert (Hlater : forall t1, (t <= t1)%nat -> stat_spin size spins name seg t1 = Some (Some v, t') ->
    exists a b, (t <= a)%nat /\ (b < t')%nat /\ guarded seg a b /\
      ((forall k, (a < k < b)%nat -> seg k = seg b) -> seg_ok (seg b) -> seg_size (seg b) = size ->
       stat_of (seg b) name = Some v)).
  { intros t1 Ht1 H1. destruct (IH t1 H1) as (a & b & Ha & H2). exists a, b. split; [lia|done]. }
  apply bind_result in H as (b1 & t1 & H1 & H). apply load_result in H1 as [-> ->].
  destruct (rd (seg t) 16 8 =? 0) eqn:Eb; cbn [negb] in H; [|apply (Hlater (S t)); [lia|done]].
  apply bind_result in H as (e1 & t1 & H1 & H). apply load_result in H1 as [-> ->].
  apply bind_result in H as (found & t2 & Hlook & H).
  destruct (local_lookup size name _ (fun _ => seg t2) _ _ _ Hlook) as [Ht2 Hlocal].
  apply bind_result in H as (b2 & t3 & H1 & H). apply load_result in H1 as [-> ->].
  destruct (rd (seg t2) 16 8 =? 0) eqn:Eb2; cbn [negb] in H; [|apply (Hlater (S t2)); [lia|done]].
  apply bind_result in H as (e2 & t4 & H1 & H). apply load_result in H1 as [-> ->].
  destruct (rd (seg (S t2)) 8 8 =? rd (seg (S t)) 8 8) eqn:Ee; [|apply (Hlater (S (S t2))); [lia|done]].
  injection H as -> <-. bool_prop. exists t, t2. split; [lia|]. split; [lia|]. split; [split; [lia|done..]|].
  intros Hsame Hg Hsz. rewrite <- Hsz in *.
  destruct (runs_lookup (seg t2) Hg name Hn (S (S t))) as [t5 Hrun].
  rewrite Hlocal in Hrun; [by injection Hrun as <-|]. intros k Hk. apply Hsame. lia.
Qed.

Lemma spin_consistent seg size name spins t v t' :
  is_text name -> stat_spin size spins name seg t = Some (Some v, t') ->
  exists a b, (t <= a)%nat /\ (b < t')%nat /\ guarded seg a b /\
    ((forall k, (a < k < b)%nat -> seg k = seg b) -> seg_ok (seg b) -> seg_size (seg b) = size ->
     plain_counter (seg b) name -> doc_stat (seg b) name = Some v).
Proof.
  intros Hn Hr. destruct (spin_guarded seg size name _ t v t' Hn Hr) as (a & b & Ha & Hb & Hg & H).
  exists a, b. do 3 (split; [done|]). intros Hs Hok Hsz Hp. rewrite <- stat_of_doc by done. by apply H.
Qed.

(** C14. A value is returned only under the epoch guard: whatever happens to
    the segment between the client's loads, taken in program order, when
    [stat_read] returns a value there are two of its loads of [in_progress]
    that saw no writer, followed by two loads of the same epoch; and if the
    segment, well formed, did not change between them, the value is what the
    head of the file says of the name there: the inline scalar, or the sum
    over the workers for a simple counter.  Combined counters are left out. *)
Theorem stat_read_consistent seg size name t v t' :
  is_text name -> stat_read size true true name seg t = Some (Some v, t') ->
  exists a b, (t <= a)%nat /\ (b < t')%nat /\ guarded seg a b /\
    ((forall k, (a < k < b)%nat -> seg k = seg b) -> seg_ok (seg b) -> seg_size (seg b) = size ->
     plain_counter (seg b) name -> doc_stat (seg b) name = Some v).
Proof. apply spin_consistent. Qed.

(** A writer that sets [in_progress] before it changes anything, and advances
    the epoch before it clears it, changes nothing inside the guard. *)
Theorem guard_excludes_writer seg a b k :
  (forall k, rtc writer_step (seg k) (seg (S k))) -> guarded seg a b -> (a < k < b)%nat -> seg k = seg b.
Proof.
  intros Hseg [_ _ Hq He] Hk. apply (window_same seg Hseg (S a)); [lia|done|done].
Qed.

(** Without a writer the first turn ends the loop. *)
Lemma runs_spin g name spins :
  seg_ok g -> in_progress g = 0 -> is_text name -> runs (stat_spin (seg_size g) (S spins) name) g (stat_of g name).
Proof.
  intros Hg Hq Hn. pose proof (sg_size g Hg) as Hs. cbn [stat_spin].
  eapply runs_bind; [apply runs_load; lia|]. fold (in_progress g). rewrite Hq. cbn [Z.eqb negb].
  eapply runs_bind; [apply runs_load; lia|]. eapply runs_bind; [by apply runs_lookup|].
  eapply runs_bind; [apply runs_load; lia|]. fold (in_progress g). rewrite Hq. cbn [Z.eqb negb].
  eapply runs_bind; [apply runs_load; lia|]. rewrite Z.eqb_refl. apply runs_ret.
Qed.

(** On a segment at rest a query is exact and safe: no load leaves the
    mapping, the first turn succeeds, and the result is what the head of the
    file says of the first counter of that name, when that is not a combined
    one, or zero when there is none. *)
Theorem stat_query_exact g name t :
  seg_ok g -> in_progress g = 0 -> is_text name -> plain_counter g name ->
  exists t', danos_vpp_stat_query_real (seg_size g) true true name (fun _ => g) t = Some (default 0 (doc_stat g name), t').
Proof.
  intros Hg Hq Hn Hp. rewrite <- stat_of_doc by done.
  assert (Hr : runs (danos_vpp_stat_query_real (seg_size g) true true name) g (default 0 (stat_of g name))); [|apply Hr].
  eapply runs_bind; [|apply runs_ret]. by apply runs_spin.
Qed.

(** ** An example *)

(** A scalar [/a], and a combined counter [/b] at index 1 with one worker:
    packets and bytes of index 0, then of index 1. *)
Definition demo_seg (ep ip a : Z) : bytes :=
  le_bytes 4 2 ++ le_bytes 4 1 ++ le_bytes 8 ep ++ le_bytes 8 ip ++ le_bytes 8 48 ++ le_bytes 8 0 ++
  zeros 4 ++ le_bytes 4 2 ++
  le_bytes 4 1 ++ zeros 4 ++ le_bytes 8 a ++ le_bytes 8 0 ++ le_bytes 8 112 ++
  le_bytes 4 3 ++ zeros 4 ++ le_bytes 8 1 ++ le_bytes 8 136 ++ le_bytes 8 120 ++
  lit "/a" ++ zeros 6 ++ lit "/b" ++ zeros 6 ++
  zeros 4 ++ le_bytes 4 1 ++ le_bytes 8 144 ++
  le_bytes 8 10 ++ le_bytes 8 1000 ++ le_bytes 8 20 ++ le_bytes 8 2000.

Lemma two_entries g : s_dir g = [48; 80] -> forall e, e ∈ s_dir g -> e = 48 \/ e = 80.
Proof.
  intros -> e [->|[->|Hn]%elem_of_cons]%elem_of_cons; [by left|by right|by apply not_elem_of_nil in Hn].
Qed.

(** The conditions on the two entries, by computation. *)
Ltac demo_ok :=
  lazymatch goal with |- seg_ok ?g =>
    pose proof (two_entries g ltac:(vm_compute; reflexivity)) as He;
    split;
    [ lit_text | by vm_compute | right; by vm_compute
    | intros e [->| ->]%He _; by vm_compute
    | intros e [->| ->]%He _ _; [left|right]; by vm_compute
    | intros e o [->| ->]%He _ Hs Ho; [vm_compute in Hs; by destruct Hs|];
      assert (s_workers g (rd g (80 + 16) 8) 0 (Z.to_nat (rd g (rd g (80 + 16) 8 - 4) 4)) = [144])
        as E by (vm_compute; reflexivity);
      rewrite E in Ho; apply list_elem_of_singleton in Ho as ->; by vm_compute ]
  end.

Lemma demo_seg_ok : seg_ok (demo_seg 7 0 42).
Proof. demo_ok. Qed.

Lemma demo_seg_ok' : seg_ok (demo_seg 8 0 43).
Proof. demo_ok. Qed.

Lemma demo_plain g : s_find g (lit "/a") = Some 48 -> rd g 48 4 = 1 -> plain_counter g (lit "/a").
Proof. intros Hf Hr e He. rewrite Hf in He. injection He as <-. by rewrite Hr. Qed.

Lemma stat_query_exact_witness :
  exists t', danos_vpp_stat_query_real 176 true true (lit "/a") (fun _ => demo_seg 7 0 42) 0%nat = Some (42, t').
Proof.
  apply (stat_query_exact (demo_seg 7 0 42) (lit "/a") 0%nat demo_seg_ok); [vm_compute; reflexivity|lit_text|].
  apply demo_plain; vm_compute; reflexivity.
Defined.

(** A writer that changes [/a] while the client reads: the first turn is
    discarded, the second returns the new value. *)
Definition demo_timeline (k : nat) : bytes :=
  if (k <? 5)%nat then demo_seg 7 0 42
  else if (k <? 6)%nat then demo_seg 7 1 42
  else if (k <? 8)%nat then demo_seg 7 1 43
  else demo_seg 8 0 43.

Lemma demo_timeline_steps k : rtc writer_step (demo_timeline k) (demo_timeline (S k)).
Proof.
  do 8 (destruct k as [|k]; [first [apply rtc_refl | apply rtc_once; first
    [by apply WriteBegin; vm_compute | by apply WriteData; vm_compute | by apply WriteEnd; vm_compute]]|]).
  apply rtc_refl.
Qed.

Lemma stat_read_consistent_witness :
  exists t', stat_read 176 true true (lit "/a") demo_timeline 0%nat = Some (Some 43, t') /\
  exists a b, guarded demo_timeline a b.
Proof.
  exists 36%nat. assert (E : stat_read 176 true true (lit "/a") demo_timeline 0%nat = Some (Some 43, 36%nat)) by (vm_compute; reflexivity).
  split; [exact E|].
  destruct (stat_read_consistent demo_timeline 176 (lit "/a") 0%nat 43 36%nat ltac:(lit_text) E) as (a & b & _ & _ & H & _).
  exists a, b. exact H.
Defined.

Lemma guard_excludes_writer_witness : demo_timeline 10 = demo_timeline 35.
Proof.
  apply (guard_excludes_writer demo_timeline 8 35 10 demo_timeline_steps); [split; [lia|vm_compute; reflexivity..]|lia].
Defined.

(** ** Limits *)

(** A combined counter is read as an array of single numbers: index 1 is the
    bytes of index 0, not the packets of index 1. *)
Lemma combined_reads_bytes :
  stat_of (demo_seg 7 0 42) (lit "/b") = Some 1000 /\ rd (demo_seg 7 0 42) (144 + 16 * 1) 8 = 20.
Proof. split; vm_compute; reflexivity. Qed.

(** Checks whose sum wraps around: the last offset of the address space passes
    for a name, and the byte before the mapping is read. *)
Lemma wrapped_name_faults :
  danos_vpp_stat_query_real 176 true true (lit "/a") (fun _ => cwrite (demo_seg 7 0 42) 72 (le_bytes 8 (2 ^ 64 - 1))) 0%nat = None.
Proof. vm_compute. reflexivity. Qed.

(** A directory in the first four bytes: its length is read before the mapping. *)
Lemma low_directory_faults :
  danos_vpp_stat_query_real 176 true true (lit "/a") (fun _ => cwrite (demo_seg 7 0 42) 24 (le_bytes 8 2)) 0%nat = None.
Proof. vm_compute. reflexivity. Qed.

(** ** Connecting *)

Ltac released :=
  cbn [app]; split_and!; intros; simplify_eq; try done; try lia; try set_solver;
  split_and!; intros; simplify_eq; try done; try lia; set_solver.

Definition closes (sys : list stat_sys) (fd : Z) : Prop := SysClose fd ∈ sys.

(** Connecting keeps nothing it does not need: on success the socket is
    closed and the segment mapped with the descriptor that came with the
    message; on every failure the socket, the received descriptor and the
    mapping are released and the client is disconnected. *)
Theorem stat_connect_releases os g :
  let '(rc, g', sys) := danos_vpp_stat_connect os g in
  st_fd g' = -1 /\ st_sock_path g' = st_sock_path g /\ (0 <= so_socket os -> closes sys (so_socket os)) /\
  (rc = 0 -> st_connected g' = true /\ st_base g' = true /\ sizeof_header <= st_size g' /\
     exists msgs, so_recvmsg os = Some msgs /\ st_mem_fd g' = received_fd msgs) /\
  (rc <> 0 -> rc = -1 /\ st_connected g' = false /\ st_base g' = false /\ st_mem_fd g' = -1 /\
     (forall msgs, SysConnect (stat_path g) ∈ sys -> so_connect os (stat_path g) = true ->
        so_recvmsg os = Some msgs -> 0 <= received_fd msgs -> closes sys (received_fd msgs))).
Proof.
  unfold danos_vpp_stat_connect, closes.
  destruct (Z.ltb_spec (so_socket os) 0) as [Hs|Hs].
  { split_and!; try done; [lia|]. intros _. split_and!; try done. by intros msgs ?%not_elem_of_nil. }
  destruct (Z.leb_spec 108 (strlen (stat_path g))); [released|].
  destruct (so_connect os (stat_path g)) eqn:Ec; cbn [negb]; [|released].
  destruct (so_recvmsg os) as [msgs|]; [|released].
  destruct (Z.ltb_spec (received_fd msgs) 0); [released|].
  destruct (so_fstat os) as [size|]; [|released].
  destruct (Z.ltb_spec size sizeof_header); [released|]. destruct (so_mmap os); cbn [negb]; [|released].
  destruct (_ || _).
  - unfold danos_vpp_stat_disconnect. cbn [st_base st_mem_fd st_fd]. rewrite (proj2 (Z.leb_le 0 (received_fd msgs))) by lia.
    change (0 <=? -1) with false. released.
  - split_and!; intros; try done; set_solver.
Qed.

(** The environment variable for the socket sets a path that the client of the
    segment does not read: it goes on dialling the default. *)
Lemma stat_env_ignored a0 :
  let a := danos_vpp_api_init (mk_env None (Some (lit "/tmp/stats.sock"))) a0 in
  stat_sock_path (g_ctx a) = lit "/tmp/stats.sock" /\
  (danos_vpp_api_connect_stat a (mk_stat_os 3 (fun _ => false) None None false 0) stat_boot).2 =
    [SysConnect STAT_SOCK_PATH_DEFAULT; SysClose 3].
Proof. split; reflexivity. Qed.

(** Disconnecting before the first connection closes descriptor 0, twice. *)
Lemma disconnect_closes_stdin : (danos_vpp_stat_disconnect stat_boot).2 = [SysClose 0; SysClose 0].
Proof. reflexivity. Qed.
