(* ===== verification/GnmiSub.v ===== *)
(** * Subscriptions of the REST server: danos-mgmt gnmi.h / gnmi.c

    A subscription is an entry of [g_subs] with a ring of 64 notifications.
    The event bus calls [gnmi_event_cb] with the entry; the model runs the
    callbacks of the bus's deliveries in their order, which is what the bus
    does, since the callback only writes its own entry.  A handle names its
    entry as long as the bus is not shut down under the subscriptions. *)

From stdpp Require Import base decidable list numbers strings.
From Stdlib Require Import ZArith Lia.
From S2P Require Import Prelude Dpa ObjectStore Wal EventBus Registry CStr Proto.

(** ** The notification ring *)

Definition DANOS_GNMI_QUEUE_SIZE : nat := 64.

Record danos_gnmi_queue := mk_queue {
  q_entries : list (option bytes);
  q_head : nat;
  q_tail : nat;
  q_count : nat;
  q_dropped : Z;
}.

(** [calloc]. *)
Definition queue_new : danos_gnmi_queue := mk_queue (replicate DANOS_GNMI_QUEUE_SIZE None) 0 0 0 0.

Definition queue_next (i : nat) : nat := ((i + 1) mod DANOS_GNMI_QUEUE_SIZE)%nat.

Definition queue_push (q : danos_gnmi_queue) (json : bytes) : danos_gnmi_queue :=
  let q := if (DANOS_GNMI_QUEUE_SIZE <=? q_count q)%nat
           then mk_queue (<[q_head q := None]> (q_entries q)) (queue_next (q_head q)) (q_tail q)
                  (q_count q - 1) (u64 (q_dropped q + 1))
           else q in
  mk_queue (<[q_tail q := Some json]> (q_entries q)) (q_head q) (queue_next (q_tail q))
    (q_count q + 1) (q_dropped q).

Definition queue_pop (q : danos_gnmi_queue) : option bytes * danos_gnmi_queue :=
  if (q_count q =? 0)%nat then (None, q) else
  (mjoin (q_entries q !! q_head q),
   mk_queue (<[q_head q := None]> (q_entries q)) (queue_next (q_head q)) (q_tail q)
     (q_count q - 1) (q_dropped q)).

(** ** Subscriptions *)

Record danos_gnmi_sub_entry := mk_sub_entry {
  se_id : Z;
  se_mask : Z;
  se_obj_type : danos_obj_type;
  se_queue : danos_gnmi_queue;
}.

(** [g_subs], newest first, and [g_subs_inited]. *)
Record gnmi_subs := mk_subs {
  g_subs : list danos_gnmi_sub_entry;
  g_subs_inited : bool;
}.

Definition subs_boot : gnmi_subs := mk_subs [] false.

Definition sub_find (id : Z) (s : gnmi_subs) : option danos_gnmi_sub_entry :=
  snd <$> list_find (fun e => se_id e = id) (g_subs s).

Definition obj_type_name (t : danos_obj_type) : string :=
  match t with
  | DANOS_OBJ_IFACE => "interface" | DANOS_OBJ_VLAN => "vlan" | DANOS_OBJ_VRF => "vrf"
  | DANOS_OBJ_ROUTE => "route" | DANOS_OBJ_NEXTHOP => "nexthop" | DANOS_OBJ_NHGROUP => "nhgroup"
  | DANOS_OBJ_ACL => "acl" | DANOS_OBJ_QOS => "qos" | DANOS_OBJ_MPLS_LSP => "mpls_lsp"
  | DANOS_OBJ_TUNNEL => "tunnel" | DANOS_OBJ_EVPN => "evpn_evi" | DANOS_OBJ_MULTICAST => "mcast"
  | DANOS_OBJ_BFD => "bfd"
  | _ => "unknown"
  end.

Definition event_type_name (t : danos_event_type) : string :=
  match t with
  | DANOS_EVENT_OBJ_CREATED => "created" | DANOS_EVENT_OBJ_UPDATED => "updated"
  | DANOS_EVENT_OBJ_DELETED => "deleted" | DANOS_EVENT_TX_COMMITTED => "tx_committed"
  | DANOS_EVENT_TX_ROLLBACK => "tx_rollback" | DANOS_EVENT_RECONCILE => "reconcile"
  | DANOS_EVENT_BACKEND_DOWN => "backend_down" | DANOS_EVENT_BACKEND_UP => "backend_up"
  | DANOS_EVENT_CAPABILITY => "capability"
  end.

(** The text [snprintf] puts into the 256 bytes. *)
Definition notification (ev : danos_event) : bytes :=
  take 255 (js "{'type': '" ++ lit (event_type_name (ev_type ev)) ++ js "', 'obj_type': '" ++
            lit (obj_type_name (ev_obj_type ev)) ++ js "', 'obj_id': " ++ dec (ev_obj_id ev) ++
            js ", 'ts_ns': " ++ dec (ev_timestamp_ns ev) ++ lit "}").

Definition sub_matches (ot : danos_obj_type) (ev : danos_event) : bool :=
  bool_decide (ot = DANOS_OBJ_INVALID) || bool_decide (ot = ev_obj_type ev).

(** [mem]: the notification could be allocated. *)
Definition gnmi_event_cb (mem : bool) (ev : danos_event) (e : danos_gnmi_sub_entry) : danos_gnmi_sub_entry :=
  if negb (sub_matches (se_obj_type e) ev) then e
  else if negb mem then e
  else mk_sub_entry (se_id e) (se_mask e) (se_obj_type e) (queue_push (se_queue e) (notification ev)).

(** The bus calls back the entry a handle was given for. *)
Definition deliver (s : gnmi_subs) (d : bool * delivery) : gnmi_subs :=
  mk_subs ((fun e => if se_id e =? d.2.1 then gnmi_event_cb d.1 d.2.2 e else e) <$> g_subs s) (g_subs_inited s).

Definition danos_gnmi_subscribe_init (s : gnmi_subs) : gnmi_subs :=
  if g_subs_inited s then s else mk_subs [] true.

Definition danos_gnmi_subscribe_fini (s : gnmi_subs) (ev : events) : gnmi_subs * events :=
  (mk_subs [] false, foldl (fun ev e => danos_event_unsubscribe (se_id e) ev) ev (g_subs s)).

(** The callback the bus is given. *)
Definition GNMI_EVENT_CB : Z := 1.

(** The allocations: the entry, the bus and the bus's subscription.  The
    result is [None] where the bus crashes. *)
Definition danos_gnmi_subscribe (mem_entry mem_bus mem_sub : bool) (obj_type : danos_obj_type) (mask : Z)
    (s : gnmi_subs) (ev : events) : option (Z * gnmi_subs * events) :=
  let s := if g_subs_inited s then s else danos_gnmi_subscribe_init s in
  if mask =? 0 then Some (0, s, ev)
  else if negb mem_entry then Some (0, s, ev)
  else
    '(id, ev) ← danos_event_subscribe mem_bus mem_sub mask (Some GNMI_EVENT_CB) ev;
    if id =? 0 then Some (0, s, ev)
    else Some (id, mk_subs (mk_sub_entry id mask obj_type queue_new :: g_subs s) (g_subs_inited s), ev).

Fixpoint entry_unlink (id : Z) (l : list danos_gnmi_sub_entry) : list danos_gnmi_sub_entry :=
  match l with
  | [] => []
  | e :: l => if se_id e =? id then l else e :: entry_unlink id l
  end.

Definition danos_gnmi_unsubscribe (id : Z) (s : gnmi_subs) (ev : events) : gnmi_subs * events :=
  match sub_find id s with
  | None => (s, ev)
  | Some _ => (mk_subs (entry_unlink id (g_subs s)) (g_subs_inited s), danos_event_unsubscribe id ev)
  end.

Definition danos_gnmi_subscribe_count (s : gnmi_subs) : nat := length (g_subs s).

(** ** Polling *)

(** The loop with [buf_size] and the text so far, whose length is [pos]; a
    write past the buffer is [Fault]. *)
Fixpoint poll_loop (fuel : nat) (m : heap) (first : bool) (buf_size : Z) (text : bytes) (q : danos_gnmi_queue)
    : outcome (option bytes * danos_gnmi_queue * heap) :=
  match fuel with
  | O => Spin
  | S fuel =>
      match queue_pop q with
      | (None, q) =>
          if buf_size <? strlen text + 2 then Fault else Ret (Some (text ++ lit "]"), q, m)
      | (Some json, q) =>
          let needed := strlen text + strlen json + 4 in
          let '(ok, size, m) :=
            if buf_size <=? needed then let '(ok, m) := malloc m in (ok, needed * 2, m)
            else (true, buf_size, m) in
          if negb ok then Ret (None, q, m) else
          let text := text ++ (if first then [] else lit ",") ++ json in
          if size <? strlen text then Fault else poll_loop fuel m false size text q
      end
  end.

Definition set_queue (q : danos_gnmi_queue) (e : danos_gnmi_sub_entry) : danos_gnmi_sub_entry :=
  mk_sub_entry (se_id e) (se_mask e) (se_obj_type e) q.

Definition danos_gnmi_subscribe_poll (id : Z) (s : gnmi_subs) (m : heap)
    : outcome (option bytes * gnmi_subs * heap) :=
  match sub_find id s with
  | None => let '(r, m) := strdup (js "{'error': 'invalid subscription'}") m in Ret (r, s, m)
  | Some e =>
      let '(ok, m) := malloc m in
      if negb ok then Ret (None, s, m) else
      '(r, q, m) ← poll_loop (S DANOS_GNMI_QUEUE_SIZE) m true 256 (lit "[") (se_queue e);
      Ret (r, mk_subs ((fun e => if se_id e =? id then set_queue q e else e) <$> g_subs s) (g_subs_inited s), m)
  end.

(** ** The ring is a bounded queue *)

Definition slot (h i : nat) : nat := ((h + i) mod DANOS_GNMI_QUEUE_SIZE)%nat.

Lemma slot_lt h i : (slot h i < DANOS_GNMI_QUEUE_SIZE)%nat.
Proof. apply Nat.mod_upper_bound. done. Qed.

Lemma slot_inj h i j :
  (i < DANOS_GNMI_QUEUE_SIZE)%nat -> (j < DANOS_GNMI_QUEUE_SIZE)%nat -> slot h i = slot h j -> i = j.
Proof.
  unfold slot, DANOS_GNMI_QUEUE_SIZE. intros Hi Hj H.
  pose proof (Nat.div_mod (h + i) 64 ltac:(done)). pose proof (Nat.div_mod (h + j) 64 ltac:(done)).
  rewrite H in *. generalize dependent ((h + j) mod 64)%nat. intros r.
  generalize ((h + i) / 64)%nat ((h + j) / 64)%nat. intros a b. lia.
Qed.

Lemma slot_next h i : slot (queue_next h) i = slot h (S i).
Proof.
  unfold slot, queue_next. rewrite Nat.Div0.add_mod_idemp_l. f_equal. lia.
Qed.

Lemma next_slot h i : queue_next (slot h i) = slot h (S i).
Proof. unfold slot, queue_next. rewrite Nat.Div0.add_mod_idemp_l. f_equal. lia. Qed.

(** The queue holds [l], oldest first. *)
Record queue_rep (q : danos_gnmi_queue) (l : list bytes) : Prop := {
  qr_length : length (q_entries q) = DANOS_GNMI_QUEUE_SIZE;
  qr_head : (q_head q < DANOS_GNMI_QUEUE_SIZE)%nat;
  qr_tail : q_tail q = slot (q_head q) (length l);
  qr_count : q_count q = length l;
  qr_max : (length l <= DANOS_GNMI_QUEUE_SIZE)%nat;
  qr_vals : forall i x, l !! i = Some x -> q_entries q !! slot (q_head q) i = Some (Some x);
}.

Lemma queue_new_rep : queue_rep queue_new [].
Proof. split; unfold DANOS_GNMI_QUEUE_SIZE; try done; cbn; lia. Qed.

(** Taking the oldest out of the ring. *)
Lemma queue_shift q x l d :
  queue_rep q (x :: l) ->
  queue_rep (mk_queue (<[q_head q := None]> (q_entries q)) (queue_next (q_head q)) (q_tail q) (q_count q - 1) d) l /\
  q_entries q !! q_head q = Some (Some x).
Proof.
  intros [H1 H2 H3 H4 H5 H6]. cbn [length] in *.
  assert (H0 : slot (q_head q) 0 = q_head q) by (unfold slot; rewrite Nat.add_0_r; by apply Nat.mod_small).
  split; [split; cbn [q_entries q_head q_tail q_count]|].
  - by rewrite length_insert.
  - apply Nat.mod_upper_bound. done.
  - by rewrite slot_next.
  - lia.
  - lia.
  - intros i y Hy. rewrite slot_next, list_lookup_insert_ne; [by apply (H6 (S i))|].
    pose proof (lookup_lt_Some _ _ _ Hy). intros Heq. rewrite <- H0 in Heq at 1.
    apply slot_inj in Heq; unfold DANOS_GNMI_QUEUE_SIZE in *; lia.
  - rewrite <- H0. by apply (H6 0%nat).
Qed.

Lemma queue_pop_rep q x l :
  queue_rep q (x :: l) -> exists q', queue_pop q = (Some x, q') /\ queue_rep q' l /\ q_dropped q' = q_dropped q.
Proof.
  intros H. destruct (queue_shift q x l (q_dropped q) H) as [Hr Hx]. pose proof (qr_count _ _ H) as Hc.
  unfold queue_pop. rewrite (proj2 (Nat.eqb_neq _ _)) by (rewrite Hc; cbn; lia). rewrite Hx. eauto.
Qed.

Lemma queue_pop_empty q : queue_rep q [] -> queue_pop q = (None, q).
Proof. intros H. unfold queue_pop. by rewrite (qr_count _ _ H). Qed.

Lemma queue_append q l x :
  queue_rep q l -> (length l < DANOS_GNMI_QUEUE_SIZE)%nat ->
  queue_rep (mk_queue (<[q_tail q := Some x]> (q_entries q)) (q_head q) (queue_next (q_tail q)) (q_count q + 1)
               (q_dropped q)) (l ++ [x]).
Proof.
  intros [H1 H2 H3 H4 H5 H6] Hl. split; cbn [q_entries q_head q_tail q_count]; rewrite ?length_insert, ?length_app; cbn [length].
  - done.
  - done.
  - by rewrite H3, next_slot, Nat.add_1_r.
  - lia.
  - lia.
  - intros i y Hy. rewrite H3. apply lookup_app_Some in Hy as [Hy|[Hi Hy]].
    + pose proof (lookup_lt_Some _ _ _ Hy). rewrite list_lookup_insert_ne; [by apply H6|].
      intros Heq. apply slot_inj in Heq; lia.
    + apply list_lookup_singleton_Some in Hy as [Hi0 <-]. replace i with (length l) by lia.
      apply list_lookup_insert_eq. rewrite H1. apply slot_lt.
Qed.

(** What the bounded queue does with one more element. *)
Definition keep_latest (l : list bytes) : list bytes := drop (length l - DANOS_GNMI_QUEUE_SIZE) l.

Lemma queue_push_rep q l x :
  queue_rep q l ->
  queue_rep (queue_push q x) (keep_latest (l ++ [x])) /\
  q_dropped (queue_push q x) =
    if (length l <? DANOS_GNMI_QUEUE_SIZE)%nat then q_dropped q else u64 (q_dropped q + 1).
Proof.
  intros H. pose proof H as [_ _ _ Hc Hm _]. unfold queue_push, keep_latest. rewrite Hc, length_app. cbn [length].
  destruct (Nat.ltb_spec (length l) DANOS_GNMI_QUEUE_SIZE) as [Hl|Hl].
  - rewrite (proj2 (Nat.leb_gt _ _)) by done. replace (length l + 1 - DANOS_GNMI_QUEUE_SIZE)%nat with 0%nat by lia.
    rewrite drop_0. split; [by apply queue_append|done].
  - rewrite (proj2 (Nat.leb_le _ _)) by done.
    replace (length l + 1 - DANOS_GNMI_QUEUE_SIZE)%nat with 1%nat by lia.
    destruct l as [|y l]; [unfold DANOS_GNMI_QUEUE_SIZE in Hl; cbn in Hl; lia|].
    cbn [app drop]. destruct (queue_shift q y l (u64 (q_dropped q + 1)) H) as [Hr _].
    rewrite Hc in Hr. split; [|done]. apply (queue_append _ _ x Hr). cbn [length] in Hm. lia.
Qed.

Lemma keep_latest_snoc l x : keep_latest (keep_latest l ++ [x]) = keep_latest (l ++ [x]).
Proof.
  unfold keep_latest. rewrite !length_app, length_drop. cbn [length].
  destruct (Nat.le_gt_cases DANOS_GNMI_QUEUE_SIZE (length l)) as [Hl|Hl].
  - replace (length l + 1 - DANOS_GNMI_QUEUE_SIZE)%nat with (S (length l - DANOS_GNMI_QUEUE_SIZE)) by lia.
    replace (length l - (length l - DANOS_GNMI_QUEUE_SIZE) + 1 - DANOS_GNMI_QUEUE_SIZE)%nat with 1%nat by lia.
    assert (0 < DANOS_GNMI_QUEUE_SIZE)%nat by (unfold DANOS_GNMI_QUEUE_SIZE; lia).
    rewrite !drop_app_le by (rewrite ?length_drop; lia). rewrite drop_drop. do 2 f_equal. lia.
  - replace (length l - DANOS_GNMI_QUEUE_SIZE)%nat with 0%nat by lia. by rewrite Nat.sub_0_r, drop_0.
Qed.

Lemma keep_latest_length l : length (keep_latest l) = Nat.min (length l) DANOS_GNMI_QUEUE_SIZE.
Proof. unfold keep_latest. rewrite length_drop. lia. Qed.

Lemma queue_pushes xs :
  queue_rep (foldl queue_push queue_new xs) (keep_latest xs) /\
  (Z.of_nat (length xs) < 2 ^ 64 ->
   q_dropped (foldl queue_push queue_new xs) = Z.of_nat (length xs - DANOS_GNMI_QUEUE_SIZE)).
Proof.
  induction xs as [|x xs IH] using rev_ind; [split; [apply queue_new_rep|done]|].
  rewrite foldl_snoc. destruct IH as [Hr Hd].
  destruct (queue_push_rep _ _ x Hr) as [Hr' Hd']. rewrite keep_latest_snoc in Hr'.
  split; [done|]. intros Hl. rewrite Hd', keep_latest_length, Hd; rewrite length_app in *; cbn [length] in *; [|lia].
  unfold DANOS_GNMI_QUEUE_SIZE in *. destruct (Nat.ltb_spec (Nat.min (length xs) 64) 64); [lia|].
  rewrite u64_small; [lia|unfold is_u64; lia].
Qed.

(** ** Polling drains the ring into one array *)

Fixpoint commas (first : bool) (l : list bytes) : bytes :=
  match l with
  | [] => []
  | x :: l => (if first then [] else lit ",") ++ x ++ commas false l
  end.

Definition json_array (l : list bytes) : bytes := lit "[" ++ commas true l ++ lit "]".

Lemma strlen_comma first : strlen (if first : bool then [] else lit ",") <= 1.
Proof. by destruct first. Qed.

(** The buffer always has room for what the next writes need: two bytes more
    than the text before each turn. *)
Lemma poll_loop_run l fuel m first size text q :
  queue_rep q l -> (length l < fuel)%nat -> strlen text + 2 <= size ->
  exists r q' m', poll_loop fuel m first size text q = Ret (r, q', m') /\
    (m = [] -> r = Some (text ++ commas first l ++ lit "]") /\ queue_rep q' [] /\ m' = []) /\
    (r = None \/ r = Some (text ++ commas first l ++ lit "]")) /\ exists l', queue_rep q' l'.
Proof.
  revert fuel m first size text q. induction l as [|x l IH]; intros fuel m first size text q Hq Hf Hs;
    (destruct fuel as [|fuel]; [cbn in Hf; lia|]); cbn [poll_loop commas app].
  - rewrite (queue_pop_empty _ Hq), (proj2 (Z.ltb_ge _ _)) by done.
    exists (Some (text ++ lit "]")), q, m. split; [done|]. split; [done|]. split; [by right|by exists []].
  - destruct (queue_pop_rep _ _ _ Hq) as (q1 & -> & Hq1 & _).
    set (needed := strlen text + strlen x + 4).
    destruct (if size <=? needed then let '(ok, m) := malloc m in (ok, needed * 2, m) else (true, size, m))
      as [[ok size'] m1] eqn:Hg.
    destruct ok; cbn [negb]; [|exists None, q1, m1; split; [done|]; split; [|by eauto]].
    2: { intros ->. destruct (size <=? needed); [by injection Hg|done]. }
    assert (Hs' : strlen text + strlen x + 3 <= size' /\ (m = [] -> m1 = [])).
    { unfold strlen in *. destruct (Z.leb_spec size needed).
      - destruct m as [|b m]; injection Hg; intros; subst size' m1; (split; [subst needed; unfold strlen; lia|done]).
      - injection Hg as <- <-. split; [subst needed; unfold strlen in *; lia|done]. }
    destruct Hs' as [Hs' Hm1]. pose proof (strlen_comma first) as Hcm. unfold strlen in *.
    set (sep := if first then [] else lit ",") in *.
    rewrite (proj2 (Z.ltb_ge _ _)) by (rewrite !length_app; lia).
    destruct (IH fuel m1 false size' (text ++ sep ++ x) q1 Hq1) as (r & q' & m' & -> & H1 & H2 & H3);
      [cbn in Hf; lia|rewrite !length_app; lia|].
    replace ((text ++ sep ++ x) ++ commas false l ++ lit "]")
      with (text ++ (sep ++ x ++ commas false l) ++ lit "]") in * by (by rewrite <- !app_assoc).
    exists r, q', m'. split; [done|]. split; [|done]. intros Hm. by apply H1, Hm1.
Qed.

(** Entries of [g_subs] whose rings represent queues. *)
Definition entry_rep (e : danos_gnmi_sub_entry) : Prop := exists l, queue_rep (se_queue e) l.

Lemma sub_find_In id s e : sub_find id s = Some e -> e ∈ g_subs s /\ se_id e = id.
Proof.
  unfold sub_find. intros ([i e'] & (Hl & He & _)%list_find_Some & ->)%fmap_Some.
  split; [by eapply list_elem_of_lookup_2|done].
Qed.

Lemma poll_array id s e l :
  sub_find id s = Some e -> queue_rep (se_queue e) l ->
  exists s', danos_gnmi_subscribe_poll id s [] = Ret (Some (json_array l), s', []).
Proof.
  intros Hf Hq. unfold danos_gnmi_subscribe_poll. rewrite Hf. cbn [malloc negb].
  pose proof (qr_max _ _ Hq) as Hm.
  destruct (poll_loop_run l (S DANOS_GNMI_QUEUE_SIZE) [] true 256 (lit "[") (se_queue e) Hq)
    as (r & q' & m' & -> & H1 & _ & _); [lia|vm_compute; discriminate|].
  destruct (H1 eq_refl) as (-> & _ & ->). cbn [mbind outcome_bind]. eauto.
Qed.

(** ** From an object operation to a notification *)

(** The events the successful operations of a sequence publish, in order. *)
Fixpoint ops_events (h : Z) (ops : list obj_op) (c : core) : list danos_event :=
  match ops with
  | [] => []
  | op :: ops =>
      let '(st, c') := run_op h op c in
      (if decide (st = DANOS_OK) then [op_event op (c_time c)] else []) ++ ops_events h ops c'
  end.

(** The callbacks the bus made since [ev]. *)
Definition new_deliveries (ev ev' : events) : list delivery :=
  drop (length (ev_deliveries ev)) (ev_deliveries ev').

Lemma run_ops_cons h op ops c : run_ops h (op :: ops) c = run_ops h ops (run_op h op c).2.
Proof. reflexivity. Qed.

(** What a bus delivers while the operations run. *)
Lemma ops_deliveries h ops c b :
  g_event_bus (c_events c) = Some b ->
  exists b', g_event_bus (c_events (run_ops h ops c)) = Some b' /\ eb_subs b' = eb_subs b /\
    ev_deliveries (c_events (run_ops h ops c)) =
      ev_deliveries (c_events c) ++
      (ops_events h ops c ≫= fun ev => (fun s => (sub_id s, ev)) <$> filter (fun s => sub_wants ev s = true) (eb_subs b)).
Proof.
  revert c b. induction ops as [|op ops IH]; intros c b Hb.
  { exists b. cbn. by rewrite app_nil_r. }
  rewrite run_ops_cons. cbn [ops_events]. pose proof (object_ops_notify h op c) as Hn.
  destruct (run_op h op c) as [st c1]. cbn [snd]. destruct (decide (st = DANOS_OK)).
  - destruct Hn as [_ Hn]. unfold danos_event_publish in Hn. rewrite Hb in Hn.
    destruct (IH c1 _ ltac:(by rewrite Hn)) as (b' & H1 & H2 & H3). exists b'. split; [done|]. split; [done|].
    rewrite H3, Hn. cbn [ev_deliveries eb_subs]. rewrite bind_app, <- app_assoc. f_equal. cbn [mbind list_bind].
    by rewrite app_nil_r.
  - destruct Hn as [_ Hn]. rewrite <- Hn in Hb. destruct (IH c1 b Hb) as (b' & H1 & H2 & H3).
    exists b'. split; [done|]. split; [done|]. by rewrite H3, Hn.
Qed.

(** The entry with a handle after deliveries that all could be allocated. *)
Lemma deliver_find id s d e :
  sub_find id s = Some e ->
  sub_find id (deliver s (true, d)) =
    Some (if decide (d.1 = id) then gnmi_event_cb true d.2 e else e).
Proof.
  unfold sub_find, deliver. cbn [g_subs fst snd]. set (f := fun e => if se_id e =? d.1 then _ else e).
  assert (Hid : forall x, se_id (f x) = se_id x).
  { intros x. unfold f, gnmi_event_cb. repeat case_match; done. }
  induction (g_subs s) as [|x l IH]; [done|]. cbn [fmap list_fmap list_find]. rewrite Hid.
  destruct (decide (se_id x = id)) as [Hx|Hx]; cbn [fmap option_fmap option_map snd].
  - intros [= <-]. do 2 f_equal. unfold f. rewrite Hx. destruct (decide (d.1 = id)) as [->|Hne].
    + by rewrite Z.eqb_refl.
    + by rewrite (proj2 (Z.eqb_neq _ _)) by done.
  - intros Hl. destruct (list_find _ l) as [[i y]|]; [|done]. cbn in Hl. injection Hl as ->.
    specialize (IH eq_refl). destruct (list_find _ (f <$> l)) as [[j z]|]; [|done]. cbn in *. done.
Qed.

(** The notifications a handle's deliveries add. *)
Definition sub_notes (id : Z) (ot : danos_obj_type) (ds : list delivery) : list bytes :=
  notification ∘ snd <$> filter (fun d => d.1 = id /\ sub_matches ot d.2 = true) ds.

Lemma deliver_all id ds s e l :
  sub_find id s = Some e -> queue_rep (se_queue e) (keep_latest l) ->
  exists e', sub_find id (foldl deliver s ((fun d => (true, d)) <$> ds)) = Some e' /\
    se_obj_type e' = se_obj_type e /\
    queue_rep (se_queue e') (keep_latest (l ++ sub_notes id (se_obj_type e) ds)).
Proof.
  revert s e l. induction ds as [|d ds IH]; intros s e l Hf Hq; cbn [fmap list_fmap foldl].
  { exists e. by rewrite app_nil_r. }
  pose proof (deliver_find id s d e Hf) as Hd. unfold sub_notes. rewrite filter_cons.
  destruct (decide (d.1 = id /\ sub_matches (se_obj_type e) d.2 = true)) as [[Hid Hm]|Hn].
  - rewrite decide_True in Hd by done. unfold gnmi_event_cb in Hd. rewrite Hm in Hd. cbn [negb] in Hd.
    destruct (queue_push_rep _ _ (notification d.2) Hq) as [Hq' _]. rewrite keep_latest_snoc in Hq'.
    destruct (IH _ _ (l ++ [notification d.2]) Hd Hq') as (e' & H1 & H2 & H3).
    exists e'. split; [done|]. split; [done|]. rewrite <- app_assoc in H3. exact H3.
  - assert (He : (if decide (d.1 = id) then gnmi_event_cb true d.2 e else e) = e).
    { destruct (decide (d.1 = id)); [|done]. unfold gnmi_event_cb.
      destruct (sub_matches _ _) eqn:Hm; [|done]. exfalso. by apply Hn. }
    rewrite He in Hd. apply (IH _ _ _ Hd Hq).
Qed.

(** The events a subscription asks for. *)
Definition wanted (ot : danos_obj_type) (mask : Z) (ev : danos_event) : bool :=
  sub_matches ot ev && negb (Z.land mask (Z.shiftl 1 (event_code (ev_type ev))) =? 0).

Lemma notes_app id ot a b : sub_notes id ot (a ++ b) = sub_notes id ot a ++ sub_notes id ot b.
Proof. unfold sub_notes. by rewrite filter_app, fmap_app. Qed.

(** Of all callbacks for one event, the new subscription gets at most one. *)
Lemma notes_event id ot mask b ev :
  Forall (fun s => sub_id s <> id) (eb_subs b) -> is_u32 mask ->
  sub_notes id ot ((fun s => (sub_id s, ev)) <$>
    filter (fun s => sub_wants ev s = true) (mk_sub id (u32 mask) GNMI_EVENT_CB :: eb_subs b)) =
  if wanted ot mask ev then [notification ev] else [].
Proof.
  intros Hb Hm.
  assert (Hold : forall l, Forall (fun s => sub_id s <> id) l ->
    filter (fun d : delivery => d.1 = id /\ sub_matches ot d.2 = true) ((fun s => (sub_id s, ev)) <$> l) = []).
  { induction 1 as [|x l Hx _ IH]; [done|]. cbn [fmap list_fmap]. rewrite filter_cons_False; [done|]. by intros [? _]. }
  assert (Hf : Forall (fun s => sub_id s <> id) (filter (fun s => sub_wants ev s = true) (eb_subs b)))
    by (apply Forall_forall; intros x [_ Hx]%list_elem_of_filter; rewrite Forall_forall in Hb; by apply Hb).
  assert (Hw : sub_wants ev (mk_sub id (u32 mask) GNMI_EVENT_CB) =
    negb (Z.land mask (Z.shiftl 1 (event_code (ev_type ev))) =? 0)).
  { unfold sub_wants. cbn [sub_mask]. by rewrite u32_small. }
  unfold sub_notes, wanted. rewrite <- Hw, filter_cons.
  destruct (decide (sub_wants ev _ = true)) as [Ht|Ht].
  - rewrite Ht. cbn [fmap list_fmap]. destruct (sub_matches ot ev) eqn:Hs.
    + rewrite filter_cons_True by done. by rewrite Hold by done.
    + rewrite filter_cons_False by (cbn; rewrite Hs; by intros [_ ?]). by rewrite Hold by done.
  - apply not_true_is_false in Ht. rewrite Ht, Hold by done. by rewrite andb_false_r.
Qed.

Lemma notes_events id ot mask b evs :
  Forall (fun s => sub_id s <> id) (eb_subs b) -> is_u32 mask ->
  sub_notes id ot (evs ≫= fun ev => (fun s => (sub_id s, ev)) <$>
    filter (fun s => sub_wants ev s = true) (mk_sub id (u32 mask) GNMI_EVENT_CB :: eb_subs b)) =
  notification <$> filter (fun ev => wanted ot mask ev = true) evs.
Proof.
  intros Hb Hm. induction evs as [|ev evs IH]; [done|]. rewrite bind_cons, notes_app, IH, notes_event by done.
  rewrite filter_cons. destruct (wanted ot mask ev); [by rewrite decide_True|by rewrite decide_False].
Qed.

Lemma subscribe_fresh mb ot mask s ev b :
  g_event_bus ev = Some b -> bus_wf b -> 0 < mask < 2 ^ 32 ->
  exists s1 ev1, danos_gnmi_subscribe true mb true ot mask s ev = Some (eb_next_sub_id b, s1, ev1) /\
    sub_find (eb_next_sub_id b) s1 = Some (mk_sub_entry (eb_next_sub_id b) mask ot queue_new) /\
    g_event_bus ev1 = Some (mk_bus (mk_sub (eb_next_sub_id b) (u32 mask) GNMI_EVENT_CB :: eb_subs b)
                              (u64 (eb_next_sub_id b + 1)) (eb_events_published b)) /\
    ev_deliveries ev1 = ev_deliveries ev.
Proof.
  intros Hb [Hn Hi _] Hm. unfold danos_gnmi_subscribe, danos_event_subscribe, danos_event_bus_init.
  rewrite (proj2 (Z.eqb_neq mask 0)), Hb by lia. cbn [negb mbind option_bind]. rewrite Hb. cbn [mbind option_bind].
  rewrite (proj2 (Z.eqb_neq _ 0)) by lia. eexists _, _. split; [reflexivity|]. split; [|done].
  unfold sub_find. cbn [g_subs list_find se_id]. by rewrite decide_True.
Qed.

(** C21. A subscription reports exactly what happened: after
    [danos_gnmi_subscribe] with an object type and an event mask, any sequence
    of object operations on a store, and the callbacks of the bus, a poll
    returns the JSON array of the notifications of the operations that
    succeeded, that the mask selects and whose object has the type, in order;
    of more than 64 it has the latest 64. *)
Theorem subscription_exact mb ot mask s c b h ops :
  g_event_bus (c_events c) = Some b -> bus_wf b -> 0 < mask < 2 ^ 32 ->
  exists id s1 ev1 s3,
    danos_gnmi_subscribe true mb true ot mask s (c_events c) = Some (id, s1, ev1) /\
    let c1 := set_events c ev1 in
    let ds := new_deliveries ev1 (c_events (run_ops h ops c1)) in
    danos_gnmi_subscribe_poll id (foldl deliver s1 ((fun d => (true, d)) <$> ds)) [] =
      Ret (Some (json_array (keep_latest (notification <$> filter (fun ev => wanted ot mask ev = true)
                               (ops_events h ops c1)))), s3, []).
Proof.
  intros Hb Hw Hm. destruct (subscribe_fresh mb ot mask s _ b Hb Hw Hm) as (s1 & ev1 & Hs & Hf & Hb1 & Hd1).
  set (c1 := set_events c ev1). set (id := eb_next_sub_id b) in *.
  destruct (ops_deliveries h ops c1 _ ltac:(exact Hb1)) as (b' & _ & _ & Hd). cbn [eb_subs] in Hd.
  set (ds := new_deliveries ev1 (c_events (run_ops h ops c1))).
  assert (Hfresh : Forall (fun s => sub_id s <> id) (eb_subs b)).
  { eapply Forall_impl; [apply (bw_ids _ Hw)|]. cbn. intros x ?. lia. }
  destruct (deliver_all id ds s1 _ [] Hf queue_new_rep) as (e' & He & _ & Hq).
  cbn [se_obj_type app] in Hq. unfold ds, new_deliveries in Hq. rewrite Hd in Hq.
  rewrite drop_app_length' in Hq by done. rewrite notes_events in Hq; [|done|unfold is_u32; lia].
  destruct (poll_array id _ e' _ He Hq) as (s3 & Hp). exists id, s1, ev1, s3. split; [exact Hs|exact Hp].
Qed.

(** The ring is a bounded queue that forgets the oldest: after any pushes
    it holds the latest 64 in their order, it counts the ones it dropped, and
    popping returns them oldest first. *)
Theorem notification_ring_bounded xs x l :
  Z.of_nat (length xs) < 2 ^ 64 -> keep_latest xs = x :: l ->
  let q := foldl queue_push queue_new xs in
  q_count q = length (x :: l) /\ (q_count q <= DANOS_GNMI_QUEUE_SIZE)%nat /\
  q_dropped q = Z.of_nat (length xs - DANOS_GNMI_QUEUE_SIZE) /\
  exists q', queue_pop q = (Some x, q') /\ queue_rep q' l.
Proof.
  intros Hl Hk. destruct (queue_pushes xs) as [Hr Hd]. rewrite Hk in Hr. specialize (Hd Hl).
  destruct (queue_pop_rep _ _ _ Hr) as (q' & Hp & Hq & _). pose proof (qr_max _ _ Hr).
  split; [apply Hr|]. split; [by rewrite (qr_count _ _ Hr)|]. split; [done|]. by exists q'.
Qed.

(** Polling never writes past its buffer and always ends: whatever the
    allocator answers, the loop returns the whole array or NULL. *)
Theorem poll_safe id s m :
  Forall entry_rep (g_subs s) ->
  exists r s' m', danos_gnmi_subscribe_poll id s m = Ret (r, s', m') /\ Forall entry_rep (g_subs s').
Proof.
  intros Hs. unfold danos_gnmi_subscribe_poll. destruct (sub_find id s) as [e|] eqn:Hf.
  2: { unfold strdup. destruct (malloc m) as [ok m1]. eauto 10. }
  destruct (malloc m) as [ok m1]. destruct ok; cbn [negb]; [|by eauto 10].
  destruct (sub_find_In _ _ _ Hf) as [Hin _]. rewrite Forall_forall in Hs. destruct (Hs e Hin) as [l Hq].
  pose proof (qr_max _ _ Hq) as Hm.
  destruct (poll_loop_run l (S DANOS_GNMI_QUEUE_SIZE) m1 true 256 (lit "[") (se_queue e) Hq)
    as (r & q' & m' & -> & _ & _ & Hq'); [lia|vm_compute; discriminate|].
  cbn [mbind outcome_bind]. eexists _, _, _. split; [reflexivity|]. cbn [g_subs].
  apply Forall_fmap, Forall_forall. intros x Hx. cbn [compose]. destruct (se_id x =? id); [exact Hq'|by apply Hs].
Qed.

(** ** Concrete runs *)

Definition demo_bus_core : core :=
  mk_core (mk_os [] ∅) 5 {[ 1 := danos_object_store_create 4 ]} 2 (Some 1) None
    false (mk_persist wal_ctx_zero false false 0 0) (mk_events (Some bus_new) []).
Definition demo_sub_ops : list obj_op :=
  [OpCreate DANOS_OBJ_IFACE 42 (Some [1]); OpCreate DANOS_OBJ_VRF 7 (Some [1]); OpDelete DANOS_OBJ_IFACE 42].

Lemma subscription_exact_witness :
  exists id s1 ev1 s3,
    danos_gnmi_subscribe true true true DANOS_OBJ_IFACE 65535 subs_boot (c_events demo_bus_core) = Some (id, s1, ev1) /\
    danos_gnmi_subscribe_poll id
      (foldl deliver s1 ((fun d => (true, d)) <$>
         new_deliveries ev1 (c_events (run_ops 1 demo_sub_ops (set_events demo_bus_core ev1))))) [] =
    Ret (Some (js "[{'type': 'created', 'obj_type': 'interface', 'obj_id': 42, 'ts_ns': 5000000000},{'type': 'deleted', 'obj_type': 'interface', 'obj_id': 42, 'ts_ns': 5000000000}]"),
         s3, []).
Proof.
  destruct (subscription_exact true DANOS_OBJ_IFACE 65535 subs_boot demo_bus_core bus_new 1 demo_sub_ops)
    as (id & s1 & ev1 & s3 & Hs & Hp).
  - reflexivity.
  - exact bus_new_wf.
  - lia.
  - exists id, s1, ev1, s3. split; [exact Hs|]. cbv zeta in Hp. rewrite Hp.
    vm_compute in Hs. injection Hs as <- <- <-. vm_compute. reflexivity.
Defined.

Lemma notification_ring_bounded_witness :
  exists q', queue_pop (queue_push (queue_push queue_new [1]) [2]) = (Some [1], q') /\ queue_rep q' [[2]].
Proof. apply (notification_ring_bounded [[1]; [2]] [1] [[2]]); [vm_compute; reflexivity|reflexivity]. Defined.

Lemma poll_safe_witness : exists r s' m', danos_gnmi_subscribe_poll 3 subs_boot [false] = Ret (r, s', m').
Proof.
  destruct (poll_safe 3 subs_boot [false]) as (r & s' & m' & Hr & _); [constructor|]. exists r, s', m'. exact Hr.
Defined.
