(* ===== verification/ModelRoutes.v ===== *)
(** * Northbound routes: danos-mgmt model_routes.h / model_routes.c

    One northbound route is a next hop, a group and a route object, written in
    one transaction.  The state is the transaction manager and the core
    library; the allocator, the clock and the write lock of the transaction are
    answers of the environment.  Reading an object into a local structure
    leaves the bytes behind a shorter object zero. *)

From stdpp Require Import base decidable list numbers gmap strings.
From Stdlib Require Import ZArith Lia.
From S2P Require Import Prelude Dpa ObjectStore Wal EventBus Registry Persist DpaObjects.
From S2P Require Import Transaction Pipeline Zapi ZapiMapper CStr.

Record mworld := mk_mworld { mw_tx : tx_world; mw_core : core }.

(** Whether the manager and a record can be allocated, the time, and whether
    the write lock is obtained before the deadline. *)
Record tx_env := mk_tx_env { te_mem_mgr : bool; te_mem_rec : bool; te_now : Z; te_locked : bool }.

Definition tx_granted (now : Z) : tx_env := mk_tx_env true true now true.

(** ** Parsing *)

(** [%u]: a number converted with [strtoul] and stored in 32 bits. *)
Definition scan_u (s : bytes) : option (Z * bytes) :=
  let '(v, rest) := strtoul s in
  if (length rest =? length s)%nat then None else Some (u32 v, rest).

Definition scan_dot (s : bytes) : option bytes :=
  match s with c :: s => if c =? 46 then Some s else None | [] => None end.

(** [sscanf(s, "%u.%u.%u.%u%c", ...) == 4]. *)
Definition scan_quad (s : bytes) : option (Z * Z * Z * Z) :=
  '(a, s) ← scan_u s; s ← scan_dot s;
  '(b, s) ← scan_u s; s ← scan_dot s;
  '(c, s) ← scan_u s; s ← scan_dot s;
  '(d, s) ← scan_u s;
  match s with [] => Some (a, b, c, d) | _ => None end.

Definition gnmi_parse_ipv4 (s : option bytes) : danos_status * option danos_ip_addr :=
  match s with
  | None => (DANOS_ERR_INVALID_ARG, None)
  | Some s =>
      match scan_quad s with
      | None => (DANOS_ERR_INVALID_ARG, None)
      | Some (a, b, c, d) =>
          if (255 <? a) || (255 <? b) || (255 <? c) || (255 <? d) then (DANOS_ERR_INVALID_ARG, None)
          else (DANOS_OK, Some (mk_ip_addr DANOS_AF_IPV4 ([a; b; c; d] ++ zeros 12)))
      end
  end.

(** The text before the first [/] and the text behind it. *)
Fixpoint split_slash (s : bytes) : option (bytes * bytes) :=
  match s with
  | [] => None
  | c :: s => if c =? 47 then Some ([], s) else '(a, b) ← split_slash s; Some (c :: a, b)
  end.

Definition gnmi_parse_prefix (s : option bytes) : danos_status * option danos_ip_prefix :=
  match s with
  | None => (DANOS_ERR_INVALID_ARG, None)
  | Some s =>
      match split_slash (take 63 s) with
      | None => (DANOS_ERR_INVALID_ARG, None)
      | Some (ip, tail) =>
          let len := u32 (fst (strtoul tail)) in
          if 32 <? len then (DANOS_ERR_INVALID_ARG, None) else
          match gnmi_parse_ipv4 (Some ip) with
          | (DANOS_OK, Some a) => (DANOS_OK, Some (mk_ip_prefix a (u8 len)))
          | (st, _) => (st, None)
          end
      end
  end.

(** ** Finding objects *)

Record route_lookup_t := mk_lookup {
  lu_route_id : Z; lu_group_id : Z; lu_nh_id : Z; lu_found : bool;
}.

Definition prefix_equal (a b : danos_ip_prefix) : bool :=
  (pfx_len a =? pfx_len b) && (ip_af (pfx_addr a) =? ip_af (pfx_addr b)) &&
  bool_decide (ip_addr (pfx_addr a) = ip_addr (pfx_addr b)).

(** The entry is a static route of this table and prefix. *)
Definition static_match (vrf : Z) (prefix : danos_ip_prefix) (e : danos_object_entry) : option danos_route :=
  if negb (bool_decide (e_type e = DANOS_OBJ_ROUTE)) || (length (e_data e) <? sizeof danos_route)%nat
  then None else
  let r : danos_route := of_mem (e_data e) in
  if (rt_vrf_id r =? vrf) && (rt_protocol r =? DANOS_ROUTE_PROTO_STATIC) && prefix_equal (rt_prefix r) prefix
  then Some r else None.

Definition read_group (c : core) (id : Z) : option danos_nhgroup :=
  of_mem <$> read_mem (g_default_store c) DANOS_OBJ_NHGROUP id (sizeof danos_nhgroup) c.

Definition lookup_iter (vrf : Z) (prefix : danos_ip_prefix) (c : core)
    (lu : route_lookup_t) (e : danos_object_entry) : route_lookup_t :=
  if lu_found lu then lu else
  match static_match vrf prefix e with
  | None => lu
  | Some r =>
      let gid := rt_nhgroup_id r in
      mk_lookup (e_id e) gid
        (match (if gid =? 0 then None else read_group c gid) with
         | Some g => if 0 <? grp_nh_count g then default 0 (grp_nh_ids g !! 0%nat) else lu_nh_id lu
         | None => lu_nh_id lu
         end) true
  end.

(** The default store of the core. *)
Definition default_entries (c : core) : option danos_object_store :=
  h ← g_default_store c; c_stores c !! h.

Definition find_static_route (vrf : Z) (prefix : danos_ip_prefix) (c : core) : route_lookup_t :=
  danos_object_iterate (default_entries c) (lookup_iter vrf prefix c) (mk_lookup 0 0 0 false).

Definition max_iter (type : danos_obj_type) (m : Z) (e : danos_object_entry) : Z :=
  if negb (bool_decide (e_type e = type)) then m else if m <? e_id e then e_id e else m.

Definition nh_max_iter : Z -> danos_object_entry -> Z := max_iter DANOS_OBJ_NEXTHOP.
Definition group_max_iter : Z -> danos_object_entry -> Z := max_iter DANOS_OBJ_NHGROUP.

Definition next_nh_id (c : core) : Z := u64 (danos_object_iterate (default_entries c) nh_max_iter 100 + 1).
Definition next_group_id (c : core) : Z :=
  u64 (danos_object_iterate (default_entries c) group_max_iter 100 + 1).

(** ** Transactions *)

Definition begin_tx (e : tx_env) (who : string) (w : mworld) : danos_status * option danos_tx * mworld :=
  let '(st, tx, t) := danos_tx_begin (te_mem_mgr e) (te_mem_rec e) (te_now e) (Some tx_zero)
                        (Some who) None (mw_tx w) in
  (st, tx, mk_mworld t (mw_core w)).

(** The end of every composite: abort when a step failed, else prepare,
    validate and commit, and abort when one of these fails. *)
Definition tx_finish (e : tx_env) (st : danos_status) (tx : option danos_tx) (w : mworld)
    : danos_status * mworld :=
  let ok st := bool_decide (st = DANOS_OK) in
  let '(st, tx, t) := if ok st then danos_tx_prepare tx (mw_tx w) else (st, tx, mw_tx w) in
  let '(st, tx, t) := if ok st then danos_tx_validate tx t else (st, tx, t) in
  let '(st, tx, t) := if ok st then danos_tx_commit (te_locked e) tx t else (st, tx, t) in
  let t := if ok st then t else snd (danos_tx_abort tx t) in
  (st, mk_mworld t (mw_core w)).

(** Run a step when everything before it succeeded. *)
Definition and_then (f : core -> danos_status * core) (r : danos_status * core) : danos_status * core :=
  match r with
  | (DANOS_OK, c) => f c
  | (st, c) => (st, c)
  end.

(** ** Composite set *)

Definition static_route (vrf : Z) (prefix : danos_ip_prefix) (group : Z) : danos_route :=
  mk_route vrf prefix DANOS_ROUTE_PROTO_STATIC 1 0 group 0.

Definition group_of (id : Z) (ids : list Z) : danos_nhgroup :=
  mk_nhgroup id (Z.of_nat (length ids)) (ids ++ replicate (64 - length ids) 0) 0.

Definition gnmi_route_set (e : tx_env) (vrf_id : Z) (prefix : option danos_ip_prefix)
    (gateway : option danos_ip_addr) (oif : Z) (w : mworld) : danos_status * mworld :=
  match prefix, gateway with
  | Some prefix, Some gateway =>
      if negb (ip_af gateway =? DANOS_AF_IPV4) then (DANOS_ERR_INVALID_ARG, w) else
      match g_default_store (mw_core w) with
      | None => (DANOS_ERR_INVALID_ARG, w)
      | Some _ =>
          let lu := find_static_route vrf_id prefix (mw_core w) in
          let '(st, tx, w) := begin_tx e "gnmi-route" w in
          if negb (bool_decide (st = DANOS_OK)) then (st, w) else
          let '(st, c) :=
            if lu_found lu then
              danos_nh_update (Some (mk_nexthop (lu_nh_id lu) gateway oif 0 0 0 [0; 0; 0])) (mw_core w)
            else
              let nh_id := next_nh_id (mw_core w) in
              let group_id := next_group_id (mw_core w) in
              let r := danos_nh_create (Some (mk_nexthop nh_id gateway oif 0 0 0 [0; 0; 0])) (mw_core w) in
              let r := and_then (danos_nhgroup_create (Some (group_of group_id [nh_id]))) r in
              and_then (danos_route_create (Some (static_route vrf_id prefix group_id))) r in
          tx_finish e st tx (mk_mworld (mw_tx w) c)
      end
  | _, _ => (DANOS_ERR_INVALID_ARG, w)
  end.

(** The update loop: member [i] gets gateway and interface [i]. *)
Fixpoint ecmp_update (ids : list Z) (paths : list (danos_ip_addr * Z)) (r : danos_status * core)
    : danos_status * core :=
  match ids, paths with
  | id :: ids, (gw, oif) :: paths =>
      ecmp_update ids paths
        (and_then (danos_nh_update (Some (mk_nexthop id gw oif 1 DANOS_NH_FLAG_ECMP 0 [0; 0; 0]))) r)
  | _, _ => r
  end.

(** The create loop: the ids chosen so far are kept for the group. *)
Fixpoint ecmp_create (i : Z) (paths : list (danos_ip_addr * Z)) (ids : list Z) (r : danos_status * core)
    : list Z * (danos_status * core) :=
  match paths with
  | [] => (ids, r)
  | (gw, oif) :: paths =>
      match r with
      | (DANOS_OK, c) =>
          let id := u64 (next_nh_id c + i) in
          ecmp_create (i + 1) paths (ids ++ [id])
            (danos_nh_create (Some (mk_nexthop id gw oif 1 DANOS_NH_FLAG_ECMP 0 [0; 0; 0])) c)
      | _ => (ids, r)
      end
  end.

(** [count] is the length of [paths]; the group is written with the ids that
    were chosen before the loop stopped. *)
Definition gnmi_route_set_ecmp (e : tx_env) (vrf_id : Z) (prefix : option danos_ip_prefix)
    (paths : list (danos_ip_addr * Z)) (w : mworld) : danos_status * mworld :=
  match prefix, g_default_store (mw_core w) with
  | Some prefix, Some _ =>
      if (length paths =? 0)%nat || (64 <? length paths)%nat then (DANOS_ERR_INVALID_ARG, w) else
      if negb (forallb (fun p => ip_af (fst p) =? DANOS_AF_IPV4) paths) then (DANOS_ERR_INVALID_ARG, w) else
      let count := Z.of_nat (length paths) in
      let lu := find_static_route vrf_id prefix (mw_core w) in
      if lu_found lu then
        match read_group (mw_core w) (lu_group_id lu) with
        | None => (DANOS_ERR_INVALID_ARG, w)
        | Some grp =>
            if negb (grp_nh_count grp =? count) then (DANOS_ERR_INVALID_ARG, w) else
            let '(st, tx, w) := begin_tx e "gnmi-route-ecmp" w in
            if negb (bool_decide (st = DANOS_OK)) then (st, w) else
            let '(st, c) := ecmp_update (grp_nh_ids grp) paths (DANOS_OK, mw_core w) in
            tx_finish e st tx (mk_mworld (mw_tx w) c)
        end
      else
        let '(st, tx, w) := begin_tx e "gnmi-route-ecmp" w in
        if negb (bool_decide (st = DANOS_OK)) then (st, w) else
        let group_id := next_group_id (mw_core w) in
        let '(ids, r) := ecmp_create 0 paths [] (DANOS_OK, mw_core w) in
        let r := and_then (danos_nhgroup_create (Some (group_of group_id ids))) r in
        let '(st, c) := and_then (danos_route_create (Some (static_route vrf_id prefix group_id))) r in
        tx_finish e st tx (mk_mworld (mw_tx w) c)
  | _, _ => (DANOS_ERR_INVALID_ARG, w)
  end.

(** ** Composite delete *)

(** [route_id] and [group_id] of [cascade_t]; the rest is unused. *)
Definition cascade_collect (vrf : Z) (prefix : danos_ip_prefix) (acc : Z * Z) (e : danos_object_entry) : Z * Z :=
  match static_match vrf prefix e with
  | None => acc
  | Some r => if negb (fst acc =? 0) then acc else (e_id e, rt_nhgroup_id r)
  end.

Definition gnmi_route_delete (e : tx_env) (vrf_id : Z) (prefix : option danos_ip_prefix) (w : mworld)
    : danos_status * mworld :=
  match prefix, g_default_store (mw_core w) with
  | Some prefix, Some h =>
      let '(route_id, group_id) :=
        danos_object_iterate (default_entries (mw_core w)) (cascade_collect vrf_id prefix) (0, 0) in
      if route_id =? 0 then (DANOS_OK, w) else
      let grp := if group_id =? 0 then None else read_group (mw_core w) group_id in
      let '(st, tx, w) := begin_tx e "gnmi-route-del" w in
      if negb (bool_decide (st = DANOS_OK)) then (st, w) else
      let r := danos_object_delete (Some h) DANOS_OBJ_ROUTE route_id (mw_core w) in
      let '(st, c) :=
        match grp with
        | None => r
        | Some g =>
            and_then (fun c => (DANOS_OK,
                foldl (fun c id => snd (danos_object_delete (Some h) DANOS_OBJ_NEXTHOP id c)) c
                  (take (Z.to_nat (Z.min (grp_nh_count g) 16)) (grp_nh_ids g))))
              (and_then (danos_object_delete (Some h) DANOS_OBJ_NHGROUP group_id) r)
        end in
      tx_finish e st tx (mk_mworld (mw_tx w) c)
  | _, _ => (DANOS_ERR_INVALID_ARG, w)
  end.

(** ** Rendering *)

(** [%u.%u.%u.%u] of the first four bytes. *)
Definition print_quad (a : bytes) : bytes :=
  let n i := dec (default 0 (a !! i)) in
  n 0%nat ++ lit "." ++ n 1%nat ++ lit "." ++ n 2%nat ++ lit "." ++ n 3%nat.

Definition print_prefix (p : danos_ip_prefix) : bytes :=
  (if ip_af (pfx_addr p) =? DANOS_AF_IPV4 then print_quad (ip_addr (pfx_addr p)) else lit "<ipv6>")
  ++ lit "/" ++ dec (pfx_len p).

Definition jq : bytes := [34].

(** The text [snprintf] cuts to [cap - 1] bytes. *)
Definition gnmi_route_to_json (route : danos_route) (cap : nat) (c : core) : bytes :=
  let '(gw, oif) :=
    match (if rt_nhgroup_id route =? 0 then None else read_group c (rt_nhgroup_id route)) with
    | None => (lit "none", 0)
    | Some g =>
        if grp_nh_count g =? 0 then (lit "none", 0) else
        match read_mem (g_default_store c) DANOS_OBJ_NEXTHOP (default 0 (grp_nh_ids g !! 0%nat))
                (sizeof danos_nexthop) c with
        | None => (lit "none", 0)
        | Some m =>
            let nh : danos_nexthop := of_mem m in
            if ip_af (nh_gateway nh) =? DANOS_AF_IPV4
            then (print_quad (ip_addr (nh_gateway nh)), nh_ifindex nh) else (lit "none", 0)
        end
    end in
  take (cap - 1)
    (lit "{" ++ jq ++ lit "prefix" ++ jq ++ lit ":" ++ jq ++ print_prefix (rt_prefix route) ++ jq ++
     lit "," ++ jq ++ lit "vrf" ++ jq ++ lit ":" ++ dec (rt_vrf_id route) ++
     lit "," ++ jq ++ lit "gateway" ++ jq ++ lit ":" ++ jq ++ gw ++ jq ++
     lit "," ++ jq ++ lit "oif" ++ jq ++ lit ":" ++ dec oif ++ lit "}").

(** ** Text *)

Lemma starts_digit_nondigit c t : is_digit c = false -> starts_digit (c :: t) = false.
Proof. done. Qed.

Lemma scan_u_dec n t :
  0 <= n < 2 ^ 32 -> starts_digit t = false -> scan_u (dec n ++ t) = Some (n, t).
Proof.
  intros Hn Ht. unfold scan_u. rewrite strtoul_dec by (done || lia).
  rewrite length_app. pose proof (dec_nonempty n ltac:(lia)) as Hne.
  destruct (dec n) as [|c s]; [done|]. cbn [length].
  rewrite (proj2 (Nat.eqb_neq _ _)) by lia. rewrite u32_small; [done|]. unfold is_u32. lia.
Qed.

Lemma print_quad_eq a b c d rest :
  print_quad ([a; b; c; d] ++ rest) = dec a ++ 46 :: dec b ++ 46 :: dec c ++ 46 :: dec d.
Proof. reflexivity. Qed.

Lemma scan_print_quad a b c d rest :
  Forall is_byte [a; b; c; d] ->
  scan_quad (print_quad ([a; b; c; d] ++ rest)) = Some (a, b, c, d).
Proof.
  intros Hb. rewrite print_quad_eq. unfold scan_quad.
  rewrite !Forall_cons in Hb. unfold is_byte in Hb.
  do 3 (rewrite scan_u_dec by (lia || reflexivity);
        cbn [mbind option_bind app scan_dot Z.eqb Pos.eqb]).
  rewrite <- (app_nil_r (dec d)), scan_u_dec by (lia || reflexivity). reflexivity.
Qed.

Definition no_slash (s : bytes) : Prop := Forall (fun c => c <> 47) s.

Lemma split_slash_app s t : no_slash s -> split_slash (s ++ 47 :: t) = Some (s, t).
Proof.
  induction 1 as [|c s Hc _ IH]; [done|]. cbn [app split_slash].
  rewrite (proj2 (Z.eqb_neq c 47) Hc), IH. done.
Qed.

Lemma dec_no_slash n : 0 <= n < 2 ^ 64 -> no_slash (dec n).
Proof.
  intros Hn. unfold dec. destruct (dec_digits_read 20 n) as (_ & Hd & _); [lia|lia|].
  eapply Forall_impl; [exact Hd|]. intros c Hc ->. done.
Qed.

(** Small numbers have few digits. *)
Lemma dec_short n : 0 <= n < 1000 -> (length (dec n) <= 3)%nat.
Proof.
  intros Hn. unfold dec. change 20%nat with (3 + 17)%nat. cbn [Nat.add dec_digits].
  destruct (Z.ltb_spec n 10); [cbn; lia|].
  destruct (Z.ltb_spec (n / 10) 10); [cbn; lia|].
  destruct (Z.ltb_spec (n / 10 / 10) 10) as [|Hbig]; [cbn; lia|].
  rewrite Z.div_div in Hbig by lia.
  assert (n / (10 * 10) < 10) by (apply Z.div_lt_upper_bound; lia). lia.
Qed.

Lemma print_quad_text a b c d rest :
  Forall is_byte [a; b; c; d] ->
  no_slash (print_quad ([a; b; c; d] ++ rest)) /\ (length (print_quad ([a; b; c; d] ++ rest)) <= 15)%nat.
Proof.
  intros Hb. rewrite !Forall_cons in Hb. unfold is_byte in Hb. rewrite print_quad_eq. split.
  - unfold no_slash. repeat (apply Forall_app; split; [apply dec_no_slash; lia|]; constructor; [done|]).
    apply dec_no_slash; lia.
  - do 3 (rewrite length_app; cbn [length]).
    pose proof (dec_short a). pose proof (dec_short b). pose proof (dec_short c). pose proof (dec_short d). lia.
Qed.

Lemma parse_print_quad a b c d rest :
  Forall is_byte [a; b; c; d] ->
  gnmi_parse_ipv4 (Some (print_quad ([a; b; c; d] ++ rest))) =
    (DANOS_OK, Some (mk_ip_addr DANOS_AF_IPV4 ([a; b; c; d] ++ zeros 12))).
Proof.
  intros Hb. unfold gnmi_parse_ipv4. rewrite scan_print_quad by done.
  rewrite !Forall_cons in Hb. unfold is_byte in Hb.
  repeat rewrite (proj2 (Z.ltb_ge 255 _)) by lia. done.
Qed.

Lemma parse_print_prefix a b c d len :
  Forall is_byte [a; b; c; d] -> 0 <= len <= 32 ->
  let p := mk_ip_prefix (mk_ip_addr DANOS_AF_IPV4 ([a; b; c; d] ++ zeros 12)) len in
  gnmi_parse_prefix (Some (print_prefix p)) = (DANOS_OK, Some p).
Proof.
  intros Hb Hl p. unfold gnmi_parse_prefix, print_prefix. cbn [p pfx_addr ip_af ip_addr pfx_len].
  change (DANOS_AF_IPV4 =? DANOS_AF_IPV4) with true. cbv iota. change (lit "/") with [47].
  destruct (print_quad_text a b c d (zeros 12) Hb) as [Hq1 Hq2]. pose proof (dec_short len ltac:(lia)) as Hs.
  rewrite take_ge by (rewrite !length_app; cbn [length]; lia).
  change ([47] ++ dec len) with (47 :: dec len). rewrite split_slash_app by done.
  rewrite <- (app_nil_r (dec len)), strtoul_dec by (lia || done). cbn [fst].
  rewrite u32_small by (unfold is_u32; lia). rewrite (proj2 (Z.ltb_ge 32 len)) by lia.
  rewrite parse_print_quad by done. rewrite u8_small by (unfold is_byte; lia). reflexivity.
Qed.

(** A printed prefix reads back: the text that a route is rendered with is
    accepted by the parser of northbound requests and gives the same prefix,
    for every IPv4 address and every length up to 32. *)
Theorem gnmi_prefix_roundtrip a b c d len :
  Forall is_byte [a; b; c; d] -> 0 <= len <= 32 ->
  let p := mk_ip_prefix (mk_ip_addr DANOS_AF_IPV4 ([a; b; c; d] ++ zeros 12)) len in
  gnmi_parse_prefix (Some (print_prefix p)) = (DANOS_OK, Some p).
Proof. apply parse_print_prefix. Qed.

Lemma gnmi_prefix_roundtrip_witness :
  gnmi_parse_prefix (Some (lit "10.0.254.7/24")) =
    (DANOS_OK, Some (mk_ip_prefix (mk_ip_addr 4 ([10; 0; 254; 7] ++ zeros 12)) 24)).
Proof.
  apply (gnmi_prefix_roundtrip 10 0 254 7 24); [|lia].
  repeat constructor; unfold is_byte; lia.
Defined.

(** The text behind the slash is not checked: no digits mean length 0. *)
Lemma prefix_length_unchecked :
  gnmi_parse_prefix (Some (lit "10.0.0.0/x")) = gnmi_parse_prefix (Some (lit "10.0.0.0/0")).
Proof. vm_compute. reflexivity. Qed.

(** ** The transaction around a composite *)

Lemma tx_move_run allowed to t h r w :
  tx_internal t = Some h -> tw_records w !! h = Some r -> allowed (tx_state (rec_pub r)) = true ->
  tx_move allowed to (Some t) w =
    (DANOS_OK, Some (with_state t to),
     set_record w h (mk_tx_record (with_state (rec_pub r) to) (rec_in_use r))).
Proof.
  intros Ht Hr Ha. unfold tx_move, danos_tx_validate_ptr. cbn. rewrite Ht. cbn. by rewrite Hr, Ha.
Qed.

Lemma record_set w h r : tw_records (set_record w h r) !! h = Some r.
Proof. apply lookup_insert_eq. Qed.

(** A transaction that was begun is open. *)
Lemma begin_open now who w :
  exists x h r t, begin_tx (tx_granted now) who w = (DANOS_OK, Some x, mk_mworld t (mw_core w)) /\
    tx_internal x = Some h /\ tw_records t !! h = Some r /\ tx_state (rec_pub r) = DANOS_TX_OPEN.
Proof.
  unfold begin_tx, danos_tx_begin. cbn [tx_granted te_mem_mgr te_mem_rec te_now].
  assert (Hm : exists m w1, danos_tx_manager_init true (mw_tx w) = (0, w1) /\ g_tx_mgr w1 = Some m).
  { unfold danos_tx_manager_init. destruct (g_tx_mgr (mw_tx w)) as [m|] eqn:Hg; eauto. }
  destruct Hm as (m & w1 & -> & Hg). rewrite Hg.
  assert (Ha : exists h m' w2, danos_tx_record_alloc true m w1 = (Some h, m', w2)).
  { unfold danos_tx_record_alloc. destruct (tm_free_list m); eauto. }
  destruct Ha as (h & m' & w2 & ->). eexists _, h, _, _. split; [reflexivity|]. split; [reflexivity|].
  split; [apply lookup_insert_eq|done].
Qed.

Lemma begin_granted now who w :
  exists tx t, begin_tx (tx_granted now) who w = (DANOS_OK, tx, mk_mworld t (mw_core w)) /\
    forall c, exists t', tx_finish (tx_granted now) DANOS_OK tx (mk_mworld t c) = (DANOS_OK, mk_mworld t' c).
Proof.
  destruct (begin_open now who w) as (x & h & r & t & Hb & Hx & Hr & Ho). exists (Some x), t. split; [done|].
  intros c. unfold tx_finish. cbn [mw_tx mw_core]. rewrite bool_decide_eq_true_2 by done.
  unfold danos_tx_prepare, danos_tx_validate, danos_tx_commit.
  erewrite tx_move_run; [|exact Hx|exact Hr|by rewrite Ho].
  rewrite bool_decide_eq_true_2 by done.
  erewrite tx_move_run; [|exact Hx|apply record_set|reflexivity].
  rewrite bool_decide_eq_true_2 by done. cbn [te_locked tx_granted].
  erewrite tx_move_run; [|exact Hx|apply record_set|reflexivity].
  eexists. reflexivity.
Qed.

(** ** Searching the store *)

Lemma default_entries_objs h c :
  prog_env h c -> exists s, default_entries c = Some s /\
    forall e, e ∈ store_entries s <-> objs c h !! (e_type e, e_id e) = Some (e_data e).
Proof.
  intros Hp. destruct (pe_live h c Hp) as [s Hs]. exists s.
  unfold default_entries. rewrite (pe_default h c Hp). split; [exact Hs|].
  pose proof (cw_stores c (pe_wf h c Hp) h s Hs) as Hwf.
  intros e. rewrite (objs_live c h s Hs), (store_map_lookup s Hwf). split.
  - intros He. assert (find_entry s (e_type e) (e_id e) = Some e) as ->; [|done].
    apply (find_entry_Some s Hwf). by destruct e.
  - destruct (find_entry s (e_type e) (e_id e)) as [e'|] eqn:Hf; [|done]. cbn. intros [= Hd].
    apply (find_entry_Some s Hwf) in Hf as [Hin Hk]. unfold e_key in Hk. injection Hk as Ht Hi.
    destruct e, e'. cbn in *. by subst.
Qed.

(** The objects that are static routes of the table and prefix. *)
Definition is_static (h : Z) (c : core) (vrf : Z) (p : danos_ip_prefix) (id : Z) (r : danos_route) : Prop :=
  exists d, objs c h !! (DANOS_OBJ_ROUTE, id) = Some d /\
    static_match vrf p (mk_entry DANOS_OBJ_ROUTE id d) = Some r.

Lemma static_match_type vrf p e r : static_match vrf p e = Some r -> e_type e = DANOS_OBJ_ROUTE.
Proof. unfold static_match. by destruct (bool_decide_reflect (e_type e = DANOS_OBJ_ROUTE)). Qed.

Lemma lookup_fold vrf p c es lu :
  lu_found lu = false ->
  foldl (lookup_iter vrf p c) lu es =
    match omap (fun e => (e,.) <$> static_match vrf p e) es with
    | (e, _) :: _ => lookup_iter vrf p c lu e
    | [] => lu
    end.
Proof.
  intros Hlu. induction es as [|e es IH]; [done|]. cbn [foldl omap list_omap].
  destruct (static_match vrf p e) as [r|] eqn:Hm; cbn.
  - assert (Hf : lu_found (lookup_iter vrf p c lu e) = true).
    { unfold lookup_iter. by rewrite Hlu, Hm. }
    clear IH. induction es as [|e' es IH]; [done|]. cbn [foldl].
    unfold lookup_iter at 2. by rewrite Hf.
  - unfold lookup_iter at 2. rewrite Hlu, Hm. exact IH.
Qed.

Lemma cascade_fold vrf p es :
  Forall (fun e => is_Some (static_match vrf p e) -> e_id e <> 0) es ->
  foldl (cascade_collect vrf p) (0, 0) es =
    match omap (fun e => (e,.) <$> static_match vrf p e) es with
    | (e, r) :: _ => (e_id e, rt_nhgroup_id r)
    | [] => (0, 0)
    end.
Proof.
  induction 1 as [|e es He _ IH]; [done|]. cbn [foldl omap list_omap].
  unfold cascade_collect at 2. destruct (static_match vrf p e) as [r|] eqn:Hm; cbn; [|exact IH].
  clear IH. induction es as [|e' es IH]; [done|]. cbn [foldl]. unfold cascade_collect at 2. cbn [fst].
  rewrite (proj2 (Z.eqb_neq (e_id e) 0)) by eauto. cbn [negb].
  by destruct (static_match vrf p e').
Qed.

(** All matches are one object. *)
Definition only_static (h : Z) (c : core) (vrf : Z) (p : danos_ip_prefix) (id : Z) (r : danos_route) : Prop :=
  is_static h c vrf p id r /\ forall id' r', is_static h c vrf p id' r' -> id' = id.

Definition no_static (h : Z) (c : core) (vrf : Z) (p : danos_ip_prefix) : Prop :=
  forall id r, ~ is_static h c vrf p id r.

Lemma matches_none h c vrf p s :
  (forall e, e ∈ store_entries s <-> objs c h !! (e_type e, e_id e) = Some (e_data e)) ->
  no_static h c vrf p ->
  omap (fun e => (e,.) <$> static_match vrf p e) (store_entries s) = [].
Proof.
  intros Hs Hno. apply elem_of_nil_inv. intros [e r] Hin.
  apply list_elem_of_omap in Hin as (e' & He & Hm). apply fmap_Some in Hm as (r' & Hm & [= -> ->]).
  apply (Hno (e_id e') r'). exists (e_data e'). pose proof (static_match_type _ _ _ _ Hm) as Ht.
  apply Hs in He. rewrite Ht in He. split; [done|]. rewrite <- Ht. by destruct e'.
Qed.

Lemma matches_only h c vrf p s id r :
  (forall e, e ∈ store_entries s <-> objs c h !! (e_type e, e_id e) = Some (e_data e)) ->
  only_static h c vrf p id r ->
  exists rest e, omap (fun e => (e,.) <$> static_match vrf p e) (store_entries s) = (e, r) :: rest /\
    e_id e = id /\ static_match vrf p e = Some r.
Proof.
  intros Hs [[d [Hd Hm]] Honly]. set (l := omap _ _).
  assert (Hall : forall e r', (e, r') ∈ l -> e = mk_entry DANOS_OBJ_ROUTE id d /\ r' = r).
  { intros e r' Hin. apply list_elem_of_omap in Hin as (e' & He & Hf).
    apply fmap_Some in Hf as (r2 & Hm2 & [= -> ->]). pose proof (static_match_type _ _ _ _ Hm2) as Ht.
    apply Hs in He. rewrite Ht in He.
    assert (e' = mk_entry DANOS_OBJ_ROUTE (e_id e') (e_data e')) as Heq by (destruct e'; cbn in *; by subst).
    assert (e_id e' = id) as Hi.
    { apply (Honly _ r2). exists (e_data e'). split; [done|]. by rewrite <- Heq. }
    rewrite Hi in *. rewrite Hd in He. injection He as He. rewrite <- He in Heq. subst e'.
    split; [done|]. congruence. }
  assert (Hin : (mk_entry DANOS_OBJ_ROUTE id d, r) ∈ l).
  { apply list_elem_of_omap. exists (mk_entry DANOS_OBJ_ROUTE id d). split; [by apply Hs|]. by rewrite Hm. }
  destruct l as [|[e r'] rest]; [by apply not_elem_of_nil in Hin|].
  destruct (Hall e r') as [-> ->]; [constructor|]. exists rest, (mk_entry DANOS_OBJ_ROUTE id d). done.
Qed.

Lemma find_static_none h c vrf p :
  prog_env h c -> no_static h c vrf p -> find_static_route vrf p c = mk_lookup 0 0 0 false.
Proof.
  intros Hp Hno. destruct (default_entries_objs h c Hp) as (s & Hs & He).
  unfold find_static_route. rewrite Hs. cbn [danos_object_iterate].
  by rewrite lookup_fold, (matches_none h c vrf p s He Hno).
Qed.

Lemma find_static_only h c vrf p id r g :
  prog_env h c -> only_static h c vrf p id r ->
  rt_nhgroup_id r <> 0 -> read_group c (rt_nhgroup_id r) = Some g -> 0 < grp_nh_count g ->
  find_static_route vrf p c =
    mk_lookup id (rt_nhgroup_id r) (default 0 (grp_nh_ids g !! 0%nat)) true.
Proof.
  intros Hp Hon Hg Hr Hn. destruct (default_entries_objs h c Hp) as (s & Hs & He).
  unfold find_static_route. rewrite Hs. cbn [danos_object_iterate]. rewrite lookup_fold by done.
  destruct (matches_only h c vrf p s id r He Hon) as (rest & e & -> & Hi & Hm).
  unfold lookup_iter. cbn [lu_found]. rewrite Hm, (proj2 (Z.eqb_neq _ _) Hg), Hr.
  by rewrite (proj2 (Z.ltb_lt _ _) Hn), Hi.
Qed.

Lemma cascade_only h c vrf p id r :
  prog_env h c -> only_static h c vrf p id r -> id <> 0 ->
  danos_object_iterate (default_entries c) (cascade_collect vrf p) (0, 0) = (id, rt_nhgroup_id r).
Proof.
  intros Hp Hon Hid. destruct (default_entries_objs h c Hp) as (s & Hs & He).
  rewrite Hs. cbn [danos_object_iterate]. rewrite cascade_fold.
  - destruct (matches_only h c vrf p s id r He Hon) as (rest & e & -> & Hi & _). by rewrite Hi.
  - apply Forall_forall. intros e Hin [r' Hm]. destruct Hon as [_ Honly].
    rewrite (Honly (e_id e) r'); [done|]. exists (e_data e).
    pose proof (static_match_type _ _ _ _ Hm) as Ht. apply He in Hin. rewrite Ht in Hin.
    split; [done|]. rewrite <- Ht. by destruct e.
Qed.

(** ** Fresh ids *)

Lemma max_iter_fold type es m :
  m <= foldl (max_iter type) m es /\
  (forall e, e ∈ es -> e_type e = type -> e_id e <= foldl (max_iter type) m es) /\
  (foldl (max_iter type) m es = m \/ exists e, e ∈ es /\ e_type e = type /\ e_id e = foldl (max_iter type) m es).
Proof.
  revert m. induction es as [|e es IH]; intros m.
  { split; [done|]. split; [by intros ? ?%not_elem_of_nil|by left]. }
  cbn [foldl]. destruct (IH (max_iter type m e)) as (H1 & H2 & H3).
  assert (Hm : m <= max_iter type m e /\ (e_type e = type -> e_id e <= max_iter type m e) /\
               (max_iter type m e = m \/ e_type e = type /\ max_iter type m e = e_id e)).
  { unfold max_iter. destruct (bool_decide_reflect (e_type e = type)); cbn [negb]; [|by split_and!; [| |left]].
    destruct (Z.ltb_spec m (e_id e)); split_and!; try lia; auto. }
  destruct Hm as (Hm1 & Hm2 & Hm3). split_and!; [lia| |].
  - intros e' [->|Hin]%elem_of_cons Ht; [specialize (Hm2 Ht); lia|by apply H2].
  - destruct H3 as [->|(e' & Hin & Ht & Hi)].
    + destruct Hm3 as [->|[Ht ->]]; [by left|right]. exists e. split_and!; [constructor|done|done].
    + right. exists e'. split_and!; [by constructor|done|done].
Qed.

(** Ids are far from the end of the 64-bit range. *)
Definition ids_fit (h : Z) (c : core) (slack : Z) : Prop :=
  forall t id, is_Some (objs c h !! (t, id)) -> id + slack < 2 ^ 64.

Lemma next_id_fresh h c type :
  prog_env h c -> ids_fit h c 1 ->
  let n := u64 (danos_object_iterate (default_entries c) (max_iter type) 100 + 1) in
  100 < n < 2 ^ 64 /\ objs c h !! (type, n) = None /\
  forall id, is_Some (objs c h !! (type, id)) -> id < n.
Proof.
  intros Hp Hfit. destruct (default_entries_objs h c Hp) as (s & Hs & He). rewrite Hs. cbn [danos_object_iterate].
  destruct (max_iter_fold type (store_entries s) 100) as (H1 & H2 & H3).
  set (m := foldl _ _ _) in *.
  assert (Hb : m + 1 < 2 ^ 64).
  { destruct H3 as [->|(e & Hin & Ht & Hi)]; [lia|]. rewrite <- Hi. apply (Hfit (e_type e)).
    apply He in Hin. eauto. }
  assert (Hlt : forall id, is_Some (objs c h !! (type, id)) -> id < m + 1).
  { intros id [d Hd]. assert (Hin : mk_entry type id d ∈ store_entries s) by (by apply He).
    specialize (H2 _ Hin eq_refl). cbn in H2. lia. }
  cbv zeta. rewrite u64_small by (unfold is_u64; lia). split_and!; [lia|lia| |done].
  apply eq_None_not_Some. intros Hs'. specialize (Hlt _ Hs'). lia.
Qed.

(** ** Set, update, delete *)

Lemma default_update {A} `{CStructLaws A} h c type key (x : A) :
  prog_env h c -> struct_wf x -> (0 < sizeof A)%nat -> is_Some (objs c h !! (type, key x)) ->
  exists c', update_as type key (Some x) c = (DANOS_OK, c') /\ prog_env h c' /\
    objs c' h = <[(type, key x) := to_mem x]> (objs c h).
Proof.
  intros Hp Hx Hs Hk. destruct (default_op h c (OpUpdate type (key x) (Some (to_mem x))) Hp)
    as (c' & Hr & Hp' & Ho & _).
  pose proof (length_to_mem x Hx) as Hl. exists c'.
  unfold update_as, get_default_store. rewrite (pe_default h c Hp).
  change (danos_object_update (Some h) type (key x) (Some (to_mem x)) c)
    with (run_op h (OpUpdate type (key x) (Some (to_mem x))) c).
  rewrite Hr. cbn [spec_op] in *. destruct (to_mem x) as [|b d]; [simpl in Hl; lia|].
  destruct (decide (is_Some (objs c h !! (type, key x)))); [by split_and!|done].
Qed.

(** The objects of a request. *)
Definition nh_obj (id : Z) (gw : danos_ip_addr) (oif : Z) : danos_nexthop :=
  mk_nexthop id gw oif 0 0 0 [0; 0; 0].

Definition set_objs (vrf : Z) (p : danos_ip_prefix) (gw : danos_ip_addr) (oif nh grp : Z)
    (m : gmap obj_key bytes) : gmap obj_key bytes :=
  <[(DANOS_OBJ_ROUTE, route_key vrf p DANOS_ROUTE_PROTO_STATIC) := to_mem (static_route vrf p grp)]>
  (<[(DANOS_OBJ_NHGROUP, grp) := to_mem (group_of grp [nh])]>
  (<[(DANOS_OBJ_NEXTHOP, nh) := to_mem (nh_obj nh gw oif)]> m)).

(** A request the parser can produce. *)
Record request_ok (vrf : Z) (p : danos_ip_prefix) (gw : danos_ip_addr) (oif : Z) : Prop := {
  rq_prefix : struct_wf p;
  rq_gateway : struct_wf gw;
  rq_v4 : ip_af gw = DANOS_AF_IPV4;
  rq_vrf : is_uint 4 vrf;
  rq_oif : is_uint 4 oif;
}.

Lemma nh_obj_wf id gw oif :
  0 <= id < 2 ^ 64 -> struct_wf gw -> is_uint 4 oif -> struct_wf (nh_obj id gw oif).
Proof.
  intros Hid Hg Ho. split_and!; cbn; try done; unfold is_uint in *; cbn in *; try lia.
  repeat constructor; cbn; lia.
Qed.

Lemma group_one_wf id nh : 0 <= id < 2 ^ 64 -> 0 <= nh < 2 ^ 64 -> struct_wf (group_of id [nh]).
Proof.
  intros Hid Hn. split_and!; cbn; unfold is_uint; cbn; try lia; try done.
  constructor; [cbn; lia|]. repeat constructor; cbn; lia.
Qed.

Lemma static_route_wf vrf p grp :
  is_uint 4 vrf -> struct_wf p -> 0 <= grp < 2 ^ 64 -> struct_wf (static_route vrf p grp).
Proof. intros Hv Hp Hg. split_and!; cbn; try done; unfold is_uint; cbn; lia. Qed.

Lemma fresh_create {A} `{CStructLaws A} h c type key (x : A) :
  prog_env h c -> struct_wf x -> (0 < sizeof A)%nat -> objs c h !! (type, key x) = None ->
  exists c', create_as type key (Some x) c = (DANOS_OK, c') /\ prog_env h c' /\
    objs c' h = <[(type, key x) := to_mem x]> (objs c h).
Proof.
  intros Hp Hx Hs Hk. destruct (default_create h c type key x Hp Hx Hs) as (c' & Hr & Hp' & Ho & _).
  exists c'. destruct (decide _) as [Hd|_]; [|done]. rewrite Hk in Hd. by destruct Hd.
Qed.

Lemma set_fresh_run h vrf p gw oif now w :
  prog_env h (mw_core w) -> request_ok vrf p gw oif -> no_static h (mw_core w) vrf p ->
  ids_fit h (mw_core w) 1 ->
  objs (mw_core w) h !! (DANOS_OBJ_ROUTE, route_key vrf p DANOS_ROUTE_PROTO_STATIC) = None ->
  exists nh grp w', gnmi_route_set (tx_granted now) vrf (Some p) (Some gw) oif w = (DANOS_OK, w') /\
    prog_env h (mw_core w') /\ 100 < nh < 2 ^ 64 /\ 100 < grp < 2 ^ 64 /\
    objs (mw_core w) h !! (DANOS_OBJ_NEXTHOP, nh) = None /\
    objs (mw_core w) h !! (DANOS_OBJ_NHGROUP, grp) = None /\
    objs (mw_core w') h = set_objs vrf p gw oif nh grp (objs (mw_core w) h).
Proof.
  intros Hp [Hpf Hgw H4 Hv Ho] Hno Hfit Hk. destruct w as [t c]. cbn [mw_core] in *.
  destruct (next_id_fresh h c DANOS_OBJ_NEXTHOP Hp Hfit) as (Hn1 & Hn2 & _).
  destruct (next_id_fresh h c DANOS_OBJ_NHGROUP Hp Hfit) as (Hg1 & Hg2 & _).
  change (u64 (danos_object_iterate (default_entries c) (max_iter DANOS_OBJ_NEXTHOP) 100 + 1))
    with (next_nh_id c) in Hn1, Hn2.
  change (u64 (danos_object_iterate (default_entries c) (max_iter DANOS_OBJ_NHGROUP) 100 + 1))
    with (next_group_id c) in Hg1, Hg2.
  set (nh := next_nh_id c) in *. set (grp := next_group_id c) in *.
  destruct (begin_granted now "gnmi-route" (mk_mworld t c)) as (tx & t1 & Hb & Hf).
  destruct (fresh_create h c DANOS_OBJ_NEXTHOP nh_id (nh_obj nh gw oif) Hp) as (c1 & E1 & P1 & O1);
    [apply nh_obj_wf; (done || lia)|cbn; lia|done|].
  destruct (fresh_create h c1 DANOS_OBJ_NHGROUP grp_id (group_of grp [nh]) P1) as (c2 & E2 & P2 & O2);
    [apply group_one_wf; lia|cbn; lia|by rewrite O1, lookup_insert_ne|].
  destruct (fresh_create h c2 DANOS_OBJ_ROUTE route_id (static_route vrf p grp) P2) as (c3 & E3 & P3 & O3);
    [apply static_route_wf; (done || lia)|cbn; lia|by rewrite O2, O1, !lookup_insert_ne|].
  rewrite O2, O1 in O3.
  destruct (Hf c3) as [t' Ht']. exists nh, grp, (mk_mworld t' c3).
  split; [|split_and!; try done; try lia].
  unfold gnmi_route_set. rewrite H4. cbn [Z.eqb negb mw_core]. change (DANOS_AF_IPV4 =? DANOS_AF_IPV4) with true.
  cbn [negb]. rewrite (pe_default h c Hp), (find_static_none h c vrf p Hp Hno), Hb.
  rewrite bool_decide_eq_true_2 by done. cbn [negb lu_found mw_core mw_tx].
  fold nh grp. unfold danos_nh_create, danos_nhgroup_create, danos_route_create.
  fold (nh_obj nh gw oif). rewrite E1. cbn [and_then]. rewrite E2. cbn [and_then]. rewrite E3. exact Ht'.
Qed.

Lemma delete_present h c type id :
  prog_env h c -> is_Some (objs c h !! (type, id)) ->
  exists c', danos_object_delete (Some h) type id c = (DANOS_OK, c') /\ prog_env h c' /\
    objs c' h = delete (type, id) (objs c h).
Proof.
  intros Hp Hk. destruct (default_delete h c type id Hp) as (c' & Hr & Hp' & Ho & _). exists c'.
  unfold delete_as, get_default_store in Hr. rewrite (pe_default h c Hp), decide_True in Hr by done.
  done.
Qed.

Lemma static_route_matches vrf p grp id :
  struct_wf (static_route vrf p grp) ->
  static_match vrf p (mk_entry DANOS_OBJ_ROUTE id (to_mem (static_route vrf p grp))) =
    Some (static_route vrf p grp).
Proof.
  intros Hw. unfold static_match. cbn [e_type e_data].
  rewrite bool_decide_eq_true_2, (length_to_mem _ Hw), Nat.ltb_irrefl, (of_to_mem _ Hw) by done.
  cbn [negb orb rt_vrf_id rt_protocol rt_prefix static_route]. unfold prefix_equal.
  by rewrite !Z.eqb_refl, bool_decide_eq_true_2.
Qed.

(** After the writes of a set, the new route is the only match. *)
Lemma set_only h c c' vrf p gw oif nh grp :
  no_static h c vrf p -> struct_wf (static_route vrf p grp) ->
  objs c' h = set_objs vrf p gw oif nh grp (objs c h) ->
  only_static h c' vrf p (route_key vrf p DANOS_ROUTE_PROTO_STATIC) (static_route vrf p grp).
Proof.
  intros Hno Hw Ho. unfold set_objs in Ho. split.
  - eexists. rewrite Ho, lookup_insert_eq. split; [reflexivity|]. by apply static_route_matches.
  - intros id' r' (d & Hd & Hm). rewrite Ho in Hd.
    destruct (decide (id' = route_key vrf p DANOS_ROUTE_PROTO_STATIC)) as [->|Hne]; [done|].
    rewrite !lookup_insert_ne in Hd by congruence. destruct (Hno id' r'). by exists d.
Qed.

Lemma read_group_at h c id g :
  prog_env h c -> struct_wf g -> objs c h !! (DANOS_OBJ_NHGROUP, id) = Some (to_mem g) ->
  read_group c id = Some g.
Proof.
  intros Hp Hw Ho. unfold read_group. rewrite (read_mem_struct h c _ _ g Hp Hw Ho). cbn.
  by rewrite (of_to_mem g Hw).
Qed.

(** The fields of [set_objs]. *)
Lemma set_objs_lookup vrf p gw oif nh grp m :
  set_objs vrf p gw oif nh grp m !! (DANOS_OBJ_NEXTHOP, nh) = Some (to_mem (nh_obj nh gw oif)) /\
  set_objs vrf p gw oif nh grp m !! (DANOS_OBJ_NHGROUP, grp) = Some (to_mem (group_of grp [nh])) /\
  set_objs vrf p gw oif nh grp m !! (DANOS_OBJ_ROUTE, route_key vrf p DANOS_ROUTE_PROTO_STATIC) =
    Some (to_mem (static_route vrf p grp)).
Proof.
  unfold set_objs. split_and!.
  - do 2 rewrite lookup_insert_ne by done. apply lookup_insert_eq.
  - rewrite lookup_insert_ne by done. apply lookup_insert_eq.
  - apply lookup_insert_eq.
Qed.

Lemma set_resolves h c' vrf p gw oif nh grp m :
  prog_env h c' -> request_ok vrf p gw oif -> 100 < nh < 2 ^ 64 -> 100 < grp < 2 ^ 64 ->
  objs c' h = set_objs vrf p gw oif nh grp m ->
  exists out, resolve_route_nh (static_route vrf p grp) c' = (DANOS_OK, out) /\
    rr_nh_count out = 1 /\ rr_nh_gw out !! 0%nat = Some (gw_bytes gw) /\ rr_nh_oif out !! 0%nat = Some oif.
Proof.
  intros Hp [Hpf Hgw H4 Hv Hoif] Hn Hg Ho.
  destruct (set_objs_lookup vrf p gw oif nh grp m) as (L1 & L2 & _).
  destruct (resolve_group h c' (static_route vrf p grp) (group_of grp [nh]) [nh_obj nh gw oif] Hp)
    as (out & Hr & _ & Hc & Hi).
  - done.
  - cbn. lia.
  - apply group_one_wf; lia.
  - cbn [rt_nhgroup_id static_route]. by rewrite Ho.
  - cbn. lia.
  - constructor; [|constructor]. split; [apply nh_obj_wf; (done || lia)|]. by rewrite Ho.
  - done.
  - exists out. destruct (Hi 0%nat _ eq_refl). done.
Qed.

Lemma delete_one_run h c vrf p nh grp t now :
  prog_env h c -> struct_wf (static_route vrf p grp) -> 0 <= nh < 2 ^ 64 -> 0 < grp ->
  only_static h c vrf p (route_key vrf p DANOS_ROUTE_PROTO_STATIC) (static_route vrf p grp) ->
  route_key vrf p DANOS_ROUTE_PROTO_STATIC <> 0 ->
  objs c h !! (DANOS_OBJ_NHGROUP, grp) = Some (to_mem (group_of grp [nh])) ->
  is_Some (objs c h !! (DANOS_OBJ_NEXTHOP, nh)) ->
  exists w', gnmi_route_delete (tx_granted now) vrf (Some p) (mk_mworld t c) = (DANOS_OK, w') /\
    prog_env h (mw_core w') /\
    objs (mw_core w') h = delete (DANOS_OBJ_NEXTHOP, nh) (delete (DANOS_OBJ_NHGROUP, grp)
      (delete (DANOS_OBJ_ROUTE, route_key vrf p DANOS_ROUTE_PROTO_STATIC) (objs c h))).
Proof.
  intros Hp Hw Hn Hg Hon Hk Hgr Hnh. pose proof Hon as [(d & Hd & _) _].
  assert (Hgw : struct_wf (group_of grp [nh])).
  { apply group_one_wf; [|lia]. destruct Hw as (_ & _ & _ & _ & _ & Hx & _). unfold is_uint in Hx. cbn in Hx. lia. }
  destruct (begin_granted now "gnmi-route-del" (mk_mworld t c)) as (tx & t1 & Hb & Hf).
  destruct (delete_present h c DANOS_OBJ_ROUTE (route_key vrf p DANOS_ROUTE_PROTO_STATIC) Hp)
    as (c1 & E1 & P1 & O1); [by rewrite Hd|].
  destruct (delete_present h c1 DANOS_OBJ_NHGROUP grp P1) as (c2 & E2 & P2 & O2);
    [by rewrite O1, lookup_delete_ne, Hgr|].
  destruct (delete_present h c2 DANOS_OBJ_NEXTHOP nh P2) as (c3 & E3 & P3 & O3);
    [by rewrite O2, O1, !lookup_delete_ne|].
  destruct (Hf c3) as [t' Ht']. exists (mk_mworld t' c3).
  split; [|split; [done|cbn [mw_core]; by rewrite O3, O2, O1]].
  unfold gnmi_route_delete. cbn [mw_core]. rewrite (pe_default h c Hp).
  rewrite (cascade_only h c vrf p _ _ Hp Hon Hk). cbn [rt_nhgroup_id static_route].
  rewrite (proj2 (Z.eqb_neq _ _) Hk), (proj2 (Z.eqb_neq grp 0)) by lia.
  rewrite (read_group_at h c grp _ Hp Hgw Hgr), Hb, bool_decide_eq_true_2 by done.
  cbn [negb mw_core mw_tx]. rewrite E1. cbn [and_then]. rewrite E2. cbn [and_then].
  change (take _ _) with [nh]. cbn [foldl]. rewrite E3. exact Ht'.
Qed.

(** A northbound set takes effect: when the table holds no static route for
    the prefix, the request answers OK after writing exactly three objects -
    a next hop and a group with unused ids above 100, and the route - and the
    route resolves to one next hop, the gateway and interface of the request. *)
Theorem gnmi_route_set_programs h vrf p gw oif now w :
  prog_env h (mw_core w) -> request_ok vrf p gw oif -> no_static h (mw_core w) vrf p ->
  ids_fit h (mw_core w) 1 ->
  objs (mw_core w) h !! (DANOS_OBJ_ROUTE, route_key vrf p DANOS_ROUTE_PROTO_STATIC) = None ->
  exists nh grp w' out,
    gnmi_route_set (tx_granted now) vrf (Some p) (Some gw) oif w = (DANOS_OK, w') /\
    100 < nh /\ 100 < grp /\
    objs (mw_core w) h !! (DANOS_OBJ_NEXTHOP, nh) = None /\
    objs (mw_core w) h !! (DANOS_OBJ_NHGROUP, grp) = None /\
    objs (mw_core w') h = set_objs vrf p gw oif nh grp (objs (mw_core w) h) /\
    resolve_route_nh (static_route vrf p grp) (mw_core w') = (DANOS_OK, out) /\
    rr_nh_count out = 1 /\ rr_nh_gw out !! 0%nat = Some (gw_bytes gw) /\ rr_nh_oif out !! 0%nat = Some oif.
Proof.
  intros Hp Hrq Hno Hfit Hk.
  destruct (set_fresh_run h vrf p gw oif now w Hp Hrq Hno Hfit Hk)
    as (nh & grp & w' & Hs & Hp' & Hn & Hg & F1 & F2 & Ho).
  destruct (set_resolves h (mw_core w') vrf p gw oif nh grp _ Hp' Hrq Hn Hg Ho) as (out & Hr & Hc & Hgw & Hoi).
  exists nh, grp, w', out. split_and!; try done; lia.
Qed.

(** C35. Delete undoes set: a northbound set of a new route with one IPv4
    gateway followed by the delete of the same prefix answers OK twice and
    leaves the object store with exactly the objects it had before. *)
Theorem gnmi_route_delete_undoes h vrf p gw oif now1 now2 w :
  prog_env h (mw_core w) -> request_ok vrf p gw oif -> no_static h (mw_core w) vrf p ->
  ids_fit h (mw_core w) 1 -> route_key vrf p DANOS_ROUTE_PROTO_STATIC <> 0 ->
  objs (mw_core w) h !! (DANOS_OBJ_ROUTE, route_key vrf p DANOS_ROUTE_PROTO_STATIC) = None ->
  exists w1 w2,
    gnmi_route_set (tx_granted now1) vrf (Some p) (Some gw) oif w = (DANOS_OK, w1) /\
    objs (mw_core w1) h <> objs (mw_core w) h /\
    gnmi_route_delete (tx_granted now2) vrf (Some p) w1 = (DANOS_OK, w2) /\
    objs (mw_core w2) h = objs (mw_core w) h.
Proof.
  intros Hp Hrq Hno Hfit Hk0 Hk.
  destruct (set_fresh_run h vrf p gw oif now1 w Hp Hrq Hno Hfit Hk)
    as (nh & grp & [t1 c1] & Hs & Hp' & Hn & Hg & F1 & F2 & Ho). cbn [mw_core] in *.
  assert (Hw : struct_wf (static_route vrf p grp)).
  { destruct Hrq. apply static_route_wf; (done || lia). }
  destruct (set_objs_lookup vrf p gw oif nh grp (objs (mw_core w) h)) as (L1 & L2 & L3).
  rewrite <- Ho in L1, L2, L3.
  destruct (delete_one_run h c1 vrf p nh grp t1 now2 Hp' Hw) as (w2 & Hd & _ & Ho2);
    [lia|lia|by apply (set_only h (mw_core w) c1 vrf p gw oif nh grp)|done|done|by rewrite L1|].
  exists (mk_mworld t1 c1), w2. cbn [mw_core]. split_and!; [done| |done|].
  - intros Heq. rewrite Heq, F1 in L1. done.
  - rewrite Ho2, Ho. unfold set_objs.
    rewrite delete_insert_id by (by rewrite !lookup_insert_ne).
    rewrite delete_insert_id by (by rewrite lookup_insert_ne).
    by rewrite delete_insert_id.
Qed.

(** ** Changing the next hop of a route *)

(** A northbound set of a route that exists changes its next hop in place:
    the request answers OK, and the only object that changes is the first
    next hop of the route's group, which now holds the gateway and interface
    of the request. *)
Theorem gnmi_route_set_updates h vrf p gw oif now w id r g n :
  prog_env h (mw_core w) -> request_ok vrf p gw oif -> only_static h (mw_core w) vrf p id r ->
  rt_nhgroup_id r <> 0 -> struct_wf g ->
  objs (mw_core w) h !! (DANOS_OBJ_NHGROUP, rt_nhgroup_id r) = Some (to_mem g) ->
  0 < grp_nh_count g -> grp_nh_ids g !! 0%nat = Some n ->
  is_Some (objs (mw_core w) h !! (DANOS_OBJ_NEXTHOP, n)) ->
  exists w', gnmi_route_set (tx_granted now) vrf (Some p) (Some gw) oif w = (DANOS_OK, w') /\
    objs (mw_core w') h =
      <[(DANOS_OBJ_NEXTHOP, n) := to_mem (nh_obj n gw oif)]> (objs (mw_core w) h).
Proof.
  intros Hp [Hpf Hgw H4 Hv Hoif] Hon Hg Hgwf Hgr Hc Hn Hpres. destruct w as [t c]. cbn [mw_core] in *.
  destruct (begin_granted now "gnmi-route" (mk_mworld t c)) as (tx & t1 & Hb & Hf).
  assert (Hid : 0 <= n < 2 ^ 64).
  { destruct Hgwf as (_ & _ & (_ & Hall) & _). apply (proj1 (Forall_lookup _ _) Hall 0%nat n) in Hn.
    unfold is_uint in Hn. cbn in Hn. lia. }
  destruct (default_update h c DANOS_OBJ_NEXTHOP nh_id (nh_obj n gw oif) Hp) as (c1 & E1 & P1 & O1);
    [by apply nh_obj_wf|cbn; lia|done|].
  destruct (Hf c1) as [t' Ht']. exists (mk_mworld t' c1). split; [|done].
  unfold gnmi_route_set. rewrite H4. cbn [mw_core]. change (DANOS_AF_IPV4 =? DANOS_AF_IPV4) with true.
  cbn [negb]. rewrite (pe_default h c Hp).
  rewrite (find_static_only h c vrf p id r g Hp Hon Hg (read_group_at h c _ g Hp Hgwf Hgr) Hc), Hb, Hn.
  rewrite bool_decide_eq_true_2 by done. cbn [negb lu_found lu_nh_id mw_core mw_tx from_option].
  change (Datatypes.id n) with n. unfold danos_nh_update. fold (nh_obj n gw oif). rewrite E1. exact Ht'.
Qed.

(** ** Examples *)

Definition demo_prefix : danos_ip_prefix := mk_ip_prefix (mk_ip_addr DANOS_AF_IPV4 ([10; 1; 0; 0] ++ zeros 12)) 16.
Definition demo_gw (n : Z) : danos_ip_addr := mk_ip_addr DANOS_AF_IPV4 ([192; 0; 2; n] ++ zeros 12).

Lemma demo_request n oif : is_byte n -> is_uint 4 oif -> request_ok 0 demo_prefix (demo_gw n) oif.
Proof.
  intros Hn Ho.
  assert (Ha : forall l, length l = 4%nat -> bytes_ok l -> struct_wf (mk_ip_addr DANOS_AF_IPV4 (l ++ zeros 12))).
  { intros l Hl Hb. split_and!; [unfold is_uint, DANOS_AF_IPV4; cbn; lia|cbn; by rewrite length_app, Hl|].
    apply Forall_app. split; [done|apply zeros_ok]. }
  split; [split; [apply Ha; [done|]|unfold is_uint; cbn; lia]|apply Ha; [done|]|done|unfold is_uint; cbn; lia|done].
  all: repeat constructor; unfold is_byte in *; lia.
Qed.

Lemma demo_no_static : no_static 1 demo_prog_core 0 demo_prefix.
Proof.
  intros id r (d & Hd & _). destruct demo_prog_facts as (_ & Ho & _). rewrite Ho in Hd.
  rewrite lookup_insert_ne in Hd by discriminate. rewrite lookup_empty in Hd. discriminate Hd.
Qed.

Lemma demo_ids_fit : ids_fit 1 demo_prog_core 1.
Proof.
  intros t id [d Hd]. destruct demo_prog_facts as (_ & Ho & _). rewrite Ho in Hd.
  apply lookup_insert_Some in Hd as [[[= <- <-] _]|[_ Hd]]; [lia|]. rewrite lookup_empty in Hd. discriminate Hd.
Qed.

Lemma gnmi_route_set_programs_witness :
  exists w' out grp,
    gnmi_route_set (tx_granted 5) 0 (Some demo_prefix) (Some (demo_gw 1)) 3
      (mk_mworld tx_world_start demo_prog_core) = (DANOS_OK, w') /\
    resolve_route_nh (static_route 0 demo_prefix grp) (mw_core w') = (DANOS_OK, out) /\
    rr_nh_gw out !! 0%nat = Some ([192; 0; 2; 1] ++ zeros 12).
Proof.
  destruct (gnmi_route_set_programs 1 0 demo_prefix (demo_gw 1) 3 5 (mk_mworld tx_world_start demo_prog_core))
    as (nh & grp & w' & out & Hs & _ & _ & _ & _ & _ & Hr & _ & Hg & _).
  - apply demo_prog_facts.
  - apply demo_request; [unfold is_byte|unfold is_uint; cbn]; lia.
  - apply demo_no_static.
  - apply demo_ids_fit.
  - cbn [mw_core]. destruct demo_prog_facts as (_ & Ho & _). rewrite Ho. reflexivity.
  - exists w', out, grp. split; [exact Hs|]. split; [exact Hr|exact Hg].
Defined.

Lemma gnmi_route_delete_undoes_witness :
  exists w1 w2,
    gnmi_route_set (tx_granted 5) 0 (Some demo_prefix) (Some (demo_gw 1)) 3
      (mk_mworld tx_world_start demo_prog_core) = (DANOS_OK, w1) /\
    gnmi_route_delete (tx_granted 6) 0 (Some demo_prefix) w1 = (DANOS_OK, w2) /\
    objs (mw_core w2) 1 = objs demo_prog_core 1.
Proof.
  destruct (gnmi_route_delete_undoes 1 0 demo_prefix (demo_gw 1) 3 5 6 (mk_mworld tx_world_start demo_prog_core))
    as (w1 & w2 & Hs & _ & Hd & Ho).
  - apply demo_prog_facts.
  - apply demo_request; [unfold is_byte|unfold is_uint; cbn]; lia.
  - apply demo_no_static.
  - apply demo_ids_fit.
  - vm_compute. discriminate.
  - cbn [mw_core]. destruct demo_prog_facts as (_ & Ho & _). rewrite Ho. reflexivity.
  - exists w1, w2. split; [exact Hs|]. split; [exact Hd|exact Ho].
Defined.

(** The store after a first set of the demo route. *)
Lemma demo_set_twice :
  exists nh grp w1, prog_env 1 (mw_core w1) /\ 100 < nh < 2 ^ 64 /\ 100 < grp < 2 ^ 64 /\
    objs (mw_core w1) 1 = set_objs 0 demo_prefix (demo_gw 1) 3 nh grp (objs demo_prog_core 1).
Proof.
  destruct (set_fresh_run 1 0 demo_prefix (demo_gw 1) 3 5 (mk_mworld tx_world_start demo_prog_core))
    as (nh & grp & w1 & _ & Hp & Hn & Hg & _ & _ & Ho); [apply demo_prog_facts| | | | |exists nh, grp, w1; exact (conj Hp (conj Hn (conj Hg Ho)))].
  - apply demo_request; [unfold is_byte|unfold is_uint; cbn]; lia.
  - apply demo_no_static.
  - apply demo_ids_fit.
  - cbn [mw_core]. destruct demo_prog_facts as (_ & Ho & _). rewrite Ho. reflexivity.
Qed.

Lemma gnmi_route_set_updates_witness :
  exists n w1 w2,
    gnmi_route_set (tx_granted 6) 0 (Some demo_prefix) (Some (demo_gw 9)) 4 w1 = (DANOS_OK, w2) /\
    objs (mw_core w1) 1 !! (DANOS_OBJ_NEXTHOP, n) = Some (to_mem (nh_obj n (demo_gw 1) 3)) /\
    objs (mw_core w2) 1 !! (DANOS_OBJ_NEXTHOP, n) = Some (to_mem (nh_obj n (demo_gw 9) 4)).
Proof.
  destruct demo_set_twice as (nh & grp & w1 & Hp & Hn & Hg & Ho).
  destruct (set_objs_lookup 0 demo_prefix (demo_gw 1) 3 nh grp (objs demo_prog_core 1)) as (L1 & L2 & L3).
  rewrite <- Ho in L1, L2, L3.
  assert (Hrq : request_ok 0 demo_prefix (demo_gw 9) 4)
    by (apply demo_request; [unfold is_byte|unfold is_uint; cbn]; lia).
  assert (Hw : struct_wf (static_route 0 demo_prefix grp)).
  { destruct Hrq as [Hpf _ _ Hv _]. apply (static_route_wf 0 demo_prefix grp Hv Hpf). lia. }
  destruct (gnmi_route_set_updates 1 0 demo_prefix (demo_gw 9) 4 6 w1 _ _ (group_of grp [nh]) nh Hp Hrq
    (set_only 1 demo_prog_core (mw_core w1) 0 demo_prefix (demo_gw 1) 3 nh grp demo_no_static Hw Ho))
    as (w2 & Hs & Ho2); [cbn; lia|apply group_one_wf; lia|done|cbn; lia|done|by rewrite L1|].
  exists nh, w1, w2. split; [exact Hs|]. split; [exact L1|]. rewrite Ho2. apply lookup_insert_eq.
Defined.

(** ** Routes with many next hops *)

Definition demo_paths (n : nat) : list (danos_ip_addr * Z) :=
  (fun i => (demo_gw (Z.of_nat i), 3)) <$> seq 1 n.

(** Set a route with [n] next hops, delete it, and list what is left of the
    next hops. *)
Definition ecmp_leftover (n : nat) : danos_status * danos_status * list Z :=
  let '(st1, w) := gnmi_route_set_ecmp (tx_granted 5) 0 (Some demo_prefix) (demo_paths n)
                     (mk_mworld tx_world_start demo_prog_core) in
  let '(st2, w) := gnmi_route_delete (tx_granted 6) 0 (Some demo_prefix) w in
  (st1, st2, match default_entries (mw_core w) with
             | Some s => e_id <$> filter (fun e => e_type e = DANOS_OBJ_NEXTHOP) (store_entries s)
             | None => []
             end).

(** The delete of a route with more than sixteen next hops is incomplete: a
    route with sixteen next hops is removed without a trace, but one with
    seventeen - the set accepts up to 64 - leaves its last next hop in the
    object store, and both requests answer OK. *)
Theorem gnmi_ecmp_delete_leaks :
  ecmp_leftover 16 = (DANOS_OK, DANOS_OK, []) /\
  ecmp_leftover 17 = (DANOS_OK, DANOS_OK, [253]).
Proof. split; vm_compute; reflexivity. Qed.
