(* ===== verification/Conformance.v ===== *)
(** * The conformance suite: danos-test conformance_cases.c, conformance_runner.c

    The cases run one after the other on the transaction manager, the object
    store and the backend registry of one process.  What the environment
    answers to a case's first and second transaction is its argument.  The
    lines printed are left out. *)

From stdpp Require Import base decidable list numbers gmap strings.
From Stdlib Require Import ZArith Lia.
From S2P Require Import Prelude Dpa Backends ObjectStore Wal EventBus Registry Persist DpaObjects Transaction.
From S2P Require Import CStr ModelRoutes.

Record conf_world := mk_conf { cf_tx : tx_world; cf_core : core; cf_backends : registry }.

Definition with_tx (t : tx_world) (w : conf_world) : conf_world := mk_conf t (cf_core w) (cf_backends w).

Definition case_env : Type := tx_env * tx_env.

Definition conf_kDefaultTimeouts : danos_tx_timeouts := mk_timeouts 100 500 1000.

Definition conf_begin (e : tx_env) (who : string) (t : tx_world) : danos_status * option danos_tx * tx_world :=
  danos_tx_begin (te_mem_mgr e) (te_mem_rec e) (te_now e) (Some tx_zero) (Some who) (Some conf_kDefaultTimeouts) t.

Definition failed (st : danos_status) : bool := negb (bool_decide (st = DANOS_OK)).

(** ** Transactions *)

Definition conf_tx_lifecycle (e : case_env) (w : conf_world) : Z * conf_world :=
  let '(st, tx, t) := conf_begin e.1 "conformance" (cf_tx w) in
  if failed st then (1, with_tx t w) else
  if from_option tx_id 0 tx =? 0 then (2, with_tx t w) else
  let '(st, tx, t) := danos_tx_prepare tx t in
  if failed st then (3, with_tx t w) else
  let '(st, tx, t) := danos_tx_validate tx t in
  if failed st then (4, with_tx t w) else
  let '(st, tx, t) := danos_tx_commit (te_locked e.1) tx t in
  if failed st then (5, with_tx t w) else
  let '(_, tx, t) := danos_tx_verify tx t in
  let state := (danos_tx_get_state tx).2 in
  if negb (bool_decide (state = Some DANOS_TX_DONE)) && negb (bool_decide (state = Some DANOS_TX_VERIFY))
  then (6, with_tx t w) else (0, with_tx t w).

Definition conf_tx_concurrent (e : case_env) (w : conf_world) : Z * conf_world :=
  let '(st, tx1, t) := conf_begin e.1 "conf-1" (cf_tx w) in
  if failed st then (1, with_tx t w) else
  let '(st, tx2, t) := conf_begin e.2 "conf-2" t in
  if failed st then (2, with_tx t w) else
  let '(st, tx1, t) := danos_tx_abort tx1 t in
  if failed st then (3, with_tx t w) else
  let '(st, tx2, t) := danos_tx_prepare tx2 t in
  if failed st then (4, with_tx t w) else
  let '(st, tx2, t) := danos_tx_validate tx2 t in
  if failed st then (5, with_tx t w) else
  let '(st, tx2, t) := danos_tx_commit (te_locked e.2) tx2 t in
  if failed st then (6, with_tx t w) else
  let '(st, tx2, t) := danos_tx_verify tx2 t in
  if failed st then (7, with_tx t w) else (0, with_tx t w).

(** ** Objects *)

(** The body the object cases share: begin, one create whose status is not
    looked at, commit. *)
Definition conf_crud (create : core -> danos_status * core) (e : case_env) (w : conf_world) : Z * conf_world :=
  let '(st, tx, t) := conf_begin e.1 "conf" (cf_tx w) in
  if failed st then (1, with_tx t w) else
  let c := (create (cf_core w)).2 in
  let '(_, _, t) := danos_tx_commit (te_locked e.1) tx t in
  (0, mk_conf t c (cf_backends w)).

(** [strncpy] into a zeroed array of 64 characters. *)
Definition name_64 (s : string) : bytes := lit s ++ zeros (64 - String.length s).

Definition conf_iface : danos_iface :=
  mk_iface 1 (name_64 "eth0") DANOS_IF_TYPE_PHYS 1500 (zeros 6) true false 0 0 0 (mk_ip_prefix ip_addr_zero 0) (mk_ip_prefix ip_addr_zero 0).
Definition conf_vrf : danos_vrf := mk_vrf 100 (name_64 "VRF100") true false.
Definition conf_route : danos_route :=
  mk_route 0 (mk_ip_prefix (mk_ip_addr DANOS_AF_IPV4 (zeros 12 ++ [10; 0; 0; 0])) 24) DANOS_ROUTE_PROTO_STATIC 1 0 0 0.
Definition conf_nh : danos_nexthop := mk_nexthop 1 (mk_ip_addr DANOS_AF_IPV4 (zeros 15 ++ [1])) 1 1 0 0 [0; 0; 0].
Definition conf_nhgroup : danos_nhgroup := mk_nhgroup 1 2 ([1; 2] ++ replicate 62 0) 0.
Definition conf_acl : danos_acl_table := mk_acl_table 1 (name_64 "ACL1") 0 true.
Definition conf_qos : danos_qos_policy := mk_qos_policy 1 (name_64 "POLICE1") 100000000 12500000 0 0 0 0 0.

Definition conf_iface_crud : case_env -> conf_world -> Z * conf_world := conf_crud (danos_iface_create (Some conf_iface)).
Definition conf_vrf_crud : case_env -> conf_world -> Z * conf_world := conf_crud (danos_vrf_create (Some conf_vrf)).
Definition conf_route_crud : case_env -> conf_world -> Z * conf_world := conf_crud (danos_route_create (Some conf_route)).
Definition conf_nh_crud : case_env -> conf_world -> Z * conf_world := conf_crud (danos_nh_create (Some conf_nh)).
Definition conf_nhgroup_crud : case_env -> conf_world -> Z * conf_world := conf_crud (danos_nhgroup_create (Some conf_nhgroup)).
Definition conf_acl_crud : case_env -> conf_world -> Z * conf_world := conf_crud (danos_acl_table_create (Some conf_acl)).
Definition conf_qos_crud : case_env -> conf_world -> Z * conf_world := conf_crud (danos_qos_policy_create (Some conf_qos)).

(** ** Capabilities and version *)

(** The query has no effect, and its result is not looked at. *)
Definition conf_capability_query (_ : case_env) (w : conf_world) : Z * conf_world :=
  let '(_, _) := danos_capability_query None DANOS_OBJ_ROUTE (cf_backends w) in (0, w).

Definition conf_version_negotiate (_ : case_env) (w : conf_world) : Z * conf_world :=
  let v := danos_dpa_get_version in
  if negb (ver_major v =? 0) then (1, w) else if negb (ver_minor v =? 1) then (2, w) else (0, w).

(** ** The runner *)

Definition kTests : list (string * (case_env -> conf_world -> Z * conf_world)) :=
  [("tx_lifecycle"%string, conf_tx_lifecycle); ("tx_concurrent"%string, conf_tx_concurrent);
   ("iface_crud"%string, conf_iface_crud); ("vrf_crud"%string, conf_vrf_crud);
   ("route_crud"%string, conf_route_crud); ("nh_crud"%string, conf_nh_crud);
   ("nhgroup_crud"%string, conf_nhgroup_crud); ("acl_crud"%string, conf_acl_crud);
   ("qos_crud"%string, conf_qos_crud); ("capability_query"%string, conf_capability_query);
   ("version_negotiate"%string, conf_version_negotiate)].

(** The cases from number [i] on: passed, failed and the world. *)
Fixpoint run_tests (i : nat) (ts : list (string * (case_env -> conf_world -> Z * conf_world))) (es : nat -> case_env)
    (passed nfailed : Z) (w : conf_world) : Z * Z * conf_world :=
  match ts with
  | [] => (passed, nfailed, w)
  | (_, fn) :: ts =>
      let '(rc, w) := fn (es i) w in
      if rc =? 0 then run_tests (S i) ts es (passed + 1) nfailed w else run_tests (S i) ts es passed (nfailed + 1) w
  end.

Definition conformance_main (es : nat -> case_env) (w : conf_world) : Z * conf_world :=
  let '(_, nfailed, w) := run_tests 0 kTests es 0 0 w in (if nfailed =? 0 then 0 else 1, w).

(** ** What a pass of the suite says *)

(** The state of a record, for a caller's transaction. *)
Definition stands (t : tx_world) (tx : option danos_tx) (s : danos_tx_state) : Prop :=
  exists x h, tx = Some x /\ tx_internal x = Some h /\ rec_state t h = Some s.

(** [t'] has [n] more active transactions than [t]. *)
Record adds (n : Z) (t t' : tx_world) : Prop := {
  ad_inv : tx_inv 0 t';
  ad_active : n_active t' = n_active t + n;
  ad_next : tw_next t <= tw_next t' <= tw_next t + 2;
}.

Lemma begin_adds now who t :
  tx_inv 0 t -> exists tx t', conf_begin (tx_granted now) who t = (DANOS_OK, tx, t') /\ stands t' tx DANOS_TX_OPEN /\
    tx_inv 0 t' /\ n_active t' = n_active t + 1 /\ tw_next t' = tw_next t + 1 /\
    from_option tx_id 0 tx = u64 (tw_next t) /\
    forall tx1 s, stands t tx1 s -> stands t' tx1 s /\ tx ≫= tx_internal <> tx1 ≫= tx_internal.
Proof.
  intros Hi. assert (Hi' := Hi). unfold conf_begin. cbn [te_mem_mgr te_mem_rec te_now tx_granted].
  destruct (danos_tx_begin true true now (Some tx_zero) (Some who) (Some conf_kDefaultTimeouts) t) as [[st tx] t'] eqn:Eb.
  pose proof (tx_begin_inv 0 _ _ _ _ _ _ _ _ _ _ Hi Eb) as Hi2.
  unfold danos_tx_begin in Eb.
  assert (Hm : exists m t1, danos_tx_manager_init true t = (0, t1) /\ g_tx_mgr t1 = Some m /\ tm_free_list m = [] /\
    tm_next_tx_id m = u64 (tw_next t1) /\ tw_records t1 = tw_records t /\ tw_next t1 = tw_next t).
  { unfold danos_tx_manager_init. destruct (g_tx_mgr t) as [m|] eqn:Hg.
    - exists m, t. destruct (ti_mgr 0 t Hi m Hg) as (H1 & H2 & _). by split_and!.
    - destruct (ti_none 0 t Hi Hg) as (H1 & H2 & _). eexists _, _. split; [done|]. cbn. rewrite H2. by split_and!. }
  destruct Hm as (m & t1 & Hinit & Hg & Hfree & Hid & Hrec & Hnext). rewrite Hinit, Hg in Eb.
  unfold danos_tx_record_alloc in Eb. rewrite Hfree in Eb. injection Eb as <- <- <-.
  assert (Hfresh : tw_records t !! tw_next t = None).
  { apply eq_None_not_Some. intros Hs. pose proof (ti_fresh 0 t Hi _ Hs). lia. }
  eexists _, _. split; [reflexivity|]. set (x := mk_tx _ _ _ _ _ _) in *.
  assert (Hn : n_active (set_record t (tw_next t) (mk_tx_record x true)) = n_active t + 1) by (by apply n_active_new).
  split; [|split; [exact Hi2|split; [|split; [|split]]]].
  - exists x, (tw_next t1). split_and!; try done. unfold rec_state. cbn. by rewrite lookup_insert_eq.
  - rewrite <- Hn. unfold n_active. cbn. by rewrite Hrec, Hnext, insert_insert_eq.
  - cbn. by rewrite Hnext.
  - cbn. by rewrite Hid, Hnext.
  - intros tx1 s (x1 & h1 & -> & Hx1 & Hs).
    assert (Hne : tw_next t <> h1) by (intros Heq; unfold rec_state in Hs; by rewrite <- Heq, Hfresh in Hs).
    split; [exists x1, h1; split_and!; try done|cbn; congruence]. unfold rec_state in *. cbn.
    by rewrite Hnext, !lookup_insert_ne, Hrec.
Qed.

(** A move of the state machine from state [s]. *)
Lemma move_stands allowed to tx s t :
  stands t tx s -> allowed s = true ->
  exists tx' t', tx_move allowed to tx t = (DANOS_OK, tx', t') /\ stands t' tx' to /\
    (danos_tx_get_state tx').2 = Some to /\
    n_active t' = n_active t - b2z (tx_active s) + b2z (tx_active to) /\ tw_next t' = tw_next t /\
    forall tx1 s1, stands t tx1 s1 -> tx1 ≫= tx_internal <> tx ≫= tx_internal -> stands t' tx1 s1.
Proof.
  intros (x & h & -> & Hx & Hs) Ha. unfold rec_state in Hs.
  destruct (tw_records t !! h) as [r|] eqn:Hr; [|done]. cbn in Hs. injection Hs as Hs.
  rewrite (tx_move_run _ _ _ _ _ _ Hx Hr) by (by rewrite Hs). eexists _, _. split; [reflexivity|].
  split; [exists (with_state x to), h; split_and!; try done; unfold rec_state; cbn; by rewrite lookup_insert_eq|].
  split; [done|]. split; [by rewrite (n_active_set t h r _ Hr), Hs|]. split; [done|].
  intros tx1 s1 (x1 & h1 & -> & Hx1 & Hs1) Hne. exists x1, h1. split_and!; try done. unfold rec_state in *. cbn.
  rewrite lookup_insert_ne; [done|]. intros ->. cbn in Hne. congruence.
Qed.

Lemma sub_stands w :
  n_active (tx_active_sub w) = n_active w /\ tw_next (tx_active_sub w) = tw_next w /\
  forall tx s, stands w tx s -> stands (tx_active_sub w) tx s.
Proof. unfold tx_active_sub. by destruct (g_tx_mgr w). Qed.

(** The calls of the suite on a transaction in the state they expect. *)
Inductive calls : danos_tx_state -> danos_tx_state ->
    (option danos_tx -> tx_world -> danos_status * option danos_tx * tx_world) -> Prop :=
  | C_prepare : calls DANOS_TX_OPEN DANOS_TX_PREPARE danos_tx_prepare
  | C_validate : calls DANOS_TX_PREPARE DANOS_TX_VALIDATE danos_tx_validate
  | C_commit : calls DANOS_TX_VALIDATE DANOS_TX_COMMIT (danos_tx_commit true)
  | C_verify : calls DANOS_TX_COMMIT DANOS_TX_DONE danos_tx_verify
  | C_abort : calls DANOS_TX_OPEN DANOS_TX_ABORT danos_tx_abort.

Lemma call_step s to f tx t tx' t' : calls s to f -> f tx t = (DANOS_OK, tx', t') -> tx_step t 0 t'.
Proof.
  intros [] He; [by eapply St_prepare|by eapply St_validate| |by eapply St_verify|by eapply St_abort].
  pose proof (St_commit true tx t DANOS_OK tx' t' He) as H. by rewrite decide_False in H.
Qed.

Lemma call_run s to f tx t :
  calls s to f -> tx_inv 0 t -> stands t tx s ->
  exists tx' t', f tx t = (DANOS_OK, tx', t') /\ tx_inv 0 t' /\ stands t' tx' to /\
    (danos_tx_get_state tx').2 = Some to /\
    n_active t' = n_active t - 1 + b2z (tx_active to) /\ tw_next t' = tw_next t /\
    forall tx1 s1, stands t tx1 s1 -> tx1 ≫= tx_internal <> tx ≫= tx_internal -> stands t' tx1 s1.
Proof.
  intros Hc Hi Hst.
  assert (Hrun : exists tx' t', f tx t = (DANOS_OK, tx', t') /\ stands t' tx' to /\
    (danos_tx_get_state tx').2 = Some to /\
    n_active t' = n_active t - 1 + b2z (tx_active to) /\ tw_next t' = tw_next t /\
    forall tx1 s1, stands t tx1 s1 -> tx1 ≫= tx_internal <> tx ≫= tx_internal -> stands t' tx1 s1).
  { destruct Hc.
    1-2: exact (move_stands _ _ _ _ _ Hst eq_refl).
    1: unfold danos_tx_commit; destruct (move_stands (tx_is DANOS_TX_VALIDATE) DANOS_TX_COMMIT _ _ _ Hst eq_refl)
         as (tx' & t' & -> & Hrest); by exists tx', t'.
    - unfold danos_tx_verify, tx_end.
      destruct (move_stands (tx_is DANOS_TX_COMMIT) DANOS_TX_DONE _ _ _ Hst eq_refl) as (tx' & t' & -> & H1 & H2 & H3 & H4 & H5).
      destruct (sub_stands t') as (S1 & S2 & S3). exists tx', (tx_active_sub t'). rewrite S1, S2. split_and!; try done; eauto.
    - unfold danos_tx_abort, tx_end.
      destruct (move_stands (fun s => negb (tx_state_code DANOS_TX_COMMIT <=? tx_state_code s)) DANOS_TX_ABORT _ _ _ Hst eq_refl)
        as (tx' & t' & -> & H1 & H2 & H3 & H4 & H5).
      destruct (sub_stands t') as (S1 & S2 & S3). exists tx', (tx_active_sub t'). rewrite S1, S2. split_and!; try done; eauto. }
  destruct Hrun as (tx' & t' & Hf & Hrest). exists tx', t'. split; [done|]. split; [|done].
  apply (tx_step_inv 0 t 0 t' Hi). by eapply call_step.
Qed.

Lemma failed_ok : failed DANOS_OK = false.
Proof. reflexivity. Qed.

Lemma crud_adds create now now' w :
  tx_inv 0 (cf_tx w) -> exists w', conf_crud create (tx_granted now, tx_granted now') w = (0, w') /\ adds 1 (cf_tx w) (cf_tx w').
Proof.
  intros Hi. unfold conf_crud. cbn [fst].
  destruct (begin_adds now "conf" (cf_tx w) Hi) as (tx & t & -> & (x & h & -> & Hx & Hs) & Hi1 & Hn & Hnx & _).
  rewrite failed_ok. cbn [te_locked tx_granted]. unfold danos_tx_commit, tx_move, danos_tx_validate_ptr. cbn [mbind option_bind].
  rewrite Hx. unfold rec_state in Hs. destruct (tw_records t !! h) as [r|]; [|done]. cbn in Hs. injection Hs as Hs.
  rewrite Hs. eexists. split; [reflexivity|]. cbn [cf_tx]. split; [done|done|lia].
Qed.

Lemma lifecycle_adds now now' w :
  tx_inv 0 (cf_tx w) -> tw_next (cf_tx w) < 2 ^ 64 ->
  exists w', conf_tx_lifecycle (tx_granted now, tx_granted now') w = (0, w') /\ adds 0 (cf_tx w) (cf_tx w').
Proof.
  intros Hi Hb. unfold conf_tx_lifecycle. cbn [fst te_locked tx_granted].
  destruct (begin_adds now "conformance" (cf_tx w) Hi) as (tx & t & -> & Hs & Hi1 & Hn & Hnx & Hid & _).
  rewrite failed_ok, Hid. pose proof (ti_next 0 _ Hi). rewrite u64_small by (unfold is_u64; lia).
  rewrite (proj2 (Z.eqb_neq _ 0)) by lia.
  destruct (call_run _ _ _ _ _ C_prepare Hi1 Hs) as (tx2 & t2 & -> & I2 & S2 & _ & N2 & X2 & _). rewrite failed_ok.
  destruct (call_run _ _ _ _ _ C_validate I2 S2) as (tx3 & t3 & -> & I3 & S3 & _ & N3 & X3 & _). rewrite failed_ok.
  destruct (call_run _ _ _ _ _ C_commit I3 S3) as (tx4 & t4 & -> & I4 & S4 & _ & N4 & X4 & _). rewrite failed_ok.
  destruct (call_run _ _ _ _ _ C_verify I4 S4) as (tx5 & t5 & -> & I5 & _ & Hg & N5 & X5 & _).
  rewrite Hg. cbn in N2, N3, N4, N5. eexists. split; [reflexivity|]. cbn [cf_tx with_tx]. split; [done|lia|lia].
Qed.

Lemma concurrent_adds now now' w :
  tx_inv 0 (cf_tx w) ->
  exists w', conf_tx_concurrent (tx_granted now, tx_granted now') w = (0, w') /\ adds 0 (cf_tx w) (cf_tx w').
Proof.
  intros Hi. unfold conf_tx_concurrent. cbn [fst snd te_locked tx_granted].
  destruct (begin_adds now "conf-1" (cf_tx w) Hi) as (tx1 & t & -> & Hs1 & Hi1 & Hn1 & Hnx1 & _). rewrite failed_ok.
  destruct (begin_adds now' "conf-2" t Hi1) as (tx2 & t2 & -> & Hs2 & Hi2 & Hn2 & Hnx2 & Hid & Hk). rewrite failed_ok.
  destruct (Hk _ _ Hs1) as [Hs1' Hne].
  destruct (call_run _ _ _ _ _ C_abort Hi2 Hs1') as (tx3 & t3 & -> & I3 & _ & _ & N3 & X3 & K3). rewrite failed_ok.
  destruct (call_run _ _ _ _ _ C_prepare I3 (K3 _ _ Hs2 Hne)) as (tx4 & t4 & -> & I4 & S4 & _ & N4 & X4 & _). rewrite failed_ok.
  destruct (call_run _ _ _ _ _ C_validate I4 S4) as (tx5 & t5 & -> & I5 & S5 & _ & N5 & X5 & _). rewrite failed_ok.
  destruct (call_run _ _ _ _ _ C_commit I5 S5) as (tx6 & t6 & -> & I6 & S6 & _ & N6 & X6 & _). rewrite failed_ok.
  destruct (call_run _ _ _ _ _ C_verify I6 S6) as (tx7 & t7 & -> & I7 & _ & Hg & N7 & X7 & _). rewrite failed_ok.
  cbn in N3, N4, N5, N6, N7. eexists. split; [reflexivity|]. cbn [cf_tx with_tx]. split; [done|lia|lia].
Qed.

(** The number of transactions each case leaves open. *)
Definition leaves_open (k : Z) (fn : case_env -> conf_world -> Z * conf_world) : Prop :=
  forall now now' w, tx_inv 0 (cf_tx w) -> tw_next (cf_tx w) < 2 ^ 64 ->
    exists w', fn (tx_granted now, tx_granted now') w = (0, w') /\ adds k (cf_tx w) (cf_tx w').

Lemma kTests_open :
  Forall2 (fun k t => leaves_open k t.2) [0; 0; 1; 1; 1; 1; 1; 1; 1; 0; 0] kTests.
Proof.
  assert (Hid : forall w, tx_inv 0 (cf_tx w) -> adds 0 (cf_tx w) (cf_tx w)) by (intros w Hi; split; [done|lia|lia]).
  repeat constructor; intros now now' w Hi Hb; cbn [snd]; try (by apply crud_adds).
  - by apply lifecycle_adds.
  - by apply concurrent_adds.
  - exists w. split; [|by apply Hid]. unfold conf_capability_query. by destruct (danos_capability_query _ _ _).
  - exists w. split; [done|by apply Hid].
Qed.

Lemma run_tests_open ks ts i es passed w :
  Forall2 (fun k t => leaves_open k t.2) ks ts -> (forall j, exists now now', es j = (tx_granted now, tx_granted now')) ->
  tx_inv 0 (cf_tx w) -> tw_next (cf_tx w) + 2 * Z.of_nat (length ts) <= 2 ^ 64 ->
  exists w', run_tests i ts es passed 0 w = (passed + Z.of_nat (length ts), 0, w') /\ tx_inv 0 (cf_tx w') /\
    n_active (cf_tx w') = n_active (cf_tx w) + foldr Z.add 0 ks.
Proof.
  intros Hts Hes. revert i passed w. induction Hts as [|k [name fn] ks ts Hk _ IH]; intros i passed w Hi Hb.
  { exists w. cbn. split_and!; [by rewrite Z.add_0_r|done|lia]. }
  cbn [length] in Hb. destruct (Hes i) as (now & now' & He).
  destruct (Hk now now' w Hi ltac:(lia)) as (w1 & Hrun & [I1 N1 X1]).
  destruct (IH (S i) (passed + 1) w1 I1 ltac:(lia)) as (w' & Hw' & I' & N').
  cbn [snd] in Hrun. exists w'. cbn [run_tests]. rewrite He, Hrun. change (0 =? 0) with true. cbv iota. rewrite Hw'.
  split_and!; [f_equal; f_equal; cbn [length]; lia|done|]. rewrite N', N1. cbn [foldr]. lia.
Qed.

(** C37. The suite passes whatever the object operations do: with transactions
    granted, a process with no transactions yet exits with status 0 for every
    object store, allocator and files included, so also when every create
    fails, and for every registry of backends; and it leaves the transactions
    of the seven object cases open, because they are committed without having
    been prepared and validated. *)
Theorem conformance_ignores_objects now1 now2 c g :
  exists w', conformance_main (fun i => (tx_granted (now1 i), tx_granted (now2 i))) (mk_conf tx_world_start c g) = (0, w') /\
    n_active (cf_tx w') = 7 /\ tm_active_count <$> g_tx_mgr (cf_tx w') = Some 7.
Proof.
  destruct (run_tests_open _ kTests 0 (fun i => (tx_granted (now1 i), tx_granted (now2 i))) 0
    (mk_conf tx_world_start c g) kTests_open) as (w' & Hrun & Hi & Hn).
  - intros j. by exists (now1 j), (now2 j).
  - apply tx_inv_start.
  - cbn. lia.
  - exists w'. unfold conformance_main. rewrite Hrun. change (n_active (cf_tx w') = 7) in Hn.
    split_and!; [done|done|]. destruct (g_tx_mgr (cf_tx w')) as [m|] eqn:Hm.
    + destruct (ti_mgr 0 _ Hi m Hm) as (_ & _ & Ha). cbn. by rewrite Ha, Hn.
    + destruct (ti_none 0 _ Hi Hm) as (Hr & _). unfold n_active, active_records in Hn.
      by rewrite Hr, map_filter_empty, map_size_empty in Hn.
Qed.
