(* ===== verification/FibBridge.v ===== *)
(** * The live bridge: danos-test fib_live_bridge.c

    FRR's zebra to VPP in one process: the zebra session receives route
    messages, the ZAPI mapper turns each into desired objects inside one
    transaction, and the programming pipeline drives VPP through its adapter.
    A [bridge] is the state of these parts; the system's answers (sockets,
    clock, allocator, whether a signal has stopped the process) come in one
    [turn] per round of the main loop.  The pauses and the messages on
    [stderr] change no state; the counters are not reduced to their width,
    their overflow being undefined in C. *)

From stdpp Require Import base decidable list numbers gmap strings.
From Stdlib Require Import ZArith Lia.
From S2P Require Import Prelude Dpa ObjectStore Wal EventBus Registry Persist DpaObjects Transaction.
From S2P Require Import Pipeline PassDelta Zapi ZapiMapper CStr ZebraSession VppWire VppMsgs VppApi VppBackend.
From S2P Require Import ModelRoutes.

Definition DANOS_ZAPI_PROTOCOL : Z := 3.
Definition ZEBRA_FRR_ROUTE_ADD : Z := 9.
Definition ZEBRA_FRR_ROUTE_DELETE : Z := 10.

(** The environment variables: the ones of the parts, [DANOS_ZAPI_PROTOCOL],
    [DANOS_SKIP_VPP_RECOVERY] and [DANOS_VPP_HEALTH_PROBE]. *)
Record bridge_env := mk_benv {
  be_vpp : vpp_env;
  be_ifmap : option bytes;
  be_zebra : zenv;
  be_protocol : option bytes;
  be_skip : option bytes;
  be_probe : option bytes;
}.

Definition zapi_protocol (value : option bytes) : Z :=
  match value with
  | None | Some [] => DANOS_ZAPI_PROTOCOL
  | Some v =>
      let '(parsed, rest) := strtoul v in
      match rest with
      | [] => if parsed <=? 255 then u8 parsed else DANOS_ZAPI_PROTOCOL
      | _ :: _ => DANOS_ZAPI_PROTOCOL
      end
  end.

(** [v && v[0] && strcmp(v, "0") != 0]. *)
Definition flag_set (v : option bytes) : bool :=
  match v with
  | None | Some [] => false
  | Some v => negb (bool_decide (v = lit "0"))
  end.

(** One attempt to reach VPP: whether the process still runs, the bytes on the
    stack below the connect call, and the two readings of the clock. *)
Record vpp_try := mk_try { vt_running : bool; vt_stack : bytes; vt_now : Z; vt_now' : Z }.

(** The session with its receive buffer, the transaction manager, the mapper
    over the core library, the cumulative counters of the pipeline, the VPP
    client, the times of the last probes, and the counters of [main]. *)
Record bridge := mk_bridge {
  br_z : zstate;
  br_buf : bytes;
  br_tx : tx_world;
  br_map : zworld;
  br_stats : program_ctx;
  br_vpp : vpp_api;
  br_probe_connected : Z;
  br_probe : Z;
  br_processed : Z;
  br_failed : Z;
}.

Definition with_z (z : zstate) (b : bridge) : bridge :=
  mk_bridge z (br_buf b) (br_tx b) (br_map b) (br_stats b) (br_vpp b) (br_probe_connected b) (br_probe b)
    (br_processed b) (br_failed b).
Definition with_buf (z : zstate) (buf : bytes) (b : bridge) : bridge :=
  mk_bridge z buf (br_tx b) (br_map b) (br_stats b) (br_vpp b) (br_probe_connected b) (br_probe b)
    (br_processed b) (br_failed b).
Definition with_work (t : tx_world) (w : zworld) (b : bridge) : bridge :=
  mk_bridge (br_z b) (br_buf b) t w (br_stats b) (br_vpp b) (br_probe_connected b) (br_probe b)
    (br_processed b) (br_failed b).
Definition with_fib (c : core) (st : program_ctx) (a : vpp_api) (b : bridge) : bridge :=
  mk_bridge (br_z b) (br_buf b) (br_tx b) (mk_zworld (g_zapi_next_id (br_map b)) c) st a
    (br_probe_connected b) (br_probe b) (br_processed b) (br_failed b).
Definition with_vpp (a : vpp_api) (b : bridge) : bridge :=
  mk_bridge (br_z b) (br_buf b) (br_tx b) (br_map b) (br_stats b) a (br_probe_connected b) (br_probe b)
    (br_processed b) (br_failed b).
Definition with_probes (connected idle : Z) (b : bridge) : bridge :=
  mk_bridge (br_z b) (br_buf b) (br_tx b) (br_map b) (br_stats b) (br_vpp b) connected idle
    (br_processed b) (br_failed b).
Definition count_done (b : bridge) : bridge :=
  mk_bridge (br_z b) (br_buf b) (br_tx b) (br_map b) (br_stats b) (br_vpp b) (br_probe_connected b) (br_probe b)
    (br_processed b + 1) (br_failed b).
Definition count_failed (b : bridge) : bridge :=
  mk_bridge (br_z b) (br_buf b) (br_tx b) (br_map b) (br_stats b) (br_vpp b) (br_probe_connected b) (br_probe b)
    (br_processed b) (br_failed b + 1).

Definition br_core (b : bridge) : core := zw_core (br_map b).

(** ** The pipeline with VPP behind it *)

Definition bridge_run (e : bridge_env) (b : bridge) : program_ctx * bridge :=
  let '(p, st, c, a) := danos_programming_run (g_vpp_ops (be_ifmap e)) (br_stats b) (br_core b) (br_vpp b) in
  (p, with_fib c st a b).

Definition bridge_sweep (e : bridge_env) (b : bridge) : Z * Z * bridge :=
  let '(issued, failed, c, a) := danos_programming_sweep (g_vpp_ops (be_ifmap e)) true (br_core b) (br_vpp b) in
  (issued, failed, with_fib c (br_stats b) a b).

Definition bridge_forget (b : bridge) : bridge :=
  with_fib (danos_programming_forget_programmed (br_core b)).2 (br_stats b) (br_vpp b) b.

(** The bounded replay after a reconnect; [p] is what the last pass counted. *)
Fixpoint replays (n : nat) (e : bridge_env) (p : program_ctx) (b : bridge) : program_ctx * bridge :=
  match n with
  | O => (p, b)
  | S n =>
      let '(p, b) := bridge_run e (bridge_forget b) in
      if pc_failed p =? 0 then (p, b) else replays n e p b
  end.

(** The attempts [i], [i+1], ... of the reconnect loop. *)
Fixpoint recover_tries (n i : nat) (e : bridge_env) (tries : nat -> vpp_try) (b : bridge) : Z * bridge :=
  match n with
  | O => (-1, b)
  | S n =>
      let t := tries i in
      if negb (vt_running t) then (-1, b) else
      let '(ok, a) := danos_vpp_api_reconnect (be_vpp e) (vt_stack t) (vt_now t) (vt_now' t) (br_vpp b) in
      let b := with_vpp a b in
      if ok then
        let '(_, sweep_failed, b) := bridge_sweep e b in
        if negb (sweep_failed =? 0) then (-1, b) else
        let '(p, b) := replays 5 e (mk_pctx 0 0 0) b in
        ((if pc_failed p =? 0 then 1 else -1), b)
      else recover_tries n (S i) e tries b
  end.

Definition recover_vpp_backend (e : bridge_env) (enabled : bool) (tries : nat -> vpp_try) (b : bridge)
    : Z * bridge :=
  if flag_set (be_skip e) then (0, b) else
  if negb enabled || danos_vpp_api_is_connected (br_vpp b) then (0, b) else
  recover_tries 30 0 e tries b.

(** [danos_vpp_api_disconnect(); (void)recover_vpp_backend(true);] *)
Definition refresh_vpp (e : bridge_env) (tries : nat -> vpp_try) (b : bridge) : bridge :=
  (recover_vpp_backend e true tries (with_vpp (danos_vpp_api_disconnect (br_vpp b)) b)).2.

(** ** One round of the main loop *)

(** The system's answers during a round: whether the process still runs, what
    dialling zebra gives, what [poll] reports, the clock, the transaction's
    environment, and for the [k]-th recovery of the round its attempts. *)
Record turn := mk_turn {
  tn_running : bool;
  tn_dial : dial;
  tn_now : Z;
  tn_now' : Z;
  tn_sock : zsock;
  tn_poll : zpoll;
  tn_time : Z;
  tn_tx : tx_env;
  tn_tries : nat -> nat -> vpp_try;
}.

Inductive turn_end := TContinue | TBreak.

Definition session_up (b : bridge) : bool :=
  bool_decide (danos_zebra_session_get_state (br_z b) = ZEBRA_SESSION_CONNECTED).

(** The head of the round: [None] when it goes on. *)
Definition bridge_session (e : bridge_env) (reconnect : bool) (t : turn) (b : bridge)
    : option turn_end * bridge :=
  if session_up b then (None, b) else
  if negb reconnect then (Some TBreak, count_failed b) else
  let b := with_z (danos_zebra_session_reconnect (tn_dial t) (tn_now t) (tn_now' t) (tn_sock t) (br_z b)).2 b in
  if negb (session_up b) then (Some TContinue, b) else
  let '(rc, z) := danos_zebra_session_register (be_zebra e) (zapi_protocol (be_protocol e)) 0 (br_z b) in
  let b := with_z z b in
  if negb (rc =? 0) then (Some TBreak, count_failed b) else
  if flag_set (be_skip e) then (None, b) else (None, refresh_vpp e (tn_tries t 0) b).

(** [recv_frr] returned 0: the session is idle or was closed. *)
Definition bridge_idle (e : bridge_env) (reconnect : bool) (t : turn) (b : bridge) : turn_end * bridge :=
  if session_up b then
    if flag_set (be_probe e) && (5 <=? tn_time t - br_probe_connected b)
    then (TContinue, refresh_vpp e (tn_tries t 1) (with_probes (tn_time t) (br_probe b) b))
    else (TContinue, b)
  else if negb reconnect then (TBreak, b)
  else if 5 <=? tn_time t - br_probe b
  then (TContinue, refresh_vpp e (tn_tries t 1) (with_probes (br_probe_connected b) (tn_time t) b))
  else (TContinue, b).

(** The recovery attempts after a failed pass, at most [n] more. *)
Fixpoint recovery_loop (n k : nat) (e : bridge_env) (t : turn) (b : bridge) : bool * bridge :=
  match n with
  | O => (false, b)
  | S n =>
      let '(recovered, b) := recover_vpp_backend e true (tn_tries t k) b in
      if 0 <? recovered then (true, b) else recovery_loop n (S k) e t b
  end.

(** The pass and the sweep after a committed message. *)
Definition bridge_program (e : bridge_env) (reconnect : bool) (t : turn) (b : bridge) : bridge :=
  let '(p, b) := bridge_run e b in
  let '(_, withdraw_failed, b) := bridge_sweep e b in
  let failed := u64 (pc_failed p + withdraw_failed) in
  let '(recovered, b) :=
    if negb (failed =? 0) && reconnect then recovery_loop 20 1 e t b else (false, b) in
  let failed := if recovered then 0 else failed in
  count_done (if negb (failed =? 0) then count_failed b else b).

Definition route_command (cmd : Z) : bool :=
  (cmd =? ZEBRA_FRR_ROUTE_ADD) || (cmd =? ZEBRA_FRR_ROUTE_DELETE) ||
  (cmd =? ZEBRA_FRR_REDISTRIBUTE_ROUTE_ADD) || (cmd =? ZEBRA_FRR_REDISTRIBUTE_ROUTE_DELETE).

(** The transaction of one route message. *)
Definition bridge_message (e : bridge_env) (reconnect : bool) (limit : Z) (t : turn) (m : zapi_message)
    (b : bridge) : turn_end * bridge :=
  let ok st := bool_decide (st = DANOS_OK) in
  let cmd := zh_command (zm_header m) in
  let te := tn_tx t in
  let '(st, tx, tw) := danos_tx_begin (te_mem_mgr te) (te_mem_rec te) (te_now te) (Some tx_zero)
                         (Some "frr-zebra"%string) None (br_tx b) in
  let '(st, w) :=
    if ok st then
      if (cmd =? ZEBRA_FRR_ROUTE_ADD) || (cmd =? ZEBRA_FRR_ROUTE_DELETE)
      then zapi_dispatch (Some m) true (br_map b) else zapi_dispatch_frr (Some m) true (br_map b)
    else (st, br_map b) in
  let '(st, tx, tw) := if ok st then danos_tx_commit_atomic (te_locked te) tx tw else (st, tx, tw) in
  if bool_decide (st = DANOS_ERR_NOT_SUPPORTED)
  then (TContinue, with_work (danos_tx_abort tx tw).2 w b) else
  let b := with_work tw w b in
  let b := if ok st then bridge_program e reconnect t b else count_failed b in
  ((if (0 <? limit) && (limit <=? br_processed b) then TBreak else TContinue), b).

(** The local [msg] before the receive call fills it. *)
Definition msg_blank : zapi_message := mk_zmsg (mk_zhdr 0 0 0 0) [] 0 0.

Definition bridge_turn (e : bridge_env) (reconnect : bool) (limit : Z) (t : turn) (b : bridge)
    : turn_end * bridge :=
  match bridge_session e reconnect t b with
  | (Some r, b) => (r, b)
  | (None, b) =>
      let '(n, buf, out, z) := danos_zebra_session_recv_frr (tn_poll t) (br_buf b) (Some msg_blank) (br_z b) in
      let b := with_buf z buf b in
      if n =? 0 then bridge_idle e reconnect t b else
      if n <? 0 then ((if (n =? -6) && reconnect then TContinue else TBreak), count_failed b) else
      let m := default msg_blank out in
      if negb (route_command (zh_command (zm_header m))) then (TContinue, b)
      else bridge_message e reconnect limit t m b
  end.

(** The loop over the rounds at hand, and whether it has ended. *)
Fixpoint bridge_loop (e : bridge_env) (reconnect : bool) (limit : Z) (ts : list turn) (b : bridge)
    : bool * bridge :=
  match ts with
  | [] => (false, b)
  | t :: ts =>
      if negb (tn_running t) then (true, b) else
      match bridge_turn e reconnect limit t b with
      | (TBreak, b) => (true, b)
      | (TContinue, b) => bridge_loop e reconnect limit ts b
      end
  end.

(** ** main *)

Record bridge_opts := mk_opts {
  bo_zebra : option bytes;
  bo_vpp : option bytes;
  bo_limit : Z;
  bo_reconnect : bool;
}.

(** The arguments behind [argv[0]]; [None] for the usage message. *)
Fixpoint bridge_options (args : list bytes) (o : bridge_opts) : option bridge_opts :=
  match args with
  | [] => Some o
  | a :: rest =>
      if bool_decide (a = lit "--reconnect")
      then bridge_options rest (mk_opts (bo_zebra o) (bo_vpp o) (bo_limit o) true) else
      match rest with
      | [] => None
      | v :: rest =>
          if bool_decide (a = lit "--zebra-sock")
          then bridge_options rest (mk_opts (Some v) (bo_vpp o) (bo_limit o) (bo_reconnect o))
          else if bool_decide (a = lit "--vpp-sock")
          then bridge_options rest (mk_opts (bo_zebra o) (Some v) (bo_limit o) (bo_reconnect o))
          else if bool_decide (a = lit "--messages")
          then bridge_options rest (mk_opts (bo_zebra o) (bo_vpp o) (strtol v) (bo_reconnect o))
          else None
      end
  end.

(** What the system answers while the bridge starts. *)
Record bridge_start := mk_start {
  bs_stack : bytes;
  bs_vpp_now : Z;
  bs_dial : dial;
  bs_now : Z;
  bs_sock : zsock;
}.

(** Up to the main loop; [None] when [main] returns 1. *)
Definition bridge_setup (e : bridge_env) (o : bridge_opts) (s : bridge_start) (b : bridge) : option bridge :=
  let '(rc, z) := danos_zebra_session_set_socket (bo_zebra o) (danos_zebra_session_init (br_z b)) in
  if negb (rc =? 0) then None else
  match danos_vpp_adapter_install (be_ifmap e) (be_vpp e) true (bo_vpp o) (bs_stack s) (bs_vpp_now s) (br_vpp b) with
  | (None, _) => None
  | (Some _, a) =>
      let '(rc, z) := danos_zebra_session_connect (bs_dial s) (bs_now s) (bs_sock s) z in
      if negb (rc =? 0) && negb (bo_reconnect o) then None else
      let b := with_vpp a (with_z z b) in
      if negb (session_up b) then Some b else
      let '(rc, z) := danos_zebra_session_register (be_zebra e) (zapi_protocol (be_protocol e)) 0 z in
      if negb (rc =? 0) then None else Some (with_z z b)
  end.

(** A fresh process: [z], [a] and [o] are the system's side of the sockets and
    the files, [buf] what the stack holds. *)
Definition bridge_process (z : zsock) (a : vpp_api) (o : os) (time : Z) (buf : bytes) : bridge :=
  mk_bridge (mk_zstate (mk_zsession 0 ZEBRA_SESSION_DISCONNECTED [] 0 0 0 0) false z) buf tx_world_start (mk_zworld 1000 (core_boot o time)) (mk_pctx 0 0 0) a 0 0 0 0.

(** The exit status, [None] while the loop runs. *)
Definition bridge_main (e : bridge_env) (zebra vpp : option bytes) (args : list bytes) (s : bridge_start)
    (ts : list turn) (b : bridge) : option Z * bridge :=
  match bridge_options args (mk_opts zebra vpp 0 false) with
  | None => (Some 2, b)
  | Some o =>
      if bool_decide (bo_zebra o = None) || bool_decide (bo_vpp o = None) || (bo_limit o <? 0)
      then (Some 2, b) else
      match bridge_setup e o s b with
      | None => (Some 1, b)
      | Some b =>
          let '(ended, b) := bridge_loop e (bo_reconnect o) (bo_limit o) ts b in
          if ended then
            let b := with_z (danos_zebra_session_disconnect (br_z b)) b in
            (Some (if (0 <? br_processed b) && (br_failed b =? 0) then 0 else 1), b)
          else (None, b)
      end
  end.

(** ** The desired state between two messages *)

(** What a stored route refers to: its group and the group's members have ids
    below [n]. *)
Definition refs_below (n h : Z) (c : core) (d : bytes) : Prop :=
  let g := rt_nhgroup_id (of_mem d : danos_route) in
  g < n /\ forall m, read_mem (Some h) DANOS_OBJ_NHGROUP g (sizeof danos_nhgroup) c = Some m ->
    Forall (fun i => i < n) (group_members (of_mem m)).

Definition path_type (t : danos_obj_type) : Prop := t = DANOS_OBJ_NHGROUP \/ t = DANOS_OBJ_NEXTHOP.

(** The mapper's next id [n] is above every group and next hop in use, the
    ledger is in step with the desired state and has nothing else. *)
Record fib_ready (h n : Z) (c : core) : Prop := {
  fd_env : prog_env h c;
  fd_next : 0 < n;
  fd_fresh : forall t id, path_type t -> is_Some (objs c h !! (t, id)) -> id < n;
  fd_refs : forall k d, k.1 = DANOS_OBJ_ROUTE -> objs c h !! k = Some d -> refs_below n h c d;
  fd_step : in_step h c;
  fd_fits : desired_fits h c;
  fd_ledger : forall k, is_Some (ledger_map c !! k) -> type_skipped k.1 = false /\ is_Some (objs c h !! k);
  fd_sizes : ledger_fits c;
}.

(** [c'] has the groups and next hops of [c] below [n]. *)
Definition agree_below (n h : Z) (c c' : core) : Prop :=
  forall t id, path_type t -> id < n -> objs c' h !! (t, id) = objs c h !! (t, id).

Section below.
Context (n h : Z) (c c' : core).
Context (Hp : prog_env h c) (Hp' : prog_env h c') (Hag : agree_below n h c c').

Lemma read_below t id sz : path_type t -> id < n -> read_mem (Some h) t id sz c' = read_mem (Some h) t id sz c.
Proof.
  intros Ht Hid. rewrite !read_mem_lookup by eauto using pe_wf, pe_live. by rewrite (Hag t id).
Qed.

Lemma refs_agree n' d : n <= n' -> refs_below n h c d -> refs_below n' h c' d.
Proof.
  intros Hn [Hg Hm]. split; [lia|]. intros m Hr. rewrite read_below in Hr by (done || by left).
  eapply Forall_impl; [by apply Hm|]. simpl. lia.
Qed.

Lemma members_agree ids a :
  Forall (fun i => i < n) ids -> foldl (member_digest c') a ids = foldl (member_digest c) a ids.
Proof.
  intros Hi. revert a. induction Hi as [|i ids Hi _ IH]; intros a; [done|]. cbn [foldl]. rewrite IH. f_equal.
  unfold member_digest. rewrite (pe_default h c' Hp'), (pe_default h c Hp), read_below by (done || by right). done.
Qed.

Lemma digest_agree d : refs_below n h c d -> dep_digest DANOS_OBJ_ROUTE d c' = dep_digest DANOS_OBJ_ROUTE d c.
Proof.
  intros [Hg Hm]. unfold dep_digest. rewrite (pe_default h c' Hp'), (pe_default h c Hp).
  case_match; [done|]. case_match; [done|]. rewrite read_below by (done || by left).
  destruct (read_mem _ _ _ _ c) as [m|] eqn:Hr; [|done]. by rewrite members_agree by (by apply Hm).
Qed.

(** The records of the other objects stay the ones the pass would write. *)
Lemma rec_agree k d :
  (k.1 = DANOS_OBJ_ROUTE -> refs_below n h c d) -> ledger_rec c' k d = ledger_rec c k d.
Proof.
  intros Hr. unfold ledger_rec. f_equal. f_equal. destruct (decide (k.1 = DANOS_OBJ_ROUTE)) as [E|E].
  - rewrite E. apply digest_agree, Hr, E.
  - unfold dep_digest. by rewrite bool_decide_eq_false_2 by done.
Qed.
End below.

(** ** What an announcement becomes *)

(** A frame with a route that the mapper handles. *)
Record announces (size : nat) (m : frr_msg) (r : zapi_frr_route) : Prop := {
  an_frame : fm_ok size m;
  an_command : fm_command m = ZEBRA_FRR_REDISTRIBUTE_ROUTE_ADD;
  an_bytes : bytes_ok (fm_payload m);
  an_route : zapi_decode_frr_route (Some (fm_parsed m)) = inr r;
  an_ipv4 : fr_family r = AF_INET;
  an_paths : 0 < fr_nexthop_count r;
}.

(** The path VPP is to use for an announced next hop. *)
Definition announced_path (env : option bytes) (nh : zapi_frr_nexthop) : Z * vpp_ip_t :=
  let i := vpp_adapter_map_ifindex env (fnh_ifindex nh) in
  (if i =? 0 then 1 else i,
   mk_vip false ((if fnh_has_gateway nh then take 4 (fnh_gateway nh) else zeros 4) ++ zeros 12)).

(** The body of the request that adds the route to VPP's table. *)
Definition requests_route (env : option bytes) (m : frr_msg) (r : zapi_frr_route) (body : bytes) : Prop :=
  fst (read_route (vpp_reader_init body (strlen body))) =
    mk_wire_route 1 0 (fm_vrf m) 0 (Some (addr_union (ip4_of (fr_prefix r)))) (fr_prefix_len r)
      (seen_path (fm_vrf m) <$> (announced_path env <$> fr_nexthops r)).

Lemma ip4_of_four src : length src = 4%nat -> ip4_of (src ++ zeros 12) = mk_vip false (src ++ zeros 12).
Proof.
  intros Hl. unfold ip4_of, cwrite. rewrite take_app_length' by done. rewrite take_0, app_nil_l, Hl. done.
Qed.

(** A resolved route with the announced next hops is handed to VPP with the
    announced paths. *)
Lemma announced_adapter_paths env r out :
  frr_route_in r -> fr_family r = AF_INET -> 0 < fr_nexthop_count r ->
  rr_nh_count out = fr_nexthop_count r ->
  (forall i nh, fr_nexthops r !! i = Some nh ->
     rr_nh_gw out !! i = Some (if fnh_has_gateway nh then take 4 (fnh_gateway nh) ++ zeros 12 else zeros 16) /\
     rr_nh_oif out !! i = Some (fnh_ifindex nh)) ->
  adapter_paths env out = announced_path env <$> fr_nexthops r.
Proof.
  intros Hin H4 Hc Hn Hnh. pose proof (fri_count r Hin) as Hlen. pose proof (fri_nexthops r Hin) as Hall.
  unfold adapter_paths. rewrite (proj2 (Z.eqb_neq _ _)) by lia.
  apply list_eq. intros i. rewrite !list_lookup_fmap.
  destruct (fr_nexthops r !! i) as [nh|] eqn:Hi; cbn [fmap option_fmap option_map].
  - pose proof (lookup_lt_Some _ _ _ Hi). rewrite lookup_seq_lt by lia. cbn [fmap option_fmap option_map].
    destruct (Hnh i nh Hi) as [Hg Ho]. rewrite Nat.add_0_l, Hg, Ho. cbn [default from_option id].
    unfold adapter_path, announced_path. do 2 f_equal.
    pose proof (proj1 (Forall_lookup _ _) Hall i nh Hi) as [_ Hgl _ _].
    destruct (fnh_has_gateway nh).
    + apply ip4_of_four. rewrite length_take. lia.
    + exact (ip4_of_four (zeros 4) eq_refl).
  - apply lookup_ge_None_1 in Hi. by rewrite lookup_seq_ge by lia.
Qed.

Lemma announced_route_ok m r n out :
  frr_route_in r -> fr_family r = AF_INET -> is_uint 4 (zm_vrf_id m) ->
  rr_route out = frr_route_obj m r n -> rr_nh_count out = fr_nexthop_count r -> 0 < fr_nexthop_count r ->
  (forall i nh, fr_nexthops r !! i = Some nh -> rr_nh_oif out !! i = Some (fnh_ifindex nh)) ->
  route_ok out.
Proof.
  intros Hin H4 Hv Hr Hn Hc Ho. pose proof (fri_count r Hin) as Hlen. pose proof (fri_max r Hin) as Hmax.
  pose proof (fri_nexthops r Hin) as Hall. unfold route_ok. rewrite Hr, Hn. cbn.
  split_and!; try done; try lia.
  - destruct (fri_family r Hin) as [[_ Hp]|[H6 _]]; [unfold is_uint; cbn; lia|by rewrite H6 in H4].
  - apply Forall_lookup. intros i x Hx. apply lookup_take_Some in Hx as [Hx Hi].
    destruct (lookup_lt_is_Some_2 (fr_nexthops r) i) as [nh Hnh]; [lia|].
    rewrite (Ho i nh Hnh) in Hx. injection Hx as <-. by apply (Forall_lookup_1 _ _ _ _ Hall Hnh).
Qed.

(** What the dispatch of an announcement leaves in the desired store. *)
Record announced (h n : Z) (m : zapi_message) (r : zapi_frr_route) (c c' : core) : Prop := {
  ad_env : prog_env h c';
  ad_ledger : ledger_map c' = ledger_map c;
  ad_route : objs c' h !! frr_route_id m r = Some (to_mem (frr_route_obj m r n));
  ad_group : objs c' h !! (DANOS_OBJ_NHGROUP, n) = Some (to_mem (frr_group_obj n r));
  ad_nexthops : forall i nh, fr_nexthops r !! i = Some nh -> objs c' h !! (DANOS_OBJ_NEXTHOP, n + 1 + Z.of_nat i) =
     Some (to_mem (frr_nexthop_obj (n + 1 + Z.of_nat i) (fr_nexthop_count r) nh));
  ad_others : forall k, ~ path_type k.1 -> k <> frr_route_id m r -> objs c' h !! k = objs c h !! k;
  ad_below : agree_below n h c c';
  ad_fresh : forall t id, path_type t -> is_Some (objs c' h !! (t, id)) ->
    is_Some (objs c h !! (t, id)) \/ id < n + 1 + fr_nexthop_count r;
}.

Lemma announces_ok size h n c m r :
  fib_ready h n c -> announces size m r -> n + 1 + fr_nexthop_count r < 2 ^ 64 ->
  frr_add_ok h (fm_parsed m) r n c.
Proof.
  intros Hf Ha Hb. pose proof (fd_fresh h n c Hf) as Hfr. pose proof (fd_next h n c Hf).
  assert (Hno : forall t id, path_type t -> n <= id -> objs c h !! (t, id) = None).
  { intros t id Ht Hid. apply eq_None_not_Some. intros Hs. pose proof (Hfr t id Ht Hs). lia. }
  split; try apply Hf; try apply Ha; try done; try lia.
  - apply Hno; [by left|lia].
  - intros j Hj. apply Hno; [by right|lia].
Qed.

Lemma announce_dispatch size h n c m r :
  fib_ready h n c -> announces size m r -> n + 1 + fr_nexthop_count r < 2 ^ 64 ->
  objs c h !! frr_route_id (fm_parsed m) r = None ->
  exists c', zapi_dispatch_frr (Some (fm_parsed m)) true (mk_zworld n c) =
      (DANOS_OK, mk_zworld (n + 1 + fr_nexthop_count r) c') /\ announced h n (fm_parsed m) r c c'.
Proof.
  intros Hf Ha Hb Hnone. pose proof (announces_ok size h n c m r Hf Ha Hb) as Hok.
  destruct (frr_add_run h (fm_parsed m) r n c Hok (an_command _ _ _ Ha)) as (c' & Hrun & Hp' & Ho & Hl).
  rewrite decide_False in Hrun by (rewrite Hnone; by intros [? ?]).
  rewrite decide_False in Ho by (rewrite Hnone; by intros [? ?]).
  exists c'. split; [exact Hrun|]. set (rid := frr_route_id _ r) in *.
  assert (Hrid : rid.1 = DANOS_OBJ_ROUTE) by done.
  assert (Hc : fr_nexthop_count r = Z.of_nat (length (fr_nexthops r))).
  { apply (decoded_route_in (fm_parsed m) r); [apply Hok|apply Hok|apply Hok]. }
  split; try done.
  - by rewrite Ho, lookup_insert_eq.
  - by rewrite Ho, lookup_insert_ne, lookup_insert_eq.
  - intros i nh Hi. rewrite Ho, !lookup_insert_ne by done. by apply nh_objs_lookup.
  - intros k Hk Hne. rewrite Ho, lookup_insert_ne by done.
    rewrite lookup_insert_ne by (intros <-; apply Hk; by left).
    apply nh_objs_other. intros i _ ->. apply Hk. by right.
  - intros t id Ht Hid. rewrite Ho. rewrite lookup_insert_ne.
    2:{ intros Heq. rewrite Heq in Hrid. cbn in Hrid. destruct Ht; congruence. }
    rewrite lookup_insert_ne by (intros [=]; lia). apply nh_objs_other. intros i Hi [=]. lia.
  - intros t id Ht. destruct (decide (id < n + 1 + fr_nexthop_count r)) as [Hlt|Hge]; [by right|].
    rewrite Ho. rewrite lookup_insert_ne.
    2:{ intros Heq. rewrite Heq in Hrid. cbn in Hrid. destruct Ht; congruence. }
    rewrite lookup_insert_ne by (intros [=]; lia). rewrite nh_objs_other by (intros i Hi [=]; lia). by left.
Qed.

Section announced.
Context (h n : Z) (c c' : core) (m : frr_msg) (r : zapi_frr_route) (size : nat).
Context (Hf : fib_ready h n c) (Han : announces size m r) (Hb : n + 1 + fr_nexthop_count r < 2 ^ 64).
Context (Hnone : objs c h !! frr_route_id (fm_parsed m) r = None).
Context (Had : announced h n (fm_parsed m) r c c').

Let Hok : frr_add_ok h (fm_parsed m) r n c := announces_ok size h n c m r Hf Han Hb.
Let Hin : frr_route_in r :=
  decoded_route_in (fm_parsed m) r (fa_size _ _ _ _ _ Hok) (fa_bytes _ _ _ _ _ Hok) (fa_decode _ _ _ _ _ Hok).

Lemma announced_route_wf : struct_wf (frr_route_obj (fm_parsed m) r n).
Proof.
  pose proof (fd_next h n c Hf). pose proof (an_paths _ _ _ Han).
  split_and!; try done; [apply Han|apply frr_prefix_wf; [exact Hin|apply Han]|apply frr_protocol_uint|].
  unfold is_uint. cbn -[Z.pow]. change (256 ^ Z.of_nat 8) with (2 ^ 64). lia.
Qed.

Lemma announced_refs : refs_below (n + 1 + fr_nexthop_count r) h c' (to_mem (frr_route_obj (fm_parsed m) r n)).
Proof.
  pose proof (fd_next h n c Hf). pose proof (an_paths _ _ _ Han).
  unfold refs_below. rewrite (of_to_mem _ announced_route_wf). cbn [rt_nhgroup_id frr_route_obj].
  split; [lia|]. intros g Hg.
  assert (Hgw : struct_wf (frr_group_obj n r)) by (apply frr_group_wf; [exact Hin|lia|lia]).
  pose proof (read_mem_struct h c' _ _ _ (ad_env _ _ _ _ _ _ Had) Hgw (ad_group _ _ _ _ _ _ Had)) as Hr.
  rewrite (pe_default h c' (ad_env _ _ _ _ _ _ Had)), Hg in Hr. injection Hr as ->.
  rewrite (of_to_mem _ Hgw). pose proof (fri_count r Hin) as Hlen. pose proof (fri_max r Hin).
  unfold group_members, frr_group_obj. cbn [grp_nh_count grp_nh_ids].
  rewrite Z.min_l, Hlen, Nat2Z.id, put_ids_take by (rewrite ?length_replicate; lia).
  apply Forall_fmap, Forall_forall. intros i [_ Hi]%elem_of_seq. cbn. lia.
Qed.

(** Every other object keeps its place and its record. *)
Lemma announced_keeps k d :
  objs c' h !! k = Some d -> type_skipped k.1 = false -> k <> frr_route_id (fm_parsed m) r ->
  objs c h !! k = Some d /\ ledger_map c' !! k = Some (ledger_rec c' k d).
Proof.
  intros Hd Hsk Hne. rewrite (ad_others _ _ _ _ _ _ Had) in Hd; [|intros [E|E]; by rewrite E in Hsk|done].
  split; [done|]. rewrite (ad_ledger _ _ _ _ _ _ Had), (fd_step h n c Hf k d Hd Hsk). f_equal. symmetry.
  apply (rec_agree n h); [apply Hf|apply Had|apply Had|]. intros Ek. by apply (fd_refs h n c Hf k).
Qed.

Lemma announced_unknown : ledger_map c' !! frr_route_id (fm_parsed m) r = None.
Proof.
  rewrite (ad_ledger _ _ _ _ _ _ Had). apply eq_None_not_Some. intros Hs.
  destruct (fd_ledger h n c Hf _ Hs) as [_ Ho]. rewrite Hnone in Ho. by destruct Ho.
Qed.

Lemma announced_fits : desired_fits h c'.
Proof.
  intros k d Hd Hsk. destruct (decide (k = frr_route_id (fm_parsed m) r)) as [->|Hne].
  - rewrite (ad_route _ _ _ _ _ _ Had) in Hd. injection Hd as <-.
    split_and!; [by rewrite (length_to_mem _ announced_route_wf); cbn; lia|by apply to_mem_ok, announced_route_wf|].
    intros x Hx. by rewrite announced_unknown in Hx.
  - destruct (announced_keeps k d Hd Hsk Hne) as [Hd' _]. unfold entry_fits.
    rewrite (ad_ledger _ _ _ _ _ _ Had). by apply (fd_fits h n c Hf).
Qed.

(** After a pass that recorded the route, the next message can come. *)
Lemma announced_ready c'' :
  same_desired h c' c'' ->
  ledger_map c'' = <[frr_route_id (fm_parsed m) r :=
    ledger_rec c' (frr_route_id (fm_parsed m) r) (to_mem (frr_route_obj (fm_parsed m) r n))]> (ledger_map c') ->
  fib_ready h (n + 1 + fr_nexthop_count r) c''.
Proof.
  intros Hsd Hl. pose proof (ad_route _ _ _ _ _ _ Had) as Hroute.
  pose proof announced_keeps as Hkeeps. pose proof (ad_others _ _ _ _ _ _ Had) as Hoth.
  set (rid := frr_route_id _ r) in *.
  pose proof (fd_next h n c Hf) as Hn0. pose proof (an_paths _ _ _ Han) as Hc0.
  pose proof (ad_env _ _ _ _ _ _ Had) as Hp'. pose proof (sd_objs _ _ _ Hsd) as Ho.
  assert (Hrec : forall k d, ledger_rec c'' k d = ledger_rec c' k d)
    by (intros; unfold ledger_rec; by rewrite (dep_digest_eq h c' c'')).
  assert (Hstep : in_step h c'').
  { intros k d Hd Hsk. rewrite Ho in Hd. rewrite Hl, Hrec. destruct (decide (k = rid)) as [->|Hne].
    - rewrite Hroute in Hd. injection Hd as <-. by rewrite lookup_insert_eq.
    - rewrite lookup_insert_ne by done. by apply Hkeeps. }
  split; [by apply Hsd|lia| | |done|by eapply fits_preserved; [apply announced_fits|..]| |].
  - intros t id Ht Hs. rewrite Ho in Hs. destruct (ad_fresh _ _ _ _ _ _ Had t id Ht Hs) as [Hs'|]; [|lia].
    pose proof (fd_fresh h n c Hf t id Ht Hs'). lia.
  - intros k d Hk Hd. rewrite Ho in Hd.
    assert (Hr : refs_below (n + 1 + fr_nexthop_count r) h c' d).
    { destruct (decide (k = rid)) as [->|Hne].
      - rewrite Hroute in Hd. injection Hd as <-. apply announced_refs.
      - rewrite Hoth in Hd; [|rewrite Hk; by intros [?|?]|done].
        apply (refs_agree n h c); [apply Hf|done|apply Had|lia|]. by apply (fd_refs h n c Hf k). }
    destruct Hr as [Hg Hm]. split; [done|]. intros x Hx. apply Hm. by rewrite <- (read_mem_eq h c' c'').
  - intros k. rewrite Hl. intros [<-|[Hne [x Hx]]]%lookup_insert_is_Some.
    + split; [done|]. rewrite Ho, Hroute. eauto.
    + rewrite (ad_ledger _ _ _ _ _ _ Had) in Hx. destruct (fd_ledger h n c Hf k ltac:(eauto)) as [Hsk Hs].
      split; [done|]. rewrite Ho, Hoth; [done|intros [E|E]; by rewrite E in Hsk|done].
  - unfold ledger_fits. rewrite Hl. apply map_Forall_insert_2; [|rewrite (ad_ledger _ _ _ _ _ _ Had); apply Hf].
    rewrite ledger_rec_length, (length_to_mem _ announced_route_wf). cbn. lia.
Qed.

(** The pass after the announcement asks VPP for the announced route. *)
Lemma announced_pass env stats a id reply_id rest :
  danos_vpp_api_lookup_msg_id (lit "ip_route_add_del") a = Some id -> answers a [] reply_id 0 rest ->
  exists st' c'' a' body, danos_programming_run (g_vpp_ops env) stats c' a = (mk_pctx 1 1 0, st', c'', a') /\
    fib_ready h (n + 1 + fr_nexthop_count r) c'' /\ objs c'' h = objs c' h /\
    connected a' /\ quiet (api_world a') /\ w_in (api_world a') = rest /\
    w_out (api_world a') = w_out (api_world a) ++ request_wire a id body /\ requests_route env m r body /\
    msg_table (g_ctx a') = msg_table (g_ctx a) /\ api_context (g_ctx a') = u32 (api_context (g_ctx a) + 1) /\
    client_index (g_ctx a') = client_index (g_ctx a).
Proof.
  intros Hid Hans. pose proof (fd_next h n c Hf) as Hn0.
  destruct (frr_added_resolves h (fm_parsed m) r n c c' Hok (ad_env _ _ _ _ _ _ Had) Hn0
    (ad_group _ _ _ _ _ _ Had) (ad_nexthops _ _ _ _ _ _ Had)) as (out & Hres & Hrt & Hcnt & Hnh).
  assert (Hro : route_ok out).
  { apply (announced_route_ok (fm_parsed m) r n); try apply Han; [exact Hin|exact Hrt|exact Hcnt|].
    intros i nh Hi. by apply Hnh. }
  destruct (vpp_route_run env out a id [] reply_id 0 rest Hro Hid Hans)
    as (a' & body & Hrun & Hc' & Hq' & Hin' & Hout' & Hrd & Hctx).
  destruct (run_new (g_vpp_ops env) h c' a stats (frr_route_id (fm_parsed m) r)
    (to_mem (frr_route_obj (fm_parsed m) r n)) a') as (st' & c'' & Hpass & Hsd & Hl).
  - apply Had.
  - apply announced_fits.
  - apply Had.
  - done.
  - apply announced_unknown.
  - intros k' d' Hne Hd' Hsk. by apply announced_keeps.
  - cbn [fst frr_route_id]. unfold program_one.
    rewrite (length_to_mem _ announced_route_wf), Nat.leb_refl, (of_to_mem _ announced_route_wf).
    unfold program_route. cbn [rt_nhgroup_id frr_route_obj]. rewrite (proj2 (Z.eqb_neq n 0)) by lia. cbn [andb].
    change (mk_route _ _ _ _ _ _ _) with (frr_route_obj (fm_parsed m) r n). rewrite Hres.
    rewrite bool_decide_eq_true_2 by done. cbn [negb call_op g_vpp_ops route_add]. rewrite Hrun. done.
  - exists st', c'', a', body. split; [exact Hpass|].
    split; [by apply announced_ready|]. split; [by apply Hsd|]. do 4 (split; [done|]). split; [|done].
    unfold requests_route. rewrite Hrd, Hrt. cbn [rt_vrf_id rt_prefix frr_route_obj pfx_len frr_prefix pfx_addr ip_addr].
    rewrite (announced_adapter_paths env r out) by (done || apply Hin || apply Han).
    do 3 f_equal. unfold bytes_put, ip4_of, cwrite. rewrite !take_0, !app_nil_l.
    pose proof (fri_len r Hin). rewrite take_app_length' by (rewrite length_take; lia). done.
Qed.
End announced.

(** ** A round with an announcement *)

(** A connected session, a desired state in step, and a VPP client that knows
    the route message as [mid]. *)
Record bridge_ready (h mid : Z) (b : bridge) : Prop := {
  bd_session : streaming (br_z b);
  bd_fib : fib_ready h (g_zapi_next_id (br_map b)) (br_core b);
  bd_vpp : connected (br_vpp b) /\ quiet (api_world (br_vpp b));
  bd_id : danos_vpp_api_lookup_msg_id (lit "ip_route_add_del") (br_vpp b) = Some mid;
}.

(** A round in which the process runs, the socket is readable and the
    transaction is granted. *)
Definition good_turn (t : turn) : Prop :=
  tn_running t = true /\ tn_poll t = PollReady /\ exists now, tn_tx t = tx_granted now.

(** A round in which nothing arrives within the time, or [poll] is
    interrupted. *)
Definition idle_turn (t : turn) : Prop :=
  tn_running t = true /\ (tn_poll t = PollTimeout \/ tn_poll t = PollIntr).

Definition live_turn (t : turn) : Prop := good_turn t \/ idle_turn t.

Lemma live_running t : live_turn t -> tn_running t = true.
Proof. by intros [[? _]|[? _]]. Qed.

(** VPP's positive answers to [n] requests after context [ctx]. *)
Fixpoint acks (reply_id ctx : Z) (n : nat) : bytes :=
  match n with
  | O => []
  | S n =>
      let ctx := u32 (ctx + 1) in
      frame (be_bytes 2 reply_id ++ be_bytes 4 ctx ++ be_bytes 4 0) ++ acks reply_id ctx n
  end.

(** The requests with these bodies, one context after the other. *)
Fixpoint requests (client mid ctx : Z) (bodies : list bytes) : bytes :=
  match bodies with
  | [] => []
  | body :: bodies =>
      let ctx := u32 (ctx + 1) in
      frame (payload (mid, be_bytes 4 client ++ be_bytes 4 ctx ++ body)) ++ requests client mid ctx bodies
  end.

Lemma bridge_tx now w :
  exists tx t, danos_tx_begin true true now (Some tx_zero) (Some "frr-zebra"%string) None w = (DANOS_OK, tx, t) /\
    exists tx' t', danos_tx_commit_atomic true tx t = (DANOS_OK, tx', t').
Proof.
  destruct (begin_open now "frr-zebra" (mk_mworld w (core_boot (mk_os [] ∅) 0))) as (x & h & r & t & Hb & Hx & Hr & Ho).
  unfold begin_tx in Hb. cbn [mw_tx mw_core te_mem_mgr te_mem_rec te_now tx_granted] in Hb.
  destruct (danos_tx_begin _ _ _ _ _ _ w) as [[st tx] t0]. injection Hb as -> -> ->.
  exists (Some x), t. split; [done|].
  unfold danos_tx_commit_atomic, danos_tx_prepare, danos_tx_validate, danos_tx_commit, danos_tx_verify, tx_end.
  erewrite tx_move_run; [|exact Hx|exact Hr|by rewrite Ho].
  rewrite bool_decide_eq_true_2 by done. cbn [negb].
  erewrite tx_move_run; [|exact Hx|apply record_set|reflexivity].
  rewrite bool_decide_eq_true_2 by done. cbn [negb].
  erewrite tx_move_run; [|exact Hx|apply record_set|reflexivity].
  rewrite bool_decide_eq_true_2 by done. cbn [negb andb].
  erewrite tx_move_run; [|exact Hx|apply record_set|reflexivity]. eauto.
Qed.

(** A ledger in step has nothing to sweep. *)
Lemma ready_sweep {B} (ops : danos_backend_ops B) h n c b :
  fib_ready h n c -> danos_programming_sweep ops true c b = (0, 0, c, b).
Proof.
  intros Hf. apply (sweep_idle ops h); [apply Hf|apply Hf| |intros k Hk; by apply Hf].
  intros k d Hk Hd. destruct (fd_ledger h n c Hf k Hk) as [Hsk _].
  destruct (fd_fits h n c Hf k d Hd Hsk) as [Hl _]. lia.
Qed.

(** A pass without failures, with nothing to sweep, needs no recovery. *)
Lemma program_clean e reconnect t b p st c a :
  danos_programming_run (g_vpp_ops (be_ifmap e)) (br_stats b) (br_core b) (br_vpp b) = (p, st, c, a) ->
  pc_failed p = 0 -> danos_programming_sweep (g_vpp_ops (be_ifmap e)) true c a = (0, 0, c, a) ->
  bridge_program e reconnect t b = count_done (with_fib c st a b).
Proof.
  intros Hr Hp Hs. unfold bridge_program, bridge_run. rewrite Hr. unfold bridge_sweep, br_core.
  cbn [with_fib br_map br_vpp br_stats zw_core]. rewrite Hs, Hp. reflexivity.
Qed.

(** What a round with the announcement leaves. *)
Record turn_result (h mid : Z) (e : bridge_env) (m : frr_msg) (r : zapi_frr_route) (zrest vrest : bytes)
    (b b' : bridge) : Prop := {
  tr_ready : bridge_ready h mid b';
  tr_zebra : zk_in (z_sock (br_z b')) = zrest;
  tr_buf : length (br_buf b') = length (br_buf b);
  tr_next : g_zapi_next_id (br_map b') = g_zapi_next_id (br_map b) + 1 + fr_nexthop_count r;
  tr_objs : forall k, ~ path_type k.1 -> k <> frr_route_id (fm_parsed m) r ->
    objs (br_core b') h !! k = objs (br_core b) h !! k;
  tr_vpp : w_in (api_world (br_vpp b')) = vrest;
  tr_ctx : api_context (g_ctx (br_vpp b')) = u32 (api_context (g_ctx (br_vpp b)) + 1);
  tr_client : client_index (g_ctx (br_vpp b')) = client_index (g_ctx (br_vpp b));
  tr_out : exists body, requests_route (be_ifmap e) m r body /\
    w_out (api_world (br_vpp b')) = w_out (api_world (br_vpp b)) ++ request_wire (br_vpp b) mid body;
  tr_counts : br_processed b' = br_processed b + 1 /\ br_failed b' = br_failed b;
}.

Lemma turn_announced h mid e reconnect limit t m r zrest reply_id vrest b :
  bridge_ready h mid b -> good_turn t -> announces (length (br_buf b)) m r ->
  g_zapi_next_id (br_map b) + 1 + fr_nexthop_count r < 2 ^ 64 ->
  objs (br_core b) h !! frr_route_id (fm_parsed m) r = None ->
  zk_in (z_sock (br_z b)) = fm_bytes m ++ zrest ->
  w_in (api_world (br_vpp b)) = acks reply_id (api_context (g_ctx (br_vpp b))) 1 ++ vrest ->
  exists b', bridge_turn e reconnect limit t b =
      ((if (0 <? limit) && (limit <=? br_processed b + 1) then TBreak else TContinue), b') /\
    turn_result h mid e m r zrest vrest b b'.
Proof.
  intros [Hz Hf [Hc Hq] Hid] (_ & Hpoll & now & Htx) Han Hb Hnone Hin Hvin.
  unfold bridge_turn, bridge_session, session_up, danos_zebra_session_get_state.
  rewrite bool_decide_eq_true_2 by apply Hz. rewrite Hpoll.
  destruct (recv_frr_frame m zrest (br_buf b) msg_blank (br_z b) Hz (an_frame _ _ _ Han) Hin) as (buf' & -> & Hbuf).
  assert (Ht : 0 < Z.of_nat (fm_total m)) by (unfold fm_total, FRR_ZAPI_HEADER_SIZE; lia).
  rewrite (proj2 (Z.eqb_neq _ 0)), (proj2 (Z.ltb_ge _ 0)) by lia. cbn [default from_option id].
  unfold bridge_message. change (zh_command (zm_header (fm_parsed m))) with (fm_command m).
  rewrite (an_command _ _ _ Han). cbn [negb route_command Z.eqb Pos.eqb orb ZEBRA_FRR_ROUTE_ADD ZEBRA_FRR_ROUTE_DELETE
    ZEBRA_FRR_REDISTRIBUTE_ROUTE_ADD ZEBRA_FRR_REDISTRIBUTE_ROUTE_DELETE].
  rewrite Htx. cbn [te_mem_mgr te_mem_rec te_now te_locked tx_granted br_tx br_map with_buf].
  destruct (bridge_tx now (br_tx b)) as (tx & tw & -> & tx' & tw' & Hcommit).
  rewrite bool_decide_eq_true_2 by done.
  destruct (announce_dispatch _ h _ _ m r Hf Han Hb Hnone) as (c1 & Hdisp & Had).
  replace (mk_zworld (g_zapi_next_id (br_map b)) (br_core b)) with (br_map b) in Hdisp by (by destruct b as [? ? ? []]).
  rewrite Hdisp, (bool_decide_eq_true_2 (DANOS_OK = DANOS_OK)) by done. rewrite Hcommit.
  rewrite bool_decide_eq_false_2, bool_decide_eq_true_2 by done.
  destruct (announced_pass h _ _ c1 m r _ Hf Han Hb Hnone Had (be_ifmap e) (br_stats b) (br_vpp b) mid reply_id vrest Hid)
    as (st' & c2 & a' & body & Hrun & Hf2 & Hobj & Hc' & Hq' & Hin' & Hout' & Hreq & Htab & Hctx & Hcl).
  { split; [exact Hc|]. split; [exact Hq|]. split; [split; [lia|reflexivity]|]. split; [cbn; lia|].
    split; [constructor|]. rewrite Hvin. cbn [acks]. by rewrite app_nil_r. }
  erewrite program_clean; [|exact Hrun|reflexivity|by apply (ready_sweep _ h _ c2 a' Hf2)].
  eexists. split; [reflexivity|].
  split; cbn [br_z br_buf br_map br_vpp br_processed br_failed count_done with_fib with_work with_buf g_zapi_next_id].
  - split; cbn [br_z br_buf br_map br_vpp count_done with_fib with_work with_buf g_zapi_next_id]; unfold br_core;
      cbn [br_map count_done with_fib zw_core].
    + by apply streaming_next.
    + exact Hf2.
    + by split.
    + unfold danos_vpp_api_lookup_msg_id in *. rewrite Htab.
      rewrite (bool_decide_eq_false_2 (api_state (g_ctx a') = _)) by (destruct Hc' as [-> _]; done).
      by rewrite (bool_decide_eq_false_2 (api_state (g_ctx (br_vpp b)) = _)) in Hid by (destruct Hc as [-> _]; done).
  - reflexivity.
  - exact Hbuf.
  - reflexivity.
  - intros k Hk Hne. unfold br_core. cbn [br_map zw_core count_done with_fib with_work with_buf]. rewrite Hobj. by apply Had.
  - exact Hin'.
  - exact Hctx.
  - exact Hcl.
  - by exists body.
  - by split.
Qed.

(** ** The loop over a stream of announcements *)

Definition announcement : Type := frr_msg * zapi_frr_route.

Definition route_id_of (mr : announcement) : obj_key := frr_route_id (fm_parsed mr.1) mr.2.

(** The ids the mapper gives out for the announcements. *)
Definition ids_needed (ms : list announcement) : Z :=
  foldr (fun mr s => 1 + fr_nexthop_count mr.2 + s) 0 ms.

Lemma ids_needed_nonneg size ms : Forall (fun mr => announces size mr.1 mr.2) ms -> 0 <= ids_needed ms.
Proof.
  intros Hms. induction Hms as [|mr ms Hmr _ IH]; cbn; [lia|]. pose proof (an_paths _ _ _ Hmr). unfold ids_needed in IH. lia.
Qed.

(** What the loop leaves after the announcements. *)
Record stream_result (h mid : Z) (e : bridge_env) (ms : list announcement) (zrest vrest : bytes)
    (b b' : bridge) : Prop := {
  sr_ready : bridge_ready h mid b';
  sr_zebra : zk_in (z_sock (br_z b')) = zrest;
  sr_buf : length (br_buf b') = length (br_buf b);
  sr_vpp : w_in (api_world (br_vpp b')) = vrest;
  sr_counts : br_processed b' = br_processed b + Z.of_nat (length ms) /\ br_failed b' = br_failed b;
  sr_out : exists bodies, Forall2 (fun mr => requests_route (be_ifmap e) mr.1 mr.2) ms bodies /\
    w_out (api_world (br_vpp b')) = w_out (api_world (br_vpp b)) ++
      requests (client_index (g_ctx (br_vpp b))) mid (api_context (g_ctx (br_vpp b))) bodies;
}.

(** An idle round without the health probe changes nothing. *)
Lemma turn_idle e reconnect limit t b :
  streaming (br_z b) -> (FRR_ZAPI_HEADER_SIZE <= length (br_buf b))%nat -> flag_set (be_probe e) = false ->
  idle_turn t -> bridge_turn e reconnect limit t b = (TContinue, b).
Proof.
  intros Hz Hl Hp [_ Ht]. unfold bridge_turn, bridge_session, session_up, danos_zebra_session_get_state.
  pose proof Hz as [Hc _]. rewrite bool_decide_eq_true_2 by done.
  assert (Hr : danos_zebra_session_recv_frr (tn_poll t) (br_buf b) (Some msg_blank) (br_z b) =
    (0, br_buf b, Some msg_blank, br_z b)).
  { unfold danos_zebra_session_recv_frr. rewrite bool_decide_eq_true_2 by done. cbn [negb].
    rewrite (proj2 (Nat.ltb_ge _ _)) by done. by destruct Ht as [-> | ->]. }
  rewrite Hr. change (0 =? 0) with true. unfold bridge_idle, session_up, danos_zebra_session_get_state.
  cbn [br_z with_buf]. rewrite bool_decide_eq_true_2 by done. rewrite Hp. cbn [andb]. by destruct b.
Qed.

Lemma loop_idle e reconnect limit t ts b :
  streaming (br_z b) -> (FRR_ZAPI_HEADER_SIZE <= length (br_buf b))%nat -> flag_set (be_probe e) = false ->
  idle_turn t -> bridge_loop e reconnect limit (t :: ts) b = bridge_loop e reconnect limit ts b.
Proof.
  intros Hz Hl Hp Ht. cbn [bridge_loop]. rewrite (turn_idle e reconnect limit t b) by done.
  by destruct Ht as [-> _].
Qed.

Lemma idle_polls t ts : idle_turn t -> ready_polls (tn_poll <$> t :: ts) = ready_polls (tn_poll <$> ts).
Proof. intros [_ [H|H]]; rewrite fmap_cons; by rewrite H. Qed.

Lemma ready_poll t ts : good_turn t -> ready_polls (tn_poll <$> t :: ts) = S (ready_polls (tn_poll <$> ts)).
Proof. intros (_ & H & _). rewrite fmap_cons. by rewrite H. Qed.

Lemma loop_announced h mid e reconnect ms ts zrest reply_id vrest b :
  bridge_ready h mid b -> flag_set (be_probe e) = false -> (FRR_ZAPI_HEADER_SIZE <= length (br_buf b))%nat -> Forall (fun mr => announces (length (br_buf b)) mr.1 mr.2) ms ->
  NoDup (route_id_of <$> ms) -> Forall (fun mr => objs (br_core b) h !! route_id_of mr = None) ms ->
  g_zapi_next_id (br_map b) + ids_needed ms < 2 ^ 64 ->
  Forall live_turn ts -> ready_polls (tn_poll <$> ts) = length ms ->
  zk_in (z_sock (br_z b)) = concat ((fun mr => fm_bytes mr.1) <$> ms) ++ zrest ->
  w_in (api_world (br_vpp b)) = acks reply_id (api_context (g_ctx (br_vpp b))) (length ms) ++ vrest ->
  exists b', (forall tl, bridge_loop e reconnect 0 (ts ++ tl) b = bridge_loop e reconnect 0 tl b') /\
    stream_result h mid e ms zrest vrest b b'.
Proof.
  revert ms b. induction ts as [|t ts IH]; intros ms b Hb Hpr Hbl Hms Hnd Hnone Hids Hts Hlen Hin Hvin.
  { destruct ms; [|done]. exists b. split; [done|]. split; try done.
    - cbn. split; [lia|done].
    - exists []. split; [constructor|]. cbn. by rewrite app_nil_r. }
  apply Forall_cons in Hts as [[Ht|Ht] Hts].
  2: { rewrite idle_polls in Hlen by done. destruct (IH ms b) as (b' & Hloop & S); try done. exists b'. split; [|done].
       intros tl. rewrite <- app_comm_cons, loop_idle by (done || apply Hb). apply Hloop. }
  rewrite ready_poll in Hlen by done. destruct ms as [|[m r] ms]; [done|]. injection Hlen as Hlen.
  apply Forall_cons in Hms as [Hmr Hms]. apply Forall_cons in Hnone as [Hn1 Hnone].
  rewrite fmap_cons in Hnd. apply NoDup_cons in Hnd as [Hni Hnd]. cbn [fst snd] in Hmr.
  pose proof (ids_needed_nonneg _ ms Hms) as Hpos. cbn [ids_needed foldr snd] in Hids. fold (ids_needed ms) in Hids.
  rewrite fmap_cons in Hin. cbn [concat fst] in Hin. rewrite <- app_assoc in Hin. cbn [length acks] in Hvin.
  rewrite <- app_assoc in Hvin.
  destruct (turn_announced h mid e reconnect 0 t m r (concat ((fun mr => fm_bytes mr.1) <$> ms) ++ zrest) reply_id
    (acks reply_id (u32 (api_context (g_ctx (br_vpp b)) + 1)) (length ms) ++ vrest) b Hb Ht Hmr ltac:(lia) Hn1 Hin)
    as (b1 & Hturn & Hres).
  { cbn [acks]. rewrite app_nil_r. exact Hvin. }
  destruct Hres as [R1 R2 R3 R4 R5 R6 R7 R8 (body & Rreq & Rout) [Rp Rf]].
  destruct (IH ms b1) as (b' & Hloop & S); try done.
  - by rewrite R3.
  - by rewrite R3.
  - apply Forall_forall. intros mr Hmr'. rewrite R5.
    + by apply (proj1 (Forall_forall _ _) Hnone).
    + by intros [?|?].
    + intros Heq. apply Hni. unfold route_id_of at 1. cbn [fst snd]. rewrite <- Heq. by apply list_elem_of_fmap_2.
  - lia.
  - by rewrite R6, R7.
  - exists b'. split.
    + intros tl. cbn [app bridge_loop]. destruct Ht as [-> _]. cbn [negb]. rewrite Hturn. apply Hloop.
    + destruct S as [S1 S2 S3 S4 [Sp Sf] (bodies & Sb & Sout)]. split; try done.
      * by rewrite S3.
      * rewrite Sp, Sf, Rp, Rf. cbn [length]. split; [lia|done].
      * exists (body :: bodies). split; [by constructor|]. rewrite Sout, Rout, R7, R8, <- app_assoc. reflexivity.
Qed.

(** ** The first message of a process *)

Definition default_core (c : core) : core := (get_default_store c).2.

Lemma default_core_create {A} `{CStruct A} type key (x : A) c :
  os_env (c_os c) = [] -> create_as type key (Some x) (default_core c) = create_as type key (Some x) c.
Proof.
  intros He. unfold create_as, default_core, get_default_store.
  destruct (g_default_store c) as [h|] eqn:Hd; cbn; [by rewrite Hd|].
  by rewrite store_create_granted.
Qed.

(** The mapper creates the default store with its first next hop. *)
Lemma dispatch_default size n c m r :
  os_env (c_os c) = [] -> announces size m r ->
  zapi_dispatch_frr (Some (fm_parsed m)) true (mk_zworld n (default_core c)) =
  zapi_dispatch_frr (Some (fm_parsed m)) true (mk_zworld n c).
Proof.
  intros He Ha. unfold zapi_dispatch_frr. change (zh_command (zm_header (fm_parsed m))) with (fm_command m).
  rewrite (an_command _ _ _ Ha), (an_route _ _ _ Ha), (an_ipv4 _ _ _ Ha).
  cbn [negb Z.eqb Pos.eqb andb AF_INET ZEBRA_FRR_REDISTRIBUTE_ROUTE_ADD].
  pose proof (an_paths _ _ _ Ha) as Hc. rewrite (proj2 (Z.ltb_lt _ _)) by lia.
  assert (Hne : fr_nexthops r <> []).
  { intros E. pose proof (decoded_route_in (fm_parsed m) r ltac:(done) (an_bytes _ _ _ Ha) (an_route _ _ _ Ha)) as Hi.
    pose proof (fri_count r Hi) as Hl. rewrite E in Hl. cbn in Hl. lia. }
  destruct (fr_nexthops r) as [|nh nhs]; [done|].
  unfold run_zm, mbind, zm_bind, next_id. cbn [g_zapi_next_id zw_core frr_nexthops].
  unfold mbind, zm_bind, next_id, dpa_ok, dpa, danos_nh_create, mbind, zm_bind.
  cbn [g_zapi_next_id zw_core]. by rewrite default_core_create.
Qed.

Lemma boot_core o time :
  os_env o = [] -> let c := default_core (core_boot o time) in
  prog_env 1 c /\ objs c 1 = ∅ /\ ledger_map c = ∅.
Proof.
  intros He c.
  assert (Hg : get_default_store (core_boot o time) = (Some 1, c)).
  { unfold c, default_core, get_default_store. cbn [core_boot g_default_store].
    by rewrite store_create_granted. }
  destruct (get_default_store_spec _ _ _ (core_boot_wf o time) Hg) as (Hwf & Hd & _ & _).
  unfold get_default_store in Hg. cbn [core_boot g_default_store] in Hg. rewrite store_create_granted in Hg by done.
  injection Hg as Hg. split_and!; [split; [done|done|by rewrite <- Hg]| |by rewrite <- Hg].
  rewrite <- Hg. unfold objs. cbn. rewrite lookup_insert_eq. apply store_create_map.
Qed.

Lemma boot_ready o time n : os_env o = [] -> 0 < n -> fib_ready 1 n (default_core (core_boot o time)).
Proof.
  intros He Hn. destruct (boot_core o time He) as (Hp & Ho & Hl). split; [done|done|..].
  - intros t id _. rewrite Ho, lookup_empty. by intros [? ?].
  - intros k d _. by rewrite Ho, lookup_empty.
  - intros k d. by rewrite Ho, lookup_empty.
  - intros k d. by rewrite Ho, lookup_empty.
  - intros k. rewrite Hl, lookup_empty. by intros [? ?].
  - unfold ledger_fits. rewrite Hl. apply map_Forall_empty.
Qed.

(** A round with an announcement does not notice whether the default store
    exists already. *)
Lemma turn_default e reconnect limit t m r zrest b :
  streaming (br_z b) -> good_turn t -> announces (length (br_buf b)) m r ->
  zk_in (z_sock (br_z b)) = fm_bytes m ++ zrest -> os_env (c_os (br_core b)) = [] ->
  bridge_turn e reconnect limit t b =
  bridge_turn e reconnect limit t
    (with_work (br_tx b) (mk_zworld (g_zapi_next_id (br_map b)) (default_core (br_core b))) b).
Proof.
  intros Hz (_ & Hpoll & now & Htx) Ha Hin He.
  pose proof (dispatch_default _ (g_zapi_next_id (br_map b)) (br_core b) m r He Ha) as Hd.
  replace (mk_zworld (g_zapi_next_id (br_map b)) (br_core b)) with (br_map b) in Hd by (by destruct b as [? ? ? []]).
  unfold bridge_turn, bridge_session, session_up, danos_zebra_session_get_state. cbn [br_z br_buf with_work].
  rewrite bool_decide_eq_true_2 by apply Hz. rewrite Hpoll. cbn [br_z br_buf with_work].
  destruct (recv_frr_frame m zrest (br_buf b) msg_blank (br_z b) Hz (an_frame _ _ _ Ha) Hin) as (buf' & -> & _).
  assert (Ht : 0 < Z.of_nat (fm_total m)) by (unfold fm_total, FRR_ZAPI_HEADER_SIZE; lia).
  rewrite (proj2 (Z.eqb_neq _ 0)), (proj2 (Z.ltb_ge _ 0)) by lia. cbn [default from_option id].
  unfold bridge_message. change (zh_command (zm_header (fm_parsed m))) with (fm_command m).
  rewrite (an_command _ _ _ Ha). cbn [negb route_command Z.eqb Pos.eqb orb ZEBRA_FRR_ROUTE_ADD ZEBRA_FRR_ROUTE_DELETE
    ZEBRA_FRR_REDISTRIBUTE_ROUTE_ADD ZEBRA_FRR_REDISTRIBUTE_ROUTE_DELETE].
  rewrite Htx. cbn [te_mem_mgr te_mem_rec te_now te_locked tx_granted br_tx br_map with_buf with_work].
  destruct (bridge_tx now (br_tx b)) as (tx & tw & -> & _). rewrite bool_decide_eq_true_2 by done.
  rewrite Hd. reflexivity.
Qed.

(** ** The whole program *)

(** The two peers as the program starts: zebra accepts on [zp] and sends
    [zin], VPP accepts on [vp], answers the handshake with the table [es] and
    then sends [vin]. *)
Record peers (s : bridge_start) (a : vpp_api) (zp vp zin vin : bytes) (index : Z) (es : list (Z * bytes)) : Prop := {
  ps_zebra : 0 <= connect_zebra_endpoint (bs_dial s) zp;
  ps_zebra_path : zp <> [] /\ (length zp < 256)%nat;
  ps_zebra_sock : zk_in (bs_sock s) = zin /\ zk_recv (bs_sock s) = [] /\ zk_send (bs_sock s) = [];
  ps_vpp_path : sock_path_ok (take 255 vp) = true;
  ps_vpp_quiet : quiet (api_world a);
  ps_vpp_table : (size (add_map (learned es)) <= VPP_MSG_TABLE_SIZE)%nat;
  ps_vpp : exists fd reply_id client ctx conns, 0 <= fd /\ reply_ok reply_id client ctx index es /\
    w_conns (api_world a) = Some (fd, frame (handshake_reply reply_id client ctx index es) ++ vin) :: conns;
}.

(** What the setup leaves. *)
Record set_up (zin vin : bytes) (index : Z) (es : list (Z * bytes)) (b b' : bridge) : Prop := {
  su_z : streaming (br_z b') /\ zk_in (z_sock (br_z b')) = zin;
  su_rest : br_buf b' = br_buf b /\ br_tx b' = br_tx b /\ br_map b' = br_map b /\
    br_processed b' = br_processed b /\ br_failed b' = br_failed b;
  su_vpp : connected (br_vpp b') /\ quiet (api_world (br_vpp b')) /\ w_in (api_world (br_vpp b')) = vin;
  su_ctx : api_context (g_ctx (br_vpp b')) = 0 /\ client_index (g_ctx (br_vpp b')) = index;
  su_out : w_out (api_world (br_vpp b')) = frame handshake_request;
  su_table : forall name, danos_vpp_api_lookup_msg_id name (br_vpp b') = add_map (learned es) !! name;
}.

Lemma setup_connected e s zp vp limit reconnect zin vin index es b :
  peers s (br_vpp b) zp vp zin vin index es ->
  exists b', bridge_setup e (mk_opts (Some zp) (Some vp) limit reconnect) s b = Some b' /\
    set_up zin vin index es b b'.
Proof.
  intros [Hz [Hzp Hzl] (Hzi & Hzr & Hzs) Hvp Hq Ht (fd & rid & cl & ctx & conns & Hfd & Hr & Hw)].
  unfold bridge_setup. cbn [bo_zebra bo_vpp bo_reconnect]. unfold danos_zebra_session_set_socket.
  destruct zp as [|x zp]; [done|]. rewrite (proj2 (Nat.leb_gt _ _)) by done.
  change (0 =? 0) with true. cbn [negb]. unfold danos_vpp_adapter_install. cbn [negb].
  pose proof (vpp_connect_learns_messages (be_vpp e) (bs_stack s) (bs_vpp_now s)
    (danos_vpp_api_set_sock_path (Some vp) (danos_vpp_api_init (be_vpp e) (br_vpp b)))
    fd conns vin rid cl ctx index es Hr Ht eq_refl ltac:(discriminate) Hvp Hq Hfd Hw) as Hc.
  destruct (danos_vpp_api_connect _ _ _ _) as [ok a']. destruct Hc as (-> & H1 & H2 & H3 & _ & H4 & H5 & H6).
  unfold danos_zebra_session_connect.
  cbn [danos_zebra_session_init ensure_init with_session z_initialized z_session zs_sock_path].
  rewrite (proj2 (Z.ltb_ge _ 0)) by done. change (0 =? 0) with true. cbn [negb andb].
  unfold session_up, danos_zebra_session_get_state.
  rewrite bool_decide_eq_true_2 by reflexivity. cbn [negb].
  match goal with |- context [danos_zebra_session_register _ _ _ ?z] =>
    destruct (register_calm (be_zebra e) (zapi_protocol (be_protocol e)) 0 z) as [out ->]; [done|exact Hzs|] end.
  change (0 =? 0) with true. cbn [negb]. eexists. split; [reflexivity|].
  cbn [with_sock z_sock z_session]. rewrite Hzi, Hzr.
  split; cbn [with_z with_vpp br_z br_vpp br_buf br_tx br_map br_processed br_failed]; try done.
  - split; [split; [done|by rewrite H2]|]. rewrite H5. done.
  - by rewrite H5.
Qed.

(** The command line [--zebra-sock zp --vpp-sock vp]. *)
Definition bridge_args (zp vp : bytes) : list bytes := [lit "--zebra-sock"; zp; lit "--vpp-sock"; vp].

Lemma bridge_args_options zp vp :
  bridge_options (bridge_args zp vp) (mk_opts None None 0 false) = Some (mk_opts (Some zp) (Some vp) 0 false).
Proof. reflexivity. Qed.

(** The round that ends the session: [poll] reports a hang-up, or the stream
    has ended. *)
Definition end_turn (t : turn) (unread : bytes) : Prop :=
  tn_running t = true /\ (tn_poll t = PollHup \/ tn_poll t = PollReady /\ unread = []).

Lemma turn_closed e limit t b :
  streaming (br_z b) -> end_turn t (zk_in (z_sock (br_z b))) -> (FRR_ZAPI_HEADER_SIZE <= length (br_buf b))%nat ->
  exists z, bridge_turn e false limit t b = (TBreak, with_z z b).
Proof.
  intros Hz [_ Hend] Hl. unfold bridge_turn, bridge_session, session_up, danos_zebra_session_get_state.
  rewrite bool_decide_eq_true_2 by apply Hz.
  assert (Hr : exists z, danos_zebra_session_recv_frr (tn_poll t) (br_buf b) (Some msg_blank) (br_z b) =
      (0, br_buf b, Some msg_blank, z) /\ zs_state (z_session z) = ZEBRA_SESSION_DISCONNECTED).
  { destruct Hend as [->|[-> Hin]].
    - eexists. split; [by apply recv_frr_hup|done].
    - destruct (recv_frr_closed (br_buf b) (Some msg_blank) (br_z b) Hz Hl Hin) as (z & Hr & Hs & _). by exists z. }
  destruct Hr as (z & -> & Hs).
  change (0 =? 0) with true. unfold bridge_idle, session_up, danos_zebra_session_get_state. cbn [br_z with_buf].
  rewrite bool_decide_eq_false_2 by (by rewrite Hs). cbn [negb]. by exists z.
Qed.

(** The loop of a freshly started process over the announcements. *)
Lemma started_loop e zin vin index es mid reply_id vrest unread ms ts a z o time buf b0 :
  set_up zin vin index es (bridge_process z a o time buf) b0 -> flag_set (be_probe e) = false ->
  (FRR_ZAPI_HEADER_SIZE <= length buf)%nat ->
  zin = concat ((fun mr => fm_bytes mr.1) <$> ms) ++ unread -> vin = acks reply_id 0 (length ms) ++ vrest ->
  add_map (learned es) !! lit "ip_route_add_del" = Some mid ->
  ms <> [] -> Forall (fun mr => announces (length buf) mr.1 mr.2) ms ->
  NoDup (route_id_of <$> ms) -> 1000 + ids_needed ms < 2 ^ 64 -> os_env o = [] ->
  Forall live_turn ts -> ready_polls (tn_poll <$> ts) = length ms ->
  exists b1 b2, (forall tl, bridge_loop e false 0 (ts ++ tl) b0 = bridge_loop e false 0 tl b2) /\
    stream_result 1 mid e ms unread vrest b1 b2 /\ br_buf b1 = buf /\ br_vpp b1 = br_vpp b0 /\
    br_processed b1 = 0 /\ br_failed b1 = 0.
Proof.
  intros [[Hz Hzin] (Hbuf & _ & Hmap & Hpr & Hfa) (Hc & Hq & Hvin) [Hctx Hcl] _ Htab] Hprobe Hbl -> -> Hmid Hne Hms Hnd Hids He Hts Hlen.
  cbn [bridge_process br_buf br_map br_processed br_failed] in Hbuf, Hmap, Hpr, Hfa.
  induction Hts as [|t ts [Ht|Ht] Hts IH]; [by destruct ms| |].
  2: { rewrite idle_polls in Hlen by done. destruct (IH Hlen) as (b1 & b2 & Hloop & H). exists b1, b2. split; [|done].
       intros tl. rewrite <- app_comm_cons, loop_idle by (done || by rewrite Hbuf). apply Hloop. }
  clear IH. destruct ms as [|mr ms]; [done|].
  set (b1 := with_work (br_tx b0) (mk_zworld (g_zapi_next_id (br_map b0)) (default_core (br_core b0))) b0).
  assert (Hcore : br_core b1 = default_core (core_boot o time))
    by (unfold b1, br_core; cbn [with_work br_map zw_core]; by rewrite Hmap).
  assert (Hfirst : forall tl, bridge_loop e false 0 ((t :: ts) ++ tl) b0 = bridge_loop e false 0 ((t :: ts) ++ tl) b1).
  { intros tl'. cbn [app bridge_loop]. apply Forall_cons in Hms as [Hm _].
    destruct (negb (tn_running t)) eqn:Hrun; [destruct Ht as [Ht _]; by rewrite Ht in Hrun|].
    rewrite fmap_cons in Hzin. cbn [concat] in Hzin. rewrite <- app_assoc in Hzin.
    erewrite (turn_default e false 0 t mr.1 mr.2); [reflexivity|done|done|by rewrite Hbuf|exact Hzin|].
    unfold br_core. by rewrite Hmap. }
  destruct (boot_core o time He) as (_ & Ho & _).
  destruct (loop_announced 1 mid e false (mr :: ms) (t :: ts) unread reply_id vrest b1) as (b2 & Hloop & S); try done.
  - split; [done| |by split|by rewrite <- Hmid, <- Htab]. rewrite Hcore.
    unfold b1. cbn [with_work br_map g_zapi_next_id]. rewrite Hmap. by apply boot_ready.
  - unfold b1. cbn [with_work br_buf]. by rewrite Hbuf.
  - unfold b1. cbn [with_work br_buf]. by rewrite Hbuf.
  - apply Forall_forall. intros x _. by rewrite Hcore, Ho, lookup_empty.
  - unfold b1. cbn [with_work br_map g_zapi_next_id]. by rewrite Hmap.
  - constructor; [by left|done].
  - unfold b1. cbn [with_work br_vpp]. by rewrite Hctx.
  - exists b1, b2. split; [|done]. intros tl. by rewrite Hfirst, Hloop.
Qed.

(** C5. From zebra to VPP, the whole program: started with the two sockets and
    without the health probe, with zebra announcing one or more new IPv4
    routes with distinct keys, each with at least one next hop, and VPP
    completing its handshake and accepting each request, the bridge terminates
    with exit status 0, and all it has written to VPP is the handshake and,
    for each announcement that was read, in order, one request that decodes to
    the announced table, prefix and list of next hops, with the interfaces
    translated; every route read is recorded as programmed.  Between the
    announcements [poll] may time out or be interrupted any number of times.
    The program ends when zebra's stream ends or [poll] reports a hang-up;
    what is unread at a hang-up is dropped, and the exit status is still 0. *)
Theorem bridge_programs_announcements e s zp vp vrest index es mid reply_id ms unread ts tl a z o time buf :
  peers s a zp vp (concat ((fun mr => fm_bytes mr.1) <$> ms) ++ unread) (acks reply_id 0 (length ms) ++ vrest) index es ->
  add_map (learned es) !! lit "ip_route_add_del" = Some mid -> flag_set (be_probe e) = false ->
  ms <> [] -> Forall (fun mr => announces (length buf) mr.1 mr.2) ms ->
  NoDup (route_id_of <$> ms) -> 1000 + ids_needed ms < 2 ^ 64 -> os_env o = [] ->
  Forall live_turn ts -> ready_polls (tn_poll <$> ts) = length ms -> end_turn tl unread ->
  exists b' bodies,
    bridge_main e None None (bridge_args zp vp) s (ts ++ [tl]) (bridge_process z a o time buf) = (Some 0, b') /\
    Forall2 (fun mr => requests_route (be_ifmap e) mr.1 mr.2) ms bodies /\
    w_out (api_world (br_vpp b')) = frame handshake_request ++ requests index mid 0 bodies /\
    in_step 1 (br_core b').
Proof.
  intros Hpeers Hmid Hprobe Hne Hms Hnd Hids He Hts Hlen Htl.
  unfold bridge_main. rewrite bridge_args_options. cbn [bo_zebra bo_vpp bo_limit bo_reconnect].
  rewrite !bool_decide_eq_false_2 by done. change (0 <? 0) with false. cbn [orb].
  assert (Hbl : (FRR_ZAPI_HEADER_SIZE <= length buf)%nat).
  { destruct ms as [|mr ms]; [done|]. apply Forall_cons in Hms as [Hm _].
    pose proof (fo_size _ _ (an_frame _ _ _ Hm)) as Hs. unfold fm_total in Hs. lia. }
  destruct (setup_connected e s zp vp 0 false _ _ index es (bridge_process z a o time buf) Hpeers) as (b0 & -> & Hset).
  destruct (started_loop e _ _ index es mid reply_id vrest unread ms ts a z o time buf b0 Hset Hprobe Hbl eq_refl eq_refl
    Hmid Hne Hms Hnd Hids He Hts Hlen) as (b1 & b2 & Hloop & S & Hbuf & Hvpp & Hpr & Hfa).
  destruct S as [S1 S2 S3 _ [Sp Sf] (bodies & Sb & Sout)].
  destruct (turn_closed e 0 tl b2) as [z2 Hclosed]; [apply S1|by rewrite S2|by rewrite S3, Hbuf|].
  rewrite Hloop. cbn [bridge_loop]. destruct Htl as [-> _]. cbn [negb]. rewrite Hclosed.
  cbn [with_z br_processed br_failed]. rewrite Sp, Sf, Hpr, Hfa.
  rewrite (proj2 (Z.ltb_lt _ _)) by (destruct ms; [done|cbn [length]; lia]).
  eexists _, bodies. split; [reflexivity|]. split; [done|]. split; [|apply S1].
  cbn [with_z br_vpp]. rewrite Sout, Hvpp. by destruct Hset as [_ _ _ [-> ->] -> _].
Qed.

(** Two routes, and the peers that carry them. *)
Definition demo_route2 : zapi_frr_route :=
  mk_frr_route 10 0 0 (Z.lor ZAPI_FRR_MESSAGE_NHG ZAPI_FRR_MESSAGE_NEXTHOP) 1 AF_INET 16
    ([10; 9] ++ zeros 14) 78 1 [mk_frr_nh 3 0 AF_INET 5 ([192; 0; 2; 7] ++ zeros 12) true].

Definition demo_announcements : list announcement :=
  [(mk_frr_msg 0 31 demo_frr_payload, demo_frr_route);
   (mk_frr_msg 0 31 (frr_wire [(0, 100)] demo_route2), demo_route2)].

Definition demo_zin : bytes := Eval vm_compute in concat ((fun mr => fm_bytes mr.1) <$> demo_announcements) ++ [0; 9].
Definition demo_vin : bytes := Eval vm_compute in acks 701 0 2 ++ [].

Definition demo_start : bridge_start :=
  mk_start [] 9 (mk_dial (fun _ _ => None) (3, true)) 9 (mk_zsock demo_zin [] [] []).

Definition demo_vpp_peer : vpp_api :=
  mk_api (mk_ctx 0 0 VPP_API_DISCONNECTED [] [] 0 0 0 0 0 0 0 0 vpp_msg_table_init 0 0) false
    (mk_world [Some (5, frame (handshake_reply 16 0 0 3 demo_entries) ++ demo_vin)] [] [] [] []).

Definition demo_bridge_env : bridge_env :=
  mk_benv demo_env None (mk_zenv None None None false) None None None.

Definition demo_round (p : zpoll) : turn :=
  mk_turn true (mk_dial (fun _ _ => None) (-1, false)) 0 0 (mk_zsock [] [] [] []) p 0 (tx_granted 7)
    (fun _ _ => mk_try true [] 0 0).

Definition demo_turn : turn := demo_round PollReady.

Lemma demo_peers : peers demo_start demo_vpp_peer (lit "/z") (lit "/v") demo_zin demo_vin 3 demo_entries.
Proof.
  split; try (split; done).
  - by vm_compute.
  - split; [discriminate|]. cbn. lia.
  - apply (bool_decide_unpack _). vm_compute. exact I.
  - exists 5, 16, 0, 0, []. split; [lia|]. split; [|reflexivity]. apply (bool_decide_unpack _). vm_compute. exact I.
Qed.

Lemma demo_announces : Forall (fun mr => announces 200 mr.1 mr.2) demo_announcements.
Proof.
  repeat constructor; try reflexivity; try (vm_compute; done);
    try (apply (bool_decide_unpack _); vm_compute; exact I).
Qed.

Lemma bridge_programs_announcements_witness :
  exists b' (bodies : list bytes),
    bridge_main demo_bridge_env None None (bridge_args (lit "/z") (lit "/v")) demo_start
      ([demo_round PollTimeout; demo_turn; demo_round PollIntr; demo_turn] ++ [demo_round PollHup])
      (bridge_process (mk_zsock [] [] [] []) demo_vpp_peer (mk_os [] ∅) 0 (zeros 200)) =
      (Some 0, b') /\ length bodies = 2%nat.
Proof.
  destruct (bridge_programs_announcements demo_bridge_env demo_start (lit "/z") (lit "/v") [] 3 demo_entries 700 701
    demo_announcements [0; 9] [demo_round PollTimeout; demo_turn; demo_round PollIntr; demo_turn] (demo_round PollHup)
    demo_vpp_peer (mk_zsock [] [] [] []) (mk_os [] ∅) 0 (zeros 200)) as (b' & bodies & Hrun & Hb & _).
  - exact demo_peers.
  - vm_compute. reflexivity.
  - reflexivity.
  - discriminate.
  - exact demo_announces.
  - apply (bool_decide_unpack _). vm_compute. exact I.
  - vm_compute. reflexivity.
  - reflexivity.
  - repeat constructor; by exists 7.
  - reflexivity.
  - split; [done|by left].
  - exists b', bodies. split; [exact Hrun|]. by rewrite <- (Forall2_length _ _ _ Hb).
Defined.

(** ** What the bridge does not handle *)

(** A native route message (commands 9 and 10) never reaches the desired
    state: the dispatcher it is given to has no case for it, so the transaction
    is aborted and the round ends without counting anything. *)
Theorem bridge_native_skipped e reconnect limit t m b now :
  tn_tx t = tx_granted now ->
  zh_command (zm_header m) = ZEBRA_FRR_ROUTE_ADD \/ zh_command (zm_header m) = ZEBRA_FRR_ROUTE_DELETE ->
  exists tw, bridge_message e reconnect limit t m b = (TContinue, with_work tw (br_map b) b).
Proof.
  intros Htx Hcmd. unfold bridge_message. rewrite Htx. cbn [te_mem_mgr te_mem_rec te_now te_locked tx_granted].
  destruct (bridge_tx now (br_tx b)) as (tx & tw & -> & _). rewrite bool_decide_eq_true_2 by done.
  assert (Hd : zapi_dispatch (Some m) true (br_map b) = (DANOS_ERR_NOT_SUPPORTED, br_map b))
    by (unfold zapi_dispatch; destruct Hcmd as [-> | ->]; reflexivity).
  assert (Hr : (zh_command (zm_header m) =? ZEBRA_FRR_ROUTE_ADD) || (zh_command (zm_header m) =? ZEBRA_FRR_ROUTE_DELETE) = true)
    by (destruct Hcmd as [-> | ->]; reflexivity).
  rewrite Hr, Hd. rewrite bool_decide_eq_false_2 by done. rewrite bool_decide_eq_true_2 by done. eauto.
Qed.

(** Announcing a known route again is an error for the bridge: the round is
    counted as failed, so the exit status will be 1, the new next hops are not
    programmed, and the transaction is left open. *)
Theorem bridge_readd_fails h e reconnect limit t m r n c b d now :
  tn_tx t = tx_granted now -> br_map b = mk_zworld n c -> frr_add_ok h m r n c ->
  zh_command (zm_header m) = ZEBRA_FRR_REDISTRIBUTE_ROUTE_ADD -> objs c h !! frr_route_id m r = Some d ->
  exists r' b', bridge_message e reconnect limit t m b = (r', b') /\
    br_failed b' = br_failed b + 1 /\ br_processed b' = br_processed b /\ br_vpp b' = br_vpp b /\
    objs (br_core b') h !! frr_route_id m r = Some d /\
    exists x, rec_state (br_tx b') x = Some DANOS_TX_OPEN.
Proof.
  intros Htx Hmap Hok Hcmd Hd. unfold bridge_message. rewrite Htx, Hcmd, Hmap.
  cbn [te_mem_mgr te_mem_rec te_now te_locked tx_granted].
  destruct (begin_open now "frr-zebra" (mk_mworld (br_tx b) c)) as (x & hd & rc & tw & Hb & _ & Hr & Ho).
  unfold begin_tx in Hb. cbn [mw_tx mw_core te_mem_mgr te_mem_rec te_now tx_granted] in Hb.
  destruct (danos_tx_begin _ _ _ _ _ _ (br_tx b)) as [[st tx] t0]. injection Hb as -> -> ->.
  destruct (frr_add_run h m r n c Hok Hcmd) as (c' & Hrun & _ & Hobj & _).
  rewrite decide_True in Hrun by eauto. rewrite decide_True in Hobj by eauto.
  rewrite bool_decide_eq_true_2 by done.
  change ((ZEBRA_FRR_REDISTRIBUTE_ROUTE_ADD =? ZEBRA_FRR_ROUTE_ADD) ||
          (ZEBRA_FRR_REDISTRIBUTE_ROUTE_ADD =? ZEBRA_FRR_ROUTE_DELETE)) with false.
  rewrite Hrun. rewrite !bool_decide_eq_false_2 by done.
  eexists _, _. split; [reflexivity|]. do 3 (split; [reflexivity|]). split.
  - unfold br_core. cbn [count_failed with_work br_map zw_core]. rewrite Hobj, lookup_insert_ne by done.
    rewrite nh_objs_other; [done|]. intros; discriminate.
  - exists hd. unfold rec_state. cbn [count_failed with_work br_tx]. rewrite Hr. cbn. by rewrite Ho.
Qed.

Lemma bridge_native_skipped_witness :
  exists tw, bridge_message demo_bridge_env true 0 demo_turn (demo_frr_msg 9)
      (bridge_process (mk_zsock [] [] [] []) demo_vpp_peer (mk_os [] ∅) 0 []) =
    (TContinue, with_work tw (mk_zworld 1000 (core_boot (mk_os [] ∅) 0))
      (bridge_process (mk_zsock [] [] [] []) demo_vpp_peer (mk_os [] ∅) 0 [])).
Proof.
  exact (bridge_native_skipped demo_bridge_env true 0 demo_turn (demo_frr_msg 9)
    (bridge_process (mk_zsock [] [] [] []) demo_vpp_peer (mk_os [] ∅) 0 []) 7 eq_refl (or_introl eq_refl)).
Defined.

Lemma bridge_readd_fails_witness :
  exists b r' b', bridge_message demo_bridge_env true 0 demo_turn (demo_frr_msg 31) b = (r', b') /\
    br_failed b' = 1.
Proof.
  destruct demo_second_add as (c & Hok & Hd).
  set (b := mk_bridge (mk_zstate (mk_zsession 0 ZEBRA_SESSION_DISCONNECTED [] 0 0 0 0) false (mk_zsock [] [] [] [])) []
    tx_world_start (mk_zworld 1003 c) (mk_pctx 0 0 0) demo_vpp_peer 0 0 0 0).
  destruct (bridge_readd_fails 1 demo_bridge_env true 0 demo_turn (demo_frr_msg 31) demo_frr_route 1003 c b _ 7
    eq_refl eq_refl Hok eq_refl Hd) as (r' & b' & Hr & Hf & _).
  exists b, r', b'. split; [exact Hr|exact Hf].
Defined.
