(* ===== verification/GnmiRest.v ===== *)
(** * The REST server: danos-mgmt gnmi.h / gnmi.c, requests

    [danos_gnmi_handle_request] and its handlers over the object store, the
    transactions and the subscriptions of [GnmiSub].  The text of a request is
    scanned with [strstr] and [strchr] as the code does; a response is the
    text [snprintf] or [strdup] makes. *)

From stdpp Require Import base decidable list numbers gmap strings.
From Stdlib Require Import ZArith Lia.
From S2P Require Import Prelude Dpa Backends ObjectStore Wal EventBus Registry Persist DpaObjects.
From S2P Require Import Transaction Pipeline Zapi ZapiMapper CStr Proto GnmiSub ModelRoutes.

(** ** Text *)

Fixpoint json_escape (out_size o : nat) (s : bytes) : bytes :=
  match s with
  | [] => []
  | c :: s =>
      if negb (o <? out_size - 2)%nat then [] else
      let a := if ((c =? 34) || (c =? 92)) && (o <? out_size - 2)%nat then [92] else [] in
      let b := if ((c =? 34) || (c =? 92)) && negb (o + length a <? out_size - 1)%nat then [] else [c] in
      a ++ b ++ json_escape out_size (o + length a + length b) s
  end.

Definition quoted (key : string) : bytes := [34] ++ lit key ++ [34].

(** [(p = strstr(body, key)) && (p = strchr(p, ':'))], and [p + 1]. *)
Definition member (body : bytes) (key : string) : option bytes :=
  p ← strstr body (quoted key); p ← strchr p 58; Some (drop 1 p).

(** The characters a [name] array of 64 bytes gets. *)
Definition member_name (body : bytes) : option bytes :=
  p ← member body "name"; p ← strchr p 34; Some (fst (until_quote 63 (drop 1 p))).

Definition name64 (s : bytes) : bytes := s ++ zeros (64 - length s).

Definition member_int (body : bytes) (key : string) : option Z := atoi <$> member body key.
Definition member_u64 (body : bytes) (key : string) : option Z := fst ∘ strtoul <$> member body key.

Definition empty_body (body : option bytes) : option bytes :=
  match body with Some (c :: s) => Some (c :: s) | _ => None end.

(** ** Reading objects *)

Definition handle_get_interfaces : bytes := js "{'path': 'interfaces', 'result': []}".
Definition handle_get_routes : bytes := js "{'path': 'routes', 'result': []}".
Definition handle_get_vrfs : bytes := js "{'path': 'vrfs', 'result': [{'vrf_id': 0, 'name': 'default'}]}".
Definition handle_get_acl_tables : bytes := js "{'path': 'acl/tables', 'result': []}".
Definition handle_get_qos_policies : bytes := js "{'path': 'qos/policies', 'result': []}".

Definition handle_get_capabilities : bytes :=
  let ver := danos_dpa_get_version in
  take 255 (js "{'path': 'capabilities', 'dpa_version': '" ++ dec (ver_major ver) ++ lit "." ++
            dec (ver_minor ver) ++ lit "." ++ dec (ver_patch ver) ++ js "'}").

Definition handle_not_found (path : bytes) : bytes :=
  take 1023 (js "{'error': 'not found', 'path': '" ++ json_escape 512 0 path ++ js "'}").

(** ** Transactions of the handlers *)

Definition ok (st : danos_status) : bool := bool_decide (st = DANOS_OK).

(** Prepare, validate unless [skip], commit; nothing is aborted. *)
Definition rest_commit (e : tx_env) (skip : bool) (tx : option danos_tx) (t : tx_world) : danos_status * tx_world :=
  let '(st, tx, t) := danos_tx_prepare tx t in
  let '(st, tx, t) := if ok st && negb skip then danos_tx_validate tx t else (st, tx, t) in
  let '(st, _, t) := if ok st then danos_tx_commit (te_locked e) tx t else (st, tx, t) in
  (st, t).

Definition status_error (what : string) (st : danos_status) : bytes :=
  take 127 (js "{'error': '" ++ lit what ++ lit ": " ++ lit (danos_status_str st) ++ js "'}").

(** Begin, one operation on the store, commit; [done] is the response of
    success. *)
Definition rest_tx (e : tx_env) (who : string) (skip : bool) (op : core -> danos_status * core)
    (op_error : string) (done : bytes) (w : mworld) : bytes * mworld :=
  let '(st, tx, w) := begin_tx e who w in
  if negb (ok st) then (js "{'error': 'tx_begin failed'}", w) else
  let '(st, c) := op (mw_core w) in
  if negb (ok st) then (status_error op_error st, mk_mworld (danos_tx_abort tx (mw_tx w)).2 c) else
  let '(st, t) := rest_commit e skip tx (mw_tx w) in
  (if negb (ok st) then status_error "commit failed" st else done, mk_mworld t c).

(** ** Interfaces and routes *)

Definition no_prefix : danos_ip_prefix := mk_ip_prefix (mk_ip_addr 0 (zeros 16)) 0.

Definition parse_interface (body : bytes) : danos_iface :=
  mk_iface (default 0 (u32 <$> member_int body "ifindex")) (name64 (default [] (member_name body))) 0
    (match member_int body "mtu" with Some m => if 0 <? m then u16 m else 1500 | None => 1500 end)
    (zeros 6) true false 0 0 0 no_prefix no_prefix.

Definition interface_created (i : danos_iface) : bytes :=
  take 255 (js "{'result': 'created', 'ifindex': " ++ dec (iface_ifindex i) ++ js ", 'name': '" ++
            json_escape 128 0 (c_str (iface_name i)) ++ js "', 'mtu': " ++ dec (iface_mtu i) ++ lit "}").

Definition handle_set_interface (e : tx_env) (body : option bytes) (w : mworld) : bytes * mworld :=
  match empty_body body with
  | None => (js "{'error': 'empty body'}", w)
  | Some body =>
      let iface := parse_interface body in
      if iface_ifindex iface =? 0 then (js "{'error': 'ifindex required'}", w) else
      rest_tx e "gnmi-set" false (danos_iface_create (Some iface)) "create failed" (interface_created iface) w
  end.

Definition parse_route (body : bytes) : danos_route :=
  mk_route (default 0 (u32 <$> member_int body "vrf_id"))
    (mk_ip_prefix (mk_ip_addr 0 (zeros 16)) (default 0 (u8 <$> member_int body "prefix_len")))
    DANOS_ROUTE_PROTO_STATIC 1 0 (default 0 (u64 <$> member_int body "nhgroup_id")) 0.

Definition handle_set_route (e : tx_env) (body : option bytes) (w : mworld) : bytes * mworld :=
  match empty_body body with
  | None => (js "{'error': 'empty body'}", w)
  | Some body =>
      let route := parse_route body in
      if rt_nhgroup_id route =? 0 then (js "{'error': 'nhgroup_id required'}", w) else
      rest_tx e "gnmi-set" false (danos_route_create (Some route)) "create failed" (js "{'result': 'route created'}") w
  end.

(** ** ACL tables and QoS policies *)

(** Create, and update what exists. *)
Definition create_or_update (create update : core -> danos_status * core) (c : core) : danos_status * core :=
  let '(st, c) := create c in
  if bool_decide (st = DANOS_ERR_EXISTS) then update c else (st, c).

Definition parse_acl_table (body : bytes) : danos_acl_table :=
  mk_acl_table (default 0 (member_u64 body "table_id")) (name64 (default [] (member_name body)))
    (default 0 (u32 <$> member_int body "bind_ifindex"))
    (match member_int body "ingress" with Some v => negb (v =? 0) | None => true end).

Definition handle_set_acl_table (e : tx_env) (body : option bytes) (w : mworld) : bytes * mworld :=
  match empty_body body with
  | None => (js "{'error': 'empty body'}", w)
  | Some body =>
      let tbl := parse_acl_table body in
      if at_table_id tbl =? 0 then (js "{'error': 'table_id required'}", w) else
      rest_tx e "gnmi-set-acl" false
        (create_or_update (danos_acl_table_create (Some tbl)) (danos_acl_table_update (Some tbl)))
        "acl op failed" (take 255 (js "{'result': 'ok', 'table_id': " ++ dec (at_table_id tbl) ++ lit "}")) w
  end.

(** The identifier behind a path's prefix. *)
Definition path_id (prefix : string) (path : bytes) : Z := fst (strtoul (drop (length (lit prefix)) path)).

Definition handle_delete_acl_table (e : tx_env) (path : bytes) (w : mworld) : bytes * mworld :=
  let table_id := path_id "/gnmi/acl/tables/" path in
  if table_id =? 0 then (js "{'error': 'invalid table_id'}", w) else
  rest_tx e "gnmi-del-acl" true (danos_acl_table_delete table_id) "delete failed" (js "{'result': 'deleted'}") w.

Definition parse_qos_policy (body : bytes) : danos_qos_policy :=
  let num key := default 0 (member_u64 body key) in
  mk_qos_policy (num "policy_id") (name64 (default [] (member_name body))) (num "cir_bps") (num "cb_bytes")
    (num "pir_bps") (num "pb_bytes") 0 0 0.

Definition handle_set_qos_policy (e : tx_env) (body : option bytes) (w : mworld) : bytes * mworld :=
  match empty_body body with
  | None => (js "{'error': 'empty body'}", w)
  | Some body =>
      let pol := parse_qos_policy body in
      if qp_policy_id pol =? 0 then (js "{'error': 'policy_id required'}", w) else
      rest_tx e "gnmi-set-qos" false
        (create_or_update (danos_qos_policy_create (Some pol)) (danos_qos_policy_update (Some pol)))
        "qos op failed" (take 255 (js "{'result': 'ok', 'policy_id': " ++ dec (qp_policy_id pol) ++ lit "}")) w
  end.

Definition handle_delete_qos_policy (e : tx_env) (path : bytes) (w : mworld) : bytes * mworld :=
  let policy_id := path_id "/gnmi/qos/policies/" path in
  if policy_id =? 0 then (js "{'error': 'invalid policy_id'}", w) else
  rest_tx e "gnmi-del-qos" true (danos_qos_policy_delete policy_id) "delete failed" (js "{'result': 'deleted'}") w.

(** ** Subscriptions *)

Definition obj_type_from_str (s : bytes) : danos_obj_type :=
  if bool_decide (s = lit "all") || bool_decide (s = lit "*") then DANOS_OBJ_INVALID
  else if bool_decide (s = lit "interface") then DANOS_OBJ_IFACE
  else if bool_decide (s = lit "vlan") then DANOS_OBJ_VLAN
  else if bool_decide (s = lit "vrf") then DANOS_OBJ_VRF
  else if bool_decide (s = lit "route") then DANOS_OBJ_ROUTE
  else if bool_decide (s = lit "nexthop") then DANOS_OBJ_NEXTHOP
  else if bool_decide (s = lit "nhgroup") then DANOS_OBJ_NHGROUP
  else if bool_decide (s = lit "acl") then DANOS_OBJ_ACL
  else if bool_decide (s = lit "qos") then DANOS_OBJ_QOS
  else if bool_decide (s = lit "bfd") then DANOS_OBJ_BFD
  else DANOS_OBJ_INVALID.

(** Up to [n] characters before an ampersand. *)
Fixpoint until_amp (n : nat) (s : bytes) : bytes :=
  match n, s with
  | S n, c :: s => if c =? 38 then [] else c :: until_amp n s
  | _, _ => []
  end.

(** The mask and the object type. *)
Definition parse_subscribe_query (query : bytes) : Z * danos_obj_type :=
  let key k := drop (length (lit k)) <$> strstr query (lit k) in
  (match key "mask=" with Some p => u32 (strtoul0 p) | None => 65535 end,
   match key "obj_type=" with Some p => obj_type_from_str (until_amp 31 p) | None => DANOS_OBJ_INVALID end).

(** The server: the object world, the subscriptions, and how many of the bus's
    deliveries their callbacks have handled. *)
Record rest := mk_rest {
  rs_world : mworld;
  rs_subs : gnmi_subs;
  rs_seen : nat;
}.

(** What the environment answers: the transaction calls, the allocations of a
    subscription (entry, bus, bus entry) and of the callbacks, and the heap
    for the responses. *)
Record rest_env := mk_rest_env {
  re_tx : tx_env;
  re_entry : bool;
  re_bus : bool;
  re_sub : bool;
  re_note : nat -> bool;
  re_heap : heap;
}.

Definition set_core_events (ev : events) (w : mworld) : mworld := mk_mworld (mw_tx w) (set_events (mw_core w) ev).

(** Run the callbacks the bus has made since the last time. *)
Definition settle (e : rest_env) (r : rest) : rest :=
  let ds := ev_deliveries (c_events (mw_core (rs_world r))) in
  mk_rest (rs_world r)
    (foldl deliver (rs_subs r) (imap (fun i d => (re_note e (rs_seen r + i), d)) (drop (rs_seen r) ds))) (length ds).

Definition handle_subscribe (e : rest_env) (path : bytes) (r : rest) : outcome (bytes * rest) :=
  let s := danos_gnmi_subscribe_init (rs_subs r) in
  let '(mask, ot) := match strchr path 63 with
                     | Some q => parse_subscribe_query (drop 1 q)
                     | None => (65535, DANOS_OBJ_INVALID)
                     end in
  if mask =? 0 then Ret (js "{'error': 'invalid mask'}", mk_rest (rs_world r) s (rs_seen r)) else
  match danos_gnmi_subscribe (re_entry e) (re_bus e) (re_sub e) ot mask s (c_events (mw_core (rs_world r))) with
  | None => Fault
  | Some (id, s, ev) =>
      Ret (if id =? 0 then js "{'error': 'subscribe failed'}"
           else take 127 (js "{'result': 'subscribed', 'sub_id': " ++ dec id ++ lit "}"),
           mk_rest (set_core_events ev (rs_world r)) s (rs_seen r))
  end.

Definition handle_unsubscribe (path : bytes) (r : rest) : bytes * rest :=
  let id := path_id "/gnmi/subscribe/" path in
  if id =? 0 then (js "{'error': 'invalid sub_id'}", r) else
  let '(s, ev) := danos_gnmi_unsubscribe id (rs_subs r) (c_events (mw_core (rs_world r))) in
  (if (danos_gnmi_subscribe_count s =? danos_gnmi_subscribe_count (rs_subs r))%nat
   then js "{'error': 'sub_id not found'}" else js "{'result': 'unsubscribed'}",
   mk_rest (set_core_events ev (rs_world r)) s (rs_seen r)).

Definition handle_subscribe_poll (e : rest_env) (path : bytes) (r : rest) : outcome (option bytes * rest) :=
  let id := path_id "/gnmi/subscribe/" path in
  if id =? 0 then Ret (fst (strdup (js "{'error': 'invalid sub_id'}") (re_heap e)), r) else
  '(text, s, _) ← danos_gnmi_subscribe_poll id (rs_subs r) (re_heap e);
  Ret (text, mk_rest (rs_world r) s (rs_seen r)).

(** ** Dispatch *)

(** The response block is allocated once. *)
Definition reply {A} (e : rest_env) (f : A -> rest) (x : bytes * A) : outcome (option bytes * rest) :=
  Ret (fst (strdup x.1 (re_heap e)), f x.2).

Definition is_path (path : bytes) (s : string) : bool := bool_decide (path = lit s).
Definition under (path : bytes) (s : string) : bool := is_prefix (lit s) path.

Definition rest_get (e : rest_env) (path : bytes) (r : rest) : outcome (option bytes * rest) :=
  let text t := reply e (fun r => r) (t, r) in
  if is_path path "/gnmi/interfaces" then text handle_get_interfaces
  else if is_path path "/gnmi/routes" then text handle_get_routes
  else if is_path path "/gnmi/vrfs" then text handle_get_vrfs
  else if is_path path "/gnmi/capabilities" then text handle_get_capabilities
  else if is_path path "/gnmi/acl/tables" then text handle_get_acl_tables
  else if is_path path "/gnmi/qos/policies" then text handle_get_qos_policies
  else if under path "/gnmi/subscribe/" then handle_subscribe_poll e path r
  else text (handle_not_found path).

Definition rest_set (e : rest_env) (path : bytes) (body : option bytes) (r : rest) : outcome (option bytes * rest) :=
  let run h := reply e (fun w => mk_rest w (rs_subs r) (rs_seen r)) (h (re_tx e) body (rs_world r)) in
  if is_path path "/gnmi/interfaces" then run handle_set_interface
  else if is_path path "/gnmi/routes" then run handle_set_route
  else if is_path path "/gnmi/acl/tables" then run handle_set_acl_table
  else if is_path path "/gnmi/qos/policies" then run handle_set_qos_policy
  else if is_path path "/gnmi/subscribe" || under path "/gnmi/subscribe?" then
    x ← handle_subscribe e path r; reply e (fun r => r) x
  else reply e (fun r => r) (handle_not_found path, r).

Definition rest_delete (e : rest_env) (path : bytes) (r : rest) : outcome (option bytes * rest) :=
  let run h := reply e (fun w => mk_rest w (rs_subs r) (rs_seen r)) (h (re_tx e) path (rs_world r)) in
  if under path "/gnmi/acl/tables/" then run handle_delete_acl_table
  else if under path "/gnmi/qos/policies/" then run handle_delete_qos_policy
  else if under path "/gnmi/subscribe/" then reply e (fun r => r) (handle_unsubscribe path r)
  else reply e (fun r => r) (handle_not_found path, r).

Definition danos_gnmi_handle_request (e : rest_env) (method path body : option bytes) (r : rest)
    : outcome (option bytes * rest) :=
  match method, path with
  | Some m, Some p =>
      if is_path m "GET" then rest_get e p r
      else if is_path m "SET" || is_path m "POST" then rest_set e p body r
      else if is_path m "DELETE" then rest_delete e p r
      else if is_path m "SUBSCRIBE" then x ← handle_subscribe e p r; reply e (fun r => r) x
      else reply e (fun r => r) (js "{'error': 'method not allowed'}", r)
  | _, _ => Ret (None, r)
  end.

(** ** The listening socket *)

Record danos_gnmi_ctx := mk_gnmi_ctx {
  gx_listen_fd : Z;
  gx_port : Z;
  gx_running : bool;
  gx_requests_served : Z;
}.

Definition danos_gnmi_init (port : Z) : danos_gnmi_ctx := mk_gnmi_ctx (-1) port false 0.

(** [fd] is what [socket] returns, [bound] and [listening] whether the next
    two calls succeed. *)
Definition danos_gnmi_start (fd : Z) (bound listening : bool) (ctx : danos_gnmi_ctx) : Z * danos_gnmi_ctx :=
  let with_fd fd run := mk_gnmi_ctx fd (gx_port ctx) run (gx_requests_served ctx) in
  if fd <? 0 then (-1, with_fd fd (gx_running ctx))
  else if negb bound then (-1, with_fd (-1) (gx_running ctx))
  else if negb listening then (-1, with_fd (-1) (gx_running ctx))
  else (0, with_fd fd true).

Definition danos_gnmi_stop (ctx : danos_gnmi_ctx) : danos_gnmi_ctx :=
  mk_gnmi_ctx (if 0 <=? gx_listen_fd ctx then -1 else gx_listen_fd ctx) (gx_port ctx) false (gx_requests_served ctx).

(** ** Escaping *)

(** What a JSON reader makes of an escaped string. *)
Fixpoint unescape (s : bytes) : bytes :=
  match s with
  | [] => []
  | c :: s' => if c =? 92 then match s' with d :: s'' => d :: unescape s'' | [] => [] end else c :: unescape s'
  end.

Definition needs_escape (c : Z) : bool := (c =? 34) || (c =? 92).

Lemma json_escape_cons n o c s :
  (o < n - 2)%nat ->
  json_escape n o (c :: s) =
    if needs_escape c then 92 :: c :: json_escape n (o + 2) s else c :: json_escape n (o + 1) s.
Proof.
  intros Ho. cbn [json_escape]. change ((c =? 34) || (c =? 92)) with (needs_escape c).
  rewrite (proj2 (Nat.ltb_lt o (n - 2))) by done. cbn [negb].
  destruct (needs_escape c); cbn [andb length app].
  - rewrite (proj2 (Nat.ltb_lt _ _)) by lia. cbn [negb length app].
    by replace (o + 1 + 1)%nat with (o + 2)%nat by lia.
  - by replace (o + 0 + 1)%nat with (o + 1)%nat by lia.
Qed.

Lemma json_escape_full n o s : ~ (o < n - 2)%nat -> json_escape n o s = [].
Proof. intros Ho. destruct s; [done|]. cbn [json_escape]. by rewrite (proj2 (Nat.ltb_ge _ _)) by lia. Qed.

Lemma json_escape_length n o s : (o <= n - 1)%nat -> (o + length (json_escape n o s) <= n - 1)%nat.
Proof.
  revert o. induction s as [|c s IH]; intros o Ho; [cbn; lia|].
  destruct (decide (o < n - 2)%nat) as [Hl|Hl]; [|rewrite json_escape_full by done; cbn; lia].
  rewrite json_escape_cons by done. destruct (needs_escape c); cbn [length].
  - specialize (IH (o + 2)%nat). lia.
  - specialize (IH (o + 1)%nat). lia.
Qed.

Lemma json_escape_unescape n o s : (o + 2 * length s <= n - 2)%nat -> unescape (json_escape n o s) = s.
Proof.
  revert o. induction s as [|c s IH]; intros o Ho; [done|]. cbn [length] in Ho.
  rewrite json_escape_cons by lia. destruct (needs_escape c) eqn:Hc; cbn [unescape].
  - rewrite Z.eqb_refl. f_equal. apply IH. lia.
  - unfold needs_escape in Hc. apply orb_false_elim in Hc as [_ ->]. f_equal. apply IH. lia.
Qed.

(** Escaping fits its buffer and loses nothing: [json_escape] never writes
    more than [out_size - 1] characters and the terminator, and a JSON reader
    gets back the text, when it takes at most half the buffer. *)
Theorem json_escape_correct out_size s :
  (2 <= out_size)%nat ->
  (length (json_escape out_size 0 s) <= out_size - 1)%nat /\
  ((2 * length s <= out_size - 2)%nat -> unescape (json_escape out_size 0 s) = s).
Proof.
  intros Ho. split; [|intros Hl; apply (json_escape_unescape _ 0); lia].
  pose proof (json_escape_length out_size 0 s). lia.
Qed.

(** ** Creating an interface *)

(** The body of the documentation, for a name without quotation marks. *)
Definition interface_json (ifindex : Z) (name : bytes) (mtu : Z) : bytes :=
  [123] ++ quoted "ifindex" ++ [58] ++ 32 :: dec ifindex ++
  lit ", " ++ quoted "name" ++ lit ": " ++ [34] ++ name ++ [34] ++
  lit ", " ++ quoted "mtu" ++ [58] ++ 32 :: dec mtu ++ lit "}".

Record iface_request (ifindex : Z) (name : bytes) (mtu : Z) : Prop := {
  ir_ifindex : 0 < ifindex < 2 ^ 31;
  ir_name : is_text name /\ 34 ∉ name /\ (length name < 63)%nat;
  ir_not_key : name <> lit "mtu";
  ir_mtu : 0 < mtu < 2 ^ 16;
}.

Lemma quoted_prefix k s t : is_prefix (34 :: k ++ [34]) (34 :: s ++ 34 :: t) = true -> 34 ∉ k -> 34 ∉ s -> s = k.
Proof.
  cbn [is_prefix]. change (34 =? 34) with true. cbn [andb]. revert s. induction k as [|x k IH]; intros s Hp Hk Hs.
  - destruct s as [|y s]; [done|]. cbn [app is_prefix] in Hp. rewrite not_elem_of_cons in Hs.
    by apply andb_prop in Hp as [<-%Z.eqb_eq _]; destruct Hs.
  - rewrite not_elem_of_cons in Hk. destruct s as [|y s]; cbn [app is_prefix] in Hp.
    + apply andb_prop in Hp as [->%Z.eqb_eq _]. by destruct Hk.
    + rewrite not_elem_of_cons in Hs. apply andb_prop in Hp as [->%Z.eqb_eq Hp]. f_equal. apply IH; [done|apply Hk|apply Hs].
Qed.

Lemma skip_to_quote a s key : 34 ∉ a -> strstr (a ++ s) (quoted key) = strstr s (quoted key).
Proof. apply strstr_skip. Qed.

Section interface_json.
Context (ifindex : Z) (name : bytes) (mtu : Z) (H : iface_request ifindex name mtu).

Local Ltac number_chars :=
  pose proof (dec_chars ifindex ltac:(destruct H; lia)) as Ci; pose proof (dec_chars mtu ltac:(destruct H; lia)) as Cm.

Lemma body_ifindex : member_int (interface_json ifindex name mtu) "ifindex" = Some ifindex.
Proof.
  number_chars. unfold member_int, member, interface_json.
  rewrite (skip_to_quote [123]) by not_in.
  rewrite strstr_here. cbn [mbind option_bind]. rewrite strchr_skip by (apply (bool_decide_unpack _); vm_compute; exact I). cbn [app strchr].
  change (58 =? 58) with true. cbn [mbind option_bind drop fmap option_fmap option_map]. f_equal.
  apply atoi_dec; [destruct H; lia|done].
Qed.

Lemma body_name : member_name (interface_json ifindex name mtu) = Some name.
Proof.
  number_chars. destruct H as [_ (Hn & Hq & Hl) _ _]. unfold member_name, member, interface_json.
  rewrite (skip_to_quote [123]) by not_in.
  change (strstr (quoted "ifindex" ++ [58] ++ 32 :: ?t) ?k) with (strstr t k).
  rewrite skip_to_quote by not_in. rewrite (skip_to_quote (lit ", ")) by not_in.
  rewrite strstr_here. cbn [mbind option_bind].
  rewrite strchr_skip by (apply (bool_decide_unpack _); vm_compute; exact I). cbn [app strchr lit].
  match goal with |- context [strchr ?s 58] => change (strchr s 58) with (Some s) end.
  cbn [mbind option_bind]. cbn [drop].
  match goal with |- context [strchr ?s 34] => change (strchr s 34) with (Some (drop 1 s)) end.
  cbn [mbind option_bind].
  change (drop 1 (drop 1 (drop 1 (lit ": " ++ 34 :: ?t)))) with t. by rewrite until_quote_app by (done || lia).
Qed.

Lemma body_mtu : member_int (interface_json ifindex name mtu) "mtu" = Some mtu.
Proof.
  number_chars. destruct H as [_ (Hn & Hq & Hl) Hk Hm]. unfold member_int, member, interface_json.
  rewrite (skip_to_quote [123]) by not_in.
  change (strstr (quoted "ifindex" ++ [58] ++ 32 :: ?t) ?k) with (strstr t k).
  rewrite skip_to_quote by not_in. rewrite (skip_to_quote (lit ", ")) by not_in.
  change (strstr (quoted "name" ++ lit ": " ++ ?t) ?k) with (strstr t k).
  change ([34] ++ name ++ ?t) with (34 :: name ++ t).
  rewrite strstr_step.
  2: { apply not_true_is_false. intros Hp. apply Hk. apply (quoted_prefix (lit "mtu") name _ Hp); [not_in|done]. }
  rewrite skip_to_quote by done.
  change (strstr ([34] ++ lit ", " ++ ?t) ?k) with (strstr t k).
  rewrite strstr_here. cbn [mbind option_bind].
  rewrite strchr_skip by (apply (bool_decide_unpack _); vm_compute; exact I). cbn [app strchr]. change (58 =? 58) with true.
  cbn [mbind option_bind drop fmap option_fmap option_map]. f_equal. apply atoi_dec; [lia|done].
Qed.

End interface_json.

Lemma parse_interface_json ifindex name mtu :
  iface_request ifindex name mtu ->
  parse_interface (interface_json ifindex name mtu) =
    mk_iface ifindex (name64 name) 0 mtu (zeros 6) true false 0 0 0 no_prefix no_prefix.
Proof.
  intros H. unfold parse_interface. rewrite body_ifindex, body_name, body_mtu by done.
  destruct H as [Hi _ _ Hm]. cbn [fmap option_fmap option_map default].
  unfold u16. rewrite u32_small, (proj2 (Z.ltb_lt _ _)), Z.mod_small by (unfold is_u32; lia). done.
Qed.

Lemma name64_ok s : is_text s -> (length s <= 64)%nat -> length (name64 s) = 64%nat /\ bytes_ok (name64 s).
Proof.
  intros Ht Hl. unfold name64. rewrite length_app, length_zeros. split; [lia|].
  apply Forall_app. split; [by apply text_bytes|apply zeros_ok].
Qed.

Lemma no_prefix_wf : struct_wf no_prefix.
Proof.
  assert (Ha : struct_wf (mk_ip_addr 0 (zeros 16))).
  { split; [unfold is_uint; cbn; lia|]. split; [done|apply zeros_ok]. }
  split; [exact Ha|]. unfold is_uint. cbn. lia.
Qed.

(** A handler whose operation succeeds, when the transaction calls are
    granted: with validation it answers [done], without it the commit is
    refused. *)
Lemma rest_tx_ok now who op err done w c' :
  op (mw_core w) = (DANOS_OK, c') ->
  exists t', rest_tx (tx_granted now) who false op err done w = (done, mk_mworld t' c').
Proof.
  intros Hop. unfold rest_tx. destruct (begin_open now who w) as (x & h & r & t & -> & Hx & Hr & Ho).
  change (ok DANOS_OK) with true. cbn [negb mw_core mw_tx]. rewrite Hop. change (ok DANOS_OK) with true. cbn [negb].
  unfold rest_commit, danos_tx_prepare, danos_tx_validate, danos_tx_commit.
  erewrite tx_move_run; [|exact Hx|exact Hr|by rewrite Ho]. change (ok DANOS_OK && negb false) with true. cbv iota.
  erewrite tx_move_run; [|exact Hx|apply record_set|reflexivity]. change (ok DANOS_OK) with true. cbv iota.
  erewrite tx_move_run; [|exact Hx|apply record_set|reflexivity]. eexists. reflexivity.
Qed.

Lemma rest_tx_unvalidated now who op err done w c' :
  op (mw_core w) = (DANOS_OK, c') ->
  exists t', rest_tx (tx_granted now) who true op err done w =
    (status_error "commit failed" DANOS_ERR_TX_INVALID, mk_mworld t' c').
Proof.
  intros Hop. unfold rest_tx. destruct (begin_open now who w) as (x & h & r & t & -> & Hx & Hr & Ho).
  change (ok DANOS_OK) with true. cbn [negb mw_core mw_tx]. rewrite Hop. change (ok DANOS_OK) with true. cbn [negb].
  unfold rest_commit, danos_tx_prepare, danos_tx_commit.
  erewrite tx_move_run; [|exact Hx|exact Hr|by rewrite Ho]. change (ok DANOS_OK && negb true) with false. cbv iota.
  change (ok DANOS_OK) with true. cbv iota. unfold tx_move at 1, danos_tx_validate_ptr. cbn [with_state tx_internal mbind option_bind].
  rewrite Hx. cbn [mbind option_bind]. rewrite record_set. cbn [rec_pub with_state tx_state].
  change (tx_is DANOS_TX_VALIDATE DANOS_TX_PREPARE) with false. cbv iota. eexists. reflexivity.
Qed.

(** Where the requests of the theorems run: everything is granted. *)
Definition rest_granted (now : Z) : rest_env := mk_rest_env (tx_granted now) true true true (fun _ => true) [].

(** C32. A POST creates what its body says: with a free index, the documented
    JSON body adds exactly that interface to the object store, with its name,
    its MTU and admin up, and the response repeats it. The name is text of at
    most 62 bytes without a quotation mark and not the word mtu, the index is
    positive and below 2^31, the MTU is not 0, and the transaction is granted. *)
Theorem rest_interface_created h ifindex name mtu now r :
  prog_env h (mw_core (rs_world r)) -> iface_request ifindex name mtu ->
  objs (mw_core (rs_world r)) h !! (DANOS_OBJ_IFACE, ifindex) = None ->
  let i := mk_iface ifindex (name64 name) 0 mtu (zeros 6) true false 0 0 0 no_prefix no_prefix in
  exists r', danos_gnmi_handle_request (rest_granted now) (Some (lit "POST")) (Some (lit "/gnmi/interfaces"))
      (Some (interface_json ifindex name mtu)) r = Ret (Some (interface_created i), r') /\
    objs (mw_core (rs_world r')) h =
      <[(DANOS_OBJ_IFACE, ifindex) := to_mem i]> (objs (mw_core (rs_world r)) h).
Proof.
  intros Hp Hi Hk i.
  assert (Hw : struct_wf i).
  { destruct Hi as [H1 (H2 & _ & H3) _ H4]. unfold i.
    destruct (name64_ok name H2 ltac:(lia)). split_and!; cbn; unfold is_uint; cbn; try done; try lia;
      try apply no_prefix_wf; try apply zeros_ok. }
  destruct (fresh_create h _ DANOS_OBJ_IFACE iface_ifindex i Hp Hw ltac:(cbn; lia) Hk) as (c' & Hc & _ & Ho).
  destruct (rest_tx_ok now "gnmi-set" (danos_iface_create (Some i)) "create failed" (interface_created i)
    (rs_world r) c' Hc) as [t' Ht].
  exists (mk_rest (mk_mworld t' c') (rs_subs r) (rs_seen r)). split; [|done].
  change (danos_gnmi_handle_request _ _ _ _ _) with
    (reply (rest_granted now) (fun w => mk_rest w (rs_subs r) (rs_seen r))
       (handle_set_interface (tx_granted now) (Some (interface_json ifindex name mtu)) (rs_world r))).
  unfold handle_set_interface. change (empty_body (Some (interface_json ?a ?b ?c))) with (Some (interface_json a b c)).
  cbv iota beta. rewrite parse_interface_json by done. fold i.
  change (iface_ifindex i) with ifindex. rewrite (proj2 (Z.eqb_neq _ _)) by (destruct Hi; lia). by rewrite Ht.
Qed.

(** Every DELETE of an object that exists reports a failure: the handler
    commits a transaction it has not validated, so the response says the
    commit failed although the object is gone. *)
Theorem rest_delete_reports_failure h id now r :
  prog_env h (mw_core (rs_world r)) -> 0 < id < 2 ^ 64 ->
  is_Some (objs (mw_core (rs_world r)) h !! (DANOS_OBJ_ACL, id)) ->
  exists r', danos_gnmi_handle_request (rest_granted now) (Some (lit "DELETE"))
      (Some (lit "/gnmi/acl/tables/" ++ dec id)) None r =
      Ret (Some (js "{'error': 'commit failed: TX_INVALID'}"), r') /\
    objs (mw_core (rs_world r')) h = delete (DANOS_OBJ_ACL, id) (objs (mw_core (rs_world r)) h).
Proof.
  intros Hp Hid Hk. destruct (default_delete h _ DANOS_OBJ_ACL id Hp) as (c' & Hd & _ & Ho & _).
  rewrite decide_True in Hd by done.
  destruct (rest_tx_unvalidated now "gnmi-del-acl" (danos_acl_table_delete id) "delete failed"
    (js "{'result': 'deleted'}") (rs_world r) c' Hd) as [t' Ht].
  exists (mk_rest (mk_mworld t' c') (rs_subs r) (rs_seen r)). split; [|done].
  change (danos_gnmi_handle_request _ _ _ _ _) with
    (reply (rest_granted now) (fun w => mk_rest w (rs_subs r) (rs_seen r))
       (handle_delete_acl_table (tx_granted now) (lit "/gnmi/acl/tables/" ++ dec id) (rs_world r))).
  unfold handle_delete_acl_table, path_id. rewrite drop_app_length, <- (app_nil_r (dec id)), strtoul_dec by (done || lia).
  cbn [fst]. rewrite (proj2 (Z.eqb_neq _ _)) by lia. by rewrite Ht.
Qed.

(** ** Concrete runs *)

Definition demo_rest : rest := mk_rest (mk_mworld tx_world_start demo_prog_core) subs_boot 0.

Lemma json_escape_correct_witness : unescape (json_escape 128 0 [34; 97; 92]) = [34; 97; 92].
Proof. apply (json_escape_correct 128 [34; 97; 92]); [lia|cbn; lia]. Defined.

Lemma demo_iface_request : iface_request 42 (lit "eth0") 9000.
Proof.
  split; [lia| | |lia].
  - split; [apply (bool_decide_unpack _); vm_compute; exact I|]. split; [not_in|cbn; lia].
  - done.
Qed.

Lemma rest_interface_created_witness :
  exists r', danos_gnmi_handle_request (rest_granted 5) (Some (lit "POST")) (Some (lit "/gnmi/interfaces"))
      (Some (js "{'ifindex': 42, 'name': 'eth0', 'mtu': 9000}")) demo_rest =
    Ret (Some (js "{'result': 'created', 'ifindex': 42, 'name': 'eth0', 'mtu': 9000}"), r').
Proof.
  destruct (rest_interface_created 1 42 (lit "eth0") 9000 5 demo_rest) as (r' & Hr & _).
  - apply demo_prog_facts.
  - exact demo_iface_request.
  - cbn [demo_rest rs_world mw_core]. destruct demo_prog_facts as (_ & Ho & _). rewrite Ho. reflexivity.
  - exists r'. exact Hr.
Defined.

Definition demo_acl : danos_acl_table := mk_acl_table 7 (zeros 64) 0 true.

Lemma rest_delete_reports_failure_witness :
  exists r r', is_Some (objs (mw_core (rs_world r)) 1 !! (DANOS_OBJ_ACL, 7)) /\
    danos_gnmi_handle_request (rest_granted 5) (Some (lit "DELETE")) (Some (lit "/gnmi/acl/tables/7")) None r =
      Ret (Some (js "{'error': 'commit failed: TX_INVALID'}"), r') /\
    objs (mw_core (rs_world r')) 1 !! (DANOS_OBJ_ACL, 7) = None.
Proof.
  destruct (fresh_create 1 demo_prog_core DANOS_OBJ_ACL at_table_id demo_acl) as (c' & _ & Hp & Ho).
  - apply demo_prog_facts.
  - split; [unfold is_uint; cbn; lia|]. split; [split; [done|apply zeros_ok]|unfold is_uint; cbn; lia].
  - cbn. lia.
  - destruct demo_prog_facts as (_ & Hd & _). rewrite Hd. reflexivity.
  - assert (Hk : is_Some (objs c' 1 !! (DANOS_OBJ_ACL, 7))) by (rewrite Ho, lookup_insert_eq; by eexists).
    destruct (rest_delete_reports_failure 1 7 5 (mk_rest (mk_mworld tx_world_start c') subs_boot 0)) as (r' & Hr & Hn);
      [exact Hp|lia|exact Hk|].
    exists (mk_rest (mk_mworld tx_world_start c') subs_boot 0), r'. split; [exact Hk|]. split; [exact Hr|].
    rewrite Hn. apply lookup_delete_eq.
Defined.

(** A JSON boolean is read as a number: [true] binds the table on egress. *)
Lemma acl_ingress_true_ignored :
  at_ingress (parse_acl_table (js "{'table_id': 1, 'name': 'acl1', 'bind_ifindex': 2, 'ingress': true}")) = false.
Proof. vm_compute. reflexivity. Qed.

(** The prefix of a route is never read. *)
Lemma route_prefix_ignored body : ip_addr (pfx_addr (rt_prefix (parse_route body))) = zeros 16.
Proof. reflexivity. Qed.
