(* ===== verification/ModelPaths.v ===== *)
(** * Model paths: danos-mgmt model_paths.h / model_paths.c / model_paths_gen.inc

    The binding between gNMI paths and the fields of DPA objects.  A path
    resolves to a list, an entry or a leaf; a leaf is read from and written to
    the memory of one object.  The conversions of IPv6 addresses from and to
    text belong to the C library and are the operations of a class. *)

From stdpp Require Import base decidable list numbers strings.
From Stdlib Require Import ZArith Lia.
From S2P Require Import Prelude Dpa CStr Proto.
From S2P Require Import ObjectStore Wal EventBus Registry Persist DpaObjects Transaction Pipeline.
From S2P Require Import Zapi ZapiMapper ModelRoutes.

(** [inet_ntop] and [inet_pton] for [AF_INET6]. *)
Class inet6_lib := {
  inet_ntop6 : bytes -> bytes;
  inet_pton6 : bytes -> option bytes;
}.

(** What their documentation promises: the text is short, has no slash, and
    reads back as the address. *)
Class Inet6Laws `{L : inet6_lib} : Prop := {
  ntop6_short a : (length (inet_ntop6 a) <= 45)%nat;
  ntop6_text a : is_text (inet_ntop6 a) /\ no_slash (inet_ntop6 a);
  pton_ntop6 a : length a = 16%nat -> bytes_ok a -> inet_pton6 (inet_ntop6 a) = Some a;
  pton6_size s a : inet_pton6 s = Some a -> length a = 16%nat /\ bytes_ok a;
}.

(** [inet_pton] for [AF_INET]: four numbers of one to three digits, up to 255,
    without leading zeros. *)
Definition octet (s : bytes) : option (Z * bytes) :=
  let '(v, rest) := take_digits 0 s in
  let n := (length s - length rest)%nat in
  if (n =? 0)%nat || (255 <? v) || ((1 <? n)%nat && bool_decide (head s = Some 48)) then None
  else Some (v, rest).

Definition inet_pton4 (s : bytes) : option bytes :=
  '(a, s) ← octet s; s ← scan_dot s;
  '(b, s) ← octet s; s ← scan_dot s;
  '(c, s) ← octet s; s ← scan_dot s;
  '(d, s) ← octet s;
  match s with [] => Some [a; b; c; d] | _ => None end.

(** ** Bindings *)

Inductive gnmi_model_kind_t := GNMI_MODEL_LIST | GNMI_MODEL_ENTRY | GNMI_MODEL_LEAF.

Inductive gnmi_model_field_t :=
  | GNMI_FIELD_NONE | GNMI_FIELD_MTU | GNMI_FIELD_ENABLED | GNMI_FIELD_NAME
  | GNMI_FIELD_LINK_UP | GNMI_FIELD_IPV4_ADDRESS | GNMI_FIELD_IPV6_ADDRESS.

#[export] Instance model_kind_eq_dec : EqDecision gnmi_model_kind_t.
Proof. solve_decision. Defined.
#[export] Instance model_field_eq_dec : EqDecision gnmi_model_field_t.
Proof. solve_decision. Defined.

Record gnmi_model_binding_t := mk_binding {
  mb_kind : gnmi_model_kind_t;
  mb_obj_type : danos_obj_type;
  mb_field : gnmi_model_field_t;
  mb_config_tree : bool;
}.

Definition has_config_segment (p : gnmi_path_t) : bool :=
  existsb (fun e => streq (pe_name e) "config") (p_elems p).

(** One entry of the generated matchers: the names to compare, whether the
    second element must have a key, and the binding. *)
Record gen_entry := mk_gen {
  ge_names : list string;
  ge_kind : gnmi_model_kind_t;
  ge_type : danos_obj_type;
  ge_field : gnmi_model_field_t;
}.

Definition gen_entries : list gen_entry :=
  let iface := "interface[name]"%string in
  let leaf l f := mk_gen ("interfaces"%string :: iface :: l) GNMI_MODEL_LEAF DANOS_OBJ_IFACE f in
  [ mk_gen ["interfaces"%string] GNMI_MODEL_LIST DANOS_OBJ_IFACE GNMI_FIELD_NONE;
    mk_gen ["interfaces"%string; iface] GNMI_MODEL_ENTRY DANOS_OBJ_IFACE GNMI_FIELD_NONE;
    leaf ["config"; "mtu"]%string GNMI_FIELD_MTU;
    leaf ["config"; "enabled"]%string GNMI_FIELD_ENABLED;
    leaf ["config"; "name"]%string GNMI_FIELD_NAME;
    leaf ["config"; "ipv4-address"]%string GNMI_FIELD_NONE;
    leaf ["config"; "ipv6-address"]%string GNMI_FIELD_NONE;
    leaf ["state"; "mtu"]%string GNMI_FIELD_MTU;
    leaf ["state"; "enabled"]%string GNMI_FIELD_ENABLED;
    leaf ["state"; "link-up"]%string GNMI_FIELD_LINK_UP;
    mk_gen ["vrfs"%string] GNMI_MODEL_LIST DANOS_OBJ_VRF GNMI_FIELD_NONE;
    mk_gen ["vrfs"; "vrf[id]"]%string GNMI_MODEL_ENTRY DANOS_OBJ_VRF GNMI_FIELD_NONE;
    mk_gen ["vrfs"; "vrf[id]"; "config"; "enabled"]%string GNMI_MODEL_LEAF DANOS_OBJ_VRF GNMI_FIELD_ENABLED;
    mk_gen ["routes"%string] GNMI_MODEL_LIST DANOS_OBJ_ROUTE GNMI_FIELD_NONE ].

(** The key of the second element, where there is one. *)
Definition keyed (p : gnmi_path_t) : bool :=
  match p_elems p !! 1%nat with Some e => pe_has_key e | None => false end.

Definition gen_matches (p : gnmi_path_t) (g : gen_entry) : bool :=
  bool_decide ((pe_name <$> p_elems p) = (lit <$> ge_names g)) &&
  ((length (ge_names g) =? 1)%nat || keyed p).

Definition gnmi_model_gen_resolve (p : gnmi_path_t) : option gnmi_model_binding_t :=
  let n := length (p_elems p) in
  if (n =? 0)%nat || (GNMI_MAX_ELEMS <? n)%nat then None else
  g ← head (filter (fun g => gen_matches p g) gen_entries);
  Some (mk_binding (ge_kind g) (ge_type g) (ge_field g) (has_config_segment p)).

(** The fallback for interfaces; [None] stands for [DANOS_ERR_NOT_FOUND]. *)
Definition iface_leaf (fourth : bytes) (config : bool) : option gnmi_model_field_t :=
  if streq fourth "mtu" then Some GNMI_FIELD_MTU
  else if streq fourth "enabled" then Some GNMI_FIELD_ENABLED
  else if streq fourth "name" then Some GNMI_FIELD_NAME
  else if streq fourth "link-up" && negb config then Some GNMI_FIELD_LINK_UP
  else if streq fourth "ipv4-address" && config then Some GNMI_FIELD_IPV4_ADDRESS
  else if streq fourth "ipv6-address" && config then Some GNMI_FIELD_IPV6_ADDRESS
  else None.

Definition resolve_interfaces (p : gnmi_path_t) : option gnmi_model_binding_t :=
  let entry c := Some (mk_binding GNMI_MODEL_ENTRY DANOS_OBJ_IFACE GNMI_FIELD_NONE c) in
  match pe_name <$> p_elems p with
  | [_] => Some (mk_binding GNMI_MODEL_LIST DANOS_OBJ_IFACE GNMI_FIELD_NONE false)
  | _ :: second :: rest =>
      if negb (streq second "interface") || negb (keyed p) then None else
      match rest with
      | [] => entry false
      | third :: rest =>
          if negb (streq third "config") && negb (streq third "state") then None else
          let config := streq third "config" in
          match rest with
          | [] => entry config
          | fourth :: _ =>
              f ← iface_leaf fourth config;
              Some (mk_binding GNMI_MODEL_LEAF DANOS_OBJ_IFACE f config)
          end
      end
  | [] => None
  end.

Definition resolve_vrfs (p : gnmi_path_t) : option gnmi_model_binding_t :=
  match pe_name <$> p_elems p with
  | [_] => Some (mk_binding GNMI_MODEL_LIST DANOS_OBJ_VRF GNMI_FIELD_NONE false)
  | _ :: second :: rest =>
      if negb (streq second "vrf") || negb (keyed p) then None else
      match rest with
      | third :: fourth :: _ =>
          if streq fourth "enabled" then
            Some (mk_binding GNMI_MODEL_LEAF DANOS_OBJ_VRF GNMI_FIELD_ENABLED (streq third "config"))
          else None
      | _ => Some (mk_binding GNMI_MODEL_ENTRY DANOS_OBJ_VRF GNMI_FIELD_NONE false)
      end
  | [] => None
  end.

Definition resolve_routes (p : gnmi_path_t) : option gnmi_model_binding_t :=
  match pe_name <$> p_elems p with
  | [_] => Some (mk_binding GNMI_MODEL_LIST DANOS_OBJ_ROUTE GNMI_FIELD_NONE false)
  | [_; second] =>
      if streq second "route" && keyed p then
        Some (mk_binding GNMI_MODEL_ENTRY DANOS_OBJ_ROUTE GNMI_FIELD_NONE false)
      else None
  | _ => None
  end.

(** The hand-written part of [gnmi_model_resolve]. *)
Definition model_fallback (p : gnmi_path_t) : option gnmi_model_binding_t :=
  match pe_name <$> head (p_elems p) with
  | Some top =>
      if streq top "interfaces" then resolve_interfaces p
      else if streq top "vrfs" then resolve_vrfs p
      else if streq top "routes" then resolve_routes p
      else None
  | None => None
  end.

(** [DANOS_OK] with a binding, or [DANOS_ERR_NOT_FOUND]. *)
Definition gnmi_model_resolve (path : option gnmi_path_t) : option gnmi_model_binding_t :=
  p ← path;
  if bool_decide (p_elems p = []) then None else
  match gnmi_model_gen_resolve p with
  | Some b => Some b
  | None => model_fallback p
  end.

(** ** Values *)

Definition is_textual (k : gnmi_val_kind_t) : bool :=
  match k with
  | GNMI_VAL_STRING | GNMI_VAL_JSON | GNMI_VAL_JSON_IETF | GNMI_VAL_ASCII => true
  | _ => false
  end.

(** [out] is zero before the call. *)
Definition coerce_scalar (v : gnmi_typed_value_t) : gnmi_typed_value_t :=
  if negb (is_textual (v_kind v)) then v else
  let s := v_s v in
  if streq s "true" || streq s "1" then mk_val GNMI_VAL_BOOL [] 0 0 true
  else if streq s "false" || streq s "0" then mk_val GNMI_VAL_BOOL [] 0 0 false
  else
    let '(n, rest) := strtoul s in
    if bool_decide (rest = []) && negb (length rest =? length s)%nat then mk_val GNMI_VAL_UINT [] 0 n false
    else v.

Section leaves.
Context `{L : inet6_lib}.

Definition read_prefix (ntop : bytes -> bytes) (p : danos_ip_prefix) : gnmi_typed_value_t :=
  mk_val GNMI_VAL_STRING (take 255 (ntop (ip_addr (pfx_addr p)) ++ lit "/" ++ dec (pfx_len p))) 0 0 false.

Definition gnmi_model_read_leaf (type : danos_obj_type) (field : gnmi_model_field_t) (obj : bytes)
    : danos_status * gnmi_typed_value_t :=
  match type with
  | DANOS_OBJ_IFACE =>
      if (length obj <? sizeof danos_iface)%nat then (DANOS_ERR_INVALID_ARG, val0) else
      let i : danos_iface := of_mem obj in
      match field with
      | GNMI_FIELD_MTU => (DANOS_OK, mk_val GNMI_VAL_UINT [] 0 (iface_mtu i) false)
      | GNMI_FIELD_ENABLED => (DANOS_OK, mk_val GNMI_VAL_BOOL [] 0 0 (iface_admin_up i))
      | GNMI_FIELD_NAME => (DANOS_OK, mk_val GNMI_VAL_STRING (c_str (iface_name i)) 0 0 false)
      | GNMI_FIELD_LINK_UP => (DANOS_OK, mk_val GNMI_VAL_BOOL [] 0 0 (iface_link_up i))
      | GNMI_FIELD_IPV4_ADDRESS =>
          if negb (ip_af (pfx_addr (iface_ipv4_address i)) =? DANOS_AF_IPV4) then (DANOS_ERR_NOT_FOUND, val0)
          else (DANOS_OK, read_prefix print_quad (iface_ipv4_address i))
      | GNMI_FIELD_IPV6_ADDRESS =>
          if negb (ip_af (pfx_addr (iface_ipv6_address i)) =? DANOS_AF_IPV6) then (DANOS_ERR_NOT_FOUND, val0)
          else (DANOS_OK, read_prefix inet_ntop6 (iface_ipv6_address i))
      | GNMI_FIELD_NONE => (DANOS_ERR_INVALID_ARG, val0)
      end
  | DANOS_OBJ_VRF =>
      if (length obj <? sizeof danos_vrf)%nat then (DANOS_ERR_INVALID_ARG, val0) else
      let v : danos_vrf := of_mem obj in
      match field with
      | GNMI_FIELD_ENABLED => (DANOS_OK, mk_val GNMI_VAL_BOOL [] 0 0 (vrf_ipv4_active v))
      | _ => (DANOS_ERR_INVALID_ARG, val0)
      end
  | _ => (DANOS_ERR_INVALID_ARG, val0)
  end.

(** The address and length of a text, written over [dst]: [inet_pton] writes
    the bytes of the address and leaves the rest of the array. *)
Definition apply_prefix (af max : Z) (pton : bytes -> option bytes) (v : gnmi_typed_value_t)
    (dst : danos_ip_prefix) : option danos_ip_prefix :=
  if negb (is_textual (v_kind v)) || (80 <=? strlen (v_s v)) then None else
  '(addr, tail) ← split_slash (v_s v);
  let '(plen, rest) := strtoul tail in
  if negb (bool_decide (rest = [])) || (max <? plen) then None else
  a ← pton addr;
  Some (mk_ip_prefix (mk_ip_addr af (a ++ drop (length a) (ip_addr (pfx_addr dst)))) (u8 plen)).

(** The cases of an interface. *)
Definition apply_iface (field : gnmi_model_field_t) (val : gnmi_typed_value_t) (i : danos_iface)
    : option danos_iface :=
  match field with
  | GNMI_FIELD_MTU =>
      if negb (bool_decide (v_kind val = GNMI_VAL_UINT)) && negb (bool_decide (v_kind val = GNMI_VAL_INT))
         || (v_u val <? 68) || (9216 <? v_u val) then None
      else Some (mk_iface (iface_ifindex i) (iface_name i) (iface_type i) (u16 (v_u val)) (iface_mac i)
                   (iface_admin_up i) (iface_link_up i) (iface_parent_ifindex i) (iface_outer_vlan i)
                   (iface_inner_vlan i) (iface_ipv4_address i) (iface_ipv6_address i))
  | GNMI_FIELD_ENABLED =>
      if negb (bool_decide (v_kind val = GNMI_VAL_BOOL)) then None
      else Some (mk_iface (iface_ifindex i) (iface_name i) (iface_type i) (iface_mtu i) (iface_mac i)
                   (v_b val) (iface_link_up i) (iface_parent_ifindex i) (iface_outer_vlan i)
                   (iface_inner_vlan i) (iface_ipv4_address i) (iface_ipv6_address i))
  | GNMI_FIELD_IPV4_ADDRESS =>
      p ← apply_prefix DANOS_AF_IPV4 32 inet_pton4 val (iface_ipv4_address i);
      Some (mk_iface (iface_ifindex i) (iface_name i) (iface_type i) (iface_mtu i) (iface_mac i)
              (iface_admin_up i) (iface_link_up i) (iface_parent_ifindex i) (iface_outer_vlan i)
              (iface_inner_vlan i) p (iface_ipv6_address i))
  | GNMI_FIELD_IPV6_ADDRESS =>
      p ← apply_prefix DANOS_AF_IPV6 128 inet_pton6 val (iface_ipv6_address i);
      Some (mk_iface (iface_ifindex i) (iface_name i) (iface_type i) (iface_mtu i) (iface_mac i)
              (iface_admin_up i) (iface_link_up i) (iface_parent_ifindex i) (iface_outer_vlan i)
              (iface_inner_vlan i) (iface_ipv4_address i) p)
  | _ => None
  end.

(** [None] is [DANOS_ERR_INVALID_ARG], the only error. *)
Definition gnmi_model_apply_leaf (type : danos_obj_type) (field : gnmi_model_field_t) (obj : option bytes)
    (val_raw : option gnmi_typed_value_t) : option bytes :=
  match obj, val_raw with
  | Some obj, Some val_raw =>
      let val := coerce_scalar val_raw in
      match type with
      | DANOS_OBJ_IFACE =>
          if (length obj <? sizeof danos_iface)%nat then None else
          i ← apply_iface field val (of_mem obj);
          Some (to_mem i ++ drop (sizeof danos_iface) obj)
      | DANOS_OBJ_VRF =>
          if (length obj <? sizeof danos_vrf)%nat then None else
          let v : danos_vrf := of_mem obj in
          match field with
          | GNMI_FIELD_ENABLED =>
              if bool_decide (v_kind val = GNMI_VAL_BOOL) then
                Some (to_mem (mk_vrf (vrf_vrf_id v) (vrf_name v) (v_b val) (vrf_ipv6_active v)) ++
                      drop (sizeof danos_vrf) obj)
              else None
          | _ => None
          end
      | _ => None
      end
  | _, _ => None
  end.

End leaves.

(** The advertised models. *)
Definition k_supported_models : list gnmi_model_data_t :=
  [ mk_model (lit "openconfig-interfaces") (lit "OpenConfig") (lit "2.4.1");
    mk_model (lit "openconfig-network-instance") (lit "OpenConfig") (lit "0.16.2");
    mk_model (lit "danos-dpa") (lit "DANOS-Open") (lit "0.3") ].

Definition gnmi_model_supported_models : list gnmi_model_data_t := k_supported_models.

(** ** Resolution *)

(** Names as clients send them: keys are not part of the name. *)
Definition plain_name (s : bytes) : Prop := 91 ∉ s.

Definition plain_path (p : gnmi_path_t) : Prop := Forall plain_name (pe_name <$> p_elems p).

Lemma plain_not s l : plain_name s -> 91 ∈ lit l -> s <> lit l.
Proof. intros Hs Hl ->. done. Qed.

(** A generated matcher with a key compares against a name with a bracket. *)
Lemma gen_keyed_dead p g :
  plain_path p -> g ∈ gen_entries -> length (ge_names g) <> 1%nat -> gen_matches p g = false.
Proof.
  intros Hp Hg Hn. unfold gen_matches.
  assert (Hb : exists n, n ∈ (lit <$> ge_names g) /\ 91 ∈ n).
  { cbv [gen_entries] in Hg. repeat (apply elem_of_cons in Hg as [->|Hg]; [|]); try (by cbn in Hn);
      [eexists; (split; [apply elem_of_cons; right; apply elem_of_cons; left; reflexivity|]);
       apply (bool_decide_unpack _); vm_compute; exact I..|by apply elem_of_nil in Hg]. }
  destruct Hb as (n & Hin & Hbr). rewrite bool_decide_eq_false_2; [done|].
  intros Heq. rewrite <- Heq in Hin. unfold plain_path in Hp. rewrite Forall_forall in Hp.
  exact (Hp n Hin Hbr).
Qed.

(** The generated matchers add nothing to the hand-written resolution: for
    a path whose element names are plain names, as every client sends them,
    [gnmi_model_resolve] gives what the fallback alone gives.  The matchers
    that are documented as authoritative compare a keyed element's name with
    the text of its pattern, brackets included, and never fire. *)
Theorem model_resolve_is_fallback p :
  plain_path p -> (length (p_elems p) <= GNMI_MAX_ELEMS)%nat ->
  gnmi_model_resolve (Some p) = model_fallback p.
Proof.
  intros Hp Hlen. unfold gnmi_model_resolve. cbn [mbind option_bind].
  destruct (p_elems p) as [|e es] eqn:He.
  { rewrite bool_decide_eq_true_2 by done. unfold model_fallback. by rewrite He. }
  rewrite bool_decide_eq_false_2 by done.
  unfold gnmi_model_gen_resolve. destruct (_ || _); [done|].
  destruct (head (filter _ gen_entries)) as [g|] eqn:Hg; [|done]. cbn [mbind option_bind].
  assert (Hin : g ∈ filter (fun g => gen_matches p g) gen_entries).
  { destruct (filter _ _); [done|]. cbn in Hg. injection Hg as ->. constructor. }
  apply list_elem_of_filter in Hin as [Hm Hin].
  assert (Hn : length (ge_names g) = 1%nat).
  { destruct (decide (length (ge_names g) = 1%nat)); [done|].
    apply Is_true_true in Hm. by rewrite (gen_keyed_dead p g Hp Hin) in Hm. }
  apply andb_prop_elim in Hm as [Hm _]. apply bool_decide_unpack in Hm.
  unfold model_fallback, has_config_segment. rewrite He in Hm |- *.
  cbv [gen_entries] in Hin.
  repeat (apply elem_of_cons in Hin as [->|Hin]; [try (by cbn in Hn)|]); [..|by apply elem_of_nil in Hin].
  all: cbn [ge_names fmap list_fmap] in Hm; injection Hm as Hname Hes; apply fmap_nil_inv in Hes; subst es.
  all: cbn [head fmap option_fmap option_map existsb]; rewrite Hname.
  all: unfold resolve_interfaces, resolve_vrfs, resolve_routes; rewrite He; reflexivity.
Qed.

(** ** Text of addresses *)

Lemma take_digits_all s acc v : take_digits acc s = (v, []) -> Forall (fun c => is_digit c = true) s.
Proof.
  revert acc. induction s as [|c s IH]; intros acc; [constructor|]. cbn [take_digits].
  destruct (is_digit c) eqn:Hc; [|done]. intros H. constructor; [done|]. by eapply IH.
Qed.

Lemma skip_spaces_in c s : is_space c = false -> c ∈ s -> c ∈ skip_spaces s.
Proof.
  intros Hc. induction s as [|d s IH]; [done|]. cbn [skip_spaces]. destruct (is_space d) eqn:Hd; [|done].
  intros [->|Hin]%elem_of_cons; [congruence|]. by apply IH.
Qed.

(** A number never extends over a slash. *)
Lemma strtoul_slash s : 47 ∈ s -> snd (strtoul s) <> [].
Proof.
  intros Hs. unfold strtoul. apply (skip_spaces_in 47) in Hs as Ht; [|done].
  assert (Hin : 47 ∈ snd (take_sign (skip_spaces s))).
  { destruct (skip_spaces s) as [|c t]; [done|]. cbn [take_sign].
    apply elem_of_cons in Ht as [<-|Ht]; [by constructor|].
    destruct (c =? 45); [done|]. destruct (c =? 43); [done|]. by constructor. }
  destruct (take_sign _) as [neg t]. cbn [snd] in Hin. destruct (starts_digit t).
  - destruct (take_digits 0 t) as [v rest] eqn:Hd. cbn. intros ->.
    apply take_digits_all in Hd. rewrite Forall_forall in Hd. by specialize (Hd 47 Hin).
  - cbn. intros ->. by apply not_elem_of_nil in Hs.
Qed.

Lemma slash_not_lit s l : 47 ∈ s -> 47 ∉ lit l -> streq s l = false.
Proof. intros Hs Hl. apply bool_decide_eq_false_2. by intros ->. Qed.

Lemma coerce_slash v : 47 ∈ v_s v -> coerce_scalar v = v.
Proof.
  intros Hs. unfold coerce_scalar. destruct (negb _); [done|].
  rewrite !slash_not_lit by (done || (apply (bool_decide_unpack _); vm_compute; exact I)). cbn [orb].
  pose proof (strtoul_slash _ Hs) as Hr. destruct (strtoul (v_s v)) as [n rest]. cbn in Hr.
  by rewrite bool_decide_eq_false_2.
Qed.

Definition no_leading_zero (n : Z) : bool :=
  (length (dec n) =? 1)%nat || negb (bool_decide (head (dec n) = Some 48)).

Lemma byte_no_leading_zero n : is_byte n -> no_leading_zero n = true.
Proof.
  intros Hn. assert (Hall : forallb (fun k => no_leading_zero (Z.of_nat k)) (seq 0 256) = true)
    by (vm_compute; reflexivity).
  rewrite forallb_forall in Hall. unfold is_byte in Hn.
  rewrite <- (Z2Nat.id n) by lia. apply Hall. apply in_seq. lia.
Qed.

Lemma octet_dec n t : is_byte n -> starts_digit t = false -> octet (dec n ++ t) = Some (n, t).
Proof.
  intros Hn Ht. pose proof (byte_no_leading_zero n Hn) as Hz. unfold is_byte in Hn. unfold octet.
  unfold no_leading_zero in Hz. unfold dec in *. destruct (dec_digits_read 20 n) as (Hne & Hd & Hr); [lia|lia|].
  set (ds := dec_digits 20 n []) in *. clearbody ds.
  rewrite take_digits_app, Hr by done. cbn [fst].
  assert (take_digits n t = (n, t)) as ->.
  { destruct t as [|c' t]; [done|]. cbn in *. by rewrite Ht. }
  rewrite length_app. replace (length ds + length t - length t)%nat with (length ds) by lia.
  destruct ds as [|c ds]; [done|]. cbn [app head length] in *.
  rewrite (proj2 (Z.ltb_ge 255 n)) by lia. cbn [Nat.eqb orb].
  apply orb_true_iff in Hz as [Hz|Hz].
  - apply Nat.eqb_eq in Hz. rewrite (proj2 (Nat.ltb_ge 1 _)) by lia. done.
  - apply negb_true_iff in Hz. rewrite Hz, andb_false_r. done.
Qed.

Lemma pton_print_quad a b c d rest :
  Forall is_byte [a; b; c; d] -> inet_pton4 (print_quad ([a; b; c; d] ++ rest)) = Some [a; b; c; d].
Proof.
  intros Hb. rewrite print_quad_eq. unfold inet_pton4. rewrite !Forall_cons in Hb.
  destruct Hb as (Ha & Hb & Hc & Hd & _).
  do 3 (rewrite octet_dec by done; cbn [mbind option_bind scan_dot Z.eqb Pos.eqb]).
  rewrite <- (app_nil_r (dec d)), octet_dec by done. done.
Qed.

Lemma prefix_text_reads ntop pton af max p a :
  let addr := ip_addr (pfx_addr p) in
  (length (ntop addr) <= 45)%nat -> no_slash (ntop addr) -> pton (ntop addr) = Some a ->
  a ++ drop (length a) addr = addr -> ip_af (pfx_addr p) = af ->
  0 <= pfx_len p <= max -> max <= 128 ->
  let w := read_prefix ntop p in coerce_scalar w = w /\ apply_prefix af max pton w p = Some p.
Proof.
  intros addr Hl Hs Hp Ha Haf Hn Hmax w.
  pose proof (dec_short (pfx_len p) ltac:(lia)) as Hd.
  assert (Hw : v_s w = ntop addr ++ 47 :: dec (pfx_len p)).
  { cbn [w v_s read_prefix]. fold addr. change (lit "/") with [47].
    rewrite take_ge by (rewrite !length_app; cbn [length]; lia). done. }
  split.
  - apply coerce_slash. rewrite Hw. apply elem_of_app. right. constructor.
  - unfold apply_prefix. change (is_textual (v_kind w)) with true. rewrite Hw.
    unfold strlen. rewrite (proj2 (Z.leb_gt 80 _)) by (rewrite length_app; cbn [length]; lia).
    cbn [negb orb]. rewrite split_slash_app by done. cbn [mbind option_bind].
    rewrite <- (app_nil_r (dec _)), strtoul_dec by (done || lia).
    rewrite bool_decide_eq_true_2, (proj2 (Z.ltb_ge max _)) by (done || lia). cbn [negb orb].
    rewrite Hp. cbn [mbind option_bind]. fold addr. rewrite Ha, u8_small by (unfold is_byte; lia).
    destruct p as [[af' ad] len]. cbn in *. by subst.
Qed.

(** ** Leaves *)

Lemma octet_byte s v rest : octet s = Some (v, rest) -> is_byte v.
Proof.
  unfold octet. pose proof (take_digits_nonneg s 0 ltac:(lia)) as Hn.
  destruct (take_digits 0 s) as [v' rest']. cbn in Hn.
  destruct (Z.ltb_spec 255 v'); [by rewrite orb_true_r|].
  destruct (_ || _); [done|]. intros [= <- _]. unfold is_byte. lia.
Qed.

Lemma pton4_size s a : inet_pton4 s = Some a -> length a = 4%nat /\ bytes_ok a.
Proof.
  unfold inet_pton4. intros H.
  repeat match type of H with
  | (_ ← octet ?s; _) = Some _ =>
      let E := fresh "E" in destruct (octet s) as [[? ?]|] eqn:E; [apply octet_byte in E|done]; cbn [mbind option_bind] in H
  | (_ ← scan_dot ?s; _) = Some _ => destruct (scan_dot s); [|done]; cbn [mbind option_bind] in H
  end.
  case_match; [|done]. injection H as <-. split; [done|]. by rewrite !Forall_cons.
Qed.

Lemma split_slash_inv s a t : split_slash s = Some (a, t) -> s = a ++ lit "/" ++ t.
Proof.
  revert a. induction s as [|c s IH]; intros a H; [done|]. cbn [split_slash] in H.
  destruct (Z.eqb_spec c 47) as [->|Hc]; [by injection H as <- <-|].
  destruct (split_slash s) as [[a' t']|]; [|done]. injection H as <- <-. by rewrite (IH a' eq_refl).
Qed.

Section leaf_laws.
Context `{LL : Inet6Laws}.

Lemma apply_prefix_facts af max pton k v dst p :
  (forall s a, pton s = Some a -> length a = k /\ bytes_ok a) -> (k <= 16)%nat -> max <= 128 ->
  is_uint 4 af -> struct_wf dst -> apply_prefix af max pton v dst = Some p ->
  struct_wf p /\ ip_af (pfx_addr p) = af /\ 0 <= pfx_len p <= max /\
  length (take k (ip_addr (pfx_addr p))) = k.
Proof.
  intros Hpton Hk Hmax Haf (( _ & Hl & Hb) & _) H. unfold apply_prefix in H.
  destruct (negb (is_textual (v_kind v)) || _); [done|].
  destruct (split_slash (v_s v)) as [[addr tail]|]; [|done]. cbn [mbind option_bind] in H.
  pose proof (strtoul_nonneg tail) as Hpos. destruct (strtoul tail) as [plen rest]. cbn in Hpos.
  destruct (Z.ltb_spec max plen); [by rewrite orb_true_r in H|].
  destruct (negb (bool_decide (rest = [])) || false); [done|].
  destruct (pton addr) as [a|] eqn:Ha; [|done]. cbn in H. injection H as <-.
  apply Hpton in Ha as [Hla Hba]. cbn [pfx_addr pfx_len ip_af ip_addr].
  rewrite u8_small by (unfold is_byte; lia).
  assert (Hwf : length (a ++ drop (length a) (ip_addr (pfx_addr dst))) = 16%nat).
  { rewrite length_app, length_drop, Hl, Hla. lia. }
  refine (conj (conj (conj Haf (conj Hwf _)) _) (conj eq_refl (conj _ _))).
  - apply Forall_app. split; [done|]. by apply Forall_drop.
  - unfold is_uint. cbn. lia.
  - lia.
  - rewrite length_take, Hwf. lia.
Qed.

Lemma ip4_shape l : length l = 16%nat -> bytes_ok l ->
  exists a b c d, Forall is_byte [a; b; c; d] /\ l = [a; b; c; d] ++ drop 4 l.
Proof.
  intros Hl Hb. destruct l as [|a [|b [|c [|d l]]]]; try discriminate.
  exists a, b, c, d. rewrite !Forall_cons in Hb. destruct Hb as (? & ? & ? & ? & _). split; [|done].
  by rewrite !Forall_cons.
Qed.

Lemma prefix4_again p :
  struct_wf p -> ip_af (pfx_addr p) = DANOS_AF_IPV4 -> 0 <= pfx_len p <= 32 ->
  let w := read_prefix print_quad p in
  coerce_scalar w = w /\ apply_prefix DANOS_AF_IPV4 32 inet_pton4 w p = Some p.
Proof.
  intros ((_ & Hl & Hb) & _) Haf Hn.
  destruct (ip4_shape _ Hl Hb) as (a & b & c & d & Hq & Hs).
  destruct (print_quad_text a b c d (drop 4 (ip_addr (pfx_addr p))) Hq) as [Ht1 Ht2]. rewrite <- Hs in Ht1, Ht2.
  apply (prefix_text_reads print_quad inet_pton4 DANOS_AF_IPV4 32 p [a; b; c; d]); try done; try lia.
  rewrite Hs. by apply pton_print_quad.
Qed.

Lemma prefix6_again p :
  struct_wf p -> ip_af (pfx_addr p) = DANOS_AF_IPV6 -> 0 <= pfx_len p <= 128 ->
  let w := read_prefix inet_ntop6 p in
  coerce_scalar w = w /\ apply_prefix DANOS_AF_IPV6 128 inet_pton6 w p = Some p.
Proof.
  intros ((_ & Hl & Hb) & _) Haf Hn.
  apply (prefix_text_reads inet_ntop6 inet_pton6 DANOS_AF_IPV6 128 p (ip_addr (pfx_addr p)));
    [apply ntop6_short|apply ntop6_text|by apply pton_ntop6| |done|lia|lia].
  by rewrite drop_all, app_nil_r.
Qed.

(** What a write of one field leaves alone: every other leaf, and the key. *)
Lemma apply_iface_frame f v i i' :
  apply_iface f v i = Some i' ->
  iface_ifindex i' = iface_ifindex i /\ iface_name i' = iface_name i /\
  iface_link_up i' = iface_link_up i /\
  (f <> GNMI_FIELD_MTU -> iface_mtu i' = iface_mtu i) /\
  (f <> GNMI_FIELD_ENABLED -> iface_admin_up i' = iface_admin_up i) /\
  (f <> GNMI_FIELD_IPV4_ADDRESS -> iface_ipv4_address i' = iface_ipv4_address i) /\
  (f <> GNMI_FIELD_IPV6_ADDRESS -> iface_ipv6_address i' = iface_ipv6_address i).
Proof.
  unfold apply_iface. intros H. destruct f; try done.
  - destruct (_ || _); [done|]. by injection H as <-.
  - destruct (negb _); [done|]. by injection H as <-.
  - destruct (apply_prefix _ _ _ _ _); [|done]. by injection H as <-.
  - destruct (apply_prefix _ _ _ _ _); [|done]. by injection H as <-.
Qed.

Lemma read_leaf_iface f i :
  struct_wf i ->
  gnmi_model_read_leaf DANOS_OBJ_IFACE f (to_mem i) =
    match f with
    | GNMI_FIELD_MTU => (DANOS_OK, mk_val GNMI_VAL_UINT [] 0 (iface_mtu i) false)
    | GNMI_FIELD_ENABLED => (DANOS_OK, mk_val GNMI_VAL_BOOL [] 0 0 (iface_admin_up i))
    | GNMI_FIELD_NAME => (DANOS_OK, mk_val GNMI_VAL_STRING (c_str (iface_name i)) 0 0 false)
    | GNMI_FIELD_LINK_UP => (DANOS_OK, mk_val GNMI_VAL_BOOL [] 0 0 (iface_link_up i))
    | GNMI_FIELD_IPV4_ADDRESS =>
        if negb (ip_af (pfx_addr (iface_ipv4_address i)) =? DANOS_AF_IPV4) then (DANOS_ERR_NOT_FOUND, val0)
        else (DANOS_OK, read_prefix print_quad (iface_ipv4_address i))
    | GNMI_FIELD_IPV6_ADDRESS =>
        if negb (ip_af (pfx_addr (iface_ipv6_address i)) =? DANOS_AF_IPV6) then (DANOS_ERR_NOT_FOUND, val0)
        else (DANOS_OK, read_prefix inet_ntop6 (iface_ipv6_address i))
    | GNMI_FIELD_NONE => (DANOS_ERR_INVALID_ARG, val0)
    end.
Proof.
  intros Hw. unfold gnmi_model_read_leaf.
  by rewrite (length_to_mem i Hw), Nat.ltb_irrefl, (of_to_mem i Hw).
Qed.

Lemma apply_iface_wf f v i i' : struct_wf i -> apply_iface f v i = Some i' -> struct_wf i'.
Proof.
  intros (H1 & H2 & H3 & H4 & H5 & H6 & H7 & H8 & H9 & H10) H. unfold apply_iface in H. destruct f; try done.
  - destruct (_ || _); [done|]. injection H as <-.
    refine (conj H1 (conj H2 (conj H3 (conj _ (conj H5 (conj H6 (conj H7 (conj H8 (conj H9 H10))))))))).
    apply (u16_range (v_u v)).
  - destruct (negb _); [done|]. injection H as <-.
    exact (conj H1 (conj H2 (conj H3 (conj H4 (conj H5 (conj H6 (conj H7 (conj H8 (conj H9 H10))))))))).
  - destruct (apply_prefix _ _ _ _ _) as [p|] eqn:Hp; [|done]. injection H as <-.
    apply (apply_prefix_facts _ _ _ 4) in Hp as (Hp & _);
      [|apply pton4_size|lia|lia|unfold is_uint, DANOS_AF_IPV4; cbn; lia|done].
    exact (conj H1 (conj H2 (conj H3 (conj H4 (conj H5 (conj H6 (conj H7 (conj H8 (conj Hp H10))))))))).
  - destruct (apply_prefix _ _ _ _ _) as [p|] eqn:Hp; [|done]. injection H as <-.
    apply (apply_prefix_facts _ _ _ 16) in Hp as (Hp & _);
      [|apply pton6_size|lia|lia|unfold is_uint, DANOS_AF_IPV6; cbn; lia|done].
    exact (conj H1 (conj H2 (conj H3 (conj H4 (conj H5 (conj H6 (conj H7 (conj H8 (conj H9 Hp))))))))).
Qed.

(** Reading the written leaf and writing the result again. *)
Lemma apply_iface_again f v i i' :
  struct_wf i -> apply_iface f v i = Some i' ->
  exists w, gnmi_model_read_leaf DANOS_OBJ_IFACE f (to_mem i') = (DANOS_OK, w) /\
    apply_iface f (coerce_scalar w) i' = Some i'.
Proof.
  intros Hi H. pose proof (apply_iface_wf f v i i' Hi H) as Hi'. rewrite (read_leaf_iface f i' Hi').
  unfold apply_iface in H. destruct f; try done.
  - destruct (v_u v <? 68) eqn:E1; [by rewrite orb_true_r in H|].
    destruct (9216 <? v_u v) eqn:E2; [by rewrite orb_true_r in H|].
    destruct (_ || _); [done|]. injection H as <-. eexists. split; [reflexivity|].
    bool_prop. cbn [coerce_scalar is_textual v_kind negb apply_iface v_u iface_mtu].
    unfold u16. rewrite Z.mod_small by lia. rewrite bool_decide_eq_true_2 by done. cbn [negb andb orb].
    rewrite (proj2 (Z.ltb_ge _ 68)), (proj2 (Z.ltb_ge 9216 _)) by lia. cbn [orb].
    unfold u16. by rewrite Z.mod_small by lia.
  - destruct (negb _); [done|]. injection H as <-. eexists. split; [reflexivity|]. done.
  - destruct (apply_prefix _ _ _ _ _) as [p|] eqn:Hp; [|done]. injection H as <-.
    destruct Hi as (_ & _ & _ & _ & _ & _ & _ & _ & H9 & _).
    apply (apply_prefix_facts _ _ _ 4) in Hp as (Hp & Haf & Hn & _);
      [|apply pton4_size|lia|lia|unfold is_uint, DANOS_AF_IPV4; cbn; lia|done].
    cbn [iface_ipv4_address]. rewrite Haf. eexists. split; [reflexivity|].
    destruct (prefix4_again p Hp Haf Hn) as [-> Ha]. cbn [apply_iface iface_ipv4_address]. by rewrite Ha.
  - destruct (apply_prefix _ _ _ _ _) as [p|] eqn:Hp; [|done]. injection H as <-.
    destruct Hi as (_ & _ & _ & _ & _ & _ & _ & _ & _ & H10).
    apply (apply_prefix_facts _ _ _ 16) in Hp as (Hp & Haf & Hn & _);
      [|apply pton6_size|lia|lia|unfold is_uint, DANOS_AF_IPV6; cbn; lia|done].
    cbn [iface_ipv6_address]. rewrite Haf. eexists. split; [reflexivity|].
    destruct (prefix6_again p Hp Haf Hn) as [-> Ha]. cbn [apply_iface iface_ipv6_address]. by rewrite Ha.
Qed.

Lemma apply_leaf_iface f v i :
  struct_wf i ->
  gnmi_model_apply_leaf DANOS_OBJ_IFACE f (Some (to_mem i)) (Some v) =
    to_mem <$> apply_iface f (coerce_scalar v) i.
Proof.
  intros Hi. unfold gnmi_model_apply_leaf.
  rewrite (length_to_mem i Hi), Nat.ltb_irrefl, (of_to_mem i Hi).
  destruct (apply_iface _ _ _); [|done]. cbn. f_equal.
  rewrite drop_ge by (by rewrite (length_to_mem i Hi)). apply app_nil_r.
Qed.

(** What a written value says: a number, a truth value or an address with a
    prefix length, as themselves or as text.  An empty length is 0. *)
Definition says_number (v : gnmi_typed_value_t) (n : Z) : Prop :=
  (v_kind v = GNMI_VAL_UINT \/ v_kind v = GNMI_VAL_INT) /\ v_u v = n \/
  is_textual (v_kind v) = true /\ strtoul (v_s v) = (n, []).

Definition says_bool (v : gnmi_typed_value_t) (b : bool) : Prop :=
  v_kind v = GNMI_VAL_BOOL /\ v_b v = b \/
  is_textual (v_kind v) = true /\ v_s v ∈ (if b then [lit "true"; lit "1"] else [lit "false"; lit "0"]).

Definition says_prefix (pton : bytes -> option bytes) (v : gnmi_typed_value_t) (a : bytes) (n : Z) : Prop :=
  is_textual (v_kind v) = true /\
  exists addr len, v_s v = addr ++ lit "/" ++ len /\ pton addr = Some a /\ strtoul len = (n, []).

Definition reads_as (f : gnmi_model_field_t) (v w : gnmi_typed_value_t) : Prop :=
  match f with
  | GNMI_FIELD_MTU => exists n, says_number v n /\ 68 <= n <= 9216 /\ w = mk_val GNMI_VAL_UINT [] 0 n false
  | GNMI_FIELD_ENABLED => exists b, says_bool v b /\ w = mk_val GNMI_VAL_BOOL [] 0 0 b
  | GNMI_FIELD_IPV4_ADDRESS =>
      exists a n, says_prefix inet_pton4 v a n /\ 0 <= n <= 32 /\
        w = mk_val GNMI_VAL_STRING (print_quad a ++ lit "/" ++ dec n) 0 0 false
  | GNMI_FIELD_IPV6_ADDRESS =>
      exists a n, says_prefix inet_pton6 v a n /\ 0 <= n <= 128 /\
        w = mk_val GNMI_VAL_STRING (inet_ntop6 a ++ lit "/" ++ dec n) 0 0 false
  | _ => False
  end.

Lemma coerce_number v :
  v_kind (coerce_scalar v) = GNMI_VAL_UINT \/ v_kind (coerce_scalar v) = GNMI_VAL_INT ->
  says_number v (v_u (coerce_scalar v)).
Proof.
  unfold coerce_scalar. destruct (is_textual (v_kind v)) eqn:Et; cbn [negb]; [|by left].
  destruct (_ || _); [by intros [|]|]. destruct (_ || _); [by intros [|]|].
  destruct (strtoul (v_s v)) as [n rest] eqn:Hs. case_bool_decide as Hr; cbn [andb].
  - destruct (negb _); [subst rest; intros _; right; by rewrite Et|].
    intros [H|H]; rewrite H in Et; done.
  - intros [H|H]; rewrite H in Et; done.
Qed.

Lemma coerce_truth v : v_kind (coerce_scalar v) = GNMI_VAL_BOOL -> says_bool v (v_b (coerce_scalar v)).
Proof.
  unfold coerce_scalar. destruct (is_textual (v_kind v)) eqn:Et; cbn [negb]; [|by left].
  intros H. right. split; [done|]. revert H. unfold streq.
  repeat case_bool_decide; cbn [orb v_b]; try (intros _; rewrite !elem_of_cons; by auto).
  all: destruct (strtoul (v_s v)) as [n rest]; case_bool_decide; cbn [andb];
    try destruct (negb _); cbn [v_kind]; intros Hk; try done; by rewrite Hk in Et.
Qed.

Lemma coerce_text v : is_textual (v_kind (coerce_scalar v)) = true -> coerce_scalar v = v.
Proof.
  unfold coerce_scalar. destruct (is_textual (v_kind v)) eqn:Et; cbn [negb]; [|done].
  destruct (_ || _); [done|]. destruct (_ || _); [done|]. destruct (strtoul (v_s v)) as [n rest].
  by destruct (_ && _).
Qed.

Lemma prefix_says af max pton ntop k v dst p :
  (forall s a, pton s = Some a -> length a = k /\ bytes_ok a) ->
  (forall a rest, length a = k -> bytes_ok a -> length (a ++ rest) = 16%nat ->
     ntop (a ++ rest) = ntop a /\ (length (ntop a) <= 45)%nat) ->
  max <= 128 -> (k <= 16)%nat -> length (ip_addr (pfx_addr dst)) = 16%nat ->
  apply_prefix af max pton (coerce_scalar v) dst = Some p ->
  exists a n, says_prefix pton v a n /\ 0 <= n <= max /\
    read_prefix ntop p = mk_val GNMI_VAL_STRING (ntop a ++ lit "/" ++ dec n) 0 0 false.
Proof.
  intros Hpton Hntop Hmax Hk Hdst H. unfold apply_prefix in H.
  destruct (is_textual (v_kind (coerce_scalar v))) eqn:Et; [|done]. cbn [negb orb] in H.
  rewrite coerce_text in H by done. rewrite coerce_text in Et by done.
  destruct (80 <=? strlen (v_s v)); [done|].
  destruct (split_slash (v_s v)) as [[addr tail]|] eqn:Es; [|done]. cbn [mbind option_bind] in H.
  pose proof (strtoul_nonneg tail) as Hpos. destruct (strtoul tail) as [n rest] eqn:El. cbn in Hpos.
  case_bool_decide as Hr; [subst rest|done]. cbn [negb orb] in H. destruct (Z.ltb_spec max n) as [|Hn]; [done|].
  destruct (pton addr) as [a|] eqn:Ha; [|done]. cbn [mbind option_bind] in H. injection H as <-.
  exists a, n. split; [split; [done|exists addr, tail; split; [by apply split_slash_inv|done]]|]. split; [lia|].
  destruct (Hpton addr a Ha) as [Hl Hb]. unfold read_prefix. cbn [pfx_addr pfx_len ip_addr].
  rewrite u8_small by (unfold is_byte; lia). pose proof (dec_short n ltac:(lia)) as Hd.
  destruct (Hntop a (drop (length a) (ip_addr (pfx_addr dst))) Hl Hb) as [-> Hs];
    [rewrite length_app, length_drop; lia|].
  change (lit "/") with [47]. rewrite take_ge by (rewrite !length_app; cbn [length]; lia). done.
Qed.

Lemma apply_iface_says f v i i' :
  struct_wf i -> apply_iface f (coerce_scalar v) i = Some i' ->
  exists w, gnmi_model_read_leaf DANOS_OBJ_IFACE f (to_mem i') = (DANOS_OK, w) /\ reads_as f v w.
Proof.
  intros Hi H. pose proof (apply_iface_wf f _ i i' Hi H) as Hi'. rewrite (read_leaf_iface f i' Hi').
  unfold apply_iface in H. destruct f; try done; cbn [reads_as].
  - destruct (Z.ltb_spec (v_u (coerce_scalar v)) 68) as [|H1]; [by rewrite orb_true_r in H|].
    destruct (Z.ltb_spec 9216 (v_u (coerce_scalar v))) as [|H2]; [by rewrite orb_true_r in H|].
    destruct (negb _ && negb _) eqn:Ek; [done|]. injection H as <-. eexists. split; [reflexivity|].
    exists (v_u (coerce_scalar v)). split; [|split; [lia|]].
    + apply coerce_number. apply andb_false_iff in Ek as [Ek|Ek]; apply negb_false_iff, bool_decide_eq_true in Ek; auto.
    + cbn [iface_mtu]. unfold u16. by rewrite Z.mod_small by lia.
  - case_bool_decide as Ek; [|done]. injection H as <-. eexists. split; [reflexivity|].
    exists (v_b (coerce_scalar v)). split; [by apply coerce_truth|done].
  - destruct (apply_prefix _ _ _ _ _) as [p|] eqn:Hp; [|done]. injection H as <-. cbn [iface_ipv4_address].
    destruct Hi as (_ & _ & _ & _ & _ & _ & _ & _ & H9 & _).
    pose proof Hp as Haf. apply (apply_prefix_facts _ _ _ 4) in Haf as (_ & Haf & _);
      [|apply pton4_size|lia|lia|unfold is_uint, DANOS_AF_IPV4; cbn; lia|done]. rewrite Haf.
    eexists. split; [reflexivity|]. destruct H9 as ((_ & Hl & _) & _).
    eapply (prefix_says _ 32 _ print_quad 4); [apply pton4_size| |lia|lia|done|exact Hp].
    intros a rest Ha Hb _. do 4 (destruct a as [|? a]; [done|]). destruct a; [|done].
    split; [done|]. etrans; [by apply (print_quad_text _ _ _ _ [])|lia].
  - destruct (apply_prefix _ _ _ _ _) as [p|] eqn:Hp; [|done]. injection H as <-. cbn [iface_ipv6_address].
    destruct Hi as (_ & _ & _ & _ & _ & _ & _ & _ & _ & H10).
    pose proof Hp as Haf. apply (apply_prefix_facts _ _ _ 16) in Haf as (_ & Haf & _);
      [|apply pton6_size|lia|lia|unfold is_uint, DANOS_AF_IPV6; cbn; lia|done]. rewrite Haf.
    eexists. split; [reflexivity|]. destruct H10 as ((_ & Hl & _) & _).
    eapply (prefix_says _ 128 _ inet_ntop6 16); [apply pton6_size| |lia|lia|done|exact Hp].
    intros a rest Ha Hb Hlen. rewrite length_app in Hlen. destruct rest; [|cbn in Hlen; lia].
    rewrite app_nil_r. split; [done|apply ntop6_short].
Qed.


End leaf_laws.

(** ** Limits *)

(** A signed number is never accepted for the MTU: its value is looked for in
    the unsigned field. *)
Lemma mtu_int_refused `{inet6_lib} n i :
  apply_iface GNMI_FIELD_MTU (mk_val GNMI_VAL_INT [] n 0 false) i = None.
Proof. reflexivity. Qed.

(** A JSON string arrives with its quotation marks, which no address has. *)
Lemma json_address_refused `{inet6_lib} i :
  apply_iface GNMI_FIELD_IPV4_ADDRESS
    (mk_val GNMI_VAL_JSON_IETF ([34] ++ lit "10.0.0.1/24" ++ [34]) 0 0 false) i = None.
Proof. reflexivity. Qed.

(** The name of an interface is a leaf that can be read but not written. *)
Lemma name_not_writable `{inet6_lib} v i : apply_iface GNMI_FIELD_NAME v i = None.
Proof. reflexivity. Qed.

(** ** Examples

    Addresses as eight groups of four hexadecimal digits. *)

Definition hexd (n : Z) : Z := let n := n mod 16 in if n <? 10 then 48 + n else 87 + n.
Definition unhex (c : Z) : option Z :=
  if (48 <=? c) && (c <=? 57) then Some (c - 48)
  else if (97 <=? c) && (c <=? 102) then Some (c - 87) else None.

Definition hex2 (b : Z) : bytes := [hexd (b / 16); hexd b].
Definition unhex2 (c d : Z) : option Z := x ← unhex c; y ← unhex d; Some (16 * x + y).

Fixpoint groups (a : bytes) : bytes :=
  match a with
  | [b; c] => hex2 b ++ hex2 c
  | b :: c :: a => hex2 b ++ hex2 c ++ 58 :: groups a
  | _ => []
  end.

Fixpoint ungroups (n : nat) (s : bytes) : option bytes :=
  match n, s with
  | S n, c1 :: c2 :: c3 :: c4 :: s =>
      b ← unhex2 c1 c2; c ← unhex2 c3 c4;
      match n, s with
      | O, [] => Some [b; c]
      | S _, c5 :: s => if c5 =? 58 then r ← ungroups n s; Some (b :: c :: r) else None
      | _, _ => None
      end
  | _, _ => None
  end.

#[export] Instance demo_inet6 : inet6_lib := {
  inet_ntop6 a := groups (take 16 a);
  inet_pton6 s := ungroups 8 s;
}.

Lemma hexd_range n : 48 <= hexd n <= 57 \/ 97 <= hexd n <= 102.
Proof. unfold hexd. pose proof (Z.mod_pos_bound n 16 ltac:(lia)). destruct (Z.ltb_spec (n mod 16) 10); lia. Qed.

Lemma unhex_range c x : unhex c = Some x -> 0 <= x < 16.
Proof.
  unfold unhex. intros H.
  destruct ((48 <=? c) && (c <=? 57)) eqn:E1; [|destruct ((97 <=? c) && (c <=? 102)) eqn:E2; [|done]].
  all: injection H as H; bool_prop; lia.
Qed.

Lemma unhex_hexd n : unhex (hexd n) = Some (n mod 16).
Proof.
  unfold unhex, hexd. pose proof (Z.mod_pos_bound n 16 ltac:(lia)).
  destruct (Z.ltb_spec (n mod 16) 10).
  - rewrite (proj2 (Z.leb_le 48 _)), (proj2 (Z.leb_le _ 57)) by lia. cbn. f_equal. lia.
  - rewrite (proj2 (Z.leb_gt (87 + n mod 16) 57)) by lia. rewrite andb_false_r.
    rewrite (proj2 (Z.leb_le 97 _)), (proj2 (Z.leb_le _ 102)) by lia. cbn. f_equal. lia.
Qed.

Lemma unhex2_hex2 b : is_byte b -> unhex2 (hexd (b / 16)) (hexd b) = Some b.
Proof.
  unfold is_byte. intros Hb. unfold unhex2. rewrite !unhex_hexd. cbn. f_equal.
  rewrite (Z.mod_small (b / 16)) by (split; [apply Z.div_pos|apply Z.div_lt_upper_bound]; lia).
  pose proof (Z.div_mod b 16). lia.
Qed.

Lemma groups_chars n a :
  (length a <= n)%nat -> Forall (fun c => (48 <= c <= 58) \/ (97 <= c <= 102)) (groups a).
Proof.
  revert a. induction n as [|n IH]; intros [|b [|c a]] Hl; cbn [length] in Hl; try lia; try constructor.
  pose proof (hexd_range (b / 16)). pose proof (hexd_range b).
  pose proof (hexd_range (c / 16)). pose proof (hexd_range c).
  destruct a as [|d a]; unfold groups; fold groups; unfold hex2; cbn [app];
    repeat (apply Forall_cons; split; [lia|]); [constructor|]. apply (IH (d :: a)). cbn [length] in *. lia.
Qed.

Lemma groups_length n a : (length a <= n)%nat -> (2 * length (groups a) <= 5 * n)%nat.
Proof.
  revert a. induction n as [n IH] using lt_wf_ind. intros [|b [|c [|d a]]] Hl; cbn [length] in Hl;
    [cbn; lia..|].
  change (groups (b :: c :: d :: a)) with (hex2 b ++ hex2 c ++ 58 :: groups (d :: a)).
  rewrite !length_app. cbn [length hex2]. pose proof (IH (n - 2)%nat ltac:(lia) (d :: a)) as H.
  cbn [length] in H. lia.
Qed.

Lemma ungroups_size n s a : ungroups n s = Some a -> length a = (2 * n)%nat /\ bytes_ok a.
Proof.
  revert s a. induction n as [|n IH]; intros s a H; [done|].
  destruct s as [|c1 [|c2 [|c3 [|c4 s]]]]; try done. cbn [ungroups] in H. unfold unhex2 in H.
  destruct (unhex c1) as [x1|] eqn:E1; [apply unhex_range in E1|done].
  destruct (unhex c2) as [x2|] eqn:E2; [apply unhex_range in E2|done].
  destruct (unhex c3) as [x3|] eqn:E3; [apply unhex_range in E3|done].
  destruct (unhex c4) as [x4|] eqn:E4; [apply unhex_range in E4|done].
  cbn [mbind option_bind] in H.
  assert (is_byte (16 * x1 + x2) /\ is_byte (16 * x3 + x4)) as [Hb1 Hb2] by (unfold is_byte; lia).
  destruct n as [|n].
  - destruct s; [|done]. injection H as <-. split; [done|]. by rewrite !Forall_cons.
  - destruct s as [|c5 s]; [done|]. destruct (c5 =? 58); [|done].
    destruct (ungroups (S n) s) as [r|] eqn:Hr; [|done]. cbn in H. injection H as <-.
    destruct (IH s r Hr) as [Hl Hb]. split; [cbn [length]; lia|]. by rewrite !Forall_cons.
Qed.

#[export] Instance demo_inet6_laws : Inet6Laws.
Proof.
  split.
  - intros a. pose proof (groups_length 16 (take 16 a)) as H. cbn [inet_ntop6 demo_inet6].
    rewrite length_take in H. lia.
  - intros a. pose proof (groups_chars 16 (take 16 a) ltac:(rewrite length_take; lia)) as H.
    split; (eapply Forall_impl; [exact H|]); cbn; intros; lia.
  - intros a Hl Hb. cbn. rewrite take_ge by lia.
    do 16 (destruct a as [|? a]; [done|]). destruct a; [|done]. rewrite !Forall_cons in Hb.
    destruct_and!. cbn. by rewrite !unhex2_hex2.
  - intros s a H. by apply (ungroups_size 8) in H.
Qed.

Definition demo_elem (name : string) : gnmi_path_elem_t := mk_elem (lit name) false [] [].
Definition demo_key (name key value : string) : gnmi_path_elem_t := mk_elem (lit name) true (lit key) (lit value).

Definition demo_mtu_path : gnmi_path_t :=
  mk_path [] [demo_elem "interfaces"; demo_key "interface" "name" "eth0"; demo_elem "config"; demo_elem "mtu"].

Lemma model_resolve_is_fallback_witness :
  gnmi_model_resolve (Some demo_mtu_path) = model_fallback demo_mtu_path /\
  model_fallback demo_mtu_path =
    Some (mk_binding GNMI_MODEL_LEAF DANOS_OBJ_IFACE GNMI_FIELD_MTU true).
Proof.
  split; [|vm_compute; reflexivity]. apply (model_resolve_is_fallback demo_mtu_path).
  - apply (bool_decide_unpack _). vm_compute. exact I.
  - vm_compute. lia.
Defined.

Definition demo_addr0 : danos_ip_prefix := mk_ip_prefix (mk_ip_addr 0 (zeros 16)) 0.
Definition demo_eth : danos_iface :=
  mk_iface 4 (lit "eth0" ++ zeros 60) 1 1500 (zeros 6) true true 0 0 0 demo_addr0 demo_addr0.

Lemma demo_eth_wf : struct_wf demo_eth.
Proof.
  assert (Ha : struct_wf demo_addr0).
  { split; [split; [unfold is_uint; cbn; lia|split; [apply length_zeros|apply zeros_ok]]|unfold is_uint; cbn; lia]. }
  assert (Hn : bytes_ok (iface_name demo_eth)) by (apply (bool_decide_unpack _); vm_compute; exact I).
  refine (conj _ (conj (conj eq_refl Hn) (conj _ (conj _ (conj (conj eq_refl (zeros_ok 6))
    (conj _ (conj _ (conj _ (conj Ha Ha))))))))); unfold is_uint; cbn; lia.
Qed.

