(* ===== verification/Fuzz.v ===== *)
(** * The fuzz harness: danos-test/fuzz/fuzz_decoders.c

    The program that runs the HPACK, protobuf and path decoders on mutated
    messages: the random numbers, the mutation of a seed in the static buffer,
    the four loops and [main], and the entry point of the libFuzzer build.  A
    protobuf decoder that reads outside its memory or loops forever is the
    outcome [Fault] or [Spin] of the program, and so is a text that is read
    past its end; the models of the HPACK decoder, of the reader of paths and
    of the resolver have no outcome for a read outside their input. *)

From stdpp Require Import base decidable list numbers strings.
From Stdlib Require Import ZArith Lia.
From S2P Require Import Prelude ObjectStore Wal EventBus Registry Persist CStr Huffman Hpack Proto PathText.
From S2P Require Import ModelPaths.

Definition ITERS : Z := 20000.
Definition MUT_BUF : nat := 4096.

(** The static variables, the answers of the allocator to the HPACK decoder,
    and the core that holds [g_default_store]. *)
Record fuzz_state := mk_fuzz {
  rng_state : Z;
  mut_buf : bytes;
  fz_dyn : hpack_dyn_table_t;
  fz_heap : heap;
  fz_core : core;
}.

Definition with_rng (s : fuzz_state) (r : Z) : fuzz_state :=
  mk_fuzz r (mut_buf s) (fz_dyn s) (fz_heap s) (fz_core s).
Definition with_buf (s : fuzz_state) (b : bytes) : fuzz_state :=
  mk_fuzz (rng_state s) b (fz_dyn s) (fz_heap s) (fz_core s).

(** The generator of the program: the number for a state, and the next
    state. *)
Definition lcg (state : Z) : Z * Z :=
  let r := u64 (u64 (state * 6364136223846793005) + 1442695040888963407) in (u32 (Z.shiftr r 33), r).

Section Harness.

(** The generator, [lcg] in the program. *)
Variable gen : Z -> Z * Z.

Definition rnd (s : fuzz_state) : Z * fuzz_state :=
  let '(v, r) := gen (rng_state s) in (v, with_rng s r).

(** Which of the two calls of [rnd] in an assignment comes first is left to
    the compiler: the answer for each of the three assignments of [mutate]. *)
Variable left_first : nat -> bool.

(** The random number of the left and of the right side of an assignment. *)
Definition rnd_both (site : nat) (s : fuzz_state) : Z * Z * fuzz_state :=
  let '(a, s) := rnd s in let '(b, s) := rnd s in
  if left_first site then (a, b, s) else (b, a, s).

(** [mut_buf[i] = f(mut_buf[i])]. *)
Definition poke (s : fuzz_state) (i : nat) (f : Z -> Z) : fuzz_state := with_buf s (alter f i (mut_buf s)).

(** One mutation of a message of [len] bytes, and its length then. *)
Definition mutate_one (len : Z) (s : fuzz_state) : Z * fuzz_state :=
  let '(k, s) := rnd s in
  match k mod 4 with
  | 0 => let '(i, j, s) := rnd_both 0 s in
         (len, poke s (Z.to_nat (i mod len)) (fun b => u8 (Z.lxor b (Z.shiftl 1 (j mod 8)))))
  | 1 => let '(i, j, s) := rnd_both 1 s in (len, poke s (Z.to_nat (i mod len)) (fun _ => u8 j))
  | 2 => if 1 <? len then let '(r, s) := rnd s in (1 + r mod (len - 1), s) else (len, s)
  | _ => let '(i, j, s) := rnd_both 2 s in
         (len, poke s (Z.to_nat (i mod len)) (fun _ => u8 (Z.lor 128 (j mod 64))))
  end.

(** [for (i = 0; i < rounds && len > 0; i++)]. *)
Fixpoint mutate_rounds (rounds : nat) (len : Z) (s : fuzz_state) : Z * fuzz_state :=
  match rounds with
  | O => (len, s)
  | S rounds =>
      if 0 <? len then let '(len, s) := mutate_one len s in mutate_rounds rounds len s else (len, s)
  end.

(** Copies [src] to the buffer and mutates it there; the callers pass all of
    [src]. *)
Definition mutate (src : bytes) (s : fuzz_state) : Z * fuzz_state :=
  let len := Nat.min (length src) MUT_BUF in
  let s := with_buf s (cwrite (mut_buf s) 0 (take len src)) in
  let '(r, s) := rnd s in
  mutate_rounds (Z.to_nat (1 + r mod 4)) (Z.of_nat len) s.

Definition sink_cb (name value : bytes) (user : unit) : bool * unit := (true, user).

(** [hpack_dyn_init], [hpack_decode] and [hpack_dyn_free] on one block. *)
Definition hpack_once (block : bytes) (s : fuzz_state) : outcome fuzz_state :=
  match hpack_decode sink_cb block (mk_hpack hpack_dyn_init tt (fz_heap s)) with
  | None => Spin
  | Some (_, h) => Ret (mk_fuzz (rng_state s) (mut_buf s) (hpack_dyn_free (h_dyn h)) (h_heap h) (fz_core s))
  end.

(** [for (int i = 0; i < n; i++)]. *)
Fixpoint loop (n : nat) (body : fuzz_state -> outcome fuzz_state) (s : fuzz_state) : outcome fuzz_state :=
  match n with O => Ret s | S n => s ← body s; loop n body s end.

Definition fuzz_hpack_cb (seed : bytes) (s : fuzz_state) : outcome fuzz_state :=
  loop (Z.to_nat (ITERS / 4)) (fun s =>
    let '(m, s) := mutate seed s in
    hpack_once (take (Z.to_nat m) (mut_buf s)) s) s.

(** The decoders of requests on [m] bytes of a memory. *)
Definition pb_requests (p : bytes) (m : Z) : outcome () :=
  let F := S (Z.to_nat m) in
  _ ← gnmi_decode_get_request F p m;
  _ ← gnmi_decode_set_request F p m;
  _ ← gnmi_decode_subscribe_request F p m;
  Ret ().

Definition fuzz_pb_requests (seed : bytes) (s : fuzz_state) : outcome fuzz_state :=
  loop (Z.to_nat (ITERS / 4)) (fun s =>
    let '(m, s) := mutate seed s in
    _ ← pb_requests (mut_buf s) m; Ret s) s.

(** The C string at [p], which runs out of the memory when no byte is zero. *)
Definition string_at (p : bytes) : outcome bytes :=
  if existsb (Z.eqb 0) p then Ret (c_str p) else Fault.

(** The decoders of paths and values, and the reader of textual paths: the
    path the last one leaves. *)
Definition pb_paths (p : bytes) (m : Z) : outcome gnmi_path_t :=
  let F := S (Z.to_nat m) in
  _ ← gnmi_decode_path F p m;
  _ ← gnmi_decode_typed_value F p m;
  t ← string_at p;
  Ret (gnmi_path_from_str (Some t)).2.

Definition fuzz_pb_paths (seed : bytes) (s : fuzz_state) : outcome fuzz_state :=
  loop (Z.to_nat (ITERS / 4)) (fun s =>
    let '(m, s) := mutate seed s in
    _ ← pb_paths (mut_buf s) m; Ret s) s.

(** An element "e0" to "e4", every third with the key [k=v0] to [k=v3]. *)
Definition soup_elem (s : fuzz_state) : gnmi_path_elem_t * fuzz_state :=
  let '(a, s) := rnd s in
  let name := lit "e" ++ dec (a mod 5) in
  let '(k, s) := rnd s in
  if k mod 3 =? 0 then
    let '(v, s) := rnd s in (mk_elem name true (lit "k") (lit "v" ++ dec (v mod 4)), s)
  else (mk_elem name false [] [], s).

(** [n] values drawn one after the other. *)
Fixpoint draw {A} (n : nat) (f : fuzz_state -> A * fuzz_state) (s : fuzz_state) : list A * fuzz_state :=
  match n with
  | O => ([], s)
  | S n => let '(x, s) := f s in let '(xs, s) := draw n f s in (x :: xs, s)
  end.

Definition elem_soup (s : fuzz_state) : gnmi_path_t * fuzz_state :=
  let '(n, s) := rnd s in
  let '(es, s) := draw (Z.to_nat (n mod 6)) soup_elem s in (mk_path [] es, s).

Definition soup_char (s : fuzz_state) : Z * fuzz_state :=
  let '(r, s) := rnd s in (nth (Z.to_nat (r mod 7)) (lit "abc/[]=") 0, s).

(** One turn of [fuzz_model_resolve]: what the two calls of
    [gnmi_model_resolve] answer. *)
Definition resolve_once (s : fuzz_state)
    : option gnmi_model_binding_t * option gnmi_model_binding_t * fuzz_state :=
  let '(p, s) := elem_soup s in
  let b1 := gnmi_model_resolve (Some p) in
  let '(dotted, s) := draw 127 soup_char s in
  let p := (gnmi_path_from_str (Some dotted)).2 in
  (b1, gnmi_model_resolve (Some p), s).

Definition fuzz_model_resolve (s : fuzz_state) : outcome fuzz_state :=
  loop (Z.to_nat (ITERS / 8)) (fun s => Ret (resolve_once s).2) s.

(** [if (!g_default_store) g_default_store = danos_object_store_create(64)]. *)
Definition ensure_store (s : fuzz_state) : fuzz_state :=
  match g_default_store (fz_core s) with
  | Some _ => s
  | None =>
      let '(h, c) := store_create 64 (fz_core s) in
      mk_fuzz (rng_state s) (mut_buf s) (fz_dyn s) (fz_heap s) (set_default_store c h)
  end.

Definition LLVMFuzzerTestOneInput (data : option bytes) (s : fuzz_state) : outcome (Z * fuzz_state) :=
  match data with
  | None | Some [] => Ret (0, s)
  | Some data =>
      let size := Z.of_nat (length data) in
      s ← hpack_once data (ensure_store s);
      _ ← pb_requests data size;
      p ← pb_paths data size;
      let _ := gnmi_model_resolve (Some p) in
      Ret (0, s)
  end.

Definition hpack_seed : bytes := [130; 134; 132; 65; 15] ++ lit "www.example.com".
Definition huff_seed : bytes := [0; 1] ++ lit "x" ++ [130; 16; 1; 0; 3] ++ lit "abc" ++ [140].
Definition getreq_seed : bytes := [18; 14; 26; 12; 10; 10] ++ lit "interfaces" ++ [40; 4].

Definition fuzz_main (s : fuzz_state) : outcome (Z * fuzz_state) :=
  let s := ensure_store s in
  s ← fuzz_hpack_cb hpack_seed s;
  s ← fuzz_hpack_cb huff_seed s;
  s ← fuzz_pb_requests getreq_seed s;
  s ← fuzz_pb_paths getreq_seed s;
  s ← fuzz_model_resolve s;
  Ret (0, s).

End Harness.

(** The state of the loaded program. *)
Definition fuzz_start (rng : Z) (m : heap) (c : core) : fuzz_state :=
  mk_fuzz rng (zeros MUT_BUF) (mk_dyn [] 0 0) m c.

(** ** The harness stays inside the decoders' assumptions *)

(** The bytes with the top bit, which go on in a varint. *)
Definition high (b : bytes) : nat := length (filter (fun x => Z.land x 128 <> 0) b).

Lemma high_app a b : high (a ++ b) = (high a + high b)%nat.
Proof. unfold high. by rewrite filter_app, length_app. Qed.

Lemma high_zeros n : high (zeros n) = 0%nat.
Proof. induction n as [|n IH]; [done|]. change (zeros (S n)) with ([0] ++ zeros n). by rewrite high_app, IH. Qed.

Lemma high_length b : (high b <= length b)%nat.
Proof. apply length_filter. Qed.

Lemma high_alter f i b : (high (alter f i b) <= S (high b))%nat.
Proof.
  revert i. induction b as [|x b IH]; intros [|i]; try (cbn; lia).
  - change (alter f 0%nat (x :: b)) with ([f x] ++ b). change (x :: b) with ([x] ++ b). rewrite !high_app.
    pose proof (high_length [f x]). cbn [length] in *. lia.
  - change (alter f (S i) (x :: b)) with ([x] ++ alter f i b). change (x :: b) with ([x] ++ b). rewrite !high_app.
    specialize (IH i). lia.
Qed.

Lemma high_all b : Forall (fun x => Z.land x 128 <> 0) b -> high b = length b.
Proof. unfold high. induction 1 as [|x b Hx _ IH]; [done|]. rewrite filter_cons_True by done. cbn. by rewrite IH. Qed.

(** Fewer than nine such bytes make no varint of ten. *)
Lemma few_high_short b : (high b < 9)%nat -> short_varints b.
Proof.
  intros Hb i. set (f j := match b !! (i + j)%nat with Some x => Z.land x 128 =? 0 | None => true end).
  destruct (existsb f (seq 0 9)) eqn:He.
  { apply existsb_exists in He as (j & Hj & H). apply in_seq in Hj. exists j. split; [lia|].
    unfold f in H. destruct (b !! (i + j)%nat); [by apply Z.eqb_eq|done]. }
  exfalso. assert (Hj : forall j, (j < 9)%nat -> exists x, b !! (i + j)%nat = Some x /\ Z.land x 128 <> 0).
  { intros j Hj. assert (Hf : f j = false).
    { destruct (f j) eqn:E; [|done]. rewrite <- He. symmetry. apply existsb_exists. exists j. split; [apply in_seq; lia|done]. }
    unfold f in Hf. destruct (b !! (i + j)%nat) as [x|]; [|done]. exists x. split; [done|by apply Z.eqb_neq]. }
  assert (Hlen : (i + 9 <= length b)%nat).
  { destruct (Hj 8%nat ltac:(lia)) as (x & Hx & _). apply lookup_lt_Some in Hx. lia. }
  rewrite <- (take_drop i b), <- (take_drop 9 (drop i b)), !high_app in Hb.
  assert (H9 : high (take 9 (drop i b)) = 9%nat); [|lia].
  rewrite high_all; [rewrite length_take, length_drop; lia|].
  apply Forall_lookup. intros j x Hx. apply lookup_take_Some in Hx as [Hx Hl]. rewrite lookup_drop in Hx.
  destruct (Hj j Hl) as (y & Hy & Hh). congruence.
Qed.

(** What [k] mutations leave of a buffer with a message of [L] bytes. *)
Definition mutated (L k : nat) (b b' : bytes) : Prop :=
  length b' = length b /\ drop L b' = drop L b /\ (high b' <= high b + k)%nat.

Lemma mutated_alter L f i b : (i < L)%nat -> mutated L 1 b (alter f i b).
Proof.
  intros Hi. split_and!; [apply length_alter| |pose proof (high_alter f i b); lia].
  by apply drop_alter_lt.
Qed.

Section mutation.

Context (gen : Z -> Z * Z) (left_first : nat -> bool).

Lemma rnd_buf s : mut_buf (rnd gen s).2 = mut_buf s.
Proof. unfold rnd. by destruct (gen (rng_state s)). Qed.

Lemma rnd_both_buf site s : mut_buf (rnd_both gen left_first site s).2 = mut_buf s.
Proof.
  unfold rnd_both. pose proof (rnd_buf s) as H1. destruct (rnd gen s) as [a s1].
  pose proof (rnd_buf s1) as H2. destruct (rnd gen s1) as [b s2]. cbn in *.
  destruct (left_first site); cbn; congruence.
Qed.

Lemma mutate_one_ok L len s :
  0 < len <= Z.of_nat L -> let '(len', s') := mutate_one gen left_first len s in
  0 < len' <= Z.of_nat L /\ mutated L 1 (mut_buf s) (mut_buf s').
Proof.
  intros Hl. unfold mutate_one. destruct (rnd gen s) as [k s1] eqn:E1.
  assert (H1 : mut_buf s1 = mut_buf s) by (rewrite <- (rnd_buf s); by rewrite E1). clear E1.
  assert (Hp : forall site i j s2 f, rnd_both gen left_first site s1 = (i, j, s2) ->
    mutated L 1 (mut_buf s) (mut_buf (poke s2 (Z.to_nat (i mod len)) f))).
  { intros site i j s2 f E. pose proof (rnd_both_buf site s1) as H2. rewrite E in H2. cbn in H2.
    cbn. rewrite H2, H1. apply mutated_alter. pose proof (Z.mod_pos_bound i len). lia. }
  assert (Hid : mutated L 1 (mut_buf s) (mut_buf s1)) by (rewrite H1; split_and!; [done|done|lia]).
  repeat case_match; simplify_eq; bool_prop; try (split; [lia|by eauto]).
  match goal with H : rnd gen s1 = (?v, ?s2) |- _ => rename v into r, s2 into s3;
    pose proof (rnd_buf s1) as H3; rewrite H in H3; cbn in H3 end.
  split; [|by rewrite H3].
  pose proof (Z.mod_pos_bound r (len - 1)). lia.
Qed.

Lemma mutate_rounds_ok L k len s :
  0 <= len <= Z.of_nat L -> let '(len', s') := mutate_rounds gen left_first k len s in
  0 <= len' <= Z.of_nat L /\ mutated L k (mut_buf s) (mut_buf s').
Proof.
  revert len s. induction k as [|k IH]; intros len s Hl; cbn [mutate_rounds].
  { split; [done|]. split_and!; [done|done|lia]. }
  destruct (0 <? len) eqn:E; bool_prop; [|split; [done|split_and!; [done|done|lia]]].
  pose proof (mutate_one_ok L len s ltac:(lia)) as H1. destruct (mutate_one gen left_first len s) as [len1 s1].
  destruct H1 as (Hl1 & A1 & B1 & C1). specialize (IH len1 s1 ltac:(lia)).
  destruct (mutate_rounds gen left_first k len1 s1) as [len2 s2]. destruct IH as (Hl2 & A2 & B2 & C2).
  split; [done|]. split_and!; [congruence|congruence|lia].
Qed.

(** The buffer of the running program: nothing behind the longest seed was
    ever written. *)
Definition buf_ok (b : bytes) : Prop := length b = MUT_BUF /\ drop 20 b = zeros (MUT_BUF - 20).

Lemma mutate_ok src s :
  (length src <= 20)%nat -> buf_ok (mut_buf s) -> let '(m, s') := mutate gen left_first src s in
  0 <= m <= Z.of_nat (length src) /\ buf_ok (mut_buf s') /\
  (high (mut_buf s') <= high src + (20 - length src) + 4)%nat.
Proof.
  intros Hn [Hb Hz]. unfold mutate. assert (HM : MUT_BUF = 4096%nat) by done.
  rewrite Nat.min_l by lia. rewrite take_ge by lia.
  destruct (rnd _) as [r s1] eqn:E1.
  assert (H1 : mut_buf s1 = src ++ drop (length src) (mut_buf s)).
  { change s1 with (r, s1).2. rewrite <- E1. apply rnd_buf. }
  pose proof (mutate_rounds_ok (length src) (Z.to_nat (1 + r mod 4)) (Z.of_nat (length src)) s1 ltac:(lia)) as H2.
  destruct (mutate_rounds _ _ _ _ s1) as [m s2]. destruct H2 as (Hm & A & B & C).
  rewrite H1 in A, B, C. rewrite length_app, length_drop in A. rewrite drop_app_length in B.
  assert (Hd : drop (length src) (mut_buf s) = take (20 - length src) (drop (length src) (mut_buf s)) ++ zeros (MUT_BUF - 20)).
  { rewrite <- Hz. rewrite <- (take_drop (20 - length src) (drop (length src) (mut_buf s))) at 1.
    f_equal. rewrite drop_drop. f_equal. lia. }
  split; [done|]. split.
  - split; [lia|]. replace 20%nat with (length src + (20 - length src))%nat by lia.
    by rewrite <- drop_drop, B, drop_drop, Nat.add_sub_assoc, Nat.add_comm, Nat.add_sub by lia.
  - rewrite high_app, Hd, high_app, high_zeros in C.
    pose proof (high_length (take (20 - length src) (drop (length src) (mut_buf s)))) as Hh.
    rewrite length_take in Hh. pose proof (Z.mod_pos_bound r 4 ltac:(lia)). lia.
Qed.

End mutation.

Lemma loop_ok (P : fuzz_state -> Prop) n body s :
  (forall s, P s -> returns (body s) P) -> P s -> returns (loop n body s) P.
Proof.
  intros Hb. revert s. induction n as [|n IH]; intros s Hs; [done|]. cbn [loop]. apply returns_bind.
  eapply returns_impl; [by apply Hb|]. done.
Qed.

Lemma hpack_once_ok block s : returns (hpack_once block s) (fun s' => mut_buf s' = mut_buf s).
Proof.
  unfold hpack_once, hpack_decode.
  destruct (hpack_decode_loop_total sink_cb (length block) block (mk_hpack hpack_dyn_init tt (fz_heap s))) as [[ok h] ->];
    [lia|done].
Qed.

Lemma pb_requests_ok p m :
  short_varints p -> 0 <= m <= Z.of_nat (length p) -> m < 2 ^ 62 -> returns (pb_requests p m) (fun _ => True).
Proof.
  intros Hs Hm Hb. assert (Hr : safe (S (Z.to_nat m)) (gnmi_pbr_init p m)) by (split; cbn; [lia..|done]).
  assert (H1 : returns (gnmi_decode_get_request (S (Z.to_nat m)) p m) (fun _ => True))
    by (apply returns_bind; eapply returns_impl; [apply init_fields_safe; [apply get_field_safe|done]|done]).
  assert (H2 : returns (gnmi_decode_set_request (S (Z.to_nat m)) p m) (fun _ => True))
    by (apply returns_bind; eapply returns_impl; [apply init_fields_safe; [apply set_field_safe|done]|done]).
  assert (H3 : returns (gnmi_decode_subscribe_request (S (Z.to_nat m)) p m) (fun _ => True))
    by (apply returns_bind; eapply returns_impl; [apply init_fields_safe; [apply subscribe_field_safe|done]|done]).
  unfold pb_requests. destruct (gnmi_decode_get_request _ _ _); [|done..].
  destruct (gnmi_decode_set_request _ _ _); [|done..]. by destruct (gnmi_decode_subscribe_request _ _ _).
Qed.

Lemma pb_paths_ok p m :
  short_varints p -> 0 <= m <= Z.of_nat (length p) -> m < 2 ^ 62 ->
  pb_paths p m = (t ← string_at p; Ret (gnmi_path_from_str (Some t)).2).
Proof.
  intros Hs Hm Hb. assert (Hr : safe (S (Z.to_nat m)) (gnmi_pbr_init p m)) by (split; cbn; [lia..|done]).
  unfold pb_paths. pose proof (decode_path_safe _ _ _ Hr) as H1. pose proof (decode_typed_value_safe _ _ _ Hr) as H2.
  destruct (gnmi_decode_path _ _ _); [|done..]. by destruct (gnmi_decode_typed_value _ _ _).
Qed.

Lemma buf_ok_string b : buf_ok b -> string_at b = Ret (c_str b).
Proof.
  intros [Hl Hz]. unfold string_at. rewrite (proj2 (existsb_exists _ _)); [done|].
  exists 0. split; [|done]. apply list_elem_of_In. rewrite <- (take_drop 20 b), Hz. apply elem_of_app. right.
  change (0 ∈ replicate (MUT_BUF - 20) 0). by apply elem_of_replicate.
Qed.

Section campaign.

Context (gen : Z -> Z * Z) (left_first : nat -> bool).

(** A loop that mutates a seed and runs something on what it gets. *)
Lemma fuzz_loop_ok seed n (use : Z -> fuzz_state -> outcome fuzz_state) s :
  (length seed <= 20)%nat -> buf_ok (mut_buf s) ->
  (forall m s, 0 <= m <= Z.of_nat (length seed) -> buf_ok (mut_buf s) ->
    (high (mut_buf s) <= high seed + (20 - length seed) + 4)%nat -> returns (use m s) (fun s' => mut_buf s' = mut_buf s)) ->
  returns (loop n (fun s => let '(m, s) := mutate gen left_first seed s in use m s) s) (fun s => buf_ok (mut_buf s)).
Proof.
  intros Hl Hb Hu. apply loop_ok; [|done]. clear s Hb. intros s Hb.
  pose proof (mutate_ok gen left_first seed s Hl Hb) as H. destruct (mutate gen left_first seed s) as [m s1].
  destruct H as (Hm & Hb1 & Hh). eapply returns_impl; [by apply Hu|]. cbn. intros s2 Hs2. by rewrite Hs2.
Qed.

Lemma fuzz_hpack_ok seed s :
  (length seed <= 20)%nat -> buf_ok (mut_buf s) ->
  returns (fuzz_hpack_cb gen left_first seed s) (fun s => buf_ok (mut_buf s)).
Proof. intros Hl Hb. apply fuzz_loop_ok; [done|done|]. intros m s1 _ _ _. apply hpack_once_ok. Qed.

Lemma getreq_buffer m b :
  buf_ok b -> (high b <= high getreq_seed + (20 - length getreq_seed) + 4)%nat ->
  0 <= m <= Z.of_nat (length getreq_seed) -> short_varints b /\ 0 <= m <= Z.of_nat (length b) /\ m < 2 ^ 62.
Proof.
  intros [Hl _] Hh Hm. change (high b <= 6)%nat in Hh. change (length getreq_seed) with 18%nat in Hm.
  rewrite Hl. unfold MUT_BUF. split; [apply few_high_short; lia|lia].
Qed.

Lemma fuzz_requests_ok s :
  buf_ok (mut_buf s) -> returns (fuzz_pb_requests gen left_first getreq_seed s) (fun s => buf_ok (mut_buf s)).
Proof.
  intros Hb. apply fuzz_loop_ok; [cbn; lia|done|]. intros m s1 Hm Hb1 Hh.
  destruct (getreq_buffer m _ Hb1 Hh Hm) as (A & B & C).
  apply returns_bind. by eapply returns_impl; [apply pb_requests_ok|].
Qed.

Lemma fuzz_paths_ok s :
  buf_ok (mut_buf s) -> returns (fuzz_pb_paths gen left_first getreq_seed s) (fun s => buf_ok (mut_buf s)).
Proof.
  intros Hb. apply fuzz_loop_ok; [cbn; lia|done|]. intros m s1 Hm Hb1 Hh.
  destruct (getreq_buffer m _ Hb1 Hh Hm) as (A & B & C).
  by rewrite pb_paths_ok, buf_ok_string.
Qed.

End campaign.

Lemma fuzz_resolve_ok gen s : returns (fuzz_model_resolve gen s) (fun _ => True).
Proof.
  unfold fuzz_model_resolve. apply (loop_ok (fun _ => True)); [|exact I].
  intros s' _. unfold returns. exact I.
Qed.

Lemma ensure_store_buf s : mut_buf (ensure_store s) = mut_buf s.
Proof. unfold ensure_store. case_match; [done|]. by destruct (store_create 64 _). Qed.


(** The entry point for libFuzzer hands the input, which has no zero byte
    after it, to the reader of textual paths: an input without a zero byte
    that the other decoders get through is read past its end. *)
Theorem libfuzzer_reads_past_end data s :
  data <> [] -> 0 ∉ data -> short_varints data -> Z.of_nat (length data) < 2 ^ 62 ->
  LLVMFuzzerTestOneInput (Some data) s = Fault.
Proof.
  intros Hne Hz Hs Hl. unfold LLVMFuzzerTestOneInput. destruct data as [|b data]; [done|].
  pose proof (hpack_once_ok (b :: data) (ensure_store s)) as H1.
  destruct (hpack_once _ _); [|done..]. cbn [mbind outcome_bind].
  pose proof (pb_requests_ok (b :: data) (Z.of_nat (length (b :: data))) Hs ltac:(lia) Hl) as H2.
  destruct (pb_requests _ _); [|done..]. cbn [mbind outcome_bind].
  rewrite pb_paths_ok by (done || lia). unfold string_at.
  destruct (existsb _ _) eqn:E; [|done]. apply existsb_exists in E as (x & Hx & He). apply Z.eqb_eq in He. subst x.
  by apply list_elem_of_In in Hx.
Qed.

Lemma libfuzzer_reads_past_end_witness : LLVMFuzzerTestOneInput (Some (lit "a")) (fuzz_start 0 [] (core_boot (mk_os [] ∅) 0)) = Fault.
Proof.
  apply (libfuzzer_reads_past_end (lit "a")); [done| |apply short_varintsb_spec; reflexivity|cbn; lia].
  apply (bool_decide_unpack _). vm_compute. exact I.
Defined.

(** ** What the paths of the campaign resolve to *)

(** The first names of the paths that resolve. *)
Definition tops : list string := ["interfaces"; "vrfs"; "routes"]%string.

Lemma resolve_unknown_top p :
  (forall e, head (p_elems p) = Some e -> Forall (fun t => pe_name e <> lit t) tops) ->
  gnmi_model_resolve (Some p) = None.
Proof.
  intros Ht. unfold gnmi_model_resolve. cbn [mbind option_bind]. case_bool_decide as Hp; [done|].
  destruct p as [o [|e es]]; [done|]. specialize (Ht e eq_refl). unfold tops in Ht.
  assert (Hn : streq (pe_name e) "interfaces" = false /\ streq (pe_name e) "vrfs" = false /\ streq (pe_name e) "routes" = false).
  { rewrite !Forall_cons in Ht. destruct Ht as (A & B & C & _). unfold streq. by rewrite !bool_decide_eq_false_2. }
  assert (Hg : gnmi_model_gen_resolve (mk_path o (e :: es)) = None).
  { unfold gnmi_model_gen_resolve. case_match; [done|].
    assert (Hf : filter (fun g => gen_matches (mk_path o (e :: es)) g) gen_entries = []); [|by rewrite Hf].
    assert (Hall : Forall (fun g => exists t, head (ge_names g) = Some t /\ t ∈ tops) gen_entries).
    { repeat constructor; eexists; (split; [reflexivity|]); apply (bool_decide_unpack _); vm_compute; exact I. }
    rewrite Forall_forall in Ht.
    induction Hall as [|g l (t & Hg & Hin) _ IH]; [done|]. rewrite filter_cons_False; [done|].
    intros Hm. unfold gen_matches in Hm. rewrite andb_True in Hm. destruct Hm as [Hm _].
    apply bool_decide_unpack in Hm. destruct (ge_names g) as [|t' ts]; [done|]. injection Hg as ->.
    cbn in Hm. injection Hm as Hm _. by apply (Ht t Hin). }
  rewrite Hg. unfold model_fallback. cbn [p_elems head fmap option_fmap option_map].
  by destruct Hn as (-> & -> & ->).
Qed.

Lemma draw_all {A} (P : A -> Prop) n f s :
  (forall s, P (f s).1) -> Forall P (draw n f s).1.
Proof.
  intros Hf. revert s. induction n as [|n IH]; intros s; [constructor|]. cbn [draw].
  pose proof (Hf s) as Hx. destruct (f s) as [x s1]. specialize (IH s1). destruct (draw n f s1) as [xs s2].
  by constructor.
Qed.

Lemma strchr_forall (P : Z -> Prop) s c t : Forall P s -> strchr s c = Some t -> Forall P t.
Proof.
  intros Hs. induction Hs as [|x s Hx Hs IH]; [done|]. cbn [strchr]. case_match; [|done].
  intros [= <-]. by constructor.
Qed.

Lemma segment_end_forall (P : Z -> Prop) s t : Forall P s -> segment_end s = Some t -> Forall P t.
Proof.
  intros Hs. unfold segment_end. repeat case_match; intros Ht; simplify_eq; eauto using strchr_forall.
  apply Forall_tail. eauto using strchr_forall.
Qed.

Lemma path_elem_forall (P : Z -> Prop) seg : Forall P seg -> Forall P (pe_name (path_elem seg).2).
Proof.
  intros Hs. unfold path_elem. repeat case_match; cbn; try constructor; try done; by apply Forall_take.
Qed.

Lemma path_loop_forall (P : Z -> Prop) room s es :
  Forall P s -> Forall (fun e => Forall P (pe_name e)) es ->
  Forall (fun e => Forall P (pe_name e)) (path_loop room s es).2.
Proof.
  revert s es. induction room as [|room IH]; intros s es Hs Hes; [done|]. cbn [path_loop].
  destruct s as [|x s]; [done|]. set (s0 := x :: s) in *.
  pose proof (path_elem_forall P (take (length s0 - length (default [] (segment_end s0))) s0) ltac:(by apply Forall_take)) as He.
  destruct (path_elem _) as [ok e]. cbn [snd] in He.
  assert (Hes' : Forall (fun e => Forall P (pe_name e)) (es ++ [e])) by (apply Forall_app; by repeat constructor).
  destruct (negb ok); [done|]. destruct (segment_end s0) as [t|] eqn:Et; [|done].
  pose proof (segment_end_forall P s0 t Hs Et) as Ht. apply IH; [|done].
  destruct t as [|y t]; [done|]. inversion Ht; subst. by destruct (y =? SLASH).
Qed.

Lemma skip_slashes_forall (P : Z -> Prop) s : Forall P s -> Forall P (skip_slashes s).
Proof. intros Hs. induction Hs; [done|]. cbn [skip_slashes]. case_match; [done|by constructor]. Qed.

(** The paths of the campaign never resolve: neither the random elements nor
    the random text can spell the first name of a model path, so that the
    loop over the resolver gets no further than the first comparisons. *)
Theorem fuzz_resolver_blind gen s : (resolve_once gen s).1 = (None, None).
Proof.
  unfold resolve_once, elem_soup. destruct (rnd gen s) as [n s1].
  pose proof (draw_all (fun e => head (pe_name e) = Some 101) (Z.to_nat (n mod 6)) (soup_elem gen) s1) as He.
  destruct (draw (Z.to_nat (n mod 6)) (soup_elem gen) s1) as [es s2]. cbn [fst] in He.
  pose proof (draw_all (fun c => c ∈ lit "abc/[]=") 127 (soup_char gen) s2) as Hd.
  destruct (draw 127 (soup_char gen) s2) as [dotted s3]. cbn [fst] in *. f_equal.
  - apply resolve_unknown_top. cbn [p_elems]. intros e Hh.
    assert (Hc : head (pe_name e) = Some 101).
    { assert (Forall (fun e => head (pe_name e) = Some 101) es) as Hall.
      { apply He. intros s'. unfold soup_elem. destruct (rnd gen s') as [a s4]. destruct (rnd gen s4) as [k s5].
        case_match; [destruct (rnd gen s5)|]; done. }
      destruct es; [done|]. injection Hh as <-. by inversion Hall. }
    repeat constructor; intros Heq; rewrite Heq in Hc; vm_compute in Hc; done.
  - apply resolve_unknown_top. intros e Hh.
    assert (Hc : Forall (fun c => c ∈ lit "abc/[]=") (pe_name e)).
    { pose proof (path_loop_forall (fun c => c ∈ lit "abc/[]=") GNMI_MAX_ELEMS (skip_slashes dotted) []) as Hp.
      unfold gnmi_path_from_str in Hh. destruct (path_loop _ _ _) as [ok es']. cbn in Hh, Hp.
      assert (Forall (fun e => Forall (fun c => c ∈ lit "abc/[]=") (pe_name e)) es') as Hall.
      { apply Hp; [|constructor]. apply skip_slashes_forall, Hd. intros s'. unfold soup_char.
        destruct (rnd gen s') as [r s4]. cbn [fst]. apply list_elem_of_In, nth_In.
        pose proof (Z.mod_pos_bound r 7 ltac:(lia)). change (length (lit "abc/[]=")) with 7%nat. lia. }
      destruct es'; [done|]. injection Hh as <-. by inversion Hall. }
    repeat constructor; intros Heq; rewrite Heq in Hc; apply (bool_decide_pack _) in Hc; vm_compute in Hc; done.
Qed.
