(* ===== verification/GenPaths.v ===== *)
(** * The path generator: tools/gen-model-paths (main.go, model_paths.json)

    The Go program that writes the matchers of model_paths_gen.inc from the
    list of model paths, and that list.  A file is its bytes; what
    [encoding/json] makes of the list's text is an argument of [gen_main]. *)

From stdpp Require Import base decidable list numbers strings.
From Stdlib Require Import ZArith Lia.
From S2P Require Import Prelude Dpa CStr Proto PathText ModelPaths.

(** ** Go's [strings] on one character *)

Fixpoint split_on (c : Z) (s : bytes) : list bytes :=
  match s with
  | [] => [[]]
  | x :: s =>
      if x =? c then [] :: split_on c s else
      match split_on c s with seg :: segs => (x :: seg) :: segs | [] => [[x]] end
  end.

Definition trim_slashes (s : bytes) : bytes := reverse (skip_slashes (reverse (skip_slashes s))).

Definition has_suffix (s : bytes) (c : Z) : bool := bool_decide (last s = Some c).

Definition trim_suffix (s : bytes) (c : Z) : bytes := if has_suffix s c then removelast s else s.

(** ** The generator *)

Record spec_entry := mk_spec {
  se_path : bytes;
  se_kind : bytes;
  se_obj : bytes;
  se_field : bytes;
}.

Definition ckind (k : bytes) : string :=
  if streq k "list" then "GNMI_MODEL_LIST" else if streq k "entry" then "GNMI_MODEL_ENTRY" else "GNMI_MODEL_LEAF".

Definition cobj (o : bytes) : string :=
  if streq o "iface" then "DANOS_OBJ_IFACE" else if streq o "vrf" then "DANOS_OBJ_VRF" else "DANOS_OBJ_ROUTE".

Definition cfield (f : bytes) : string :=
  if streq f "mtu" then "GNMI_FIELD_MTU"
  else if streq f "enabled" then "GNMI_FIELD_ENABLED"
  else if streq f "name" then "GNMI_FIELD_NAME"
  else if streq f "link-up" then "GNMI_FIELD_LINK_UP"
  else "GNMI_FIELD_NONE".

Definition NL : bytes := [10].
Definition QUOTE : bytes := [34].

(** [strcmp(p->elems[i].name, "name") == 0], after an [&&]. *)
Definition name_test (i : nat) (name : bytes) : bytes :=
  lit " &&" ++ NL ++ lit "        strcmp(p->elems[" ++ dec (Z.of_nat i) ++ lit "].name, " ++
  QUOTE ++ name ++ QUOTE ++ lit ") == 0".

Definition key_test (i : nat) : bytes := lit " && p->elems[" ++ dec (Z.of_nat i) ++ lit "].has_key".

(** The conditions of a segment; a bare key element gets the same ones. *)
Definition seg_tests (i : nat) (seg : bytes) : bytes :=
  if has_suffix seg CLOSE then name_test i (trim_suffix seg OPEN) ++ key_test i else name_test i seg.

Definition genMatcher (e : spec_entry) : bytes :=
  let segs := split_on SLASH (trim_slashes (se_path e)) in
  lit "    /* " ++ se_path e ++ lit " */" ++ NL ++
  lit "    if (p->elem_count == " ++ dec (Z.of_nat (length segs)) ++
  concat (imap seg_tests segs) ++ lit ") {" ++ NL ++
  lit "        b->kind = " ++ lit (ckind (se_kind e)) ++ lit ";" ++ NL ++
  lit "        b->obj_type = " ++ lit (cobj (se_obj e)) ++ lit ";" ++ NL ++
  lit "        b->field = " ++ lit (cfield (se_field e)) ++ lit ";" ++ NL ++
  lit "        b->config_tree = has_config_segment(p);" ++ NL ++
  lit "        return DANOS_OK;" ++ NL ++ lit "    }" ++ NL.

Definition gen_banner : bytes :=
  lit "/* GENERATED by tools/gen-model-paths from model_paths.json — do not edit */" ++ NL ++
  lit "/* Generated-matcher entries are consulted before the hand-written */" ++ NL ++
  lit "/* fallback in model_paths.c resolve().                            */" ++ NL.

(** The exit status and, once it was created, the output file.  [argc] counts
    the arguments with the program's name; [data] is what reading the list
    answers, [unmarshal] what becomes of its text, [create] whether the output
    could be created. *)
Definition gen_main (unmarshal : bytes -> option (list spec_entry)) (argc : nat) (data : option bytes) (create : bool)
    : Z * option bytes :=
  if (argc <? 3)%nat then (2, None) else
  match data with
  | None => (1, None)
  | Some data =>
      match unmarshal data with
      | None => (1, None)
      | Some entries =>
          if negb create then (1, None) else (0, Some (gen_banner ++ concat (genMatcher <$> entries)))
      end
  end.

(** ** The files of the repository *)

(** The entries of model_paths.json. *)
Definition model_paths : list spec_entry :=
  let e p k o f := mk_spec (lit p) (lit k) (lit o) (lit f) in
  [ e "/interfaces" "list" "iface" "none";
    e "/interfaces/interface[name]" "entry" "iface" "none";
    e "/interfaces/interface[name]/config/mtu" "leaf" "iface" "mtu";
    e "/interfaces/interface[name]/config/enabled" "leaf" "iface" "enabled";
    e "/interfaces/interface[name]/config/name" "leaf" "iface" "name";
    e "/interfaces/interface[name]/config/ipv4-address" "leaf" "iface" "ipv4-address";
    e "/interfaces/interface[name]/config/ipv6-address" "leaf" "iface" "ipv6-address";
    e "/interfaces/interface[name]/state/mtu" "leaf" "iface" "mtu";
    e "/interfaces/interface[name]/state/enabled" "leaf" "iface" "enabled";
    e "/interfaces/interface[name]/state/link-up" "leaf" "iface" "link-up";
    e "/vrfs" "list" "vrf" "none";
    e "/vrfs/vrf[id]" "entry" "vrf" "none";
    e "/vrfs/vrf[id]/config/enabled" "leaf" "vrf" "enabled";
    e "/routes" "list" "route" "none" ].

(** The lines of model_paths_gen.inc, an apostrophe standing for a quotation
    mark. *)
Definition inc_lines : list string :=
  [ "/* GENERATED by tools/gen-model-paths from model_paths.json — do not edit */";
    "/* Generated-matcher entries are consulted before the hand-written */";
    "/* fallback in model_paths.c resolve().                            */";
    "    /* /interfaces */";
    "    if (p->elem_count == 1 &&";
    "        strcmp(p->elems[0].name, 'interfaces') == 0) {";
    "        b->kind = GNMI_MODEL_LIST;";
    "        b->obj_type = DANOS_OBJ_IFACE;";
    "        b->field = GNMI_FIELD_NONE;";
    "        b->config_tree = has_config_segment(p);";
    "        return DANOS_OK;";
    "    }";
    "    /* /interfaces/interface[name] */";
    "    if (p->elem_count == 2 &&";
    "        strcmp(p->elems[0].name, 'interfaces') == 0 &&";
    "        strcmp(p->elems[1].name, 'interface[name]') == 0 && p->elems[1].has_key) {";
    "        b->kind = GNMI_MODEL_ENTRY;";
    "        b->obj_type = DANOS_OBJ_IFACE;";
    "        b->field = GNMI_FIELD_NONE;";
    "        b->config_tree = has_config_segment(p);";
    "        return DANOS_OK;";
    "    }";
    "    /* /interfaces/interface[name]/config/mtu */";
    "    if (p->elem_count == 4 &&";
    "        strcmp(p->elems[0].name, 'interfaces') == 0 &&";
    "        strcmp(p->elems[1].name, 'interface[name]') == 0 && p->elems[1].has_key &&";
    "        strcmp(p->elems[2].name, 'config') == 0 &&";
    "        strcmp(p->elems[3].name, 'mtu') == 0) {";
    "        b->kind = GNMI_MODEL_LEAF;";
    "        b->obj_type = DANOS_OBJ_IFACE;";
    "        b->field = GNMI_FIELD_MTU;";
    "        b->config_tree = has_config_segment(p);";
    "        return DANOS_OK;";
    "    }";
    "    /* /interfaces/interface[name]/config/enabled */";
    "    if (p->elem_count == 4 &&";
    "        strcmp(p->elems[0].name, 'interfaces') == 0 &&";
    "        strcmp(p->elems[1].name, 'interface[name]') == 0 && p->elems[1].has_key &&";
    "        strcmp(p->elems[2].name, 'config') == 0 &&";
    "        strcmp(p->elems[3].name, 'enabled') == 0) {";
    "        b->kind = GNMI_MODEL_LEAF;";
    "        b->obj_type = DANOS_OBJ_IFACE;";
    "        b->field = GNMI_FIELD_ENABLED;";
    "        b->config_tree = has_config_segment(p);";
    "        return DANOS_OK;";
    "    }";
    "    /* /interfaces/interface[name]/config/name */";
    "    if (p->elem_count == 4 &&";
    "        strcmp(p->elems[0].name, 'interfaces') == 0 &&";
    "        strcmp(p->elems[1].name, 'interface[name]') == 0 && p->elems[1].has_key &&";
    "        strcmp(p->elems[2].name, 'config') == 0 &&";
    "        strcmp(p->elems[3].name, 'name') == 0) {";
    "        b->kind = GNMI_MODEL_LEAF;";
    "        b->obj_type = DANOS_OBJ_IFACE;";
    "        b->field = GNMI_FIELD_NAME;";
    "        b->config_tree = has_config_segment(p);";
    "        return DANOS_OK;";
    "    }";
    "    /* /interfaces/interface[name]/config/ipv4-address */";
    "    if (p->elem_count == 4 &&";
    "        strcmp(p->elems[0].name, 'interfaces') == 0 &&";
    "        strcmp(p->elems[1].name, 'interface[name]') == 0 && p->elems[1].has_key &&";
    "        strcmp(p->elems[2].name, 'config') == 0 &&";
    "        strcmp(p->elems[3].name, 'ipv4-address') == 0) {";
    "        b->kind = GNMI_MODEL_LEAF;";
    "        b->obj_type = DANOS_OBJ_IFACE;";
    "        b->field = GNMI_FIELD_NONE;";
    "        b->config_tree = has_config_segment(p);";
    "        return DANOS_OK;";
    "    }";
    "    /* /interfaces/interface[name]/config/ipv6-address */";
    "    if (p->elem_count == 4 &&";
    "        strcmp(p->elems[0].name, 'interfaces') == 0 &&";
    "        strcmp(p->elems[1].name, 'interface[name]') == 0 && p->elems[1].has_key &&";
    "        strcmp(p->elems[2].name, 'config') == 0 &&";
    "        strcmp(p->elems[3].name, 'ipv6-address') == 0) {";
    "        b->kind = GNMI_MODEL_LEAF;";
    "        b->obj_type = DANOS_OBJ_IFACE;";
    "        b->field = GNMI_FIELD_NONE;";
    "        b->config_tree = has_config_segment(p);";
    "        return DANOS_OK;";
    "    }";
    "    /* /interfaces/interface[name]/state/mtu */";
    "    if (p->elem_count == 4 &&";
    "        strcmp(p->elems[0].name, 'interfaces') == 0 &&";
    "        strcmp(p->elems[1].name, 'interface[name]') == 0 && p->elems[1].has_key &&";
    "        strcmp(p->elems[2].name, 'state') == 0 &&";
    "        strcmp(p->elems[3].name, 'mtu') == 0) {";
    "        b->kind = GNMI_MODEL_LEAF;";
    "        b->obj_type = DANOS_OBJ_IFACE;";
    "        b->field = GNMI_FIELD_MTU;";
    "        b->config_tree = has_config_segment(p);";
    "        return DANOS_OK;";
    "    }";
    "    /* /interfaces/interface[name]/state/enabled */";
    "    if (p->elem_count == 4 &&";
    "        strcmp(p->elems[0].name, 'interfaces') == 0 &&";
    "        strcmp(p->elems[1].name, 'interface[name]') == 0 && p->elems[1].has_key &&";
    "        strcmp(p->elems[2].name, 'state') == 0 &&";
    "        strcmp(p->elems[3].name, 'enabled') == 0) {";
    "        b->kind = GNMI_MODEL_LEAF;";
    "        b->obj_type = DANOS_OBJ_IFACE;";
    "        b->field = GNMI_FIELD_ENABLED;";
    "        b->config_tree = has_config_segment(p);";
    "        return DANOS_OK;";
    "    }";
    "    /* /interfaces/interface[name]/state/link-up */";
    "    if (p->elem_count == 4 &&";
    "        strcmp(p->elems[0].name, 'interfaces') == 0 &&";
    "        strcmp(p->elems[1].name, 'interface[name]') == 0 && p->elems[1].has_key &&";
    "        strcmp(p->elems[2].name, 'state') == 0 &&";
    "        strcmp(p->elems[3].name, 'link-up') == 0) {";
    "        b->kind = GNMI_MODEL_LEAF;";
    "        b->obj_type = DANOS_OBJ_IFACE;";
    "        b->field = GNMI_FIELD_LINK_UP;";
    "        b->config_tree = has_config_segment(p);";
    "        return DANOS_OK;";
    "    }";
    "    /* /vrfs */";
    "    if (p->elem_count == 1 &&";
    "        strcmp(p->elems[0].name, 'vrfs') == 0) {";
    "        b->kind = GNMI_MODEL_LIST;";
    "        b->obj_type = DANOS_OBJ_VRF;";
    "        b->field = GNMI_FIELD_NONE;";
    "        b->config_tree = has_config_segment(p);";
    "        return DANOS_OK;";
    "    }";
    "    /* /vrfs/vrf[id] */";
    "    if (p->elem_count == 2 &&";
    "        strcmp(p->elems[0].name, 'vrfs') == 0 &&";
    "        strcmp(p->elems[1].name, 'vrf[id]') == 0 && p->elems[1].has_key) {";
    "        b->kind = GNMI_MODEL_ENTRY;";
    "        b->obj_type = DANOS_OBJ_VRF;";
    "        b->field = GNMI_FIELD_NONE;";
    "        b->config_tree = has_config_segment(p);";
    "        return DANOS_OK;";
    "    }";
    "    /* /vrfs/vrf[id]/config/enabled */";
    "    if (p->elem_count == 4 &&";
    "        strcmp(p->elems[0].name, 'vrfs') == 0 &&";
    "        strcmp(p->elems[1].name, 'vrf[id]') == 0 && p->elems[1].has_key &&";
    "        strcmp(p->elems[2].name, 'config') == 0 &&";
    "        strcmp(p->elems[3].name, 'enabled') == 0) {";
    "        b->kind = GNMI_MODEL_LEAF;";
    "        b->obj_type = DANOS_OBJ_VRF;";
    "        b->field = GNMI_FIELD_ENABLED;";
    "        b->config_tree = has_config_segment(p);";
    "        return DANOS_OK;";
    "    }";
    "    /* /routes */";
    "    if (p->elem_count == 1 &&";
    "        strcmp(p->elems[0].name, 'routes') == 0) {";
    "        b->kind = GNMI_MODEL_LIST;";
    "        b->obj_type = DANOS_OBJ_ROUTE;";
    "        b->field = GNMI_FIELD_NONE;";
    "        b->config_tree = has_config_segment(p);";
    "        return DANOS_OK;";
    "    }" ]%string.

Definition inc_text (ls : list string) : bytes :=
  concat ((fun l => ((fun c => if c =? 39 then 34 else c) <$> lit l) ++ NL) <$> ls).

(** ** What the generator makes of the list *)

(** The C text of one matcher of [gen_entries]. *)
Definition kind_name (k : gnmi_model_kind_t) : string :=
  match k with
  | GNMI_MODEL_LIST => "GNMI_MODEL_LIST" | GNMI_MODEL_ENTRY => "GNMI_MODEL_ENTRY" | GNMI_MODEL_LEAF => "GNMI_MODEL_LEAF"
  end.

Definition obj_type_text (t : danos_obj_type) : string :=
  match t with
  | DANOS_OBJ_IFACE => "DANOS_OBJ_IFACE" | DANOS_OBJ_VRF => "DANOS_OBJ_VRF" | DANOS_OBJ_ROUTE => "DANOS_OBJ_ROUTE"
  | _ => "DANOS_OBJ_INVALID"
  end.

Definition field_name (f : gnmi_model_field_t) : string :=
  match f with
  | GNMI_FIELD_NONE => "GNMI_FIELD_NONE" | GNMI_FIELD_MTU => "GNMI_FIELD_MTU"
  | GNMI_FIELD_ENABLED => "GNMI_FIELD_ENABLED" | GNMI_FIELD_NAME => "GNMI_FIELD_NAME"
  | GNMI_FIELD_LINK_UP => "GNMI_FIELD_LINK_UP" | GNMI_FIELD_IPV4_ADDRESS => "GNMI_FIELD_IPV4_ADDRESS"
  | GNMI_FIELD_IPV6_ADDRESS => "GNMI_FIELD_IPV6_ADDRESS"
  end.

Definition matcher_text (e : spec_entry) (g : gen_entry) : bytes :=
  lit "    /* " ++ se_path e ++ lit " */" ++ NL ++
  lit "    if (p->elem_count == " ++ dec (Z.of_nat (length (ge_names g))) ++
  concat (imap (fun i n => name_test i (lit n) ++ (if (i =? 1)%nat then key_test i else [])) (ge_names g)) ++
  lit ") {" ++ NL ++
  lit "        b->kind = " ++ lit (kind_name (ge_kind g)) ++ lit ";" ++ NL ++
  lit "        b->obj_type = " ++ lit (obj_type_text (ge_type g)) ++ lit ";" ++ NL ++
  lit "        b->field = " ++ lit (field_name (ge_field g)) ++ lit ";" ++ NL ++
  lit "        b->config_tree = has_config_segment(p);" ++ NL ++
  lit "        return DANOS_OK;" ++ NL ++ lit "    }" ++ NL.

(** The checked-in matchers are what the generator writes: from the
    entries of model_paths.json it produces model_paths_gen.inc byte for
    byte, and that file is, block by block, the C text of the table
    [gen_entries] that the resolver is modelled with. *)
Theorem generated_file_current unmarshal json :
  unmarshal json = Some model_paths ->
  gen_main unmarshal 3 (Some json) true = (0, Some (inc_text inc_lines)) /\
  inc_text inc_lines = gen_banner ++ concat (zip_with matcher_text model_paths gen_entries).
Proof.
  intros Hj. assert (Ht : gen_banner ++ concat (genMatcher <$> model_paths) = inc_text inc_lines) by (vm_compute; reflexivity).
  split; [|vm_compute; reflexivity]. unfold gen_main. rewrite Hj. cbn [Nat.ltb Nat.leb negb]. by rewrite Ht.
Qed.

Lemma generated_file_current_witness :
  gen_main (fun _ => Some model_paths) 3 (Some []) true = (0, Some (inc_text inc_lines)) /\
  inc_text inc_lines = gen_banner ++ concat (zip_with matcher_text model_paths gen_entries).
Proof. apply (generated_file_current (fun _ => Some model_paths) []). reflexivity. Defined.

(** A segment [name[key]] keeps its brackets: the matcher compares the name of
    the path's element, which has none, with the whole segment. *)
Theorem keyed_segment_kept i name key :
  let seg := name ++ [OPEN] ++ key ++ [CLOSE] in seg_tests i seg = name_test i seg ++ key_test i.
Proof.
  cbv zeta. unfold seg_tests, trim_suffix, has_suffix. rewrite !app_assoc, last_snoc.
  by rewrite bool_decide_eq_true_2, bool_decide_eq_false_2.
Qed.
