(* ===== verification/IfaceLookup.v ===== *)
(** * Interfaces by name

    The command line and the NETCONF server look an interface up by its name:
    an iteration over the default store with the same callback.  Both change a
    copy through the model of leaves and write it back with
    [danos_object_update]. *)

From stdpp Require Import base decidable list numbers strings gmap.
From Stdlib Require Import ZArith Lia.
From S2P Require Import Prelude Dpa CStr Proto.
From S2P Require Import ObjectStore Wal EventBus Registry Persist DpaObjects Transaction Pipeline.
From S2P Require Import Zapi ZapiMapper ModelRoutes ModelPaths.

(** The body of both callbacks; [found] is the copy in [*out]. *)
Definition lookup_iface_iter (want : bytes) (found : option bytes) (e : danos_object_entry) : option bytes :=
  match found with
  | Some _ => found
  | None =>
      if negb (bool_decide (e_type e = DANOS_OBJ_IFACE)) || (e_size e <? sizeof danos_iface)%nat then None
      else if bool_decide (c_str (iface_name (of_mem (e_data e))) = want)
           then Some (take (sizeof danos_iface) (e_data e)) else None
  end.

Definition find_iface (want : bytes) (c : core) : option bytes :=
  danos_object_iterate (default_entries c) (lookup_iface_iter want) None.

(** [danos_object_update] of the copy, under the index it has. *)
Definition write_iface (target : bytes) (c : core) : danos_status * core :=
  danos_object_update (g_default_store c) DANOS_OBJ_IFACE (iface_ifindex (of_mem target)) (Some target) c.

(** ** What is found *)

(** Every interface of the store is a well-formed one under its own index. *)
Definition ifaces_ok (h : Z) (c : core) : Prop :=
  forall id d, objs c h !! (DANOS_OBJ_IFACE, id) = Some d ->
    exists i : danos_iface, struct_wf i /\ d = to_mem i /\ iface_ifindex i = id.

(** [i] is the interface of this name, and the only one. *)
Definition iface_named (h : Z) (c : core) (want : bytes) (i : danos_iface) : Prop :=
  struct_wf i /\ c_str (iface_name i) = want /\
  objs c h !! (DANOS_OBJ_IFACE, iface_ifindex i) = Some (to_mem i) /\
  forall j : danos_iface, struct_wf j -> c_str (iface_name j) = want ->
    objs c h !! (DANOS_OBJ_IFACE, iface_ifindex j) = Some (to_mem j) -> j = i.

Definition iface_unnamed (h : Z) (c : core) (want : bytes) : Prop :=
  forall j : danos_iface, struct_wf j -> c_str (iface_name j) = want ->
    objs c h !! (DANOS_OBJ_IFACE, iface_ifindex j) = Some (to_mem j) -> False.

Lemma lookup_iface_found want es m : foldl (lookup_iface_iter want) (Some m) es = Some m.
Proof. induction es as [|e es IH]; [done|exact IH]. Qed.

Lemma lookup_iface_hit h c want e :
  ifaces_ok h c -> objs c h !! (e_type e, e_id e) = Some (e_data e) ->
  lookup_iface_iter want None e = None \/
  exists i : danos_iface, struct_wf i /\ c_str (iface_name i) = want /\
    objs c h !! (DANOS_OBJ_IFACE, iface_ifindex i) = Some (to_mem i) /\
    lookup_iface_iter want None e = Some (to_mem i).
Proof.
  intros Hok He. unfold lookup_iface_iter. destruct (bool_decide_reflect (e_type e = DANOS_OBJ_IFACE)) as [Et|]; [|by left].
  rewrite Et in He. destruct (Hok _ _ He) as (i & Hw & Hd & Hi). unfold e_size. rewrite Hd, (length_to_mem i Hw).
  cbn [negb orb]. rewrite Nat.ltb_irrefl, of_to_mem by done.
  case_bool_decide as Hn; [right|by left]. exists i. rewrite take_ge by (by rewrite (length_to_mem i Hw)).
  rewrite Hd, <- Hi in He. by split_and!.
Qed.

Lemma find_iface_fold h c want es :
  ifaces_ok h c -> (forall e, e ∈ es -> objs c h !! (e_type e, e_id e) = Some (e_data e)) ->
  (foldl (lookup_iface_iter want) None es = None /\ Forall (fun e => lookup_iface_iter want None e = None) es) \/
  exists i : danos_iface, struct_wf i /\ c_str (iface_name i) = want /\
    objs c h !! (DANOS_OBJ_IFACE, iface_ifindex i) = Some (to_mem i) /\
    foldl (lookup_iface_iter want) None es = Some (to_mem i).
Proof.
  intros Hok. induction es as [|e es IH]; intros Hes; [by left|]. cbn [foldl].
  destruct (lookup_iface_hit h c want e Hok) as [Hn|(i & Hi)]; [apply Hes; by left| |].
  - rewrite Hn. destruct IH as [[H1 H2]|H]; [intros; apply Hes; by right| |by right].
    left. split; [done|]. by constructor.
  - right. exists i. destruct Hi as (H1 & H2 & H3 & ->). by rewrite lookup_iface_found.
Qed.

(** The lookup finds the interface of that name. *)
Lemma find_iface_named h c want i :
  prog_env h c -> ifaces_ok h c -> iface_named h c want i -> find_iface want c = Some (to_mem i).
Proof.
  intros Hp Hok (Hw & Hn & Ho & Honly). destruct (default_entries_objs h c Hp) as (s & Hs & He).
  unfold find_iface. rewrite Hs. cbn [danos_object_iterate].
  destruct (find_iface_fold h c want (store_entries s) Hok) as [[H1 H2]|(j & J1 & J2 & J3 & ->)].
  - intros e Hin. by apply He.
  - exfalso. rewrite Forall_forall in H2.
    assert (Hin : mk_entry DANOS_OBJ_IFACE (iface_ifindex i) (to_mem i) ∈ store_entries s) by (by apply He).
    specialize (H2 _ Hin). unfold lookup_iface_iter, e_size in H2. cbn [e_type e_data] in H2.
    rewrite bool_decide_true, (length_to_mem i Hw), Nat.ltb_irrefl, of_to_mem, bool_decide_true in H2 by done. done.
  - by rewrite (Honly j).
Qed.

Lemma find_iface_unnamed h c want :
  prog_env h c -> ifaces_ok h c -> iface_unnamed h c want -> find_iface want c = None.
Proof.
  intros Hp Hok Hno. destruct (default_entries_objs h c Hp) as (s & Hs & He).
  unfold find_iface. rewrite Hs. cbn [danos_object_iterate].
  destruct (find_iface_fold h c want (store_entries s) Hok) as [[H1 _]|(j & J1 & J2 & J3 & _)];
    [intros e Hin; by apply He|done|]. by destruct (Hno j).
Qed.

(** Writing a changed copy back replaces that interface and nothing else. *)
Lemma write_iface_ok h c i (i' : danos_iface) :
  prog_env h c -> struct_wf i' -> iface_ifindex i' = iface_ifindex i ->
  objs c h !! (DANOS_OBJ_IFACE, iface_ifindex i) = Some (to_mem i) ->
  exists c', write_iface (to_mem i') c = (DANOS_OK, c') /\ prog_env h c' /\
    objs c' h = <[(DANOS_OBJ_IFACE, iface_ifindex i) := to_mem i']> (objs c h).
Proof.
  intros Hp Hw Hi Ho. unfold write_iface. rewrite (pe_default _ _ Hp), of_to_mem, Hi by done.
  destruct (default_op h c (OpUpdate DANOS_OBJ_IFACE (iface_ifindex i) (Some (to_mem i'))) Hp) as (c' & Hr & Hp' & Ho' & _).
  change (danos_object_update (Some h) DANOS_OBJ_IFACE (iface_ifindex i) (Some (to_mem i')) c)
    with (run_op h (OpUpdate DANOS_OBJ_IFACE (iface_ifindex i) (Some (to_mem i'))) c).
  pose proof (length_to_mem i' Hw) as Hl. exists c'. rewrite Hr. cbn [spec_op] in *.
  destruct (to_mem i') as [|b d]; [done|]. rewrite decide_True in * by eauto. done.
Qed.

(** ** Two leaves *)

(** The interface with this MTU and state. *)
Definition edited (mtu : Z) (enabled : bool) (i : danos_iface) : danos_iface :=
  mk_iface (iface_ifindex i) (iface_name i) (iface_type i) mtu (iface_mac i) enabled (iface_link_up i)
    (iface_parent_ifindex i) (iface_outer_vlan i) (iface_inner_vlan i) (iface_ipv4_address i) (iface_ipv6_address i).

Lemma edited_wf mtu enabled i : struct_wf i -> 0 <= mtu < 2 ^ 16 -> struct_wf (edited mtu enabled i).
Proof.
  intros (H1 & H2 & H3 & H4 & H5 & H6 & H7 & H8 & H9 & H10) Hm.
  exact (conj H1 (conj H2 (conj H3 (conj Hm (conj H5 (conj H6 (conj H7 (conj H8 (conj H9 H10))))))))).
Qed.

(** ** An example: a store with one interface *)

Definition demo_eth_core : core := (danos_iface_create (Some demo_eth) demo_prog_core).2.

Lemma one_iface_lookup n v (x y : bytes) id d :
  <[(DANOS_OBJ_IFACE, n) := x]> (<[(DANOS_OBJ_VRF, v) := y]> (∅ : gmap obj_key bytes)) !! (DANOS_OBJ_IFACE, id) = Some d ->
  id = n /\ d = x.
Proof. intros [[[= <-] <-]|[_ H]]%lookup_insert_Some; [done|]. by rewrite lookup_insert_ne, lookup_empty in H. Qed.

Lemma demo_eth_facts :
  prog_env 1 demo_eth_core /\ ifaces_ok 1 demo_eth_core /\ iface_named 1 demo_eth_core (lit "eth0") demo_eth.
Proof.
  destruct demo_prog_facts as (Hp & Ho0 & _).
  destruct (create_as_ok DANOS_OBJ_IFACE iface_ifindex demo_eth demo_prog_core demo_eth_core)
    as (h & c1 & Hg & Hwf & Hd & Hl & _ & Ho); [apply Hp|vm_compute; reflexivity|].
  unfold get_default_store in Hg. rewrite (pe_default _ _ Hp) in Hg. apply pair_equal_spec in Hg as [Hh <-].
  apply (inj Some) in Hh as <-. rewrite Ho0 in Ho.
  assert (Hone : forall id d, objs demo_eth_core 1 !! (DANOS_OBJ_IFACE, id) = Some d -> id = 4 /\ d = to_mem demo_eth).
  { intros id d Hd'. rewrite Ho in Hd'. exact (one_iface_lookup 4 7 _ _ id d Hd'). }
  split; [split; [done|done|vm_compute; reflexivity]|]. split.
  - intros id d Hd'. destruct (Hone id d Hd') as [-> ->]. exists demo_eth. exact (conj demo_eth_wf (conj eq_refl eq_refl)).
  - split; [apply demo_eth_wf|]. split; [vm_compute; reflexivity|]. split; [rewrite Ho; apply lookup_insert_eq|].
    intros j Hw _ Hj. destruct (Hone _ _ Hj) as [_ E].
    by rewrite <- (of_to_mem j Hw), E, (of_to_mem demo_eth demo_eth_wf).
Qed.
