(* ===== verification/Netconf.v ===== *)
(** * NETCONF: danos-mgmt netconf.h / netconf.c

    The protocol layer: the kind of an RPC is found by looking for its tag, the
    configuration is printed into a static buffer of 8192 bytes, and an edit
    changes one interface of the default store.  Requests are C strings; the
    heap answers every allocation; [None] is a write behind the buffer. *)

From stdpp Require Import base decidable list numbers strings gmap.
From Stdlib Require Import ZArith Lia.
From S2P Require Import Prelude Dpa Backends CStr TextBuf Proto.
From S2P Require Import ObjectStore Wal EventBus Registry Persist DpaObjects Transaction Pipeline.
From S2P Require Import Zapi ZapiMapper ModelRoutes ModelPaths IfaceLookup.

Record netconf_ctx_t := mk_netconf {
  nc_running : bool;
  nc_port : Z;
  nc_rpc_count : Z;
  nc_error_count : Z;
}.

Inductive netconf_rpc_type_t :=
  | NETCONF_RPC_UNKNOWN | NETCONF_RPC_GET_CONFIG | NETCONF_RPC_EDIT_CONFIG | NETCONF_RPC_GET
  | NETCONF_RPC_GET_OPERATIONS | NETCONF_RPC_CLOSE_SESSION | NETCONF_RPC_KILL_SESSION | NETCONF_RPC_COMMIT
  | NETCONF_RPC_DISCARD | NETCONF_RPC_LOCK | NETCONF_RPC_UNLOCK.

Definition netconf_init (port : Z) : netconf_ctx_t := mk_netconf false (if port =? 0 then 830 else port) 0 0.

Definition find_tag (xml : bytes) (tag : string) : option bytes := strstr xml (take 127 (lit "<" ++ lit tag)).

Definition has_tag (xml : bytes) (tag : string) : bool := bool_decide (is_Some (find_tag xml tag)).

Definition netconf_parse_rpc (xml : option bytes) : netconf_rpc_type_t :=
  match xml with
  | None => NETCONF_RPC_UNKNOWN
  | Some xml =>
      if has_tag xml "get-config" then NETCONF_RPC_GET_CONFIG
      else if has_tag xml "edit-config" then NETCONF_RPC_EDIT_CONFIG
      else if has_tag xml "get" && negb (bool_decide (is_Some (strstr xml (lit "get-config")))) then NETCONF_RPC_GET
      else if has_tag xml "close-session" then NETCONF_RPC_CLOSE_SESSION
      else if has_tag xml "kill-session" then NETCONF_RPC_KILL_SESSION
      else if has_tag xml "commit" then NETCONF_RPC_COMMIT
      else if has_tag xml "discard-changes" then NETCONF_RPC_DISCARD
      else if has_tag xml "lock" then NETCONF_RPC_LOCK
      else if has_tag xml "unlock" then NETCONF_RPC_UNLOCK
      else NETCONF_RPC_UNKNOWN
  end.

Definition netconf_hello_message : heap -> option bytes * heap :=
  strdup (js "<?xml version='1.0' encoding='UTF-8'?>
<hello xmlns='urn:ietf:params:xml:ns:netconf:base:1.0'>
  <capabilities>
    <capability>urn:ietf:params:netconf:base:1.0</capability>
    <capability>urn:ietf:params:netconf:base:1.1</capability>
    <capability>urn:ietf:params:netconf:capability:writable-running:1.0</capability>
    <capability>urn:ietf:params:netconf:capability:candidate:1.0</capability>
    <capability>urn:ietf:params:netconf:capability:rollback-on-error:1.0</capability>
    <capability>urn:ietf:params:netconf:capability:validate:1.1</capability>
    <capability>urn:danos:yang:1.0</capability>
  </capabilities>
  <session-id>1</session-id>
</hello>
").

Definition ok_text : bytes := js "<rpc-reply xmlns='urn:ietf:params:xml:ns:netconf:base:1.0'>
  <ok/>
</rpc-reply>
".

Definition ok_reply : heap -> option bytes * heap := strdup ok_text.

Definition error_reply (msg : bytes) : heap -> option bytes * heap :=
  strdup (take 511 (js "<rpc-reply xmlns='urn:ietf:params:xml:ns:netconf:base:1.0'>
  <rpc-error>
    <error-type>application</error-type>
    <error-tag>operation-failed</error-tag>
    <error-severity>error</error-severity>
    <error-message>" ++ msg ++ lit "</error-message>
  </rpc-error>
</rpc-reply>
")).

(** ** The configuration *)

(** [g_nc_body] and [g_nc_off]. *)
Abbreviation nc_statics := tbuf.

Definition nc_boot : nc_statics := mk_tbuf (zeros (Z.to_nat 8192)) 0.

Definition iface_xml (i : danos_iface) : bytes :=
  lit "      <interface>
        <name>" ++ c_str (iface_name i) ++ lit "</name>
        <mtu>" ++ dec (iface_mtu i) ++ lit "</mtu>
        <enabled>" ++ (if iface_admin_up i then lit "true" else lit "false") ++ lit "</enabled>
      </interface>
".

Definition nc_iface_xml_iter (b : option nc_statics) (e : danos_object_entry) : option nc_statics :=
  if negb (bool_decide (e_type e = DANOS_OBJ_IFACE)) || (e_size e <? sizeof danos_iface)%nat then b
  else b ≫= bprintf (iface_xml (of_mem (e_data e))).

Definition nc_head : bytes := js "<rpc-reply xmlns='urn:ietf:params:xml:ns:netconf:base:1.0'>
  <data>
    <interfaces xmlns='urn:danos:yang:danos-iface'>
".

Definition nc_tail : bytes := lit "    </interfaces>
  </data>
</rpc-reply>
".

Definition get_config_reply (c : core) (m : heap) (st : nc_statics) : option (option bytes * heap * nc_statics) :=
  b ← bprintf nc_head (mk_tbuf (tb_mem st) 0);
  b ← danos_object_iterate (default_entries c) nc_iface_xml_iter (Some b);
  b ← bprintf nc_tail b;
  Some (strdup (c_str (tb_mem b)) m, b).

(** ** Edits *)

(** The text between [<tag>] and [</tag>], up to [cap - 1] bytes; [None] leaves
    the caller's array as it is. *)
Definition extract_text (xml : bytes) (tag : string) (cap : nat) : option bytes :=
  let opening := lit "<" ++ lit tag ++ lit ">" in
  let closing := lit "</" ++ lit tag ++ lit ">" in
  p ← strstr xml opening;
  let p := drop (length opening) p in
  e ← strstr p closing;
  let n := (length p - length e)%nat in
  Some (take (if (cap <=? n)%nat then cap - 1 else n)%nat p).

Definition nc_lookup_iface_iter (want : bytes) : option bytes -> danos_object_entry -> option bytes :=
  lookup_iface_iter want.

Section edit.
Context `{L : inet6_lib}.

(** One leaf, where the request has it; [None] is a refused value. *)
Definition edit_leaf (field : gnmi_model_field_t) (text : bytes) (target : bytes) : option bytes :=
  if bool_decide (text = []) then Some target
  else gnmi_model_apply_leaf DANOS_OBJ_IFACE field (Some target)
         (Some (mk_val GNMI_VAL_JSON_IETF (take 255 text) 0 0 false)).

Definition edit_config_apply (xml : bytes) (c : core) (m : heap) : option bytes * heap * core :=
  match find_tag xml "interface>" with
  | None => (ok_reply m, c)
  | Some iblock =>
      let name := default [] (extract_text iblock "name" 64) in
      let mtu := default [] (extract_text iblock "mtu" 32) in
      let enabled := default [] (extract_text iblock "enabled" 16) in
      if bool_decide (name = []) then (error_reply (lit "interface name missing") m, c) else
      match danos_object_iterate (default_entries c) (nc_lookup_iface_iter name) None with
      | None => (error_reply (lit "interface not found") m, c)
      | Some target =>
          match edit_leaf GNMI_FIELD_MTU mtu target ≫= edit_leaf GNMI_FIELD_ENABLED enabled with
          | None => (error_reply (lit (danos_status_str DANOS_ERR_INVALID_ARG)) m, c)
          | Some target =>
              match write_iface target c with
              | (DANOS_OK, c) => (ok_reply m, c)
              | (st, c) => (error_reply (lit (danos_status_str st)) m, c)
              end
          end
      end
  end.

(** ** Dispatch *)

Record nc_world := mk_nc_world { nw_ctx : netconf_ctx_t; nw_statics : nc_statics; nw_core : core; nw_heap : heap }.

Definition count_rpc (x : netconf_ctx_t) : netconf_ctx_t :=
  mk_netconf (nc_running x) (nc_port x) (u64 (nc_rpc_count x + 1)) (nc_error_count x).
Definition count_error (x : netconf_ctx_t) : netconf_ctx_t :=
  mk_netconf (nc_running x) (nc_port x) (nc_rpc_count x) (u64 (nc_error_count x + 1)).

Definition netconf_handle_rpc (xml : option bytes) (w : nc_world) : option (option bytes * nc_world) :=
  match xml with
  | None =>
      let '(r, m) := error_reply (lit "null input") (nw_heap w) in
      Some (r, mk_nc_world (nw_ctx w) (nw_statics w) (nw_core w) m)
  | Some x =>
      let ctx := count_rpc (nw_ctx w) in
      match netconf_parse_rpc xml with
      | NETCONF_RPC_GET_CONFIG | NETCONF_RPC_GET =>
          '(r, m, st) ← get_config_reply (nw_core w) (nw_heap w) (nw_statics w);
          Some (r, mk_nc_world ctx st (nw_core w) m)
      | NETCONF_RPC_EDIT_CONFIG =>
          let '(r, m, c) := edit_config_apply x (nw_core w) (nw_heap w) in
          Some (r, mk_nc_world ctx (nw_statics w) c m)
      | NETCONF_RPC_COMMIT | NETCONF_RPC_DISCARD | NETCONF_RPC_LOCK | NETCONF_RPC_UNLOCK
      | NETCONF_RPC_CLOSE_SESSION =>
          let '(r, m) := ok_reply (nw_heap w) in
          Some (r, mk_nc_world ctx (nw_statics w) (nw_core w) m)
      | _ =>
          let '(r, m) := error_reply (lit "unknown RPC") (nw_heap w) in
          Some (r, mk_nc_world (count_error ctx) (nw_statics w) (nw_core w) m)
      end
  end.

End edit.

Definition netconf_get_stats (x : netconf_ctx_t) : Z * Z := (nc_rpc_count x, nc_error_count x).

(** ** What an edit does *)

Definition bool_text (b : bool) : bytes := if b then lit "true" else lit "false".

(** The edit of one interface: the leaves it has, with the same text (white
    space, say) after every element. *)
Definition edit_request (gap name : bytes) (mtu : option Z) (enabled : option bool) : bytes :=
  lit "<rpc>" ++ lit "<edit-config" ++ lit "><target><running/></target><config><interfaces>" ++ lit "<interface>" ++ gap ++
  lit "<name>" ++ name ++ lit "</name>" ++ gap ++
  from_option (fun n => lit "<mtu>" ++ dec n ++ lit "</mtu>" ++ gap) [] mtu ++
  from_option (fun b => lit "<enabled>" ++ bool_text b ++ lit "</enabled>" ++ gap) [] enabled ++
  lit "</interface></interfaces></config></edit-config></rpc>".

Ltac plain := lazymatch goal with H : 60 ∉ ?a |- 60 ∉ ?a => exact H | |- head _ = _ => reflexivity end.

Ltac walk :=
  repeat first
    [ rewrite strstr_here
    | rewrite (strstr_pass 60) by plain
    | rewrite strstr_clear by (vm_compute; reflexivity) ].

(** The text between the tags, when it has no tag in it. *)
Lemma extract_here xml tag cap t rest :
  strstr xml (lit "<" ++ lit tag ++ lit ">") =
    Some ((lit "<" ++ lit tag ++ lit ">") ++ t ++ (lit "</" ++ lit tag ++ lit ">") ++ rest) ->
  60 ∉ t -> (length t < cap)%nat -> extract_text xml tag cap = Some t.
Proof.
  intros Hs Ht Hn. unfold extract_text. rewrite Hs. cbn [mbind option_bind]. rewrite drop_app_length.
  rewrite (strstr_pass 60), strstr_here by done. cbn [mbind option_bind]. f_equal.
  rewrite (length_app t). replace (length t + _ - _)%nat with (length t) by lia.
  rewrite (proj2 (Nat.leb_gt _ _)) by lia. apply take_app_length.
Qed.

Section edits.
Context (gap name : bytes) (mtu : option Z) (enabled : option bool).
Context (Hgap : 60 ∉ gap) (Hname : 60 ∉ name) (Hlen : (0 < length name < 64)%nat).
Context (Hmtu : forall n, mtu = Some n -> 0 <= n < 2 ^ 64).

Lemma digits_plain n : 0 <= n < 2 ^ 64 -> 60 ∉ dec n.
Proof. intros Hn. apply chars_notin; [by apply dec_chars|]; lia. Qed.

Lemma bool_plain b : 60 ∉ bool_text b.
Proof. destruct b; lit_text. Qed.

Ltac open_request :=
  let Hd := fresh in
  unfold edit_request; destruct mtu as [n|];
  [pose proof (digits_plain n (Hmtu n eq_refl)) as Hd; pose proof (dec_length n)|];
  (destruct enabled as [b|]; [pose proof (bool_plain b)|]); cbn [from_option].

Lemma edit_request_rpc : netconf_parse_rpc (Some (edit_request gap name mtu enabled)) = NETCONF_RPC_EDIT_CONFIG.
Proof.
  unfold netconf_parse_rpc, has_tag, find_tag.
  change (take 127 (lit "<" ++ lit "get-config")) with (lit "<get-config").
  change (take 127 (lit "<" ++ lit "edit-config")) with (lit "<edit-config").
  assert (H1 : strstr (edit_request gap name mtu enabled) (lit "<get-config") = None).
  { open_request; rewrite <- ?app_assoc; walk; by rewrite strstr_none by (done || by vm_compute). }
  assert (H2 : is_Some (strstr (edit_request gap name mtu enabled) (lit "<edit-config"))).
  { unfold edit_request. walk. eauto. }
  rewrite H1. rewrite bool_decide_false by (by intros []). by rewrite bool_decide_true.
Qed.

Lemma edit_request_fields :
  exists iblock, find_tag (edit_request gap name mtu enabled) "interface>" = Some iblock /\
    extract_text iblock "name" 64 = Some name /\ extract_text iblock "mtu" 32 = dec <$> mtu /\
    extract_text iblock "enabled" 16 = bool_text <$> enabled.
Proof.
  unfold find_tag, edit_request.
  change (take 127 (lit "<" ++ lit "interface>")) with (lit "<interface>"). walk. eexists. split; [reflexivity|].
  assert (Hb : forall b, (length (bool_text b) < 16)%nat) by (intros []; cbn; lia).
  split_and!.
  - eapply extract_here; [|assumption|lia].
    change (lit "<" ++ lit "name" ++ lit ">") with (lit "<name>"). walk. reflexivity.
  - open_request; rewrite <- ?app_assoc; cbn [fmap option_fmap option_map].
    1,2: eapply extract_here; [|assumption|lia];
      change (lit "<" ++ lit "mtu" ++ lit ">") with (lit "<mtu>"); walk; reflexivity.
    all: unfold extract_text; change (lit "<" ++ lit "mtu" ++ lit ">") with (lit "<mtu>"); walk;
      by rewrite strstr_none by (done || by vm_compute).
  - open_request; rewrite <- ?app_assoc; cbn [fmap option_fmap option_map].
    1,3: eapply extract_here; [|assumption|apply Hb];
      change (lit "<" ++ lit "enabled" ++ lit ">") with (lit "<enabled>"); walk; reflexivity.
    all: unfold extract_text; change (lit "<" ++ lit "enabled" ++ lit ">") with (lit "<enabled>"); walk;
      by rewrite strstr_none by (done || by vm_compute).
Qed.

End edits.

Lemma coerce_dec n : 68 <= n < 2 ^ 64 ->
  coerce_scalar (mk_val GNMI_VAL_JSON_IETF (take 255 (dec n)) 0 0 false) = mk_val GNMI_VAL_UINT [] 0 n false.
Proof.
  intros Hn. rewrite take_ge by (pose proof (dec_length n); lia).
  pose proof (strtoul_dec n [] ltac:(lia) ltac:(done)) as Hs. rewrite app_nil_r in Hs.
  assert (Hne : dec n <> []) by (apply dec_nonempty; lia).
  assert (Hno : forall l, (fst (strtoul (lit l)) <? 68) = true -> streq (dec n) l = false).
  { intros l Hl. unfold streq. rewrite bool_decide_false; [done|]. intros E. rewrite <- E, Hs in Hl. cbn in Hl. lia. }
  unfold coerce_scalar. cbn [v_kind is_textual negb v_s].
  rewrite !Hno by reflexivity. cbn [orb]. rewrite Hs, bool_decide_true by done. cbn [andb].
  destruct (dec n); done.
Qed.

Lemma coerce_bool b :
  coerce_scalar (mk_val GNMI_VAL_JSON_IETF (take 255 (bool_text b)) 0 0 false) = mk_val GNMI_VAL_BOOL [] 0 0 b.
Proof. by destruct b. Qed.

Section edit_laws.
Context `{L : inet6_lib}.

(** An MTU the model refuses: too small to be one, or too large. *)
Lemma coerce_refused n i :
  0 <= n < 2 ^ 64 -> ~ 68 <= n <= 9216 ->
  apply_iface GNMI_FIELD_MTU (coerce_scalar (mk_val GNMI_VAL_JSON_IETF (take 255 (dec n)) 0 0 false)) i = None.
Proof.
  intros Hn Hm. unfold apply_iface. destruct (Z.lt_ge_cases n 68) as [Hlt|Hge].
  - set (bad v := negb (bool_decide (v_kind v = GNMI_VAL_UINT)) && negb (bool_decide (v_kind v = GNMI_VAL_INT))
                    || (v_u v <? 68) || (9216 <? v_u v)).
    assert (Hall : forallb (fun n => bad (coerce_scalar (mk_val GNMI_VAL_JSON_IETF (take 255 (dec n)) 0 0 false)))
                     (seqZ 0 68) = true) by (vm_compute; reflexivity).
    rewrite forallb_forall in Hall. specialize (Hall n). fold (bad (coerce_scalar (mk_val GNMI_VAL_JSON_IETF (take 255 (dec n)) 0 0 false))).
    by rewrite Hall by (apply list_elem_of_In, elem_of_seqZ; lia).
  - rewrite coerce_dec by lia. cbn [v_kind v_u]. rewrite bool_decide_true by done. cbn [negb andb orb].
    by rewrite (proj2 (Z.ltb_ge n 68)), (proj2 (Z.ltb_lt 9216 n)) by lia.
Qed.

Lemma edit_mtu n i :
  struct_wf i -> 0 <= n < 2 ^ 64 ->
  edit_leaf GNMI_FIELD_MTU (dec n) (to_mem i) =
    if (68 <=? n) && (n <=? 9216) then Some (to_mem (edited n (iface_admin_up i) i)) else None.
Proof.
  intros Hi Hn. unfold edit_leaf. rewrite bool_decide_false by (by apply dec_nonempty). rewrite apply_leaf_iface by done.
  destruct (Z.leb_spec 68 n) as [H1|H1]; [destruct (Z.leb_spec n 9216) as [H2|H2]|]; cbn [andb].
  2,3: by rewrite coerce_refused by lia.
  rewrite coerce_dec by lia. unfold apply_iface at 1. cbn [v_kind v_u].
  rewrite bool_decide_true by done. cbn [negb andb orb].
  rewrite (proj2 (Z.ltb_ge _ _)), (proj2 (Z.ltb_ge _ _)) by lia. cbn [orb fmap option_fmap option_map].
  assert (Hu : u16 n = n) by (unfold u16; apply Z.mod_small; lia). by rewrite Hu.
Qed.

Lemma edit_enabled b i :
  struct_wf i -> edit_leaf GNMI_FIELD_ENABLED (bool_text b) (to_mem i) = Some (to_mem (edited (iface_mtu i) b i)).
Proof.
  intros Hi. unfold edit_leaf. rewrite bool_decide_false by (by destruct b).
  rewrite apply_leaf_iface, coerce_bool by done. by destruct i.
Qed.

(** The MTU the interface has afterwards; [None] is a refused one. *)
Definition wanted_mtu (mtu : option Z) (i : danos_iface) : option Z :=
  match mtu with
  | None => Some (iface_mtu i)
  | Some n => if (68 <=? n) && (n <=? 9216) then Some n else None
  end.

Lemma edit_both mtu enabled i :
  struct_wf i -> (forall n, mtu = Some n -> 0 <= n < 2 ^ 64) ->
  edit_leaf GNMI_FIELD_MTU (default [] (dec <$> mtu)) (to_mem i) ≫=
    edit_leaf GNMI_FIELD_ENABLED (default [] (bool_text <$> enabled)) =
  (fun n => to_mem (edited n (default (iface_admin_up i) enabled) i)) <$> wanted_mtu mtu i.
Proof.
  intros Hi Hm. assert (He : forall j, struct_wf j -> edit_leaf GNMI_FIELD_ENABLED (default [] (bool_text <$> enabled)) (to_mem j) =
    Some (to_mem (edited (iface_mtu j) (default (iface_admin_up j) enabled) j))).
  { intros j Hj. destruct enabled as [b|]; cbn [fmap option_fmap option_map default from_option].
    - by apply edit_enabled.
    - unfold edit_leaf. rewrite bool_decide_true by done. by destruct j. }
  destruct mtu as [n|]; cbn [wanted_mtu].
  - change (default [] (dec <$> Some n)) with (dec n). rewrite edit_mtu by (done || by apply Hm).
    destruct (Z.leb_spec 68 n); [destruct (Z.leb_spec n 9216)|]; cbn [andb mbind option_bind]; [|done..].
    apply He, edited_wf; [done|lia].
  - change (edit_leaf GNMI_FIELD_MTU (default [] (dec <$> None)) (to_mem i)) with (Some (to_mem i)). by apply He.
Qed.

Lemma wanted_range mtu i n : struct_wf i -> wanted_mtu mtu i = Some n -> 0 <= n < 2 ^ 16.
Proof.
  unfold wanted_mtu. intros (_ & _ & _ & Hm & _) H. destruct mtu as [k|].
  - destruct (Z.leb_spec 68 k); [destruct (Z.leb_spec k 9216)|]; cbn [andb] in H; simplify_eq; lia.
  - injection H as <-. unfold is_uint in Hm. change (256 ^ Z.of_nat 2) with 65536 in Hm. lia.
Qed.

Definition error_text (msg : bytes) : option bytes := fst (error_reply msg []).

(** C30. An edit changes what it names: an [edit-config] that names one
    interface of the store, with an MTU, a state, both or neither, is answered
    with [ok] and sets exactly the leaves it has of that interface, every
    other object keeping its value; with an MTU outside 68 to 9216 it is
    answered with the error of an invalid argument and nothing changes.  The
    request has its elements in the order name, mtu, enabled, without
    attributes, with any text without [<] after each; the name has 1 to 63
    bytes without [<] and belongs to one interface only. *)
Theorem netconf_edit_exact h gap name i mtu enabled w :
  prog_env h (nw_core w) -> ifaces_ok h (nw_core w) -> iface_named h (nw_core w) name i ->
  60 ∉ gap -> 60 ∉ name -> (0 < length name < 64)%nat -> (forall n, mtu = Some n -> 0 <= n < 2 ^ 64) ->
  nw_heap w = [] ->
  exists reply w', netconf_handle_rpc (Some (edit_request gap name mtu enabled)) w = Some (reply, w') /\
    match wanted_mtu mtu i with
    | Some n => reply = Some ok_text /\ objs (nw_core w') h =
        <[(DANOS_OBJ_IFACE, iface_ifindex i) := to_mem (edited n (default (iface_admin_up i) enabled) i)]>
          (objs (nw_core w) h)
    | None => reply = error_text (lit (danos_status_str DANOS_ERR_INVALID_ARG)) /\ nw_core w' = nw_core w
    end.
Proof.
  intros Hp Hok Hn Hg Hpl Hlen Hm Hh. cbn [netconf_handle_rpc]. rewrite edit_request_rpc by done.
  destruct (edit_request_fields gap name mtu enabled Hg Hpl Hlen Hm) as (ib & Hf & E1 & E2 & E3).
  unfold edit_config_apply. rewrite Hf, E1, E2, E3. change (default [] (Some name)) with name. cbv zeta.
  rewrite bool_decide_false by (intros ->; cbn in Hlen; lia).
  change (danos_object_iterate (default_entries (nw_core w)) (nc_lookup_iface_iter name) None)
    with (find_iface name (nw_core w)).
  rewrite (find_iface_named h _ name i Hp Hok Hn). destruct Hn as (Hw & _ & Ho & _).
  rewrite edit_both by done. rewrite Hh. destruct (wanted_mtu mtu i) as [n|] eqn:En; cbn [fmap option_fmap option_map].
  - destruct (write_iface_ok h (nw_core w) i (edited n (default (iface_admin_up i) enabled) i) Hp) as (c' & -> & _ & Ho');
      [apply edited_wf; [done|]; by apply (wanted_range mtu i)|done|done|].
    do 2 eexists. split; [reflexivity|]. by split.
  - do 2 eexists. split; [reflexivity|]. by split.
Qed.

End edit_laws.

(** ** The configuration that is returned *)

Definition entry_iface (e : danos_object_entry) : option danos_iface :=
  if negb (bool_decide (e_type e = DANOS_OBJ_IFACE)) || (e_size e <? sizeof danos_iface)%nat then None
  else Some (of_mem (e_data e)).

(** The interfaces of the default store, in the order of the table. *)
Definition store_ifaces (c : core) : list danos_iface :=
  match default_entries c with Some s => omap entry_iface (store_entries s) | None => [] end.

Definition config_body (c : core) : bytes := nc_head ++ concat (iface_xml <$> store_ifaces c).

Lemma xml_iter_fold es b : foldl nc_iface_xml_iter b es = b ≫= bprint_all (iface_xml <$> omap entry_iface es).
Proof.
  revert b. induction es as [|e es IH]; intros b; [by destruct b|]. cbn [foldl omap list_omap]. rewrite IH.
  unfold nc_iface_xml_iter, entry_iface at 2. destruct (_ || _); [done|].
  destruct b as [b|]; [|done]. done.
Qed.

Lemma bprint_all_app ts1 ts2 b : bprint_all (ts1 ++ ts2) b = bprint_all ts1 b ≫= bprint_all ts2.
Proof.
  revert b. induction ts1 as [|t ts1 IH]; intros b; [done|]. cbn [app bprint_all].
  destruct (bprintf t b) as [b1|]; [apply IH|done].
Qed.

(** The reply is the texts printed one after the other. *)
Lemma get_config_run c m st :
  get_config_reply c m st =
    (b ← bprint_all ((nc_head :: (iface_xml <$> store_ifaces c)) ++ [nc_tail]) (mk_tbuf (tb_mem st) 0);
     Some (strdup (c_str (tb_mem b)) m, b)).
Proof.
  unfold get_config_reply, store_ifaces. rewrite bprint_all_app. cbn [bprint_all].
  destruct (bprintf nc_head (mk_tbuf (tb_mem st) 0)) as [b|]; [|done]. cbn [mbind option_bind].
  destruct (default_entries c) as [s|]; cbn [danos_object_iterate].
  - rewrite xml_iter_fold. cbn [mbind option_bind]. destruct (bprint_all _ b) as [b1|]; [|done]. cbn [mbind option_bind].
    by destruct (bprintf nc_tail b1).
  - cbn [mbind option_bind fmap list_fmap bprint_all]. by destruct (bprintf nc_tail b).
Qed.

Lemma store_ifaces_exact h c i :
  prog_env h c -> ifaces_ok h c ->
  i ∈ store_ifaces c <-> struct_wf i /\ objs c h !! (DANOS_OBJ_IFACE, iface_ifindex i) = Some (to_mem i).
Proof.
  intros Hp Hok. destruct (default_entries_objs h c Hp) as (s & Hs & He). unfold store_ifaces. rewrite Hs.
  rewrite list_elem_of_omap. split.
  - intros (e & Hin & Hi). apply He in Hin. unfold entry_iface in Hi.
    destruct (bool_decide_reflect (e_type e = DANOS_OBJ_IFACE)) as [Et|]; [|done]. cbn [negb orb] in Hi.
    rewrite Et in Hin. destruct (Hok _ _ Hin) as (j & Hw & Hd & Hj). case_match; [done|].
    rewrite Hd, of_to_mem in Hi by done. injection Hi as <-. split; [done|]. by rewrite Hj, <- Hd.
  - intros [Hw Ho]. exists (mk_entry DANOS_OBJ_IFACE (iface_ifindex i) (to_mem i)). split; [by apply He|].
    unfold entry_iface, e_size. cbn [e_type e_data]. rewrite bool_decide_true by done. cbn [negb orb].
    by rewrite (length_to_mem i Hw), Nat.ltb_irrefl, of_to_mem.
Qed.

Lemma iface_xml_text i : struct_wf i -> is_text (iface_xml i).
Proof.
  intros (_ & (_ & Hn) & _ & Hm & _). unfold iface_xml.
  apply Forall_app. split; [lit_text|]. apply Forall_app. split; [by apply c_str_text|].
  apply Forall_app. split; [lit_text|]. apply Forall_app. split.
  { apply dec_text. unfold is_uint in Hm. change (256 ^ Z.of_nat 2) with 65536 in Hm. lia. }
  apply Forall_app. split; [lit_text|]. apply Forall_app. split; [|lit_text]. destruct (iface_admin_up i); lit_text.
Qed.

Lemma config_body_text h c : prog_env h c -> ifaces_ok h c -> is_text (config_body c ++ nc_tail).
Proof.
  intros Hp Hok. apply Forall_app. split; [|lit_text]. apply Forall_app. split; [lit_text|].
  apply Forall_concat, Forall_fmap, Forall_forall. intros i Hi. apply iface_xml_text.
  by apply (store_ifaces_exact h c i Hp Hok) in Hi as [? _].
Qed.

(** The returned configuration is the interfaces of the store: a
    [get-config] whose document fits the static buffer is answered with one
    element for each interface of the store, and with nothing else; when the
    elements alone are longer than the buffer the handler writes behind it. *)
Theorem netconf_get_config_bounds `{L : inet6_lib} h xml w :
  prog_env h (nw_core w) -> ifaces_ok h (nw_core w) -> tb_cap (nw_statics w) = 8192 -> nw_heap w = [] ->
  netconf_parse_rpc (Some xml) = NETCONF_RPC_GET_CONFIG ->
  let body := config_body (nw_core w) in
  (forall i, i ∈ store_ifaces (nw_core w) <->
     struct_wf i /\ objs (nw_core w) h !! (DANOS_OBJ_IFACE, iface_ifindex i) = Some (to_mem i)) /\
  (strlen body + strlen nc_tail < 8192 ->
     exists w', netconf_handle_rpc (Some xml) w = Some (Some (body ++ nc_tail), w') /\ nw_core w' = nw_core w) /\
  (8192 < strlen body < 2 ^ 63 -> netconf_handle_rpc (Some xml) w = None).
Proof.
  intros Hp Hok Hc Hh Hx body. split; [intros i; by apply store_ifaces_exact|].
  cbn [netconf_handle_rpc]. rewrite Hx, get_config_run.
  set (ts := nc_head :: (iface_xml <$> store_ifaces (nw_core w))). set (b0 := mk_tbuf (tb_mem (nw_statics w)) 0).
  assert (Hb0 : tb_cap b0 = 8192) by exact Hc. assert (Hs : tb_sized b0) by (unfold tb_sized; lia).
  assert (Hbody : concat ts = body) by done. unfold strlen. split; intros Hn.
  - destruct (bprint_all_fits (ts ++ [nc_tail]) [] b0 Hs (conj eq_refl eq_refl)) as (b & -> & _ & Hb & He).
    { rewrite concat_app, Hbody. cbn [concat length Nat.add]. rewrite app_nil_r, length_app. lia. }
    cbn [mbind option_bind]. rewrite Hh. cbn [strdup malloc]. rewrite concat_app, Hbody in Hb. cbn [concat app] in Hb.
    rewrite app_nil_r in Hb. rewrite (tb_holds_str (body ++ nc_tail) b); [|by eapply config_body_text|done|by apply He].
    eexists. split; [reflexivity|done].
  - rewrite bprint_all_overflow; [done|done|split; [done|rewrite Hb0; cbn; lia]|].
    rewrite Hbody, Hb0. cbn [b0 tb_off]. lia.
Qed.

Lemma dec_digits_some fuel n : (1 <= length (dec_digits (S fuel) n []))%nat.
Proof. cbn [dec_digits]. case_match; [cbn; lia|]. rewrite dec_digits_acc, length_app. cbn [length]. lia. Qed.

(** Seventy-three interfaces are always too many. *)
Lemma many_ifaces_too_long c : (73 <= length (store_ifaces c))%nat -> 8192 < strlen (config_body c).
Proof.
  intros H. unfold strlen, config_body. rewrite length_app. change (length nc_head) with 121%nat.
  assert (Hl : (112 * length (store_ifaces c) <= length (concat (iface_xml <$> store_ifaces c)))%nat); [|lia].
  clear H. induction (store_ifaces c) as [|i l IH]; [done|]. rewrite fmap_cons. cbn [concat length]. rewrite length_app.
  assert (112 <= length (iface_xml i))%nat; [|lia]. unfold iface_xml. rewrite !length_app.
  assert (1 <= length (dec (iface_mtu i)))%nat by apply (dec_digits_some 19).
  assert (4 <= length (if iface_admin_up i then lit "true" else lit "false"))%nat by (destruct (iface_admin_up i); cbn; lia).
  generalize dependent (dec (iface_mtu i)). generalize dependent (if iface_admin_up i then lit "true" else lit "false").
  intros a Ha b Hb. cbn [lit]. change (length (lit ?s)) with (String.length s). cbn. lia.
Qed.

(** ** Examples and limits *)

Definition demo_nc : nc_world := mk_nc_world (netconf_init 0) nc_boot demo_eth_core [].

Lemma netconf_edit_exact_witness :
  exists reply w', netconf_handle_rpc (Some (edit_request (lit "  ") (lit "eth0") (Some 9000) (Some false))) demo_nc =
      Some (reply, w') /\ reply = Some ok_text /\
    objs (nw_core w') 1 = <[(DANOS_OBJ_IFACE, 4) := to_mem (edited 9000 false demo_eth)]> (objs demo_eth_core 1).
Proof.
  destruct demo_eth_facts as (Hp & Hok & Hn).
  apply (netconf_edit_exact 1 (lit "  ") (lit "eth0") demo_eth (Some 9000) (Some false) demo_nc Hp Hok Hn);
    try reflexivity.
  - lit_text.
  - lit_text.
  - cbn. lia.
  - intros n [= <-]. lia.
Defined.

Lemma netconf_get_config_bounds_witness :
  exists w', netconf_handle_rpc (Some (lit "<rpc><get-config/></rpc>")) demo_nc =
    Some (Some (config_body demo_eth_core ++ nc_tail), w').
Proof.
  destruct demo_eth_facts as (Hp & Hok & _).
  destruct (netconf_get_config_bounds 1 (lit "<rpc><get-config/></rpc>") demo_nc Hp Hok) as (_ & H & _);
    [vm_compute; reflexivity|reflexivity|vm_compute; reflexivity|].
  destruct H as (w' & Hw & _); [vm_compute; reflexivity|]. by exists w'.
Defined.

(** An element with attributes is not seen: the edit is answered with [ok] and
    does nothing. *)
Lemma edit_with_attributes_ignored c :
  edit_config_apply (js "<edit-config><interface xmlns='urn:danos'><name>eth0</name><mtu>9000</mtu></interface></edit-config>") c [] =
  (Some ok_text, [], c).
Proof. reflexivity. Qed.

(** [kill-session] is recognised and refused as unknown. *)
Lemma kill_session_unknown w :
  netconf_parse_rpc (Some (lit "<rpc><kill-session/></rpc>")) = NETCONF_RPC_KILL_SESSION /\
  exists r w', netconf_handle_rpc (Some (lit "<rpc><kill-session/></rpc>")) w = Some (r, w') /\
    nc_error_count (nw_ctx w') = u64 (nc_error_count (nw_ctx w) + 1).
Proof.
  split; [reflexivity|]. change (netconf_handle_rpc (Some (lit "<rpc><kill-session/></rpc>")) w) with
    (let '(r, m) := error_reply (lit "unknown RPC") (nw_heap w) in
     Some (r, mk_nc_world (count_error (count_rpc (nw_ctx w))) (nw_statics w) (nw_core w) m)).
  destruct (error_reply _ _) as [r m]. do 2 eexists. by split.
Qed.
