(* ===== verification/Cli.v ===== *)
(** * The command line: danos-mgmt cli.h / cli.c

    Commands are split into words and dispatched; [show] commands print the
    default store, [set interface] changes one leaf of an interface through
    the model registry.  What a command prints is a text; the standard input
    is the bytes [fgets] reads. *)

From stdpp Require Import base decidable list numbers strings gmap.
From Stdlib Require Import ZArith Lia.
From S2P Require Import Prelude Dpa Backends CStr Proto.
From S2P Require Import ObjectStore Wal EventBus Registry Persist DpaObjects Transaction Pipeline.
From S2P Require Import Zapi ZapiMapper ModelRoutes ModelPaths IfaceLookup.

Record danos_cli_ctx_t := mk_cli { in_configure_mode : bool; cli_prompt : bytes }.

Definition danos_cli_init : danos_cli_ctx_t := mk_cli false (lit "danos> ").

(** [trim]: without the spaces at both ends. *)
Definition trim (s : bytes) : bytes := rev (skip_spaces (rev (skip_spaces s))).

(** The first word, up to [n] bytes, and what follows it. *)
Fixpoint take_word (n : nat) (s : bytes) : bytes * bytes :=
  match n, s with
  | S n, c :: s' => if is_space c then ([], s) else let '(w, r) := take_word n s' in (c :: w, r)
  | _, _ => ([], s)
  end.

(** [split_cmd(line, cmd, cmd_size, args, args_size)].  [alias]: [args] is the
    same array as [line], and is emptied before the line is read. *)
Definition split_cmd (alias : bool) (line : bytes) (cmd_size args_size : nat) : bytes * bytes :=
  let line := if alias then [] else line in
  let '(cmd, p) := take_word (cmd_size - 1) (skip_spaces line) in
  (cmd, trim (take (args_size - 1) (skip_spaces p))).

(** ** Output *)

(** [%-<w>s], [%-<w>u]. *)
Definition padr (w : nat) (s : bytes) : bytes := s ++ replicate (w - length s) 32.

Definition columns (l : list (nat * bytes)) : bytes :=
  match l with
  | [] => [10]
  | (w, s) :: l => padr w s ++ concat ((fun ws => [32] ++ padr ws.1 ws.2) <$> l) ++ [10]
  end.

Definition up_down (b : bool) : bytes := if b then lit "up" else lit "down".
Definition yes_no (b : bool) : bytes := if b then lit "yes" else lit "no".

Definition cli_cmd_help : bytes := lit "Available commands:
  configure               Enter configuration mode
  show interface          Show all interfaces
  show route              Show routing table
  show vrf                Show VRF table
  set interface <name> mtu <N>       (configure mode)
  set interface <name> [no] shutdown (configure mode)
  exit                    Exit current mode / quit
  help                    Show this help
".

(** The text so far and [rows]. *)
Definition cli_show_iface_iter (acc : bytes * Z) (e : danos_object_entry) : bytes * Z :=
  if negb (bool_decide (e_type e = DANOS_OBJ_IFACE)) || (e_size e <? sizeof danos_iface)%nat then acc else
  let i : danos_iface := of_mem (e_data e) in
  (acc.1 ++ columns [(8%nat, dec (iface_ifindex i)); (16%nat, c_str (iface_name i)); (8%nat, dec (iface_mtu i));
                     (6%nat, up_down (iface_admin_up i)); (8%nat, up_down (iface_link_up i))], acc.2 + 1).

Definition cli_cmd_show_interface (c : core) : bytes :=
  let '(out, rows) := danos_object_iterate (default_entries c) cli_show_iface_iter ([], 0) in
  lit "Interface table:" ++ [10] ++
  columns [(8%nat, lit "IFINDEX"); (16%nat, lit "NAME"); (8%nat, lit "MTU"); (6%nat, lit "ADMIN"); (8%nat, lit "OPER")] ++
  out ++ (if rows =? 0 then lit "(no interfaces configured)" ++ [10] else []).

Definition cli_show_route_iter (acc : bytes * Z) (e : danos_object_entry) : bytes * Z :=
  if negb (bool_decide (e_type e = DANOS_OBJ_ROUTE)) || (e_size e <? sizeof danos_route)%nat then acc else
  let r : danos_route := of_mem (e_data e) in
  (acc.1 ++ columns [(6%nat, dec (rt_vrf_id r)); (40%nat, take 63 (print_prefix (rt_prefix r)));
                     (8%nat, dec (rt_protocol r)); (6%nat, dec (rt_admin_distance r)); (10%nat, dec (rt_nhgroup_id r))],
   acc.2 + 1).

Definition cli_cmd_show_route (c : core) : bytes :=
  let '(out, rows) := danos_object_iterate (default_entries c) cli_show_route_iter ([], 0) in
  lit "Routing table:" ++ [10] ++
  columns [(6%nat, lit "VRF"); (40%nat, lit "PREFIX"); (8%nat, lit "PROTO"); (6%nat, lit "AD"); (10%nat, lit "NHGROUP")] ++
  out ++ (if rows =? 0 then lit "(no routes configured)" ++ [10] else []).

Definition cli_show_vrf_iter (acc : bytes * Z) (e : danos_object_entry) : bytes * Z :=
  if negb (bool_decide (e_type e = DANOS_OBJ_VRF)) || (e_size e <? sizeof danos_vrf)%nat then acc else
  let v : danos_vrf := of_mem (e_data e) in
  (acc.1 ++ columns [(8%nat, dec (vrf_vrf_id v)); (16%nat, c_str (vrf_name v)); (8%nat, yes_no (vrf_ipv4_active v));
                     (8%nat, yes_no (vrf_ipv6_active v))], acc.2 + 1).

Definition cli_cmd_show_vrf (c : core) : bytes :=
  let '(out, rows) := danos_object_iterate (default_entries c) cli_show_vrf_iter ([], 0) in
  lit "VRF table:" ++ [10] ++
  columns [(8%nat, lit "VRF_ID"); (16%nat, lit "NAME"); (8%nat, lit "IPv4"); (8%nat, lit "IPv6")] ++
  columns [(8%nat, lit "0"); (16%nat, lit "default"); (8%nat, lit "yes"); (8%nat, lit "yes")] ++ out.

(** ** Commands *)

Definition cli_lookup_iface_iter (want : bytes) : option bytes -> danos_object_entry -> option bytes :=
  lookup_iface_iter want.

Section set.
Context `{L : inet6_lib}.

(** The leaf an attribute names and its value. *)
Definition set_attr (attr value : bytes) (no_form : bool) : option (gnmi_model_field_t * gnmi_typed_value_t) :=
  if streq attr "mtu" then Some (GNMI_FIELD_MTU, mk_val GNMI_VAL_UINT [] 0 (fst (strtoul value)) false)
  else if streq attr "shutdown" then Some (GNMI_FIELD_ENABLED, mk_val GNMI_VAL_BOOL [] 0 0 no_form)
  else None.

(** The result, what is printed, and the core. *)
Definition cli_cmd_set (args : bytes) (c : core) : Z * bytes * core :=
  let '(what, rest) := split_cmd false args 64 768 in
  if negb (streq what "interface") then (-1, lit "% unsupported set target: " ++ what ++ [10], c) else
  let '(name, rest3) := split_cmd false rest 64 768 in
  let '(attr, value) := split_cmd false rest3 64 512 in
  match danos_object_iterate (default_entries c) (cli_lookup_iface_iter name) None with
  | None => (-1, lit "% interface " ++ name ++ lit " not found" ++ [10], c)
  | Some target =>
      let no_form := streq attr "no" in
      let '(attr, value) := if no_form then split_cmd true value 64 512 else (attr, value) in
      match set_attr attr value no_form with
      | None => (-1, lit "% unsupported attribute: " ++ attr ++ [10], c)
      | Some (field, val) =>
          match gnmi_model_apply_leaf DANOS_OBJ_IFACE field (Some target) (Some val) with
          | None =>
              (-1, lit "% validation failed: " ++ lit (danos_status_str DANOS_ERR_INVALID_ARG) ++ [10], c)
          | Some target =>
              match write_iface target c with
              | (DANOS_OK, c) => (0, [], c)
              | (st, c) => (-1, lit "% store update failed: " ++ lit (danos_status_str st) ++ [10], c)
              end
          end
      end
  end.

Definition cli_cmd_configure : Z * bytes * danos_cli_ctx_t :=
  (0, lit "Entering configuration mode" ++ [10], mk_cli true (lit "danos(config)# ")).

Definition cli_cmd_exit (ctx : danos_cli_ctx_t) : Z * bytes * danos_cli_ctx_t :=
  if in_configure_mode ctx
  then (0, lit "Exiting configuration mode" ++ [10], mk_cli false (lit "danos> "))
  else (1, [], ctx).

(** The [show] commands. *)
Definition cli_show (args : bytes) (c : core) : Z * bytes :=
  let '(subcmd, subargs) := split_cmd false args 64 896 in
  if streq subcmd "interface" || streq subcmd "int" then (0, cli_cmd_show_interface c)
  else if streq subcmd "route" || streq subcmd "ip" then (0, cli_cmd_show_route c)
  else if streq subcmd "vrf" then (0, cli_cmd_show_vrf c)
  else (-1, lit "Unknown show command: " ++ subcmd ++ [10]).

Definition danos_cli_process (ctx : option danos_cli_ctx_t) (line : option bytes) (c : core)
    : Z * bytes * option danos_cli_ctx_t * core :=
  match ctx, line with
  | Some ctx, Some line =>
      let buf := trim (take 1023 line) in
      if bool_decide (buf = []) then (0, [], Some ctx, c) else
      let '(cmd, args) := split_cmd false buf 64 960 in
      if streq cmd "show" then let '(rc, out) := cli_show args c in (rc, out, Some ctx, c)
      else if in_configure_mode ctx && streq cmd "set" then
        let '(rc, out, c) := cli_cmd_set args c in (rc, out, Some ctx, c)
      else if streq cmd "configure" || streq cmd "conf" then
        let '(rc, out, ctx) := cli_cmd_configure in (rc, out, Some ctx, c)
      else if streq cmd "exit" || streq cmd "quit" then
        let '(rc, out, ctx) := cli_cmd_exit ctx in (rc, out, Some ctx, c)
      else if streq cmd "help" || streq cmd "?" then (0, cli_cmd_help, Some ctx, c)
      else (-1, lit "Unknown command: " ++ cmd ++ lit " (type 'help' for available commands)" ++ [10], Some ctx, c)
  | _, _ => (-1, [], ctx, c)
  end.

(** [line[strcspn(line, "\n")] = 0] on what [fgets] read. *)
Fixpoint cut_line (line : bytes) : bytes :=
  match line with
  | c :: line => if (c =? 10) || (c =? 0) then [] else c :: cut_line line
  | [] => []
  end.

(** Every turn reads at least one byte of the input. *)
Fixpoint cli_run_loop (fuel : nat) (input out : bytes) (ctx : danos_cli_ctx_t) (c : core)
    : bytes * danos_cli_ctx_t * core :=
  match fuel with
  | O => (out, ctx, c)
  | S fuel =>
      let out := out ++ cli_prompt ctx in
      match fgets 1023 input with
      | None => (out, ctx, c)
      | Some (line, input) =>
          let '(rc, o, ctx', c) := danos_cli_process (Some ctx) (Some (cut_line line)) c in
          let ctx := default ctx ctx' in
          if rc =? 1 then (out ++ o, ctx, c) else cli_run_loop fuel input (out ++ o) ctx c
      end
  end.

Definition danos_cli_run (input : bytes) (ctx : danos_cli_ctx_t) (c : core) : bytes * danos_cli_ctx_t * core :=
  cli_run_loop (S (length input)) input [] ctx c.

End set.

(** ** Words *)

Definition is_word (w : bytes) : Prop := w <> [] /\ Forall (fun c => is_space c = false) w.

#[export] Instance is_word_dec w : Decision (is_word w).
Proof. unfold is_word. apply _. Defined.

(** Words separated by one space. *)
Fixpoint words (ws : list bytes) : bytes :=
  match ws with
  | [] => []
  | [w] => w
  | w :: ws => w ++ [32] ++ words ws
  end.

Lemma skip_word w s : is_word w -> skip_spaces (w ++ s) = w ++ s.
Proof. intros [Hn Hw]. destruct Hw as [|c w Hc _]; [done|]. cbn [app skip_spaces]. by rewrite Hc. Qed.

Lemma skip_words ws : Forall is_word ws -> skip_spaces (words ws) = words ws.
Proof.
  destruct 1 as [|w ws Hw _]; [done|]. destruct ws as [|w2 ws]; cbn [words].
  - rewrite <- (app_nil_r w). by apply skip_word.
  - by apply skip_word.
Qed.

Lemma words_last ws w : Forall is_word ws -> is_word w -> exists a, words (ws ++ [w]) = a ++ w.
Proof.
  intros Hws Hw. induction Hws as [|w1 ws _ _ [a Ha]]; [by exists []|].
  exists (w1 ++ [32] ++ a). rewrite <- !app_assoc. rewrite <- Ha. by destruct ws.
Qed.

Lemma is_word_rev w : is_word w -> is_word (rev w).
Proof. intros [Hn Hw]. split; [intros H; apply Hn; by rewrite <- (rev_involutive w), H|by apply Forall_rev]. Qed.

Lemma trim_words ws : Forall is_word ws -> trim (words ws) = words ws.
Proof.
  intros H. unfold trim. rewrite skip_words by done. destruct ws as [|w ws] using rev_ind; [done|].
  apply Forall_app in H as [Hws Hw]. inversion_clear Hw as [|?? Hw' _]. destruct (words_last ws w Hws Hw') as [a ->].
  rewrite rev_app_distr, skip_word by (by apply is_word_rev). by rewrite <- rev_app_distr, rev_involutive.
Qed.

Lemma take_word_space n w s : Forall (fun c => is_space c = false) w -> (length w < n)%nat ->
  take_word n (w ++ 32 :: s) = (w, 32 :: s).
Proof.
  intros Hw. revert n. induction Hw as [|c w Hc _ IH]; intros [|n] Hn; cbn [length] in Hn; try lia; [done|].
  cbn [app take_word]. rewrite Hc, IH by lia. done.
Qed.

Lemma take_word_end n w : Forall (fun c => is_space c = false) w -> (length w <= n)%nat -> take_word n w = (w, []).
Proof.
  intros Hw. revert n. induction Hw as [|c w Hc _ IH]; intros [|n] Hn; cbn [length] in Hn; try lia; try done.
  cbn [take_word]. rewrite Hc, IH by lia. done.
Qed.

(** The first word, and the others. *)
Lemma split_words w ws n m :
  Forall is_word (w :: ws) -> (S (length w) < n)%nat -> (length (words ws) < m)%nat ->
  split_cmd false (words (w :: ws)) n m = (w, words ws).
Proof.
  intros H Hn Hm. pose proof H as H'. inversion_clear H' as [|?? Hw Hws]. unfold split_cmd.
  rewrite skip_words by done. destruct ws as [|w2 ws].
  - cbn [words]. rewrite take_word_end by (apply Hw || lia). cbn [skip_spaces]. by rewrite take_nil.
  - change (words (w :: w2 :: ws)) with (w ++ 32 :: words (w2 :: ws)). rewrite take_word_space by (apply Hw || lia).
    rewrite skip_space, skip_words, take_ge by (done || lia). by rewrite trim_words.
Qed.

Lemma dec_word n : 0 <= n < 2 ^ 64 -> is_word (dec n).
Proof.
  intros Hn. split; [by apply dec_nonempty|]. eapply Forall_impl; [by apply dec_chars|].
  intros c Hc. cbn in Hc. unfold is_space. rewrite (proj2 (Z.eqb_neq _ _)), (proj2 (Z.leb_gt c 13)) by lia.
  by rewrite andb_false_r.
Qed.

(** ** What [set] does *)

Inductive setting := SetMtu (n : Z) | SetShutdown.

Definition setting_ok (s : setting) : Prop := match s with SetMtu n => 68 <= n <= 9216 | SetShutdown => True end.

Definition setting_words (s : setting) : list bytes :=
  match s with SetMtu n => [lit "mtu"; dec n] | SetShutdown => [lit "shutdown"] end.

Definition apply_setting (s : setting) (i : danos_iface) : danos_iface :=
  match s with
  | SetMtu n => edited n (iface_admin_up i) i
  | SetShutdown => edited (iface_mtu i) false i
  end.

Definition set_line (name : bytes) (attr : list bytes) : bytes :=
  words ([lit "set"; lit "interface"; name] ++ attr).

Section set_laws.
Context `{L : inet6_lib}.

Context (name : bytes) (attr : list bytes).
Context (Hname : is_word name) (Hlen : (length name < 63)%nat).
Context (Hattr : Forall is_word attr) (Hshort : (length (words attr) < 512)%nat).

Lemma name_words : Forall is_word (name :: attr).
Proof. by constructor. Qed.

Lemma rest_short : (length (words (name :: attr)) < 600)%nat.
Proof. destruct attr as [|a l]; cbn [words]; [lia|]. rewrite !length_app. cbn [length]. cbn [words] in Hshort. lia. Qed.

(** The first three words of the line. *)
Lemma process_set ctx c :
  in_configure_mode ctx = true ->
  danos_cli_process (Some ctx) (Some (set_line name attr)) c =
    let '(rc, out, c) := cli_cmd_set (words (lit "interface" :: name :: attr)) c in (rc, out, Some ctx, c).
Proof.
  intros Hctx. pose proof name_words as Hn. pose proof rest_short as Hr.
  assert (Hi : is_word (lit "interface")) by lit_text. assert (Hs : is_word (lit "set")) by lit_text.
  assert (Hl : (length (words (lit "interface" :: name :: attr)) < 700)%nat).
  { change (words (lit "interface" :: name :: attr)) with (lit "interface" ++ [32] ++ words (name :: attr)).
    rewrite !length_app. cbn [length]. change (length (lit "interface")) with 9%nat. lia. }
  assert (Hall : Forall is_word (lit "set" :: lit "interface" :: name :: attr)).
  { constructor; [exact Hs|]. constructor; [exact Hi|exact Hn]. }
  unfold danos_cli_process, set_line. cbn [app].
  change (words (lit "set" :: lit "interface" :: name :: attr)) with (lit "set" ++ 32 :: words (lit "interface" :: name :: attr)).
  rewrite take_ge by (rewrite length_app; cbn [length]; change (length (lit "set")) with 3%nat; lia).
  change (lit "set" ++ 32 :: words (lit "interface" :: name :: attr)) with (words (lit "set" :: lit "interface" :: name :: attr)).
  rewrite trim_words by exact Hall. rewrite bool_decide_false by done.
  rewrite split_words; [|exact Hall|change (length (lit "set")) with 3%nat; lia|lia].
  change (streq (lit "set") "show") with false. by rewrite Hctx.
Qed.

(** ... and the words of the attribute. *)
Lemma set_words a l c :
  attr = a :: l -> (length a < 63)%nat ->
  cli_cmd_set (words (lit "interface" :: name :: attr)) c =
    match find_iface name c with
    | None => (-1, lit "% interface " ++ name ++ lit " not found" ++ [10], c)
    | Some target =>
        let no_form := streq a "no" in
        let '(a, v) := if no_form then ([], []) else (a, words l) in
        match set_attr a v no_form with
        | None => (-1, lit "% unsupported attribute: " ++ a ++ [10], c)
        | Some (field, val) =>
            match gnmi_model_apply_leaf DANOS_OBJ_IFACE field (Some target) (Some val) with
            | None => (-1, lit "% validation failed: " ++ lit (danos_status_str DANOS_ERR_INVALID_ARG) ++ [10], c)
            | Some target =>
                match write_iface target c with
                | (DANOS_OK, c) => (0, [], c)
                | (st, c) => (-1, lit "% store update failed: " ++ lit (danos_status_str st) ++ [10], c)
                end
            end
        end
    end.
Proof.
  intros Ea Hla. pose proof name_words as Hn. pose proof rest_short as Hr.
  assert (Hi : is_word (lit "interface")) by lit_text.
  unfold cli_cmd_set. rewrite split_words; [|by constructor|change (length (lit "interface")) with 9%nat; lia|lia].
  change (streq (lit "interface") "interface") with true. cbn [negb].
  rewrite split_words by (done || lia). rewrite Ea in *.
  assert (Hl : (length (words l) < 512)%nat).
  { destruct l as [|b l']; [cbn; lia|]. change (words (a :: b :: l')) with (a ++ 32 :: words (b :: l')) in Hshort.
    rewrite length_app in Hshort. cbn [length] in Hshort. lia. }
  rewrite split_words by (done || lia). reflexivity.
Qed.

End set_laws.

Section set_theorems.
Context `{L : inet6_lib}.

(** The leaf and value of a setting are accepted and make that change. *)
Lemma setting_applied s i a l :
  setting_words s = a :: l -> setting_ok s -> struct_wf i ->
  streq a "no" = false /\ Forall is_word (a :: l) /\ (length (words (a :: l)) < 512)%nat /\ (length a < 63)%nat /\
  exists f v, set_attr a (words l) false = Some (f, v) /\
    gnmi_model_apply_leaf DANOS_OBJ_IFACE f (Some (to_mem i)) (Some v) = Some (to_mem (apply_setting s i)).
Proof.
  intros Ea Hs Hi. destruct s as [n|]; cbn [setting_words setting_ok] in *; injection Ea as <- <-.
  - pose proof (dec_word n ltac:(lia)) as Hd. pose proof (dec_length n).
    split; [done|]. split; [constructor; [lit_text|by constructor]|].
    split; [change (words [lit "mtu"; dec n]) with (lit "mtu" ++ 32 :: dec n); rewrite length_app; cbn [length];
            change (length (lit "mtu")) with 3%nat; lia|]. split; [cbn; lia|].
    do 2 eexists. split; [reflexivity|]. rewrite apply_leaf_iface by done. cbn [words].
    pose proof (strtoul_dec n [] ltac:(lia) ltac:(done)) as Hst. rewrite app_nil_r in Hst. rewrite Hst. cbn [fst].
    cbn [coerce_scalar v_kind is_textual negb apply_iface v_u]. rewrite bool_decide_true by done. cbn [negb andb orb].
    rewrite (proj2 (Z.ltb_ge _ _)), (proj2 (Z.ltb_ge _ _)) by lia. cbn [orb fmap option_fmap option_map].
    assert (Hu : u16 n = n) by (unfold u16; apply Z.mod_small; lia). by rewrite Hu.
  - split; [done|]. split; [constructor; [lit_text|constructor]|]. split; [cbn; lia|]. split; [cbn; lia|].
    do 2 eexists. split; [reflexivity|]. by rewrite apply_leaf_iface.
Qed.

(** C31. [set interface] changes one leaf: in configure mode, [set interface
    NAME mtu N] with an MTU in range and [set interface NAME shutdown] succeed
    silently on an interface of the store, set that leaf of it and leave every
    other object as it was. *)
Theorem cli_set_exact h name s i ctx c :
  prog_env h c -> ifaces_ok h c -> iface_named h c name i -> is_word name -> (length name < 63)%nat ->
  setting_ok s -> in_configure_mode ctx = true ->
  exists c', danos_cli_process (Some ctx) (Some (set_line name (setting_words s))) c = (0, [], Some ctx, c') /\
    objs c' h = <[(DANOS_OBJ_IFACE, iface_ifindex i) := to_mem (apply_setting s i)]> (objs c h).
Proof.
  intros Hp Hok Hn Hw Hlen Hs Hctx. pose proof Hn as (Hi & _ & Ho & _).
  destruct (setting_words s) as [|a l] eqn:Ea; [by destruct s|].
  destruct (setting_applied s i a l Ea Hs Hi) as (Hno & Hal & Hsh & Ha & f & v & Hset & Hleaf).
  rewrite process_set by done. rewrite (set_words name (a :: l) Hw Hlen Hal Hsh a l c eq_refl Ha).
  rewrite (find_iface_named h c name i Hp Hok Hn), Hno. cbv zeta iota. rewrite Hset, Hleaf.
  destruct (write_iface_ok h c i (apply_setting s i) Hp) as (c' & -> & _ & Ho'); [|by destruct s|done|by exists c'].
  destruct s as [n|]; cbn [apply_setting setting_ok] in *; (apply edited_wf; [done|]); [lia|].
  destruct Hi as (_ & _ & _ & Hm & _). exact Hm.
Qed.

(** [no shutdown] is always refused: the attribute behind [no] is split off
    in place, which empties it first, so that the documented command that
    brings an interface up reports an unsupported attribute and changes
    nothing. *)
Theorem cli_no_shutdown_refused h name i ctx c :
  prog_env h c -> ifaces_ok h c -> iface_named h c name i -> is_word name -> (length name < 63)%nat ->
  in_configure_mode ctx = true ->
  danos_cli_process (Some ctx) (Some (set_line name [lit "no"; lit "shutdown"])) c =
    (-1, lit "% unsupported attribute: " ++ [10], Some ctx, c).
Proof.
  intros Hp Hok Hn Hw Hlen Hctx. rewrite process_set; try done; [|lit_text|cbn; lia].
  rewrite (set_words name [lit "no"; lit "shutdown"] Hw Hlen ltac:(lit_text) ltac:(cbn; lia) _ _ c eq_refl ltac:(cbn; lia)).
  by rewrite (find_iface_named h c name i Hp Hok Hn).
Qed.

(** Outside configure mode nothing is changed: whatever the line, the
    store, its log and its events are the ones before, and only [configure]
    enters the mode. *)
Theorem cli_view_mode_readonly ctx line c :
  in_configure_mode ctx = false ->
  let '(rc, out, ctx', c') := danos_cli_process (Some ctx) line c in
  c' = c /\ (option_map in_configure_mode ctx' = Some true -> rc = 0 /\ out = lit "Entering configuration mode" ++ [10]).
Proof.
  intros Hctx. destruct line as [line|]; cbn [danos_cli_process]; [|cbn; by rewrite Hctx].
  case_bool_decide; [cbn; by rewrite Hctx|]. destruct (split_cmd _ _ _ _) as [cmd args]. rewrite Hctx. cbn [andb].
  destruct (streq cmd "show"); [destruct (cli_show args c) as [rc out]; cbn; by rewrite Hctx|].
  destruct (_ || _); [done|]. destruct (_ || _); [unfold cli_cmd_exit; rewrite Hctx; cbn; by rewrite Hctx|].
  destruct (_ || _); cbn; by rewrite Hctx.
Qed.

(** ** The session ends with its input *)

Lemma fgets_shorter n input line rest : (0 < n)%nat -> fgets n input = Some (line, rest) -> (length rest < length input)%nat.
Proof.
  destruct input as [|c input]; [done|]. intros Hn [= H].
  assert (Hle : forall k s, (length (fgets_loop k s).2 <= length s)%nat).
  { induction k as [|k IH]; intros [|d s]; cbn [fgets_loop snd length]; try lia.
    destruct (d =? 10); [cbn; lia|]. specialize (IH s). destruct (fgets_loop k s). cbn in *. lia. }
  destruct n as [|n]; [lia|]. cbn [fgets_loop] in H. destruct (c =? 10); [injection H as _ <-; cbn; lia|].
  specialize (Hle n input). destruct (fgets_loop n input) as [l r]. injection H as _ <-. cbn in *. lia.
Qed.

(** More turns than the input has bytes change nothing. *)
Lemma cli_run_enough fuel input out ctx c :
  (length input < fuel)%nat -> cli_run_loop fuel input out ctx c = cli_run_loop (S (length input)) input out ctx c.
Proof.
  revert input out ctx c.
  assert (H : forall f1 f2 input out ctx c, (length input < f1)%nat -> (length input < f2)%nat ->
    cli_run_loop f1 input out ctx c = cli_run_loop f2 input out ctx c); [|intros; apply H; lia].
  induction f1 as [|f1 IH]; intros [|f2] input out ctx c H1 H2; try lia. cbn [cli_run_loop].
  destruct (fgets 1023 input) as [[line rest]|] eqn:E; [|done].
  pose proof (fgets_shorter 1023 input line rest ltac:(lia) E).
  destruct (danos_cli_process _ _ _) as [[[rc o] ctx'] c']. destruct (rc =? 1); [done|]. apply IH; lia.
Qed.

End set_theorems.

(** ** Examples *)

Definition demo_cli : danos_cli_ctx_t := mk_cli true (lit "danos(config)# ").

Lemma cli_set_exact_witness :
  exists c', danos_cli_process (Some demo_cli) (Some (lit "set interface eth0 mtu 9000")) demo_eth_core =
      (0, [], Some demo_cli, c') /\
    objs c' 1 = <[(DANOS_OBJ_IFACE, 4) := to_mem (edited 9000 true demo_eth)]> (objs demo_eth_core 1).
Proof.
  destruct demo_eth_facts as (Hp & Hok & Hn).
  apply (cli_set_exact 1 (lit "eth0") (SetMtu 9000) demo_eth demo_cli demo_eth_core Hp Hok Hn).
  - lit_text.
  - cbn. lia.
  - cbn. lia.
  - reflexivity.
Defined.

Lemma cli_no_shutdown_refused_witness :
  danos_cli_process (Some demo_cli) (Some (lit "set interface eth0 no shutdown")) demo_eth_core =
    (-1, lit "% unsupported attribute: " ++ [10], Some demo_cli, demo_eth_core).
Proof.
  destruct demo_eth_facts as (Hp & Hok & Hn).
  apply (cli_no_shutdown_refused 1 (lit "eth0") demo_eth demo_cli demo_eth_core Hp Hok Hn).
  - lit_text.
  - cbn. lia.
  - reflexivity.
Defined.

Lemma cli_view_mode_readonly_witness :
  let '(rc, out, ctx', c') := danos_cli_process (Some danos_cli_init) (Some (lit "set interface eth0 mtu 9000")) demo_eth_core in
  c' = demo_eth_core /\ rc = -1.
Proof.
  pose proof (cli_view_mode_readonly danos_cli_init (Some (lit "set interface eth0 mtu 9000")) demo_eth_core eq_refl) as H.
  change (danos_cli_process (Some danos_cli_init) (Some (lit "set interface eth0 mtu 9000")) demo_eth_core)
    with (-1, lit "Unknown command: set (type 'help' for available commands)" ++ [10], Some danos_cli_init, demo_eth_core) in *.
  cbv iota in *. split; [apply H|reflexivity].
Defined.
