(* ===== verification/Http2.v ===== *)
(** * HTTP/2 frames and flow control: the transport half of danos-mgmt gnmi_grpc.c

    One connection of the gRPC server: reading and writing frames over a
    socket, the housekeeping frames, the windows of flow control, and the gRPC
    messages inside DATA frames.  The socket is a script: the answers [recv]
    gives, in order, and the answers [send] gives; when the first list runs
    out the peer has closed the connection, when the second runs out every
    further write is accepted in full.  The windows are 64-bit counters and far
    from overflow. *)

From stdpp Require Import base decidable list numbers strings.
From Stdlib Require Import ZArith Lia.
From S2P Require Import Prelude CStr Huffman Hpack.

(** ** The socket *)

Inductive rx := RxData (bs : bytes) | RxIntr | RxErr.
Inductive tx := TxSome (k : nat) | TxIntr | TxErr.

(** [None] is [-1]: an error, or the peer closed. *)
Fixpoint read_full (n : nat) (net : list rx) : option (bytes * list rx) :=
  match n with
  | O => Some ([], net)
  | S _ =>
      match net with
      | [] => None
      | RxIntr :: net => read_full n net
      | RxErr :: _ => None
      | RxData bs :: net =>
          if (length bs =? 0)%nat then None
          else if (n <? length bs)%nat then Some (take n bs, RxData (drop n bs) :: net)
          else '(rest, net) ← read_full (n - length bs) net; Some (bs ++ rest, net)
      end
  end.

(** Whether everything was written, what was, and the answers left. *)
Fixpoint write_full (data : bytes) (ans : list tx) : bool * bytes * list tx :=
  match data with
  | [] => (true, [], ans)
  | _ =>
      match ans with
      | [] => (true, data, [])
      | TxIntr :: ans => write_full data ans
      | TxErr :: ans => (false, [], ans)
      | TxSome O :: ans => (false, [], ans)
      | TxSome k :: ans =>
          let '(ok, sent, ans) := write_full (drop k data) ans in (ok, take k data ++ sent, ans)
      end
  end.

(** ** Frames *)

Definition H2_PREFACE_LEN : nat := 24.
Definition crlf : bytes := [13; 10].
Definition H2_PREFACE : bytes :=
  lit "PRI * HTTP/2.0" ++ crlf ++ crlf ++ lit "SM" ++ crlf ++ crlf.

Definition H2_F_DATA : Z := 0.
Definition H2_F_HEADERS : Z := 1.
Definition H2_F_RST : Z := 3.
Definition H2_F_SETTINGS : Z := 4.
Definition H2_F_PING : Z := 6.
Definition H2_F_GOAWAY : Z := 7.
Definition H2_F_WINDOW : Z := 8.
Definition H2_F_CONT : Z := 9.

Definition H2_FLAG_END_STREAM : Z := 1.
Definition H2_FLAG_ACK : Z := 1.
Definition H2_FLAG_END_HEADERS : Z := 4.
Definition H2_DEFAULT_WINDOW : Z := 65535.
Definition H2_MAX_FRAME_LEN : Z := 16384.
Definition MAX_MSG : Z := 262144.

Definition has_flag (flags f : Z) : bool := negb (Z.land flags f =? 0).

Record pending_frame_t := mk_frame {
  pf_type : Z;
  pf_flags : Z;
  pf_stream : Z;
  pf_payload : bytes;
}.

(** The connection; [hc_in], [hc_out] and [hc_ans] are the socket, [hc_heap]
    the answers of the allocator. *)
Record h2_conn_t := mk_conn {
  hc_in : list rx;
  hc_out : bytes;
  hc_ans : list tx;
  hc_heap : heap;
  hc_dyn_dec : hpack_dyn_table_t;
  hc_conn_window : Z;
  hc_stream_window : list Z;      (* int64_t stream_window[64] *)
  hc_peer_initial_window : Z;
  hc_pending : list pending_frame_t;
}.

Definition set_in (net : list rx) (c : h2_conn_t) : h2_conn_t :=
  mk_conn net (hc_out c) (hc_ans c) (hc_heap c) (hc_dyn_dec c) (hc_conn_window c)
    (hc_stream_window c) (hc_peer_initial_window c) (hc_pending c).
Definition set_windows (conn : Z) (streams : list Z) (init : Z) (c : h2_conn_t) : h2_conn_t :=
  mk_conn (hc_in c) (hc_out c) (hc_ans c) (hc_heap c) (hc_dyn_dec c) conn streams init (hc_pending c).
Definition set_pending (pend : list pending_frame_t) (m : heap) (c : h2_conn_t) : h2_conn_t :=
  mk_conn (hc_in c) (hc_out c) (hc_ans c) m (hc_dyn_dec c) (hc_conn_window c)
    (hc_stream_window c) (hc_peer_initial_window c) pend.
Definition set_dyn (t : hpack_dyn_table_t) (m : heap) (c : h2_conn_t) : h2_conn_t :=
  mk_conn (hc_in c) (hc_out c) (hc_ans c) m t (hc_conn_window c)
    (hc_stream_window c) (hc_peer_initial_window c) (hc_pending c).

(** Bytes put on the wire. *)
Definition write_bytes (data : bytes) (c : h2_conn_t) : bool * h2_conn_t :=
  let '(ok, sent, ans) := write_full data (hc_ans c) in
  (ok, mk_conn (hc_in c) (hc_out c ++ sent) ans (hc_heap c) (hc_dyn_dec c) (hc_conn_window c)
         (hc_stream_window c) (hc_peer_initial_window c) (hc_pending c)).

Definition frame_header (type flags stream len : Z) : bytes :=
  [u8 (Z.shiftr len 16); u8 (Z.shiftr len 8); u8 len; type; flags;
   u8 (Z.shiftr stream 24); u8 (Z.shiftr stream 16); u8 (Z.shiftr stream 8); u8 stream].

Definition write_frame (type flags stream : Z) (payload : bytes) (c : h2_conn_t) : bool * h2_conn_t :=
  let len := u32 (strlen payload) in
  let '(ok, c) := write_bytes (frame_header type flags stream len) c in
  if negb ok then (false, c)
  else if len =? 0 then (true, c) else write_bytes payload c.

(** ** Parked frames *)

(** Pushed on the front; lost when an allocation fails. *)
Definition pending_push (f : pending_frame_t) (c : h2_conn_t) : h2_conn_t :=
  let '(ok, m) := malloc (hc_heap c) in
  if negb ok then set_pending (hc_pending c) m c else
  let '(ok, m) := if bool_decide (pf_payload f = []) then (true, m) else malloc m in
  if negb ok then set_pending (hc_pending c) m c
  else set_pending (f :: hc_pending c) m c.

(** Popped from the front, cut to the caller's buffer of [cap] bytes. *)
Definition pending_pop (cap : nat) (c : h2_conn_t) : option (pending_frame_t * h2_conn_t) :=
  match hc_pending c with
  | [] => None
  | f :: rest =>
      Some (mk_frame (pf_type f) (pf_flags f) (pf_stream f) (take cap (pf_payload f)),
            set_pending rest (hc_heap c) c)
  end.

Definition pending_free_all (c : h2_conn_t) : h2_conn_t := set_pending [] (hc_heap c) c.

(** ** Receiving *)

(** A frame for the caller (0), a window that grew (1), an error (-1); the
    last is a loop that needs more turns than it was given. *)
Inductive received := RxFrame (f : pending_frame_t) | RxHouse | RxFail | RxSpin.

Fixpoint settings_entries (p : bytes) (c : h2_conn_t) : h2_conn_t :=
  match p with
  | i1 :: i2 :: v1 :: v2 :: v3 :: v4 :: p =>
      let v := be_val [v1; v2; v3; v4] in
      settings_entries p
        (if be_val [i1; i2] =? 4 then set_windows (hc_conn_window c) (replicate 64 v) v c else c)
  | _ => c
  end.

Definition on_settings (flags : Z) (p : bytes) (c : h2_conn_t) : h2_conn_t :=
  if has_flag flags H2_FLAG_ACK then c else
  let c := if (length p mod 6 =? 0)%nat then settings_entries p c else c in
  snd (write_frame H2_F_SETTINGS H2_FLAG_ACK 0 [] c).

Definition on_ping (flags : Z) (p : bytes) (c : h2_conn_t) : h2_conn_t :=
  if has_flag flags H2_FLAG_ACK then c else snd (write_frame H2_F_PING H2_FLAG_ACK 0 p c).

(** [stream % 64]. *)
Definition win_slot (stream : Z) : nat := Z.to_nat (stream mod 64).

Definition on_window (stream : Z) (p : bytes) (c : h2_conn_t) : h2_conn_t :=
  let inc := be_val (take 4 p) in
  if stream =? 0 then set_windows (hc_conn_window c + inc) (hc_stream_window c) (hc_peer_initial_window c) c
  else set_windows (hc_conn_window c) (alter (fun w => w + inc) (win_slot stream) (hc_stream_window c))
         (hc_peer_initial_window c) c.

Fixpoint recv_loop (fuel cap : nat) (c : h2_conn_t) : received * h2_conn_t :=
  match pending_pop cap c with
  | Some (f, c) => (RxFrame f, c)
  | None =>
      match fuel with
      | O => (RxSpin, c)
      | S fuel =>
          match read_full 9 (hc_in c) with
          | None => (RxFail, c)
          | Some (fh, net) =>
              let flen := be_val (take 3 fh) in
              let ftype := default 0 (fh !! 3%nat) in
              let fflags := default 0 (fh !! 4%nat) in
              let fstream := be_val (drop 5 fh) in
              if H2_MAX_FRAME_LEN <? flen then (RxFail, c) else
              match read_full (Z.to_nat flen) net with
              | None => (RxFail, c)
              | Some (p, net) =>
                  let c := set_in net c in
                  if ftype =? H2_F_SETTINGS then recv_loop fuel cap (on_settings fflags p c)
                  else if ftype =? H2_F_PING then recv_loop fuel cap (on_ping fflags p c)
                  else if ftype =? H2_F_WINDOW then
                    if flen <? 4 then recv_loop fuel cap c else (RxHouse, on_window fstream p c)
                  else (RxFrame (mk_frame ftype fflags fstream p), c)
              end
          end
      end
  end.

(** The bytes the script still holds; every turn reads nine or more. *)
Definition net_size (net : list rx) : nat :=
  sum_list ((fun r => match r with RxData bs => length bs | _ => 0%nat end) <$> net).

Definition recv_frame (c : h2_conn_t) : received * h2_conn_t :=
  recv_loop (S (net_size (hc_in c))) (Z.to_nat H2_MAX_FRAME_LEN) c.

(** ** Sending data *)

Definition send_budget (stream : Z) (c : h2_conn_t) : Z :=
  Z.min (Z.min (default 0 (hc_stream_window c !! win_slot stream)) (hc_conn_window c))
    H2_MAX_FRAME_LEN.

Definition spend (stream n : Z) (c : h2_conn_t) : h2_conn_t :=
  set_windows (hc_conn_window c - n) (alter (fun w => w - n) (win_slot stream) (hc_stream_window c))
    (hc_peer_initial_window c) c.

(** A frame that arrives while data waits for a window. *)
Definition park (stream : Z) (f : pending_frame_t) (c : h2_conn_t) : h2_conn_t :=
  if ((pf_type f =? H2_F_DATA) || (pf_type f =? H2_F_HEADERS)) && negb (pf_stream f =? stream)
  then pending_push f c else c.

(** [None] when the loop needs more turns than [fuel]. *)
Fixpoint send_data_windowed (fuel : nat) (stream : Z) (data : bytes) (c : h2_conn_t)
    : option (bool * h2_conn_t) :=
  match data with
  | [] => Some (true, c)
  | _ =>
      match fuel with
      | O => None
      | S fuel =>
          let budget := send_budget stream c in
          if budget <=? 0 then
            match recv_frame c with
            | (RxFail, c) => Some (false, c)
            | (RxSpin, _) => None
            | (RxHouse, c) => send_data_windowed fuel stream data c
            | (RxFrame f, c) => send_data_windowed fuel stream data (park stream f c)
            end
          else
            let chunk := take (Z.to_nat budget) data in
            let '(ok, c) := write_frame H2_F_DATA 0 stream chunk c in
            if negb ok then Some (false, c)
            else send_data_windowed fuel stream (drop (Z.to_nat budget) data)
                   (spend stream (strlen chunk) c)
      end
  end.

(** ** gRPC responses *)

(** [int k = hpack_encode_literal(...); if (k < 0) return -1;] one after the
    other into a buffer of [cap] bytes. *)
Fixpoint encode_headers (cap : Z) (hs : list (bytes * bytes)) (buf : bytes) : option bytes :=
  match hs with
  | [] => Some buf
  | (n, v) :: hs => k ← hpack_encode_literal (cap - strlen buf) n v; encode_headers cap hs (buf ++ k)
  end.

Definition status_200 : bytes * bytes := (lit ":status", lit "200").
Definition grpc_type : bytes * bytes := (lit "content-type", lit "application/grpc").
Definition grpc_status (s : string) : bytes * bytes := (lit "grpc-status", lit s).

Definition send_stream_headers (stream : Z) (c : h2_conn_t) : bool * h2_conn_t :=
  match encode_headers 128 [status_200; grpc_type] [] with
  | None => (false, c)
  | Some h => write_frame H2_F_HEADERS H2_FLAG_END_HEADERS stream h c
  end.

(** The five bytes before a message. *)
Definition grpc_prefix (len : Z) : bytes :=
  [0; u8 (Z.shiftr len 24); u8 (Z.shiftr len 16); u8 (Z.shiftr len 8); u8 len].

Definition send_stream_message (fuel : nat) (stream : Z) (msg : bytes) (c : h2_conn_t)
    : option (bool * h2_conn_t) :=
  let '(ok, c) := write_frame H2_F_DATA 0 stream (grpc_prefix (strlen msg)) c in
  if negb ok then Some (false, c) else send_data_windowed fuel stream msg c.

Definition send_stream_trailers (stream : Z) (c : h2_conn_t) : bool * h2_conn_t :=
  match encode_headers 64 [grpc_status "0"] [] with
  | None => (false, c)
  | Some t => write_frame H2_F_HEADERS (Z.lor H2_FLAG_END_STREAM H2_FLAG_END_HEADERS) stream t c
  end.

Definition send_grpc_response (fuel : nat) (stream : Z) (msg : bytes) (c : h2_conn_t)
    : option (bool * h2_conn_t) :=
  let '(ok, c) := send_stream_headers stream c in
  if negb ok then Some (false, c) else
  '(ok, c) ← send_stream_message fuel stream msg c;
  if negb ok then Some (false, c) else
  let '(ok, c) := if strlen msg =? 0 then write_frame H2_F_DATA H2_FLAG_END_STREAM stream [] c else (true, c) in
  if negb ok then Some (false, c) else
  Some (send_stream_trailers stream c).

(** ** gRPC requests *)

(** [ghdr], [need] once the header is complete, and the bytes received. *)
Record grpc_rd := mk_rd { gr_hdr : bytes; gr_need : option Z; gr_msg : bytes }.

Inductive feed_result := FeedMore (g : grpc_rd) | FeedDone (msg : bytes) | FeedErr.

Definition feed_body (hdr : bytes) (need : Z) (got p : bytes) : feed_result :=
  if strlen got =? need then FeedDone got else
  let got := got ++ take (Z.to_nat (need - strlen got)) p in
  if strlen got =? need then FeedDone got else FeedMore (mk_rd hdr (Some need) got).

Fixpoint feed_header (cap : Z) (hdr p : bytes) : feed_result :=
  match p with
  | [] => FeedMore (mk_rd hdr None [])
  | b :: p =>
      let hdr := hdr ++ [b] in
      if (length hdr <? 5)%nat then feed_header cap hdr p
      else if negb (default 0 (hdr !! 0%nat) =? 0) then FeedErr
      else
        let need := be_val (drop 1 hdr) in
        if cap <? need then FeedErr
        else if need =? 0 then FeedDone []
        else feed_body hdr need [] p
  end.

(** The inner loop, over the payload of one DATA frame. *)
Definition grpc_feed (cap : Z) (g : grpc_rd) (p : bytes) : feed_result :=
  match gr_need g with
  | None => feed_header cap (gr_hdr g) p
  | Some need => feed_body (gr_hdr g) need (gr_msg g) p
  end.

(** A message, the end of the stream without one (-2), or an error (-1). *)
Inductive grpc_result := GrpcMsg (msg : bytes) | GrpcNone | GrpcFail.

Definition grpc_ended (g : grpc_rd) : grpc_result :=
  match gr_need g with Some _ => GrpcMsg (gr_msg g) | None => GrpcNone end.

Fixpoint read_loop (fuel : nat) (cap stream : Z) (g : grpc_rd) (c : h2_conn_t)
    : option (grpc_result * h2_conn_t) :=
  match fuel with
  | O => None
  | S fuel =>
      match recv_frame c with
      | (RxFail, c) => Some (GrpcFail, c)
      | (RxSpin, _) => None
      | (RxHouse, c) => read_loop fuel cap stream g c
      | (RxFrame f, c) =>
          if pf_type f =? H2_F_HEADERS then
            if has_flag (pf_flags f) H2_FLAG_END_STREAM then Some (grpc_ended g, c)
            else read_loop fuel cap stream g c
          else if (pf_type f =? H2_F_GOAWAY) || (pf_type f =? H2_F_RST) then Some (GrpcFail, c)
          else if negb (pf_type f =? H2_F_DATA) || negb (pf_stream f =? stream) then
            read_loop fuel cap stream g (pending_push f c)
          else
            match grpc_feed cap g (pf_payload f) with
            | FeedErr => Some (GrpcFail, c)
            | FeedDone m => Some (GrpcMsg m, c)
            | FeedMore g =>
                if has_flag (pf_flags f) H2_FLAG_END_STREAM then Some (grpc_ended g, c)
                else read_loop fuel cap stream g c
            end
      end
  end.

Definition read_grpc_message (fuel : nat) (cap stream : Z) (c : h2_conn_t)
    : option (grpc_result * h2_conn_t) :=
  read_loop fuel cap stream (mk_rd [] None []) c.

(** ** The byte stream *)

(** What the peer sends before it closes or the socket fails. *)
Fixpoint wire (net : list rx) : bytes :=
  match net with
  | [] | RxErr :: _ | RxData [] :: _ => []
  | RxIntr :: net => wire net
  | RxData bs :: net => bs ++ wire net
  end.

(** How the stream is cut into pieces does not matter. *)
Lemma read_full_wire n net :
  (n <= length (wire net))%nat ->
  exists net', read_full n net = Some (take n (wire net), net') /\ wire net' = drop n (wire net).
Proof.
  revert n. induction net as [|r net IH]; intros n Hn.
  { cbn in Hn. destruct n; [|lia]. by exists []. }
  destruct n as [|n]; [by exists (r :: net)|].
  destruct r as [[|b bs]| |]; cbn [wire] in *; try (cbn in Hn; lia).
  - cbn [read_full]. change (length (b :: bs) =? 0)%nat with false. cbv iota.
    destruct (Nat.ltb_spec (S n) (length (b :: bs))) as [Hlt|Hge].
    + eexists. split; [by rewrite take_app_le by lia|]. rewrite drop_app_le by lia.
      cbn [wire]. destruct (drop (S n) (b :: bs)) eqn:Hd; [|done].
      apply (f_equal length) in Hd. rewrite length_drop in Hd. cbn in *. lia.
    + rewrite length_app in Hn. destruct (IH (S n - length (b :: bs))%nat) as (net' & Hr & Hw); [lia|].
      rewrite Hr. cbn [mbind option_bind]. exists net'.
      by rewrite take_app_ge, drop_app_ge by lia.
  - cbn [read_full]. destruct (IH (S n)) as (net' & Hr & Hw); [done|]. by exists net'.
Qed.

Lemma read_full_short n net : (length (wire net) < n)%nat -> read_full n net = None.
Proof.
  revert n. induction net as [|r net IH]; intros n Hn; (destruct n as [|n]; [lia|]); [done|].
  destruct r as [[|b bs]| |]; cbn [wire read_full] in *; try done.
  - change (length (b :: bs) =? 0)%nat with false. cbv iota. rewrite length_app in Hn.
    rewrite (proj2 (Nat.ltb_ge _ _)) by lia. by rewrite IH by lia.
  - by apply IH.
Qed.

Lemma net_size_cons r net :
  net_size (r :: net) = (match r with RxData bs => length bs | _ => 0 end + net_size net)%nat.
Proof. done. Qed.

(** Reading uses up the script. *)
Lemma read_full_size n net bs net' :
  read_full n net = Some (bs, net') -> (net_size net' + n = net_size net)%nat /\ length bs = n.
Proof.
  revert n bs net'. induction net as [|r net IH]; intros n bs net' H;
    (destruct n as [|n]; [injection H as <- <-; split; [lia|done]|]); [done|].
  destruct r as [b| |]; cbn [read_full] in H; try done.
  - destruct (length b =? 0)%nat eqn:E0; [done|]. destruct (Nat.ltb_spec (S n) (length b)).
    + injection H as <- <-. rewrite !net_size_cons, length_drop, length_take. lia.
    + destruct (read_full (S n - length b) net) as [[rest net2]|] eqn:Hr; [|done]. cbn in H.
      injection H as <- <-. apply IH in Hr as [Hr Hl]. rewrite length_app, Hl, net_size_cons. lia.
  - apply IH in H. rewrite net_size_cons. lia.
Qed.

Lemma write_full_granted data : write_full data [] = (true, data, []).
Proof. by destruct data. Qed.

(** ** Frames on the wire *)

Definition frame_bytes (f : pending_frame_t) : bytes :=
  frame_header (pf_type f) (pf_flags f) (pf_stream f) (strlen (pf_payload f)) ++ pf_payload f.

(** A frame a peer can send. *)
Record frame_ok (f : pending_frame_t) : Prop := {
  fk_type : is_byte (pf_type f);
  fk_flags : is_byte (pf_flags f);
  fk_stream : is_u32 (pf_stream f);
  fk_len : strlen (pf_payload f) <= H2_MAX_FRAME_LEN;
  fk_bytes : bytes_ok (pf_payload f);
}.

Lemma frame_header_eq type flags stream len :
  frame_header type flags stream len = be_bytes 3 len ++ [type; flags] ++ be_bytes 4 stream.
Proof. unfold frame_header. by rewrite be_bytes_3, be_bytes_4. Qed.

(** What [write_frame] puts on the wire. *)
Lemma write_frame_granted f c :
  frame_ok f -> hc_ans c = [] ->
  write_frame (pf_type f) (pf_flags f) (pf_stream f) (pf_payload f) c =
    (true, mk_conn (hc_in c) (hc_out c ++ frame_bytes f) [] (hc_heap c) (hc_dyn_dec c) (hc_conn_window c)
             (hc_stream_window c) (hc_peer_initial_window c) (hc_pending c)).
Proof.
  intros Hf Ha. unfold write_frame, write_bytes, frame_bytes. rewrite Ha, write_full_granted.
  pose proof (fk_len f Hf) as Hl. unfold H2_MAX_FRAME_LEN in Hl.
  rewrite u32_small by (unfold is_u32, strlen in *; lia).
  cbn [negb]. destruct (Z.eqb_spec (strlen (pf_payload f)) 0) as [He|He].
  - unfold strlen in He. destruct (pf_payload f); [|cbn in He; lia]. by rewrite app_nil_r.
  - cbn [hc_ans]. rewrite write_full_granted. cbn. by rewrite <- app_assoc.
Qed.

(** Frames that are answered and not seen by the caller. *)
Definition silent (f : pending_frame_t) : bool :=
  (pf_type f =? H2_F_SETTINGS) || (pf_type f =? H2_F_PING) ||
  ((pf_type f =? H2_F_WINDOW) && (strlen (pf_payload f) <? 4)).

Definition house (f : pending_frame_t) (c : h2_conn_t) : h2_conn_t :=
  if pf_type f =? H2_F_SETTINGS then on_settings (pf_flags f) (pf_payload f) c
  else if pf_type f =? H2_F_PING then on_ping (pf_flags f) (pf_payload f) c
  else c.

(** What housekeeping leaves alone. *)
Definition same_input (c c' : h2_conn_t) : Prop :=
  hc_in c' = hc_in c /\ hc_pending c' = hc_pending c /\ hc_heap c' = hc_heap c /\ hc_dyn_dec c' = hc_dyn_dec c.

Lemma write_frame_input type flags stream p c ok c' :
  write_frame type flags stream p c = (ok, c') -> same_input c c' /\
  hc_conn_window c' = hc_conn_window c /\ hc_stream_window c' = hc_stream_window c.
Proof.
  unfold write_frame, write_bytes. destruct (write_full _ _) as [[ok1 s1] a1]. cbn [hc_ans].
  destruct ok1; cbn [negb]; [|by intros [= <- <-]]. destruct (_ =? 0); [by intros [= <- <-]|].
  destruct (write_full p a1) as [[ok2 s2] a2]. by intros [= <- <-].
Qed.

Lemma write_frame_snd type flags stream p c :
  same_input c (snd (write_frame type flags stream p c)).
Proof.
  destruct (write_frame type flags stream p c) as [ok c'] eqn:H. by apply write_frame_input in H as [? _].
Qed.

Lemma settings_input p c : same_input c (settings_entries p c).
Proof.
  revert c. induction p as [p IH] using (induction_ltof1 _ length). intros c.
  destruct p as [|i1 [|i2 [|v1 [|v2 [|v3 [|v4 p]]]]]]; try done. cbn [settings_entries].
  specialize (IH p ltac:(unfold ltof; cbn; lia)). destruct (_ =? 4); [|done].
  destruct (IH (set_windows (hc_conn_window c) (replicate 64 (be_val [v1; v2; v3; v4]))
    (be_val [v1; v2; v3; v4]) c)) as (H1 & H2 & H3 & H4). by split_and!.
Qed.

Lemma on_settings_input flags p c : same_input c (on_settings flags p c).
Proof.
  unfold on_settings. destruct (has_flag _ _); [done|].
  set (c1 := if (length p mod 6 =? 0)%nat then settings_entries p c else c).
  assert (Hs : same_input c c1) by (unfold c1; destruct (_ =? 0)%nat; [apply settings_input|done]).
  clearbody c1. destruct Hs as (H1 & H2 & H3 & H4).
  destruct (write_frame_snd H2_F_SETTINGS H2_FLAG_ACK 0 [] c1) as (W1 & W2 & W3 & W4).
  unfold same_input. by rewrite W1, W2, W3, W4.
Qed.

Lemma on_ping_input flags p c : same_input c (on_ping flags p c).
Proof. unfold on_ping. destruct (has_flag _ _); [done|]. apply write_frame_snd. Qed.

Lemma house_input f c : same_input c (house f c).
Proof.
  unfold house. destruct (_ =? H2_F_SETTINGS); [apply on_settings_input|].
  destruct (_ =? H2_F_PING); [apply on_ping_input|done].
Qed.

(** More turns than bytes are enough. *)
Lemma recv_loop_fuel f1 f2 cap c :
  (net_size (hc_in c) < f1)%nat -> (net_size (hc_in c) < f2)%nat -> recv_loop f1 cap c = recv_loop f2 cap c.
Proof.
  revert f2 c. induction f1 as [|f1 IH]; intros [|f2] c H1 H2; try lia. cbn [recv_loop].
  destruct (pending_pop cap c) as [[f c']|]; [done|].
  destruct (read_full 9 (hc_in c)) as [[fh net]|] eqn:E1; [|done].
  destruct (H2_MAX_FRAME_LEN <? _); [done|].
  destruct (read_full _ net) as [[p net2]|] eqn:E2; [|done].
  apply read_full_size in E1 as [E1 _]. apply read_full_size in E2 as [E2 _].
  destruct (_ =? H2_F_SETTINGS); [|destruct (_ =? H2_F_PING); [|destruct (_ =? H2_F_WINDOW); [|done]; destruct (_ <? 4); [|done]]].
  - apply IH; destruct (on_settings_input (default 0 (fh !! 4%nat)) p (set_in net2 c)) as (-> & _); cbn [hc_in set_in]; lia.
  - apply IH; destruct (on_ping_input (default 0 (fh !! 4%nat)) p (set_in net2 c)) as (-> & _); cbn [hc_in set_in]; lia.
  - apply IH; cbn [hc_in set_in]; lia.
Qed.

Lemma recv_loop_no_spin fuel cap c :
  (net_size (hc_in c) < fuel)%nat -> fst (recv_loop fuel cap c) <> RxSpin.
Proof.
  revert c. induction fuel as [|fuel IH]; intros c H1; try lia. cbn [recv_loop].
  destruct (pending_pop cap c) as [[f c']|]; [done|].
  destruct (read_full 9 (hc_in c)) as [[fh net]|] eqn:E1; [|done].
  destruct (H2_MAX_FRAME_LEN <? _); [done|].
  destruct (read_full _ net) as [[p net2]|] eqn:E2; [|done].
  apply read_full_size in E1 as [E1 _]. apply read_full_size in E2 as [E2 _].
  destruct (_ =? H2_F_SETTINGS); [|destruct (_ =? H2_F_PING); [|destruct (_ =? H2_F_WINDOW); [|done]; destruct (_ <? 4); [|done]]].
  - apply IH; destruct (on_settings_input (default 0 (fh !! 4%nat)) p (set_in net2 c)) as (-> & _); cbn [hc_in set_in]; lia.
  - apply IH; destruct (on_ping_input (default 0 (fh !! 4%nat)) p (set_in net2 c)) as (-> & _); cbn [hc_in set_in]; lia.
  - apply IH; cbn [hc_in set_in]; lia.
Qed.

Lemma recv_frame_no_spin c c' : recv_frame c <> (RxSpin, c').
Proof.
  intros H. apply (recv_loop_no_spin (S (net_size (hc_in c))) (Z.to_nat H2_MAX_FRAME_LEN) c); [lia|].
  unfold recv_frame in H. by rewrite H.
Qed.

Lemma recv_frame_pop c f rest :
  hc_pending c = f :: rest -> (length (pf_payload f) <= Z.to_nat H2_MAX_FRAME_LEN)%nat ->
  recv_frame c = (RxFrame f, set_pending rest (hc_heap c) c).
Proof.
  intros Hp Hl. unfold recv_frame. cbn [recv_loop]. unfold pending_pop. rewrite Hp, take_ge by done.
  by destruct f.
Qed.

Lemma recv_frame_closed c : hc_pending c = [] -> (length (wire (hc_in c)) < 9)%nat -> recv_frame c = (RxFail, c).
Proof.
  intros Hp Hl. unfold recv_frame. cbn [recv_loop]. unfold pending_pop. by rewrite Hp, read_full_short.
Qed.

(** The next frame of the stream, housekeeping or not. *)
Lemma recv_frame_next c f rest :
  hc_pending c = [] -> frame_ok f -> wire (hc_in c) = frame_bytes f ++ rest ->
  exists net, wire net = rest /\
    recv_frame c =
      if silent f then recv_frame (house f (set_in net c))
      else if pf_type f =? H2_F_WINDOW then (RxHouse, on_window (pf_stream f) (pf_payload f) (set_in net c))
      else (RxFrame f, set_in net c).
Proof.
  intros Hp [Ht Hfl Hs Hl Hb] Hw. unfold frame_bytes in Hw. rewrite frame_header_eq, <- !app_assoc in Hw.
  set (len := strlen (pf_payload f)) in *.
  assert (Hlen : 0 <= len <= H2_MAX_FRAME_LEN) by (unfold len, strlen in *; lia).
  set (hdr := be_bytes 3 len ++ [pf_type f; pf_flags f] ++ be_bytes 4 (pf_stream f)).
  assert (Hw' : wire (hc_in c) = hdr ++ pf_payload f ++ rest) by (rewrite Hw; unfold hdr; by rewrite <- !app_assoc).
  assert (Hh : length hdr = 9%nat) by (unfold hdr; by rewrite !length_app, !length_be_bytes).
  destruct (read_full_wire 9 (hc_in c)) as (n1 & R1 & W1); [rewrite Hw', length_app; lia|].
  rewrite Hw', take_app_length' in R1 by done. rewrite Hw', drop_app_length' in W1 by done.
  destruct (read_full_wire (length (pf_payload f)) n1) as (n2 & R2 & W2); [rewrite W1, length_app; lia|].
  rewrite W1, take_app_length' in R2 by done. rewrite W1, drop_app_length' in W2 by done.
  exists n2. split; [done|].
  assert (F1 : be_val (take 3 hdr) = len).
  { unfold hdr. rewrite take_app_length' by (by rewrite length_be_bytes). apply be_val_be_bytes.
    unfold H2_MAX_FRAME_LEN in Hlen. lia. }
  assert (F2 : hdr !! 3%nat = Some (pf_type f) /\ hdr !! 4%nat = Some (pf_flags f)).
  { unfold hdr. rewrite !lookup_app_r, length_be_bytes by (rewrite length_be_bytes; lia). done. }
  assert (F3 : be_val (drop 5 hdr) = pf_stream f).
  { unfold hdr. rewrite app_assoc, drop_app_length' by (by rewrite length_app, length_be_bytes).
    apply be_val_be_bytes. unfold is_u32 in Hs. lia. }
  destruct F2 as [F2 F2']. unfold recv_frame at 1. cbn [recv_loop]. unfold pending_pop at 1. rewrite Hp, R1.
  rewrite F1, F2, F2', F3. cbn [default from_option]. rewrite (proj2 (Z.ltb_ge _ _)) by lia.
  replace (Z.to_nat len) with (length (pf_payload f)) by (unfold len, strlen; lia). rewrite R2.
  apply read_full_size in R1 as [R1 _]. apply read_full_size in R2 as [R2 _].
  unfold silent, house, id. fold len. unfold recv_frame.
  destruct (_ =? H2_F_SETTINGS); [|destruct (_ =? H2_F_PING); [|destruct (_ =? H2_F_WINDOW); [destruct (len <? 4)|]]];
    cbn [orb andb]; try done; [..|by destruct f].
  - apply recv_loop_fuel; destruct (on_settings_input (pf_flags f) (pf_payload f) (set_in n2 c)) as (-> & _);
      cbn [hc_in set_in]; lia.
  - apply recv_loop_fuel; destruct (on_ping_input (pf_flags f) (pf_payload f) (set_in n2 c)) as (-> & _);
      cbn [hc_in set_in]; lia.
  - apply recv_loop_fuel; cbn [hc_in set_in]; lia.
Qed.

(** ** Flow control *)

(** SETTINGS, PING and WINDOW_UPDATE frames. *)
Definition quiet (f : pending_frame_t) : bool :=
  (pf_type f =? H2_F_SETTINGS) || (pf_type f =? H2_F_PING) || (pf_type f =? H2_F_WINDOW).

Definition frames_bytes (fs : list pending_frame_t) : bytes := mjoin (frame_bytes <$> fs).

Lemma frames_bytes_app l k : frames_bytes (l ++ k) = frames_bytes l ++ frames_bytes k.
Proof. unfold frames_bytes. by rewrite fmap_app, join_app. Qed.

Lemma quiet_silent f : quiet f = true -> silent f = false -> pf_type f =? H2_F_WINDOW = true.
Proof.
  unfold quiet, silent. rewrite !orb_true_iff, !orb_false_iff. intros [[H|H]|H] [[H1 H2] H3]; congruence.
Qed.

Record windows_ok (c : h2_conn_t) : Prop := {
  wo_conn : 0 <= hc_conn_window c;
  wo_size : length (hc_stream_window c) = 64%nat;
  wo_streams : Forall (fun w => 0 <= w) (hc_stream_window c);
}.

(** What the peer adds to the connection's window. *)
Definition credit1 (f : pending_frame_t) : Z :=
  if (pf_type f =? H2_F_WINDOW) && negb (strlen (pf_payload f) <? 4) && (pf_stream f =? 0)
  then be_val (take 4 (pf_payload f)) else 0.

Definition is_data (f : pending_frame_t) : bool := pf_type f =? H2_F_DATA.

(** The data carried by frames. *)
Definition data_of (fs : list pending_frame_t) : bytes := mjoin (pf_payload <$> filter (fun f => is_data f) fs).

Lemma data_of_app l k : data_of (l ++ k) = data_of l ++ data_of k.
Proof. unfold data_of. by rewrite filter_app, fmap_app, join_app. Qed.

Lemma data_of_none fs : Forall (fun f => is_data f = false) fs -> data_of fs = [].
Proof.
  intros H. unfold data_of. replace (filter _ fs) with (@nil pending_frame_t); [done|].
  induction H as [|f fs Hf _ IH]; [done|]. rewrite filter_cons, decide_False; [done|]. cbn. rewrite Hf. by intros [].
Qed.

(** ** Flow control as the peer sees it

    A history of frames got from the peer and put on the wire.  The peer keeps
    the connection's window and one window per slot: WINDOW_UPDATE adds to one
    of them, SETTINGS_INITIAL_WINDOW_SIZE sets the slots, and a DATA frame is
    admitted only when both windows it counts against cover it. *)
Inductive flow_ev := Got (f : pending_frame_t) | Put (f : pending_frame_t).

Definition gots (tr : list flow_ev) : list pending_frame_t :=
  omap (fun e => match e with Got f => Some f | Put _ => None end) tr.

Definition puts (tr : list flow_ev) : list pending_frame_t :=
  omap (fun e => match e with Got _ => None | Put f => Some f end) tr.

(** The last SETTINGS_INITIAL_WINDOW_SIZE of a SETTINGS payload. *)
Fixpoint initial_window (p : bytes) : option Z :=
  match p with
  | i1 :: i2 :: v1 :: v2 :: v3 :: v4 :: p =>
      match initial_window p with
      | Some v => Some v
      | None => if be_val [i1; i2] =? 4 then Some (be_val [v1; v2; v3; v4]) else None
      end
  | _ => None
  end.

Definition new_window (f : pending_frame_t) : option Z :=
  if (pf_type f =? H2_F_SETTINGS) && negb (has_flag (pf_flags f) H2_FLAG_ACK) && (length (pf_payload f) mod 6 =? 0)%nat
  then initial_window (pf_payload f) else None.

(** What the peer adds to slot [j]. *)
Definition slot_credit (j : nat) (f : pending_frame_t) : Z :=
  if (pf_type f =? H2_F_WINDOW) && negb (strlen (pf_payload f) <? 4) && negb (pf_stream f =? 0) && (win_slot (pf_stream f) =? j)%nat
  then be_val (take 4 (pf_payload f)) else 0.

(** The windows of the connection and of slot [j] after one more frame; [None]
    when the frame overdraws one of them. *)
Definition flow_step (j : nat) (w : Z * Z) (e : flow_ev) : option (Z * Z) :=
  match e with
  | Got f => Some (w.1 + credit1 f, default w.2 (new_window f) + slot_credit j f)
  | Put f =>
      let n := strlen (pf_payload f) in
      if negb (is_data f) then Some w
      else if w.1 <? n then None
      else if negb (win_slot (pf_stream f) =? j)%nat then Some (w.1 - n, w.2)
      else if w.2 <? n then None else Some (w.1 - n, w.2 - n)
  end.

Fixpoint flow_run (j : nat) (w : Z * Z) (tr : list flow_ev) : option (Z * Z) :=
  match tr with
  | [] => Some w
  | e :: tr => w ← flow_step j w e; flow_run j w tr
  end.

Definition slot (c : h2_conn_t) (j : nat) : Z := default 0 (hc_stream_window c !! j).

(** The history [tr] is admitted on every slot and ends in the windows of [c']. *)
Definition flows (c c' : h2_conn_t) (tr : list flow_ev) : Prop :=
  forall j, (j < 64)%nat -> flow_run j (hc_conn_window c, slot c j) tr = Some (hc_conn_window c', slot c' j).

Lemma flow_run_app j w tr tr' : flow_run j w (tr ++ tr') = w ← flow_run j w tr; flow_run j w tr'.
Proof.
  revert w. induction tr as [|e tr IH]; intros w; [done|]. cbn [app flow_run].
  destruct (flow_step j w e); [apply IH|done].
Qed.

Lemma flows_trans c1 c2 c3 tr tr' : flows c1 c2 tr -> flows c2 c3 tr' -> flows c1 c3 (tr ++ tr').
Proof. intros H1 H2 j Hj. rewrite flow_run_app, (H1 j Hj). by apply H2. Qed.

Lemma flow_acks j w fs : Forall (fun f => is_data f = false) fs -> flow_run j w (Put <$> fs) = Some w.
Proof.
  induction 1 as [|f fs Hf _ IH]; [done|]. cbn [fmap list_fmap flow_run flow_step]. by rewrite Hf.
Qed.

Lemma puts_app tr tr' : puts (tr ++ tr') = puts tr ++ puts tr'.
Proof. apply omap_app. Qed.

Lemma gots_app tr tr' : gots (tr ++ tr') = gots tr ++ gots tr'.
Proof. apply omap_app. Qed.

Lemma puts_put fs : puts (Put <$> fs) = fs.
Proof. induction fs as [|f fs IH]; [done|]. cbn. by f_equal. Qed.

Lemma gots_put fs : gots (Put <$> fs) = [].
Proof. by induction fs. Qed.

Lemma settings_slot p c j :
  (j < 64)%nat -> slot (settings_entries p c) j = default (slot c j) (initial_window p).
Proof.
  intros Hj. revert c. induction p as [p IH] using (induction_ltof1 _ length). intros c.
  destruct p as [|i1 [|i2 [|v1 [|v2 [|v3 [|v4 p]]]]]]; try done. cbn [settings_entries initial_window].
  rewrite IH by (unfold ltof; cbn; lia). destruct (initial_window p) as [v|]; [done|].
  destruct (be_val [i1; i2] =? 4); [|done]. unfold slot. cbn [set_windows hc_stream_window].
  by rewrite lookup_replicate_2.
Qed.

(** Frames written with replies: what [c'] has sent beyond [c]. *)
Definition sends (c c' : h2_conn_t) (fs : list pending_frame_t) : Prop :=
  hc_ans c' = [] /\ hc_out c' = hc_out c ++ frames_bytes fs /\ Forall frame_ok fs.

Lemma sends_nil c : hc_ans c = [] -> sends c c [].
Proof. intros Ha. split; [done|]. split; [|constructor]. by rewrite app_nil_r. Qed.

Lemma sends_trans c1 c2 c3 l k : sends c1 c2 l -> sends c2 c3 k -> sends c1 c3 (l ++ k).
Proof.
  intros (H1 & H2 & H3) (K1 & K2 & K3). split; [done|]. split; [|by apply Forall_app].
  by rewrite K2, H2, frames_bytes_app, app_assoc.
Qed.

Lemma settings_effect p c :
  bytes_ok p -> windows_ok c -> windows_ok (settings_entries p c) /\
  hc_conn_window (settings_entries p c) = hc_conn_window c /\
  hc_out (settings_entries p c) = hc_out c /\ hc_ans (settings_entries p c) = hc_ans c.
Proof.
  revert c. induction p as [p IH] using (induction_ltof1 _ length). intros c Hb Hw.
  destruct p as [|i1 [|i2 [|v1 [|v2 [|v3 [|v4 p]]]]]]; try done. cbn [settings_entries].
  rewrite !Forall_cons in Hb. destruct Hb as (_ & _ & B1 & B2 & B3 & B4 & Hb).
  destruct (be_val [i1; i2] =? 4); [|by apply IH; [unfold ltof; cbn; lia| |]].
  set (v := be_val [v1; v2; v3; v4]).
  assert (Hv : 0 <= v).
  { apply (be_val_range [v1; v2; v3; v4]). by rewrite !Forall_cons. }
  destruct (IH p ltac:(unfold ltof; cbn; lia) (set_windows (hc_conn_window c) (replicate 64 v) v c))
    as (H1 & H2 & H3 & H4); [done| |by split_and!].
  destruct Hw. split; cbn [set_windows hc_conn_window hc_stream_window]; [done|apply length_replicate|].
  by apply Forall_replicate.
Qed.

Lemma windows_write type flags stream p c ok c' :
  windows_ok c -> write_frame type flags stream p c = (ok, c') ->
  windows_ok c' /\ hc_conn_window c' = hc_conn_window c.
Proof.
  intros [W1 W2 W3] H. apply write_frame_input in H as (_ & H1 & H2). split; [|done]. by split; rewrite ?H1, ?H2.
Qed.

Lemma write_emits f c :
  frame_ok f -> hc_ans c = [] ->
  exists c', write_frame (pf_type f) (pf_flags f) (pf_stream f) (pf_payload f) c = (true, c') /\ sends c c' [f].
Proof.
  intros Hf Ha. eexists. split; [by apply write_frame_granted|]. split; [done|]. split; [|by constructor].
  cbn [hc_out]. unfold frames_bytes. cbn. by rewrite app_nil_r.
Qed.

(** A reply: the windows stay, one frame that is not data goes out. *)
Lemma reply_effect f c :
  frame_ok f -> is_data f = false -> hc_ans c = [] -> windows_ok c ->
  let c' := snd (write_frame (pf_type f) (pf_flags f) (pf_stream f) (pf_payload f) c) in
  windows_ok c' /\ hc_conn_window c' = hc_conn_window c /\ sends c c' [f].
Proof.
  intros Hf Hd Ha Hw. destruct (write_emits f c Hf Ha) as (c' & Hwr & He). rewrite Hwr. cbn [snd].
  destruct (windows_write _ _ _ _ _ _ _ Hw Hwr). by split_and!.
Qed.

Definition acks (fs : list pending_frame_t) : Prop := Forall (fun f => is_data f = false) fs.

Lemma house_effect f c :
  frame_ok f -> hc_ans c = [] -> windows_ok c ->
  exists fs, acks fs /\ sends c (house f c) fs /\ windows_ok (house f c) /\
    hc_conn_window (house f c) = hc_conn_window c.
Proof.
  intros [Ht Hfl Hs Hl Hb] Ha Hw. unfold house.
  destruct (_ =? H2_F_SETTINGS); [|destruct (_ =? H2_F_PING)].
  - unfold on_settings. destruct (has_flag _ _); [exists []; split_and!; try done; [constructor|by apply sends_nil]|].
    set (c1 := if (length (pf_payload f) mod 6 =? 0)%nat then _ else c).
    assert (H1 : windows_ok c1 /\ hc_conn_window c1 = hc_conn_window c /\ hc_out c1 = hc_out c /\ hc_ans c1 = hc_ans c).
    { unfold c1. destruct (_ =? 0)%nat; [by apply settings_effect|done]. }
    destruct H1 as (W1 & C1 & O1 & A1). clearbody c1. rewrite Ha in A1.
    set (ack := mk_frame H2_F_SETTINGS H2_FLAG_ACK 0 []).
    assert (Hack : frame_ok ack).
    { split; cbn; unfold is_byte, is_u32, H2_F_SETTINGS, H2_FLAG_ACK, H2_MAX_FRAME_LEN, strlen; cbn; (lia || constructor). }
    destruct (reply_effect ack c1 Hack eq_refl A1 W1) as (W2 & C2 & (E1 & E2 & E3)).
    cbn [ack pf_type pf_flags pf_stream pf_payload] in W2, C2, E1, E2.
    exists [ack]. split_and!; [by constructor| |done|by rewrite C2].
    split; [done|]. split; [by rewrite E2, O1|done].
  - unfold on_ping. destruct (has_flag _ _); [exists []; split_and!; try done; [constructor|by apply sends_nil]|].
    set (ack := mk_frame H2_F_PING H2_FLAG_ACK 0 (pf_payload f)).
    assert (Hack : frame_ok ack).
    { split; cbn; unfold is_byte, is_u32, H2_F_PING, H2_FLAG_ACK; try lia; done. }
    destruct (reply_effect ack c Hack eq_refl Ha Hw) as (W2 & C2 & E).
    exists [ack]. split_and!; [by constructor|done|done|done].
  - exists []. split_and!; try done; [constructor|by apply sends_nil].
Qed.

Lemma credit1_silent f : silent f = true -> credit1 f = 0.
Proof.
  unfold silent, credit1. intros H. destruct (pf_type f =? H2_F_WINDOW) eqn:E; [|done].
  apply Z.eqb_eq in E. rewrite E in H. cbn in H. by rewrite H.
Qed.

Lemma alter_nonneg (g : Z -> Z) i l :
  Forall (fun w => 0 <= w) l -> (forall w, l !! i = Some w -> 0 <= g w) -> Forall (fun w => 0 <= w) (alter g i l).
Proof.
  intros Hl Hg. apply Forall_lookup. intros j w Hj. destruct (decide (j = i)) as [->|Hne].
  - rewrite list_lookup_alter_eq in Hj. apply fmap_Some in Hj as (w0 & Hj & ->). by apply Hg.
  - rewrite list_lookup_alter_ne in Hj by done. by apply (proj1 (Forall_lookup _ _) Hl) in Hj.
Qed.

Lemma on_window_effect f c :
  frame_ok f -> quiet f = true -> silent f = false -> windows_ok c -> hc_ans c = [] ->
  let c' := on_window (pf_stream f) (pf_payload f) c in
  windows_ok c' /\ hc_conn_window c' = hc_conn_window c + credit1 f /\ sends c c' [].
Proof.
  intros Hf Hq Hs [W1 W2 W3] Ha c'. pose proof (quiet_silent f Hq Hs) as Ht.
  assert (Hlen : strlen (pf_payload f) <? 4 = false).
  { unfold silent in Hs. rewrite Ht in Hs. by apply orb_false_iff in Hs as [_ ?]. }
  assert (Hinc : 0 <= be_val (take 4 (pf_payload f))).
  { apply be_val_range. apply Forall_take, (fk_bytes f Hf). }
  unfold c', on_window, credit1. rewrite Ht, Hlen. cbn [negb andb].
  destruct (pf_stream f =? 0).
  - split_and!; [|done|].
    + split; cbn [set_windows hc_conn_window hc_stream_window]; [lia|done|done].
    + split; [done|]. split; [by rewrite app_nil_r|constructor].
  - split_and!; [|cbn; lia|].
    + split; cbn [set_windows hc_conn_window hc_stream_window]; [done|by rewrite length_alter|].
      apply alter_nonneg; [done|]. intros w Hi. apply (proj1 (Forall_lookup _ _) W3) in Hi. lia.
    + split; [done|]. split; [by rewrite app_nil_r|constructor].
Qed.

Lemma write_frame_slot type flags stream p c j : slot (snd (write_frame type flags stream p c)) j = slot c j.
Proof.
  destruct (write_frame type flags stream p c) as [ok c'] eqn:E. apply write_frame_input in E as (_ & _ & H).
  unfold slot. cbn [snd]. by rewrite H.
Qed.

Lemma house_slot f c j :
  (j < 64)%nat -> silent f = true -> slot (house f c) j = default (slot c j) (new_window f) + slot_credit j f.
Proof.
  intros Hj Hs. unfold house, new_window, slot_credit. destruct (pf_type f =? H2_F_SETTINGS) eqn:E1.
  - apply Z.eqb_eq in E1. rewrite E1. cbn [andb negb]. unfold on_settings.
    destruct (has_flag _ _); [cbn; lia|]. rewrite write_frame_slot. cbn [negb andb].
    destruct (_ =? 0)%nat; [rewrite settings_slot by done|]; cbn; lia.
  - cbn [andb default from_option]. unfold Datatypes.id.
    destruct (pf_type f =? H2_F_PING) eqn:E2.
    + apply Z.eqb_eq in E2. rewrite E2. unfold on_ping. cbn.
      destruct (has_flag _ _); rewrite ?write_frame_slot; lia.
    + unfold silent in Hs. rewrite E1, E2 in Hs. cbn [orb] in Hs. apply andb_true_iff in Hs as [-> ->]. cbn. lia.
Qed.

Lemma on_window_slot f c j :
  windows_ok c -> quiet f = true -> silent f = false ->
  slot (on_window (pf_stream f) (pf_payload f) c) j = default (slot c j) (new_window f) + slot_credit j f.
Proof.
  intros [_ W2 _] Hq Hs. pose proof (quiet_silent f Hq Hs) as Ht.
  assert (Hn : new_window f = None).
  { unfold new_window. apply Z.eqb_eq in Ht. by rewrite Ht. }
  unfold silent in Hs. rewrite Ht in Hs. apply orb_false_iff in Hs as [_ Hs]. cbn [andb] in Hs.
  rewrite Hn. unfold slot_credit, on_window, slot. rewrite Ht, Hs. cbn [andb negb default from_option].
  unfold Datatypes.id. destruct (pf_stream f =? 0); cbn [negb andb set_windows hc_stream_window]; [lia|].
  destruct (Nat.eqb_spec (win_slot (pf_stream f)) j) as [<-|Hne].
  - rewrite list_lookup_alter_eq. destruct (lookup_lt_is_Some_2 (hc_stream_window c) (win_slot (pf_stream f))) as [w Hw].
    { unfold win_slot. pose proof (Z.mod_pos_bound (pf_stream f) 64). lia. }
    by rewrite Hw.
  - rewrite list_lookup_alter_ne by done. lia.
Qed.

(** ** Quiet periods *)

(** The parts of a connection that reading housekeeping frames keeps. *)
Definition kept (c c' : h2_conn_t) : Prop :=
  hc_pending c' = hc_pending c /\ hc_heap c' = hc_heap c /\ hc_dyn_dec c' = hc_dyn_dec c /\
  (hc_ans c = [] -> windows_ok c -> hc_ans c' = [] /\ windows_ok c').

Lemma kept_trans c1 c2 c3 : kept c1 c2 -> kept c2 c3 -> kept c1 c3.
Proof.
  unfold kept. intros (H1 & H2 & H3 & H4) (K1 & K2 & K3 & K4).
  refine (conj _ (conj _ (conj _ _))); [congruence..|]. intros Ha Hw. destruct (H4 Ha Hw). by apply K4.
Qed.

Lemma house_kept f net c :
  frame_ok f -> kept c (house f (set_in net c)) /\ hc_in (house f (set_in net c)) = net.
Proof.
  intros Hf. destruct (house_input f (set_in net c)) as (-> & H2 & H3 & H4). split; [|done].
  refine (conj H2 (conj H3 (conj H4 _))). intros Ha [W1 W2 W3].
  destruct (house_effect f (set_in net c) Hf Ha) as (fs & _ & (E & _) & W & _); [by split|done].
Qed.

Lemma on_window_kept f net c :
  frame_ok f -> quiet f = true -> silent f = false ->
  let c' := on_window (pf_stream f) (pf_payload f) (set_in net c) in kept c c' /\ hc_in c' = net.
Proof.
  intros Hf Hq Hs. cbv zeta.
  assert (Hc : forall s p, hc_in (on_window s p (set_in net c)) = net /\
    hc_pending (on_window s p (set_in net c)) = hc_pending c /\
    hc_heap (on_window s p (set_in net c)) = hc_heap c /\
    hc_dyn_dec (on_window s p (set_in net c)) = hc_dyn_dec c).
  { intros s p. unfold on_window. by destruct (s =? 0). }
  destruct (Hc (pf_stream f) (pf_payload f)) as (H1 & H2 & H3 & H4). split; [|done].
  refine (conj H2 (conj H3 (conj H4 _))). intros Ha [W1 W2 W3].
  destruct (on_window_effect f (set_in net c) Hf Hq Hs) as (W & _ & (E & _)); [by split|done|done].
Qed.

(** [n] turns that only move windows, then the frame. *)
Inductive arrives : h2_conn_t -> pending_frame_t -> nat -> h2_conn_t -> Prop :=
  | arr_here c f c' : recv_frame c = (RxFrame f, c') -> arrives c f 0 c'
  | arr_house c c1 f n c' : recv_frame c = (RxHouse, c1) -> arrives c1 f n c' -> arrives c f (S n) c'.

Lemma arrives_silent c c1 f n c' : recv_frame c = recv_frame c1 -> arrives c1 f n c' -> arrives c f n c'.
Proof.
  intros Heq Ha. destruct Ha as [? ? ? H|? c2 ? ? ? H Ha]; [apply arr_here|apply (arr_house _ c2); [|done]];
    by rewrite Heq.
Qed.

Lemma quiet_arrives hs f rest c :
  hc_pending c = [] -> Forall frame_ok hs -> Forall (fun f => quiet f = true) hs ->
  frame_ok f -> quiet f = false -> wire (hc_in c) = frames_bytes hs ++ frame_bytes f ++ rest ->
  exists n c', (n <= length hs)%nat /\ arrives c f n c' /\ wire (hc_in c') = rest /\ kept c c'.
Proof.
  intros Hp Hok Hq Hf Hnq. revert c Hp. induction Hok as [|h hs Hh _ IH]; intros c Hp Hw.
  - destruct (recv_frame_next c f rest Hp Hf Hw) as (net & Hn & Hr). exists 0%nat, (set_in net c).
    split; [done|]. split; [|split; [done|]; refine (conj eq_refl (conj eq_refl (conj eq_refl _)));
      intros Ha [W1 W2 W3]; split; [done|by split]]. apply arr_here. rewrite Hr.
    unfold quiet in Hnq. apply orb_false_iff in Hnq as [Hsp Hwin]. unfold silent. by rewrite Hsp, Hwin.
  - inversion Hq as [|? ? Hqh Hqs]; subst. change (h :: hs) with ([h] ++ hs) in Hw.
    rewrite frames_bytes_app in Hw. change (frames_bytes [h]) with (frame_bytes h ++ []) in Hw.
    rewrite app_nil_r, <- app_assoc in Hw.
    destruct (recv_frame_next c h _ Hp Hh Hw) as (net & Hn & Hr).
    destruct (silent h) eqn:Hs.
    + destruct (house_kept h net c Hh) as [HK Kin]. pose proof HK as (K1 & _).
      destruct (IH Hqs (house h (set_in net c))) as (n & c' & Hl & Ha & Hw' & Hk);
        [by rewrite K1|by rewrite Kin|].
      exists n, c'. split; [cbn; lia|]. split; [by apply (arrives_silent c _ f n c' Hr)|].
      split; [done|]. by apply (kept_trans c (house h (set_in net c))).
    + rewrite (quiet_silent h Hqh Hs) in Hr.
      destruct (on_window_kept h net c Hh Hqh Hs) as [HK Kin]. pose proof HK as (K1 & _).
      destruct (IH Hqs (on_window (pf_stream h) (pf_payload h) (set_in net c))) as (n & c' & Hl & Ha & Hw' & Hk);
        [by rewrite K1|by rewrite Kin|].
      exists (S n), c'. split; [cbn; lia|]. split; [by eapply arr_house|]. split; [done|].
      by apply (kept_trans c (on_window (pf_stream h) (pf_payload h) (set_in net c))).
Qed.

(** ** Requests *)

(** The reader after it has seen the bytes [x] of a stream. *)
Definition rd_of (x : bytes) : grpc_rd :=
  if (length x <? 5)%nat then mk_rd x None []
  else mk_rd (take 5 x) (Some (be_val (take 4 (drop 1 x)))) (drop 5 x).

Definition grpc_bytes (m : bytes) : bytes := grpc_prefix (strlen m) ++ m.

Lemma grpc_prefix_eq len : grpc_prefix len = 0 :: be_bytes 4 len.
Proof. unfold grpc_prefix. by rewrite be_bytes_4. Qed.

Lemma feed_body_spec hdr m got p post :
  m = got ++ p ++ post -> p ++ post <> [] ->
  feed_body hdr (strlen m) got p =
    if bool_decide (post = []) then FeedDone m else FeedMore (mk_rd hdr (Some (strlen m)) (got ++ p)).
Proof.
  intros -> Hne. unfold feed_body, strlen. rewrite !length_app.
  rewrite (proj2 (Z.eqb_neq _ _)) by (destruct p; [destruct post; [done|]|]; cbn; lia).
  rewrite take_ge by lia. case_bool_decide as Hpost.
  - subst post. cbn. rewrite (proj2 (Z.eqb_eq _ _)) by lia. by rewrite app_nil_r.
  - rewrite (proj2 (Z.eqb_neq _ _)); [done|]. destruct post; [done|]. cbn. lia.
Qed.

Lemma length_grpc_prefix len : length (grpc_prefix len) = 5%nat.
Proof. done. Qed.

Lemma grpc_need m : strlen m < 2 ^ 32 -> be_val (take 4 (drop 1 (grpc_bytes m))) = strlen m.
Proof.
  intros Hm. unfold grpc_bytes. rewrite grpc_prefix_eq.
  change (drop 1 ((0 :: be_bytes 4 (strlen m)) ++ m)) with (be_bytes 4 (strlen m) ++ m).
  rewrite take_app_length' by (by rewrite length_be_bytes). apply be_val_be_bytes. unfold strlen in *. lia.
Qed.

(** A payload behind the header. *)
Lemma feed_body_rd m x p post :
  strlen m < 2 ^ 32 -> (5 <= length x)%nat -> grpc_bytes m = x ++ p ++ post -> p ++ post <> [] ->
  feed_body (take 5 x) (strlen m) (drop 5 x) p =
    if bool_decide (post = []) then FeedDone m else FeedMore (rd_of (x ++ p)).
Proof.
  intros Hm Hx Heq Hne.
  assert (Hmsg : m = drop 5 x ++ p ++ post).
  { apply (f_equal (drop 5)) in Heq. unfold grpc_bytes in Heq.
    rewrite drop_app_length' in Heq by done. rewrite Heq. by rewrite drop_app_le. }
  rewrite (feed_body_spec _ m (drop 5 x) p post Hmsg Hne). case_bool_decide; [done|].
  unfold rd_of. rewrite length_app, (proj2 (Nat.ltb_ge _ _)) by lia.
  rewrite take_app_le, (drop_app_le _ _ 5) by lia.
  assert (be_val (take 4 (drop 1 (x ++ p))) = strlen m) as ->; [|done].
  rewrite <- (grpc_need m Hm), Heq. f_equal.
  rewrite !drop_app_le, !take_app_le by (rewrite ?length_drop; lia). done.
Qed.

(** A payload in which the header may end. *)
Lemma feed_header_rd cap m p x post :
  strlen m <= cap -> strlen m < 2 ^ 32 -> (length x < 5)%nat -> grpc_bytes m = x ++ p ++ post ->
  p ++ post <> [] ->
  feed_header cap x p = if bool_decide (post = []) then FeedDone m else FeedMore (rd_of (x ++ p)).
Proof.
  intros Hcap Hm. revert x. induction p as [|b p IH]; intros x Hx Heq Hne; cbn [feed_header].
  { cbn in Hne. rewrite bool_decide_eq_false_2 by done. rewrite app_nil_r.
    unfold rd_of. by rewrite (proj2 (Nat.ltb_lt _ _)). }
  assert (Heq' : grpc_bytes m = (x ++ [b]) ++ p ++ post) by (by rewrite <- app_assoc).
  assert (Hrest : (length (x ++ [b]) < 5 + length m)%nat -> p ++ post <> []).
  { intros Hl Hnil. rewrite Hnil, app_nil_r in Heq'. rewrite <- Heq' in Hl.
    unfold grpc_bytes in Hl. rewrite length_app, length_grpc_prefix in Hl. lia. }
  replace (x ++ b :: p) with ((x ++ [b]) ++ p) by (by rewrite <- app_assoc).
  destruct (Nat.ltb_spec (length (x ++ [b])) 5) as [Hx'|Hx'].
  { apply IH; [done|done|]. apply Hrest. lia. }
  assert (H5 : length (x ++ [b]) = 5%nat) by (rewrite length_app in *; cbn [length] in *; lia).
  assert (Hhd : x ++ [b] = 0 :: be_bytes 4 (strlen m)).
  { apply (f_equal (take 5)) in Heq'. rewrite take_app_length' in Heq' by done. rewrite <- Heq'.
    unfold grpc_bytes. rewrite take_app_length' by done. apply grpc_prefix_eq. }
  rewrite Hhd. change (drop 1 (0 :: be_bytes 4 (strlen m))) with (be_bytes 4 (strlen m)).
  change (negb (default 0 ((0 :: be_bytes 4 (strlen m)) !! 0%nat) =? 0)) with false. cbv iota.
  rewrite be_val_be_bytes by (unfold strlen in *; lia). rewrite (proj2 (Z.ltb_ge _ _)) by lia.
  destruct (Z.eqb_spec (strlen m) 0) as [Hz|Hz].
  - unfold strlen in Hz. destruct m; [|cbn in Hz; lia]. apply (f_equal length) in Heq'.
    rewrite !length_app in Heq'. unfold grpc_bytes in Heq'. rewrite app_nil_r, length_grpc_prefix in Heq'.
    rewrite length_app in H5. destruct post; [done|]. cbn in *. lia.
  - assert (Hpp : p ++ post <> []) by (apply Hrest; unfold strlen in Hz; lia).
    pose proof (feed_body_rd m (x ++ [b]) p post Hm ltac:(lia) Heq' Hpp) as Hb.
    rewrite take_ge, drop_ge, Hhd in Hb by lia. exact Hb.
Qed.

(** One payload: the message is complete exactly at its last byte. *)
Lemma grpc_feed_spec cap m x p post :
  strlen m <= cap -> strlen m < 2 ^ 32 -> grpc_bytes m = x ++ p ++ post -> p ++ post <> [] ->
  grpc_feed cap (rd_of x) p = if bool_decide (post = []) then FeedDone m else FeedMore (rd_of (x ++ p)).
Proof.
  intros Hcap Hm Heq Hne. destruct (decide (length x < 5)%nat) as [Hx|Hx].
  - assert (rd_of x = mk_rd x None []) as -> by (unfold rd_of; by rewrite (proj2 (Nat.ltb_lt _ _))).
    by apply feed_header_rd.
  - apply Nat.nlt_ge in Hx.
    assert (rd_of x = mk_rd (take 5 x) (Some (be_val (take 4 (drop 1 x)))) (drop 5 x)) as ->
      by (unfold rd_of; by rewrite (proj2 (Nat.ltb_ge _ _))).
    unfold grpc_feed. cbn [gr_need gr_hdr gr_msg]. rewrite <- (feed_body_rd m x p post Hm Hx Heq Hne). f_equal.
    rewrite <- (grpc_need m Hm), Heq. f_equal.
    rewrite !drop_app_le, !take_app_le by (rewrite ?length_drop; lia). done.
Qed.

Definition data_frame (flags stream : Z) (p : bytes) : pending_frame_t := mk_frame H2_F_DATA flags stream p.

(** A DATA frame of the stream and the housekeeping frames before it. *)
Definition segment : Type := list pending_frame_t * bytes.

Definition seg_bytes (stream flags : Z) (s : segment) : bytes :=
  frames_bytes s.1 ++ frame_bytes (data_frame flags stream s.2).

Record seg_ok (stream flags : Z) (s : segment) : Prop := {
  sk_frames : Forall frame_ok s.1;
  sk_quiet : Forall (fun f => quiet f = true) s.1;
  sk_data : frame_ok (data_frame flags stream s.2);
}.

Definition seg_turns (segs : list segment) : nat := sum_list ((fun s => S (length s.1)) <$> segs).

Lemma read_loop_data c n c' flags stream p fuel cap g :
  arrives c (data_frame flags stream p) n c' ->
  read_loop (n + S fuel) cap stream g c =
    match grpc_feed cap g p with
    | FeedErr => Some (GrpcFail, c')
    | FeedDone m => Some (GrpcMsg m, c')
    | FeedMore g =>
        if has_flag flags H2_FLAG_END_STREAM then Some (grpc_ended g, c') else read_loop fuel cap stream g c'
    end.
Proof.
  remember (data_frame flags stream p) as f eqn:Hf. induction 1 as [c f c' Hr|c c1 f n c' Hr _ IH]; subst f.
  - cbn [Nat.add read_loop]. rewrite Hr. cbn [pf_type pf_flags pf_stream pf_payload data_frame].
    by rewrite (Z.eqb_refl stream).
  - cbn [Nat.add read_loop]. rewrite Hr. by apply IH.
Qed.

Lemma seg_read cap stream flags s rest c g :
  seg_ok stream flags s -> hc_pending c = [] -> wire (hc_in c) = seg_bytes stream flags s ++ rest ->
  exists c', wire (hc_in c') = rest /\ kept c c' /\
    forall fuel, (S (length s.1) <= fuel)%nat -> exists k, (fuel - S (length s.1) <= k)%nat /\
      read_loop fuel cap stream g c =
        match grpc_feed cap g s.2 with
        | FeedErr => Some (GrpcFail, c')
        | FeedDone m => Some (GrpcMsg m, c')
        | FeedMore g =>
            if has_flag flags H2_FLAG_END_STREAM then Some (grpc_ended g, c') else read_loop k cap stream g c'
        end.
Proof.
  intros [Hok Hq Hd] Hp Hw. unfold seg_bytes in Hw. rewrite <- app_assoc in Hw.
  destruct (quiet_arrives s.1 (data_frame flags stream s.2) rest c Hp Hok Hq Hd eq_refl Hw)
    as (n & c' & Hn & Ha & Hw' & Hk).
  exists c'. split; [done|]. split; [done|]. intros fuel Hf. exists (fuel - S n)%nat. split; [lia|].
  replace fuel with (n + S (fuel - S n))%nat at 1 by lia. by apply read_loop_data.
Qed.

Lemma read_segments cap stream m segs last flags rest x c fuel :
  strlen m <= cap -> strlen m < 2 ^ 32 ->
  Forall (seg_ok stream 0) segs -> seg_ok stream flags last -> last.2 <> [] ->
  grpc_bytes m = x ++ mjoin (snd <$> segs) ++ last.2 ->
  hc_pending c = [] ->
  wire (hc_in c) = mjoin (seg_bytes stream 0 <$> segs) ++ seg_bytes stream flags last ++ rest ->
  (seg_turns segs + S (length last.1) <= fuel)%nat ->
  exists c', read_loop fuel cap stream (rd_of x) c = Some (GrpcMsg m, c') /\ wire (hc_in c') = rest /\ kept c c'.
Proof.
  intros Hcap Hm Hsegs Hlast Hne. revert x c fuel.
  induction Hsegs as [|s segs Hs _ IH]; intros x c fuel Heq Hp Hw Hf.
  - cbn [fmap list_fmap mjoin list_join app] in Heq, Hw.
    destruct (seg_read cap stream flags last rest c (rd_of x) Hlast Hp Hw) as (c' & Hw' & Hk & Hr).
    exists c'. split; [|done]. destruct (Hr fuel) as (k & _ & ->); [cbn in Hf; lia|].
    rewrite (grpc_feed_spec cap m x last.2 []) by (by rewrite ?app_nil_r). done.
  - cbn [fmap list_fmap mjoin list_join] in Heq, Hw. rewrite <- app_assoc in Hw.
    destruct (seg_read cap stream 0 s _ c (rd_of x) Hs Hp Hw) as (c1 & Hw1 & Hk1 & Hr).
    change (seg_turns (s :: segs)) with (S (length s.1) + seg_turns segs)%nat in Hf.
    destruct (Hr fuel) as (k & Hk & ->); [lia|].
    rewrite (grpc_feed_spec cap m x s.2 (mjoin (snd <$> segs) ++ last.2));
      [|done|done|by rewrite Heq, <- (app_assoc s.2)| ].
    2: { intros Hnil. apply app_eq_nil in Hnil as [_ Hnil]. by apply app_eq_nil in Hnil as [_ ?]. }
    rewrite bool_decide_eq_false_2.
    2: { intros Hnil. by apply app_eq_nil in Hnil as [_ ?]. }
    cbn [has_flag]. change (has_flag 0 H2_FLAG_END_STREAM) with false. cbv iota.
    pose proof Hk1 as (K1 & _).
    destruct (IH (x ++ s.2) c1 k) as (c' & Hr' & Hw' & Hk'); [by rewrite Heq, <- !app_assoc|by rewrite K1|done|lia|].
    exists c'. split; [done|]. split; [done|]. by apply (kept_trans c c1).
Qed.

(** C15. A request is reassembled however the peer cuts it: when the five-byte
    prefix and the message arrive in any number of DATA frames of the stream,
    in chunks of [recv] of any size, with SETTINGS, PING and WINDOW_UPDATE
    frames before each of them, [read_grpc_message] returns exactly the
    message, and leaves exactly the bytes behind the last frame unread. *)
Theorem grpc_message_reassembled cap stream m segs last flags rest c fuel :
  strlen m <= cap -> strlen m < 2 ^ 32 ->
  Forall (seg_ok stream 0) segs -> seg_ok stream flags last -> last.2 <> [] ->
  grpc_bytes m = mjoin (snd <$> segs) ++ last.2 ->
  hc_pending c = [] ->
  wire (hc_in c) = mjoin (seg_bytes stream 0 <$> segs) ++ seg_bytes stream flags last ++ rest ->
  (seg_turns segs + S (length last.1) <= fuel)%nat ->
  exists c', read_grpc_message fuel cap stream c = Some (GrpcMsg m, c') /\
    wire (hc_in c') = rest /\ kept c c'.
Proof. intros. by eapply (read_segments cap stream m segs last flags rest []). Qed.

(** Reading while only housekeeping arrives: the windows may grow, or the peer
    closes. *)
Lemma recv_quiet hs c :
  hc_pending c = [] -> Forall frame_ok hs -> Forall (fun f => quiet f = true) hs ->
  wire (hc_in c) = frames_bytes hs -> hc_ans c = [] -> windows_ok c ->
  exists r c' k tr, recv_frame c = (r, c') /\
    ((r = RxFail /\ k = length hs) \/ (r = RxHouse /\ (0 < k)%nat)) /\ (k <= length hs)%nat /\
    wire (hc_in c') = frames_bytes (drop k hs) /\ kept c c' /\ acks (puts tr) /\ sends c c' (puts tr) /\
    windows_ok c' /\ gots tr = take k hs /\ flows c c' tr.
Proof.
  intros Hp Hok Hq. revert c Hp. induction Hok as [|h hs Hh _ IH]; intros c Hp Hw Ha Hwin.
  { exists RxFail, c, 0%nat, []. split_and!; try done; [|by left|constructor|by apply sends_nil].
    apply recv_frame_closed; [done|]. rewrite Hw. cbn. lia. }
  inversion Hq as [|? ? Hqh Hqs]; subst. change (h :: hs) with ([h] ++ hs) in Hw.
  rewrite frames_bytes_app in Hw. change (frames_bytes [h]) with (frame_bytes h ++ []) in Hw.
  rewrite app_nil_r in Hw. destruct (recv_frame_next c h _ Hp Hh Hw) as (net & Hn & Hr).
  assert (Hwin' : windows_ok (set_in net c)) by (by destruct Hwin; split).
  destruct (silent h) eqn:Hs.
  - destruct (house_kept h net c Hh) as [Hk Kin]. pose proof Hk as (K1 & _).
    destruct (house_effect h (set_in net c) Hh Ha Hwin') as (fs1 & A1 & E1 & W1 & C1).
    destruct (IH Hqs (house h (set_in net c))) as (r & c' & k & tr & Hrec & Hcase & Hk' & Hw' & Hkept & A & E & W & G & F);
      [by rewrite K1|by rewrite Kin|apply E1|done|].
    exists r, c', (S k), (Got h :: (Put <$> fs1) ++ tr). split; [by rewrite Hr|].
    assert (Hputs : puts (Got h :: (Put <$> fs1) ++ tr) = fs1 ++ puts tr).
    { change (puts ((Put <$> fs1) ++ tr) = fs1 ++ puts tr). by rewrite puts_app, puts_put. }
    assert (Hgots : gots (Got h :: (Put <$> fs1) ++ tr) = h :: gots tr).
    { change (h :: gots ((Put <$> fs1) ++ tr) = h :: gots tr). by rewrite gots_app, gots_put. }
    split; [destruct Hcase as [[-> ->]|[-> ?]]; [left|right]; (split; [done|cbn; lia])|].
    split; [cbn; lia|]. split; [done|]. split; [by apply (kept_trans c (house h (set_in net c)))|].
    rewrite Hputs, Hgots, G. split; [by apply Forall_app|].
    split; [by apply (sends_trans c (house h (set_in net c)))|]. split; [done|]. split; [done|].
    intros j Hj. cbn [flow_run flow_step]. rewrite (credit1_silent h Hs). cbn [mbind option_bind fst snd].
    rewrite flow_run_app, flow_acks by done. cbn [mbind option_bind]. rewrite <- (F j Hj), C1.
    rewrite (house_slot h (set_in net c) j Hj Hs). do 2 f_equal. cbn. lia.
  - rewrite (quiet_silent h Hqh Hs) in Hr.
    destruct (on_window_kept h net c Hh Hqh Hs) as [Hk Kin].
    destruct (on_window_effect h (set_in net c) Hh Hqh Hs Hwin' Ha) as (W1 & C1 & E1).
    exists RxHouse, (on_window (pf_stream h) (pf_payload h) (set_in net c)), 1%nat, [Got h].
    split; [done|]. split; [right; split; [done|lia]|]. split; [cbn; lia|].
    split; [rewrite Kin; exact Hn|]. split; [done|]. split; [constructor|]. split; [done|].
    split; [done|]. split; [done|]. intros j Hj. cbn [flow_run flow_step mbind option_bind fst snd].
    by rewrite C1, (on_window_slot h (set_in net c) j Hwin' Hqh Hs).
Qed.

Lemma budget_facts stream c :
  windows_ok c -> 0 < send_budget stream c ->
  exists w, hc_stream_window c !! win_slot stream = Some w /\
    send_budget stream c <= w /\ send_budget stream c <= hc_conn_window c /\
    send_budget stream c <= H2_MAX_FRAME_LEN.
Proof.
  intros [W1 W2 W3] Hb. unfold send_budget in *.
  destruct (hc_stream_window c !! win_slot stream) as [w|] eqn:E; cbn [default from_option] in *; [|lia].
  unfold Datatypes.id in *. exists w. split; [done|]. lia.
Qed.

Lemma spend_ok stream n c :
  windows_ok c -> 0 <= n <= send_budget stream c -> windows_ok (spend stream n c) /\
  hc_conn_window (spend stream n c) = hc_conn_window c - n.
Proof.
  intros Hw Hn. pose proof Hw as [W1 W2 W3]. split; [|done].
  assert (Hle : forall w, hc_stream_window c !! win_slot stream = Some w -> n <= w /\ n <= hc_conn_window c).
  { intros w Hi. unfold send_budget in Hn. rewrite Hi in Hn. cbn [default from_option] in Hn.
    unfold Datatypes.id in Hn. lia. }
  split; cbn [spend set_windows hc_conn_window hc_stream_window]; [|by rewrite length_alter|].
  - unfold send_budget in Hn. lia.
  - apply alter_nonneg; [done|]. intros w Hi. apply Hle in Hi. lia.
Qed.

Lemma spend_flows stream chunk c :
  windows_ok c -> strlen chunk <= send_budget stream c ->
  flows c (spend stream (strlen chunk) c) [Put (data_frame 0 stream chunk)].
Proof.
  intros [_ W2 _] Hn j Hj. unfold send_budget in Hn. fold (slot c (win_slot stream)) in Hn.
  cbn [flow_run flow_step data_frame pf_payload pf_stream pf_type is_data fst snd].
  change (negb (is_data _)) with false. cbv iota.
  destruct (Z.ltb_spec (hc_conn_window c) (strlen chunk)); [lia|].
  destruct (Nat.eqb_spec (win_slot stream) j) as [<-|Hne]; cbn [negb].
  - destruct (Z.ltb_spec (slot c (win_slot stream)) (strlen chunk)); [lia|]. cbn [mbind option_bind].
    destruct (lookup_lt_is_Some_2 (hc_stream_window c) (win_slot stream)) as [w Hw]; [lia|].
    unfold slot. cbn [spend set_windows hc_conn_window hc_stream_window]. by rewrite list_lookup_alter_eq, Hw.
  - cbn [mbind option_bind]. unfold slot. cbn [spend set_windows hc_conn_window hc_stream_window].
    by rewrite list_lookup_alter_ne.
Qed.

(** One DATA frame. *)
Lemma send_chunk stream data c :
  hc_ans c = [] -> windows_ok c -> is_u32 stream -> bytes_ok data -> 0 < send_budget stream c ->
  let chunk := take (Z.to_nat (send_budget stream c)) data in
  exists c1, write_frame H2_F_DATA 0 stream chunk c = (true, c1) /\
    let c2 := spend stream (strlen chunk) c1 in
    sends c c2 [data_frame 0 stream chunk] /\ windows_ok c2 /\
    hc_conn_window c2 = hc_conn_window c - strlen chunk /\ hc_in c2 = hc_in c /\ hc_pending c2 = hc_pending c /\
    flows c c2 [Put (data_frame 0 stream chunk)].
Proof.
  intros Ha Hwin Hst Hb Hz chunk. destruct (budget_facts stream c Hwin Hz) as (w & _ & _ & _ & Hmax).
  assert (Hl : strlen chunk <= send_budget stream c).
  { unfold strlen, chunk. rewrite length_take. lia. }
  assert (Hf : frame_ok (data_frame 0 stream chunk)).
  { split; cbn [data_frame pf_type pf_flags pf_stream pf_payload]; [done|done|done|lia|by apply Forall_take]. }
  destruct (write_emits _ c Hf Ha) as (c1 & Hwr & E1 & E2 & E3). exists c1. split; [done|].
  destruct (write_frame_input _ _ _ _ _ _ _ Hwr) as ((I1 & I2 & _) & I3 & I4).
  destruct (windows_write _ _ _ _ _ _ _ Hwin Hwr) as [W1 C1].
  destruct (spend_ok stream (strlen chunk) c1 W1) as [W2 C2].
  { unfold send_budget in Hl |- *. rewrite I3, I4. unfold strlen in *. lia. }
  cbv zeta. split_and!; [|done|by rewrite C2, C1|done|done|]; [by split_and!|].
  intros j Hj. rewrite <- C1. unfold slot at 1. rewrite <- I4. fold (slot c1 j).
  apply spend_flows; [done| |done]. unfold send_budget. by rewrite I3, I4.
Qed.

Lemma send_within_windows fuel stream data hs c :
  hc_pending c = [] -> Forall frame_ok hs -> Forall (fun f => quiet f = true) hs ->
  wire (hc_in c) = frames_bytes hs -> hc_ans c = [] -> windows_ok c ->
  is_u32 stream -> bytes_ok data -> (length data + length hs < fuel)%nat ->
  exists ok c' tr, send_data_windowed fuel stream data c = Some (ok, c') /\
    sends c c' (puts tr) /\ (exists k, gots tr = take k hs /\ wire (hc_in c') = frames_bytes (drop k hs)) /\
    Forall (fun f => is_data f = true -> f = data_frame 0 stream (pf_payload f)) (puts tr) /\
    (exists unsent, data = data_of (puts tr) ++ unsent /\ (ok = true <-> unsent = [])) /\
    flows c c' tr.
Proof.
  revert data hs c. induction fuel as [|fuel IH]; intros data hs c Hp Hok Hq Hw Ha Hwin Hst Hb Hf; [lia|].
  destruct data as [|b data].
  { exists true, c, []. split_and!; [done|by apply sends_nil|by exists 0%nat|by apply Forall_nil_2|by exists []|done]. }
  cbn [send_data_windowed]. destruct (Z.leb_spec (send_budget stream c) 0) as [Hz|Hz].
  - destruct (recv_quiet hs c Hp Hok Hq Hw Ha Hwin)
      as (r & c1 & k & tr & Hr & Hcase & Hk & Hw1 & (K1 & _) & A & E & W1 & G1 & F1).
    rewrite Hr. pose proof (data_of_none (puts tr) A) as Hd.
    destruct Hcase as [[-> ->]|[-> Hpos]].
    + exists false, c1, tr. split_and!; [done|done|by exists (length hs)| |exists (b :: data)|done].
      * eapply Forall_impl; [exact A|]. intros f Hf1 Hf2. congruence.
      * rewrite Hd. done.
    + destruct (IH (b :: data) (drop k hs) c1) as (ok & c' & tr' & Hs & E' & (k' & G' & Hw') & D' & Hu & F');
        [by rewrite K1|by apply Forall_drop|by apply Forall_drop|done|apply E|done|done|done
        |rewrite length_drop; lia|].
      exists ok, c', (tr ++ tr').
      rewrite puts_app, gots_app. split_and!; [done|by apply (sends_trans c c1)| | | |by apply (flows_trans c c1)].
      * exists (k + k')%nat. rewrite G1, G', <- drop_drop. split; [|done]. by rewrite take_take_drop.
      * apply Forall_app. split; [|done]. eapply Forall_impl; [exact A|]. intros f Hf1 Hf2. congruence.
      * by rewrite data_of_app, Hd.
  - destruct (send_chunk stream (b :: data) c Ha Hwin Hst Hb Hz) as (c1 & Hwr & E & W & C & I1 & I2 & F).
    set (n := Z.to_nat (send_budget stream c)) in *. rewrite Hwr. cbn [negb].
    destruct (IH (drop n (b :: data)) hs (spend stream (strlen (take n (b :: data))) c1))
      as (ok & c' & tr & Hs & E' & G' & D' & (u & Hu & Hok') & F');
      [by rewrite I2|done|done|by rewrite I1|apply E|done|done|by apply Forall_drop
      |rewrite length_drop; subst n; cbn [length] in *; lia|].
    exists ok, c', (Put (data_frame 0 stream (take n (b :: data))) :: tr).
    assert (Hd : data_of (puts (Put (data_frame 0 stream (take n (b :: data))) :: tr)) =
                 take n (b :: data) ++ data_of (puts tr)) by done.
    split_and!; [done|exact (sends_trans _ _ _ _ _ E E')|done|by constructor| |exact (flows_trans _ _ _ _ _ F F')].
    exists u. split; [|done]. rewrite Hd, <- app_assoc, <- Hu. by rewrite take_drop.
Qed.

(** C20. Data is sent whole, in order and within the windows: while only
    housekeeping frames arrive, [send_data_windowed] returns; it has written
    DATA frames of the stream whose payloads are the data, or, when the peer
    closes first, a proper prefix of it, each within the frame limit.  In the
    history of the frames it read and wrote, the peer's own count of the
    connection's window and of each of the 64 stream slots admits every DATA
    frame when it is sent, and ends in exactly the windows the connection
    holds.  The peer's count takes SETTINGS_INITIAL_WINDOW_SIZE as the code
    does, as the new value of every slot. *)
Theorem grpc_send_within_windows fuel stream data hs c :
  hc_pending c = [] -> Forall frame_ok hs -> Forall (fun f => quiet f = true) hs ->
  wire (hc_in c) = frames_bytes hs -> hc_ans c = [] -> windows_ok c ->
  is_u32 stream -> bytes_ok data -> (length data + length hs < fuel)%nat ->
  exists ok c' tr, send_data_windowed fuel stream data c = Some (ok, c') /\
    sends c c' (puts tr) /\ (exists k, gots tr = take k hs /\ wire (hc_in c') = frames_bytes (drop k hs)) /\
    Forall (fun f => is_data f = true -> f = data_frame 0 stream (pf_payload f)) (puts tr) /\
    (exists unsent, data = data_of (puts tr) ++ unsent /\ (ok = true <-> unsent = [])) /\
    flows c c' tr.
Proof. apply send_within_windows. Qed.

(** ** Responses *)

(** With window enough, nothing is read and nothing waits. *)
Lemma send_granted fuel stream data c :
  hc_ans c = [] -> windows_ok c -> is_u32 stream -> bytes_ok data ->
  strlen data <= default 0 (hc_stream_window c !! win_slot stream) -> strlen data <= hc_conn_window c ->
  (length data < fuel)%nat ->
  exists c' fs, send_data_windowed fuel stream data c = Some (true, c') /\ sends c c' fs /\
    Forall (fun f => f = data_frame 0 stream (pf_payload f)) fs /\ data_of fs = data.
Proof.
  revert data c. induction fuel as [|fuel IH]; intros data c Ha Hwin Hst Hb H1 H2 Hf; [lia|].
  destruct data as [|b data]; [exists c, []; split_and!; [done|by apply sends_nil|by apply Forall_nil_2|done]|].
  assert (Hz : 0 < send_budget stream c).
  { unfold send_budget, strlen in *. cbn [length] in *. unfold H2_MAX_FRAME_LEN. lia. }
  destruct (send_chunk stream (b :: data) c Ha Hwin Hst Hb Hz) as (c1 & Hwr & E & W & C & I1 & I2 & _).
  cbn [send_data_windowed]. rewrite (proj2 (Z.leb_gt _ _)) by lia.
  assert (Hchunk : strlen (take (Z.to_nat (send_budget stream c)) (b :: data)) <= send_budget stream c).
  { unfold strlen. rewrite length_take. lia. }
  set (n := Z.to_nat (send_budget stream c)) in *. rewrite Hwr. cbn [negb].
  assert (Hlen : strlen (take n (b :: data)) + strlen (drop n (b :: data)) = strlen (b :: data)).
  { unfold strlen. rewrite length_take, length_drop. lia. }
  destruct (write_frame_input _ _ _ _ _ _ _ Hwr) as (_ & _ & Hsw).
  destruct (budget_facts stream c Hwin Hz) as (w & Hw & _).
  destruct (IH (drop n (b :: data)) (spend stream (strlen (take n (b :: data))) c1)) as (c' & fs & Hs & E' & D' & Hd).
  - apply E.
  - done.
  - done.
  - by apply Forall_drop.
  - cbn [spend set_windows hc_stream_window]. rewrite Hsw, list_lookup_alter_eq, Hw. rewrite Hw in H1.
    cbn [fmap option_fmap option_map default from_option] in *. unfold Datatypes.id in *. lia.
  - rewrite C. lia.
  - rewrite length_drop. subst n. cbn [length] in *. lia.
  - exists c', (data_frame 0 stream (take n (b :: data)) :: fs). split_and!; [done| |by constructor|].
    + exact (sends_trans _ _ _ _ _ E E').
    + change (take n (b :: data) ++ data_of fs = b :: data). rewrite Hd. apply take_drop.
Qed.

(** The header blocks of a response. *)
Definition response_block : bytes := default [] (encode_headers 128 [status_200; grpc_type] []).
Definition trailer_block : bytes := default [] (encode_headers 64 [grpc_status "0"] []).

Lemma small_block_ok type flags stream b :
  is_byte type -> is_byte flags -> is_u32 stream -> bool_decide (bytes_ok b /\ strlen b <= 128) = true ->
  frame_ok (mk_frame type flags stream b).
Proof.
  intros H1 H2 H3 Hb. apply bool_decide_eq_true_1 in Hb as [Hb Hl]. split; cbn; try done.
  unfold H2_MAX_FRAME_LEN. lia.
Qed.

Lemma write_kept type flags stream p c :
  frame_ok (mk_frame type flags stream p) -> hc_ans c = [] -> windows_ok c ->
  exists c', write_frame type flags stream p c = (true, c') /\ sends c c' [mk_frame type flags stream p] /\
    windows_ok c' /\ hc_conn_window c' = hc_conn_window c /\ hc_stream_window c' = hc_stream_window c.
Proof.
  intros Hf Ha Hw. destruct (write_emits _ c Hf Ha) as (c' & Hwr & E). cbn [pf_type pf_flags pf_stream pf_payload] in Hwr.
  exists c'. destruct (write_frame_input _ _ _ _ _ _ _ Hwr) as (_ & H1 & H2).
  destruct (windows_write _ _ _ _ _ _ _ Hw Hwr) as [W _]. by split_and!.
Qed.

(** A response is sent as gRPC asks: with windows that cover the message,
    [send_grpc_response] writes a HEADERS frame with status 200, DATA frames
    of the stream whose payloads are the five-byte prefix and the message,
    and trailers that report success and end the stream, and nothing else. *)
Theorem grpc_response_exact fuel stream msg c :
  hc_ans c = [] -> windows_ok c -> is_u32 stream -> bytes_ok msg -> msg <> [] -> strlen msg < 2 ^ 32 ->
  strlen msg <= default 0 (hc_stream_window c !! win_slot stream) -> strlen msg <= hc_conn_window c ->
  (length msg < fuel)%nat ->
  exists c' fs, send_grpc_response fuel stream msg c = Some (true, c') /\
    Forall (fun f => f = data_frame 0 stream (pf_payload f)) fs /\ data_of fs = grpc_bytes msg /\
    hc_out c' = hc_out c ++ frames_bytes
      ([mk_frame H2_F_HEADERS H2_FLAG_END_HEADERS stream response_block] ++ fs ++
       [mk_frame H2_F_HEADERS (Z.lor H2_FLAG_END_STREAM H2_FLAG_END_HEADERS) stream trailer_block]).
Proof.
  intros Ha Hw Hst Hb Hne Hm H1 H2 Hf. unfold send_grpc_response, send_stream_headers.
  change (encode_headers 128 [status_200; grpc_type] []) with (Some response_block).
  destruct (write_kept H2_F_HEADERS H2_FLAG_END_HEADERS stream response_block c) as (c1 & -> & E1 & W1 & C1 & S1);
    [apply small_block_ok; [vm_compute; split; congruence..|done|vm_compute; reflexivity]|done|done|].
  cbn [negb]. unfold send_stream_message.
  destruct (write_kept H2_F_DATA 0 stream (grpc_prefix (strlen msg)) c1) as (c2 & -> & E2 & W2 & C2 & S2).
  { split; cbn [pf_type pf_flags pf_stream pf_payload]; try done.
    rewrite grpc_prefix_eq. apply Forall_cons. split; [unfold is_byte; lia|apply be_bytes_ok]. }
  { apply E1. }
  { done. }
  cbn [negb]. destruct (send_granted fuel stream msg c2) as (c3 & fs & -> & E3 & D & Hd);
    [apply E2|done|done|done|by rewrite S2, S1|by rewrite C2, C1|done|].
  cbn [mbind option_bind negb]. rewrite (proj2 (Z.eqb_neq (strlen msg) 0)).
  2: { unfold strlen. destruct msg; [done|]. cbn. lia. }
  cbn [negb]. unfold send_stream_trailers.
  change (encode_headers 64 [grpc_status "0"] []) with (Some trailer_block).
  destruct (write_emits (mk_frame H2_F_HEADERS (Z.lor H2_FLAG_END_STREAM H2_FLAG_END_HEADERS) stream trailer_block) c3)
    as (c4 & Hwr & E4); [apply small_block_ok; [vm_compute; split; congruence..|done|vm_compute; reflexivity]|apply E3|].
  cbn [pf_type pf_flags pf_stream pf_payload] in Hwr. rewrite Hwr.
  exists c4, (data_frame 0 stream (grpc_prefix (strlen msg)) :: fs). split_and!; [done|by constructor| |].
  - change (grpc_prefix (strlen msg) ++ data_of fs = grpc_bytes msg). by rewrite Hd.
  - destruct (sends_trans _ _ _ _ _ (sends_trans _ _ _ _ _ (sends_trans _ _ _ _ _ E1 E2) E3) E4) as (_ & -> & _).
    by rewrite <- !app_assoc.
Qed.

(** ** Frames of other streams *)

Lemma push_granted f c : hc_heap c = [] -> pending_push f c = set_pending (f :: hc_pending c) [] c.
Proof. intros Hm. unfold pending_push. rewrite Hm. cbn. by destruct (bool_decide (pf_payload f = [])). Qed.

Lemma pop_parked f c :
  frame_ok f -> hc_heap c = [] -> hc_pending c = [f] -> recv_frame c = (RxFrame f, set_pending [] [] c).
Proof.
  intros Hf Hm Hp. rewrite (recv_frame_pop c f [] Hp); [by rewrite Hm|].
  pose proof (fk_len f Hf). unfold strlen in *. lia.
Qed.

Lemma send_parked_spins fuel stream data f c :
  frame_ok f -> (pf_type f = H2_F_DATA \/ pf_type f = H2_F_HEADERS) -> pf_stream f <> stream ->
  hc_heap c = [] -> hc_pending c = [f] -> send_budget stream c <= 0 -> data <> [] ->
  send_data_windowed fuel stream data c = None.
Proof.
  intros Hf Ht Hs Hm Hp Hb Hd. revert c Hm Hp Hb.
  induction fuel as [|fuel IH]; intros c Hm Hp Hb; (destruct data as [|b data]; [done|]); [done|].
  cbn [send_data_windowed]. rewrite (proj2 (Z.leb_le _ _) Hb), (pop_parked f c Hf Hm Hp).
  assert (park stream f (set_pending [] [] c) = set_pending [f] [] c) as ->.
  { unfold park. rewrite (proj2 (Z.eqb_neq _ _) Hs), push_granted by done. by destruct Ht as [-> | ->]. }
  by apply IH.
Qed.

Lemma read_parked_spins fuel cap stream g f c :
  frame_ok f -> pf_type f = H2_F_DATA -> pf_stream f <> stream ->
  hc_heap c = [] -> hc_pending c = [f] -> read_loop fuel cap stream g c = None.
Proof.
  intros Hf Ht Hs Hm Hp. revert c Hm Hp. induction fuel as [|fuel IH]; intros c Hm Hp; [done|].
  cbn [read_loop]. rewrite (pop_parked f c Hf Hm Hp), Ht, (proj2 (Z.eqb_neq _ _) Hs), push_granted by done.
  by apply IH.
Qed.

(** Two active streams hang the connection: when a DATA frame of another
    stream arrives while a request is read, or a DATA or HEADERS frame of
    another stream while a response waits for a window, the loop takes the
    parked frame out and parks it again, and never reads the socket again;
    whatever the peer sends afterwards, no number of turns ends it. *)
Theorem parked_frame_livelock f rest stream data g cap c :
  frame_ok f -> pf_stream f <> stream -> hc_heap c = [] -> hc_pending c = [] ->
  wire (hc_in c) = frame_bytes f ++ rest ->
  (pf_type f = H2_F_DATA -> forall fuel, read_loop fuel cap stream g c = None) /\
  (pf_type f = H2_F_DATA \/ pf_type f = H2_F_HEADERS -> send_budget stream c <= 0 -> data <> [] ->
   forall fuel, send_data_windowed fuel stream data c = None).
Proof.
  intros Hf Hs Hm Hp Hw. destruct (recv_frame_next c f rest Hp Hf Hw) as (net & _ & Hr).
  assert (Hframe : pf_type f = H2_F_DATA \/ pf_type f = H2_F_HEADERS -> recv_frame c = (RxFrame f, set_in net c)).
  { intros Ht. rewrite Hr. unfold silent. by destruct Ht as [-> | ->]. }
  split.
  - intros Ht [|fuel]; [done|]. cbn [read_loop]. rewrite Hframe, Ht, (proj2 (Z.eqb_neq _ _) Hs) by (by left).
    rewrite push_granted by done. apply (read_parked_spins _ _ _ _ f); try done. cbn. by rewrite Hp.
  - intros Ht Hb Hd [|fuel]; (destruct data as [|b data]; [done|]); [done|].
    cbn [send_data_windowed]. rewrite (proj2 (Z.leb_le _ _) Hb), (Hframe Ht).
    assert (park stream f (set_in net c) = set_pending [f] [] (set_in net c)) as ->.
    { unfold park. rewrite (proj2 (Z.eqb_neq _ _) Hs), push_granted by done. cbn [hc_pending set_in].
      rewrite Hp. by destruct Ht as [-> | ->]. }
    by apply (send_parked_spins _ _ _ f).
Qed.

(** ** Examples *)

Definition demo_conn (net : list rx) : h2_conn_t :=
  mk_conn net [] [] [] hpack_dyn_init H2_DEFAULT_WINDOW (replicate 64 H2_DEFAULT_WINDOW) H2_DEFAULT_WINDOW [].

Definition no_window (net : list rx) : h2_conn_t :=
  mk_conn net [] [] [] hpack_dyn_init 0 (replicate 64 0) 0 [].

Definition demo_ping : pending_frame_t := mk_frame H2_F_PING 0 0 [1; 2; 3; 4; 5; 6; 7; 8].

Lemma demo_ping_ok : frame_ok demo_ping.
Proof.
  split; [..|apply (bool_decide_unpack _); vm_compute; exact I]; vm_compute; try split; (discriminate || reflexivity).
Qed.

Lemma demo_data_ok stream p : is_u32 stream -> bytes_ok p -> (length p <= 100)%nat -> frame_ok (data_frame 0 stream p).
Proof.
  intros Hs Hb Hl. split; cbn [data_frame pf_type pf_flags pf_stream pf_payload];
    [unfold is_byte, H2_F_DATA; lia|unfold is_byte; lia|done| |done].
  unfold strlen, H2_MAX_FRAME_LEN. lia.
Qed.

(** "hi" in two DATA frames with a PING between them, cut into odd pieces. *)
Definition demo_segs : list segment := [([], [0; 0; 0])].
Definition demo_last : segment := ([demo_ping], [0; 2; 104; 105]).
Definition demo_stream : bytes := seg_bytes 5 0 ([], [0; 0; 0]) ++ seg_bytes 5 0 demo_last.

Lemma grpc_message_reassembled_witness :
  exists c', read_grpc_message 3 MAX_MSG 5
    (demo_conn [RxData (take 4 demo_stream); RxIntr; RxData (drop 4 demo_stream)]) = Some (GrpcMsg [104; 105], c').
Proof.
  assert (H5 : is_u32 5) by (unfold is_u32; lia).
  destruct (grpc_message_reassembled MAX_MSG 5 [104; 105] demo_segs demo_last 0 []
    (demo_conn [RxData (take 4 demo_stream); RxIntr; RxData (drop 4 demo_stream)]) 3) as (c' & Hr & _ & _).
  - vm_compute. discriminate.
  - reflexivity.
  - constructor; [|constructor]. split; [constructor|constructor|]. apply demo_data_ok; [exact H5| |cbn; lia].
    apply (bool_decide_unpack _); vm_compute; exact I.
  - split; cbn [demo_last fst snd].
    + constructor; [exact demo_ping_ok|constructor].
    + constructor; [reflexivity|constructor].
    + apply demo_data_ok; [exact H5| |cbn; lia].
      apply (bool_decide_unpack _); vm_compute; exact I.
  - discriminate.
  - vm_compute. reflexivity.
  - reflexivity.
  - vm_compute. reflexivity.
  - vm_compute. lia.
  - exists c'. exact Hr.
Defined.

Definition demo_grant (stream n : Z) : pending_frame_t := mk_frame H2_F_WINDOW 0 stream [0; 0; 0; n].

Definition demo_grants : list pending_frame_t := [demo_ping; demo_grant 0 2; demo_grant 5 8; demo_grant 0 9].

Definition demo_blocked : h2_conn_t := no_window [RxData (frames_bytes demo_grants)].

Lemma grpc_send_within_windows_witness :
  exists c' tr, send_data_windowed 8 5 [1; 2; 3] demo_blocked = Some (true, c') /\
    data_of (puts tr) = [1; 2; 3] /\ flow_run 5 (0, 0) tr = Some (hc_conn_window c', slot c' 5) /\
    hc_conn_window c' = 8 /\ slot c' 5 = 5.
Proof.
  destruct (grpc_send_within_windows 8 5 [1; 2; 3] demo_grants demo_blocked)
    as (ok & c' & tr & Hs & _ & _ & _ & (u & Hu & Hok) & Hf).
  - reflexivity.
  - unfold demo_grants. constructor; [exact demo_ping_ok|].
    repeat (constructor; [split; [..|apply (bool_decide_unpack _); vm_compute; exact I];
      vm_compute; try split; (discriminate || reflexivity)|]). constructor.
  - unfold demo_grants. repeat (constructor; [reflexivity|]). constructor.
  - vm_compute. reflexivity.
  - reflexivity.
  - split; [cbn; lia|reflexivity|]. cbn [demo_blocked no_window hc_stream_window]. apply Forall_replicate. lia.
  - unfold is_u32. lia.
  - apply (bool_decide_unpack _); vm_compute; exact I.
  - cbn. lia.
  - assert (Hq : (fun r => (r.1, hc_conn_window r.2, slot r.2 5)) <$> send_data_windowed 8 5 [1; 2; 3] demo_blocked
        = Some (true, 8, 5)) by (vm_compute; reflexivity).
    rewrite Hs in Hq. cbn [fmap option_fmap option_map fst snd] in Hq. injection Hq as -> Hc Hsl.
    destruct Hok as [Hok _]. rewrite (Hok eq_refl), app_nil_r in Hu.
    exists c', tr. split; [exact Hs|]. split; [symmetry; exact Hu|]. split; [apply (Hf 5%nat); lia|]. split; assumption.
Defined.

Lemma grpc_response_exact_witness :
  exists c' fs, send_grpc_response 3 5 [1; 2] (demo_conn []) = Some (true, c') /\ data_of fs = [0; 0; 0; 0; 2; 1; 2].
Proof.
  destruct (grpc_response_exact 3 5 [1; 2] (demo_conn [])) as (c' & fs & Hs & _ & Hd & _).
  - reflexivity.
  - split; [vm_compute; discriminate|reflexivity|apply Forall_replicate; vm_compute; discriminate].
  - unfold is_u32. lia.
  - apply (bool_decide_unpack _). vm_compute. exact I.
  - discriminate.
  - reflexivity.
  - vm_compute. discriminate.
  - vm_compute. discriminate.
  - cbn. lia.
  - exists c', fs. split; [exact Hs|exact Hd].
Defined.

Lemma parked_frame_livelock_witness :
  forall fuel, send_data_windowed fuel 5 [1]
    (no_window [RxData (frame_bytes (data_frame 0 7 [9]) ++ frame_bytes (mk_frame H2_F_WINDOW 0 0 [0; 0; 1; 0]))]) = None.
Proof.
  refine (proj2 (parked_frame_livelock (data_frame 0 7 [9])
    (frame_bytes (mk_frame H2_F_WINDOW 0 0 [0; 0; 1; 0])) 5 [1] (mk_rd [] None []) 0 _ _ _ _ _ _) _ _ _).
  - apply demo_data_ok; [unfold is_u32; lia| |cbn; lia].
    apply (bool_decide_unpack _); vm_compute; exact I.
  - discriminate.
  - reflexivity.
  - reflexivity.
  - vm_compute. reflexivity.
  - left. reflexivity.
  - vm_compute. discriminate.
  - discriminate.
Defined.

(** ** Limits *)

(** A stream that ends early is taken for a complete message. *)
Lemma truncated_message_accepted :
  fst <$> read_grpc_message 3 MAX_MSG 5
    (demo_conn [RxData (frame_bytes (data_frame H2_FLAG_END_STREAM 5 (grpc_prefix 100 ++ [1; 2])))])
  = Some (GrpcMsg [1; 2]).
Proof. vm_compute. reflexivity. Qed.

(** The prefix of a message is sent without a window. *)
Lemma prefix_ignores_window :
  exists c', send_stream_message 1 5 [] (no_window []) = Some (true, c') /\
    hc_out c' = frame_bytes (data_frame 0 5 (grpc_prefix 0)) /\ hc_conn_window c' = 0.
Proof. eexists. split; [vm_compute; reflexivity|]. split; vm_compute; reflexivity. Qed.

(** An empty response ends its stream and then sends trailers on it. *)
Lemma empty_response_ends_twice :
  exists c' h t, send_grpc_response 1 5 [] (demo_conn []) = Some (true, c') /\
    hc_out c' = frames_bytes [mk_frame H2_F_HEADERS H2_FLAG_END_HEADERS 5 h; data_frame 0 5 (grpc_prefix 0);
                              data_frame H2_FLAG_END_STREAM 5 [];
                              mk_frame H2_F_HEADERS (Z.lor H2_FLAG_END_STREAM H2_FLAG_END_HEADERS) 5 t].
Proof.
  eexists. exists (default [] (encode_headers 128 [status_200; grpc_type] [])),
    (default [] (encode_headers 64 [grpc_status "0"] [])).
  split; vm_compute; reflexivity.
Qed.
