(* ===== verification/GnmiServer.v ===== *)
(** * The gNMI request handlers: danos-mgmt gnmi_grpc.c, Capabilities, Get and Set

    A handler takes the bytes of a request and returns the integer the C
    function returns together with the bytes it wrote to the response buffer.
    A dereferenced null pointer, or a write past an array, is [Fault].  The
    state is the transaction manager and the core library. *)

From stdpp Require Import base decidable list numbers strings.
From Stdlib Require Import ZArith Lia.
From S2P Require Import Prelude Dpa Backends ObjectStore Wal EventBus Registry Persist DpaObjects.
From S2P Require Import Transaction StateStore Pipeline Zapi ZapiMapper CStr Proto ProtoCodec.
From S2P Require Import ModelRoutes ModelPaths.

(** The codes a handler returns as [-(int)status]. *)
Definition status_int (st : danos_status) : Z :=
  match st with
  | DANOS_OK => 0
  | DANOS_ERR_INVALID_ARG => 1 | DANOS_ERR_NOT_FOUND => 2 | DANOS_ERR_EXISTS => 3
  | DANOS_ERR_NO_MEMORY => 4 | DANOS_ERR_NO_CAPACITY => 5 | DANOS_ERR_NOT_SUPPORTED => 6
  | DANOS_ERR_RETRY => 7 | DANOS_ERR_PERMISSION => 8
  | DANOS_ERR_TX_CONFLICT => 10 | DANOS_ERR_TX_TIMEOUT => 11 | DANOS_ERR_TX_ABORTED => 12
  | DANOS_ERR_TX_ROLLBACK => 13 | DANOS_ERR_TX_INVALID => 14
  | DANOS_ERR_BACKEND_DOWN => 20 | DANOS_ERR_BACKEND_BUSY => 21 | DANOS_ERR_BACKEND_IO => 22
  | DANOS_ERR_VERIFY_FAIL => 30 | DANOS_ERR_PARTIAL => 31
  | DANOS_ERR_VERSION => 40 | DANOS_ERR_CAPABILITY => 41
  | DANOS_ERR_INTERNAL => 99
  end.

(** ** Reading objects *)

Definition qt (s : bytes) : bytes := [34] ++ s ++ [34].
Definition jkey (s : string) : bytes := qt (lit s) ++ lit ":".

(** [snprintf(out, cap, "...")]. *)
Definition obj_to_json (type : danos_obj_type) (data : bytes) (cap : nat) : bytes :=
  take (cap - 1)
    match type with
    | DANOS_OBJ_IFACE =>
        if (length data <? sizeof danos_iface)%nat then lit "{}" else
        let i : danos_iface := of_mem data in
        lit "{" ++ jkey "ifindex" ++ dec (iface_ifindex i) ++
        lit "," ++ jkey "name" ++ qt (c_str (iface_name i)) ++
        lit "," ++ jkey "mtu" ++ dec (iface_mtu i) ++
        lit "," ++ jkey "admin_up" ++ (if iface_admin_up i then lit "true" else lit "false") ++ lit "}"
    | DANOS_OBJ_ROUTE =>
        if (length data <? sizeof danos_route)%nat then lit "{}" else
        let r : danos_route := of_mem data in
        lit "{" ++ jkey "prefix" ++ qt (print_prefix (rt_prefix r)) ++
        lit "," ++ jkey "vrf" ++ dec (rt_vrf_id r) ++ lit "}"
    | DANOS_OBJ_VRF =>
        if (length data <? sizeof danos_vrf)%nat then lit "{}" else
        let v : danos_vrf := of_mem data in
        lit "{" ++ jkey "vrf_id" ++ dec (vrf_vrf_id v) ++
        lit "," ++ jkey "name" ++ qt (c_str (vrf_name v)) ++ lit "}"
    | _ => lit "{}"
    end.

(** The elements collected so far, each of [size] bytes. *)
Definition collect_cb (type : danos_obj_type) (size max : nat) (out : list bytes) (e : danos_object_entry)
    : list bytes :=
  if negb (bool_decide (e_type e = type)) || (max <=? length out)%nat then out
  else out ++ [take size (e_data e) ++ zeros (size - length (e_data e))].

(** The desired store of [ss], or the default store. *)
Definition source_store (ss : option danos_state_store) (c : core) : option danos_object_store :=
  match ss ≫= ss_desired with
  | Some h => c_stores c !! h
  | None => default_entries c
  end.

Definition collect_objects (ss : option danos_state_store) (type : danos_obj_type) (size max : nat) (c : core)
    : list bytes :=
  danos_object_iterate (source_store ss c) (collect_cb type size max) [].

Definition collect_ifaces (ss : option danos_state_store) (max : nat) (c : core) : list danos_iface :=
  of_mem <$> collect_objects ss DANOS_OBJ_IFACE (sizeof danos_iface) max c.
Definition collect_vrfs (ss : option danos_state_store) (max : nat) (c : core) : list danos_vrf :=
  of_mem <$> collect_objects ss DANOS_OBJ_VRF (sizeof danos_vrf) max c.
Definition collect_routes (ss : option danos_state_store) (max : nat) (c : core) : list danos_route :=
  of_mem <$> collect_objects ss DANOS_OBJ_ROUTE (sizeof danos_route) max c.

(** One [Update] of a notification. *)
Definition put_update (p : gnmi_path_t) (v : gnmi_typed_value_t) (w : gnmi_pb_t) : gnmi_pb_t :=
  pb_nested 4 (fun w => gnmi_encode_typed_value (gnmi_encode_path w 1 (Some p)) 3 (Some v)) w.

Definition put_json (p : gnmi_path_t) (w : gnmi_pb_t) (json : bytes) : gnmi_pb_t :=
  put_update p (mk_val GNMI_VAL_JSON_IETF (take 255 json) 0 0 false) w.

(** [p->elems[1]] for a path that may be shorter. *)
Definition elem1 (p : gnmi_path_t) : gnmi_path_elem_t :=
  default (mk_elem [] false [] []) (p_elems p !! 1%nat).
Definition top (p : gnmi_path_t) : bytes := default [] (pe_name <$> (p_elems p !! 0%nat)).

(** The interfaces an entry or list path selects. *)
Definition select_ifaces (p : gnmi_path_t) (ifs : list danos_iface) : list danos_iface :=
  filter (fun i => negb ((2 <=? length (p_elems p))%nat && pe_has_key (elem1 p)) ||
                   bool_decide (pe_key_value (elem1 p) = c_str (iface_name i))) ifs.

(** The updates of one path of a subscription. *)
Definition notify_path (c : core) (w : gnmi_pb_t) (p : gnmi_path_t) : gnmi_pb_t :=
  if bool_decide (p_elems p = []) then w
  else if streq (top p) "interfaces" then
    pb_each (put_json p) ((fun i : danos_iface => obj_to_json DANOS_OBJ_IFACE (to_mem i) 256) <$>
                          select_ifaces p (collect_ifaces None 64 c)) w
  else if streq (top p) "vrfs" then
    pb_each (put_json p) ((fun v : danos_vrf => obj_to_json DANOS_OBJ_VRF (to_mem v) 256) <$>
                          collect_vrfs None 16 c) w
  else if streq (top p) "routes" then
    pb_each (put_json p) ((fun r : danos_route => obj_to_json DANOS_OBJ_ROUTE (to_mem r) 256) <$>
                          collect_routes None 32 c) w
  else w.

(** [None] is [-1], the buffer was too small. *)
Definition build_notification_for_paths (now : Z) (paths : list gnmi_path_t) (cap : Z) (c : core)
    : option bytes :=
  let w := gnmi_pb_put_uint64 (gnmi_pb_init cap) 1 now in
  let w := foldl (notify_path c) w paths in
  if w_overflow w then None else Some (w_data w).

(** ** Capabilities and Get *)

Definition gnmi_handle_capabilities (cap : Z) : Z * bytes :=
  let ver := danos_dpa_get_version in
  let vstr := lit "DANOS-Open DPA " ++ dec (ver_major ver) ++ lit "." ++ dec (ver_minor ver) ++
              lit "." ++ dec (ver_patch ver) in
  let '(_, w) := gnmi_encode_capabilities_response (gnmi_pb_init cap) gnmi_model_supported_models
                   [0; 4] (take 47 vstr) in
  (if w_overflow w then -1 else w_len w, w_data w).

(** A request has fewer than [2 ^ 18] bytes, and a decoder needs one turn for
    each byte at most. *)
Definition DECODE_FUEL : nat := Z.to_nat (2 ^ 20).

Lemma decode_fuel : Z.of_nat DECODE_FUEL = 2 ^ 20.
Proof. apply Z2Nat.id. lia. Qed.

#[global] Opaque DECODE_FUEL.

Section handlers.
Context `{L : inet6_lib}.

(** The object a leaf belongs to; [None] when there is none. *)
Definition leaf_object (ss : option danos_state_store) (type : danos_obj_type) (p : gnmi_path_t) (c : core)
    : option bytes :=
  match type with
  | DANOS_OBJ_IFACE =>
      i ← list_find (fun i => c_str (iface_name i) = pe_key_value (elem1 p)) (collect_ifaces ss 1024 c);
      Some (to_mem i.2)
  | DANOS_OBJ_VRF =>
      v ← list_find (fun v => vrf_vrf_id v = fst (strtoul (pe_key_value (elem1 p)))) (collect_vrfs ss 64 c);
      Some (to_mem v.2)
  | _ => None
  end.

(** The routes an entry or list path selects. *)
Definition select_routes (p : gnmi_path_t) (rs : list danos_route) : list danos_route :=
  filter (fun r => negb ((2 <=? length (p_elems p))%nat && pe_has_key (elem1 p)) ||
                   ((ip_af (pfx_addr (rt_prefix r)) =? DANOS_AF_IPV4) &&
                    bool_decide (print_prefix (rt_prefix r) = take 63 (pe_key_value (elem1 p))))) rs.

(** One path of a Get: the writer, or the code the handler returns at once. *)
Definition get_path (ss : option danos_state_store) (c : core) (w : gnmi_pb_t) (p : gnmi_path_t)
    : Z * gnmi_pb_t + gnmi_pb_t :=
  match gnmi_model_resolve (Some p) with
  | None => inl (- status_int DANOS_ERR_NOT_FOUND, w)
  | Some mb =>
      if bool_decide (p_elems p = []) then inr w
      else if bool_decide (mb_kind mb = GNMI_MODEL_LEAF) then
        match leaf_object ss (mb_obj_type mb) p c with
        | None => inl (status_int DANOS_ERR_NOT_FOUND, w)
        | Some obj =>
            match gnmi_model_read_leaf (mb_obj_type mb) (mb_field mb) obj with
            | (DANOS_OK, lv) => inr (put_update p lv w)
            | _ => inl (status_int DANOS_ERR_INVALID_ARG, w)
            end
        end
      else if streq (top p) "interfaces" then
        inr (pb_each (put_json p) ((fun i : danos_iface => obj_to_json DANOS_OBJ_IFACE (to_mem i) 256) <$>
                                   select_ifaces p (collect_ifaces ss 1024 c)) w)
      else if streq (top p) "vrfs" then
        inr (pb_each (put_json p) ((fun v : danos_vrf => obj_to_json DANOS_OBJ_VRF (to_mem v) 256) <$>
                                   collect_vrfs ss 16 c) w)
      else if streq (top p) "routes" then
        inr (pb_each (put_json p) ((fun r => gnmi_route_to_json r 256 c) <$>
                                   select_routes p (collect_routes ss 32 c)) w)
      else inr w
  end.

Fixpoint get_paths (ss : option danos_state_store) (c : core) (paths : list gnmi_path_t) (w : gnmi_pb_t)
    : Z * gnmi_pb_t + gnmi_pb_t :=
  match paths with
  | [] => inr w
  | p :: paths =>
      match get_path ss c w p with
      | inl r => inl r
      | inr w => get_paths ss c paths w
      end
  end.

Definition gnmi_handle_get (ss : option danos_state_store) (now : Z) (req : bytes) (cap : Z) (c : core)
    : outcome (Z * bytes) :=
  gr ← gnmi_decode_get_request DECODE_FUEL req (strlen req);
  match gr with
  | None => Ret (-1, [])
  | Some gr =>
      let '(saved, w) := gnmi_pb_begin_nested (gnmi_pb_init cap) 1 in
      let w := gnmi_pb_put_uint64 w 1 now in
      match get_paths ss c (g_paths gr) w with
      | inl (code, w) => Ret (code, w_data w)
      | inr w =>
          let w := gnmi_pb_end_nested w saved in
          Ret (if w_overflow w then -1 else w_len w, w_data w)
      end
  end.

(** ** The JSON of a Set *)

Definition json_find (body : bytes) (key : string) : option bytes :=
  p ← strstr body (lit key); p ← strchr p 58; Some (drop 1 p).

Definition json_get_str (body : bytes) (key : string) (cap : nat) : option bytes :=
  p ← strstr body (lit key); p ← strchr p 58; p ← strchr p 34;
  Some (fst (until_quote (cap - 1) (drop 1 p))).

Fixpoint skip_blanks (s : bytes) : bytes :=
  match s with c :: s' => if c =? 32 then skip_blanks s' else s | [] => [] end.

Definition json_get_uint (body : bytes) (key : string) : option Z :=
  p ← json_find body key; Some (u32 (fst (strtoul (skip_blanks p)))).

Fixpoint skip_separators (s : bytes) : bytes :=
  match s with c :: s' => if (c =? 32) || (c =? 44) then skip_separators s' else s | [] => [] end.

(** [n < 64] bounds the loop: [k] is [64 - n]. *)
Fixpoint ipv4_items (k : nat) (p : bytes) (out : list danos_ip_addr) : option (list danos_ip_addr) :=
  let stop := match p with
              | c :: _ => if (c =? 93) && negb (length out =? 0)%nat then Some out else None
              | [] => None
              end in
  match k, p with
  | S k, c :: _ =>
      if c =? 93 then stop else
      match skip_separators p with
      | q :: p =>
          if negb (q =? 34) then None else
          let '(ip, r) := until_quote 63 p in
          match r, gnmi_parse_ipv4 (Some ip) with
          | q :: r, (DANOS_OK, Some a) => if q =? 34 then ipv4_items k r (out ++ [a]) else None
          | _, _ => None
          end
      | [] => None
      end
  | _, _ => stop
  end.

Definition json_get_ipv4_array (body : bytes) (key : string) : option (list danos_ip_addr) :=
  p ← strstr body (lit key); p ← strchr p 91; ipv4_items 64 (drop 1 p) [].

(** ** Set *)

(** [/routes/route[prefix=X]]. *)
Definition is_route_path (p : gnmi_path_t) : bool :=
  match p_elems p with
  | [a; b] => streq (pe_name a) "routes" && streq (pe_name b) "route" && pe_has_key b
  | _ => false
  end.

Definition is_json (k : gnmi_val_kind_t) : bool :=
  bool_decide (k = GNMI_VAL_JSON) || bool_decide (k = GNMI_VAL_JSON_IETF).

Definition set_route (e : tx_env) (u : gnmi_update_t) (w : mworld) : danos_status * mworld :=
  match gnmi_parse_prefix (Some (pe_key_value (elem1 (u_path u)))) with
  | (DANOS_OK, Some prefix) =>
      if negb (is_json (v_kind (u_val u))) then (DANOS_ERR_INVALID_ARG, w) else
      let body := v_s (u_val u) in
      let oif := default 0 (json_get_uint body "oif") in
      let vrf := default 0 (json_get_uint body "vrf") in
      match json_get_ipv4_array body "gateways" with
      | Some gateways => gnmi_route_set_ecmp e vrf (Some prefix) ((fun g => (g, oif)) <$> gateways) w
      | None =>
          match json_get_str body "gateway" 64 with
          | None => (DANOS_ERR_INVALID_ARG, w)
          | Some gwbuf =>
              match gnmi_parse_ipv4 (Some gwbuf) with
              | (DANOS_OK, gw) => gnmi_route_set e vrf (Some prefix) gw oif w
              | (st, _) => (st, w)
              end
          end
      end
  | (st, _) => (st, w)
  end.

(** The store [ss->desired], or the default store. *)
Definition target_store (ss : option danos_state_store) (c : core) : option Z :=
  match ss ≫= ss_desired with Some h => Some h | None => g_default_store c end.

(** A leaf: read, modify and write the interface of that name. *)
Definition set_leaf (ss : option danos_state_store) (mb : gnmi_model_binding_t) (u : gnmi_update_t) (w : mworld)
    : danos_status * mworld :=
  if negb (mb_config_tree mb) then (DANOS_ERR_INVALID_ARG, w) else
  let c := mw_core w in
  match list_find (fun i => c_str (iface_name i) = pe_key_value (elem1 (u_path u))) (collect_ifaces ss 1024 c) with
  | None => (DANOS_ERR_NOT_FOUND, w)
  | Some (_, target) =>
      match gnmi_model_apply_leaf DANOS_OBJ_IFACE (mb_field mb) (Some (to_mem target)) (Some (u_val u)) with
      | None => (DANOS_ERR_INVALID_ARG, w)
      | Some m =>
          let '(st, c) := danos_object_update (target_store ss c) DANOS_OBJ_IFACE (iface_ifindex target) (Some m) c in
          (st, mk_mworld (mw_tx w) c)
      end
  end.

(** The index of a new interface: the number its name starts with, or the
    first one above those that were collected. *)
Definition iface_index (ss : option danos_state_store) (ifname : bytes) (c : core) : Z :=
  let idx := u32 (fst (strtoul ifname)) in
  if (idx =? 0) && negb (bool_decide (head ifname = Some 48)) then
    u32 (foldl (fun idx i => if idx <=? iface_ifindex i then iface_ifindex i else idx) idx
           (collect_ifaces ss 64 c) + 1)
  else idx.

Definition new_iface (ss : option danos_state_store) (u : gnmi_update_t) (c : core) : danos_iface :=
  let ifname := pe_key_value (elem1 (u_path u)) in
  let name := take 63 ifname in
  let json key := if is_json (v_kind (u_val u)) then json_get_uint (v_s (u_val u)) key else None in
  mk_iface (iface_index ss ifname c) (name ++ zeros (64 - length name)) 0
    (match json "mtu"%string with Some mtu => u16 mtu | None => 1500 end) (zeros 6)
    (match json "admin_up"%string with Some up => negb (up =? 0) | None => true end) false 0 0 0
    (mk_ip_prefix (mk_ip_addr 0 (zeros 16)) 0) (mk_ip_prefix (mk_ip_addr 0 (zeros 16)) 0).

Definition set_iface (e : tx_env) (ss : option danos_state_store) (u : gnmi_update_t) (w : mworld)
    : danos_status * mworld :=
  let iface := new_iface ss u (mw_core w) in
  let '(st, tx, w) := begin_tx e "gnmi-grpc" w in
  if negb (bool_decide (st = DANOS_OK)) then (DANOS_ERR_BACKEND_IO, w) else
  let '(st, c) := danos_iface_create (Some iface) (mw_core w) in
  tx_finish e st tx (mk_mworld (mw_tx w) c).

Definition set_update (e : tx_env) (ss : option danos_state_store) (u : gnmi_update_t) (w : mworld)
    : danos_status * mworld :=
  let p := u_path u in
  if is_route_path p then set_route e u w else
  match gnmi_model_resolve (Some p) with
  | Some mb =>
      if bool_decide (mb_kind mb = GNMI_MODEL_LEAF) then set_leaf ss mb u w
      else if (length (p_elems p) <? 2)%nat || negb (streq (top p) "interfaces") ||
              negb (streq (pe_name (elem1 p)) "interface") || negb (pe_has_key (elem1 p))
           then (DANOS_ERR_INVALID_ARG, w) else set_iface e ss u w
  | None =>
      if (length (p_elems p) <? 2)%nat || negb (streq (top p) "interfaces") ||
         negb (streq (pe_name (elem1 p)) "interface") || negb (pe_has_key (elem1 p))
      then (DANOS_ERR_INVALID_ARG, w) else set_iface e ss u w
  end.

(** [ss->desired]: a fault when there is no state store. *)
Definition desired_of (ss : option danos_state_store) : outcome (option Z) :=
  match ss with Some ss => Ret (ss_desired ss) | None => Fault end.

Definition find_iface (ss : option danos_state_store) (max : nat) (p : gnmi_path_t) (c : core) : option danos_iface :=
  snd <$> list_find (fun i => c_str (iface_name i) = pe_key_value (elem1 p)) (collect_ifaces ss max c).

(** The interface without its address of one family. *)
Definition clear_address (f : gnmi_model_field_t) (i : danos_iface) : danos_iface :=
  let zero := mk_ip_prefix (mk_ip_addr 0 (zeros 16)) 0 in
  let v4 := bool_decide (f = GNMI_FIELD_IPV4_ADDRESS) in
  mk_iface (iface_ifindex i) (iface_name i) (iface_type i) (iface_mtu i) (iface_mac i)
    (iface_admin_up i) (iface_link_up i) (iface_parent_ifindex i) (iface_outer_vlan i)
    (iface_inner_vlan i) (if v4 then zero else iface_ipv4_address i)
    (if v4 then iface_ipv6_address i else zero).

Definition delete_leaf (ss : option danos_state_store) (p : gnmi_path_t) (w : mworld)
    : outcome (danos_status * mworld) :=
  match gnmi_model_resolve (Some p) with
  | Some mb =>
      if negb (bool_decide (mb_kind mb = GNMI_MODEL_LEAF)) || negb (mb_config_tree mb) ||
         (negb (bool_decide (mb_field mb = GNMI_FIELD_IPV4_ADDRESS)) &&
          negb (bool_decide (mb_field mb = GNMI_FIELD_IPV6_ADDRESS)))
      then Ret (DANOS_ERR_INVALID_ARG, w) else
      match find_iface ss 16 p (mw_core w) with
      | None => Ret (DANOS_ERR_NOT_FOUND, w)
      | Some i =>
          h ← desired_of ss;
          let i := clear_address (mb_field mb) i in
          let '(st, c) := danos_object_update h DANOS_OBJ_IFACE (iface_ifindex i) (Some (to_mem i)) (mw_core w) in
          Ret (st, mk_mworld (mw_tx w) c)
      end
  | None => Ret (DANOS_ERR_INVALID_ARG, w)
  end.

Definition delete_iface (ss : option danos_state_store) (p : gnmi_path_t) (w : mworld)
    : outcome (danos_status * mworld) :=
  match find_iface ss 16 p (mw_core w) with
  | None => Ret (DANOS_ERR_NOT_FOUND, w)
  | Some i =>
      h ← desired_of ss;
      let '(_, c) := danos_object_delete h DANOS_OBJ_IFACE (iface_ifindex i) (mw_core w) in
      Ret (DANOS_OK, mk_mworld (mw_tx w) c)
  end.

Definition set_delete (e : tx_env) (ss : option danos_state_store) (p : gnmi_path_t) (w : mworld)
    : outcome (danos_status * mworld) :=
  if is_route_path p then
    match gnmi_parse_prefix (Some (pe_key_value (elem1 p))) with
    | (DANOS_OK, prefix) => Ret (gnmi_route_delete e 0 prefix w)
    | (st, _) => Ret (st, w)
    end
  else if (length (p_elems p) <? 2)%nat || negb (streq (top p) "interfaces") || negb (pe_has_key (elem1 p))
  then Ret (DANOS_ERR_INVALID_ARG, w)
  else if (2 <? length (p_elems p))%nat then delete_leaf ss p w
  else delete_iface ss p w.

Definition GNMI_OP_UPDATE : Z := 3.
Definition GNMI_OP_DELETE : Z := 1.

(** [out.result_paths[out.result_count++] = path]: the arrays have sixteen
    elements. *)
Definition push_result (rs : list (gnmi_path_t * Z)) (r : gnmi_path_t * Z) : outcome (list (gnmi_path_t * Z)) :=
  if (GNMI_MAX_UPDATES <=? length rs)%nat then Fault else Ret (rs ++ [r]).

(** Both loops stop at the first status that is not OK; [es] gives the
    environment of each operation. *)
Fixpoint set_loop {A} (step : tx_env -> A -> mworld -> outcome (danos_status * mworld)) (path : A -> gnmi_path_t)
    (op : Z) (es : nat -> tx_env) (i : nat) (xs : list A) (rs : list (gnmi_path_t * Z)) (w : mworld)
    : outcome (danos_status * list (gnmi_path_t * Z) * mworld) :=
  match xs with
  | [] => Ret (DANOS_OK, rs, w)
  | x :: xs =>
      '(st, w) ← step (es i) x w;
      if negb (bool_decide (st = DANOS_OK)) then Ret (st, rs, w) else
      rs ← push_result rs (path x, op);
      set_loop step path op es (S i) xs rs w
  end.

Definition gnmi_handle_set (ss : option danos_state_store) (now : Z) (es : nat -> tx_env) (req : bytes) (cap : Z)
    (w : mworld) : outcome (Z * bytes * mworld) :=
  sr ← gnmi_decode_set_request DECODE_FUEL req (strlen req);
  match sr with
  | None => Ret (-1, [], w)
  | Some sr =>
      '(st, rs, w) ← set_loop (fun e u w => Ret (set_update e ss u w)) u_path GNMI_OP_UPDATE es 0 (s_updates sr) [] w;
      if negb (bool_decide (st = DANOS_OK)) then Ret (- status_int st, [], w) else
      '(st, rs, w) ← set_loop (fun e p w => set_delete e ss p w) (fun p => p) GNMI_OP_DELETE es
                       (length (s_updates sr)) (s_deletes sr) rs w;
      if negb (bool_decide (st = DANOS_OK)) then Ret (- status_int st, [], w) else
      let '(ok, pb) := gnmi_encode_set_response (gnmi_pb_init cap) (mk_set_resp path0 rs now) in
      Ret (if ok then w_len pb else -1, w_data pb, w)
  end.

End handlers.

(** ** Reading the JSON of a route *)

(** The body a client sends for one gateway. *)
Definition route_json (gw : bytes) (oif vrf : Z) : bytes :=
  lit "{" ++ jkey "gateway" ++ qt (print_quad gw) ++ lit "," ++ jkey "oif" ++ dec oif ++
  lit "," ++ jkey "vrf" ++ dec vrf ++ lit "}".

Lemma quad_chars a b c d rest :
  Forall is_byte [a; b; c; d] -> Forall (fun c => 46 <= c <= 57) (print_quad ([a; b; c; d] ++ rest)).
Proof.
  intros H. rewrite !Forall_cons in H. unfold is_byte in H. rewrite print_quad_eq.
  repeat (apply Forall_app; split; [apply dec_chars; lia|]; apply Forall_cons; split; [lia|]).
  apply dec_chars; lia.
Qed.

Section route_json.
Context (gw : bytes) (oif vrf : Z).
Hypothesis Cg : Forall (fun c => 46 <= c <= 57) (print_quad gw).
Hypothesis Lg : (length (print_quad gw) <= 15)%nat.
Hypothesis Ho : 0 <= oif < 2 ^ 32.
Hypothesis Hv : 0 <= vrf < 2 ^ 32.

(** The text behind the gateway. *)
Definition after_gateway : bytes :=
  [34] ++ lit "," ++ [34] ++ lit "oif" ++ [34] ++ lit ":" ++ dec oif ++
  lit "," ++ [34] ++ lit "vrf" ++ [34] ++ lit ":" ++ dec vrf ++ lit "}".

Lemma route_json_eq :
  route_json gw oif vrf = lit "{" ++ [34] ++ lit "gateway" ++ [34] ++ lit ":" ++ [34] ++ print_quad gw ++ after_gateway.
Proof. unfold route_json, jkey, qt, after_gateway. by rewrite <- !app_assoc. Qed.

Lemma uint_behind k n t :
  58 ∉ k -> 0 <= n < 2 ^ 32 -> starts_digit t = false ->
  (p ← strchr (k ++ 58 :: dec n ++ t) 58; Some (u32 (fst (strtoul (skip_blanks (drop 1 p)))))) = Some n.
Proof.
  intros Hk Hn Ht. rewrite strchr_skip by done. cbn [strchr]. rewrite Z.eqb_refl. cbn [mbind option_bind].
  change (drop 1 (58 :: dec n ++ t)) with (dec n ++ t).
  assert (skip_blanks (dec n ++ t) = dec n ++ t) as ->.
  { pose proof (dec_chars n ltac:(lia)) as Hd. pose proof (dec_nonempty n ltac:(lia)) as Hne.
    destruct (dec n) as [|x ds]; [done|]. cbn [app skip_blanks]. inversion Hd; subst.
    by rewrite (proj2 (Z.eqb_neq x 32)) by lia. }
  rewrite strtoul_dec by (done || lia). cbn [fst]. by rewrite u32_small.
Qed.

Lemma route_json_oif : json_get_uint (route_json gw oif vrf) "oif" = Some oif.
Proof.
  unfold json_get_uint, json_find. rewrite route_json_eq. unfold after_gateway.
  change (lit "oif") with (111 :: lit "if"). do 10 rewrite strstr_skip by not_in.
  set (tail := lit "," ++ [34] ++ _).
  change (strstr _ _) with (Some ((lit "oif" ++ [34]) ++ 58 :: dec oif ++ tail)).
  cbn [mbind option_bind]. rewrite <- (uint_behind (lit "oif" ++ [34]) oif tail) by first [done|not_in].
  destruct (strchr _ _); done.
Qed.

Lemma route_json_vrf : json_get_uint (route_json gw oif vrf) "vrf" = Some vrf.
Proof.
  pose proof (dec_chars oif ltac:(lia)) as Co.
  unfold json_get_uint, json_find. rewrite route_json_eq. unfold after_gateway.
  change (lit "vrf") with (118 :: lit "rf"). do 16 rewrite strstr_skip by not_in.
  change (strstr _ _) with (Some ((lit "vrf" ++ [34]) ++ 58 :: dec vrf ++ lit "}")).
  cbn [mbind option_bind]. rewrite <- (uint_behind (lit "vrf" ++ [34]) vrf (lit "}")) by first [done|not_in].
  destruct (strchr _ _); done.
Qed.

Lemma route_json_gateway : json_get_str (route_json gw oif vrf) "gateway" 64 = Some (print_quad gw).
Proof.
  unfold json_get_str. rewrite route_json_eq. change (lit "gateway") with (103 :: lit "ateway").
  do 2 rewrite strstr_skip by not_in. set (tail := print_quad gw ++ after_gateway).
  change (strstr _ _) with (Some (lit "gateway" ++ [34] ++ lit ":" ++ [34] ++ tail)).
  cbn [mbind option_bind]. do 2 rewrite strchr_skip by not_in.
  change (strchr (lit ":" ++ [34] ++ tail) 58) with (Some (lit ":" ++ [34] ++ tail)).
  cbn [mbind option_bind]. rewrite strchr_skip by not_in.
  change (strchr ([34] ++ tail) 34) with (Some (34 :: tail)). cbn [mbind option_bind].
  change (drop 1 (34 :: tail)) with tail. unfold tail, after_gateway.
  change ([34] ++ ?x) with (34 :: x).
  rewrite until_quote_app; [done|eapply chars_notin; [exact Cg|lia]|lia].
Qed.

Lemma route_json_no_array : json_get_ipv4_array (route_json gw oif vrf) "gateways" = None.
Proof.
  pose proof (dec_chars oif ltac:(lia)) as Co. pose proof (dec_chars vrf ltac:(lia)) as Cv.
  unfold json_get_ipv4_array. rewrite route_json_eq. unfold after_gateway.
  change (lit "gateways") with (103 :: lit "ateways").
  do 2 rewrite strstr_skip by not_in.
  set (tail := [34] ++ lit ":" ++ [34] ++ _).
  change (strstr (lit "gateway" ++ tail) (103 :: lit "ateways")) with (strstr (lit "ateway" ++ tail) (103 :: lit "ateways")).
  subst tail. do 17 rewrite strstr_skip by not_in.
  rewrite <- (app_nil_r (lit "}")), strstr_skip by not_in. done.
Qed.

End route_json.

(** ** Setting a route *)

Definition is_v4 (l : bytes) : Prop := exists a b c d, Forall is_byte [a; b; c; d] /\ l = [a; b; c; d] ++ zeros 12.

(** The update of one route. *)
Definition route_path (p : danos_ip_prefix) : gnmi_path_t :=
  mk_path [] [mk_elem (lit "routes") false [] []; mk_elem (lit "route") true (lit "prefix") (print_prefix p)].

Definition route_update (p : danos_ip_prefix) (gw : danos_ip_addr) (oif vrf : Z) : gnmi_update_t :=
  mk_update (route_path p) (mk_val GNMI_VAL_JSON_IETF (route_json (ip_addr gw) oif vrf) 0 0 false).

(** A request a client can write: IPv4 prefix and gateway. *)
Record client_route (p : danos_ip_prefix) (gw : danos_ip_addr) (oif vrf : Z) : Prop := {
  cr_prefix_af : ip_af (pfx_addr p) = DANOS_AF_IPV4;
  cr_prefix : is_v4 (ip_addr (pfx_addr p));
  cr_len : 0 <= pfx_len p <= 32;
  cr_gw_af : ip_af gw = DANOS_AF_IPV4;
  cr_gw : is_v4 (ip_addr gw);
  cr_oif : 0 <= oif < 2 ^ 32;
  cr_vrf : 0 <= vrf < 2 ^ 32;
}.

Lemma v4_wf a : ip_af a = DANOS_AF_IPV4 -> is_v4 (ip_addr a) -> struct_wf a.
Proof.
  intros Haf (x & y & z & t & Hb & Hl). destruct a as [af l]. cbn in *. subst.
  split; [unfold is_uint, DANOS_AF_IPV4; cbn; lia|]. split; [done|].
  apply (Forall_app is_byte [x; y; z; t]). split; [done|apply zeros_ok].
Qed.

Lemma client_request p gw oif vrf : client_route p gw oif vrf -> request_ok vrf p gw oif.
Proof.
  intros [H1 H2 H3 H4 H5 H6 H7]. split; [split|..].
  - by apply v4_wf.
  - unfold is_uint. cbn. lia.
  - by apply v4_wf.
  - done.
  - unfold is_uint. cbn. lia.
  - unfold is_uint. cbn. lia.
Qed.

Lemma client_parse p gw oif vrf :
  client_route p gw oif vrf ->
  gnmi_parse_prefix (Some (print_prefix p)) = (DANOS_OK, Some p) /\
  gnmi_parse_ipv4 (Some (print_quad (ip_addr gw))) = (DANOS_OK, Some gw) /\
  Forall (fun c => 46 <= c <= 57) (print_quad (ip_addr gw)) /\ (length (print_quad (ip_addr gw)) <= 15)%nat.
Proof.
  intros [H1 (a & b & c & d & Hb & Ha) H3 H4 (x & y & z & t & Hg & Hx) H6 H7].
  destruct p as [[af l] len], gw as [af' l']. cbn in *. subst. split_and!.
  - by apply parse_print_prefix.
  - by apply parse_print_quad.
  - by apply quad_chars.
  - by apply print_quad_text.
Qed.

Lemma route_json_ok gw oif vrf :
  Forall (fun c => 46 <= c <= 57) (print_quad gw) -> (length (print_quad gw) <= 15)%nat ->
  0 <= oif < 2 ^ 32 -> 0 <= vrf < 2 ^ 32 ->
  is_text (route_json gw oif vrf) /\ strlen (route_json gw oif vrf) < 256.
Proof.
  intros Hc Hl Ho Hv. rewrite route_json_eq. unfold after_gateway. split.
  - assert (is_text (print_quad gw)) by (eapply Forall_impl; [exact Hc|]; cbn; lia).
    pose proof (dec_text oif ltac:(lia)). pose proof (dec_text vrf ltac:(lia)). unfold is_text in *.
    repeat (apply Forall_app; split; [first [done|apply (bool_decide_unpack _); vm_compute; exact I]|]).
    apply (bool_decide_unpack _). vm_compute. exact I.
  - pose proof (dec_length oif). pose proof (dec_length vrf). unfold strlen. rewrite !length_app.
    change (length (lit "gateway")) with 7%nat. change (length (lit "oif")) with 3%nat.
    change (length (lit "vrf")) with 3%nat. change (length (lit "{")) with 1%nat.
    change (length (lit ":")) with 1%nat. change (length (lit ",")) with 1%nat.
    change (length (lit "}")) with 1%nat. cbn [length]. lia.
Qed.

Lemma print_prefix_ok p gw oif vrf :
  client_route p gw oif vrf -> is_text (print_prefix p) /\ strlen (print_prefix p) < 64.
Proof.
  intros [H1 (a & b & c & d & Hb & Ha) H3 _ _ _ _]. unfold print_prefix. rewrite H1, Ha.
  change (DANOS_AF_IPV4 =? DANOS_AF_IPV4) with true. cbv iota.
  pose proof (quad_chars a b c d (zeros 12) Hb) as Hq. destruct (print_quad_text a b c d (zeros 12) Hb) as [_ Hl].
  pose proof (dec_short (pfx_len p) ltac:(lia)) as Hd. split.
  - apply Forall_app. split; [eapply Forall_impl; [exact Hq|]; cbn; lia|].
    apply Forall_app. split; [apply (bool_decide_unpack _); vm_compute; exact I|]. apply dec_text. lia.
  - unfold strlen. rewrite !length_app. change (length (lit "/")) with 1%nat. lia.
Qed.

Lemma route_request_wf p gw oif vrf : client_route p gw oif vrf -> set_wf (mk_set path0 [] [route_update p gw oif vrf] []).
Proof.
  intros Hr. destruct (print_prefix_ok p gw oif vrf Hr) as [Ht Hs].
  destruct (client_parse p gw oif vrf Hr) as (_ & _ & Hc & Hl).
  destruct (route_json_ok (ip_addr gw) oif vrf Hc Hl (cr_oif _ _ _ _ Hr) (cr_vrf _ _ _ _ Hr)) as [Jt Js].
  assert (Hlit : Forall (fun s => is_text s /\ strlen s < GNMI_MAX_NAME) [lit "routes"; lit "route"; lit "prefix"; []])
    by (apply (bool_decide_unpack _); vm_compute; exact I).
  repeat (apply Forall_cons in Hlit as [? Hlit]).
  assert (Ho : is_text [] /\ strlen [] < GNMI_MAX_ORIGIN) by (split; [constructor|reflexivity]).
  split; cbn [s_prefix s_deletes s_replaces s_updates].
  - split; [done|cbn; unfold GNMI_MAX_ELEMS; lia|constructor].
  - split; [constructor|cbn; lia].
  - split; [constructor|cbn; lia].
  - split; [|cbn; unfold GNMI_MAX_UPDATES; lia]. apply Forall_cons. split; [|constructor].
    split; cbn [route_update u_path u_val]; [split; cbn [route_path p_origin p_elems]|].
    + done.
    + cbn. unfold GNMI_MAX_ELEMS. lia.
    + repeat (apply Forall_cons; split); [..|constructor]; split; cbn; done.
    + split; [done|]. split; [done|]. exact Js.
Qed.

Section set_route.
Context `{L : inet6_lib}.

Lemma set_update_route e ss p gw oif vrf w :
  client_route p gw oif vrf ->
  set_update e ss (route_update p gw oif vrf) w = gnmi_route_set e vrf (Some p) (Some gw) oif w.
Proof.
  intros Hr. destruct (client_parse p gw oif vrf Hr) as (Hp & Hg & Hc & Hl). destruct Hr.
  unfold set_update. change (is_route_path (u_path (route_update p gw oif vrf))) with true. cbv iota.
  unfold set_route. change (pe_key_value (elem1 (u_path (route_update p gw oif vrf)))) with (print_prefix p).
  rewrite Hp. cbn [route_update u_val v_kind v_s].
  change (negb (is_json GNMI_VAL_JSON_IETF)) with false. cbv iota.
  rewrite route_json_oif, route_json_vrf, route_json_no_array, route_json_gateway, Hg by done. done.
Qed.

(** The request for one route. *)
Definition route_request (p : danos_ip_prefix) (gw : danos_ip_addr) (oif vrf : Z) : gnmi_set_request_t :=
  mk_set path0 [] [route_update p gw oif vrf] [].

Lemma handle_set_route ss now es cap p gw oif vrf w w' :
  client_route p gw oif vrf ->
  gnmi_route_set (es 0%nat) vrf (Some p) (Some gw) oif w = (DANOS_OK, w') ->
  exists rlen resp, gnmi_handle_set ss now es (set_msg (route_request p gw oif vrf)) cap w = Ret (rlen, resp, w').
Proof.
  intros Hr Hs. unfold gnmi_handle_set. rewrite set_request_decodes; [|by apply (route_request_wf p gw oif vrf)|by rewrite decode_fuel].
  cbn [mbind outcome_bind route_request s_updates s_deletes set_loop].
  rewrite set_update_route, Hs by done. rewrite bool_decide_eq_true_2 by done. cbn [negb].
  unfold push_result. cbn [length Nat.leb GNMI_MAX_UPDATES mbind outcome_bind app].
  rewrite bool_decide_eq_true_2 by done. cbn [negb].
  destruct (gnmi_encode_set_response _ _) as [ok pb]. eauto.
Qed.

End set_route.

(** ** Where the handlers differ from the protocol *)

Section handler_errors.
Context `{L : inet6_lib}.

(** A Get of a leaf whose object does not exist returns the positive status,
    which the server takes for the length of a response. *)
Lemma get_missing_leaf ss c p mb w :
  gnmi_model_resolve (Some p) = Some mb -> mb_kind mb = GNMI_MODEL_LEAF -> p_elems p <> [] ->
  leaf_object ss (mb_obj_type mb) p c = None -> get_path ss c w p = inl (2, w).
Proof.
  intros Hr Hk Hne Ho. unfold get_path. rewrite Hr, bool_decide_eq_false_2 by done.
  by rewrite bool_decide_eq_true_2, Ho by done.
Qed.

(** A Get of an unknown path returns the negative status. *)
Lemma get_unknown_path ss c p w : gnmi_model_resolve (Some p) = None -> get_path ss c w p = inl (-2, w).
Proof. intros Hr. unfold get_path. by rewrite Hr. Qed.

(** Deleting an interface that exists crashes a server without a state
    store. *)
Lemma delete_iface_no_store p w i : find_iface None 16 p (mw_core w) = Some i -> delete_iface None p w = Fault.
Proof. intros Hf. unfold delete_iface. by rewrite Hf. Qed.

(** The seventeenth operation of a request that succeeds writes past the
    result arrays. *)
Lemma seventeenth_result_overflows {A} step path op es i (x : A) xs rs w w' :
  length rs = GNMI_MAX_UPDATES -> step (es i) x w = Ret (DANOS_OK, w') ->
  set_loop step path op es i (x :: xs) rs w = Fault.
Proof.
  intros Hl Hs. cbn [set_loop]. rewrite Hs. cbn [mbind outcome_bind]. rewrite bool_decide_eq_true_2 by done.
  cbn [negb]. unfold push_result. by rewrite Hl.
Qed.

(** Replaces are decoded and never applied: a request that only replaces
    changes nothing and is answered as a success. *)
Lemma replaces_ignored ss now es cap q w :
  set_wf q -> s_updates q = [] -> s_deletes q = [] ->
  exists rlen resp, gnmi_handle_set ss now es (set_msg q) cap w = Ret (rlen, resp, w).
Proof.
  intros Hq Hu Hd. unfold gnmi_handle_set. rewrite set_request_decodes; [|done|by rewrite decode_fuel].
  cbn [mbind outcome_bind]. rewrite Hu, Hd. cbn [set_loop mbind outcome_bind].
  rewrite bool_decide_eq_true_2 by done. cbn [negb mbind outcome_bind].
  destruct (gnmi_encode_set_response _ _) as [ok pb]. eauto.
Qed.

End handler_errors.
