(* ===== verification/GrpcServer.v ===== *)
(** * The gRPC server: danos-mgmt gnmi_grpc.c, Subscribe and the connection loop

    [danos_gnmi_grpc_serve_fd] on one accepted connection: the preface, the
    header blocks, the requests, the dispatch on the path and the responses,
    over the transport of [Http2] and the handlers of [GnmiServer].  A loop
    that needs more turns than it is given is [Spin], a crash is [Fault]. *)

From stdpp Require Import base decidable list numbers strings.
From Stdlib Require Import ZArith Lia.
From S2P Require Import Prelude Dpa Backends ObjectStore Wal EventBus Registry Persist DpaObjects.
From S2P Require Import Transaction StateStore Pipeline Zapi ZapiMapper CStr Proto ProtoCodec.
From S2P Require Import ModelRoutes ModelPaths Huffman Hpack Http2 GnmiServer.

(** [g_store], [g_rpcs_total] and [g_event_subscribe_once] with the state of
    the handlers.  [g_store_epoch] counts the events delivered to
    [store_event_cb], which the event bus records. *)
Record server := mk_server {
  sv_store : option danos_state_store;
  sv_world : mworld;
  sv_rpcs_total : Z;
  sv_subscribed : bool;
}.

(** One turn of a streaming subscription: whether the peer has closed, and the
    library's state when the hash is computed and when the notification is
    built, which other threads change. *)
Record stream_round := mk_round {
  sr_closed : bool;
  sr_hash_core : core;
  sr_build_core : core;
  sr_now : Z;
}.

(** What the environment answers during one request. *)
Record rpc_env := mk_rpc_env {
  re_now : Z;
  re_tx : nat -> tx_env;
  re_rounds : list stream_round;
}.

(** ** Subscribe *)

Definition lift {A} (m : option A) : outcome A := match m with Some a => Ret a | None => Spin end.

(** The cheap change detector. *)
Definition stream_hash (c : core) : Z :=
  let ifaces := collect_ifaces None 64 c in
  let nv := Z.of_nat (length (collect_vrfs None 16 c)) in
  let nr := Z.of_nat (length (collect_routes None 32 c)) in
  let h := Z.lxor (Z.lxor (Z.shiftl (Z.of_nat (length ifaces)) 40) (Z.shiftl nv 20)) nr in
  foldl (fun h i => Z.lxor h (u64 (iface_mtu i * 31 + iface_ifindex i))) h ifaces.

Definition sub_paths (sr : gnmi_subscribe_request_t) : list gnmi_path_t := take GNMI_MAX_ELEMS (sb_subs sr).

(** The response [{ update = notification }]. *)
Definition wrap_update (notif : bytes) : bytes := w_data (gnmi_pb_put_len_delim (gnmi_pb_init 16384) 1 notif).

(** A step that writes, and [-1] when it fails. *)
Definition or_fail (r : bool * h2_conn_t) (k : h2_conn_t -> outcome (Z * h2_conn_t)) : outcome (Z * h2_conn_t) :=
  let '(ok, c) := r in if negb ok then Ret (-1, c) else k c.

(** [first] and [last_hash] of the loop; the turns run out while the
    subscription is still open. *)
Fixpoint subscribe_stream_loop (fuel : nat) (stream : Z) (paths : list gnmi_path_t) (rounds : list stream_round)
    (first : bool) (last_hash : Z) (c : h2_conn_t) : outcome (Z * h2_conn_t) :=
  match rounds with
  | [] => Spin
  | r :: rounds =>
      if sr_closed r then Ret (0, c) else
      let hash := stream_hash (sr_hash_core r) in
      if first || negb (hash =? last_hash) then
        match build_notification_for_paths (sr_now r) paths 8192 (sr_build_core r) with
        | None => Ret (-1, c)
        | Some msg =>
            or_fail (if first then send_stream_headers stream c else (true, c)) (fun c =>
            m ← lift (send_stream_message fuel stream (wrap_update msg) c);
            or_fail m (subscribe_stream_loop fuel stream paths rounds false hash))
        end
      else subscribe_stream_loop fuel stream paths rounds first last_hash c
  end.

Definition gnmi_handle_subscribe (fuel : nat) (e : rpc_env) (stream : Z) (req : bytes) (c : h2_conn_t) (w : core)
    : outcome (Z * h2_conn_t) :=
  sr ← gnmi_decode_subscribe_request DECODE_FUEL req (strlen req);
  match sr with
  | None => Ret (-1, c)
  | Some sr =>
      if (sb_mode sr =? 1) || (sb_mode sr =? 2) then
        match build_notification_for_paths (re_now e) (sub_paths sr) 8192 w with
        | None => Ret (-1, c)
        | Some notif =>
            if sb_mode sr =? 1 then
              or_fail (send_stream_headers stream c) (fun c =>
              m ← lift (send_stream_message fuel stream (wrap_update notif) c);
              or_fail m (fun c =>
              m ← lift (send_stream_message fuel stream
                          (w_data (snd (gnmi_encode_subscribe_sync (gnmi_pb_init 16)))) c);
              or_fail m (fun c => or_fail (send_stream_trailers stream c) (fun c => Ret (0, c)))))
            else
              let msg := w_data (snd (gnmi_encode_subscribe_sync
                           (gnmi_pb_put_len_delim (gnmi_pb_init 16384) 1 notif))) in
              or_fail (send_stream_headers stream c) (fun c =>
              m ← lift (send_stream_message fuel stream msg c);
              or_fail m (fun c => Ret (0, c)))
        end
      else subscribe_stream_loop fuel stream (sub_paths sr) (re_rounds e) true 0 c
  end.

(** ** Header blocks *)

Record req_headers_t := mk_headers {
  rh_path : option bytes;
  rh_method : option bytes;
  rh_content_type : option bytes;
  rh_te : option bytes;
}.

Definition no_headers : req_headers_t := mk_headers None None None None.

(** [strdup] of the first value of each name. *)
Definition header_cb (name value : bytes) (h : req_headers_t) : bool * req_headers_t :=
  let unset (x : option bytes) := bool_decide (x = None) in
  (true,
   if streq name ":path" && unset (rh_path h) then mk_headers (Some value) (rh_method h) (rh_content_type h) (rh_te h)
   else if streq name ":method" && unset (rh_method h) then mk_headers (rh_path h) (Some value) (rh_content_type h) (rh_te h)
   else if streq name "content-type" && unset (rh_content_type h) then mk_headers (rh_path h) (rh_method h) (Some value) (rh_te h)
   else if streq name "te" && unset (rh_te h) then mk_headers (rh_path h) (rh_method h) (rh_content_type h) (Some value)
   else h).

(** The CONTINUATION loop: the whole block, or [None] when reading fails. *)
Fixpoint continuation (fuel : nat) (frame : bytes) (c : h2_conn_t) : outcome (option bytes * h2_conn_t) :=
  match fuel with
  | O => Spin
  | S fuel =>
      match recv_frame c with
      | (RxFail, c) => Ret (None, c)
      | (RxSpin, _) => Spin
      | (RxHouse, c) => continuation fuel frame c
      | (RxFrame f, c) =>
          if negb (pf_type f =? H2_F_CONT) then continuation fuel frame (pending_push f c) else
          let frame := if strlen frame + strlen (pf_payload f) <=? H2_MAX_FRAME_LEN
                       then frame ++ pf_payload f else frame in
          if has_flag (pf_flags f) H2_FLAG_END_HEADERS then Ret (Some frame, c) else continuation fuel frame c
      end
  end.

(** ** The connection *)

(** What the loop does after a request: go on, or leave with a code. *)
Inductive after := GoOn (c : h2_conn_t) (s : server) | Leave (rc : Z) (c : h2_conn_t) (s : server).

(** A response without a message: [sizeof(tbuf)] is enough for these headers. *)
Definition send_trailers_only (cap : Z) (hs : list (bytes * bytes)) (stream : Z) (c : h2_conn_t) : h2_conn_t :=
  match encode_headers cap (status_200 :: grpc_type :: hs) [] with
  | Some t => snd (write_frame H2_F_HEADERS (Z.lor H2_FLAG_END_STREAM H2_FLAG_END_HEADERS) stream t c)
  | None => c
  end.

(** The gRPC status of a handler's negative result. *)
Definition grpc_error (rlen : Z) : list (bytes * bytes) :=
  let err (st msg : string) := [grpc_status st; (lit "grpc-message", lit msg)] in
  if rlen =? - status_int DANOS_ERR_NOT_FOUND then err "5" "path not found"
  else if rlen =? - status_int DANOS_ERR_INVALID_ARG then err "3" "invalid argument"
  else if rlen =? - status_int DANOS_ERR_EXISTS then err "6" "already exists"
  else err "2" "internal error".

(** The first [rlen] bytes of the response buffer, or the error. *)
Definition respond (fuel : nat) (stream : Z) (rlen : Z) (resp : bytes) (c : h2_conn_t) : outcome h2_conn_t :=
  if 0 <=? rlen then
    let n := Z.to_nat rlen in
    '(_, c) ← lift (send_grpc_response fuel stream (take n resp ++ zeros (n - length resp)) c);
    Ret c
  else Ret (send_trailers_only 192 (grpc_error rlen) stream c).

Section serve.
Context `{L : inet6_lib}.

Definition is_method (h : req_headers_t) (m : string) : bool :=
  match rh_path h with Some p => streq p m | None => false end.

Definition dispatch (fuel : nat) (e : rpc_env) (stream : Z) (end_stream : bool) (h : req_headers_t) (msg : bytes)
    (c : h2_conn_t) (s : server) : outcome after :=
  if is_method h "/gnmi.gNMI/Capabilities" then
    let '(rlen, resp) := gnmi_handle_capabilities MAX_MSG in
    c ← respond fuel stream rlen resp c; Ret (GoOn c s)
  else if is_method h "/gnmi.gNMI/Get" then
    '(rlen, resp) ← (if end_stream then Ret (-1, [])
                     else gnmi_handle_get (sv_store s) (re_now e) msg MAX_MSG (mw_core (sv_world s)));
    c ← respond fuel stream rlen resp c; Ret (GoOn c s)
  else if is_method h "/gnmi.gNMI/Set" then
    '(rlen, resp, w) ← (if end_stream then Ret (-1, [], sv_world s)
                        else gnmi_handle_set (sv_store s) (re_now e) (re_tx e) msg MAX_MSG (sv_world s));
    let s := mk_server (sv_store s) w (sv_rpcs_total s) (sv_subscribed s) in
    c ← respond fuel stream rlen resp c; Ret (GoOn c s)
  else if is_method h "/gnmi.gNMI/Subscribe" then
    '(sret, c) ← (if end_stream then Ret (-1, c)
                  else gnmi_handle_subscribe fuel e stream msg c (mw_core (sv_world s)));
    Ret (if sret =? 0 then GoOn c s else Leave (-1) c s)
  else Ret (GoOn (send_trailers_only 96 [grpc_status "12"] stream c) s).

(** A HEADERS frame: its block, the request message and the dispatch. *)
Definition serve_headers (fuel : nat) (e : rpc_env) (f : pending_frame_t) (c : h2_conn_t) (s : server)
    : outcome after :=
  '(block, c) ← (if has_flag (pf_flags f) H2_FLAG_END_HEADERS then Ret (Some (pf_payload f), c)
                 else continuation fuel (pf_payload f) c);
  match block with
  | None => Ret (Leave (-1) c s)
  | Some block =>
      match hpack_decode header_cb block (mk_hpack (hc_dyn_dec c) no_headers (hc_heap c)) with
      | None => Spin
      | Some (ok, hs) =>
          let c := set_dyn (h_dyn hs) (h_heap hs) c in
          if negb ok then Ret (Leave (-1) c s) else
          let s := mk_server (sv_store s) (sv_world s) (u64 (sv_rpcs_total s + 1)) (sv_subscribed s) in
          let end_stream := has_flag (pf_flags f) H2_FLAG_END_STREAM in
          if end_stream then dispatch fuel e (pf_stream f) true (h_user hs) [] c s else
          '(m, c) ← lift (read_grpc_message fuel MAX_MSG (pf_stream f) c);
          match m with
          | GrpcFail => Ret (Leave (-1) c s)
          | GrpcNone => Ret (GoOn c s)
          | GrpcMsg msg => dispatch fuel e (pf_stream f) false (h_user hs) msg c s
          end
      end
  end.

(** [es] gives the environment of each request. *)
Fixpoint serve_loop (turns fuel : nat) (es : nat -> rpc_env) (i : nat) (c : h2_conn_t) (s : server)
    : outcome (Z * h2_conn_t * server) :=
  match turns with
  | O => Spin
  | S turns =>
      match recv_frame c with
      | (RxFail, c) => Ret (0, c, s)
      | (RxSpin, _) => Spin
      | (RxHouse, c) => serve_loop turns fuel es i c s
      | (RxFrame f, c) =>
          if pf_type f =? H2_F_GOAWAY then Ret (0, c, s)
          else if negb (pf_type f =? H2_F_HEADERS) then serve_loop turns fuel es i c s
          else
            a ← serve_headers fuel (es i) f c s;
            match a with
            | GoOn c s => serve_loop turns fuel es (S i) c s
            | Leave rc c s => Ret (rc, c, s)
            end
      end
  end.

(** A new connection on a socket. *)
Definition conn_init (net : list rx) (ans : list tx) (m : heap) : h2_conn_t :=
  mk_conn net [] ans m hpack_dyn_init H2_DEFAULT_WINDOW (replicate 64 H2_DEFAULT_WINDOW) H2_DEFAULT_WINDOW [].

(** [store_event_cb], and the mask it is subscribed with. *)
Definition STORE_EVENT_CB : Z := 2.
Definition store_event_mask : Z :=
  Z.lor (Z.lor (event_code DANOS_EVENT_OBJ_CREATED) (event_code DANOS_EVENT_OBJ_UPDATED))
    (event_code DANOS_EVENT_OBJ_DELETED).

(** [subscribe_store_events_once] behind its [pthread_once]; the bus and the
    subscription are allocated, and a bus that cannot be is a crash. *)
Definition subscribe_store_events_once (s : server) : outcome server :=
  if sv_subscribed s then Ret s else
  let c := mw_core (sv_world s) in
  let '(mem_bus, c) := match g_event_bus (c_events c) with Some _ => (true, c) | None => core_alloc c end in
  let '(mem_sub, c) := core_alloc c in
  match danos_event_subscribe mem_bus mem_sub store_event_mask (Some STORE_EVENT_CB) (c_events c) with
  | None => Fault
  | Some (_, ev) => Ret (mk_server (sv_store s) (mk_mworld (mw_tx (sv_world s)) (set_events c ev)) (sv_rpcs_total s) true)
  end.

Definition danos_gnmi_grpc_serve_fd (turns fuel : nat) (es : nat -> rpc_env) (net : list rx) (ans : list tx)
    (m : heap) (s : server) : outcome (Z * h2_conn_t * server) :=
  let c := conn_init net ans m in
  match read_full H2_PREFACE_LEN net with
  | None => Ret (-1, c, s)
  | Some (preface, net) =>
      let c := set_in net c in
      if negb (bool_decide (preface = H2_PREFACE)) then Ret (-1, c, s) else
      let '(_, c) := write_frame H2_F_SETTINGS 0 0 [] c in
      s ← subscribe_store_events_once s;
      '(rc, c, s) ← serve_loop turns fuel es 0 c s;
      Ret (rc, pending_free_all c, s)
  end.

End serve.

(** ** When the peer has closed *)

(** Nothing is parked and no frame is left. *)
Definition drained (c : h2_conn_t) : Prop := hc_pending c = [] /\ (length (wire (hc_in c)) < 9)%nat.

Lemma drained_input c c' : same_input c c' -> drained c -> drained c'.
Proof. intros (H1 & H2 & _) [D1 D2]. split; [by rewrite H2|by rewrite H1]. Qed.

Lemma write_drained type flags stream p c : drained c -> drained (snd (write_frame type flags stream p c)).
Proof. apply drained_input, write_frame_snd. Qed.

Lemma send_drained fuel stream data c :
  drained c -> (length data < fuel)%nat ->
  exists ok c', send_data_windowed fuel stream data c = Some (ok, c') /\ drained c'.
Proof.
  revert data c. induction fuel as [|fuel IH]; intros data c Hd Hf; [lia|].
  destruct data as [|b data]; [by exists true, c|]. cbn [send_data_windowed].
  destruct (Z.leb_spec (send_budget stream c) 0) as [Hz|Hz].
  - destruct Hd as [D1 D2]. rewrite (recv_frame_closed c D1 D2). exists false, c. done.
  - set (n := Z.to_nat (send_budget stream c)).
    pose proof (write_drained H2_F_DATA 0 stream (take n (b :: data)) c Hd) as Hw.
    destruct (write_frame _ _ _ _ c) as [ok c1]. cbn [snd] in Hw.
    destruct ok; cbn [negb]; [|by exists false, c1].
    apply IH; [done|]. rewrite length_drop. subst n. cbn [length] in *. lia.
Qed.

Lemma message_drained fuel stream msg c :
  drained c -> (length msg < fuel)%nat ->
  exists ok c', send_stream_message fuel stream msg c = Some (ok, c') /\ drained c'.
Proof.
  intros Hd Hf. unfold send_stream_message.
  pose proof (write_drained H2_F_DATA 0 stream (grpc_prefix (strlen msg)) c Hd) as Hw.
  destruct (write_frame _ _ _ _ c) as [ok c1]. cbn [snd] in Hw.
  destruct ok; cbn [negb]; [by apply send_drained|by exists false, c1].
Qed.

Lemma response_drained fuel stream msg c :
  drained c -> (length msg < fuel)%nat ->
  exists ok c', send_grpc_response fuel stream msg c = Some (ok, c') /\ drained c'.
Proof.
  intros Hd Hf. unfold send_grpc_response, send_stream_headers, send_stream_trailers.
  change (encode_headers 128 [status_200; grpc_type] []) with (Some response_block).
  change (encode_headers 64 [grpc_status "0"] []) with (Some trailer_block).
  cbv beta iota. pose proof (write_drained H2_F_HEADERS H2_FLAG_END_HEADERS stream response_block c Hd) as H1.
  destruct (write_frame _ _ _ _ c) as [ok1 c1]. cbn [snd] in H1.
  destruct ok1; cbn [negb]; [|by exists false, c1].
  destruct (message_drained fuel stream msg c1 H1 Hf) as (ok2 & c2 & -> & H2). cbn [mbind option_bind].
  destruct ok2; cbn [negb]; [|by exists false, c2].
  assert (H3 : drained (snd (if strlen msg =? 0 then write_frame H2_F_DATA H2_FLAG_END_STREAM stream [] c2
                             else (true, c2)))).
  { destruct (strlen msg =? 0); [by apply write_drained|done]. }
  destruct (if strlen msg =? 0 then _ else _) as [ok3 c3]. cbn [snd] in H3.
  destruct ok3; cbn [negb]; [|by exists false, c3].
  pose proof (write_drained H2_F_HEADERS (Z.lor H2_FLAG_END_STREAM H2_FLAG_END_HEADERS) stream trailer_block c3 H3) as H4.
  destruct (write_frame _ _ _ _ c3) as [ok4 c4]. by exists ok4, c4.
Qed.

Lemma respond_drained fuel stream rlen resp c :
  drained c -> rlen < Z.of_nat fuel -> exists c', respond fuel stream rlen resp c = Ret c' /\ drained c'.
Proof.
  intros Hd Hf. unfold respond. destruct (Z.leb_spec 0 rlen) as [Hr|Hr].
  - destruct (response_drained fuel stream (take (Z.to_nat rlen) resp ++ zeros (Z.to_nat rlen - length resp)) c Hd)
      as (ok & c' & -> & Hd').
    { rewrite length_app, length_take, length_zeros. lia. }
    exists c'. done.
  - eexists. split; [reflexivity|]. unfold send_trailers_only.
    destruct (encode_headers _ _ _); [by apply write_drained|done].
Qed.

(** ** A request from the socket to the store *)

Section end_to_end.
Context `{L : inet6_lib}.

Lemma serve_loop_headers c f n c' turns fuel es i s :
  arrives c f n c' -> pf_type f = H2_F_HEADERS ->
  serve_loop (n + S turns) fuel es i c s =
    (a ← serve_headers fuel (es i) f c' s;
     match a with
     | GoOn c s => serve_loop turns fuel es (S i) c s
     | Leave rc c s => Ret (rc, c, s)
     end).
Proof.
  intros Ha Ht. induction Ha as [c f c' Hr|c c1 f n c' Hr _ IH].
  - cbn [Nat.add serve_loop]. by rewrite Hr, Ht.
  - cbn [Nat.add serve_loop]. rewrite Hr. by apply IH.
Qed.

Lemma serve_loop_end turns fuel es i c s : drained c -> serve_loop (S turns) fuel es i c s = Ret (0, c, s).
Proof. intros [D1 D2]. cbn [serve_loop]. by rewrite (recv_frame_closed c D1 D2). Qed.

(** The block of a request is decoded by the callback, one header at a time. *)
Lemma decode_block hs blks c :
  Forall2 encodes hs blks -> Forall header_text hs -> hc_heap c = [] ->
  hpack_decode header_cb (mjoin blks) (mk_hpack (hc_dyn_dec c) no_headers (hc_heap c)) =
    Some ((feed header_cb hs no_headers).1, mk_hpack (hc_dyn_dec c) (feed header_cb hs no_headers).2 []).
Proof.
  intros He Ht Hm. unfold hpack_decode. rewrite (decode_headers header_cb hs blks); [done|done|done|done|].
  apply (encodes_length hs blks He).
Qed.

Lemma feed_header_cb hs h : (feed header_cb hs h).1 = true.
Proof. revert h. induction hs as [|x hs IH]; intros h; [done|]. cbn [feed]. apply IH. Qed.

(** What a client sends on a new connection to make one call: the preface,
    housekeeping, the request headers, and the message in DATA frames. *)
Record call (stream : Z) (hs0 : list pending_frame_t) (hs : list header) (blks : list bytes)
    (segs : list segment) (last : segment) (flags : Z) (m : bytes) : Prop := {
  ca_quiet : Forall frame_ok hs0 /\ Forall (fun f => quiet f = true) hs0;
  ca_headers : Forall2 encodes hs blks /\ Forall header_text hs;
  ca_block : frame_ok (mk_frame H2_F_HEADERS H2_FLAG_END_HEADERS stream (mjoin blks));
  ca_segs : Forall (seg_ok stream 0) segs /\ seg_ok stream flags last;
  ca_last : last.2 <> [];
  ca_message : grpc_bytes m = mjoin (snd <$> segs) ++ last.2;
}.

Definition call_bytes (stream : Z) (hs0 : list pending_frame_t) (blks : list bytes)
    (segs : list segment) (last : segment) (flags : Z) : bytes :=
  H2_PREFACE ++ frames_bytes hs0 ++
  frame_bytes (mk_frame H2_F_HEADERS H2_FLAG_END_HEADERS stream (mjoin blks)) ++
  mjoin (seg_bytes stream 0 <$> segs) ++ seg_bytes stream flags last.

(** The request the headers ask for. *)
Definition asks (hs : list header) (m : string) : Prop :=
  rh_path (feed header_cb hs no_headers).2 = Some (lit m).

Definition count_rpc (s : server) : server := mk_server (sv_store s) (sv_world s) (u64 (sv_rpcs_total s + 1)) (sv_subscribed s).

(** The HEADERS frame of a call brings its message to the dispatch. *)
Lemma serve_headers_call stream hs0 hs blks segs last flags m fuel e c s :
  call stream hs0 hs blks segs last flags m ->
  strlen m <= MAX_MSG -> hc_pending c = [] -> hc_heap c = [] ->
  wire (hc_in c) = mjoin (seg_bytes stream 0 <$> segs) ++ seg_bytes stream flags last ->
  (seg_turns segs + S (length last.1) <= fuel)%nat ->
  exists c', drained c' /\
    serve_headers fuel e (mk_frame H2_F_HEADERS H2_FLAG_END_HEADERS stream (mjoin blks)) c s =
    dispatch fuel e stream false (feed header_cb hs no_headers).2 m c' (count_rpc s).
Proof.
  intros [_ [He Ht] _ [Hs1 Hs2] Hl Hm] Hcap Hp Hh Hw Hf. unfold serve_headers.
  change (has_flag (pf_flags _) H2_FLAG_END_HEADERS) with true.
  change (has_flag (pf_flags _) H2_FLAG_END_STREAM) with false. cbn [mbind outcome_bind pf_payload pf_stream].
  rewrite (decode_block hs blks c He Ht Hh), feed_header_cb. cbn [negb h_user h_dyn h_heap].
  assert (H32 : strlen m < 2 ^ 32) by (unfold MAX_MSG in Hcap; lia).
  destruct (read_segments MAX_MSG stream m segs last flags [] [] (set_dyn (hc_dyn_dec c) [] c) fuel)
    as (c' & Hr & Hw' & (Hk & _)); try done.
  { by rewrite app_nil_r. }
  change (rd_of []) with (mk_rd [] None []) in Hr. unfold read_grpc_message. rewrite Hr. cbn [lift mbind outcome_bind].
  exists c'. split; [|done]. split; [by rewrite Hk|]. rewrite Hw'. cbn. lia.
Qed.

(** The first connection subscribes to the events of the store, which leaves
    everything but the event bus as it is. *)
Lemma subscribe_once_ok s :
  os_env (c_os (mw_core (sv_world s))) = [] ->
  exists s1 ev, subscribe_store_events_once s = Ret s1 /\ sv_store s1 = sv_store s /\ sv_rpcs_total s1 = sv_rpcs_total s /\
    mw_core (sv_world s1) = set_events (mw_core (sv_world s)) ev.
Proof.
  intros He. unfold subscribe_store_events_once. destruct (sv_subscribed s).
  { exists s, (c_events (mw_core (sv_world s))). split_and!; [done..|]. by destruct (mw_core (sv_world s)). }
  destruct (g_event_bus (c_events (mw_core (sv_world s)))) as [b|] eqn:Hb; rewrite !core_alloc_granted by done.
  all: unfold danos_event_subscribe, danos_event_bus_init; rewrite Hb; cbn [negb g_event_bus]; rewrite ?Hb; do 2 eexists; split_and!; reflexivity.
Qed.

(** Of the events of the store only creations reach the callback: the mask is
    made of the numbers of the events, where the bus tests the bit of a
    number. *)
Lemma store_events_created_only id ev :
  sub_wants ev (mk_sub id (u32 store_event_mask) STORE_EVENT_CB) = true <-> ev_type ev = DANOS_EVENT_OBJ_CREATED.
Proof. unfold sub_wants. cbn [sub_mask]. destruct (ev_type ev); vm_compute; split; congruence. Qed.

(** A connection that carries one call answers it and ends when the peer
    closes. *)
Lemma serve_one_call stream hs0 hs blks segs last flags m net ans s0 s fuel es rlen resp w' :
  subscribe_store_events_once s0 = Ret s ->
  call stream hs0 hs blks segs last flags m -> strlen m <= MAX_MSG ->
  asks hs "/gnmi.gNMI/Set" -> wire net = call_bytes stream hs0 blks segs last flags ->
  gnmi_handle_set (sv_store s) (re_now (es 0%nat)) (re_tx (es 0%nat)) m MAX_MSG (sv_world s) = Ret (rlen, resp, w') ->
  (seg_turns segs + S (length last.1) <= fuel)%nat -> rlen < Z.of_nat fuel ->
  forall turns, (length hs0 + 2 <= turns)%nat ->
  exists c', danos_gnmi_grpc_serve_fd turns fuel es net ans [] s0 =
    Ret (0, c', mk_server (sv_store s) w' (u64 (sv_rpcs_total s + 1)) (sv_subscribed s)).
Proof.
  intros Hsub Hc Hcap Hm Hw Hset Hf Hr turns Ht. unfold danos_gnmi_grpc_serve_fd.
  destruct (read_full_wire H2_PREFACE_LEN net) as (net' & -> & Hw').
  { rewrite Hw. unfold call_bytes. rewrite length_app. change (length H2_PREFACE) with 24%nat.
    unfold H2_PREFACE_LEN. lia. }
  rewrite Hw in *. unfold call_bytes in *.
  rewrite take_app_length' by reflexivity. rewrite drop_app_length' in Hw' by reflexivity.
  rewrite bool_decide_eq_true_2 by done. cbn [negb].
  pose proof (write_frame_snd H2_F_SETTINGS 0 0 [] (set_in net' (conn_init net ans []))) as (W1 & W2 & W3 & _).
  destruct (write_frame _ _ _ _ _) as [ok c1]. rewrite Hsub. cbn [mbind outcome_bind]. cbn [snd] in W1, W2, W3.
  pose proof Hc as [[Q1 Q2] _ Hb _ _ _].
  destruct (quiet_arrives hs0 (mk_frame H2_F_HEADERS H2_FLAG_END_HEADERS stream (mjoin blks))
    (mjoin (seg_bytes stream 0 <$> segs) ++ seg_bytes stream flags last) c1)
    as (n & c2 & Hn & Ha & Hw2 & (K1 & K2 & _)); [by rewrite W2|done|done|done|done|by rewrite W1|].
  destruct (serve_headers_call _ _ _ _ _ _ _ _ fuel (es 0%nat) c2 s Hc Hcap) as (c3 & Hd & Hsh);
    [by rewrite K1, W2|by rewrite K2, W3|done|done|].
  destruct (respond_drained fuel stream rlen resp c3 Hd Hr) as (c4 & Hr4 & Hd4).
  replace turns with (n + S (S (turns - n - 2)))%nat by lia.
  rewrite (serve_loop_headers c1 _ n c2) by done. rewrite Hsh. unfold dispatch, is_method. rewrite Hm.
  change (streq (lit "/gnmi.gNMI/Set") "/gnmi.gNMI/Capabilities") with false.
  change (streq (lit "/gnmi.gNMI/Set") "/gnmi.gNMI/Get") with false.
  change (streq (lit "/gnmi.gNMI/Set") "/gnmi.gNMI/Set") with true. cbv iota.
  cbn [count_rpc sv_store sv_world sv_rpcs_total sv_subscribed]. rewrite Hset. cbn [mbind outcome_bind]. rewrite Hr4.
  cbn [mbind outcome_bind]. rewrite serve_loop_end by done. cbn [mbind outcome_bind]. eauto.
Qed.

(** C7. A gNMI Set reaches the object store: a client that opens a connection,
    sends the preface, any settings, pings and priorities, the headers of a
    Set call and the protobuf request for one IPv4 route in DATA frames of any
    sizes, however the socket fragments them, is served to the end of the
    connection, and the store then holds a static route with a new group and
    a new next hop for the gateway and interface of the request, the objects
    it had before, and nothing else. *)
Theorem grpc_set_programs_route stream hs0 hs blks segs last flags p gw oif vrf h net ans s es now :
  client_route p gw oif vrf ->
  call stream hs0 hs blks segs last flags (set_msg (route_request p gw oif vrf)) ->
  asks hs "/gnmi.gNMI/Set" ->
  wire net = call_bytes stream hs0 blks segs last flags ->
  re_tx (es 0%nat) 0%nat = tx_granted now ->
  prog_env h (mw_core (sv_world s)) -> no_static h (mw_core (sv_world s)) vrf p ->
  ids_fit h (mw_core (sv_world s)) 1 ->
  objs (mw_core (sv_world s)) h !! (DANOS_OBJ_ROUTE, route_key vrf p DANOS_ROUTE_PROTO_STATIC) = None ->
  exists N nh grp s', forall turns fuel, (N <= turns)%nat -> (N <= fuel)%nat ->
    (exists c', danos_gnmi_grpc_serve_fd turns fuel es net ans [] s = Ret (0, c', s')) /\
    objs (mw_core (sv_world s)) h !! (DANOS_OBJ_NEXTHOP, nh) = None /\
    objs (mw_core (sv_world s)) h !! (DANOS_OBJ_NHGROUP, grp) = None /\
    objs (mw_core (sv_world s')) h = set_objs vrf p gw oif nh grp (objs (mw_core (sv_world s)) h).
Proof.
  intros Hr Hc Hm Hw Hg Hp Hno Hfit Hk.
  destruct (subscribe_once_ok s (pe_env h _ Hp)) as (s1 & ev & Hsub & _ & _ & Hev).
  assert (Ho1 : objs (mw_core (sv_world s1)) h = objs (mw_core (sv_world s)) h) by (by rewrite Hev).
  assert (Hp1 : prog_env h (mw_core (sv_world s1))).
  { rewrite Hev. destruct Hp as [[C1 C2 C3 C4 C5] E1 E2]. by split. }
  assert (Hno1 : no_static h (mw_core (sv_world s1)) vrf p) by (rewrite Hev; exact Hno).
  assert (Hfit1 : ids_fit h (mw_core (sv_world s1)) 1) by (unfold ids_fit; by rewrite Ho1).
  rewrite <- Ho1 in Hk |- *. clear Hp Hno Hfit Ho1 Hev.
  destruct (set_fresh_run h vrf p gw oif now (sv_world s1) Hp1 (client_request _ _ _ _ Hr) Hno1 Hfit1 Hk)
    as (nh & grp & w' & Hs & _ & _ & _ & F1 & F2 & Ho).
  rewrite <- Hg in Hs.
  destruct (handle_set_route (sv_store s1) (re_now (es 0%nat)) (re_tx (es 0%nat)) MAX_MSG p gw oif vrf _ w' Hr Hs)
    as (rlen & resp & Hset).
  exists (length hs0 + 2 + seg_turns segs + S (length last.1) + S (Z.to_nat rlen))%nat, nh, grp,
    (mk_server (sv_store s1) w' (u64 (sv_rpcs_total s1 + 1)) (sv_subscribed s1)).
  intros turns fuel Ht Hf. split; [|done].
  eapply (serve_one_call stream hs0 hs blks segs last flags); [exact Hsub|done| |done|done|exact Hset|lia|lia|lia].
  pose proof (set_msg_small _ (route_request_wf p gw oif vrf Hr)).
  unfold route_request, MAX_MSG in *. lia.
Qed.

End end_to_end.

(** ** Concrete runs *)

Definition demo_set : bytes := set_msg (route_request demo_prefix (demo_gw 1) 3 0).
Definition demo_hdr : header := (lit ":path", lit "/gnmi.gNMI/Set").
Definition demo_blk : bytes := default [] (hpack_encode_literal 64 demo_hdr.1 demo_hdr.2).
Definition demo_call : bytes := call_bytes 1 [] [demo_blk] [] ([], grpc_bytes demo_set) 1.
Definition demo_server : server := mk_server None (mk_mworld tx_world_start demo_prog_core) 0 false.
Definition demo_rpc : rpc_env := mk_rpc_env 9 (fun _ => tx_granted 5) [].

Lemma demo_client : client_route demo_prefix (demo_gw 1) 3 0.
Proof.
  assert (Hb : Forall is_byte [10; 1; 0; 0; 192; 0; 2; 1]) by (repeat constructor; unfold is_byte; lia).
  split; cbn [demo_prefix demo_gw pfx_addr pfx_len ip_af ip_addr]; try done; try lia.
  - exists 10, 1, 0, 0. split; [by apply (Forall_take _ 4) in Hb|done].
  - exists 192, 0, 2, 1. split; [by apply (Forall_drop _ 4) in Hb|done].
Qed.

Lemma demo_frame_ok type flags p :
  bool_decide (is_byte type /\ is_byte flags /\ bytes_ok p /\ strlen p <= H2_MAX_FRAME_LEN) = true ->
  frame_ok (mk_frame type flags 1 p).
Proof. intros (? & ? & ? & ?)%bool_decide_eq_true_1. by split. Qed.

Lemma demo_call_ok : call 1 [] [demo_hdr] [demo_blk] [] ([], grpc_bytes demo_set) 1 demo_set.
Proof.
  split.
  - done.
  - split; (constructor; [|constructor]).
    + exists 64. vm_compute. reflexivity.
    + apply (bool_decide_unpack _). vm_compute. exact I.
  - apply demo_frame_ok. vm_compute. reflexivity.
  - split; [constructor|]. split; [constructor|constructor|]. apply demo_frame_ok. vm_compute. reflexivity.
  - vm_compute. discriminate.
  - reflexivity.
Qed.

Lemma grpc_set_programs_route_witness :
  exists turns fuel c' s' nh grp,
    danos_gnmi_grpc_serve_fd turns fuel (fun _ => demo_rpc) [RxData (take 30 demo_call); RxIntr; RxData (drop 30 demo_call)]
      [] [] demo_server = Ret (0, c', s') /\
    objs (mw_core (sv_world s')) 1 = set_objs 0 demo_prefix (demo_gw 1) 3 nh grp (objs demo_prog_core 1).
Proof.
  destruct (grpc_set_programs_route 1 [] [demo_hdr] [demo_blk] [] ([], grpc_bytes demo_set) 1 demo_prefix (demo_gw 1) 3 0 1
    [RxData (take 30 demo_call); RxIntr; RxData (drop 30 demo_call)] [] demo_server (fun _ => demo_rpc) 5)
    as (N & nh & grp & s' & H).
  - exact demo_client.
  - exact demo_call_ok.
  - vm_compute. reflexivity.
  - cbn [wire]. rewrite app_nil_r. apply take_drop.
  - reflexivity.
  - apply demo_prog_facts.
  - apply demo_no_static.
  - apply demo_ids_fit.
  - cbn [mw_core demo_server sv_world]. destruct demo_prog_facts as (_ & Ho & _). rewrite Ho. reflexivity.
  - destruct (H N N (le_n N) (le_n N)) as ((c' & Hr) & _ & _ & Ho).
    exists N, N, c', s', nh, grp. split; [exact Hr|exact Ho].
Defined.
