(* ===== verification/Mgrd.v ===== *)
(** * The management daemon: danos-mgrd mgrd.c, and the gRPC listener

    [main] wires the components together: metrics, the VPP connection, the
    netlink backend with the reconciler, persistence, and the two servers.
    What the environment answers is a record; the reconciler's thread may wake
    up before persistence is enabled. *)

From stdpp Require Import base decidable list numbers strings gmap.
From Stdlib Require Import ZArith Lia.
From S2P Require Import Prelude Dpa CStr TextBuf.
From S2P Require Import ObjectStore Wal EventBus Registry Persist DpaObjects Transaction.
From S2P Require Import StateStore Pipeline Reconciler Netlink Zapi ZapiMapper.
From S2P Require Import Observability VppWire VppMsgs VppApi VppStat GnmiSub ModelRoutes GnmiRest.
From S2P Require Import Proto ProtoCodec ModelPaths Hpack Http2 GnmiServer GrpcServer.

(** ** The gRPC listener (gnmi_grpc.c) *)

Record danos_gnmi_grpc_ctx_t := mk_grpc {
  gc_listen_fd : Z;
  gc_port : Z;
  gc_running : bool;
  gc_rpcs_served : Z;
  gc_store : option danos_state_store;
}.

Definition danos_gnmi_grpc_init (port : Z) : danos_gnmi_grpc_ctx_t := mk_grpc (-1) port false 0 None.

(** The context and [g_store]. *)
Definition danos_gnmi_grpc_set_store (store : option danos_state_store) (ctx : danos_gnmi_grpc_ctx_t)
    : danos_gnmi_grpc_ctx_t * option danos_state_store :=
  (mk_grpc (gc_listen_fd ctx) (gc_port ctx) (gc_running ctx) (gc_rpcs_served ctx) store, store).

Definition danos_gnmi_grpc_start (os : srv_os) (ctx : danos_gnmi_grpc_ctx_t) : Z * danos_gnmi_grpc_ctx_t :=
  let with_fd fd run := mk_grpc fd (gc_port ctx) run (gc_rpcs_served ctx) (gc_store ctx) in
  if sv_socket os <? 0 then (-1, with_fd (sv_socket os) (gc_running ctx))
  else if negb (sv_listen os) then (-1, with_fd (-1) (gc_running ctx))
  else if negb (sv_thread os) then (-1, with_fd (-1) false)
  else (0, with_fd (sv_socket os) true).

Definition danos_gnmi_grpc_stop (ctx : danos_gnmi_grpc_ctx_t) : danos_gnmi_grpc_ctx_t :=
  if negb (gc_running ctx) then ctx else mk_grpc (-1) (gc_port ctx) false (gc_rpcs_served ctx) (gc_store ctx).

(** The end of [grpc_conn_thread]: one more is counted for the connection. *)
Definition grpc_conn_done (ctx : danos_gnmi_grpc_ctx_t) : danos_gnmi_grpc_ctx_t :=
  mk_grpc (gc_listen_fd ctx) (gc_port ctx) (gc_running ctx) (u64 (gc_rpcs_served ctx + 1)) (gc_store ctx).

(** Each turn: [running], the answer of [accept], and whether the argument and
    the thread could be made. *)
Fixpoint grpc_accept_loop (turns : list (bool * Z * bool * bool)) : list accepted :=
  match turns with
  | [] => []
  | (running, fd, mem, thread) :: turns =>
      if negb running || (fd <? 0) then []
      else (if mem && thread then Spawned fd else Closed fd) :: grpc_accept_loop turns
  end.

(** ** Metrics of the daemon *)

(** [stat_provider]: [vpp] is [danos_vpp_api_stat_query], [rpcs] is
    [g_rpcs_total]. *)
Definition stat_provider (w : rworld netlink) (rpcs : Z) (vpp : bytes -> Z) (name : bytes) : Z :=
  if streq name "danos_programming_attempted_total" || streq name "danos_programming_ok_total" ||
     streq name "danos_programming_failed_total" then
    let st := rw_prog_stats w in
    if bool_decide (is_Some (strstr name (lit "attempted"))) then pc_attempted st
    else if bool_decide (is_Some (strstr name (lit "_ok_"))) then pc_ok st
    else pc_failed st
  else if streq name "danos_reconcile_total" || streq name "danos_reconcile_failures" then
    match danos_reconciler_global_stats (Some 0) (Some 0) (Some 0) (Some 0) w with
    | (_, _, repairs, failures) =>
        if streq name "danos_reconcile_total" then default 0 repairs else default 0 failures
    end
  else if streq name "danos_gnmi_rpcs_total" then rpcs
  else vpp name.

Definition pipeline_metrics : list (bytes * bytes * bytes) :=
  (fun m : string * string * string => (lit m.1.1, lit m.1.2, lit m.2)) <$>
  [ ("danos_programming_attempted_total", "Backend programming attempts", "danos_programming_attempted_total");
    ("danos_programming_ok_total", "Backend programming successes", "danos_programming_ok_total");
    ("danos_programming_failed_total", "Backend programming failures", "danos_programming_failed_total");
    ("danos_gnmi_rpcs_total", "gNMI RPCs served", "danos_gnmi_rpcs_total");
    ("danos_reconcile_total", "Reconciliation repairs issued", "danos_reconcile_total");
    ("danos_reconcile_failures", "Reconciliation failures", "danos_reconcile_failures") ]%string.

Definition bind_pipeline_metrics (p : prom) : prom :=
  foldl (fun p m =>
    let p := (danos_prom_register (Some m.1.1) (Some m.1.2) DANOS_METRIC_COUNTER p).2 in
    (danos_prom_bind_stat (Some m.1.1) (Some m.2) p).2) p pipeline_metrics.

Definition bind_vpp_metrics (p : prom) : prom :=
  let p := (danos_prom_bind_stat (Some (lit "danos_fwd_packets_total")) (Some (lit "/sys/node/vectors")) p).2 in
  (danos_prom_bind_stat (Some (lit "danos_fwd_errors_total")) (Some (lit "/err/ip4-input")) p).2.

(** ** The bootstrap configuration *)

Definition seed_iface (ifindex mtu : Z) (name : string) : danos_iface :=
  mk_iface ifindex (name64 (lit name)) 0 mtu (zeros 6) true false 0 0 0 no_prefix no_prefix.

Definition seed_ifaces : list danos_iface := [seed_iface 1 1500 "eth0"; seed_iface 2 9000 "eth1"].

Definition seed_vrf : danos_vrf := mk_vrf 1 (name64 (lit "mgmt")) true false.

(** Statuses are not looked at after the transaction was begun. *)
Definition seed_initial_config (e : tx_env) (w : mworld) : mworld :=
  let '(st, tx, w) := begin_tx e "mgrd-seed" w in
  if negb (bool_decide (st = DANOS_OK)) then w else
  let c := foldl (fun c i => (danos_iface_create (Some i) c).2) (mw_core w) seed_ifaces in
  let c := (danos_vrf_create (Some seed_vrf) c).2 in
  let '(_, tx, t) := danos_tx_prepare tx (mw_tx w) in
  let '(_, tx, t) := danos_tx_validate tx t in
  let '(_, tx, t) := danos_tx_commit (te_locked e) tx t in
  mk_mworld t c.

(** ** Options *)

Inductive mgrd_opt :=
  | OptPort (arg : bytes) | OptMetricsPort (arg : bytes) | OptWal (arg : bytes) | OptSeed
  | OptVppSock (arg : bytes) | OptNoVpp | OptUnknown.

Record mgrd_config := mk_mgrd_config {
  gnmi_port : Z;
  metrics_port : Z;
  wal : bytes;
  vpp_sock : option bytes;
  seed : bool;
  use_vpp : bool;
}.

Definition mgrd_defaults : mgrd_config := mk_mgrd_config 59200 59201 (lit "/var/lib/danos/mgrd.wal") None false true.

(** What [getopt_long] returns, in order; [None] prints the usage. *)
Fixpoint parse_options (os : list mgrd_opt) (g : mgrd_config) : option mgrd_config :=
  match os with
  | [] => Some g
  | o :: os =>
      match o with
      | OptPort a => parse_options os (mk_mgrd_config (u16 (atoi a)) (metrics_port g) (wal g) (vpp_sock g) (seed g) (use_vpp g))
      | OptMetricsPort a =>
          parse_options os (mk_mgrd_config (gnmi_port g) (u16 (atoi a)) (wal g) (vpp_sock g) (seed g) (use_vpp g))
      | OptWal a => parse_options os (mk_mgrd_config (gnmi_port g) (metrics_port g) a (vpp_sock g) (seed g) (use_vpp g))
      | OptSeed => parse_options os (mk_mgrd_config (gnmi_port g) (metrics_port g) (wal g) (vpp_sock g) true (use_vpp g))
      | OptVppSock a =>
          parse_options os (mk_mgrd_config (gnmi_port g) (metrics_port g) (wal g) (Some a) (seed g) (use_vpp g))
      | OptNoVpp => parse_options os (mk_mgrd_config (gnmi_port g) (metrics_port g) (wal g) (vpp_sock g) (seed g) false)
      | OptUnknown => None
      end
  end.

(** ** Start and shutdown *)

Record mgrd := mk_mgrd {
  md_prom : prom;
  md_vpp : vpp_api;
  md_stat : stat_client;
  md_rw : rworld netlink;
  md_tx : tx_world;
  md_grpc : danos_gnmi_grpc_ctx_t;
  md_srv : prom_srv;
}.

(** What the environment answers, in the order of [main]. *)
Record mgrd_env := mk_mgrd_env {
  me_vpp : vpp_env;               (* the two variables of the VPP client *)
  me_stack : bytes;               (* the handshake's buffer *)
  me_now : Z;
  me_stat : stat_os;
  me_nl_real : bool;              (* MGRD_NETLINK_REAL is set *)
  me_nl_fd : Z;
  me_wakeups : list Z;            (* of the reconciler, before persistence *)
  me_tx : tx_env;
  me_rpcs : Z;
  me_counters : bytes -> Z;
  me_grpc : srv_os;
  me_srv : srv_os;
}.

(** A process that has just started. *)
Definition mgrd_process (a : vpp_api) (n : netlink) (o : os) (time : Z) : mgrd :=
  mk_mgrd prom_boot a stat_boot (mk_rworld None (mk_pctx 0 0 0) (core_boot o time) n None) tx_world_start
    (danos_gnmi_grpc_init 0) (mk_srv 0 0 false).

(** Step 1: metrics and the VPP connection. *)
Definition mgrd_observability (g : mgrd_config) (e : mgrd_env) (m : mgrd) : mgrd :=
  let p := danos_prom_init (md_prom m) in
  let a := danos_vpp_api_init (me_vpp e) (md_vpp m) in
  let p := danos_prom_set_stat_provider (Some (stat_provider (md_rw m) (me_rpcs e) (me_counters e))) p in
  let p := bind_pipeline_metrics (bind_vpp_metrics p) in
  let '(a, st) :=
    if use_vpp g then
      let a := match vpp_sock g with Some s => danos_vpp_api_set_sock_path (Some s) a | None => a end in
      let '(ok, a) := danos_vpp_api_connect (me_vpp e) (me_stack e) (me_now e) a in
      if ok then (a, (danos_vpp_api_connect_stat a (me_stat e) (md_stat m)).1.2) else (a, md_stat m)
    else (a, md_stat m) in
  mk_mgrd p a st (md_rw m) (md_tx m) (md_grpc m) (md_srv m).

Definition mgrd_rcfg : danos_reconcile_config := mk_rcfg 1000 0 0 0 0 0.

(** [danos_netlink_register_backend] installs the operations. *)
Definition danos_netlink_register_backend (w : rworld netlink) : rworld netlink :=
  mk_rworld (Some netlink_ops) (rw_prog_stats w) (rw_core w) (rw_backend w) (g_reconciler w).

(** Step 1b: the netlink backend and the reconciler, which may wake up. *)
Definition mgrd_pipeline (e : mgrd_env) (m : mgrd) : mgrd :=
  let w := md_rw m in
  let '(rc, n) := danos_netlink_init (me_nl_fd e) (me_nl_real e) (rw_backend w) in
  let w := mk_rworld (rw_ops w) (rw_prog_stats w) (rw_core w) n (g_reconciler w) in
  let w :=
    if rc =? 0 then
      let w := danos_netlink_register_backend w in
      let '(rc, w) := danos_reconciler_init None (Some mgrd_rcfg) w in
      if rc =? 0 then
        let w := (danos_reconciler_start w).2 in
        (reconcile_thread (thread_period mgrd_rcfg) (me_wakeups e) 0 w).2
      else w
    else w in
  mk_mgrd (md_prom m) (md_vpp m) (md_stat m) w (md_tx m) (md_grpc m) (md_srv m).

Definition with_core (m : mgrd) (t : tx_world) (c : core) : mgrd :=
  mk_mgrd (md_prom m) (md_vpp m) (md_stat m) (set_core (md_rw m) c) t (md_grpc m) (md_srv m).

(** Step 2: persistence; [inl] is the exit of the process. *)
Definition mgrd_persistence (g : mgrd_config) (e : mgrd_env) (m : mgrd) : Z * mgrd + mgrd :=
  let '(rc, c) := danos_persist_enable (Some (wal g)) (rw_core (md_rw m)) in
  if negb (rc =? 0) then inl (1, with_core m (md_tx m) c) else
  let '(recovered, c) := danos_persist_recover c in
  let w := mk_mworld (md_tx m) c in
  let w := if (recovered =? 0) && seed g then seed_initial_config (me_tx e) w else w in
  let m := with_core m (mw_tx w) (mw_core w) in
  let count := danos_object_count (h ← g_default_store (mw_core w); c_stores (mw_core w) !! h) DANOS_OBJ_IFACE in
  inr (mk_mgrd (danos_prom_set (Some (lit "danos_objects_interface")) (d_of_u64 count) (md_prom m)).2
         (md_vpp m) (md_stat m) (md_rw m) (md_tx m) (md_grpc m) (md_srv m)).

(** Steps 3 and 4: the servers. *)
Definition mgrd_servers (g : mgrd_config) (e : mgrd_env) (m : mgrd) : Z * mgrd + mgrd :=
  let '(rc, gc) := danos_gnmi_grpc_start (me_grpc e) (danos_gnmi_grpc_init (gnmi_port g)) in
  let m := mk_mgrd (md_prom m) (md_vpp m) (md_stat m) (md_rw m) (md_tx m) gc (md_srv m) in
  if negb (rc =? 0) then inl (1, m) else
  let '(rc, s) := danos_prom_start_server (me_srv e) (metrics_port g) (md_srv m) in
  let m := mk_mgrd (md_prom m) (md_vpp m) (md_stat m) (md_rw m) (md_tx m) (md_grpc m) s in
  if negb (rc =? 0) then inl (1, m) else inr m.

(** [main] up to the wait for a signal. *)
Definition mgrd_main (opts : list mgrd_opt) (e : mgrd_env) (m : mgrd) : Z * mgrd + mgrd :=
  match parse_options opts mgrd_defaults with
  | None => inl (2, m)
  | Some g =>
      let m := mgrd_pipeline e (mgrd_observability g e m) in
      match mgrd_persistence g e m with
      | inl x => inl x
      | inr m => mgrd_servers g e m
      end
  end.

(** After the signal. *)
Definition mgrd_shutdown (m : mgrd) : mgrd :=
  let w := danos_reconciler_fini (danos_reconciler_stop (md_rw m)) in
  let w := mk_rworld (rw_ops w) (rw_prog_stats w) (danos_persist_disable (rw_core w))
             (danos_netlink_shutdown (rw_backend w)) (g_reconciler w) in
  mk_mgrd (md_prom m) (danos_vpp_api_disconnect (md_vpp m)) (md_stat m) w (md_tx m)
    (danos_gnmi_grpc_stop (md_grpc m)) (danos_prom_stop_server (md_srv m)).

(** A request to the metrics server while the daemon runs: the provider is
    called at that moment, so it is the function of the present state. *)
Definition mgrd_scrape (rpcs : Z) (vpp : bytes -> Z) (body : bytes) (req : option bytes) (m : mgrd)
    : option (list bytes * mgrd) :=
  let p := danos_prom_set_stat_provider (Some (stat_provider (md_rw m) rpcs vpp)) (md_prom m) in
  '(sent, p) ← prom_conn body req p;
  Some (sent, mk_mgrd p (md_vpp m) (md_stat m) (md_rw m) (md_tx m) (md_grpc m) (md_srv m)).

(** ** The daemon comes up on its log *)

(** Both servers can listen. *)
Definition servers_up (e : mgrd_env) : Prop :=
  0 <= sv_socket (me_grpc e) /\ sv_listen (me_grpc e) = true /\ sv_thread (me_grpc e) = true /\
  0 <= sv_socket (me_srv e) /\ sv_listen (me_srv e) = true /\ sv_thread (me_srv e) = true.

Lemma servers_start g e m :
  servers_up e -> srv_running (md_srv m) = false ->
  exists m', mgrd_servers g e m = inr m' /\ md_rw m' = md_rw m /\ md_prom m' = md_prom m /\
    gc_running (md_grpc m') = true /\ srv_running (md_srv m') = true.
Proof.
  intros (H1 & H2 & H3 & H4 & H5 & H6) Hr. unfold mgrd_servers, danos_gnmi_grpc_start, danos_prom_start_server.
  rewrite (proj2 (Z.ltb_ge _ _) H1), H2, H3. cbn [negb Z.eqb md_srv]. rewrite Hr.
  rewrite (proj2 (Z.ltb_ge _ _) H4), H5, H6. cbn [negb Z.eqb]. eexists. by split_and!.
Qed.

(** Without a default store the reconciler leaves the core as it is. *)
Lemma idle_thread o t period nows waited (w : rworld netlink) :
  rw_core w = core_boot o t -> (forall r, g_reconciler w = Some r -> rc_state r = None) ->
  rw_core (reconcile_thread period nows waited w).2 = core_boot o t.
Proof.
  revert waited w. induction nows as [|now nows IH]; intros waited w Hw Hs; [done|]. cbn [reconcile_thread].
  unfold reconcile_tick. destruct (g_reconciler w) as [r|] eqn:Er; [|done].
  destruct (rc_running r); cbn [negb]; [|done]. unfold danos_programming_dirty_take. rewrite Hw.
  cbn [core_boot g_dirty negb andb]. set (w1 := set_core w _).
  destruct (_ <? period).
  - specialize (IH (u64 (waited + 50000)) w1 eq_refl). apply IH.
    intros r' Hr'. apply Hs. rewrite <- Er. exact Hr'.
  - assert (H2 : let w2 := (danos_reconciler_run_once now w1).2 in
      rw_core w2 = core_boot o t /\ (forall r, g_reconciler w2 = Some r -> rc_state r = None)).
    { unfold danos_reconciler_run_once. change (g_reconciler w1) with (g_reconciler w). rewrite Er.
      rewrite (Hs r eq_refl). unfold programming_run. change (rw_ops w1) with (rw_ops w).
      destruct (rw_ops w); cbn; (split; [done|]); intros r' [= <-]; exact (Hs r eq_refl). }
    destruct H2 as [H2 H3]. specialize (IH 0 _ H2 H3). exact IH.
Qed.

Lemma pipeline_core e m o t :
  rw_core (md_rw m) = core_boot o t -> g_reconciler (md_rw m) = None -> os_env o = [] ->
  let m' := mgrd_pipeline e m in
  rw_core (md_rw m') = core_boot o t /\ md_prom m' = md_prom m /\ md_srv m' = md_srv m /\ md_tx m' = md_tx m.
Proof.
  intros Hc Hr Ho. unfold mgrd_pipeline. destruct (danos_netlink_init _ _ _) as [rc n].
  destruct (rc =? 0); [|cbn; by split_and!].
  unfold danos_reconciler_init, danos_netlink_register_backend. cbn [g_reconciler rw_core rw_ops]. rewrite Hr, Hc.
  change (bool_decide (is_Some None)) with false. cbv iota. rewrite core_alloc_granted by done. cbn [negb Z.eqb].
  unfold danos_reconciler_start. cbn [set_reconciler set_core g_reconciler rc_running rw_core].
  rewrite core_alloc_granted by done. cbn [md_rw md_prom md_srv md_tx snd]. split_and!; try done.
  apply idle_thread; [done|]. by intros r [= <-].
Qed.

Lemma observability_core g e m :
  let m' := mgrd_observability g e m in
  md_rw m' = md_rw m /\ md_srv m' = md_srv m /\ md_tx m' = md_tx m.
Proof.
  unfold mgrd_observability. destruct (use_vpp g); [|done].
  destruct (danos_vpp_api_connect _ _ _ _) as [[] a]; done.
Qed.

(** *** Seeding *)

Definition seed_ops : list obj_op :=
  ((fun i => OpCreate DANOS_OBJ_IFACE (iface_ifindex i) (Some (to_mem i))) <$> seed_ifaces) ++
  [OpCreate DANOS_OBJ_VRF (vrf_vrf_id seed_vrf) (Some (to_mem seed_vrf))].

(** What a daemon that was seeded holds. *)
Definition seed_objs : gmap obj_key bytes := spec_ops seed_ops ∅.

Lemma seed_ops_ok : Forall op_ok seed_ops.
Proof. repeat constructor; vm_compute; done. Qed.

Lemma create_op path log c (A : Type) (Hs : CStruct A) type (key : A -> Z) (x : A) :
  durable path 1 log c ->
  create_as type key (Some x) c = run_op 1 (OpCreate type (key x) (Some (to_mem x))) c.
Proof.
  intros Hd. unfold create_as, get_default_store. by rewrite (du_default _ _ _ _ Hd).
Qed.

(** The seed is the sequence of its creations. *)
Lemma seed_run path log now t c :
  durable path 1 log c ->
  mw_core (seed_initial_config (tx_granted now) (mk_mworld t c)) = run_ops 1 seed_ops c.
Proof.
  intros Hd. unfold seed_initial_config.
  destruct (begin_open now "mgrd-seed" (mk_mworld t c)) as (x & h & r & t1 & -> & Hx & Hr & Ho).
  rewrite bool_decide_eq_true_2 by done. cbn [negb mw_core mw_tx].
  destruct (danos_tx_prepare _ _) as [[? ?] ?], (danos_tx_validate _ _) as [[? ?] ?], (danos_tx_commit _ _ _) as [[? ?] ?].
  cbn [mw_core]. unfold seed_ops, run_ops. pose proof seed_ops_ok as Hok. unfold seed_ops, seed_ifaces in *.
  cbn [fmap list_fmap app foldl] in *. inversion_clear Hok as [|?? H1 Hok']. inversion_clear Hok' as [|?? H2 _].
  unfold danos_iface_create, danos_vrf_create. rewrite (create_op path log c _ _ _ _ _ Hd).
  destruct (durable_op path 1 _ _ _ Hd H1) as [Hd1 _]. rewrite (create_op _ _ _ _ _ _ _ _ Hd1).
  destruct (durable_op path 1 _ _ _ Hd1 H2) as [Hd2 _]. rewrite (create_op _ _ _ _ _ _ _ _ Hd2). done.
Qed.

Lemma unused_slots n ac : foldl apply_slot ac (replicate n slot_zero) = ac.
Proof. induction n as [|n IH]; [done|]. cbn [replicate foldl]. by destruct ac. Qed.

(** Nothing is recovered from an empty log. *)
Lemma recover_empty path o t :
  (length path <= 255)%nat -> os_env o = [] -> default [] (file o path) = [] ->
  (danos_persist_recover (danos_persist_enable (Some path) (core_boot o t)).2).1 = 0.
Proof.
  intros Hp Henv Hf. destruct (boot_enable path o t Hp Henv) as (w & o1 & -> & [Hfp Hpath Hen Hf1 Henv1]).
  rewrite Hf in Hf1. cbn [snd]. unfold danos_persist_recover. simpl. rewrite store_create_granted by done. simpl.
  rewrite core_alloc_granted by done. simpl. rewrite Hpath.
  rewrite (wal_replay_log replay_cb) with (recs := []) (tail := []);
    [|auto using replay_cb_env|constructor|apply wal_stuck_nil|done|done].
  unfold replay_fold. cbn [foldl fst snd]. rewrite (unused_slots REPLAY_SLOTS). done.
Qed.

(** *** [main] *)

Definition boot_recovered (path : bytes) (o : os) (t : Z) : Z :=
  (danos_persist_recover (danos_persist_enable (Some path) (core_boot o t)).2).1.

Definition boot_prom (g : mgrd_config) (e : mgrd_env) (a : vpp_api) (n : netlink) (o : os) (t : Z) : prom :=
  md_prom (mgrd_observability g e (mgrd_process a n o t)).

(** The interfaces of the default store. *)
Definition iface_count (c : core) : Z :=
  danos_object_count (h ← g_default_store c; c_stores c !! h) DANOS_OBJ_IFACE.

Lemma iface_count_u64 c : 0 <= iface_count c < 2 ^ 64.
Proof. unfold iface_count, danos_object_count. case_match; [|lia]. unfold u64. apply Z.mod_pos_bound. lia. Qed.

(** [main] reaches the wait for a signal: the core is what the log gives,
    seeded when nothing was recovered and the option says so. *)
Lemma main_up opts g e a n o t :
  parse_options opts mgrd_defaults = Some g -> servers_up e -> (length (wal g) <= 255)%nat -> os_env o = [] ->
  let c := boot (wal g) o t in
  exists m, mgrd_main opts e (mgrd_process a n o t) = inr m /\
    gc_running (md_grpc m) = true /\ srv_running (md_srv m) = true /\
    rw_core (md_rw m) =
      (if (boot_recovered (wal g) o t =? 0) && seed g
       then mw_core (seed_initial_config (me_tx e) (mk_mworld tx_world_start c)) else c) /\
    md_prom m = (danos_prom_set (Some (lit "danos_objects_interface"))
                   (d_of_u64 (iface_count (rw_core (md_rw m)))) (boot_prom g e a n o t)).2.
Proof.
  intros Hg He Hp Ho c. unfold mgrd_main. rewrite Hg.
  destruct (observability_core g e (mgrd_process a n o t)) as (H1 & H2 & H3).
  destruct (pipeline_core e (mgrd_observability g e (mgrd_process a n o t)) o t) as (P1 & P2 & P3 & P4);
    [by rewrite H1..|done|].
  unfold mgrd_persistence. rewrite P1, P4, H3. unfold boot_recovered, c, boot.
  destruct (boot_enable (wal g) o t Hp Ho) as (w & o1 & -> & _). cbn [negb Z.eqb snd].
  destruct (danos_persist_recover _) as [r c1]. cbn [fst snd mgrd_process md_tx].
  set (w1 := if (r =? 0) && seed g then _ else _).
  edestruct servers_start as (m & -> & M1 & M2 & M3 & M4); [exact He| |].
  { cbn [md_srv with_core]. rewrite P3, H2. done. }
  exists m. split; [done|]. split; [done|]. split; [done|]. rewrite M1, M2. split.
  - cbn [md_rw with_core set_core rw_core]. unfold w1. by destruct (_ && _).
  - cbn [md_prom md_rw with_core set_core rw_core]. by rewrite P2.
Qed.

(** The core of the running daemon is durable and holds what the log holds,
    or that and the seed. *)
Lemma main_objs opts g e now a n o t recs :
  parse_options opts mgrd_defaults = Some g -> servers_up e -> me_tx e = tx_granted now ->
  (length (wal g) <= 255)%nat -> os_env o = [] ->
  default [] (file o (wal g)) = wal_log recs -> Forall log_rec recs ->
  (size (rec_keys recs) <= REPLAY_SLOTS)%nat ->
  let ops := if (boot_recovered (wal g) o t =? 0) && seed g then seed_ops else [] in
  exists m, mgrd_main opts e (mgrd_process a n o t) = inr m /\
    durable (wal g) 1 (wal_log (recs ++ ops_log ops (log_objs recs))) (rw_core (md_rw m)) /\
    objs (rw_core (md_rw m)) 1 = spec_ops ops (log_objs recs).
Proof.
  intros Hg He Htx Hp Ho Hf Hrecs Hsz ops. rewrite <- (app_nil_r (wal_log recs)) in Hf.
  destruct (boot_log (wal g) o t recs [] Hp Ho Hf Hrecs wal_stuck_nil Hsz) as [Hd Hobj]. rewrite app_nil_r in Hd.
  destruct (main_up opts g e a n o t Hg He Hp Ho) as (m & Hm & _ & _ & Hc & _). exists m. split; [done|].
  assert (Hr : rw_core (md_rw m) = run_ops 1 ops (boot (wal g) o t)).
  { rewrite Hc. unfold ops. destruct (_ && _); [|done]. rewrite Htx. by eapply seed_run. }
  assert (Hok : Forall op_ok ops) by (unfold ops; destruct (_ && _); [apply seed_ops_ok|constructor]).
  destruct (durable_ops (wal g) 1 ops _ _ Hd Hok) as [Hd2 Ho2]. rewrite Hobj in Hd2, Ho2.
  by rewrite Hr, wal_log_app.
Qed.

(** The daemon resumes its configuration: with servers that can listen, a
    start without [--seed] on any log of persistable records reaches the wait
    for a signal with both servers running and the object store holding exactly
    what the log says, whether or not VPP answers, whether or not netlink can
    be opened, and however often the reconciler wakes up before persistence is
    enabled. *)
Theorem mgrd_restores_log opts g e now a n o t recs :
  parse_options opts mgrd_defaults = Some g -> seed g = false -> servers_up e -> me_tx e = tx_granted now ->
  (length (wal g) <= 255)%nat -> os_env o = [] ->
  default [] (file o (wal g)) = wal_log recs -> Forall log_rec recs ->
  (size (rec_keys recs) <= REPLAY_SLOTS)%nat ->
  exists m, mgrd_main opts e (mgrd_process a n o t) = inr m /\
    gc_running (md_grpc m) = true /\ srv_running (md_srv m) = true /\
    objs (rw_core (md_rw m)) 1 = log_objs recs.
Proof.
  intros Hg Hs He Htx Hp Ho Hf Hrecs Hsz.
  destruct (main_up opts g e a n o t Hg He Hp Ho) as (m & Hm & H1 & H2 & _).
  destruct (main_objs opts g e now a n o t recs Hg He Htx Hp Ho Hf Hrecs Hsz) as (m' & Hm' & _ & Hobj).
  assert (m' = m) as -> by congruence. exists m. rewrite Hobj, Hs, andb_false_r. done.
Qed.

(** C8. A seeded configuration is the same after every restart: with [--seed]
    on an empty log, the daemon comes up with exactly the two interfaces and
    the VRF of the bootstrap configuration; a daemon started with the same
    options on the files it leaves comes up with exactly the same objects. *)
Theorem mgrd_seed_survives opts g e e' now now' a a' n n' o t t' :
  parse_options opts mgrd_defaults = Some g -> seed g = true ->
  servers_up e -> servers_up e' -> me_tx e = tx_granted now -> me_tx e' = tx_granted now' ->
  (length (wal g) <= 255)%nat -> os_env o = [] -> default [] (file o (wal g)) = [] ->
  exists m m', mgrd_main opts e (mgrd_process a n o t) = inr m /\
    objs (rw_core (md_rw m)) 1 = seed_objs /\
    mgrd_main opts e' (mgrd_process a' n' (c_os (rw_core (md_rw m))) t') = inr m' /\
    objs (rw_core (md_rw m')) 1 = seed_objs.
Proof.
  intros Hg Hs He He' Htx Htx' Hp Ho Hf.
  destruct (main_objs opts g e now a n o t [] Hg He Htx Hp Ho Hf) as (m & Hm & Hd & Hobj); [constructor|apply rec_keys_nil|].
  unfold boot_recovered in Hd, Hobj. rewrite recover_empty, Hs in Hd, Hobj by done. cbn [Z.eqb andb] in Hd, Hobj.
  destruct Hd as [[_ _ _ Hf2 Henv2] _ _ _ _ _].
  destruct (main_objs opts g e' now' a' n' (c_os (rw_core (md_rw m))) t' (ops_log seed_ops ∅) Hg He' Htx' Hp Henv2)
    as (m' & Hm' & _ & Hobj').
  - by rewrite Hf2.
  - apply (ops_log_recs seed_ops ∅ seed_ops_ok).
  - apply Nat.leb_le. vm_compute. reflexivity.
  - exists m, m'. split_and!; try done. rewrite Hobj'. destruct (_ && _); vm_compute; reflexivity.
Qed.

(** ** Scrapes of the daemon *)

(** The table after the metrics are set up; the provider is not called there. *)
Definition mgrd_metrics : list prom_metric_t :=
  g_metrics (bind_pipeline_metrics (bind_vpp_metrics (danos_prom_init prom_boot))).

Lemma metrics_bound fn :
  bind_pipeline_metrics (bind_vpp_metrics (danos_prom_set_stat_provider (Some fn) (danos_prom_init prom_boot))) =
  mk_prom mgrd_metrics true (Some fn).
Proof. vm_compute. reflexivity. Qed.

Lemma boot_prom_metrics g e a n o t : g_metrics (boot_prom g e a n o t) = mgrd_metrics.
Proof.
  unfold boot_prom, mgrd_observability. cbn [mgrd_process md_prom md_rw md_stat md_vpp]. rewrite metrics_bound.
  destruct (use_vpp g); [|done]. by destruct (danos_vpp_api_connect _ _ _ _) as [[] ?].
Qed.

Lemma iface_gauge : find_metric_locked (Some (lit "danos_objects_interface")) mgrd_metrics = Some 11%nat.
Proof. vm_compute. reflexivity. Qed.

(** A metric whose text is short: a counter or gauge of the daemon, or a
    histogram without observations. *)
Definition metric_short (m : prom_metric_t) : Prop :=
  (length (pm_name m) <= 34 /\ length (pm_help m) <= 29 /\ length (print_f6 (pm_value m)) <= 27)%nat /\
  pm_hcount m = 0 /\ d_eq (pm_hsum m) dzero = true /\ (length (print_f6 (pm_hsum m)) <= 9)%nat.

Lemma set_short v m : 0 <= v < 2 ^ 64 -> metric_short m -> metric_short (set_value (d_of_u64 v) m).
Proof. intros Hv ((H1 & H2 & _) & H4). split; [|done]. split_and!; [done..|]. by apply counter_text. Qed.

Lemma refresh_short fn m : (forall n, 0 <= fn n < 2 ^ 64) -> metric_short m -> metric_short (refresh_metric fn m).
Proof. intros Hf Hm. unfold refresh_metric. destruct (negb (is_bound m)); [done|]. case_match; [by apply set_short|done]. Qed.

Lemma type_name_short ty : (length (type_name ty) <= 9)%nat.
Proof. unfold type_name. repeat case_match; cbn; lia. Qed.

Lemma short_text m : metric_short m -> (length (metric_text m) <= 216)%nat.
Proof.
  intros ((H1 & H2 & H3) & H4 & _ & H5). pose proof (type_name_short (pm_type m)) as Ht.
  unfold metric_text, metric_lines, help_line, type_line, value_lines. rewrite H4.
  cbn [concat]. case_match; rewrite ?length_app; cbn [length];
    change (length (lit "# HELP ")) with 7%nat; change (length (lit "# TYPE ")) with 7%nat;
    change (length (lit "_count ")) with 7%nat; change (length (lit "_sum ")) with 5%nat;
    change (length (dec 0)) with 1%nat; lia.
Qed.

Lemma metrics_short : Forall metric_short mgrd_metrics.
Proof. lit_text. Qed.

Lemma texts_short ms : Forall metric_short ms -> Forall (fun t => (length t <= 216)%nat) (metric_texts ms).
Proof.
  induction 1 as [|m ms Hm _ IH]; [constructor|]. rewrite metric_texts_cons.
  case_match; [constructor; [by apply short_text|done]|done].
Qed.

Lemma texts_full ms : Forall (fun t => t <> []) (metric_texts ms).
Proof.
  induction ms as [|m ms IH]; [constructor|]. rewrite metric_texts_cons. case_match; [|done]. by constructor.
Qed.

Lemma texts_count ms : length (metric_texts ms) = length (filter (fun b => b = true) (pm_used <$> ms)).
Proof.
  induction ms as [|m ms IH]; [done|]. rewrite metric_texts_cons. cbn [fmap list_fmap]. rewrite filter_cons.
  destruct (pm_used m); cbn [length]; by rewrite IH.
Qed.

Lemma length_concat_le k (l : list bytes) :
  Forall (fun t => (length t <= k)%nat) l -> (length (concat l) <= k * length l)%nat.
Proof. induction 1; cbn [concat length]; rewrite ?length_app; lia. Qed.

(** The table of a scrape. *)
Definition scraped (fn : danos_stat_provider_fn) (count : Z) : list prom_metric_t :=
  refresh_metric fn <$> alter (set_value (d_of_u64 count)) 11%nat mgrd_metrics.

Lemma scraped_short fn count :
  (forall n, 0 <= fn n < 2 ^ 64) -> 0 <= count < 2 ^ 64 -> Forall metric_short (scraped fn count).
Proof.
  intros Hf Hc. unfold scraped. apply Forall_fmap.
  apply (Forall_impl metric_short); [|intros m Hm; by apply refresh_short].
  apply Forall_alter; [apply metrics_short|]. intros m _ Hm. by apply set_short.
Qed.

Lemma refresh_used fn m : pm_used (refresh_metric fn m) = pm_used m.
Proof. unfold refresh_metric. destruct (negb (is_bound m)); [done|]. by case_match. Qed.

Lemma scraped_count fn count : length (metric_texts (scraped fn count)) = 43%nat.
Proof.
  rewrite texts_count.
  transitivity (length (filter (fun b => b = true) (pm_used <$> mgrd_metrics))); [|vm_compute; reflexivity]. do 2 f_equal.
  unfold scraped. apply list_eq. intros i. rewrite !list_lookup_fmap. destruct (decide (i = 11%nat)) as [->|Hi].
  - rewrite list_lookup_alter_eq. destruct (mgrd_metrics !! 11%nat) as [m|]; [|done]. cbn [fmap option_fmap option_map].
    by rewrite refresh_used.
  - rewrite list_lookup_alter_ne by congruence. destruct (mgrd_metrics !! i) as [m|]; [|done].
    cbn [fmap option_fmap option_map]. by rewrite refresh_used.
Qed.

(** The metrics that show a counter, and its name for the provider. *)
Definition mgrd_bindings : list (bytes * bytes) :=
  [(lit "danos_fwd_packets_total", lit "/sys/node/vectors"); (lit "danos_fwd_errors_total", lit "/err/ip4-input")] ++
  ((fun m => (m.1.1, m.2)) <$> pipeline_metrics).

Definition bound_at (x : bytes * bytes) (i : nat) (m : prom_metric_t) : bool :=
  negb (i =? 11)%nat && is_bound m && d_eq (pm_value m) dzero && bool_decide (pm_name m = x.1) &&
  bool_decide (pm_stat_name m = x.2).

Definition bound_in (x : bytes * bytes) : bool :=
  default false (i ← find_metric_locked (Some x.1) mgrd_metrics; m ← mgrd_metrics !! i; Some (bound_at x i m)).

Lemma bindings_bound : Forall (fun x => bound_in x = true) mgrd_bindings.
Proof. lit_text. Qed.

Lemma bound_refresh fn (ms : list prom_metric_t) i m x :
  ms !! i = Some m -> bound_at x i m = true ->
  forall f, exists m', m' ∈ refresh_metric fn <$> alter f 11%nat ms /\ pm_name m' = x.1 /\ pm_value m' = d_of_u64 (fn x.2).
Proof.
  intros Em. unfold bound_at.
  intros [[[[Hi Hb]%andb_prop Hv]%andb_prop Hn%bool_decide_eq_true_1]%andb_prop Hs%bool_decide_eq_true_1]%andb_prop f.
  apply negb_true_iff, Nat.eqb_neq in Hi. exists (refresh_metric fn m). split.
  - apply list_elem_of_lookup. exists i. rewrite list_lookup_fmap, list_lookup_alter_ne by congruence. by rewrite Em.
  - unfold refresh_metric. rewrite Hb, Hv, orb_true_r. cbn [negb set_value pm_name pm_value]. by rewrite Hs.
Qed.

Lemma bound_scraped fn count x :
  bound_in x = true ->
  exists m, m ∈ scraped fn count /\ pm_name m = x.1 /\ pm_value m = d_of_u64 (fn x.2).
Proof.
  unfold bound_in, scraped. generalize mgrd_metrics. intros ms.
  destruct (find_metric_locked _ _) as [i|]; [|done]. cbn [mbind option_bind].
  destruct (ms !! i) as [m|] eqn:Em; [|done]. intros Hb. exact (bound_refresh fn ms i m x Em Hb _).
Qed.

(** C28. A scrape of the running daemon is complete and up to date: whatever
    64-bit numbers the counters show and however many interfaces are
    configured, the first request for [/metrics] is answered with the texts of
    all 43 metrics, within the page, and every metric bound to a counter shows
    the number the provider gives at that moment. *)
Theorem mgrd_scrape_exact opts g e a n o t m body req rpcs vpp :
  parse_options opts mgrd_defaults = Some g -> servers_up e -> (length (wal g) <= 255)%nat -> os_env o = [] ->
  mgrd_main opts e (mgrd_process a n o t) = inr m ->
  strlen body = 16383 -> is_Some (strstr (c_str req) (lit "/metrics")) ->
  let fn := stat_provider (md_rw m) rpcs vpp in
  (forall name, 0 <= fn name < 2 ^ 64) ->
  exists m', let ms := g_metrics (md_prom m') in let page := concat (metric_texts ms) in
    mgrd_scrape rpcs vpp body (Some req) m = Some ([http_ok (strlen page); page], m') /\
    length (metric_texts ms) = 43%nat /\
    Forall (fun x => exists mt, mt ∈ ms /\ pm_name mt = x.1 /\ pm_value mt = d_of_u64 (fn x.2)) mgrd_bindings.
Proof.
  intros Hg He Hp Ho Hm Hb Hr fn Hfn.
  destruct (main_up opts g e a n o t Hg He Hp Ho) as (m0 & Hm0 & _ & _ & _ & Hprom).
  assert (m0 = m) as -> by congruence. unfold mgrd_scrape. rewrite Hprom. fold fn.
  set (cnt := iface_count _). set (p := danos_prom_set_stat_provider _ _).
  assert (Hms : g_metrics (danos_prom_refresh p).2 = scraped fn cnt).
  { unfold p, danos_prom_set, on_metric. rewrite boot_prom_metrics.
    rewrite iface_gauge. unfold scraped.
    cbn [snd set_metrics danos_prom_set_stat_provider danos_prom_refresh g_provider g_metrics].
    reflexivity. }
  pose proof (texts_short _ (scraped_short fn cnt Hfn (iface_count_u64 _))) as Hts.
  pose proof (scraped_count fn cnt) as Hcnt. pose proof (length_concat_le 216 _ Hts) as Hlen.
  rewrite (scrape_exact p body req Hb Hr); rewrite ?Hms.
  - exists (mk_mgrd (danos_prom_refresh p).2 (md_vpp m) (md_stat m) (md_rw m) (md_tx m) (md_grpc m) (md_srv m)).
    cbn [mbind option_bind md_prom]. rewrite Hms. split; [reflexivity|]. split; [done|].
    eapply Forall_impl; [apply bindings_bound|]. intros x Hx. by apply bound_scraped.
  - eapply Forall_impl; [exact Hts|]. cbn. lia.
  - rewrite Hcnt in Hlen. unfold strlen. lia.
  - intros Hnil. destruct (metric_texts (scraped fn cnt)) as [|x l] eqn:El; [done|].
    pose proof (texts_full (scraped fn cnt)) as Hx. rewrite El in Hx. inversion_clear Hx as [|?? Hx0 _].
    apply Hx0. by apply app_eq_nil in Hnil as [-> _].
Qed.

(** ** Concrete runs *)

Definition demo_mgrd_env : mgrd_env :=
  mk_mgrd_env VppApi.demo_env [] 0 (mk_stat_os 3 (fun _ => false) None None false 0) false 3 [50; 100] (tx_granted 5) 7
    (fun _ => 4) (mk_srv_os 6 true true) (mk_srv_os 8 true true).

Definition demo_opts (seed : bool) : list mgrd_opt :=
  [OptNoVpp; OptWal (lit "/w"); OptPort (lit "7000")] ++ (if seed then [OptSeed] else []).

Definition demo_cfg (seed : bool) : mgrd_config := mk_mgrd_config 7000 59201 (lit "/w") None seed false.

Definition demo_mgrd (o : os) : mgrd := mgrd_process (VppApi.demo_client []) demo_nl o 0.

Lemma demo_servers : servers_up demo_mgrd_env.
Proof. split_and!; done. Qed.

Lemma mgrd_restores_log_witness :
  let recs := ops_log seed_ops ∅ in
  exists m, mgrd_main (demo_opts false) demo_mgrd_env (demo_mgrd (mk_os [] {[ lit "/w" := wal_log recs ]})) = inr m /\
    objs (rw_core (md_rw m)) 1 = log_objs recs.
Proof.
  intros recs. destruct (mgrd_restores_log (demo_opts false) (demo_cfg false) demo_mgrd_env 5 (VppApi.demo_client []) demo_nl
    (mk_os [] {[ lit "/w" := wal_log recs ]}) 0 recs) as (m & Hm & _ & _ & Ho).
  - vm_compute. reflexivity.
  - reflexivity.
  - exact demo_servers.
  - reflexivity.
  - cbn. lia.
  - reflexivity.
  - vm_compute. reflexivity.
  - apply (ops_log_recs seed_ops ∅ seed_ops_ok).
  - apply Nat.leb_le. vm_compute. reflexivity.
  - exists m. exact (conj Hm Ho).
Defined.

Lemma mgrd_seed_survives_witness :
  exists m m', mgrd_main (demo_opts true) demo_mgrd_env (demo_mgrd (mk_os [] ∅)) = inr m /\
    mgrd_main (demo_opts true) demo_mgrd_env (demo_mgrd (c_os (rw_core (md_rw m)))) = inr m' /\
    objs (rw_core (md_rw m')) 1 = seed_objs /\ size seed_objs = 3%nat.
Proof.
  destruct (mgrd_seed_survives (demo_opts true) (demo_cfg true) demo_mgrd_env demo_mgrd_env 5 5 (VppApi.demo_client [])
    (VppApi.demo_client []) demo_nl demo_nl (mk_os [] ∅) 0 0) as (m & m' & Hm & _ & Hm' & Ho).
  - vm_compute. reflexivity.
  - reflexivity.
  - exact demo_servers.
  - exact demo_servers.
  - reflexivity.
  - reflexivity.
  - cbn. lia.
  - reflexivity.
  - reflexivity.
  - exists m, m'. split; [exact Hm|]. split; [exact Hm'|]. split; [exact Ho|]. vm_compute. reflexivity.
Defined.

(** The daemon right after its start. *)
Definition demo_up : mgrd :=
  match mgrd_main (demo_opts true) demo_mgrd_env (demo_mgrd (mk_os [] ∅)) with inr m => m | inl (_, m) => m end.

Lemma demo_up_main : mgrd_main (demo_opts true) demo_mgrd_env (demo_mgrd (mk_os [] ∅)) = inr demo_up.
Proof.
  unfold demo_up, demo_mgrd. destruct (main_up (demo_opts true) (demo_cfg true) demo_mgrd_env (VppApi.demo_client []) demo_nl (mk_os [] ∅) 0)
    as (m & -> & _); [vm_compute; reflexivity|exact demo_servers|cbn; lia|reflexivity|reflexivity].
Qed.

Lemma demo_provider name : 0 <= stat_provider (md_rw demo_up) 7 (fun _ => 4) name < 2 ^ 64.
Proof.
  assert (Hs : rw_prog_stats (md_rw demo_up) = mk_pctx 0 0 0) by (vm_compute; reflexivity).
  assert (Hr : danos_reconciler_global_stats (Some 0) (Some 0) (Some 0) (Some 0) (md_rw demo_up) =
    (Some 0, Some 0, Some 0, Some 0)) by (vm_compute; reflexivity).
  unfold stat_provider. rewrite Hs, Hr. repeat case_match; cbn; lia.
Qed.

Lemma mgrd_scrape_exact_witness :
  exists m', let page := concat (metric_texts (g_metrics (md_prom m'))) in
    mgrd_scrape 7 (fun _ => 4) (zeros (Z.to_nat 16383)) (Some (lit "GET /metrics HTTP/1.1")) demo_up =
      Some ([http_ok (strlen page); page], m') /\ length (metric_texts (g_metrics (md_prom m'))) = 43%nat.
Proof.
  destruct (mgrd_scrape_exact (demo_opts true) (demo_cfg true) demo_mgrd_env (VppApi.demo_client []) demo_nl (mk_os [] ∅) 0 demo_up
    (zeros (Z.to_nat 16383)) (lit "GET /metrics HTTP/1.1") 7 (fun _ => 4)) as (m' & H1 & H2 & _).
  - vm_compute. reflexivity.
  - exact demo_servers.
  - cbn. lia.
  - reflexivity.
  - exact demo_up_main.
  - vm_compute. reflexivity.
  - vm_compute. eauto.
  - exact demo_provider.
  - exists m'. exact (conj H1 H2).
Defined.

(** ** A client of the daemon *)

(** The request of a client that deletes the interface [name]. *)
Definition delete_request (name : bytes) : gnmi_set_request_t :=
  mk_set path0 [mk_path [] [mk_elem (lit "interfaces") false [] []; mk_elem (lit "interface") true (lit "name") name]] [] [].

Definition delete_call (name : bytes) : bytes :=
  call_bytes 1 [] [demo_blk] [] ([], grpc_bytes (set_msg (delete_request name))) 1.

(** The daemon's server: [main] gives it no state store. *)
Definition mgrd_server (m : mgrd) : server := mk_server (gc_store (md_grpc m)) (mk_mworld (md_tx m) (rw_core (md_rw m))) 0 false.

(** A delete of a configured interface ends the daemon: [main] never gives
    the gRPC server a state store, so on a freshly seeded daemon the Set
    request that deletes eth0 makes the handler read through a null pointer,
    where the same request for an unknown interface is answered. *)
Theorem mgrd_iface_delete_faults `{L : inet6_lib} :
  danos_gnmi_grpc_serve_fd 10 10 (fun _ => demo_rpc) [RxData (delete_call (lit "eth0"))] [] [] (mgrd_server demo_up) = Fault /\
  exists c s, danos_gnmi_grpc_serve_fd 10 10 (fun _ => demo_rpc) [RxData (delete_call (lit "eth7"))] [] []
    (mgrd_server demo_up) = Ret (0, c, s).
Proof. split; [vm_compute; reflexivity|]. eexists _, _. vm_compute. reflexivity. Qed.
