(* ===== verification/System.v ===== *)
(** * Runs of the daemon: danos-mgrd from its first start on

    The daemon as a transition system: clients change objects, the reconciler
    thread wakes up, the metrics are scraped, the process is stopped or dies
    and is started again on the files it left.  The theorems are invariants of
    every reachable state. *)

From stdpp Require Import base decidable list numbers gmap strings.
From Stdlib Require Import ZArith Lia.
From S2P Require Import Prelude Dpa ObjectStore Wal EventBus Registry Persist DpaObjects Transaction.
From S2P Require Import Pipeline Reconciler Netlink CStr Observability VppApi VppStat ModelRoutes GrpcServer Mgrd.

(** ** What leaves the durable store alone *)

(** A durable core whose store holds [M]. *)
Definition keeps (path : bytes) (h : Z) (log : bytes) (M : gmap obj_key bytes) (c : core) : Prop :=
  durable path h log c /\ objs c h = M.

Lemma durable_prog_env path h log c : durable path h log c -> prog_env h c.
Proof. intros [Hw _ _ Hwf Hd _]. split; [done|done|by apply Hw]. Qed.

Section keeps.
Context (path : bytes) (h : Z) (log : bytes) (M : gmap obj_key bytes).

(** A change of anything but the files and the log. *)
Lemma durable_same c c' :
  durable path h log c -> c_os c' = c_os c -> c_persist c' = c_persist c -> prog_env h c' -> durable path h log c'.
Proof.
  intros [Hw He Hr _ _ _] Ho Hp Henv. split; rewrite ?Ho, ?Hp; try done; [apply Henv|apply Henv|by apply pe_live].
Qed.

Lemma keeps_ledger c :
  keeps path h log M c -> exists l c', ledger c = (Some l, c') /\ keeps path h log M c' /\ g_programmed c' = Some l.
Proof.
  intros [Hd Ho]. pose proof (durable_prog_env _ _ _ _ Hd) as Hp.
  destruct (ledger_spec h c Hp) as (l & c' & Hl & _ & Hsd & Hpr & _). exists l, c'. split_and!; [done| |done].
  split; [|by rewrite (sd_objs _ _ _ Hsd)]. apply (durable_same c); [done|..|by apply Hsd].
  - unfold ledger in Hl. destruct (g_programmed c); [by injection Hl as _ <-|].
    rewrite store_create_granted in Hl by apply Hp. by injection Hl as _ <-.
  - unfold ledger in Hl. destruct (g_programmed c); [by injection Hl as _ <-|].
    rewrite store_create_granted in Hl by apply Hp. by injection Hl as _ <-.
Qed.

Lemma keeps_ledger_op c l op :
  keeps path h log M c -> g_programmed c = Some l ->
  keeps path h log M (run_op l op c).2 /\ g_programmed (run_op l op c).2 = Some l.
Proof.
  intros [Hd Ho] Hl. pose proof (durable_prog_env _ _ _ _ Hd) as Hp. pose proof Hp as [Hwf Hdef Henv].
  destruct (ledger_op h c l op Hp Hl) as (Hsd & Hpr & _). split; [|done].
  assert (l <> h) as Hne by (intros ->; by apply (cw_distinct c Hwf h)).
  pose proof (run_op_hook c l op Hwf (cw_programmed c Hwf l Hl) Henv) as Hh. cbv zeta in Hh.
  assert (Hk : forall m, op_hook l op (set_stores c m) = set_stores c m).
  { intros m. destruct Hd as [_ Hen Hno _ _ _].
    destruct op; cbn [op_hook]; unfold danos_persist_on_mutation; cbn [c_persist set_stores g_default_store];
      rewrite Hen, Hno, Hdef; cbn [negb orb]; rewrite bool_decide_eq_false_2 by congruence; done. }
  split; [|by rewrite (sd_objs _ _ _ Hsd)]. case_decide; [|rewrite Hh; exact Hd].
  destruct Hh as (m & H1 & H2). rewrite Hk in H1, H2. apply (durable_same c); [done|exact H1|exact H2|apply Hsd].
Qed.

Context {B : Type} (ops : danos_backend_ops B).

Lemma keeps_withdraw e st last p c b p' c' b' :
  keeps path h log M c -> withdraw_stale ops e st last (p, c, b) = (p', c', b') -> keeps path h log M c'.
Proof.
  intros Hk. unfold withdraw_stale. destruct last as [[m lsz]|]; [|by intros [= <- <- <-]].
  destruct (route_del ops) as [del|]; [|by intros [= <- <- <-]].
  destruct (_ && _); [|by intros [= <- <- <-]].
  destruct (del _ b) as [st' b1]. case_bool_decide; [|by intros [= <- <- <-]].
  destruct (keeps_ledger c Hk) as (l & c1 & -> & Hk1 & Hpr).
  destruct (keeps_ledger_op c1 l (OpDelete (ObjectStore.e_type e) (ObjectStore.e_id e)) Hk1 Hpr) as [Hk2 _]. simpl in Hk2.
  destruct (danos_object_delete _ _ _ _) as [st2 c2]. by intros [= <- <- <-].
Qed.

Lemma keeps_work e dep last same p c b p' c' b' l :
  keeps path h log M c -> g_programmed c = Some l ->
  program_work ops e dep last same (p, c, b) = (p', c', b') -> keeps path h log M c'.
Proof.
  intros Hk Hpr. unfold program_work. destruct (drop_old_addr ops e last b) as [[] b1]; cbn [negb]; [|by intros [= <- <- <-]].
  destruct (program_one ops (ObjectStore.e_type e) (ObjectStore.e_data e) c b1) as [st b2]. case_bool_decide; cbn [negb].
  2:{ intros Hw. by eapply keeps_withdraw. }
  unfold ledger. rewrite Hpr. set (rec := _ ++ _). destruct same.
  - destruct (keeps_ledger_op c l (OpUpdate (ObjectStore.e_type e) (ObjectStore.e_id e) (Some rec)) Hk Hpr) as [Hk2 _].
    simpl in Hk2. destruct (danos_object_update _ _ _ _ _) as [st2 c2]. by intros [= <- <- <-].
  - destruct (keeps_ledger_op c l (OpCreate (ObjectStore.e_type e) (ObjectStore.e_id e) (Some rec)) Hk Hpr) as [Hk2 _].
    simpl in Hk2. destruct (danos_object_create _ _ _ _ _) as [st2 c2]. by intros [= <- <- <-].
Qed.

Lemma keeps_entry e p c b p' c' b' :
  keeps path h log M c -> program_entry ops (p, c, b) e = (p', c', b') -> keeps path h log M c'.
Proof.
  intros Hk. unfold program_entry. destruct (type_skipped (ObjectStore.e_type e)); [by intros [= <- <- <-]|].
  destruct (keeps_ledger c Hk) as (l & c1 & -> & Hk1 & Hpr). cbv zeta. case_match; [by intros [= <- <- <-]|].
  by apply (keeps_work _ _ _ _ _ _ _ _ _ _ l).
Qed.

(** A pass changes neither the durable store nor its log, whatever the
    backend answers. *)
Lemma keeps_run stats c b p st' c' b' :
  keeps path h log M c -> danos_programming_run ops stats c b = (p, st', c', b') -> keeps path h log M c'.
Proof.
  intros Hk. pose proof Hk as [Hd _]. destruct (du_live _ _ _ _ Hd) as [s Hs].
  rewrite (run_unfold ops h c b stats (durable_prog_env _ _ _ _ Hd) s Hs).
  assert (Hf : forall es p0 c0 b0, keeps path h log M c0 ->
    let '(_, c1, _) := foldl (program_entry ops) (p0, c0, b0) es in keeps path h log M c1).
  { induction es as [|e es IH]; intros p0 c0 b0 Hk0; [done|]. cbn [foldl].
    destruct (program_entry ops (p0, c0, b0) e) as [[p1 c1] b1] eqn:E. apply IH. by eapply keeps_entry. }
  specialize (Hf (store_entries s) (mk_pctx 0 0 0) c b Hk).
  destruct (foldl _ _ _) as [[p1 c1] b1]. by intros [= <- <- <- <-].
Qed.
End keeps.

(** ** The log follows the store *)

(** The file at [path] is a log that replays to the persistable part of the
    default store. *)
Definition logged (path : bytes) (c : core) : Prop :=
  exists recs, durable path 1 (wal_log recs) c /\ Forall log_rec recs /\ log_objs recs = persisted (objs c 1) /\
    map_Forall (fun k _ => is_u64 k.2) (objs c 1).

(** An operation whose data fit the log; new identifiers are 64-bit. *)
Definition op_fits (op : obj_op) : Prop :=
  Z.of_nat (length (default [] (op_data op))) <= WAL_MAX_DATA /\
  match op with OpCreate _ id _ => is_u64 id | _ => True end.

Lemma log_objs_app r1 r2 : log_objs (r1 ++ r2) = foldl wal_apply (log_objs r1) r2.
Proof. unfold log_objs. by rewrite foldl_app. Qed.

Lemma spec_op_keys op m :
  map_Forall (fun k _ => is_u64 k.2) m -> is_u64 (op_key op).2 ->
  map_Forall (fun k _ => is_u64 k.2) (spec_op op m).2.
Proof.
  intros Hk Hu k d.
  destruct op as [t id [[|y d']|]|t id [[|y d']|]|t id]; cbn [spec_op] in *; try apply Hk;
    case_decide; cbn [snd]; try apply Hk; try (rewrite lookup_insert_Some; intros [[<- _]|[_ Hx]]; [done|by eapply Hk]).
  rewrite lookup_delete_Some. intros [_ Hx]. by eapply Hk.
Qed.

Lemma spec_ops_keys ops m :
  map_Forall (fun k _ => is_u64 k.2) m -> Forall op_ok ops -> map_Forall (fun k _ => is_u64 k.2) (spec_ops ops m).
Proof.
  intros Hm Hok. revert m Hm. induction Hok as [|op ops [Hu _] _ IH]; intros m Hm; [done|]. by apply IH, spec_op_keys.
Qed.

Section logged.
Context (path : bytes).

Lemma logged_op c op : logged path c -> op_fits op -> logged path (run_op 1 op c).2.
Proof.
  intros (recs & Hd & Hr & Hl & Hk) [Hlen Hid].
  assert (Hcase : is_u64 (op_key op).2 \/ (spec_op op (objs c 1)).1 <> DANOS_OK).
  { destruct op as [t id d|t id d|t id]; [by left|..].
    all: destruct (objs c 1 !! (t, id)) as [x|] eqn:Hx; [left; exact (Hk (t, id) x Hx)|right].
    - destruct d as [[|y d]|]; [done| |done]. cbn [spec_op]. rewrite decide_False; [done|]. rewrite Hx. by intros [? ?].
    - cbn [spec_op]. rewrite decide_False; [done|]. rewrite Hx. by intros [? ?]. }
  destruct Hcase as [Hu|Hf].
  - destruct (durable_op path 1 _ _ op Hd (conj Hu Hlen)) as [Hd' Ho'].
    exists (recs ++ op_log op (objs c 1)). rewrite wal_log_app, Ho'. split; [done|]. split; [|split].
    + apply Forall_app. split; [done|]. pose proof (ops_log_recs [op] (objs c 1)) as [Hx _]; [constructor; [by split|constructor]|].
      cbn [ops_log] in Hx. by rewrite app_nil_r in Hx.
    + by rewrite log_objs_app, Hl, <- op_log_objs.
    + by apply spec_op_keys.
  - pose proof (run_op_hook c 1 op (du_wf _ _ _ _ Hd) (du_live _ _ _ _ Hd) (wo_env _ _ _ _ _ (du_wal _ _ _ _ Hd))) as Hh.
    cbv zeta in Hh. rewrite decide_False in Hh by done. rewrite Hh. by exists recs.
Qed.

Lemma logged_default c : logged path c -> g_default_store c = Some 1.
Proof. intros (recs & Hd & _). by apply Hd. Qed.

Lemma logged_create {A} `{CStruct A} type key (x : A) c :
  logged path c -> Z.of_nat (length (to_mem x)) <= WAL_MAX_DATA -> is_u64 (key x) ->
  logged path (create_as type key (Some x) c).2.
Proof.
  intros Hl Hx Hu. unfold create_as, get_default_store. rewrite (logged_default c Hl).
  by apply (logged_op c (OpCreate type (key x) (Some (to_mem x)))).
Qed.

Lemma logged_update {A} `{CStruct A} type key (x : A) c :
  logged path c -> Z.of_nat (length (to_mem x)) <= WAL_MAX_DATA -> logged path (update_as type key (Some x) c).2.
Proof.
  intros Hl Hx. unfold update_as, get_default_store. rewrite (logged_default c Hl).
  by apply (logged_op c (OpUpdate type (key x) (Some (to_mem x)))).
Qed.

Lemma logged_delete type id c : logged path c -> logged path (danos_object_delete (Some 1) type id c).2.
Proof. intros Hl. apply (logged_op c (OpDelete type id)); [done|]. split; [cbn; unfold WAL_MAX_DATA; lia|done]. Qed.

Lemma logged_and_then f r :
  logged path r.2 -> (forall c, logged path c -> logged path (f c).2) -> logged path (and_then f r).2.
Proof. intros Hl Hf. destruct r as [st c]. unfold and_then. destruct st; try done. by apply Hf. Qed.

Lemma logged_keeps c c' :
  logged path c -> (forall log M, keeps path 1 log M c -> keeps path 1 log M c') -> logged path c'.
Proof.
  intros (recs & Hd & Hr & Hl & Hk) Hkeep. destruct (Hkeep (wal_log recs) (objs c 1) (conj Hd eq_refl)) as [Hd' Ho].
  exists recs. by rewrite Ho.
Qed.
End logged.

(** ** Northbound routes *)

(** A gateway that is an address in memory. *)
Definition addr_fits (a : danos_ip_addr) : Prop := length (ip_addr a) = 16%nat.

Lemma nexthop_mem_fits id gw oif weight flags :
  addr_fits gw -> Z.of_nat (length (to_mem (mk_nexthop id gw oif weight flags 0 [0; 0; 0]))) <= WAL_MAX_DATA.
Proof.
  unfold addr_fits. intros Hg. unfold to_mem, nexthop_struct, to_mem, ip_addr_struct. cbn [nh_id nh_gateway nh_ifindex nh_weight nh_flags
    nh_label_count nh_labels]. rewrite !length_app, !length_le_bytes, length_le_array, Hg, length_zeros. cbn. unfold WAL_MAX_DATA. lia.
Qed.

Lemma group_mem_fits id ids : (length ids <= 64)%nat -> Z.of_nat (length (to_mem (group_of id ids))) <= WAL_MAX_DATA.
Proof.
  intros Hl. unfold to_mem, nhgroup_struct, group_of. cbn [grp_id grp_nh_count grp_nh_ids grp_flags].
  rewrite !length_app, !length_le_bytes, length_le_array, !length_app, length_replicate.
  rewrite !length_zeros. unfold WAL_MAX_DATA. lia.
Qed.

Lemma route_mem_fits vrf p grp :
  addr_fits (pfx_addr p) -> Z.of_nat (length (to_mem (static_route vrf p grp))) <= WAL_MAX_DATA.
Proof.
  unfold addr_fits. intros Hp. unfold to_mem, route_struct, to_mem, ip_prefix_struct, to_mem, ip_addr_struct, static_route.
  cbn [rt_vrf_id rt_prefix rt_protocol rt_admin_distance rt_metric rt_nhgroup_id rt_flags].
  rewrite !length_app, !length_le_bytes, Hp, !length_zeros. unfold WAL_MAX_DATA. lia.
Qed.

Lemma route_id_u64 r : is_u64 (route_id r).
Proof. unfold route_id. rewrite route_key_words. apply fnv_fold_u64. unfold is_u64, FNV_BASIS. lia. Qed.

Section routes.
Context (path : bytes).

Lemma logged_tx_finish e st tx w : mw_core (tx_finish e st tx w).2 = mw_core w.
Proof. unfold tx_finish. repeat case_match; done. Qed.

Lemma logged_begin e who w st tx w' : begin_tx e who w = (st, tx, w') -> mw_core w' = mw_core w.
Proof. unfold begin_tx. destruct (danos_tx_begin _ _ _ _ _ _ _) as [[? ?] ?]. by intros [= <- <- <-]. Qed.

Lemma logged_route_tail vrf p grp ids r :
  addr_fits (pfx_addr p) -> is_u64 grp -> (length ids <= 64)%nat -> logged path r.2 ->
  logged path (and_then (danos_route_create (Some (static_route vrf p grp)))
    (and_then (danos_nhgroup_create (Some (group_of grp ids))) r)).2.
Proof.
  intros Hp Hg Hi Hl. apply logged_and_then; [apply logged_and_then; [done|]|].
  - intros c Hc. apply logged_create; [done|by apply group_mem_fits|done].
  - intros c Hc. apply logged_create; [done|by apply route_mem_fits|apply route_id_u64].
Qed.

Lemma logged_route_set e vrf p gw oif w :
  logged path (mw_core w) -> addr_fits (pfx_addr p) -> addr_fits gw ->
  logged path (mw_core (gnmi_route_set e vrf (Some p) (Some gw) oif w).2).
Proof.
  intros Hl Hp Hg. unfold gnmi_route_set. case_match; [done|]. case_match; [|done].
  destruct (begin_tx e "gnmi-route" w) as [[st tx] w1] eqn:Eb. apply logged_begin in Eb.
  case_match; [cbn [snd]; by rewrite Eb|]. rewrite <- Eb in Hl. generalize (find_static_route vrf p (mw_core w)). intros lu.
  destruct (lu_found lu).
  - pose proof (logged_update path DANOS_OBJ_NEXTHOP nh_id (mk_nexthop (lu_nh_id lu) gw oif 0 0 0 [0; 0; 0]) _ Hl
      (nexthop_mem_fits _ _ _ _ _ Hg)) as Hu.
    unfold danos_nh_update. destruct (update_as _ _ _ _) as [st' c']. by rewrite logged_tx_finish.
  - assert (Hc : logged path (danos_nh_create (Some (mk_nexthop (next_nh_id (mw_core w1)) gw oif 0 0 0 [0; 0; 0])) (mw_core w1)).2).
    { apply logged_create; [done|by apply nexthop_mem_fits|apply u64_range]. }
    pose proof (logged_route_tail vrf p (next_group_id (mw_core w1)) [next_nh_id (mw_core w1)] _ Hp (u64_range _)
      ltac:(cbn; lia) Hc) as Ht.
    destruct (and_then _ _) as [st' c']. by rewrite logged_tx_finish.
Qed.

Lemma logged_ecmp_update ids paths r :
  Forall (fun x => addr_fits (fst x)) paths -> logged path r.2 -> logged path (ecmp_update ids paths r).2.
Proof.
  intros Hp. revert ids r. induction Hp as [|[gw oif] paths Hg _ IH]; intros [|id ids] r Hl; try done. cbn [ecmp_update].
  apply IH, logged_and_then; [done|]. intros c Hc. apply logged_update; [done|by apply nexthop_mem_fits].
Qed.

Lemma logged_ecmp_create i paths ids r :
  Forall (fun x => addr_fits (fst x)) paths -> logged path r.2 ->
  logged path (ecmp_create i paths ids r).2.2 /\ (length (ecmp_create i paths ids r).1 <= length ids + length paths)%nat.
Proof.
  intros Hp. revert i ids r. induction Hp as [|[gw oif] paths Hg _ IH]; intros i ids r Hl; cbn [ecmp_create].
  { cbn. split; [done|lia]. }
  destruct r as [[] c]; try (cbn; split; [done|lia]).
  specialize (IH (i + 1) (ids ++ [u64 (next_nh_id c + i)])
    (danos_nh_create (Some (mk_nexthop (u64 (next_nh_id c + i)) gw oif 1 DANOS_NH_FLAG_ECMP 0 [0; 0; 0])) c)).
  destruct IH as [IH1 IH2]; [apply logged_create; [done|by apply nexthop_mem_fits|apply u64_range]|].
  split; [done|]. rewrite length_app in IH2. cbn [length] in *. lia.
Qed.

Lemma logged_route_set_ecmp e vrf p paths w :
  logged path (mw_core w) -> addr_fits (pfx_addr p) -> Forall (fun x => addr_fits (fst x)) paths ->
  logged path (mw_core (gnmi_route_set_ecmp e vrf (Some p) paths w).2).
Proof.
  intros Hl Hp Hg. unfold gnmi_route_set_ecmp. case_match; [|done].
  destruct ((length paths =? 0)%nat || (64 <? length paths)%nat) eqn:En; [done|].
  apply orb_false_iff in En as [_ En%Nat.ltb_ge]. case_match; [done|].
  generalize (find_static_route vrf p (mw_core w)). intros lu. destruct (lu_found lu).
  - destruct (read_group _ _) as [grp|]; [|done]. case_match; [done|].
    destruct (begin_tx e "gnmi-route-ecmp" w) as [[st tx] w1] eqn:Eb. apply logged_begin in Eb.
    case_match; [cbn [snd]; by rewrite Eb|]. rewrite <- Eb in Hl.
    pose proof (logged_ecmp_update (grp_nh_ids grp) paths (DANOS_OK, mw_core w1) Hg Hl) as Hu.
    destruct (ecmp_update _ _ _) as [st' c']. by rewrite logged_tx_finish.
  - destruct (begin_tx e "gnmi-route-ecmp" w) as [[st tx] w1] eqn:Eb. apply logged_begin in Eb.
    case_match; [cbn [snd]; by rewrite Eb|]. rewrite <- Eb in Hl.
    destruct (logged_ecmp_create 0 paths [] (DANOS_OK, mw_core w1) Hg Hl) as [Hc Hn].
    destruct (ecmp_create 0 paths [] _) as [ids r]. cbn [fst snd length] in Hc, Hn.
    pose proof (logged_route_tail vrf p (next_group_id (mw_core w1)) ids r Hp (u64_range _) ltac:(lia) Hc) as Ht.
    destruct (and_then _ _) as [st' c']. by rewrite logged_tx_finish.
Qed.

Lemma logged_route_delete e vrf p w :
  logged path (mw_core w) -> logged path (mw_core (gnmi_route_delete e vrf (Some p) w).2).
Proof.
  intros Hl. unfold gnmi_route_delete. pose proof (logged_default path _ Hl) as ->.
  destruct (danos_object_iterate _ _ _) as [rid gid]. case_match; [done|]. cbv zeta.
  generalize (if gid =? 0 then None else read_group (mw_core w) gid). intros grp.
  destruct (begin_tx e "gnmi-route-del" w) as [[st tx] w1] eqn:Eb. apply logged_begin in Eb.
  case_match; [cbn [snd]; by rewrite Eb|]. rewrite <- Eb in Hl.
  pose proof (logged_delete path DANOS_OBJ_ROUTE rid _ Hl) as Hr.
  set (r := danos_object_delete (Some 1) DANOS_OBJ_ROUTE rid (mw_core w1)) in *.
  assert (Hx : logged path (match grp with
    | None => r
    | Some g => and_then (fun c => (DANOS_OK, foldl (fun c id => snd (danos_object_delete (Some 1) DANOS_OBJ_NEXTHOP id c)) c
                  (take (Z.to_nat (Z.min (grp_nh_count g) 16)) (grp_nh_ids g))))
                (and_then (danos_object_delete (Some 1) DANOS_OBJ_NHGROUP gid) r) end).2).
  { destruct grp as [g|]; [|done]. apply logged_and_then; [apply logged_and_then; [done|intros; by apply logged_delete]|].
    intros c Hc. cbn [snd]. generalize (take (Z.to_nat (Z.min (grp_nh_count g) 16)) (grp_nh_ids g)). intros ids.
    revert c Hc. induction ids as [|id ids IH]; intros c Hc; [done|]. cbn [foldl]. by apply IH, logged_delete. }
  destruct (match grp with None => r | Some g => _ end) as [st' c']. by rewrite logged_tx_finish.
Qed.
End routes.

(** ** The reconciler thread *)

(** [main] starts the reconciler without a state store. *)
Definition no_state (w : rworld netlink) : Prop := forall r, g_reconciler w = Some r -> rc_state r = None.

Lemma run_once_logged path now (w : rworld netlink) :
  logged path (rw_core w) -> no_state w ->
  logged path (rw_core (danos_reconciler_run_once now w).2) /\ no_state (danos_reconciler_run_once now w).2.
Proof.
  intros Hl Hn. unfold danos_reconciler_run_once. destruct (g_reconciler w) as [r|] eqn:Er; [|done].
  rewrite (Hn r Er). unfold programming_run. destruct (rw_ops w) as [ops|].
  - destruct (danos_programming_run ops _ _ _) as [[[p st] c] b] eqn:Erun. cbn. split.
    + apply (logged_keeps path (rw_core w)); [done|]. intros log M Hk. by eapply keeps_run.
    + intros r' [= <-]. exact (Hn r Er).
  - cbn. split; [done|]. intros r' [= <-]. exact (Hn r Er).
Qed.

Lemma logged_dirty path c d : logged path c -> logged path (set_dirty c d).
Proof.
  intros Hl. apply (logged_keeps path c); [done|]. intros log M [Hd Ho]. split; [|done].
  destruct Hd as [H1 H2 H3 [W1 W2 W3 W4 W5] H5 H6]. by split.
Qed.

Lemma tick_logged path period now waited (w w' : rworld netlink) waited' :
  reconcile_tick period now waited w = Some (waited', w') ->
  logged path (rw_core w) -> no_state w -> logged path (rw_core w') /\ no_state w'.
Proof.
  intros Ht Hl Hn. unfold reconcile_tick in Ht. destruct (g_reconciler w) as [r|] eqn:Er; [|done].
  destruct (rc_running r); cbn [negb] in Ht; [|done]. unfold danos_programming_dirty_take in Ht.
  set (w1 := set_core w _) in Ht.
  assert (H1 : logged path (rw_core w1) /\ no_state w1) by (split; [exact (logged_dirty path _ false Hl)|exact Hn]).
  destruct (_ && _); injection Ht as _ <-; [done|]. destruct H1. by apply run_once_logged.
Qed.

(** ** Starting *)

Lemma tick_no_state period now waited (w w' : rworld netlink) waited' :
  reconcile_tick period now waited w = Some (waited', w') -> no_state w -> no_state w'.
Proof.
  intros Ht Hn. unfold reconcile_tick in Ht. destruct (g_reconciler w) as [r|] eqn:Er; [|done].
  destruct (rc_running r); cbn [negb] in Ht; [|done]. unfold danos_programming_dirty_take in Ht.
  destruct (_ && _); injection Ht as _ <-; [exact Hn|].
  unfold danos_reconciler_run_once. cbn [set_core g_reconciler]. rewrite Er, (Hn r Er). unfold programming_run.
  cbn [set_core rw_ops]. destruct (rw_ops w); [destruct (danos_programming_run _ _ _ _) as [[[? ?] ?] ?]|];
    intros r' [= <-]; exact (Hn r Er).
Qed.

Lemma thread_no_state period nows waited (w : rworld netlink) :
  no_state w -> no_state (reconcile_thread period nows waited w).2.
Proof.
  revert waited w. induction nows as [|now nows IH]; intros waited w Hn; [done|]. cbn [reconcile_thread].
  destruct (reconcile_tick period now waited w) as [[waited' w']|] eqn:Et; [|done].
  exact (IH waited' w' (tick_no_state _ _ _ _ _ _ Et Hn)).
Qed.

Lemma pipeline_no_state e m : g_reconciler (md_rw m) = None -> no_state (md_rw (mgrd_pipeline e m)).
Proof.
  intros Hr. unfold mgrd_pipeline. destruct (danos_netlink_init _ _ _) as [rc n].
  destruct (rc =? 0); [|intros r; cbn [md_rw g_reconciler]; by rewrite Hr].
  unfold danos_reconciler_init, danos_netlink_register_backend. cbn [g_reconciler rw_core rw_ops]. rewrite Hr.
  rewrite bool_decide_eq_false_2 by (by intros [? ?]). destruct (core_alloc _) as [[] c]; cbn [negb Z.eqb md_rw].
  - change (0 =? 0) with true. cbv iota. apply thread_no_state. unfold danos_reconciler_start.
    cbn [set_reconciler set_core g_reconciler rc_running rw_core].
    destruct (core_alloc c) as [[] c']; intros r [= <-]; done.
  - by intros r [=].
Qed.

Lemma main_no_state opts e a n o t m :
  mgrd_main opts e (mgrd_process a n o t) = inr m -> no_state (md_rw m).
Proof.
  unfold mgrd_main. destruct (parse_options _ _) as [g|]; [|done].
  destruct (observability_core g e (mgrd_process a n o t)) as (H1 & _).
  set (m1 := mgrd_observability _ _ _) in *.
  assert (Hn : no_state (md_rw (mgrd_pipeline e m1))) by (apply pipeline_no_state; by rewrite H1).
  set (m2 := mgrd_pipeline e m1) in *. clearbody m2. unfold mgrd_persistence.
  destruct (danos_persist_enable _ _) as [rc c]. destruct (negb (rc =? 0)); [done|].
  destruct (danos_persist_recover c) as [rec c2]. cbv zeta. unfold mgrd_servers.
  destruct (danos_gnmi_grpc_start _ _) as [rc1 gc]. destruct (negb (rc1 =? 0)); [done|].
  destruct (danos_prom_start_server _ _ _) as [rc2 s]. destruct (negb (rc2 =? 0)); [done|].
  intros [= <-]. exact Hn.
Qed.

(** A process of the daemon that came up on the files [o], whose log names no
    more objects than the replay table has slots. *)
Definition comes_up (opts : list mgrd_opt) (g : mgrd_config) (o : os) (m : mgrd) : Prop :=
  exists e now a n t, servers_up e /\ me_tx e = tx_granted now /\
    (forall recs, Forall log_rec recs -> default [] (file o (wal g)) = wal_log recs ->
       (size (rec_keys recs) <= REPLAY_SLOTS)%nat) /\
    mgrd_main opts e (mgrd_process a n o t) = inr m.

Lemma log_keys_u64 recs : Forall log_rec recs -> map_Forall (fun k _ => is_u64 k.2) (log_objs recs).
Proof.
  intros Hr k d Hk. destruct (log_tables recs Hr) as [Hrel Hent].
  destruct (ll_only _ _ Hrel k d Hk) as (k' & v & Hv & <-). destruct (Hent _ _ Hv) as (r & Hlr & <- & _).
  pose proof (ww_id r (lr_wf r Hlr)) as Hid. unfold is_uint in Hid. cbn in Hid |- *. unfold is_u64. lia.
Qed.

Lemma comes_up_logged opts g o m recs :
  parse_options opts mgrd_defaults = Some g -> (length (wal g) <= 255)%nat -> os_env o = [] ->
  default [] (file o (wal g)) = wal_log recs -> Forall log_rec recs -> comes_up opts g o m ->
  logged (wal g) (rw_core (md_rw m)) /\ no_state (md_rw m).
Proof.
  intros Hg Hp Ho Hf Hr (e & now & a & n & t & He & Htx & Hsz & Hm).
  split; [|by eapply main_no_state].
  destruct (main_objs opts g e now a n o t recs Hg He Htx Hp Ho Hf Hr (Hsz recs Hr Hf)) as (m' & Hm' & Hd & Hobj).
  assert (m' = m) as -> by congruence. set (ops := if (boot_recovered (wal g) o t =? 0) && seed g then seed_ops else []) in *.
  assert (Hok : Forall op_ok ops) by (unfold ops; destruct (_ && _); [apply seed_ops_ok|constructor]).
  exists (recs ++ ops_log ops (log_objs recs)). split; [done|]. split; [|split].
  - apply Forall_app. split; [done|]. by apply ops_log_recs.
  - rewrite Hobj, log_objs_app, ops_log_objs. by rewrite log_objs_persisted.
  - rewrite Hobj. apply spec_ops_keys; [by apply log_keys_u64|done].
Qed.

(** A clean stop leaves the log as it is. *)
Lemma shutdown_file path m recs :
  durable path 1 (wal_log recs) (rw_core (md_rw m)) ->
  let o := c_os (rw_core (md_rw (mgrd_shutdown m))) in file o path = Some (wal_log recs) /\ os_env o = [].
Proof.
  intros [[Hfp _ _ Hf He] Hen _ _ _ _].
  assert (Hc : rw_core (danos_reconciler_fini (danos_reconciler_stop (md_rw m))) = rw_core (md_rw m)).
  { unfold danos_reconciler_fini, danos_reconciler_stop. destruct (g_reconciler (md_rw m)) as [r|] eqn:Er; [|by rewrite Er].
    destruct (rc_running r) eqn:Erun; cbn [set_reconciler g_reconciler]; rewrite ?Er; cbn; rewrite ?Er, ?Erun; by repeat case_match. }
  unfold mgrd_shutdown. cbn [md_rw rw_core]. rewrite Hc. unfold danos_persist_disable. rewrite Hen.
  unfold danos_wal_close. rewrite Hfp. unfold fclose, fflush, ask. rewrite He. cbn. rewrite He. cbn.
  unfold file in *. cbn. rewrite Hf, lookup_insert_eq. cbn. by rewrite lookup_insert_eq, !app_nil_r.
Qed.

(** ** The transition system *)

Definition with_rw (m : mgrd) (w : rworld netlink) : mgrd :=
  mk_mgrd (md_prom m) (md_vpp m) (md_stat m) w (md_tx m) (md_grpc m) (md_srv m).

(** A call that runs on the daemon's transactions and core. *)
Definition on_mworld (f : mworld -> danos_status * mworld) (m : mgrd) : mgrd :=
  let w := (f (mk_mworld (md_tx m) (rw_core (md_rw m)))).2 in with_core m (mw_tx w) (mw_core w).

Inductive mgrd_step (opts : list mgrd_opt) (g : mgrd_config) : mgrd -> mgrd -> Prop :=
  | Ms_op op m : op_fits op ->
      mgrd_step opts g m (with_core m (md_tx m) (run_op 1 op (rw_core (md_rw m))).2)
  | Ms_route_set e vrf p gw oif m : addr_fits (pfx_addr p) -> addr_fits gw ->
      mgrd_step opts g m (on_mworld (gnmi_route_set e vrf (Some p) (Some gw) oif) m)
  | Ms_route_set_ecmp e vrf p paths m : addr_fits (pfx_addr p) -> Forall (fun x => addr_fits (fst x)) paths ->
      mgrd_step opts g m (on_mworld (gnmi_route_set_ecmp e vrf (Some p) paths) m)
  | Ms_route_delete e vrf p m : mgrd_step opts g m (on_mworld (gnmi_route_delete e vrf (Some p)) m)
  | Ms_tick period now waited waited' w m :
      reconcile_tick period now waited (md_rw m) = Some (waited', w) -> mgrd_step opts g m (with_rw m w)
  | Ms_scrape rpcs vpp body req sent m m' :
      mgrd_scrape rpcs vpp body req m = Some (sent, m') -> mgrd_step opts g m m'
  | Ms_crash m m' : comes_up opts g (c_os (rw_core (md_rw m))) m' -> mgrd_step opts g m m'
  | Ms_stop m m' : comes_up opts g (c_os (rw_core (md_rw (mgrd_shutdown m)))) m' -> mgrd_step opts g m m'.

(** The states of a daemon first started on a log of persistable records. *)
Inductive mgrd_reach (opts : list mgrd_opt) (g : mgrd_config) : mgrd -> Prop :=
  | Mr_start o recs m : os_env o = [] -> default [] (file o (wal g)) = wal_log recs -> Forall log_rec recs ->
      comes_up opts g o m -> mgrd_reach opts g m
  | Mr_step m m' : mgrd_reach opts g m -> mgrd_step opts g m m' -> mgrd_reach opts g m'.

Section runs.
Context (opts : list mgrd_opt) (g : mgrd_config).
Context (Hg : parse_options opts mgrd_defaults = Some g) (Hp : (length (wal g) <= 255)%nat).

Lemma step_logged m m' :
  mgrd_step opts g m m' -> logged (wal g) (rw_core (md_rw m)) -> no_state (md_rw m) ->
  logged (wal g) (rw_core (md_rw m')) /\ no_state (md_rw m').
Proof.
  intros Hs Hl Hn. destruct Hs as [op m Hop|e vrf p gw oif m Ha Hb|e vrf p paths m Ha Hb|e vrf p m
    |period now waited waited' w m Ht|rpcs vpp body req sent m m' Ht|m m' Hc|m m' Hc].
  - split; [|exact Hn]. by apply logged_op.
  - split; [|exact Hn]. by apply logged_route_set.
  - split; [|exact Hn]. by apply logged_route_set_ecmp.
  - split; [|exact Hn]. by apply logged_route_delete.
  - by eapply tick_logged.
  - unfold mgrd_scrape in Ht. destruct (prom_conn _ _ _) as [[s p]|]; [|done]. cbn in Ht. by injection Ht as _ <-.
  - destruct Hl as (recs & [[_ _ _ Hf He] _ _ _ _ _] & Hr & _).
    apply (comes_up_logged opts g _ m' recs Hg Hp He); [by rewrite Hf|done|done].
  - destruct Hl as (recs & Hd & Hr & _). destruct (shutdown_file _ m recs Hd) as [Hf He].
    apply (comes_up_logged opts g _ m' recs Hg Hp He); [by rewrite Hf|done|done].
Qed.

Lemma reach_logged m : mgrd_reach opts g m -> logged (wal g) (rw_core (md_rw m)) /\ no_state (md_rw m).
Proof.
  induction 1 as [o recs m Ho Hf Hr Hc|m m' _ [Hl Hn] Hs]; [|by eapply step_logged].
  by apply (comes_up_logged opts g o m recs).
Qed.
End runs.

(** What is written of a record before the process dies does not replay. *)
Lemma torn_record_stuck rec n : wal_wf rec -> (n < length (wal_encode rec))%nat -> wal_stuck (take n (wal_encode rec)).
Proof.
  intros Hwf Hn. destruct (wal_log_take [rec] n) as (k & tail & Ht & Hst & Hk & Hl & _); [by constructor|].
  assert (Hone : wal_log [rec] = wal_encode rec) by apply app_nil_r. rewrite Hone in Ht.
  destruct k as [|[|k]]; [|cbn [firstn] in Hl; rewrite Hone in Hl; lia|cbn in Hk; lia].
  by rewrite Ht.
Qed.

(** C6. The log follows the store through every run that stops between calls:
    from a first start on any log of persistable records, after any sequence
    of object operations, route sets, multipath sets and deletes with any
    answers to the transaction, wake-ups of the reconciler with a backend that
    accepts or refuses, scrapes, deaths between two calls and clean restarts,
    where each start finds a log that names no more than the 4096 objects of
    the replay table and file operations succeed, the core is well formed, and
    the file is at that moment a complete log that replays to the persistable
    part of the store.  As long as that log fits the replay table too, a
    process that died there, or in the middle of writing the next record,
    would hold exactly that after its next start. *)
Theorem daemon_log_follows_store opts g m :
  parse_options opts mgrd_defaults = Some g -> (length (wal g) <= 255)%nat -> mgrd_reach opts g m ->
  let c := rw_core (md_rw m) in
  core_wf c /\ exists recs, file (c_os c) (wal g) = Some (wal_log recs) /\
    log_objs recs = persisted (objs c 1) /\
    ((size (rec_keys recs) <= REPLAY_SLOTS)%nat -> forall rec n o t, wal_wf rec -> (n < length (wal_encode rec))%nat ->
       os_env o = [] -> file o (wal g) = Some (wal_log recs ++ take n (wal_encode rec)) ->
       objs (boot (wal g) o t) 1 = persisted (objs c 1)).
Proof.
  intros Hg Hp Hr c. destruct (reach_logged opts g Hg Hp m Hr) as [(recs & Hd & Hrec & Hl & _) _]. fold c in Hd, Hl.
  split; [apply Hd|]. exists recs. destruct Hd as [[_ _ _ Hf _] _ _ _ _ _]. split; [done|]. split; [done|].
  intros Hsz rec n o t Hwf Hn He Ho. rewrite <- Hl.
  by apply (boot_log (wal g) o t recs (take n (wal_encode rec)) Hp He); [rewrite Ho| |apply torn_record_stuck|].
Qed.

(** A seeded daemon on which a client creates an ACL. *)
Lemma demo_reach :
  mgrd_reach (demo_opts true) (demo_cfg true)
    (with_core demo_up (md_tx demo_up) (run_op 1 (OpCreate DANOS_OBJ_ACL 7 (Some [1; 2])) (rw_core (md_rw demo_up))).2).
Proof.
  apply (Mr_step _ _ demo_up); [|by apply Ms_op].
  apply (Mr_start _ _ (mk_os [] ∅) []); [reflexivity|reflexivity|constructor|].
  exists demo_mgrd_env, 5, (VppApi.demo_client []), demo_nl, 0.
  split; [exact demo_servers|]. split; [reflexivity|]. split; [|exact demo_up_main].
  intros recs Hr Hf. assert (Hwf : Forall wal_wf recs) by (eapply Forall_impl; [exact Hr|]; apply lr_wf).
  pose proof (length_wal_log_ge recs Hwf) as Hl. rewrite <- Hf in Hl.
  change (length (default [] (file (mk_os [] ∅) (wal (demo_cfg true))))) with 0%nat in Hl. destruct recs; [apply rec_keys_nil|cbn in Hl; lia].
Qed.

Lemma daemon_log_follows_store_witness :
  let m := with_core demo_up (md_tx demo_up) (run_op 1 (OpCreate DANOS_OBJ_ACL 7 (Some [1; 2])) (rw_core (md_rw demo_up))).2 in
  core_wf (rw_core (md_rw m)) /\ objs (rw_core (md_rw m)) 1 !! (DANOS_OBJ_ACL, 7) = Some [1; 2].
Proof.
  intros m. split.
  - apply (daemon_log_follows_store (demo_opts true) (demo_cfg true) m); [vm_compute; reflexivity|cbn; lia|exact demo_reach].
  - vm_compute. reflexivity.
Defined.
